(* ===== verification/_CoqProject ===== *)
-Q . S2P
Prelude.v
DList.v
Blocks.v
Atomic.v
DefaultPmm.v
Arith.v
CString.v
Printf.v
PageTable.v
Tlb.v
Pmm.v
Bitmap.v
Swap.v
Vmm.v
Kern.v
Sched.v
Sync.v
Proc.v
ProcInv.v
ProcLife.v
ProcSafe.v
IoBuf.v
BlockDev.v
Sfs.v
SfsDisk.v
SfsBmap.v
SfsLoad.v
SfsFile.v
SfsSpec.v
Vfs.v
File.v
Dev.v
VfsInv.v
DevSpec.v
FileInv.v
FileStep.v
FileProc.v
FileSafe.v
SfsTree.v
SfsOps.v
SfsInv.v
SfsLaws.v
SfsMount.v
SfsSync.v
SfsSafe.v
Stab.v
SysFile.v
UserMem.v
SysRead.v
Exec.v
ExecMem.v
ExecLoad.v
ExecImage.v
ExecArgs.v
ExecRun.v
Fork.v
Dup.v
ForkMem.v
ForkRun.v
Slob.v
SlobList.v
SlobHeap.v
SlobSafe.v
