(* ===== verification/Prelude.v ===== *)
(** * ucore on ThuMips32: a verification library

    ThuMips32 is a 32-bit MIPS processor with a port of the teaching kernel
    ucore.  This library models the kernel of src/ucore/lab8_decaf (the last of
    the eight stages in the repository) and proves the properties that make its
    parts correct.  File names below are relative to src/ucore/lab8_decaf.

    ** How the program is modelled

    Every C function is a Rocq function with the same name, from the state it
    works on to a result and the new state, in the monad [res]: a failing
    [assert] is [AssertFail], a [panic] is [KPanic], a dereference of NULL or
    of memory outside the model is [WildAccess].  A loop whose end is not
    evident is [loop], the iteration of its body for at most 2^32 rounds; a loop
    over 32-bit addresses or counters ends before, and where a theorem says
    [Ok] it says in particular that the bound is not met ([OutOfFuel] is an
    error).  Loops over a linked list take the number of nodes of the store as
    fuel; a well-formed list is shorter.  Integers are [Z] with the wrap-around
    written out ([u32], [s32]); bytes are [Z] from 0 to 255.  Interrupts are
    off, or a lock is held, where the source says so; such a section is one
    step.  Where a function sleeps it is split, and other steps come between.

    ** The files

    Foundations: this file (results, loops, integers); [DList] (libs/list.h:
    the circular lists on a shared store of nodes and what they represent);
    [Atomic] (libs/atomic.h); [Arith] (kern/libs/divmod.h, libs/mips32s.h,
    libs/defs.h, kern/mm/mmu.h, libs/hash.c, libs/rand.c); [CString]
    (libs/string.c, kern/libs/string.c); [Printf] (libs/printfmt.c).

    Memory: [Blocks] and [DefaultPmm] (kern/mm/default_pmm.c, the first-fit
    page allocator, refining canonical lists of free blocks); [PageTable]
    (kern/mm/pmm.c, the two-level tables in physical memory); [Tlb]
    (kern/mm/tlb.c); [Pmm] (kern/mm/pmm.c, mapping and unmapping); [Swap]
    (kern/mm/swap.c, swap_fifo.c, kern/fs/swap); [Vmm] (kern/mm/vmm.c, areas
    and page faults, with the whole miss handler of tlb.c); [Slob], [SlobList],
    [SlobHeap], [SlobSafe] (kern/mm/kmalloc.c); [Stab] (kern/debug/kdebug.c:
    the search in the debugging information).

    Processes: [Kern] (kern/process/proc.h, kern/schedule/sched.h); [Sched]
    (kern/schedule); [Sync] (kern/sync); [Proc], [ProcInv], [ProcLife],
    [ProcSafe] (kern/process/proc.c: pids, families, and the part of fork,
    exit, wait and kill that concerns the process table); [Fork], [Dup],
    [ForkMem], [ForkRun] (the whole do_fork, kernel_thread, do_exit and do_wait
    on one state: table, kernel stacks, address spaces, files); [Exec],
    [ExecMem], [ExecLoad], [ExecImage], [ExecArgs], [ExecRun] (do_execve and
    load_icode: the arguments, the ELF file, the new address space, the stack).

    Files: [Bitmap] (kern/fs/sfs/bitmap.c); [IoBuf] (kern/fs/iobuf.c);
    [BlockDev] (kern/fs/devs/dev.h, dev_disk0.c); [Sfs], [SfsDisk], [SfsBmap],
    [SfsLoad], [SfsFile], [SfsSpec] (kern/fs/sfs: blocks, block map, transfers,
    directories); [Vfs], [VfsInv] (kern/fs/vfs); [File], [FileInv], [FileStep],
    [FileProc], [FileSafe] (kern/fs/file.c, fs.c, copy_files and put_files of
    proc.c); [Dev], [DevSpec] (kern/fs/devs: console and disk as inodes);
    [SfsTree] (the inodes of a whole disk as one tree), [SfsOps] (the operation
    tables of sfs_inode.c, sfs_fs.c and sfs.c: inodes in memory, mounting),
    [SfsInv], [SfsLaws], [SfsMount], [SfsSync] (what they keep and do),
    [SfsSafe] (the kernel from fs_init on, with a disk image to try it);
    [SysFile], [UserMem], [SysRead] (kern/fs/sysfile.c: the system calls, with
    copying between the process and the kernel).

    ** Interfaces

    [sched_class] with [SchedClassLaws] between the scheduler and a policy
    (round robin implements it); [swap_manager] between swapping and a policy
    (FIFO implements it); [BlockDev], [BlockRead], [BlockWrite] between a file
    system and a disk (the flash disk [disk0], the only driver of the kernel,
    implements the first two but not [BlockWrite]: it reports success and stores
    nothing, [disk0_write_block]; a memory disk implements all); [InodeOps] with [InodeLaws] between the virtual file system and what
    is below (the devices implement it, and so does the mounted file system
    with the devices, [kfs_laws]); [PageSource] between [kmalloc] and the
    page allocator ([alloc_pages] and [free_pages] of [PageTable] implement it
    as long as swap_init has not run).

    ** What the theorems show

    Memory.  The page allocator never hands a page out twice, loses none and
    keeps its list canonical, for every sequence of calls
    ([pmm_client_safe]); it is first fit, and freeing coalesces.  [kmalloc]
    blocks never overlap each other or the allocator's own data, whatever
    clients write into them ([kmalloc_safe]: for sizes other than 0 and 4080 to
    4087, which fail, and before swap_init).  The TLB never holds a stale
    translation; a range is unmapped exactly; what a page fault does at an empty
    entry is stated for every number of free pages ([do_pgfault_maps]);
    swapping frees what it says.

    Arithmetic and strings.  The software division is truncated division; the
    exceptions are stated.  [memmove] is right for overlaps, [strcmp] finds the
    first difference, [vsnprintf] stays in its buffer and faults exactly when
    formatting does (64-bit decimal conversions can read beyond the table of
    digits), and [strtol] reads back what [%d] and [%x] print.

    Processes.  No sequence of scheduler events faults, and the run queue is
    the set of runnable processes; round robin starves nobody; timers keep
    their deadlines; semaphores follow their specification under every
    interleaving, and every caller is told what the specification says
    ([semaphore_refines]); process table, pids, families and hash table stay
    consistent under fork, exit, wait and kill, unless initproc dies, which is a
    panic ([process_events_safe]).  The child of a fork is a copy of its parent
    in pages of its own ([fork_creates_child]: no CLONE_VM, and for each page
    to copy two free ones); a program file becomes a program
    ([load_icode_program]: two free pages for each page of the segments).

    Files.  On a disk that stores what is written, a file is an array of bytes
    ([sfs_io_refines]); resizing is exact; where a write stops the kernel is
    stated ([sfs_write_faults]).  In an admissible run of the processes, which
    has only calls that the inodes have (the others stop the kernel,
    [unsupported_call_stops]), opens without O_CREAT and O_TRUNC, and writes for
    which there is room, no assertion of the tables, the inodes or the file
    system fails and the disk stays a well-formed tree of inodes
    ([kernel_files_safe], [kernel_inodes_typed]); unmounting and mounting it
    again loses nothing, when no inode is in memory ([sfs_remount]).  All this
    but [unsupported_call_stops] assumes [BlockWrite], so it speaks of the file
    system on another disk than disk0.  The console is a queue of 4096
    characters ([stdin_read_fifo]).

    ** Not modelled

    The processor (VHDL), the Decaf compiler (Java), boot code, exception
    vectors and context switch (assembly), and the host tools that drive the
    board or build the images (mksfs).  The earlier stages lab1 to lab8 of the
    kernel, of which lab8_decaf is the successor.  The user programs and their
    library.  Moving arguments in kern/syscall and kern/trap; kern/init,
    proc_init, init_main, user_main and cpu_idle; the drivers of console, clock
    and interrupt controller; printing and the kernel monitor.  Self-checks run
    at boot (check_pgdir, check_vmm, check_swap, check_sync, default_check).
    Interrupts inside sections that disable them cannot
    happen; a stack overflow is not considered. *)
From Stdlib Require Export ZArith Lia.
From stdpp Require Export base tactics numbers option list gmap sets.
From stdpp Require Import options.

#[global] Open Scope Z_scope.

(** ** Faults and the result monad *)

(** How a kernel operation can stop instead of returning. *)
Inductive fault :=
  | AssertFail   (* an [assert] whose condition is false *)
  | KPanic       (* an explicit [panic(...)] *)
  | WildAccess   (* a dereference of NULL or of an address outside the model *)
  | OutOfFuel.   (* the bound on the iterations of a loop was too small *)

#[export] Instance fault_eq_dec : EqDecision fault.
Proof. solve_decision. Defined.

Inductive res (A : Type) :=
  | Ok (a : A)
  | Err (f : fault).
Arguments Ok {A} a.
Arguments Err {A} f.

Definition rbind {A B} (m : res A) (k : A -> res B) : res B :=
  match m with
  | Ok a => k a
  | Err f => Err f
  end.

(** [assert(b)]: continue only when [b] holds. *)
Definition rassert (b : bool) : res unit := if b then Ok tt else Err AssertFail.

(** Turn a lookup that must succeed into a result. *)
Definition rget {A} (o : option A) : res A :=
  match o with
  | Some a => Ok a
  | None => Err WildAccess
  end.

Declare Scope ucore_scope.
Delimit Scope ucore_scope with ucore.
Notation "'let!' x := m 'in' k" := (rbind m (fun x => k))
  (at level 10, x pattern, m at level 100, k at level 200,
   format "'[v' 'let!'  x  :=  m  'in' '/' k ']'") : ucore_scope.
Notation "'assert!' b ';;' k" := (rbind (rassert b) (fun _ => k))
  (at level 10, b at level 99, k at level 200,
   format "'[v' 'assert!'  b  ';;' '/' k ']'") : ucore_scope.
#[global] Open Scope ucore_scope.

Lemma rbind_Ok {A B} (m : res A) (k : A -> res B) r :
  rbind m k = Ok r <-> exists a, m = Ok a /\ k a = Ok r.
Proof. destruct m; simpl; naive_solver. Qed.

Lemma rbind_Err {A B} (m : res A) (k : A -> res B) f :
  rbind m k = Err f <-> m = Err f \/ exists a, m = Ok a /\ k a = Err f.
Proof. destruct m; simpl; naive_solver. Qed.

Lemma rassert_Ok b u : rassert b = Ok u <-> b = true.
Proof. destruct b, u; simpl; naive_solver. Qed.

Lemma rget_Ok {A} (o : option A) a : rget o = Ok a <-> o = Some a.
Proof. destruct o; simpl; naive_solver. Qed.

(** [inv_res] decomposes every successful monadic hypothesis. *)
Ltac inv_res :=
  repeat match goal with
  | H : Ok _ = Ok _ |- _ => injection H as H; subst
  | H : Err _ = Ok _ |- _ => discriminate H
  | H : Ok _ = Err _ |- _ => discriminate H
  | H : rbind _ _ = Ok _ |- _ =>
      let a := fresh "r" in let E := fresh "E" in
      apply rbind_Ok in H as (a & E & H); cbv beta in H
  | H : rassert _ = Ok _ |- _ => apply rassert_Ok in H
  | H : rget _ = Ok _ |- _ => apply rget_Ok in H
  | p : (_ * _)%type |- _ => destruct p
  | p : unit |- _ => destruct p
  end; simplify_eq/=.

(** ** The state and fault monad *)

Definition M (S A : Type) := S -> res (A * S).

Definition mret_st {S A} (a : A) : M S A := fun s => Ok (a, s).
Definition mbind_st {S A B} (m : M S A) (k : A -> M S B) : M S B :=
  fun s => match m s with Ok (a, s') => k a s' | Err f => Err f end.
Definition mget {S} : M S S := fun s => Ok (s, s).
Definition mput {S} (s : S) : M S unit := fun _ => Ok (tt, s).
Definition mgets {S A} (f : S -> A) : M S A := fun s => Ok (f s, s).
Definition mmodify {S} (f : S -> S) : M S unit := fun s => Ok (tt, f s).
Definition mfail {S A} (f : fault) : M S A := fun _ => Err f.
Definition massert {S} (b : bool) : M S unit := if b then mret_st tt else mfail AssertFail.
Definition mlift {S A} (r : res A) : M S A :=
  fun s => match r with Ok a => Ok (a, s) | Err f => Err f end.

Notation "'do!' x := m 'in' k" := (mbind_st m (fun x => k))
  (at level 10, x pattern, m at level 100, k at level 200,
   format "'[v' 'do!'  x  :=  m  'in' '/' k ']'") : ucore_scope.
Notation "m ';;;' k" := (mbind_st m (fun _ => k))
  (at level 199, right associativity, format "'[v' m  ';;;' '/' k ']'") : ucore_scope.

Lemma mbind_st_Ok {S A B} (m : M S A) (k : A -> M S B) s r :
  mbind_st m k s = Ok r <-> exists a s', m s = Ok (a, s') /\ k a s' = Ok r.
Proof. unfold mbind_st. destruct (m s) as [[a s']|f]; naive_solver. Qed.

Lemma massert_Ok {S} b (s : S) r : massert b s = Ok r <-> b = true /\ r = (tt, s).
Proof. unfold massert, mret_st, mfail. destruct b; naive_solver. Qed.

(** ** Machine integers *)

Definition two32 : Z := 4294967296.
Definition u32 (z : Z) : Z := z mod two32.
(** Conversion of a 32-bit pattern to a C [int]. *)
Definition s32 (z : Z) : Z := (z + 2147483648) mod two32 - 2147483648.
Definition is_u32 (z : Z) : Prop := 0 <= z < two32.
Definition is_s32 (z : Z) : Prop := -2147483648 <= z < 2147483648.

#[global] Arguments u32 : simpl never.
#[global] Arguments s32 : simpl never.

Lemma u32_id z : is_u32 z -> u32 z = z.
Proof. intros H. apply Z.mod_small, H. Qed.
Lemma u32_range z : is_u32 (u32 z).
Proof. apply Z.mod_pos_bound. reflexivity. Qed.
Lemma s32_id z : is_s32 z -> s32 z = z.
Proof. unfold s32, is_s32, two32. intros H. rewrite Z.mod_small; lia. Qed.
Lemma s32_range z : is_s32 (s32 z).
Proof.
  unfold s32, is_s32.
  pose proof (Z.mod_pos_bound (z + 2147483648) two32 eq_refl). unfold two32 in *. lia.
Qed.

(** C error codes (libs/error.h). *)
Definition E_UNSPECIFIED : Z := 1.
Definition E_BAD_PROC : Z := 2.
Definition E_INVAL : Z := 3.
Definition E_NO_MEM : Z := 4.
Definition E_NO_FREE_PROC : Z := 5.
Definition E_FAULT : Z := 6.
Definition E_SWAP_FAULT : Z := 7.
Definition E_INVAL_ELF : Z := 8.
Definition E_KILLED : Z := 9.
Definition E_PANIC : Z := 10.
Definition E_TIMEOUT : Z := 11.
Definition E_TOO_BIG : Z := 12.
Definition E_NO_DEV : Z := 13.
Definition E_NA_DEV : Z := 14.
Definition E_BUSY : Z := 15.
Definition E_NOENT : Z := 16.
Definition E_ISDIR : Z := 17.
Definition E_NOTDIR : Z := 18.
Definition E_XDEV : Z := 19.
Definition E_UNIMP : Z := 20.
Definition E_SEEK : Z := 21.
Definition E_MAX_OPEN : Z := 22.
Definition E_EXISTS : Z := 23.
Definition E_NOTEMPTY : Z := 24.
Definition MAXERROR : Z := 24.

(** ** Lists *)

Lemma NoDup_perm {A} (l k : list A) : l ≡ₚ k -> NoDup l -> NoDup k.
Proof. intros Hp. by rewrite Hp. Qed.

(** ** Loops *)

(** A C loop is the iteration of its body: [inl s] goes round again from the
    state [s], [inr r] leaves the loop with [r].  [loop_pos p] makes at most
    [p] rounds; the bound is a binary number, so that it costs nothing when
    the loop ends early. *)
Section loop.
  Context {S R : Type}.
  Implicit Types (body : S -> res (S + R)).

Fixpoint loop_pos (p : positive) body (s : S) : res (S + R) :=
    match p with
    | xH => body s
    | xO p => let! r := loop_pos p body s in
              match r with inl s => loop_pos p body s | inr v => Ok (inr v) end
    | xI p => let! r := body s in
              match r with
              | inl s => let! r := loop_pos p body s in
                         match r with inl s => loop_pos p body s | inr v => Ok (inr v) end
              | inr v => Ok (inr v)
              end
    end.

  (** 2^32 rounds: more than any loop over 32-bit addresses or sizes makes. *)
Definition loop_bound : positive := 4294967296.
Definition loop body (s : S) : res R :=
    let! r := loop_pos loop_bound body s in
    match r with inl _ => Err OutOfFuel | inr v => Ok v end.

Lemma loop_pos_rule (I : S -> Prop) (mu : S -> Z) (Q : res R -> Prop) body p s :
    (forall s, I s -> 0 <= mu s /\
       match body s with
       | Ok (inl s') => I s' /\ mu s' < mu s
       | Ok (inr v) => Q (Ok v)
       | Err f => Q (Err f)
       end) ->
    I s ->
    match loop_pos p body s with
    | Ok (inl s') => I s' /\ mu s' + Zpos p <= mu s
    | Ok (inr v) => Q (Ok v)
    | Err f => Q (Err f)
    end.
  Proof.
    intros Hb. revert s. induction p as [p IH|p IH|]; intros s Hs; simpl.
    - destruct (Hb s Hs) as [_ H0]. destruct (body s) as [[s1|v]|]; simpl; try done. destruct H0 as [H0 Hm0].
      pose proof (IH s1 H0) as H1. destruct (loop_pos p body s1) as [[s2|v]|]; simpl; try done.
      destruct H1 as [H1 Hm1]. pose proof (IH s2 H1) as H2.
      destruct (loop_pos p body s2) as [[s3|v]|]; simpl; try done. destruct H2. split; [done|]. lia.
    - pose proof (IH s Hs) as H1. destruct (loop_pos p body s) as [[s2|v]|]; simpl; try done.
      destruct H1 as [H1 Hm1]. pose proof (IH s2 H1) as H2.
      destruct (loop_pos p body s2) as [[s3|v]|]; simpl; try done. destruct H2. split; [done|]. lia.
    - destruct (Hb s Hs) as [_ H0]. destruct (body s) as [[s1|v]|]; simpl; try done. destruct H0. split; [done|]. lia.
  Qed.

  (** Total correctness of a loop: an invariant and a decreasing measure. *)
Lemma loop_rule_res (I : S -> Prop) (mu : S -> Z) (Q : res R -> Prop) body s :
    (forall s, I s -> 0 <= mu s /\
       match body s with
       | Ok (inl s') => I s' /\ mu s' < mu s
       | Ok (inr v) => Q (Ok v)
       | Err f => Q (Err f)
       end) ->
    I s -> mu s < 4294967296 -> Q (loop body s).
  Proof.
    intros Hb Hs Hm. pose proof (loop_pos_rule I mu Q body loop_bound s Hb Hs) as H. unfold loop.
    destruct (loop_pos loop_bound body s) as [[s'|v]|]; simpl; [|done..].
    destruct H as [HI Hle]. pose proof (Hb s' HI). unfold loop_bound in Hle. lia.
  Qed.

Lemma loop_rule (I : S -> Prop) (mu : S -> Z) (Q : R -> Prop) body s :
    (forall s, I s -> 0 <= mu s /\
       match body s with
       | Ok (inl s') => I s' /\ mu s' < mu s
       | Ok (inr v) => Q v
       | Err _ => False
       end) ->
    I s -> mu s < 4294967296 -> exists v, loop body s = Ok v /\ Q v.
  Proof.
    intros Hb Hs Hm. apply (loop_rule_res I mu (fun r => exists v, r = Ok v /\ Q v) body s); [|done..].
    intros t Ht. destruct (Hb t Ht) as [? Hr]. split; [done|]. destruct (body t) as [[]|]; eauto. done.
  Qed.

  (** [n] rounds, one after the other. *)
Fixpoint rounds (n : nat) body (s : S) : res (S + R) :=
    match n with
    | O => Ok (inl s)
    | Datatypes.S n => let! r := body s in match r with inl s => rounds n body s | inr v => Ok (inr v) end
    end.

Lemma rounds_add n k body s :
    rounds (n + k) body s =
    let! r := rounds n body s in match r with inl s => rounds k body s | inr v => Ok (inr v) end.
  Proof.
    revert s. induction n as [|n IH]; intros s; simpl; [done|].
    destruct (body s) as [[s'|v]|]; simpl; [apply IH|done..].
  Qed.

Lemma loop_pos_rounds p body s : loop_pos p body s = rounds (Pos.to_nat p) body s.
  Proof.
    revert s. induction p as [p IH|p IH|]; intros s; cbn [loop_pos].
    - rewrite Pos2Nat.inj_xI. cbn [rounds]. destruct (body s) as [[s'|v]|]; cbn [rbind]; [|done..].
      replace (2 * Pos.to_nat p)%nat with (Pos.to_nat p + Pos.to_nat p)%nat by lia.
      rewrite rounds_add, IH. destruct (rounds _ _ s') as [[]|]; cbn [rbind]; [apply IH|done..].
    - rewrite Pos2Nat.inj_xO.
      replace (2 * Pos.to_nat p)%nat with (Pos.to_nat p + Pos.to_nat p)%nat by lia.
      rewrite rounds_add, IH. destruct (rounds _ _ s) as [[]|]; cbn [rbind]; [apply IH|done..].
    - change (Pos.to_nat 1) with 1%nat. cbn [rounds]. by destruct (body s) as [[]|].
  Qed.

  (** A loop that ends after a known number of rounds. *)
Lemma loop_rounds n body s v :
    rounds n body s = Ok (inr v) -> Z.of_nat n <= 4294967296 -> loop body s = Ok v.
  Proof.
    intros E Hn. unfold loop. rewrite loop_pos_rounds.
    replace (Pos.to_nat loop_bound) with (n + (Pos.to_nat loop_bound - n))%nat by (unfold loop_bound; lia).
    by rewrite rounds_add, E.
  Qed.
End loop.
#[global] Arguments loop : simpl never.
#[global] Arguments loop_bound : simpl never.
(** Conversion unfolds everything else before a loop. *)
Strategy 1000 [loop loop_pos loop_bound].

(** Hints shared by the components. *)
Create HintDb ucore.
#[export] Hint Resolve u32_range s32_range : ucore.
