(* ===== verification/DList.v ===== *)
(** * Circular doubly linked lists (libs/list.h)

    The kernel threads every queue it keeps (free pages, run queue, timers,
    wait queues, the FIFO of swappable pages) through [list_entry_t] nodes
    embedded in the objects.  A [store] gives the two pointers of every node;
    the operations are the ones of list.h, on that shared store, so aliasing
    and the order of the writes are the code's.  [dlist s h l] says that the
    node [h] heads a well-formed circular list whose entries, in [next] order,
    are [l]; every operation is shown to implement the corresponding operation
    on [l]. *)
From S2P Require Import Prelude.

Record list_entry := mk_entry { prev : Z; next : Z }.

Notation store := (gmap Z list_entry).

(** ** The operations of list.h *)

Definition set_next (p v : Z) (s : store) : res store :=
  let! e := rget (s !! p) in Ok (<[p := mk_entry (prev e) v]> s).
Definition set_prev (p v : Z) (s : store) : res store :=
  let! e := rget (s !! p) in Ok (<[p := mk_entry v (next e)]> s).

Definition list_next (s : store) (p : Z) : res Z :=
  let! e := rget (s !! p) in Ok (next e).
Definition list_prev (s : store) (p : Z) : res Z :=
  let! e := rget (s !! p) in Ok (prev e).

Definition list_init (elm : Z) (s : store) : res store :=
  let! s := set_next elm elm s in set_prev elm elm s.

(** [prev->next = next->prev = elm; elm->next = next; elm->prev = prev;] *)
Definition __list_add (elm prv nxt : Z) (s : store) : res store :=
  let! s := set_prev nxt elm s in
  let! s := set_next prv elm s in
  let! s := set_next elm nxt s in
  set_prev elm prv s.

Definition __list_del (prv nxt : Z) (s : store) : res store :=
  let! s := set_next prv nxt s in
  set_prev nxt prv s.

Definition list_add_before (listelm elm : Z) (s : store) : res store :=
  let! p := list_prev s listelm in __list_add elm p listelm s.

Definition list_add_after (listelm elm : Z) (s : store) : res store :=
  let! n := list_next s listelm in __list_add elm listelm n s.

Definition list_add (listelm elm : Z) (s : store) : res store :=
  list_add_after listelm elm s.

Definition list_del (listelm : Z) (s : store) : res store :=
  let! p := list_prev s listelm in
  let! n := list_next s listelm in
  __list_del p n s.

Definition list_del_init (listelm : Z) (s : store) : res store :=
  let! s := list_del listelm s in list_init listelm s.

Definition list_empty (s : store) (h : Z) : res bool :=
  let! n := list_next s h in Ok (bool_decide (n = h)).

(** The kernel's loop over a list,
    [while ((le = list_next(le)) != h) { if (f(le)) break; }]:
    the entry at which it stops, or [None] when it comes back to the head. *)
Fixpoint list_scan_fuel (fuel : nat) (s : store) (h le : Z) (f : Z -> res bool) : res (option Z) :=
  match fuel with
  | O => Err OutOfFuel
  | S fuel =>
      let! le := list_next s le in
      if bool_decide (le = h) then Ok None
      else let! b := f le in
      if (b : bool) then Ok (Some le)
      else list_scan_fuel fuel s h le f
  end.

(** No list has more entries than there are nodes. *)
Definition list_scan (s : store) (h le : Z) (f : Z -> res bool) : res (option Z) :=
  list_scan_fuel (S (size s)) s h le f.

(** ** The representation predicate *)

Definition nxt (s : store) (p : Z) : option Z := next <$> s !! p.
Definition prv (s : store) (p : Z) : option Z := prev <$> s !! p.

Definition linked (s : store) (a b : Z) : Prop := nxt s a = Some b /\ prv s b = Some a.

(** [seg s a l b]: following [next] from [a] visits exactly [l], then [b],
    and the [prev] pointers lead back. *)
Fixpoint seg (s : store) (a : Z) (l : list Z) (b : Z) : Prop :=
  match l with
  | [] => linked s a b
  | x :: l => linked s a x /\ seg s x l b
  end.

Definition dlist (s : store) (h : Z) (l : list Z) : Prop :=
  NoDup (h :: l) /\ seg s h l h.

Lemma seg_app s a l1 x l2 b :
  seg s a (l1 ++ x :: l2) b <-> seg s a l1 x /\ seg s x l2 b.
Proof.
  revert a. induction l1 as [|y l1 IH]; intros a; simpl; [done|].
  rewrite IH. tauto.
Qed.

Lemma seg_frame s s' a l b :
  (forall y, y ∈ a :: l -> nxt s' y = nxt s y) ->
  (forall y, y ∈ b :: l -> prv s' y = prv s y) ->
  seg s a l b -> seg s' a l b.
Proof.
  revert a. induction l as [|x l IH]; intros a Hn Hp; simpl; unfold linked.
  - rewrite Hn, Hp by set_solver. done.
  - rewrite Hn, Hp by set_solver. intros [? ?]. split; [done|].
    apply IH; [| |done]; intros y Hy; [apply Hn|apply Hp]; set_solver.
Qed.

(** A list can be read from any of its nodes. *)
Lemma dlist_rotate s h l1 x l2 :
  dlist s h (l1 ++ x :: l2) <-> dlist s x (l2 ++ h :: l1).
Proof.
  unfold dlist. rewrite !seg_app.
  assert (Hp : h :: l1 ++ x :: l2 ≡ₚ x :: l2 ++ h :: l1) by solve_Permutation.
  rewrite Hp. tauto.
Qed.

Lemma seg_lookup s a l b y : seg s a l b -> y ∈ l -> is_Some (s !! y).
Proof.
  revert a. induction l as [|x l IH]; intros a; simpl; [set_solver|].
  intros [[_ Hp] Hs] Hy. apply list_elem_of_In in Hy. destruct Hy as [<-|Hy].
  - unfold prv in Hp. destruct (s !! x); [eauto|done].
  - eapply IH; eauto. by apply list_elem_of_In.
Qed.

Lemma dlist_lookup s h l y : dlist s h l -> y ∈ h :: l -> is_Some (s !! y).
Proof.
  intros [_ Hs] Hy. apply elem_of_cons in Hy as [->|Hy]; [|by eapply seg_lookup].
  destruct l; simpl in Hs; [destruct Hs as [Hn _]|destruct Hs as [[Hn _] _]];
    unfold nxt in Hn; destruct (s !! h); (eauto || done).
Qed.

Lemma dlist_next s h l : dlist s h l -> nxt s h = Some (default h (head l)).
Proof. intros [_ Hs]. destruct l; simpl in *; unfold linked in *; tauto. Qed.

Lemma seg_last s a l b : seg s a l b -> prv s b = Some (default a (last l)).
Proof.
  revert a. induction l as [|x l IH]; intros a; simpl; [intros []; done|].
  intros [_ Hs]. apply IH in Hs. rewrite Hs. destruct l; [done|].
  simpl. by destruct l using rev_ind; rewrite ?last_cons, ?last_snoc.
Qed.

Lemma dlist_prev s h l : dlist s h l -> prv s h = Some (default h (last l)).
Proof. intros [_ Hs]. by apply seg_last. Qed.

Lemma nxt_spec s p v : nxt s p = Some v <-> list_next s p = Ok v.
Proof. unfold nxt, list_next. destruct (s !! p); simpl; naive_solver. Qed.
Lemma prv_spec s p v : prv s p = Some v <-> list_prev s p = Ok v.
Proof. unfold prv, list_prev. destruct (s !! p); simpl; naive_solver. Qed.

(** ** Pointer-level effect of the two primitives *)

Lemma set_next_Ok s p v :
  is_Some (s !! p) -> exists s', set_next p v s = Ok s' /\
    (forall y, nxt s' y = if bool_decide (y = p) then Some v else nxt s y) /\
    (forall y, prv s' y = prv s y) /\ dom s' = dom s.
Proof.
  intros [e He]. unfold set_next. rewrite He. simpl. eexists. split; [done|].
  unfold nxt, prv. repeat split.
  - intros y. rewrite lookup_insert. repeat case_decide; repeat case_bool_decide; naive_solver.
  - intros y. rewrite lookup_insert. case_decide; subst; rewrite ?He; done.
  - rewrite dom_insert_L. apply elem_of_dom_2 in He. set_solver.
Qed.

Lemma set_prev_Ok s p v :
  is_Some (s !! p) -> exists s', set_prev p v s = Ok s' /\
    (forall y, prv s' y = if bool_decide (y = p) then Some v else prv s y) /\
    (forall y, nxt s' y = nxt s y) /\ dom s' = dom s.
Proof.
  intros [e He]. unfold set_prev. rewrite He. simpl. eexists. split; [done|].
  unfold nxt, prv. repeat split.
  - intros y. rewrite lookup_insert. repeat case_decide; repeat case_bool_decide; naive_solver.
  - intros y. rewrite lookup_insert. case_decide; subst; rewrite ?He; done.
  - rewrite dom_insert_L. apply elem_of_dom_2 in He. set_solver.
Qed.

Lemma dom_is_Some (s s' : store) p : dom s' = dom s -> is_Some (s !! p) -> is_Some (s' !! p).
Proof. intros Hd. rewrite <- !elem_of_dom, Hd. done. Qed.

Tactic Notation "store_step" constr(L) ident(s') :=
  let E := fresh "E" in let Hn := fresh "Hn" in let Hp := fresh "Hp" in
  let Hd := fresh "Hd" in
  edestruct L as (s' & E & Hn & Hp & Hd);
  [eauto using dom_is_Some | rewrite E; clear E; cbn [rbind]].

Lemma __list_add_Ok s e p n :
  is_Some (s !! e) -> is_Some (s !! p) -> is_Some (s !! n) ->
  exists s', __list_add e p n s = Ok s' /\ dom s' = dom s /\
    (forall y, nxt s' y = if bool_decide (y = e) then Some n else
                    if bool_decide (y = p) then Some e else nxt s y) /\
    (forall y, prv s' y = if bool_decide (y = e) then Some p else
                    if bool_decide (y = n) then Some e else prv s y).
Proof.
  intros He Hp Hn. unfold __list_add.
  store_step (set_prev_Ok s n e) s1.
  store_step (set_next_Ok s1 p e) s2.
  store_step (set_next_Ok s2 e n) s3.
  store_step (set_prev_Ok s3 e p) s4.
  exists s4. repeat split; [congruence| |].
  - intros y. rewrite Hp3, Hn2, Hn1, Hp0. done.
  - intros y. rewrite Hn3, Hp2, Hp1, Hn0. done.
Qed.

Lemma __list_del_Ok s p n :
  is_Some (s !! p) -> is_Some (s !! n) ->
  exists s', __list_del p n s = Ok s' /\ dom s' = dom s /\
    (forall y, nxt s' y = if bool_decide (y = p) then Some n else nxt s y) /\
    (forall y, prv s' y = if bool_decide (y = n) then Some p else prv s y).
Proof.
  intros Hp Hn. unfold __list_del.
  store_step (set_next_Ok s p n) s1.
  store_step (set_prev_Ok s1 n p) s2.
  exists s2. repeat split; [congruence| |].
  - intros y. rewrite Hp1, Hn0. done.
  - intros y. rewrite Hn1, Hp0. done.
Qed.

(** ** Refinement: each operation does what it says on the list *)

Ltac bool_decide_tac :=
  repeat (case_bool_decide; subst; try done); simpl in *; try set_solver.

Lemma seg_shape s h l : seg s h l h ->
  (forall l1 x l2, l = l1 ++ x :: l2 -> seg s h l1 x /\ seg s x l2 h).
Proof. intros Hs l1 x l2 ->. by apply seg_app. Qed.

(** [list_init] makes the node the head of an empty list. *)
Lemma list_init_dlist s e :
  is_Some (s !! e) -> exists s', list_init e s = Ok s' /\ dom s' = dom s /\
    dlist s' e [] /\
    (forall y, y <> e -> nxt s' y = nxt s y /\ prv s' y = prv s y).
Proof.
  intros He. unfold list_init.
  store_step (set_next_Ok s e e) s1.
  store_step (set_prev_Ok s1 e e) s2.
  exists s2. repeat split; [congruence|repeat constructor; set_solver|..].
  - rewrite Hp0, Hn. by rewrite bool_decide_true.
  - rewrite Hn0. by rewrite bool_decide_true.
  - rewrite Hp0, Hn. by rewrite !bool_decide_false.
  - rewrite Hn0, Hp. by rewrite !bool_decide_false.
Qed.

(** Lists that share no node with the touched ones are unchanged. *)
Lemma dlist_frame s s' h l :
  (forall y, y ∈ h :: l -> nxt s' y = nxt s y /\ prv s' y = prv s y) ->
  dlist s h l -> dlist s' h l.
Proof.
  intros Hf [? Hs]. split; [done|].
  eapply seg_frame; [..|done]; intros y Hy; by apply Hf.
Qed.

(** Fields of a node as seen from outside: equality of both pointers. *)
Definition same_at (s s' : store) (y : Z) : Prop := nxt s' y = nxt s y /\ prv s' y = prv s y.

(** Adding after the head pushes in front. *)
Lemma list_add_after_dlist s h l e :
  dlist s h l -> e ∉ h :: l -> is_Some (s !! e) ->
  exists s', list_add_after h e s = Ok s' /\ dom s' = dom s /\
    dlist s' h (e :: l) /\ (forall y, y ∉ h :: e :: l -> same_at s s' y).
Proof.
  intros HL He Hse. pose proof HL as [Hnd Hs].
  pose proof (dlist_next _ _ _ HL) as Hn. apply nxt_spec in Hn.
  unfold list_add_after. rewrite Hn. cbn [rbind].
  assert (Hin : default h (head l) ∈ h :: l) by (destruct l; set_solver).
  destruct (__list_add_Ok s e h (default h (head l)))
    as (s' & E & Hd & Hn' & Hp'); [eauto using dlist_lookup, list_elem_of_here..|].
  exists s'. rewrite E. split; [done|]. split; [done|]. split; [split|].
  - apply NoDup_cons in Hnd as [? ?]. constructor; [set_solver|]. constructor; set_solver.
  - apply NoDup_cons in Hnd as [Hh Hnd].
    destruct l as [|x l]; simpl in *.
    + unfold linked. rewrite !Hn', !Hp'. repeat split; bool_decide_tac.
    + destruct Hs as [Hhx Hs]. apply NoDup_cons in Hnd as [Hx Hnd].
      unfold linked. rewrite !Hn', !Hp'. repeat split; [bool_decide_tac..|].
      eapply seg_frame; [..|exact Hs]; intros y Hy; rewrite ?Hn', ?Hp'; bool_decide_tac.
  - intros y Hy. unfold same_at. rewrite Hn', Hp'.
    split; bool_decide_tac.
Qed.

(** Adding before the head appends at the end. *)
Lemma list_add_before_dlist s h l e :
  dlist s h l -> e ∉ h :: l -> is_Some (s !! e) ->
  exists s', list_add_before h e s = Ok s' /\ dom s' = dom s /\
    dlist s' h (l ++ [e]) /\ (forall y, y ∉ h :: e :: l -> same_at s s' y).
Proof.
  intros HL He Hse.
  destruct l as [|x l] using rev_ind; [|clear IHl].
  - destruct (list_add_after_dlist s h [] e HL He Hse) as (s' & E & Hd & HL' & Hf).
    exists s'. split; [|done]. rewrite <- E. unfold list_add_before, list_add_after.
    rewrite (proj1 (prv_spec _ _ _) (dlist_prev _ _ _ HL)).
    rewrite (proj1 (nxt_spec _ _ _) (dlist_next _ _ _ HL)). done.
  - pose proof (proj1 (dlist_rotate s h l x []) HL) as HLx.
    destruct (list_add_after_dlist s x ([] ++ h :: l) e HLx) as (s' & E & Hd & HL' & Hf);
      [set_solver|done|].
    exists s'. split; [|split; [done|split]].
    + rewrite <- E. unfold list_add_before, list_add_after.
      rewrite (proj1 (prv_spec _ _ _) (dlist_prev _ _ _ HL)), last_snoc.
      rewrite (proj1 (nxt_spec _ _ _) (dlist_next _ _ _ HLx)). done.
    + rewrite <- app_assoc. apply dlist_rotate. exact HL'.
    + intros y Hy. apply Hf. set_solver.
Qed.

(** Deleting the node a list is read from leaves the others. *)
Lemma list_del_dlist s x y l :
  dlist s x (y :: l) ->
  exists s', list_del x s = Ok s' /\ dom s' = dom s /\ dlist s' y l /\
    (forall z, z ∉ y :: l -> same_at s s' z).
Proof.
  intros HL. pose proof HL as [Hnd Hs]. unfold list_del.
  rewrite (proj1 (prv_spec _ _ _) (dlist_prev _ _ _ HL)).
  rewrite (proj1 (nxt_spec _ _ _) (dlist_next _ _ _ HL)). cbn [rbind head default from_option id].
  assert (Hp : default x (last (y :: l)) = default y (last l)).
  { destruct l using rev_ind; [done|]. rewrite last_snoc, app_comm_cons, last_snoc. done. }
  rewrite Hp. clear Hp.
  assert (Hin : default y (last l) ∈ y :: l).
  { destruct l using rev_ind; [set_solver|]. rewrite last_snoc. set_solver. }
  destruct (__list_del_Ok s (default y (last l)) y)
    as (s' & E & Hd & Hn' & Hp').
  { eapply dlist_lookup; [exact HL|]. set_solver. }
  { eapply dlist_lookup; [exact HL|]. set_solver. }
  exists s'. rewrite E. split; [done|]. split; [done|].
  pose proof (proj1 (dlist_rotate s x [] y l) HL) as [Hnd' Hs'].
  apply seg_app in Hs' as [Hs1 _]. apply NoDup_cons in Hnd' as [Hy Hnd'].
  apply NoDup_app in Hnd' as (Hndl & Hxl & _).
  split; [split; [constructor; set_solver|]|].
  - destruct l as [|z l _] using rev_ind.
    + simpl. unfold linked. rewrite Hn', Hp'. simpl. by rewrite !bool_decide_true.
    + rewrite last_snoc in *. simpl in *. apply seg_app in Hs1 as [Hs1 _].
      apply NoDup_app in Hndl as (_ & Hzl & _).
      apply seg_app. split; [|simpl; unfold linked; rewrite Hn', Hp'; by rewrite !bool_decide_true].
      eapply seg_frame; [..|exact Hs1]; intros u Hu; rewrite ?Hn', ?Hp';
        rewrite bool_decide_false; set_solver.
  - intros z Hz. unfold same_at. rewrite Hn', Hp'.
    rewrite !bool_decide_false by (intros ->; set_solver). done.
Qed.

(** Inserting before an entry, and removing an entry, seen from the head. *)
Lemma list_add_before_mid s h l1 x l2 e :
  dlist s h (l1 ++ x :: l2) -> e ∉ h :: l1 ++ x :: l2 -> is_Some (s !! e) ->
  exists s', list_add_before x e s = Ok s' /\ dom s' = dom s /\
    dlist s' h (l1 ++ e :: x :: l2) /\ (forall y, y ∉ h :: e :: l1 ++ x :: l2 -> same_at s s' y).
Proof.
  intros HL He Hse. apply dlist_rotate in HL.
  destruct (list_add_before_dlist _ _ _ e HL) as (s' & E & Hd & HL' & Hf); [set_solver|done|].
  exists s'. split; [done|]. split; [done|]. split.
  - rewrite <- app_assoc in HL'. simpl in HL'.
    replace (l1 ++ e :: x :: l2) with ((l1 ++ [e]) ++ x :: l2) by by rewrite <- app_assoc.
    apply dlist_rotate. exact HL'.
  - intros y Hy. apply Hf. set_solver.
Qed.

Lemma list_add_after_mid s h l1 x l2 e :
  dlist s h (l1 ++ x :: l2) -> e ∉ h :: l1 ++ x :: l2 -> is_Some (s !! e) ->
  exists s', list_add_after x e s = Ok s' /\ dom s' = dom s /\
    dlist s' h (l1 ++ x :: e :: l2) /\ (forall y, y ∉ h :: e :: l1 ++ x :: l2 -> same_at s s' y).
Proof.
  intros HL He Hse. apply dlist_rotate in HL.
  destruct (list_add_after_dlist _ _ _ e HL) as (s' & E & Hd & HL' & Hf); [set_solver|done|].
  exists s'. split; [done|]. split; [done|]. split.
  - apply dlist_rotate. exact HL'.
  - intros y Hy. apply Hf. set_solver.
Qed.

Lemma list_del_mid s h l1 x l2 :
  dlist s h (l1 ++ x :: l2) ->
  exists s', list_del x s = Ok s' /\ dom s' = dom s /\ dlist s' h (l1 ++ l2) /\
    (forall y, y ∉ h :: l1 ++ l2 -> same_at s s' y).
Proof.
  intros HL. apply dlist_rotate in HL.
  destruct l2 as [|y l2]; simpl in HL.
  - destruct (list_del_dlist _ _ _ _ HL) as (s' & E & Hd & HL' & Hf).
    rewrite app_nil_r. eauto 10.
  - destruct (list_del_dlist _ _ _ _ HL) as (s' & E & Hd & HL' & Hf).
    exists s'. split; [done|]. split; [done|]. split; [by apply dlist_rotate|].
    intros z Hz. apply Hf. set_solver.
Qed.

(** [list_del_init] also leaves the removed node as an empty list. *)
Lemma list_del_init_mid s h l1 x l2 :
  dlist s h (l1 ++ x :: l2) ->
  exists s', list_del_init x s = Ok s' /\ dom s' = dom s /\ dlist s' h (l1 ++ l2) /\
    dlist s' x [] /\ (forall y, y ∉ h :: l1 ++ x :: l2 -> same_at s s' y).
Proof.
  intros HL. destruct (list_del_mid _ _ _ _ _ HL) as (s1 & E1 & Hd1 & HL1 & Hf1).
  assert (Hx : is_Some (s1 !! x)).
  { eapply dom_is_Some; [exact Hd1|]. eapply dlist_lookup; [exact HL|]. set_solver. }
  destruct (list_init_dlist s1 x Hx) as (s2 & E2 & Hd2 & HL2 & Hf2).
  exists s2. unfold list_del_init. rewrite E1. cbn [rbind].
  split; [done|]. split; [congruence|]. destruct HL as [Hnd _].
  apply NoDup_cons in Hnd as [Hh Hnd]. apply NoDup_app in Hnd as (? & Hl & Hnd).
  apply NoDup_cons in Hnd as [??].
  split; [|split; [done|]].
  - eapply dlist_frame; [|exact HL1]. intros y Hy. apply Hf2. set_solver.
  - intros y Hy. unfold same_at. destruct (Hf2 y) as [-> ->]; [set_solver|].
    apply Hf1. set_solver.
Qed.

Lemma list_empty_dlist s h l :
  dlist s h l -> list_empty s h = Ok (bool_decide (l = [])).
Proof.
  intros HL. unfold list_empty. rewrite (proj1 (nxt_spec _ _ _) (dlist_next _ _ _ HL)).
  cbn [rbind]. destruct HL as [Hnd _]. apply NoDup_cons in Hnd as [Hh _].
  f_equal. apply bool_decide_ext. destruct l; simpl; [done|]. split; [|done].
  intros ->. set_solver.
Qed.

Lemma list_next_dlist s h l : dlist s h l -> list_next s h = Ok (default h (head l)).
Proof. intros HL. by apply nxt_spec, dlist_next. Qed.
Lemma list_prev_dlist s h l : dlist s h l -> list_prev s h = Ok (default h (last l)).
Proof. intros HL. by apply prv_spec, dlist_prev. Qed.

Lemma list_next_mid s h l1 x l2 :
  dlist s h (l1 ++ x :: l2) -> list_next s x = Ok (default h (head l2)).
Proof.
  intros HL. apply dlist_rotate, list_next_dlist in HL. rewrite HL. by destruct l2.
Qed.
Lemma list_prev_mid s h l1 x l2 :
  dlist s h (l1 ++ x :: l2) -> list_prev s x = Ok (default h (last l1)).
Proof.
  intros HL. apply dlist_rotate, list_prev_dlist in HL. rewrite HL. clear HL.
  rewrite last_app_cons. by destruct l1 using rev_ind; rewrite ?app_comm_cons, ?last_snoc.
Qed.

(** The search loop is [find] on the entries after the starting node. *)
Lemma find_split (f : Z -> bool) l x :
  find f l = Some x <->
  exists l1 l2, l = l1 ++ x :: l2 /\ f x = true /\ (forall y, y ∈ l1 -> f y = false).
Proof.
  induction l as [|z l IH]; simpl.
  - split; [done|]. intros ([] & l2 & ? & _); done.
  - destruct (f z) eqn:Hz.
    + split.
      * intros [= ->]. exists [], l. split; [done|]. split; [done|]. set_solver.
      * intros ([|y l1] & l2 & [= -> ->] & Hx & Hl); [done|].
        rewrite (Hl y) in Hz by set_solver. done.
    + rewrite IH. split; intros (l1 & l2 & Hl & Hx & Hf).
      * exists (z :: l1), l2. subst. split; [done|]. split; [done|].
        intros y [->|]%elem_of_cons; auto.
      * destruct l1 as [|y l1]; simplify_list_eq; [congruence|].
        exists l1, l2. split; [done|]. split; [done|]. set_solver.
Qed.

Lemma find_all_false (f : Z -> bool) l :
  find f l = None <-> (forall y, y ∈ l -> f y = false).
Proof.
  induction l as [|z l IH]; simpl; [set_solver|].
  destruct (f z) eqn:Hz; [split; [done|intros H; rewrite (H z) in Hz; set_solver]|].
  rewrite IH. split; [intros H y [->|?]%elem_of_cons; auto|set_solver].
Qed.

Lemma dlist_size s h l : dlist s h l -> (S (length l) <= size s)%nat.
Proof.
  intros HL. pose proof HL as [Hnd _].
  rewrite <- size_dom. change (S (length l)) with (length (h :: l)).
  rewrite <- (size_list_to_set (C:=gset Z)) by done.
  apply subseteq_size. intros y Hy. apply elem_of_list_to_set in Hy.
  apply elem_of_dom. by eapply dlist_lookup.
Qed.

Lemma list_scan_fuel_find s h l1 x l2 f g fuel :
  (forall y, y ∈ l2 -> f y = Ok (g y)) -> dlist s h (l1 ++ l2) -> list_next s x = Ok (default h (head l2)) ->
  (length l2 < fuel)%nat ->
  list_scan_fuel fuel s h x f = Ok (find g l2).
Proof.
  revert l1 x fuel. induction l2 as [|y l2 IH]; intros l1 x fuel Hfg HL Hx Hf;
    (destruct fuel as [|fuel]; [simpl in *; lia|]); simpl; rewrite Hx; cbn [rbind].
  - by rewrite bool_decide_true.
  - simpl. rewrite bool_decide_false; unfold id.
    + rewrite (Hfg y) by set_solver. cbn [rbind].
      case_match; [done|]. apply (IH (l1 ++ [y])).
      * set_solver.
      * rewrite <- app_assoc. done.
      * by eapply list_next_mid.
      * simpl in Hf. lia.
    + intros ->. destruct HL as [Hnd _]. apply NoDup_cons in Hnd as [Hh _]. set_solver.
Qed.

Lemma list_scan_find s h l f g :
  dlist s h l -> (forall y, y ∈ l -> f y = Ok (g y)) -> list_scan s h h f = Ok (find g l).
Proof.
  intros HL Hfg. unfold list_scan. pose proof (dlist_size _ _ _ HL).
  apply (list_scan_fuel_find s h []); [done|done|by apply list_next_dlist|lia].
Qed.

Lemma list_scan_find_mid s h l1 x l2 f g :
  dlist s h (l1 ++ x :: l2) -> (forall y, y ∈ l2 -> f y = Ok (g y)) ->
  list_scan s h x f = Ok (find g l2).
Proof.
  intros HL Hfg. unfold list_scan. pose proof (dlist_size _ _ _ HL) as Hsz.
  rewrite length_app in Hsz. simpl in Hsz.
  apply (list_scan_fuel_find s h (l1 ++ [x])).
  - done.
  - by rewrite <- app_assoc.
  - by eapply list_next_mid.
  - lia.
Qed.

(** The whole content of a list, from its head. *)
Fixpoint list_walk (fuel : nat) (s : store) (h le : Z) : res (list Z) :=
  match fuel with
  | O => Err OutOfFuel
  | S fuel =>
      let! le := list_next s le in
      if bool_decide (le = h) then Ok []
      else let! l := list_walk fuel s h le in Ok (le :: l)
  end.

Lemma list_walk_seg s h l1 x l2 fuel :
  dlist s h (l1 ++ l2) -> list_next s x = Ok (default h (head l2)) ->
  (length l2 < fuel)%nat -> list_walk fuel s h x = Ok l2.
Proof.
  revert l1 x fuel. induction l2 as [|y l2 IH]; intros l1 x fuel HL Hx Hf;
    (destruct fuel as [|fuel]; [simpl in *; lia|]); simpl; rewrite Hx; cbn [rbind].
  - by rewrite bool_decide_true.
  - simpl. rewrite bool_decide_false; unfold id.
    + rewrite (IH (l1 ++ [y]) y fuel); [done|by rewrite <- app_assoc| |simpl in Hf; lia].
      by eapply list_next_mid.
    + intros ->. destruct HL as [Hnd _]. apply NoDup_cons in Hnd as [Hh _]. set_solver.
Qed.

Lemma list_walk_dlist s h l : dlist s h l -> list_walk (S (size s)) s h h = Ok l.
Proof.
  intros HL. pose proof (dlist_size _ _ _ HL).
  apply (list_walk_seg s h []); [done|by apply list_next_dlist|lia].
Qed.

(** A list determines its content. *)
Lemma dlist_det s h l l' : dlist s h l -> dlist s h l' -> l = l'.
Proof.
  intros H1%list_walk_dlist H2%list_walk_dlist. rewrite H1 in H2. by injection H2.
Qed.

(** Inserting after the last node of a prefix. *)
Lemma list_add_after_last s h l1 l2 e :
  dlist s h (l1 ++ l2) -> e ∉ h :: l1 ++ l2 -> is_Some (s !! e) ->
  exists s', list_add_after (default h (last l1)) e s = Ok s' /\ dom s' = dom s /\
    dlist s' h (l1 ++ e :: l2) /\ (forall y, y ∉ h :: e :: l1 ++ l2 -> same_at s s' y).
Proof.
  intros HL He Hse. destruct l1 as [|x l1 _] using rev_ind.
  - by apply list_add_after_dlist.
  - rewrite last_snoc. rewrite <- !app_assoc in *. simpl in *. by apply list_add_after_mid.
Qed.
