(* ===== verification/Blocks.v ===== *)
(** * Canonical lists of free blocks

    The abstract state of the first-fit page allocator: the free blocks
    (first page, number of pages) in increasing order, non-empty and never
    adjacent.  The operations here are the block-list versions of the loops of
    kern/mm/default_pmm.c; [DefaultPmm] shows that the linked-list code
    implements them. *)
From S2P Require Import Prelude.

Notation block := (Z * Z)%type.

(** Every block starts strictly after [lo] and after the end of the one
    before it (a free block that touched its neighbour would have been
    merged with it). *)
Fixpoint canon (lo : Z) (bs : list block) : Prop :=
  match bs with
  | [] => True
  | (b, n) :: bs => lo < b /\ 0 < n /\ canon (b + n) bs
  end.

Definition covers (bs : list block) (i : Z) : Prop :=
  exists b n, (b, n) ∈ bs /\ b <= i < b + n.

Fixpoint total (bs : list block) : Z :=
  match bs with
  | [] => 0
  | (_, n) :: bs => n + total bs
  end.

(** First fit: the first block of at least [n] pages loses its first [n]. *)
Fixpoint carve (n : Z) (bs : list block) : option (Z * list block) :=
  match bs with
  | [] => None
  | (b, m) :: bs =>
      if n <=? m then Some (b, if n <? m then (b + n, m - n) :: bs else bs)
      else match carve n bs with
           | Some (p, bs') => Some (p, (b, m) :: bs')
           | None => None
           end
  end.

(** The merging loop of [default_free_pages]: the block being freed absorbs
    its neighbours, which leave the list. *)
Fixpoint absorb (base n : Z) (bs : list block) : Z * Z * list block :=
  match bs with
  | [] => (base, n, [])
  | (p, m) :: bs =>
      if base + n =? p then absorb base (n + m) bs
      else if p + m =? base then absorb p (m + n) bs
      else let '(b, k, bs') := absorb base n bs in (b, k, (p, m) :: bs')
  end.

(** [default_list_add]: insertion by address, with its assertions. *)
Fixpoint place (base n : Z) (bs : list block) : res (list block) :=
  match bs with
  | [] => Ok [(base, n)]
  | (p, m) :: bs =>
      assert! negb (base =? p) ;;
      if base <? p then
        assert! base + n <=? p ;; Ok ((base, n) :: (p, m) :: bs)
      else
        assert! p + m <=? base ;;
        let! bs' := place base n bs in Ok ((p, m) :: bs')
  end.

Definition release (base n : Z) (bs : list block) : res (list block) :=
  let '(b, k, bs') := absorb base n bs in place b k bs'.

(** ** Facts about canonical lists *)

Lemma covers_nil i : ~ covers [] i.
Proof. intros (b & n & Hin & _). set_solver. Qed.

Lemma covers_cons b n bs i : covers ((b, n) :: bs) i <-> b <= i < b + n \/ covers bs i.
Proof.
  unfold covers. split.
  - intros (b' & n' & [[= -> ->]|Hin]%elem_of_cons & Hi); [by left|right; eauto].
  - intros [Hi|(b' & n' & Hin & Hi)]; [exists b, n|exists b', n']; set_solver.
Qed.

#[export] Instance covers_dec bs i : Decision (covers bs i).
Proof.
  induction bs as [|[b n] bs IH]; [right; apply covers_nil|].
  destruct (decide (b <= i < b + n)) as [?|?]; [left; apply covers_cons; auto|].
  destruct IH; [left|right]; rewrite covers_cons; tauto.
Defined.

Lemma canon_weaken lo lo' bs : lo' <= lo -> canon lo bs -> canon lo' bs.
Proof. destruct bs as [|[b n] bs]; simpl; [done|]. intros ? (? & ? & ?). repeat split; auto. lia. Qed.

Lemma canon_covers lo bs i : canon lo bs -> covers bs i -> lo < i.
Proof.
  revert lo. induction bs as [|[b n] bs IH]; intros lo Hc Hi; [by apply covers_nil in Hi|].
  simpl in Hc. destruct Hc as (? & ? & Hc). apply covers_cons in Hi as [?|Hi]; [lia|].
  apply IH in Hc; [lia|done].
Qed.

Lemma canon_In lo bs b n :
  canon lo bs -> (b, n) ∈ bs -> lo < b /\ 0 < n /\ (forall i, b <= i < b + n -> covers bs i).
Proof.
  revert lo. induction bs as [|[b' n'] bs IH]; intros lo Hc Hin; [set_solver|].
  simpl in Hc. destruct Hc as (? & ? & Hc). apply elem_of_cons in Hin as [[= -> ->]|Hin].
  - repeat split; [lia..|]. intros i Hi. apply covers_cons. by left.
  - destruct (IH _ Hc Hin) as (? & ? & Hcov). repeat split; [lia..|].
    intros i Hi. apply covers_cons. right. auto.
Qed.

Lemma total_nonneg lo bs : canon lo bs -> 0 <= total bs.
Proof.
  revert lo. induction bs as [|[b n] bs IH]; simpl; intros lo Hc; [lia|].
  destruct Hc as (? & ? & Hc). apply IH in Hc. lia.
Qed.

Lemma total_In lo bs b n : canon lo bs -> (b, n) ∈ bs -> n <= total bs.
Proof.
  revert lo. induction bs as [|[b' n'] bs IH]; intros lo Hc Hin; [set_solver|].
  simpl in *. destruct Hc as (? & ? & Hc). pose proof (total_nonneg _ _ Hc).
  apply elem_of_cons in Hin as [[= -> ->]|Hin]; [lia|]. apply (IH _ Hc) in Hin. lia.
Qed.

(** Non-adjacent blocks in order are determined by the pages they cover. *)
Lemma canon_unique lo bs1 bs2 :
  canon lo bs1 -> canon lo bs2 -> (forall i, covers bs1 i <-> covers bs2 i) -> bs1 = bs2.
Proof.
  revert lo bs2. induction bs1 as [|[b1 n1] bs1 IH]; intros lo [|[b2 n2] bs2] H1 H2 Hc; [done|..].
  - simpl in H2. destruct (covers_nil b2). apply Hc, covers_cons. lia.
  - simpl in H1. destruct (covers_nil b1). apply Hc, covers_cons. lia.
  - simpl in H1, H2. destruct H1 as (? & ? & H1), H2 as (? & ? & H2).
    assert (Hlo : forall i, covers bs1 i -> b1 + n1 < i) by eauto using canon_covers.
    assert (Hlo' : forall i, covers bs2 i -> b2 + n2 < i) by eauto using canon_covers.
    assert (Hc' : forall i, b1 <= i < b1 + n1 \/ covers bs1 i <-> b2 <= i < b2 + n2 \/ covers bs2 i)
      by (intros i; rewrite <- !covers_cons; auto). clear Hc.
    assert (b1 = b2) as <-.
    { pose proof (proj1 (Hc' b1) ltac:(lia)) as [?|?%Hlo'];
      pose proof (proj2 (Hc' b2) ltac:(lia)) as [?|?%Hlo]; lia. }
    assert (n1 = n2) as <-.
    { destruct (Z.lt_trichotomy n1 n2) as [?|[?|?]]; [|done|].
      - destruct (proj2 (Hc' (b1 + n1)) ltac:(lia)) as [?|?%Hlo]; lia.
      - destruct (proj1 (Hc' (b1 + n2)) ltac:(lia)) as [?|?%Hlo']; lia. }
    f_equal. apply (IH (b1 + n1)); [done..|]. intros i.
    split; intros Hi; [pose proof (Hlo _ Hi)|pose proof (Hlo' _ Hi)];
      [destruct (proj1 (Hc' i)) as [?|?]|destruct (proj2 (Hc' i)) as [?|?]]; auto; lia.
Qed.

(** ** Allocation *)

Lemma carve_None n bs : carve n bs = None <-> (forall b m, (b, m) ∈ bs -> m < n).
Proof.
  induction bs as [|[b m] bs IH]; simpl; [set_solver|].
  destruct (Z.leb_spec n m).
  - split; [done|]. intros Hf. specialize (Hf b m). set_solver by lia.
  - destruct (carve n bs) as [[]|].
    + split; [done|]. intros Hf. assert (None = Some (z, l)) as [=]; set_solver.
    + split; [|done]. intros _ b' m' [[= -> ->]|Hin]%elem_of_cons; [done|]. by eapply IH.
Qed.

Lemma carve_Some lo n bs p bs' :
  0 < n -> canon lo bs -> carve n bs = Some (p, bs') ->
  canon lo bs' /\ total bs = total bs' + n /\
  (forall i, covers bs i <-> covers bs' i \/ p <= i < p + n) /\
  (forall i, covers bs' i -> ~ p <= i < p + n).
Proof.
  intros Hn. revert lo bs'. induction bs as [|[b m] bs IH]; intros lo bs' Hc He; [done|].
  simpl in Hc, He. destruct Hc as (? & ? & Hc).
  destruct (Z.leb_spec n m) as [Hm|Hm].
  - injection He as <- <-. destruct (Z.ltb_spec n m).
    + split; [simpl; repeat split; [lia..|by replace (b + n + (m - n)) with (b + m) by lia]|].
      split; [simpl; lia|]. split; intros i; rewrite ?covers_cons; [intuition lia|].
      intros [?|Hi%(canon_covers _ _ _ Hc)]; lia.
    + assert (n = m) as <- by lia.
      split; [eapply canon_weaken; [|done]; lia|]. split; [simpl; lia|].
      split; intros i; rewrite ?covers_cons; [intuition lia|].
      intros Hi%(canon_covers _ _ _ Hc); lia.
  - destruct (carve n bs) as [[p' bs1]|] eqn:E; [|done]. injection He as <- <-.
    destruct (IH _ _ Hc eq_refl) as (Hc' & Ht & Hcov & Hd).
    assert (b + m < p').
    { eapply canon_covers; [exact Hc|]. apply Hcov. lia. }
    split; [by simpl|]. split; [simpl; lia|].
    split; intros i; rewrite ?covers_cons, ?Hcov; [tauto|].
    intros [?|?%Hd]; lia.
Qed.

(** ** Release *)

Lemma absorb_far base n bs : 0 < n -> canon (base + n) bs -> absorb base n bs = (base, n, bs).
Proof.
  intros Hn. assert (Hg : forall lo, base + n <= lo -> canon lo bs -> absorb base n bs = (base, n, bs)).
  { induction bs as [|[p m] bs IH]; intros lo Hlo Hc; simpl; [done|].
    simpl in Hc. destruct Hc as (? & ? & Hc). destruct (Z.eqb_spec (base + n) p); [lia|].
    destruct (Z.eqb_spec (p + m) base); [lia|]. rewrite (IH (p + m)); [done|lia|done]. }
  apply Hg. lia.
Qed.

Lemma place_first base n bs : canon (base + n - 1) bs -> 0 < n -> place base n bs = Ok ((base, n) :: bs).
Proof.
  destruct bs as [|[p m] bs]; simpl; [done|]. intros (? & ? & Hc) ?.
  destruct (Z.eqb_spec base p); [lia|]. destruct (Z.ltb_spec base p); [|lia].
  destruct (Z.leb_spec (base + n) p); [done|lia].
Qed.

(** When the rest of the list lies above, at most its first block merges. *)
Lemma release_low lo base n bs :
  0 < n -> lo < base -> canon (base + n - 1) bs ->
  exists b k bs1 bs', absorb base n bs = (b, k, bs1) /\ place b k bs1 = Ok bs' /\ lo < b /\
    canon lo bs' /\ total bs' = total bs + n /\
    (forall i, covers bs' i <-> covers bs i \/ base <= i < base + n).
Proof.
  intros Hn Hlo Hc. destruct bs as [|[p m] bs]; simpl.
  - eexists _, _, _, _. split; [done|]. split; [done|]. split; [done|].
    split; [simpl; lia|]. split; [simpl; lia|]. intros i. rewrite covers_cons.
    pose proof (covers_nil i). tauto.
  - simpl in Hc. destruct Hc as (? & ? & Hc). destruct (Z.eqb_spec (base + n) p) as [<-|Hne].
    + rewrite absorb_far by (lia || by rewrite Z.add_assoc).
      eexists _, _, _, _. split; [done|]. split.
      { apply place_first; [|lia]. eapply canon_weaken; [|exact Hc]. lia. }
      split; [lia|]. split; [simpl; rewrite Z.add_assoc; repeat split; [lia..|done]|].
      split; [simpl; lia|]. intros i. rewrite !covers_cons. intuition lia.
    + destruct (Z.eqb_spec (p + m) base); [lia|].
      rewrite absorb_far; [|lia|eapply canon_weaken; [|exact Hc]; lia].
      eexists _, _, _, _. split; [done|]. split; [apply place_first; simpl; repeat split; [lia..|done|lia]|].
      split; [done|]. split; [simpl; repeat split; [lia..|done]|].
      split; [simpl; lia|]. intros i. rewrite !covers_cons. intuition lia.
Qed.

Lemma release_parts lo base n bs :
  0 < n -> lo < base -> canon lo bs ->
  (forall i, covers bs i -> ~ base <= i < base + n) ->
  exists b k bs1 bs', absorb base n bs = (b, k, bs1) /\ place b k bs1 = Ok bs' /\ lo < b /\
    canon lo bs' /\ total bs' = total bs + n /\
    (forall i, covers bs' i <-> covers bs i \/ base <= i < base + n).
Proof.
  intros Hn. revert lo. induction bs as [|[p m] bs IH]; intros lo Hlo Hc Hd.
  { apply (release_low lo); done. }
  pose proof Hc as (? & ? & Hc'). 
  destruct (Z.le_gt_cases base p) as [Hp|Hp].
  { apply (release_low lo); [done..|]. simpl. repeat split; [|lia|done].
    destruct (Z.le_gt_cases (base + n) p); [lia|].
    destruct (Hd p); [apply covers_cons; lia|lia]. }
  assert (Hpm : p + m <= base).
  { destruct (Z.le_gt_cases (p + m) base); [done|].
    destruct (Hd base); [apply covers_cons; lia|lia]. }
  simpl. destruct (Z.eqb_spec (base + n) p); [lia|].
  destruct (Z.eqb_spec (p + m) base) as [<-|Hne].
  - destruct (release_low lo p (m + n) bs) as (b & k & bs1 & bs' & E1 & E2 & ? & Hc2 & Ht & Hcov);
      [lia..| |].
    { destruct bs as [|[p2 m2] bs]; [done|]. simpl in *. destruct Hc' as (? & ? & Hc').
      repeat split; [|lia|done]. destruct (Z.le_gt_cases (p + m + n) p2); [lia|].
      destruct (Hd p2); [rewrite !covers_cons; lia|lia]. }
    exists b, k, bs1, bs'. repeat (split; [done|]). split; [lia|].
    intros i. rewrite Hcov, covers_cons. intuition lia.
  - destruct (IH (p + m)) as (b & k & bs1 & bs' & E1 & E2 & ? & Hc2 & Ht & Hcov);
      [lia|done|intros i Hi; apply Hd, covers_cons; auto|].
    rewrite E1. exists b, k, ((p, m) :: bs1), ((p, m) :: bs').
    split; [done|]. split.
    { simpl. destruct (Z.eqb_spec b p); [lia|]. destruct (Z.ltb_spec b p); [lia|].
      destruct (Z.leb_spec (p + m) b); [|lia]. simpl. by rewrite E2. }
    split; [lia|]. split; [by simpl|]. split; [simpl; lia|].
    intros i. rewrite !covers_cons, Hcov. tauto.
Qed.

Lemma release_spec lo base n bs :
  0 < n -> lo < base -> canon lo bs ->
  (forall i, covers bs i -> ~ base <= i < base + n) ->
  exists bs', release base n bs = Ok bs' /\
    canon lo bs' /\ total bs' = total bs + n /\
    (forall i, covers bs' i <-> covers bs i \/ base <= i < base + n).
Proof.
  intros Hn Hlo Hc Hd.
  destruct (release_parts lo base n bs) as (b & k & bs1 & bs' & E1 & E2 & _ & H); [done..|].
  exists bs'. unfold release. rewrite E1. auto.
Qed.

(** Giving back what was just taken restores the list of blocks. *)
Lemma release_carve lo n bs p bs' :
  0 < n -> canon lo bs -> carve n bs = Some (p, bs') -> release p n bs' = Ok bs.
Proof.
  intros Hn Hc He. destruct (carve_Some lo n bs p bs') as (Hc' & Ht & Hcov & Hd); [done..|].
  assert (lo < p) by (eapply canon_covers; [exact Hc|]; apply Hcov; lia).
  destruct (release_spec lo p n bs') as (bs2 & E & Hc2 & _ & Hcov2); [done..|].
  rewrite E. f_equal. apply (canon_unique lo); [done..|]. intros i. specialize (Hcov i). specialize (Hcov2 i). tauto.
Qed.

(** Releasing adjacent pieces in any order gives the same list. *)
Lemma release_comm lo b1 n1 b2 n2 bs bs1 bs2 :
  0 < n1 -> 0 < n2 -> lo < b1 -> lo < b2 -> canon lo bs ->
  (forall i, covers bs i -> ~ b1 <= i < b1 + n1) ->
  (forall i, covers bs i -> ~ b2 <= i < b2 + n2) ->
  (b1 + n1 <= b2 \/ b2 + n2 <= b1) ->
  release b1 n1 bs = Ok bs1 -> release b2 n2 bs = Ok bs2 ->
  exists bs', release b2 n2 bs1 = Ok bs' /\ release b1 n1 bs2 = Ok bs'.
Proof.
  intros Hn1 Hn2 Hl1 Hl2 Hc Hd1 Hd2 Hd E1 E2.
  destruct (release_spec lo b1 n1 bs) as (? & E & Hc1 & _ & Hcov1); [done..|]. rewrite E1 in E. injection E as <-.
  destruct (release_spec lo b2 n2 bs) as (? & E' & Hc2 & _ & Hcov2); [done..|]. rewrite E2 in E'. injection E' as <-.
  destruct (release_spec lo b2 n2 bs1) as (r1 & F1 & Hr1 & _ & Hv1);
    [done..|intros i Hi%Hcov1; destruct Hi as [Hi|?]; [by apply Hd2|lia]|].
  destruct (release_spec lo b1 n1 bs2) as (r2 & F2 & Hr2 & _ & Hv2);
    [done..|intros i Hi%Hcov2; destruct Hi as [Hi|?]; [by apply Hd1|lia]|].
  exists r1. split; [done|]. rewrite F2. f_equal. apply (canon_unique lo); [done..|].
  intros i. specialize (Hv1 i). specialize (Hv2 i). specialize (Hcov1 i). specialize (Hcov2 i). tauto.
Qed.

(** Where the carved block sits. *)
Lemma carve_split n bs p bs' :
  carve n bs = Some (p, bs') ->
  exists bs1 m bs2, bs = bs1 ++ (p, m) :: bs2 /\ n <= m /\
    (forall b k, (b, k) ∈ bs1 -> k < n) /\
    bs' = bs1 ++ (if n <? m then [(p + n, m - n)] else []) ++ bs2.
Proof.
  revert bs'. induction bs as [|[b m] bs IH]; intros bs' He; [done|]. simpl in He.
  destruct (Z.leb_spec n m).
  - injection He as <- <-. exists [], m, bs. split; [done|]. split; [done|].
    split; [set_solver|]. by destruct (n <? m).
  - destruct (carve n bs) as [[q bs1]|]; [|done]. injection He as <- <-.
    destruct (IH _ eq_refl) as (l1 & k & l2 & -> & ? & Hlt & ->).
    exists ((b, m) :: l1), k, l2. split; [done|]. split; [done|]. split; [|done].
    intros ?? [[= -> ->]|?]%elem_of_cons; [done|eauto].
Qed.

Lemma absorb_sub base n bs b k bs' :
  absorb base n bs = (b, k, bs') -> bs' `sublist_of` bs /\ (b = base \/ b ∈ bs.*1).
Proof.
  revert base n b k bs'. induction bs as [|[p m] bs IH]; intros base n b k bs'; simpl.
  - intros [= <- <- <-]. auto.
  - case_match; [intros Hab; apply IH in Hab as [Hs Hin]; split; [by constructor|set_solver]|].
    case_match; [intros Hab; apply IH in Hab as [Hs Hin]; split; [by constructor|set_solver]|].
    destruct (absorb base n bs) as [[b1 k1] bs1] eqn:E. intros [= <- <- <-].
    apply IH in E as [? ?]. split; [by constructor|set_solver].
Qed.

Lemma canon_NoDup lo bs : canon lo bs -> NoDup bs.*1 /\ (forall b, b ∈ bs.*1 -> lo < b).
Proof.
  revert lo. induction bs as [|[b n] bs IH]; simpl; intros lo Hc; [split; [constructor|set_solver]|].
  destruct Hc as (? & ? & Hc). destruct (IH _ Hc) as [Hnd Hlt]. split.
  - constructor; [|done]. intros Hin%Hlt. lia.
  - intros b' [->|Hin%Hlt]%elem_of_cons; lia.
Qed.

Lemma total_bound lo np bs :
  canon lo bs -> (forall i, covers bs i -> i < np) -> total bs <= Z.max 0 (np - lo - 1).
Proof.
  revert lo. induction bs as [|[b n] bs IH]; simpl; intros lo Hc Hb; [lia|].
  destruct Hc as (? & ? & Hc). apply IH in Hc; [|intros i Hi; apply Hb, covers_cons; auto].
  pose proof (Hb (b + n - 1) ltac:(apply covers_cons; lia)). lia.
Qed.
