(* ===== verification/Atomic.v ===== *)
(** * Bit operations (libs/atomic.h)

    The operations save and clear the interrupt flag around one read-modify-write
    of a 32-bit word; on this single processor that makes each of them one atomic
    step, which is how they are modelled. *)
From S2P Require Import Prelude.

Definition set_bit (nr w : Z) : Z := Z.lor w (Z.shiftl 1 nr).
Definition clear_bit (nr w : Z) : Z := Z.land w (Z.lnot (Z.shiftl 1 nr)).
Definition change_bit (nr w : Z) : Z := Z.lxor w (Z.shiftl 1 nr).
Definition test_bit (nr w : Z) : bool := negb (Z.land w (Z.shiftl 1 nr) =? 0).
Definition test_and_set_bit (nr w : Z) : bool * Z := (test_bit nr w, set_bit nr w).
Definition test_and_clear_bit (nr w : Z) : bool * Z := (test_bit nr w, clear_bit nr w).

Lemma shiftl_1_bits nr n : 0 <= nr -> Z.testbit (Z.shiftl 1 nr) n = (n =? nr).
Proof.
  intros H. rewrite Z.shiftl_1_l, Z.pow2_bits_eqb by done. apply Z.eqb_sym.
Qed.

Lemma test_bit_spec nr w : 0 <= nr -> test_bit nr w = Z.testbit w nr.
Proof.
  intros H. unfold test_bit.
  destruct (Z.testbit w nr) eqn:Hb; destruct (Z.eqb_spec (Z.land w (Z.shiftl 1 nr)) 0) as [E|E];
    simpl; try done.
  - assert (Hc : Z.testbit (Z.land w (Z.shiftl 1 nr)) nr = true)
      by by rewrite Z.land_spec, Hb, shiftl_1_bits, Z.eqb_refl.
    rewrite E, Z.bits_0 in Hc. done.
  - destruct E. apply Z.bits_inj'. intros n Hn.
    rewrite Z.land_spec, shiftl_1_bits, Z.bits_0 by done.
    destruct (Z.eqb_spec n nr) as [->|]; [by rewrite Hb|by rewrite andb_false_r].
Qed.

Lemma set_bit_spec nr w n : 0 <= nr -> Z.testbit (set_bit nr w) n = (n =? nr) || Z.testbit w n.
Proof. intros H. unfold set_bit. rewrite Z.lor_spec, shiftl_1_bits by done. apply orb_comm. Qed.

Lemma clear_bit_spec nr w n :
  0 <= nr -> 0 <= n -> Z.testbit (clear_bit nr w) n = negb (n =? nr) && Z.testbit w n.
Proof.
  intros H Hn. unfold clear_bit. rewrite Z.land_spec, Z.lnot_spec, shiftl_1_bits by done.
  apply andb_comm.
Qed.

Lemma change_bit_spec nr w n : 0 <= nr -> Z.testbit (change_bit nr w) n = xorb (Z.testbit w n) (n =? nr).
Proof. intros H. unfold change_bit. rewrite Z.lxor_spec, shiftl_1_bits by done. done. Qed.
