(* ===== verification/DefaultPmm.v ===== *)
(** * The first-fit page allocator (kern/mm/default_pmm.c)

    The state is the array of page descriptors, the [page_link] nodes (node
    [i] is embedded in descriptor [i], [FREE_LIST] is the head in
    [free_area]) and the counter [nr_free].  The operations are the loops of
    the C code over that linked list; [pmm_inv] relates a state to the
    canonical list of free blocks of [Blocks], and each operation is shown to
    implement the block-list operation without any assertion failing. *)
From S2P Require Import Prelude DList Blocks Atomic.

(** ** Data (memlayout.h) *)

Record Page := mk_Page { ref : Z; flags : Z; property : Z }.

Definition PG_reserved : Z := 0.
Definition PG_property : Z := 1.

Definition set_ref (v : Z) (p : Page) : Page := mk_Page v (flags p) (property p).
Definition set_flags (v : Z) (p : Page) : Page := mk_Page (ref p) v (property p).
Definition set_property (v : Z) (p : Page) : Page := mk_Page (ref p) (flags p) v.

Definition SetPageReserved (p : Page) : Page := set_flags (set_bit PG_reserved (flags p)) p.
Definition ClearPageReserved (p : Page) : Page := set_flags (clear_bit PG_reserved (flags p)) p.
Definition PageReserved (p : Page) : bool := test_bit PG_reserved (flags p).
Definition SetPageProperty (p : Page) : Page := set_flags (set_bit PG_property (flags p)) p.
Definition ClearPageProperty (p : Page) : Page := set_flags (clear_bit PG_property (flags p)) p.
Definition PageProperty (p : Page) : bool := test_bit PG_property (flags p).

Record pmm := mk_pmm {
  pages : gmap Z Page;
  page_link : store;
  nr_free : Z
}.

Definition FREE_LIST : Z := -1.

Definition page_at (st : pmm) (i : Z) : res Page := rget (pages st !! i).
Definition upd_page (i : Z) (f : Page -> Page) (st : pmm) : res pmm :=
  let! p := page_at st i in
  Ok (mk_pmm (<[i := f p]> (pages st)) (page_link st) (nr_free st)).
Definition upd_link (f : store -> res store) (st : pmm) : res pmm :=
  let! l := f (page_link st) in Ok (mk_pmm (pages st) l (nr_free st)).
Definition set_nr_free (v : Z) (st : pmm) : pmm := mk_pmm (pages st) (page_link st) v.

(** ** Operations *)

(** The loop of [default_list_add]: the node at which it stops (the head when
    it ran off the end) and the state. *)
Fixpoint default_list_add_loop (fuel : nat) (listelm base : Z) (st : pmm) : res (Z * pmm) :=
  match fuel with
  | O => Err OutOfFuel
  | S fuel =>
      let! listelm := list_next (page_link st) listelm in
      if bool_decide (listelm = FREE_LIST) then Ok (listelm, st)
      else
        let p := listelm in
        assert! negb (base =? p) ;;
        if base <? p then
          let! pb := page_at st base in
          assert! base + property pb <=? p ;;
          let! st := upd_link (list_add_before listelm base) st in
          Ok (listelm, st)
        else
          let! pp := page_at st p in
          assert! p + property pp <=? base ;;
          default_list_add_loop fuel listelm base st
  end.

Definition default_list_add (listelm elm : Z) (st : pmm) : res pmm :=
  assert! bool_decide (listelm = FREE_LIST) ;;
  let! (listelm, st) := default_list_add_loop (S (size (page_link st))) listelm elm st in
  if bool_decide (listelm = FREE_LIST) then upd_link (list_add_before listelm elm) st
  else Ok st.

Definition default_init (st : pmm) : res pmm :=
  let! st := upd_link (list_init FREE_LIST) st in Ok (set_nr_free 0 st).

(** [for (; p != base + n; p ++)] of [default_init_memmap]. *)
Fixpoint init_memmap_loop (n : nat) (p : Z) (st : pmm) : res pmm :=
  match n with
  | O => Ok st
  | S n =>
      let! pg := page_at st p in
      assert! PageReserved pg ;;
      let! st := upd_page p (set_property 0) st in
      let! st := upd_page p (set_flags 0) st in
      let! st := upd_page p (set_ref 0) st in
      init_memmap_loop n (p + 1) st
  end.

Definition default_init_memmap (base n : Z) (st : pmm) : res pmm :=
  assert! 0 <? n ;;
  let! st := init_memmap_loop (Z.to_nat n) base st in
  let! st := upd_page base (set_property n) st in
  let! st := upd_page base SetPageProperty st in
  let st := set_nr_free (u32 (nr_free st + n)) st in
  default_list_add FREE_LIST base st.

Definition default_alloc_pages (n : Z) (st : pmm) : res (option Z * pmm) :=
  assert! 0 <? n ;;
  if nr_free st <? n then Ok (None, st)
  else
    let! page := list_scan (page_link st) FREE_LIST FREE_LIST
                   (fun p => let! pg := page_at st p in Ok (n <=? property pg)) in
    match page with
    | None => Ok (None, st)
    | Some page =>
        let! st := upd_link (list_del page) st in
        let! pg := page_at st page in
        let! st :=
          (if n <? property pg then
             let p := page + n in
             let! st := upd_page p (set_property (u32 (property pg - n))) st in
             let! st := upd_page p SetPageProperty st in
             let! prv := list_prev (page_link st) page in
             upd_link (list_add prv p) st
           else Ok st) in
        let st := set_nr_free (u32 (nr_free st - n)) st in
        let! st := upd_page page ClearPageProperty st in
        Ok (Some page, st)
    end.

(** [for (; p != base + n; p ++)] of [default_free_pages]. *)
Fixpoint free_pages_loop (n : nat) (p : Z) (st : pmm) : res pmm :=
  match n with
  | O => Ok st
  | S n =>
      let! pg := page_at st p in
      assert! negb (PageReserved pg) && negb (PageProperty pg) ;;
      let! st := upd_page p (set_flags 0) st in
      let! st := upd_page p (set_ref 0) st in
      free_pages_loop n (p + 1) st
  end.

(** The merging loop of [default_free_pages]; [le] is the next entry. *)
Fixpoint merge_loop (fuel : nat) (le base : Z) (st : pmm) : res (Z * pmm) :=
  match fuel with
  | O => Err OutOfFuel
  | S fuel =>
      if bool_decide (le = FREE_LIST) then Ok (base, st)
      else
        let p := le in
        let! le := list_next (page_link st) le in
        let! pb := page_at st base in
        let! pp := page_at st p in
        if base + property pb =? p then
          let! st := upd_page base (set_property (u32 (property pb + property pp))) st in
          let! st := upd_page p ClearPageProperty st in
          let! st := upd_link (list_del p) st in
          merge_loop fuel le base st
        else if p + property pp =? base then
          let! st := upd_page p (set_property (u32 (property pp + property pb))) st in
          let! st := upd_page base ClearPageProperty st in
          let base := p in
          let! st := upd_link (list_del p) st in
          merge_loop fuel le base st
        else merge_loop fuel le base st
  end.

Definition default_free_pages (base n : Z) (st : pmm) : res pmm :=
  assert! 0 <? n ;;
  let! st := free_pages_loop (Z.to_nat n) base st in
  let! st := upd_page base (set_property n) st in
  let! st := upd_page base SetPageProperty st in
  let! le := list_next (page_link st) FREE_LIST in
  let! (base, st) := merge_loop (S (size (page_link st))) le base st in
  let st := set_nr_free (u32 (nr_free st + n)) st in
  default_list_add FREE_LIST base st.

Definition default_nr_free_pages (st : pmm) : Z := nr_free st.

(** ** The invariant *)

(** [heap_ok np F st H L]: the descriptors [0..np) exist and carry the flags
    of a free map whose block heads (with sizes) are [H] and whose free pages
    are [F]; the linked list holds the nodes [L].  Between operations [L] is
    the heads of [H]; inside an operation a head may be off the list. *)
Record heap_ok (np : Z) (F : Z -> Prop) (st : pmm) (H : list block) (L : list Z) : Prop := {
  ok_dlist : dlist (page_link st) FREE_LIST L;
  ok_dom : forall i, is_Some (pages st !! i) <-> 0 <= i < np;
  ok_link : forall i, 0 <= i < np -> is_Some (page_link st !! i);
  ok_prop : forall b n, (b, n) ∈ H -> exists pg, pages st !! b = Some pg /\ property pg = n;
  ok_head : forall i pg, pages st !! i = Some pg -> i ∈ H.*1 -> flags pg = 2 /\ ref pg = 0;
  ok_free : forall i pg, pages st !! i = Some pg -> i ∉ H.*1 -> F i -> flags pg = 0 /\ ref pg = 0;
  ok_used : forall i pg, pages st !! i = Some pg -> i ∉ H.*1 -> PageProperty pg = false;
  ok_F : forall i, i ∈ H.*1 -> F i
}.

Record pmm_inv (np : Z) (st : pmm) (bs : list block) : Prop := {
  inv_heap : heap_ok np (covers bs) st bs bs.*1;
  inv_canon : canon (-1) bs;
  inv_nr : nr_free st = total bs;
  inv_np : forall i, covers bs i -> i < np;
  inv_np32 : np < two32
}.

Lemma heap_ok_perm np F st H H' L : H ≡ₚ H' -> heap_ok np F st H L -> heap_ok np F st H' L.
Proof.
  intros Hp [? ? ? Hpr Hh Hf Hu HF]. split; [done..| | | | |]; intros *.
  - rewrite <- Hp. apply Hpr.
  - rewrite <- Hp. apply Hh.
  - rewrite <- Hp. apply Hf.
  - rewrite <- Hp. apply Hu.
  - rewrite <- Hp. apply HF.
Qed.

Lemma heap_ok_relink np F st H L L' s' :
  heap_ok np F st H L -> dom s' = dom (page_link st) -> dlist s' FREE_LIST L' ->
  heap_ok np F (mk_pmm (pages st) s' (nr_free st)) H L'.
Proof.
  intros [? ? Hl ? ? ? ? ?] Hd HL. split; simpl; [done..| |done|done|done|done|done].
  intros i Hi. eapply dom_is_Some; [exact Hd|]. auto.
Qed.

Lemma heap_ok_nr np F st H L v : heap_ok np F st H L -> heap_ok np F (set_nr_free v st) H L.
Proof. intros []. by split. Qed.

Lemma upd_page_Ok i f st pg :
  pages st !! i = Some pg ->
  upd_page i f st = Ok (mk_pmm (<[i := f pg]> (pages st)) (page_link st) (nr_free st)).
Proof. intros Hi. unfold upd_page, page_at. by rewrite Hi. Qed.

Lemma page_at_Ok st i pg : pages st !! i = Some pg -> page_at st i = Ok pg.
Proof. intros Hi. unfold page_at. by rewrite Hi. Qed.

Lemma heap_head np F st H L b n :
  heap_ok np F st H L -> (b, n) ∈ H ->
  exists pg, pages st !! b = Some pg /\ property pg = n /\ flags pg = 2 /\ ref pg = 0 /\ 0 <= b < np.
Proof.
  intros Hok Hin. destruct (ok_prop _ _ _ _ _ Hok _ _ Hin) as (pg & Hpg & Hn).
  exists pg. destruct (ok_head _ _ _ _ _ Hok b pg Hpg) as [? ?].
  { apply list_elem_of_fmap. by exists (b, n). }
  repeat split; try done; apply (ok_dom _ _ _ _ _ Hok); eauto.
Qed.

(** One merge: the block at [a] takes over the pages of the block at [b],
    and one node leaves the list. *)
Lemma heap_ok_absorb np F st a n b m H l1 x l2 :
  heap_ok np F st ((a, n) :: (b, m) :: H) (l1 ++ x :: l2) -> NoDup (a :: b :: H.*1) ->
  0 <= n + m < two32 ->
  exists st1 st2 st3, upd_page a (set_property (u32 (n + m))) st = Ok st1 /\
    upd_page b ClearPageProperty st1 = Ok st2 /\ upd_link (list_del x) st2 = Ok st3 /\
    heap_ok np F st3 ((a, n + m) :: H) (l1 ++ l2) /\ nr_free st3 = nr_free st /\
    (forall i, ~ F i -> pages st3 !! i = pages st !! i).
Proof.
  intros Hok Hnd Hb. pose proof Hok as [HL Hdom Hlk Hpr Hh Hf Hu HF].
  destruct (heap_head _ _ _ _ _ a n Hok) as (pa & Hpa & Ha1 & Ha2 & Ha3 & ?); [set_solver|].
  destruct (heap_head _ _ _ _ _ b m Hok) as (pb & Hpb & Hb1 & Hb2 & Hb3 & ?); [set_solver|].
  apply NoDup_cons in Hnd as [Hab Hnd]. apply NoDup_cons in Hnd as [HbH Hnd].
  assert (a <> b) by set_solver.
  destruct (list_del_mid _ _ _ _ _ HL) as (s' & El & Hd & HL' & Hfr).
  rewrite (upd_page_Ok a _ st pa Hpa). do 3 eexists. split; [done|].
  split; [apply upd_page_Ok; simpl; by rewrite lookup_insert_ne|].
  split; [unfold upd_link; simpl; by rewrite El|].
  split; [|split; [done|]].
  2: { intros i Hi. simpl. rewrite !lookup_insert_ne; [done|..]; intros ->; apply Hi, HF; set_solver. }
  split; simpl; [done| |..].
  - intros i. rewrite <- Hdom, !lookup_insert_is_Some'. split; [|tauto].
    intros [->|[->|?]]; eauto.
  - intros i Hi. eapply dom_is_Some; [exact Hd|]. auto.
  - intros c k [[= -> ->]|Hin]%elem_of_cons.
    + exists (set_property (u32 (n + m)) pa). simpl. rewrite u32_id by done.
      rewrite lookup_insert_ne, lookup_insert_eq by done. done.
    + assert (c ∈ H.*1) by (apply list_elem_of_fmap; by exists (c, k)).
      destruct (Hpr c k) as (pg & ? & ?); [set_solver|]. exists pg.
      rewrite !lookup_insert_ne by set_solver. done.
  - intros i pg Hpg Hi. destruct (decide (i = a)) as [->|].
    + rewrite lookup_insert_ne, lookup_insert_eq in Hpg by done. by simplify_eq/=.
    + rewrite !lookup_insert_ne in Hpg by set_solver. apply (Hh i); set_solver.
  - intros i pg Hpg Hi HFi. destruct (decide (i = b)) as [->|].
    + rewrite lookup_insert_eq in Hpg. simplify_eq/=. by rewrite Hb2.
    + rewrite !lookup_insert_ne in Hpg by set_solver. apply (Hf i); set_solver.
  - intros i pg Hpg Hi. destruct (decide (i = b)) as [->|].
    + rewrite lookup_insert_eq in Hpg. simplify_eq/=. unfold PageProperty; simpl. by rewrite Hb2.
    + rewrite !lookup_insert_ne in Hpg by set_solver. apply (Hu i); set_solver.
  - intros i Hi. apply HF. set_solver.
Qed.

(** ** The loops *)

(** The map [m'] is [m] with [f] applied at [p .. p+n). *)
Definition range_upd (f : Page -> Page) (p : Z) (n : nat) (m m' : gmap Z Page) : Prop :=
  forall i, m' !! i = if bool_decide (p <= i < p + Z.of_nat n) then f <$> m !! i else m !! i.

Lemma range_upd_0 f p m : range_upd f p 0 m m.
Proof. intros i. rewrite bool_decide_false; [done|lia]. Qed.

Lemma range_upd_S f p n m m' pg :
  m !! p = Some pg -> range_upd f (p + 1) n (<[p := f pg]> m) m' -> range_upd f p (S n) m m'.
Proof.
  intros Hp Hr i. rewrite Hr. destruct (decide (i = p)) as [->|Hne].
  - rewrite bool_decide_false, bool_decide_true, lookup_insert_eq, Hp by lia. done.
  - rewrite lookup_insert_ne by done. repeat case_bool_decide; done || lia.
Qed.

Lemma init_memmap_loop_Ok n p st :
  (forall i, p <= i < p + Z.of_nat n ->
     exists pg, pages st !! i = Some pg /\ PageReserved pg = true) ->
  exists m', init_memmap_loop n p st = Ok (mk_pmm m' (page_link st) (nr_free st)) /\
    range_upd (fun pg => mk_Page 0 0 0) p n (pages st) m'.
Proof.
  revert p st. induction n as [|n IH]; intros p st Hpg; simpl.
  - exists (pages st). destruct st. split; [done|apply range_upd_0].
  - destruct (Hpg p) as (pg & Hp & Hr); [lia|].
    rewrite (page_at_Ok _ _ _ Hp). simpl. rewrite Hr. simpl.
    rewrite (upd_page_Ok _ _ _ _ Hp). simpl.
    erewrite upd_page_Ok by (simpl; apply lookup_insert_eq). simpl.
    erewrite upd_page_Ok by (simpl; apply lookup_insert_eq). simpl.
    rewrite !insert_insert_eq. unfold set_ref, set_flags, set_property; simpl.
    edestruct IH as (m' & E & Hm); [|rewrite E; eexists; split; [done|by eapply range_upd_S]].
    intros i Hi. simpl. rewrite lookup_insert_ne by lia. apply Hpg. lia.
Qed.

Lemma free_pages_loop_Ok n p st :
  (forall i, p <= i < p + Z.of_nat n ->
     exists pg, pages st !! i = Some pg /\ PageReserved pg = false /\ PageProperty pg = false) ->
  exists m', free_pages_loop n p st = Ok (mk_pmm m' (page_link st) (nr_free st)) /\
    range_upd (fun pg => mk_Page 0 0 (property pg)) p n (pages st) m'.
Proof.
  revert p st. induction n as [|n IH]; intros p st Hpg; simpl.
  - exists (pages st). destruct st. split; [done|apply range_upd_0].
  - destruct (Hpg p) as (pg & Hp & Hr & Hpr); [lia|].
    rewrite (page_at_Ok _ _ _ Hp). simpl. rewrite Hr, Hpr. simpl.
    rewrite (upd_page_Ok _ _ _ _ Hp). simpl.
    erewrite upd_page_Ok by (simpl; apply lookup_insert_eq). simpl.
    rewrite !insert_insert_eq. unfold set_ref, set_flags; simpl.
    edestruct IH as (m' & E & Hm);
      [|rewrite E; eexists; split; [done|by eapply (range_upd_S (fun pg => mk_Page 0 0 (property pg)))]].
    intros i Hi. simpl. rewrite lookup_insert_ne by lia. apply Hpg. lia.
Qed.

Lemma total_app bs1 bs2 : total (bs1 ++ bs2) = total bs1 + total bs2.
Proof. induction bs1 as [|[b n] bs1 IH]; simpl; lia. Qed.

(** The merging loop computes [absorb]. *)
Lemma merge_loop_refines np F rest done base n st fuel b' n' kept :
  heap_ok np F st ((base, n) :: done ++ rest) (done ++ rest).*1 ->
  NoDup (base :: (done ++ rest).*1) ->
  0 <= n -> (forall b m, (b, m) ∈ rest -> 0 <= m) -> n + total rest < two32 ->
  (length rest < fuel)%nat -> absorb base n rest = (b', n', kept) ->
  exists st', merge_loop fuel (default FREE_LIST (head rest.*1)) base st = Ok (b', st') /\
    heap_ok np F st' ((b', n') :: done ++ kept) (done ++ kept).*1 /\
    NoDup (b' :: (done ++ kept).*1) /\ nr_free st' = nr_free st /\
    (forall i, ~ F i -> pages st' !! i = pages st !! i).
Proof.
  revert done base n st fuel b' n' kept.
  induction rest as [|[p m] rest IH]; intros done base n st fuel b' n' kept Hok Hnd Hn Hm Hb Hf Ha;
    (destruct fuel as [|fuel]; [simpl in Hf; lia|]).
  { simpl in Ha. simplify_eq/=. eexists. split_and!; done. }
  simpl in Ha, Hb, Hf. assert (Hm0 : 0 <= m) by (eapply Hm; left).
  assert (Hm' : forall b k, (b, k) ∈ rest -> 0 <= k) by (intros; eapply Hm; right; eauto).
  assert (Ht : 0 <= total rest).
  { clear -Hm'. induction rest as [|[b k] r IH]; simpl; [lia|].
    pose proof (Hm' b k ltac:(left)). assert (0 <= total r) by (apply IH; intros; eapply Hm'; right; eauto). lia. }
  assert (Hpf : p <> FREE_LIST).
  { destruct (heap_head _ _ _ _ _ p m Hok) as (? & ? & ? & ? & ? & ?); [set_solver|]. unfold FREE_LIST. lia. }
  simpl. unfold id. rewrite bool_decide_false by done.
  pose proof (ok_dlist _ _ _ _ _ Hok) as HL. rewrite fmap_app, fmap_cons in HL. cbn [fst] in HL.
  rewrite (list_next_mid _ _ _ _ _ HL). cbn [rbind].
  destruct (heap_head _ _ _ _ _ base n Hok) as (pb & Hpb & Hb1 & _); [set_solver|].
  destruct (heap_head _ _ _ _ _ p m Hok) as (pp & Hpp & Hp1 & _); [set_solver|].
  rewrite (page_at_Ok _ _ _ Hpb), (page_at_Ok _ _ _ Hpp). cbn [rbind]. rewrite Hb1, Hp1.
  rewrite fmap_app, fmap_cons in Hnd. cbn [fst] in Hnd.
  assert (Hnd3 : NoDup (base :: p :: (done ++ rest).*1)).
  { rewrite fmap_app. eapply NoDup_perm; [|exact Hnd]. solve_Permutation. }
  rewrite fmap_app, fmap_cons in Hok. cbn [fst] in Hok.
  destruct (Z.eqb_spec (base + n) p) as [He|He]; [|destruct (Z.eqb_spec (p + m) base) as [He'|He']].
  - destruct (heap_ok_absorb np F st base n p m (done ++ rest) done.*1 p rest.*1)
      as (st1 & st2 & st3 & E1 & E2 & E3 & Hok' & Hnr & Hfr).
    { eapply heap_ok_perm; [|exact Hok]. solve_Permutation. }
    { done. } { lia. }
    rewrite E1. cbn [rbind]. rewrite E2. cbn [rbind]. rewrite E3. cbn [rbind].
    rewrite <- fmap_app in Hok'.
    destruct (IH done base (n + m) st3 fuel b' n' kept) as (st' & E & ? & ? & ? & Hfr'); try done; try lia.
    { apply NoDup_cons in Hnd3 as [? [? ?]%NoDup_cons]. constructor; [set_solver|done]. }
    exists st'. rewrite E. split_and!; try done; [congruence|]. intros i Hi. rewrite Hfr', Hfr; done.
  - destruct (heap_ok_absorb np F st p m base n (done ++ rest) done.*1 p rest.*1)
      as (st1 & st2 & st3 & E1 & E2 & E3 & Hok' & Hnr & Hfr).
    { eapply heap_ok_perm; [|exact Hok]. solve_Permutation. }
    { eapply NoDup_perm; [|exact Hnd3]. apply perm_swap. } { lia. }
    rewrite E1. cbn [rbind]. rewrite E2. cbn [rbind]. rewrite E3. cbn [rbind].
    rewrite <- fmap_app in Hok'.
    destruct (IH done p (m + n) st3 fuel b' n' kept) as (st' & E & ? & ? & ? & Hfr'); try done; try lia.
    { by apply NoDup_cons in Hnd3 as [_ ?]. }
    exists st'. rewrite E. split_and!; try done; [congruence|]. intros i Hi. rewrite Hfr', Hfr; done.
  - destruct (absorb base n rest) as [[b1 k1] kept1] eqn:Ea. injection Ha as <- <- <-.
    destruct (IH (done ++ [(p, m)]) base n st fuel b1 k1 kept1) as (st' & E & ? & ? & ? & Hfr');
      rewrite <- ?app_assoc in *; rewrite ?fmap_app, ?fmap_cons in *; try done; try lia.
    exists st'. by rewrite E.
Qed.

Lemma upd_link_add np F st H L L' g s' :
  heap_ok np F st H L -> g (page_link st) = Ok s' -> dom s' = dom (page_link st) ->
  dlist s' FREE_LIST L' ->
  exists st', upd_link g st = Ok st' /\ heap_ok np F st' H L' /\
    nr_free st' = nr_free st /\ pages st' = pages st.
Proof.
  intros Hok E Hd HL. unfold upd_link. rewrite E. eexists. split; [done|].
  split; [by eapply heap_ok_relink|done].
Qed.

(** The insertion loop computes [place]. *)
Lemma default_list_add_loop_refines np F rest done base n st fuel x rest' :
  heap_ok np F st ((base, n) :: done ++ rest) (done ++ rest).*1 ->
  base ∉ (done ++ rest).*1 ->
  list_next (page_link st) x = Ok (default FREE_LIST (head rest.*1)) ->
  (length rest < fuel)%nat -> place base n rest = Ok rest' ->
  exists le st', default_list_add_loop fuel x base st = Ok (le, st') /\
    (nr_free st' = nr_free st /\ pages st' = pages st) /\
    if decide (le = FREE_LIST) then st' = st /\ rest' = rest ++ [(base, n)]
    else heap_ok np F st' (done ++ rest') (done ++ rest').*1.
Proof.
  revert done x fuel rest'. induction rest as [|[p m] rest IH];
    intros done x fuel rest' Hok Hnin Hx Hf Ha; (destruct fuel as [|fuel]; [simpl in Hf; lia|]);
    simpl; rewrite Hx; simpl; unfold id.
  { simpl in Ha. injection Ha as <-. by exists FREE_LIST, st. }
  simpl in Ha. rewrite fmap_app, fmap_cons in Hok, Hnin. cbn [fst] in Hok, Hnin.
  destruct (heap_head _ _ _ _ _ base n Hok) as (pb & Hpb & Hb1 & _ & _ & ?); [set_solver|].
  destruct (heap_head _ _ _ _ _ p m Hok) as (pp & Hpp & Hp1 & _ & _ & ?); [set_solver|].
  rewrite bool_decide_false by (unfold FREE_LIST; lia).
  apply rbind_Ok in Ha as ([] & Ha1 & Ha). rewrite Ha1. cbn [rbind].
  pose proof (ok_dlist _ _ _ _ _ Hok) as HL.
  destruct (base <? p).
  - rewrite (page_at_Ok _ _ _ Hpb). cbn [rbind]. rewrite Hb1.
    apply rbind_Ok in Ha as ([] & Ha2 & Ha). rewrite Ha2. cbn [rbind]. injection Ha as <-.
    destruct (list_add_before_mid _ _ _ _ _ base HL) as (s' & E & Hd & HL' & _).
    { assert (base <> FREE_LIST) by (unfold FREE_LIST; lia). set_solver. }
    { by eapply ok_link. }
    destruct (upd_link_add _ _ _ _ _ _ _ _ Hok E Hd HL') as (st' & E' & Hok' & Hnr).
    exists p, st'. rewrite E'. split; [done|]. split; [done|].
    rewrite decide_False by (unfold FREE_LIST; lia).
    rewrite fmap_app, !fmap_cons. eapply heap_ok_perm; [|exact Hok']. solve_Permutation.
  - rewrite (page_at_Ok _ _ _ Hpp). cbn [rbind]. rewrite Hp1.
    apply rbind_Ok in Ha as ([] & Ha2 & Ha). rewrite Ha2. cbn [rbind].
    apply rbind_Ok in Ha as (rest1 & Ha3 & Ha). injection Ha as <-.
    destruct (IH (done ++ [(p, m)]) p fuel rest1) as (le & st' & E & Hnr & Hres);
      rewrite <- ?app_assoc in *; rewrite ?fmap_app, ?fmap_cons in *; try done.
    { rewrite <- (list_next_mid _ _ _ _ _ HL). done. }
    { simpl in Hf. lia. }
    exists le, st'. split; [done|]. split; [done|]. case_decide; [|done].
    destruct Hres as [-> ->]. done.
Qed.

Lemma default_list_add_refines np F st base n bs bs' :
  heap_ok np F st ((base, n) :: bs) bs.*1 -> base ∉ bs.*1 -> place base n bs = Ok bs' ->
  exists st', default_list_add FREE_LIST base st = Ok st' /\
    heap_ok np F st' bs' bs'.*1 /\ nr_free st' = nr_free st /\ pages st' = pages st.
Proof.
  intros Hok Hnin Hp. unfold default_list_add. rewrite bool_decide_true by done. cbn [rassert rbind].
  pose proof (ok_dlist _ _ _ _ _ Hok) as HL. pose proof (dlist_size _ _ _ HL) as Hsz.
  rewrite length_fmap in Hsz.
  destruct (default_list_add_loop_refines np F bs [] base n st (S (size (page_link st))) FREE_LIST bs')
    as (le & st1 & E & Hnr & Hres); [done|done|by apply list_next_dlist|lia|done|].
  rewrite E. cbn [rbind]. case_decide; subst.
  - destruct Hres as [-> ->]. rewrite bool_decide_true by done.
    destruct (heap_head _ _ _ _ _ base n Hok) as (pb & _ & _ & _ & _ & ?); [set_solver|].
    destruct (list_add_before_dlist _ _ _ base HL) as (s' & E' & Hd & HL' & _).
    { assert (base <> FREE_LIST) by (unfold FREE_LIST; lia). set_solver. }
    { by eapply ok_link. }
    destruct (upd_link_add _ _ _ _ _ _ _ _ Hok E' Hd HL') as (st' & E2 & Hok' & Hnr' & Hpg').
    exists st'. split; [done|]. split; [|destruct Hnr; split; congruence].
    rewrite fmap_app. eapply heap_ok_perm; [|exact Hok']. solve_Permutation.
  - rewrite bool_decide_false by done. eauto.
Qed.

(** ** Allocation and release *)

Definition first_fit (n : Z) (st : pmm) (p : Z) : res bool :=
  let! pg := page_at st p in Ok (n <=? property pg).

Lemma heap_ok_mono np (F F' : Z -> Prop) st H L :
  (forall i, F' i -> F i) -> (forall i, i ∈ H.*1 -> F' i) ->
  heap_ok np F st H L -> heap_ok np F' st H L.
Proof. intros Hm HF []. split; eauto. Qed.

Lemma find_first_fit n bs :
  forall props : Z -> Z, (forall b m, (b, m) ∈ bs -> props b = m) ->
  match carve n bs with
  | None => find (fun b => n <=? props b) bs.*1 = None
  | Some (p, _) => find (fun b => n <=? props b) bs.*1 = Some p
  end.
Proof.
  intros props. induction bs as [|[b m] bs IH]; intros Hp; simpl; [done|].
  rewrite (Hp b m) by left. destruct (n <=? m); [done|].
  destruct (carve n bs) as [[]|]; apply IH; intros; apply Hp; by right.
Qed.

Lemma first_fit_scan np st bs n :
  pmm_inv np st bs ->
  list_scan (page_link st) FREE_LIST FREE_LIST (first_fit n st) =
  Ok (fst <$> carve n bs).
Proof.
  intros [Hok _ _ _ _].
  erewrite (list_scan_find _ _ _ _ (fun b => n <=? from_option property 0 (pages st !! b)));
    [|by apply (ok_dlist _ _ _ _ _ Hok)|].
  - f_equal. pose proof (find_first_fit n bs (fun b => from_option property 0 (pages st !! b))) as Hf.
    destruct (carve n bs) as [[]|]; apply Hf; intros b m Hin;
      destruct (heap_head _ _ _ _ _ b m Hok Hin) as (pg & -> & ? & _); done.
  - intros y [[b m] [-> Hin]]%list_elem_of_fmap. unfold first_fit.
    destruct (heap_head _ _ _ _ _ b m Hok Hin) as (pg & Hpg & ? & _).
    simpl. rewrite (page_at_Ok _ _ _ Hpg), Hpg. done.
Qed.

(** Splitting the chosen block: the remainder becomes a head in its place. *)
Lemma carve_heap np F st H L p n m :
  heap_ok np F st ((p, m) :: H) L -> NoDup (p :: H.*1) ->
  0 < n < m -> m < two32 -> F (p + n) -> p + n ∉ H.*1 -> p + n < np ->
  exists st1 st2, upd_page (p + n) (set_property (u32 (m - n))) st = Ok st1 /\
    upd_page (p + n) SetPageProperty st1 = Ok st2 /\
    heap_ok np F st2 ((p, m) :: (p + n, m - n) :: H) L /\
    page_link st2 = page_link st /\ nr_free st2 = nr_free st /\
    (forall i, ~ F i -> pages st2 !! i = pages st !! i).
Proof.
  intros Hok Hnd Hn Hm HFn Hnin Hnp. pose proof Hok as [HL Hdom Hlk Hpr Hh Hf Hu HF].
  destruct (heap_head _ _ _ _ _ p m Hok) as (pp & Hpp & _ & _ & _ & ?); [set_solver|].
  destruct (proj2 (Hdom (p + n))) as [pn Hpn]; [lia|].
  assert (Hne : p + n ∉ ((p, m) :: H).*1) by (simpl; apply not_elem_of_cons; split; [lia|done]).
  destruct (Hf _ _ Hpn Hne HFn) as [Hfl Hrf].
  rewrite (upd_page_Ok _ _ _ _ Hpn). do 2 eexists. split; [done|].
  split; [apply upd_page_Ok; simpl; apply lookup_insert_eq|].
  split; [|split; [done|split; [done|]]].
  2: { intros i Hi. simpl. rewrite !lookup_insert_ne; [done|..]; intros <-; done. }
  simpl. rewrite insert_insert_eq. split; simpl; [done| |done|..].
  - intros i. rewrite <- Hdom, lookup_insert_is_Some'. split; [|tauto]. intros [<-|?]; eauto.
  - intros b k Hin. destruct (decide (b = p + n)) as [->|Hb].
    + assert (k = m - n) as ->.
      { apply elem_of_cons in Hin as [?|[?|Hin]%elem_of_cons]; [simplify_eq; lia|by simplify_eq|].
        destruct Hnin. apply list_elem_of_fmap. by exists (p + n, k). }
      eexists. rewrite lookup_insert_eq. split; [done|]. simpl. apply u32_id. unfold is_u32. lia.
    + rewrite lookup_insert_ne by done. apply Hpr. set_solver.
  - intros i pg Hpg Hi. destruct (decide (i = p + n)) as [->|].
    + rewrite lookup_insert_eq in Hpg. simplify_eq/=. by rewrite Hfl.
    + rewrite lookup_insert_ne in Hpg by done. apply (Hh i); set_solver.
  - intros i pg Hpg Hi HFi. rewrite lookup_insert_ne in Hpg by set_solver. apply (Hf i); set_solver.
  - intros i pg Hpg Hi. rewrite lookup_insert_ne in Hpg by set_solver. apply (Hu i); set_solver.
  - intros i Hi. rewrite !elem_of_cons in Hi. destruct Hi as [->|[->|Hi]];
      [apply HF; set_solver|done|apply HF; set_solver].
Qed.

(** Taking a head out of the free map: its flag is cleared and its pages are
    no longer free. *)
Lemma drop_head np (F F' : Z -> Prop) st H L p m :
  heap_ok np F st ((p, m) :: H) L -> p ∉ H.*1 ->
  (forall i, F' i -> F i) -> ~ F' p -> (forall i, i ∈ H.*1 -> F' i) ->
  exists st', upd_page p ClearPageProperty st = Ok st' /\ heap_ok np F' st' H L /\
    nr_free st' = nr_free st /\ (forall i, i <> p -> pages st' !! i = pages st !! i) /\
    exists pg, pages st' !! p = Some pg /\ flags pg = 0 /\ ref pg = 0.
Proof.
  intros Hok HpH HFF Hnp HF'. pose proof Hok as [HL Hdom Hlk Hpr Hh Hf Hu HF].
  destruct (heap_head _ _ _ _ _ p m Hok) as (pp & Hpp & _ & Hfl & Hrf & _); [set_solver|].
  rewrite (upd_page_Ok _ _ _ _ Hpp). eexists. split; [done|].
  split; [|split; [done|split]].
  2: { intros i Hi. simpl. by rewrite lookup_insert_ne. }
  2: { eexists. simpl. rewrite lookup_insert_eq. split; [done|]. simpl. by rewrite Hfl. }
  split; simpl; [done| |done|..].
  - intros i. rewrite <- Hdom, lookup_insert_is_Some'. split; [|tauto].
    intros [?|?]; [subst; eauto|eauto].
  - intros b k Hin. assert (b <> p) by (intros ->; apply HpH, list_elem_of_fmap; by exists (p, k)).
    rewrite lookup_insert_ne by done. apply Hpr. by right.
  - intros i pg Hpg Hi. rewrite lookup_insert_ne in Hpg by set_solver. apply (Hh i); set_solver.
  - intros i pg Hpg Hi HFi. assert (i <> p) by (intros ->; done).
    rewrite lookup_insert_ne in Hpg by done. apply (Hf i); set_solver.
  - intros i pg Hpg Hi. destruct (decide (i = p)) as [->|].
    + rewrite lookup_insert_eq in Hpg. simplify_eq/=. unfold PageProperty; simpl. by rewrite Hfl.
    + rewrite lookup_insert_ne in Hpg by done. apply (Hu i); set_solver.
  - done.
Qed.

(** The part of [default_alloc_pages] between the unlinking of the block and
    the final bookkeeping. *)
Lemma split_block_refines np F st bs1 p m bs2 n s' :
  heap_ok np F st (bs1 ++ (p, m) :: bs2) (bs1 ++ (p, m) :: bs2).*1 ->
  list_del p (page_link st) = Ok s' -> dom s' = dom (page_link st) ->
  dlist s' FREE_LIST (bs1.*1 ++ bs2.*1) -> prv s' p = Some (default FREE_LIST (last bs1.*1)) ->
  0 < n < m -> m < two32 -> F (p + n) -> p + n ∉ p :: (bs1 ++ bs2).*1 -> p + n < np ->
  exists st1 st2 st3 st4, upd_link (list_del p) st = Ok st1 /\
    upd_page (p + n) (set_property (u32 (m - n))) st1 = Ok st2 /\
    upd_page (p + n) SetPageProperty st2 = Ok st3 /\
    list_prev (page_link st3) p = Ok (default FREE_LIST (last bs1.*1)) /\
    upd_link (list_add (default FREE_LIST (last bs1.*1)) (p + n)) st3 = Ok st4 /\
    heap_ok np F st4 ((p, m) :: bs1 ++ (p + n, m - n) :: bs2) (bs1 ++ (p + n, m - n) :: bs2).*1 /\
    nr_free st4 = nr_free st /\ (forall i, ~ F i -> pages st4 !! i = pages st !! i).
Proof.
  intros Hok E Hd HL' Hprv Hn Hm HF Hnin Hnp.
  assert (Hnd : NoDup (p :: (bs1 ++ bs2).*1)).
  { pose proof (ok_dlist _ _ _ _ _ Hok) as [Hnd _]. apply NoDup_cons in Hnd as [_ Hnd].
    rewrite fmap_app, fmap_cons in Hnd. rewrite fmap_app.
    eapply NoDup_perm; [|exact Hnd]. solve_Permutation. }
  destruct (upd_link_add _ _ _ _ _ _ _ _ Hok E Hd HL') as (st1 & E1 & Hok1 & Hnr1 & Hpg1).
  destruct (carve_heap np F st1 (bs1 ++ bs2) (bs1.*1 ++ bs2.*1) p n m)
    as (st2 & st3 & E2 & E3 & Hok3 & Hl3 & Hnr3 & Hpg3); try done.
  { eapply heap_ok_perm; [|exact Hok1]. solve_Permutation. }
  { set_solver. }
  assert (Hs1 : page_link st1 = s').
  { unfold upd_link in E1. rewrite E in E1. by simplify_eq/=. }
  pose proof (ok_dlist _ _ _ _ _ Hok3) as HL3.
  destruct (list_add_after_last _ _ _ _ (p + n) HL3) as (s4 & E4 & Hd4 & HL4 & _).
  { rewrite <- fmap_app. assert (p + n <> FREE_LIST); [|set_solver].
    destruct (heap_head _ _ _ _ _ (p + n) (m - n) Hok3) as (? & _ & _ & _ & _ & ?); [set_solver|].
    unfold FREE_LIST. lia. }
  { eapply ok_link; [exact Hok3|].
    destruct (heap_head _ _ _ _ _ (p + n) (m - n) Hok3) as (? & _ & _ & _ & _ & ?); [set_solver|done]. }
  destruct (upd_link_add _ _ _ _ _ _ _ _ Hok3 E4 Hd4 HL4) as (st4 & E4' & Hok4 & Hnr4 & Hpg4).
  exists st1, st2, st3, st4. split_and!; try done.
  - rewrite Hl3, Hs1. by apply prv_spec.
  - rewrite fmap_app, fmap_cons. eapply heap_ok_perm; [|exact Hok4]. solve_Permutation.
  - congruence.
  - intros i Hi. by rewrite Hpg4, Hpg3, Hpg1.
Qed.

(** What a successful allocation leaves: the invariant for the remaining
    blocks, [n] blank descriptors, and every descriptor in use untouched. *)
Definition alloc_post (np n : Z) (st : pmm) (bs : list block) (p : Z) (bs' : list block) (st' : pmm) :=
  pmm_inv np st' bs' /\ 0 <= p /\ p + n <= np /\
  (forall i, p <= i < p + n -> exists pg, pages st' !! i = Some pg /\ flags pg = 0 /\ ref pg = 0) /\
  (forall i, ~ covers bs i -> pages st' !! i = pages st !! i).

Lemma covers_head bs i : i ∈ bs.*1 -> (forall b n, (b, n) ∈ bs -> 0 < n) -> covers bs i.
Proof.
  intros [[b n] [-> Hin]]%list_elem_of_fmap Hp. exists b, n. simpl. specialize (Hp _ _ Hin). split; [done|lia].
Qed.

Lemma canon_heads lo bs i : canon lo bs -> i ∈ bs.*1 -> covers bs i.
Proof.
  intros Hc Hi. apply covers_head; [done|]. intros b n Hin.
  by destruct (canon_In _ _ _ _ Hc Hin) as (_ & ? & _).
Qed.

(** The bookkeeping after the block has left the list. *)
Lemma alloc_finish np n st bs p m H bs' :
  0 < n -> pmm_inv np st bs -> carve n bs = Some (p, bs') -> 
  forall st1, heap_ok np (covers bs) st1 ((p, m) :: H) bs'.*1 -> H ≡ₚ bs' ->
  nr_free st1 = nr_free st -> (forall i, ~ covers bs i -> pages st1 !! i = pages st !! i) ->
  exists st', upd_page p ClearPageProperty (set_nr_free (u32 (nr_free st1 - n)) st1) = Ok st' /\
    alloc_post np n st bs p bs' st'.
Proof.
  intros Hn Hinv Hc st1 Hok HP Hnr Hfr. destruct Hinv as [_ Hcan Hnrf Hnp Hnp32].
  destruct (carve_Some _ _ _ _ _ Hn Hcan Hc) as (Hcan' & Ht & Hcov & Hd).
  assert (Hpcov : forall i, p <= i < p + n -> covers bs i) by (intros; apply Hcov; auto).
  assert (Hp0 : -1 < p) by (eapply canon_covers; [exact Hcan|]; apply Hpcov; lia).
  pose proof (total_nonneg _ _ Hcan'). pose proof (total_bound _ _ _ Hcan Hnp).
  destruct (drop_head np (covers bs) (covers bs') (set_nr_free (u32 (nr_free st1 - n)) st1) H bs'.*1 p m)
    as (st' & E & Hok' & Hnr' & Hpg' & Hp).
  { by apply heap_ok_nr. }
  { rewrite HP. intros Hin%(canon_heads _ _ _ Hcan')%Hd. lia. }
  { intros i ?. apply Hcov. auto. }
  { intros Hin%Hd. lia. }
  { intros i Hi. rewrite HP in Hi. by eapply canon_heads. }
  exists st'. split; [done|]. unfold alloc_post. split_and!.
  - split; [by eapply heap_ok_perm|done| |intros i Hi; apply Hnp, Hcov; auto|done].
    rewrite Hnr'. simpl. rewrite Hnr, Hnrf, Ht, u32_id; [lia|]. unfold is_u32. lia.
  - lia.
  - pose proof (Hnp (p + n - 1) ltac:(apply Hpcov; lia)). lia.
  - intros i Hi. destruct (decide (i = p)) as [->|Hne]; [done|].
    rewrite Hpg' by done. simpl.
    destruct (proj2 (ok_dom _ _ _ _ _ Hok i)) as [pg Hpg].
    { specialize (Hnp i (Hpcov i Hi)). lia. }
    exists pg. split; [done|]. apply (ok_free _ _ _ _ _ Hok i pg Hpg); [|by apply Hpcov].
    simpl. rewrite HP. intros [|Hin%(canon_heads _ _ _ Hcan')%Hd]%elem_of_cons; done.
  - intros i Hi. rewrite Hpg'; [by apply Hfr|]. intros ->. apply Hi, Hpcov. lia.
Qed.

Theorem alloc_pages_refines np st bs n :
  pmm_inv np st bs -> 0 < n ->
  match carve n bs with
  | None => default_alloc_pages n st = Ok (None, st)
  | Some (p, bs') => exists st', default_alloc_pages n st = Ok (Some p, st') /\
      alloc_post np n st bs p bs' st'
  end.
Proof.
  intros Hinv Hn. unfold default_alloc_pages.
  destruct (Z.ltb_spec 0 n) as [_|]; [|lia]. cbn [rassert rbind].
  pose proof Hinv as [Hok Hcan Hnr Hnp Hnp32].
  destruct (Z.ltb_spec (nr_free st) n) as [Hlt|_].
  { destruct (carve n bs) as [[p bs']|] eqn:Hc; [|done].
    apply carve_split in Hc as (bs1 & m & bs2 & -> & Hm & _).
    pose proof (total_In _ _ p m Hcan ltac:(set_solver)). lia. }
  fold (first_fit n st). rewrite (first_fit_scan _ _ _ _ Hinv). cbn [rbind].
  destruct (carve n bs) as [[p bs']|] eqn:Hc; [|done]. simpl.
  destruct (carve_Some _ _ _ _ _ Hn Hcan Hc) as (Hcan' & Ht & Hcov & Hd).
  pose proof (carve_split _ _ _ _ Hc) as (bs1 & m & bs2 & Hbs & Hm & _ & Hbs').
  pose proof (total_bound _ _ _ Hcan Hnp) as Htb.
  assert (Hpm : m <= total bs) by (apply (total_In _ _ p m Hcan); rewrite Hbs; set_solver).
  assert (Hok1 : heap_ok np (covers bs) st (bs1 ++ (p, m) :: bs2) (bs1 ++ (p, m) :: bs2).*1)
    by by rewrite <- Hbs.
  clear Hok. rename Hok1 into Hok. pose proof (ok_dlist _ _ _ _ _ Hok) as HL.
  rewrite fmap_app, fmap_cons in HL. cbn [fst] in HL.
  destruct (list_del_mid _ _ _ _ _ HL) as (s' & El & Hd' & HL' & Hfr).
  destruct (heap_head _ _ _ _ _ p m Hok) as (pg & Hpg & Hpr & _ & _ & Hpb); [set_solver|].
  assert (Hst1 : upd_link (list_del p) st = Ok (mk_pmm (pages st) s' (nr_free st)))
    by (unfold upd_link; by rewrite El).
  rewrite Hst1. cbn [rbind]. rewrite (page_at_Ok _ _ pg) by done. cbn [rbind]. rewrite Hpr.
  assert (HPbs : bs ≡ₚ (p, m) :: bs1 ++ bs2) by (rewrite Hbs; solve_Permutation).
  destruct (Z.ltb_spec n m) as [Hnm|Hnm].
  - destruct (split_block_refines np (covers bs) st bs1 p m bs2 n s')
      as (? & st2 & st3 & st4 & F1 & F2 & F3 & F4 & F5 & Hok4 & Hnr4 & Hfr4); try done; try lia.
    { assert (Hpl : p ∉ FREE_LIST :: bs1.*1 ++ bs2.*1).
      { destruct HL as [Hnd _]. apply NoDup_cons in Hnd as [Hp Hnd].
        apply NoDup_app in Hnd as (_ & ? & [? _]%NoDup_cons). set_solver. }
      destruct (Hfr p Hpl) as [_ Hprv]. rewrite Hprv. apply prv_spec. by eapply list_prev_mid. }
    { apply Hcov. left. rewrite Hbs'. exists (p + n), (m - n). split; [set_solver|lia]. }
    { destruct (canon_NoDup _ _ Hcan') as [Hnd _]. rewrite Hbs' in Hnd. simpl in Hnd.
      rewrite fmap_app, fmap_cons in Hnd. apply NoDup_app in Hnd as (_ & ? & [? _]%NoDup_cons).
      simpl in *. rewrite fmap_app. set_solver by lia. }
    { apply Hnp, Hcov. left. rewrite Hbs'. exists (p + n), (m - n). split; [set_solver|lia]. }
    rewrite Hst1 in F1. injection F1 as <-. rewrite F2. cbn [rbind]. rewrite F3. cbn [rbind].
    rewrite F4. cbn [rbind]. rewrite F5. cbn [rbind].
    destruct (alloc_finish np n st bs p m (bs1 ++ (p + n, m - n) :: bs2) bs' Hn Hinv Hc st4) as (st' & E & Hpost);
      [rewrite Hbs'; exact Hok4|by rewrite Hbs'|done|done|].
    exists st'. rewrite E. done.
  - cbn [rbind]. assert (m = n) as -> by lia.
    destruct (alloc_finish np n st bs p n (bs1 ++ bs2) bs' Hn Hinv Hc (mk_pmm (pages st) s' (nr_free st)))
      as (st' & E & Hpost); [|by rewrite Hbs'|done|done|].
    { rewrite Hbs'. simpl. rewrite fmap_app. eapply heap_ok_relink; [|done|done].
      eapply heap_ok_perm; [|exact Hok]. solve_Permutation. }
    simpl in E. simpl. rewrite E. eauto.
Qed.

(** The descriptors after the first loop of [default_free_pages] and the
    marking of the new head. *)
Lemma free_prepare np st bs base n :
  pmm_inv np st bs -> 0 < n -> 0 <= base -> base + n <= np ->
  (forall i, base <= i < base + n -> ~ covers bs i /\
     exists pg, pages st !! i = Some pg /\ PageReserved pg = false) ->
  exists st1 st2 st3, free_pages_loop (Z.to_nat n) base st = Ok st1 /\
    upd_page base (set_property n) st1 = Ok st2 /\ upd_page base SetPageProperty st2 = Ok st3 /\
    heap_ok np (fun i => covers bs i \/ base <= i < base + n) st3 ((base, n) :: bs) bs.*1 /\
    nr_free st3 = nr_free st /\
    (forall i, ~ base <= i < base + n -> pages st3 !! i = pages st !! i).
Proof.
  intros [Hok Hcan Hnr Hnp Hnp32] Hn Hb Hbn Hpg.
  assert (Hnh : forall i, base <= i < base + n -> i ∉ bs.*1).
  { intros i Hi Hin. by eapply Hpg, canon_heads. }
  destruct (free_pages_loop_Ok (Z.to_nat n) base st) as (m' & E & Hm').
  { intros i Hi. destruct (Hpg i) as (Hc & pg & Hp & Hr); [lia|]. exists pg. split_and!; [done|done|].
    apply (ok_used _ _ _ _ _ Hok i pg Hp), Hnh. lia. }
  assert (Hm : forall i, m' !! i = if bool_decide (base <= i < base + n)
    then (fun pg => mk_Page 0 0 (property pg)) <$> pages st !! i else pages st !! i).
  { intros i. rewrite Hm', Z2Nat.id by lia. done. }
  clear Hm'. destruct (Hpg base) as (_ & pb & Hpb & _); [lia|].
  assert (Hmb : m' !! base = Some (mk_Page 0 0 (property pb))).
  { rewrite Hm, bool_decide_true, Hpb by lia. done. }
  rewrite E. do 3 eexists. split; [done|]. split; [by apply upd_page_Ok|].
  split; [apply upd_page_Ok; simpl; apply lookup_insert_eq|]. simpl. rewrite insert_insert_eq.
  destruct Hok as [HL Hdom Hlk Hpr Hh Hf Hu HF].
  split; [|split; [done|]].
  2: { intros i Hi. rewrite lookup_insert_ne, Hm, bool_decide_false; [done|done|lia]. }
  assert (Hout : forall i, i ∉ ((base, n) :: bs).*1 -> <[base:=SetPageProperty (set_property n (mk_Page 0 0 (property pb)))]> m' !! i = m' !! i).
  { intros i Hi. rewrite lookup_insert_ne; [done|set_solver]. }
  assert (Hin : forall i, i ∈ bs.*1 -> <[base:=SetPageProperty (set_property n (mk_Page 0 0 (property pb)))]> m' !! i = pages st !! i).
  { intros i Hi. assert (~ base <= i < base + n) by (intros Hr; by eapply Hnh).
    rewrite lookup_insert_ne, Hm, bool_decide_false; [done|done|lia]. }
  split; simpl; [done| |done|..].
  - intros i. rewrite <- Hdom, lookup_insert_is_Some', Hm. split.
    + intros [<-|Hi]; [by rewrite Hpb|]. case_bool_decide; [by rewrite fmap_is_Some in Hi|done].
    + intros Hi. right. case_bool_decide; [by rewrite fmap_is_Some|done].
  - intros b k [[= -> ->]|Hbk]%elem_of_cons.
    + eexists. rewrite lookup_insert_eq. done.
    + rewrite Hin by (apply list_elem_of_fmap; by exists (b, k)). by apply Hpr.
  - intros i pg Hpg' [->|Hi]%elem_of_cons.
    + rewrite lookup_insert_eq in Hpg'. by simplify_eq/=.
    + rewrite Hin in Hpg' by done. by apply (Hh i).
  - intros i pg Hpg' Hi HFi. rewrite Hout, Hm in Hpg' by done. case_bool_decide.
    + apply fmap_Some in Hpg' as (? & _ & ->). done.
    + apply (Hf i); [done|set_solver|]. destruct HFi; [done|lia].
  - intros i pg Hpg' Hi. rewrite Hout, Hm in Hpg' by done. case_bool_decide.
    + by apply fmap_Some in Hpg' as (? & _ & ->).
    + apply (Hu i); [done|set_solver].
  - intros i [->|Hi]%elem_of_cons; [right; lia|left; auto].
Qed.

Theorem free_pages_refines np st bs base n :
  pmm_inv np st bs -> 0 < n -> 0 <= base -> base + n <= np ->
  (forall i, base <= i < base + n -> ~ covers bs i /\
     exists pg, pages st !! i = Some pg /\ PageReserved pg = false) ->
  exists bs' st', release base n bs = Ok bs' /\ default_free_pages base n st = Ok st' /\
    pmm_inv np st' bs' /\ (forall i, ~ covers bs' i -> pages st' !! i = pages st !! i).
Proof.
  intros Hinv Hn Hb Hbn Hpg. pose proof Hinv as [_ Hcan Hnr Hnp Hnp32].
  pose proof (total_nonneg _ _ Hcan).
  destruct (release_parts (-1) base n bs) as (b' & n' & kept & bs' & Ea & Ep & _ & Hcan' & Ht & Hcov);
    [done|lia|done|intros i Hi Hr; by apply (Hpg i Hr)|].
  assert (Hnp' : forall i, covers bs' i -> i < np).
  { intros i [?%Hnp|?]%Hcov; lia. }
  pose proof (total_bound _ _ _ Hcan' Hnp') as Htb.
  destruct (free_prepare np st bs base n) as (st1 & st2 & st3 & E1 & E2 & E3 & Hok & Hnr3 & Hfr3); try done.
  pose proof (ok_dlist _ _ _ _ _ Hok) as HL. pose proof (dlist_size _ _ _ HL) as Hsz.
  rewrite length_fmap in Hsz.
  assert (Hnd : NoDup (base :: bs.*1)).
  { constructor; [|by eapply canon_NoDup]. intros Hin. apply (Hpg base); [lia|]. by eapply canon_heads. }
  destruct (merge_loop_refines np (fun i => covers bs i \/ base <= i < base + n) bs [] base n st3 (S (size (page_link st3))) b' n' kept)
    as (st4 & E4 & Hok4 & Hnd4 & Hnr4 & Hfr4); try done; try lia.
  { intros b m Hin. destruct (canon_In _ _ _ _ Hcan Hin). lia. }
  destruct (default_list_add_refines np (fun i => covers bs i \/ base <= i < base + n)
             (set_nr_free (u32 (nr_free st4 + n)) st4) b' n' kept bs')
    as (st5 & E5 & Hok5 & Hnr5 & Hpg5); [by apply heap_ok_nr|by apply NoDup_cons in Hnd4 as [? _]|done|].
  exists bs', st5. split; [unfold release; by rewrite Ea|]. split; [|split].
  - unfold default_free_pages. destruct (Z.ltb_spec 0 n); [|lia]. cbn [rassert rbind].
    rewrite E1. cbn [rbind]. rewrite E2. cbn [rbind]. rewrite E3. cbn [rbind].
    rewrite (list_next_dlist _ _ _ HL). cbn [rbind]. rewrite E4. cbn [rbind]. exact E5.
  - split; [|done| |done|done].
    + eapply heap_ok_mono; [| |exact Hok5]; intros i Hi; [by apply Hcov|by eapply canon_heads].
    + rewrite Hnr5. simpl. rewrite Hnr4, Hnr3, Hnr, Ht. apply u32_id. unfold is_u32. lia.
  - intros i Hi. rewrite Hpg5. simpl. rewrite Hfr4, Hfr3; [done|..]; rewrite Hcov in Hi; tauto.
Qed.

(** ** Initialisation *)

(** Before [default_init_memmap], every descriptor is reserved
    ([page_init] sets the bit on all of them). *)
Record pmm_boot (np : Z) (st : pmm) : Prop := {
  boot_dom : forall i, is_Some (pages st !! i) <-> 0 <= i < np;
  boot_flags : forall i pg, pages st !! i = Some pg -> flags pg = 1;
  boot_link : forall i, 0 <= i < np \/ i = FREE_LIST -> is_Some (page_link st !! i)
}.

Lemma default_init_refines np st :
  np < two32 -> pmm_boot np st ->
  exists st', default_init st = Ok st' /\ pmm_inv np st' [] /\ pages st' = pages st.
Proof.
  intros Hnp [Hdom Hfl Hlk]. unfold default_init, upd_link.
  destruct (list_init_dlist (page_link st) FREE_LIST) as (s' & E & Hd & HL & _); [auto|].
  rewrite E. cbn [rbind]. eexists. split; [done|]. split; [|done].
  split; simpl; [|done|done|intros i Hi; by apply covers_nil in Hi|done].
  split; simpl; [done|done| |set_solver|set_solver| | |set_solver].
  - intros i Hi. eapply dom_is_Some; [exact Hd|]. auto.
  - intros i pg _ _ Hi. by apply covers_nil in Hi.
  - intros i pg Hpg _. unfold PageProperty. by rewrite (Hfl _ _ Hpg).
Qed.

Lemma default_init_memmap_refines np st base n :
  pmm_inv np st [] -> 0 < n -> 0 <= base -> base + n <= np ->
  (forall i, base <= i < base + n -> exists pg, pages st !! i = Some pg /\ PageReserved pg = true) ->
  exists st', default_init_memmap base n st = Ok st' /\ pmm_inv np st' [(base, n)] /\
    (forall i, ~ base <= i < base + n -> pages st' !! i = pages st !! i).
Proof.
  intros [Hok _ Hnr _ Hnp32] Hn Hb Hbn Hpg. destruct Hok as [HL Hdom Hlk _ _ _ Hu _].
  unfold default_init_memmap. destruct (Z.ltb_spec 0 n); [|lia]. cbn [rassert rbind].
  destruct (init_memmap_loop_Ok (Z.to_nat n) base st) as (m' & E & Hm').
  { intros i Hi. apply Hpg. lia. }
  assert (Hm : forall i, m' !! i = if bool_decide (base <= i < base + n)
    then (fun pg => mk_Page 0 0 0) <$> pages st !! i else pages st !! i).
  { intros i. rewrite Hm', Z2Nat.id by lia. done. }
  clear Hm'. destruct (Hpg base) as (pb & Hpb & _); [lia|].
  assert (Hmb : m' !! base = Some (mk_Page 0 0 0)).
  { rewrite Hm, bool_decide_true, Hpb by lia. done. }
  rewrite E. cbn [rbind]. erewrite (upd_page_Ok base) by exact Hmb. cbn [rbind].
  erewrite upd_page_Ok by apply lookup_insert_eq. cbn [rbind]. simpl. rewrite insert_insert_eq.
  destruct (default_list_add_refines np (covers [(base, n)])
    (set_nr_free (u32 (nr_free st + n)) (mk_pmm (<[base:=SetPageProperty (set_property n (mk_Page 0 0 0))]> m') (page_link st) (nr_free st))) base n [] [(base, n)])
    as (st' & E' & Hok' & Hnr' & Hpg'); [|set_solver|done|].
  - split; simpl; [done| |done|..].
    + intros i. rewrite <- Hdom, lookup_insert_is_Some', Hm. split.
      * intros [<-|Hi]; [by rewrite Hpb|]. case_bool_decide; [by rewrite fmap_is_Some in Hi|done].
      * intros Hi. right. case_bool_decide; [by rewrite fmap_is_Some|done].
    + intros b k [= -> ->]%list_elem_of_singleton. eexists. by rewrite lookup_insert_eq.
    + intros i pg Hi ->%list_elem_of_singleton. rewrite lookup_insert_eq in Hi. by simplify_eq/=.
    + intros i pg Hi Hne (b & k & [= -> ->]%list_elem_of_singleton & Hr).
      rewrite lookup_insert_ne, Hm, bool_decide_true in Hi by (done || set_solver).
      by apply fmap_Some in Hi as (? & _ & ->).
    + intros i pg Hi Hne. rewrite lookup_insert_ne, Hm in Hi by set_solver. case_bool_decide.
      * by apply fmap_Some in Hi as (? & _ & ->).
      * apply (Hu i); [done|set_solver].
    + intros i ->%list_elem_of_singleton. exists base, n. split; [set_solver|lia].
  - exists st'. split; [done|]. split.
    + split; [done|simpl; lia| |intros i (b & k & [= -> ->]%list_elem_of_singleton & ?); lia|done].
      rewrite Hnr'. simpl. rewrite Hnr. simpl. rewrite u32_id; [lia|]. unfold is_u32. lia.
    + intros i Hi. rewrite Hpg'. simpl. rewrite lookup_insert_ne, Hm, bool_decide_false; [done|done|lia].
Qed.

(** ** A client that allocates and frees *)

Inductive pmm_op := OpAlloc (n : Z) | OpFree (k : nat).

(** [OpFree k] gives back, whole, the [k]-th block the client holds. *)
Definition client_step (op : pmm_op) (c : pmm * list block) : res (pmm * list block) :=
  let '(st, held) := c in
  match op with
  | OpAlloc n =>
      let! (r, st) := default_alloc_pages n st in
      Ok (st, match r with Some p => (p, n) :: held | None => held end)
  | OpFree k =>
      match held !! k with
      | Some (p, n) =>
          let! st := default_free_pages p n st in Ok (st, delete k held)
      | None => Ok (st, held)
      end
  end.

Fixpoint run_client (ops : list pmm_op) (c : pmm * list block) : res (pmm * list block) :=
  match ops with
  | [] => Ok c
  | op :: ops => let! c := client_step op c in run_client ops c
  end.

Definition in_block (i : Z) (b : block) : bool := (b.1 <=? i) && (i <? b.1 + b.2).

(** How many of the held blocks contain page [i]. *)
Fixpoint occ (i : Z) (held : list block) : Z :=
  match held with
  | [] => 0
  | b :: held => (if in_block i b then 1 else 0) + occ i held
  end.

Lemma occ_perm i h h' : h ≡ₚ h' -> occ i h = occ i h'.
Proof. induction 1; simpl; lia. Qed.
Lemma total_perm (h h' : list block) : h ≡ₚ h' -> total h = total h'.
Proof. induction 1 as [|[]|[] []|]; simpl; lia. Qed.
Lemma occ_nonneg i h : 0 <= occ i h.
Proof. induction h as [|b h IH]; simpl; [lia|]. destruct (in_block i b); lia. Qed.
Lemma in_block_spec i b n : in_block i (b, n) = true <-> b <= i < b + n.
Proof. unfold in_block. simpl. rewrite andb_true_iff, Z.leb_le, Z.ltb_lt. done. Qed.
Lemma in_block_false i b n : in_block i (b, n) = false <-> ~ b <= i < b + n.
Proof. rewrite <- in_block_spec. by destruct (in_block i (b, n)). Qed.

(** Every page of the region [lo .. lo+sz) is either free or in exactly one
    held block, and no page outside it is in any. *)
Record client_inv (np lo sz : Z) (st : pmm) (held : list block) (bs : list block) : Prop := {
  cl_inv : pmm_inv np st bs;
  cl_free : forall i, covers bs i -> lo <= i < lo + sz /\ occ i held = 0;
  cl_held : forall i, ~ covers bs i -> occ i held = if bool_decide (lo <= i < lo + sz) then 1 else 0;
  cl_pos : forall b n, (b, n) ∈ held -> 0 < n;
  cl_total : nr_free st + total held = sz;
  cl_flags : forall i, lo <= i < lo + sz -> ~ covers bs i ->
    exists pg, pages st !! i = Some pg /\ flags pg = 0
}.

Lemma client_alloc np lo sz st held bs n :
  client_inv np lo sz st held bs -> 0 < n ->
  exists st' held' bs', client_step (OpAlloc n) (st, held) = Ok (st', held') /\
    client_inv np lo sz st' held' bs'.
Proof.
  intros [Hinv Hf Hh Hp Ht Hfl] Hn. pose proof (alloc_pages_refines np st bs n Hinv Hn) as Ha.
  simpl. destruct (carve n bs) as [[p bs']|] eqn:Hc.
  2: { exists st, held, bs. by rewrite Ha. }
  destruct Ha as (st' & E & Hinv' & Hp0 & Hpn & Hpg & Hfr).
  rewrite E. simpl. exists st', ((p, n) :: held), bs'. split; [done|].
  destruct (carve_Some (-1) n bs p bs') as (_ & Ht' & Hcov & Hd); [done|by apply (inv_canon _ _ _ Hinv)|done|].
  assert (Hocc : forall i, occ i ((p, n) :: held) = (if bool_decide (p <= i < p + n) then 1 else 0) + occ i held).
  { intros i. simpl. destruct (in_block i (p, n)) eqn:Hb.
    - apply in_block_spec in Hb. by rewrite bool_decide_true.
    - apply in_block_false in Hb. by rewrite bool_decide_false. }
  split; [done|..].
  - intros i Hi. destruct (Hf i) as [? Ho]; [apply Hcov; auto|]. rewrite Hocc, Ho.
    rewrite (bool_decide_false _ (Hd i Hi)). split; [done|lia].
  - intros i Hi. rewrite Hocc. destruct (decide (p <= i < p + n)) as [Hr|Hr].
    + destruct (Hf i) as [? Ho]; [apply Hcov; auto|]. rewrite Ho, !bool_decide_true by done. lia.
    + rewrite (bool_decide_false _ Hr), Hh; [done|]. rewrite Hcov. tauto.
  - intros b k [[= -> ->]|?]%elem_of_cons; eauto.
  - pose proof (inv_nr _ _ _ Hinv). pose proof (inv_nr _ _ _ Hinv'). simpl. lia.
  - intros i Hi Hni. destruct (decide (p <= i < p + n)) as [Hr|Hr].
    + destruct (Hpg i Hr) as (pg & ? & ? & _). eauto.
    + assert (~ covers bs i) by (rewrite Hcov; tauto). rewrite Hfr by done. by apply Hfl.
Qed.

Lemma occ_in i b n held : (b, n) ∈ held -> b <= i < b + n -> 1 <= occ i held.
Proof.
  intros Hin Hi. induction held as [|x held IH]; [set_solver|]. simpl.
  pose proof (occ_nonneg i held). apply elem_of_cons in Hin as [<-|Hin].
  - rewrite (proj2 (in_block_spec i b n) Hi). lia.
  - apply IH in Hin. destruct (in_block i x); lia.
Qed.

Lemma client_free np lo sz st held bs k :
  client_inv np lo sz st held bs -> 0 <= lo -> lo + sz <= np ->
  exists st' held' bs', client_step (OpFree k) (st, held) = Ok (st', held') /\
    client_inv np lo sz st' held' bs'.
Proof.
  intros [Hinv Hf Hh Hp Ht Hfl] Hlo Hsz. simpl.
  destruct (held !! k) as [[p n]|] eqn:Hk; [|by exists st, held, bs].
  assert (Hin : (p, n) ∈ held) by (by eapply list_elem_of_lookup_2).
  pose proof (Hp _ _ Hin) as Hn. pose proof (delete_Permutation _ _ _ Hk) as HP.
  set (held' := delete k held) in *.
  assert (Hocc : forall i, occ i held = (if bool_decide (p <= i < p + n) then 1 else 0) + occ i held').
  { intros i. rewrite (occ_perm _ _ _ HP). simpl. destruct (in_block i (p, n)) eqn:Hb.
    - apply in_block_spec in Hb. by rewrite bool_decide_true.
    - apply in_block_false in Hb. by rewrite bool_decide_false. }
  assert (Hu : forall i, p <= i < p + n -> ~ covers bs i /\ lo <= i < lo + sz).
  { intros i Hi. pose proof (occ_in i p n held Hin Hi).
    assert (Hnc : ~ covers bs i) by (intros Hc; destruct (Hf i Hc); lia).
    split; [done|]. rewrite (Hh i Hnc) in H. case_bool_decide; [done|lia]. }
  destruct (Hu p) as [_ ?]; [lia|]. destruct (Hu (p + n - 1)) as [_ ?]; [lia|].
  destruct (free_pages_refines np st bs p n) as (bs' & st' & Er & E & Hinv' & Hfr); [done|done|lia|lia| |].
  { intros i Hi. destruct (Hu i Hi) as [Hc Hr]. split; [done|].
    destruct (Hfl i Hr Hc) as (pg & ? & Hz). exists pg. split; [done|]. unfold PageReserved. by rewrite Hz. }
  rewrite E. simpl. exists st', held', bs'. split; [done|].
  destruct (release_spec (-1) p n bs) as (bs2 & Er' & _ & Ht' & Hcov);
    [done|lia|by apply (inv_canon _ _ _ Hinv)|intros i Hi Hr; by destruct (Hu i Hr)|].
  rewrite Er in Er'. injection Er' as <-.
  split; [done|..].
  - intros i [Hi|Hi]%Hcov.
    + destruct (Hf i Hi) as [? Ho]. split; [done|]. rewrite Hocc in Ho.
      pose proof (occ_nonneg i held'). case_bool_decide; lia.
    + destruct (Hu i Hi) as [Hc ?]. split; [done|]. pose proof (Hh i Hc) as Ho. rewrite Hocc in Ho.
      rewrite !bool_decide_true in Ho by done. lia.
  - intros i Hi. rewrite Hcov in Hi. rewrite <- Hh by tauto. rewrite Hocc.
    rewrite (bool_decide_false (p <= i < p + n)) by tauto. lia.
  - intros b m Hb. apply (Hp b m). rewrite HP. by right.
  - rewrite (total_perm _ _ HP) in Ht. pose proof (inv_nr _ _ _ Hinv).
    pose proof (inv_nr _ _ _ Hinv'). simpl in Ht. lia.
  - intros i Hr Hi. rewrite Hfr by done. rewrite Hcov in Hi. apply Hfl; tauto.
Qed.

Lemma client_run np lo sz ops st held bs :
  client_inv np lo sz st held bs -> 0 <= lo -> lo + sz <= np ->
  (forall n, OpAlloc n ∈ ops -> 0 < n) ->
  exists st' held' bs', run_client ops (st, held) = Ok (st', held') /\
    client_inv np lo sz st' held' bs'.
Proof.
  intros Hinv Hlo Hsz. revert st held bs Hinv. induction ops as [|op ops IH]; intros st held bs Hinv Hops.
  - by exists st, held, bs.
  - assert (exists st' held' bs', client_step op (st, held) = Ok (st', held') /\
      client_inv np lo sz st' held' bs') as (st1 & held1 & bs1 & E & Hinv1).
    { destruct op as [n|k]; [apply (client_alloc _ _ _ _ _ bs); [done|apply Hops; left]
                            |by apply (client_free _ _ _ _ _ bs)]. }
    cbn [run_client]. rewrite E. cbn [rbind]. eapply IH; [done|]. intros n Hn. apply Hops. by right.
Qed.

(** A machine with [np] reserved, otherwise blank, descriptors. *)
Definition boot_state (np : nat) : pmm :=
  mk_pmm (map_seqZ 0 (replicate np (mk_Page 0 1 0)))
         (map_seqZ FREE_LIST (replicate (S np) (mk_entry 0 0))) 0.

Lemma map_seqZ_replicate {A} (s i : Z) n (x : A) :
  (map_seqZ s (replicate n x) : gmap Z A) !! i =
    if bool_decide (s <= i < s + Z.of_nat n) then Some x else None.
Proof.
  destruct (decide (s <= i)).
  - rewrite lookup_map_seqZ, option_guard_True by done.
    destruct (decide (i < s + Z.of_nat n)).
    + rewrite bool_decide_true by done. apply lookup_replicate_2. lia.
    + rewrite bool_decide_false by lia. apply lookup_replicate_None. lia.
  - rewrite lookup_map_seqZ, option_guard_False by done. by rewrite bool_decide_false by lia.
Qed.

Lemma boot_state_ok np : pmm_boot (Z.of_nat np) (boot_state np).
Proof.
  split; unfold boot_state; cbn [pages page_link].
  - intros i. rewrite map_seqZ_replicate. case_bool_decide; split; try lia; eauto. by intros [].
  - intros i pg. rewrite map_seqZ_replicate. case_bool_decide; naive_solver.
  - intros i Hi. rewrite map_seqZ_replicate, bool_decide_true; [eauto|]. unfold FREE_LIST in *. lia.
Qed.

(** Changing the reference count of a page in use. *)
Lemma pmm_inv_set_ref np st bs i pg f :
  pmm_inv np st bs -> ~ covers bs i -> pages st !! i = Some pg ->
  exists st', upd_page i (fun pg => set_ref (f (ref pg)) pg) st = Ok st' /\ pmm_inv np st' bs /\
    pages st' !! i = Some (set_ref (f (ref pg)) pg) /\
    (forall j, j <> i -> pages st' !! j = pages st !! j).
Proof.
  intros [Hok Hcan Hnr Hnp Hnp32] Hi Hpg. pose proof Hok as [HL Hdom Hlk Hpr Hh Hf Hu HF].
  rewrite (upd_page_Ok _ _ _ _ Hpg). eexists. split; [done|]. simpl. rewrite lookup_insert_eq.
  split; [|split; [done|intros j Hj; by rewrite lookup_insert_ne]].
  assert (Hih : i ∉ bs.*1) by (intros Hin; by eapply Hi, canon_heads).
  split; simpl; try done. split; simpl; try done.
  - intros j. rewrite <- Hdom, lookup_insert_is_Some'. split; [|tauto].
    intros [?|?]; [subst; eauto|eauto].
  - intros b n Hin. rewrite lookup_insert_ne; [by apply Hpr|]. intros ->. apply Hih.
    apply list_elem_of_fmap. by exists (b, n).
  - intros j q Hq Hj. rewrite lookup_insert_ne in Hq by (by intros ->). eauto.
  - intros j q Hq Hj HFj. rewrite lookup_insert_ne in Hq by (by intros ->). eauto.
  - intros j q Hq Hj. destruct (decide (j = i)) as [->|].
    + rewrite lookup_insert_eq in Hq. simplify_eq. by apply (Hu i pg).
    + rewrite lookup_insert_ne in Hq by done. eauto.
Qed.

(** A region of a booted machine given to the allocator. *)
Lemma client_init np st base n :
  pmm_boot np st -> np < two32 -> 0 < n -> 0 <= base -> base + n <= np ->
  exists st1 st2, default_init st = Ok st1 /\ default_init_memmap base n st1 = Ok st2 /\
    client_inv np base n st2 [] [(base, n)].
Proof.
  intros Hboot Hnp Hn Hb Hbn.
  destruct (default_init_refines np st Hnp Hboot) as (st1 & E1 & Hinv1 & Hpg1).
  destruct (default_init_memmap_refines np st1 base n Hinv1) as (st2 & E2 & Hinv2 & _); [done..| |].
  { intros i Hi. rewrite Hpg1. destruct (proj2 (boot_dom _ _ Hboot i)) as [pg Hpg]; [lia|].
    exists pg. split; [done|]. unfold PageReserved. by rewrite (boot_flags _ _ Hboot _ _ Hpg). }
  assert (Hcov : forall i, covers [(base, n)] i <-> base <= i < base + n).
  { intros i. rewrite covers_cons. pose proof (covers_nil i). tauto. }
  exists st1, st2. split; [done|]. split; [done|]. split; [done|..].
  - intros i Hi. by apply Hcov in Hi.
  - intros i Hi. rewrite Hcov in Hi. by rewrite bool_decide_false.
  - set_solver.
  - rewrite (inv_nr _ _ _ Hinv2). simpl. lia.
  - intros i Hi Hni. destruct Hni. by apply Hcov.
Qed.

(** ** Properties *)

(** C8: any sequence of page allocations and whole-block frees on a freshly
    initialised region runs without a failing assertion or wild access; at the
    end every page of the region is either on the free list or in exactly one
    block held by the client (no page is handed out twice, none is lost), the
    counter [nr_free] and the held pages add up to the region, and the linked
    list is the address-ordered list of maximal free blocks. *)
Theorem pmm_client_safe (np base n : Z) (st : pmm) (ops : list pmm_op) :
  pmm_boot np st -> np < two32 -> 0 < n -> 0 <= base -> base + n <= np ->
  (forall k, OpAlloc k ∈ ops -> 0 < k) ->
  exists st1 st2 st' held bs,
    default_init st = Ok st1 /\ default_init_memmap base n st1 = Ok st2 /\
    run_client ops (st2, []) = Ok (st', held) /\
    (forall i, base <= i < base + n -> (covers bs i /\ occ i held = 0) \/ (~ covers bs i /\ occ i held = 1)) /\
    nr_free st' + total held = n /\
    canon (-1) bs /\
    list_walk (S (size (page_link st'))) (page_link st') FREE_LIST FREE_LIST = Ok bs.*1.
Proof.
  intros Hboot Hnp Hn Hb Hbn Hops.
  destruct (client_init np st base n) as (st1 & st2 & E1 & E2 & Hinv0); [done..|].
  destruct (client_run np base n ops st2 [] [(base, n)]) as (st' & held & bs & E & Hinv); [done..|].
  exists st1, st2, st', held, bs. destruct Hinv as [Hi Hf Hh Hp Ht Hfl].
  split_and!; try done.
  - intros i Hr. destruct (decide (covers bs i)) as [Hc|Hc].
    + left. split; [done|]. by apply Hf.
    + right. split; [done|]. by rewrite Hh, bool_decide_true.
  - by apply (inv_canon _ _ _ Hi).
  - apply list_walk_dlist, (ok_dlist _ _ _ _ _ (inv_heap _ _ _ Hi)).
Qed.

Lemma pmm_client_safe_witness :
  exists st1 st2 st' held bs,
    default_init (boot_state 16) = Ok st1 /\ default_init_memmap 3 13 st1 = Ok st2 /\
    run_client [OpAlloc 2; OpAlloc 5; OpAlloc 1; OpFree 1; OpAlloc 4; OpFree 2; OpAlloc 9] (st2, [])
      = Ok (st', held) /\
    (forall i, 3 <= i < 3 + 13 -> (covers bs i /\ occ i held = 0) \/ (~ covers bs i /\ occ i held = 1)) /\
    nr_free st' + total held = 13 /\
    canon (-1) bs /\
    list_walk (S (size (page_link st'))) (page_link st') FREE_LIST FREE_LIST = Ok bs.*1.
Proof.
  apply (pmm_client_safe 16); [apply (boot_state_ok 16)|reflexivity|lia|lia|lia|].
  intros k Hk. rewrite !elem_of_cons, elem_of_nil in Hk. naive_solver lia.
Defined.

(** C19: [default_alloc_pages(n)] returns the first block, in address order, of
    at least [n] pages (NULL, with the state unchanged, exactly when there is
    none); the [n] pages leave the free map and nothing else does, their
    descriptors are blank, and no descriptor in use is touched. *)
Theorem default_alloc_pages_first_fit (np n : Z) (st : pmm) (bs : list block) :
  pmm_inv np st bs -> 0 < n ->
  (exists p st' bs1 m bs2 bs', default_alloc_pages n st = Ok (Some p, st') /\
     bs = bs1 ++ (p, m) :: bs2 /\ n <= m /\ (forall b k, (b, k) ∈ bs1 -> k < n) /\
     alloc_post np n st bs p bs' st' /\
     (forall i, covers bs i <-> covers bs' i \/ p <= i < p + n) /\
     (forall i, covers bs' i -> ~ p <= i < p + n)) \/
  (default_alloc_pages n st = Ok (None, st) /\ forall b m, (b, m) ∈ bs -> m < n).
Proof.
  intros Hinv Hn. pose proof (alloc_pages_refines np st bs n Hinv Hn) as Ha.
  destruct (carve n bs) as [[p bs']|] eqn:Hc.
  - left. destruct Ha as (st' & E & Hpost).
    destruct (carve_Some (-1) n bs p bs') as (_ & _ & Hcov & Hd); [done|by apply (inv_canon _ _ _ Hinv)|done|].
    destruct (carve_split _ _ _ _ Hc) as (bs1 & m & bs2 & Hbs & Hm & Hlt & _).
    exists p, st', bs1, m, bs2, bs'. done.
  - right. split; [done|]. by apply carve_None.
Qed.

(** C20: [default_free_pages(base, n)] on a block in use puts exactly its pages
    back on the free map, which stays the canonical (sorted, fully merged)
    list; no assertion fails and no descriptor in use is touched. *)
Theorem default_free_pages_coalesces (np base n : Z) (st : pmm) (bs : list block) :
  pmm_inv np st bs -> 0 < n -> 0 <= base -> base + n <= np ->
  (forall i, base <= i < base + n -> ~ covers bs i /\
     exists pg, pages st !! i = Some pg /\ PageReserved pg = false) ->
  exists st' bs', default_free_pages base n st = Ok st' /\ pmm_inv np st' bs' /\
    (forall i, covers bs' i <-> covers bs i \/ base <= i < base + n) /\
    default_nr_free_pages st' = default_nr_free_pages st + n /\
    (forall i, ~ covers bs' i -> pages st' !! i = pages st !! i).
Proof.
  intros Hinv Hn Hb Hbn Hpg. pose proof (inv_canon _ _ _ Hinv) as Hcan.
  destruct (free_pages_refines np st bs base n) as (bs' & st' & Er & E & Hinv' & Hfr); [done..|].
  destruct (release_spec (-1) base n bs) as (bs2 & Er' & _ & Ht & Hcov);
    [done|lia|done|intros i Hi Hr; by destruct (Hpg i Hr)|].
  rewrite Er in Er'. injection Er' as <-. exists st', bs'. split_and!; try done.
  unfold default_nr_free_pages. rewrite (inv_nr _ _ _ Hinv), (inv_nr _ _ _ Hinv'). done.
Qed.

(** C21: freeing what was just allocated restores the allocator: the free
    list is exactly the one before the allocation. *)
Theorem alloc_free_roundtrip (np n : Z) (st st' : pmm) (bs : list block) (p : Z) :
  pmm_inv np st bs -> 0 < n -> default_alloc_pages n st = Ok (Some p, st') ->
  exists st2, default_free_pages p n st' = Ok st2 /\ pmm_inv np st2 bs /\
    list_walk (S (size (page_link st2))) (page_link st2) FREE_LIST FREE_LIST = Ok bs.*1 /\
    nr_free st2 = nr_free st.
Proof.
  intros Hinv Hn Ha. pose proof (alloc_pages_refines np st bs n Hinv Hn) as Hr.
  pose proof (inv_canon _ _ _ Hinv) as Hcan.
  destruct (carve n bs) as [[q bs']|] eqn:Hc; [|congruence].
  destruct Hr as (st1 & E & Hinv1 & Hp0 & Hpn & Hpg & Hfr). rewrite Ha in E. injection E as <- <-.
  destruct (carve_Some (-1) n bs p bs') as (_ & _ & Hcov & Hd); [done..|].
  destruct (free_pages_refines np st' bs' p n) as (bs2 & st2 & Er & E & Hinv2 & _); [done..| |].
  { intros i Hi. split; [intros Hc'; by apply (Hd i)|]. destruct (Hpg i Hi) as (pg & ? & Hz & _).
    exists pg. split; [done|]. unfold PageReserved. by rewrite Hz. }
  rewrite (release_carve (-1) n bs p bs') in Er by done. injection Er as <-.
  exists st2. split_and!; [done..| |].
  - apply list_walk_dlist, (ok_dlist _ _ _ _ _ (inv_heap _ _ _ Hinv2)).
  - by rewrite (inv_nr _ _ _ Hinv2), (inv_nr _ _ _ Hinv).
Qed.

(** A booted 16-page machine, for the examples. *)
Lemma booted16 : exists st1 st2, default_init (boot_state 16) = Ok st1 /\
  default_init_memmap 3 13 st1 = Ok st2 /\ pmm_inv 16 st2 [(3, 13)].
Proof.
  destruct (default_init_refines 16 (boot_state 16)) as (st1 & E1 & Hinv1 & Hpg1);
    [reflexivity|apply (boot_state_ok 16)|].
  destruct (default_init_memmap_refines 16 st1 3 13 Hinv1) as (st2 & E2 & Hinv2 & _); [lia..| |].
  { intros i Hi. rewrite Hpg1. destruct (proj2 (boot_dom _ _ (boot_state_ok 16) i)) as [pg Hpg]; [lia|].
    exists pg. split; [done|]. unfold PageReserved.
    by rewrite (boot_flags _ _ (boot_state_ok 16) _ _ Hpg). }
  eauto.
Qed.

Lemma default_alloc_pages_first_fit_witness :
  exists st, pmm_inv 16 st [(3, 13)] /\
  ((exists p st' bs1 m bs2 bs', default_alloc_pages 5 st = Ok (Some p, st') /\
     [(3, 13)] = bs1 ++ (p, m) :: bs2 /\ 5 <= m /\ (forall b k, (b, k) ∈ bs1 -> k < 5) /\
     alloc_post 16 5 st [(3, 13)] p bs' st' /\
     (forall i, covers [(3, 13)] i <-> covers bs' i \/ p <= i < p + 5) /\
     (forall i, covers bs' i -> ~ p <= i < p + 5)) \/
  (default_alloc_pages 5 st = Ok (None, st) /\ forall b m, (b, m) ∈ [(3, 13)] -> m < 5)).
Proof.
  destruct booted16 as (_ & st & _ & _ & Hinv). exists st. split; [exact Hinv|].
  apply (default_alloc_pages_first_fit 16 5 st [(3, 13)] Hinv). lia.
Defined.

Lemma default_free_pages_coalesces_witness :
  exists st st' bs', pmm_inv 16 st [(8, 8)] /\ default_free_pages 3 5 st = Ok st' /\ pmm_inv 16 st' bs' /\
    (forall i, covers bs' i <-> covers [(8, 8)] i \/ 3 <= i < 3 + 5).
Proof.
  destruct booted16 as (_ & st & _ & _ & Hinv).
  pose proof (alloc_pages_refines 16 st [(3, 13)] 5 Hinv eq_refl) as Ha.
  destruct Ha as (st1 & _ & Hinv1 & _ & _ & Hpg & _).
  destruct (default_free_pages_coalesces 16 3 5 st1 [(8, 8)] Hinv1) as (st2 & bs' & E & Hinv2 & Hc & _);
    [lia..| |].
  - intros i Hi. split.
    + intros (b & k & [= -> ->]%list_elem_of_singleton & ?). lia.
    + destruct (Hpg i Hi) as (pg & Hp & Hz & _). exists pg. split; [exact Hp|].
      unfold PageReserved. by rewrite Hz.
  - exists st1, st2, bs'. auto.
Defined.

Lemma alloc_free_roundtrip_witness :
  exists st st1 st2, pmm_inv 16 st [(3, 13)] /\ default_alloc_pages 4 st = Ok (Some 3, st1) /\
    default_free_pages 3 4 st1 = Ok st2 /\ pmm_inv 16 st2 [(3, 13)].
Proof.
  destruct booted16 as (_ & st & _ & _ & Hinv).
  destruct (alloc_pages_refines 16 st [(3, 13)] 4 Hinv eq_refl) as (st1 & E & _).
  destruct (alloc_free_roundtrip 16 4 st st1 [(3, 13)] 3 Hinv) as (st2 & E2 & Hinv2 & _);
    [lia|exact E|].
  exists st, st1, st2. auto.
Defined.
