(* ===== verification/Arith.v ===== *)
(** * Integer arithmetic of the kernel

    The processor has no divide instruction: [divmod] (kern/libs/divmod.h) is
    the shift-and-subtract routine the reserved-instruction handler runs for
    [div]/[divu], and [do_div] (libs/mips32s.h) is the division the number
    printer uses.  Also here: the rounding macros of libs/defs.h, the address
    arithmetic of kern/mm/mmu.h, the hash of libs/hash.c and the generator of
    libs/rand.c. *)
From S2P Require Import Prelude.

(** ** Rounding (libs/defs.h) *)

Definition ROUNDDOWN (a n : Z) : Z := u32 (a - a mod n).
Definition ROUNDUP (a n : Z) : Z := ROUNDDOWN (u32 (a + n - 1)) n.
Definition ROUNDUP_DIV (a n : Z) : Z := u32 (a + n - 1) / n.

(** ** Page arithmetic (kern/mm/mmu.h) *)

Definition PGSIZE : Z := 4096.
Definition PGSHIFT : Z := 12.
Definition NPTEENTRY : Z := 1024.
Definition PTSIZE : Z := PGSIZE * NPTEENTRY.
Definition PTXSHIFT : Z := 12.
Definition PDXSHIFT : Z := 22.

Definition PDX (la : Z) : Z := Z.land (Z.shiftr la PDXSHIFT) 0x3FF.
Definition PTX (la : Z) : Z := Z.land (Z.shiftr la PTXSHIFT) 0x3FF.
Definition PPN (la : Z) : Z := Z.shiftr la PTXSHIFT.
Definition PGOFF (la : Z) : Z := Z.land la 0xFFF.
Definition PGADDR (d t o : Z) : Z :=
  u32 (Z.lor (Z.lor (Z.shiftl d PDXSHIFT) (Z.shiftl t PTXSHIFT)) o).
Definition PTE_ADDR (pte : Z) : Z := Z.land pte (u32 (Z.lnot 0xFFF)).

Definition PTE_P : Z := 1.
Definition PTE_W : Z := 2.
Definition PTE_U : Z := 4.
Definition PTE_USER : Z := Z.lor (Z.lor PTE_U PTE_W) PTE_P.

(** ** Memory layout (kern/mm/memlayout.h) *)

Definition KERNBASE : Z := 0x80000000.
Definition KMEMSIZE : Z := 0x00800000.
Definition KERNTOP : Z := KERNBASE + KMEMSIZE.
Definition USERTOP : Z := 0x80000000.
Definition USERBASE : Z := 0x00200000.
Definition USTACKTOP : Z := USERTOP.
Definition USTACKPAGE : Z := 256.
Definition USTACKSIZE : Z := USTACKPAGE * PGSIZE.

Definition USER_ACCESS (s e : Z) : bool := (USERBASE <=? s) && (s <? e) && (e <=? USERTOP).
Definition KERN_ACCESS (s e : Z) : bool := (KERNBASE <=? s) && (s <? e) && (e <=? KERNTOP).

(** ** Software division (kern/libs/divmod.h) *)

Definition INT_MIN : Z := -2147483648.

(** One iteration of the loop on [(r, q, a)]. *)
Definition divmod_step (b : Z) (s : Z * Z * Z) : Z * Z * Z :=
  let '(r, q, a) := s in
  let r := s32 (Z.lor (s32 (Z.shiftl r 1)) (Z.land (Z.shiftr a 31) 1)) in
  let a := s32 (Z.shiftl a 1) in
  let q := s32 (Z.shiftl q 1) in
  if b <=? r then (s32 (r - b), s32 (Z.lor q 1), a) else (r, q, a).

Fixpoint divmod_loop (n : nat) (b : Z) (s : Z * Z * Z) : Z * Z * Z :=
  match n with
  | O => s
  | S n => divmod_loop n b (divmod_step b s)
  end.

(** [None] is the return value -1; otherwise the two stored results. *)
Definition divmod (a b : Z) : option (Z * Z) :=
  if b =? 0 then None
  else
    let sign_div := 1 in
    let sign_mod := 1 in
    let '(sign_div, sign_mod, a) :=
      if a <? 0 then (- sign_div, -1, s32 (- a)) else (sign_div, sign_mod, a) in
    let '(sign_div, b) := if b <? 0 then (- sign_div, s32 (- b)) else (sign_div, b) in
    let '(r, q, _) := divmod_loop 32 b (0, 0, a) in
    Some (if sign_div =? -1 then s32 (- q) else q, if sign_mod =? -1 then s32 (- r) else r).

(** ** [do_div] (libs/mips32s.h): [n] is 64 bits wide, [q] and [__mod] are 32.
    The result is [(__mod, n)]. *)
Definition do_div (n base : Z) : Z * Z :=
  if base =? 10 then
    let q := u32 (Z.shiftr n 1 + Z.shiftr n 2) in
    let q := u32 (q + Z.shiftr q 4) in
    let q := u32 (q + Z.shiftr q 8) in
    let q := u32 (q + Z.shiftr q 16) in
    let q := Z.shiftr q 3 in
    let mod_ := u32 (n - u32 (Z.shiftl (u32 (u32 (Z.shiftl q 2) + q)) 1)) in
    let q := u32 (q + Z.shiftr (u32 (mod_ + 6)) 4) in
    let mod_ := u32 (n - u32 (Z.shiftl (u32 (u32 (Z.shiftl q 2) + q)) 1)) in
    (mod_, q)
  else if base =? 16 then (Z.land n 0xf, Z.shiftr n 4)
  else if base =? 8 then (Z.land n 0x7, Z.shiftr n 3)
  else if base =? 2147483648 then (Z.land n 0x7fffffff, Z.shiftr n 31)
  else (3, 1).

(** ** Hashing and random numbers (libs/hash.c, libs/rand.c) *)

Definition GOLDEN_RATIO_PRIME_32 : Z := 0x9e370001.
Definition hash32 (val bits : Z) : Z :=
  Z.shiftr (u32 (val * GOLDEN_RATIO_PRIME_32)) (32 - bits).

Definition RAND_MAX : Z := 2147483647.
(** The new state [next] and the value returned. *)
Definition rand (next : Z) : Z * Z :=
  let next := u32 (u32 (u32 next * 1103515245) + 12345) in
  (next, u32 next mod (RAND_MAX + 1)).
Definition srand (seed : Z) : Z := seed.

#[global] Arguments PDX : simpl never.
#[global] Arguments PTX : simpl never.
#[global] Arguments PPN : simpl never.
#[global] Arguments PGOFF : simpl never.
#[global] Arguments PTE_ADDR : simpl never.
#[global] Arguments ROUNDDOWN : simpl never.
#[global] Arguments ROUNDUP : simpl never.

(** ** Facts about the macros *)

Lemma land_ones_mod a n : 0 <= n -> Z.land a (2 ^ n - 1) = a mod 2 ^ n.
Proof. intros H. rewrite <- Z.land_ones by done. f_equal. rewrite Z.ones_equiv. lia. Qed.

Lemma land_pow2 e n : Z.land e (2 ^ n) = if Z.testbit e n then 2 ^ n else 0.
Proof.
  destruct (Z.neg_nonneg_cases n) as [Hn|Hn].
  { rewrite Z.pow_neg_r, Z.land_0_r by done. by destruct (Z.testbit e n). }
  apply Z.bits_inj'. intros i Hi. rewrite Z.land_spec, Z.pow2_bits_eqb by done.
  destruct (Z.eqb_spec n i) as [->|Hne].
  - destruct (Z.testbit e i); [by rewrite Z.pow2_bits_true|by rewrite Z.bits_0].
  - rewrite andb_false_r. destruct (Z.testbit e n); [by rewrite Z.pow2_bits_false|by rewrite Z.bits_0].
Qed.

Lemma PDX_div la : PDX la = la / 4194304 mod 1024.
Proof. unfold PDX, PDXSHIFT. rewrite Z.shiftr_div_pow2 by lia. apply (land_ones_mod _ 10). lia. Qed.
Lemma PTX_div la : PTX la = la / 4096 mod 1024.
Proof. unfold PTX, PTXSHIFT. rewrite Z.shiftr_div_pow2 by lia. apply (land_ones_mod _ 10). lia. Qed.
Lemma PPN_div la : PPN la = la / 4096.
Proof. unfold PPN, PTXSHIFT. rewrite Z.shiftr_div_pow2 by lia. done. Qed.
Lemma PGOFF_mod la : PGOFF la = la mod 4096.
Proof. unfold PGOFF. apply (land_ones_mod _ 12). lia. Qed.

Lemma lor_disjoint_add a b n : 0 <= n -> 0 <= b < 2 ^ n -> Z.lor (Z.shiftl a n) b = a * 2 ^ n + b.
Proof.
  intros Hn Hb. rewrite Z.shiftl_mul_pow2 by done. symmetry.
  rewrite Z.add_nocarry_lxor, Z.lxor_lor; [done|..];
    apply Z.bits_inj'; intros i Hi; rewrite Z.land_spec, Z.bits_0;
    (destruct (Z.lt_ge_cases i n); [by rewrite Z.mul_pow2_bits_low|]);
    assert (Hz : Z.testbit b i = false);
    try (by rewrite Hz, andb_false_r);
    (destruct (Z.eq_dec b 0) as [->|]; [apply Z.bits_0|]);
    apply Z.bits_above_log2; try lia;
    apply Z.log2_lt_pow2; try lia;
    apply Z.lt_le_trans with (2 ^ n); try lia; apply Z.pow_le_mono_r; lia.
Qed.

Lemma PTE_ADDR_div pte : is_u32 pte -> PTE_ADDR pte = pte / 4096 * 4096.
Proof.
  intros Hp. unfold PTE_ADDR.
  replace (u32 (Z.lnot 4095)) with (Z.shiftl (2 ^ 20 - 1) 12) by reflexivity.
  assert (H20 : 0 <= pte / 4096 < 2 ^ 20).
  { unfold is_u32, two32 in Hp. split; [apply Z.div_pos; lia|apply Z.div_lt_upper_bound; lia]. }
  pose proof (Z.mod_pos_bound pte 4096 ltac:(lia)).
  assert (Hsp : pte = Z.lor (Z.shiftl (pte / 4096) 12) (pte mod 4096)).
  { rewrite lor_disjoint_add by lia. pose proof (Z.div_mod pte 4096). lia. }
  rewrite Hsp at 1. rewrite Z.land_lor_distr_l, <- Z.shiftl_land, (land_ones_mod _ 20), Z.mod_small by lia.
  assert (Hz : Z.land (pte mod 4096) (Z.shiftl (2 ^ 20 - 1) 12) = 0).
  { apply Z.bits_inj'. intros i Hi. rewrite Z.land_spec, Z.bits_0.
    destruct (Z.lt_ge_cases i 12).
    - rewrite Z.shiftl_spec_low, andb_false_r by done. done.
    - rewrite (proj2 (Z.testbit_false _ i Hi)); [done|].
      rewrite Z.div_small; [done|]. split; [lia|].
      apply Z.lt_le_trans with (2 ^ 12); [lia|]. apply Z.pow_le_mono_r; lia. }
  rewrite Hz, Z.lor_0_r, Z.shiftl_mul_pow2 by lia. done.
Qed.

Lemma ROUNDDOWN_spec a n : is_u32 a -> 0 < n -> ROUNDDOWN a n = n * (a / n) /\ 0 <= ROUNDDOWN a n <= a.
Proof.
  intros Ha Hn. unfold ROUNDDOWN. pose proof (Z.mod_pos_bound a n Hn).
  pose proof (Z.div_mod a n ltac:(lia)). pose proof (Z.mod_le a n ltac:(unfold is_u32 in Ha; lia) Hn).
  rewrite u32_id; [lia|]. unfold is_u32 in *. lia.
Qed.

Lemma ROUNDUP_spec a n :
  is_u32 a -> 0 < n -> a + n - 1 < two32 ->
  exists k, ROUNDUP a n = n * k /\ a <= ROUNDUP a n < a + n.
Proof.
  intros Ha Hn Hs. unfold ROUNDUP. unfold is_u32 in *.
  rewrite (u32_id (a + n - 1)) by (unfold is_u32; lia).
  destruct (ROUNDDOWN_spec (a + n - 1) n) as [-> _]; [unfold is_u32; lia|done|].
  exists ((a + n - 1) / n). split; [done|].
  pose proof (Z.div_mod (a + n - 1) n ltac:(lia)). pose proof (Z.mod_pos_bound (a + n - 1) n Hn). lia.
Qed.

(** ** Correctness of [divmod] *)

Lemma s32_mod x : s32 x mod two32 = x mod two32.
Proof.
  unfold s32. rewrite Zminus_mod_idemp_l. f_equal. lia.
Qed.

Lemma top_bit a : is_s32 a -> Z.land (Z.shiftr a 31) 1 = (a / 2 ^ 31) mod 2.
Proof. intros _. rewrite Z.shiftr_div_pow2 by lia. apply (land_ones_mod _ 1). lia. Qed.

(** After [i] steps on the magnitude [A] (a 32-bit pattern held in an [int]),
    [r] and [q] are the remainder and quotient of the top [i] bits and [a]
    holds the bits not yet consumed. *)
Definition divmod_inv (A b : Z) (i : nat) (s : Z * Z * Z) : Prop :=
  let '(r, q, a) := s in
  let t := A / 2 ^ (32 - Z.of_nat i) in
  r = t mod b /\ q = s32 (t / b) /\ a = s32 (A * 2 ^ Z.of_nat i).

Lemma shl1_or q k : 0 <= k < 2 -> s32 (Z.lor (s32 (Z.shiftl q 1)) k) = s32 (2 * q + k).
Proof.
  intros Hk. unfold s32 at 2.
  set (w := (Z.shiftl q 1 + 2147483648) mod two32 - 2147483648).
  assert (Hw : w mod 2 = 0).
  { unfold w. rewrite Z.shiftl_mul_pow2 by lia. unfold two32.
    Z.to_euclidean_division_equations. lia. }
  assert (Hlor : Z.lor w k = w + k).
  { replace w with (Z.shiftl (w / 2) 1) by (rewrite Z.shiftl_mul_pow2 by lia; pose proof (Z.div_mod w 2); lia).
    rewrite lor_disjoint_add by lia. rewrite Z.shiftl_mul_pow2 by lia. lia. }
  rewrite Hlor. unfold w, s32. rewrite Z.shiftl_mul_pow2 by lia.
  replace (q * 2 ^ 1) with (2 * q) by lia. unfold two32. Z.to_euclidean_division_equations. lia.
Qed.

Lemma s32_double x : s32 (Z.shiftl (s32 x) 1) = s32 (2 * x).
Proof.
  rewrite Z.shiftl_mul_pow2 by lia. unfold s32, two32. Z.to_euclidean_division_equations. lia.
Qed.

Lemma next_top (A : Z) (i : nat) :
  0 <= A < two32 -> (i < 32)%nat ->
  A / 2 ^ (32 - Z.of_nat (S i)) =
  2 * (A / 2 ^ (32 - Z.of_nat i)) + (s32 (A * 2 ^ Z.of_nat i) / 2 ^ 31) mod 2.
Proof.
  intros HA Hi.
  replace (32 - Z.of_nat i) with (1 + (32 - Z.of_nat (S i))) by lia.
  set (k := 32 - Z.of_nat (S i)). assert (Hk : 0 <= k <= 31) by lia.
  replace (Z.of_nat i) with (31 - k) by lia.
  replace (2 ^ (1 + k)) with (2 ^ k * 2) by (rewrite Z.pow_add_r by lia; lia).
  rewrite <- Z.div_div by lia.
  assert (Hs : (s32 (A * 2 ^ (31 - k)) / 2 ^ 31) mod 2 = (A * 2 ^ (31 - k) / 2 ^ 31) mod 2).
  { unfold s32, two32. set (y := A * 2 ^ (31 - k)). change (2 ^ 31) with 2147483648.
    clearbody y. Z.to_euclidean_division_equations. lia. }
  assert (Hd : A * 2 ^ (31 - k) / 2 ^ 31 = A / 2 ^ k).
  { replace (2 ^ 31) with (2 ^ k * 2 ^ (31 - k)) by (rewrite <- Z.pow_add_r by lia; f_equal; lia).
    rewrite Z.div_mul_cancel_r; [done|lia|lia]. }
  rewrite Hs, Hd. apply Z.div_mod. lia.
Qed.

Lemma divmod_step_inv A b i s :
  0 <= A < two32 -> 0 < b -> (A < 2 ^ 31 \/ b <= 2 ^ 30) -> b < 2 ^ 31 -> (i < 32)%nat ->
  divmod_inv A b i s -> divmod_inv A b (S i) (divmod_step b s).
Proof.
  intros HA Hb HAb Hb31 Hi. destruct s as [[r q] a]. unfold divmod_inv, divmod_step.
  intros (-> & -> & ->).
  rewrite top_bit by apply s32_range.
  set (bit := (s32 (A * 2 ^ Z.of_nat i) / 2 ^ 31) mod 2).
  pose proof (next_top A i HA Hi) as Ht. fold bit in Ht.
  set (t := A / 2 ^ (32 - Z.of_nat i)) in *. rewrite Ht. clear Ht.
  assert (Hbit : 0 <= bit < 2) by (apply Z.mod_pos_bound; lia).
  assert (Htb : 0 <= t < 2 ^ 31).
  { unfold t. split; [apply Z.div_pos; lia|]. apply Z.div_lt_upper_bound; [lia|].
    assert (2 ^ 1 <= 2 ^ (32 - Z.of_nat i)) by (apply Z.pow_le_mono_r; lia). unfold two32 in HA. nia. }
  assert (Ht30 : A < 2 ^ 31 -> t < 2 ^ 30).
  { intros HA'. unfold t. apply Z.div_lt_upper_bound; [lia|].
    assert (2 ^ 1 <= 2 ^ (32 - Z.of_nat i)) by (apply Z.pow_le_mono_r; lia). nia. }
  pose proof (Z.mod_pos_bound t b Hb) as Hr. pose proof (Z.div_mod t b ltac:(lia)) as Hdm.
  rewrite (shl1_or (t mod b) bit Hbit).
  assert (Hrs : 0 <= 2 * (t mod b) + bit < 2 ^ 31).
  { destruct HAb as [HA'|Hb30]; [|lia].
    pose proof (Z.mod_le t b ltac:(lia) Hb). specialize (Ht30 HA'). lia. }
  rewrite (s32_id (2 * (t mod b) + bit)) by (unfold is_s32; lia).
  assert (Ha' : s32 (Z.shiftl (s32 (A * 2 ^ Z.of_nat i)) 1) = s32 (A * 2 ^ Z.of_nat (S i))).
  { rewrite s32_double. f_equal. rewrite Nat2Z.inj_succ, Z.pow_succ_r by lia. ring. }
  assert (Hq : forall k, 0 <= k < 2 -> s32 (Z.lor (s32 (Z.shiftl (s32 (t / b)) 1)) k) = s32 (2 * (t / b) + k)).
  { intros k Hk. rewrite shl1_or by done. unfold s32, two32. Z.to_euclidean_division_equations. lia. }
  assert (Hq0 : s32 (Z.shiftl (s32 (t / b)) 1) = s32 (2 * (t / b))) by apply s32_double.
  destruct (Z.leb_spec b (2 * (t mod b) + bit)) as [Hle|Hlt].
  - rewrite s32_id by (unfold is_s32; lia). rewrite Hq, Ha' by lia.
    split; [|split; [|done]].
    + apply (Z.mod_unique _ _ (2 * (t / b) + 1)); lia.
    + f_equal. apply (Z.div_unique _ _ _ (2 * (t mod b) + bit - b)); lia.
  - rewrite Hq0, Ha'. split; [|split; [|done]].
    + apply (Z.mod_unique _ _ (2 * (t / b))); lia.
    + f_equal. apply (Z.div_unique _ _ _ (2 * (t mod b) + bit)); lia.
Qed.

Lemma divmod_loop_inv A b n i s :
  0 <= A < two32 -> 0 < b -> (A < 2 ^ 31 \/ b <= 2 ^ 30) -> b < 2 ^ 31 -> (i + n <= 32)%nat ->
  divmod_inv A b i s -> divmod_inv A b (i + n) (divmod_loop n b s).
Proof.
  intros HA Hb HAb Hb31. revert i s. induction n as [|n IH]; intros i s Hi Hs; simpl.
  - by rewrite Nat.add_0_r.
  - rewrite Nat.add_succ_r. apply (IH (S i)); [lia|]. apply divmod_step_inv; auto. lia.
Qed.

Lemma divmod_loop_32 A b :
  0 <= A < two32 -> 0 < b -> (A < 2 ^ 31 \/ b <= 2 ^ 30) -> b < 2 ^ 31 ->
  exists a, divmod_loop 32 b (0, 0, s32 A) = (A mod b, s32 (A / b), a).
Proof.
  intros HA Hb HAb Hb31.
  pose proof (divmod_loop_inv A b 32 0 (0, 0, s32 A) HA Hb HAb Hb31 ltac:(lia)) as H.
  destruct (divmod_loop 32 b (0, 0, s32 A)) as [[r q] a].
  destruct H as (-> & -> & _).
  - simpl. change (2 ^ 32) with two32. rewrite Z.div_small by done.
    rewrite Zmod_0_l, Zdiv_0_l. split_and!; [done|done|]. f_equal. lia.
  - simpl. rewrite Z.div_1_r. eauto.
Qed.

Lemma s32_opp x : s32 (- s32 x) = s32 (- x).
Proof. unfold s32, two32. Z.to_euclidean_division_equations. lia. Qed.

(** C22: [divmod] computes C's truncated quotient and remainder of any two
    [int]s with a non-zero divisor other than INT_MIN, provided the dividend
    is not INT_MIN or the divisor is at most 2^30 in magnitude; with a zero
    divisor it reports failure.  The two excluded corners are really wrong:
    INT_MIN / (2^31 - 1) gives quotient 0, and a divisor of INT_MIN gives
    quotient 1 for 5. *)
Theorem divmod_correct (a b : Z) :
  is_s32 a -> is_s32 b -> b <> INT_MIN -> (a <> INT_MIN \/ Z.abs b <= 2 ^ 30) ->
  divmod a b = (if b =? 0 then None else Some (s32 (Z.quot a b), Z.rem a b)) /\
  divmod INT_MIN 2147483647 = Some (0, INT_MIN) /\
  divmod 5 INT_MIN <> Some (Z.quot 5 INT_MIN, Z.rem 5 INT_MIN).
Proof.
  intros Ha Hb Hbm Ham. unfold is_s32, INT_MIN in *.
  split; [|split; [reflexivity|vm_compute; discriminate]].
  unfold divmod. destruct (Z.eqb_spec b 0) as [->|Hb0]; [done|].
  assert (Habs : forall A B, 0 <= A <= 2 ^ 31 -> 0 < B -> (A < 2 ^ 31 \/ B <= 2 ^ 30) -> B < 2 ^ 31 ->
    exists x, divmod_loop 32 B (0, 0, s32 A) = (A mod B, s32 (A / B), x)).
  { intros A B HA HB HAB HB31. apply divmod_loop_32; try done. unfold two32. lia. }
  assert (Hrem : forall A B, 0 <= A -> 0 < B < 2 ^ 31 -> is_s32 (A mod B) /\ is_s32 (- (A mod B))).
  { intros A B HA HB. pose proof (Z.mod_pos_bound A B ltac:(lia)). unfold is_s32. lia. }
  destruct (Z.ltb_spec a 0); destruct (Z.ltb_spec b 0); cbn [Z.opp Z.eqb Pos.eqb].
  - rewrite (s32_id (- b)) by (unfold is_s32; lia). destruct (Habs (- a) (- b)) as [x ->]; [lia..|].
    destruct (Hrem (- a) (- b)); [lia..|]. rewrite (s32_id (- (- a mod - b))) by done.
    rewrite <- (Z.quot_div_nonneg (- a)), <- (Z.rem_mod_nonneg (- a)) by lia.
    rewrite Z.quot_opp_opp, Z.rem_opp_opp by lia. do 2 f_equal. lia.
  - destruct (Habs (- a) b) as [x ->]; [lia..|].
    destruct (Hrem (- a) b); [lia..|]. rewrite s32_opp, (s32_id (- (- a mod b))) by done.
    rewrite <- (Z.quot_div_nonneg (- a)), <- (Z.rem_mod_nonneg (- a)) by lia.
    rewrite Z.quot_opp_l, Z.rem_opp_l, !Z.opp_involutive by lia. done.
  - rewrite <- (s32_id a) at 1 by (unfold is_s32; lia).
    rewrite (s32_id (- b)) by (unfold is_s32; lia). destruct (Habs a (- b)) as [x ->]; [lia..|].
    rewrite s32_opp.
    rewrite <- (Z.quot_div_nonneg a), <- (Z.rem_mod_nonneg a) by lia.
    rewrite Z.quot_opp_r, Z.rem_opp_r, Z.opp_involutive by lia. done.
  - rewrite <- (s32_id a) at 1 by (unfold is_s32; lia).
    destruct (Habs a b) as [x ->]; [lia..|].
    rewrite <- (Z.quot_div_nonneg a), <- (Z.rem_mod_nonneg a) by lia. done.
Qed.

Lemma divmod_correct_witness :
  divmod (-100) 7 = Some (s32 (Z.quot (-100) 7), Z.rem (-100) 7) /\ divmod (-100) 7 = Some (-14, -2).
Proof.
  split; [|vm_compute; reflexivity].
  apply (divmod_correct (-100) 7); unfold is_s32, INT_MIN; lia.
Defined.

(** The estimate of [n / 10] before its correction. *)
Lemma tenth_estimate n q1 q2 q3 q4 q :
  0 <= n < two32 -> q1 = n / 2 + n / 4 -> q2 = q1 + q1 / 16 -> q3 = q2 + q2 / 256 ->
  q4 = q3 + q3 / 65536 -> q = q4 / 8 ->
  0 <= q1 < two32 /\ 0 <= q2 < two32 /\ 0 <= q3 < two32 /\ 0 <= q4 < two32 /\
  0 <= q < two32 /\ 0 <= n - 10 * q < 20.
Proof.
  unfold two32. intros Hn -> -> -> -> ->. Z.to_euclidean_division_equations. lia.
Qed.

Lemma do_div_10 n : 0 <= n < two32 -> do_div n 10 = (n mod 10, n / 10).
Proof.
  intros Hn. unfold do_div. change (10 =? 10) with true. cbv iota zeta.
  rewrite !Z.shiftr_div_pow2, !Z.shiftl_mul_pow2 by lia.
  change (2 ^ 1) with 2. change (2 ^ 2) with 4. change (2 ^ 3) with 8. change (2 ^ 4) with 16.
  change (2 ^ 8) with 256. change (2 ^ 16) with 65536.
  set (q1 := n / 2 + n / 4). set (q2 := q1 + q1 / 16). set (q3 := q2 + q2 / 256).
  set (q4 := q3 + q3 / 65536). set (q := q4 / 8).
  destruct (tenth_estimate n q1 q2 q3 q4 q) as (H1 & H2 & H3 & H4 & H5 & H6); [done..|].
  rewrite !(u32_id q1) by done. fold q2. rewrite !(u32_id q2) by done. fold q3.
  rewrite !(u32_id q3) by done. fold q4. rewrite !(u32_id q4) by done. fold q.
  assert (Hm : u32 (n - u32 (u32 (u32 (q * 4) + q) * 2)) = n - 10 * q).
  { unfold two32 in *. rewrite (u32_id (q * 4)) by (unfold is_u32, two32; lia).
    rewrite (u32_id (q * 4 + q)) by (unfold is_u32, two32; lia).
    rewrite (u32_id ((q * 4 + q) * 2)) by (unfold is_u32, two32; lia).
    rewrite u32_id; [lia|unfold is_u32, two32; lia]. }
  rewrite Hm. rewrite (u32_id (n - 10 * q + 6)) by (unfold is_u32, two32; lia).
  assert (Hq : q + (n - 10 * q + 6) / 16 = n / 10).
  { clearbody q. clear -H6. Z.to_euclidean_division_equations. lia. }
  rewrite Hq. clearbody q. clear -Hn.
  assert (0 <= 10 * (n / 10) <= n) by (Z.to_euclidean_division_equations; lia).
  unfold two32 in *.
  rewrite (u32_id (n / 10)) by (unfold is_u32, two32; lia).
  rewrite (u32_id (n / 10 * 4)) by (unfold is_u32, two32; lia).
  rewrite (u32_id (n / 10 * 4 + n / 10)) by (unfold is_u32, two32; lia).
  rewrite (u32_id ((n / 10 * 4 + n / 10) * 2)) by (unfold is_u32, two32; lia).
  f_equal. rewrite u32_id by (unfold is_u32, two32; lia).
  pose proof (Z.div_mod n 10). lia.
Qed.

(** [do_div] divides every 32-bit number exactly in the bases the printer
    uses, returning the remainder and leaving the quotient; in bases 16 and 8
    it does so for 64-bit numbers too.  Base 10 is limited to 32 bits: the
    quotient of 10^10 is wrong. *)
Theorem do_div_correct (n : Z) :
  0 <= n < 2 ^ 64 ->
  do_div n 16 = (n mod 16, n / 16) /\ do_div n 8 = (n mod 8, n / 8) /\
  (n < two32 -> do_div n 10 = (n mod 10, n / 10)) /\
  do_div (10 ^ 10) 10 <> (10 ^ 10 mod 10, 10 ^ 10 / 10).
Proof.
  intros Hn. unfold do_div; cbn [Z.eqb Pos.eqb].
  split; [|split; [|split]].
  - change 15 with (2 ^ 4 - 1). by rewrite land_ones_mod, Z.shiftr_div_pow2 by lia.
  - change 7 with (2 ^ 3 - 1). by rewrite land_ones_mod, Z.shiftr_div_pow2 by lia.
  - intros Hn32. apply do_div_10. lia.
  - vm_compute. discriminate.
Qed.

Lemma do_div_correct_witness :
  do_div 4294967295 10 = (4294967295 mod 10, 4294967295 / 10) /\ do_div 4294967295 10 = (5, 429496729).
Proof.
  split; [|vm_compute; reflexivity].
  apply (do_div_correct 4294967295); unfold two32; lia.
Defined.
