(* ===== verification/CString.v ===== *)
(** * Strings and memory blocks (libs/string.c)

    Memory is a function from addresses to bytes (0 to 255).  A [char] compared
    with an ASCII constant gives the same answer signed or unsigned, and the
    source converts to [unsigned char] where the order matters.  A buffer does
    not wrap around the end of the address space.  A loop that would pass over
    2^32 characters is reported as [OutOfFuel]. *)
From S2P Require Import Prelude.

Definition wr (p b : Z) (m : Z -> Z) : Z -> Z := fun q => if q =? p then b else m q.

(** ** The functions *)

Definition strlen (m : Z -> Z) (s : Z) : res Z :=
  loop (fun '(s, cnt) =>
    if negb (m s =? 0) then Ok (inl (s + 1, u32 (cnt + 1))) else Ok (inr cnt)) (s, 0).

Definition strnlen (m : Z -> Z) (s len : Z) : res Z :=
  loop (fun '(s, cnt) =>
    if (cnt <? len) && negb (m s =? 0) then Ok (inl (s + 1, u32 (cnt + 1))) else Ok (inr cnt)) (s, 0).

(** The functions that write return the new memory; their C result is [dst]. *)
Definition strcpy (dst src : Z) (m : Z -> Z) : res (Z -> Z) :=
  loop (fun '(p, src, m) =>
    let c := m src in
    let m := wr p c m in
    if negb (c =? 0) then Ok (inl (p + 1, src + 1, m)) else Ok (inr m)) (dst, src, m).

Definition strcat (dst src : Z) (m : Z -> Z) : res (Z -> Z) :=
  let! n := strlen m dst in strcpy (dst + n) src m.

Definition strncpy (dst src len : Z) (m : Z -> Z) : res (Z -> Z) :=
  loop (fun '(p, src, len, m) =>
    if 0 <? len then
      let c := m src in
      let m := wr p c m in
      let src := if negb (c =? 0) then src + 1 else src in
      Ok (inl (p + 1, src, len - 1, m))
    else Ok (inr m)) (dst, src, len, m).

Definition strcmp (m : Z -> Z) (s1 s2 : Z) : res Z :=
  loop (fun '(s1, s2) =>
    if negb (m s1 =? 0) && (m s1 =? m s2) then Ok (inl (s1 + 1, s2 + 1))
    else Ok (inr (m s1 - m s2))) (s1, s2).

Definition strncmp (m : Z -> Z) (s1 s2 n : Z) : res Z :=
  loop (fun '(s1, s2, n) =>
    if (0 <? n) && negb (m s1 =? 0) && (m s1 =? m s2) then Ok (inl (s1 + 1, s2 + 1, n - 1))
    else Ok (inr (if n =? 0 then 0 else m s1 - m s2))) (s1, s2, n).

Definition strchr (m : Z -> Z) (s c : Z) : res (option Z) :=
  loop (fun s =>
    if negb (m s =? 0) then
      if m s =? c then Ok (inr (Some s)) else Ok (inl (s + 1))
    else Ok (inr None)) s.

Definition strfind (m : Z -> Z) (s c : Z) : res Z :=
  loop (fun s =>
    if negb (m s =? 0) then
      if m s =? c then Ok (inr s) else Ok (inl (s + 1))
    else Ok (inr s)) s.

(** The digit a character stands for. *)
Definition digit_of (c : Z) : option Z :=
  if (48 <=? c) && (c <=? 57) then Some (c - 48)
  else if (97 <=? c) && (c <=? 122) then Some (c - 97 + 10)
  else if (65 <=? c) && (c <=? 90) then Some (c - 65 + 10)
  else None.

(** The value and the address stored through [endptr]. *)
Definition strtol (m : Z -> Z) (s base : Z) : res (Z * Z) :=
  let! s := loop (fun s => if (m s =? 32) || (m s =? 9) then Ok (inl (s + 1)) else Ok (inr s)) s in
  let '(s, neg) := if m s =? 43 then (s + 1, false)
                   else if m s =? 45 then (s + 1, true) else (s, false) in
  let '(s, base) :=
    if ((base =? 0) || (base =? 16)) && ((m s =? 48) && (m (s + 1) =? 120)) then (s + 2, 16)
    else if (base =? 0) && (m s =? 48) then (s + 1, 8)
    else if base =? 0 then (s, 10) else (s, base) in
  let! (s, val) := loop (fun '(s, val) =>
    match digit_of (m s) with
    | None => Ok (inr (s, val))
    | Some dig => if base <=? dig then Ok (inr (s, val)) else Ok (inl (s + 1, s32 (s32 (val * base) + dig)))
    end) (s, 0) in
  Ok (if neg : bool then s32 (- val) else val, s).

Definition memset (s c n : Z) (m : Z -> Z) : res (Z -> Z) :=
  loop (fun '(p, n, m) =>
    if 0 <? n then Ok (inl (p + 1, n - 1, wr p c m)) else Ok (inr m)) (s, n, m).

Definition memcpy (dst src n : Z) (m : Z -> Z) : res (Z -> Z) :=
  loop (fun '(d, s, n, m) =>
    if 0 <? n then Ok (inl (d + 1, s + 1, n - 1, wr d (m s) m)) else Ok (inr m)) (dst, src, n, m).

Definition memmove (dst src n : Z) (m : Z -> Z) : res (Z -> Z) :=
  if (src <? dst) && (dst <? src + n) then
    loop (fun '(d, s, n, m) =>
      if 0 <? n then
        let d := d - 1 in let s := s - 1 in Ok (inl (d, s, n - 1, wr d (m s) m))
      else Ok (inr m)) (dst + n, src + n, n, m)
  else memcpy dst src n m.

Definition memcmp (m : Z -> Z) (v1 v2 n : Z) : res Z :=
  loop (fun '(s1, s2, n) =>
    if 0 <? n then
      if negb (m s1 =? m s2) then Ok (inr (m s1 - m s2)) else Ok (inl (s1 + 1, s2 + 1, n - 1))
    else Ok (inr 0)) (v1, v2, n).

(** kern/libs/string.c: [mem] is what [kmalloc] returned for a size. *)
Definition strdup (kmalloc : Z -> option Z) (src : Z) (m : Z -> Z) : res (option Z * (Z -> Z)) :=
  let! len := strlen m src in
  match kmalloc (u32 (len + 1)) with
  | Some dst => let! m := memcpy dst src len m in Ok (Some dst, wr (dst + len) 0 m)
  | None => Ok (None, m)
  end.

Definition stradd (kmalloc : Z -> option Z) (src1 src2 : Z) (m : Z -> Z) : res (option Z * (Z -> Z)) :=
  let! len1 := strlen m src1 in
  let! len2 := strlen m src2 in
  match kmalloc (u32 (u32 (len1 + len2) + 1)) with
  | Some dst =>
      let! m := memcpy dst src1 len1 m in
      let! m := memcpy (dst + len1) src2 len2 m in
      Ok (Some dst, wr (dst + len1 + len2) 0 m)
  | None => Ok (None, m)
  end.

(** ** Strings in memory *)

(** A C string of length [n] at [s]. *)
Definition cstr (m : Z -> Z) (s n : Z) : Prop :=
  0 <= n < 4294967295 /\ (forall i, 0 <= i < n -> m (s + i) <> 0) /\ m (s + n) = 0.

(** [m] after the [n] bytes at [src] have been copied to [dst]. *)
Definition blit (dst src n : Z) (m : Z -> Z) : Z -> Z :=
  fun q => if (dst <=? q) && (q <? dst + n) then m (src + (q - dst)) else m q.

Lemma wr_eq p b m : wr p b m p = b.
Proof. unfold wr. by rewrite Z.eqb_refl. Qed.
Lemma wr_ne p b m q : q <> p -> wr p b m q = m q.
Proof. intros H. unfold wr. by destruct (Z.eqb_spec q p). Qed.
Lemma blit_in dst src n m q : dst <= q < dst + n -> blit dst src n m q = m (src + (q - dst)).
Proof. intros H. unfold blit. destruct (Z.leb_spec dst q), (Z.ltb_spec q (dst + n)); simpl; done || lia. Qed.
Lemma blit_out dst src n m q : ~ dst <= q < dst + n -> blit dst src n m q = m q.
Proof. intros H. unfold blit. destruct (Z.leb_spec dst q), (Z.ltb_spec q (dst + n)); simpl; done || lia. Qed.

Lemma strnlen_spec m s len : 0 <= len < two32 ->
  exists k, strnlen m s len = Ok k /\ 0 <= k <= len /\ (forall i, 0 <= i < k -> m (s + i) <> 0) /\
    (k < len -> m (s + k) = 0).
Proof.
  intros Hl. unfold two32 in *. unfold strnlen.
  apply (loop_rule (fun '(p, cnt) => p = s + cnt /\ 0 <= cnt <= len /\ forall i, 0 <= i < cnt -> m (s + i) <> 0)
    (fun '(_, cnt) => len - cnt)); [|split_and!; lia|lia].
  intros [p cnt] (-> & Hc & Hi). split; [lia|].
  destruct (Z.ltb_spec cnt len) as [Hlt|]; [|cbn; split_and!; (done || lia)].
  destruct (Z.eqb_spec (m (s + cnt)) 0) as [H0|H0]; cbn; [split_and!; (done || lia)|].
  rewrite (u32_id (cnt + 1)) by (unfold is_u32, two32; lia). split_and!; try lia.
  intros i Hi'. destruct (decide (i = cnt)) as [->|]; [done|]. apply Hi. lia.
Qed.

Lemma strlen_spec m s n : cstr m s n -> strlen m s = Ok n.
Proof.
  intros (Hn & Hnz & H0). unfold strlen.
  destruct (loop_rule (fun '(p, cnt) => p = s + cnt /\ 0 <= cnt <= n) (fun '(_, cnt) => n - cnt) (fun v => v = n)
    (fun '(s, cnt) => if negb (m s =? 0) then Ok (inl (s + 1, u32 (cnt + 1))) else Ok (inr cnt)) (s, 0))
    as (v & -> & ->); [|lia..|done].
  intros [p cnt] [-> Hc]. split; [lia|].
  destruct (Z.eqb_spec (m (s + cnt)) 0) as [Hz|Hz]; cbn.
  - destruct (decide (cnt = n)); [done|]. exfalso. apply (Hnz cnt); [lia|done].
  - assert (cnt <> n) by congruence. rewrite (u32_id (cnt + 1)) by (unfold is_u32, two32; lia). lia.
Qed.

(** Copying forwards is right unless [dst] lies inside the source. *)
Lemma memset_spec s c n m : 0 <= n < two32 ->
  exists m', memset s c n m = Ok m' /\ forall q, m' q = if (s <=? q) && (q <? s + n) then c else m q.
Proof.
  intros Hn. unfold memset.
  apply (loop_rule (fun '(p, r, b) => 0 <= r <= n /\ p = s + (n - r) /\ forall q, b q = if (s <=? q) && (q <? p) then c else m q) (fun '(_, r, _) => r)).
  - intros [[p r] b] (Hr & -> & Hb). split; [lia|]. destruct (Z.ltb_spec 0 r).
    + split; [|lia]. split; [lia|]. split; [lia|]. intros q. destruct (decide (q = s + (n - r))) as [->|Hq].
      * rewrite wr_eq. destruct (Z.leb_spec s (s + (n - r))), (Z.ltb_spec (s + (n - r)) (s + (n - r) + 1)); (lia || done).
      * rewrite wr_ne, Hb by done. f_equal. f_equal. destruct (Z.ltb_spec q (s + (n - r))), (Z.ltb_spec q (s + (n - r) + 1)); (lia || done).
    + intros q. rewrite Hb. by replace (s + (n - r)) with (s + n) by lia.
  - split; [lia|]. split; [lia|]. intros q. destruct (Z.leb_spec s q), (Z.ltb_spec q s); (lia || done).
  - unfold two32 in Hn. lia.
Qed.

Lemma memcpy_spec dst src n m : 0 <= n < two32 -> ~ src < dst < src + n ->
  exists m', memcpy dst src n m = Ok m' /\ forall q, m' q = blit dst src n m q.
Proof.
  intros Hn Hov. unfold two32, memcpy in *.
  apply (loop_rule (fun '(d, s, k, m1) => d = dst + (n - k) /\ s = src + (n - k) /\ 0 <= k <= n /\
      forall q, m1 q = blit dst src (n - k) m q) (fun '(_, _, k, _) => k)); [|split_and!; try lia|lia].
  2: { intros q. rewrite blit_out by lia. done. }
  intros [[[d s] k] m1] (-> & -> & Hk & Hm). split; [lia|].
  destruct (Z.ltb_spec 0 k) as [Hlt|]; cbn.
  2: { assert (k = 0) as -> by lia. by rewrite Z.sub_0_r in Hm. }
  split_and!; try lia. intros q. destruct (decide (q = dst + (n - k))) as [->|Hq].
  - rewrite wr_eq, Hm, blit_out, blit_in by lia. f_equal. lia.
  - rewrite wr_ne, Hm by done. destruct (decide (dst <= q < dst + (n - k))).
    + by rewrite !blit_in by lia.
    + by rewrite !blit_out by lia.
Qed.

Lemma memmove_back dst src n m : 0 <= n < two32 -> src < dst ->
  exists m', loop (fun '(d, s, n, m) =>
      if 0 <? n then
        let d := d - 1 in let s := s - 1 in Ok (inl (d, s, n - 1, wr d (m s) m))
      else Ok (inr m)) (dst + n, src + n, n, m) = Ok m' /\
    forall q, m' q = blit dst src n m q.
Proof.
  intros Hn Hov. unfold two32 in *.
  apply (loop_rule (fun '(d, s, k, m1) => d = dst + k /\ s = src + k /\ 0 <= k <= n /\
      forall q, m1 q = blit (dst + k) (src + k) (n - k) m q) (fun '(_, _, k, _) => k));
    [|split_and!; try lia; intros q; rewrite blit_out by lia; done|lia].
  intros [[[d s] k] m1] (-> & -> & Hk & Hm). split; [lia|].
  destruct (Z.ltb_spec 0 k) as [Hlt|]; cbn.
  2: { assert (k = 0) as -> by lia. by rewrite Z.sub_0_r, !Z.add_0_r in Hm. }
  split_and!; try lia. intros q. destruct (decide (q = dst + k - 1)) as [->|Hq].
  - rewrite wr_eq, Hm, blit_out, blit_in by lia. f_equal. lia.
  - rewrite wr_ne, Hm by done. destruct (decide (dst + k <= q < dst + n)).
    + rewrite !blit_in by lia. f_equal. lia.
    + by rewrite !blit_out by lia.
Qed.

(** ** Properties *)

(** C24: [memmove] copies the block whatever the overlap of source and
    destination: afterwards the destination holds what the source held
    before, and every other byte is unchanged. *)
Theorem memmove_correct (dst src n : Z) (m : Z -> Z) :
  0 <= n < two32 ->
  exists m', memmove dst src n m = Ok m' /\ forall q, m' q = blit dst src n m q.
Proof.
  intros Hn. unfold memmove. destruct (Z.ltb_spec src dst), (Z.ltb_spec dst (src + n)); cbn.
  - by apply memmove_back.
  - apply memcpy_spec; [done|lia].
  - apply memcpy_spec; [done|lia].
  - apply memcpy_spec; [done|lia].
Qed.

Lemma strcmp_spec (m : Z -> Z) (s1 s2 n1 n2 : Z) :
  cstr m s1 n1 -> cstr m s2 n2 ->
  exists k, 0 <= k <= Z.min n1 n2 /\ (forall i, 0 <= i < k -> m (s1 + i) = m (s2 + i)) /\
    strcmp m s1 s2 = Ok (m (s1 + k) - m (s2 + k)) /\
    (m (s1 + k) = m (s2 + k) <-> n1 = n2 /\ (forall i, 0 <= i < n1 -> m (s1 + i) = m (s2 + i))).
Proof.
  intros (Hn1 & Hnz1 & H01) (Hn2 & Hnz2 & H02).
  destruct (loop_rule (fun '(p1, p2) => exists k, p1 = s1 + k /\ p2 = s2 + k /\ 0 <= k <= Z.min n1 n2 /\
      (forall i, 0 <= i < k -> m (s1 + i) = m (s2 + i))) (fun '(p1, _) => s1 + n1 - p1)
    (fun v => exists k, v = m (s1 + k) - m (s2 + k) /\ 0 <= k <= Z.min n1 n2 /\
      (forall i, 0 <= i < k -> m (s1 + i) = m (s2 + i)) /\ (m (s1 + k) = 0 \/ m (s1 + k) <> m (s2 + k)))
    (fun '(s1, s2) => if negb (m s1 =? 0) && (m s1 =? m s2) then Ok (inl (s1 + 1, s2 + 1))
       else Ok (inr (m s1 - m s2))) (s1, s2)) as (v & E & k & -> & Hk & Heq & Hstop); [|exists 0; split_and!; lia|lia|].
  - intros [p1 p2] (k & -> & -> & Hk & Heq). split; [lia|].
    destruct (Z.eqb_spec (m (s1 + k)) 0), (Z.eqb_spec (m (s1 + k)) (m (s2 + k))) as [He|]; cbn;
      try (exists k; split_and!; (done || lia || auto)).
    assert (k <> n1) by congruence. assert (k <> n2) by congruence.
    split; [|lia]. exists (k + 1). split_and!; try lia.
    intros i Hi. destruct (decide (i = k)) as [->|]; [done|]. apply Heq. lia.
  - exists k. unfold strcmp. split; [done|]. split; [done|]. split; [done|]. split.
    + intros He. destruct Hstop as [Hz|]; [|done].
      assert (k = n1). { destruct (decide (k = n1)); [done|]. exfalso. apply (Hnz1 k); [lia|done]. }
      assert (k = n2). { destruct (decide (k = n2)); [done|]. exfalso. apply (Hnz2 k); [lia|congruence]. }
      subst. done.
    + intros [-> Hall]. destruct (decide (k = n2)) as [->|]; [congruence|]. apply Hall. lia.
Qed.

(** [strcmp] of two C strings stops at the first position where they
    differ or end, and returns the difference of the (unsigned) characters
    there; so it is 0 exactly for equal strings. *)
Theorem strcmp_first_difference (m : Z -> Z) (s1 s2 n1 n2 : Z) :
  cstr m s1 n1 -> cstr m s2 n2 ->
  exists k, 0 <= k <= Z.min n1 n2 /\ (forall i, 0 <= i < k -> m (s1 + i) = m (s2 + i)) /\
    strcmp m s1 s2 = Ok (m (s1 + k) - m (s2 + k)) /\
    (m (s1 + k) = m (s2 + k) <-> n1 = n2 /\ (forall i, 0 <= i < n1 -> m (s1 + i) = m (s2 + i))).
Proof. apply strcmp_spec. Qed.

(** *** Concrete inputs *)

Definition text (l : list Z) (base : Z) : Z -> Z :=
  fun q => if q <? base then 0 else default 0 (l !! Z.to_nat (q - base)).

Lemma memmove_correct_witness :
  exists m', memmove 101 100 3 (text [1; 2; 3; 4] 100) = Ok m' /\ m' 101 = 1 /\ m' 103 = 3.
Proof.
  destruct (memmove_correct 101 100 3 (text [1; 2; 3; 4] 100)) as (m' & E & H); [unfold two32; lia|].
  exists m'. rewrite !H. done.
Defined.

Lemma strcmp_first_difference_witness :
  exists k, 0 <= k <= 2 /\ strcmp (text [97; 98; 0; 97; 99; 0] 0) 0 3 =
    Ok (text [97; 98; 0; 97; 99; 0] 0 k - text [97; 98; 0; 97; 99; 0] 0 (3 + k)).
Proof.
  destruct (strcmp_first_difference (text [97; 98; 0; 97; 99; 0] 0) 0 3 2 2) as (k & Hk & _ & E & _).
  - split; [lia|]. split; [|done]. intros i Hi. assert (i = 0 \/ i = 1) as [-> | ->] by lia; done.
  - split; [lia|]. split; [|done]. intros i Hi. assert (i = 0 \/ i = 1) as [-> | ->] by lia; done.
  - exists k. split; [lia|exact E].
Defined.
