(* ===== verification/Printf.v ===== *)
(** * Formatted output (libs/printfmt.c)

    [putch] only appends to some output, so a formatting function returns the
    list of characters it puts.  The format string and the strings among the
    arguments are read from memory ([CString]); a buffer that is written does
    not overlap them.  A 32-bit argument of the [va_list] is a [VWord], a
    64-bit one a [VLong]; reading an argument of the wrong size is a
    [WildAccess].  [vprintfmt] is one loop: the state [Conv] stands for the
    label [reswitch]. *)
From Stdlib Require Import String Ascii.
From S2P Require Import Prelude Arith CString.

Inductive va := VWord (v : Z) | VLong (v : Z).

Fixpoint chars (s : string) : list Z :=
  match s with
  | EmptyString => []
  | String c s => Z.of_N (N_of_ascii c) :: chars s
  end.

Definition error_string : list (option (list Z)) :=
  [None; Some (chars "unspecified error"); Some (chars "bad process"); Some (chars "invalid parameter");
   Some (chars "out of memory"); Some (chars "out of processes"); Some (chars "segmentation fault");
   None; Some (chars "invalid elf file"); Some (chars "process is killed"); Some (chars "panic failure");
   None; None; Some (chars "no such device"); Some (chars "device not available");
   Some (chars "device/file is busy"); Some (chars "no such file or directory");
   Some (chars "is a directory"); Some (chars "not a directory"); Some (chars "cross device link");
   Some (chars "unimplemented feature"); Some (chars "illegal seek"); Some (chars "too many files are open");
   Some (chars "file or directory already exists"); Some (chars "directory is not empty")].

(** ** Numbers *)

(** The string constant that [printnum] indexes, with its NUL; an index past
    it is a wild read. *)
Definition digit_table : list Z := chars "0123456789abcdef" ++ [0].
Definition digit_char (mod_ : Z) : res Z :=
  if (0 <=? mod_) && (mod_ <? 17) then rget (digit_table !! Z.to_nat mod_) else Err WildAccess.

(** The characters [printnum] puts; 64 digits are enough for any base of at
    least 2. *)
Fixpoint printnum_fuel (fuel : nat) (num base width padc : Z) : res (list Z) :=
  match fuel with
  | O => Err OutOfFuel
  | S fuel =>
      let '(mod_, result) := do_div num base in
      let! before := (if base <=? num then printnum_fuel fuel result base (width - 1) padc
                      else Ok (repeat padc (Z.to_nat (width - 1)))) in
      let! c := digit_char mod_ in
      Ok (before ++ [c])
  end.
Definition printnum (num base width padc : Z) : res (list Z) := printnum_fuel 64 num base width padc.

(** The values are 64-bit patterns. *)
Definition u64 (z : Z) : Z := z mod 2 ^ 64.
Definition s64 (z : Z) : Z := (z + 2 ^ 63) mod 2 ^ 64 - 2 ^ 63.

Definition getuint (ap : list va) (lflag : Z) : res (Z * list va) :=
  match ap with
  | VLong v :: ap => if 2 <=? lflag then Ok (u64 v, ap) else Err WildAccess
  | VWord v :: ap => if 2 <=? lflag then Err WildAccess else Ok (u32 v, ap)
  | [] => Err WildAccess
  end.
Definition getint (ap : list va) (lflag : Z) : res (Z * list va) :=
  match ap with
  | VLong v :: ap => if 2 <=? lflag then Ok (s64 v, ap) else Err WildAccess
  | VWord v :: ap => if 2 <=? lflag then Err WildAccess else Ok (s32 v, ap)
  | [] => Err WildAccess
  end.
Definition va_word (ap : list va) : res (Z * list va) :=
  match ap with VWord v :: ap => Ok (v, ap) | _ => Err WildAccess end.

(** ** One conversion *)

Record conv := mk_conv { padc : Z; width : Z; precision : Z; lflag : Z; altflag : bool }.
Definition set_padc (c : Z) (cv : conv) : conv := mk_conv c (width cv) (precision cv) (lflag cv) (altflag cv).
Definition set_width (w : Z) (cv : conv) : conv := mk_conv (padc cv) w (precision cv) (lflag cv) (altflag cv).
Definition set_precision (p : Z) (cv : conv) : conv := mk_conv (padc cv) (width cv) p (lflag cv) (altflag cv).
Definition new_conv : conv := mk_conv 32 (-1) (-1) 0 false.

(** [process_precision:] *)
Definition process_precision (cv : conv) : conv :=
  if width cv <? 0 then set_precision (-1) (set_width (precision cv) cv) else cv.

(** [case '1' ... '9']: the number that starts with the digit [ch]; the
    address after it. *)
Definition read_width (m : Z -> Z) (fmt ch : Z) : res (Z * Z) :=
  loop (fun '(fmt, ch, precision) =>
    let precision := s32 (precision * 10 + ch - 48) in
    let ch := m fmt in
    if (ch <? 48) || (57 <? ch) then Ok (inr (fmt, precision)) else Ok (inl (fmt + 1, ch, precision)))
    (fmt, ch, 0).

(** [case 's']: the characters put for the string at [p]. *)
Definition put_string (m : Z -> Z) (p : Z) (cv : conv) : res (list Z) :=
  let! (out, width) :=
    (if (0 <? width cv) && negb (padc cv =? 45) then
       let! n := strnlen m p (u32 (precision cv)) in
       let w := s32 (width cv - n) in
       Ok (repeat (padc cv) (Z.to_nat w), Z.min w 0)
     else Ok ([], width cv)) in
  loop (fun '(p, precision, width, out) =>
    let ch := m p in
    let more := negb (ch =? 0) in
    let '(go, precision) := if more then if precision <? 0 then (true, precision)
                                         else (0 <=? precision - 1, precision - 1)
                            else (false, precision) in
    if go : bool then
      let c := if altflag cv && ((ch <? 32) || (126 <? ch)) then 63 else ch in
      Ok (inl (p + 1, precision, width - 1, out ++ [c]))
    else Ok (inr (out ++ repeat 32 (Z.to_nat width)))) (p, precision cv, width, out).

(** A string constant passed to [%s] with no width. *)
Definition put_error (err : Z) : res (list Z) :=
  let err := if err <? 0 then s32 (- err) else err in
  if MAXERROR <? err then
    let! d := printnum err 10 (-1) 32 in Ok (chars "error " ++ d)
  else if err <? 0 then Err WildAccess
  else
    match error_string !! Z.to_nat err with
    | Some (Some p) => Ok p
    | _ => let! d := printnum err 10 (-1) 32 in Ok (chars "error " ++ d)
    end.

(** [default:] back to the character after the last '%'. *)
Definition rewind (m : Z -> Z) (fmt : Z) : res Z :=
  loop (fun fmt => if negb (m (fmt - 1) =? 37) then Ok (inl (fmt - 1)) else Ok (inr fmt)) (fmt - 1).

Inductive mode := Scan | Conv (cv : conv).

(** The body of the [switch] for the character [ch] before [fmt]. *)
Definition convert (m : Z -> Z) (cv : conv) (ch fmt : Z) (ap : list va) (out : list Z)
    : res (mode * Z * list va * list Z) :=
  let number sign num base ap :=
    let! d := printnum num base (width cv) (padc cv) in Ok (Scan, fmt, ap, out ++ sign ++ d) in
  if ch =? 45 then Ok (Conv (set_padc 45 cv), fmt, ap, out)
  else if ch =? 48 then Ok (Conv (set_padc 48 cv), fmt, ap, out)
  else if (49 <=? ch) && (ch <=? 57) then
    let! (fmt, p) := read_width m fmt ch in
    Ok (Conv (process_precision (set_precision p cv)), fmt, ap, out)
  else if ch =? 42 then
    let! (v, ap) := va_word ap in
    Ok (Conv (process_precision (set_precision (s32 v) cv)), fmt, ap, out)
  else if ch =? 46 then Ok (Conv (if width cv <? 0 then set_width 0 cv else cv), fmt, ap, out)
  else if ch =? 35 then
    Ok (Conv (mk_conv (padc cv) (width cv) (precision cv) (lflag cv) true), fmt, ap, out)
  else if ch =? 108 then
    Ok (Conv (mk_conv (padc cv) (width cv) (precision cv) (s32 (lflag cv + 1)) (altflag cv)), fmt, ap, out)
  else if ch =? 99 then
    let! (v, ap) := va_word ap in Ok (Scan, fmt, ap, out ++ [v])
  else if ch =? 101 then
    let! (v, ap) := va_word ap in
    let! d := put_error (s32 v) in Ok (Scan, fmt, ap, out ++ d)
  else if ch =? 115 then
    let! (p, ap) := va_word ap in
    let! d := (if p =? 0 then
                 put_string (fun q => default 0 (if q <? 0 then None else chars "(null)" !! Z.to_nat q)) 0 cv
               else put_string m p cv) in
    Ok (Scan, fmt, ap, out ++ d)
  else if ch =? 100 then
    let! (num, ap) := getint ap (lflag cv) in
    if num <? 0 then number [45] (u64 (- num)) 10 ap else number [] num 10 ap
  else if ch =? 117 then
    let! (num, ap) := getuint ap (lflag cv) in number [] num 10 ap
  else if ch =? 111 then
    let! (num, ap) := getuint ap (lflag cv) in number [] num 8 ap
  else if ch =? 112 then
    let! (v, ap) := va_word ap in number [48; 120] (u32 v) 16 ap
  else if ch =? 120 then
    let! (num, ap) := getuint ap (lflag cv) in number [] num 16 ap
  else if ch =? 37 then Ok (Scan, fmt, ap, out ++ [ch])
  else
    let! fmt := rewind m fmt in Ok (Scan, fmt, ap, out ++ [37]).

Definition vprintfmt_body (m : Z -> Z) (s : mode * Z * list va * list Z)
    : res (mode * Z * list va * list Z + list Z) :=
  let '(md, fmt, ap, out) := s in
  let ch := m fmt in
  match md with
  | Scan =>
      if negb (ch =? 37) then
        if ch =? 0 then Ok (inr out) else Ok (inl (Scan, fmt + 1, ap, out ++ [ch]))
      else Ok (inl (Conv new_conv, fmt + 1, ap, out))
  | Conv cv => let! s := convert m cv ch (fmt + 1) ap out in Ok (inl s)
  end.

Definition vprintfmt (m : Z -> Z) (fmt : Z) (ap : list va) : res (list Z) :=
  loop (vprintfmt_body m) (Scan, fmt, ap, []).

(** ** Printing into a buffer *)

Record sprintbuf := mk_sprintbuf { buf : Z; ebuf : Z; cnt : Z }.

Definition sprintputch (ch : Z) (b : sprintbuf) (m : Z -> Z) : sprintbuf * (Z -> Z) :=
  let b := mk_sprintbuf (buf b) (ebuf b) (s32 (cnt b + 1)) in
  if buf b <? ebuf b then (mk_sprintbuf (buf b + 1) (ebuf b) (cnt b), wr (buf b) (ch mod 256) m)
  else (b, m).

Fixpoint sprint_all (out : list Z) (b : sprintbuf) (m : Z -> Z) : sprintbuf * (Z -> Z) :=
  match out with
  | [] => (b, m)
  | ch :: out => let '(b, m) := sprintputch ch b m in sprint_all out b m
  end.

(** The return value and the memory. *)
Definition vsnprintf (str size fmt : Z) (ap : list va) (m : Z -> Z) : res (Z * (Z -> Z)) :=
  let b := mk_sprintbuf str (u32 (str + size - 1)) 0 in
  if (str =? 0) || (ebuf b <? buf b) then Ok (- E_INVAL, m)
  else
    let! out := vprintfmt m fmt ap in
    let '(b, m) := sprint_all out b m in
    Ok (cnt b, wr (buf b) 0 m).

Example vprintfmt_ex :
  vprintfmt (text (chars "%5d|%-3s|%x|%e|%q") 100) 100 [VWord (-42); VWord 200; VWord 255; VWord (-4)]
  = Ok (chars "-   42|   |ff|out of memory|%q").
Proof. vm_compute. reflexivity. Qed.

(** [do_div] divides a 64-bit number by 10 wrongly, and the "digit" that it
    answers is far outside of the table. *)
Example printf_lld_faults :
  vprintfmt (text (chars "%lld") 100) 100 [VLong 10000000000] = Err WildAccess.
Proof. vm_compute. reflexivity. Qed.

(** ** Numerals *)

(** The character of a digit. *)
Definition digit (d : Z) : Z := if d <? 10 then 48 + d else 97 + (d - 10).

Lemma digit_char_Ok d : 0 <= d < 16 -> digit_char d = Ok (digit d).
Proof.
  intros Hd. assert (H : forallb (fun d => match digit_char d with Ok c => c =? digit d | Err _ => false end) (seqZ 0 16) = true) by (vm_compute; reflexivity).
  rewrite forallb_forall in H. specialize (H d). destruct (digit_char d); [f_equal; apply Z.eqb_eq|];
    (apply H || discriminate H); apply list_elem_of_In, elem_of_seqZ; lia.
Qed.

Definition eval_from (base : Z) (l : list Z) (v : Z) : Z := fold_left (fun a d => a * base + d) l v.

(** The canonical numeral of [num]: its digits, without a leading zero. *)
Record numeral (base : Z) (l : list Z) (num : Z) : Prop := {
  nl_digits : Forall (fun d => 0 <= d < base) l;
  nl_nonempty : l <> [];
  nl_value : eval_from base l 0 = num;
  nl_lead : head l = Some 0 -> l = [0]
}.

Lemma eval_from_snoc base l d v : eval_from base (l ++ [d]) v = eval_from base l v * base + d.
Proof. unfold eval_from. by rewrite fold_left_app. Qed.

(** The numbers [printnum] is right for ([do_div] divides 64-bit numbers by
    10 correctly only below 2^32). *)
Definition printable (base num : Z) : Prop :=
  (base = 8 \/ base = 10 \/ base = 16) /\ 0 <= num < 2 ^ 64 /\ (base = 10 -> num < two32).

Lemma printable_div base num : printable base num ->
  do_div num base = (num mod base, num / base) /\ printable base (num / base).
Proof.
  intros (Hb & Hn & H10). split.
  - destruct Hb as [->|[->| ->]]; unfold do_div; cbn [Z.eqb Pos.eqb].
    + change 7 with (2 ^ 3 - 1). by rewrite land_ones_mod, Z.shiftr_div_pow2 by lia.
    + apply do_div_10. specialize (H10 eq_refl). lia.
    + change 15 with (2 ^ 4 - 1). by rewrite land_ones_mod, Z.shiftr_div_pow2 by lia.
  - split; [done|]. destruct Hb as [->|[->| ->]]; split;
      try (intros Heq; try done; specialize (H10 Heq)); Z.to_euclidean_division_equations; lia.
Qed.

Lemma printnum_fuel_spec base padc fuel : forall num width,
  printable base num -> (0 < fuel)%nat -> num < base ^ Z.of_nat fuel ->
  exists l, numeral base l num /\ (length l <= fuel)%nat /\
    printnum_fuel fuel num base width padc =
    Ok (repeat padc (Z.to_nat (width - Z.of_nat (length l))) ++ map digit l).
Proof.
  induction fuel as [|fuel IH]; intros num width Hp Hfu Hf; [lia|].
  simpl. destruct (printable_div base num Hp) as [-> Hp'].
  assert (Hb : 2 <= base) by (destruct Hp as [[|[|]] _]; lia).
  assert (Hm : 0 <= num mod base < base) by (apply Z.mod_pos_bound; lia).
  destruct (Z.leb_spec base num) as [Hle|Hlt].
  - destruct (IH (num / base) (width - 1) Hp') as (l & Hl & Hlen & E).
    { destruct fuel; [|lia]. change (Z.of_nat 1) with 1 in Hf. lia. }
    { apply Z.div_lt_upper_bound; [lia|]. rewrite Nat2Z.inj_succ, Z.pow_succ_r in Hf by lia. done. }
    assert (Hm16 : num mod base < 16) by (destruct Hp as [[-> |[-> | ->]] _]; lia).
    rewrite E. cbn [rbind]. rewrite digit_char_Ok by lia. cbn [rbind]. exists (l ++ [num mod base]).
    rewrite length_app, map_app, app_assoc. simpl. split; [|split; [lia|]].
    + destruct Hl as [Hd Hne Hv Hh]. split.
      * apply Forall_app. split; [done|by apply Forall_singleton].
      * by destruct l.
      * rewrite eval_from_snoc, Hv. rewrite (Z.div_mod num base) at 3 by lia. lia.
      * destruct l as [|d l]; [done|]. simpl. intros [= ->]. rewrite (Hh eq_refl) in Hv. simpl in Hv.
        exfalso. assert (0 < num / base) by (apply Z.div_str_pos; lia).
        rewrite <- Hv in H. unfold eval_from in H. simpl in H. lia.
    + do 4 f_equal. lia.
  - rewrite Z.mod_small in * by (destruct Hp as (_ & ? & _); lia). cbn [rbind].
    rewrite digit_char_Ok by (destruct Hp as [[-> |[-> | ->]] ?]; lia). cbn [rbind].
    exists [num]. split; [split; [by apply Forall_singleton|done|done|by intros [= ->]]|].
    simpl. split; [lia|]. done.
Qed.

Lemma printnum_spec base num width padc : printable base num ->
  exists l, numeral base l num /\ (length l <= 64)%nat /\
    printnum num base width padc =
    Ok (repeat padc (Z.to_nat (width - Z.of_nat (length l))) ++ map digit l).
Proof.
  intros Hp. apply printnum_fuel_spec; [done|lia|]. destruct Hp as (Hb & Hn & _).
  apply Z.lt_le_trans with (2 ^ 64); [lia|]. change (Z.of_nat 64) with 64.
  destruct Hb as [->|[->| ->]]; by vm_compute.
Qed.

(** *** Reading a numeral back *)

Lemma s32_ext x y : x mod two32 = y mod two32 -> s32 x = s32 y.
Proof. intros H. unfold s32. rewrite <- (Zplus_mod_idemp_l x), <- (Zplus_mod_idemp_l y). by rewrite H. Qed.
Lemma s32_step x base d : s32 (s32 (s32 x * base) + d) = s32 (x * base + d).
Proof.
  apply s32_ext. rewrite <- (Zplus_mod_idemp_l _ d), s32_mod, Zplus_mod_idemp_l.
  rewrite <- (Zplus_mod_idemp_l (_ * base)), <- Zmult_mod_idemp_l, s32_mod.
  by rewrite Zmult_mod_idemp_l, Zplus_mod_idemp_l.
Qed.

Lemma digit_of_char d : 0 <= d < 36 -> digit_of (digit d) = Some d.
Proof.
  intros Hd. unfold digit, digit_of. destruct (Z.ltb_spec d 10).
  - destruct (Z.leb_spec 48 (48 + d)), (Z.leb_spec (48 + d) 57); try lia. simpl. f_equal. lia.
  - destruct (Z.leb_spec 48 (97 + (d - 10))), (Z.leb_spec (97 + (d - 10)) 57); try lia.
    destruct (Z.leb_spec 97 (97 + (d - 10))), (Z.leb_spec (97 + (d - 10)) 122); try lia.
    cbn [andb]. f_equal. lia.
Qed.

Definition bytes_at (m : Z -> Z) (s : Z) (l : list Z) : Prop :=
  forall i c, l !! i = Some c -> m (s + Z.of_nat i) = c.

Lemma bytes_at_cons m s c l : bytes_at m s (c :: l) -> m s = c /\ bytes_at m (s + 1) l.
Proof.
  intros H. split.
  - rewrite <- (Z.add_0_r s). by apply (H 0%nat).
  - intros i d Hi. replace (s + 1 + Z.of_nat i) with (s + Z.of_nat (Datatypes.S i)) by lia. by apply H.
Qed.

Definition digits_body (m : Z -> Z) (base : Z) : Z * Z -> res (Z * Z + Z * Z) := fun '(s, val) =>
  match digit_of (m s) with
  | None => Ok (inr (s, val))
  | Some dig => if base <=? dig then Ok (inr (s, val)) else Ok (inl (s + 1, s32 (s32 (val * base) + dig)))
  end.

Lemma digits_rounds m base l s v : 0 < base <= 36 -> Forall (fun d => 0 <= d < base) l ->
  bytes_at m s (map digit l) -> m (s + Z.of_nat (length l)) = 0 ->
  rounds (Datatypes.S (length l)) (digits_body m base) (s, s32 v) =
  Ok (inr (s + Z.of_nat (length l), s32 (eval_from base l v))).
Proof.
  intros Hb. revert s v. induction l as [|d l IH]; intros s v Hd Hm Hz.
  - simpl in *. rewrite Z.add_0_r in *. rewrite Hz. done.
  - apply Forall_cons in Hd as [Hd Hl]. simpl map in Hm. apply bytes_at_cons in Hm as [Hc Hm].
    cbn [length rounds]. cbn [length rounds] in IH. unfold digits_body at 1. rewrite Hc, digit_of_char by lia.
    destruct (Z.leb_spec base d); [lia|]. cbn [rbind]. rewrite s32_step, IH; [|done|done|].
    + do 3 f_equal. simpl length. lia.
    + rewrite <- Hz. f_equal. simpl length. lia.
Qed.

Lemma digits_loop m base l s : 0 < base <= 36 -> Forall (fun d => 0 <= d < base) l -> (length l <= 64)%nat ->
  bytes_at m s (map digit l) -> m (s + Z.of_nat (length l)) = 0 ->
  loop (digits_body m base) (s, 0) = Ok (s + Z.of_nat (length l), s32 (eval_from base l 0)).
Proof.
  intros Hb Hd Hl Hm Hz. apply (loop_rounds (Datatypes.S (length l))); [|lia].
  by apply (digits_rounds m base l s 0).
Qed.

(** A format with one conversion character and nothing else. *)
Definition fmt_at (m : Z -> Z) (fmt c : Z) : Prop := m fmt = 37 /\ m (fmt + 1) = c /\ m (fmt + 2) = 0.

Lemma vprintfmt_one m fmt c ap ap' out : fmt_at m fmt c ->
  convert m new_conv c (fmt + 1 + 1) ap [] = Ok (Scan, fmt + 1 + 1, ap', out) ->
  vprintfmt m fmt ap = Ok out.
Proof.
  intros (H0 & H1 & H2) E. apply (loop_rounds 3); [|lia]. cbn [rounds]. unfold vprintfmt_body.
  rewrite H0. cbn [Z.eqb Pos.eqb negb rbind]. rewrite H1, E. cbn [rbind].
  replace (fmt + 1 + 1) with (fmt + 2) by lia. by rewrite H2.
Qed.

Lemma printf_d m fmt n : is_s32 n -> fmt_at m fmt 100 ->
  exists l, numeral 10 l (Z.abs n) /\ (length l <= 64)%nat /\
    vprintfmt m fmt [VWord n] = Ok ((if n <? 0 then [45] else []) ++ map digit l).
Proof.
  unfold is_s32. intros Hn Hf.
  destruct (printnum_spec 10 (Z.abs n) (-1) 32) as (l & Hl & Hlen & E).
  { split; [auto|]. unfold two32. lia. }
  exists l. split; [done|]. split; [done|]. eapply vprintfmt_one; [done|].
  unfold convert. cbn -[Z.ltb s32 printnum u64]. change (new_conv.(lflag)) with 0. cbn -[s32 printnum u64].
  rewrite s32_id by (unfold is_s32; lia). destruct (Z.ltb_spec n 0).
  - replace (u64 (- n)) with (Z.abs n) by (unfold u64; rewrite Z.mod_small; lia).
    rewrite E. cbn [rbind]. by rewrite (Z2Nat.nonpos (-1 - _)) by lia.
  - replace n with (Z.abs n) by lia. rewrite E. cbn [rbind]. by rewrite (Z2Nat.nonpos (-1 - _)) by lia.
Qed.

Lemma printf_x m fmt n : is_u32 n -> fmt_at m fmt 120 ->
  exists l, numeral 16 l n /\ (length l <= 64)%nat /\ vprintfmt m fmt [VWord n] = Ok (map digit l).
Proof.
  unfold is_u32, two32. intros Hn Hf.
  destruct (printnum_spec 16 n (-1) 32) as (l & Hl & Hlen & E).
  { split; [auto|]. unfold two32. lia. }
  exists l. split; [done|]. split; [done|]. eapply vprintfmt_one; [done|].
  unfold convert. cbn -[u32 printnum]. rewrite u32_id by (unfold is_u32, two32; lia).
  rewrite E. cbn [rbind]. by rewrite (Z2Nat.nonpos (-1 - _)) by lia.
Qed.

(** [strtol] on a numeral with an optional minus sign. *)
Lemma strtol_numeral m s base l num (neg : bool) :
  base = 10 \/ base = 16 -> numeral base l num -> (length l <= 64)%nat ->
  bytes_at m s ((if neg then [45] else []) ++ map digit l) ->
  m (s + Z.of_nat (length ((if neg then [45] else []) ++ map digit l))) = 0 ->
  strtol m s base = Ok (s32 (if neg then - num else num),
    s + Z.of_nat (length ((if neg then [45] else []) ++ map digit l))).
Proof.
  intros Hb [Hd Hne Hv _] Hlen Hm Hz.
  set (s0 := if neg then s + 1 else s).
  assert (Hs0 : bytes_at m s0 (map digit l) /\ s0 + Z.of_nat (length l) =
    s + Z.of_nat (length ((if neg then [45] else []) ++ map digit l)) /\ (neg = true -> m s = 45)).
  { unfold s0. destruct neg; simpl in *; rewrite length_map.
    - apply bytes_at_cons in Hm as [? ?]. split; [done|]. split; [lia|done].
    - done. }
  destruct Hs0 as (Hm0 & Hend & Hneg). rewrite <- Hend in *.
  destruct l as [|d l]; [done|]. assert (H0 : 0 <= d < 16).
  { apply Forall_cons in Hd as [? _]. lia. }
  assert (Hc : m s0 = digit d) by (simpl in Hm0; by apply bytes_at_cons in Hm0 as [? _]).
  assert (Hx : m (s0 + 1) <> 120).
  { destruct l as [|d2 l]; simpl in *.
    - intros Hx. change (Z.of_nat 1) with 1 in Hz. congruence.
    - apply bytes_at_cons in Hm0 as [_ [Hc2 _]%bytes_at_cons]. rewrite Hc2. apply Forall_cons in Hd as [_ [Hd2 _]%Forall_cons].
      unfold digit. destruct (Z.ltb_spec d2 10); lia. }
  assert (Hdc : 48 <= digit d <= 57 \/ 97 <= digit d <= 102).
  { unfold digit. destruct (Z.ltb_spec d 10); lia. }
  pose proof (digits_loop m base (d :: l) s0 ltac:(lia) Hd Hlen Hm0 Hz) as E. rewrite Hv in E.
  unfold strtol.
  assert (Hws : (loop (fun s => if (m s =? 32) || (m s =? 9) then Ok (inl (s + 1)) else Ok (inr s)) s : res Z) = Ok s).
  { apply (loop_rounds 1); [|lia]. cbn [rounds].
    assert (Hms : m s = 45 \/ m s = digit d) by (unfold s0 in *; destruct neg; auto).
    destruct (Z.eqb_spec (m s) 32), (Z.eqb_spec (m s) 9); simpl; (done || lia). }
  rewrite Hws. cbn [rbind].
  assert (Hsign : (if m s =? 43 then (s + 1, false) else if m s =? 45 then (s + 1, true) else (s, false)) = (s0, neg)).
  { unfold s0 in *. destruct neg; [by rewrite Hneg|].
    destruct (Z.eqb_spec (m s) 43), (Z.eqb_spec (m s) 45); (done || lia). }
  rewrite Hsign.
  assert (Hpre : (if ((base =? 0) || (base =? 16)) && ((m s0 =? 48) && (m (s0 + 1) =? 120)) then (s0 + 2, 16)
    else if (base =? 0) && (m s0 =? 48) then (s0 + 1, 8)
    else if base =? 0 then (s0, 10) else (s0, base)) = (s0, base)).
  { destruct (Z.eqb_spec (m (s0 + 1)) 120); [done|]. rewrite !andb_false_r. by destruct Hb as [-> | ->]. }
  rewrite Hpre. fold (digits_body m base). rewrite E. cbn [rbind]. destruct neg; [|done].
  by rewrite s32_opp.
Qed.

(** *** The buffer *)

Lemma sprint_all_spec out : forall b m, buf b <= ebuf b -> 0 <= cnt b ->
  cnt b + Z.of_nat (length out) < 2147483648 ->
  exists b' m', sprint_all out b m = (b', m') /\
    buf b' = Z.min (buf b + Z.of_nat (length out)) (ebuf b) /\ cnt b' = cnt b + Z.of_nat (length out) /\
    (forall q, ~ buf b <= q < buf b' -> m' q = m q) /\
    (forall i c, out !! i = Some c -> buf b + Z.of_nat i < ebuf b -> m' (buf b + Z.of_nat i) = c mod 256).
Proof.
  induction out as [|c out IH]; intros [bf eb ct] m Hb Hc Hl; cbn [buf ebuf cnt length] in *.
  { exists (mk_sprintbuf bf eb ct), m. simpl. split_and!; try done; lia. }
  cbn [sprint_all]. unfold sprintputch. cbn [buf ebuf cnt]. rewrite s32_id by (unfold is_s32; lia).
  destruct (Z.ltb_spec bf eb) as [Hlt|Hge].
  - destruct (IH (mk_sprintbuf (bf + 1) eb (ct + 1)) (wr bf (c mod 256) m))
      as (b' & m' & E & Hbf & Hct & Hout & Hin); cbn [buf ebuf cnt] in *; try lia.
    exists b', m'. rewrite E. split_and!; [done|lia|lia| |].
    + intros q Hq. rewrite Hout by lia. apply wr_ne. lia.
    + intros [|i] d Hd Hi; simpl in Hd.
      * simplify_eq. rewrite Z.add_0_r. rewrite Hout by lia. apply wr_eq.
      * replace (bf + Z.of_nat (Datatypes.S i)) with (bf + 1 + Z.of_nat i) by lia. apply Hin; [done|lia].
  - destruct (IH (mk_sprintbuf bf eb (ct + 1)) m)
      as (b' & m' & E & Hbf & Hct & Hout & Hin); cbn [buf ebuf cnt] in *; try lia.
    exists b', m'. rewrite E. split_and!; [done|lia|lia|done|]. intros; lia.
Qed.

(** The test for a buffer that does not exist or wraps around. *)
Lemma ebuf_before str size : is_u32 str -> is_u32 size ->
  (str =? 0) || (u32 (str + size - 1) <? str) = (str =? 0) || (size =? 0) || (two32 <? str + size).
Proof.
  unfold is_u32. intros Hstr Hsize. destruct (Z.eqb_spec str 0); [done|]. cbn [orb].
  destruct (Z.ltb_spec two32 (str + size)) as [Hw|Hw].
  - rewrite orb_true_r. apply Z.ltb_lt. unfold u32. rewrite <- (Z_mod_plus_full _ (-1)), Z.mod_small by lia. lia.
  - rewrite u32_id by (unfold is_u32; lia). rewrite orb_false_r. destruct (Z.eqb_spec size 0), (Z.ltb_spec (str + size - 1) str); lia.
Qed.

(** ** Properties *)

(** C25: printing an [int] with [%d] and reading the characters back with
    [strtol] in base 10 gives the number again, for every [int] (including the
    most negative one), and stops right after them; [%x] and base 16 do so for
    every unsigned number, up to the conversion to [long]. *)
Theorem printf_strtol_roundtrip (n : Z) (m : Z -> Z) (fmt : Z) :
  (is_s32 n -> fmt_at m fmt 100 ->
     exists out, vprintfmt m fmt [VWord n] = Ok out /\
       forall m' s, bytes_at m' s out -> m' (s + Z.of_nat (length out)) = 0 ->
         strtol m' s 10 = Ok (n, s + Z.of_nat (length out))) /\
  (is_u32 n -> fmt_at m fmt 120 ->
     exists out, vprintfmt m fmt [VWord n] = Ok out /\
       forall m' s, bytes_at m' s out -> m' (s + Z.of_nat (length out)) = 0 ->
         strtol m' s 16 = Ok (s32 n, s + Z.of_nat (length out))).
Proof.
  split; intros Hn Hf.
  - destruct (printf_d m fmt n Hn Hf) as (l & Hl & Hlen & E). eexists. split; [exact E|].
    intros m' s Hm Hz. rewrite (strtol_numeral m' s 10 l (Z.abs n) (n <? 0)) by (auto).
    do 2 f_equal. destruct (Z.ltb_spec n 0); [|rewrite Z.abs_eq by lia; by apply s32_id].
    replace (- Z.abs n) with n by lia. by apply s32_id.
  - destruct (printf_x m fmt n Hn Hf) as (l & Hl & Hlen & E). eexists. split; [exact E|].
    intros m' s Hm Hz. by rewrite (strtol_numeral m' s 16 l n false) by auto.
Qed.

Lemma printf_strtol_roundtrip_witness :
  exists out, vprintfmt (text [37; 100] 100) 100 [VWord (-2147483648)] = Ok out /\
    strtol (text out 500) 500 10 = Ok (-2147483648, 500 + Z.of_nat (length out)).
Proof.
  destruct (proj1 (printf_strtol_roundtrip (-2147483648) (text [37; 100] 100) 100)) as (out & E & H).
  - unfold is_s32. lia.
  - repeat split.
  - exists out. split; [exact E|]. apply H.
    + intros i c Hi. unfold text. destruct (Z.ltb_spec (500 + Z.of_nat i) 500); [lia|].
      replace (Z.to_nat (500 + Z.of_nat i - 500)) with i by lia. by rewrite Hi.
    + unfold text. destruct (Z.ltb_spec (500 + Z.of_nat (length out)) 500); [lia|].
      replace (Z.to_nat (500 + Z.of_nat (length out) - 500)) with (length out) by lia.
      by rewrite lookup_ge_None_2.
Defined.

(** C18: [vsnprintf] writes inside its buffer only.  Without a buffer, with
    [size = 0], or when the end of the buffer is past the end of the address
    space, it writes nothing and returns [-E_INVAL].  Otherwise it faults
    exactly when formatting does, and when formatting produces [out] the bytes
    outside [str, str + size) are unchanged, the buffer holds as many of the
    characters as fit, always followed by a NUL, and the return value is the
    number of characters produced (below 2^31).  The format and the strings
    that it prints do not lie in the buffer. *)
Theorem vsnprintf_bounded (str size fmt : Z) (ap : list va) (m : Z -> Z) :
  is_u32 str -> is_u32 size ->
  if (str =? 0) || (size =? 0) || (two32 <? str + size) then vsnprintf str size fmt ap m = Ok (- E_INVAL, m)
  else
    match vprintfmt m fmt ap with
    | Err e => vsnprintf str size fmt ap m = Err e
    | Ok out =>
        Z.of_nat (length out) < 2147483648 ->
        let k := Z.min (Z.of_nat (length out)) (size - 1) in
        exists m', vsnprintf str size fmt ap m = Ok (Z.of_nat (length out), m') /\
          (forall q, ~ str <= q < str + size -> m' q = m q) /\ m' (str + k) = 0 /\
          (forall i c, out !! i = Some c -> Z.of_nat i < k -> m' (str + Z.of_nat i) = c mod 256)
    end.
Proof.
  intros Hstr Hsize. unfold vsnprintf. cbn [buf ebuf cnt]. rewrite ebuf_before by done.
  destruct ((str =? 0) || (size =? 0) || (two32 <? str + size)) eqn:Hb; [done|].
  rewrite !orb_false_iff, !Z.eqb_neq, Z.ltb_ge in Hb. destruct Hb as [[H0 H1] H2]. unfold is_u32 in *.
  rewrite u32_id by (unfold is_u32; lia). destruct (vprintfmt m fmt ap) as [out|]; [|done]. cbn [rbind]. intros Hl.
  destruct (sprint_all_spec out (mk_sprintbuf str (str + size - 1) 0) m)
    as (b' & m' & E' & Hb & Hc & Hout & Hin); cbn [buf ebuf cnt] in *; [lia..|].
  rewrite E'. exists (wr (buf b') 0 m'). rewrite Hb, Hc, Z.add_0_l.
  replace (Z.min (str + Z.of_nat (length out)) (str + size - 1)) with (str + Z.min (Z.of_nat (length out)) (size - 1)) in * by lia.
  split; [done|]. split; [|split; [apply wr_eq|]].
  - intros q Hq. rewrite wr_ne by lia. apply Hout. lia.
  - intros i c Hi Hlt. rewrite wr_ne by lia. apply Hin; [done|]. lia.
Qed.

Lemma vsnprintf_bounded_witness :
  exists m', vsnprintf 200 4 100 [VWord 12345] (text [37; 100] 100) = Ok (5, m') /\
    m' 202 = 51 /\ m' 203 = 0 /\ m' 204 = text [37; 100] 100 204.
Proof.
  pose proof (vsnprintf_bounded 200 4 100 [VWord 12345] (text [37; 100] 100)) as H.
  assert (E : vprintfmt (text [37; 100] 100) 100 [VWord 12345] = Ok [49; 50; 51; 52; 53]) by (vm_compute; reflexivity).
  rewrite E in H. destruct H as (m' & E' & Hout & H0 & Hin).
  - unfold is_u32, two32. lia.
  - unfold is_u32, two32. lia.
  - simpl. lia.
  - exists m'. split; [exact E'|]. split; [exact (Hin 2%nat 51 eq_refl eq_refl)|]. split; [exact H0|]. apply Hout. lia.
Defined.
