(* ===== verification/PageTable.v ===== *)
(** * Physical memory and two-level page tables (kern/mm/pmm.c, kern/mm/pmm.h)

    The machine state shared by the memory-management files: the page
    allocator, the words of physical memory (by page number and word index;
    a page directory and a page table are ordinary pages), the page directory
    the processor uses, the TLB, the flag [swap_init_ok] (set for good by
    [swap_init] during boot) and the queue of swappable pages (kern/mm/swap.c).
    A kernel virtual address of a page is represented by its physical page
    number, a [pte_t *] by the pair (page, index).

    [check_mm_struct] is NULL: it is only set inside the self-checks that run
    while the kernel boots.  So when a single page is asked for, none is free
    and [swap_init_ok] is set, [alloc_pages] calls [swap_out(NULL, 1, 0)],
    whose first action is to read [sm_priv] through the NULL pointer. *)
From S2P Require Import Prelude DList Blocks Atomic Arith DefaultPmm.

(** One slot of the TLB and the bookkeeping of kern/mm/tlb.c. *)
Record tlb_slot := mk_slot { hi : Z; lo0 : Z; lo1 : Z }.
Record tlb := mk_tlb {
  slots : list tlb_slot;
  tlb_algo_empty : list Z;
  tlb_algo_n : Z;
  tlb_algo_hi : list Z;
  tlb_algo_ptr : Z
}.

Record machine := mk_machine {
  npage : Z;
  pm : pmm;
  mem : Z -> Z -> Z;
  cur_pgdir : option Z;
  the_tlb : tlb;
  swap_init_ok : bool;
  pra : store
}.

Definition set_pm (p : pmm) (m : machine) : machine :=
  mk_machine (npage m) p (mem m) (cur_pgdir m) (the_tlb m) (swap_init_ok m) (pra m).
Definition set_mem (f : Z -> Z -> Z) (m : machine) : machine :=
  mk_machine (npage m) (pm m) f (cur_pgdir m) (the_tlb m) (swap_init_ok m) (pra m).
Definition set_tlb (t : tlb) (m : machine) : machine :=
  mk_machine (npage m) (pm m) (mem m) (cur_pgdir m) t (swap_init_ok m) (pra m).
Definition set_cur_pgdir (d : option Z) (m : machine) : machine :=
  mk_machine (npage m) (pm m) (mem m) d (the_tlb m) (swap_init_ok m) (pra m).
Definition set_pra (s : store) (m : machine) : machine :=
  mk_machine (npage m) (pm m) (mem m) (cur_pgdir m) (the_tlb m) (swap_init_ok m) s.

Definition write_mem (p i v : Z) (f : Z -> Z -> Z) : Z -> Z -> Z :=
  fun q j => if (q =? p) && (j =? i) then v else f q j.
(** [memset(page2kva(p), 0, PGSIZE)] and a page-sized [memcpy]. *)
Definition zero_page (p : Z) (f : Z -> Z -> Z) : Z -> Z -> Z :=
  fun q j => if q =? p then 0 else f q j.
Definition copy_page (dst src : Z) (f : Z -> Z -> Z) : Z -> Z -> Z :=
  fun q j => if q =? dst then f src j else f q j.

(** ** Page numbers and addresses (pmm.h) *)

Definition PADDR (kva : Z) : res Z :=
  if kva <? KERNBASE then Err KPanic else Ok (kva - KERNBASE).
(** The page that [KADDR(pa)] points into. *)
Definition KADDR (pa : Z) (m : machine) : res Z :=
  if npage m <=? PPN pa then Err KPanic else Ok (PPN pa).
Definition page2ppn (page : Z) : Z := page.
Definition page2pa (page : Z) : Z := u32 (Z.shiftl (page2ppn page) PGSHIFT).
Definition pa2page (pa : Z) (m : machine) : res Z :=
  if npage m <=? PPN pa then Err KPanic else Ok (PPN pa).
Definition page2kva (page : Z) (m : machine) : res Z := KADDR (page2pa page) m.
Definition kva2page (kva : Z) (m : machine) : res Z :=
  let! pa := PADDR kva in pa2page pa m.
Definition pte2page (pte : Z) (m : machine) : res Z :=
  if Z.land pte PTE_P =? 0 then Err KPanic else pa2page (PTE_ADDR pte) m.
Definition pde2page (pde : Z) (m : machine) : res Z := pa2page (PTE_ADDR pde) m.

Definition page_ref (page : Z) (m : machine) : res Z :=
  let! pg := page_at (pm m) page in Ok (ref pg).
Definition upd_ref (page : Z) (f : Z -> Z) (m : machine) : res machine :=
  let! p := upd_page page (fun pg => set_ref (f (ref pg)) pg) (pm m) in Ok (set_pm p m).
Definition set_page_ref (page val : Z) (m : machine) : res machine :=
  upd_ref page (fun _ => val) m.
Definition page_ref_inc (page : Z) (m : machine) : res machine :=
  upd_ref page (fun r => s32 (r + 1)) m.
Definition page_ref_dec (page : Z) (m : machine) : res machine :=
  upd_ref page (fun r => s32 (r - 1)) m.

Definition alloc_pages (n : Z) (m : machine) : res (option Z * machine) :=
  let! (r, p) := default_alloc_pages n (pm m) in
  match r with
  | Some _ => Ok (r, set_pm p m)
  | None => if negb (1 <? n) && swap_init_ok m then Err WildAccess else Ok (None, set_pm p m)
  end.
Definition free_pages (base n : Z) (m : machine) : res machine :=
  let! p := default_free_pages base n (pm m) in Ok (set_pm p m).
Definition nr_free_pages (m : machine) : Z := default_nr_free_pages (pm m).
Definition alloc_page (m : machine) : res (option Z * machine) := alloc_pages 1 m.
Definition free_page (page : Z) (m : machine) : res machine := free_pages page 1 m.

(** ** [page_init] and the boot pages *)

(** [for (i = 0; i < npage; i ++) SetPageReserved(pages + i);] *)
Fixpoint reserve_loop (n : nat) (i : Z) (m : machine) : res machine :=
  match n with
  | O => Ok m
  | S n =>
      let! p := upd_page i SetPageReserved (pm m) in
      reserve_loop n (i + 1) (set_pm p m)
  end.

(** [freemem] is the physical address after the descriptor array (it depends
    on where the linker put [end]). *)
Definition page_init (freemem : Z) (m : machine) : res machine :=
  let! m := reserve_loop (Z.to_nat (npage m)) 0 m in
  let begin := ROUNDUP freemem PGSIZE in
  let end_ := ROUNDDOWN KMEMSIZE PGSIZE in
  if begin <? end_ then
    let! base := pa2page begin m in
    let! p := default_init_memmap base ((end_ - begin) / PGSIZE) (pm m) in
    Ok (set_pm p m)
  else Ok m.

Definition boot_alloc_page (m : machine) : res (Z * machine) :=
  let! (p, m) := alloc_page m in
  match p with
  | None => Err KPanic
  | Some p => let! k := page2kva p m in Ok (k, m)
  end.

(** ** Page-table walks *)

Definition load_pte (p : Z * Z) (m : machine) : Z := mem m p.1 p.2.
Definition store_pte (p : Z * Z) (v : Z) (m : machine) : machine :=
  set_mem (write_mem p.1 p.2 v (mem m)) m.

Definition get_pte (pgdir la : Z) (create : bool) (m : machine) : res (option (Z * Z) * machine) :=
  let pdep := (pgdir, PDX la) in
  let finish m :=
    let! pt := KADDR (Z.land (load_pte pdep m) 0xfffff000) m in
    Ok (Some (pt, Z.shiftr (Z.land la 0x003ff000) 12), m) in
  if Z.land (load_pte pdep m) PTE_P =? 0 then
    if negb create then Ok (None, m)
    else
      let! (page, m) := alloc_page m in
      let! page := rget page in
      let! m := set_page_ref page 1 m in
      let m := store_pte pdep (Z.lor (Z.lor (Z.lor (page2pa page) PTE_P) PTE_W) PTE_U) m in
      let! k := KADDR (page2pa page) m in
      let m := set_mem (zero_page k (mem m)) m in
      finish m
  else finish m.

(** [get_page]: the page mapped at [la] (the stored [ptep] is the one of
    [get_pte]). *)
Definition get_page (pgdir la : Z) (m : machine) : res (option Z * machine) :=
  let! (ptep, m) := get_pte pgdir la false m in
  match ptep with
  | Some ptep =>
      if negb (Z.land (load_pte ptep m) PTE_P =? 0) then
        let! p := pa2page (load_pte ptep m) m in Ok (Some p, m)
      else Ok (None, m)
  | None => Ok (None, m)
  end.

(** ** The mapping a directory describes *)

Definition present (e : Z) : bool := negb (Z.land e PTE_P =? 0).
#[global] Arguments present : simpl never.

(** The page-table page for [la], and the entry for [la] (0 when there is no
    page table). *)
Definition pt_of (m : machine) (pgdir la : Z) : option Z :=
  let pde := mem m pgdir (PDX la) in
  if present pde then Some (PPN pde) else None.
Definition entry (m : machine) (pgdir la : Z) : Z :=
  match pt_of m pgdir la with
  | Some f => mem m f (PTX la)
  | None => 0
  end.

Definition user (la : Z) : Prop := 0 <= la < KERNBASE.

(** A well-formed address space: the directory and its page tables are
    distinct pages in use, within physical memory. *)
Record pt_wf (bs : list block) (m : machine) (pgdir : Z) : Prop := {
  wf_pmm : pmm_inv (npage m) (pm m) bs;
  wf_np : npage m <= 1048576;
  wf_dir : 0 <= pgdir < npage m /\ ~ covers bs pgdir;
  wf_pde : forall la f, user la -> pt_of m pgdir la = Some f ->
    0 <= f < npage m /\ ~ covers bs f /\ f <> pgdir;
  wf_inj : forall la la' f, user la -> user la' -> pt_of m pgdir la = Some f ->
    pt_of m pgdir la' = Some f -> PDX la = PDX la';
  wf_word : forall p i, is_u32 (mem m p i)
}.

Lemma ptx_code la : Z.shiftr (Z.land la 0x003ff000) 12 = PTX la.
Proof. unfold PTX, PTXSHIFT. by rewrite Z.shiftr_land. Qed.

Lemma PPN_addr pde : is_u32 pde -> PPN (Z.land pde 0xfffff000) = PPN pde.
Proof.
  intros Hp. pose proof (PTE_ADDR_div pde Hp) as Ha.
  change (Z.land pde 0xfffff000) with (PTE_ADDR pde). rewrite Ha, !PPN_div.
  rewrite Z.div_mul; [done|lia].
Qed.

Lemma page2pa_mul p : 0 <= p < 1048576 -> page2pa p = p * 4096.
Proof.
  intros Hp. unfold page2pa, page2ppn, PGSHIFT. rewrite Z.shiftl_mul_pow2 by lia.
  apply u32_id. unfold is_u32, two32. lia.
Qed.

Lemma KADDR_Ok pa m : 0 <= PPN pa < npage m -> KADDR pa m = Ok (PPN pa).
Proof. intros H. unfold KADDR. destruct (Z.leb_spec (npage m) (PPN pa)); [lia|done]. Qed.
Lemma pa2page_Ok pa m : 0 <= PPN pa < npage m -> pa2page pa m = Ok (PPN pa).
Proof. intros H. unfold pa2page. destruct (Z.leb_spec (npage m) (PPN pa)); [lia|done]. Qed.

(** A page-aligned address with some of the low flag bits set. *)
Definition pte_make (p perm : Z) : Z := Z.lor (Z.lor (page2pa p) PTE_P) perm.

Lemma lor_low_bits p k : 0 <= p < 1048576 -> 0 <= k < 4096 -> Z.lor (page2pa p) k = p * 4096 + k.
Proof.
  intros Hp Hk. unfold page2pa, page2ppn, PGSHIFT. rewrite u32_id.
  - apply (lor_disjoint_add p k 12); lia.
  - unfold is_u32, two32. rewrite Z.shiftl_mul_pow2 by lia. lia.
Qed.

Lemma lor_small a b : 0 <= a < 4096 -> 0 <= b < 4096 -> 0 <= Z.lor a b < 4096.
Proof.
  intros Ha Hb. assert (H0 : 0 <= Z.lor a b) by (apply Z.lor_nonneg; lia). split; [done|].
  destruct (Z.eq_dec (Z.lor a b) 0) as [->|Hn]; [lia|].
  apply (Z.log2_lt_pow2 _ 12); [lia|]. rewrite Z.log2_lor by lia.
  destruct (Z.eq_dec a 0) as [->|]; destruct (Z.eq_dec b 0) as [->|];
    try (assert (Z.log2 a < 12) by (apply (Z.log2_lt_pow2 a 12); lia));
    try (assert (Z.log2 b < 12) by (apply (Z.log2_lt_pow2 b 12); lia)); cbn [Z.log2]; lia.
Qed.

Lemma pte_make_spec p perm :
  0 <= p < 1048576 -> 0 <= perm < 4096 ->
  is_u32 (pte_make p perm) /\ PPN (pte_make p perm) = p /\ present (pte_make p perm) = true.
Proof.
  intros Hp Hk. unfold pte_make. rewrite <- Z.lor_assoc.
  pose proof (lor_small PTE_P perm ltac:(unfold PTE_P; lia) Hk) as Hl.
  rewrite lor_low_bits by done. split; [unfold is_u32, two32; lia|]. split.
  - rewrite PPN_div. rewrite Z.div_add_l, Z.div_small by lia. lia.
  - unfold present. rewrite <- lor_low_bits by done.
    destruct (Z.eqb_spec (Z.land (Z.lor (page2pa p) (Z.lor PTE_P perm)) PTE_P) 0) as [E|]; [|done].
    assert (Hb : Z.testbit (Z.land (Z.lor (page2pa p) (Z.lor PTE_P perm)) PTE_P) 0 = true).
    { rewrite Z.land_spec, !Z.lor_spec. unfold PTE_P. simpl (Z.testbit 1 0).
      rewrite orb_true_l, orb_true_r. done. }
    rewrite E in Hb. done.
Qed.

(** ** [get_pte] *)

Lemma user_PDX la : user la -> 0 <= PDX la < 512.
Proof.
  intros [? ?]. unfold KERNBASE in *. rewrite PDX_div.
  assert (0 <= la / 4194304 < 512); [|rewrite Z.mod_small; lia].
  split; [apply Z.div_pos; lia|apply Z.div_lt_upper_bound; lia].
Qed.

Lemma get_pte_present bs m pgdir la create f :
  pt_wf bs m pgdir -> user la -> pt_of m pgdir la = Some f ->
  get_pte pgdir la create m = Ok (Some (f, PTX la), m).
Proof.
  intros Hwf Hla Hpt. unfold get_pte. pose proof (wf_pde _ _ _ Hwf _ _ Hla Hpt) as (Hf & _ & _).
  unfold pt_of, present in Hpt. unfold load_pte. cbn [fst snd].
  destruct (Z.land (mem m pgdir (PDX la)) PTE_P =? 0); [done|]. simpl in Hpt. injection Hpt as Hpt.
  pose proof (wf_word _ _ _ Hwf pgdir (PDX la)) as Hw.
  rewrite KADDR_Ok; rewrite PPN_addr, Hpt by done; [|done]. simpl. by rewrite ptx_code.
Qed.

Lemma get_pte_absent bs m pgdir la :
  pt_wf bs m pgdir -> user la -> pt_of m pgdir la = None ->
  get_pte pgdir la false m = Ok (None, m).
Proof.
  intros Hwf Hla Hpt. unfold get_pte, pt_of, present, load_pte in *. cbn [fst snd].
  destruct (Z.land (mem m pgdir (PDX la)) PTE_P =? 0); done.
Qed.

(** What [get_pte(.., 1)] leaves when it had to add the page table [p]. *)
Record new_table (bs bs' : list block) (m m' : machine) (pgdir la p : Z) : Prop := {
  nt_carve : carve 1 bs = Some (p, bs');
  nt_wf : pt_wf bs' m' pgdir;
  nt_pt : pt_of m' pgdir la = Some p;
  nt_pts : forall la', user la' ->
    pt_of m' pgdir la' = if decide (PDX la' = PDX la) then Some p else pt_of m pgdir la';
  nt_entry : forall la', user la' -> entry m' pgdir la' = entry m pgdir la';
  nt_ref : exists pg, pages (pm m') !! p = Some pg /\ ref pg = 1;
  nt_pages : forall i, ~ covers bs i -> pages (pm m') !! i = pages (pm m) !! i;
  nt_mem : forall q j, q <> pgdir -> q <> p -> mem m' q j = mem m q j;
  nt_rest : npage m' = npage m /\ cur_pgdir m' = cur_pgdir m /\ the_tlb m' = the_tlb m
}.

Lemma alloc_page_refines bs m :
  pmm_inv (npage m) (pm m) bs ->
  match carve 1 bs with
  | None => alloc_page m = if swap_init_ok m then Err WildAccess else Ok (None, m)
  | Some (p, bs') => exists pm', alloc_page m = Ok (Some p, set_pm pm' m) /\
      alloc_post (npage m) 1 (pm m) bs p bs' pm' /\
      (forall i, covers bs i <-> covers bs' i \/ i = p) /\ ~ covers bs' p
  end.
Proof.
  intros Hinv. pose proof (alloc_pages_refines _ _ _ 1 Hinv eq_refl) as Ha.
  unfold alloc_page, alloc_pages. destruct (carve 1 bs) as [[p bs']|] eqn:Hc.
  - destruct Ha as (st' & -> & Hpost). exists st'. split; [done|]. split; [done|].
    destruct (carve_Some (-1) 1 bs p bs') as (_ & _ & Hcov & Hd); [done|by apply (inv_canon _ _ _ Hinv)|done|].
    split; [|intros Hp%Hd; lia]. intros i. rewrite Hcov. intuition lia.
  - rewrite Ha. simpl. by destruct m as [? ? ? ? ? []].
Qed.

Lemma write_mem_eq p i v f : write_mem p i v f p i = v.
Proof. unfold write_mem. by rewrite !Z.eqb_refl. Qed.
Lemma write_mem_ne p i v f q j : q <> p \/ j <> i -> write_mem p i v f q j = f q j.
Proof.
  intros H. unfold write_mem. destruct (Z.eqb_spec q p), (Z.eqb_spec j i); simpl; done || lia.
Qed.
Lemma zero_page_eq p f j : zero_page p f p j = 0.
Proof. unfold zero_page. by rewrite Z.eqb_refl. Qed.
Lemma zero_page_ne p f q j : q <> p -> zero_page p f q j = f q j.
Proof. intros H. unfold zero_page. by destruct (Z.eqb_spec q p). Qed.

Lemma get_pte_create bs m pgdir la :
  pt_wf bs m pgdir -> user la -> pt_of m pgdir la = None ->
  match carve 1 bs with
  | None => get_pte pgdir la true m = Err WildAccess
  | Some (p, bs') => exists m', get_pte pgdir la true m = Ok (Some (p, PTX la), m') /\
      new_table bs bs' m m' pgdir la p
  end.
Proof.
  intros Hwf Hla Hpt. pose proof (alloc_page_refines bs m (wf_pmm _ _ _ Hwf)) as Ha.
  assert (Hz : (Z.land (mem m pgdir (PDX la)) PTE_P =? 0) = true).
  { unfold pt_of, present in Hpt. by destruct (Z.land (mem m pgdir (PDX la)) PTE_P =? 0). }
  unfold get_pte, load_pte. cbn [fst snd]. rewrite Hz. simpl.
  destruct (carve 1 bs) as [[p bs']|] eqn:Hc; [|rewrite Ha; by destruct (swap_init_ok m)].
  destruct Ha as (pm1 & -> & (Hinv1 & Hp0 & Hpn & Hpg & Hfr) & Hcov & Hpb). simpl.
  destruct (Hpg p) as (pg & Hpg1 & _ & _); [lia|].
  destruct (pmm_inv_set_ref _ _ _ _ _ (fun _ => 1) Hinv1 Hpb Hpg1) as (pm2 & E2 & Hinv2 & Hpg2 & Hfr2).
  unfold set_page_ref, upd_ref. simpl. rewrite E2. simpl.
  pose proof (wf_np _ _ _ Hwf) as Hnp. destruct (wf_dir _ _ _ Hwf) as [Hdir Hdirc].
  set (pde := Z.lor (Z.lor (Z.lor (page2pa p) PTE_P) PTE_W) PTE_U).
  assert (Hpde : is_u32 pde /\ PPN pde = p /\ present pde = true).
  { unfold pde. rewrite <- (Z.lor_assoc _ PTE_W). apply pte_make_spec; [lia|].
    unfold PTE_W, PTE_U. vm_compute. split; [discriminate|reflexivity]. }
  destruct Hpde as (Hpde32 & HpdeP & Hpdep). clearbody pde.
  assert (Hpp : PPN (page2pa p) = p).
  { rewrite page2pa_mul, PPN_div, Z.div_mul by lia. done. }
  assert (Hne : p <> pgdir). { intros ->. apply Hdirc, Hcov. auto. }
  rewrite (KADDR_Ok (page2pa p)) by (rewrite Hpp; simpl; lia). rewrite Hpp. cbn [rbind].
  unfold store_pte. cbn [set_mem set_pm mem fst snd npage].
  rewrite (zero_page_ne p _ pgdir) by auto. rewrite write_mem_eq.
  rewrite KADDR_Ok; rewrite (PPN_addr _ Hpde32), HpdeP; [|simpl; lia]. cbn [rbind].
  rewrite ptx_code. eexists. split; [done|].
  assert (Hpt' : forall la', user la' ->
    pt_of (set_mem (zero_page p (write_mem pgdir (PDX la) pde (mem m))) (set_pm pm2 m)) pgdir la' =
    if decide (PDX la' = PDX la) then Some p else pt_of m pgdir la').
  { intros la' Hla'. unfold pt_of. cbn [mem set_mem set_pm]. rewrite zero_page_ne by auto. case_decide as Hd.
    - by rewrite Hd, write_mem_eq, Hpdep, HpdeP.
    - rewrite write_mem_ne by auto. done. }
  assert (Hold : forall la' f, user la' -> pt_of m pgdir la' = Some f -> f <> p).
  { intros la' f Hl Hf ->. destruct (wf_pde _ _ _ Hwf _ _ Hl Hf) as (_ & Hn & _). apply Hn, Hcov. auto. }
  split; try done.
  - split; cbn [mem set_mem set_pm pm npage]; [done|done| | | |].
    + split; [done|]. intros Hi. apply Hdirc, Hcov. auto.
    + intros la' f Hl. rewrite Hpt' by done. case_decide; [intros [= <-]; auto with lia|].
      intros Hf. destruct (wf_pde _ _ _ Hwf _ _ Hl Hf) as (? & Hn & ?).
      split; [done|]. split; [|done]. rewrite Hcov in Hn. tauto.
    + intros l1 l2 f Hl1 Hl2. rewrite !Hpt' by done. repeat case_decide; try congruence.
      * intros [= <-] Hf. by apply Hold in Hf.
      * intros Hf [= <-]. by apply Hold in Hf.
      * by apply (wf_inj _ _ _ Hwf).
    + intros q j. unfold zero_page, write_mem. case_match; [unfold is_u32, two32; lia|].
      case_match; [done|]. apply (wf_word _ _ _ Hwf).
  - rewrite Hpt' by done. by rewrite decide_True.

  - intros la' Hl. unfold entry. rewrite Hpt' by done. cbn [mem set_mem set_pm]. case_decide as Hd.
    + rewrite zero_page_eq. unfold pt_of in *. rewrite Hd. by destruct (present (mem m pgdir (PDX la))).
    + destruct (pt_of m pgdir la') as [f|] eqn:Hf; [|done].
      destruct (wf_pde _ _ _ Hwf _ _ Hl Hf) as (_ & _ & ?).
      rewrite zero_page_ne, write_mem_ne; [done|auto|by eapply Hold].
  - cbn [pm set_mem set_pm]. eexists. split; [exact Hpg2|done].
  - intros i Hi. cbn [pm set_mem set_pm]. rewrite Hfr2; [by apply Hfr|]. intros ->. apply Hi, Hcov. auto.
  - intros q j Hq1 Hq2. cbn [mem set_mem set_pm]. rewrite zero_page_ne, write_mem_ne; auto.
Qed.

(** Directories that share no page with [pgdir] are unaffected by writes
    to pages that were free or belong to [pgdir]. *)
Lemma entry_frame m m' dir la :
  mem m' dir (PDX la) = mem m dir (PDX la) ->
  (forall f, pt_of m dir la = Some f -> mem m' f (PTX la) = mem m f (PTX la)) ->
  entry m' dir la = entry m dir la.
Proof.
  intros H1 H2. unfold entry, pt_of in *. rewrite H1.
  destruct (present (mem m dir (PDX la))); [by apply H2|done].
Qed.

(** Addresses in the same page share their entry; different pages do not. *)
Lemma vpn_split la la' : user la -> user la' ->
  (PDX la = PDX la' /\ PTX la = PTX la') <-> la / 4096 = la' / 4096.
Proof.
  unfold user, KERNBASE. intros H1 H2. rewrite !PDX_div, !PTX_div.
  split; [intros [? ?]|intros Heq]; Z.to_euclidean_division_equations; lia.
Qed.

Lemma entry_same_page m pgdir la la' :
  user la -> user la' -> la / 4096 = la' / 4096 -> entry m pgdir la = entry m pgdir la'.
Proof.
  intros H1 H2 Hv. apply vpn_split in Hv as [Hd Ht]; [|done..].
  unfold entry, pt_of. by rewrite Hd, Ht.
Qed.

Lemma PTX_range la : 0 <= PTX la < 1024.
Proof. rewrite PTX_div. apply Z.mod_pos_bound. lia. Qed.

Lemma store_pte_pt_of bs m pgdir la f v :
  pt_wf bs m pgdir -> user la -> pt_of m pgdir la = Some f ->
  forall la', pt_of (store_pte (f, PTX la) v m) pgdir la' = pt_of m pgdir la'.
Proof.
  intros Hwf Hla Hf la'. destruct (wf_pde _ _ _ Hwf _ _ Hla Hf) as (_ & _ & ?).
  unfold pt_of, store_pte. cbn [mem set_mem fst snd]. by rewrite write_mem_ne by auto.
Qed.

Lemma store_pte_entry bs m pgdir la f v :
  pt_wf bs m pgdir -> user la -> pt_of m pgdir la = Some f -> is_u32 v ->
  pt_wf bs (store_pte (f, PTX la) v m) pgdir /\
  (forall la', user la' -> entry (store_pte (f, PTX la) v m) pgdir la' =
     if decide (la / 4096 = la' / 4096) then v else entry m pgdir la').
Proof.
  intros Hwf Hla Hf Hv. pose proof (store_pte_pt_of bs m pgdir la f v Hwf Hla Hf) as Hpt.
  split.
  - destruct Hwf as [? ? ? Hpde Hinj Hw]. split; try done.
    + intros la' f' Hl. rewrite Hpt. by apply Hpde.
    + intros l1 l2 f' Hl1 Hl2. rewrite !Hpt. by apply Hinj.
    + intros q j. unfold store_pte. cbn [mem set_mem fst snd]. unfold write_mem. case_match; [done|apply Hw].
  - intros la' Hl. unfold entry at 1. rewrite Hpt. unfold entry.
    destruct (pt_of m pgdir la') as [f'|] eqn:Hf'.
    + unfold store_pte. cbn [mem set_mem fst snd]. case_decide as Hd.
      * apply vpn_split in Hd as [Hd Ht]; [|done..]. unfold pt_of in Hf, Hf'. rewrite Hd in Hf.
        rewrite Hf in Hf'. injection Hf' as ->. by rewrite Ht, write_mem_eq.
      * rewrite write_mem_ne; [done|]. destruct (decide (f' = f)) as [->|]; [right|by left].
        intros Ht. apply Hd, vpn_split; [done..|]. split; [|done]. by eapply (wf_inj _ _ _ Hwf).
    + case_decide as Hd; [|done]. apply vpn_split in Hd as [Hd _]; [|done..].
      unfold pt_of in Hf, Hf'. rewrite Hd in Hf. congruence.
Qed.

Lemma load_pte_entry m pgdir la f :
  pt_of m pgdir la = Some f -> load_pte (f, PTX la) m = entry m pgdir la.
Proof. intros Hf. unfold entry. by rewrite Hf. Qed.

(** Inside one address space [get_pte(.., 0)] is a function of the mapping. *)
Lemma get_pte_lookup bs m pgdir la :
  pt_wf bs m pgdir -> user la ->
  get_pte pgdir la false m = Ok ((fun f => (f, PTX la)) <$> pt_of m pgdir la, m).
Proof.
  intros Hwf Hla. destruct (pt_of m pgdir la) as [f|] eqn:Hf.
  - by eapply get_pte_present.
  - by eapply get_pte_absent.
Qed.
