(* ===== verification/Tlb.v ===== *)
(** * The software-managed TLB (kern/mm/tlb.c, kern/mm/tlb.h)

    The processor has 16 TLB slots of two pages each and no hardware refill.
    The kernel records in every page-table entry whether its page is in the
    TLB ([TLB_P]) and in which slot, and keeps a stack of empty slots.  The
    operations here are the ones of tlb.c on the page tables of [PageTable].
    [tlb_coh] says that the TLB and the current page table agree. *)
From S2P Require Import Prelude DList Blocks Atomic Arith DefaultPmm PageTable.

Definition TLBN : Z := 16.
Definition TLBIDX (pte : Z) : Z := Z.land (Z.shiftr pte 8) 0xf.
Definition TLB_P : Z := 0x80.
Definition TLBPAIR (la : Z) : Z := Z.lxor la 0x1000.
Definition TLBLO (la : Z) : Z := Z.land (PPN la) 1.
Definition ENTRYLO_AUX (pfn d : Z) : Z :=
  u32 (Z.lor (Z.lor (Z.lor (Z.shiftl pfn 6) (Z.shiftl 2 3)) (Z.shiftl d 2)) 0x3).
Definition ENTRYLO (pte : Z) : Z := ENTRYLO_AUX (PPN pte) (Z.land (Z.shiftr pte 1) 1).
Definition ENTRYLO_INVALID : Z := 0.
Definition ENTRYHI_INVALID : Z := 0x80000000.

(** [pte & TLB_P] as a condition; [pte &= ~TLB_P]. *)
Definition has_tlb (pte : Z) : bool := negb (Z.land pte TLB_P =? 0).
Definition clear_tlb (pte : Z) : Z := Z.land pte (u32 (Z.lnot TLB_P)).

(** Array accesses: out of the 16 elements is a wild access. *)
Definition aget {A} (l : list A) (i : Z) : res A :=
  if 0 <=? i then rget (l !! Z.to_nat i) else Err WildAccess.
Definition aset {A} (i : Z) (v : A) (l : list A) : res (list A) :=
  if (0 <=? i) && (i <? Z.of_nat (length l)) then Ok (<[Z.to_nat i := v]> l) else Err WildAccess.

Definition tlb_write (idx hi_ lo0_ lo1_ : Z) (m : machine) : res machine :=
  let t := the_tlb m in
  let! s := aset idx (mk_slot hi_ lo0_ lo1_) (slots t) in
  Ok (set_tlb (mk_tlb s (tlb_algo_empty t) (tlb_algo_n t) (tlb_algo_hi t) (tlb_algo_ptr t)) m).

Definition tlb_init_callback (m : machine) : machine :=
  let t := the_tlb m in
  set_tlb (mk_tlb (slots t) (Z.of_nat <$> seq 0 16) TLBN (tlb_algo_hi t) (tlb_algo_ptr t)) m.

Fixpoint tlb_init_loop (n : nat) (i : Z) (m : machine) : res machine :=
  match n with
  | O => Ok m
  | S n =>
      let! m := tlb_write i ENTRYHI_INVALID ENTRYLO_INVALID ENTRYLO_INVALID m in
      tlb_init_loop n (i + 1) m
  end.

Definition tlb_init (m : machine) : res machine :=
  let! m := tlb_init_loop (Z.to_nat TLBN) 0 m in
  Ok (tlb_init_callback m).

Definition load_pgdir (pgdir : Z) (m : machine) : res machine :=
  tlb_init (set_cur_pgdir (Some pgdir) m).

(** [ptep = get_pte(cur_pgdir, la, 0); if (ptep != NULL) *ptep &= ~TLB_P;] *)
Definition drop_tlb_flag (pgdir la : Z) (m : machine) : res machine :=
  let! (ptep, m) := get_pte pgdir la false m in
  match ptep with
  | Some p => Ok (store_pte p (clear_tlb (load_pte p m)) m)
  | None => Ok m
  end.

Definition tlb_get_empty (hi_ : Z) (m : machine) : res (Z * machine) :=
  let t := the_tlb m in
  let! (idx, m) :=
    (if 0 <? tlb_algo_n t then
       let n := tlb_algo_n t - 1 in
       let! idx := aget (tlb_algo_empty t) n in
       Ok (idx, set_tlb (mk_tlb (slots t) (tlb_algo_empty t) n (tlb_algo_hi t) (tlb_algo_ptr t)) m)
     else
       let idx := tlb_algo_ptr t in
       let ptr := (tlb_algo_ptr t + 1) mod 256 mod TLBN in
       let m := set_tlb (mk_tlb (slots t) (tlb_algo_empty t) (tlb_algo_n t) (tlb_algo_hi t) ptr) m in
       let! hi0 := aget (tlb_algo_hi t) idx in
       let! pgdir := rget (cur_pgdir m) in
       let! m := drop_tlb_flag pgdir hi0 m in
       let! m := drop_tlb_flag pgdir (TLBPAIR hi0) m in
       Ok (idx, m)) in
  let t := the_tlb m in
  let! his := aset idx hi_ (tlb_algo_hi t) in
  Ok (idx, set_tlb (mk_tlb (slots t) (tlb_algo_empty t) (tlb_algo_n t) his (tlb_algo_ptr t)) m).

Definition tlb_half_add_callback (idx : Z) (m : machine) : machine := m.
Definition tlb_half_del_callback (idx : Z) (m : machine) : machine := m.
Definition tlb_del_callback (idx : Z) (m : machine) : res machine :=
  let t := the_tlb m in
  let! e := aset (tlb_algo_n t) idx (tlb_algo_empty t) in
  Ok (set_tlb (mk_tlb (slots t) e (tlb_algo_n t + 1) (tlb_algo_hi t) (tlb_algo_ptr t)) m).

(** [lo[TLBLO(la)] = a; lo[TLBLO(TLBPAIR(la))] = b]: the pair (lo[0], lo[1]). *)
Definition lo_pair (la a b : Z) : Z * Z := if TLBLO la =? 0 then (a, b) else (b, a).

Definition tlb_invalidate (pgdir la : Z) (m : machine) : res machine :=
  if negb (bool_decide (cur_pgdir m = Some pgdir)) then Ok m
  else
    let! (ptep, m) := get_pte pgdir la false m in
    match ptep with
    | None => Ok m
    | Some ptep =>
        if negb (has_tlb (load_pte ptep m)) then Ok m
        else
          let idx := TLBIDX (load_pte ptep m) in
          let! (ptep2, m) := get_pte pgdir (TLBPAIR la) false m in
          let other := match ptep2 with
                       | Some p2 => if has_tlb (load_pte p2 m) then Some p2 else None
                       | None => None
                       end in
          let! (lo, hi_, m) :=
            match other with
            | Some p2 =>
                Ok (lo_pair la ENTRYLO_INVALID (ENTRYLO (load_pte p2 m)), Z.land la 0xffffe000,
                    tlb_half_del_callback idx m)
            | None =>
                let! m := tlb_del_callback idx m in
                Ok (lo_pair la ENTRYLO_INVALID ENTRYLO_INVALID, ENTRYHI_INVALID, m)
            end in
          let! m := tlb_write idx hi_ lo.1 lo.2 m in
          Ok (store_pte ptep (clear_tlb (load_pte ptep m)) m)
    end.

(** The end of [tlb_miss_handler]: load the entry at [ptep] for [la], with
    its pair when that one is in the TLB. *)
Definition tlb_refill (la : Z) (ptep : Z * Z) (m : machine) : res machine :=
  let! pgdir := rget (cur_pgdir m) in
  let! (ptep2, m) := get_pte pgdir (TLBPAIR la) false m in
  let mine := ENTRYLO (load_pte ptep m) in
  let other := match ptep2 with
               | Some p2 => if has_tlb (load_pte p2 m) then Some p2 else None
               | None => None
               end in
  let! (lo, idx, m) :=
    match other with
    | Some p2 =>
        let idx := TLBIDX (load_pte p2 m) in
        Ok (lo_pair la mine (ENTRYLO (load_pte p2 m)), idx, tlb_half_add_callback idx m)
    | None =>
        let! (idx, m) := tlb_get_empty (Z.land la 0xffffe000) m in
        Ok (lo_pair la mine ENTRYLO_INVALID, idx, m)
    end in
  let! m := tlb_write idx (Z.land la 0xffffe000) lo.1 lo.2 m in
  Ok (store_pte ptep
        (Z.lor (Z.lor (Z.land (load_pte ptep m) 0xfffff0ff) (Z.shiftl idx 8)) TLB_P) m).

(** ** Bit-level facts about the flags kept in an entry *)

Lemma has_tlb_bit e : has_tlb e = Z.testbit e 7.
Proof. rewrite <- test_bit_spec by lia. done. Qed.
Lemma present_bit e : present e = Z.testbit e 0.
Proof. rewrite <- test_bit_spec by lia. done. Qed.

Lemma u32_bits_high e i : is_u32 e -> 32 <= i -> Z.testbit e i = false.
Proof.
  intros He Hi. destruct (Z.eq_dec e 0) as [->|]; [apply Z.bits_0|].
  unfold is_u32 in He. apply Z.bits_above_log2; [lia|].
  apply Z.lt_le_trans with 32; [|done]. apply Z.log2_lt_pow2; [lia|]. unfold two32 in He. lia.
Qed.

Lemma land_u32 e c : is_u32 e -> 0 <= c -> is_u32 (Z.land e c).
Proof.
  intros He Hc. unfold is_u32 in *. split; [apply Z.land_nonneg; lia|].
  destruct (Z.eq_dec (Z.land e c) 0) as [->|]; [unfold two32; lia|].
  apply (Z.log2_lt_pow2 _ 32); [pose proof (proj2 (Z.land_nonneg e c)); lia|].
  apply Z.le_lt_trans with (Z.log2 e).
  - etransitivity; [apply Z.log2_land; lia|]. lia.
  - destruct (Z.eq_dec e 0) as [->|]; [done|]. apply (Z.log2_lt_pow2 _ 32); unfold two32 in He; lia.
Qed.

(** The bits of a 32-bit mask. *)
Ltac mask_bits :=
  repeat match goal with
  | |- context [Z.testbit (Zpos ?p) ?i] =>
      first [ change (Z.testbit (Zpos p) i) with true | change (Z.testbit (Zpos p) i) with false ]
  end.

Lemma clear_tlb_u32 e : is_u32 e -> is_u32 (clear_tlb e).
Proof. intros He. apply land_u32; [done|]. vm_compute. discriminate. Qed.
Lemma clear_tlb_flag e : has_tlb (clear_tlb e) = false.
Proof. rewrite has_tlb_bit. unfold clear_tlb. rewrite Z.land_spec. apply andb_false_r. Qed.
Lemma clear_tlb_present e : present (clear_tlb e) = present e.
Proof. rewrite !present_bit. unfold clear_tlb. rewrite Z.land_spec. apply andb_true_r. Qed.

Lemma land_20 a : 0 <= a < 2 ^ 20 -> Z.land a 0xfffff = a.
Proof. intros H. change 0xfffff with (2 ^ 20 - 1). rewrite land_ones_mod by lia. by rewrite Z.mod_small. Qed.

Lemma PPN_20 e : is_u32 e -> 0 <= PPN e < 2 ^ 20.
Proof.
  unfold is_u32, two32. intros He. rewrite PPN_div.
  split; [apply Z.div_pos; lia|apply Z.div_lt_upper_bound; lia].
Qed.

Lemma PPN_land e c : is_u32 e -> Z.shiftr c 12 = 0xfffff -> PPN (Z.land e c) = PPN e.
Proof.
  intros He Hc. unfold PPN, PTXSHIFT. rewrite Z.shiftr_land, Hc. apply land_20, (PPN_20 e He).
Qed.

Lemma bit1_land e : Z.land (Z.shiftr e 1) 1 = if Z.testbit e 1 then 1 else 0.
Proof.
  change (Z.land (Z.shiftr e 1) 1) with (Z.land (Z.shiftr e 1) (2 ^ 1 - 1)).
  rewrite land_ones_mod by lia. change (2 ^ 1) with 2.
  rewrite <- Z.bit0_mod, Z.shiftr_spec by lia. simpl. by destruct (Z.testbit e 1).
Qed.

Lemma ENTRYLO_ext e e' : PPN e = PPN e' -> Z.testbit e 1 = Z.testbit e' 1 -> ENTRYLO e = ENTRYLO e'.
Proof. intros H1 H2. unfold ENTRYLO. by rewrite !bit1_land, H1, H2. Qed.

Lemma clear_tlb_ENTRYLO e : is_u32 e -> ENTRYLO (clear_tlb e) = ENTRYLO e.
Proof.
  intros He. apply ENTRYLO_ext; [by apply PPN_land|].
  unfold clear_tlb. rewrite Z.land_spec. apply andb_true_r.
Qed.

Definition mark_tlb (e idx : Z) : Z :=
  Z.lor (Z.lor (Z.land e 0xfffff0ff) (Z.shiftl idx 8)) TLB_P.

Lemma idx_bits_high idx i : 0 <= idx < 16 -> 4 <= i -> Z.testbit idx i = false.
Proof.
  intros Hi H4. destruct (Z.eq_dec idx 0) as [->|]; [apply Z.bits_0|].
  apply Z.bits_above_log2; [lia|]. apply Z.lt_le_trans with 4; [|done].
  apply Z.log2_lt_pow2; lia.
Qed.

Lemma mark_tlb_flag e idx : has_tlb (mark_tlb e idx) = true.
Proof. rewrite has_tlb_bit. unfold mark_tlb. rewrite Z.lor_spec. apply orb_true_r. Qed.

Lemma mark_tlb_low e idx i : 0 <= i < 7 -> Z.testbit (mark_tlb e idx) i = Z.testbit e i.
Proof.
  intros Hi. unfold mark_tlb. rewrite !Z.lor_spec, Z.land_spec, Z.shiftl_spec_low by lia.
  rewrite orb_false_r.
  assert (Hc : i = 0 \/ i = 1 \/ i = 2 \/ i = 3 \/ i = 4 \/ i = 5 \/ i = 6) by lia.
  destruct Hc as [->|[->|[->|[->|[->|[->| ->]]]]]]; unfold TLB_P; cbn [Z.testbit Pos.testbit];
    by rewrite andb_true_r, orb_false_r.
Qed.

Lemma mark_tlb_present e idx : present (mark_tlb e idx) = present e.
Proof. rewrite !present_bit. apply mark_tlb_low. lia. Qed.

Lemma mark_tlb_ENTRYLO e idx : is_u32 e -> 0 <= idx < 16 -> ENTRYLO (mark_tlb e idx) = ENTRYLO e.
Proof.
  intros He Hi. apply ENTRYLO_ext; [|apply mark_tlb_low; lia].
  unfold mark_tlb, PPN, PTXSHIFT, TLB_P. rewrite !Z.shiftr_lor, Z.shiftr_land.
  change (Z.shiftr 128 12) with 0. change (Z.shiftr 4294963455 12) with 0xfffff.
  rewrite Z.lor_0_r, land_20 by apply (PPN_20 e He).
  assert (Hz : Z.shiftr (Z.shiftl idx 8) 12 = 0).
  { rewrite Z.shiftr_div_pow2, Z.shiftl_mul_pow2 by lia. apply Z.div_small. lia. }
  by rewrite Hz, Z.lor_0_r.
Qed.

Lemma mark_tlb_idx e idx : is_u32 e -> 0 <= idx < 16 -> TLBIDX (mark_tlb e idx) = idx.
Proof.
  intros He Hi. unfold TLBIDX.
  unfold mark_tlb, TLB_P. rewrite !Z.shiftr_lor, Z.shiftr_land.
  change (Z.shiftr 128 8) with 0. change (Z.shiftr 4294963455 8) with (Z.shiftl 0xfffff 4).
  rewrite Z.lor_0_r.
  assert (Hs : Z.shiftr (Z.shiftl idx 8) 8 = idx) by (rewrite Z.shiftr_shiftl_l by lia; apply Z.shiftl_0_r).
  rewrite Hs. apply Z.bits_inj'. intros i Hi0. rewrite Z.land_spec, Z.lor_spec, Z.land_spec.
  destruct (Z.lt_ge_cases i 4).
  - rewrite (Z.shiftl_spec_low _ 4 i), andb_false_r by done. simpl.
    assert (Hc : i = 0 \/ i = 1 \/ i = 2 \/ i = 3) by lia.
    destruct Hc as [->|[->|[->| ->]]]; apply andb_true_r.
  - rewrite (idx_bits_high 15), andb_false_r by lia. by rewrite idx_bits_high.
Qed.

Lemma mark_tlb_u32 e idx : is_u32 e -> 0 <= idx < 16 -> is_u32 (mark_tlb e idx).
Proof.
  intros He Hi. unfold mark_tlb. 
  assert (H1 : is_u32 (Z.land e 0xfffff0ff)) by (apply land_u32; [done|lia]).
  rewrite <- Z.lor_assoc.
  assert (H2 : 0 <= Z.lor (Z.shiftl idx 8) TLB_P < 4096).
  { apply lor_small; [rewrite Z.shiftl_mul_pow2 by lia; lia|unfold TLB_P; lia]. }
  unfold is_u32 in *. split; [apply Z.lor_nonneg; lia|].
  destruct (Z.eq_dec (Z.lor (Z.land e 4294963455) (Z.lor (Z.shiftl idx 8) TLB_P)) 0) as [->|Hn]; [done|].
  apply (Z.log2_lt_pow2 _ 32).
  - assert (0 <= Z.lor (Z.land e 4294963455) (Z.lor (Z.shiftl idx 8) TLB_P)) by (apply Z.lor_nonneg; lia). lia.
  - rewrite Z.log2_lor by lia. apply Z.max_lub_lt.
    + destruct (Z.eq_dec (Z.land e 4294963455) 0) as [->|]; [done|].
      apply (Z.log2_lt_pow2 _ 32); unfold two32 in H1; lia.
    + destruct (Z.eq_dec (Z.lor (Z.shiftl idx 8) TLB_P) 0) as [->|]; [done|].
      apply (Z.log2_lt_pow2 _ 32); lia.
Qed.

(** ** Address pairs *)

(** The base address of the two pages a slot maps. *)
Definition base8 (la : Z) : Z := la / 8192 * 8192.

Lemma land_e000 la : is_u32 la -> Z.land la 0xffffe000 = base8 la.
Proof.
  intros Hla. unfold base8. change 0xffffe000 with (Z.shiftl (Z.ones 19) 13).
  change 8192 with (2 ^ 13).
  rewrite <- (Z.shiftr_div_pow2 la 13), <- (Z.shiftl_mul_pow2 _ 13) by lia.
  apply Z.bits_inj'. intros i Hi. rewrite Z.land_spec.
  destruct (Z.lt_ge_cases i 13).
  - rewrite !Z.shiftl_spec_low by done. apply andb_false_r.
  - rewrite !Z.shiftl_spec, Z.shiftr_spec by lia. replace (i - 13 + 13) with i by lia.
    destruct (Z.lt_ge_cases i 32).
    + rewrite Z.ones_spec_low by lia. apply andb_true_r.
    + by rewrite u32_bits_high by done.
Qed.

Lemma user_u32 la : user la -> is_u32 la.
Proof. unfold user, is_u32, KERNBASE, two32. lia. Qed.

Lemma bit12_mod la : Z.testbit la 12 = bool_decide ((la / 4096) mod 2 = 1).
Proof.
  change 4096 with (2 ^ 12). rewrite <- (Z.shiftr_div_pow2 la 12) by lia.
  replace 12 with (0 + 12) at 1 by lia. rewrite <- Z.shiftr_spec by lia.
  rewrite Z.bit0_odd, Zodd_even_bool, Zeven_mod.
  pose proof (Z.mod_pos_bound (Z.shiftr la 12) 2 ltac:(lia)).
  case_bool_decide as Hd; [by rewrite Hd|].
  assert (Z.shiftr la 12 mod 2 = 0) as -> by lia. done.
Qed.

Lemma TLBPAIR_spec la :
  TLBPAIR la = if bool_decide ((la / 4096) mod 2 = 1) then la - 4096 else la + 4096.
Proof.
  unfold TLBPAIR. rewrite <- bit12_mod. change 0x1000 with (2 ^ 12).
  destruct (Z.testbit la 12) eqn:Hb.
  - rewrite Z.sub_nocarry_ldiff.
    + apply Z.bits_inj'. intros i Hi. rewrite Z.lxor_spec, Z.ldiff_spec, Z.pow2_bits_eqb by lia.
      destruct (Z.eqb_spec 12 i) as [<-|]; [by rewrite Hb|by rewrite xorb_false_r, andb_true_r].
    + apply Z.bits_inj'. intros i Hi. rewrite Z.ldiff_spec, Z.pow2_bits_eqb, Z.bits_0 by lia.
      destruct (Z.eqb_spec 12 i) as [<-|]; [by rewrite Hb|done].
  - rewrite Z.add_nocarry_lxor; [done|].
    apply Z.bits_inj'. intros i Hi. rewrite Z.land_spec, Z.pow2_bits_eqb, Z.bits_0 by lia.
    destruct (Z.eqb_spec 12 i) as [<-|]; [by rewrite Hb|apply andb_false_r].
Qed.

Lemma TLBLO_spec la : TLBLO la = (la / 4096) mod 2.
Proof.
  unfold TLBLO. rewrite PPN_div. change 1 with (2 ^ 1 - 1). by rewrite land_ones_mod.
Qed.

(** The two halves of a pair: [la] is one, [TLBPAIR la] the other. *)
Lemma pair_spec la : user la ->
  user (TLBPAIR la) /\ base8 (TLBPAIR la) = base8 la /\ user (base8 la) /\ base8 la mod 8192 = 0 /\
  TLBPAIR la / 4096 <> la / 4096 /\
  (if TLBLO la =? 0
   then la / 4096 = base8 la / 4096 /\ TLBPAIR la / 4096 = (base8 la + 4096) / 4096
   else TLBPAIR la / 4096 = base8 la / 4096 /\ la / 4096 = (base8 la + 4096) / 4096).
Proof.
  unfold user, KERNBASE. intros Hla. rewrite TLBPAIR_spec, TLBLO_spec. unfold base8.
  case_bool_decide as Hd.
  - rewrite Hd. simpl. Z.to_euclidean_division_equations. lia.
  - assert ((la / 4096) mod 2 = 0) as He by (pose proof (Z.mod_pos_bound (la / 4096) 2); lia).
    rewrite He. simpl. Z.to_euclidean_division_equations. lia.
Qed.

Lemma base8_half la b : user la -> base8 la = b -> la / 4096 = b / 4096 \/ la / 4096 = (b + 4096) / 4096.
Proof.
  intros Hla <-. pose proof (pair_spec la Hla) as (_ & _ & _ & _ & _ & H).
  destruct (TLBLO la =? 0); tauto.
Qed.

(** ** Coherence *)

Definition free_slots (t : tlb) : list Z := take (Z.to_nat (tlb_algo_n t)) (tlb_algo_empty t).
(** What a slot holds for one of its two pages. *)
Definition half (e : Z) : Z := if has_tlb e then ENTRYLO e else ENTRYLO_INVALID.
Definition slot_for (ent : Z -> Z) (o : option Z) : tlb_slot :=
  match o with
  | Some b => mk_slot b (half (ent b)) (half (ent (b + 4096)))
  | None => mk_slot ENTRYHI_INVALID ENTRYLO_INVALID ENTRYLO_INVALID
  end.

(** The bookkeeping of tlb.c agrees with the page table [ent]; [ow] gives the
    pair of pages each slot holds.  [r] is the slot taken by [tlb_get_empty]
    and not yet written, if any. *)
Record coh (r : option Z) (ent : Z -> Z) (t : tlb) (ow : gmap Z Z) : Prop := {
  coh_len : length (slots t) = 16%nat /\ length (tlb_algo_empty t) = 16%nat /\
            length (tlb_algo_hi t) = 16%nat;
  coh_n : 0 <= tlb_algo_n t <= 16;
  coh_ptr : 0 <= tlb_algo_ptr t < 16;
  coh_nodup : NoDup (free_slots t);
  coh_dom : forall k b, ow !! k = Some b -> 0 <= k < 16 /\ user b /\ b mod 8192 = 0;
  coh_res : forall k, r = Some k -> 0 <= k < 16 /\ ow !! k = None;
  coh_free : forall k, k ∈ free_slots t <-> 0 <= k < 16 /\ ow !! k = None /\ r <> Some k;
  coh_slot : forall k, 0 <= k < 16 -> r <> Some k -> slots t !! Z.to_nat k = Some (slot_for ent (ow !! k));
  coh_hi : forall k b, ow !! k = Some b -> tlb_algo_hi t !! Z.to_nat k = Some b;
  coh_live : forall k b, ow !! k = Some b -> has_tlb (ent b) = true \/ has_tlb (ent (b + 4096)) = true;
  coh_flag : forall la, user la -> has_tlb (ent la) = true ->
    present (ent la) = true /\ ow !! TLBIDX (ent la) = Some (base8 la);
  coh_uniq : forall k k' b, ow !! k = Some b -> ow !! k' = Some b -> k = k'
}.

(** Mappings that agree on user pages and do not distinguish addresses of one page. *)
Definition page_fun (ent : Z -> Z) : Prop :=
  forall la la', user la -> user la' -> la / 4096 = la' / 4096 -> ent la = ent la'.

(** The mapping after storing [v] for the page of [la]. *)
Definition upd_ent (la v : Z) (ent : Z -> Z) : Z -> Z :=
  fun la' => if decide (la / 4096 = la' / 4096) then v else ent la'.

Lemma upd_ent_eq la v ent la' : la / 4096 = la' / 4096 -> upd_ent la v ent la' = v.
Proof. intros H. unfold upd_ent. by rewrite decide_True. Qed.
Lemma upd_ent_ne la v ent la' : la / 4096 <> la' / 4096 -> upd_ent la v ent la' = ent la'.
Proof. intros H. unfold upd_ent. by rewrite decide_False. Qed.
Lemma page_fun_upd la v ent : page_fun ent -> page_fun (upd_ent la v ent).
Proof.
  intros Hp l1 l2 H1 H2 Hq. unfold upd_ent. rewrite Hq. case_decide; [done|]. by apply Hp.
Qed.

Lemma coh_ext r ent ent' t ow :
  (forall la, user la -> ent' la = ent la) -> coh r ent t ow -> coh r ent' t ow.
Proof.
  intros He [Hlen Hn Hp Hnd Hd Hr Hf Hs Hh Hl Hfl Hu].
  assert (Hb : forall k b, ow !! k = Some b -> ent' b = ent b /\ ent' (b + 4096) = ent (b + 4096)).
  { intros k b Hk. destruct (Hd _ _ Hk) as (_ & Hub & Hm). split; apply He; [done|].
    unfold user, KERNBASE in *. Z.to_euclidean_division_equations. lia. }
  split; try done.
  - intros k Hk Hkr. rewrite Hs by done. destruct (ow !! k) as [b|] eqn:Hkb; [|done]. simpl.
    by destruct (Hb _ _ Hkb) as [-> ->].
  - intros k b Hkb. destruct (Hb _ _ Hkb) as [-> ->]. eauto.
  - intros la Hla. rewrite He by done. auto.
Qed.

Section halves.
  Context (ent : Z -> Z) (la : Z) (Hpf : page_fun ent) (Hla : user la).

Lemma pair_user : user (base8 la) /\ user (base8 la + 4096) /\ user (TLBPAIR la).
  Proof.
    destruct (pair_spec la Hla) as (? & _ & ? & ? & _). split; [done|]. split; [|done].
    unfold user, KERNBASE, base8 in *. Z.to_euclidean_division_equations. lia.
  Qed.

  (** The pair (lo0, lo1) of the slot of [la], in terms of its two pages. *)
Lemma lo_pair_halves f :
    lo_pair la (f (ent la)) (f (ent (TLBPAIR la))) = (f (ent (base8 la)), f (ent (base8 la + 4096))).
  Proof.
    destruct pair_user as (? & ? & ?). pose proof (pair_spec la Hla) as (_ & _ & _ & _ & _ & H').
    unfold lo_pair. destruct (TLBLO la =? 0); destruct H' as [Ha Hb].
    - rewrite (Hpf la (base8 la)), (Hpf (TLBPAIR la) (base8 la + 4096)); done.
    - rewrite (Hpf la (base8 la + 4096)), (Hpf (TLBPAIR la) (base8 la)); done.
  Qed.

  (** The same after the page of [la] got the entry [v]. *)
Lemma upd_halves v f :
    (f (upd_ent la v ent (base8 la)), f (upd_ent la v ent (base8 la + 4096))) =
    lo_pair la (f v) (f (ent (TLBPAIR la))).
  Proof.
    destruct pair_user as (? & ? & ?). pose proof (pair_spec la Hla) as (_ & _ & _ & _ & Hne & H').
    unfold lo_pair. destruct (TLBLO la =? 0); destruct H' as [Ha Hb].
    - rewrite upd_ent_eq, upd_ent_ne by congruence. f_equal. by rewrite (Hpf (TLBPAIR la) (base8 la + 4096)).
    - rewrite upd_ent_ne, upd_ent_eq by congruence. f_equal. by rewrite (Hpf (TLBPAIR la) (base8 la)).
  Qed.

  (** Pages of other pairs keep their entries. *)
Lemma upd_other v b : user b -> b mod 8192 = 0 -> b <> base8 la ->
    upd_ent la v ent b = ent b /\ upd_ent la v ent (b + 4096) = ent (b + 4096).
  Proof.
    intros Hb Hm Hne.
    split; apply upd_ent_ne; intros He; apply Hne; unfold base8, user, KERNBASE in *;
      Z.to_euclidean_division_equations; lia.
  Qed.

Lemma live_halves : has_tlb (ent (base8 la)) = true \/ has_tlb (ent (base8 la + 4096)) = true <->
    has_tlb (ent la) = true \/ has_tlb (ent (TLBPAIR la)) = true.
  Proof.
    destruct pair_user as (? & ? & ?).
    pose proof (pair_spec la Hla) as (_ & _ & _ & _ & _ & Hs).
    destruct (TLBLO la =? 0); destruct Hs as [Ha Hb].
    - rewrite (Hpf la (base8 la)), (Hpf (TLBPAIR la) (base8 la + 4096)) by done. done.
    - rewrite (Hpf la (base8 la + 4096)), (Hpf (TLBPAIR la) (base8 la)) by done. tauto.
  Qed.
End halves.

Definition with_slot (k : Z) (s : tlb_slot) (t : tlb) : tlb :=
  mk_tlb (<[Z.to_nat k := s]> (slots t)) (tlb_algo_empty t) (tlb_algo_n t) (tlb_algo_hi t) (tlb_algo_ptr t).

Lemma slots_with_slot k k' s t : 0 <= k < 16 -> 0 <= k' < 16 -> length (slots t) = 16%nat ->
  slots (with_slot k s t) !! Z.to_nat k' = if decide (k' = k) then Some s else slots t !! Z.to_nat k'.
Proof.
  intros Hk Hk' Hl. simpl. case_decide as Hd; [subst; apply list_lookup_insert_eq; lia|].
  apply list_lookup_insert_ne. lia.
Qed.

(** Writing the slot of [la] (kept, or claimed for it) with the new entry [v]
    of [la]. *)
Lemma coh_write r ent t ow la k v :
  page_fun ent -> user la -> coh r ent t ow ->
  (r = None /\ ow !! k = Some (base8 la)) \/
  (r = Some k /\ tlb_algo_hi t !! Z.to_nat k = Some (base8 la) /\ (forall k', ow !! k' <> Some (base8 la))) ->
  (has_tlb v = true -> present v = true /\ TLBIDX v = k) ->
  has_tlb v = true \/ has_tlb (ent (TLBPAIR la)) = true ->
  coh None (upd_ent la v ent)
    (with_slot k (mk_slot (base8 la) (lo_pair la (half v) (half (ent (TLBPAIR la)))).1
                                     (lo_pair la (half v) (half (ent (TLBPAIR la)))).2) t)
    (<[k := base8 la]> ow).
Proof.
  intros Hpf Hla [Hlen Hn Hp Hnd Hd Hr Hf Hs Hh Hl Hfl Hu] Hk Hv Hlive.
  assert (Hk16 : 0 <= k < 16) by (destruct Hk as [[_ Hk]|[Hk _]]; [apply Hd in Hk|apply Hr in Hk]; tauto).
  assert (Hother : forall k' b, ow !! k' = Some b -> k' <> k -> b <> base8 la).
  { intros k' b Hkb Hne ->. destruct Hk as [[_ Hk]|(_ & _ & Hk)]; [eauto|by apply (Hk k')]. }
  destruct (pair_user la Hla) as (Hub & Hub' & Hup).
  assert (Hbm : base8 la mod 8192 = 0) by apply (pair_spec la Hla).
  rewrite <- (upd_halves ent la Hpf Hla v half). cbn [fst snd].
  split; try done.
  - destruct Hlen as (? & ? & ?). split_and!; try done. simpl. by rewrite length_insert.
  - intros k' b. rewrite lookup_insert_Some. intros [[<- <-]|[_ Hkb]]; [done|by apply Hd].
  - intros k'. change (free_slots (with_slot k _ t)) with (free_slots t). rewrite Hf.
    destruct (decide (k' = k)) as [->|Hne].
    + rewrite lookup_insert_eq. destruct Hk as [[_ Hk]|(-> & _ & _)]; [rewrite Hk|]; split; try tauto; intros (_ & ? & _); done.
    + rewrite lookup_insert_ne by done. split; [|destruct Hk as [[-> _]|[-> _]]; naive_solver].
      intros (? & ? & _). done.
  - intros k' Hk' _. rewrite slots_with_slot by tauto. case_decide as Hd'; [subst; by rewrite lookup_insert_eq|].
    rewrite lookup_insert_ne by done. rewrite Hs; [|done|destruct Hk as [[-> _]|[-> _]]; naive_solver].
    destruct (ow !! k') as [b|] eqn:Hkb; [|done]. simpl. destruct (Hd _ _ Hkb) as (_ & Hb & Hm).
    destruct (upd_other ent la Hla v b Hb Hm) as [-> ->]; [eauto|done].
  - intros k' b. rewrite lookup_insert_Some. intros [[<- <-]|[_ Hkb]]; [|by apply Hh].
    destruct Hk as [[_ Hk]|(_ & Hk & _)]; [by apply Hh|done].
  - intros k' b. rewrite lookup_insert_Some. intros [[<- <-]|[Hne Hkb]].
    + apply (live_halves (upd_ent la v ent) la); [by apply page_fun_upd|done|].
      rewrite upd_ent_eq by done. rewrite upd_ent_ne; [done|]. 
      pose proof (pair_spec la Hla) as (_ & _ & _ & _ & Hne' & _). congruence.
    + destruct (Hd _ _ Hkb) as (_ & Hb & Hm).
      destruct (upd_other ent la Hla v b Hb Hm) as [-> ->]; [eauto|eauto].
  - intros la' Hla'. destruct (decide (la / 4096 = la' / 4096)) as [Hq|Hq].
    + rewrite upd_ent_eq by done. intros Hf'. destruct (Hv Hf') as [? ->].
      split; [done|]. rewrite lookup_insert_eq. f_equal. unfold base8. clear -Hq.
      Z.to_euclidean_division_equations. lia.
    + rewrite upd_ent_ne by done. intros Hf'. destruct (Hfl _ Hla' Hf') as [? Ho]. split; [done|].
      destruct (decide (TLBIDX (ent la') = k)) as [He|]; [|by rewrite lookup_insert_ne].
      rewrite He in *. rewrite lookup_insert_eq. f_equal.
      destruct Hk as [[_ Hk]|[Hk _]]; [congruence|]. destruct (Hr _ Hk) as [_ ?]. congruence.
  - intros k1 k2 b. rewrite !lookup_insert_Some.
    intros [[<- <-]|[Hn1 H1]] [[<- Heq]|[Hn2 H2]]; try done; [..|eauto].
    + destruct (Hother _ _ H2); done.
    + subst. destruct (Hother _ _ H1); done.
Qed.

Lemma small_nodup_length (l : list Z) : NoDup l -> (forall k, k ∈ l -> 0 <= k < 16) -> (length l <= 16)%nat.
Proof.
  intros Hnd Hr. change 16%nat with (length (seqZ 0 16)).
  apply submseteq_length, NoDup_submseteq; [done|]. intros k Hk. apply elem_of_seqZ, Hr, Hk.
Qed.

(** The slot of [la] goes back to the empty stack. *)
Lemma coh_release ent t ow la k v :
  page_fun ent -> user la -> coh None ent t ow -> ow !! k = Some (base8 la) ->
  has_tlb v = false -> has_tlb (ent (TLBPAIR la)) = false ->
  tlb_algo_n t < 16 /\
  coh None (upd_ent la v ent)
    (with_slot k (mk_slot ENTRYHI_INVALID ENTRYLO_INVALID ENTRYLO_INVALID)
      (mk_tlb (slots t) (<[Z.to_nat (tlb_algo_n t) := k]> (tlb_algo_empty t)) (tlb_algo_n t + 1)
         (tlb_algo_hi t) (tlb_algo_ptr t)))
    (delete k ow).
Proof.
  intros Hpf Hla [Hlen Hn Hp Hnd Hd Hr Hf Hs Hh Hl Hfl Hu] Hk Hv Hpair.
  assert (Hk16 : 0 <= k < 16) by (apply Hd in Hk; tauto).
  assert (Hkf : k ∉ free_slots t) by (intros Hin; apply Hf in Hin as (_ & ? & _); congruence).
  assert (Hlf : (length (free_slots t) = Z.to_nat (tlb_algo_n t))%nat).
  { unfold free_slots. rewrite length_take. destruct Hlen as (_ & -> & _). lia. }
  assert (Hn16 : tlb_algo_n t < 16).
  { pose proof (small_nodup_length (k :: free_slots t)) as Hx. simpl in Hx. rewrite Hlf in Hx.
    assert (S (Z.to_nat (tlb_algo_n t)) <= 16)%nat; [|lia].
    apply Hx; [by constructor|]. intros k' [->|Hin]%elem_of_cons; [done|]. by apply Hf in Hin as [? _]. }
  split; [done|].
  assert (Hfree : free_slots (with_slot k (mk_slot ENTRYHI_INVALID ENTRYLO_INVALID ENTRYLO_INVALID)
      (mk_tlb (slots t) (<[Z.to_nat (tlb_algo_n t) := k]> (tlb_algo_empty t)) (tlb_algo_n t + 1)
         (tlb_algo_hi t) (tlb_algo_ptr t))) = free_slots t ++ [k]).
  { unfold free_slots, with_slot. cbn [tlb_algo_n tlb_algo_empty].
    replace (Z.to_nat (tlb_algo_n t + 1)) with (S (Z.to_nat (tlb_algo_n t))) by lia.
    erewrite take_S_r by (apply list_lookup_insert_eq; destruct Hlen as (_ & -> & _); lia).
    by rewrite take_insert_ge. }
  split; try done; rewrite ?Hfree; cbn [tlb_algo_n tlb_algo_ptr with_slot tlb_algo_hi]; try done; try lia.
  - destruct Hlen as (? & ? & ?). split_and!; simpl; rewrite ?length_insert; done.
  - apply NoDup_app. split; [done|]. split; [|apply NoDup_singleton]. set_solver.
  - intros k' b. rewrite lookup_delete_Some. intros [_ Hkb]. by apply Hd.
  - intros k'. rewrite elem_of_app, list_elem_of_singleton, Hf. destruct (decide (k' = k)) as [->|Hne].
    + rewrite lookup_delete_eq. naive_solver.
    + rewrite lookup_delete_ne by done. naive_solver.
  - intros k' Hk' _. rewrite slots_with_slot by (simpl; tauto). simpl.
    case_decide as Hd'; [subst; by rewrite lookup_delete_eq|].
    rewrite lookup_delete_ne by done. rewrite Hs by done.
    destruct (ow !! k') as [b|] eqn:Hkb; [|done]. simpl. destruct (Hd _ _ Hkb) as (_ & Hb & Hm).
    destruct (upd_other ent la Hla v b Hb Hm) as [-> ->]; [|done]. intros ->. eauto.
  - intros k' b. rewrite lookup_delete_Some. intros [_ Hkb]. by apply Hh.
  - intros k' b. rewrite lookup_delete_Some. intros [Hne Hkb]. destruct (Hd _ _ Hkb) as (_ & Hb & Hm).
    destruct (upd_other ent la Hla v b Hb Hm) as [-> ->]; [intros ->; eauto|eauto].
  - intros la' Hla'. destruct (decide (la / 4096 = la' / 4096)) as [Hq|Hq].
    + rewrite upd_ent_eq by done. congruence.
    + rewrite upd_ent_ne by done. intros Hf'. destruct (Hfl _ Hla' Hf') as [? Ho]. split; [done|].
      rewrite lookup_delete_ne; [done|]. intros ->. rewrite Ho in Hk. injection Hk as Hb.
      destruct (pair_user la Hla) as (? & ? & ?). pose proof (pair_spec la Hla) as (_ & _ & _ & _ & _ & Hs').
      apply base8_half in Hb; [|done].
      assert (Hq' : la' / 4096 = TLBPAIR la / 4096) by (destruct (TLBLO la =? 0); destruct Hb, Hs'; congruence).
      rewrite (Hpf la' (TLBPAIR la)) in Hf' by done. congruence.
  - intros k1 k2 b. rewrite !lookup_delete_Some. naive_solver.
Qed.

(** [tlb_get_empty] with an empty slot. *)
Lemma coh_pop ent t ow :
  coh None ent t ow -> 0 < tlb_algo_n t ->
  exists k, tlb_algo_empty t !! Z.to_nat (tlb_algo_n t - 1) = Some k /\
    coh (Some k) ent (mk_tlb (slots t) (tlb_algo_empty t) (tlb_algo_n t - 1) (tlb_algo_hi t) (tlb_algo_ptr t)) ow.
Proof.
  intros [Hlen Hn Hp Hnd Hd Hr Hf Hs Hh Hl Hfl Hu] Hpos.
  destruct (lookup_lt_is_Some_2 (tlb_algo_empty t) (Z.to_nat (tlb_algo_n t - 1))) as [k Hk].
  { destruct Hlen as (_ & -> & _). lia. }
  exists k. split; [done|].
  assert (Hfree : free_slots t = take (Z.to_nat (tlb_algo_n t - 1)) (tlb_algo_empty t) ++ [k]).
  { unfold free_slots. replace (Z.to_nat (tlb_algo_n t)) with (S (Z.to_nat (tlb_algo_n t - 1))) by lia.
    by apply take_S_r. }
  rewrite Hfree in Hnd. apply NoDup_app in Hnd as (Hnd & Hnk & _).
  assert (Hkf : 0 <= k < 16 /\ ow !! k = None).
  { destruct (proj1 (Hf k)) as (? & ? & _); [rewrite Hfree; set_solver|done]. }
  split; try done; cbn [tlb_algo_n]; try lia.
  - intros k' [= <-]. done.
  - intros k'. unfold free_slots; cbn [tlb_algo_n tlb_algo_empty].
    specialize (Hf k'). rewrite Hfree, elem_of_app, list_elem_of_singleton in Hf.
    split.
    + intros Hin. destruct (proj1 Hf) as (? & ? & _); [by left|]. split; [done|]. split; [done|].
      intros [= ->]. eapply Hnk; [done|set_solver].
    + intros (? & ? & ?). destruct (proj2 Hf) as [?| ->]; [split; [done|]; by split|done|done].
  - intros k' Hk' _. apply Hs; done.
Qed.

(** ... and by evicting the pair in slot [tlb_algo_ptr]. *)
Lemma coh_evict ent t ow ent' :
  page_fun ent -> coh None ent t ow -> tlb_algo_n t <= 0 ->
  let k := tlb_algo_ptr t in
  (forall b, tlb_algo_hi t !! Z.to_nat k = Some b -> user b -> b mod 8192 = 0 ->
     forall la, user la -> ent' la = if decide (base8 la = b) then clear_tlb (ent la) else ent la) ->
  exists b, tlb_algo_hi t !! Z.to_nat k = Some b /\ user b /\ b mod 8192 = 0 /\
    coh (Some k) ent' (mk_tlb (slots t) (tlb_algo_empty t) (tlb_algo_n t) (tlb_algo_hi t) ((k + 1) mod 256 mod 16))
      (delete k ow).
Proof.
  intros Hpf [Hlen Hn Hp Hnd Hd Hr Hf Hs Hh Hl Hfl Hu] Hn0 k He.
  assert (Hfe : free_slots t = []). { unfold free_slots. by replace (Z.to_nat (tlb_algo_n t)) with 0%nat by lia. }
  assert (Hall : forall j, 0 <= j < 16 -> exists b, ow !! j = Some b).
  { intros j Hj. destruct (ow !! j) as [b|] eqn:Hj'; [eauto|].
    assert (Hin : j ∈ free_slots t) by (apply Hf; done). rewrite Hfe in Hin. by apply elem_of_nil in Hin. }
  destruct (Hall k Hp) as [b Hb]. destruct (Hd _ _ Hb) as (_ & Hub & Hbm).
  specialize (He b (Hh _ _ Hb) Hub Hbm).
  exists b. split; [by apply Hh|]. split; [done|]. split; [done|].
  assert (Hne : forall k' b', ow !! k' = Some b' -> k' <> k -> b' <> b) by (intros k' b' H1 H2 ->; eauto).
  assert (Hkeep : forall b', user b' -> b' mod 8192 = 0 -> b' <> b -> ent' b' = ent b' /\ ent' (b' + 4096) = ent (b' + 4096)).
  { intros b' Hb' Hm Hn'. unfold user, KERNBASE in *.
    rewrite !He by (unfold user, KERNBASE; Z.to_euclidean_division_equations; lia).
    rewrite !decide_False; [done|..]; unfold base8; Z.to_euclidean_division_equations; lia. }
  split; try done; cbn [tlb_algo_ptr].
  - apply Z.mod_pos_bound. lia.
  - intros k' b'. rewrite lookup_delete_Some. intros [_ ?]. by apply Hd.
  - intros k' [= <-]. by rewrite lookup_delete_eq.
  - intros k'. unfold free_slots in *. cbn [tlb_algo_n tlb_algo_empty]. rewrite Hfe.
    split; [set_solver|]. intros (Hk' & Ho & Hnk). destruct (Hall k' Hk') as [b' Hb'].
    rewrite lookup_delete_ne in Ho by congruence. congruence.
  - intros k' Hk' Hkn. rewrite lookup_delete_ne by congruence. cbn [slots]. rewrite Hs by done.
    destruct (ow !! k') as [b'|] eqn:Hkb; [|done]. simpl. destruct (Hd _ _ Hkb) as (_ & Hb' & Hm).
    destruct (Hkeep b' Hb' Hm) as [-> ->]; [eapply Hne; [done|congruence]|done].
  - intros k' b'. rewrite lookup_delete_Some. intros [_ ?]. by apply Hh.
  - intros k' b'. rewrite lookup_delete_Some. intros [Hn' Hkb]. destruct (Hd _ _ Hkb) as (_ & Hb' & Hm).
    destruct (Hkeep b' Hb' Hm) as [-> ->]; [eapply Hne; [done|congruence]|eauto].
  - intros la Hla. rewrite He by done. case_decide as Hd'; [by rewrite clear_tlb_flag|].
    intros Hf'. destruct (Hfl _ Hla Hf') as [? Ho]. split; [done|].
    rewrite lookup_delete_ne; [done|]. intros Hk'. rewrite <- Hk' in Ho. congruence.
  - intros k1 k2 b'. rewrite !lookup_delete_Some. naive_solver.
Qed.

(** ** The operations preserve coherence *)

(** The address space [dir] is loaded and the TLB agrees with it. *)
Record tlb_coh (bs : list block) (m : machine) (dir : Z) (ow : gmap Z Z) : Prop := {
  tc_wf : pt_wf bs m dir;
  tc_cur : cur_pgdir m = Some dir;
  tc_coh : coh None (entry m dir) (the_tlb m) ow
}.

(** Two entries that differ at most in the TLB bits. *)
Definition same_mapping (e e' : Z) : Prop := present e = present e' /\ ENTRYLO e = ENTRYLO e'.

Lemma pt_wf_set_tlb bs m dir t : pt_wf bs m dir -> pt_wf bs (set_tlb t m) dir.
Proof. intros []. by split. Qed.

Lemma entry_page_fun m dir : page_fun (entry m dir).
Proof. intros la la' H1 H2 Hq. by apply entry_same_page. Qed.

Lemma entry_u32 bs m dir la : pt_wf bs m dir -> is_u32 (entry m dir la).
Proof.
  intros Hwf. unfold entry. destruct (pt_of m dir la); [apply (wf_word _ _ _ Hwf)|].
  unfold is_u32, two32. lia.
Qed.

Lemma entry_no_table m dir la : pt_of m dir la = None -> entry m dir la = 0.
Proof. intros H. unfold entry. by rewrite H. Qed.

(** The other page of the pair, as the code finds it. *)
Lemma pair_lookup bs m dir la :
  pt_wf bs m dir -> user la ->
  exists p2, get_pte dir (TLBPAIR la) false m = Ok (p2, m) /\
    match match p2 with
          | Some p2 => if has_tlb (load_pte p2 m) then Some p2 else None
          | None => None
          end with
    | Some p => has_tlb (entry m dir (TLBPAIR la)) = true /\ load_pte p m = entry m dir (TLBPAIR la)
    | None => has_tlb (entry m dir (TLBPAIR la)) = false
    end.
Proof.
  intros Hwf Hla. destruct (pair_spec la Hla) as (Hup & _).
  rewrite (get_pte_lookup bs) by done. eexists. split; [done|].
  destruct (pt_of m dir (TLBPAIR la)) as [f|] eqn:Hf; simpl.
  - rewrite (load_pte_entry _ _ _ _ Hf). destruct (has_tlb (entry m dir (TLBPAIR la))) eqn:Hh; [|done].
    by rewrite (load_pte_entry _ _ _ _ Hf).
  - by rewrite (entry_no_table _ _ _ Hf).
Qed.

Lemma tlb_write_Ok idx h l0 l1 m :
  0 <= idx < 16 -> length (slots (the_tlb m)) = 16%nat ->
  tlb_write idx h l0 l1 m = Ok (set_tlb (with_slot idx (mk_slot h l0 l1) (the_tlb m)) m).
Proof.
  intros Hi Hl. unfold tlb_write, aset. rewrite Hl.
  destruct (Z.leb_spec 0 idx); [|lia]. destruct (Z.ltb_spec idx (Z.of_nat 16)); [done|lia].
Qed.

Lemma half_clear e : half (clear_tlb e) = ENTRYLO_INVALID.
Proof. unfold half. by rewrite clear_tlb_flag. Qed.

Lemma half_set e : has_tlb e = true -> half e = ENTRYLO e.
Proof. intros H. unfold half. by rewrite H. Qed.
Lemma half_unset e : has_tlb e = false -> half e = ENTRYLO_INVALID.
Proof. intros H. unfold half. by rewrite H. Qed.

Lemma store_coh bs m dir la f v t ow r :
  pt_wf bs m dir -> user la -> pt_of m dir la = Some f -> is_u32 v ->
  coh r (upd_ent la v (entry m dir)) t ow ->
  pt_wf bs (store_pte (f, PTX la) v (set_tlb t m)) dir /\
  coh r (entry (store_pte (f, PTX la) v (set_tlb t m)) dir) t ow.
Proof.
  intros Hwf Hla Hf Hv Hc.
  destruct (store_pte_entry bs (set_tlb t m) dir la f v) as [Hwf' He];
    [by apply pt_wf_set_tlb|done|done|done|].
  split; [done|]. eapply coh_ext; [|exact Hc]. intros la' Hl. by rewrite He.
Qed.

(** What [tlb_invalidate] does to the mapping. *)
Definition invalidated (e : Z) : Z := if has_tlb e then clear_tlb e else e.

Lemma tlb_invalidate_coh bs m dir ow la :
  tlb_coh bs m dir ow -> user la ->
  exists m' ow', tlb_invalidate dir la m = Ok m' /\ tlb_coh bs m' dir ow' /\
    (m' = m \/ exists t f, pt_of m dir la = Some f /\
       m' = store_pte (f, PTX la) (clear_tlb (entry m dir la)) (set_tlb t m)) /\
    (forall la', user la' -> entry m' dir la' = upd_ent la (invalidated (entry m dir la)) (entry m dir) la').
Proof.
  intros [Hwf Hcur Hc] Hla. unfold tlb_invalidate. rewrite bool_decide_true by done. cbn [negb].
  rewrite (get_pte_lookup bs) by done. cbn [rbind].
  assert (Hsame : forall la', user la' -> has_tlb (entry m dir la) = false ->
    entry m dir la' = upd_ent la (invalidated (entry m dir la)) (entry m dir) la').
  { intros la' Hl Hh. unfold invalidated. rewrite Hh. unfold upd_ent. case_decide; [|done].
    symmetry. by apply entry_page_fun. }
  destruct (pt_of m dir la) as [f|] eqn:Hf; cbn [fmap option_fmap option_map].
  2: { exists m, ow. split; [done|]. split; [done|]. split; [by left|]. intros la' Hl. apply Hsame; [done|].
       by rewrite entry_no_table. }
  rewrite (load_pte_entry _ _ _ _ Hf).
  destruct (has_tlb (entry m dir la)) eqn:Hh; cbn [negb].
  2: { exists m, ow. split; [done|]. split; [done|]. split; [by left|]. intros la' Hl. by apply Hsame. }
  destruct (pair_lookup bs m dir la Hwf Hla) as (p2 & -> & Hp2). cbn [rbind].
  pose proof (user_u32 la Hla) as Hu32.
  assert (Hcl : is_u32 (clear_tlb (entry m dir la))) by (apply clear_tlb_u32; by eapply entry_u32).
  destruct (coh_flag _ _ _ _ Hc la Hla Hh) as [Hpres Hown].
  destruct (coh_dom _ _ _ _ Hc _ _ Hown) as (Hidx & _ & _).
  assert (Hent : forall la' t, user la' ->
    entry (store_pte (f, PTX la) (clear_tlb (entry m dir la)) (set_tlb t m)) dir la' =
    upd_ent la (invalidated (entry m dir la)) (entry m dir) la').
  { intros la' t Hl. destruct (store_pte_entry bs (set_tlb t m) dir la f (clear_tlb (entry m dir la)))
      as [_ He]; [by apply pt_wf_set_tlb|done..|]. rewrite He by done. unfold invalidated. by rewrite Hh. }
  destruct (match p2 with Some p2 => if has_tlb (load_pte p2 m) then Some p2 else None | None => None end)
    as [p|].
  - destruct Hp2 as [Hph ->]. cbn [rbind]. unfold tlb_half_del_callback.
    rewrite tlb_write_Ok by (done || apply (coh_len _ _ _ _ Hc)). cbn [rbind].
    do 2 eexists. split; [done|]. rewrite (load_pte_entry (set_tlb _ m) _ _ _ Hf).
    change (entry (set_tlb ?t m) dir la) with (entry m dir la).
    rewrite land_e000 by done.
    pose proof (coh_write None (entry m dir) (the_tlb m) ow la (TLBIDX (entry m dir la))
      (clear_tlb (entry m dir la)) (entry_page_fun _ _) Hla Hc) as Hw.
    rewrite half_clear, half_set in Hw by done.
    destruct (store_coh bs m dir la f (clear_tlb (entry m dir la)) _ _ None Hwf Hla Hf Hcl
      (Hw ltac:(by left) ltac:(by rewrite clear_tlb_flag) ltac:(by right))) as [Hwf' Hc'].
    split; [split; [exact Hwf'|exact Hcur|exact Hc']|]. split; [right; eauto|].
    intros la' Hl. by apply Hent.
  - unfold tlb_del_callback, aset.
    destruct (coh_release (entry m dir) (the_tlb m) ow la (TLBIDX (entry m dir la))
      (clear_tlb (entry m dir la)) (entry_page_fun _ _) Hla Hc Hown (clear_tlb_flag _) Hp2) as [Hn16 Hw].
    destruct (coh_len _ _ _ _ Hc) as (Hl1 & Hl2 & Hl3). rewrite Hl2.
    pose proof (coh_n _ _ _ _ Hc) as Hn.
    destruct (Z.leb_spec 0 (tlb_algo_n (the_tlb m))); [|lia].
    destruct (Z.ltb_spec (tlb_algo_n (the_tlb m)) (Z.of_nat 16)); [|lia]. cbn [rbind andb].
    rewrite tlb_write_Ok by done. cbn [rbind].
    do 2 eexists. split; [done|]. rewrite (load_pte_entry (set_tlb _ (set_tlb _ m)) _ _ _ Hf).
    change (entry (set_tlb ?t (set_tlb ?t' m)) dir la) with (entry m dir la).
    change (set_tlb ?t (set_tlb ?t' m)) with (set_tlb t m).
    assert (Hlp : lo_pair la ENTRYLO_INVALID ENTRYLO_INVALID = (ENTRYLO_INVALID, ENTRYLO_INVALID)).
    { unfold lo_pair. by destruct (TLBLO la =? 0). }
    rewrite Hlp. cbn [fst snd].
    destruct (store_coh bs m dir la f (clear_tlb (entry m dir la)) _ _ None Hwf Hla Hf Hcl Hw) as [Hwf' Hc'].
    split; [split; [exact Hwf'|exact Hcur|exact Hc']|]. split; [right; eauto|].
    intros la' Hl. by apply Hent.
Qed.

Lemma drop_tlb_flag_Ok bs m dir la :
  pt_wf bs m dir -> user la ->
  exists m', drop_tlb_flag dir la m = Ok m' /\ pt_wf bs m' dir /\
    the_tlb m' = the_tlb m /\ cur_pgdir m' = cur_pgdir m /\ pm m' = pm m /\ npage m' = npage m /\
    (forall la', pt_of m' dir la' = pt_of m dir la') /\
    (forall la', user la' -> entry m' dir la' = upd_ent la (clear_tlb (entry m dir la)) (entry m dir) la') /\
    (forall q j, (forall l f, user l -> pt_of m dir l = Some f -> q <> f) -> mem m' q j = mem m q j).
Proof.
  intros Hwf Hla. unfold drop_tlb_flag. rewrite (get_pte_lookup bs) by done. cbn [rbind].
  destruct (pt_of m dir la) as [f|] eqn:Hf; cbn [fmap option_fmap option_map].
  - rewrite (load_pte_entry _ _ _ _ Hf).
    destruct (store_pte_entry bs m dir la f (clear_tlb (entry m dir la))) as [Hwf' He];
      [done..|apply clear_tlb_u32; by eapply entry_u32|].
    eexists. split; [done|]. split; [done|]. do 4 (split; [done|]). split; [|split; [done|]].
    + intros la'. by eapply store_pte_pt_of.
    + intros q j Hq. unfold store_pte. cbn [mem set_mem fst snd].
      rewrite write_mem_ne; [done|]. left. by eapply Hq.
  - exists m. do 7 (split; [done|]). split; [|done]. intros la' Hl. unfold upd_ent. case_decide as Hd; [|done].
    rewrite (entry_no_table _ _ _ Hf). rewrite <- (entry_page_fun m dir la la') by done.
    by rewrite (entry_no_table _ _ _ Hf).
Qed.

(** What [tlb_get_empty] promises [tlb_refill]: slot [k] is taken, entries lose
    at most their TLB bits. *)
Record got_slot (bs : list block) (m m' : machine) (dir : Z) (ow ow' : gmap Z Z) (h k : Z) : Prop := {
  gs_wf : pt_wf bs m' dir;
  gs_cur : cur_pgdir m' = Some dir;
  gs_coh : coh (Some k) (entry m' dir) (the_tlb m') ow';
  gs_hi : tlb_algo_hi (the_tlb m') !! Z.to_nat k = Some h;
  gs_sub : forall k b, ow' !! k = Some b -> ow !! k = Some b;
  gs_pt : forall la, pt_of m' dir la = pt_of m dir la;
  gs_pm : pm m' = pm m;
  gs_map : forall la, user la -> entry m' dir la = entry m dir la \/
     entry m' dir la = clear_tlb (entry m dir la)
}.

Lemma set_hi_coh k h ent t ow : coh (Some k) ent t ow -> 
  aset k h (tlb_algo_hi t) = Ok (<[Z.to_nat k := h]> (tlb_algo_hi t)) /\
  coh (Some k) ent (mk_tlb (slots t) (tlb_algo_empty t) (tlb_algo_n t) (<[Z.to_nat k := h]> (tlb_algo_hi t))
    (tlb_algo_ptr t)) ow.
Proof.
  intros [Hlen Hn Hp Hnd Hd Hr Hf Hs Hh Hl Hfl Hu]. destruct (Hr k eq_refl) as [Hk Hko].
  destruct Hlen as (? & ? & Hl3). unfold aset. rewrite Hl3.
  destruct (Z.leb_spec 0 k); [|lia]. destruct (Z.ltb_spec k (Z.of_nat 16)); [|lia].
  split; [done|]. split; try done.
  - simpl. rewrite length_insert. done.
  - intros k' b Hkb. simpl. rewrite list_lookup_insert_ne; [by apply Hh|].
    intros He. assert (k = k') as -> by (apply Hd in Hkb; lia). congruence.
Qed.

Lemma tlb_get_empty_coh bs m dir ow h :
  tlb_coh bs m dir ow ->
  exists k m' ow', tlb_get_empty h m = Ok (k, m') /\ got_slot bs m m' dir ow ow' h k.
Proof.
  intros [Hwf Hcur Hc]. unfold tlb_get_empty.
  destruct (Z.ltb_spec 0 (tlb_algo_n (the_tlb m))) as [Hn|Hn].
  - destruct (coh_pop _ _ _ Hc Hn) as (k & Hk & Hc').
    unfold aget. destruct (Z.leb_spec 0 (tlb_algo_n (the_tlb m) - 1)); [|lia].
    rewrite Hk. cbn [rbind rget the_tlb set_tlb tlb_algo_hi slots tlb_algo_empty tlb_algo_n tlb_algo_ptr].
    destruct (set_hi_coh k h _ _ _ Hc') as [Hset Hc2]. cbn [tlb_algo_hi] in Hset. rewrite Hset. cbn [rbind].
    do 3 eexists. split; [done|]. split; try done.
    + by apply pt_wf_set_tlb, pt_wf_set_tlb.
    + cbn [the_tlb set_tlb tlb_algo_hi]. apply list_lookup_insert_eq.
      destruct (coh_len _ _ _ _ Hc) as (_ & _ & ->). destruct (coh_res _ _ _ _ Hc' k eq_refl). lia.
    + intros la Hl. by left.
  - destruct (coh_evict (entry m dir) (the_tlb m) ow (fun la =>
      match tlb_algo_hi (the_tlb m) !! Z.to_nat (tlb_algo_ptr (the_tlb m)) with
      | Some b => if decide (base8 la = b) then clear_tlb (entry m dir la) else entry m dir la
      | None => entry m dir la end) (entry_page_fun _ _) Hc ltac:(lia)) as (b & Hb & Hub & Hbm & Hc').
    { intros b -> _ _ la _. done. }
    rewrite Hb in Hc'. pose proof (coh_ptr _ _ _ _ Hc) as Hp.
    unfold aget. destruct (Z.leb_spec 0 (tlb_algo_ptr (the_tlb m))); [|lia].
    rewrite Hb. cbn [rbind rget cur_pgdir set_tlb]. rewrite Hcur. cbn [rbind rget].
    set (m0 := set_tlb _ m). assert (Hwf0 : pt_wf bs m0 dir) by by apply pt_wf_set_tlb.
    destruct (drop_tlb_flag_Ok bs m0 dir b Hwf0 Hub) as (m1 & -> & Hwf1 & Ht1 & Hcur1 & Hpm1 & _ & Hpt1 & He1 & _).
    cbn [rbind]. destruct (pair_spec b Hub) as (Hup & Hb8 & _).
    destruct (drop_tlb_flag_Ok bs m1 dir (TLBPAIR b) Hwf1 Hup) as (m2 & -> & Hwf2 & Ht2 & Hcur2 & Hpm2 & _ & Hpt2 & He2 & _).
    cbn [rbind].
    assert (Ht2' : the_tlb m2 = the_tlb m0) by congruence. rewrite !Ht2'.
    assert (Hb8b : base8 b = b) by (unfold base8; clear -Hbm; Z.to_euclidean_division_equations; lia).
    assert (Hent : forall la, user la -> entry m2 dir la =
      if decide (base8 la = b) then clear_tlb (entry m dir la) else entry m dir la).
    { intros la Hl. rewrite He2 by done. unfold upd_ent at 1. rewrite !He1 by done.
      change (entry m0 dir) with (entry m dir). unfold upd_ent.
      pose proof (pair_spec b Hub) as (_ & _ & _ & _ & Hpne & Hsp). rewrite Hb8b in Hsp.
      case_decide as H1.
      - rewrite decide_False by congruence. rewrite decide_True.
        + f_equal. by apply entry_page_fun.
        + rewrite <- Hb8b, <- Hb8. unfold base8. clear -H1. Z.to_euclidean_division_equations. lia.
      - case_decide as H2.
        + rewrite decide_True; [f_equal; by apply entry_page_fun|].
          rewrite <- Hb8b. unfold base8. clear -H2. Z.to_euclidean_division_equations. lia.
        + rewrite decide_False; [done|]. intros H3. apply base8_half in H3; [|done].
          destruct (TLBLO b =? 0); destruct H3, Hsp; congruence. }
    destruct (set_hi_coh _ h _ _ _ Hc') as [Hset Hc2]. cbn [tlb_algo_hi] in Hset.
    unfold m0 at 1. cbn [the_tlb set_tlb tlb_algo_hi]. rewrite Hset. cbn [rbind].
    do 3 eexists. split; [done|]. split.
    + by apply pt_wf_set_tlb.
    + cbn [cur_pgdir set_tlb]. rewrite Hcur2, Hcur1. done.
    + eapply coh_ext; [|exact Hc2]. intros la Hl. change (entry (set_tlb ?t m2) dir la) with (entry m2 dir la).
      by apply Hent.
    + cbn [the_tlb set_tlb tlb_algo_hi]. apply list_lookup_insert_eq.
      destruct (coh_len _ _ _ _ Hc) as (_ & _ & ->). lia.
    + intros k' b'. rewrite lookup_delete_Some. tauto.
    + intros la. change (pt_of (set_tlb ?t m2) dir la) with (pt_of m2 dir la). by rewrite Hpt2, Hpt1.
    + cbn [pm set_tlb]. by rewrite Hpm2, Hpm1.
    + intros la Hl. change (entry (set_tlb ?t m2) dir la) with (entry m2 dir la).
      rewrite Hent by done. case_decide; auto.
Qed.

Lemma clear_same_mapping e : is_u32 e -> same_mapping (clear_tlb e) e.
Proof. intros He. split; [apply clear_tlb_present|by apply clear_tlb_ENTRYLO]. Qed.

(** Refilling makes the page of [la] present in the TLB and changes no
    translation. *)
Lemma tlb_refill_coh bs m dir ow la f :
  tlb_coh bs m dir ow -> user la -> pt_of m dir la = Some f ->
  present (entry m dir la) = true -> has_tlb (entry m dir la) = false ->
  exists m' ow', tlb_refill la (f, PTX la) m = Ok m' /\ tlb_coh bs m' dir ow' /\
    has_tlb (entry m' dir la) = true /\ pm m' = pm m /\
    (forall la', user la' -> same_mapping (entry m' dir la') (entry m dir la')).
Proof.
  intros [Hwf Hcur Hc] Hla Hf Hpres Hnt. unfold tlb_refill. rewrite Hcur. cbn [rget rbind].
  destruct (pair_lookup bs m dir la Hwf Hla) as (p2 & -> & Hp2). cbn [rbind].
  pose proof (user_u32 la Hla) as Hu32. destruct (pair_user la Hla) as (Hub & _ & Hup).
  rewrite (load_pte_entry _ _ _ _ Hf).
  destruct (match p2 with Some p2 => if has_tlb (load_pte p2 m) then Some p2 else None | None => None end)
    as [p|].
  - destruct Hp2 as [Hph ->]. cbn [rbind]. unfold tlb_half_add_callback.
    destruct (coh_flag _ _ _ _ Hc _ Hup Hph) as [_ Hown].
    destruct (pair_spec la Hla) as (_ & Hb8 & _). rewrite Hb8 in Hown.
    destruct (coh_dom _ _ _ _ Hc _ _ Hown) as (Hidx & _ & _).
    rewrite tlb_write_Ok by (done || apply (coh_len _ _ _ _ Hc)). cbn [rbind].
    set (k := TLBIDX (entry m dir (TLBPAIR la))) in *.
    pose proof (entry_u32 bs m dir la Hwf) as He32.
    pose proof (coh_write None (entry m dir) (the_tlb m) ow la k
      (mark_tlb (entry m dir la) k) (entry_page_fun _ _) Hla Hc ltac:(by left)) as Hw.
    rewrite (half_set (mark_tlb _ _)), mark_tlb_ENTRYLO, half_set in Hw by (done || apply mark_tlb_flag).
    specialize (Hw ltac:(intros _; by rewrite mark_tlb_present, mark_tlb_idx) ltac:(by right)).
    do 2 eexists. split; [done|]. rewrite (load_pte_entry (set_tlb _ m) _ _ _ Hf).
    change (entry (set_tlb ?t m) dir la) with (entry m dir la). rewrite land_e000 by done.
    fold (mark_tlb (entry m dir la) k).
    destruct (store_coh bs m dir la f _ _ _ None Hwf Hla Hf (mark_tlb_u32 _ k He32 Hidx) Hw) as [Hwf' Hc'].
    split; [split; [exact Hwf'|exact Hcur|exact Hc']|].
    destruct (store_pte_entry bs (set_tlb (with_slot k (mk_slot (base8 la)
      (lo_pair la (ENTRYLO (entry m dir la)) (ENTRYLO (entry m dir (TLBPAIR la)))).1
      (lo_pair la (ENTRYLO (entry m dir la)) (ENTRYLO (entry m dir (TLBPAIR la)))).2) (the_tlb m)) m) dir la f
      (mark_tlb (entry m dir la) k)) as [_ He]; [by apply pt_wf_set_tlb|done|done|by apply mark_tlb_u32|].
    split; [rewrite He by done; rewrite decide_True by done; apply mark_tlb_flag|].
    split; [done|]. intros la' Hl. rewrite He by done. case_decide as Hd; [|done].
    change (entry (set_tlb ?t m) dir la') with (entry m dir la').
    rewrite (entry_page_fun m dir la' la) by done.
    split; [apply mark_tlb_present|by apply mark_tlb_ENTRYLO].
  - destruct (tlb_get_empty_coh bs m dir ow (Z.land la 0xffffe000)) as (k & m1 & ow1 & -> & Hgs); [done|].
    destruct Hgs as [Hwf1 Hcur1 Hc1 Hhi1 Hsub Hpt1 Hpm1 Hmap1]. cbn [rbind].
    destruct (coh_res _ _ _ _ Hc1 k eq_refl) as [Hk Hko].
    rewrite tlb_write_Ok by (done || apply (coh_len _ _ _ _ Hc1)). cbn [rbind].
    rewrite land_e000 in * by done.
    assert (Hf1 : pt_of m1 dir la = Some f) by by rewrite Hpt1.
    pose proof (entry_u32 bs m1 dir la Hwf1) as He32.
    assert (Hsm : forall la', user la' -> same_mapping (entry m1 dir la') (entry m dir la')).
    { intros la' Hl. destruct (Hmap1 la' Hl) as [-> | ->]; [done|].
      apply clear_same_mapping. by eapply entry_u32. }
    assert (Hp1 : has_tlb (entry m1 dir (TLBPAIR la)) = false).
    { destruct (Hmap1 _ Hup) as [-> | ->]; [done|apply clear_tlb_flag]. }
    assert (Hno : forall k', ow1 !! k' <> Some (base8 la)).
    { intros k' Hk'. apply Hsub, (coh_live _ _ _ _ Hc), live_halves in Hk';
        [|apply entry_page_fun|done]. destruct Hk'; congruence. }
    pose proof (coh_write (Some k) (entry m1 dir) (the_tlb m1) ow1 la k
      (mark_tlb (entry m1 dir la) k) (entry_page_fun _ _) Hla Hc1 ltac:(by right)) as Hw.
    rewrite (half_set (mark_tlb _ _)), mark_tlb_ENTRYLO, half_unset in Hw by (done || apply mark_tlb_flag).
    specialize (Hw ltac:(intros _; rewrite mark_tlb_present, mark_tlb_idx by done;
      split; [rewrite <- Hpres; by apply Hsm|done]) ltac:(left; apply mark_tlb_flag)).
    destruct (Hsm la Hla) as [Hsp Hsl]. rewrite Hsl in Hw.
    do 2 eexists. split; [done|]. rewrite (load_pte_entry (set_tlb _ m1) _ _ _ Hf1).
    change (entry (set_tlb ?t m1) dir la) with (entry m1 dir la).
    fold (mark_tlb (entry m1 dir la) k).
    destruct (store_coh bs m1 dir la f _ _ _ None Hwf1 Hla Hf1 (mark_tlb_u32 _ k He32 Hk) Hw) as [Hwf' Hc'].
    split; [split; [exact Hwf'|exact Hcur1|exact Hc']|].
    destruct (store_pte_entry bs (set_tlb (with_slot k (mk_slot (base8 la)
      (lo_pair la (ENTRYLO (entry m dir la)) ENTRYLO_INVALID).1
      (lo_pair la (ENTRYLO (entry m dir la)) ENTRYLO_INVALID).2) (the_tlb m1)) m1) dir la f
      (mark_tlb (entry m1 dir la) k)) as [_ He]; [by apply pt_wf_set_tlb|done|done|by apply mark_tlb_u32|].
    split; [rewrite He by done; rewrite decide_True by done; apply mark_tlb_flag|].
    split; [done|]. intros la' Hl. rewrite He by done. case_decide as Hd.
    + rewrite (entry_page_fun m dir la' la) by done.
      split; [by rewrite mark_tlb_present|by rewrite mark_tlb_ENTRYLO].
    + change (entry (set_tlb ?t m1) dir la') with (entry m1 dir la'). by apply Hsm.
Qed.

(** Loading a directory whose entries carry no TLB flag. *)
Lemma load_pgdir_coh bs m dir :
  pt_wf bs m dir -> (forall la, user la -> has_tlb (entry m dir la) = false) ->
  length (slots (the_tlb m)) = 16%nat -> length (tlb_algo_hi (the_tlb m)) = 16%nat ->
  0 <= tlb_algo_ptr (the_tlb m) < 16 ->
  exists m', load_pgdir dir m = Ok m' /\ tlb_coh bs m' dir ∅ /\ entry m' dir = entry m dir /\ pm m' = pm m /\
    npage m' = npage m /\ mem m' = mem m.
Proof.
  intros Hwf Hno Hl1 Hl3 Hp. unfold load_pgdir, tlb_init.
  set (inv := mk_slot ENTRYHI_INVALID ENTRYLO_INVALID ENTRYLO_INVALID).
  assert (Hloop : forall m0, length (slots (the_tlb m0)) = 16%nat ->
    tlb_init_loop (Z.to_nat TLBN) 0 m0 = Ok (set_tlb (mk_tlb (replicate 16 inv) (tlb_algo_empty (the_tlb m0))
      (tlb_algo_n (the_tlb m0)) (tlb_algo_hi (the_tlb m0)) (tlb_algo_ptr (the_tlb m0))) m0)).
  { intros [np0 pm0 mem0 cur0 [sl e n h p]] Hl. cbn [the_tlb slots] in *.
    do 16 (destruct sl as [|? sl]; [discriminate|]). destruct sl; [reflexivity|discriminate]. }
  rewrite Hloop by done. cbn [rbind]. eexists. split; [done|]. split; [|done].
  split; [by destruct Hwf|done|].
  set (t' := the_tlb _). split; cbn [t' the_tlb set_tlb tlb_init_callback slots tlb_algo_empty tlb_algo_n tlb_algo_hi tlb_algo_ptr].
  - rewrite length_replicate. done.
  - unfold TLBN. lia.
  - done.
  - vm_compute. repeat constructor; set_solver by lia.
  - intros k b Hk. by rewrite lookup_empty in Hk.
  - done.
  - intros k. unfold free_slots. subst t'.
    cbn [the_tlb set_tlb tlb_init_callback slots tlb_algo_empty tlb_algo_n tlb_algo_hi tlb_algo_ptr].
    rewrite take_ge by (rewrite length_fmap, length_seq; unfold TLBN; lia).
    rewrite list_elem_of_fmap, lookup_empty. split.
    + intros (i & -> & Hi%elem_of_seq). split; [lia|done].
    + intros (Hk & _ & _). exists (Z.to_nat k). split; [lia|apply elem_of_seq; lia].
  - intros k Hk _. rewrite lookup_empty. apply lookup_replicate_2. lia.
  - intros k b Hk. by rewrite lookup_empty in Hk.
  - intros k b Hk. by rewrite lookup_empty in Hk.
  - intros la Hla Hf. change (has_tlb (entry m dir la) = true) in Hf. by rewrite Hno in Hf.
  - intros k k' b Hk. by rewrite lookup_empty in Hk.
Qed.

(** ** Running the TLB *)

(** A TLB miss on a present page, an explicit invalidation, and the kernel's
    change of an entry ([tlb_invalidate(pgdir, la); *ptep = v], the common
    tail of [page_insert] and [page_remove_pte]). *)
Inductive tlb_op := OpMiss (la : Z) | OpInvalidate (la : Z) | OpStore (la v : Z).

Definition tlb_step (dir : Z) (op : tlb_op) (m : machine) : res machine :=
  match op with
  | OpMiss la =>
      let! (ptep, m) := get_pte dir la false m in
      match ptep with
      | Some p => if present (load_pte p m) && negb (has_tlb (load_pte p m)) then tlb_refill la p m else Ok m
      | None => Ok m
      end
  | OpInvalidate la => tlb_invalidate dir la m
  | OpStore la v =>
      let! m := tlb_invalidate dir la m in
      let! (ptep, m) := get_pte dir la false m in
      match ptep with
      | Some p => Ok (store_pte p v m)
      | None => Ok m
      end
  end.

Fixpoint tlb_run (dir : Z) (ops : list tlb_op) (m : machine) : res machine :=
  match ops with
  | [] => Ok m
  | op :: ops => let! m := tlb_step dir op m in tlb_run dir ops m
  end.

Definition op_ok (op : tlb_op) : Prop :=
  match op with
  | OpMiss la | OpInvalidate la => user la
  | OpStore la v => user la /\ is_u32 v /\ has_tlb v = false
  end.

(** A change of an entry that is not in the TLB. *)
Lemma coh_store ent t ow la v :
  page_fun ent -> user la -> has_tlb v = false -> has_tlb (ent la) = false ->
  coh None ent t ow -> coh None (upd_ent la v ent) t ow.
Proof.
  intros Hpf Hla Hv Hno [Hlen Hn Hp Hnd Hd Hr Hf Hs Hh Hl Hfl Hu].
  assert (Hsame : forall la', user la' -> has_tlb (upd_ent la v ent la') = has_tlb (ent la') /\
    half (upd_ent la v ent la') = half (ent la')).
  { intros la' Hl'. unfold upd_ent. case_decide as Hq; [|done].
    rewrite <- (Hpf la la') by done. unfold half. by rewrite Hv, Hno. }
  assert (Hub : forall k b, ow !! k = Some b -> user b /\ user (b + 4096)).
  { intros k b Hk. destruct (Hd _ _ Hk) as (_ & ? & ?). split; [done|].
    unfold user, KERNBASE in *. Z.to_euclidean_division_equations. lia. }
  split; try done.
  - intros k Hk Hk'. rewrite Hs by done. destruct (ow !! k) as [b|] eqn:Hb; [|done]. simpl.
    destruct (Hub _ _ Hb) as [H1 H2]. by rewrite (proj2 (Hsame _ H1)), (proj2 (Hsame _ H2)).
  - intros k b Hb. destruct (Hub _ _ Hb) as [H1 H2].
    rewrite (proj1 (Hsame _ H1)), (proj1 (Hsame _ H2)). eauto.
  - intros la' Hl'. unfold upd_ent. case_decide; [congruence|]. by apply Hfl.
Qed.

Lemma tlb_step_coh bs dir op m ow :
  tlb_coh bs m dir ow -> op_ok op ->
  exists m' ow', tlb_step dir op m = Ok m' /\ tlb_coh bs m' dir ow'.
Proof.
  intros Hc Hop. destruct op as [la|la|la v]; simpl in *.
  - rewrite (get_pte_lookup bs) by (apply Hc || done). cbn [rbind].
    destruct (pt_of m dir la) as [f|] eqn:Hf; cbn [fmap option_fmap option_map]; [|eauto].
    rewrite (load_pte_entry _ _ _ _ Hf).
    destruct (present (entry m dir la)) eqn:Hp; [|eauto].
    destruct (has_tlb (entry m dir la)) eqn:Hh; [eauto|]. simpl.
    destruct (tlb_refill_coh bs m dir ow la f) as (m' & ow' & E & Hc' & _); eauto.
  - destruct (tlb_invalidate_coh bs m dir ow la) as (m' & ow' & E & Hc' & _); eauto.
  - destruct Hop as (Hla & Hv & Hvn).
    destruct (tlb_invalidate_coh bs m dir ow la) as (m1 & ow1 & -> & [Hwf1 Hcur1 Hc1] & _ & He1); [done..|].
    cbn [rbind]. rewrite (get_pte_lookup bs) by done. cbn [rbind].
    destruct (pt_of m1 dir la) as [f|] eqn:Hf; cbn [fmap option_fmap option_map]; [|by eexists _, _].
    assert (Hno : has_tlb (entry m1 dir la) = false).
    { rewrite He1 by done. rewrite upd_ent_eq by done. unfold invalidated.
      destruct (has_tlb (entry m dir la)) eqn:Hh; [apply clear_tlb_flag|done]. }
    destruct (store_pte_entry bs m1 dir la f v) as [Hwf2 He2]; [done..|].
    do 2 eexists. split; [done|]. split; [exact Hwf2|exact Hcur1|].
    eapply coh_ext; [|apply (coh_store _ _ ow1 la v (entry_page_fun m1 dir)); done].
    intros la' Hl. by rewrite He2.
Qed.

Lemma tlb_run_coh bs dir ops m ow :
  tlb_coh bs m dir ow -> (forall op, op ∈ ops -> op_ok op) ->
  exists m' ow', tlb_run dir ops m = Ok m' /\ tlb_coh bs m' dir ow'.
Proof.
  revert m ow. induction ops as [|op ops IH]; intros m ow Hc Hops; simpl; [by eexists _, _|].
  destruct (tlb_step_coh bs dir op m ow) as (m1 & ow1 & -> & Hc1); [done|apply Hops; left|].
  cbn [rbind]. eapply IH; [done|]. intros op' Hin. apply Hops. by right.
Qed.

(** The half of slot [s] for the page of [la]. *)
Definition slot_lo (la : Z) (s : tlb_slot) : Z := if TLBLO la =? 0 then lo0 s else lo1 s.

(** C6: from the moment an address space without stale TLB marks is loaded,
    any sequence of TLB misses, invalidations and page-table changes runs
    without a fault and keeps the TLB coherent: every translation a slot holds
    is the one of the current page table, and no pair of pages sits in two
    slots. *)
Theorem tlb_no_stale_translation (bs : list block) (m : machine) (dir : Z) (ops : list tlb_op) :
  pt_wf bs m dir -> (forall la, user la -> has_tlb (entry m dir la) = false) ->
  length (slots (the_tlb m)) = 16%nat -> length (tlb_algo_hi (the_tlb m)) = 16%nat ->
  0 <= tlb_algo_ptr (the_tlb m) < 16 -> (forall op, op ∈ ops -> op_ok op) ->
  exists m1 m', load_pgdir dir m = Ok m1 /\ tlb_run dir ops m1 = Ok m' /\
    (forall k s la, 0 <= k < 16 -> user la -> slots (the_tlb m') !! Z.to_nat k = Some s ->
       hi s = base8 la -> slot_lo la s <> ENTRYLO_INVALID ->
       present (entry m' dir la) = true /\ slot_lo la s = ENTRYLO (entry m' dir la)) /\
    (forall k k' s s' la, 0 <= k < 16 -> 0 <= k' < 16 -> user la ->
       slots (the_tlb m') !! Z.to_nat k = Some s -> slots (the_tlb m') !! Z.to_nat k' = Some s' ->
       hi s = base8 la -> hi s' = base8 la -> k = k').
Proof.
  intros Hwf Hno Hl1 Hl3 Hp Hops.
  destruct (load_pgdir_coh bs m dir) as (m1 & E1 & Hc1 & _); [done..|].
  destruct (tlb_run_coh bs dir ops m1 ∅ Hc1 Hops) as (m' & ow & E & [Hwf' _ Hc]).
  exists m1, m'. split; [done|]. split; [done|].
  assert (Hown : forall k s la, 0 <= k < 16 -> user la -> slots (the_tlb m') !! Z.to_nat k = Some s ->
    hi s = base8 la -> ow !! k = Some (base8 la) /\ s = slot_for (entry m' dir) (Some (base8 la))).
  { intros k s la Hk Hla Hs Hh. rewrite (coh_slot _ _ _ _ Hc k Hk) in Hs by done. injection Hs as <-.
    destruct (ow !! k) as [b|] eqn:Hb; simpl in Hh; [by subst|].
    exfalso. destruct (pair_user la Hla) as (Hub & _). unfold user, KERNBASE, ENTRYHI_INVALID in *. lia. }
  split.
  - intros k s la Hk Hla Hs Hh Hlo. destruct (Hown k s la Hk Hla Hs Hh) as [Ho ->].
    pose proof (lo_pair_halves (entry m' dir) la (entry_page_fun _ _) Hla half) as Hlp.
    assert (Hlo' : slot_lo la (slot_for (entry m' dir) (Some (base8 la))) = half (entry m' dir la)).
    { unfold slot_lo, slot_for. cbn [lo0 lo1]. unfold lo_pair in Hlp. destruct (TLBLO la =? 0); congruence. }
    rewrite Hlo' in *. unfold half in *. destruct (has_tlb (entry m' dir la)) eqn:Hh'; [|done].
    split; [|done]. by apply (coh_flag _ _ _ _ Hc).
  - intros k k' s s' la Hk Hk' Hla Hs Hs' Hh Hh'.
    eapply (coh_uniq _ _ _ _ Hc); [by eapply Hown|by eapply Hown].
Qed.

(** ** An example address space: directory in page 1, one page table in page 2
    mapping four pages from 0x00800000 *)

Definition ex_mem (p i : Z) : Z :=
  if (p =? 1) && (i =? 2) then 2 * 4096 + 7
  else if (p =? 2) && (0 <=? i) && (i <? 4) then (12 + i) * 4096 + 7
  else 0.
Definition ex_tlb : tlb :=
  mk_tlb (replicate 16 (mk_slot 0 0 0)) (replicate 16 0) 0 (replicate 16 0) 0.
Definition ex_machine (st : pmm) : machine := mk_machine 16 st ex_mem None ex_tlb true ∅.

Lemma ex_pt_of st la : user la -> pt_of (ex_machine st) 1 la = if PDX la =? 2 then Some 2 else None.
Proof.
  intros Hla. unfold pt_of, ex_machine. cbn [mem]. unfold ex_mem. rewrite Z.eqb_refl. cbn [andb].
  change (1 =? 2) with false. cbn [andb]. by destruct (PDX la =? 2).
Qed.

Lemma ex_wf st : pmm_inv 16 st [(3, 13)] -> pt_wf [(3, 13)] (ex_machine st) 1.
Proof.
  intros Hinv.
  assert (Hcov : forall i, covers [(3, 13)] i <-> 3 <= i < 16).
  { intros i. rewrite covers_cons. pose proof (covers_nil i). intuition lia. }
  split; [exact Hinv|simpl; lia| | | |].
  - rewrite Hcov. simpl. lia.
  - intros la f Hla. rewrite ex_pt_of by done. destruct (PDX la =? 2); intros [= <-].
    rewrite Hcov. simpl. lia.
  - intros la la' f Hla Hla'. rewrite !ex_pt_of by done.
    destruct (Z.eqb_spec (PDX la) 2) as [->|]; [|done]. by destruct (Z.eqb_spec (PDX la') 2) as [->|].
  - intros p i. unfold ex_machine, is_u32, two32. cbn [mem]. unfold ex_mem.
    destruct ((p =? 1) && (i =? 2)); [lia|].
    destruct ((p =? 2) && (0 <=? i) && (i <? 4)) eqn:Hb; [|lia].
    apply andb_true_iff in Hb as [Hb ?%Z.ltb_lt]. apply andb_true_iff in Hb as [_ ?%Z.leb_le]. lia.
Qed.

Lemma ex_no_tlb st la : user la -> has_tlb (entry (ex_machine st) 1 la) = false.
Proof.
  intros Hla. unfold entry. rewrite ex_pt_of by done. destruct (PDX la =? 2); [|done].
  unfold ex_machine. cbn [mem]. unfold ex_mem. change (2 =? 1) with false. change (2 =? 2) with true. cbn [andb].
  destruct (Z.leb_spec 0 (PTX la)); [|done]. destruct (Z.ltb_spec (PTX la) 4); [|done]. cbn [andb].
  assert (Hc : PTX la = 0 \/ PTX la = 1 \/ PTX la = 2 \/ PTX la = 3) by lia.
  by destruct Hc as [-> |[-> |[-> | ->]]].
Qed.

Lemma tlb_no_stale_translation_witness :
  exists st m1 m', load_pgdir 1 (ex_machine st) = Ok m1 /\
    tlb_run 1 [OpMiss 0x00800000; OpMiss 0x00801004; OpStore 0x00800000 0; OpMiss 0x00803000] m1 = Ok m' /\
    (forall k s la, 0 <= k < 16 -> user la -> slots (the_tlb m') !! Z.to_nat k = Some s ->
       hi s = base8 la -> slot_lo la s <> ENTRYLO_INVALID ->
       present (entry m' 1 la) = true /\ slot_lo la s = ENTRYLO (entry m' 1 la)).
Proof.
  destruct booted16 as (_ & st & _ & _ & Hinv). exists st.
  destruct (tlb_no_stale_translation [(3, 13)] (ex_machine st) 1
    [OpMiss 0x00800000; OpMiss 0x00801004; OpStore 0x00800000 0; OpMiss 0x00803000])
    as (m1 & m' & E1 & E & H & _).
  - apply (ex_wf st Hinv).
  - intros la Hla. apply (ex_no_tlb st la Hla).
  - reflexivity.
  - reflexivity.
  - simpl. lia.
  - intros op Hin. rewrite !elem_of_cons, elem_of_nil in Hin.
    destruct Hin as [->|[->|[->|[->|[]]]]]; unfold op_ok, user, KERNBASE, is_u32, two32; repeat split; lia.
  - exists m1, m'. auto.
Defined.

(** [load_pgdir] empties the TLB but leaves the TLB marks in the page
    tables of the space it leaves.  Loading another directory and coming back
    makes the bookkeeping wrong: invalidating a page that was in the TLB
    before the switch pushes its old slot on the already full stack of empty
    slots, an out-of-bounds write. *)
Theorem load_pgdir_leaves_marks :
  (let! m := load_pgdir 1 (ex_machine (boot_state 16)) in
   let! m := tlb_step 1 (OpMiss 0x00800000) m in
   let! m := load_pgdir 0 m in
   let! m := load_pgdir 1 m in
   tlb_invalidate 1 0x00800000 m) = Err WildAccess.
Proof. vm_compute. reflexivity. Qed.
