(* ===== verification/Pmm.v ===== *)
(** * Mapping and unmapping pages (kern/mm/pmm.c)

    The operations that build and tear down address spaces on the page tables
    of [PageTable] and the TLB of [Tlb]: [page_insert], [page_remove],
    [pgdir_alloc_page], and the loops over ranges.  [space_ok] is the
    invariant of a user address space (every mapped page is a distinct page in
    use with one reference); the operations preserve it and are shown to do
    exactly what their names say to the mapping, the reference counts and the
    free pages. *)
From S2P Require Import Prelude DList Blocks Atomic Arith DefaultPmm PageTable Tlb.

Definition page_remove_pte (pgdir la : Z) (ptep : Z * Z) (m : machine) : res machine :=
  if 0 <? Z.land (load_pte ptep m) PTE_P then
    let! page := pte2page (load_pte ptep m) m in
    let! m := page_ref_dec page m in
    let! r := page_ref page m in
    let! m := (if r =? 0 then free_page page m else Ok m) in
    let! m := tlb_invalidate pgdir la m in
    Ok (store_pte ptep 0 m)
  else Ok m.

Definition page_remove (pgdir la : Z) (m : machine) : res machine :=
  let! (ptep, m) := get_pte pgdir la false m in
  match ptep with
  | Some ptep => page_remove_pte pgdir la ptep m
  | None => Ok m
  end.

Definition page_insert (pgdir page la perm : Z) (m : machine) : res (Z * machine) :=
  let! (ptep, m) := get_pte pgdir la true m in
  match ptep with
  | None => Ok (- E_NO_MEM, m)
  | Some ptep =>
      let! m := page_ref_inc page m in
      let! m :=
        (if negb (Z.land (load_pte ptep m) PTE_P =? 0) then
           let! p := pte2page (load_pte ptep m) m in
           if p =? page then page_ref_dec page m
           else page_remove_pte pgdir la ptep m
         else Ok m) in
      let! m := tlb_invalidate pgdir la m in
      Ok (0, store_pte ptep (Z.lor (Z.lor (page2pa page) PTE_P) perm) m)
  end.

(** With [swap_init_ok = 0] (or no [check_mm_struct]) nothing is recorded for
    the swap manager. *)
Definition pgdir_alloc_page (pgdir la perm : Z) (m : machine) : res (option Z * machine) :=
  let! (page, m) := alloc_page m in
  match page with
  | None => Ok (None, m)
  | Some page =>
      let! (r, m) := page_insert pgdir page la perm m in
      if negb (r =? 0) then
        let! m := free_page page m in Ok (None, m)
      else Ok (Some page, m)
  end.

Definition page_aligned (a : Z) : bool := a mod PGSIZE =? 0.

(** [do { .. } while (start != 0 && start < end)] of [unmap_range]. *)
Fixpoint unmap_loop (fuel : nat) (pgdir start end_ : Z) (m : machine) : res machine :=
  match fuel with
  | O => Err OutOfFuel
  | S fuel =>
      let! (ptep, m) := get_pte pgdir start false m in
      let! (start, m) :=
        match ptep with
        | None => Ok (ROUNDDOWN (u32 (start + PTSIZE)) PTSIZE, m)
        | Some ptep =>
            let! m := (if negb (load_pte ptep m =? 0) then page_remove_pte pgdir start ptep m else Ok m) in
            Ok (u32 (start + PGSIZE), m)
        end in
      if negb (start =? 0) && (start <? end_) then unmap_loop fuel pgdir start end_ m else Ok m
  end.

(** Iterations the loops over [start, end) can need. *)
Definition range_fuel (start end_ : Z) : nat := S (Z.to_nat ((end_ - start) / PGSIZE)).

Definition unmap_range (pgdir start end_ : Z) (m : machine) : res machine :=
  assert! page_aligned start && page_aligned end_ ;;
  assert! USER_ACCESS start end_ ;;
  unmap_loop (range_fuel start end_) pgdir start end_ m.

Fixpoint exit_loop (fuel : nat) (pgdir start end_ : Z) (m : machine) : res machine :=
  match fuel with
  | O => Err OutOfFuel
  | S fuel =>
      let pde_idx := PDX start in
      let! m :=
        (if negb (Z.land (mem m pgdir pde_idx) PTE_P =? 0) then
           let! p := pde2page (mem m pgdir pde_idx) m in
           let! m := free_page p m in
           Ok (store_pte (pgdir, pde_idx) 0 m)
         else Ok m) in
      let start := u32 (start + PTSIZE) in
      if negb (start =? 0) && (start <? end_) then exit_loop fuel pgdir start end_ m else Ok m
  end.

Definition exit_range (pgdir start end_ : Z) (m : machine) : res machine :=
  assert! page_aligned start && page_aligned end_ ;;
  assert! USER_ACCESS start end_ ;;
  exit_loop (S (range_fuel start end_)) pgdir (ROUNDDOWN start PTSIZE) end_ m.

(** One page, or the rest of a missing page table: the value to return when
    the copy fails, and where to go on. *)
Definition copy_step (to from start : Z) (m : machine) : res (option Z * Z * machine) :=
  let! (ptep, m) := get_pte from start false m in
  match ptep with
  | None => Ok (None, ROUNDDOWN (u32 (start + PTSIZE)) PTSIZE, m)
  | Some ptep =>
      if negb (Z.land (load_pte ptep m) PTE_P =? 0) then
        let! (nptep, m) := get_pte to start true m in
        match nptep with
        | None => Ok (Some (- E_NO_MEM), start, m)
        | Some _ =>
            let perm := Z.land (load_pte ptep m) PTE_USER in
            let! page := pte2page (load_pte ptep m) m in
            let! (npage, m) := alloc_page m in
            assert! bool_decide (npage <> None) ;;
            let! npage := rget npage in
            let! dst := page2kva npage m in
            let! src := page2kva page m in
            let m := set_mem (copy_page dst src (mem m)) m in
            let! (_, m) := page_insert to npage start perm m in
            Ok (None, u32 (start + PGSIZE), m)
        end
      else Ok (None, u32 (start + PGSIZE), m)
  end.

(** The result is the C return value. *)
Fixpoint copy_loop (fuel : nat) (to from start end_ : Z) (m : machine) : res (Z * machine) :=
  match fuel with
  | O => Err OutOfFuel
  | S fuel =>
      let! (r, start, m) := copy_step to from start m in
      match r with
      | Some r => Ok (r, m)
      | None =>
          if negb (start =? 0) && (start <? end_) then copy_loop fuel to from start end_ m else Ok (0, m)
      end
  end.

Definition copy_range (to from start end_ : Z) (m : machine) : res (Z * machine) :=
  assert! page_aligned start && page_aligned end_ ;;
  assert! USER_ACCESS start end_ ;;
  copy_loop (range_fuel start end_) to from start end_ m.

(** [boot_map_segment]: [n] entries from [la] on. *)
Fixpoint boot_map_loop (n : nat) (pgdir la pa perm : Z) (m : machine) : res machine :=
  match n with
  | O => Ok m
  | S n =>
      let! (ptep, m) := get_pte pgdir la true m in
      assert! bool_decide (ptep <> None) ;;
      let! ptep := rget ptep in
      let m := store_pte ptep (Z.lor (Z.lor pa PTE_P) perm) m in
      boot_map_loop n pgdir (u32 (la + PGSIZE)) (u32 (pa + PGSIZE)) perm m
  end.

Definition boot_map_segment (pgdir la size pa perm : Z) (m : machine) : res machine :=
  assert! PGOFF la =? PGOFF pa ;;
  let n := ROUNDUP (u32 (size + PGOFF la)) PGSIZE / PGSIZE in
  boot_map_loop (Z.to_nat n) pgdir (ROUNDDOWN la PGSIZE) (ROUNDDOWN pa PGSIZE) perm m.

(** [get_pgtable_items]: the next maximal run of present entries with one
    permission, in [start, right): (perm, (left_store, right_store)). *)
Fixpoint skip_while (fuel : nat) (f : Z -> bool) (start right : Z) : Z :=
  match fuel with
  | O => start
  | S fuel => if (start <? right) && f start then skip_while fuel f (start + 1) right else start
  end.

Definition get_pgtable_items (right start : Z) (table : Z -> Z) : option (Z * (Z * Z)) :=
  let fuel := Z.to_nat (right - start) in
  if right <=? start then None
  else
    let start := skip_while fuel (fun i => Z.land (table i) PTE_P =? 0) start right in
    if start <? right then
      let perm := Z.land (table start) PTE_USER in
      let stop := skip_while fuel (fun i => Z.land (table i) PTE_USER =? perm) (start + 1) right in
      Some (perm, (start, stop))
    else None.

(** ** Address spaces ready for changes *)

(** [dir] is well formed, and when it is the loaded directory the TLB agrees
    with it. *)
Definition tlb_ready (bs : list block) (m : machine) (dir : Z) : Prop :=
  pt_wf bs m dir /\
  (cur_pgdir m = Some dir -> exists ow, coh None (entry m dir) (the_tlb m) ow).

Lemma tlb_invalidate_ready bs m dir la :
  tlb_ready bs m dir -> user la ->
  exists m', tlb_invalidate dir la m = Ok m' /\ tlb_ready bs m' dir /\
    pm m' = pm m /\ npage m' = npage m /\ cur_pgdir m' = cur_pgdir m /\
    (forall la', pt_of m' dir la' = pt_of m dir la') /\
    (forall la', user la' -> la / 4096 <> la' / 4096 -> entry m' dir la' = entry m dir la') /\
    (cur_pgdir m = Some dir -> has_tlb (entry m' dir la) = false) /\
    (forall q j, (forall f, pt_of m dir la = Some f -> q <> f) -> mem m' q j = mem m q j).
Proof.
  intros [Hwf Hcoh] Hla. destruct (decide (cur_pgdir m = Some dir)) as [Hcur|Hcur].
  - destruct (Hcoh Hcur) as [ow Hc].
    destruct (tlb_invalidate_coh bs m dir ow la) as (m' & ow' & E & [Hwf' Hcur' Hc'] & Hm & He); [done..|].
    exists m'. split; [done|]. split; [split; [done|eauto]|].
    assert (Hrest : pm m' = pm m /\ npage m' = npage m /\ cur_pgdir m' = cur_pgdir m /\
      (forall la', pt_of m' dir la' = pt_of m dir la') /\
      (forall q j, (forall f, pt_of m dir la = Some f -> q <> f) -> mem m' q j = mem m q j)).
    { destruct Hm as [->|(t & f & Hf & ->)]; [done|]. do 3 (split; [done|]). split.
      - intros la'. change (pt_of (store_pte (f, PTX la) (clear_tlb (entry m dir la)) m) dir la' = pt_of m dir la').
        by eapply store_pte_pt_of.
      - intros q j Hq. unfold store_pte. cbn [mem set_mem set_tlb fst snd].
        rewrite write_mem_ne; [done|]. left. by apply Hq. }
    destruct Hrest as (? & ? & ? & ? & ?). split_and!; try done.
    + intros la' Hl Hne. rewrite He by done. by apply upd_ent_ne.
    + intros _. rewrite He, upd_ent_eq by done. unfold invalidated.
      destruct (has_tlb (entry m dir la)) eqn:Hh; [apply clear_tlb_flag|done].
  - exists m. unfold tlb_invalidate. rewrite bool_decide_false by done. split_and!; try done.
Qed.

(** Storing an entry without TLB mark, after the invalidation. *)
Lemma store_ready bs m dir la f v :
  tlb_ready bs m dir -> user la -> pt_of m dir la = Some f -> is_u32 v -> has_tlb v = false ->
  (cur_pgdir m = Some dir -> has_tlb (entry m dir la) = false) ->
  tlb_ready bs (store_pte (f, PTX la) v m) dir /\
  (forall la', user la' -> entry (store_pte (f, PTX la) v m) dir la' = upd_ent la v (entry m dir) la').
Proof.
  intros [Hwf Hcoh] Hla Hf Hv Hnv Hno. destruct (store_pte_entry bs m dir la f v) as [Hwf' He]; [done..|].
  split; [|done]. split; [done|]. intros Hcur. change (cur_pgdir m = Some dir) in Hcur.
  destruct (Hcoh Hcur) as [ow Hc]. exists ow.
  eapply coh_ext; [|apply (coh_store _ _ _ la v (entry_page_fun m dir)); eauto].
  intros la' Hl. by rewrite He.
Qed.

(** A page of [np] that holds user data: in use, not part of the page tables. *)
Record data_page (bs : list block) (m : machine) (dir p : Z) : Prop := {
  dp_range : 0 <= p < npage m;
  dp_used : ~ covers bs p;
  dp_dir : p <> dir;
  dp_pt : forall la f, user la -> pt_of m dir la = Some f -> f <> p;
  dp_res : exists pg, pages (pm m) !! p = Some pg /\ PageReserved pg = false
}.

Lemma ref_upd bs m dir p g :
  tlb_ready bs m dir -> data_page bs m dir p ->
  exists m' pg, pages (pm m) !! p = Some pg /\ upd_ref p g m = Ok m' /\ tlb_ready bs m' dir /\
    pages (pm m') !! p = Some (set_ref (g (ref pg)) pg) /\
    (forall j, j <> p -> pages (pm m') !! j = pages (pm m) !! j) /\
    mem m' = mem m /\ npage m' = npage m /\ cur_pgdir m' = cur_pgdir m /\ the_tlb m' = the_tlb m /\
    page_link (pm m') = page_link (pm m) /\ nr_free (pm m') = nr_free (pm m).
Proof.
  intros [Hwf Hcoh] Hdp. destruct (dp_res _ _ _ _ Hdp) as (pg & Hpg & Hres).
  destruct (pmm_inv_set_ref _ _ _ _ _ g (wf_pmm _ _ _ Hwf) (dp_used _ _ _ _ Hdp) Hpg)
    as (pm' & E & Hinv & Hp & Hfr).
  unfold upd_ref. rewrite E. cbn [rbind]. do 2 eexists. split; [done|]. split; [done|].
  rewrite (upd_page_Ok _ _ _ _ Hpg) in E. injection E as <-.
  split; [|done]. split; [|done]. destruct Hwf. by split.
Qed.

Lemma tlb_invalidate_other dir la m : cur_pgdir m <> Some dir -> tlb_invalidate dir la m = Ok m.
Proof. intros Hc. unfold tlb_invalidate. by rewrite bool_decide_false. Qed.

(** Giving a page back keeps the tables intact. *)
Lemma free_page_ready bs m dir p :
  tlb_ready bs m dir -> data_page bs m dir p ->
  exists m' bs', free_page p m = Ok m' /\ tlb_ready bs' m' dir /\
    (forall i, covers bs' i <-> covers bs i \/ i = p) /\
    (forall i, ~ covers bs' i -> pages (pm m') !! i = pages (pm m) !! i) /\
    nr_free (pm m') = nr_free (pm m) + 1 /\
    mem m' = mem m /\ npage m' = npage m /\ cur_pgdir m' = cur_pgdir m /\ the_tlb m' = the_tlb m.
Proof.
  intros [Hwf Hcoh] [Hr Hu Hd Hpt (pg & Hpg & Hres)]. pose proof (wf_pmm _ _ _ Hwf) as Hinv.
  destruct (free_pages_refines (npage m) (pm m) bs p 1) as (bs' & st' & Er & E & Hinv' & Hfr); [done|lia|lia|lia| |].
  { intros i Hi. assert (i = p) as -> by lia. eauto. }
  destruct (release_spec (-1) p 1 bs) as (bs2 & Er' & _ & Ht & Hcov);
    [lia|lia|by apply (inv_canon _ _ _ Hinv)|intros i Hi Hr'; assert (i = p) as -> by lia; done|].
  rewrite Er in Er'. injection Er' as <-.
  unfold free_page, free_pages. rewrite E. cbn [rbind].
  assert (Hcov' : forall i, covers bs' i <-> covers bs i \/ i = p).
  { intros i. rewrite Hcov. intuition lia. }
  do 2 eexists. split; [done|]. split.
  - split; [|done]. split; try done; try (by destruct Hwf).
    + destruct (wf_dir _ _ _ Hwf). split; [done|]. rewrite Hcov'. naive_solver.
    + intros la f Hla Hf. destruct (wf_pde _ _ _ Hwf la f Hla Hf) as (? & ? & ?).
      split; [done|]. split; [|done]. rewrite Hcov'. pose proof (Hpt la f Hla Hf). naive_solver.
  - split_and!; try done. simpl. rewrite (inv_nr _ _ _ Hinv), (inv_nr _ _ _ Hinv'). done.
Qed.

(** ** [page_remove_pte] and [page_remove] *)

Lemma pte2page_Ok bs m dir la :
  pt_wf bs m dir -> user la -> present (entry m dir la) = true ->
  0 <= PPN (entry m dir la) < npage m -> pte2page (entry m dir la) m = Ok (PPN (entry m dir la)).
Proof.
  intros Hwf Hla Hp Hr. unfold pte2page. unfold present in Hp.
  destruct (Z.land (entry m dir la) PTE_P =? 0); [done|].
  pose proof (PPN_addr _ (entry_u32 bs m dir la Hwf)) as Ha.
  change (Z.land (entry m dir la) 4294963200) with (PTE_ADDR (entry m dir la)) in Ha.
  by rewrite pa2page_Ok; rewrite Ha.
Qed.

Lemma present_pos e : present e = true -> (0 <? Z.land e PTE_P) = true.
Proof.
  unfold present. intros H. apply negb_true_iff, Z.eqb_neq in H. apply Z.ltb_lt.
  assert (0 <= Z.land e PTE_P) by (apply Z.land_nonneg; right; unfold PTE_P; lia). lia.
Qed.

Lemma present_table m dir la : present (entry m dir la) = true -> exists f, pt_of m dir la = Some f.
Proof. unfold entry. destruct (pt_of m dir la); [eauto|by intros]. Qed.

(** What removing the mapping of [la] to page [p] leaves. *)
Record removed (bs bs' : list block) (m m' : machine) (dir la p r : Z) : Prop := {
  rm_ready : tlb_ready bs' m' dir;
  rm_entry : forall la', user la' -> entry m' dir la' = upd_ent la 0 (entry m dir) la';
  rm_pt : forall la', pt_of m' dir la' = pt_of m dir la';
  rm_cov : forall i, covers bs' i <-> covers bs i \/ (s32 (r - 1) = 0 /\ i = p);
  rm_ref : s32 (r - 1) <> 0 -> exists pg, pages (pm m') !! p = Some pg /\ ref pg = s32 (r - 1);
  rm_pages : forall i, i <> p -> ~ covers bs' i -> pages (pm m') !! i = pages (pm m) !! i;
  rm_nr : nr_free (pm m') = nr_free (pm m) + (if s32 (r - 1) =? 0 then 1 else 0);
  rm_mem : forall q j, (forall f, pt_of m dir la = Some f -> q <> f) -> mem m' q j = mem m q j;
  rm_rest : npage m' = npage m /\ cur_pgdir m' = cur_pgdir m
}.

Lemma page_remove_pte_Ok bs m dir la f p pg :
  tlb_ready bs m dir -> user la -> pt_of m dir la = Some f -> present (entry m dir la) = true ->
  PPN (entry m dir la) = p -> data_page bs m dir p -> pages (pm m) !! p = Some pg ->
  exists m' bs', page_remove_pte dir la (f, PTX la) m = Ok m' /\ removed bs bs' m m' dir la p (ref pg).
Proof.
  intros Hrdy Hla Hf Hpres Hp Hdp Hpg. pose proof Hrdy as [Hwf _].
  unfold page_remove_pte. rewrite (load_pte_entry _ _ _ _ Hf), (present_pos _ Hpres).
  rewrite (pte2page_Ok bs) by (done || rewrite Hp; apply Hdp). rewrite Hp. cbn [rbind].
  destruct (ref_upd bs m dir p (fun r => s32 (r - 1)) Hrdy Hdp)
    as (m1 & pg' & Hpg' & E1 & Hrdy1 & Hpg1 & Hfr1 & Hmem1 & Hnp1 & Hcur1 & Htlb1 & Hl1 & Hnr1).
  rewrite Hpg in Hpg'. injection Hpg' as <-.
  unfold page_ref_dec. rewrite E1. cbn [rbind]. unfold page_ref. rewrite (page_at_Ok _ _ _ Hpg1). cbn [rbind ref set_ref].
  assert (Hent1 : forall la', entry m1 dir la' = entry m dir la') by (intros; unfold entry, pt_of; by rewrite Hmem1).
  assert (Hpt1 : forall la', pt_of m1 dir la' = pt_of m dir la') by (intros; unfold pt_of; by rewrite Hmem1).
  assert (Hdp1 : data_page bs m1 dir p).
  { destruct Hdp as [? ? ? Hpt (pg2 & Hpg2 & Hres)]. split; [congruence|done|done|..].
    - intros la' f'. rewrite Hpt1. apply Hpt.
    - eexists. split; [done|]. rewrite Hpg in Hpg2. by injection Hpg2 as <-. }
  assert (Hstep : exists m2 bs', (if s32 (ref pg - 1) =? 0 then free_page p m1 else Ok m1) = Ok m2 /\
    tlb_ready bs' m2 dir /\ (forall i, covers bs' i <-> covers bs i \/ (s32 (ref pg - 1) = 0 /\ i = p)) /\
    (forall i, ~ covers bs' i -> pages (pm m2) !! i = pages (pm m1) !! i) /\
    nr_free (pm m2) = nr_free (pm m) + (if s32 (ref pg - 1) =? 0 then 1 else 0) /\
    mem m2 = mem m /\ npage m2 = npage m /\ cur_pgdir m2 = cur_pgdir m).
  { destruct (Z.eqb_spec (s32 (ref pg - 1)) 0) as [H0|H0].
    - destruct (free_page_ready bs m1 dir p Hrdy1 Hdp1) as (m2 & bs' & E & Hr2 & Hc2 & Hp2 & Hn2 & Hm2 & Hnp2 & Hcu2 & _).
      exists m2, bs'. split_and!; try done; try congruence.
      intros i. rewrite Hc2. intuition.
    - exists m1, bs. split_and!; try done; try congruence; try (intros; tauto). rewrite Hnr1. lia. }
  destruct Hstep as (m2 & bs' & -> & Hrdy2 & Hcov2 & Hpg2 & Hnr2 & Hmem2 & Hnp2 & Hcur2). cbn [rbind].
  assert (Hpt2 : forall la', pt_of m2 dir la' = pt_of m dir la') by (intros; unfold pt_of; by rewrite Hmem2).
  destruct (tlb_invalidate_ready bs' m2 dir la Hrdy2 Hla)
    as (m3 & -> & Hrdy3 & Hpm3 & Hnp3 & Hcur3 & Hpt3 & He3 & Hno3 & Hmem3). cbn [rbind].
  assert (Hf3 : pt_of m3 dir la = Some f) by by rewrite Hpt3, Hpt2.
  destruct (store_ready bs' m3 dir la f 0 Hrdy3 Hla Hf3) as [Hrdy4 He4];
    [unfold is_u32, two32; lia|done|rewrite Hcur3; exact Hno3|].
  do 2 eexists. split; [done|]. split.
  - done.
  - intros la' Hl. rewrite He4 by done. unfold upd_ent. case_decide; [done|]. rewrite He3 by done.
    unfold entry, pt_of. by rewrite Hmem2.
  - intros la'. rewrite (store_pte_pt_of bs') by (done || apply Hrdy3). by rewrite Hpt3, Hpt2.
  - done.
  - intros Hr. cbn [pm store_pte set_mem]. rewrite Hpm3. rewrite Hpg2, Hpg1.
    + eexists. split; [done|]. done.
    + rewrite Hcov2. pose proof (dp_used _ _ _ _ Hdp). tauto.
  - intros i Hi Hni. cbn [pm store_pte set_mem]. rewrite Hpm3, Hpg2 by done. by apply Hfr1.
  - cbn [pm store_pte set_mem]. by rewrite Hpm3.
  - intros q j Hq. unfold store_pte. cbn [mem set_mem fst snd]. rewrite write_mem_ne by (left; by apply Hq).
    rewrite Hmem3; [by rewrite Hmem2|]. intros f'. rewrite Hpt2. apply Hq.
  - cbn [npage cur_pgdir store_pte set_mem]. split; congruence.
Qed.

(** ** User address spaces *)

(** Every mapped page is a distinct page in use with exactly one reference. *)
Record space_ok (bs : list block) (m : machine) (dir : Z) : Prop := {
  sp_ready : tlb_ready bs m dir;
  sp_page : forall la, user la -> present (entry m dir la) = true ->
    data_page bs m dir (PPN (entry m dir la)) /\
    exists pg, pages (pm m) !! PPN (entry m dir la) = Some pg /\ ref pg = 1;
  sp_inj : forall la la', user la -> user la' -> present (entry m dir la) = true ->
    present (entry m dir la') = true -> PPN (entry m dir la) = PPN (entry m dir la') ->
    la / 4096 = la' / 4096
}.

Lemma present_0 : present 0 = false.
Proof. done. Qed.

(** Removing one mapping frees its page and keeps the rest. *)
Lemma page_remove_pte_space bs m dir la f :
  space_ok bs m dir -> user la -> pt_of m dir la = Some f -> present (entry m dir la) = true ->
  exists m' bs', page_remove_pte dir la (f, PTX la) m = Ok m' /\ space_ok bs' m' dir /\
    (forall la', user la' -> entry m' dir la' = upd_ent la 0 (entry m dir) la') /\
    (forall la', pt_of m' dir la' = pt_of m dir la') /\
    (forall i, covers bs' i <-> covers bs i \/ i = PPN (entry m dir la)) /\
    nr_free (pm m') = nr_free (pm m) + 1 /\ npage m' = npage m /\ cur_pgdir m' = cur_pgdir m.
Proof.
  intros [Hrdy Hpg Hinj] Hla Hf Hpres. destruct (Hpg la Hla Hpres) as [Hdp (pg & Hp & Hr)].
  destruct (page_remove_pte_Ok bs m dir la f _ pg Hrdy Hla Hf Hpres eq_refl Hdp Hp)
    as (m' & bs' & E & [Hrdy' He Hpt Hcov _ Hpgs Hnr _ [Hnp Hcur]]).
  rewrite Hr in *. change (s32 (1 - 1)) with 0 in *. simpl in Hnr.
  assert (Hcov' : forall i, covers bs' i <-> covers bs i \/ i = PPN (entry m dir la)).
  { intros i. rewrite Hcov. tauto. }
  exists m', bs'. split; [done|]. split; [|done].
  assert (Hother : forall la', user la' -> present (entry m' dir la') = true ->
    la / 4096 <> la' / 4096 /\ entry m' dir la' = entry m dir la').
  { intros la' Hl. rewrite He by done. unfold upd_ent. case_decide; [by rewrite present_0|done]. }
  split; [done|..].
  - intros la' Hl Hp'. destruct (Hother la' Hl Hp') as [Hne Heq]. rewrite Heq in *.
    destruct (Hpg la' Hl Hp') as [Hdp' (pg' & Hpg' & Hr')].
    assert (Hpne : PPN (entry m dir la') <> PPN (entry m dir la)).
    { intros Hq. apply Hne. symmetry. by apply Hinj. }
    assert (Hnc : ~ covers bs' (PPN (entry m dir la'))).
    { rewrite Hcov'. pose proof (dp_used _ _ _ _ Hdp'). tauto. }
    split.
    + destruct Hdp' as [? ? ? Hpt' (pg2 & Hpg2 & Hres)]. split; [congruence|done|done|..].
      * intros l2 f2. rewrite Hpt. apply Hpt'.
      * exists pg2. by rewrite Hpgs.
    + exists pg'. by rewrite Hpgs.
  - intros l1 l2 Hl1 Hl2 Hp1 Hp2. destruct (Hother l1 Hl1 Hp1) as [_ He1], (Hother l2 Hl2 Hp2) as [_ He2].
    rewrite He1, He2 in *. by apply Hinj.
Qed.

Lemma page_remove_space bs m dir la :
  space_ok bs m dir -> user la -> present (entry m dir la) = true ->
  exists m' bs', page_remove dir la m = Ok m' /\ space_ok bs' m' dir /\
    (forall la', user la' -> entry m' dir la' = upd_ent la 0 (entry m dir) la') /\
    (forall i, covers bs' i <-> covers bs i \/ i = PPN (entry m dir la)) /\
    nr_free (pm m') = nr_free (pm m) + 1.
Proof.
  intros Hsp Hla Hpres. destruct (present_table _ _ _ Hpres) as [f Hf].
  destruct (page_remove_pte_space bs m dir la f Hsp Hla Hf Hpres) as (m' & bs' & E & ? & ? & _ & ? & ? & _).
  exists m', bs'. unfold page_remove. rewrite (get_pte_lookup bs) by (done || apply Hsp).
  rewrite Hf. done.
Qed.

(** *** [unmap_range] *)

(** Mapped pages among the [n] pages from page number [a]. *)
Fixpoint mapped (n : nat) (m : machine) (dir a : Z) : Z :=
  match n with
  | O => 0
  | S n => (if present (entry m dir (a * 4096)) then 1 else 0) + mapped n m dir (a + 1)
  end.

Lemma mapped_split m dir n1 n2 a :
  mapped (n1 + n2) m dir a = mapped n1 m dir a + mapped n2 m dir (a + Z.of_nat n1).
Proof.
  revert a. induction n1 as [|n1 IH]; intros a; simpl; [by rewrite Z.add_0_r|].
  rewrite IH. replace (a + 1 + Z.of_nat n1) with (a + Z.of_nat (S n1)) by lia. lia.
Qed.

Lemma mapped_ext m m' dir n a :
  (forall v, a <= v < a + Z.of_nat n -> present (entry m' dir (v * 4096)) = present (entry m dir (v * 4096))) ->
  mapped n m' dir a = mapped n m dir a.
Proof.
  revert a. induction n as [|n IH]; intros a H; simpl; [done|].
  rewrite (H a) by lia. rewrite IH; [done|]. intros v Hv. apply H. lia.
Qed.

Lemma mapped_0 m dir n a :
  (forall v, a <= v < a + Z.of_nat n -> present (entry m dir (v * 4096)) = false) -> mapped n m dir a = 0.
Proof.
  revert a. induction n as [|n IH]; intros a H; simpl; [done|].
  rewrite (H a) by lia. rewrite IH; [done|]. intros v Hv. apply H. lia.
Qed.

(** What unmapping the pages [a .. b) leaves. *)
Record unmapped (bs bs' : list block) (m m' : machine) (dir a b : Z) : Prop := {
  um_space : space_ok bs' m' dir;
  um_in : forall la, user la -> a <= la / 4096 < b -> present (entry m' dir la) = false;
  um_out : forall la, user la -> ~ a <= la / 4096 < b -> entry m' dir la = entry m dir la;
  um_nr : nr_free (pm m') = nr_free (pm m) + mapped (Z.to_nat (b - a)) m dir a;
  um_cov : forall i, covers bs' i <-> covers bs i \/
    exists la, user la /\ a <= la / 4096 < b /\ present (entry m dir la) = true /\ i = PPN (entry m dir la)
}.

Lemma unmapped_trans bs bs1 bs2 m m1 m2 dir a b c :
  0 <= a <= b -> b <= c -> c * 4096 <= KERNBASE ->
  unmapped bs bs1 m m1 dir a b -> unmapped bs1 bs2 m1 m2 dir b c -> unmapped bs bs2 m m2 dir a c.
Proof.
  intros Hab Hbc Hc [S1 I1 O1 N1 C1] [S2 I2 O2 N2 C2]. split; [done|..].
  - intros la Hl Hr. destruct (decide (b <= la / 4096)) as [?|?]; [apply I2; [done|lia]|].
    rewrite O2 by (done || lia). apply I1; [done|lia].
  - intros la Hl Hr. rewrite O2, O1; [done|done|lia|done|lia].
  - rewrite N2, N1.
    replace (Z.to_nat (c - a)) with (Z.to_nat (b - a) + Z.to_nat (c - b))%nat by lia.
    rewrite mapped_split. replace (a + Z.of_nat (Z.to_nat (b - a))) with b by lia.
    rewrite (mapped_ext m m1); [lia|]. intros v Hv. f_equal. apply O1.
    + unfold user. lia.
    + rewrite Z.div_mul by lia. lia.
  - intros i. rewrite C2, C1. split.
    + intros [[?|(la & ? & ? & ? & ?)]|(la & Hl & Hr & Hp & ->)].
      * by left.
      * right. exists la. split_and!; try done; lia.
      * right. exists la. rewrite O1 in * by (done || lia). split_and!; try done; lia.
    + intros [?|(la & Hl & Hr & Hp & ->)]; [by left; left|].
      destruct (decide (b <= la / 4096)) as [?|?].
      * right. exists la. rewrite O1 by (done || lia). split_and!; try done; lia.
      * left. right. exists la. split_and!; try done; lia.
Qed.

(** Nothing mapped, nothing to do. *)
Lemma unmapped_skip bs m dir a b :
  space_ok bs m dir -> 0 <= a -> b * 4096 <= KERNBASE ->
  (forall la, user la -> a <= la / 4096 < b -> present (entry m dir la) = false) ->
  unmapped bs bs m m dir a b.
Proof.
  intros Hs Ha Hb Hno. split; try done.
  - rewrite mapped_0; [lia|]. intros v Hv. apply Hno; [unfold user; lia|]. rewrite Z.div_mul by lia. lia.
  - intros i. split; [by left|]. intros [?|(la & Hl & Hr & Hp & _)]; [done|]. rewrite Hno in Hp by done. done.
Qed.

(** One page. *)
Lemma unmapped_one bs m dir la f :
  space_ok bs m dir -> user la -> la mod 4096 = 0 -> pt_of m dir la = Some f ->
  exists m' bs', (if negb (load_pte (f, PTX la) m =? 0) then page_remove_pte dir la (f, PTX la) m else Ok m) = Ok m' /\
    unmapped bs bs' m m' dir (la / 4096) (la / 4096 + 1).
Proof.
  intros Hs Hla Hal Hf. rewrite (load_pte_entry _ _ _ _ Hf).
  assert (Hb : (la / 4096 + 1) * 4096 <= KERNBASE).
  { unfold user, KERNBASE in *. pose proof (Z.div_mod la 4096 ltac:(lia)). lia. }
  assert (Ha : 0 <= la / 4096) by (destruct Hla; apply Z.div_pos; lia).
  destruct (present (entry m dir la)) eqn:Hp.
  - destruct (page_remove_pte_space bs m dir la f Hs Hla Hf Hp)
      as (m' & bs' & E & Hs' & He & _ & Hcov & Hnr & _).
    exists m', bs'. destruct (Z.eqb_spec (entry m dir la) 0) as [H0|_]; [by rewrite H0 in Hp|].
    split; [done|]. split; [done|..].
    + intros la' Hl Hr. rewrite He, upd_ent_eq by (done || lia). done.
    + intros la' Hl Hr. rewrite He, upd_ent_ne by (done || lia). done.
    + replace (Z.to_nat (la / 4096 + 1 - la / 4096)) with 1%nat by lia. simpl.
      rewrite (entry_same_page m dir (la / 4096 * 4096) la), Hp, Hnr; [lia|..|done|].
      * unfold user, KERNBASE in *. lia.
      * by rewrite Z.div_mul by lia.
    + intros i. rewrite Hcov. split; [intros [?| ->]|intros [?|(la' & Hl & Hr & Hp' & ->)]]; [by left|right|by left|right].
      * exists la. split_and!; try done; lia.
      * rewrite (entry_same_page m dir la' la); [done|done|done|lia].
  - assert (Hskip : unmapped bs bs m m dir (la / 4096) (la / 4096 + 1)).
    { apply unmapped_skip; [done..|]. intros la' Hl Hr.
      rewrite (entry_same_page m dir la' la); [done|done|done|lia]. }
    exists m, bs. split; [|done]. destruct (Z.eqb_spec (entry m dir la) 0); [done|]. simpl.
    unfold page_remove_pte. rewrite (load_pte_entry _ _ _ _ Hf).
    unfold present in Hp. apply negb_false_iff, Z.eqb_eq in Hp. by rewrite Hp.
Qed.

Lemma ROUNDDOWN_next start : user start ->
  ROUNDDOWN (u32 (start + PTSIZE)) PTSIZE = (start / 4194304 + 1) * 4194304.
Proof.
  intros Hs. unfold user, KERNBASE in Hs. change PTSIZE with 4194304.
  rewrite (u32_id (start + 4194304)) by (unfold is_u32, two32; lia).
  destruct (ROUNDDOWN_spec (start + 4194304) 4194304) as [-> _]; [unfold is_u32, two32; lia|lia|].
  replace (start + 4194304) with (start + 1 * 4194304) by lia. rewrite Z.div_add by lia. lia.
Qed.

Lemma unmap_loop_Ok bs m dir start end_ fuel :
  space_ok bs m dir -> start mod 4096 = 0 -> end_ mod 4096 = 0 -> 0 <= start < end_ -> end_ <= KERNBASE ->
  ((end_ - start) / 4096 < Z.of_nat fuel) ->
  exists m' bs', unmap_loop fuel dir start end_ m = Ok m' /\
    unmapped bs bs' m m' dir (start / 4096) (end_ / 4096).
Proof.
  revert bs m start. induction fuel as [|fuel IH]; intros bs m start Hs Hsa Hea Hse Hek Hf.
  { assert (0 <= (end_ - start) / 4096) by (apply Z.div_pos; lia). lia. }
  assert (Hus : user start) by (unfold user; lia).
  assert (Hsd : start = start / 4096 * 4096) by (pose proof (Z.div_mod start 4096); lia).
  assert (Hed : end_ = end_ / 4096 * 4096) by (pose proof (Z.div_mod end_ 4096); lia).
  assert (Hkb : end_ / 4096 * 4096 <= KERNBASE) by lia.
  simpl. rewrite (get_pte_lookup bs) by (done || apply Hs). cbn [rbind].
  destruct (pt_of m dir start) as [f|] eqn:Hpt; cbn [fmap option_fmap option_map].
  - destruct (unmapped_one bs m dir start f Hs Hus Hsa Hpt) as (m1 & bs1 & E & Hu1).
    rewrite E. cbn [rbind]. change PGSIZE with 4096.
    rewrite (u32_id (start + 4096)) by (unfold is_u32, two32, KERNBASE in *; lia).
    destruct (Z.eqb_spec (start + 4096) 0); [lia|]. cbn [negb andb].
    assert (Hq : (start + 4096) / 4096 = start / 4096 + 1).
    { replace (start + 4096) with (start + 1 * 4096) by lia. by rewrite Z.div_add by lia. }
    destruct (Z.ltb_spec (start + 4096) end_) as [Hlt|Hge].
    + destruct (IH bs1 m1 (start + 4096)) as (m2 & bs2 & E2 & Hu2); [apply Hu1| |done|lia|done| |].
      * rewrite Hsd. replace (start / 4096 * 4096 + 4096) with ((start / 4096 + 1) * 4096) by lia. apply Z.mod_mul. lia.
      * replace (end_ - (start + 4096)) with (end_ - start + (-1) * 4096) by lia.
        rewrite Z.div_add by lia. lia.
      * exists m2, bs2. split; [done|]. rewrite Hq in Hu2.
        eapply unmapped_trans; [| |done|exact Hu1|exact Hu2]; lia.
    + exists m1, bs1. split; [done|]. replace (end_ / 4096) with (start / 4096 + 1) by lia. done.
  - rewrite ROUNDDOWN_next by done. cbn [rbind]. set (nx := (start / 4194304 + 1) * 4194304).
    assert (Hnx : start < nx <= start + 4194304 /\ nx mod 4096 = 0).
    { unfold nx. pose proof (Z.div_mod start 4194304). pose proof (Z.mod_pos_bound start 4194304).
      split; [lia|]. replace ((start / 4194304 + 1) * 4194304) with ((start / 4194304 + 1) * 1024 * 4096) by lia.
      apply Z.mod_mul. lia. }
    destruct Hnx as [Hnx1 Hnx2].
    assert (Hskip : forall b, start / 4096 <= b -> b * 4096 <= nx -> b * 4096 <= KERNBASE ->
      unmapped bs bs m m dir (start / 4096) b).
    { intros b Hb1 Hb2 Hb3. apply unmapped_skip; [done|lia|done|]. intros la Hl Hr.
      rewrite entry_no_table; [done|]. unfold pt_of in *.
      replace (PDX la) with (PDX start); [done|]. rewrite !PDX_div. f_equal.
      assert (Hr' : start <= la < nx) by (Z.to_euclidean_division_equations; lia).
      unfold nx in Hr'. clear -Hr'. Z.to_euclidean_division_equations. lia. }
    destruct (Z.eqb_spec nx 0); [lia|]. cbn [negb andb].
    destruct (Z.ltb_spec nx end_) as [Hlt|Hge].
    + destruct (IH bs m nx) as (m2 & bs2 & E2 & Hu2); [done|done|done|lia|done| |].
      * apply Z.lt_le_trans with ((end_ - start) / 4096); [|lia].
        clear -Hnx1 Hnx2 Hsa. Z.to_euclidean_division_equations. lia.
      * exists m2, bs2. split; [done|].
        assert (Hnq : nx = nx / 4096 * 4096) by (pose proof (Z.div_mod nx 4096); lia).
        eapply unmapped_trans; [| |done|apply (Hskip (nx / 4096)); lia|exact Hu2]; lia.
    + exists m, bs. split; [done|]. apply Hskip; lia.
Qed.

(** ** Mapping a fresh page *)

Lemma space_frame bs bs' m m' dir :
  space_ok bs m dir -> tlb_ready bs' m' dir -> npage m' = npage m ->
  (forall la, user la -> entry m' dir la = entry m dir la) ->
  (forall i, covers bs' i -> covers bs i) ->
  (forall la f, user la -> pt_of m' dir la = Some f -> pt_of m dir la = Some f \/ covers bs f) ->
  (forall i, ~ covers bs i -> pages (pm m') !! i = pages (pm m) !! i) ->
  space_ok bs' m' dir.
Proof.
  intros [Hr Hpg Hinj] Hr' Hnp He Hcov Hpt Hpgs. split; [done|..].
  - intros la Hl. rewrite He by done. intros Hp.
    destruct (Hpg la Hl Hp) as [[? Hu ? Hptp (pg & Hpg2 & Hres)] (pg' & ? & ?)].
    split; [|exists pg'; by rewrite Hpgs].
    split; [congruence|naive_solver|done|..].
    + intros l2 f Hl2 Hf. destruct (Hpt l2 f Hl2 Hf) as [Hf'|Hf']; [by eapply Hptp|]. intros ->. done.
    + exists pg. by rewrite Hpgs.
  - intros l1 l2 H1 H2. rewrite !He by done. by apply Hinj.
Qed.

(** Entries written by the kernel from a page number and permission bits. *)
Lemma pte_make_no_tlb p perm : 0 <= p < 1048576 -> 0 <= perm < 128 -> has_tlb (pte_make p perm) = false.
Proof.
  intros Hp Hk. rewrite has_tlb_bit. unfold pte_make. rewrite !Z.lor_spec.
  assert (H1 : Z.testbit (page2pa p) 7 = false).
  { rewrite page2pa_mul by done. replace (p * 4096) with (p * 2 ^ 12) by lia. by rewrite Z.mul_pow2_bits_low. }
  assert (H2 : Z.testbit perm 7 = false).
  { destruct (Z.eq_dec perm 0) as [->|]; [done|]. apply Z.bits_above_log2; [lia|].
    apply Z.log2_lt_pow2; lia. }
  by rewrite H1, H2.
Qed.

(** From [m] to [m'] pages may have been taken from the free ones, for page
    tables of [dir] or to be mapped; the words of every page that was in use
    and is not a page of the tables are as before. *)
Record kept_space (bs : list block) (m : machine) (bs' : list block) (m' : machine) (dir : Z) : Prop := {
  ks_rest : npage m' = npage m /\ cur_pgdir m' = cur_pgdir m;
  ks_tlb : cur_pgdir m <> Some dir -> the_tlb m' = the_tlb m;
  ks_free : forall i, covers bs' i -> covers bs i;
  ks_pt : forall la f, user la -> pt_of m' dir la = Some f -> pt_of m dir la = Some f \/ covers bs f;
  ks_mem : forall q j, q <> dir -> ~ covers bs q -> (forall la f, user la -> pt_of m dir la = Some f -> f <> q) -> mem m' q j = mem m q j
}.

Lemma kept_space_refl bs m dir : kept_space bs m bs m dir.
Proof. split; naive_solver. Qed.

Lemma kept_space_trans bs m bs1 m1 bs2 m2 dir : kept_space bs m bs1 m1 dir -> kept_space bs1 m1 bs2 m2 dir -> kept_space bs m bs2 m2 dir.
Proof.
  intros [[R1 R2] T1 F1 P1 M1] [[R3 R4] T2 F2 P2 M2]. split; [split; congruence|intros Hc; rewrite T2, T1 by congruence; done|auto| |].
  - intros la f Hl Hf. destruct (P2 la f Hl Hf) as [Hf'|Hf']; [by apply P1|right; auto].
  - intros q j Hq Hu Hno. rewrite M2; [by apply M1|done|auto|]. intros la f Hl Hf ->.
    destruct (P1 la q Hl Hf) as [Hf'|Hf']; [by apply (Hno la q)|done].
Qed.

(** Writing the entry of a page no mapping uses yet. *)
Lemma insert_store bs m dir la f p perm pg :
  space_ok bs m dir -> user la -> pt_of m dir la = Some f -> present (entry m dir la) = false ->
  data_page bs m dir p -> pages (pm m) !! p = Some pg -> ref pg = 0 ->
  (forall la', user la' -> present (entry m dir la') = true -> PPN (entry m dir la') <> p) ->
  0 <= perm < 128 ->
  exists m', (let! m := page_ref_inc p m in
              let! m := tlb_invalidate dir la m in
              Ok (store_pte (f, PTX la) (Z.lor (Z.lor (page2pa p) PTE_P) perm) m)) = Ok m' /\
    space_ok bs m' dir /\ npage m' = npage m /\ cur_pgdir m' = cur_pgdir m /\
    (forall la', user la' -> entry m' dir la' = upd_ent la (pte_make p perm) (entry m dir) la') /\
    (forall la', pt_of m' dir la' = pt_of m dir la') /\ (forall q j, q <> f -> mem m' q j = mem m q j) /\
    (cur_pgdir m <> Some dir -> the_tlb m' = the_tlb m) /\ (forall i, i <> p -> pages (pm m') !! i = pages (pm m) !! i).
Proof.
  intros [Hrdy Hpgs Hinj] Hla Hf Hnp Hdp Hpg Hr0 Hnew Hperm.
  assert (Hp20 : 0 <= p < 1048576).
  { pose proof (dp_range _ _ _ _ Hdp). pose proof (wf_np _ _ _ (proj1 Hrdy)). lia. }
  destruct (ref_upd bs m dir p (fun r => s32 (r + 1)) Hrdy Hdp)
    as (m1 & pg' & Hpg' & E1 & Hrdy1 & Hpg1 & Hfr1 & Hmem1 & Hnp1 & Hcur1 & Htlb1 & _).
  rewrite Hpg in Hpg'. injection Hpg' as <-. rewrite Hr0 in Hpg1.
  unfold page_ref_inc. rewrite E1. cbn [rbind].
  pose proof (tlb_invalidate_other dir la m1) as Hother.
  destruct (tlb_invalidate_ready bs m1 dir la Hrdy1 Hla)
    as (m2 & Einv & Hrdy2 & Hpm2 & Hnp2 & Hcur2 & Hpt2 & He2 & Hno2 & Hmem2). rewrite Einv. cbn [rbind].
  assert (Hpt : forall la', pt_of m2 dir la' = pt_of m dir la').
  { intros la'. rewrite Hpt2. unfold pt_of. by rewrite Hmem1. }
  destruct (pte_make_spec p perm Hp20 ltac:(lia)) as (Hv32 & HvP & Hvp).
  destruct (store_ready bs m2 dir la f (pte_make p perm) Hrdy2 Hla) as [Hrdy3 He3];
    [by rewrite Hpt|done|by apply pte_make_no_tlb|rewrite Hcur2; exact Hno2|].
  assert (Hent : forall la', user la' -> entry (store_pte (f, PTX la) (pte_make p perm) m2) dir la' =
    upd_ent la (pte_make p perm) (entry m dir) la').
  { intros la' Hl. rewrite He3 by done. unfold upd_ent. case_decide; [done|]. rewrite He2 by done.
    unfold entry, pt_of. by rewrite Hmem1. }
  eexists. split; [done|]. split; [|split; [cbn; congruence|split; [cbn; congruence|split; [exact Hent|split; [|split; [|split]]]]]].
  2: { intros la'. rewrite (store_pte_pt_of bs) by (done || apply Hrdy2 || by rewrite Hpt). apply Hpt. }
  2: { intros q j Hq. cbn [mem store_pte set_mem fst snd]. rewrite write_mem_ne by (by left). rewrite Hmem2, Hmem1; [done|].
       intros f'. unfold pt_of. rewrite Hmem1. fold (pt_of m dir la). rewrite Hf. by intros [= <-]. }
  2: { intros Hc. rewrite <- Hcur1 in Hc. rewrite Hother in Einv by done. injection Einv as <-. done. }
  2: { intros i Hi. cbn [pm store_pte set_mem]. rewrite Hpm2. by apply Hfr1. }
  split; [done|..].
  - intros la' Hl. fold (pte_make p perm). rewrite Hent by done. unfold upd_ent. case_decide as Hd; intros Hp'.
    + rewrite HvP. split; [|cbn [pm store_pte set_mem]; rewrite Hpm2, Hpg1; eexists; split; done].
      destruct Hdp as [? ? ? Hptp (pg2 & Hpg2 & Hres)]. split; [cbn; congruence|done|done|..].
      * intros l2 f2 Hl2. rewrite (store_pte_pt_of bs) by (done || apply Hrdy2 || by rewrite Hpt).
        rewrite Hpt. by apply Hptp.
      * cbn [pm store_pte set_mem]. rewrite Hpm2, Hpg1. rewrite Hpg in Hpg2. injection Hpg2 as <-. eauto.
    + destruct (Hpgs la' Hl Hp') as [[? ? ? Hptp (pg2 & Hpg2 & Hres)] (pg3 & Hpg3 & Hr3)].
      pose proof (Hnew la' Hl Hp') as Hne.
      split; [|exists pg3; cbn [pm store_pte set_mem]; by rewrite Hpm2, Hfr1].
      split; [cbn; congruence|done|done|..].
      * intros l2 f2 Hl2. rewrite (store_pte_pt_of bs) by (done || apply Hrdy2 || by rewrite Hpt).
        rewrite Hpt. by apply Hptp.
      * exists pg2. cbn [pm store_pte set_mem]. by rewrite Hpm2, Hfr1.
  - intros l1 l2 H1 H2. fold (pte_make p perm). rewrite !Hent by done. unfold upd_ent.
    repeat case_decide; intros Hp1 Hp2 Heq; try lia.
    + rewrite HvP in Heq. by destruct (Hnew l2 H2 Hp2).
    + rewrite HvP in Heq. by destruct (Hnew l1 H1 Hp1).
    + by apply Hinj.
Qed.

(** A page just taken from the allocator, for the space [dir]. *)
Lemma alloc_page_space bs m dir p bs1 :
  space_ok bs m dir -> carve 1 bs = Some (p, bs1) ->
  exists m1 pg, alloc_page m = Ok (Some p, m1) /\ space_ok bs1 m1 dir /\ data_page bs1 m1 dir p /\
    pages (pm m1) !! p = Some pg /\ ref pg = 0 /\
    (forall la, user la -> entry m1 dir la = entry m dir la) /\
    (forall la, pt_of m1 dir la = pt_of m dir la) /\
    (forall la, user la -> present (entry m1 dir la) = true -> PPN (entry m1 dir la) <> p) /\
    npage m1 = npage m /\ cur_pgdir m1 = cur_pgdir m /\ mem m1 = mem m /\ the_tlb m1 = the_tlb m /\
    (forall i, ~ covers bs i -> pages (pm m1) !! i = pages (pm m) !! i).
Proof.
  intros Hs Hc. pose proof Hs as [[Hwf Hcoh] Hpgs Hinj].
  pose proof (alloc_page_refines bs m (wf_pmm _ _ _ Hwf)) as Ha. rewrite Hc in Ha.
  destruct Ha as (pm1 & E & (Hinv1 & Hp0 & Hpn & Hpg & Hfr) & Hcov & Hpb).
  destruct (Hpg p) as (pg & Hpg1 & Hfl & Hr0); [lia|].
  assert (Hpc : covers bs p) by (apply Hcov; auto).
  assert (Hsub : forall i, covers bs1 i -> covers bs i) by (intros i Hi; apply Hcov; auto).
  assert (Hs1 : space_ok bs1 (set_pm pm1 m) dir).
  { eapply (space_frame bs bs1 m); try done; [|intros la f Hl Hf; by left].
    split; [|done]. destruct Hwf as [? ? [? ?] Hpde ? ?]. split; try done.
    - split; [done|]. intros Hi. naive_solver.
    - intros la f Hl Hf. destruct (Hpde la f Hl Hf) as (? & ? & ?). split; [done|]. split; [naive_solver|done]. }
  exists (set_pm pm1 m), pg. split; [done|]. split; [done|]. split; [|split_and!; try done].
  - split; simpl; [lia|done|..].
    + intros ->. by destruct (wf_dir _ _ _ Hwf).
    + intros la f Hl Hf ->. by destruct (wf_pde _ _ _ Hwf la p Hl Hf) as (_ & ? & _).
    + exists pg. split; [done|]. unfold PageReserved. by rewrite Hfl.
  - intros la Hl Hp' <-. destruct (Hpgs la Hl Hp') as [Hdp _]. by destruct (dp_used _ _ _ _ Hdp).
Qed.

(** [get_pte(.., 1)] in a user address space. *)
Lemma get_pte_create_space bs m dir la p bs1 :
  space_ok bs m dir -> user la -> pt_of m dir la = None -> carve 1 bs = Some (p, bs1) ->
  exists m1, get_pte dir la true m = Ok (Some (p, PTX la), m1) /\ space_ok bs1 m1 dir /\
    pt_of m1 dir la = Some p /\ (forall la', user la' -> entry m1 dir la' = entry m dir la') /\
    (forall i, ~ covers bs i -> pages (pm m1) !! i = pages (pm m) !! i) /\
    npage m1 = npage m /\ cur_pgdir m1 = cur_pgdir m /\
    (forall q, data_page bs m dir q -> data_page bs1 m1 dir q) /\ kept_space bs m bs1 m1 dir.
Proof.
  intros Hs Hla Hno Hc. pose proof (get_pte_create bs m dir la (proj1 (sp_ready _ _ _ Hs)) Hla Hno) as Hg.
  rewrite Hc in Hg.  destruct Hg as (m1 & E & [_ Hwf1 Hpt1 Hpts He1 _ Hpgs1 Hmem1 (Hnp & Hcur & Htlb)]).
  pose proof (alloc_page_refines bs m (wf_pmm _ _ _ (proj1 (sp_ready _ _ _ Hs)))) as Ha. rewrite Hc in Ha.
  destruct Ha as (_ & _ & _ & Hcov & Hpb). assert (Hpc : covers bs p) by (apply Hcov; auto).
  assert (Hptf : forall l f, user l -> pt_of m1 dir l = Some f -> pt_of m dir l = Some f \/ f = p).
  { intros l f Hl. rewrite Hpts by done. case_decide; [intros [= ->]; by right|by left]. }
  exists m1. split; [done|]. split; [|split_and!; try done].
  - eapply (space_frame bs bs1 m); try done.
    + split; [done|]. intros Hcd. rewrite Hcur in Hcd. destruct (proj2 (sp_ready _ _ _ Hs) Hcd) as [ow Hco].
      exists ow. rewrite Htlb. eapply coh_ext; [|exact Hco]. done.
    + intros i Hi. apply Hcov. auto.
    + intros l f Hl Hf. destruct (Hptf l f Hl Hf) as [?| ->]; auto.
  - intros q [Hr Hu Hd Hptq (pg & Hpg & Hres)]. split; [congruence|rewrite Hcov in Hu; tauto|done|..].
    + intros l f Hl Hf. destruct (Hptf l f Hl Hf) as [?| ->]; [by eapply Hptq|]. intros ->. done.
    + exists pg. by rewrite Hpgs1.
  - split; [done|done|intros i Hi; apply Hcov; auto| |].
    + intros l f Hl Hf. destruct (Hptf l f Hl Hf) as [?| ->]; auto.
    + intros q j Hq Hu _. apply Hmem1; [done|]. intros ->. done.
Qed.

(** [page_insert] of an unused page at an unmapped address. *)
Lemma page_insert_fresh bs m dir p la perm pg :
  space_ok bs m dir -> user la -> present (entry m dir la) = false ->
  data_page bs m dir p -> pages (pm m) !! p = Some pg -> ref pg = 0 ->
  (forall la', user la' -> present (entry m dir la') = true -> PPN (entry m dir la') <> p) ->
  0 <= perm < 128 ->
  match pt_of m dir la, carve 1 bs with
  | None, None => page_insert dir p la perm m = Err WildAccess
  | _, _ => exists m' bs', page_insert dir p la perm m = Ok (0, m') /\ space_ok bs' m' dir /\
      (forall la', user la' -> entry m' dir la' = upd_ent la (pte_make p perm) (entry m dir) la') /\
      bs' = match pt_of m dir la, carve 1 bs with None, Some (_, bs1) => bs1 | _, _ => bs end /\
      kept_space bs m bs' m' dir /\ (forall i, i <> p -> ~ covers bs i -> pages (pm m') !! i = pages (pm m) !! i)
  end.
Proof.
  intros Hs Hla Hnp Hdp Hpg Hr0 Hnew Hperm. unfold page_insert.
  pose proof (proj1 (sp_ready _ _ _ Hs)) as Hwf.
  assert (Hgo : forall bs1 m1 f, space_ok bs1 m1 dir -> pt_of m1 dir la = Some f ->
    (forall la', user la' -> entry m1 dir la' = entry m dir la') -> data_page bs1 m1 dir p ->
    pages (pm m1) !! p = Some pg ->
    exists m', (let! m := page_ref_inc p m1 in
      let! m := (if negb (Z.land (load_pte (f, PTX la) m) PTE_P =? 0) then
           let! p' := pte2page (load_pte (f, PTX la) m) m in
           if p' =? p then page_ref_dec p m else page_remove_pte dir la (f, PTX la) m
         else Ok m) in
      let! m := tlb_invalidate dir la m in
      Ok (0, store_pte (f, PTX la) (Z.lor (Z.lor (page2pa p) PTE_P) perm) m)) = Ok (0, m') /\
      space_ok bs1 m' dir /\
      (forall la', user la' -> entry m' dir la' = upd_ent la (pte_make p perm) (entry m dir) la') /\ kept_space bs1 m1 bs1 m' dir /\
      (forall i, i <> p -> pages (pm m') !! i = pages (pm m1) !! i)).
  { intros bs1 m1 f Hs1 Hf1 He1 Hdp1 Hpg1.
    destruct (insert_store bs1 m1 dir la f p perm pg) as (m' & E & Hs' & Hn' & Hc' & He' & Hpt' & Hm' & Ht' & Hps'); try done.
    { by rewrite He1. } { intros la' Hl. rewrite He1 by done. by apply Hnew. }
    exists m'. split; [|split; [done|]].
    - apply rbind_Ok in E as (m2 & E2 & E). rewrite E2. cbn [rbind].
      assert (Hl2 : load_pte (f, PTX la) m2 = entry m dir la).
      { unfold page_ref_inc, upd_ref in E2. apply rbind_Ok in E2 as (pm2 & _ & E2). injection E2 as <-.
        change (load_pte (f, PTX la) (set_pm pm2 m1)) with (load_pte (f, PTX la) m1).
        rewrite (load_pte_entry _ _ _ _ Hf1). by apply He1. }
      rewrite Hl2. unfold present in Hnp. rewrite Hnp. cbn [rbind].
      apply rbind_Ok in E as (m3 & E3 & E). rewrite E3. cbn [rbind]. injection E as <-. done.
    - split; [intros la' Hl; rewrite He' by done; unfold upd_ent; case_decide; [done|by apply He1]|].
      split; [|exact Hps']. split; [done|done|done| |].
      + intros l f' _. rewrite Hpt'. by left.
      + intros q j _ _ Hno. apply Hm'. intros ->. by apply (Hno la f). }
  destruct (pt_of m dir la) as [f|] eqn:Hf.
  - assert (Hex : exists m' bs', page_insert dir p la perm m = Ok (0, m') /\ space_ok bs' m' dir /\
      (forall la', user la' -> entry m' dir la' = upd_ent la (pte_make p perm) (entry m dir) la') /\ bs' = bs /\ kept_space bs m bs' m' dir /\ (forall i, i <> p -> ~ covers bs i -> pages (pm m') !! i = pages (pm m) !! i)).
    { destruct (Hgo bs m f Hs Hf) as (m' & E & Hs' & He' & Hk' & Hps'); try done.
      exists m', bs. split; [|split_and!; try done; by auto]. unfold page_insert. rewrite (get_pte_present bs m dir la true f Hwf Hla Hf). exact E. }
    unfold page_insert in Hex. by destruct (carve 1 bs) as [[]|].
  - destruct (carve 1 bs) as [[q bs1]|] eqn:Hc.
    + destruct (get_pte_create_space bs m dir la q bs1 Hs Hla Hf Hc) as (m1 & E & Hs1 & Hf1 & He1 & Hp1 & _ & _ & Hd1 & Hk1).
      rewrite E. cbn [rbind].
      destruct (Hgo bs1 m1 q Hs1 Hf1 He1) as (m' & E' & Hs' & He' & Hk' & Hps'); [by apply Hd1| |].
      { rewrite Hp1; [done|]. apply Hdp. }
      exists m', bs1. split; [done|]. split; [done|]. split; [done|]. split; [done|]. split; [by eapply kept_space_trans|].
      intros i Hi Hu. rewrite Hps' by done. by apply Hp1.
    + pose proof (get_pte_create bs m dir la Hwf Hla Hf) as Hg. rewrite Hc in Hg. by rewrite Hg.
Qed.

Lemma carve_none_free lo bs : canon lo bs -> carve 1 bs = None -> forall i, ~ covers bs i.
Proof.
  intros Hb Hn i (b0 & n0 & Hin & Hi). pose proof (proj1 (carve_None 1 bs) Hn b0 n0 Hin). lia.
Qed.

(** The cases of [pgdir_alloc_page] at an unmapped address. *)
Lemma pgdir_alloc_page_cases bs m dir la perm :
  space_ok bs m dir -> user la -> present (entry m dir la) = false -> 0 <= perm < 128 ->
  match carve 1 bs with
  | None => pgdir_alloc_page dir la perm m = if swap_init_ok m then Err WildAccess else Ok (None, m)
  | Some (p, bs1) =>
      match pt_of m dir la, carve 1 bs1 with
      | None, None => pgdir_alloc_page dir la perm m = Err WildAccess
      | _, _ => exists m' bs', pgdir_alloc_page dir la perm m = Ok (Some p, m') /\ space_ok bs' m' dir /\
          (forall la', user la' -> entry m' dir la' = upd_ent la (pte_make p perm) (entry m dir) la') /\
          PPN (pte_make p perm) = p /\ kept_space bs m bs' m' dir /\ total bs <= total bs' + 2 /\ covers bs p
      end
  end.
Proof.
  intros Hs Hla Hnp Hperm. unfold pgdir_alloc_page. pose proof (proj1 (sp_ready _ _ _ Hs)) as Hwf.
  destruct (carve 1 bs) as [[p bs1]|] eqn:Hc.
  2: { pose proof (alloc_page_refines bs m (wf_pmm _ _ _ Hwf)) as Ha. rewrite Hc in Ha. rewrite Ha. by destruct (swap_init_ok m). }
  destruct (alloc_page_space bs m dir p bs1 Hs Hc)
    as (m1 & pg & -> & Hs1 & Hdp1 & Hpg1 & Hr0 & He1 & Hpt1 & Hnew1 & Hnp1 & Hcur1 & Hmem1 & Htlb1 & _). cbn [rbind].
  pose proof (page_insert_fresh bs1 m1 dir p la perm pg Hs1 Hla) as Hi.
  rewrite He1 in Hi by done. specialize (Hi Hnp Hdp1 Hpg1 Hr0 Hnew1 Hperm). rewrite Hpt1 in Hi.
  assert (Hpr : 0 <= p < 1048576).
  { pose proof (dp_range _ _ _ _ Hdp1). pose proof (wf_np _ _ _ (proj1 (sp_ready _ _ _ Hs1))). lia. }
  pose proof (inv_canon _ _ _ (wf_pmm _ _ _ Hwf)) as Hcan.
  destruct (carve_Some (-1) 1 bs p bs1) as (Hcan1 & Htot & Hcov & _); [done..|].
  assert (Hks : kept_space bs m bs1 m1 dir).
  { split; [done|done|intros i Hci; apply Hcov; by left|intros l f _; rewrite Hpt1; by left|by rewrite Hmem1]. }
  assert (Hok : (exists m' bs', page_insert dir p la perm m1 = Ok (0, m') /\ space_ok bs' m' dir /\
      (forall la', user la' -> entry m' dir la' = upd_ent la (pte_make p perm) (entry m1 dir) la') /\
      kept_space bs1 m1 bs' m' dir /\ total bs1 <= total bs' + 1) ->
    exists m' bs', (let! (r, m2) := page_insert dir p la perm m1 in
       if negb (r =? 0) then let! m3 := free_page p m2 in Ok (None, m3) else Ok (Some p, m2)) = Ok (Some p, m') /\
     space_ok bs' m' dir /\
     (forall la', user la' -> entry m' dir la' = upd_ent la (pte_make p perm) (entry m dir) la') /\
     PPN (pte_make p perm) = p /\ kept_space bs m bs' m' dir /\ total bs <= total bs' + 2 /\ covers bs p).
  { intros (m' & bs' & E & Hs' & He' & Hk' & Ht'). exists m', bs'. rewrite E. split; [done|]. split; [done|].
    split; [intros la' Hl; rewrite He' by done; unfold upd_ent; case_decide; [done|by apply He1]|].
    split; [by apply pte_make_spec; lia|]. split; [by eapply kept_space_trans|]. split; [lia|]. apply Hcov. lia. }
  destruct (pt_of m dir la) as [f|] eqn:Hf.
  - apply Hok. destruct (carve 1 bs1) as [[]|]; destruct Hi as (m' & bs' & ? & ? & ? & -> & ? & _); exists m', bs1; split_and!; (done || lia).
  - destruct (carve 1 bs1) as [[q bs2]|] eqn:Hc1; [|by rewrite Hi]. apply Hok. destruct Hi as (m' & bs' & ? & ? & ? & -> & ? & _).
    destruct (carve_Some (-1) 1 bs1 q bs2) as (_ & Htot2 & _); [done..|]. exists m', bs2. split_and!; (done || lia).
Qed.

(** An empty address space (directory in page 1) on the booted machine. *)
Definition empty_machine (st : pmm) : machine := mk_machine 16 st (fun _ _ => 0) None ex_tlb true ∅.

Lemma empty_space_at st dir : pmm_inv 16 st [(3, 13)] -> 0 <= dir < 3 -> space_ok [(3, 13)] (empty_machine st) dir.
Proof.
  intros Hinv Hd. assert (Hno : forall la, pt_of (empty_machine st) dir la = None) by done.
  split; [split; [|done]|..].
  - split; [exact Hinv|simpl; lia| |by intros|by intros|intros; unfold is_u32, two32; simpl; lia].
    split; [simpl; lia|]. intros (b & k & [= -> ->]%list_elem_of_singleton & ?). lia.
  - intros la _. by rewrite entry_no_table.
  - intros la la' _ _. by rewrite entry_no_table.
Qed.

Lemma empty_space st : pmm_inv 16 st [(3, 13)] -> space_ok [(3, 13)] (empty_machine st) 1.
Proof. intros Hinv. by apply empty_space_at. Qed.

(** One page mapped at 0x00800000. *)
Lemma one_page_space : exists bs m, space_ok bs m 1 /\ present (entry m 1 0x00800000) = true.
Proof.
  destruct booted16 as (_ & st & _ & _ & Hinv). pose proof (empty_space st Hinv) as Hs.
  destruct (alloc_page_space [(3, 13)] (empty_machine st) 1 3 [(4, 12)] Hs eq_refl)
    as (m1 & pg & _ & Hs1 & Hdp1 & Hpg1 & Hr0 & He1 & Hpt1 & Hnew1 & _).
  pose proof (page_insert_fresh [(4, 12)] m1 1 3 0x00800000 7 pg Hs1) as Hi.
  rewrite He1, Hpt1 in Hi by (unfold user, KERNBASE; lia).
  destruct Hi as (m' & bs' & _ & Hs' & He' & _); try done; try lia.
  exists bs', m'. split; [done|]. rewrite He', upd_ent_eq by (done || (unfold user, KERNBASE; lia)). done.
Qed.

(** ** Properties *)

(** C12: [unmap_range] of any page-aligned user range terminates without a
    fault; afterwards exactly the pages of the range are unmapped, every other
    mapping is untouched, exactly the pages that were mapped there are back on
    the free list, and the space keeps its invariant. *)
Theorem unmap_range_exact (bs : list block) (m : machine) (dir start end_ : Z) :
  space_ok bs m dir -> start mod PGSIZE = 0 -> end_ mod PGSIZE = 0 ->
  USERBASE <= start -> start < end_ -> end_ <= USERTOP ->
  exists m' bs', unmap_range dir start end_ m = Ok m' /\ space_ok bs' m' dir /\
    (forall la, user la -> start <= la < end_ -> present (entry m' dir la) = false) /\
    (forall la, user la -> ~ start <= la < end_ -> entry m' dir la = entry m dir la) /\
    nr_free_pages m' = nr_free_pages m + mapped (Z.to_nat ((end_ - start) / PGSIZE)) m dir (start / PGSIZE) /\
    (forall i, covers bs' i <-> covers bs i \/
       exists la, user la /\ start <= la < end_ /\ present (entry m dir la) = true /\ i = PPN (entry m dir la)).
Proof.
  intros Hs Hsa Hea H1 H2 H3. change PGSIZE with 4096 in *. unfold USERBASE, USERTOP in *.
  unfold unmap_range, page_aligned, USER_ACCESS, USERBASE, USERTOP. change PGSIZE with 4096.
  rewrite Hsa, Hea. destruct (Z.leb_spec 0x200000 start); [|lia].
  destruct (Z.ltb_spec start end_); [|lia]. destruct (Z.leb_spec end_ 0x80000000); [|lia].
  cbn [Z.eqb andb rassert rbind].
  destruct (unmap_loop_Ok bs m dir start end_ (range_fuel start end_)) as (m' & bs' & E & [Hs' Hi Ho Hn Hc]);
    [done|done|done|lia|unfold KERNBASE; lia|unfold range_fuel; change PGSIZE with 4096; lia|].
  assert (Hr : forall la, start / 4096 <= la / 4096 < end_ / 4096 <-> start <= la < end_).
  { intros la. clear -Hsa Hea. Z.to_euclidean_division_equations. lia. }
  exists m', bs'. split; [done|]. split; [done|]. split; [intros; apply Hi; [done|by apply Hr]|].
  split; [intros; apply Ho; [done|by rewrite Hr]|]. split.
  - unfold nr_free_pages, default_nr_free_pages. rewrite Hn. do 3 f_equal.
    clear -Hsa Hea. Z.to_euclidean_division_equations. lia.
  - intros i. rewrite Hc. split; intros [?|(la & Hl & Hr' & ?)]; [by left|right|by left|right];
      exists la; (split; [done|]); (split; [by apply Hr|done]).
Qed.

(** [pgdir_alloc_page] at an unmapped user address maps a page that was
    free (one reference, mapped nowhere else) with the requested permissions
    and changes no other mapping.  When no page is free it returns NULL, state
    unchanged, before swapping is initialised, and goes through the NULL
    [check_mm_struct] afterwards.  When the last free page goes to the data page and a page
    table is still needed, the kernel dereferences the NULL it got from
    [alloc_page]. *)
Theorem pgdir_alloc_page_maps (bs : list block) (m : machine) (dir la perm : Z) :
  space_ok bs m dir -> user la -> present (entry m dir la) = false -> 0 <= perm < 128 ->
  (pgdir_alloc_page dir la perm m = (if swap_init_ok m then Err WildAccess else Ok (None, m)) /\
     (forall i, ~ covers bs i)) \/
  (exists p m' bs', pgdir_alloc_page dir la perm m = Ok (Some p, m') /\ space_ok bs' m' dir /\ covers bs p /\
     entry m' dir la = pte_make p perm /\ PPN (entry m' dir la) = p /\
     (forall la', user la' -> la / 4096 <> la' / 4096 -> entry m' dir la' = entry m dir la')) \/
  (pgdir_alloc_page dir la perm m = Err WildAccess /\ pt_of m dir la = None /\
     exists p, forall i, covers bs i -> i = p).
Proof.
  intros Hs Hla Hnp Hperm. pose proof (pgdir_alloc_page_cases bs m dir la perm Hs Hla Hnp Hperm) as Hp.
  pose proof (inv_canon _ _ _ (wf_pmm _ _ _ (proj1 (sp_ready _ _ _ Hs)))) as Hcan.
  destruct (carve 1 bs) as [[p bs1]|] eqn:Hc; [right|left; split; [done|by eapply carve_none_free]].
  destruct (carve_Some (-1) 1 bs p bs1) as (Hcan1 & _ & Hcov & _); [done..|].
  assert (Hpc : covers bs p) by (apply Hcov; lia).
  destruct (pt_of m dir la) as [f|] eqn:Hf; [left|destruct (carve 1 bs1) as [[q bs2]|] eqn:Hc1; [left|right]].
  - destruct Hp as (m' & bs' & E & Hs' & He & HP & _). exists p, m', bs'. rewrite He, upd_ent_eq by done.
    split_and!; try done. intros la' Hl Hne. rewrite He by done. by apply upd_ent_ne.
  - destruct Hp as (m' & bs' & E & Hs' & He & HP & _). exists p, m', bs'. rewrite He, upd_ent_eq by done.
    split_and!; try done. intros la' Hl Hne. rewrite He by done. by apply upd_ent_ne.
  - split; [done|]. split; [done|]. exists p. intros i [Hi|?]%Hcov; [|lia].
    by destruct (carve_none_free _ _ Hcan1 Hc1 i).
Qed.

Lemma unmap_range_exact_witness :
  exists bs m m' bs', space_ok bs m 1 /\ present (entry m 1 0x00800000) = true /\
    unmap_range 1 0x00800000 0x00c00000 m = Ok m' /\ space_ok bs' m' 1 /\
    present (entry m' 1 0x00800000) = false.
Proof.
  destruct one_page_space as (bs & m & Hs & Hp).
  destruct (unmap_range_exact bs m 1 0x00800000 0x00c00000 Hs) as (m' & bs' & E & Hs' & Hi & _);
    [reflexivity|reflexivity|unfold USERBASE; lia|lia|unfold USERTOP; lia|].
  exists bs, m, m', bs'. do 4 (split; [assumption|]). apply Hi; [unfold user, KERNBASE|]; lia.
Defined.

Lemma pgdir_alloc_page_maps_witness :
  exists st, pmm_inv 16 st [(3, 13)] /\
  ((pgdir_alloc_page 1 0x00800000 PTE_USER (empty_machine st) = Err WildAccess /\
      (forall i, ~ covers [(3, 13)] i)) \/
  (exists p m' bs', pgdir_alloc_page 1 0x00800000 PTE_USER (empty_machine st) = Ok (Some p, m') /\
     space_ok bs' m' 1 /\ covers [(3, 13)] p /\
     entry m' 1 0x00800000 = pte_make p PTE_USER /\ PPN (entry m' 1 0x00800000) = p /\
     (forall la', user la' -> 0x00800000 / 4096 <> la' / 4096 ->
        entry m' 1 la' = entry (empty_machine st) 1 la')) \/
  (pgdir_alloc_page 1 0x00800000 PTE_USER (empty_machine st) = Err WildAccess /\
     pt_of (empty_machine st) 1 0x00800000 = None /\ exists p, forall i, covers [(3, 13)] i -> i = p)).
Proof.
  destruct booted16 as (_ & st & _ & _ & Hinv). exists st. split; [exact Hinv|].
  apply (pgdir_alloc_page_maps [(3, 13)] (empty_machine st) 1 0x00800000 PTE_USER (empty_space st Hinv)).
  - unfold user, KERNBASE. lia.
  - reflexivity.
  - vm_compute. split; [discriminate|reflexivity].
Defined.
