(* ===== verification/Bitmap.v ===== *)
(** * Bitmaps (kern/fs/sfs/bitmap.c)

    The map of free blocks of a file system: a set bit is a free block.  The
    properties are stated against the set of free indices [is_free]. *)
From S2P Require Import Prelude Atomic Arith.

Definition WORD_BITS : Z := 32.

Record bitmap := mk_bitmap { nbits : Z; nwords : Z; map : list Z }.

#[export] Instance bitmap_eq_dec : EqDecision bitmap.
Proof. solve_decision. Defined.

Definition set_map (l : list Z) (b : bitmap) : bitmap := mk_bitmap (nbits b) (nwords b) l.

(** [1 << offset] as a [WORD_TYPE]. *)
Definition word_mask (offset : Z) : Z := u32 (Z.shiftl 1 offset).

(** ** Operations *)

(** [for (; overbits < WORD_BITS; overbits ++) map[ix] ^= (1 << overbits);] *)
Fixpoint clear_over (n : nat) (overbits w : Z) : Z :=
  match n with
  | O => w
  | S n => clear_over n (overbits + 1) (Z.lxor w (word_mask overbits))
  end.

(** The booleans say whether the two calls of [kmalloc] succeed. *)
Definition bitmap_create (ok1 ok2 : bool) (nbits : Z) : res (option bitmap) :=
  assert! negb (nbits =? 0) && (nbits <? u32 (nbits + WORD_BITS)) ;;
  if negb ok1 then Ok None
  else
    let nwords := ROUNDUP_DIV nbits WORD_BITS in
    if negb ok2 then Ok None
    else
      let map := replicate (Z.to_nat nwords) 0xFFFFFFFF in
      if negb (nbits =? u32 (nwords * WORD_BITS)) then
        let ix := nwords - 1 in
        let overbits := u32 (nbits - ix * WORD_BITS) in
        assert! nbits / WORD_BITS =? ix ;;
        assert! (0 <? overbits) && (overbits <? WORD_BITS) ;;
        let! w := rget (map !! Z.to_nat ix) in
        Ok (Some (mk_bitmap nbits nwords
          (<[Z.to_nat ix := clear_over (Z.to_nat (WORD_BITS - overbits)) overbits w]> map)))
      else Ok (Some (mk_bitmap nbits nwords map)).

(** The inner loop: the first set bit of a word, from [offset] on. *)
Fixpoint find_bit (n : nat) (offset w : Z) : option Z :=
  match n with
  | O => None
  | S n => if negb (Z.land w (word_mask offset) =? 0) then Some offset else find_bit n (offset + 1) w
  end.

Fixpoint alloc_loop (n : nat) (ix : Z) (b : bitmap) : res (Z * option Z * bitmap) :=
  match n with
  | O => Ok (- E_NO_MEM, None, b)
  | S n =>
      let! w := rget (map b !! Z.to_nat ix) in
      if negb (w =? 0) then
        match find_bit (Z.to_nat WORD_BITS) 0 w with
        | Some offset =>
            Ok (0, Some (ix * WORD_BITS + offset),
                set_map (<[Z.to_nat ix := Z.lxor w (word_mask offset)]> (map b)) b)
        | None => Err AssertFail
        end
      else alloc_loop n (ix + 1) b
  end.
(** The return value, the index stored and the bitmap. *)
Definition bitmap_alloc (b : bitmap) : res (Z * option Z * bitmap) :=
  alloc_loop (Z.to_nat (nwords b)) 0 b.

(** The word's index and the mask. *)
Definition bitmap_translate (b : bitmap) (index : Z) : res (Z * Z) :=
  assert! index <? nbits b ;; Ok (index / WORD_BITS, word_mask (index mod WORD_BITS)).

Definition bitmap_test (b : bitmap) (index : Z) : res bool :=
  let! (word, mask) := bitmap_translate b index in
  let! w := rget (map b !! Z.to_nat word) in
  Ok (negb (Z.land w mask =? 0)).

Definition bitmap_free (b : bitmap) (index : Z) : res bitmap :=
  let! (word, mask) := bitmap_translate b index in
  let! w := rget (map b !! Z.to_nat word) in
  assert! negb (negb (Z.land w mask =? 0)) ;;
  Ok (set_map (<[Z.to_nat word := Z.lor w mask]> (map b)) b).

Definition bitmap_getdata (b : bitmap) : list Z * Z := (map b, 4 * nwords b).

(** ** The set of free indices *)

Definition bit (b : bitmap) (i : Z) : bool :=
  Z.testbit (default 0 (map b !! Z.to_nat (i / 32))) (i mod 32).
Definition is_free (b : bitmap) (i : Z) : Prop := 0 <= i < nbits b /\ bit b i = true.

Record bitmap_ok (b : bitmap) : Prop := {
  bm_size : 0 < nbits b /\ nwords b = (nbits b + 31) / 32;
  bm_len : Z.of_nat (length (map b)) = nwords b;
  bm_words : Forall is_u32 (map b);
  bm_over : forall i, nbits b <= i < nwords b * 32 -> bit b i = false
}.

Lemma word_mask_spec o : 0 <= o < 32 -> word_mask o = Z.shiftl 1 o /\ forall n, Z.testbit (word_mask o) n = (n =? o).
Proof.
  intros Ho. assert (E : word_mask o = Z.shiftl 1 o).
  { apply u32_id. unfold is_u32, two32. rewrite Z.shiftl_1_l. split; [lia|].
    change 4294967296 with (2 ^ 32). apply Z.pow_lt_mono_r; lia. }
  split; [done|]. intros n. rewrite E. apply shiftl_1_bits. lia.
Qed.

Lemma mask_test o w : 0 <= o < 32 -> negb (Z.land w (word_mask o) =? 0) = Z.testbit w o.
Proof. intros Ho. rewrite (proj1 (word_mask_spec o Ho)). apply (test_bit_spec o). lia. Qed.

Lemma u32_bits w : (0 <= w /\ forall n, 32 <= n -> Z.testbit w n = false) <-> is_u32 w.
Proof.
  unfold is_u32. change two32 with (2 ^ 32). split.
  - intros [Hw Hb]. split; [done|]. destruct (Z.eq_dec w 0) as [->|]; [done|].
    apply Z.log2_lt_pow2; [lia|]. destruct (Z.lt_ge_cases (Z.log2 w) 32) as [|Hge]; [done|].
    specialize (Hb _ Hge). rewrite Z.bit_log2 in Hb by lia. done.
  - intros [Hw Hlt]. split; [done|]. intros n Hn. destruct (Z.eq_dec w 0) as [->|]; [apply Z.bits_0|].
    apply Z.bits_above_log2; [done|]. apply Z.lt_le_trans with 32; [|done]. apply Z.log2_lt_pow2; lia.
Qed.

(** Changing bit [o] of word [ix]. *)
Lemma bit_update b ix o w f : 0 <= ix < Z.of_nat (length (map b)) -> 0 <= o < 32 ->
  map b !! Z.to_nat ix = Some w -> (forall n, 0 <= n < 32 -> Z.testbit (f w) n = xorb (Z.testbit w n) (n =? o)) ->
  forall i, 0 <= i -> bit (set_map (<[Z.to_nat ix := f w]> (map b)) b) i =
    xorb (bit b i) (i =? ix * 32 + o).
Proof.
  intros Hix Ho Hw Hf i Hi. unfold bit. cbn [map set_map].
  assert (Hd : i = i / 32 * 32 + i mod 32 /\ 0 <= i mod 32 < 32 /\ 0 <= i / 32).
  { Z.to_euclidean_division_equations. lia. }
  destruct (decide (i / 32 = ix)) as [He|He].
  - rewrite He, list_lookup_insert_eq by lia. rewrite Hw. simpl. rewrite Hf by lia. f_equal.
    destruct (Z.eqb_spec (i mod 32) o), (Z.eqb_spec i (ix * 32 + o)); (done || lia).
  - rewrite list_lookup_insert_ne by lia. destruct (Z.eqb_spec i (ix * 32 + o)); [lia|]. by rewrite xorb_false_r.
Qed.

Lemma set_map_ok b l : bitmap_ok b -> length l = length (map b) -> Forall is_u32 l ->
  (forall i, nbits b <= i < nwords b * 32 -> bit (set_map l b) i = false) -> bitmap_ok (set_map l b).
Proof. intros [? ? ? ?] Hl Hf Ho. split; try done. cbn. by rewrite Hl. Qed.

Lemma find_bit_spec w n : forall o, 0 <= o -> o + Z.of_nat n <= 32 ->
  match find_bit n o w with
  | Some k => o <= k < o + Z.of_nat n /\ Z.testbit w k = true /\ (forall j, o <= j < k -> Z.testbit w j = false)
  | None => forall j, o <= j < o + Z.of_nat n -> Z.testbit w j = false
  end.
Proof.
  induction n as [|n IH]; intros o Ho Hn; simpl; [intros; lia|].
  rewrite mask_test by lia. destruct (Z.testbit w o) eqn:Hb.
  - split; [lia|]. split; [done|]. intros; lia.
  - specialize (IH (o + 1) ltac:(lia) ltac:(lia)). destruct (find_bit n (o + 1) w) as [k|].
    + destruct IH as (? & ? & IH). split; [lia|]. split; [done|]. intros j Hj.
      destruct (decide (j = o)) as [->|]; [done|]. apply IH. lia.
    + intros j Hj. destruct (decide (j = o)) as [->|]; [done|]. apply IH. lia.
Qed.

Lemma word_u32 b ix w : bitmap_ok b -> map b !! Z.to_nat ix = Some w -> is_u32 w.
Proof. intros Hok Hw. eapply Forall_lookup_1; [apply Hok|done]. Qed.

Lemma mask_ops o w : 0 <= o < 32 -> is_u32 w ->
  is_u32 (Z.lxor w (word_mask o)) /\ is_u32 (Z.lor w (word_mask o)).
Proof.
  intros Ho [Hw Hb]%u32_bits.
  assert (Hm : 0 <= word_mask o) by apply u32_range. destruct (word_mask_spec o Ho) as [_ Hs].
  split; apply u32_bits; (split; [first [by apply Z.lxor_nonneg|by apply Z.lor_nonneg]|]);
    intros n Hn; rewrite ?Z.lxor_spec, ?Z.lor_spec, Hs, Hb by done; (destruct (Z.eqb_spec n o); [lia|done]).
Qed.

(** The scan from word [ix] on, when no bit before it is set. *)
Lemma alloc_loop_spec b n : forall ix, bitmap_ok b -> 0 <= ix -> ix + Z.of_nat n = nwords b ->
  (forall j, 0 <= j < ix * 32 -> bit b j = false) ->
  (exists i w, alloc_loop n ix b = Ok (0, Some i,
       set_map (<[Z.to_nat (i / 32) := Z.lxor w (word_mask (i mod 32))]> (map b)) b) /\
     map b !! Z.to_nat (i / 32) = Some w /\ 0 <= i < nwords b * 32 /\ bit b i = true /\
     (forall j, 0 <= j < i -> bit b j = false)) \/
  (alloc_loop n ix b = Ok (- E_NO_MEM, None, b) /\ forall j, 0 <= j < nwords b * 32 -> bit b j = false).
Proof.
  induction n as [|n IH]; intros ix Hok Hix Hn Hz; cbn [alloc_loop].
  { right. split; [done|]. intros j Hj. apply Hz. lia. }
  destruct (lookup_lt_is_Some_2 (map b) (Z.to_nat ix)) as [w Hw]; [pose proof (bm_len _ Hok); lia|].
  rewrite Hw. cbn [rget rbind].
  assert (Hbit : forall o, 0 <= o < 32 -> bit b (ix * 32 + o) = Z.testbit w o).
  { intros o Ho. unfold bit. rewrite Z.div_add_l, Z.div_small, Z.add_0_r, Hw by lia. simpl.
    rewrite Z.add_comm, Z.mod_add, Z.mod_small by lia. done. }
  pose proof (find_bit_spec w 32 0 ltac:(lia) ltac:(lia)) as Hfb. change (Z.of_nat 32) with 32 in Hfb.
  assert (Hsame : forall k, 0 <= k < ix * 32 + 32 -> k < ix * 32 \/ exists o, 0 <= o < 32 /\ k = ix * 32 + o).
  { intros k Hk. destruct (decide (k < ix * 32)); [by left|]. right. exists (k - ix * 32). lia. }
  destruct (Z.eqb_spec w 0) as [->|Hw0]; cbn [negb].
  - apply IH; [done|lia|lia|]. intros j Hj. destruct (Hsame j) as [?|(o & Ho & ->)]; [lia|apply Hz; lia|].
    rewrite Hbit by done. apply Z.bits_0.
  - left. change (Z.to_nat WORD_BITS) with 32%nat. destruct (find_bit 32 0 w) as [o|].
    + destruct Hfb as (Ho & Hset & Hlow). exists (ix * 32 + o), w.
      assert (Hq : (ix * 32 + o) / 32 = ix) by (Z.to_euclidean_division_equations; lia).
      assert (Hr : (ix * 32 + o) mod 32 = o) by (Z.to_euclidean_division_equations; lia).
      rewrite Hq, Hr. unfold WORD_BITS. split; [done|]. split; [done|]. split; [lia|]. split; [by rewrite Hbit by lia|].
      intros j Hj. destruct (Hsame j) as [?|(o' & Ho' & ->)]; [lia|apply Hz; lia|]. rewrite Hbit by done. apply Hlow. lia.
    + exfalso. apply Hw0, Z.bits_inj'. intros m Hm. rewrite Z.bits_0.
      destruct (decide (m < 32)); [apply Hfb; lia|].
      apply (proj2 (u32_bits w) (word_u32 b ix w Hok Hw)). lia.
Qed.

Lemma nwords_cover b : bitmap_ok b -> nbits b <= nwords b * 32 < nbits b + 32.
Proof. intros [[? ->] _ _ _]. Z.to_euclidean_division_equations. lia. Qed.

(** Every bit that is set is a free index. *)
Lemma set_bit_free b i : bitmap_ok b -> 0 <= i < nwords b * 32 -> bit b i = true -> is_free b i.
Proof.
  intros Hok Hi Hb. split; [|done]. destruct (decide (i < nbits b)); [lia|].
  rewrite (bm_over _ Hok) in Hb by lia. done.
Qed.

(** ** What the operations do *)

Lemma bitmap_alloc_spec (b : bitmap) :
  bitmap_ok b ->
  (exists i b', bitmap_alloc b = Ok (0, Some i, b') /\ bitmap_ok b' /\ nbits b' = nbits b /\
     is_free b i /\ (forall j, is_free b j -> i <= j) /\
     (forall j, is_free b' j <-> is_free b j /\ j <> i) /\ bitmap_free b' i = Ok b) \/
  (bitmap_alloc b = Ok (- E_NO_MEM, None, b) /\ forall j, ~ is_free b j).
Proof.
  intros Hok. pose proof (nwords_cover b Hok) as Hcov. unfold bitmap_alloc.
  destruct (alloc_loop_spec b (Z.to_nat (nwords b)) 0 Hok) as [(i & w & E & Hw & Hi & Hb & Hlow)|[E Hno]];
    [lia|destruct Hok as [[? ?] ? _ _]; lia|intros; lia| |].
  2: { right. split; [done|]. intros j [Hj Hb]. rewrite Hno in Hb; [done|lia]. }
  left. pose proof (set_bit_free b i Hok Hi Hb) as Hfree.
  assert (Hio : 0 <= i mod 32 < 32 /\ i = i / 32 * 32 + i mod 32 /\ 0 <= i / 32 < Z.of_nat (length (map b))).
  { destruct Hok as [_ -> _ _]. Z.to_euclidean_division_equations. lia. }
  destruct Hio as (Ho & Hie & Hix). destruct (word_mask_spec _ Ho) as [_ Hms].
  assert (Hupd : forall j, 0 <= j -> bit (set_map (<[Z.to_nat (i / 32) := Z.lxor w (word_mask (i mod 32))]> (map b)) b) j =
    xorb (bit b j) (j =? i)).
  { intros j Hj. rewrite (bit_update b (i / 32) (i mod 32) w (fun w => Z.lxor w (word_mask (i mod 32)))); try done.
    - by rewrite <- Hie. - intros n _. by rewrite Z.lxor_spec, Hms. }
  exists i. eexists. split; [exact E|]. split_and!.
  - apply set_map_ok; [done|by rewrite length_insert| |].
    + apply Forall_insert; [apply Hok|]. by apply mask_ops; [|eapply word_u32].
    + intros j Hj. rewrite Hupd, (bm_over _ Hok) by lia.
      destruct (Z.eqb_spec j i) as [->|]; [|done]. by rewrite (bm_over _ Hok) in Hb.
  - done.
  - done.
  - intros j [Hj Hbj]. destruct (decide (i <= j)); [done|]. rewrite Hlow in Hbj; [done|lia].
  - intros j. unfold is_free. cbn [nbits set_map]. split.
    + intros [Hj Hbj]. rewrite Hupd in Hbj by lia. destruct (Z.eqb_spec j i) as [->|].
      * by rewrite Hb in Hbj.
      * by rewrite xorb_false_r in Hbj.
    + intros [[Hj Hbj] Hne]. split; [done|]. rewrite Hupd, Hbj by lia. by destruct (Z.eqb_spec j i).
  - unfold bitmap_free, bitmap_translate. cbn [nbits set_map map]. destruct Hfree as [Hr _].
    destruct (Z.ltb_spec i (nbits b)); [|lia]. unfold WORD_BITS. cbn [rassert rbind].
    rewrite list_lookup_insert_eq by lia. cbn [rget rbind]. rewrite mask_test, Z.lxor_spec, Hms, Z.eqb_refl by done.
    assert (Hwb : Z.testbit w (i mod 32) = true) by (unfold bit in Hb; by rewrite Hw in Hb).
    rewrite Hwb. cbn [xorb negb rassert rbind]. unfold set_map. cbn [map nbits nwords].
    rewrite list_insert_insert_eq. do 2 f_equal.
    replace (Z.lor (Z.lxor w (word_mask (i mod 32))) (word_mask (i mod 32))) with w.
    + rewrite list_insert_id by done. by destruct b.
    + apply Z.bits_inj'. intros n Hn. rewrite Z.lor_spec, Z.lxor_spec, Hms.
      destruct (Z.eqb_spec n (i mod 32)) as [->|]; [by rewrite Hwb|by rewrite xorb_false_r, orb_false_r].
Qed.

Lemma bitmap_free_spec (b : bitmap) (index : Z) :
  bitmap_ok b -> 0 <= index ->
  if (index <? nbits b) && negb (bit b index) then
    exists b', bitmap_free b index = Ok b' /\ bitmap_ok b' /\ nbits b' = nbits b /\
      (forall j, is_free b' j <-> is_free b j \/ j = index)
  else bitmap_free b index = Err AssertFail.
Proof.
  intros Hok H0. pose proof (nwords_cover b Hok) as Hcov. unfold bitmap_free, bitmap_translate.
  destruct (Z.ltb_spec index (nbits b)) as [Hlt|]; [|done]. unfold WORD_BITS. cbn [rassert rbind andb].
  assert (Hio : 0 <= index mod 32 < 32 /\ index = index / 32 * 32 + index mod 32 /\ 0 <= index / 32 < Z.of_nat (length (map b))).
  { destruct Hok as [_ -> _ _]. Z.to_euclidean_division_equations. lia. }
  destruct Hio as (Ho & Hie & Hix). destruct (word_mask_spec _ Ho) as [_ Hms].
  destruct (lookup_lt_is_Some_2 (map b) (Z.to_nat (index / 32))) as [w Hw]; [lia|].
  rewrite Hw. cbn [rget rbind]. rewrite mask_test by done.
  assert (Hb : bit b index = Z.testbit w (index mod 32)) by (unfold bit; by rewrite Hw). rewrite <- Hb.
  destruct (bit b index) eqn:Hbi; cbn [negb rassert rbind]; [done|].
  assert (Hupd : forall j, 0 <= j -> bit (set_map (<[Z.to_nat (index / 32) := Z.lor w (word_mask (index mod 32))]> (map b)) b) j =
    xorb (bit b j) (j =? index)).
  { intros j Hj. rewrite (bit_update b (index / 32) (index mod 32) w (fun w => Z.lor w (word_mask (index mod 32)))); try done.
    - by rewrite <- Hie.
    - intros n _. rewrite Z.lor_spec, Hms. destruct (Z.eqb_spec n (index mod 32)) as [->|];
        [by rewrite <- Hb|by rewrite orb_false_r, xorb_false_r]. }
  eexists. split; [done|]. split; [|split; [done|]].
  - apply set_map_ok; [done|by rewrite length_insert| |].
    + apply Forall_insert; [apply Hok|]. by apply mask_ops; [|eapply word_u32].
    + intros j Hj. rewrite Hupd, (bm_over _ Hok) by lia. destruct (Z.eqb_spec j index); [lia|done].
  - intros j. unfold is_free. cbn [nbits set_map]. split.
    + intros [Hj Hbj]. rewrite Hupd in Hbj by lia. destruct (Z.eqb_spec j index); [by right|].
      rewrite xorb_false_r in Hbj. by left.
    + intros [[Hj Hbj]| ->]; (split; [done|]); rewrite Hupd by lia.
      * rewrite Hbj. destruct (Z.eqb_spec j index) as [->|]; [congruence|done].
      * by rewrite Hbi, Z.eqb_refl.
Qed.

Lemma bitmap_test_spec b i : bitmap_ok b -> 0 <= i < nbits b -> bitmap_test b i = Ok (bit b i).
Proof.
  intros Hok Hi. pose proof (nwords_cover b Hok) as Hcov. unfold bitmap_test, bitmap_translate.
  destruct (Z.ltb_spec i (nbits b)); [|lia]. unfold WORD_BITS. cbn [rassert rbind].
  assert (Hix : 0 <= i / 32 < Z.of_nat (length (map b)) /\ 0 <= i mod 32 < 32).
  { destruct Hok as [_ -> _ _]. Z.to_euclidean_division_equations. lia. }
  destruct (lookup_lt_is_Some_2 (map b) (Z.to_nat (i / 32))) as [w Hw]; [lia|].
  unfold bit. rewrite Hw. cbn [rget rbind default]. by rewrite mask_test by lia.
Qed.

Lemma clear_over_spec n : forall o w, is_u32 w -> 0 <= o -> o + Z.of_nat n = 32 ->
  (forall k, o <= k < 32 -> Z.testbit w k = true) ->
  is_u32 (clear_over n o w) /\ forall k, 0 <= k -> Z.testbit (clear_over n o w) k = (k <? o) && Z.testbit w k.
Proof.
  induction n as [|n IH]; intros o w Hw Ho Hn Hset; simpl.
  - split; [done|]. intros k Hk. destruct (Z.ltb_spec k o); [done|]. apply (proj2 (u32_bits w) Hw). lia.
  - destruct (word_mask_spec o) as [_ Hms]; [lia|].
    destruct (IH (o + 1) (Z.lxor w (word_mask o))) as [H1 H2]; [by apply mask_ops; [lia|]|lia|lia| |].
    { intros k Hk. rewrite Z.lxor_spec, Hms, Hset by lia. by destruct (Z.eqb_spec k o); [lia|]. }
    split; [done|]. intros k Hk. rewrite H2, Z.lxor_spec, Hms by done.
    destruct (Z.ltb_spec k (o + 1)), (Z.ltb_spec k o), (Z.eqb_spec k o); try lia; simpl; try done.
    + by rewrite xorb_false_r.
    + subst. by rewrite Hset by lia.
Qed.

Lemma bitmap_create_ok n : 0 < n < two32 - 32 ->
  exists b, bitmap_create true true n = Ok (Some b) /\ bitmap_ok b /\ nbits b = n /\ forall i, 0 <= i < n -> is_free b i.
Proof.
  intros Hn. unfold two32 in Hn. unfold bitmap_create, WORD_BITS, ROUNDUP_DIV.
  rewrite (u32_id (n + 32)), (u32_id (n + 32 - 1)) by (unfold is_u32, two32; lia).
  replace (n + 32 - 1) with (n + 31) by lia.
  destruct (Z.eqb_spec n 0), (Z.ltb_spec n (n + 32)); try lia. cbn [negb andb rassert rbind].
  set (nw := (n + 31) / 32). assert (Hnw : n <= nw * 32 < n + 32 /\ 0 < nw) by (unfold nw; Z.to_euclidean_division_equations; lia).
  rewrite (u32_id (nw * 32)) by (unfold is_u32, two32; lia).
  set (full := replicate (Z.to_nat nw) 0xFFFFFFFF).
  assert (Hfull : forall i, 0 <= i < nw * 32 -> full !! Z.to_nat (i / 32) = Some 0xFFFFFFFF).
  { intros i Hi. apply lookup_replicate. split; [done|]. Z.to_euclidean_division_equations. lia. }
  assert (Hones : forall k, 0 <= k < 32 -> Z.testbit 0xFFFFFFFF k = true).
  { intros k Hk. change 0xFFFFFFFF with (Z.ones 32). apply Z.ones_spec_low. lia. }
  assert (Hlen : Z.of_nat (length full) = nw) by (unfold full; rewrite length_replicate; lia).
  assert (Hall : Forall is_u32 full) by (apply Forall_replicate; unfold is_u32, two32; lia).
  destruct (Z.eqb_spec n (nw * 32)) as [He|He]; cbn [negb].
  - eexists. split; [done|]. split; [split; try done; cbn; lia|]. split; [done|].
    intros i Hi. split; [done|]. unfold bit. cbn [map]. rewrite Hfull by lia. apply Hones. apply Z.mod_pos_bound. lia.
  - assert (Hix : n / 32 = nw - 1) by (Z.to_euclidean_division_equations; lia).
    rewrite (u32_id (n - (nw - 1) * 32)) by (unfold is_u32, two32; lia).
    destruct (Z.eqb_spec (n / 32) (nw - 1)); [|done]. set (ob := n - (nw - 1) * 32).
    destruct (Z.ltb_spec 0 ob), (Z.ltb_spec ob 32); try (unfold ob in *; lia). cbn [andb rassert rbind].
    assert (Hl : full !! Z.to_nat (nw - 1) = Some 0xFFFFFFFF) by (rewrite <- Hix; apply Hfull; lia).
    rewrite Hl. cbn [rget rbind].
    destruct (clear_over_spec (Z.to_nat (32 - ob)) ob 0xFFFFFFFF) as [Hu Hc];
      [unfold is_u32, two32; lia|lia|lia|intros; apply Hones; lia|].
    eexists. split; [done|]. set (b := mk_bitmap _ _ _).
    assert (Hbit : forall i, 0 <= i < nw * 32 -> bit b i = (i <? n)).
    { intros i Hi. unfold bit, b. cbn [map].
      assert (Hm : 0 <= i mod 32 < 32 /\ i = i / 32 * 32 + i mod 32) by (Z.to_euclidean_division_equations; lia).
      destruct (decide (i / 32 = nw - 1)) as [Hq|Hq].
      - rewrite Hq, list_lookup_insert_eq by lia. simpl. rewrite Hc, Hones by lia. rewrite andb_true_r.
        destruct (Z.ltb_spec (i mod 32) ob), (Z.ltb_spec i n); unfold ob in *; (done || lia).
      - rewrite list_lookup_insert_ne, Hfull by lia. simpl. rewrite Hones by lia. symmetry. apply Z.ltb_lt. lia. }
    split; [split; cbn|split; [done|]].
    + split; [lia|done].
    + by rewrite length_insert.
    + by apply Forall_insert.
    + intros i Hi. rewrite Hbit by lia. apply Z.ltb_ge. lia.
    + intros i Hi. split; [done|]. rewrite Hbit by lia. apply Z.ltb_lt. lia.
Qed.

(** ** Properties *)

(** C29: [bitmap_alloc] returns the smallest free index and marks exactly it
    in use, or -E_NO_MEM, the bitmap unchanged, when nothing is free; its
    [assert(0)] is never reached.  [bitmap_free] of the index restores the
    bitmap. *)
Theorem bitmap_alloc_smallest (b : bitmap) :
  bitmap_ok b ->
  (exists i b', bitmap_alloc b = Ok (0, Some i, b') /\ bitmap_ok b' /\ nbits b' = nbits b /\
     is_free b i /\ (forall j, is_free b j -> i <= j) /\
     (forall j, is_free b' j <-> is_free b j /\ j <> i) /\ bitmap_free b' i = Ok b) \/
  (bitmap_alloc b = Ok (- E_NO_MEM, None, b) /\ forall j, ~ is_free b j).
Proof. apply bitmap_alloc_spec. Qed.

(** [bitmap_free] makes exactly the given index free; freeing an index
    that is free already, or outside the bitmap, stops the kernel.  A created
    bitmap starts with every index free. *)
Theorem bitmap_free_exact (b : bitmap) (index : Z) :
  bitmap_ok b -> 0 <= index ->
  if (index <? nbits b) && negb (bit b index) then
    exists b', bitmap_free b index = Ok b' /\ bitmap_ok b' /\ nbits b' = nbits b /\
      (forall j, is_free b' j <-> is_free b j \/ j = index)
  else bitmap_free b index = Err AssertFail.
Proof. apply bitmap_free_spec. Qed.

(** *** Concrete inputs *)

Lemma bitmap_alloc_smallest_witness : exists b i b', bitmap_create true true 40 = Ok (Some b) /\
  bitmap_alloc b = Ok (0, Some i, b') /\ bitmap_free b' i = Ok b.
Proof.
  destruct (bitmap_create_ok 40) as (b & E & Hok & _ & Hf); [unfold two32; lia|].
  destruct (bitmap_alloc_smallest b Hok) as [(i & b' & Ea & _ & _ & _ & _ & _ & Ef)|[_ Hno]].
  - exists b, i, b'. auto.
  - destruct (Hno 0). apply Hf. lia.
Defined.

Lemma bitmap_free_exact_witness : exists b, bitmap_create true true 40 = Ok (Some b) /\
  bitmap_free b 50 = Err AssertFail.
Proof.
  destruct (bitmap_create_ok 40) as (b & E & Hok & Hn & Hf); [unfold two32; lia|].
  exists b. split; [exact E|]. pose proof (bitmap_free_exact b 50 Hok) as H. rewrite Hn in H. apply H. lia.
Defined.
