(* ===== verification/Swap.v ===== *)
(** * Page replacement (kern/mm/swap.c, kern/mm/swap_fifo.c, kern/fs/swap/swapfs.c)

    The queue of swappable pages is the linked list [pra] of [PageTable]: the
    [pra_page_link] of page [p] is the node [p], [pra_list_head] the node -1.
    [sm_priv] is the field of the [mm_struct].  [swap_out] is proved against
    the interface [swap_manager], which the FIFO policy implements. *)
From S2P Require Import Prelude DList Blocks Atomic Arith DefaultPmm PageTable Tlb Pmm.

(** ** The interface and the FIFO policy *)

Class swap_manager := {
  sm_init : Z;
  sm_init_mm : store -> res (Z * option Z * store);
  sm_tick_event : Z;
  sm_map_swappable : option Z -> Z -> Z -> Z -> store -> res (Z * store);
  sm_set_unswappable : Z -> Z;
  sm_swap_out_victim : option Z -> Z -> store -> res (Z * Z * store)
}.

Definition pra_list_head : Z := -1.

Definition _fifo_init_mm (s : store) : res (Z * option Z * store) :=
  let! s := list_init pra_list_head s in Ok (0, Some pra_list_head, s).

Definition _fifo_map_swappable (sm_priv : option Z) (addr page swap_in : Z) (s : store) : res (Z * store) :=
  match sm_priv with
  | None => Err AssertFail
  | Some head => let! s := list_add_before head page s in Ok (0, s)
  end.

Definition _fifo_swap_out_victim (sm_priv : option Z) (in_tick : Z) (s : store) : res (Z * Z * store) :=
  match sm_priv with
  | None => Err AssertFail
  | Some head =>
      assert! in_tick =? 0 ;;
      let! victim := list_next s head in
      let! s := list_del victim s in
      Ok (0, victim, s)
  end.

Definition _fifo_init : Z := 0.
Definition _fifo_set_unswappable (addr : Z) : Z := 0.
Definition _fifo_tick_event : Z := 0.

#[export] Instance swap_manager_fifo : swap_manager := {
  sm_init := _fifo_init;
  sm_init_mm := _fifo_init_mm;
  sm_tick_event := _fifo_tick_event;
  sm_map_swappable := _fifo_map_swappable;
  sm_set_unswappable := _fifo_set_unswappable;
  sm_swap_out_victim := _fifo_swap_out_victim
}.

(** ** The swap area *)

Definition SWAPFS_BASE : Z := 0xbe400000.
Definition SWAPFS_SIZE : Z := 0x00400000.
Definition BLOCKBASE (addr : Z) : Z := Z.land addr 0xff7e0000.
Definition BLOCKOFF (addr : Z) : Z := Z.land addr 0x0001f000.
Definition FLAGS (entry : Z) : Z := Z.land entry 0x6.
Definition MAX_SWAP_OFFSET_LIMIT : Z := Z.shiftl 1 24.

Definition swap_offset (max_swap_offset entry : Z) : res Z :=
  let offset := Z.shiftr entry 8 in
  if (0 <? offset) && (offset <? max_swap_offset) then Ok offset else Err KPanic.

Definition swapfs_clean (base : Z) : res unit := assert! BLOCKBASE base =? base ;; Ok tt.

(** [max_swap_offset], with the first value of [clean_block]. *)
Definition swapfs_init (clean_block : Z) : res Z :=
  let! _ := swapfs_clean clean_block in Ok (SWAPFS_SIZE / PGSIZE).

(** The bodies that would copy the page are commented out in the source. *)
Definition swapfs_read (entry page : Z) : Z := 0.
(** The return value, the new entry and the new [clean_block]. *)
Definition swapfs_write (clean_block entry page : Z) : res (Z * Z * Z) :=
  let empty := 0xbe421000 in
  let entry := Z.lor (Z.lor clean_block (BLOCKOFF empty)) (FLAGS entry) in
  let! _ := swapfs_clean (BLOCKBASE empty) in
  Ok (0, entry, BLOCKBASE empty).

(** [swap_init]: the return value and [swap_init_ok]; [check_swap] aside. *)
Definition swap_init `{swap_manager} (clean_block : Z) : res (Z * bool) :=
  let! max_swap_offset := swapfs_init clean_block in
  if negb ((1024 <=? max_swap_offset) && (max_swap_offset <? MAX_SWAP_OFFSET_LIMIT)) then Err KPanic
  else Ok (sm_init, sm_init =? 0).

Definition swap_init_mm `{swap_manager} (m : machine) : res (Z * option Z * machine) :=
  let! (r, priv, s) := sm_init_mm (pra m) in Ok (r, priv, set_pra s m).
Definition swap_tick_event `{swap_manager} : Z := sm_tick_event.
Definition swap_set_unswappable `{swap_manager} (addr : Z) : Z := sm_set_unswappable addr.
Definition swap_map_swappable `{swap_manager} (sm_priv : option Z) (addr page swap_in : Z) (m : machine)
    : res (Z * machine) :=
  let! (r, s) := sm_map_swappable sm_priv addr page swap_in (pra m) in Ok (r, set_pra s m).

(** ** Swapping out and in *)

(** One round of [swap_out]'s loop for a victim [page] found at [v]. *)
Definition swap_out_page `{swap_manager} (sm_priv : option Z) (pgdir v page clean_block : Z) (m : machine)
    : res (Z * machine) :=
  let! (ptep, m) := get_pte pgdir v false m in
  let! ptep := rget ptep in
  assert! negb (Z.land (load_pte ptep m) PTE_P =? 0) ;;
  let! (r, ptep_new, clean_block) := swapfs_write clean_block (load_pte ptep m) page in
  if negb (r =? 0) then
    let! (_, m) := swap_map_swappable sm_priv v page 0 m in Ok (clean_block, m)
  else
    let! m := tlb_invalidate pgdir v m in
    let! m := free_page page (store_pte ptep ptep_new m) in
    Ok (clean_block, m).

(** [pra_vaddr] holds the field of that name of every page; the result is the
    number of rounds, [clean_block] and the machine. *)
Fixpoint swap_out_loop `{swap_manager} (n : nat) (i : Z) (sm_priv : option Z) (pgdir in_tick : Z)
    (pra_vaddr : gmap Z Z) (clean_block : Z) (m : machine) : res (Z * Z * machine) :=
  match n with
  | O => Ok (i, clean_block, m)
  | S n =>
      let! (r, page, s) := sm_swap_out_victim sm_priv in_tick (pra m) in
      let m := set_pra s m in
      if negb (r =? 0) then Ok (i, clean_block, m)
      else
        let! v := rget (pra_vaddr !! page) in
        let! (clean_block, m) := swap_out_page sm_priv pgdir v page clean_block m in
        swap_out_loop n (i + 1) sm_priv pgdir in_tick pra_vaddr clean_block m
  end.
Definition swap_out `{swap_manager} (sm_priv : option Z) (pgdir n in_tick : Z)
    (pra_vaddr : gmap Z Z) (clean_block : Z) (m : machine) : res (Z * Z * machine) :=
  swap_out_loop (Z.to_nat n) 0 sm_priv pgdir in_tick pra_vaddr clean_block m.

Definition swap_in (pgdir addr : Z) (m : machine) : res (Z * Z * machine) :=
  let! (result, m) := alloc_page m in
  match result with
  | None => Err AssertFail
  | Some result =>
      let! (ptep, m) := get_pte pgdir addr false m in
      let! ptep := rget ptep in
      let r := swapfs_read (load_pte ptep m) result in
      if negb (r =? 0) then assert! negb (r =? 0) ;; Ok (0, result, m)
      else Ok (0, result, m)
  end.

(** ** What the interface promises *)

(** [repr s h l]: the queue headed by [h] holds the pages [l]. *)
Class SwapManagerLaws (SM : swap_manager) (repr : store -> Z -> list Z -> Prop) := {
  law_init_mm s : is_Some (s !! pra_list_head) ->
    exists h s', sm_init_mm s = Ok (0, Some h, s') /\ repr s' h [];
  law_map_swappable s h l addr page i : repr s h l -> page ∉ h :: l -> is_Some (s !! page) ->
    exists l' s', sm_map_swappable (Some h) addr page i s = Ok (0, s') /\ repr s' h l' /\ l' ≡ₚ page :: l;
  law_victim s h l : repr s h l -> l <> [] ->
    exists p l' s', sm_swap_out_victim (Some h) 0 s = Ok (0, p, s') /\ repr s' h l' /\ l ≡ₚ p :: l';
  law_nodup s h l : repr s h l -> NoDup l
}.

Lemma fifo_victim s h p l : dlist s h (p :: l) ->
  exists s', _fifo_swap_out_victim (Some h) 0 s = Ok (0, p, s') /\ dlist s' h l.
Proof.
  intros HL. unfold _fifo_swap_out_victim. cbn [rassert rbind Z.eqb].
  rewrite (list_next_dlist _ _ _ HL). cbn [rbind default head].
  destruct (list_del_mid s h [] p l HL) as (s' & E & _ & HL' & _).
  exists s'. split; [cbn; by rewrite E|done].
Qed.

#[export] Instance fifo_laws : SwapManagerLaws swap_manager_fifo dlist.
Proof.
  split; simpl.
  - intros s Hh. unfold _fifo_init_mm. destruct (list_init_dlist s _ Hh) as (s' & -> & _ & HL & _).
    by exists pra_list_head, s'.
  - intros s h l addr page i HL Hp Hs. unfold _fifo_map_swappable.
    destruct (list_add_before_dlist s h l page HL Hp Hs) as (s' & -> & _ & HL' & _).
    exists (l ++ [page]), s'. split; [done|]. split; [done|]. by rewrite Permutation_app_comm.
  - intros s h [|p l] HL Hne; [done|]. destruct (fifo_victim s h p l HL) as (s' & E & HL'). by exists p, l, s'.
  - intros s h l [Hnd _]. by apply NoDup_cons in Hnd as [_ ?].
Qed.

(** ** Effect of one round *)

Definition same_swap (m m' : machine) : Prop := pra m' = pra m /\ swap_init_ok m' = swap_init_ok m.

Lemma get_pte_same_swap dir la m r m' : get_pte dir la false m = Ok (r, m') -> m' = m.
Proof.
  unfold get_pte. simpl. case_match; [naive_solver|]. intros E. by inv_res.
Qed.

Lemma tlb_invalidate_same_swap dir la m m' : tlb_invalidate dir la m = Ok m' -> same_swap m m'.
Proof.
  unfold tlb_invalidate. case_match; [by intros [= <-]|]. intros E. inv_res.
  apply get_pte_same_swap in E0 as ->. destruct o as [p|]; [|by simplify_eq].
  assert (Hc : forall k n n', tlb_del_callback k n = Ok n' -> same_swap n n').
  { intros k n n' Ec. unfold tlb_del_callback in Ec. by inv_res. }
  assert (Hw : forall k a b c n n', tlb_write k a b c n = Ok n' -> same_swap n n').
  { intros k a b c n n' Ec. unfold tlb_write in Ec. by inv_res. }
  case_match; [by simplify_eq|]. inv_res. apply get_pte_same_swap in E0 as ->.
  apply Hw in E2 as [Hp2 Hs2].
  repeat case_match; inv_res;
    try match goal with Ec : tlb_del_callback _ _ = Ok _ |- _ => apply Hc in Ec as [? ?] end;
    unfold same_swap, tlb_half_del_callback in *; simpl in *; split; congruence.
Qed.

Lemma free_page_same_swap p m m' : free_page p m = Ok m' -> same_swap m m'.
Proof. unfold free_page, free_pages. intros E. by inv_res. Qed.

(** The first entry written, and the entry of every later page. *)
Definition swap_entry (clean_block : Z) : Prop := clean_block = SWAPFS_BASE \/ clean_block = 0xbe420000.

Lemma swapfs_write_spec cb e p : swap_entry cb -> is_u32 e ->
  exists v, swapfs_write cb e p = Ok (0, v, 0xbe420000) /\ is_u32 v /\ present v = false /\
    has_tlb v = false /\ v <> 0.
Proof.
  intros Hcb He. unfold swapfs_write. eexists. split; [reflexivity|].
  unfold FLAGS, BLOCKOFF. change 6 with (Z.lor 2 4). rewrite Z.land_lor_distr_r.
  assert (H2 : Z.land e 2 = 0 \/ Z.land e 2 = 2).
  { change 2 with (2 ^ 1). rewrite land_pow2. destruct (Z.testbit e 1); auto. }
  assert (H4 : Z.land e 4 = 0 \/ Z.land e 4 = 4).
  { change 4 with (2 ^ 2). rewrite land_pow2. destruct (Z.testbit e 2); auto. }
  unfold swap_entry, SWAPFS_BASE in Hcb.
  destruct Hcb as [-> | ->], H2 as [-> | ->], H4 as [-> | ->]; by vm_compute.
Qed.

(** A page in the queue of [dir]: mapped at its [pra_vaddr]. *)
Definition swappable (m : machine) (dir : Z) (vaddr : gmap Z Z) (p : Z) : Prop :=
  exists v, vaddr !! p = Some v /\ user v /\ present (entry m dir v) = true /\ PPN (entry m dir v) = p.

Lemma swap_out_page_space `{swap_manager} bs m dir priv cb v p :
  space_ok bs m dir -> user v -> present (entry m dir v) = true -> PPN (entry m dir v) = p -> swap_entry cb ->
  exists m' bs' e, swap_out_page priv dir v p cb m = Ok (0xbe420000, m') /\ space_ok bs' m' dir /\
    present e = false /\ e <> 0 /\
    (forall la, user la -> entry m' dir la = upd_ent v e (entry m dir) la) /\
    (forall i, covers bs' i <-> covers bs i \/ i = p) /\
    nr_free (pm m') = nr_free (pm m) + 1 /\ same_swap m m'.
Proof.
  intros [Hrdy Hpg Hinj] Hv Hpres Hp Hcb. destruct (Hpg v Hv Hpres) as [Hdp (pg & Hp1 & Hr)]. rewrite Hp in *.
  destruct (present_table _ _ _ Hpres) as [f Hf]. pose proof Hrdy as [Hwf _].
  unfold swap_out_page. rewrite (get_pte_lookup bs), Hf by done. cbn [rbind rget fmap option_fmap option_map].
  rewrite (load_pte_entry _ _ _ _ Hf). change (negb (Z.land (entry m dir v) PTE_P =? 0)) with (present (entry m dir v)).
  rewrite Hpres. cbn [rassert rbind].
  destruct (swapfs_write_spec cb (entry m dir v) p Hcb (entry_u32 bs m dir v Hwf)) as (e & -> & He32 & HeP & HeT & He0).
  cbn [rbind Z.eqb negb].
  destruct (tlb_invalidate_ready bs m dir v Hrdy Hv)
    as (m3 & E3 & Hrdy3 & Hpm3 & Hnp3 & Hcur3 & Hpt3 & He3 & Hno3 & Hmem3). rewrite E3. cbn [rbind].
  apply tlb_invalidate_same_swap in E3.
  assert (Hf3 : pt_of m3 dir v = Some f) by by rewrite Hpt3.
  destruct (store_ready bs m3 dir v f e Hrdy3 Hv Hf3) as [Hrdy4 He4]; [done|done|rewrite Hcur3; exact Hno3|].
  assert (Hpt4 : forall la, pt_of (store_pte (f, PTX v) e m3) dir la = pt_of m dir la).
  { intros la. rewrite (store_pte_pt_of bs) by (done || apply Hrdy3). apply Hpt3. }
  destruct (free_page_ready bs (store_pte (f, PTX v) e m3) dir p Hrdy4)
    as (m5 & bs' & E5 & Hrdy5 & Hcov5 & Hpg5 & Hnr5 & Hmem5 & Hnp5 & _).
  { destruct Hdp as [? ? ? Hpt (pg2 & Hpg2 & Hres)]. split; [cbn; congruence|done|done|..].
    - intros la f'. rewrite Hpt4. apply Hpt.
    - exists pg2. cbn [pm store_pte set_mem]. by rewrite Hpm3. }
  rewrite E5. cbn [rbind]. apply free_page_same_swap in E5.
  assert (Hpt5 : forall la, pt_of m5 dir la = pt_of m dir la).
  { intros la. rewrite <- Hpt4. unfold pt_of. by rewrite Hmem5. }
  assert (He5 : forall la, user la -> entry m5 dir la = upd_ent v e (entry m dir) la).
  { intros la Hl. transitivity (entry (store_pte (f, PTX v) e m3) dir la).
    - unfold entry, pt_of. by rewrite Hmem5.
    - rewrite He4 by done. unfold upd_ent. case_decide; [done|by apply He3]. }
  assert (Hother : forall la, user la -> present (entry m5 dir la) = true ->
    entry m5 dir la = entry m dir la /\ PPN (entry m dir la) <> p).
  { intros la Hl. rewrite He5 by done. unfold upd_ent. case_decide as Hd; [congruence|]. intros Hp'.
    split; [done|]. intros Hq. apply Hd. apply Hinj; try done. congruence. }
  exists m5, bs', e. split; [done|]. split; [|].
  - split; [done|..].
    + intros la Hl Hp'. destruct (Hother la Hl Hp') as [Heq Hne]. rewrite Heq in *.
      destruct (Hpg la Hl Hp') as [[Hr1 Hu1 Hd1 Hpt1 (pg2 & Hpg2 & Hres)] (pg3 & Hpg3 & Hr3)].
      assert (Hnc : ~ covers bs' (PPN (entry m dir la))) by (rewrite Hcov5; tauto).
      assert (Hsame : pages (pm m5) !! PPN (entry m dir la) = pages (pm m) !! PPN (entry m dir la)).
      { rewrite Hpg5 by done. cbn [pm store_pte set_mem]. by rewrite Hpm3. }
      split; [|exists pg3; by rewrite Hsame].
      split; [cbn in *; congruence|done|done| |exists pg2; by rewrite Hsame].
      intros l2 f2. rewrite Hpt5. apply Hpt1.
    + intros l1 l2 H1 H2 Hp1' Hp2'. destruct (Hother l1 H1 Hp1') as [-> _], (Hother l2 H2 Hp2') as [Heq2 _].
      rewrite Heq2 in *. destruct (Hother l1 H1 Hp1') as [He1' _]. rewrite He1' in Hp1'. by apply Hinj.
  - split_and!; try done; [cbn in Hnr5; by rewrite Hnr5, Hpm3|].
    destruct E3, E5. unfold same_swap in *. simpl in *. split; congruence.
Qed.

Lemma set_pra_space bs m dir s : space_ok bs m dir -> space_ok bs (set_pra s m) dir.
Proof.
  intros [[[? ? ? ? ? ?] ?] Hpgs ?]. split; [split; [by split|done]| |done].
  intros la Hl Hpl. destruct (Hpgs la Hl Hpl) as [[] ?]. by split.
Qed.

Section swap_out.
  Context `{SM : swap_manager} (repr : store -> Z -> list Z -> Prop) `{!SwapManagerLaws SM repr}.

  (** What [swap_out] does to the pages [victims]. *)
Record swapped_out (bs bs' : list block) (m m' : machine) (dir : Z) (victims : list Z) : Prop := {
    so_space : space_ok bs' m' dir;
    so_covers : forall i, covers bs' i <-> covers bs i \/ i ∈ victims;
    so_free : nr_free (pm m') = nr_free (pm m) + Z.of_nat (length victims);
    so_gone : forall la, user la -> present (entry m dir la) = true -> PPN (entry m dir la) ∈ victims ->
      present (entry m' dir la) = false /\ entry m' dir la <> 0;
    so_rest : forall la, user la -> ~ (present (entry m dir la) = true /\ PPN (entry m dir la) ∈ victims) ->
      entry m' dir la = entry m dir la
  }.

Lemma swapped_out_nil bs m m' dir : space_ok bs m dir -> m' = m -> swapped_out bs bs m m' dir [].
  Proof. intros Hs ->. split; try done; simpl; try lia; set_solver. Qed.

  (** One more victim in front. *)
Lemma swapped_out_cons bs bs1 bs2 m m1 m2 dir v e p vs :
    space_ok bs m dir -> user v -> present (entry m dir v) = true -> PPN (entry m dir v) = p ->
    present e = false -> e <> 0 ->
    (forall la, user la -> entry m1 dir la = upd_ent v e (entry m dir) la) ->
    (forall i, covers bs1 i <-> covers bs i \/ i = p) -> nr_free (pm m1) = nr_free (pm m) + 1 ->
    swapped_out bs1 bs2 m1 m2 dir vs -> swapped_out bs bs2 m m2 dir (p :: vs).
  Proof.
    intros Hs Hv Hpv Hp He He0 Hent Hcov Hnr [Hs2 Hc2 Hn2 Hg2 Hr2].
    assert (Hpage : forall la, user la -> present (entry m dir la) = true -> PPN (entry m dir la) = p ->
      v / 4096 = la / 4096).
    { intros la Hl Hpl Hq. apply (sp_inj _ _ _ Hs); try done. congruence. }
    split; [done|..].
    - intros i. rewrite Hc2, Hcov, elem_of_cons. tauto.
    - rewrite Hn2, Hnr. simpl length. lia.
    - intros la Hl Hpl Hin. destruct (decide (v / 4096 = la / 4096)) as [Hd|Hd].
      + assert (Hla : entry m1 dir la = e) by (rewrite Hent by done; by apply upd_ent_eq).
        rewrite Hr2; [rewrite Hla; done|done|]. rewrite Hla, He. naive_solver.
      + assert (Hla : entry m1 dir la = entry m dir la) by (rewrite Hent by done; by apply upd_ent_ne).
        apply Hg2; rewrite ?Hla; try done.
        apply elem_of_cons in Hin as [Hq|?]; [|done]. by destruct Hd; apply Hpage.
    - intros la Hl Hno. destruct (decide (v / 4096 = la / 4096)) as [Hd|Hd].
      + exfalso. apply Hno. rewrite <- (entry_same_page m dir v la) by done. rewrite Hp. set_solver.
      + assert (Hla : entry m1 dir la = entry m dir la) by (rewrite Hent by done; by apply upd_ent_ne).
        rewrite Hr2, Hla; [done..|]. rewrite Hla. set_solver.
  Qed.

Lemma swap_out_loop_Ok dir h vaddr n : forall bs m l cb i,
    space_ok bs m dir -> repr (pra m) h l -> (forall p, p ∈ l -> swappable m dir vaddr p) -> swap_entry cb ->
    (n <= length l)%nat ->
    exists victims rest m' bs' cb',
      swap_out_loop n i (Some h) dir 0 vaddr cb m = Ok (i + Z.of_nat n, cb', m') /\
      l ≡ₚ victims ++ rest /\ length victims = n /\ repr (pra m') h rest /\ swap_entry cb' /\
      (forall p, p ∈ rest -> swappable m' dir vaddr p) /\ swapped_out bs bs' m m' dir victims.
  Proof.
    induction n as [|n IH]; intros bs m l cb i Hs HL Hsw Hcb Hlen.
    { exists [], l, m, bs, cb. simpl. rewrite Z.add_0_r. split_and!; try done. by apply swapped_out_nil. }
    destruct (law_victim _ _ _ HL) as (p & l' & s' & E & HL' & Hperm); [intros ->; simpl in Hlen; lia|].
    simpl. rewrite E. cbn [rbind Z.eqb negb].
    destruct (Hsw p) as (v & Hv & Huv & Hpres & Hp); [rewrite Hperm; set_solver|].
    rewrite Hv. cbn [rbind rget].
    assert (Hs0 : space_ok bs (set_pra s' m) dir) by by apply set_pra_space.
    destruct (swap_out_page_space bs (set_pra s' m) dir (Some h) cb v p Hs0 Huv Hpres Hp Hcb)
      as (m1 & bs1 & e & E1 & Hs1 & HeP & He0 & Hent & Hcov & Hnr & Hpra & _).
    rewrite E1. cbn [rbind]. cbn [set_pra pra] in Hpra.
    assert (Hnd : NoDup (p :: l')) by (apply (NoDup_perm _ _ Hperm), (law_nodup _ _ _ HL)).
    apply NoDup_cons in Hnd as [Hpl' Hnd].
    assert (Hsw1 : forall q, q ∈ l' -> swappable m1 dir vaddr q).
    { intros q Hq. destruct (Hsw q) as (w & Hw & Huw & Hpw & Hqw); [rewrite Hperm; set_solver|].
      assert (Hd : v / 4096 <> w / 4096).
      { intros Hd. change (entry (set_pra s' m) dir v) with (entry m dir v) in Hp.
        rewrite (entry_same_page m dir v w) in Hp by done. congruence. }
      exists w. rewrite Hent, upd_ent_ne by done. done. }
    destruct (IH bs1 m1 l' 0xbe420000 (i + 1)) as (vs & rest & m2 & bs2 & cb' & E2 & Hpm & Hlv & HL2 & Hcb' & Hsw2 & Hso);
      [done|by rewrite Hpra|done|by right|apply Permutation_length in Hperm; simpl in *; lia|].
    exists (p :: vs), rest, m2, bs2, cb'. split; [rewrite E2; f_equal; do 2 f_equal; lia|].
    split; [by rewrite Hperm, Hpm|]. split; [simpl; by rewrite Hlv|]. split_and!; try done.
    by eapply (swapped_out_cons bs bs1 bs2 m m1 m2 dir v e).
  Qed.
End swap_out.

(** ** Properties *)

(** C13: under any replacement policy that keeps the promises of
    [SwapManagerLaws], [swap_out] of [n] of the queued pages of an address
    space does all its rounds without a fault: [n] distinct queued pages are
    back on the free list, exactly their mappings are replaced by a non-zero
    entry that is not present, and the address space keeps its invariant. *)
Theorem swap_out_frees (SM : swap_manager) (repr : store -> Z -> list Z -> Prop)
    (laws : SwapManagerLaws SM repr) (bs : list block) (m : machine) (dir h : Z) (l : list Z)
    (vaddr : gmap Z Z) (cb n : Z) :
  space_ok bs m dir -> repr (pra m) h l -> (forall p, p ∈ l -> swappable m dir vaddr p) ->
  swap_entry cb -> 0 <= n <= Z.of_nat (length l) ->
  exists victims rest m' bs' cb',
    swap_out (Some h) dir n 0 vaddr cb m = Ok (n, cb', m') /\
    l ≡ₚ victims ++ rest /\ Z.of_nat (length victims) = n /\ repr (pra m') h rest /\
    swapped_out bs bs' m m' dir victims.
Proof.
  intros Hs HL Hsw Hcb Hn.
  destruct (swap_out_loop_Ok repr dir h vaddr (Z.to_nat n) bs m l cb 0) as (vs & rest & m' & bs' & cb' & E & ? & Hl & ? & _ & _ & ?);
    [done..|lia|].
  exists vs, rest, m', bs', cb'. unfold swap_out. rewrite E. split; [do 3 f_equal; lia|].
  split; [done|]. split; [lia|done].
Qed.

(** C23: the FIFO policy: a page made swappable goes to the end of the queue
    and the victim is the page that has been in it longest.  With an empty
    queue the "victim" is the list head, which belongs to no page; and
    [_fifo_init_mm], called for every new [mm_struct], empties the one queue
    all address spaces share. *)
Theorem fifo_replaces_oldest (s : store) (h : Z) (l : list Z) :
  dlist s h l ->
  (forall addr page i, page ∉ h :: l -> is_Some (s !! page) ->
     exists s', _fifo_map_swappable (Some h) addr page i s = Ok (0, s') /\ dlist s' h (l ++ [page])) /\
  (exists s', _fifo_swap_out_victim (Some h) 0 s = Ok (0, default h (head l), s') /\ dlist s' h (tail l)) /\
  (h = pra_list_head -> exists s', _fifo_init_mm s = Ok (0, Some h, s') /\ dlist s' h []).
Proof.
  intros HL. split_and!.
  - intros addr page i Hp Hs. unfold _fifo_map_swappable.
    destruct (list_add_before_dlist s h l page HL Hp Hs) as (s' & -> & _ & HL' & _). by exists s'.
  - destruct l as [|p l]; [|by apply fifo_victim].
    unfold _fifo_swap_out_victim. cbn [rassert rbind Z.eqb]. rewrite (list_next_dlist _ _ _ HL). cbn [rbind default head].
    unfold list_del. rewrite (list_next_dlist _ _ _ HL), (list_prev_dlist _ _ _ HL). cbn [rbind default head last].
    destruct HL as [Hnd [Hn Hp]]. destruct (__list_del_Ok s h h) as (s' & -> & _ & Hn' & Hp').
    { unfold nxt in Hn. destruct (s !! h); [eauto|done]. }
    { unfold nxt in Hn. destruct (s !! h); [eauto|done]. }
    exists s'. split; [done|]. split; [done|]. split; [rewrite Hn'|rewrite Hp']; by rewrite bool_decide_true.
  - intros ->. unfold _fifo_init_mm.
    destruct (list_init_dlist s pra_list_head) as (s' & -> & _ & HL' & _); [|by exists s'].
    eapply dlist_lookup; [done|]. by left.
Qed.

(** *** Concrete inputs *)

Definition queue_of (p : Z) : store :=
  {[ pra_list_head := mk_entry p p; p := mk_entry pra_list_head pra_list_head ]}.

Lemma queue_of_dlist p : 0 <= p -> dlist (queue_of p) pra_list_head [p].
Proof.
  intros Hp. unfold pra_list_head. split.
  - repeat constructor; [|set_solver..]. intros ?%list_elem_of_singleton. lia.
  - unfold queue_of, pra_list_head, seg, linked, nxt, prv.
    rewrite lookup_insert_eq, lookup_insert_ne by lia. by rewrite lookup_singleton_eq.
Qed.

Lemma fifo_replaces_oldest_witness :
  exists s', _fifo_swap_out_victim (Some pra_list_head) 0 (queue_of 5) = Ok (0, 5, s') /\
    dlist s' pra_list_head [].
Proof. apply (fifo_replaces_oldest (queue_of 5) pra_list_head [5]). apply queue_of_dlist. lia. Defined.

Lemma swap_out_frees_witness :
  exists bs m p victims rest m' bs' cb',
    present (entry m 1 0x00800000) = true /\ PPN (entry m 1 0x00800000) = p /\
    swap_out (Some pra_list_head) 1 1 0 {[ p := 0x00800000 ]} SWAPFS_BASE m = Ok (1, cb', m') /\
    [p] ≡ₚ victims ++ rest /\ Z.of_nat (length victims) = 1 /\ dlist (pra m') pra_list_head rest /\
    swapped_out bs bs' m m' 1 victims.
Proof.
  destruct one_page_space as (bs & m & Hs & Hp). set (p := PPN (entry m 1 0x00800000)).
  assert (Hu : user 0x00800000) by (unfold user, KERNBASE; lia).
  assert (Hp0 : 0 <= p) by apply (sp_page _ _ _ Hs _ Hu Hp).
  assert (Hs' : space_ok bs (set_pra (queue_of p) m) 1) by by apply set_pra_space.
  destruct (swap_out_frees swap_manager_fifo dlist fifo_laws bs (set_pra (queue_of p) m) 1 pra_list_head [p]
    {[ p := 0x00800000 ]} SWAPFS_BASE 1 Hs') as (vs & rest & m' & bs' & cb' & H).
  - by apply queue_of_dlist.
  - intros q ->%list_elem_of_singleton. exists 0x00800000. by rewrite lookup_singleton_eq.
  - by left.
  - simpl. lia.
  - exists bs, (set_pra (queue_of p) m), p, vs, rest, m', bs', cb'. split; [exact Hp|]. split; [done|exact H].
Defined.
