(* ===== verification/Vmm.v ===== *)
(** * Virtual memory areas (kern/mm/vmm.c, kern/mm/vmm.h)

    An address space is a list of areas kept in address order plus the page
    tables of [PageTable].  [mmap_list] is the content of the kernel's linked
    list (each loop over it is [DList.list_scan] on the embedded nodes, which
    [DList] reduces to this list); areas are never modified once inserted, so
    [mmap_cache] holds the area itself.  Whether [kmalloc] finds memory for a
    new area is an argument of the operations that allocate one.  The lock of
    the structure ([mm_sem], [locked_by]) is a semaphore of [Sync]. *)
From S2P Require Import Prelude DList Blocks Atomic Arith CString DefaultPmm PageTable Tlb Pmm Swap.

(** ** Data *)

Record vma_struct := mk_vma { vm_start : Z; vm_end : Z; vm_flags : Z }.

#[export] Instance vma_eq_dec : EqDecision vma_struct.
Proof. solve_decision. Defined.

Definition VM_READ : Z := 1.
Definition VM_WRITE : Z := 2.
Definition VM_EXEC : Z := 4.
Definition VM_STACK : Z := 8.

Record mm_struct := mk_mm {
  mmap_list : list vma_struct;
  mmap_cache : option vma_struct;
  pgdir : Z;
  map_count : Z;
  sm_priv : option Z;
  mm_count : Z
}.

Definition set_list (l : list vma_struct) (mm : mm_struct) : mm_struct :=
  mk_mm l (mmap_cache mm) (pgdir mm) (map_count mm) (sm_priv mm) (mm_count mm).
Definition set_cache (c : option vma_struct) (mm : mm_struct) : mm_struct :=
  mk_mm (mmap_list mm) c (pgdir mm) (map_count mm) (sm_priv mm) (mm_count mm).
Definition set_map_count (v : Z) (mm : mm_struct) : mm_struct :=
  mk_mm (mmap_list mm) (mmap_cache mm) (pgdir mm) v (sm_priv mm) (mm_count mm).
Definition set_mm_count (mm : mm_struct) (val : Z) : mm_struct :=
  mk_mm (mmap_list mm) (mmap_cache mm) (pgdir mm) (map_count mm) (sm_priv mm) val.
Definition mm_count_inc (mm : mm_struct) : Z * mm_struct :=
  let v := s32 (mm_count mm + 1) in (v, set_mm_count mm v).
Definition mm_count_dec (mm : mm_struct) : Z * mm_struct :=
  let v := s32 (mm_count mm - 1) in (v, set_mm_count mm v).

(** ** Creation and lookup *)

(** [kmalloc_ok] says whether [kmalloc] returned memory. *)
Definition mm_create (kmalloc_ok : bool) (m : machine) : res (option mm_struct * machine) :=
  if kmalloc_ok then
    let! (priv, m) := (if swap_init_ok m then
                         let! (_, priv, m) := swap_init_mm m in Ok (priv, m)
                       else Ok (None, m)) in
    Ok (Some (mk_mm [] None 0 0 priv 0), m)
  else Ok (None, m).

Definition vma_create (kmalloc_ok : bool) (start end_ flags : Z) : option vma_struct :=
  if kmalloc_ok then Some (mk_vma start end_ flags) else None.

Definition in_vma (addr : Z) (v : vma_struct) : bool := (vm_start v <=? addr) && (addr <? vm_end v).

(** The area containing [addr]; the cache is tried first and updated. *)
Definition find_vma (mm : mm_struct) (addr : Z) : option vma_struct * mm_struct :=
  let vma := mmap_cache mm in
  let hit := match vma with
             | Some v => (vm_start v <=? addr) && (addr <? vm_end v)
             | None => false
             end in
  let vma := if hit then vma else find (in_vma addr) (mmap_list mm) in
  (vma, match vma with Some v => set_cache (Some v) mm | None => mm end).

(** ** Insertion *)

Definition check_vma_overlap (prev next : vma_struct) : res unit :=
  assert! vm_start prev <? vm_end prev ;;
  assert! vm_end prev <=? vm_start next ;;
  assert! vm_start next <? vm_end next ;; Ok tt.

(** The loop that looks for [le_prev]: the entries up to it, and the rest. *)
Fixpoint insert_scan (start : Z) (before l : list vma_struct) : list vma_struct * list vma_struct :=
  match l with
  | [] => (before, [])
  | v :: l' => if start <? vm_start v then (before, l) else insert_scan start (before ++ [v]) l'
  end.

Definition insert_vma_struct (mm : mm_struct) (vma : vma_struct) : res mm_struct :=
  assert! vm_start vma <? vm_end vma ;;
  let '(before, after) := insert_scan (vm_start vma) [] (mmap_list mm) in
  let! _ := match last before with
            | Some p => check_vma_overlap p vma
            | None => Ok tt
            end in
  let! _ := match head after with
            | Some n => check_vma_overlap vma n
            | None => Ok tt
            end in
  Ok (set_map_count (s32 (map_count mm + 1)) (set_list (before ++ vma :: after) mm)).

(** The areas given back to [kfree], first to last; [mm] itself is freed
    after them. *)
Definition mm_destroy (mm : mm_struct) : res (list vma_struct) :=
  assert! mm_count mm =? 0 ;; Ok (mmap_list mm).

(** The C return value, the area stored through [vma_store], the new mm. *)
Definition mm_map (kmalloc_ok : bool) (mm : mm_struct) (addr len flags : Z)
    : res (Z * option vma_struct * mm_struct) :=
  let start := ROUNDDOWN addr PGSIZE in
  let end_ := ROUNDUP (u32 (addr + len)) PGSIZE in
  if negb (USER_ACCESS start end_) then Ok (- E_INVAL, None, mm)
  else
    let '(vma, mm) := find_vma mm start in
    if match vma with Some v => vm_start v <? end_ | None => false end then Ok (- E_INVAL, None, mm)
    else
      match vma_create kmalloc_ok start end_ flags with
      | None => Ok (- E_NO_MEM, None, mm)
      | Some vma =>
          let! mm := insert_vma_struct mm vma in
          Ok (0, Some vma, mm)
      end.

(** [dup_mmap]: the areas of [from], last first, are inserted in [to] and
    their pages copied; [oks] says for each whether [kmalloc] succeeds. *)
Fixpoint dup_loop (areas : list vma_struct) (oks : list bool) (to : mm_struct) (from_pgdir : Z)
    (m : machine) : res (Z * mm_struct * machine) :=
  match areas with
  | [] => Ok (0, to, m)
  | vma :: areas =>
      let ok := match oks with [] => true | b :: _ => b end in
      match vma_create ok (vm_start vma) (vm_end vma) (vm_flags vma) with
      | None => Ok (- E_NO_MEM, to, m)
      | Some nvma =>
          let! to := insert_vma_struct to nvma in
          let! (r, m) := copy_range (pgdir to) from_pgdir (vm_start vma) (vm_end vma) m in
          if negb (r =? 0) then Ok (- E_NO_MEM, to, m)
          else dup_loop areas (tail oks) to from_pgdir m
      end
  end.

Definition dup_mmap (oks : list bool) (to from : mm_struct) (m : machine)
    : res (Z * mm_struct * machine) :=
  dup_loop (reverse (mmap_list from)) oks to (pgdir from) m.

Fixpoint exit_unmap (areas : list vma_struct) (dir : Z) (m : machine) : res machine :=
  match areas with
  | [] => Ok m
  | v :: areas => let! m := unmap_range dir (vm_start v) (vm_end v) m in exit_unmap areas dir m
  end.
Fixpoint exit_tables (areas : list vma_struct) (dir : Z) (m : machine) : res machine :=
  match areas with
  | [] => Ok m
  | v :: areas => let! m := exit_range dir (vm_start v) (vm_end v) m in exit_tables areas dir m
  end.
Definition exit_mmap (mm : mm_struct) (m : machine) : res machine :=
  assert! mm_count mm =? 0 ;;
  let! m := exit_unmap (mmap_list mm) (pgdir mm) m in
  exit_tables (mmap_list mm) (pgdir mm) m.

(** ** Page faults *)

Definition has_flag (flags f : Z) : bool := negb (Z.land flags f =? 0).

(** Whether [do_pgfault] lets the access through ([error_code & 3]: bit 0
    present, bit 1 write). *)
Definition fault_allowed (error_code flags : Z) : bool :=
  match Z.land error_code 3 with
  | 1 => false
  | 0 => has_flag flags (Z.lor VM_READ VM_EXEC)
  | _ => has_flag flags VM_WRITE
  end.

(** An entry that is not zero is taken for a swap entry. *)
Definition do_pgfault (mm : mm_struct) (error_code addr : Z) (m : machine)
    : res (Z * mm_struct * machine) :=
  let '(vma, mm) := find_vma mm addr in
  match vma with
  | None => Ok (- E_INVAL, mm, m)
  | Some vma =>
      if addr <? vm_start vma then Ok (- E_INVAL, mm, m)
      else if negb (fault_allowed error_code (vm_flags vma)) then Ok (- E_INVAL, mm, m)
      else
        let perm := if has_flag (vm_flags vma) VM_WRITE then Z.lor PTE_U PTE_W else PTE_U in
        let addr := ROUNDDOWN addr PGSIZE in
        let! (ptep, m) := get_pte (pgdir mm) addr true m in
        let! ptep := rget ptep in
        if load_pte ptep m =? 0 then
          let! (_, m) := pgdir_alloc_page (pgdir mm) addr perm m in
          Ok (0, mm, m)
        else if swap_init_ok m then
          let! (_, page, m) := swap_in (pgdir mm) addr m in
          let! (_, m) := page_insert (pgdir mm) page addr perm m in
          let! (_, m) := swap_map_swappable (sm_priv mm) addr page 23 m in
          Ok (0, mm, m)
        else Ok (- E_NO_MEM, mm, m)
  end.

(** ** A miss of the TLB (tlb.c)

    [current] is the running process by its address space, [None] before there
    is one; [cause] and [la] are the registers Cause and BadVAddr, [kernel] says
    where the trap came from.  [check_mm_struct] is NULL (see [PageTable]). *)
Inductive miss := Loaded (mm : option mm_struct) | Killed (mm : mm_struct).

Definition EXC_TLBS : Z := 3.

Definition is_mapped (ptep : option (Z * Z)) (m : machine) : bool :=
  match ptep with Some p => present (load_pte p m) | None => false end.

Definition tlb_miss_handler (current : option (option mm_struct)) (cause la : Z) (kernel : bool) (m : machine) : res (miss * machine) :=
  match cur_pgdir m with
  | None => Err AssertFail
  | Some dir =>
      let! (ptep, m) := get_pte dir la false m in
      if is_mapped ptep m then
        let! p := rget ptep in
        let! m := tlb_refill la p m in Ok (Loaded (default None current), m)
      else
        match current with
        | None => Err KPanic
        | Some None => Err AssertFail
        | Some (Some mm) =>
            assert! pgdir mm =? dir ;;
            let error_code := if Z.land (Z.shiftr cause 2) 0x1f =? EXC_TLBS then 2 else 0 in
            let! (ret, mm, m) := do_pgfault mm error_code la m in
            if negb (ret =? 0) then if kernel then Err KPanic else Ok (Killed mm, m)
            else
              let! (ptep, m) := get_pte dir la false m in
              let! p := rget ptep in
              let! m := tlb_refill la p m in Ok (Loaded (Some mm), m)
        end
  end.

(** ** Checks of user memory *)

Fixpoint user_mem_loop (fuel : nat) (mm : mm_struct) (start end_ : Z) (write : bool)
    : res (bool * mm_struct) :=
  match fuel with
  | O => Err OutOfFuel
  | S fuel =>
      if start <? end_ then
        let '(vma, mm) := find_vma mm start in
        match vma with
        | None => Ok (false, mm)
        | Some vma =>
            if start <? vm_start vma then Ok (false, mm)
            else if negb (has_flag (vm_flags vma) (if write then VM_WRITE else VM_READ)) then Ok (false, mm)
            else if write && has_flag (vm_flags vma) VM_STACK && (start <? u32 (vm_start vma + PGSIZE))
            then Ok (false, mm)
            else user_mem_loop fuel mm (vm_end vma) end_ write
        end
      else Ok (true, mm)
  end.

(** [None] is a kernel thread ([mm == NULL]). *)
Definition user_mem_check (mm : option mm_struct) (addr len : Z) (write : bool)
    : res (bool * option mm_struct) :=
  match mm with
  | Some mm =>
      if negb (USER_ACCESS addr (u32 (addr + len))) then Ok (false, Some mm)
      else
        let! (b, mm) := user_mem_loop (S (S (length (mmap_list mm)))) mm addr (u32 (addr + len)) write in
        Ok (b, Some mm)
  | None => Ok (KERN_ACCESS addr (u32 (addr + len)), None)
  end.

(** [memcpy] between user and kernel memory, checked first: the memory after
    it and the answer. *)
Definition copy_from_user (mm : option mm_struct) (dst src len : Z) (writable : bool) (b : Z -> Z)
    : res (bool * option mm_struct * (Z -> Z)) :=
  let! (ok, mm) := user_mem_check mm src len writable in
  if negb ok then Ok (false, mm, b)
  else let! b := memcpy dst src len b in Ok (true, mm, b).

Definition copy_to_user (mm : option mm_struct) (dst src len : Z) (b : Z -> Z)
    : res (bool * option mm_struct * (Z -> Z)) :=
  let! (ok, mm) := user_mem_check mm dst len true in
  if negb ok then Ok (false, mm, b)
  else let! b := memcpy dst src len b in Ok (true, mm, b).

Definition copy_string_body (s : option mm_struct * Z * Z * Z * Z * (Z -> Z))
    : res (option mm_struct * Z * Z * Z * Z * (Z -> Z) + bool * option mm_struct * (Z -> Z)) :=
  let '(mm, dst, src, maxn, part, b) := s in
  let part := if maxn <? part then maxn else part in
  let! (ok, mm) := user_mem_check mm src part false in
  if negb ok then Ok (inr (false, mm, b))
  else
    let! alen := strnlen b src part in
    if alen <? part then
      let! b := memcpy dst src (alen + 1) b in Ok (inr (true, mm, b))
    else if part =? maxn then Ok (inr (false, mm, b))
    else
      let! b := memcpy dst src part b in
      Ok (inl (mm, dst + part, src + part, maxn - part, PGSIZE, b)).

Definition copy_string (mm : option mm_struct) (dst src maxn : Z) (b : Z -> Z)
    : res (bool * option mm_struct * (Z -> Z)) :=
  loop copy_string_body (mm, dst, src, maxn, u32 (ROUNDDOWN (u32 (src + PGSIZE)) PGSIZE - src), b).

(** ** The invariant of an address space *)

(** Areas in address order, not empty, not overlapping, from [lo] on. *)
Fixpoint vl_ok (lo : Z) (l : list vma_struct) : Prop :=
  match l with
  | [] => True
  | v :: l => lo <= vm_start v < vm_end v /\ vl_ok (vm_end v) l
  end.
Definition last_end (lo : Z) (l : list vma_struct) : Z := from_option vm_end lo (last l).

Record mm_ok (mm : mm_struct) : Prop := {
  mm_areas : vl_ok 0 (mmap_list mm);
  mm_top : forall v, v ∈ mmap_list mm -> vm_end v <= USERTOP;
  mm_cache : forall v, mmap_cache mm = Some v -> v ∈ mmap_list mm;
  mm_size : map_count mm = Z.of_nat (length (mmap_list mm)) /\ map_count mm < 2147483647
}.

Definition disjoint_from (v w : vma_struct) : Prop := vm_end w <= vm_start v \/ vm_end v <= vm_start w.

#[export] Instance disjoint_from_dec v w : Decision (disjoint_from v w).
Proof. unfold disjoint_from. apply _. Defined.

Lemma vl_app lo l1 l2 : vl_ok lo (l1 ++ l2) <-> vl_ok lo l1 /\ vl_ok (last_end lo l1) l2.
Proof.
  revert lo. induction l1 as [|v l1 IH]; intros lo; simpl; [tauto|]. rewrite IH.
  replace (last_end lo (v :: l1)) with (last_end (vm_end v) l1); [tauto|].
  unfold last_end. rewrite last_cons. by destruct (last l1).
Qed.

Lemma vl_elem lo l w : vl_ok lo l -> w ∈ l -> lo <= vm_start w < vm_end w /\ vm_end w <= last_end lo l.
Proof.
  intros Hl (l1 & l2 & ->)%list_elem_of_split. apply vl_app in Hl as [H1 [Hw H2]].
  assert (Hmono : forall lo l, vl_ok lo l -> lo <= last_end lo l).
  { clear. intros lo l. revert lo. induction l as [|v l IH]; intros lo; [done|]. intros [Hv Hl].
    apply IH in Hl. unfold last_end in *. rewrite last_cons. destruct (last l); simpl in *; lia. }
  pose proof (Hmono _ _ H1). pose proof (Hmono _ _ H2).
  assert (Hle : last_end lo (l1 ++ w :: l2) = last_end (vm_end w) l2).
  { unfold last_end. rewrite last_app, last_cons. by destruct (last l2). }
  rewrite Hle. lia.
Qed.

Lemma vl_inj lo l v w a : vl_ok lo l -> v ∈ l -> w ∈ l -> in_vma a v = true -> in_vma a w = true -> v = w.
Proof.
  revert lo. induction l as [|u l IH]; intros lo; [set_solver|]. intros [Hu Hl] Hv Hw Hav Haw.
  unfold in_vma in *. apply elem_of_cons in Hv as [->|Hv], Hw as [->|Hw]; try done; [..|by eapply IH].
  - destruct (vl_elem _ _ _ Hl Hw). lia.
  - destruct (vl_elem _ _ _ Hl Hv). lia.
Qed.

Lemma find_vma_spec mm a : mm_ok mm ->
  exists mm', find_vma mm a = (find (in_vma a) (mmap_list mm), mm') /\ mm_ok mm' /\
    mmap_list mm' = mmap_list mm /\ pgdir mm' = pgdir mm /\ sm_priv mm' = sm_priv mm /\ mm_count mm' = mm_count mm.
Proof.
  intros [Ha Ht Hc Hs].
  assert (Hhit : forall v, mmap_cache mm = Some v -> in_vma a v = true -> find (in_vma a) (mmap_list mm) = Some v).
  { intros v Hv Hin. destruct (find (in_vma a) (mmap_list mm)) as [w|] eqn:Hf.
    - apply find_some in Hf as [Hw Haw]. f_equal. eapply vl_inj; try done; [by apply list_elem_of_In|by apply Hc].
    - eapply find_none in Hf; [|by apply list_elem_of_In, (Hc v)]. congruence. }
  assert (Hfound : forall v, find (in_vma a) (mmap_list mm) = Some v -> v ∈ mmap_list mm).
  { intros v [Hv _]%find_some. by apply list_elem_of_In. }
  assert (Hr : find_vma mm a = (find (in_vma a) (mmap_list mm),
    match find (in_vma a) (mmap_list mm) with Some v => set_cache (Some v) mm | None => mm end)).
  { unfold find_vma. destruct (mmap_cache mm) as [v|]; [|done].
    change ((vm_start v <=? a) && (a <? vm_end v)) with (in_vma a v).
    destruct (in_vma a v) eqn:Hin; [by rewrite (Hhit v)|done]. }
  rewrite Hr. eexists. split; [done|].
  destruct (find (in_vma a) (mmap_list mm)) as [v|] eqn:Hf; (split; [split|]; try done).
Qed.

(** ** Insertion *)

Lemma insert_scan_spec start before l : exists l1 l2,
  insert_scan start before l = (before ++ l1, l2) /\ l = l1 ++ l2 /\
  (forall v, v ∈ l1 -> vm_start v <= start) /\ (forall v, head l2 = Some v -> start < vm_start v).
Proof.
  revert before. induction l as [|v l IH]; intros before; simpl.
  { exists [], []. rewrite app_nil_r. split_and!; try done. set_solver. }
  destruct (Z.ltb_spec start (vm_start v)) as [Hlt|Hge].
  - exists [], (v :: l). rewrite app_nil_r. split_and!; try done; [set_solver|by intros ? [= <-]].
  - destruct (IH (before ++ [v])) as (l1 & l2 & -> & -> & H1 & H2). exists (v :: l1), l2.
    rewrite <- app_assoc. split_and!; try done. intros w [->|?]%elem_of_cons; auto.
Qed.

Lemma overlap_ok p n : vm_start p < vm_end p -> vm_start n < vm_end n ->
  check_vma_overlap p n = if vm_end p <=? vm_start n then Ok tt else Err AssertFail.
Proof.
  intros Hp Hn. unfold check_vma_overlap.
  destruct (Z.ltb_spec (vm_start p) (vm_end p)); [|lia].
  destruct (Z.ltb_spec (vm_start n) (vm_end n)); [|lia]. by destruct (_ <=? _).
Qed.

(** Only the neighbours of the place of insertion matter. *)
Lemma neighbours_disjoint l1 l2 v :
  vl_ok 0 (l1 ++ l2) -> vm_start v < vm_end v -> 0 <= vm_start v ->
  (forall w, w ∈ l1 -> vm_start w <= vm_start v) -> (forall w, head l2 = Some w -> vm_start v < vm_start w) ->
  (forall w, w ∈ l1 ++ l2 -> disjoint_from v w) <->
  last_end 0 l1 <= vm_start v /\ (forall n, head l2 = Some n -> vm_end v <= vm_start n).
Proof.
  intros Hl Hv H0 H1 H2. pose proof (proj1 (vl_app _ _ _) Hl) as [Hl1 Hl2]. split.
  - intros Hd. split.
    + unfold last_end. destruct (last l1) as [p|] eqn:Hp; simpl; [|done].
      apply last_Some in Hp as [k ->]. destruct (Hd p) as [?|?]; [set_solver|done|].
      assert (vm_start p <= vm_start v) by (apply H1; set_solver).
      destruct (vl_elem _ _ p Hl); [set_solver|]. lia.
    + intros n Hn. destruct l2 as [|n' l2]; [done|]. injection Hn as ->.
      destruct (Hd n) as [?|?]; [set_solver| |done]. specialize (H2 n eq_refl).
      destruct (vl_elem _ _ n Hl); [set_solver|]. lia.
  - intros [Ha Hb] w [Hw|Hw]%elem_of_app; unfold disjoint_from.
    + left. destruct (vl_elem _ _ w Hl1 Hw). lia.
    + right. destruct l2 as [|n l2]; [set_solver|]. specialize (Hb n eq_refl).
      apply elem_of_cons in Hw as [->|Hw]; [done|]. destruct Hl2 as [? Hl2]. destruct (vl_elem _ _ w Hl2 Hw). lia.
Qed.

Lemma insert_vma_spec mm v : mm_ok mm -> 0 <= vm_start v -> vm_end v <= USERTOP ->
  Z.of_nat (length (mmap_list mm)) < 2147483646 ->
  (vm_start v < vm_end v /\ (forall w, w ∈ mmap_list mm -> disjoint_from v w) ->
    exists mm', insert_vma_struct mm v = Ok mm' /\ mm_ok mm' /\ mmap_list mm' ≡ₚ v :: mmap_list mm /\
      pgdir mm' = pgdir mm /\ sm_priv mm' = sm_priv mm) /\
  (~ (vm_start v < vm_end v /\ forall w, w ∈ mmap_list mm -> disjoint_from v w) ->
    insert_vma_struct mm v = Err AssertFail).
Proof.
  intros [Ha Ht Hc [Hn Hs]] H0 Htop Hsz. unfold insert_vma_struct.
  destruct (Z.ltb_spec (vm_start v) (vm_end v)) as [Hv|Hv]; cbn [rassert rbind]; [|split; [intros []; lia|done]].
  destruct (insert_scan_spec (vm_start v) [] (mmap_list mm)) as (l1 & l2 & E & El & H1 & H2).
  rewrite E. simpl app in *. rewrite El in Ha. pose proof (proj1 (vl_app _ _ _) Ha) as [Hl1 Hl2].
  pose proof (neighbours_disjoint l1 l2 v Ha Hv H0 H1 H2) as Hnb. rewrite El.
  assert (Ep : match last l1 with Some p => check_vma_overlap p v | None => Ok tt end =
    if last_end 0 l1 <=? vm_start v then Ok tt else Err AssertFail).
  { unfold last_end. destruct (last l1) as [p|] eqn:Hp; simpl; [|by rewrite (proj2 (Z.leb_le _ _) H0)].
    apply overlap_ok; [|done]. apply last_Some in Hp as [k ->]. destruct (vl_elem _ _ p Ha); [set_solver|]. lia. }
  assert (En : match head l2 with Some n => check_vma_overlap v n | None => Ok tt end =
    if match head l2 with Some n => vm_end v <=? vm_start n | None => true end then Ok tt else Err AssertFail).
  { destruct l2 as [|n l2]; simpl; [done|]. apply overlap_ok; [done|]. destruct (vl_elem _ _ n Ha); [set_solver|]. lia. }
  rewrite Ep, En. destruct (Z.leb_spec (last_end 0 l1) (vm_start v)) as [Hp|Hp]; cbn [rbind];
    [|split; [intros [_ Hd]; apply Hnb in Hd; lia|done]].
  destruct l2 as [|n l2]; cbn [head rbind].
  - split; [intros _|intros Hd; destruct Hd; split; [done|]; by apply Hnb].
    eexists. split; [done|]. split; [|split; [simpl; solve_Permutation|done]]. split; simpl.
    + apply vl_app. split; [done|]. simpl. lia.
    + intros w Hw. apply elem_of_app in Hw as [Hw|Hw]; [|set_solver].
      apply Ht. rewrite El. set_solver.
    + intros w Hw%Hc. rewrite El in Hw. set_solver.
    + rewrite El in Hn, Hsz. rewrite s32_id by (unfold is_s32; lia). rewrite length_app in *. simpl in *. lia.
  - destruct (Z.leb_spec (vm_end v) (vm_start n)) as [Hvn|Hvn]; cbn [rbind];
      [|split; [intros [_ Hd]; apply Hnb in Hd as [_ Hd]; specialize (Hd n eq_refl); lia|done]].
    split; [intros _|intros Hd; destruct Hd; split; [done|]; apply Hnb; split; [done|by intros ? [= <-]]].
    eexists. split; [done|]. split; [|split; [simpl; solve_Permutation|done]]. split; simpl.
    + apply vl_app. split; [done|]. destruct Hl2. simpl. split; [lia|]. split; [lia|done].
    + intros w Hw. apply elem_of_app in Hw as [Hw|[->|Hw]%elem_of_cons]; [|done|]; apply Ht; rewrite El; set_solver.
    + intros w Hw%Hc. rewrite El in Hw. set_solver.
    + rewrite El in Hn, Hsz. rewrite s32_id by (unfold is_s32; lia). rewrite length_app in *. simpl in *. lia.
Qed.

(** ** Checks of user memory *)

#[global] Arguments find_vma : simpl never.

(** What [user_mem_check] asks of the area that contains an address. *)
Definition area_ok (addr : Z) (write : bool) (v : vma_struct) : Prop :=
  has_flag (vm_flags v) (if write then VM_WRITE else VM_READ) = true /\
  (write = true -> has_flag (vm_flags v) VM_STACK = true -> vm_start v + PGSIZE <= addr).

Definition range_ok (l : list vma_struct) (addr start end_ : Z) (write : bool) : Prop :=
  forall a, start <= a < end_ -> exists v, v ∈ l /\ in_vma a v = true /\ area_ok addr write v.

(** Areas that end after [start]: those the loop may still visit. *)
Definition remaining (start : Z) (l : list vma_struct) : nat := length (filter (fun v => start < vm_end v) l).

Lemma remaining_le start l : (remaining start l <= length l)%nat.
Proof. apply length_filter. Qed.

Lemma remaining_lt l start v : v ∈ l -> start < vm_end v -> (remaining (vm_end v) l < remaining start l)%nat.
Proof.
  intros (l1 & l2 & ->)%list_elem_of_split Hv. unfold remaining.
  rewrite !filter_app, !filter_cons, !length_app.
  rewrite decide_False by lia. rewrite decide_True by lia. simpl.
  assert (Hmono : forall k, (remaining (vm_end v) k <= remaining start k)%nat).
  { unfold remaining. induction k as [|w k IH]; [done|]. rewrite !filter_cons. repeat case_decide; simpl; lia. }
  pose proof (Hmono l1). pose proof (Hmono l2). unfold remaining in *. lia.
Qed.

Lemma find_in_vma mm a v : mm_ok mm ->
  find (in_vma a) (mmap_list mm) = Some v <-> v ∈ mmap_list mm /\ in_vma a v = true.
Proof.
  intros Hok. split.
  - intros [? ?]%find_some. split; [by apply list_elem_of_In|done].
  - intros [Hv Hin]. destruct (find (in_vma a) (mmap_list mm)) as [w|] eqn:Hf.
    + apply find_some in Hf as [Hw Haw]. f_equal. symmetry. eapply vl_inj; try done; [apply Hok|by apply list_elem_of_In].
    + eapply find_none in Hf; [|by apply list_elem_of_In]. congruence.
Qed.

(** The loop started at [start], which is [addr] or the end of an area. *)
Lemma user_mem_loop_spec addr end_ write fuel : forall mm start, mm_ok mm ->
  addr <= start -> (start = addr \/ exists u, u ∈ mmap_list mm /\ vm_end u = start) ->
  (S (remaining start (mmap_list mm)) < fuel)%nat ->
  exists b mm', user_mem_loop fuel mm start end_ write = Ok (b, mm') /\ mm_ok mm' /\
    mmap_list mm' = mmap_list mm /\ pgdir mm' = pgdir mm /\
    (b = true <-> range_ok (mmap_list mm) addr start end_ write).
Proof.
  induction fuel as [|fuel IH]; intros mm start Hok Has Hst Hf; [lia|]. cbn [user_mem_loop].
  destruct (Z.ltb_spec start end_) as [Hlt|Hge].
  2: { exists true, mm. split_and!; try done. split; [|done]. intros _ a Ha. lia. }
    destruct (find_vma_spec mm start Hok) as (mm1 & -> & Hok1 & El & Ep & _).
  destruct (find (in_vma start) (mmap_list mm)) as [v|] eqn:Hfv.
  2: { exists false, mm1. split_and!; try done. split; [done|]. intros Hr.
       destruct (Hr start) as (v & Hv & Hin & _); [lia|].
       rewrite (proj2 (find_in_vma mm start v Hok)) in Hfv; done. }
  apply (find_in_vma mm start v Hok) in Hfv as [Hv Hin].
  pose proof (vl_elem _ _ _ (mm_areas _ Hok) Hv) as [Hv0 _]. pose proof (mm_top _ Hok v Hv) as Hvt.
  unfold USERTOP in Hvt. change PGSIZE with 4096.
  rewrite (u32_id (vm_start v + 4096)) by (unfold is_u32, two32; lia).
  assert (Hin' : vm_start v <= start < vm_end v) by (unfold in_vma in Hin; lia).
  destruct (Z.ltb_spec start (vm_start v)); [lia|].
  assert (Huniq : range_ok (mmap_list mm) addr start end_ write -> area_ok addr write v).
  { intros Hr. destruct (Hr start) as (w & Hw & Haw & Hok'); [lia|].
    by rewrite (vl_inj _ _ v w start (mm_areas _ Hok)). }
  destruct (has_flag (vm_flags v) (if write then VM_WRITE else VM_READ)) eqn:Hflag; cbn [negb].
  2: { exists false, mm1. split_and!; try done. split; [done|]. intros [? _]%Huniq. congruence. }
  destruct (write && has_flag (vm_flags v) VM_STACK && (start <? vm_start v + 4096)) eqn:Hstk.
  { exists false, mm1. split_and!; try done. split; [done|]. intros [_ Hs]%Huniq.
    apply andb_true_iff in Hstk as [[Hw Hfs]%andb_true_iff Hlt'%Z.ltb_lt].
    specialize (Hs Hw Hfs). change PGSIZE with 4096 in Hs. lia. }
  pose proof (remaining_lt _ start v Hv ltac:(lia)) as Hrem.
  destruct (IH mm1 (vm_end v) Hok1) as (b & mm2 & E & Hok2 & El2 & Ep2 & Hb).
  { lia. } { right. exists v. by rewrite El. } { rewrite El. lia. }
  exists b, mm2. split_and!; try congruence. rewrite Hb, El. split.
  - intros Hr a Ha. destruct (decide (a < vm_end v)); [|apply Hr; lia].
    exists v. split; [done|]. split; [unfold in_vma; lia|]. split; [done|]. intros Hw Hfs. change PGSIZE with 4096.
    rewrite Hw, Hfs in Hstk. simpl in Hstk. apply Z.ltb_ge in Hstk.
    destruct Hst as [->|(u & Hu & Heu)]; [done|].
    exfalso. pose proof (vl_elem _ _ _ (mm_areas _ Hok) Hu) as [Hu0 _].
    assert (in_vma (start - 1) v = true /\ in_vma (start - 1) u = true) as [H1 H2] by (unfold in_vma; lia).
    pose proof (vl_inj _ _ v u _ (mm_areas _ Hok) Hv Hu H1 H2). subst. lia.
  - intros Hr a Ha. apply Hr. lia.
Qed.

(** ** Page faults *)

Lemma user_ROUNDDOWN a : user a -> user (ROUNDDOWN a PGSIZE) /\ ROUNDDOWN a PGSIZE / 4096 = a / 4096.
Proof.
  intros Ha. unfold user, KERNBASE in *.
  destruct (ROUNDDOWN_spec a PGSIZE) as [He Hr]; [unfold is_u32, two32; lia|done|].
  change PGSIZE with 4096 in *. rewrite He. split; [lia|]. rewrite Z.mul_comm. by rewrite Z.div_mul.
Qed.

Lemma pt_of_ROUNDDOWN m dir addr : user addr -> pt_of m dir (ROUNDDOWN addr PGSIZE) = pt_of m dir addr.
Proof.
  intros Hu. destruct (user_ROUNDDOWN addr Hu) as [Hur Hq].
  symmetry in Hq. apply (vpn_split addr _ Hu Hur) in Hq as [Hd _]. unfold pt_of. by rewrite Hd.
Qed.

(** What a fault at an unmapped, permitted address does: [p] is the new page. *)
Record fault_served (bs bs' : list block) (m m' : machine) (dir addr perm p : Z) : Prop := {
  fs_space : space_ok bs' m' dir;
  fs_free : covers bs p;
  fs_entry : entry m' dir addr = pte_make p perm /\ PPN (entry m' dir addr) = p;
  fs_rest : forall la, user la -> addr / 4096 <> la / 4096 -> entry m' dir la = entry m dir la
}.

Lemma alloc_mapped bs m dir addr perm p bs1 f :
  space_ok bs m dir -> user addr -> entry m dir addr = 0 -> pt_of m dir addr = Some f -> 0 <= perm < 128 ->
  carve 1 bs = Some (p, bs1) ->
  exists m' bs', pgdir_alloc_page dir (ROUNDDOWN addr PGSIZE) perm m = Ok (Some p, m') /\
    fault_served bs bs' m m' dir addr perm p.
Proof.
  intros Hs Hu He Hf Hperm Hc. destruct (user_ROUNDDOWN addr Hu) as [Hur Hq].
  assert (Hfr : pt_of m dir (ROUNDDOWN addr PGSIZE) = Some f).
  { rewrite <- Hf. by apply pt_of_ROUNDDOWN. }
  assert (Her : present (entry m dir (ROUNDDOWN addr PGSIZE)) = false).
  { by rewrite (entry_same_page m dir _ addr), He. }
  pose proof (pgdir_alloc_page_cases bs m dir _ perm Hs Hur Her Hperm) as Hp. rewrite Hc, Hfr in Hp.
  assert (Hex : exists m' bs', pgdir_alloc_page dir (ROUNDDOWN addr PGSIZE) perm m = Ok (Some p, m') /\
    space_ok bs' m' dir /\ (forall la', user la' ->
      entry m' dir la' = upd_ent (ROUNDDOWN addr PGSIZE) (pte_make p perm) (entry m dir) la') /\
    PPN (pte_make p perm) = p).
  { destruct (carve 1 bs1) as [[]|]; destruct Hp as (m' & bs' & H1 & H2 & H3 & H4 & _); by exists m', bs'. }
  destruct Hex as (m' & bs' & E & Hs' & Hent & HP). exists m', bs'. split; [done|].
  pose proof (inv_canon _ _ _ (wf_pmm _ _ _ (proj1 (sp_ready _ _ _ Hs)))) as Hcan.
  destruct (carve_Some (-1) 1 bs p bs1) as (_ & _ & Hcov & _); [done..|].
  assert (Ha : entry m' dir addr = pte_make p perm) by (rewrite Hent, upd_ent_eq; done).
  split; [done|apply Hcov; lia|by rewrite Ha|].
  intros la Hl Hne. rewrite Hent by done. apply upd_ent_ne. by rewrite Hq.
Qed.

(** [do_pgfault] at a permitted address that has no entry. *)
Lemma do_pgfault_unfold mm ec addr m v : mm_ok mm -> v ∈ mmap_list mm -> in_vma addr v = true ->
  fault_allowed ec (vm_flags v) = true ->
  exists mm', mm_ok mm' /\ mmap_list mm' = mmap_list mm /\ pgdir mm' = pgdir mm /\
  do_pgfault mm ec addr m =
    let perm := if has_flag (vm_flags v) VM_WRITE then Z.lor PTE_U PTE_W else PTE_U in
    let! (ptep, m) := get_pte (pgdir mm) (ROUNDDOWN addr PGSIZE) true m in
    let! ptep := rget ptep in
    if load_pte ptep m =? 0 then
      let! (_, m) := pgdir_alloc_page (pgdir mm) (ROUNDDOWN addr PGSIZE) perm m in
      Ok (0, mm', m)
    else if swap_init_ok m then
      let! (_, page, m) := swap_in (pgdir mm) (ROUNDDOWN addr PGSIZE) m in
      let! (_, m) := page_insert (pgdir mm) page (ROUNDDOWN addr PGSIZE) perm m in
      let! (_, m) := swap_map_swappable (sm_priv mm) (ROUNDDOWN addr PGSIZE) page 23 m in
      Ok (0, mm', m)
    else Ok (- E_NO_MEM, mm', m).
Proof.
  intros Hok Hv Hin Hal. unfold do_pgfault.
  destruct (find_vma_spec mm addr Hok) as (mm1 & -> & Hok1 & El & Ep & Esm & _).
  rewrite (proj2 (find_in_vma mm addr v Hok)) by done. exists mm1.
  assert (Hge : (addr <? vm_start v) = false) by (unfold in_vma in Hin; lia).
  rewrite Hge, Hal, Ep, Esm. done.
Qed.

Lemma get_pte_for_fault bs m dir addr p bs1 : space_ok bs m dir -> user addr -> entry m dir addr = 0 ->
  carve 1 bs = Some (p, bs1) ->
  exists f m1 bs2, get_pte dir (ROUNDDOWN addr PGSIZE) true m = Ok (Some (f, PTX (ROUNDDOWN addr PGSIZE)), m1) /\
    space_ok bs2 m1 dir /\ pt_of m1 dir addr = Some f /\ load_pte (f, PTX (ROUNDDOWN addr PGSIZE)) m1 = 0 /\
    (forall la, user la -> entry m1 dir la = entry m dir la) /\
    bs2 = match pt_of m dir addr with Some _ => bs | None => bs1 end /\ (pt_of m dir addr <> None -> m1 = m).
Proof.
  intros Hs Hu He Hc. destruct (user_ROUNDDOWN addr Hu) as [Hur Hq].
  assert (Hpt : forall m, pt_of m dir (ROUNDDOWN addr PGSIZE) = pt_of m dir addr).
  { intros m0. by apply pt_of_ROUNDDOWN. }
  pose proof (proj1 (sp_ready _ _ _ Hs)) as Hwf.
  destruct (pt_of m dir addr) as [f|] eqn:Hf.
  - exists f, m, bs. rewrite (get_pte_present bs m dir _ true f) by (done || by rewrite Hpt).
    split_and!; try done. rewrite (load_pte_entry m dir (ROUNDDOWN addr PGSIZE)) by by rewrite Hpt.
    by rewrite (entry_same_page m dir _ addr).
  - destruct (get_pte_create_space bs m dir (ROUNDDOWN addr PGSIZE) p bs1) as (m1 & E & Hs1 & Hf1 & He1 & _);
      [done|done|by rewrite Hpt|done|].
    exists p, m1, bs1. split_and!; try done; [by rewrite <- Hpt|].
    rewrite (load_pte_entry _ _ _ _ Hf1), He1 by done. by rewrite (entry_same_page m dir _ addr).
Qed.

(** [get_pte] leaves the flag of the swapping alone. *)
Lemma get_pte_swap dir la c m r m1 : get_pte dir la c m = Ok (r, m1) -> swap_init_ok m1 = swap_init_ok m.
Proof.
  unfold get_pte, alloc_page, alloc_pages, set_page_ref, upd_ref. cbv zeta. intros E.
  destruct (Z.land _ PTE_P =? 0); [destruct c; cbn [negb] in E|].
  - apply rbind_Ok in E as ([o m2] & Ea & E). apply rbind_Ok in E as (p & _ & E). apply rbind_Ok in E as (m3 & Er & E).
    apply rbind_Ok in E as (k & _ & E). apply rbind_Ok in E as (pt & _ & [= _ <-]). cbn.
    apply rbind_Ok in Er as (pm3 & _ & [= <-]). cbn. apply rbind_Ok in Ea as ([o2 pm2] & _ & Ea). cbn in Ea.
    destruct o2; [by injection Ea as _ <-|]. destruct (swap_init_ok m) eqn:Es; [done|]. by injection Ea as _ <-.
  - by injection E as _ <-.
  - apply rbind_Ok in E as (pt & _ & [= _ <-]). done.
Qed.

Lemma carve_none bs : canon (-1) bs -> (forall i, ~ covers bs i) -> carve 1 bs = None.
Proof.
  intros Hcan Hno. destruct (carve 1 bs) as [[p bs1]|] eqn:Hc; [|done]. exfalso.
  destruct (carve_Some (-1) 1 bs p bs1) as (_ & _ & Hcov & _); [done..|]. apply (Hno p), Hcov. lia.
Qed.

(** No page for an address whose page table exists. *)
Lemma fault_no_page bs m dir addr perm : space_ok bs m dir -> user addr -> entry m dir addr = 0 -> 0 <= perm < 128 -> carve 1 bs = None ->
  pgdir_alloc_page dir (ROUNDDOWN addr PGSIZE) perm m = if swap_init_ok m then Err WildAccess else Ok (None, m).
Proof.
  intros Hs Hu He Hperm Hc. destruct (user_ROUNDDOWN addr Hu) as [Hur Hq].
  pose proof (pgdir_alloc_page_cases bs m dir (ROUNDDOWN addr PGSIZE) perm Hs Hur) as Hp.
  rewrite (entry_same_page m dir _ addr), He, Hc in Hp by done. by apply Hp.
Qed.

(** [mm_map] of a range that meets no area. *)
Lemma mm_map_Ok mm addr len flags :
  mm_ok mm -> Z.of_nat (length (mmap_list mm)) < 2147483646 ->
  let area := mk_vma (ROUNDDOWN addr PGSIZE) (ROUNDUP (u32 (addr + len)) PGSIZE) flags in
  USER_ACCESS (vm_start area) (vm_end area) = true -> (forall w, w ∈ mmap_list mm -> disjoint_from area w) ->
  exists mm', mm_map true mm addr len flags = Ok (0, Some area, mm') /\ mm_ok mm' /\ mmap_list mm' ≡ₚ area :: mmap_list mm /\ pgdir mm' = pgdir mm.
Proof.
  intros Hok Hlen area Hu Hd. unfold mm_map. change (ROUNDDOWN addr PGSIZE) with (vm_start area).
  change (ROUNDUP (u32 (addr + len)) PGSIZE) with (vm_end area). rewrite Hu. cbn [negb].
  assert (Hr : 0 <= vm_start area /\ vm_start area < vm_end area /\ vm_end area <= USERTOP) by (unfold USER_ACCESS, USERBASE in Hu; lia).
  destruct (find_vma_spec mm (vm_start area) Hok) as (mm1 & E & Hok1 & El & Ep & _). rewrite E.
  destruct (find (in_vma (vm_start area)) (mmap_list mm)) as [v|] eqn:Hf.
  - apply find_some in Hf as [Hv%list_elem_of_In Hin]. pose proof (Hd v Hv) as Hdv. unfold in_vma, disjoint_from in *. lia.
  - cbn [vma_create]. change (mk_vma (vm_start area) (vm_end area) flags) with area.
    destruct (insert_vma_spec mm1 area Hok1) as [Hin _]; [lia..|by rewrite El|].
    destruct Hin as (mm' & -> & Hok' & Hp & Ep' & _); [split; [lia|by rewrite El]|]. exists mm'. rewrite <- El, <- Ep. done.
Qed.

(** ** Properties *)

(** C27: [mm_map] answers -E_INVAL outside user space or when its first page
    lies in an area, -E_NO_MEM when there is no memory for the area, and
    otherwise adds exactly the page-rounded area, keeping the address space
    ordered and without overlap.  But when the range reaches into a later area
    without starting in one, the overlap is only noticed by the [assert] in
    [insert_vma_struct], and the kernel stops. *)
Theorem mm_map_outcome (kmalloc_ok : bool) (mm : mm_struct) (addr len flags : Z) :
  mm_ok mm -> Z.of_nat (length (mmap_list mm)) < 2147483646 ->
  let start := ROUNDDOWN addr PGSIZE in
  let end_ := ROUNDUP (u32 (addr + len)) PGSIZE in
  let area := mk_vma start end_ flags in
  exists mm', mm_ok mm' /\
    if negb (USER_ACCESS start end_) || existsb (in_vma start) (mmap_list mm) then
      mm_map kmalloc_ok mm addr len flags = Ok (- E_INVAL, None, mm') /\ mmap_list mm' = mmap_list mm
    else if negb kmalloc_ok then
      mm_map kmalloc_ok mm addr len flags = Ok (- E_NO_MEM, None, mm') /\ mmap_list mm' = mmap_list mm
    else if bool_decide (Forall (disjoint_from area) (mmap_list mm)) then
      mm_map kmalloc_ok mm addr len flags = Ok (0, Some area, mm') /\ mmap_list mm' ≡ₚ area :: mmap_list mm
    else mm_map kmalloc_ok mm addr len flags = Err AssertFail.
Proof.
  intros Hok Hlen start end_ area. unfold mm_map. fold start end_.
  destruct (USER_ACCESS start end_) eqn:Hu; cbn [negb orb]; [|by exists mm].
  assert (Hr : 0 <= start /\ start < end_ /\ end_ <= USERTOP) by (unfold USER_ACCESS, USERBASE in Hu; lia).
  destruct (find_vma_spec mm start Hok) as (mm1 & E & Hok1 & El & _). rewrite E.
  destruct (find (in_vma start) (mmap_list mm)) as [v|] eqn:Hf.
  - rewrite (proj2 (existsb_exists _ _)) by (apply find_some in Hf; eauto).
    apply find_some in Hf as [_ Hin]. assert (Hlt : (vm_start v <? end_) = true) by (unfold in_vma in Hin; lia).
    rewrite Hlt. by exists mm1.
  - assert (Hex : existsb (in_vma start) (mmap_list mm) = false).
    { apply not_true_iff_false. rewrite existsb_exists. intros (v & Hv & Hin).
      by rewrite (find_none _ _ Hf v Hv) in Hin. }
    rewrite Hex. destruct kmalloc_ok; cbn [negb vma_create]; [|by exists mm1].
    change (mk_vma start end_ flags) with area.
    destruct (insert_vma_spec mm1 area Hok1) as [Hin Hout]; [cbn; lia..|by rewrite El|].
    rewrite El in Hin, Hout. case_bool_decide as Hd.
    + rewrite Forall_forall in Hd. destruct Hin as (mm' & -> & Hok' & Hp & _); [split; [cbn; lia|exact Hd]|]. by exists mm'.
    + rewrite Hout; [by exists mm1|]. rewrite Forall_forall in Hd. tauto.
Qed.

(** [user_mem_check] terminates and accepts a user range exactly when it
    is not empty, lies in user space, and every address of it is in an area
    with the wanted permission (when writing, never inside the guard page at
    the bottom of a stack that begins before [addr + PGSIZE]). *)
Theorem user_mem_check_exact (mm : mm_struct) (addr len : Z) (write : bool) :
  mm_ok mm ->
  exists b mm', user_mem_check (Some mm) addr len write = Ok (b, Some mm') /\ mm_ok mm' /\
    mmap_list mm' = mmap_list mm /\
    (b = true <-> USER_ACCESS addr (u32 (addr + len)) = true /\
       range_ok (mmap_list mm) addr addr (u32 (addr + len)) write).
Proof.
  intros Hok. unfold user_mem_check.
  destruct (USER_ACCESS addr (u32 (addr + len))); cbn [negb].
  - destruct (user_mem_loop_spec addr (u32 (addr + len)) write (S (S (length (mmap_list mm)))) mm addr Hok)
      as (b & mm' & E & Hok' & El & _ & Hb); [lia|by left|pose proof (remaining_le addr (mmap_list mm)); lia|].
    rewrite E. exists b, mm'. split_and!; try done. rewrite Hb. tauto.
  - exists false, mm. split_and!; try done. split; [done|by intros []].
Qed.

(** C11: what [do_pgfault] does at an address that has no entry yet (entry 0).
    Outside every area or without the right, it returns -E_INVAL and changes no
    memory and no area.  In an area that permits the access it maps a fresh page
    there with the rights of the area, touches no other entry and returns 0, if
    there are pages: one when the page table exists, two otherwise.  When the
    pages do not suffice and [swap_init] has run, the kernel faults in
    [alloc_pages].  Before that, it faults when not even the page table can be
    had, and otherwise returns 0 although nothing is mapped. *)
Theorem do_pgfault_maps (bs : list block) (mm : mm_struct) (m : machine) (ec addr : Z) :
  mm_ok mm -> space_ok bs m (pgdir mm) ->
  match find (in_vma addr) (mmap_list mm) with
  | Some v =>
      if fault_allowed ec (vm_flags v) then
        entry m (pgdir mm) addr = 0 ->
        let perm := if has_flag (vm_flags v) VM_WRITE then Z.lor PTE_U PTE_W else PTE_U in
        let served := exists p mm' m' bs', do_pgfault mm ec addr m = Ok (0, mm', m') /\ mm_ok mm' /\
          mmap_list mm' = mmap_list mm /\ fault_served bs bs' m m' (pgdir mm) addr perm p in
        let lost := if swap_init_ok m then do_pgfault mm ec addr m = Err WildAccess
          else exists mm' m', do_pgfault mm ec addr m = Ok (0, mm', m') /\ mm_ok mm' /\
            mmap_list mm' = mmap_list mm /\ forall la, user la -> entry m' (pgdir mm) la = entry m (pgdir mm) la in
        match pt_of m (pgdir mm) addr with
        | Some _ => ((exists i, covers bs i) -> served) /\ ((forall i, ~ covers bs i) -> lost)
        | None => ((exists i j, i <> j /\ covers bs i /\ covers bs j) -> served) /\
            ((exists i, forall j, covers bs j <-> j = i) -> lost) /\
            ((forall i, ~ covers bs i) -> do_pgfault mm ec addr m = Err WildAccess)
        end
      else exists mm', do_pgfault mm ec addr m = Ok (- E_INVAL, mm', m) /\ mm_ok mm' /\ mmap_list mm' = mmap_list mm
  | None => exists mm', do_pgfault mm ec addr m = Ok (- E_INVAL, mm', m) /\ mm_ok mm' /\ mmap_list mm' = mmap_list mm
  end.
Proof.
  intros Hok Hs. destruct (find (in_vma addr) (mmap_list mm)) as [v|] eqn:Hf.
  2: { unfold do_pgfault. destruct (find_vma_spec mm addr Hok) as (mm1 & -> & Hok1 & El & _). rewrite Hf. by exists mm1. }
  pose proof Hf as Hfind. apply (find_in_vma mm addr v Hok) in Hf as [Hv Hin].
  destruct (fault_allowed ec (vm_flags v)) eqn:Hal.
  2: { unfold do_pgfault. destruct (find_vma_spec mm addr Hok) as (mm1 & -> & Hok1 & El & _). rewrite Hfind, Hal.
       exists mm1. by destruct (addr <? vm_start v). }
  intros He perm served lost. destruct (do_pgfault_unfold mm ec addr m v Hok Hv Hin Hal) as (mm' & Hok' & El & Ep & Ed).
  fold perm in Ed. cbv zeta in Ed.
  assert (Hu : user addr).
  { pose proof (vl_elem _ _ _ (mm_areas _ Hok) Hv). pose proof (mm_top _ Hok v Hv).
    unfold in_vma, USERTOP, user, KERNBASE in *. lia. }
  assert (Hperm : 0 <= perm < 128) by (unfold perm; by destruct (has_flag _ _); vm_compute).
  pose proof (inv_canon _ _ _ (wf_pmm _ _ _ (proj1 (sp_ready _ _ _ Hs)))) as Hcan.
  assert (Hserved : forall p bs1 q bs3, carve 1 bs = Some (p, bs1) -> covers bs q ->
    carve 1 (match pt_of m (pgdir mm) addr with Some _ => bs | None => bs1 end) = Some (q, bs3) -> served).
  { intros p bs1 q bs3 Hc Hq Hc2. destruct (get_pte_for_fault bs m (pgdir mm) addr p bs1 Hs Hu He Hc)
      as (f & m1 & bs2 & E & Hs1 & Hf1 & Hl0 & He1 & -> & _).
    destruct (alloc_mapped _ m1 (pgdir mm) addr perm q bs3 f Hs1 Hu) as (m' & bs' & E' & [Hs' Hfr Hen Hre]); [by rewrite He1|done..|].
    exists q, mm', m', bs'. split; [rewrite Ed, E; cbn [rbind rget]; by rewrite Hl0, E'|]. split_and!; try done.
    split; [done|done|done|]. intros la Hl Hne. by rewrite Hre, He1. }
  assert (Hlost : forall p bs1, carve 1 bs = Some (p, bs1) -> pt_of m (pgdir mm) addr = None -> carve 1 bs1 = None -> lost).
  { intros p bs1 Hc Hpt Hc1. destruct (get_pte_for_fault bs m (pgdir mm) addr p bs1 Hs Hu He Hc)
      as (f & m1 & bs2 & E & Hs1 & Hf1 & Hl0 & He1 & Hbs & _). rewrite Hpt in Hbs. subst bs2.
    pose proof (fault_no_page bs1 m1 (pgdir mm) addr perm Hs1 Hu) as Hn. rewrite He1 in Hn by done. specialize (Hn He Hperm Hc1).
    rewrite (get_pte_swap _ _ _ _ _ _ E) in Hn. unfold lost. rewrite Ed, E. cbn [rbind rget]. rewrite Hl0, Hn. cbn [Z.eqb].
    destruct (swap_init_ok m); [done|]. by exists mm', m1. }
  destruct (pt_of m (pgdir mm) addr) as [f|] eqn:Hpt.
  - split.
    + intros (i & Hi). destruct (carve 1 bs) as [[p bs1]|] eqn:Hc; [|by destruct (carve_none_free _ _ Hcan Hc i)].
      destruct (carve_Some (-1) 1 bs p bs1) as (_ & _ & Hcov & _); [done..|]. apply (Hserved p bs1 p bs1); [done|apply Hcov; lia|done].
    + intros Hno. pose proof (carve_none bs Hcan Hno) as Hc. unfold lost. rewrite Ed.
      rewrite (get_pte_present bs m (pgdir mm) (ROUNDDOWN addr PGSIZE) true f);
        [|apply Hs|by apply user_ROUNDDOWN|by rewrite pt_of_ROUNDDOWN].
      cbn [rbind rget]. destruct (user_ROUNDDOWN addr Hu) as [Hur Hq].
      rewrite (load_pte_entry m (pgdir mm) (ROUNDDOWN addr PGSIZE)) by by rewrite pt_of_ROUNDDOWN.
      rewrite (entry_same_page m (pgdir mm) _ addr), He by done. cbn [Z.eqb].
      rewrite (fault_no_page bs m (pgdir mm) addr perm Hs Hu He Hperm Hc). destruct (swap_init_ok m); [done|]. by exists mm', m.
  - split; [|split].
    + intros (i & j & Hij & Hi & Hj).
      destruct (carve 1 bs) as [[p bs1]|] eqn:Hc; [|by destruct (carve_none_free _ _ Hcan Hc i)].
      destruct (carve_Some (-1) 1 bs p bs1) as (Hcan1 & _ & Hcov & _); [done..|].
      destruct (carve 1 bs1) as [[q bs3]|] eqn:Hc1.
      * destruct (carve_Some (-1) 1 bs1 q bs3) as (_ & _ & Hcov1 & _); [done..|].
        apply (Hserved p bs1 q bs3); [done|apply Hcov; left; apply Hcov1; lia|done].
      * exfalso. pose proof (carve_none_free _ _ Hcan1 Hc1) as Hno. apply Hcov in Hi as [Hi|Hi], Hj as [Hj|Hj]; try lia; by eapply Hno.
    + intros (i & Hi). destruct (carve 1 bs) as [[p bs1]|] eqn:Hc; [|by destruct (carve_none_free _ _ Hcan Hc i); apply Hi].
      destruct (carve_Some (-1) 1 bs p bs1) as (Hcan1 & _ & Hcov & Hdis); [done..|]. apply (Hlost p bs1); [done|done|].
      apply carve_none; [done|]. intros j Hj. pose proof (Hdis j Hj) as Hd.
      assert (j = i) as -> by (apply Hi, Hcov; by left). assert (p = i) as -> by (apply Hi, Hcov; right; lia). lia.
    + intros Hno. rewrite Ed. pose proof (get_pte_create bs m (pgdir mm) (ROUNDDOWN addr PGSIZE) (proj1 (sp_ready _ _ _ Hs))) as Hg.
      rewrite pt_of_ROUNDDOWN, (carve_none bs Hcan Hno) in Hg by done. by rewrite Hg by (done || by apply user_ROUNDDOWN).
Qed.

(** *** Concrete inputs *)

(** A data area and a stack, with the directory in page 1. *)
Definition ex_mm : mm_struct :=
  mk_mm [mk_vma 0x00800000 0x00900000 (Z.lor VM_READ VM_WRITE); mk_vma 0x7ff00000 0x80000000 (Z.lor VM_WRITE VM_STACK)]
    None 1 2 None 1.

Lemma ex_mm_ok : mm_ok ex_mm.
Proof.
  split; simpl; [lia| |done|lia].
  intros v Hv. repeat apply elem_of_cons in Hv as [->|Hv]; unfold USERTOP; simpl; try lia. set_solver.
Qed.

Lemma mm_map_outcome_witness :
  mm_map true ex_mm 0x00700000 0x200000 VM_READ = Err AssertFail /\
  exists mm', mm_ok mm' /\ mm_map true ex_mm 0x00a00000 100 VM_READ
      = Ok (0, Some (mk_vma 0x00a00000 0x00a01000 VM_READ), mm') /\
    mmap_list mm' ≡ₚ mk_vma 0x00a00000 0x00a01000 VM_READ :: mmap_list ex_mm.
Proof.
  split.
  - destruct (mm_map_outcome true ex_mm 0x00700000 0x200000 VM_READ ex_mm_ok) as (mm' & _ & E); [simpl; lia|exact E].
  - destruct (mm_map_outcome true ex_mm 0x00a00000 100 VM_READ ex_mm_ok) as (mm' & Hok & E); [simpl; lia|].
    exists mm'. split; [exact Hok|exact E].
Defined.

Lemma user_mem_check_exact_witness :
  exists b mm', user_mem_check (Some ex_mm) 0x00800010 100 true = Ok (b, Some mm') /\ b = true.
Proof.
  destruct (user_mem_check_exact ex_mm 0x00800010 100 true ex_mm_ok) as (b & mm' & E & _ & _ & Hb).
  exists b, mm'. split; [exact E|]. apply Hb. split; [reflexivity|].
  intros a Ha. exists (mk_vma 0x00800000 0x00900000 (Z.lor VM_READ VM_WRITE)).
  change (u32 (0x00800010 + 100)) with 0x00800074 in Ha.
  split; [by left|]. split; [unfold in_vma; simpl; lia|]. split; [reflexivity|done].
Defined.

Lemma do_pgfault_maps_witness : exists st, pmm_inv 16 st [(3, 13)] /\
  exists p mm' m' bs', do_pgfault ex_mm 2 0x00801234 (empty_machine st) = Ok (0, mm', m') /\ mm_ok mm' /\
    mmap_list mm' = mmap_list ex_mm /\
    fault_served [(3, 13)] bs' (empty_machine st) m' 1 0x00801234 (Z.lor PTE_U PTE_W) p.
Proof.
  destruct booted16 as (_ & st & _ & _ & Hinv). exists st. split; [exact Hinv|].
  pose proof (do_pgfault_maps [(3, 13)] ex_mm (empty_machine st) 2 0x00801234 ex_mm_ok (empty_space st Hinv)) as H.
  destruct (H eq_refl) as [Hmap _]. apply Hmap. exists 3, 4. split; [lia|].
  split; exists 3, 13; (split; [by left|lia]).
Defined.

(** The first store to a data page of [ex_mm] maps a page and loads the TLB with
    it; a load outside the areas kills the process, or stops the kernel when it
    is its own. *)
Definition miss_machine : res machine :=
  let! st := default_init (boot_state 16) in
  let! st := default_init_memmap 3 13 st in
  load_pgdir 1 (empty_machine st).

Definition miss_demo (cause la : Z) (kernel : bool) : res (bool * list tlb_slot) :=
  let! m := miss_machine in
  let! (r, m) := tlb_miss_handler (Some (Some ex_mm)) cause la kernel m in
  Ok (match r with Loaded _ => true | Killed _ => false end, filter (fun s => hi s <> ENTRYHI_INVALID) (slots (the_tlb m))).

Example miss_served : miss_demo (EXC_TLBS * 4) 0x00801234 false = Ok (true, [mk_slot 0x00800000 ENTRYLO_INVALID (ENTRYLO (pte_make 4 (Z.lor PTE_U PTE_W)))]).
Proof. vm_compute. reflexivity. Qed.

Example miss_outside : (miss_demo 8 0x00700000 false, miss_demo 8 0x00700000 true) = (Ok (false, []), Err KPanic).
Proof. vm_compute. reflexivity. Qed.
