(* ===== verification/Kern.v ===== *)
(** * Processes and the scheduler's state (kern/process/proc.h, kern/schedule/sched.h)

    A process is named by the number of its [proc_struct]; a link embedded in a
    structure is a node with the number of the structure, in a store of its own
    for every kind of link (run_link, timer_link, list_link, hash_link,
    wait_link), so that no two kinds share a node.  List heads are negative
    numbers.  [rq] of a process only says whether it points to the one run
    queue there is. *)
From S2P Require Import Prelude DList.

(** ** Process states and flags *)

Definition PROC_UNINIT : Z := 0.
Definition PROC_SLEEPING : Z := 1.
Definition PROC_RUNNABLE : Z := 2.
Definition PROC_ZOMBIE : Z := 3.

Definition PF_EXITING : Z := 1.
Definition WT_INTERRUPTED : Z := 0x80000000.
Definition WT_CHILD : Z := Z.lor 1 WT_INTERRUPTED.
Definition WT_KSEM : Z := 0x100.
Definition WT_TIMER : Z := Z.lor 2 WT_INTERRUPTED.
Definition WT_KBD : Z := Z.lor 4 WT_INTERRUPTED.

Definition PROC_NAME_LEN : Z := 50.
Definition MAX_PROCESS : Z := 4096.
Definition MAX_PID : Z := MAX_PROCESS * 2.
Definition MAX_TIME_SLICE : Z := 20.

(** ** [struct proc_struct] *)

Record proc_struct := mk_proc {
  state : Z;
  pid : Z;
  runs : Z;
  kstack : Z;
  need_resched : bool;
  parent : option Z;
  mm : option Z;
  tf : Z;
  pgdir : Z;
  flags : Z;
  name : list Z;
  exit_code : Z;
  wait_state : Z;
  cptr : option Z;
  yptr : option Z;
  optr : option Z;
  rq : bool;
  time_slice : Z;
  lab6_priority : Z;
  filesp : option Z
}.

Definition set_state (v : Z) (p : proc_struct) : proc_struct :=
  mk_proc v (pid p) (runs p) (kstack p) (need_resched p) (parent p) (mm p) (tf p) (pgdir p) (flags p) (name p)
    (exit_code p) (wait_state p) (cptr p) (yptr p) (optr p) (rq p) (time_slice p) (lab6_priority p) (filesp p).
Definition set_pid (v : Z) (p : proc_struct) : proc_struct :=
  mk_proc (state p) v (runs p) (kstack p) (need_resched p) (parent p) (mm p) (tf p) (pgdir p) (flags p) (name
    p) (exit_code p) (wait_state p) (cptr p) (yptr p) (optr p) (rq p) (time_slice p) (lab6_priority p) (filesp p).
Definition set_runs (v : Z) (p : proc_struct) : proc_struct :=
  mk_proc (state p) (pid p) v (kstack p) (need_resched p) (parent p) (mm p) (tf p) (pgdir p) (flags p) (name
    p) (exit_code p) (wait_state p) (cptr p) (yptr p) (optr p) (rq p) (time_slice p) (lab6_priority p) (filesp p).
Definition set_kstack (v : Z) (p : proc_struct) : proc_struct :=
  mk_proc (state p) (pid p) (runs p) v (need_resched p) (parent p) (mm p) (tf p) (pgdir p) (flags p) (name p)
    (exit_code p) (wait_state p) (cptr p) (yptr p) (optr p) (rq p) (time_slice p) (lab6_priority p) (filesp p).
Definition set_need_resched (v : bool) (p : proc_struct) : proc_struct :=
  mk_proc (state p) (pid p) (runs p) (kstack p) v (parent p) (mm p) (tf p) (pgdir p) (flags p) (name p)
    (exit_code p) (wait_state p) (cptr p) (yptr p) (optr p) (rq p) (time_slice p) (lab6_priority p) (filesp p).
Definition set_parent (v : option Z) (p : proc_struct) : proc_struct :=
  mk_proc (state p) (pid p) (runs p) (kstack p) (need_resched p) v (mm p) (tf p) (pgdir p) (flags p) (name p)
    (exit_code p) (wait_state p) (cptr p) (yptr p) (optr p) (rq p) (time_slice p) (lab6_priority p) (filesp p).
Definition set_mm (v : option Z) (p : proc_struct) : proc_struct :=
  mk_proc (state p) (pid p) (runs p) (kstack p) (need_resched p) (parent p) v (tf p) (pgdir p) (flags p) (name
    p) (exit_code p) (wait_state p) (cptr p) (yptr p) (optr p) (rq p) (time_slice p) (lab6_priority p) (filesp p).
Definition set_tf (v : Z) (p : proc_struct) : proc_struct :=
  mk_proc (state p) (pid p) (runs p) (kstack p) (need_resched p) (parent p) (mm p) v (pgdir p) (flags p) (name
    p) (exit_code p) (wait_state p) (cptr p) (yptr p) (optr p) (rq p) (time_slice p) (lab6_priority p) (filesp p).
Definition set_pgdir (v : Z) (p : proc_struct) : proc_struct :=
  mk_proc (state p) (pid p) (runs p) (kstack p) (need_resched p) (parent p) (mm p) (tf p) v (flags p) (name p)
    (exit_code p) (wait_state p) (cptr p) (yptr p) (optr p) (rq p) (time_slice p) (lab6_priority p) (filesp p).
Definition set_flags (v : Z) (p : proc_struct) : proc_struct :=
  mk_proc (state p) (pid p) (runs p) (kstack p) (need_resched p) (parent p) (mm p) (tf p) (pgdir p) v (name p)
    (exit_code p) (wait_state p) (cptr p) (yptr p) (optr p) (rq p) (time_slice p) (lab6_priority p) (filesp p).
Definition set_name (v : list Z) (p : proc_struct) : proc_struct :=
  mk_proc (state p) (pid p) (runs p) (kstack p) (need_resched p) (parent p) (mm p) (tf p) (pgdir p) (flags p)
    v (exit_code p) (wait_state p) (cptr p) (yptr p) (optr p) (rq p) (time_slice p) (lab6_priority p) (filesp p).
Definition set_exit_code (v : Z) (p : proc_struct) : proc_struct :=
  mk_proc (state p) (pid p) (runs p) (kstack p) (need_resched p) (parent p) (mm p) (tf p) (pgdir p) (flags p)
    (name p) v (wait_state p) (cptr p) (yptr p) (optr p) (rq p) (time_slice p) (lab6_priority p) (filesp p).
Definition set_wait_state (v : Z) (p : proc_struct) : proc_struct :=
  mk_proc (state p) (pid p) (runs p) (kstack p) (need_resched p) (parent p) (mm p) (tf p) (pgdir p) (flags p)
    (name p) (exit_code p) v (cptr p) (yptr p) (optr p) (rq p) (time_slice p) (lab6_priority p) (filesp p).
Definition set_cptr (v : option Z) (p : proc_struct) : proc_struct :=
  mk_proc (state p) (pid p) (runs p) (kstack p) (need_resched p) (parent p) (mm p) (tf p) (pgdir p) (flags p)
    (name p) (exit_code p) (wait_state p) v (yptr p) (optr p) (rq p) (time_slice p) (lab6_priority p) (filesp p).
Definition set_yptr (v : option Z) (p : proc_struct) : proc_struct :=
  mk_proc (state p) (pid p) (runs p) (kstack p) (need_resched p) (parent p) (mm p) (tf p) (pgdir p) (flags p)
    (name p) (exit_code p) (wait_state p) (cptr p) v (optr p) (rq p) (time_slice p) (lab6_priority p) (filesp p).
Definition set_optr (v : option Z) (p : proc_struct) : proc_struct :=
  mk_proc (state p) (pid p) (runs p) (kstack p) (need_resched p) (parent p) (mm p) (tf p) (pgdir p) (flags p)
    (name p) (exit_code p) (wait_state p) (cptr p) (yptr p) v (rq p) (time_slice p) (lab6_priority p) (filesp p).
Definition set_rq (v : bool) (p : proc_struct) : proc_struct :=
  mk_proc (state p) (pid p) (runs p) (kstack p) (need_resched p) (parent p) (mm p) (tf p) (pgdir p) (flags p)
    (name p) (exit_code p) (wait_state p) (cptr p) (yptr p) (optr p) v (time_slice p) (lab6_priority p) (filesp
    p).
Definition set_time_slice (v : Z) (p : proc_struct) : proc_struct :=
  mk_proc (state p) (pid p) (runs p) (kstack p) (need_resched p) (parent p) (mm p) (tf p) (pgdir p) (flags p)
    (name p) (exit_code p) (wait_state p) (cptr p) (yptr p) (optr p) (rq p) v (lab6_priority p) (filesp p).
Definition set_lab6_priority (v : Z) (p : proc_struct) : proc_struct :=
  mk_proc (state p) (pid p) (runs p) (kstack p) (need_resched p) (parent p) (mm p) (tf p) (pgdir p) (flags p)
    (name p) (exit_code p) (wait_state p) (cptr p) (yptr p) (optr p) (rq p) (time_slice p) v (filesp p).
Definition set_filesp (v : option Z) (p : proc_struct) : proc_struct :=
  mk_proc (state p) (pid p) (runs p) (kstack p) (need_resched p) (parent p) (mm p) (tf p) (pgdir p) (flags p)
    (name p) (exit_code p) (wait_state p) (cptr p) (yptr p) (optr p) (rq p) (time_slice p) (lab6_priority p) v.

(** A structure just filled with zeros. *)
Definition zero_proc : proc_struct :=
  mk_proc 0 0 0 0 false None None 0 0 0 (replicate 51 0) 0 0 None None None false 0 0 None.

(** ** Timers *)

Record timer := mk_timer { expires : Z; timer_proc : Z }.
Definition set_expires (v : Z) (t : timer) : timer := mk_timer v (timer_proc t).

(** ** The state of the kernel's process management *)

Record kern := mk_kern {
  procs : gmap Z proc_struct;
  current : Z;
  idleproc : Z;
  initproc : Z;
  run_list : store;
  proc_num : Z;
  max_time_slice : Z;
  timers : gmap Z timer;
  timer_list : store
}.

Definition set_procs (v : gmap Z proc_struct) (k : kern) : kern :=
  mk_kern v (current k) (idleproc k) (initproc k) (run_list k) (proc_num k) (max_time_slice k) (timers k)
    (timer_list k).
Definition set_current (v : Z) (k : kern) : kern :=
  mk_kern (procs k) v (idleproc k) (initproc k) (run_list k) (proc_num k) (max_time_slice k) (timers k)
    (timer_list k).
Definition set_idleproc (v : Z) (k : kern) : kern :=
  mk_kern (procs k) (current k) v (initproc k) (run_list k) (proc_num k) (max_time_slice k) (timers k)
    (timer_list k).
Definition set_initproc (v : Z) (k : kern) : kern :=
  mk_kern (procs k) (current k) (idleproc k) v (run_list k) (proc_num k) (max_time_slice k) (timers k)
    (timer_list k).
Definition set_run_list (v : store) (k : kern) : kern :=
  mk_kern (procs k) (current k) (idleproc k) (initproc k) v (proc_num k) (max_time_slice k) (timers k)
    (timer_list k).
Definition set_proc_num (v : Z) (k : kern) : kern :=
  mk_kern (procs k) (current k) (idleproc k) (initproc k) (run_list k) v (max_time_slice k) (timers k)
    (timer_list k).
Definition set_max_time_slice (v : Z) (k : kern) : kern :=
  mk_kern (procs k) (current k) (idleproc k) (initproc k) (run_list k) (proc_num k) v (timers k) (timer_list
    k).
Definition set_timers (v : gmap Z timer) (k : kern) : kern :=
  mk_kern (procs k) (current k) (idleproc k) (initproc k) (run_list k) (proc_num k) (max_time_slice k) v
    (timer_list k).
Definition set_timer_list (v : store) (k : kern) : kern :=
  mk_kern (procs k) (current k) (idleproc k) (initproc k) (run_list k) (proc_num k) (max_time_slice k) (timers
    k) v.

Definition get_proc (p : Z) (k : kern) : res proc_struct := rget (procs k !! p).
(** Change the process [p]. *)
Definition upd_proc (p : Z) (f : proc_struct -> proc_struct) (k : kern) : res kern :=
  let! pr := get_proc p k in Ok (set_procs (<[p := f pr]> (procs k)) k).

Definition get_timer (t : Z) (k : kern) : res timer := rget (timers k !! t).
Definition upd_timer (t : Z) (f : timer -> timer) (k : kern) : res kern :=
  let! tm := get_timer t k in Ok (set_timers (<[t := f tm]> (timers k)) k).

Lemma upd_proc_Ok p f k pr : procs k !! p = Some pr ->
  upd_proc p f k = Ok (set_procs (<[p := f pr]> (procs k)) k).
Proof. intros H. unfold upd_proc, get_proc. by rewrite H. Qed.

Lemma upd_proc_if (b : bool) p f k pr : procs k !! p = Some pr ->
  (if b then upd_proc p f k else Ok k) = Ok (set_procs (<[p := if b then f pr else pr]> (procs k)) k).
Proof.
  intros H. destruct b; [by apply upd_proc_Ok|]. rewrite insert_id by done. by destruct k.
Qed.

Lemma get_proc_Ok p k pr : procs k !! p = Some pr -> get_proc p k = Ok pr.
Proof. intros H. unfold get_proc. by rewrite H. Qed.

Definition run_list_head : Z := -1.
Definition timer_list_head : Z := -2.
