(* ===== verification/Sched.v ===== *)
(** * Scheduling and timers (kern/schedule/sched.c, default_sched.c)

    A [sched_class] is the interface between the generic scheduler and a
    policy; [SchedClassLaws] says what the generic code relies on, and the
    round-robin class implements it on the kernel's linked list.  The functions
    run with interrupts disabled, so each is one step.  [schedule] ends by
    switching to another process: in the model [current] changes, and what the
    caller does afterwards is another step, taken when it runs again. *)
From S2P Require Import Prelude DList Kern.

(** ** The interface *)

Class sched_class := {
  sc_init : kern -> res kern;
  sc_enqueue : Z -> kern -> res kern;
  sc_dequeue : Z -> kern -> res kern;
  sc_pick_next : kern -> res (option Z);
  sc_proc_tick : Z -> kern -> res kern
}.

(** ** Round robin (default_sched.c) *)

Definition RR_init (k : kern) : res kern :=
  let! s := list_init run_list_head (run_list k) in
  Ok (set_proc_num 0 (set_run_list s k)).

Definition RR_enqueue (p : Z) (k : kern) : res kern :=
  let! e := list_empty (run_list k) p in
  assert! e ;;
  let! s := list_add_before run_list_head p (run_list k) in
  let k := set_run_list s k in
  let! pr := get_proc p k in
  let! k := (if (time_slice pr =? 0) || (max_time_slice k <? time_slice pr)
             then upd_proc p (set_time_slice (max_time_slice k)) k else Ok k) in
  let! k := upd_proc p (set_rq true) k in
  Ok (set_proc_num (u32 (proc_num k + 1)) k).

Definition RR_dequeue (p : Z) (k : kern) : res kern :=
  let! e := list_empty (run_list k) p in
  let! pr := get_proc p k in
  assert! negb e && rq pr ;;
  let! s := list_del_init p (run_list k) in
  Ok (set_proc_num (u32 (proc_num k - 1)) (set_run_list s k)).

Definition RR_pick_next (k : kern) : res (option Z) :=
  let! le := list_next (run_list k) run_list_head in
  if negb (le =? run_list_head) then Ok (Some le) else Ok None.

Definition RR_proc_tick (p : Z) (k : kern) : res kern :=
  let! pr := get_proc p k in
  let! k := (if 0 <? time_slice pr then upd_proc p (set_time_slice (time_slice pr - 1)) k else Ok k) in
  let! pr := get_proc p k in
  if time_slice pr =? 0 then upd_proc p (set_need_resched true) k else Ok k.

#[export] Instance default_sched_class : sched_class := {
  sc_init := RR_init;
  sc_enqueue := RR_enqueue;
  sc_dequeue := RR_dequeue;
  sc_pick_next := RR_pick_next;
  sc_proc_tick := RR_proc_tick
}.

(** ** The generic scheduler *)

Section scheduler.
Context `{SC : sched_class}.

Definition sched_class_enqueue (p : Z) (k : kern) : res kern :=
  if negb (p =? idleproc k) then sc_enqueue p k else Ok k.
Definition sched_class_dequeue (p : Z) (k : kern) : res kern := sc_dequeue p k.
Definition sched_class_pick_next (k : kern) : res (option Z) := sc_pick_next k.
Definition sched_class_proc_tick (p : Z) (k : kern) : res kern :=
  if negb (p =? idleproc k) then sc_proc_tick p k else upd_proc p (set_need_resched true) k.

Definition sched_init (k : kern) : res kern :=
  let! s := list_init timer_list_head (timer_list k) in
  sc_init (set_max_time_slice MAX_TIME_SLICE (set_timer_list s k)).

Definition wakeup_proc (p : Z) (k : kern) : res kern :=
  let! pr := get_proc p k in
  assert! negb (state pr =? PROC_ZOMBIE) ;;
  if negb (state pr =? PROC_RUNNABLE) then
    let! k := upd_proc p (fun pr => set_wait_state 0 (set_state PROC_RUNNABLE pr)) k in
    if negb (p =? current k) then sched_class_enqueue p k else Ok k
  else Ok k.

(** [proc_run]: loading the stack, the page directory and the context of
    [next] is what makes it [current]. *)
Definition proc_run (p : Z) (k : kern) : kern :=
  if negb (p =? current k) then set_current p k else k.

Definition schedule (k : kern) : res kern :=
  let! k := upd_proc (current k) (set_need_resched false) k in
  let! cur := get_proc (current k) k in
  let! k := (if state cur =? PROC_RUNNABLE then sched_class_enqueue (current k) k else Ok k) in
  let! next := sched_class_pick_next k in
  let! k := match next with Some n => sched_class_dequeue n k | None => Ok k end in
  let next := match next with Some n => n | None => idleproc k end in
  let! k := upd_proc next (fun pr => set_runs (s32 (runs pr + 1)) pr) k in
  if negb (next =? current k) then Ok (proc_run next k) else Ok k.

(** ** Timers *)

Definition timer_init (t p exp : Z) (k : kern) : res kern :=
  let! s := list_init t (timer_list k) in
  Ok (set_timer_list s (set_timers (<[t := mk_timer exp p]> (timers k)) k)).

(** The loop of [add_timer]: the place [le] and the state. *)
Definition add_timer_body (t : Z) (s : Z * kern) : res (Z * kern + Z * kern) :=
  let '(le, k) := s in
  if negb (le =? timer_list_head) then
    let! tm := get_timer t k in
    let! next := get_timer le k in
    if expires tm <? expires next then
      let! k := upd_timer le (set_expires (expires next - expires tm)) k in
      Ok (inr (le, k))
    else
      let! k := upd_timer t (set_expires (expires tm - expires next)) k in
      let! le := list_next (timer_list k) le in
      Ok (inl (le, k))
  else Ok (inr (le, k)).

Definition add_timer (t : Z) (k : kern) : res kern :=
  let! tm := get_timer t k in
  assert! 0 <? expires tm ;;
  let! e := list_empty (timer_list k) t in
  assert! e ;;
  let! le := list_next (timer_list k) timer_list_head in
  let! (le, k) := loop (add_timer_body t) (le, k) in
  let! s := list_add_before le t (timer_list k) in
  Ok (set_timer_list s k).

Definition del_timer (t : Z) (k : kern) : res kern :=
  let! e := list_empty (timer_list k) t in
  if negb e then
    let! tm := get_timer t k in
    let! k :=
      (if negb (expires tm =? 0) then
         let! le := list_next (timer_list k) t in
         if negb (le =? timer_list_head) then
           upd_timer le (fun next => set_expires (u32 (expires next + expires tm)) next) k
         else Ok k
       else Ok k) in
    let! s := list_del_init t (timer_list k) in
    Ok (set_timer_list s k)
  else Ok k.

(** [while (timer->expires == 0) { ... }] with [timer] the entry [t]. *)
Definition expire_body (s : Z * kern) : res (Z * kern + kern) :=
  let '(t, k) := s in
  let! tm := get_timer t k in
  if expires tm =? 0 then
    let! le := list_next (timer_list k) t in
    let! pr := get_proc (timer_proc tm) k in
    assert! (wait_state pr =? 0) || negb (Z.land (wait_state pr) WT_INTERRUPTED =? 0) ;;
    let! k := wakeup_proc (timer_proc tm) k in
    let! k := del_timer t k in
    if le =? timer_list_head then Ok (inr k) else Ok (inl (le, k))
  else Ok (inr k).

Definition run_timer_list (k : kern) : res kern :=
  let! le := list_next (timer_list k) timer_list_head in
  let! k :=
    (if negb (le =? timer_list_head) then
       let! tm := get_timer le k in
       assert! negb (expires tm =? 0) ;;
       let! k := upd_timer le (set_expires (expires tm - 1)) k in
       loop expire_body (le, k)
     else Ok k) in
  sched_class_proc_tick (current k) k.
End scheduler.

(** ** What the scheduler relies on *)

(** [queue_step p k k']: only the scheduler's own fields of [p] and the run
    queue differ. *)
Record queue_step (p : Z) (k k' : kern) : Prop := {
  qs_proc : forall pr, procs k !! p = Some pr ->
    exists ts r, procs k' !! p = Some (set_rq r (set_time_slice ts pr));
  qs_other : forall q, q <> p -> procs k' !! q = procs k !! q;
  qs_rest : current k' = current k /\ idleproc k' = idleproc k /\ initproc k' = initproc k /\
    timers k' = timers k /\ timer_list k' = timer_list k /\ max_time_slice k' = max_time_slice k
}.

(** Everything but scheduling fields ([rq], [time_slice], [runs],
    [need_resched]) is as before. *)
Definition same_procs (k k' : kern) : Prop := forall p,
  match procs k !! p, procs k' !! p with
  | Some a, Some b => exists n r rn ts, b = set_need_resched n (set_rq r (set_runs rn (set_time_slice ts a)))
  | None, None => True
  | _, _ => False
  end.

(** The same for one process. *)
Definition same_proc_at (k k' : kern) (p : Z) : Prop :=
  match procs k !! p, procs k' !! p with
  | Some a, Some b => exists n r rn ts, b = set_need_resched n (set_rq r (set_runs rn (set_time_slice ts a)))
  | None, None => True
  | _, _ => False
  end.

(** Everything the scheduler leaves alone. *)
Definition core (pr : proc_struct) : proc_struct :=
  set_state 0 (set_wait_state 0 (set_need_resched false (set_rq false (set_runs 0 (set_time_slice 0 pr))))).
Definition same_cores (k k' : kern) : Prop := forall p, core <$> procs k' !! p = core <$> procs k !! p.

Lemma same_proc_core k k' p : same_proc_at k k' p -> core <$> procs k' !! p = core <$> procs k !! p.
Proof.
  unfold same_proc_at. destruct (procs k !! p), (procs k' !! p); try done. by intros (n & r & rn & ts & ->).
Qed.

(** [repr k l]: the run queue of [k] holds the processes [l].  [put] says where
    the policy puts a process, [pick] which one it takes. *)
Class SchedClassLaws (SC : sched_class) (repr : kern -> list Z -> Prop)
    (put : list Z -> Z -> list Z) (pick : list Z -> option Z) := {
  law_put l p : put l p ≡ₚ p :: l;
  law_choice l : match pick l with None => l = [] | Some p => p ∈ l end;
  law_nodup k l : repr k l -> NoDup l /\ forall p, p ∈ l -> is_Some (procs k !! p);
  law_enqueue k l p : repr k l -> is_Some (procs k !! p) -> p ∉ l ->
    exists k', sc_enqueue p k = Ok k' /\ repr k' (put l p) /\ queue_step p k k';
  law_pick k l : repr k l -> sc_pick_next k = Ok (pick l);
  law_dequeue k l p : repr k l -> p ∈ l ->
    exists k', sc_dequeue p k = Ok k' /\ repr k' (filter (fun q => q <> p) l) /\ queue_step p k k';
  law_tick k l p : repr k l -> is_Some (procs k !! p) ->
    exists k', sc_proc_tick p k = Ok k' /\ repr k' l /\ same_procs k k' /\ current k' = current k /\
      idleproc k' = idleproc k /\ initproc k' = initproc k /\ max_time_slice k' = max_time_slice k;
  law_frame k k' l : repr k l -> run_list k' = run_list k -> proc_num k' = proc_num k ->
    max_time_slice k' = max_time_slice k ->
    (forall p, rq <$> procs k' !! p = rq <$> procs k !! p) -> repr k' l;
  law_alloc k l p pr : repr k l -> procs k !! p = None -> 0 <= p -> rq pr = false ->
    exists s, list_init p (<[p := mk_entry 0 0]> (run_list k)) = Ok s /\
      repr (set_run_list s (set_procs (<[p := pr]> (procs k)) k)) l;
  law_free k l p : repr k l -> p ∉ l -> repr (set_procs (delete p (procs k)) k) l
}.

Lemma same_procs_refl k : same_procs k k.
Proof.
  intros p. destruct (procs k !! p) as [a|]; [|done].
  exists (need_resched a), (rq a), (runs a), (time_slice a). by destruct a.
Qed.

Lemma same_procs_trans k1 k2 k3 : same_procs k1 k2 -> same_procs k2 k3 -> same_procs k1 k3.
Proof.
  intros H1 H2 p. specialize (H1 p). specialize (H2 p).
  destruct (procs k1 !! p) as [a|], (procs k2 !! p) as [b|], (procs k3 !! p) as [c|]; try done.
  destruct H1 as (n & r & rn & ts & ->), H2 as (n' & r' & rn' & ts' & ->). by exists n', r', rn', ts'.
Qed.

Lemma same_procs_upd k p f pr : procs k !! p = Some pr ->
  (exists n r rn ts, f pr = set_need_resched n (set_rq r (set_runs rn (set_time_slice ts pr)))) ->
  same_procs k (set_procs (<[p := f pr]> (procs k)) k).
Proof.
  intros Hp Hf q. cbn [procs set_procs]. destruct (decide (q = p)) as [->|Hq].
  - rewrite Hp, lookup_insert_eq. done.
  - rewrite lookup_insert_ne by done. apply same_procs_refl.
Qed.

(** *** Round robin keeps the promises *)

Record rr_repr (k : kern) (l : list Z) : Prop := {
  rr_list : dlist (run_list k) run_list_head l;
  rr_in : forall p, p ∈ l -> exists pr, procs k !! p = Some pr /\ rq pr = true;
  rr_out : forall p, is_Some (procs k !! p) -> 0 <= p /\ (p ∉ l -> dlist (run_list k) p []);
  rr_num : proc_num k = u32 (Z.of_nat (length l))
}.

Lemma rr_frame k k' l : rr_repr k l -> run_list k' = run_list k -> proc_num k' = proc_num k ->
  (forall p, rq <$> procs k' !! p = rq <$> procs k !! p) -> rr_repr k' l.
Proof.
  intros [Hl Hi Ho Hn] Hr Hp Hq. split; rewrite ?Hr, ?Hp; try done.
  - intros p Hpl. destruct (Hi p Hpl) as (pr & E & Er). specialize (Hq p). rewrite E in Hq.
    destruct (procs k' !! p) as [pr'|]; [|done]. exists pr'. split; [done|]. simpl in Hq. congruence.
  - intros p [pr' E]. apply Ho. specialize (Hq p). rewrite E in Hq. destruct (procs k !! p); [eauto|done].
Qed.

Lemma rr_node k l p : rr_repr k l -> is_Some (procs k !! p) -> is_Some (run_list k !! p).
Proof.
  intros [Hl _ Ho _] Hp. destruct (decide (p ∈ l)).
  - eapply dlist_lookup; [exact Hl|by right].
  - destruct (Ho p Hp) as [_ Hd]. eapply dlist_lookup; [by apply Hd|by left].
Qed.

(** [same_at] outside a list keeps the lists of one element. *)
Lemma dlist_self_frame s s' p : same_at s s' p -> dlist s p [] -> dlist s' p [].
Proof. intros H. apply dlist_frame. intros y Hy. apply list_elem_of_singleton in Hy as ->. exact H. Qed.

Lemma u32_succ n : u32 (u32 n + 1) = u32 (n + 1).
Proof. unfold u32. by rewrite Zplus_mod_idemp_l. Qed.
Lemma u32_pred n : u32 (u32 n - 1) = u32 (n - 1).
Proof. unfold u32. by rewrite Zminus_mod_idemp_l. Qed.

Lemma rr_enqueue_order k l p : rr_repr k l -> is_Some (procs k !! p) -> p ∉ l ->
  exists k', RR_enqueue p k = Ok k' /\ rr_repr k' (l ++ [p]) /\ queue_step p k k'.
Proof.
  intros Hrr [pr Hpr] Hpl. pose proof Hrr as [Hl Hi Ho Hn].
  destruct (Ho p) as [Hp0 Hself]; [by exists pr|]. specialize (Hself Hpl).
  unfold RR_enqueue. rewrite (list_empty_dlist _ _ _ Hself). cbn [rbind rassert].
  destruct (list_add_before_dlist _ _ _ p Hl) as (s & -> & Hdom & Hl' & Hf).
  { unfold run_list_head. intros [?|?]%elem_of_cons; [lia|done]. }
  { eapply dlist_lookup; [exact Hself|by left]. }
  cbn [rbind]. rewrite (get_proc_Ok p (set_run_list s k) pr Hpr). cbn [rbind].
  rewrite (upd_proc_if _ p _ (set_run_list s k) pr Hpr). cbn [rbind].
  rewrite (upd_proc_Ok p _ _ _ (lookup_insert_eq _ _ _)). cbn [rbind]. cbn [procs set_procs].
  rewrite insert_insert_eq. set (pr' := set_rq true _). eexists. split; [done|].
  assert (Hpr' : exists ts, pr' = set_rq true (set_time_slice ts pr)).
  { unfold pr'. destruct (_ || _); [by eexists|]. exists (time_slice pr). by destruct pr. }
  clearbody pr'. destruct Hpr' as [ts ->]. split; [split|split]; cbn -[u32].
  - done.
  - intros q [Hq| ->%list_elem_of_singleton]%elem_of_app.
    + destruct (Hi q Hq) as (prq & E & Er). exists prq. rewrite lookup_insert_ne by set_solver. done.
    + eexists. rewrite lookup_insert_eq. done.
  - intros q Hq. assert (Hq' : is_Some (procs k !! q)).
    { destruct (decide (q = p)) as [->|]; [by exists pr|]. by rewrite lookup_insert_ne in Hq. }
    destruct (Ho q Hq') as [Hq0 Hqs]. split; [done|]. intros Hn'. eapply dlist_self_frame; [|apply Hqs; set_solver].
    apply Hf. unfold run_list_head. set_solver by lia.
  - rewrite Hn, u32_succ, length_app. f_equal. simpl. lia.
  - intros pr0 Hpr0. rewrite Hpr in Hpr0. injection Hpr0 as <-. exists ts, true. by rewrite lookup_insert_eq.
  - intros q Hq. by rewrite lookup_insert_ne.
  - done.
Qed.

Lemma rr_pick k l : rr_repr k l -> RR_pick_next k = Ok (head l).
Proof.
  intros [Hl _ _ _]. unfold RR_pick_next. rewrite (list_next_dlist _ _ _ Hl). cbn [rbind].
  destruct l as [|p l]; simpl; [done|].
  destruct Hl as [Hnd _]. apply NoDup_cons in Hnd as [Hh _]. destruct (Z.eqb_spec p run_list_head); [set_solver|done].
Qed.

Lemma rr_dequeue k l1 p l2 : rr_repr k (l1 ++ p :: l2) ->
  exists k', RR_dequeue p k = Ok k' /\ rr_repr k' (l1 ++ l2) /\ queue_step p k k'.
Proof.
  intros [Hl Hi Ho Hn]. destruct (Hi p) as (pr & Hpr & Hrq); [set_solver|]. unfold RR_dequeue.
  assert (Hne : list_empty (run_list k) p = Ok false).
  { pose proof (list_empty_dlist _ _ _ (proj1 (dlist_rotate _ _ _ _ _) Hl)) as E.
    rewrite bool_decide_false in E; [done|]. by destruct l2. }
  rewrite Hne, (get_proc_Ok _ _ _ Hpr). cbn [rbind]. rewrite Hrq. cbn [rbind rassert negb andb].
  destruct (list_del_init_mid _ _ _ _ _ Hl) as (s & -> & Hdom & Hl' & Hself & Hf). cbn [rbind].
  pose proof (proj1 Hl) as Hnd. rewrite <- Permutation_middle in Hnd.
  apply NoDup_cons in Hnd as [Hh [Hpn Hnd]%NoDup_cons].
  eexists. split; [done|]. split; [split|split]; cbn -[u32].
  - done.
  - intros q Hq. apply Hi. set_solver.
  - intros q Hq. destruct (Ho q Hq) as [Hq0 Hqs]. split; [done|]. intros Hn'.
    destruct (decide (q = p)) as [->|Hqp]; [done|].
    eapply dlist_self_frame; [|apply Hqs; set_solver]. apply Hf. unfold run_list_head. set_solver by lia.
  - rewrite Hn, u32_pred, !length_app. f_equal. simpl. lia.
  - intros pr0 Hpr0. rewrite Hpr in Hpr0. injection Hpr0 as <-. exists (time_slice pr), (rq pr).
    rewrite Hpr. by destruct pr.
  - done.
  - done.
Qed.

(** One clock tick for the process [p]. *)
Lemma rr_tick k p pr : procs k !! p = Some pr ->
  let ts := if 0 <? time_slice pr then time_slice pr - 1 else time_slice pr in
  RR_proc_tick p k = Ok (set_procs (<[p := set_need_resched ((ts =? 0) || need_resched pr) (set_time_slice ts pr)]> (procs k)) k).
Proof.
  intros Hpr ts. unfold RR_proc_tick. rewrite (get_proc_Ok _ _ _ Hpr). cbn [rbind].
  rewrite (upd_proc_if _ _ _ _ _ Hpr). cbn [rbind].
  assert (Hts : (if 0 <? time_slice pr then set_time_slice (time_slice pr - 1) pr else pr) = set_time_slice ts pr).
  { unfold ts. destruct (0 <? time_slice pr); [done|]. by destruct pr. }
  rewrite Hts. rewrite (get_proc_Ok p _ _ (lookup_insert_eq _ _ _)). cbn [rbind].
  rewrite (upd_proc_if _ _ _ _ _ (lookup_insert_eq _ _ _)). cbn [procs set_procs].
  rewrite insert_insert_eq. cbn [time_slice set_time_slice]. by destruct (ts =? 0); destruct pr.
Qed.

Lemma filter_out (l1 l2 : list Z) p : NoDup (l1 ++ p :: l2) -> filter (fun q => q <> p) (l1 ++ p :: l2) = l1 ++ l2.
Proof.
  intros Hnd. rewrite <- Permutation_middle in Hnd. apply NoDup_cons in Hnd as [Hp _].
  rewrite filter_app, filter_cons, decide_False by tauto.
  assert (Hk : forall k : list Z, p ∉ k -> filter (fun q => q <> p) k = k).
  { clear. induction k as [|q k IH]; intros Hk; [done|]. rewrite filter_cons, decide_True by set_solver.
    rewrite IH; [done|set_solver]. }
  rewrite !Hk by set_solver. done.
Qed.

(** Round robin puts a process at the end of the queue and takes the first. *)
(** The links of a new process. *)
Lemma rr_alloc k l p pr : rr_repr k l -> procs k !! p = None -> 0 <= p ->
  exists s, list_init p (<[p := mk_entry 0 0]> (run_list k)) = Ok s /\
    rr_repr (set_run_list s (set_procs (<[p := pr]> (procs k)) k)) l.
Proof.
  intros [Hl Hi Ho Hn] Hp H0.
  destruct (list_init_dlist (<[p := mk_entry 0 0]> (run_list k)) p) as (s & E & _ & Hd & Hf);
    [rewrite lookup_insert_eq; by eexists|].
  assert (Hpl : p ∉ l) by (intros Hin; destruct (Hi p Hin) as (? & ? & _); congruence).
  assert (Hs : forall y, y <> p -> same_at (run_list k) s y).
  { intros y Hy. destruct (Hf y Hy) as [H1 H2]. split; [rewrite H1|rewrite H2]; unfold nxt, prv; by rewrite lookup_insert_ne. }
  exists s. split; [done|]. split; cbn [run_list procs proc_num set_run_list set_procs]; [| | |done].
  - eapply dlist_frame; [|exact Hl]. intros y [->|Hy]%elem_of_cons; apply Hs; [unfold run_list_head; lia|by intros ->].
  - intros q Hq. destruct (Hi q Hq) as (pr' & E' & Er). exists pr'. rewrite lookup_insert_ne by (intros ->; done). done.
  - intros q Hq. destruct (decide (q = p)) as [->|Hne]; [done|]. rewrite lookup_insert_ne in Hq by done.
    destruct (Ho q Hq) as [? Hd']. split; [done|]. intros Hql. eapply dlist_self_frame; [by apply Hs|by apply Hd'].
Qed.

#[export] Instance RR_laws : SchedClassLaws default_sched_class rr_repr (fun l p => l ++ [p]) head.
Proof.
  split; simpl.
  - intros l p. by rewrite Permutation_app_comm.
  - intros [|p l]; simpl; [done|by left].
  - intros k l [[Hnd _] Hi _ _]. apply NoDup_cons in Hnd as [_ Hnd]. split; [done|].
    intros p Hp. destruct (Hi p Hp) as (pr & ? & _). by exists pr.
  - intros k l p Hrr Hp Hpl. by apply rr_enqueue_order.
  - intros k l Hrr. by apply rr_pick.
  - intros k l p Hrr (l1 & l2 & ->)%list_elem_of_split.
    rewrite filter_out by (destruct (rr_list _ _ Hrr) as [[_ Hnd]%NoDup_cons _]; done).
    by apply rr_dequeue.
  - intros k l p Hrr [pr Hpr]. eexists. split; [by apply rr_tick|]. split_and!; try done.
    + eapply rr_frame; [exact Hrr|done..|]. intros q. cbn [procs set_procs].
      destruct (decide (q = p)) as [->|]; [by rewrite lookup_insert_eq, Hpr|by rewrite lookup_insert_ne].
    + apply (same_procs_upd k p (fun _ => _) pr); [done|]. by eexists _, (rq pr), (runs pr), _.
  - intros. by eapply rr_frame.
  - intros k l p pr Hrr Hp H0 _. by apply rr_alloc.
  - intros k l p [Hl Hi Ho Hn] Hp. split; cbn [run_list procs proc_num set_procs]; try done.
    + intros q Hq. destruct (Hi q Hq) as (pr & E & Er). exists pr. rewrite lookup_delete_ne by (intros ->; done). done.
    + intros q [pr [_ E]%lookup_delete_Some]. by apply Ho.
Qed.

(** ** The generic scheduler *)

Definition runnable (k : kern) (p : Z) : Prop := exists pr, procs k !! p = Some pr /\ state pr = PROC_RUNNABLE.

(** The run queue holds exactly the runnable processes, without the one that
    runs and without [idleproc], which is always runnable. *)
Record sched_ok (repr : kern -> list Z -> Prop) (k : kern) (l : list Z) : Prop := {
  so_repr : repr k l;
  so_queue : forall p, p ∈ l <-> p <> current k /\ p <> idleproc k /\ runnable k p;
  so_current : is_Some (procs k !! current k);
  so_idle : runnable k (idleproc k)
}.

Lemma queue_step_same p k k' : queue_step p k k' -> is_Some (procs k !! p) -> same_procs k k'.
Proof.
  intros [Hp Ho _] [pr Hpr] q. destruct (decide (q = p)) as [->|Hq].
  - destruct (Hp pr Hpr) as (ts & r & ->). rewrite Hpr. exists (need_resched pr), r, (runs pr), ts. by destruct pr.
  - rewrite Ho by done. apply same_procs_refl.
Qed.

Lemma same_procs_is_Some k k' p : same_procs k k' -> is_Some (procs k !! p) <-> is_Some (procs k' !! p).
Proof.
  intros H. specialize (H p). destruct (procs k !! p), (procs k' !! p); try done; split; (eauto || by intros []).
Qed.

Lemma same_procs_runnable k k' p : same_procs k k' -> runnable k' p <-> runnable k p.
Proof.
  intros H. specialize (H p). unfold runnable. destruct (procs k !! p) as [a|], (procs k' !! p) as [b|]; try done.
  - destruct H as (n & r & rn & ts & ->). split; intros (pr & [= <-] & Hs); eexists; (split; [done|exact Hs]).
Qed.

Section generic.
Context `{SC : sched_class} (repr : kern -> list Z -> Prop) (put : list Z -> Z -> list Z) (pick : list Z -> option Z).
Context `{!SchedClassLaws SC repr put pick}.

(** The queue once the current process has been put back. *)
Definition put_current (k : kern) (l : list Z) : list Z :=
  match procs k !! current k with
  | Some pr => if (state pr =? PROC_RUNNABLE) && negb (current k =? idleproc k) then put l (current k) else l
  | None => l
  end.

(** The process the switch goes to, and the new queue. *)
Record switched (k k' : kern) (l l' : list Z) : Prop := {
  sw_ok : sched_ok repr k' l';
  sw_same : same_procs k k';
  sw_run : runnable k' (current k');
  sw_next : current k' = default (idleproc k) (pick (put_current k l));
  sw_queue : l' = match pick (put_current k l) with
                  | Some p => filter (fun q => q <> p) (put_current k l)
                  | None => []
                  end;
  sw_idle : current k' = idleproc k -> forall p, runnable k p -> p = idleproc k;
  sw_rest : idleproc k' = idleproc k /\ initproc k' = initproc k /\ timers k' = timers k /\
    timer_list k' = timer_list k /\ max_time_slice k' = max_time_slice k
}.

(** The first half of [schedule]: the current process goes back to the queue
    when it can go on. *)
Lemma schedule_put k l : sched_ok repr k l ->
  exists k1, let l1 := put_current k l in (let! k := upd_proc (current k) (set_need_resched false) k in
    let! cur := get_proc (current k) k in
    if state cur =? PROC_RUNNABLE then sched_class_enqueue (current k) k else Ok k) = Ok k1 /\
    repr k1 l1 /\ same_procs k k1 /\ (forall p, p ∈ l1 <-> p <> idleproc k /\ runnable k p) /\
    current k1 = current k /\ idleproc k1 = idleproc k /\ initproc k1 = initproc k /\
    timers k1 = timers k /\ timer_list k1 = timer_list k /\ max_time_slice k1 = max_time_slice k.
Proof.
  intros [Hr Hq [pr Hpr] Hidle]. rewrite (upd_proc_Ok _ _ _ _ Hpr). cbn [rbind].
  unfold put_current. rewrite Hpr.
  set (k0 := set_procs _ k). change (current k0) with (current k).
  assert (Hpr0 : procs k0 !! current k = Some (set_need_resched false pr)) by (unfold k0; cbn; by rewrite lookup_insert_eq).
  rewrite (get_proc_Ok _ _ _ Hpr0). cbn [rbind]. change (state (set_need_resched false pr)) with (state pr).
  assert (Hs0 : same_procs k k0).
  { apply (same_procs_upd k _ (set_need_resched false)); [done|].
    exists false, (rq pr), (runs pr), (time_slice pr). by destruct pr. }
  assert (Hr0 : repr k0 l).
  { eapply law_frame; [exact Hr|done..|]. intros p. unfold k0. cbn [procs set_procs].
    destruct (decide (p = current k)) as [->|]; [by rewrite lookup_insert_eq, Hpr|by rewrite lookup_insert_ne]. }
  assert (Hrun : state pr = PROC_RUNNABLE <-> runnable k (current k)).
  { unfold runnable. rewrite Hpr. naive_solver. }
  assert (Hskip : (state pr <> PROC_RUNNABLE \/ current k = idleproc k) ->
    forall p, p ∈ l <-> p <> idleproc k /\ runnable k p).
  { intros Hc p. rewrite Hq. split; [tauto|]. intros [Hi Hp]. split; [|done]. intros ->. rewrite <- Hrun in Hp. tauto. }
  destruct (Z.eqb_spec (state pr) PROC_RUNNABLE) as [He|He].
  - unfold sched_class_enqueue. change (idleproc k0) with (idleproc k).
    destruct (Z.eqb_spec (current k) (idleproc k)) as [Hi|Hi]; cbn [negb].
    + exists k0. split_and!; try done. apply Hskip. by right.
    + destruct (law_enqueue k0 l (current k) Hr0) as (k1 & E & Hr1 & Hst);
        [by eexists|rewrite Hq; tauto|].
      pose proof (law_put l (current k)) as Hperm. exists k1. cbv zeta. cbn [andb]. pose proof (queue_step_same _ _ _ Hst (ex_intro _ _ Hpr0)) as Hs1.
      destruct Hst as [_ _ (Hc & Hid & Hin & Ht & Htl & Hm)].
      split_and!; try done; try congruence; [by eapply same_procs_trans|].
      intros p. rewrite Hperm, elem_of_cons, Hq. rewrite Hrun in He.
      split; [intros [->|?]; tauto|]. intros [? ?]. destruct (decide (p = current k)); tauto.
  - exists k0. split_and!; try done. apply Hskip. by left.
Qed.

Lemma schedule_Ok k l : sched_ok repr k l -> exists k' l', schedule k = Ok k' /\ switched k k' l l'.
Proof.
  intros Hok. destruct (schedule_put k l Hok) as (k1 & E1 & Hr1 & Hs1 & Hq1 & Hc1 & Hi1 & Hrest1).
  set (l1 := put_current k l) in *.
  assert (Hidle1 : runnable k1 (idleproc k1)) by (rewrite Hi1; apply (same_procs_runnable _ _ _ Hs1), (so_idle _ _ _ Hok)).
  assert (Hpicked : exists k2 next, (let! next := sched_class_pick_next k1 in
      let! k2 := match next with Some n => sched_class_dequeue n k1 | None => Ok k1 end in
      Ok (k2, match next with Some n => n | None => idleproc k2 end)) = Ok (k2, next) /\
    let l2 := match pick l1 with Some p => filter (fun q => q <> p) l1 | None => [] end in
    repr k2 l2 /\ same_procs k1 k2 /\ (forall p, p ∈ l2 <-> p ∈ l1 /\ p <> next) /\ runnable k1 next /\
    next = default (idleproc k) (pick l1) /\
    (next = idleproc k -> l1 = []) /\ current k2 = current k1 /\ idleproc k2 = idleproc k1 /\
    initproc k2 = initproc k1 /\ timers k2 = timers k1 /\ timer_list k2 = timer_list k1 /\
    max_time_slice k2 = max_time_slice k1).
  { unfold sched_class_pick_next, sched_class_dequeue. rewrite (law_pick k1 l1 Hr1). cbn [rbind].
    pose proof (law_choice l1) as Hp. destruct (pick l1) as [p|].
    - destruct (law_dequeue k1 _ p Hr1 Hp) as (k2 & E & Hr2 & Hst). rewrite E. cbn [rbind].
      destruct (law_nodup _ _ Hr1) as [Hnd Hin]. exists k2, p.
      pose proof (queue_step_same _ _ _ Hst (Hin p Hp)) as Hs2. destruct Hst as [_ _ (? & ? & ? & ? & ? & ?)].
      apply Hq1 in Hp as [Hpi Hpr]. cbv zeta.
      split_and!; try done; [|by apply (same_procs_runnable _ _ _ Hs1)].
      intros q. rewrite list_elem_of_filter. tauto.
    - rewrite Hp in Hr1 |- *. cbn [rbind]. exists k1, (idleproc k1). cbv zeta.
      split_and!; try done; [apply same_procs_refl|set_solver]. }
  destruct Hpicked as (k2 & next & E2 & Hpicked). cbv zeta in Hpicked.
  set (l2 := match pick l1 with Some p => _ | None => _ end) in Hpicked.
  destruct Hpicked as (Hr2 & Hs2 & Hq2 & Hrun & Hnx & Hni & Hc2 & Hi2 & Hrest2).
  pose proof (same_procs_trans _ _ _ Hs1 Hs2) as Hs12.
  destruct (proj2 (same_procs_runnable _ _ _ Hs2) Hrun) as (pn & Hpn & Hst).
  set (k3 := set_procs (<[next := set_runs (s32 (runs pn + 1)) pn]> (procs k2)) k2).
  assert (Hs3 : same_procs k2 k3).
  { apply (same_procs_upd k2 _ (fun pr => set_runs (s32 (runs pr + 1)) pr)); [done|].
    exists (need_resched pn), (rq pn), (s32 (runs pn + 1)), (time_slice pn). by destruct pn. }
  pose proof (same_procs_trans _ _ _ Hs12 Hs3) as Hs13.
  assert (E : schedule k = Ok (set_current next k3)).
  { unfold schedule. destruct (upd_proc (current k) (set_need_resched false) k) as [k0|] eqn:E0; [|done].
    cbn [rbind] in E1 |- *. destruct (get_proc (current k0) k0) as [c|] eqn:Ec; [|done]. cbn [rbind] in E1 |- *.
    rewrite E1. cbn [rbind]. destruct (sched_class_pick_next k1) as [nx|] eqn:En; [|done]. cbn [rbind] in E2 |- *.
    destruct (match nx with Some n => sched_class_dequeue n k1 | None => Ok k1 end) as [k2'|]; [|done].
    cbn [rbind] in E2 |- *. injection E2 as -> En2. rewrite En2, (upd_proc_Ok _ _ _ _ Hpn). cbn [rbind]. fold k3.
    unfold proc_run. destruct (Z.eqb_spec next (current k3)) as [He|]; [|done]. cbn [negb]. rewrite He. by destruct k3. }
  exists (set_current next k3), l2. split; [exact E|].
  assert (Hrn : forall p, runnable (set_current next k3) p <-> runnable k p).
  { intros p. change (runnable k3 p <-> runnable k p). by apply same_procs_runnable. }
  assert (Hk1 : forall p, runnable k1 p <-> runnable k p) by (intros; by apply same_procs_runnable).
  split.
  - split; cbn [current idleproc procs set_current].
    + eapply law_frame; [exact Hr2|done..|]. intros p. cbn [procs set_current]. unfold k3. cbn [procs set_procs].
      destruct (decide (p = next)) as [->|]; [by rewrite lookup_insert_eq, Hpn|by rewrite lookup_insert_ne].
    + intros p. rewrite Hq2, Hq1, Hrn. change (idleproc k3) with (idleproc k2). rewrite Hi2, Hi1. tauto.
    + unfold k3. cbn [procs set_procs]. by rewrite lookup_insert_eq.
    + change (idleproc k3) with (idleproc k2). rewrite Hi2, Hi1. apply Hrn, (so_idle _ _ _ Hok).
  - exact Hs13.
  - cbn [current set_current]. apply Hrn. by rewrite <- Hk1.
  - exact Hnx.
  - done.
  - cbn [current set_current]. intros Hne p Hp. destruct (decide (p = idleproc k)); [done|].
    specialize (Hni Hne). assert (Hin : p ∈ l1) by by apply Hq1. rewrite Hni in Hin. set_solver.
  - cbn [idleproc initproc timers timer_list max_time_slice set_current]. unfold k3. cbn.
    destruct Hrest1 as (? & ? & ? & ?), Hrest2 as (? & ? & ? & ?). split_and!; congruence.
Qed.

Lemma wakeup_Ok k l p pr : sched_ok repr k l -> procs k !! p = Some pr -> state pr <> PROC_ZOMBIE ->
  exists k' l', wakeup_proc p k = Ok k' /\ sched_ok repr k' l' /\ current k' = current k /\
    idleproc k' = idleproc k /\ runnable k' p /\ (forall q, q <> p -> runnable k' q <-> runnable k q) /\
    (forall q, q <> p -> same_proc_at k k' q) /\ same_cores k k' /\ initproc k' = initproc k /\
    (k' = k \/ wait_state <$> procs k' !! p = Some 0).
Proof.
  intros [Hr Hq Hcur Hidle] Hpr Hz. unfold wakeup_proc. rewrite (get_proc_Ok _ _ _ Hpr). cbn [rbind].
  destruct (Z.eqb_spec (state pr) PROC_ZOMBIE); [done|]. cbn [negb rassert rbind].
  destruct (Z.eqb_spec (state pr) PROC_RUNNABLE) as [He|He]; cbn [negb].
  { exists k, l. split_and!; try done; [by exists pr| |by left]. intros q _. apply same_procs_refl. }
  assert (Hcore : forall pr, core (set_wait_state 0 (set_state PROC_RUNNABLE pr)) = core pr) by done.
  rewrite (upd_proc_Ok _ _ _ _ Hpr). cbn [rbind].
  set (f := fun pr => set_wait_state 0 (set_state PROC_RUNNABLE pr)). set (k0 := set_procs _ k).
  assert (Hnr : ~ runnable k p) by (unfold runnable; rewrite Hpr; naive_solver).
  assert (Hp0 : procs k0 !! p = Some (f pr)) by (unfold k0; cbn [procs set_procs]; by rewrite lookup_insert_eq).
  assert (Ho0 : forall q, q <> p -> procs k0 !! q = procs k !! q).
  { intros q Hqp. unfold k0. cbn [procs set_procs]. by rewrite lookup_insert_ne. }
  assert (Hr0 : repr k0 l).
  { eapply law_frame; [exact Hr|done..|]. intros q. destruct (decide (q = p)) as [->|]; [by rewrite Hp0, Hpr|by rewrite Ho0]. }
  assert (Hrun0 : forall q, runnable k0 q <-> q = p \/ runnable k q).
  { intros q. unfold runnable. destruct (decide (q = p)) as [->|Hne].
    - rewrite Hp0. split; [by left|]. intros _. by eexists.
    - rewrite Ho0 by done. naive_solver. }
  assert (Hpi : p <> idleproc k) by (intros ->; done).
  change (current k0) with (current k).
  assert (Hpl : p ∉ l) by (rewrite Hq; tauto).
  destruct (Z.eqb_spec p (current k)) as [Hpc|Hpc]; cbn [negb].
  - exists k0, l. split_and!; try done; [|apply Hrun0; by left|intros q Hqp; rewrite Hrun0; tauto| | |].
    2: { intros q Hqp. unfold same_proc_at. rewrite Ho0 by done. apply same_procs_refl. }
    2: { intros q. destruct (decide (q = p)) as [->|Hne]; [by rewrite Hp0, Hpr|by rewrite Ho0]. }
    2: { right. by rewrite Hp0. }
    split; try done.
    + intros q. rewrite Hq, Hrun0. change (current k0) with (current k). change (idleproc k0) with (idleproc k).
      split; [tauto|]. intros (? & ? & [->|?]); tauto.
    + change (is_Some (procs k0 !! current k)). rewrite <- Hpc. by eexists.
    + apply Hrun0. by right.
  - unfold sched_class_enqueue. change (idleproc k0) with (idleproc k).
    destruct (Z.eqb_spec p (idleproc k)); [done|]. cbn [negb].
    destruct (law_enqueue k0 l p Hr0) as (k1 & E & Hr1 & Hst); [by eexists|done|].
    pose proof (law_put l p) as Hperm.
    pose proof (queue_step_same _ _ _ Hst (ex_intro _ _ Hp0)) as Hs1.
    assert (Hst0 := Hst). destruct Hst as [_ _ (Hc & Hid & Hini & _)]. change (initproc k0) with (initproc k) in Hini. change (current k0) with (current k) in Hc.
    change (idleproc k0) with (idleproc k) in Hid.
    assert (Hrun1 : forall q, runnable k1 q <-> q = p \/ runnable k q).
    { intros q. rewrite (same_procs_runnable _ _ _ Hs1). apply Hrun0. }
    exists k1, (put l p). split_and!; try done; [|apply Hrun1; by left|intros q Hqp; rewrite Hrun1; tauto| | |].
    2: { intros q Hqp. unfold same_proc_at. rewrite <- Ho0 by done. apply Hs1. }
    2: { intros q. rewrite (same_proc_core k0 k1 q) by apply Hs1.
         destruct (decide (q = p)) as [->|Hne]; [by rewrite Hp0, Hpr|by rewrite Ho0]. }
    2: { right. destruct (qs_proc _ _ _ Hst0 _ Hp0) as (ts & r & ->). done. }
    split; [done|..].
    + intros q. rewrite Hperm, elem_of_cons, Hq, Hrun1, Hc, Hid.
      split; [intros [->|?]; tauto|]. intros (? & ? & [->|?]); tauto.
    + rewrite Hc. apply (same_procs_is_Some _ _ _ Hs1). rewrite Ho0 by congruence. done.
    + rewrite Hid. apply Hrun1. by right.
Qed.

(** The current process gives up the processor: [state = PROC_SLEEPING],
    [wait_state = ws], then [schedule()]. *)
Definition sleep_current (ws : Z) (k : kern) : res kern :=
  let! k := upd_proc (current k) (fun pr => set_wait_state ws (set_state PROC_SLEEPING pr)) k in
  schedule k.

(** The running process may change, its place in the queue apart. *)
Lemma sched_ok_current k k' l : sched_ok repr k l -> current k <> idleproc k -> k' = set_procs (procs k') k ->
  (forall q, q <> current k -> procs k' !! q = procs k !! q) ->
  rq <$> procs k' !! current k = rq <$> procs k !! current k -> sched_ok repr k' l.
Proof.
  intros [Hr Hq [pr Hpr] Hidle] Hci Hk Ho Hrq.
  assert (Hcur : current k' = current k) by by rewrite Hk.
  assert (Hid : idleproc k' = idleproc k) by by rewrite Hk.
  split; rewrite ?Hcur, ?Hid.
  - eapply law_frame; [exact Hr|by rewrite Hk..|]. intros q. destruct (decide (q = current k)) as [->|]; [done|by rewrite Ho].
  - intros q. rewrite Hq. unfold runnable. split; intros (? & ? & Hrun); (split; [done|]; split; [done|]).
    + by rewrite Ho.
    + by rewrite Ho in Hrun.
  - rewrite Hpr in Hrq. destruct (procs k' !! current k); [by eexists|done].
  - unfold runnable. rewrite Ho; [exact Hidle|congruence].
Qed.

Lemma change_current_ok k l f : sched_ok repr k l -> current k <> idleproc k -> (forall pr, rq (f pr) = rq pr) ->
  exists pr, procs k !! current k = Some pr /\ sched_ok repr (set_procs (<[current k := f pr]> (procs k)) k) l.
Proof.
  intros Hok Hci Hf. destruct (so_current _ _ _ Hok) as [pr Hpr]. exists pr. split; [done|].
  apply (sched_ok_current k); [done|done|done|..]; cbn [procs set_procs].
  - intros q Hne. by rewrite lookup_insert_ne.
  - rewrite lookup_insert_eq, Hpr. simpl. by rewrite Hf.
Qed.

Lemma sleep_ok k l ws : sched_ok repr k l -> current k <> idleproc k ->
  exists pr, procs k !! current k = Some pr /\
  sched_ok repr (set_procs (<[current k := set_wait_state ws (set_state PROC_SLEEPING pr)]> (procs k)) k) l.
Proof. intros Hok Hc. by apply (change_current_ok k l (fun pr => set_wait_state ws (set_state PROC_SLEEPING pr)) Hok Hc). Qed.

(** Changes that neither touch the queue nor any state. *)
Lemma sched_ok_frame k k' l : sched_ok repr k l -> k' = set_procs (procs k') k ->
  (forall p, (fun pr => (rq pr, state pr)) <$> procs k' !! p = (fun pr => (rq pr, state pr)) <$> procs k !! p) ->
  sched_ok repr k' l.
Proof.
  intros [Hr Hq Hc Hi] Hk Hs.
  assert (Hrun : forall p, runnable k' p <-> runnable k p).
  { intros p. unfold runnable. specialize (Hs p). destruct (procs k !! p), (procs k' !! p); simpl in Hs; try done.
    injection Hs as _ Es. split; intros (x & [= <-] & E); (eexists; split; [done|congruence]). }
  assert (Hcur : current k' = current k) by by rewrite Hk.
  assert (Hidle : idleproc k' = idleproc k) by by rewrite Hk.
  split; rewrite ?Hcur, ?Hidle.
  - eapply law_frame; [exact Hr|by rewrite Hk..|]. intros p. specialize (Hs p).
    destruct (procs k !! p), (procs k' !! p); simplify_eq/=; try done; f_equal; congruence.
  - intros p. rewrite Hrun. apply Hq.
  - specialize (Hs (current k)). destruct Hc as [pr E]. rewrite E in Hs. destruct (procs k' !! current k); [by eexists|done].
  - by apply Hrun.
Qed.

(** The memory of a process that cannot run is given back. *)
Lemma sched_ok_free k l p : sched_ok repr k l -> ~ runnable k p -> p <> current k ->
  sched_ok repr (set_procs (delete p (procs k)) k) l.
Proof.
  intros [Hr Hq Hc Hi] Hp Hpc. assert (Hpi : p <> idleproc k) by (intros ->; done).
  assert (Hrun : forall q, runnable (set_procs (delete p (procs k)) k) q <-> runnable k q).
  { intros q. unfold runnable. cbn [procs set_procs]. destruct (decide (q = p)) as [->|Hne].
    - rewrite lookup_delete_eq. split; [by intros (? & ? & _)|by intros ?%Hp].
    - by rewrite lookup_delete_ne. }
  split; cbn [current idleproc set_procs].
  - apply law_free; [done|]. rewrite Hq. tauto.
  - intros q. rewrite Hrun. apply Hq.
  - cbn [procs set_procs]. by rewrite lookup_delete_ne.
  - by apply Hrun.
Qed.
End generic.

(** ** Events *)

(** What happens to the scheduler: the current process yields, goes to sleep,
    a process is woken up, the clock ticks.  [ETick] is what the scheduling class
    does in a tick; the timers, which [run_timer_list] goes through before, wake
    processes up, which is [EWakeup] here. *)
Inductive event := EYield | ESleep (ws : Z) | EWakeup (p : Z) | ETick.

(** [allowed]: idle does not sleep, and only existing processes that are not
    zombies are woken up. *)
Definition allowed (e : event) (k : kern) : bool :=
  match e with
  | ESleep _ => negb (current k =? idleproc k)
  | EWakeup p => match procs k !! p with Some pr => negb (state pr =? PROC_ZOMBIE) | None => false end
  | _ => true
  end.

Definition handle `{SC : sched_class} (e : event) (k : kern) : res kern :=
  match e with
  | EYield => schedule k
  | ESleep ws => sleep_current ws k
  | EWakeup p => wakeup_proc p k
  | ETick => sched_class_proc_tick (current k) k
  end.

(** A run of the events, those not allowed left out. *)
Fixpoint handle_all `{SC : sched_class} (es : list event) (k : kern) : res kern :=
  match es with
  | [] => Ok k
  | e :: es => if allowed e k then let! k := handle e k in handle_all es k else handle_all es k
  end.

(** The process an event is about. *)
Definition touched (e : event) (k : kern) (p : Z) : Prop :=
  match e with ESleep _ => p = current k | EWakeup q => p = q | _ => False end.

Record handled (e : event) (k k' : kern) : Prop := {
  hd_idle : idleproc k' = idleproc k /\ initproc k' = initproc k;
  hd_same : forall p, ~ touched e k p -> same_proc_at k k' p;
  hd_run : runnable k (current k) -> runnable k' (current k')
}.

Lemma handle_Ok `{SC : sched_class} repr put pick `{!SchedClassLaws SC repr put pick} e k l :
  sched_ok repr k l -> allowed e k = true ->
  exists k' l', handle e k = Ok k' /\ sched_ok repr k' l' /\ handled e k k'.
Proof.
  intros Hok Ha. destruct e as [|ws|p|]; simpl in *.
  - destruct (schedule_Ok repr put pick k l Hok) as (k' & l' & E & Hs). exists k', l'.
    split; [done|]. split; [apply Hs|]. split; [split; apply (sw_rest _ _ _ _ _ _ _ Hs)| |intros _; apply (sw_run _ _ _ _ _ _ _ Hs)].
    intros q _. apply (sw_same _ _ _ _ _ _ _ Hs).
  - apply negb_true_iff, Z.eqb_neq in Ha. destruct (sleep_ok repr put pick k l ws Hok Ha) as (pr & Hpr & Hok').
    unfold sleep_current. rewrite (upd_proc_Ok _ _ _ _ Hpr). cbn [rbind].
    destruct (schedule_Ok repr put pick _ l Hok') as (k' & l' & E & Hs). exists k', l'.
    split; [done|]. split; [apply Hs|]. split; [split; apply (sw_rest _ _ _ _ _ _ _ Hs)| |intros _; apply (sw_run _ _ _ _ _ _ _ Hs)].
    intros q Hq. pose proof (sw_same _ _ _ _ _ _ _ Hs q) as Hsq. cbn [procs set_procs] in Hsq.
    by rewrite lookup_insert_ne in Hsq by (intros <-; by apply Hq).
  - destruct (procs k !! p) as [pr|] eqn:Hpr; [|done]. apply negb_true_iff, Z.eqb_neq in Ha.
    destruct (wakeup_Ok repr put pick k l p pr Hok Hpr Ha) as (k' & l' & E & Hok' & Hc & Hi & Hp & Ho & Hs & _ & Hini & _).
    exists k', l'. split; [done|]. split; [done|]. split; [done|done|]. rewrite Hc.
    destruct (decide (current k = p)) as [->|Hne]; [done|by apply Ho].
  - unfold sched_class_proc_tick. destruct (Z.eqb_spec (current k) (idleproc k)) as [He|He]; cbn [negb].
    + destruct (so_current _ _ _ Hok) as [pr Hpr]. rewrite (upd_proc_Ok _ _ _ _ Hpr). eexists _, l. split; [done|].
      assert (Hs : same_procs k (set_procs (<[current k := set_need_resched true pr]> (procs k)) k)).
      { apply (same_procs_upd k _ (set_need_resched true)); [done|].
        exists true, (rq pr), (runs pr), (time_slice pr). by destruct pr. }
      assert (Hrun : forall p, runnable (set_procs (<[current k := set_need_resched true pr]> (procs k)) k) p <-> runnable k p).
      { intros p. by apply same_procs_runnable. }
      destruct Hok as [Hr Hq Hc Hi]. split; [split|split; [done|intros p _; apply Hs|apply Hrun]].
      * eapply law_frame; [exact Hr|done..|]. intros q. cbn [procs set_procs].
        destruct (decide (q = current k)) as [->|]; [by rewrite lookup_insert_eq, Hpr|by rewrite lookup_insert_ne].
      * intros q. rewrite (same_procs_runnable _ _ _ Hs). apply Hq.
      * by apply (same_procs_is_Some _ _ _ Hs).
      * by apply (same_procs_runnable _ _ _ Hs).
    + destruct Hok as [Hr Hq Hc Hi]. destruct (law_tick k l (current k) Hr Hc) as (k' & E & Hr' & Hs & Hc' & Hi' & Hini & _).
      exists k', l. split; [done|].
      split; [|split; [done|intros p _; apply Hs|rewrite Hc'; by apply same_procs_runnable]].
      split; rewrite ?Hc', ?Hi'; try done.
      * intros q. rewrite (same_procs_runnable _ _ _ Hs). apply Hq.
      * by apply (same_procs_is_Some _ _ _ Hs).
      * by apply (same_procs_runnable _ _ _ Hs).
Qed.

(** *** Deadlines of the timers *)

(** The list stores differences; [deadlines] are the times from now on. *)
Definition exp (k : kern) (t : Z) : Z := from_option expires 0 (timers k !! t).
Fixpoint deadlines (k : kern) (now : Z) (ts : list Z) : list (Z * Z) :=
  match ts with
  | [] => []
  | t :: ts => (t, now + exp k t) :: deadlines k (now + exp k t) ts
  end.
Definition span (k : kern) (ts : list Z) : Z := foldr (fun t n => exp k t + n) 0 ts.

Record timers_ok (k : kern) (ts : list Z) : Prop := {
  ti_list : dlist (timer_list k) timer_list_head ts;
  ti_in : forall t, t ∈ ts -> is_Some (timers k !! t) /\ 0 <= exp k t;
  ti_bound : span k ts < two32
}.

Lemma deadlines_app k now ts1 ts2 :
  deadlines k now (ts1 ++ ts2) = deadlines k now ts1 ++ deadlines k (now + span k ts1) ts2.
Proof.
  revert now. induction ts1 as [|t ts1 IH]; intros now; simpl; [by rewrite Z.add_0_r|].
  rewrite IH. do 3 f_equal. lia.
Qed.

Lemma length_deadlines k now ts : length (deadlines k now ts) = length ts.
Proof. revert now. induction ts as [|t ts IH]; intros now; simpl; [done|by rewrite IH]. Qed.

Lemma deadlines_ext k k' now ts : (forall t, t ∈ ts -> exp k' t = exp k t) -> deadlines k' now ts = deadlines k now ts.
Proof.
  revert now. induction ts as [|t ts IH]; intros now He; simpl; [done|].
  rewrite He by (by left). rewrite IH; [done|]. intros u Hu. apply He. by right.
Qed.

Lemma span_ext k k' ts : (forall t, t ∈ ts -> exp k' t = exp k t) -> span k' ts = span k ts.
Proof.
  induction ts as [|t ts IH]; intros He; simpl; [done|].
  rewrite He by (by left). rewrite IH; [done|]. intros u Hu. apply He. by right.
Qed.

Lemma span_app k ts1 ts2 : span k (ts1 ++ ts2) = span k ts1 + span k ts2.
Proof. induction ts1 as [|t ts1 IH]; simpl; [done|]. rewrite IH. lia. Qed.

Lemma span_nonneg k ts : (forall t, t ∈ ts -> 0 <= exp k t) -> 0 <= span k ts.
Proof.
  induction ts as [|t ts IH]; intros He; simpl; [done|].
  pose proof (He t ltac:(by left)). specialize (IH ltac:(intros; apply He; by right)). lia.
Qed.

Lemma upd_timer_Ok t f k tm : timers k !! t = Some tm ->
  upd_timer t f k = Ok (set_timers (<[t := f tm]> (timers k)) k).
Proof. intros H. unfold upd_timer, get_timer. by rewrite H. Qed.

Lemma exp_Some k t tm : timers k !! t = Some tm -> exp k t = expires tm.
Proof. unfold exp. by intros ->. Qed.

(** What the loop of [add_timer] leaves when it has passed the timers [m1]
    and stops before [m2]. *)
Record scanned (t : Z) (k k' : kern) (m1 m2 : list Z) : Prop := {
  sc_rest : timer_list k' = timer_list k /\ procs k' = procs k /\ current k' = current k /\ run_list k' = run_list k;
  sc_new : exp k' t = exp k t - span k m1 /\ 0 <= exp k' t;
  sc_stop : forall x, head m2 = Some x -> exp k t - span k m1 < exp k x;
  sc_exp : forall u, u <> t -> exp k' u = exp k u - (if decide (head m2 = Some u) then exp k t - span k m1 else 0);
  sc_some : forall u, is_Some (timers k' !! u) <-> is_Some (timers k !! u)
}.

Lemma add_timer_scan t l2 : forall k l1,
  dlist (timer_list k) timer_list_head (l1 ++ l2) -> is_Some (timers k !! t) -> t ∉ l1 ++ l2 ->
  (forall u, u ∈ l2 -> is_Some (timers k !! u) /\ 0 <= u /\ 0 <= exp k u) -> 0 <= exp k t ->
  exists n m1 m2 k', (n <= S (length l2))%nat /\ l2 = m1 ++ m2 /\
    rounds n (add_timer_body t) (default timer_list_head (head l2), k) =
      Ok (inr (default timer_list_head (head m2), k')) /\ scanned t k k' m1 m2.
Proof.
  induction l2 as [|x l2 IH]; intros k l1 HL [tm Ht] Htn Hin He.
  { exists 1%nat, [], [], k. split_and!; try done. split; try done; cbn [span foldr head]; [lia|].
    intros u _. rewrite decide_False by done. lia. }
  destruct (Hin x) as ([tx Hx] & Hx0 & Hxe); [by left|]. pose proof (exp_Some _ _ _ Ht) as Et. pose proof (exp_Some _ _ _ Hx) as Ex.
  assert (Hbody : add_timer_body t (x, k) = if expires tm <? expires tx then
      Ok (inr (x, set_timers (<[x := set_expires (expires tx - expires tm) tx]> (timers k)) k))
    else let! le := list_next (timer_list k) x in
      Ok (inl (le, set_timers (<[t := set_expires (expires tm - expires tx) tm]> (timers k)) k))).
  { unfold add_timer_body. destruct (Z.eqb_spec x timer_list_head); [unfold timer_list_head in *; lia|]. cbn [negb].
    unfold get_timer. rewrite Ht, Hx. cbn [rget rbind].
    rewrite (upd_timer_Ok _ _ _ _ Hx), (upd_timer_Ok _ _ _ _ Ht). cbn [rbind]. done. }
  destruct (Z.ltb_spec (expires tm) (expires tx)) as [Hlt|Hge].
  - eexists 1%nat, [], (x :: l2), _. split; [lia|]. split; [done|]. change (default timer_list_head (head (x :: l2))) with x. cbn [rounds]. rewrite Hbody.
    cbn [rbind]. split; [done|]. assert (Hxt : x <> t) by set_solver.
    split; cbn [timers set_timers timer_list procs current run_list head span foldr]; try done.
    + unfold exp. cbn [timers set_timers]. rewrite lookup_insert_ne by done. rewrite Ht. simpl. lia.
    + intros y [= <-]. lia.
    + intros u Hu. unfold exp at 1. cbn [timers set_timers]. case_decide as Hd.
      * injection Hd as <-. rewrite lookup_insert_eq. simpl. lia.
      * rewrite lookup_insert_ne by congruence. unfold exp. lia.
    + intros u. destruct (decide (u = x)) as [->|]; [rewrite lookup_insert_eq, Hx|by rewrite lookup_insert_ne]. split; eauto.
  - set (k1 := set_timers (<[t := set_expires (expires tm - expires tx) tm]> (timers k)) k).
    assert (Hnext : list_next (timer_list k) x = Ok (default timer_list_head (head l2))) by (by eapply list_next_mid).
    assert (Hk1t : exp k1 t = exp k t - exp k x).
    { unfold exp at 1. unfold k1. cbn [timers set_timers]. rewrite lookup_insert_eq. simpl. lia. }
    assert (Hk1o : forall u, u <> t -> timers k1 !! u = timers k !! u).
    { intros u Hu. unfold k1. cbn [timers set_timers]. by rewrite lookup_insert_ne. }
    assert (Hk1e : forall u, u <> t -> exp k1 u = exp k u) by (intros u Hu; unfold exp; by rewrite Hk1o).
    destruct (IH k1 (l1 ++ [x])) as (n & m1 & m2 & k' & Hn & -> & E & [Hr Hnew Hstop Hexp Hsome]).
    + by rewrite <- app_assoc.
    + unfold k1. cbn [timers set_timers]. rewrite lookup_insert_eq. eauto.
    + rewrite <- app_assoc. done.
    + intros u Hu. assert (u <> t) by set_solver. rewrite Hk1o, Hk1e by done. apply Hin. by right.
    + lia.
    + exists (S n), (x :: m1), m2, k'. split; [simpl; lia|]. split; [done|].
      change (default timer_list_head (head (x :: m1 ++ m2))) with x. cbn [rounds]. rewrite Hbody, Hnext. cbn [rbind].
      split; [exact E|]. assert (Hsp : exp k1 t - span k1 m1 = exp k t - span k (x :: m1)).
      { simpl. rewrite Hk1t, (span_ext k k1 m1); [lia|]. intros u Hu. apply Hk1e. set_solver. }
      rewrite Hsp in *. split; try done.
      * intros y Hy. rewrite <- (Hk1e y); [by apply Hstop|]. intros ->. destruct m2; simplify_eq/=. set_solver.
      * intros u Hu. rewrite Hexp, Hk1e by done. done.
      * intros u. rewrite Hsome. destruct (decide (u = t)) as [->|]; [|by rewrite Hk1o].
        unfold k1. cbn [timers set_timers]. rewrite lookup_insert_eq, Ht. split; eauto.
Qed.

Lemma add_timer_Ok k ts t : timers_ok k ts -> is_Some (timers k !! t) -> 0 < exp k t -> t ∉ ts -> 0 <= t ->
  (forall u, u ∈ ts -> 0 <= u) -> dlist (timer_list k) t [] -> Z.of_nat (length ts) < 4294967295 ->
  exists k' ts1 ts2, add_timer t k = Ok k' /\ ts = ts1 ++ ts2 /\
    dlist (timer_list k') timer_list_head (ts1 ++ t :: ts2) /\
    (forall u, is_Some (timers k' !! u) <-> is_Some (timers k !! u)) /\
    (forall u, u ∈ ts1 ++ t :: ts2 -> 0 <= exp k' u) /\
    deadlines k' 0 (ts1 ++ t :: ts2) =
      deadlines k 0 ts1 ++ (t, exp k t) :: deadlines k (span k ts1) ts2 /\
    span k ts1 <= exp k t /\ (forall x, head ts2 = Some x -> exp k t < span k ts1 + exp k x).
Proof.
  intros [HL Hin Hb] [tm Ht] He Htn Ht0 Hpos Hself Hlen.
  unfold add_timer, get_timer. rewrite Ht. cbn [rget rbind]. pose proof (exp_Some _ _ _ Ht) as Et.
  destruct (Z.ltb_spec 0 (expires tm)); [|lia]. cbn [rassert rbind].
  rewrite (list_empty_dlist _ _ _ Hself), (list_next_dlist _ _ _ HL). cbn [rbind rassert].
  change (rassert (bool_decide (@nil Z = []))) with (Ok tt). cbn [rbind].
  destruct (add_timer_scan t ts k [] HL) as (n & m1 & m2 & k1 & Hn & -> & E & [(Hr & _) [Hnew Hnew0] Hstop Hexp Hsome]);
    [by exists tm|done|intros u Hu; destruct (Hin u Hu); auto|lia|].
  rewrite (loop_rounds n _ _ _ E) by lia. cbn [rbind].
  assert (Hadd : exists s, list_add_before (default timer_list_head (head m2)) t (timer_list k1) = Ok s /\
    dlist s timer_list_head (m1 ++ t :: m2)).
  { rewrite Hr. assert (Hts : is_Some (timer_list k !! t)) by (eapply dlist_lookup; [exact Hself|by left]).
    assert (Hth : t ∉ timer_list_head :: m1 ++ m2).
    { intros [?|?]%elem_of_cons; [unfold timer_list_head in *; lia|done]. }
    destruct m2 as [|x m2]; simpl.
    - rewrite app_nil_r in *. destruct (list_add_before_dlist _ _ _ t HL) as (s & -> & _ & Hd & _); [done|done|eauto].
    - destruct (list_add_before_mid _ _ _ _ _ t HL) as (s & -> & _ & Hd & _); [done|done|eauto]. }
  destruct Hadd as (s & -> & Hd). cbn [rbind]. exists (set_timer_list s k1), m1, m2.
  assert (Hex : forall u, exp (set_timer_list s k1) u = exp k1 u) by done.
  assert (Hm1 : forall u, u ∈ m1 -> exp k1 u = exp k u).
  { intros u Hu. rewrite Hexp by set_solver. rewrite decide_False; [lia|].
    destruct m2 as [|x m2]; [done|]. intros [= ->]. destruct HL as [[_ Hnd]%NoDup_cons _].
    rewrite <- Permutation_middle in Hnd. apply NoDup_cons in Hnd as [Hnd _]. set_solver. }
  split; [done|]. split; [done|]. split; [exact Hd|]. split; [exact Hsome|]. split; [|split; [|split; [lia|]]].
  - intros u Hu. rewrite Hex. destruct (decide (u = t)) as [->|]; [done|]. rewrite Hexp by done.
    assert (Hu' : u ∈ m1 ++ m2) by set_solver. destruct (Hin u Hu') as [_ ?]. case_decide as Hh; [|lia].
    specialize (Hstop u Hh). lia.
  - rewrite deadlines_app. f_equal; [apply deadlines_ext; intros u Hu; rewrite Hex; by apply Hm1|].
    simpl. rewrite Hex, (span_ext k) by (intros u Hu; rewrite Hex; by apply Hm1).
    assert (Hte : 0 + span k m1 + exp k1 t = exp k t) by lia. rewrite Hte. f_equal.
    destruct m2 as [|x m2]; simpl; [done|]. rewrite Hex.
    assert (Hxe : exp k1 x = exp k x - (exp k t - span k m1)).
    { rewrite Hexp by set_solver. by rewrite decide_True. }
    rewrite Hxe. replace (exp k t + (exp k x - (exp k t - span k m1))) with (span k m1 + exp k x) by lia. f_equal.
    apply deadlines_ext. intros u Hu. rewrite Hex, Hexp by set_solver. rewrite decide_False; [lia|].
    simpl. intros [= ->]. destruct HL as [[_ Hnd]%NoDup_cons _]. rewrite <- Permutation_middle in Hnd.
    apply NoDup_cons in Hnd as [Hnd _]. set_solver.
  - intros x Hx. specialize (Hstop x Hx). lia.
Qed.

(** Taking a timer out gives its time to the one behind it. *)
Lemma del_timer_Ok k ts1 t ts2 : timers_ok k (ts1 ++ t :: ts2) -> (forall u, u ∈ ts1 ++ t :: ts2 -> 0 <= u) ->
  exists k', del_timer t k = Ok k' /\ dlist (timer_list k') timer_list_head (ts1 ++ ts2) /\
    dlist (timer_list k') t [] /\
    deadlines k' 0 (ts1 ++ ts2) = deadlines k 0 ts1 ++ deadlines k (span k ts1 + exp k t) ts2.
Proof.
  intros [HL Hin Hb] Hpos. destruct (Hin t) as [[tm Ht] Hte]; [set_solver|]. pose proof (exp_Some _ _ _ Ht) as Et.
  assert (Hne : list_empty (timer_list k) t = Ok false).
  { pose proof (list_empty_dlist _ _ _ (proj1 (dlist_rotate _ _ _ _ _) HL)) as E.
    rewrite bool_decide_false in E; [done|]. by destruct ts2. }
  unfold del_timer. rewrite Hne. cbn [rbind negb]. unfold get_timer. rewrite Ht. cbn [rget rbind].
  assert (Hnd : (t ∉ ts1 ++ ts2) /\ NoDup (ts1 ++ ts2)).
  { destruct HL as [[_ Hnd]%NoDup_cons _]. rewrite <- Permutation_middle in Hnd. by apply NoDup_cons in Hnd. }
  destruct Hnd as [Htn Hnd].
  assert (Hk1 : exists k1, (if negb (expires tm =? 0) then
       let! le := list_next (timer_list k) t in
       if negb (le =? timer_list_head)
       then upd_timer le (fun next => set_expires (u32 (expires next + expires tm)) next) k else Ok k
     else Ok k) = Ok k1 /\ timer_list k1 = timer_list k /\
    (forall u, u ∈ ts1 ++ ts2 -> exp k1 u = exp k u + (if decide (head ts2 = Some u) then exp k t else 0))).
  { destruct (Z.eqb_spec (expires tm) 0) as [H0|H0]; cbn [negb].
    - exists k. split_and!; try done. intros u _. case_decide; lia.
    - rewrite (list_next_mid _ _ _ _ _ HL). cbn [rbind]. destruct ts2 as [|x ts2]; simpl.
      + exists k. split_and!; try done. intros u _. lia.
      + destruct (Hin x) as [[tx Hx] Hxe]; [set_solver|]. pose proof (Hpos x ltac:(set_solver)).
        destruct (Z.eqb_spec x timer_list_head); [unfold timer_list_head in *; lia|]. cbn [negb].
        rewrite (upd_timer_Ok _ _ _ _ Hx). eexists. split; [done|]. split; [done|].
        pose proof (exp_Some _ _ _ Hx) as Ex. intros u Hu. unfold exp at 1. cbn [timers set_timers].
        destruct (decide (Some x = Some u)) as [[= <-]|Hd].
        * rewrite lookup_insert_eq. simpl. rewrite u32_id; [lia|]. unfold is_u32. split; [lia|].
          rewrite span_app in Hb. simpl in Hb.
          assert (0 <= span k ts1) by (apply span_nonneg; intros; apply Hin; set_solver).
          assert (0 <= span k ts2) by (apply span_nonneg; intros; apply Hin; set_solver). lia.
        * rewrite lookup_insert_ne by congruence. unfold exp. lia. }
  destruct Hk1 as (k1 & E & Hr & Hexp). rewrite E. cbn [rbind]. rewrite Hr.
  destruct (list_del_init_mid _ _ _ _ _ HL) as (s & -> & _ & Hd & Hself & _). cbn [rbind].
  exists (set_timer_list s k1). split; [done|]. split; [exact Hd|]. split; [exact Hself|].
  assert (Hex : forall u, exp (set_timer_list s k1) u = exp k1 u) by done.
  assert (H1 : forall u, u ∈ ts1 -> exp k1 u = exp k u).
  { intros u Hu. rewrite Hexp by set_solver. rewrite decide_False; [lia|].
    destruct ts2 as [|x ts2]; [done|]. intros [= ->]. apply NoDup_app in Hnd as (_ & Hnd & _). apply (Hnd u Hu). by left. }
  rewrite deadlines_app. f_equal; [apply deadlines_ext; intros u Hu; rewrite Hex; by apply H1|].
  rewrite (span_ext k) by (intros u Hu; rewrite Hex; by apply H1). rewrite Z.add_0_l.
  destruct ts2 as [|x ts2]; simpl; [done|]. rewrite Hex, Hexp by set_solver. rewrite decide_True by done.
  replace (span k ts1 + (exp k x + exp k t)) with (span k ts1 + exp k t + exp k x) by lia. f_equal.
  apply deadlines_ext. intros u Hu. rewrite Hex, Hexp by set_solver. rewrite decide_False; [lia|].
  simpl. intros [= ->]. apply NoDup_app in Hnd as (_ & _ & Hnd). by apply NoDup_cons in Hnd as [? _].
Qed.

(** ** Properties *)

(** C5: the scheduler never faults and keeps its queue right, whatever the
    policy behind the interface: after any sequence of yields, sleeps, wakeups
    and clock ticks the run queue holds exactly the runnable processes other
    than the running one and [idleproc]. *)
Theorem scheduler_events_safe (SC : sched_class) (repr : kern -> list Z -> Prop)
    (put : list Z -> Z -> list Z) (pick : list Z -> option Z) (laws : SchedClassLaws SC repr put pick)
    (es : list event) (k : kern) (l : list Z) :
  sched_ok repr k l -> exists k' l', handle_all es k = Ok k' /\ sched_ok repr k' l'.
Proof.
  revert k l. induction es as [|e es IH]; intros k l Hok; simpl; [by exists k, l|].
  destruct (allowed e k) eqn:Ha; [|by eapply IH].
  destruct (handle_Ok repr put pick e k l Hok Ha) as (k1 & l1 & E & Hok1 & _). rewrite E. cbn [rbind]. by eapply IH.
Qed.

(** C31: [schedule] switches to the process the policy picks once the current
    one, if it can go on, has been put back: a runnable process, and
    [idleproc] only when no other process is runnable; no process changes
    except in its scheduling fields. *)
Theorem schedule_switches (SC : sched_class) (repr : kern -> list Z -> Prop)
    (put : list Z -> Z -> list Z) (pick : list Z -> option Z) (laws : SchedClassLaws SC repr put pick)
    (k : kern) (l : list Z) :
  sched_ok repr k l -> exists k' l', schedule k = Ok k' /\ switched repr put pick k k' l l'.
Proof. intros Hok. by apply (schedule_Ok repr put pick). Qed.

Definition yields (n : nat) (k : kern) : res kern := handle_all (replicate n EYield) k.

(** C14: round robin starves nobody: the process at place [i] of the run queue
    is running after [i + 1] calls of [schedule]. *)
Theorem rr_no_starvation (k : kern) (l : list Z) (i : nat) (p : Z) :
  sched_ok rr_repr k l -> l !! i = Some p ->
  exists k', yields (S i) k = Ok k' /\ current k' = p.
Proof.
  revert k l. induction i as [|i IH]; intros k l Hok Hi; unfold yields; cbn [replicate handle_all allowed handle].
  - destruct l as [|x l]; [done|]. injection Hi as ->.
    destruct (schedule_Ok rr_repr _ _ k (p :: l) Hok) as (k' & l' & E & [_ _ _ Hc _ _ _]).
    rewrite E. cbn [rbind]. exists k'. split; [done|]. rewrite Hc. unfold put_current.
    by destruct (procs k !! current k) as [pr|]; [destruct (_ && _)|].
  - destruct l as [|x l]; [done|]. simpl in Hi.
    destruct (schedule_Ok rr_repr _ _ k (x :: l) Hok) as (k' & l' & E & [Hok' _ _ _ Hq _ _]).
    rewrite E. cbn [rbind]. apply (IH k' l' Hok'). pose proof (rr_list _ _ (so_repr _ _ _ Hok')) as _.
    assert (Hput : exists c, put_current (fun l p => l ++ [p]) k (x :: l) = x :: l ++ c /\ x ∉ l ++ c).
    { unfold put_current. assert (Hx : x ∉ l).
      { destruct (rr_list _ _ (so_repr _ _ _ Hok)) as [[_ Hnd]%NoDup_cons _]. by apply NoDup_cons in Hnd as [? _]. }
      destruct (procs k !! current k) as [pr|]; [|exists []; by rewrite app_nil_r].
      destruct (_ && _); [|exists []; by rewrite app_nil_r]. exists [current k]. split; [done|].
      intros [?| ->%list_elem_of_singleton]%elem_of_app; [done|].
      assert (Hcl : current k ∈ current k :: l) by by left. apply (so_queue _ _ _ Hok) in Hcl as [? _]. done. }
    destruct Hput as (c & Hput & Hx). rewrite Hput in Hq. cbn [head] in Hq.
    assert (Hfil : filter (fun q => q <> x) (x :: l ++ c) = l ++ c).
    { rewrite filter_cons, decide_False by tauto.
      assert (Hk : forall k : list Z, x ∉ k -> filter (fun q => q <> x) k = k).
      { clear. induction k as [|q k IH]; intros Hk; [done|]. rewrite filter_cons, decide_True by set_solver.
        rewrite IH; [done|set_solver]. }
      by apply Hk. }
    rewrite Hq, Hfil. by rewrite lookup_app_l by (by eapply lookup_lt_Some).
Qed.

(** C32: adding a timer puts it in its place in time and leaves the deadline
    of every other timer as it was; deleting it again restores the deadlines
    of the others. *)
Theorem timer_deadlines_kept (k : kern) (ts : list Z) (t : Z) :
  timers_ok k ts -> is_Some (timers k !! t) -> 0 < exp k t -> t ∉ ts -> 0 <= t ->
  (forall u, u ∈ ts -> 0 <= u) -> dlist (timer_list k) t [] -> Z.of_nat (length ts) < 4294967295 ->
  span k ts + exp k t < two32 ->
  exists k' D1 D2 ts1 ts2, add_timer t k = Ok k' /\ ts = ts1 ++ ts2 /\
    dlist (timer_list k') timer_list_head (ts1 ++ t :: ts2) /\
    deadlines k 0 ts = D1 ++ D2 /\ deadlines k' 0 (ts1 ++ t :: ts2) = D1 ++ (t, exp k t) :: D2 /\
    span k ts1 <= exp k t /\ (forall x, head ts2 = Some x -> exp k t < span k ts1 + exp k x) /\
    exists k'', del_timer t k' = Ok k'' /\ dlist (timer_list k'') timer_list_head ts /\
      deadlines k'' 0 ts = deadlines k 0 ts.
Proof.
  intros Hok Ht He Htn Ht0 Hpos Hself Hlen Hb.
  destruct (add_timer_Ok k ts t Hok Ht He Htn Ht0 Hpos Hself Hlen)
    as (k' & ts1 & ts2 & E & -> & HL & Hsome & Hexp & Hdl & Hle & Hstop).
  exists k', (deadlines k 0 ts1), (deadlines k (span k ts1) ts2), ts1, ts2.
  split; [exact E|]. split; [done|]. split; [exact HL|]. split; [by rewrite deadlines_app, Z.add_0_l|].
  split; [exact Hdl|]. split; [exact Hle|]. split; [exact Hstop|].
  rewrite deadlines_app in Hdl. simpl in Hdl. rewrite !Z.add_0_l in Hdl.
  apply app_inj_1 in Hdl as [H1 H2]; [|by rewrite !length_deadlines]. injection H2 as H2 H3.
  assert (Hspan : span k' (ts1 ++ t :: ts2) < two32).
  { assert (Hlast : forall k now ts, now + span k ts = from_option snd now (last (deadlines k now ts))).
    { clear. intros k now ts. revert now. induction ts as [|t ts IH]; intros now; simpl; [lia|].
      rewrite last_cons. specialize (IH (now + exp k t)). rewrite Z.add_assoc, IH. by destruct (last _). }
    pose proof (Hlast k' 0 (ts1 ++ t :: ts2)) as Hl'. rewrite deadlines_app, H1 in Hl'. simpl in Hl'.
    rewrite !Z.add_0_l in Hl'.
    rewrite H3, H2, last_app, last_cons in Hl'. pose proof (Hlast k (span k ts1) ts2) as Hl.
    rewrite span_app in Hb. pose proof (span_nonneg k ts1 ltac:(intros; apply Hok; set_solver)).
    pose proof (span_nonneg k ts2 ltac:(intros; apply Hok; set_solver)).
    destruct (last (deadlines k (span k ts1) ts2)); simpl in *; lia. }
  destruct (del_timer_Ok k' ts1 t ts2) as (k'' & E'' & HL'' & _ & Hdl'').
  { split; [exact HL| |exact Hspan]. intros u Hu. split; [|by apply Hexp]. apply Hsome.
    apply elem_of_app in Hu as [Hu|[->|Hu]%elem_of_cons]; [apply Hok; set_solver|done|apply Hok; set_solver]. }
  { intros u Hu. apply elem_of_app in Hu as [Hu|[->|Hu]%elem_of_cons]; [apply Hpos; set_solver|done|apply Hpos; set_solver]. }
  exists k''. split; [exact E''|]. split; [exact HL''|]. rewrite Hdl'', H1.
  by rewrite deadlines_app, Z.add_0_l, H3.
Qed.

(** *** Concrete inputs *)

(** [idleproc] 0, the running process 1, process 2 in the queue, and two
    timers, one of them in the list. *)
Definition ex_kern : kern :=
  let pr := set_state PROC_RUNNABLE zero_proc in
  mk_kern {[ 0 := pr; 1 := pr; 2 := set_rq true pr ]} 1 0 1
    {[ -1 := mk_entry 2 2; 2 := mk_entry (-1) (-1); 0 := mk_entry 0 0; 1 := mk_entry 1 1 ]} 1 20
    {[ 7 := mk_timer 5 2; 8 := mk_timer 9 1 ]}
    {[ -2 := mk_entry 8 8; 8 := mk_entry (-2) (-2); 7 := mk_entry 7 7 ]}.

Lemma ex_procs p : is_Some (procs ex_kern !! p) -> p = 0 \/ p = 1 \/ p = 2.
Proof.
  unfold ex_kern. cbn [procs]. intros [pr Hp].
  apply lookup_insert_Some in Hp as [[<- _]|[_ Hp]]; [auto|].
  apply lookup_insert_Some in Hp as [[<- _]|[_ Hp]]; [auto|].
  apply lookup_singleton_Some in Hp as [<- _]. auto.
Qed.

Lemma dlist_self s p : s !! p = Some (mk_entry p p) -> dlist s p [].
Proof.
  intros H. split; [repeat constructor; set_solver|]. split; unfold nxt, prv; by rewrite H.
Qed.
Lemma dlist_pair s h p : h <> p -> s !! h = Some (mk_entry p p) -> s !! p = Some (mk_entry h h) -> dlist s h [p].
Proof.
  intros Hne Hh Hp. split.
  - repeat constructor; set_solver.
  - simpl. unfold linked, nxt, prv. by rewrite Hh, Hp.
Qed.

Lemma ex_kern_ok : sched_ok rr_repr ex_kern [2].
Proof.
  split; [split| | |].
  - by apply dlist_pair.
  - intros p ->%list_elem_of_singleton. eexists. split; [reflexivity|done].
  - intros p [-> |[-> | ->]]%ex_procs; (split; [lia|]); intros Hp; [by apply dlist_self|by apply dlist_self|set_solver].
  - reflexivity.
  - intros p. rewrite list_elem_of_singleton. split.
    + intros ->. split; [done|]. split; [done|]. eexists. split; reflexivity.
    + intros (H1 & H0 & pr & Hp & _). destruct (ex_procs p) as [-> |[-> | ->]]; [by exists pr|done..].
  - eexists. reflexivity.
  - eexists. split; reflexivity.
Qed.

Lemma scheduler_events_safe_witness : exists k' l',
  handle_all [ESleep WT_KBD; EYield; EWakeup 1; ETick] ex_kern = Ok k' /\ sched_ok rr_repr k' l'.
Proof. apply (scheduler_events_safe default_sched_class rr_repr _ _ RR_laws _ ex_kern [2] ex_kern_ok). Defined.

Lemma schedule_switches_witness : exists k' l', schedule ex_kern = Ok k' /\
  switched rr_repr (fun l p => l ++ [p]) head ex_kern k' [2] l'.
Proof. apply (schedule_switches default_sched_class rr_repr _ _ RR_laws ex_kern [2] ex_kern_ok). Defined.

Lemma rr_no_starvation_witness : exists k', yields 1 ex_kern = Ok k' /\ current k' = 2.
Proof. apply (rr_no_starvation ex_kern [2] 0 2 ex_kern_ok). reflexivity. Defined.

Lemma timer_deadlines_kept_witness : exists k' ts1 ts2, add_timer 7 ex_kern = Ok k' /\ [8] = ts1 ++ ts2 /\
  dlist (timer_list k') timer_list_head (ts1 ++ 7 :: ts2).
Proof.
  destruct (timer_deadlines_kept ex_kern [8] 7) as (k' & _ & _ & ts1 & ts2 & E & Hts & HL & _).
  - split; [by apply dlist_pair| |done].
    intros t ->%list_elem_of_singleton. split; [by eexists|done].
  - by eexists.
  - done.
  - set_solver.
  - lia.
  - intros u ->%list_elem_of_singleton. lia.
  - by apply dlist_self.
  - simpl. lia.
  - done.
  - exists k', ts1, ts2. auto.
Defined.
