(* ===== verification/Sync.v ===== *)
(** * Wait queues, semaphores and monitors (kern/sync)

    A wait queue, and the semaphore it belongs to, is named by the (negative)
    number of its list head; a [wait_t] is named by the number of its link.
    [__down] keeps its [wait_t] on the stack of the sleeping process, so there
    it is named by the process.  [__down] has three steps: [down_enter] runs up
    to the point where interrupts are enabled again, [down_switch] is the call
    of [schedule], [down_resume] follows when the process runs again.  Each of
    them, and each of the other functions, disables interrupts, so it is one
    step; between the steps interrupt handlers and other processes run. *)
From S2P Require Import Prelude DList Kern Sched.

Record wait_t := mk_wait { w_proc : Z; wakeup_flags : Z; wait_queue : Z }.

Record sync := mk_sync {
  ks : kern;
  waits : gmap Z wait_t;
  wait_links : store;
  sems : gmap Z Z
}.
Definition set_ks (v : kern) (s : sync) : sync := mk_sync v (waits s) (wait_links s) (sems s).
Definition set_waits (v : gmap Z wait_t) (s : sync) : sync := mk_sync (ks s) v (wait_links s) (sems s).
Definition set_wait_links (v : store) (s : sync) : sync := mk_sync (ks s) (waits s) v (sems s).
Definition set_sems (v : gmap Z Z) (s : sync) : sync := mk_sync (ks s) (waits s) (wait_links s) v.

Definition get_wait (w : Z) (s : sync) : res wait_t := rget (waits s !! w).
Definition get_sem (q : Z) (s : sync) : res Z := rget (sems s !! q).

(** ** Wait queues (wait.c) *)

(** The [wait_t] may be new memory: its link starts to exist here. *)
Definition wait_init (w p : Z) (s : sync) : res sync :=
  let! l := list_init w (<[w := mk_entry w w]> (wait_links s)) in
  Ok (set_wait_links l (set_waits (<[w := mk_wait p WT_INTERRUPTED 0]> (waits s)) s)).

Definition wait_queue_init (q : Z) (s : sync) : res sync :=
  let! l := list_init q (<[q := mk_entry q q]> (wait_links s)) in Ok (set_wait_links l s).

Definition wait_queue_add (q w : Z) (s : sync) : res sync :=
  let! e := list_empty (wait_links s) w in
  let! wt := get_wait w s in
  assert! e ;;
  let s := set_waits (<[w := mk_wait (w_proc wt) (wakeup_flags wt) q]> (waits s)) s in
  let! l := list_add_before q w (wait_links s) in
  Ok (set_wait_links l s).

Definition wait_queue_del (q w : Z) (s : sync) : res sync :=
  let! e := list_empty (wait_links s) w in
  let! wt := get_wait w s in
  assert! negb e && (wait_queue wt =? q) ;;
  let! l := list_del_init w (wait_links s) in Ok (set_wait_links l s).

Definition wait_queue_next (q w : Z) (s : sync) : res (option Z) :=
  let! e := list_empty (wait_links s) w in
  let! wt := get_wait w s in
  assert! negb e && (wait_queue wt =? q) ;;
  let! le := list_next (wait_links s) w in
  Ok (if negb (le =? q) then Some le else None).

Definition wait_queue_prev (q w : Z) (s : sync) : res (option Z) :=
  let! e := list_empty (wait_links s) w in
  let! wt := get_wait w s in
  assert! negb e && (wait_queue wt =? q) ;;
  let! le := list_prev (wait_links s) w in
  Ok (if negb (le =? q) then Some le else None).

Definition wait_queue_first (q : Z) (s : sync) : res (option Z) :=
  let! le := list_next (wait_links s) q in Ok (if negb (le =? q) then Some le else None).
Definition wait_queue_last (q : Z) (s : sync) : res (option Z) :=
  let! le := list_prev (wait_links s) q in Ok (if negb (le =? q) then Some le else None).
Definition wait_queue_empty (q : Z) (s : sync) : res bool := list_empty (wait_links s) q.
Definition wait_in_queue (w : Z) (s : sync) : res bool :=
  let! e := list_empty (wait_links s) w in Ok (negb e).

Section sync.
Context `{SC : sched_class}.

Definition wakeup_wait (q w flags : Z) (del : bool) (s : sync) : res sync :=
  let! s := (if del then wait_queue_del q w s else Ok s) in
  let! wt := get_wait w s in
  let s := set_waits (<[w := mk_wait (w_proc wt) flags (wait_queue wt)]> (waits s)) s in
  let! k := wakeup_proc (w_proc wt) (ks s) in
  Ok (set_ks k s).

Definition wakeup_first (q flags : Z) (del : bool) (s : sync) : res sync :=
  let! w := wait_queue_first q s in
  match w with Some w => wakeup_wait q w flags del s | None => Ok s end.

(** One round of the loops of [wakeup_queue]. *)
Definition wakeup_queue_body (q flags : Z) (del : bool) (st : Z * sync) : res (Z * sync + sync) :=
  let '(w, s) := st in
  let! s := wakeup_wait q w flags del s in
  let! w := (if del then wait_queue_first q s else wait_queue_next q w s) in
  match w with Some w => Ok (inl (w, s)) | None => Ok (inr s) end.

Definition wakeup_queue (q flags : Z) (del : bool) (s : sync) : res sync :=
  let! w := wait_queue_first q s in
  match w with Some w => loop (wakeup_queue_body q flags del) (w, s) | None => Ok s end.

Definition wait_current_set (q w ws : Z) (s : sync) : res sync :=
  let! s := wait_init w (current (ks s)) s in
  let! k := upd_proc (current (ks s)) (fun pr => set_wait_state ws (set_state PROC_SLEEPING pr)) (ks s) in
  wait_queue_add q w (set_ks k s).

Definition wait_current_del (q w : Z) (s : sync) : res sync :=
  let! b := wait_in_queue w s in if b : bool then wait_queue_del q w s else Ok s.

(** ** Semaphores (sem.c) *)

Definition sem_init (q value : Z) (s : sync) : res sync :=
  wait_queue_init q (set_sems (<[q := value]> (sems s)) s).

Definition __up (q ws : Z) (s : sync) : res sync :=
  let! w := wait_queue_first q s in
  match w with
  | None => let! v := get_sem q s in Ok (set_sems (<[q := s32 (v + 1)]> (sems s)) s)
  | Some w =>
      let! wt := get_wait w s in
      let! pr := get_proc (w_proc wt) (ks s) in
      assert! wait_state pr =? ws ;;
      wakeup_wait q w ws true s
  end.

(** [true]: the semaphore is taken; [false]: the process is in the queue and
    marked as sleeping, and calls [schedule] next. *)
Definition down_enter (q ws : Z) (s : sync) : res (bool * sync) :=
  let! v := get_sem q s in
  if 0 <? v then Ok (true, set_sems (<[q := s32 (v - 1)]> (sems s)) s)
  else
    let w := current (ks s) in
    let! s := wait_current_set q w ws s in
    Ok (false, s).

Definition down_switch (s : sync) : res sync :=
  let! k := schedule (ks s) in Ok (set_ks k s).

Definition down_resume (q ws : Z) (s : sync) : res (Z * sync) :=
  let w := current (ks s) in
  let! s := wait_current_del q w s in
  let! wt := get_wait w s in
  if negb (wakeup_flags wt =? ws) then Ok (wakeup_flags wt, s) else Ok (0, s).

Definition up (q : Z) (s : sync) : res sync := __up q WT_KSEM s.
(** [down] is [down_enter q WT_KSEM] and, when that did not take the semaphore,
    [down_switch] and, when the process runs again, this. *)
Definition down_end (q : Z) (s : sync) : res sync :=
  let! (flags, s) := down_resume q WT_KSEM s in
  assert! flags =? 0 ;; Ok s.

Definition try_down (q : Z) (s : sync) : res (bool * sync) :=
  let! v := get_sem q s in
  if 0 <? v then Ok (true, set_sems (<[q := s32 (v - 1)]> (sems s)) s) else Ok (false, s).

(** ** Monitors (monitor.c) *)

(** The counters; [mutex], [next] and the [cv_sem]s are semaphores of [sync]. *)
Record condvar := mk_condvar { cv_sem : Z; cv_count : Z }.
Record monitor := mk_monitor { mutex : Z; mnext : Z; next_count : Z; cvs : list condvar }.

(** [kmalloc_ok] says whether there is memory for the condition variables,
    whose semaphores are [cv_sems]. *)
Fixpoint init_cvs (cv_sems : list Z) (s : sync) : res sync :=
  match cv_sems with
  | [] => Ok s
  | q :: cv_sems => let! s := sem_init q 0 s in init_cvs cv_sems s
  end.
Definition monitor_init (kmalloc_ok : bool) (mtx nx : Z) (cv_sems : list Z) (s : sync) : res (monitor * sync) :=
  assert! negb (bool_decide (cv_sems = [])) ;;
  let! s := sem_init mtx 1 s in
  let! s := sem_init nx 0 s in
  assert! kmalloc_ok ;;
  let! s := init_cvs cv_sems s in
  Ok (mk_monitor mtx nx 0 (map (fun q => mk_condvar q 0) cv_sems), s).

Definition set_next_count (v : Z) (m : monitor) : monitor := mk_monitor (mutex m) (mnext m) v (cvs m).
Definition set_count (i : nat) (v : Z) (m : monitor) : monitor :=
  mk_monitor (mutex m) (mnext m) (next_count m) (alter (fun c => mk_condvar (cv_sem c) v) i (cvs m)).

(** [cond_signal] up to [schedule] in [down(next)]: [None] when there is no
    waiter and the call is over, otherwise what [down_enter] answers. *)
Definition cond_signal_enter (i : nat) (m : monitor) (s : sync) : res (option bool * monitor * sync) :=
  let! c := rget (cvs m !! i) in
  if 0 <? cv_count c then
    let m := set_next_count (s32 (next_count m + 1)) m in
    let! s := up (cv_sem c) s in
    let! (b, s) := down_enter (mnext m) WT_KSEM s in
    Ok (Some b, m, s)
  else Ok (None, m, s).
(** ... and after it; [slept] says whether [down] had to wait. *)
Definition cond_signal_end (slept : bool) (m : monitor) (s : sync) : res (monitor * sync) :=
  let! s := (if slept then down_end (mnext m) s else Ok s) in
  Ok (set_next_count (s32 (next_count m - 1)) m, s).

Definition cond_wait_enter (i : nat) (m : monitor) (s : sync) : res (bool * monitor * sync) :=
  let! c := rget (cvs m !! i) in
  let m := set_count i (s32 (cv_count c + 1)) m in
  let! s := (if 0 <? next_count m then up (mnext m) s else up (mutex m) s) in
  let! (b, s) := down_enter (cv_sem c) WT_KSEM s in
  Ok (b, m, s).
Definition cond_wait_end (slept : bool) (i : nat) (m : monitor) (s : sync) : res (monitor * sync) :=
  let! c := rget (cvs m !! i) in
  let! s := (if slept then down_end (cv_sem c) s else Ok s) in
  Ok (set_count i (s32 (cv_count c - 1)) m, s).
End sync.

(** ** What a semaphore promises *)

Definition asleep (ws : Z) (k : kern) (p : Z) : Prop :=
  exists pr, procs k !! p = Some pr /\ state pr = PROC_SLEEPING /\ wait_state pr = ws.

(** The specification: a counter, the processes that wait in the order of
    their arrival, and those that were woken up and have not yet returned from
    [down].  [entering]: the running process has joined the queue and has not
    called [schedule] yet. *)
Record asem := mk_asem { av : Z; waiting : list Z; granted : list Z; entering : bool }.

Inductive sem_event := EUp | EDown | ESwitch | EReturn | ETry | ESched (e : event).

#[export] Instance sched_event_eq_dec : EqDecision event.
Proof. solve_decision. Defined.
#[export] Instance sem_event_eq_dec : EqDecision sem_event.
Proof. solve_decision. Defined.

(** Events that can happen in the state of the kernel.  While the running
    process is about to call [schedule] only interrupt handlers run: they may
    wake processes up, tick, and use [up] and [try_down]. *)
Definition possible (e : sem_event) (k : kern) (a : asem) : bool :=
  match e with
  | EUp => av a <? 2147483647
  | EDown => negb (entering a) && negb (bool_decide (current k ∈ granted a)) && negb (current k =? idleproc k)
  | ESwitch => entering a
  | EReturn => negb (entering a) && bool_decide (current k ∈ granted a)
  | ETry => true
  | ESched e => allowed e k &&
      match e with
      | EYield => negb (entering a)
      | ESleep _ => negb (entering a) && negb (bool_decide (current k ∈ granted a))
      | EWakeup p => negb (bool_decide (p ∈ waiting a))
      | ETick => true
      end
  end.

(** What a caller learns: whether it has the semaphore ([EDown]: at once;
    [EReturn]: after it slept). *)
Definition spec_step (e : sem_event) (c : Z) (a : asem) : option bool * asem :=
  match e with
  | EUp =>
      (None, match waiting a with
             | [] => mk_asem (av a + 1) [] (granted a) (entering a)
             | p :: ws => mk_asem (av a) ws (p :: granted a) (entering a)
             end)
  | EDown =>
      if 0 <? av a then (Some true, mk_asem (av a - 1) (waiting a) (granted a) (entering a))
      else (Some false, mk_asem (av a) (waiting a ++ [c]) (granted a) true)
  | ESwitch => (None, mk_asem (av a) (waiting a) (granted a) false)
  | EReturn => (Some true, mk_asem (av a) (waiting a) (filter (fun p => p <> c) (granted a)) (entering a))
  | ETry =>
      if 0 <? av a then (Some true, mk_asem (av a - 1) (waiting a) (granted a) (entering a)) else (Some false, a)
  | ESched _ => (None, a)
  end.

Definition sem_step `{SC : sched_class} (q : Z) (e : sem_event) (s : sync) : res (option bool * sync) :=
  match e with
  | EUp => let! s := up q s in Ok (None, s)
  | EDown => let! (b, s) := down_enter q WT_KSEM s in Ok (Some b, s)
  | ESwitch => let! s := down_switch s in Ok (None, s)
  | EReturn => let! s := down_end q s in Ok (Some true, s)
  | ETry => let! (b, s) := try_down q s in Ok (Some b, s)
  | ESched e => let! k := handle e (ks s) in Ok (None, set_ks k s)
  end.

(** A trace: the events that took place, who was running and what the kernel's
    functions answered.  [sem_run] makes it; the specification, which is
    carried along, only says which events are possible. *)

Fixpoint sem_run `{SC : sched_class} (q : Z) (es : list sem_event) (s : sync) (a : asem) : res (list (sem_event * Z * option bool) * sync * asem) :=
  match es with
  | [] => Ok ([], s, a)
  | e :: es =>
      if possible e (ks s) a then
        let c := current (ks s) in
        let! (r, s') := sem_step q e s in
        let! (tr, s', a') := sem_run q es s' (spec_step e c a).2 in Ok ((e, c, r) :: tr, s', a')
      else sem_run q es s a
  end.

(** The trace is one of the specification: it gives the same answers. *)
Fixpoint spec_run (tr : list (sem_event * Z * option bool)) (a : asem) : option asem :=
  match tr with
  | [] => Some a
  | (e, c, r) :: tr => if decide (r = (spec_step e c a).1) then spec_run tr (spec_step e c a).2 else None
  end.

(** How often the semaphore was given and taken, by what the callers were
    told. *)
Definition given (tr : list (sem_event * Z * option bool)) : Z := Z.of_nat (length (filter (fun x => x.1.1 = EUp) tr)).
Definition taken (tr : list (sem_event * Z * option bool)) : Z := Z.of_nat (length (filter (fun x => x.2 = Some true) tr)).

Section semaphore.
Context `{SC : sched_class} (repr : kern -> list Z -> Prop) (put : list Z -> Z -> list Z) (pick : list Z -> option Z).
Context `{!SchedClassLaws SC repr put pick}.
Context (q : Z) (Hq : q < 0).

(** The kernel state [s] implements the semaphore [a]. *)
Record sem_rep (s : sync) (a : asem) : Prop := {
  sr_sched : exists l, sched_ok repr (ks s) l;
  sr_cur : if entering a then current (ks s) ∈ waiting a \/ current (ks s) ∈ granted a else runnable (ks s) (current (ks s));
  sr_pids : forall p, is_Some (procs (ks s) !! p) -> 0 <= p;
  sr_value : sems s !! q = Some (av a);
  sr_range : 0 <= av a < 2147483648 /\ (0 < av a -> waiting a = []);
  sr_queue : dlist (wait_links s) q (waiting a);
  sr_waiting : forall p, p ∈ waiting a -> p <> idleproc (ks s) /\ asleep WT_KSEM (ks s) p /\
    exists fl, waits s !! p = Some (mk_wait p fl q);
  sr_granted : forall p, p ∈ granted a -> (p ∉ waiting a) /\ runnable (ks s) p /\
    dlist (wait_links s) p [] /\ waits s !! p = Some (mk_wait p WT_KSEM q);
  sr_nodup : NoDup (granted a)
}.

Lemma same_at_runnable k k' p : same_proc_at k k' p -> runnable k p -> runnable k' p.
Proof.
  unfold same_proc_at. intros H (pr & Hp & Hr). rewrite Hp in H. destruct (procs k' !! p) as [b|] eqn:E; [|done].
  destruct H as (n & r & rn & ts & ->). eexists. split; [exact E|exact Hr].
Qed.

Lemma same_at_asleep k k' ws p : same_proc_at k k' p -> asleep ws k p -> asleep ws k' p.
Proof.
  unfold same_proc_at. intros H (pr & Hp & Hr). rewrite Hp in H. destruct (procs k' !! p) as [b|] eqn:E; [|done].
  destruct H as (n & r & rn & ts & ->). eexists. split; [exact E|exact Hr].
Qed.

Lemma same_at_is_Some k k' p : same_proc_at k k' p -> is_Some (procs k' !! p) -> is_Some (procs k !! p).
Proof. unfold same_proc_at. intros H [b E]. rewrite E in H. destruct (procs k !! p); [eauto|done]. Qed.

Lemma asleep_not_runnable k ws p : asleep ws k p -> ~ runnable k p.
Proof. intros (pr & E & H & _) (pr' & E' & H'). rewrite E in E'. injection E' as <-. by rewrite H in H'. Qed.

Lemma sem_current s a : sem_rep s a -> entering a = false -> current (ks s) ∉ waiting a.
Proof.
  intros Hr He Hin. destruct (sr_waiting _ _ Hr _ Hin) as (_ & Hs & _). pose proof (sr_cur _ _ Hr) as Hc. rewrite He in Hc.
  eapply asleep_not_runnable; [exact Hs|exact Hc].
Qed.

(** A change of the processes only. *)
Lemma sem_rep_kern s a k' l' en : sem_rep s a -> sched_ok repr k' l' -> idleproc k' = idleproc (ks s) ->
  (if en : bool then current k' ∈ waiting a \/ current k' ∈ granted a else runnable k' (current k')) ->
  (forall p, is_Some (procs k' !! p) -> is_Some (procs (ks s) !! p)) ->
  (forall p, p ∈ waiting a \/ p ∈ granted a -> same_proc_at (ks s) k' p) ->
  sem_rep (set_ks k' s) (mk_asem (av a) (waiting a) (granted a) en).
Proof.
  intros [Hs Hc Hp Hv Hr HL Hw Hg Hnd] Hok Hi Hrun Hdom Hsame. split; cbn [ks waits wait_links sems set_ks av waiting granted entering]; try done.
  - by exists l'.
  - intros p Hin. apply Hp, Hdom, Hin.
  - intros p Hin. destruct (Hw p Hin) as (Hne & Ha & Hx). split; [by rewrite Hi|]. split; [|done].
    eapply same_at_asleep; [|exact Ha]. apply Hsame. by left.
  - intros p Hin. destruct (Hg p Hin) as (Hne & Ha & Hx). split; [done|]. split; [|done].
    eapply same_at_runnable; [|exact Ha]. apply Hsame. by right.
Qed.

(** A change of the counter only. *)
Lemma sem_rep_value s a v : sem_rep s a -> 0 <= v < 2147483648 -> (0 < v -> waiting a = []) ->
  sem_rep (set_sems (<[q := v]> (sems s)) s) (mk_asem v (waiting a) (granted a) (entering a)).
Proof.
  intros [Hs Hc Hp Hv Hr HL Hw Hg Hnd] Hrng Hpos.
  split; cbn [ks waits wait_links sems set_sems av waiting granted entering]; try done. by rewrite lookup_insert_eq.
Qed.

Lemma list_empty_mid s h l1 x l2 : dlist s h (l1 ++ x :: l2) -> list_empty s x = Ok false.
Proof.
  intros HL. apply dlist_rotate in HL. rewrite (list_empty_dlist _ _ _ HL). f_equal.
  apply bool_decide_eq_false. by destruct l2.
Qed.

Lemma wait_queue_first_Ok s ws : dlist (wait_links s) q ws -> wait_queue_first q s = Ok (head ws).
Proof.
  intros HL. unfold wait_queue_first. rewrite (list_next_dlist _ _ _ HL). cbn [rbind]. destruct ws as [|p ws]; simpl.
  - by rewrite Z.eqb_refl.
  - destruct HL as [[Hh _]%NoDup_cons _]. destruct (Z.eqb_spec p q); [|done]. exfalso. set_solver.
Qed.

Lemma wait_queue_del_Ok s l1 p l2 fl : dlist (wait_links s) q (l1 ++ p :: l2) ->
  waits s !! p = Some (mk_wait p fl q) ->
  exists L, wait_queue_del q p s = Ok (set_wait_links L s) /\ dlist L q (l1 ++ l2) /\ dlist L p [] /\
    forall y, y ∉ q :: l1 ++ p :: l2 -> same_at (wait_links s) L y.
Proof.
  intros HL Hp. unfold wait_queue_del, get_wait. rewrite (list_empty_mid _ _ _ _ _ HL), Hp. cbn [rbind rget wait_queue negb].
  rewrite Z.eqb_refl. cbn [andb rassert rbind].
  destruct (list_del_init_mid _ _ _ _ _ HL) as (L & -> & _ & H1 & H2 & H3). cbn [rbind]. eauto.
Qed.

(** [up] with nobody waiting counts; otherwise the first in the queue goes on. *)
Lemma up_Ok s a : sem_rep s a -> av a < 2147483647 ->
  exists s', up q s = Ok s' /\ sem_rep s' (spec_step EUp (current (ks s)) a).2.
Proof.
  intros Hr Hlim. unfold up, __up. rewrite (wait_queue_first_Ok _ _ (sr_queue _ _ Hr)). cbn [rbind].
  pose proof (sr_range _ _ Hr) as [Hrng Hpos]. cbn [spec_step snd].
  destruct (waiting a) as [|p ws] eqn:Hws; cbn [head].
  { unfold get_sem. rewrite (sr_value _ _ Hr). cbn [rbind rget]. eexists. split; [done|].
    rewrite s32_id by (unfold is_s32; lia). rewrite <- Hws. apply (sem_rep_value _ _ _ Hr); [lia|by rewrite Hws]. }
  destruct (sr_waiting _ _ Hr p) as (Hni & (pr & Hpr & Hst & Hwst) & fl & Hwt); [rewrite Hws; by left|].
  unfold get_wait at 1. rewrite Hwt. cbn [rbind rget w_proc]. rewrite (get_proc_Ok _ _ _ Hpr). cbn [rbind].
  rewrite Hwst, Z.eqb_refl. cbn [rassert rbind]. unfold wakeup_wait.
  pose proof (sr_queue _ _ Hr) as HL. rewrite Hws in HL.
  destruct (wait_queue_del_Ok s [] p ws fl HL Hwt) as (L & E & HL' & Hpe & Hf). rewrite E. cbn [rbind]. clear E.
  unfold get_wait. cbn [waits set_wait_links]. rewrite Hwt. cbn [rbind rget w_proc wait_queue].
  destruct (sr_sched _ _ Hr) as [l Hok].
  destruct (wakeup_Ok repr put pick _ _ _ _ Hok Hpr) as (k' & l' & E & Hok' & Hc & Hi & Hrun & _ & Hsame & _); [by rewrite Hst|].
  cbn [ks set_wait_links set_waits]. rewrite E. cbn [rbind]. eexists. split; [done|].
  destruct HL as [Hnd _]. simpl in Hnd. apply NoDup_cons in Hnd as [Hq' Hnd]. apply NoDup_cons in Hnd as [Hpw Hnd].
  assert (Hpg : p ∉ granted a) by (intros Hin; destruct (sr_granted _ _ Hr p Hin) as (Hn & _); rewrite Hws in Hn; set_solver).
  split; cbn [ks waits wait_links sems set_ks set_waits set_wait_links av waiting granted entering]; try by apply Hr.
  - by exists l'.
  - rewrite Hc. pose proof (sr_cur _ _ Hr) as Hcur. destruct (entering a) eqn:He; [rewrite Hws in Hcur; set_solver|].
    eapply same_at_runnable; [apply Hsame|exact Hcur]. intros Heq. apply (sem_current _ _ Hr He). rewrite Hws, Heq. by left.
  - intros x Hx. destruct (decide (x = p)) as [->|Hne]; [by apply (sr_pids _ _ Hr); rewrite Hpr|].
    apply (sr_pids _ _ Hr). by eapply same_at_is_Some; [apply Hsame|].
  - split; [done|]. intros Hp. by apply Hpos in Hp.
  - exact HL'.
  - intros x Hx. destruct (sr_waiting _ _ Hr x) as (Hnx & Ha & fx & Hwx); [rewrite Hws; by right|].
    assert (x <> p) by (intros ->; done). split; [by rewrite Hi|]. split.
    + eapply same_at_asleep; [by apply Hsame|done].
    + exists fx. by rewrite lookup_insert_ne.
  - intros x [->|Hx]%elem_of_cons; [by rewrite lookup_insert_eq|].
    destruct (sr_granted _ _ Hr x Hx) as (Hnx & Hrx & Hdx & Hwx). rewrite Hws in Hnx.
    assert (x <> p) by set_solver. split; [set_solver|]. split; [|split].
    + eapply same_at_runnable; [by apply Hsame|done].
    + eapply dlist_frame; [|exact Hdx]. intros y ->%list_elem_of_singleton. apply Hf. intros [->|?]%elem_of_cons; [|done].
      assert (0 <= q); [|lia]. apply (sr_pids _ _ Hr). destruct Hrx as (? & ? & _). by eexists.
    + by rewrite lookup_insert_ne.
  - apply NoDup_cons. split; [done|apply Hr].
Qed.

(** The current process enters the queue; the other links stay. *)
Lemma wait_current_set_Ok s ws pr : dlist (wait_links s) q ws -> current (ks s) ∉ q :: ws ->
  procs (ks s) !! current (ks s) = Some pr ->
  forall c, c = current (ks s) ->
  exists L, wait_current_set q c WT_KSEM s =
      Ok (mk_sync (set_procs (<[c := set_wait_state WT_KSEM (set_state PROC_SLEEPING pr)]> (procs (ks s))) (ks s))
            (<[c := mk_wait c WT_INTERRUPTED q]> (waits s)) L (sems s)) /\
    dlist L q (ws ++ [c]) /\ forall y, y ∉ q :: c :: ws -> same_at (wait_links s) L y.
Proof.
  intros HL Hc Hpr c Hcc. rewrite <- Hcc in Hc, Hpr. unfold wait_current_set, wait_init. rewrite <- Hcc.
  set (L0 := <[c := mk_entry c c]> (wait_links s)).
  destruct (list_init_dlist L0 c) as (L1 & E1 & Hd1 & Hdl1 & Hf1); [unfold L0; rewrite lookup_insert_eq; by eexists|].
  fold L0. rewrite E1. cbn [rbind].
  cbn [ks set_wait_links set_waits]. rewrite <- Hcc, (upd_proc_Ok _ _ _ _ Hpr). cbn [rbind].
  unfold wait_queue_add, get_wait. cbn [wait_links waits set_ks set_wait_links set_waits sems ks].
  rewrite (list_empty_dlist _ _ _ Hdl1), lookup_insert_eq. cbn [rbind rget]. rewrite bool_decide_eq_true_2 by done.
  cbn [rassert rbind w_proc wakeup_flags wait_links].
  assert (Hf : forall y, y <> c -> same_at (wait_links s) L1 y).
  { intros y Hy. destruct (Hf1 y Hy) as [H1 H2]. split; [rewrite H1|rewrite H2]; unfold nxt, prv, L0; by rewrite lookup_insert_ne. }
  destruct (list_add_before_dlist L1 q ws c) as (L2 & E2 & _ & HL2 & Hf2).
  - eapply dlist_frame; [|exact HL]. intros y Hy. apply Hf. intros ->. done.
  - done.
  - eapply dom_is_Some; [exact Hd1|]. unfold L0. rewrite lookup_insert_eq. by eexists.
  - rewrite E2. cbn [rbind]. exists L2. split; [by rewrite insert_insert_eq|]. split; [done|].
    intros y Hy. destruct (Hf2 y Hy) as [H1 H2], (Hf y) as [H3 H4]; [set_solver|]. split; congruence.
Qed.

Lemma granted_not_sem s a p : sem_rep s a -> p ∈ granted a -> p <> q.
Proof.
  intros Hr Hin. destruct (sr_granted _ _ Hr _ Hin) as (_ & (pr & E & _) & _).
  enough (0 <= p) by lia. apply (sr_pids _ _ Hr). by eexists.
Qed.

(** [down] takes the semaphore, or the process joins the end of the queue. *)
Lemma down_Ok s a : sem_rep s a -> possible EDown (ks s) a = true ->
  exists b s', down_enter q WT_KSEM s = Ok (b, s') /\ (spec_step EDown (current (ks s)) a).1 = Some b /\
    sem_rep s' (spec_step EDown (current (ks s)) a).2.
Proof.
  cbn [possible]. intros Hr H. rewrite !andb_true_iff, !negb_true_iff, bool_decide_eq_false, Z.eqb_neq in H. destruct H as [[He Hng] Hni].
  unfold down_enter, get_sem. rewrite (sr_value _ _ Hr). cbn [rbind rget spec_step].
  pose proof (sr_range _ _ Hr) as [Hrng Hpos]. destruct (Z.ltb_spec 0 (av a)) as [Hlt|Hle].
  { eexists _, _. split; [done|]. split; [done|]. rewrite s32_id by (unfold is_s32; lia). apply sem_rep_value; [done|lia|].
    intros _. by apply Hpos. }
  pose proof (sem_current _ _ Hr He) as Hcw. destruct (sr_sched _ _ Hr) as [l Hok].
  pose proof (sr_cur _ _ Hr) as Hcur. rewrite He in Hcur.
  assert (Hcq : 0 <= current (ks s)) by (apply (sr_pids _ _ Hr); destruct Hcur as (? & ? & _); by eexists).
  destruct (sleep_ok repr put pick _ l WT_KSEM Hok Hni) as (pr & Hpr & Hok0).
  destruct (wait_current_set_Ok s (waiting a) pr (sr_queue _ _ Hr)) with (c := current (ks s)) as (L & E & HL & Hf);
    [intros [?|?]%elem_of_cons; [lia|done]|done|done|].
  rewrite E. cbn [rbind]. set (c := current (ks s)) in *. eexists _, _. split; [done|]. split; [done|].
  assert (Hs : forall p, p <> c -> procs (ks s) !! p = <[c := set_wait_state WT_KSEM (set_state PROC_SLEEPING pr)]> (procs (ks s)) !! p).
  { intros p Hp. by rewrite lookup_insert_ne. }
  split; cbn [ks waits wait_links sems snd av waiting granted entering procs set_procs current idleproc].
  - by exists l.
  - left. apply elem_of_app. right. by left.
  - intros p Hp. destruct (decide (p = c)) as [->|Hne]; [done|]. apply (sr_pids _ _ Hr). by rewrite (Hs p Hne).
  - apply Hr.
  - split; [done|lia].
  - exact HL.
  - intros p [Hp| ->%list_elem_of_singleton]%elem_of_app.
    + destruct (sr_waiting _ _ Hr p Hp) as (Hn & Ha & fl & Hw). assert (p <> c) by (intros ->; done).
      rewrite lookup_insert_ne by done. split; [done|]. split; [|eauto]. unfold asleep. cbn [procs set_procs]. by rewrite <- Hs.
    + rewrite lookup_insert_eq. split; [done|]. split; [|eauto].
      eexists. cbn [procs set_procs]. rewrite lookup_insert_eq. done.
  - intros p Hp. destruct (sr_granted _ _ Hr p Hp) as (Hn & Ha & Hd & Hw). assert (p <> c) by (intros ->; done).
    split; [set_solver|]. rewrite lookup_insert_ne by done. split; [unfold runnable; cbn [procs set_procs]; by rewrite <- Hs|].
    split; [|done]. eapply dlist_frame; [|exact Hd]. intros y ->%list_elem_of_singleton. apply Hf.
    pose proof (granted_not_sem _ _ _ Hr Hp). set_solver.
  - apply Hr.
Qed.

(** The call of [schedule], by a process that may have been woken up since. *)
Lemma switch_Ok s a : sem_rep s a ->
  exists s', down_switch s = Ok s' /\ sem_rep s' (spec_step ESwitch (current (ks s)) a).2.
Proof.
  intros Hr. destruct (sr_sched _ _ Hr) as [l Hok]. unfold down_switch.
  destruct (schedule_Ok repr put pick _ l Hok) as (k' & l' & E & Hsw). rewrite E. cbn [rbind spec_step snd].
  eexists. split; [done|]. pose proof (sw_same _ _ _ _ _ _ _ Hsw) as Hsame.
  apply (sem_rep_kern s a k' l'); [done|apply Hsw|apply (sw_rest _ _ _ _ _ _ _ Hsw)|apply (sw_run _ _ _ _ _ _ _ Hsw)| |intros p _; apply Hsame].
  intros p Hp. eapply same_at_is_Some; [apply Hsame|done].
Qed.

(** A process that was woken up returns from [down] with success. *)
Lemma return_Ok s a : sem_rep s a -> entering a = false -> current (ks s) ∈ granted a ->
  down_end q s = Ok s /\ sem_rep s (spec_step EReturn (current (ks s)) a).2.
Proof.
  intros Hr He Hin. destruct (sr_granted _ _ Hr _ Hin) as (_ & _ & Hd & Hw). split.
  - unfold down_end, down_resume, wait_current_del, wait_in_queue. rewrite (list_empty_dlist _ _ _ Hd).
    cbn [rbind negb]. rewrite bool_decide_eq_true_2 by done. cbn [negb rbind]. unfold get_wait. by rewrite Hw.
  - destruct Hr as [H1 H2 H3 H4 H5 H6 H7 H8 H9]. split; cbn [spec_step snd av waiting granted entering]; try done.
    + by rewrite He in *.
    + intros p [_ Hp]%list_elem_of_filter. by apply H8.
    + by apply NoDup_filter.
Qed.

Lemma try_Ok s a : sem_rep s a ->
  exists b s', try_down q s = Ok (b, s') /\ (spec_step ETry (current (ks s)) a).1 = Some b /\ sem_rep s' (spec_step ETry (current (ks s)) a).2.
Proof.
  intros Hr. unfold try_down, get_sem. rewrite (sr_value _ _ Hr). cbn [rbind rget spec_step].
  pose proof (sr_range _ _ Hr) as [Hrng Hpos]. destruct (Z.ltb_spec 0 (av a)) as [Hlt|Hle]; [|by eauto].
  eexists _, _. split; [done|]. split; [done|]. rewrite s32_id by (unfold is_s32; lia). apply sem_rep_value; [done|lia|].
  intros _. by apply Hpos.
Qed.

Lemma wakeup_runnable k p : runnable k p -> wakeup_proc p k = Ok k.
Proof.
  intros (pr & E & Hst). unfold wakeup_proc. rewrite (get_proc_Ok _ _ _ E). cbn [rbind]. by rewrite Hst.
Qed.

(** Only a process that waits or was just woken up is left alone by what the
    scheduler does to others. *)
Lemma event_untouched s a e p : sem_rep s a -> possible (ESched e) (ks s) a = true -> (forall x, e = EWakeup x -> x ∉ granted a) ->
  p ∈ waiting a \/ p ∈ granted a -> ~ touched e (ks s) p.
Proof.
  cbn [possible]. intros Hr [_ Hp]%andb_true_iff Hnw Hin Ht. destruct e as [|ws|x|]; cbn in Ht; try done; subst p.
  - rewrite andb_true_iff, !negb_true_iff, bool_decide_eq_false in Hp. destruct Hp as [He Hp], Hin as [Hin|Hin]; [|done].
    by apply (sem_current _ _ Hr He) in Hin.
  - apply negb_true_iff, bool_decide_eq_false in Hp. destruct Hin as [Hin|Hin]; [done|]. by eapply Hnw.
Qed.

(** The process that runs stays what it is for the semaphore. *)
Lemma event_current s a e k' : sem_rep s a -> possible (ESched e) (ks s) a = true -> handled e (ks s) k' ->
  (entering a = true -> current k' = current (ks s)) ->
  if entering a then current k' ∈ waiting a \/ current k' ∈ granted a else runnable k' (current k').
Proof.
  intros Hr Hp [_ _ Hrun] Hc. pose proof (sr_cur _ _ Hr) as Hcur. destruct (entering a); [by rewrite Hc|by apply Hrun].
Qed.

(** Wakeups and ticks do not change who runs. *)
Lemma event_runs k k' l e : sched_ok repr k l -> handle e k = Ok k' -> allowed e k = true -> match e with EWakeup _ | ETick => True | _ => False end ->
  current k' = current k.
Proof.
  intros Hok E Hal He. destruct e as [| |p|]; try done; cbn [handle allowed] in *.
  - destruct (procs k !! p) as [pr|] eqn:Ep; [|done]. apply negb_true_iff, Z.eqb_neq in Hal.
    destruct (wakeup_Ok repr put pick k l p pr Hok Ep Hal) as (k2 & l2 & E2 & _ & Hc & _). congruence.
  - unfold sched_class_proc_tick in E. destruct (negb (current k =? idleproc k)).
    + destruct (law_tick k l (current k) (so_repr _ _ _ Hok) (so_current _ _ _ Hok)) as (k2 & E2 & _ & _ & Hc & _). congruence.
    + unfold upd_proc in E. apply rbind_Ok in E as (pr & _ & [= <-]). done.
Qed.

(** What the rest of the kernel does to the processes leaves the semaphore. *)
Lemma sched_event_Ok s a e : sem_rep s a -> possible (ESched e) (ks s) a = true ->
  exists k', handle e (ks s) = Ok k' /\ sem_rep (set_ks k' s) a.
Proof.
  intros Hr Hp.
  assert ((exists p, e = EWakeup p /\ p ∈ granted a) \/ forall p, e = EWakeup p -> p ∉ granted a) as [(p & -> & Hg)|Hnw].
  { destruct e as [| |p|]; try (right; done). destruct (decide (p ∈ granted a)); [left; eauto|right]. by intros ? [= <-]. }
  { exists (ks s). split; [apply wakeup_runnable, (sr_granted _ _ Hr _ Hg)|by destruct s]. }
  pose proof Hp as Hpos. cbn [possible] in Hpos. apply andb_true_iff in Hpos as [Hal Hpos]. destruct (sr_sched _ _ Hr) as [l Hok].
  destruct (handle_Ok repr put pick e _ _ Hok Hal) as (k' & l' & E & Hok' & Hh). exists k'. split; [done|].
  pose proof Hh as [[Hi _] Hs _].
  assert (Ht : forall p, touched e (ks s) p -> is_Some (procs (ks s) !! p)).
  { intros p Ht. destruct e; cbn in Ht; try done; subst p; [apply (so_current _ _ _ Hok)|].
    cbn in Hal. destruct (procs (ks s) !! p0); [by eexists|done]. }
  assert (a = mk_asem (av a) (waiting a) (granted a) (entering a)) as -> by by destruct a.
  eapply sem_rep_kern; [exact Hr|exact Hok'|done| | |].
  - eapply event_current; try done. intros He. apply (event_runs _ _ _ _ Hok E Hal). destruct e; rewrite ?He in Hpos; done.
  - intros p Hin. destruct (procs (ks s) !! p) eqn:Ep; [by eexists|]. exfalso.
    assert (~ touched e (ks s) p) as Hnt by (intros [? H]%Ht; congruence).
    apply Hs in Hnt. apply (same_at_is_Some _ _ _ Hnt) in Hin as [? ?]. congruence.
  - intros p Hin. apply Hs. by apply (event_untouched s a).
Qed.

Lemma sem_step_Ok s a e : sem_rep s a -> possible e (ks s) a = true ->
  exists s', sem_step q e s = Ok ((spec_step e (current (ks s)) a).1, s') /\ sem_rep s' (spec_step e (current (ks s)) a).2.
Proof.
  intros Hr Hp. destruct e as [| | | | |e]; cbn [sem_step].
  - cbn in Hp. apply Z.ltb_lt in Hp. destruct (up_Ok s a Hr Hp) as (s' & -> & Hr'). cbn [rbind]. eauto.
  - destruct (down_Ok s a Hr Hp) as (b & s' & -> & -> & Hr'). cbn [rbind]. eauto.
  - destruct (switch_Ok s a Hr) as (s' & -> & Hr'). cbn [rbind]. eauto.
  - cbn in Hp. rewrite andb_true_iff, negb_true_iff, bool_decide_eq_true in Hp. destruct Hp as [He Hp].
    destruct (return_Ok s a Hr He Hp) as [-> Hr']. cbn [rbind]. eauto.
  - destruct (try_Ok s a Hr) as (b & s' & -> & -> & Hr'). cbn [rbind]. eauto.
  - destruct (sched_event_Ok s a e Hr Hp) as (k' & -> & Hr'). cbn [rbind spec_step]. eauto.
Qed.

(** What is in the counter, handed over and taken. *)
Definition balance (a : asem) : Z := av a + Z.of_nat (length (granted a)).

Lemma filter_one (c : Z) l : NoDup l -> c ∈ l -> (length (filter (fun p => p <> c) l) + 1)%nat = length l.
Proof.
  induction 1 as [|x l Hx Hl IH]; [set_solver|]. rewrite filter_cons. destruct (decide (x = c)) as [->|Hne].
  - intros _. rewrite decide_False by tauto. cbn [length]. enough (filter (fun p => p <> c) l = l) as -> by lia.
    clear IH Hl. induction l as [|y l IH]; [done|]. rewrite filter_cons, decide_True, IH by set_solver. done.
  - rewrite decide_True by done. intros [->|Hin]%elem_of_cons; [done|]. cbn [length]. specialize (IH Hin). lia.
Qed.

Lemma step_balance s a e : sem_rep s a -> possible e (ks s) a = true ->
  let '(r, a') := spec_step e (current (ks s)) a in
  balance a' + taken [(e, current (ks s), r)] = balance a + given [(e, current (ks s), r)].
Proof.
  intros Hr Hp. unfold balance, taken, given. destruct e as [| | | | |e]; cbn [spec_step]; try (destruct (Z.ltb_spec 0 (av a)); simpl; lia).
  - destruct (waiting a); simpl; lia.
  - cbn in Hp. rewrite andb_true_iff, bool_decide_eq_true in Hp. destruct Hp as [_ Hp].
    pose proof (filter_one _ _ (sr_nodup _ _ Hr) Hp) as Hf. cbn [av granted]. rewrite <- Hf, Nat2Z.inj_add. simpl. lia.
Qed.
End semaphore.

Lemma given_cons x tr : given (x :: tr) = given [x] + given tr.
Proof. unfold given. rewrite !filter_cons. destruct (decide _); cbn [length filter list_filter]; simpl; lia. Qed.
Lemma taken_cons x tr : taken (x :: tr) = taken [x] + taken tr.
Proof. unfold taken. rewrite !filter_cons. destruct (decide _); cbn [length filter list_filter]; simpl; lia. Qed.

(** ** Properties *)

(** C10: semaphores refine their specification under every interleaving of
    [up], [down] (taking the semaphore or joining the queue, the call of
    [schedule], the return), [try_down] and scheduler events, whatever the
    scheduling class: no step faults; the counter and the wait queue follow the
    specification, so an [up] hands the semaphore to the process that waited
    longest, which is made runnable, and no [up] is lost; and every caller is
    told what the specification says.  So the value and the grants that are not
    yet returned account for every [up] and for every caller that was told that
    it has the semaphore. *)
Theorem semaphore_refines (SC : sched_class) (repr : kern -> list Z -> Prop)
    (put : list Z -> Z -> list Z) (pick : list Z -> option Z) (laws : SchedClassLaws SC repr put pick)
    (q : Z) (es : list sem_event) (s : sync) (a : asem) :
  q < 0 -> sem_rep repr q s a ->
  exists tr s' a', sem_run q es s a = Ok (tr, s', a') /\ sem_rep repr q s' a' /\ spec_run tr a = Some a' /\
    balance a' + taken tr = balance a + given tr.
Proof.
  intros Hq. revert s a. induction es as [|e es IH]; intros s a Hr; cbn [sem_run]; [by exists [], s, a|].
  destruct (possible e (ks s) a) eqn:Hp; [|by apply IH].
  destruct (sem_step_Ok repr put pick q Hq s a e Hr Hp) as (s1 & E & Hr1). rewrite E. cbn [rbind].
  destruct (IH _ _ Hr1) as (tr & s' & a' & E' & Hr' & Hsp & Hb). rewrite E'. cbn [rbind].
  do 3 eexists. split; [done|]. split; [done|]. split; [cbn [spec_run]; by rewrite decide_True|].
  pose proof (step_balance repr put pick q Hq s a e Hr Hp) as Hs. destruct (spec_step e (current (ks s)) a) as [r a1]. cbn [fst snd] in *.
  rewrite given_cons, taken_cons. lia.
Qed.

(** *** Concrete inputs *)

(** The processes of [ex_kern] and a free semaphore [-9]. *)
Definition ex_sync : sync := mk_sync ex_kern ∅ {[ -9 := mk_entry (-9) (-9) ]} {[ -9 := 1 ]}.

Lemma ex_sync_rep : sem_rep rr_repr (-9) ex_sync (mk_asem 1 [] [] false).
Proof.
  split; try done.
  - exists [2]. exact ex_kern_ok.
  - eexists. split; reflexivity.
  - intros p [-> |[-> | ->]]%ex_procs; lia.
  - by apply dlist_self.
  - intros p []%elem_of_nil.
  - intros p []%elem_of_nil.
  - apply NoDup_nil_2.
Qed.

Lemma semaphore_refines_witness :
  let es := [EDown; ESched EYield; EDown; EUp; ESwitch; EReturn; ETry] in
  exists tr s' a', sem_run (-9) es ex_sync (mk_asem 1 [] [] false) = Ok (tr, s', a') /\
    sem_rep rr_repr (-9) s' a' /\ spec_run tr (mk_asem 1 [] [] false) = Some a' /\ balance a' + taken tr = 1 + given tr.
Proof.
  exact (semaphore_refines default_sched_class rr_repr _ _ RR_laws (-9)
    [EDown; ESched EYield; EDown; EUp; ESwitch; EReturn; ETry] ex_sync (mk_asem 1 [] [] false) ltac:(lia) ex_sync_rep).
Defined.
