(* ===== verification/Proc.v ===== *)
(** * The process table (kern/process/proc.c, libs/hash.c)

    Process identifiers, the list of all processes, the hash table by pid and
    the family links.  A process is named by the number of its [proc_struct];
    its [list_link], [hash_link] and [run_link] have the same number in the
    three stores.  The [i]-th bucket of [hash_list] is the list head
    [bucket i].  The parts of fork, exit and wait that deal with memory and
    files are in the files that require this one. *)
From S2P Require Import Prelude DList Kern Sched.

(** ** Hashing (libs/hash.c) *)

Definition GOLDEN_RATIO_PRIME_32 : Z := 0x9e370001.
Definition hash32 (val bits : Z) : Z := Z.shiftr (u32 (val * GOLDEN_RATIO_PRIME_32)) (32 - bits).

Definition HASH_SHIFT : Z := 10.
Definition HASH_LIST_SIZE : Z := Z.shiftl 1 HASH_SHIFT.
Definition pid_hashfn (x : Z) : Z := hash32 x HASH_SHIFT.

(** ** The state *)

Record ptable := mk_ptable {
  pk : kern;
  proc_list : store;
  hash_list : store;
  nr_process : Z;
  next_safe : Z;
  last_pid : Z
}.
Definition set_pk (v : kern) (t : ptable) : ptable :=
  mk_ptable v (proc_list t) (hash_list t) (nr_process t) (next_safe t) (last_pid t).
Definition set_proc_list (v : store) (t : ptable) : ptable :=
  mk_ptable (pk t) v (hash_list t) (nr_process t) (next_safe t) (last_pid t).
Definition set_hash_list (v : store) (t : ptable) : ptable :=
  mk_ptable (pk t) (proc_list t) v (nr_process t) (next_safe t) (last_pid t).
Definition set_nr_process (v : Z) (t : ptable) : ptable :=
  mk_ptable (pk t) (proc_list t) (hash_list t) v (next_safe t) (last_pid t).
Definition set_pids (ns lp : Z) (t : ptable) : ptable :=
  mk_ptable (pk t) (proc_list t) (hash_list t) (nr_process t) ns lp.

Definition proc_list_head : Z := -1.
Definition bucket (i : Z) : Z := -2 - i.

Definition proc_at (p : Z) (t : ptable) : res proc_struct := get_proc p (pk t).
Definition change (p : Z) (f : proc_struct -> proc_struct) (t : ptable) : res ptable :=
  let! k := upd_proc p f (pk t) in Ok (set_pk k t).
(** Through a pointer that may be NULL: nothing is done then. *)
Definition change_opt (p : option Z) (f : proc_struct -> proc_struct) (t : ptable) : res ptable :=
  match p with Some p => change p f t | None => Ok t end.

(** ** Creating a process *)

(** [p] is the memory [kmalloc] returned, [None] when there was none, and
    [filesp] what [files_create] returned.  The links start to exist here. *)
Definition alloc_proc (p : option Z) (boot_pgdir : Z) (filesp : option Z) (t : ptable) : res (option Z * ptable) :=
  match p with
  | None => Ok (None, t)
  | Some p =>
      let proc := set_pgdir boot_pgdir (set_state PROC_UNINIT zero_proc) in
      let k := set_procs (<[p := proc]> (procs (pk t))) (pk t) in
      let! l := list_init p (<[p := mk_entry 0 0]> (run_list k)) in
      let t := set_pk (set_run_list l k) t in
      let t := set_proc_list (<[p := mk_entry 0 0]> (proc_list t)) t in
      let t := set_hash_list (<[p := mk_entry 0 0]> (hash_list t)) t in
      let! t := change p (set_filesp filesp) t in
      Ok (Some p, t)
  end.

(** [nm] is the memory [name] points to: [PROC_NAME_LEN] bytes are copied,
    whatever follows the end of the string. *)
Definition set_proc_name (p : Z) (nm : list Z) (t : ptable) : res ptable :=
  change p (set_name (take (Z.to_nat PROC_NAME_LEN) nm ++ [0])) t.
Definition get_proc_name (p : Z) (t : ptable) : res (list Z) :=
  let! pr := proc_at p t in Ok (take (Z.to_nat PROC_NAME_LEN) (name pr) ++ [0]).

(** ** Family links *)

(** A pointer that is followed must not be NULL. *)
Definition set_links (p : Z) (t : ptable) : res ptable :=
  let! l := list_add proc_list_head p (proc_list t) in
  let t := set_proc_list l t in
  let! t := change p (set_yptr None) t in
  let! pr := proc_at p t in
  let! par := rget (parent pr) in
  let! ppr := proc_at par t in
  let! t := change p (set_optr (cptr ppr)) t in
  let! t := change_opt (cptr ppr) (set_yptr (Some p)) t in
  let! t := change par (set_cptr (Some p)) t in
  Ok (set_nr_process (s32 (nr_process t + 1)) t).

Definition remove_links (p : Z) (t : ptable) : res ptable :=
  let! l := list_del p (proc_list t) in
  let t := set_proc_list l t in
  let! pr := proc_at p t in
  let! t := change_opt (optr pr) (set_yptr (yptr pr)) t in
  let! t := match yptr pr with
            | Some y => change y (set_optr (optr pr)) t
            | None => let! par := rget (parent pr) in change par (set_cptr (optr pr)) t
            end in
  Ok (set_nr_process (s32 (nr_process t - 1)) t).

(** ** Process identifiers *)

(** One round of the scan: [(le, next_safe, last_pid)]; the jump to [repeat]
    goes back to the list head. *)
Definition get_pid_body (t : ptable) (s : Z * Z * Z) : res (Z * Z * Z + Z * Z) :=
  let '(le, safe, last) := s in
  let! le := list_next (proc_list t) le in
  if le =? proc_list_head then Ok (inr (safe, last))
  else
    let! proc := proc_at le t in
    if pid proc =? last then
      let last := last + 1 in
      if safe <=? last then
        let last := if MAX_PID <=? last then 1 else last in
        Ok (inl (proc_list_head, MAX_PID, last))
      else Ok (inl (le, safe, last))
    else if (last <? pid proc) && (pid proc <? safe) then Ok (inl (le, pid proc, last))
    else Ok (inl (le, safe, last)).

Definition get_pid (t : ptable) : res (Z * ptable) :=
  let last := last_pid t + 1 in
  let! (safe, last) :=
    (if MAX_PID <=? last then loop (get_pid_body t) (proc_list_head, MAX_PID, 1)
     else if next_safe t <=? last then loop (get_pid_body t) (proc_list_head, MAX_PID, last)
     else Ok (next_safe t, last)) in
  Ok (last, set_pids safe last t).

(** ** The hash table *)

Definition hash_proc (p : Z) (t : ptable) : res ptable :=
  let! pr := proc_at p t in
  let! l := list_add (bucket (pid_hashfn (pid pr))) p (hash_list t) in
  Ok (set_hash_list l t).

Definition unhash_proc (p : Z) (t : ptable) : res ptable :=
  let! l := list_del p (hash_list t) in Ok (set_hash_list l t).

Definition find_proc_body (t : ptable) (list pd : Z) (le : Z) : res (Z + option Z) :=
  let! le := list_next (hash_list t) le in
  if le =? list then Ok (inr None)
  else
    let! proc := proc_at le t in
    if pid proc =? pd then Ok (inr (Some le)) else Ok (inl le).

Definition find_proc (pd : Z) (t : ptable) : res (option Z) :=
  if (0 <? pd) && (pd <? MAX_PID) then
    let list := bucket (pid_hashfn pd) in loop (find_proc_body t list pd) list
  else Ok None.

(** The end of [do_fork]: the new process [p] gets its pid, enters the lists
    and can run. *)
Definition fork_register `{SC : sched_class} (p : Z) (t : ptable) : res (Z * ptable) :=
  let! (n, t) := get_pid t in
  let! t := change p (set_pid n) t in
  let! t := hash_proc p t in
  let! t := set_links p t in
  let! k := wakeup_proc p (pk t) in
  let t := set_pk k t in
  let! pr := proc_at p t in Ok (pid pr, t).

(** The part of [do_fork] that concerns the table, when the rest succeeds: [p]
    is the memory of the new process.  The whole function, with its kernel
    stack, memory, files and the ways out when one of them fails, is
    [Fork.do_fork], which is composed of the same parts. *)
Definition do_fork_table `{SC : sched_class} (p : option Z) (boot_pgdir : Z) (filesp : option Z) (t : ptable)
    : res (Z * ptable) :=
  if MAX_PROCESS <=? nr_process t then Ok (- E_NO_FREE_PROC, t)
  else
    let! (proc, t) := alloc_proc p boot_pgdir filesp t in
    let! cur := proc_at (current (pk t)) t in
    assert! wait_state cur =? 0 ;;
    let! p := rget proc in
    let! t := change p (set_parent (Some (current (pk t)))) t in
    fork_register p t.

(** ** Killing, waiting, sleeping, exiting *)

(** A call that sleeps is split at [schedule]. *)
Section calls.
Context `{SC : sched_class}.

Definition on_kern (f : kern -> res kern) (t : ptable) : res ptable :=
  let! k := f (pk t) in Ok (set_pk k t).

Definition do_yield (t : ptable) : res (Z * ptable) :=
  let! t := change (current (pk t)) (set_need_resched true) t in Ok (0, t).

Definition do_kill (pd : Z) (t : ptable) : res (Z * ptable) :=
  let! p := find_proc pd t in
  match p with
  | Some p =>
      let! proc := proc_at p t in
      if Z.land (flags proc) PF_EXITING =? 0 then
        let! t := change p (set_flags (Z.lor (flags proc) PF_EXITING)) t in
        let! proc := proc_at p t in
        let! t := (if negb (Z.land (wait_state proc) WT_INTERRUPTED =? 0) then on_kern (wakeup_proc p) t else Ok t) in
        Ok (0, t)
      else Ok (- E_KILLED, t)
  | None => Ok (- E_INVAL, t)
  end.

(** What [do_wait] finds in a round: a zombie to reap, only children that
    still live, or no child at all. *)
Inductive wait_answer := WFound (p : Z) | WSleep | WNone.

(** One step along the children; [haskid] is carried. *)
Definition do_wait_body (t : ptable) (s : option Z * bool) : res (option Z * bool + wait_answer) :=
  let '(proc, haskid) := s in
  match proc with
  | None => Ok (inr (if haskid then WSleep else WNone))
  | Some p =>
      let! pr := proc_at p t in
      if state pr =? PROC_ZOMBIE then Ok (inr (WFound p)) else Ok (inl (optr pr, true))
  end.

Definition do_wait_scan (pd : Z) (t : ptable) : res wait_answer :=
  if negb (pd =? 0) then
    let! p := find_proc pd t in
    match p with
    | None => Ok WNone
    | Some p =>
        let! pr := proc_at p t in
        if bool_decide (parent pr = Some (current (pk t))) then
          Ok (if state pr =? PROC_ZOMBIE then WFound p else WSleep)
        else Ok WNone
    end
  else
    let! cur := proc_at (current (pk t)) t in
    loop (do_wait_body t) (cptr cur, false).

Definition do_wait_sleep (t : ptable) : res ptable :=
  let! t := change (current (pk t)) (set_state PROC_SLEEPING) t in
  let! t := change (current (pk t)) (set_wait_state WT_CHILD) t in
  on_kern schedule t.

(** [found]: the answer is the exit code for [*code_store] and the kernel
    stack to give back. *)
Definition do_wait_found (p : Z) (t : ptable) : res (Z * Z * ptable) :=
  if (p =? idleproc (pk t)) || (p =? initproc (pk t)) then Err KPanic
  else
    let! proc := proc_at p t in
    let! t := unhash_proc p t in
    let! t := remove_links p t in
    Ok (exit_code proc, kstack proc, set_pk (set_procs (delete p (procs (pk t))) (pk t)) t).

(** [do_exit] after the memory and the files are gone: one child is handed to
    [initproc] ... *)
Definition reparent_body (t : ptable) : res (ptable + ptable) :=
  let cur := current (pk t) in
  let! cpr := proc_at cur t in
  match cptr cpr with
  | None => Ok (inr t)
  | Some p =>
      let ini := initproc (pk t) in
      let! proc := proc_at p t in
      let! t := change cur (set_cptr (optr proc)) t in
      let! t := change p (set_yptr None) t in
      let! ipr := proc_at ini t in
      let! t := change p (set_optr (cptr ipr)) t in
      let! t := change_opt (cptr ipr) (set_yptr (Some p)) t in
      let! t := change p (set_parent (Some ini)) t in
      let! t := change ini (set_cptr (Some p)) t in
      let! proc := proc_at p t in
      let! ipr := proc_at ini t in
      let! t := (if (state proc =? PROC_ZOMBIE) && (wait_state ipr =? WT_CHILD) then on_kern (wakeup_proc ini) t
                 else Ok t) in
      Ok (inl t)
  end.

(** ... the process turns into a zombie, its parent is told, and all its
    children get a new parent.  The release of the memory and the files, which
    comes between the test and the rest, does not use the table. *)
Definition do_exit_table (error_code : Z) (t : ptable) : res ptable :=
  let cur := current (pk t) in
  if (cur =? idleproc (pk t)) || (cur =? initproc (pk t)) then Err KPanic else
  let! t := change cur (set_state PROC_ZOMBIE) t in
  let! t := change cur (set_exit_code error_code) t in
  let! cpr := proc_at cur t in
  let! par := rget (parent cpr) in
  let! ppr := proc_at par t in
  let! t := (if wait_state ppr =? WT_CHILD then on_kern (wakeup_proc par) t else Ok t) in
  loop reparent_body t.

Definition lab6_set_priority (priority : Z) (t : ptable) : res ptable :=
  change (current (pk t)) (set_lab6_priority (if priority =? 0 then 1 else priority)) t.

(** [tm] is the [timer_t] on the stack. *)
Definition do_sleep_enter (tm time : Z) (t : ptable) : res ptable :=
  if time =? 0 then Ok t
  else
    let k := set_timer_list (<[tm := mk_entry 0 0]> (timer_list (pk t))) (pk t) in
    let! k := timer_init tm (current k) time k in
    let t := set_pk k t in
    let! t := change (current (pk t)) (set_state PROC_SLEEPING) t in
    let! t := change (current (pk t)) (set_wait_state WT_TIMER) t in
    let! t := on_kern (add_timer tm) t in
    on_kern schedule t.
Definition do_sleep_resume (tm : Z) (t : ptable) : res (Z * ptable) :=
  let! t := on_kern (del_timer tm) t in Ok (0, t).
End calls.
