(* ===== verification/ProcInv.v ===== *)
(** * The process table: lemmas on pids, families and the hash table

    [pids_ok], [hash_ok] and [family_upto] are the invariants of the process
    list with [get_pid], of the hash table and of the links between parents,
    children and siblings; [table_ok] and [ptable_ok] put them together. *)
From S2P Require Import Prelude DList Kern Sched Proc.

(** ** Fresh pids *)

Definition pid_of (t : ptable) (p : Z) : Z := from_option pid 0 (procs (pk t) !! p).
Definition pids (t : ptable) (ps : list Z) : list Z := map (pid_of t) ps.

Lemma pid_of_Some t p pr : procs (pk t) !! p = Some pr -> pid_of t p = pid pr.
Proof. intros H. unfold pid_of. by rewrite H. Qed.

(** [ps]: the processes in the list; no pid lies strictly between [last_pid]
    and [next_safe]. *)
Record pids_ok (t : ptable) (ps : list Z) : Prop := {
  po_list : dlist (proc_list t) proc_list_head ps;
  po_procs : forall p, p ∈ ps -> is_Some (procs (pk t) !! p);
  po_pids : forall p, p ∈ ps -> 1 <= pid_of t p < MAX_PID;
  po_range : 1 <= last_pid t <= MAX_PID /\ next_safe t <= MAX_PID;
  po_safe : forall p, p ∈ ps -> ~ (last_pid t < pid_of t p < next_safe t)
}.

(** Fewer than [MAX_PROCESS] processes leave a pid free. *)
Lemma free_pid (l : list Z) : (length l < 4096)%nat -> exists f, 1 <= f < MAX_PID /\ f ∉ l.
Proof.
  intros Hl. destruct (decide (Exists (fun f => f ∉ l) (seqZ 1 8191))) as [H|H].
  - apply Exists_exists in H as (f & Hf%elem_of_seqZ & Hnl). exists f. split; [change MAX_PID with 8192; lia|done].
  - exfalso. apply not_Exists_Forall in H; [|intros x; apply _].
    assert (seqZ 1 8191 ⊆ l) as Hsub.
    { intros x Hx. rewrite Forall_forall in H. specialize (H x Hx). by destruct (decide (x ∈ l)). }
    pose proof (submseteq_length _ _ (NoDup_submseteq _ _ (NoDup_seqZ 1 8191) Hsub)) as Hle.
    rewrite length_seqZ in Hle. lia.
Qed.

(** The distance from [last] to the free pid [f], going round. *)
Definition gap (f last : Z) : Z := (f - last) mod 8191.

Lemma gap_succ f last : 1 <= f < MAX_PID -> 1 <= last < MAX_PID -> last <> f ->
  let last' := if MAX_PID <=? last + 1 then 1 else last + 1 in
  gap f last' = gap f last - 1 /\ 1 <= last' < MAX_PID /\ 0 <= gap f last'.
Proof.
  unfold gap. change MAX_PID with 8192. intros Hf Hl Hne. cbn zeta.
  assert (Hg : forall a, 0 < a < 8191 -> (a - 1) mod 8191 = a mod 8191 - 1) by (intros a Ha; rewrite (Z.mod_small a), (Z.mod_small (a - 1)); lia).
  assert (Hn : forall a, (a + 8191) mod 8191 = a mod 8191).
  { intros a. rewrite <- (Z.mod_add a 1 8191) by lia. f_equal. }
  assert (Hk : (f - (last + 1)) mod 8191 = (f - last) mod 8191 - 1).
  { destruct (decide (last < f)); [replace (f - (last + 1)) with (f - last - 1) by lia; apply Hg; lia|].
    rewrite <- (Hn (f - (last + 1))), <- (Hn (f - last)).
    replace (f - (last + 1) + 8191) with (f - last + 8191 - 1) by lia. apply Hg. lia. }
  destruct (Z.leb_spec 8192 (last + 1)).
  - replace (f - 1) with (f - (last + 1) + 8191) by lia. rewrite Hn. split; [done|]. split; [lia|].
    rewrite <- Hn. apply Z.mod_pos_bound. lia.
  - split; [done|]. split; [lia|]. apply Z.mod_pos_bound. lia.
Qed.

(** Walking on from what was already seen. *)
Lemma list_next_seen s h l1 l2 : dlist s h (l1 ++ l2) ->
  list_next s (default h (last l1)) = Ok (default h (head l2)).
Proof.
  intros HL. destruct l1 as [|x l1 _] using rev_ind; [by apply list_next_dlist|].
  rewrite last_snoc. cbn [default]. rewrite <- app_assoc in HL. by apply (list_next_mid s h l1 x l2).
Qed.

(** The state of the scan: [sc] has been seen, [re] not yet. *)
Definition scan_inv (t : ptable) (ps : list Z) (s : Z * Z * Z) : Prop :=
  let '(le, safe, last) := s in exists sc re, ps = sc ++ re /\ le = default proc_list_head (list.last sc) /\
    1 <= last < safe /\ safe <= MAX_PID /\ forall p, p ∈ sc -> ~ (last <= pid_of t p < safe).

Definition scan_done (t : ptable) (ps : list Z) (r : Z * Z) : Prop :=
  let '(safe, last) := r in 1 <= last < safe /\ safe <= MAX_PID /\ forall p, p ∈ ps -> ~ (last <= pid_of t p < safe).

(** What follows the place [le] of the list [h :: l]. *)
Fixpoint after (le : Z) (l : list Z) : list Z :=
  match l with [] => [] | x :: l => if x =? le then l else after le l end.
Definition unseen (h le : Z) (l : list Z) : list Z := if le =? h then l else after le l.

Lemma unseen_spec h sc re : NoDup (h :: sc ++ re) -> unseen h (default h (list.last sc)) (sc ++ re) = re.
Proof.
  unfold unseen. destruct sc as [|x sc _] using rev_ind; intros Hnd; [by rewrite Z.eqb_refl|].
  rewrite last_snoc. cbn [default]. apply NoDup_cons in Hnd as [Hh Hnd]. rewrite <- app_assoc in *. simpl in *.
  destruct (Z.eqb_spec x h) as [->|_]; [set_solver|].
  induction sc as [|y sc IH]; simpl in *; [by rewrite Z.eqb_refl|].
  apply NoDup_cons in Hnd as [Hy Hnd]. destruct (Z.eqb_spec y x) as [->|_]; [set_solver|].
  apply IH; [set_solver|done].
Qed.

Lemma scan_start t ps last : 1 <= last < MAX_PID -> scan_inv t ps (proc_list_head, MAX_PID, last).
Proof. intros H. exists [], ps. split_and!; try done; [apply H|apply H|]. intros x []%elem_of_nil. Qed.

(** The scan ends and no pid is left in the interval. *)
Lemma get_pid_scan t ps last : pids_ok t ps -> (length ps < 4096)%nat -> 1 <= last < MAX_PID ->
  exists r, loop (get_pid_body t) (proc_list_head, MAX_PID, last) = Ok r /\ scan_done t ps r.
Proof.
  intros [HL Hp _ _ _] Hlen Hlast. destruct (free_pid (pids t ps)) as (f & Hf & Hfree); [unfold pids; by rewrite length_map|].
  pose proof HL as [Hnd _].
  apply (loop_rule (scan_inv t ps) (fun '(le, safe, last) =>
    gap f last * 4096 + Z.of_nat (length (unseen proc_list_head le ps)))).
  - intros [[le safe] la] (sc & re & Hps & -> & Hla & Hsafe & Hsc). rewrite Hps, unseen_spec by by rewrite <- Hps.
    split; [pose proof (Z.mod_pos_bound (f - la) 8191); unfold gap; lia|].
    unfold get_pid_body. rewrite Hps in HL. rewrite (list_next_seen _ _ _ _ HL). cbn [rbind].
    destruct re as [|p re]; cbn [head from_option id].
    { rewrite Z.eqb_refl. rewrite app_nil_r in Hps. subst sc. rewrite app_nil_r. split; [done|]. by split. }
    assert (Hpin : p ∈ ps) by (rewrite Hps; set_solver).
    destruct (Z.eqb_spec p proc_list_head) as [->|Hph]; [exfalso; apply NoDup_cons in Hnd as [? _]; done|].
    destruct (Hp p Hpin) as [pr Hpr]. unfold proc_at. rewrite (get_proc_Ok _ _ _ Hpr). cbn [rbind].
    pose proof (pid_of_Some _ _ _ Hpr) as Hpid.
    assert (Hnext : unseen proc_list_head p ps = re /\ ps = (sc ++ [p]) ++ re).
    { rewrite <- app_assoc. split; [|done]. pose proof (unseen_spec proc_list_head (sc ++ [p]) re) as H.
      rewrite last_snoc, <- app_assoc in H. simpl in H. rewrite Hps. apply H. by rewrite <- Hps. }
    destruct Hnext as [Hnext Hps']. rewrite <- Hpid. rewrite <- !Hps.
    assert (Hgo : forall sf, la < sf <= safe -> ~ (la <= pid_of t p < sf) -> scan_inv t ps (p, sf, la)).
    { intros sf Hsf Hpp. exists (sc ++ [p]), re. rewrite last_snoc. split_and!; try done; [lia..|].
      intros x [Hx| ->%list_elem_of_singleton]%elem_of_app; [specialize (Hsc x Hx); lia|done]. }
    destruct (Z.eqb_spec (pid_of t p) la) as [He|He].
    + assert (Hlf : la <> f).
      { intros ->. apply Hfree. unfold pids. apply list_elem_of_fmap. by exists p. }
      destruct (gap_succ f la) as (Hg & Hr & H0); [done|lia|done|].
      destruct (Z.leb_spec safe (la + 1)) as [Hle|Hlt].
      * split; [by apply scan_start|].
        rewrite Hg. unfold unseen at 1. rewrite Z.eqb_refl, length_cons. lia.
      * split.
        { exists (sc ++ [p]), re. rewrite last_snoc. split_and!; try done; [lia..|].
          intros x [Hx| ->%list_elem_of_singleton]%elem_of_app; [specialize (Hsc x Hx); lia|lia]. }
        destruct (Z.leb_spec MAX_PID (la + 1)); [lia|]. rewrite Hnext, Hg, length_cons. lia.
    + destruct (Z.ltb_spec la (pid_of t p)), (Z.ltb_spec (pid_of t p) safe); cbn [andb];
        (split; [apply Hgo; lia|]); rewrite Hnext, length_cons; lia.
  - by apply scan_start.
  - unfold unseen. rewrite Z.eqb_refl. pose proof (Z.mod_pos_bound (f - last) 8191). unfold gap. lia.
Qed.

Lemma get_pid_Ok t ps : pids_ok t ps -> (length ps < 4096)%nat ->
  exists n s, get_pid t = Ok (n, set_pids s n t) /\ 1 <= n < MAX_PID /\ (n ∉ pids t ps) /\ n < s <= MAX_PID /\
    forall p, p ∈ ps -> ~ (n <= pid_of t p < s).
Proof.
  intros Hok Hlen. pose proof (po_range _ _ Hok) as [Hr1 Hr2].
  enough (exists n s, get_pid t = Ok (n, set_pids s n t) /\ scan_done t ps (s, n)) as (n & s & E & H1 & H2 & H3).
  { exists n, s. split_and!; try done; try lia. intros (p & -> & Hp)%list_elem_of_fmap. specialize (H3 p Hp). lia. }
  unfold get_pid. change MAX_PID with 8192 in *. destruct (Z.leb_spec 8192 (last_pid t + 1)) as [Hm|Hm].
  { destruct (get_pid_scan t ps 1 Hok Hlen) as ([s n] & E & Hd); [change MAX_PID with 8192; lia|]. change MAX_PID with 8192 in E.
    rewrite E. cbn [rbind]. eauto. }
  destruct (Z.leb_spec (next_safe t) (last_pid t + 1)) as [Hs|Hs].
  { destruct (get_pid_scan t ps (last_pid t + 1) Hok Hlen) as ([s n] & E & Hd); [change MAX_PID with 8192; lia|]. change MAX_PID with 8192 in E.
    rewrite E. cbn [rbind]. eauto. }
  cbn [rbind]. eexists _, _. split; [done|]. unfold scan_done. change MAX_PID with 8192. split_and!; try lia.
  intros p Hp. pose proof (po_safe _ _ Hok p Hp). lia.
Qed.

(** ** The invariant of the process table *)

(** A field of a process. *)
Definition fld {A} (f : proc_struct -> A) (t : ptable) (p : Z) : option A := f <$> procs (pk t) !! p.

(** The children [l], youngest first, linked both ways; [y] is the younger
    sibling the first of them names. *)
Fixpoint chain (t : ptable) (y : option Z) (l : list Z) : Prop :=
  match l with
  | [] => True
  | x :: l => fld yptr t x = Some y /\ fld optr t x = Some (head l) /\ chain t (Some x) l
  end.
Definition children (t : ptable) (y : option Z) (p : Z) (l : list Z) : Prop :=
  NoDup l /\ fld cptr t p = Some (head l) /\ chain t y l.

(** [kids]: the children of every process.  While the children of [ex] are
    being moved the first of them names a younger sibling that is gone. *)
Record family_upto (ex : option Z) (t : ptable) (ps : list Z) (kids : Z -> list Z) : Prop := {
  fo_kids : forall p, p ∈ idleproc (pk t) :: ps -> exists y, children t y p (kids p) /\ (ex <> Some p -> y = None);
  fo_elem : forall p q, p ∈ idleproc (pk t) :: ps -> (q ∈ kids p) <-> (q ∈ ps) /\ fld parent t q = Some (Some p);
  fo_parent : forall q, q ∈ ps -> exists p, fld parent t q = Some (Some p) /\ (p ∈ idleproc (pk t) :: ps) /\ p <> q
}.

(** [B]: the hash buckets. *)
Record hash_ok (t : ptable) (ps : list Z) (B : Z -> list Z) : Prop := {
  ho_list : forall i, 0 <= i < HASH_LIST_SIZE -> dlist (hash_list t) (bucket i) (B i);
  ho_elem : forall i p, 0 <= i < HASH_LIST_SIZE -> (p ∈ B i) <-> (p ∈ ps) /\ pid_hashfn (pid_of t p) = i
}.

(** The lists, the hash table and the counters; this depends on the pids alone. *)
Record table_ok (t : ptable) (ps : list Z) : Prop := {
  tb_pids : pids_ok t ps;
  tb_inj : forall p q, p ∈ ps -> q ∈ ps -> pid_of t p = pid_of t q -> p = q;
  tb_hash : exists B, hash_ok t ps B;
  tb_nr : nr_process t = 1 + Z.of_nat (length ps);
  tb_idle : (idleproc (pk t) ∉ ps) /\ is_Some (procs (pk t) !! idleproc (pk t));
  tb_nonneg : forall p, is_Some (procs (pk t) !! p) -> 0 <= p
}.

Record ptable_ok (t : ptable) (ps : list Z) : Prop := {
  pt_table : table_ok t ps;
  pt_family : exists kids, family_upto None t ps kids
}.

(** ** Changing processes *)

Lemma fld_Some {A} (f : proc_struct -> A) t p v : fld f t p = Some v <-> exists pr, procs (pk t) !! p = Some pr /\ f pr = v.
Proof. unfold fld. rewrite fmap_Some. naive_solver. Qed.

Lemma fld_is_Some {A} (f : proc_struct -> A) t p : is_Some (fld f t p) <-> is_Some (procs (pk t) !! p).
Proof. apply fmap_is_Some. Qed.

(** [relinked t t' F]: every process [q] has been changed by [F q], and
    nothing else. *)
Record relinked (t t' : ptable) (F : Z -> proc_struct -> proc_struct) : Prop := {
  rl_kern : pk t' = set_procs (procs (pk t')) (pk t);
  rl_proc : forall q, procs (pk t') !! q = F q <$> procs (pk t) !! q;
  rl_rest : proc_list t' = proc_list t /\ hash_list t' = hash_list t /\ nr_process t' = nr_process t /\
    next_safe t' = next_safe t /\ last_pid t' = last_pid t
}.

Definition at_proc (p : Z) (f : proc_struct -> proc_struct) (q : Z) (pr : proc_struct) : proc_struct :=
  if decide (q = p) then f pr else pr.
Definition at_opt (p : option Z) (f : proc_struct -> proc_struct) (q : Z) (pr : proc_struct) : proc_struct :=
  if decide (p = Some q) then f pr else pr.

Lemma relinked_refl t : relinked t t (fun _ pr => pr).
Proof. split; [by destruct (pk t)| |done]. intros q. by destruct (procs (pk t) !! q). Qed.

Lemma relinked_trans t1 t2 t3 F G : relinked t1 t2 F -> relinked t2 t3 G -> relinked t1 t3 (fun q pr => G q (F q pr)).
Proof.
  intros [K1 P1 (?&?&?&?&?)] [K2 P2 (?&?&?&?&?)]. split; [by rewrite K2, K1| |split_and!; congruence].
  intros q. rewrite P2, P1. by destruct (procs (pk t1) !! q).
Qed.

Lemma relinked_change t0 t F p f : relinked t0 t F -> is_Some (procs (pk t0) !! p) ->
  exists t', change p f t = Ok t' /\ relinked t0 t' (fun q pr => at_proc p f q (F q pr)).
Proof.
  intros Hr [pr Hp]. assert (Hp' : procs (pk t) !! p = Some (F p pr)) by (rewrite (rl_proc _ _ _ Hr), Hp; done).
  unfold change. rewrite (upd_proc_Ok _ _ _ _ Hp'). cbn [rbind]. eexists. split; [done|].
  eapply (relinked_trans _ _ _ _ (at_proc p f)); [exact Hr|]. split; [done| |done].
  intros q. cbn [pk set_pk procs set_procs]. unfold at_proc. rewrite lookup_insert.
  destruct (decide (p = q)) as [<-|Hne]; [rewrite Hp'; simpl; by rewrite decide_True by done|].
  destruct (procs (pk t) !! q); [|done]. simpl. by rewrite decide_False by done.
Qed.

Lemma relinked_change_opt t0 t F p f : relinked t0 t F -> (forall x, p = Some x -> is_Some (procs (pk t0) !! x)) ->
  exists t', change_opt p f t = Ok t' /\ relinked t0 t' (fun q pr => at_opt p f q (F q pr)).
Proof.
  intros Hr Hp. destruct p as [p|]; cbn [change_opt].
  - destruct (relinked_change _ _ _ p f Hr) as (t' & E & Hr'); [by apply Hp|]. exists t'. split; [done|].
    split; [apply Hr'| |apply Hr']. intros q. rewrite (rl_proc _ _ _ Hr'). unfold at_opt, at_proc.
    destruct (procs (pk t0) !! q); [|done]. simpl. destruct (decide (q = p)) as [->|]; [by rewrite decide_True|].
    by rewrite decide_False by congruence.
  - exists t. split; [done|]. split; [apply Hr|apply Hr|apply Hr].
Qed.

Lemma relinked_at t t' F p pr : relinked t t' F -> procs (pk t) !! p = Some pr -> proc_at p t' = Ok (F p pr).
Proof. intros Hr Hp. apply get_proc_Ok. by rewrite (rl_proc _ _ _ Hr), Hp. Qed.

(** A field the changes leave alone. *)
Lemma relinked_fld {A} (g : proc_struct -> A) t t' F q : relinked t t' F ->
  (forall pr, procs (pk t) !! q = Some pr -> g (F q pr) = g pr) -> fld g t' q = fld g t q.
Proof.
  intros Hr Hg. unfold fld. rewrite (rl_proc _ _ _ Hr). destruct (procs (pk t) !! q) as [pr|]; [|done]. simpl. by rewrite Hg.
Qed.

(** Everything but the family links. *)
Definition unlinked (pr : proc_struct) : proc_struct :=
  set_parent None (set_cptr None (set_yptr None (set_optr None pr))).

Lemma relinked_keep {A} (g : proc_struct -> A) t t' F q : relinked t t' F ->
  (forall q pr, unlinked (F q pr) = unlinked pr) -> (forall pr, g (unlinked pr) = g pr) -> fld g t' q = fld g t q.
Proof.
  intros Hr HF Hg. eapply relinked_fld; [exact Hr|]. intros pr _. by rewrite <- (Hg (F q pr)), HF, Hg.
Qed.

(** *** Linking a process below its parent *)

Definition link_fields (p par : Z) (c : option Z) (q : Z) (pr : proc_struct) : proc_struct :=
  at_proc par (set_cptr (Some p)) q (at_opt c (set_yptr (Some p)) q (at_proc p (set_optr c) q (at_proc p (set_yptr None) q pr))).

Lemma set_links_Ok t ps p par c : dlist (proc_list t) proc_list_head ps -> p ∉ proc_list_head :: ps ->
  is_Some (proc_list t !! p) -> fld parent t p = Some (Some par) -> fld cptr t par = Some c -> p <> par ->
  (forall x, c = Some x -> is_Some (procs (pk t) !! x)) ->
  exists t' L, set_links p t = Ok (set_nr_process (s32 (nr_process t + 1)) t') /\
    relinked (set_proc_list L t) t' (link_fields p par c) /\ dlist L proc_list_head (p :: ps).
Proof.
  intros HL Hp Hn (pr & Hpr & Hpar)%fld_Some (ppr & Hppr & Hc)%fld_Some Hne Hcs. unfold set_links, list_add.
  destruct (list_add_after_dlist _ _ _ p HL) as (L & E & _ & HL' & _); [done|done|]. rewrite E. cbn [rbind].
  set (t0 := set_proc_list L t). pose proof (relinked_refl t0) as H0.
  destruct (relinked_change _ _ _ p (set_yptr None) H0) as (t1 & E1 & H1); [by eexists|]. rewrite E1. cbn [rbind]. cbv beta in H1.
  rewrite (relinked_at _ _ _ p pr H1) by done. cbn [rbind].
  assert (parent (at_proc p (set_yptr None) p pr) = Some par) as -> by (unfold at_proc; by rewrite decide_True).
  cbn [rget rbind]. rewrite (relinked_at _ _ _ par ppr H1) by done. cbn [rbind].
  assert (cptr (at_proc p (set_yptr None) par ppr) = c) as -> by (unfold at_proc; by rewrite decide_False).
  destruct (relinked_change _ _ _ p (set_optr c) H1) as (t2 & E2 & H2); [by eexists|]. rewrite E2. cbn [rbind].
  destruct (relinked_change_opt _ _ _ c (set_yptr (Some p)) H2) as (t3 & E3 & H3); [done|]. rewrite E3. cbn [rbind].
  destruct (relinked_change _ _ _ par (set_cptr (Some p)) H3) as (t4 & E4 & H4); [by eexists|]. rewrite E4. cbn [rbind].
  exists t4, L. destruct (rl_rest _ _ _ H4) as (_ & _ & -> & _). done.
Qed.

(** *** Taking a process out of its family *)

Definition unlink_fields (par : Z) (y o : option Z) (q : Z) (pr : proc_struct) : proc_struct :=
  match y with
  | Some y' => at_proc y' (set_optr o) q (at_opt o (set_yptr y) q pr)
  | None => at_proc par (set_cptr o) q (at_opt o (set_yptr y) q pr)
  end.

Lemma remove_links_Ok t l1 p l2 par y o : dlist (proc_list t) proc_list_head (l1 ++ p :: l2) ->
  fld parent t p = Some (Some par) -> fld yptr t p = Some y -> fld optr t p = Some o ->
  is_Some (procs (pk t) !! par) ->
  (forall x, y = Some x -> is_Some (procs (pk t) !! x)) -> (forall x, o = Some x -> x <> p /\ is_Some (procs (pk t) !! x)) ->
  exists t' L, remove_links p t = Ok (set_nr_process (s32 (nr_process t - 1)) t') /\
    relinked (set_proc_list L t) t' (unlink_fields par y o) /\ dlist L proc_list_head (l1 ++ l2).
Proof.
  intros HL (pr & Hpr & Hpar)%fld_Some (pr1 & Hpr1 & Hy)%fld_Some (pr2 & Hpr2 & Ho)%fld_Some Hp Hys Hos.
  rewrite Hpr in Hpr1, Hpr2. simplify_eq. unfold remove_links.
  destruct (list_del_mid _ _ _ _ _ HL) as (L & E & _ & HL' & _). rewrite E. cbn [rbind].
  set (t0 := set_proc_list L t). pose proof (relinked_refl t0) as H0.
  rewrite (relinked_at _ _ _ p pr1 H0) by done. cbn [rbind].
  destruct (relinked_change_opt _ _ _ (optr pr1) (set_yptr (yptr pr1)) H0) as (t1 & E1 & H1); [intros x Hx; by apply Hos|].
  rewrite E1. cbn [rbind]. cbv beta in H1. unfold unlink_fields. destruct (yptr pr1) as [y|] eqn:Hy.
  - destruct (relinked_change _ _ _ y (set_optr (optr pr1)) H1) as (t2 & E2 & H2); [by apply Hys|].
    rewrite E2. cbn [rbind]. exists t2, L. destruct (rl_rest _ _ _ H2) as (_ & _ & -> & _). done.
  - rewrite Hpar. cbn [rget rbind]. destruct (relinked_change _ _ _ par (set_cptr (optr pr1)) H1) as (t2 & E2 & H2); [done|].
    rewrite E2. cbn [rbind]. exists t2, L. destruct (rl_rest _ _ _ H2) as (_ & _ & -> & _). done.
Qed.

(** *** Chains of siblings *)

Lemma chain_frame t t' y l : (forall x, x ∈ l -> fld yptr t' x = fld yptr t x /\ fld optr t' x = fld optr t x) ->
  chain t y l -> chain t' y l.
Proof.
  revert y. induction l as [|x l IH]; intros y Hf; simpl; [done|]. intros (H1 & H2 & H3).
  destruct (Hf x) as [-> ->]; [by left|]. split; [done|]. split; [done|]. apply IH; [|done]. intros z Hz. apply Hf. by right.
Qed.

(** Another younger sibling for the first. *)
Lemma chain_head t t' y y' x l : NoDup (x :: l) -> fld yptr t' x = Some y' -> fld optr t' x = fld optr t x ->
  (forall z, z ∈ l -> fld yptr t' z = fld yptr t z /\ fld optr t' z = fld optr t z) ->
  chain t y (x :: l) -> chain t' y' (x :: l).
Proof.
  intros [Hx _]%NoDup_cons Hy Ho Hf (_ & H2 & H3). simpl. rewrite Ho. split; [done|]. split; [done|].
  eapply chain_frame; [|exact H3]. exact Hf.
Qed.

Lemma chain_fields t y l1 p l2 : chain t y (l1 ++ p :: l2) ->
  fld yptr t p = Some (match list.last l1 with Some z => Some z | None => y end) /\ fld optr t p = Some (head l2).
Proof.
  revert y. induction l1 as [|x l1 IH]; intros y; simpl; [tauto|]. intros (_ & _ & H).
  destruct (IH _ H) as [H1 H2]. split; [|done]. rewrite H1. destruct l1 as [|z l1]; [done|].
  change (list.last (x :: z :: l1)) with (list.last (z :: l1)). by destruct (list.last (z :: l1)) eqn:E; [|apply last_None in E].
Qed.

(** Compute a field after the changes [H]. *)
Ltac fields H :=
  unfold fld in *; rewrite ?(rl_proc _ _ _ H); unfold link_fields, unlink_fields, at_proc, at_opt in *;
  repeat match goal with |- context [procs (pk ?t) !! ?q] => destruct (procs (pk t) !! q) eqn:?; simpl in * end;
  repeat case_decide; simplify_eq/=; try done.

(** A new process [p] becomes the youngest child of [par]. *)
Lemma family_link t t' ps kids p par : family_upto None t ps kids -> p ∉ idleproc (pk t) :: ps ->
  par ∈ idleproc (pk t) :: ps -> fld parent t p = Some (Some par) -> fld cptr t p = Some None ->
  relinked t t' (link_fields p par (head (kids par))) ->
  family_upto None t' (p :: ps) (fun q => if decide (q = par) then p :: kids par else if decide (q = p) then [] else kids q).
Proof.
  intros Hf Hp Hpar Hpp Hpc Hr. pose proof (rl_kern _ _ _ Hr) as Hk.
  assert (Hid : idleproc (pk t') = idleproc (pk t)) by by rewrite Hk.
  assert (Hparent : forall q, fld parent t' q = fld parent t q) by (intros q; fields Hr).
  assert (Hin : forall a q, a ∈ idleproc (pk t) :: ps -> q ∈ kids a -> q ∈ ps /\ fld parent t q = Some (Some a)).
  { intros a q Ha Hq. by apply (fo_elem _ _ _ _ Hf a q Ha). }
  assert (Hne : p <> par) by (intros ->; done).
  assert (Hpk : forall a, a ∈ idleproc (pk t) :: ps -> p ∉ kids a) by (intros a Ha Hq; apply Hin in Hq; [set_solver|done]).
  assert (Hph : head (kids par) <> Some p).
  { intros H. apply (Hpk par Hpar). destruct (kids par); [done|]. injection H as ->. by left. }
  assert (Hyp : fld yptr t' p = Some None /\ fld optr t' p = Some (head (kids par)) /\ fld cptr t' p = Some None).
  { apply fld_Some in Hpc as (pr & Hpr & Hpc). unfold fld. rewrite (rl_proc _ _ _ Hr), Hpr. unfold link_fields, at_proc, at_opt.
    simpl. split_and!; repeat case_decide; simplify_eq/=; congruence. }
  assert (Hdone : forall q, q <> p -> fld yptr t' q =
      if decide (head (kids par) = Some q) then (fun _ => Some p) <$> fld yptr t q else fld yptr t q) by (intros q ?; fields Hr).
  assert (Hopt : forall q, q <> p -> fld optr t' q = fld optr t q) by (intros q ?; fields Hr).
  split.
  - rewrite Hid. intros a Ha. exists None. split; [|done].
    destruct (decide (a = par)) as [->|Hap].
    { destruct (fo_kids _ _ _ _ Hf par Hpar) as (y & (Hnd & Hc & Hch) & _). split; [constructor; [by apply Hpk|done]|].
      split; [fields Hr; by rewrite Heqo in Hc|]. cbn [chain]. split; [apply Hyp|]. split; [apply Hyp|]. destruct (kids par) as [|x l] eqn:El; [done|].
      assert (x <> p) by (intros ->; apply (Hpk par Hpar); rewrite El; by left).
      assert (forall z, z ∈ l -> z <> p /\ z <> x).
      { intros z Hz. apply NoDup_cons in Hnd as [? ?]. split; intros ->; [|done]. apply (Hpk par Hpar). rewrite El. by right. }
      eapply chain_head; [done| |by apply Hopt| |exact Hch].
      - rewrite Hdone, decide_True by done. destruct Hch as (-> & _). done.
      - intros z Hz. rewrite Hdone, decide_False by naive_solver. split; [done|]. naive_solver. }
    destruct (decide (a = p)) as [->|Hane].
    { split; [constructor|]. split; [apply Hyp|done]. }
    assert (Ha' : a ∈ idleproc (pk t) :: ps) by set_solver.
    destruct (fo_kids _ _ _ _ Hf a Ha') as (y & (Hnd & Hc & Hch) & Hy). rewrite (Hy ltac:(done)) in Hch.
    split; [done|]. split; [rewrite <- Hc; fields Hr|]. eapply chain_frame; [|exact Hch]. intros x Hx.
    assert (x <> p) by (intros ->; by apply (Hpk a Ha')). rewrite Hdone by done. split; [|by apply Hopt].
    rewrite decide_False; [done|]. intros Hh. destruct (kids par) as [|z l] eqn:El; [done|]. injection Hh as ->.
    destruct (Hin a x Ha' Hx) as [_ E1]. destruct (Hin par x Hpar) as [_ E2]; [rewrite El; by left|]. congruence.
  - rewrite Hid. intros a q Ha. rewrite Hparent. destruct (decide (a = par)) as [->|Hap].
    { rewrite !elem_of_cons, (fo_elem _ _ _ _ Hf par q Hpar). split; [intros [->|[? ?]]; auto|]. intros [[->|?] ?]; auto. }
    destruct (decide (a = p)) as [->|Hane].
    { split; [by intros []%elem_of_nil|]. intros [[->|Hq]%elem_of_cons E]; [congruence|].
      destruct (fo_parent _ _ _ _ Hf q Hq) as (b & E' & Hb & _). congruence. }
    rewrite (fo_elem _ _ _ _ Hf a q) by set_solver. rewrite elem_of_cons. split; [tauto|].
    intros [[->|?] E]; [congruence|done].
  - rewrite Hid. intros q [->|Hq]%elem_of_cons; rewrite Hparent.
    + exists par. split; [done|]. split; [set_solver|done].
    + destruct (fo_parent _ _ _ _ Hf q Hq) as (b & E' & Hb & Hbq). exists b. split; [done|]. split; [set_solver|done].
Qed.

(** What is left when [p] is taken out of a chain. *)
Lemma chain_remove t t' p l2 l1 : forall y, NoDup (l1 ++ p :: l2) ->
  (forall q, q ∈ l1 ++ l2 ->
    fld yptr t' q = (if decide (head l2 = Some q) then Some (match list.last l1 with Some z => Some z | None => y end) else fld yptr t q) /\
    fld optr t' q = (if decide (list.last l1 = Some q) then Some (head l2) else fld optr t q)) ->
  chain t y (l1 ++ p :: l2) -> chain t' y (l1 ++ l2).
Proof.
  induction l1 as [|x l1 IH]; intros y Hnd Hf Hch; simpl in Hnd.
  - destruct Hch as (_ & _ & Hch). simpl in *. destruct l2 as [|x l2]; [done|]. apply NoDup_cons in Hnd as [_ Hnd].
    destruct (Hf x) as [H1 H2]; [by left|]. simpl in H1, H2. rewrite decide_True in H1 by done.
    eapply chain_head; [done|exact H1|exact H2| |exact Hch].
    intros z Hz. destruct (Hf z) as [H3 H4]; [by right|]. simpl in H3, H4. apply NoDup_cons in Hnd as [? _].
    rewrite decide_False in H3 by naive_solver. done.
  - destruct Hch as (H1 & H2 & Hch). apply NoDup_cons in Hnd as [Hx Hnd].
    destruct (Hf x) as [H3 H4]; [by left|]. rewrite decide_False in H3.
    2: { intros Hh. apply Hx. destruct l2 as [|z l2]; [done|]. injection Hh as ->. set_solver. }
    split; [congruence|]. split.
    + rewrite H4. destruct l1 as [|z l1]; simpl; [by rewrite decide_True|].
      rewrite decide_False; [exact H2|]. intros Hl. apply Hx. apply elem_of_app. left. by apply last_Some_elem_of.
    + apply IH; [done| |exact Hch]. intros q Hq. destruct (Hf q) as [H5 H6]; [by right|]. destruct l1 as [|z l1]; simpl in *.
      * rewrite H5, H6. split; [done|]. rewrite decide_False; [done|]. intros [= ->]. by apply Hx; right.
      * rewrite H5, H6. split; [|done]. destruct (list.last (z :: l1)) eqn:El; [done|by apply last_None in El].
Qed.

(** A process without children leaves its family. *)
Lemma family_unlink t t' ps ps' kids p par l1 l2 : family_upto None t ps kids -> p ∈ ps -> idleproc (pk t) ∉ ps ->
  fld parent t p = Some (Some par) -> kids p = [] -> kids par = l1 ++ p :: l2 ->
  (forall q, q ∈ ps' <-> q ∈ ps /\ q <> p) -> relinked t t' (unlink_fields par (list.last l1) (head l2)) ->
  family_upto None t' ps' (fun q => if decide (q = par) then l1 ++ l2 else kids q).
Proof.
  intros Hf Hp Hni Hpp Hkp Hkids Hps Hr. pose proof (rl_kern _ _ _ Hr) as Hk.
  assert (Hid : idleproc (pk t') = idleproc (pk t)) by by rewrite Hk.
  destruct (fo_parent _ _ _ _ Hf p Hp) as (par' & Hpp' & Hpar & Hne). rewrite Hpp in Hpp'. injection Hpp' as <-.
  assert (Hparent : forall q, fld parent t' q = fld parent t q).
  { intros q. destruct (list.last l1) eqn:?; fields Hr. }
  destruct (fo_kids _ _ _ _ Hf par Hpar) as (y & (Hnd & Hc & Hch) & Hy). rewrite (Hy ltac:(done)) in Hch. rewrite Hkids in *.
  assert (Hnd' := Hnd). apply NoDup_app in Hnd' as (_ & Hd & [Hp2 Hn2]%NoDup_cons).
  assert (Hhl : forall z, head l2 = Some z -> list.last l1 <> Some z).
  { intros z Hh Hl. destruct l2 as [|w l2]; [done|]. injection Hh as ->. apply (Hd z); [by apply last_Some_elem_of|].
    right. by left. }
  assert (Hyq : forall q, is_Some (procs (pk t) !! q) -> fld yptr t' q = if decide (head l2 = Some q) then Some (list.last l1) else fld yptr t q).
  { intros q [pr Hq]. unfold fld. rewrite (rl_proc _ _ _ Hr), Hq. unfold unlink_fields, at_proc, at_opt. simpl.
    destruct (list.last l1); repeat case_decide; done. }
  assert (Hoq : forall q, is_Some (procs (pk t) !! q) -> fld optr t' q = if decide (list.last l1 = Some q) then Some (head l2) else fld optr t q).
  { intros q [pr Hq]. unfold fld. rewrite (rl_proc _ _ _ Hr), Hq. unfold unlink_fields, at_proc, at_opt. simpl.
    destruct (list.last l1); repeat case_decide; simplify_eq; done. }
  assert (Hex : forall a q, a ∈ idleproc (pk t) :: ps -> q ∈ kids a -> is_Some (procs (pk t) !! q) /\ fld parent t q = Some (Some a)).
  { intros a q Ha Hq. apply (fo_elem _ _ _ _ Hf a q Ha) in Hq as [_ E]. split; [|done].
    apply fld_Some in E as (pr & -> & _). by eexists. }
  assert (Hsub : forall a, a ∈ idleproc (pk t') :: ps' -> a ∈ idleproc (pk t) :: ps).
  { rewrite Hid. intros a [->|Ha]%elem_of_cons; [by left|]. right. by apply Hps in Ha as [? _]. }
  split.
  - intros a Ha%Hsub. exists None. split; [|done]. destruct (decide (a = par)) as [->|Hap].
    + split; [apply NoDup_app in Hnd as (?&?&?); apply NoDup_app; split_and!; try done; intros x Hx Hx2; apply (Hd x Hx); by right|].
      split.
      * apply fld_Some in Hc as (pr & Hpr & Hc). unfold fld. rewrite (rl_proc _ _ _ Hr), Hpr. simpl. f_equal.
        destruct l1 as [|x l1]; unfold unlink_fields, at_proc, at_opt; simpl.
        -- rewrite decide_True by done. done.
        -- destruct (list.last (x :: l1)) eqn:El; [|by apply last_None in El]. repeat case_decide; done.
      * eapply chain_remove; [exact Hnd| |exact Hch]. intros q Hq.
        assert (is_Some (procs (pk t) !! q)) as Hq' by (apply (Hex par q Hpar); rewrite Hkids; set_solver).
        split; [rewrite (Hyq q Hq'); by destruct (list.last l1)|by apply Hoq].
    + destruct (fo_kids _ _ _ _ Hf a Ha) as (y' & (Hnda & Hca & Hcha) & Hy'). rewrite (Hy' ltac:(done)) in Hcha.
      split; [done|]. split.
      * rewrite <- Hca. destruct (list.last l1) eqn:?; fields Hr.
      * eapply chain_frame; [|exact Hcha]. intros q Hq. destruct (Hex a q Ha Hq) as [Hq' Hqa].
        rewrite Hyq, Hoq by done. rewrite !decide_False; [done|..].
        -- intros Hl. apply last_Some_elem_of in Hl. destruct (Hex par q Hpar) as [_ E]; [rewrite Hkids; set_solver|congruence].
        -- intros Hh. destruct l2 as [|z l2]; [done|]. injection Hh as ->.
           destruct (Hex par q Hpar) as [_ E]; [rewrite Hkids; set_solver|congruence].
  - intros a q Ha%Hsub. rewrite Hparent, Hps. destruct (decide (a = par)) as [->|Hap].
    + pose proof (fo_elem _ _ _ _ Hf par q Hpar) as He. rewrite Hkids in He. split.
      * intros Hq. assert (q <> p) by (intros ->; apply elem_of_app in Hq as [Hq|Hq]; [apply (Hd p Hq); by left|done]).
        assert (q ∈ ps /\ fld parent t q = Some (Some par)) as [? ?] by (apply He; set_solver). done.
      * intros [[Hq Hqp] E]. assert (q ∈ l1 ++ p :: l2) by by apply He. set_solver.
    + rewrite (fo_elem _ _ _ _ Hf a q Ha). split; [|tauto]. intros [Hq E]. split; [|done]. split; [done|]. intros ->. congruence.
  - rewrite Hid. intros q [Hq Hqp]%Hps. rewrite Hparent. destruct (fo_parent _ _ _ _ Hf q Hq) as (b & E & Hb & Hbq).
    exists b. split; [done|]. split; [|done]. apply elem_of_cons in Hb as [->|Hb]; [by left|]. right. apply Hps. split; [done|].
    intros ->. assert (q ∈ kids p) as Hqk by (apply (fo_elem _ _ _ _ Hf p q); [by right|done]). rewrite Hkp in Hqk. by apply elem_of_nil in Hqk.
Qed.

(** *** Handing a child to another parent *)

Definition move_fields (cur ini p : Z) (nx c : option Z) (q : Z) (pr : proc_struct) : proc_struct :=
  at_proc ini (set_cptr (Some p)) q (at_proc p (set_parent (Some ini)) q (at_opt c (set_yptr (Some p)) q
    (at_proc p (set_optr c) q (at_proc p (set_yptr None) q (at_proc cur (set_cptr nx) q pr))))).

Lemma family_move t t' ps kids cur ini p rest : family_upto (Some cur) t ps kids ->
  cur ∈ ps -> ini ∈ ps -> cur <> ini -> fld parent t ini <> Some (Some cur) -> kids cur = p :: rest ->
  relinked t t' (move_fields cur ini p (head rest) (head (kids ini))) ->
  family_upto (Some cur) t' ps
    (fun q => if decide (q = cur) then rest else if decide (q = ini) then p :: kids ini else kids q).
Proof.
  intros Hf Hcur Hini Hne Hip Hkids Hr. pose proof (rl_kern _ _ _ Hr) as Hk.
  assert (Hid : idleproc (pk t') = idleproc (pk t)) by by rewrite Hk.
  assert (Hcin : cur ∈ idleproc (pk t) :: ps) by by right.
  assert (Hiin : ini ∈ idleproc (pk t) :: ps) by by right.
  assert (Hin : forall a q, a ∈ idleproc (pk t) :: ps -> q ∈ kids a -> q ∈ ps /\ fld parent t q = Some (Some a)).
  { intros a q Ha Hq. by apply (fo_elem _ _ _ _ Hf a q Ha). }
  destruct (Hin cur p Hcin) as [Hpps Hpp]; [rewrite Hkids; by left|].
  assert (Hpi : p <> ini) by (intros ->; done).
  assert (Hpc : p <> cur).
  { intros ->. destruct (fo_parent _ _ _ _ Hf cur Hcur) as (b & E & _ & Hb). congruence. }
  assert (Hpar : forall q, fld parent t' q = if decide (q = p) then Some (Some ini) else fld parent t q).
  { intros q. apply fld_Some in Hpp as (pr & Hpr & _). unfold fld. rewrite (rl_proc _ _ _ Hr). unfold move_fields, at_proc, at_opt.
    destruct (decide (q = p)) as [->|]; [rewrite Hpr; simpl; repeat case_decide; done|].
    destruct (procs (pk t) !! q); simpl; repeat case_decide; done. }
  assert (Hyo : forall q, q <> p -> fld optr t' q = fld optr t q /\
    fld yptr t' q = if decide (head (kids ini) = Some q) then (fun _ => Some p) <$> fld yptr t q else fld yptr t q).
  { intros q Hq. unfold fld. rewrite (rl_proc _ _ _ Hr). unfold move_fields, at_proc, at_opt.
    destruct (procs (pk t) !! q); simpl; [|by case_decide]. by repeat case_decide. }
  assert (Hpki : p ∉ kids ini) by (intros Hx; apply Hin in Hx as [_ E]; [congruence|done]).
  assert (Hpf : fld yptr t' p = Some None /\ fld optr t' p = Some (head (kids ini))).
  { apply fld_Some in Hpp as (pr & Hpr & _). unfold fld. rewrite (rl_proc _ _ _ Hr), Hpr. unfold move_fields, at_proc, at_opt. simpl.
    split; repeat case_decide; simplify_eq/=; try done; exfalso; apply Hpki; destruct (kids ini); simplify_eq/=; set_solver. }
  assert (Hsame : forall a l y, a ∈ idleproc (pk t) :: ps -> a <> ini -> (forall x, x ∈ l -> x ∈ kids a /\ x <> p) ->
    chain t y l -> chain t' y l).
  { intros a l y Ha Hai Hl. apply chain_frame. intros x Hx. destruct (Hl x Hx) as [Hxa Hxp].
    destruct (Hyo x Hxp) as [-> ->]. rewrite decide_False; [done|]. intros Hh.
    destruct (Hin a x Ha Hxa) as [_ E]. destruct (Hin ini x Hiin) as [_ E2]; [|congruence].
    destruct (kids ini); [done|]. injection Hh as ->. by left. }
  split.
  - rewrite Hid. intros a Ha. destruct (fo_kids _ _ _ _ Hf a Ha) as (y & (Hnd & Hc & Hch) & Hy).
    destruct (decide (a = cur)) as [->|Hac]; [|exists None; split; [|done]; destruct (decide (a = ini)) as [->|Hai]].
    + exists (Some p). split; [|done]. rewrite Hkids in *. apply NoDup_cons in Hnd as [Hpr Hnd]. destruct Hch as (_ & _ & Hch).
      split; [done|]. split.
      * apply fld_Some in Hc as (pr & Hpr' & Hc). unfold fld. rewrite (rl_proc _ _ _ Hr), Hpr'. unfold move_fields, at_proc, at_opt.
        simpl. repeat case_decide; simplify_eq/=; done.
      * eapply Hsame; [exact Hcin|done| |exact Hch]. intros x Hx. rewrite Hkids. split; [by right|]. by intros ->.
    + rewrite (Hy ltac:(congruence)) in Hch. split; [by constructor|]. split.
      * apply fld_Some in Hc as (pr & Hpr' & Hc). unfold fld. rewrite (rl_proc _ _ _ Hr), Hpr'. unfold move_fields, at_proc, at_opt.
        simpl. repeat case_decide; simplify_eq/=; done.
      * cbn [chain]. split; [apply Hpf|]. split; [apply Hpf|]. destruct (kids ini) as [|x l] eqn:El; [done|].
        assert (x <> p) by set_solver. apply NoDup_cons in Hnd as Hnd'. destruct Hnd' as [Hxl _].
        destruct (Hyo x) as [H1 H2]; [done|]. eapply chain_head; [done| |exact H1| |exact Hch].
        -- rewrite H2, decide_True by done. by destruct Hch as (-> & _).
        -- intros z Hz. destruct (Hyo z) as [-> ->]; [set_solver|]. rewrite decide_False by naive_solver. done.
    + rewrite (Hy ltac:(congruence)) in Hch. split; [done|]. split.
      * rewrite <- Hc. apply fld_Some in Hc as (pr & Hpr' & Hc). unfold fld. rewrite (rl_proc _ _ _ Hr), Hpr'. unfold move_fields, at_proc, at_opt.
        simpl. repeat case_decide; simplify_eq/=; done.
      * eapply Hsame; [exact Ha|done| |exact Hch]. intros x Hx. split; [done|]. intros ->. destruct (Hin a p Ha Hx) as [_ E]. congruence.
  - rewrite Hid. intros a q Ha. rewrite Hpar. pose proof (fo_elem _ _ _ _ Hf a q Ha) as He.
    destruct (decide (a = cur)) as [->|Hac].
    + destruct (fo_kids _ _ _ _ Hf cur Ha) as (y & (Hnd & _) & _). rewrite Hkids in *. apply NoDup_cons in Hnd as [Hpr _].
      destruct (decide (q = p)) as [->|Hqp]; [split; [done|]; intros [_ E]; congruence|]. rewrite elem_of_cons in He. tauto.
    + destruct (decide (a = ini)) as [->|Hai].
      * rewrite elem_of_cons. destruct (decide (q = p)) as [->|Hqp]; [split; [done|by left]|]. tauto.
      * destruct (decide (q = p)) as [->|Hqp]; [|done]. rewrite He. split; intros [_ E]; congruence.
  - rewrite Hid. intros q Hq. rewrite Hpar. destruct (decide (q = p)) as [->|Hqp].
    + exists ini. split; [done|]. split; [done|]. by intros ->.
    + apply (fo_parent _ _ _ _ Hf q Hq).
Qed.

(** *** What the scheduler does to the table *)

Lemma core_fld {A} (g : proc_struct -> A) t k' q : same_cores (pk t) k' -> (forall pr, g (core pr) = g pr) ->
  fld g (set_pk k' t) q = fld g t q.
Proof.
  intros Hs Hg. unfold fld. cbn [pk set_pk]. specialize (Hs q).
  destruct (procs k' !! q) as [a|], (procs (pk t) !! q) as [b|]; try done. simpl in *.
  rewrite <- (Hg a), <- (Hg b). congruence.
Qed.

Lemma same_cores_is_Some k k' q : same_cores k k' -> is_Some (procs k' !! q) <-> is_Some (procs k !! q).
Proof. intros Hs. specialize (Hs q). destruct (procs k' !! q), (procs k !! q); try done; split; by eexists || by intros []. Qed.

Lemma family_kern ex t ps kids k' : family_upto ex t ps kids -> same_cores (pk t) k' -> idleproc k' = idleproc (pk t) ->
  family_upto ex (set_pk k' t) ps kids.
Proof.
  intros [Hk He Hp] Hs Hi. split; cbn [pk set_pk]; rewrite Hi.
  - intros p Hin. destruct (Hk p Hin) as (y & (Hnd & Hc & Hch) & Hy). exists y. split; [|done]. split; [done|].
    split; [by rewrite core_fld|]. eapply chain_frame; [|exact Hch]. intros x _. by rewrite !core_fld.
  - intros p q Hin. rewrite core_fld by done. by apply He.
  - intros q Hq. rewrite core_fld by done. by apply Hp.
Qed.

Lemma table_ok_frame t t' ps : table_ok t ps -> (forall q, fld pid t' q = fld pid t q) ->
  proc_list t' = proc_list t -> hash_list t' = hash_list t -> nr_process t' = nr_process t ->
  next_safe t' = next_safe t -> last_pid t' = last_pid t -> idleproc (pk t') = idleproc (pk t) -> table_ok t' ps.
Proof.
  intros [[P1 P2 P3 P4 P5] Hinj (B & [H1 H2]) Hnr [Hi1 Hi2] Hnn] Hp E1 E2 E3 E4 E5 E6.
  assert (Hpid : forall q, pid_of t' q = pid_of t q).
  { intros q. unfold pid_of. specialize (Hp q). unfold fld in Hp.
    destruct (procs (pk t') !! q), (procs (pk t) !! q); simplify_eq/=; done. }
  assert (Hsome : forall q, is_Some (procs (pk t') !! q) <-> is_Some (procs (pk t) !! q)).
  { intros q. specialize (Hp q). unfold fld in Hp.
    destruct (procs (pk t') !! q), (procs (pk t) !! q); try done; split; intros []; by eexists. }
  split; [split|..]; rewrite ?E1, ?E2, ?E3, ?E4, ?E5, ?E6; try done.
  - intros p Hin. by apply Hsome, P2.
  - intros p Hin. rewrite Hpid. by apply P3.
  - intros p Hin. rewrite Hpid. by apply P5.
  - intros p q. rewrite !Hpid. apply Hinj.
  - exists B. split; [by rewrite E2|]. intros i p Hi. rewrite Hpid. by apply H2.
  - split; [done|]. by apply Hsome.
  - intros p. rewrite Hsome. apply Hnn.
Qed.

(** *** Finding a process *)

Lemma table_NoDup t ps : table_ok t ps -> NoDup ps.
Proof. intros [[[Hnd _] _ _ _ _] _ _ _ _ _]. by apply NoDup_cons in Hnd as [_ ?]. Qed.

Lemma table_size t ps : table_ok t ps -> Z.of_nat (length ps) <= 8191.
Proof.
  intros Hok. rewrite <- (length_map (pid_of t) ps).
  assert (NoDup (map (pid_of t) ps)) as Hnd.
  { apply NoDup_fmap_2_strong; [|by apply (table_NoDup t)]. intros x y Hx Hy. by apply (tb_inj _ _ Hok). }
  assert (map (pid_of t) ps ⊆ seqZ 1 8191) as Hsub.
  { intros x (p & -> & Hp)%list_elem_of_fmap. apply elem_of_seqZ. pose proof (po_pids _ _ (tb_pids _ _ Hok) p Hp) as H.
    change MAX_PID with 8192 in H. lia. }
  pose proof (submseteq_length _ _ (NoDup_submseteq _ _ Hnd Hsub)) as Hle. rewrite length_seqZ in Hle. lia.
Qed.

Lemma hash32_range v b : 0 <= b <= 32 -> 0 <= hash32 v b < 2 ^ b.
Proof.
  intros Hb. unfold hash32. pose proof (u32_range (v * GOLDEN_RATIO_PRIME_32)) as [H1 H2].
  rewrite Z.shiftr_div_pow2 by lia. split; [apply Z.div_pos; lia|]. apply Z.div_lt_upper_bound; [lia|].
  rewrite <- Z.pow_add_r by lia. replace (32 - b + b) with 32 by lia. exact H2.
Qed.
Lemma pid_hashfn_range n : 0 <= pid_hashfn n < HASH_LIST_SIZE.
Proof. apply (hash32_range n 10). lia. Qed.

Lemma find_proc_Ok t ps pd : table_ok t ps -> exists r, find_proc pd t = Ok r /\
  match r with Some p => p ∈ ps /\ pid_of t p = pd | None => forall p, p ∈ ps -> pid_of t p <> pd end.
Proof.
  intros Hok. unfold find_proc.
  destruct (Z.ltb_spec 0 pd), (Z.ltb_spec pd MAX_PID); cbn [andb];
    try (exists None; split; [done|]; intros p Hp; pose proof (po_pids _ _ (tb_pids _ _ Hok) p Hp); lia).
  destruct (tb_hash _ _ Hok) as (B & Hl & He). set (h := bucket (pid_hashfn pd)).
  pose proof (pid_hashfn_range pd) as Hr. pose proof (Hl _ Hr) as HL. fold h in HL. set (b := B (pid_hashfn pd)) in *.
  assert (Hb : forall p, p ∈ b <-> p ∈ ps /\ pid_hashfn (pid_of t p) = pid_hashfn pd) by (intros p; by apply He).
  apply (loop_rule (fun le => exists sc re, b = sc ++ re /\ le = default h (list.last sc) /\ forall p, p ∈ sc -> pid_of t p <> pd)
    (fun le => Z.of_nat (length (unseen h le b)))).
  - intros le (sc & re & Eb & -> & Hsc). split; [lia|]. unfold find_proc_body. rewrite Eb in HL.
    rewrite (list_next_seen _ _ _ _ HL). cbn [rbind]. destruct HL as [Hnd _]. destruct re as [|p re]; cbn [head from_option id].
    + rewrite Z.eqb_refl. intros p Hp E. rewrite app_nil_r in Eb. apply (Hsc p); [|done]. rewrite <- Eb. apply Hb. by rewrite E.
    + assert (p <> h) by (intros ->; apply NoDup_cons in Hnd as [? _]; set_solver).
      destruct (Z.eqb_spec p h); [done|]. assert (Hpb : p ∈ b) by (rewrite Eb; set_solver). apply Hb in Hpb as [Hp _].
      destruct (po_procs _ _ (tb_pids _ _ Hok) p Hp) as [pr Hpr]. unfold proc_at. rewrite (get_proc_Ok _ _ _ Hpr). cbn [rbind].
      rewrite <- (pid_of_Some _ _ _ Hpr). destruct (Z.eqb_spec (pid_of t p) pd) as [E|E]; [done|]. split.
      * exists (sc ++ [p]), re. rewrite last_snoc, <- app_assoc. split_and!; try done.
        intros q [Hq| ->%list_elem_of_singleton]%elem_of_app; [by apply Hsc|done].
      * rewrite Eb, unseen_spec by done. pose proof (unseen_spec h (sc ++ [p]) re) as Hu. rewrite last_snoc, <- app_assoc in Hu.
        simpl in Hu. rewrite Hu by done. rewrite length_cons. lia.
  - exists [], b. split_and!; try done. intros p []%elem_of_nil.
  - unfold unseen. rewrite Z.eqb_refl. destruct HL as [[_ Hnd]%NoDup_cons _].
    assert (b ⊆ ps) as Hsub by (intros p Hp; by apply Hb in Hp as [? _]).
    pose proof (submseteq_length _ _ (NoDup_submseteq _ _ Hnd Hsub)). pose proof (table_size _ _ Hok). lia.
Qed.

Lemma find_proc_self t ps p : table_ok t ps -> p ∈ ps -> find_proc (pid_of t p) t = Ok (Some p).
Proof.
  intros Ht Hp. destruct (find_proc_Ok t ps (pid_of t p) Ht) as ([q|] & E & Ho); rewrite E.
  - destruct Ho as [Hq Hpq]. f_equal. f_equal. by apply (tb_inj _ _ Ht).
  - by destruct (Ho p Hp).
Qed.

(** *** A new process *)

Lemma table_add t t' ps p n s B : table_ok t ps -> hash_ok t ps B -> p ∉ idleproc (pk t) :: ps -> 0 <= p ->
  1 <= n < MAX_PID -> n ∉ pids t ps -> n < s <= MAX_PID -> (forall q, q ∈ ps -> ~ (n <= pid_of t q < s)) ->
  Z.of_nat (length ps) < 8000 ->
  (forall q, fld pid t' q = if decide (q = p) then Some n else fld pid t q) ->
  dlist (proc_list t') proc_list_head (p :: ps) -> idleproc (pk t') = idleproc (pk t) ->
  dlist (hash_list t') (bucket (pid_hashfn n)) (p :: B (pid_hashfn n)) ->
  (forall i, 0 <= i < HASH_LIST_SIZE -> i <> pid_hashfn n -> dlist (hash_list t') (bucket i) (B i)) ->
  nr_process t' = s32 (nr_process t + 1) -> next_safe t' = s -> last_pid t' = n -> table_ok t' (p :: ps).
Proof.
  intros [[P1 P2 P3 P4 P5] Hinj _ Hnr [Hi1 Hi2] Hnn] [H1 H2] Hp Hp0 Hn Hnew Hs Hsafe Hlen Hf HL Hid HB HB' Hnr' Es El.
  assert (Hpid : forall q, pid_of t' q = if decide (q = p) then n else pid_of t q).
  { intros q. specialize (Hf q). unfold pid_of, fld in *. case_decide; destruct (procs (pk t') !! q), (procs (pk t) !! q);
      by simplify_eq/=. }
  assert (Hsome : forall q, is_Some (procs (pk t') !! q) <-> q = p \/ is_Some (procs (pk t) !! q)).
  { intros q. specialize (Hf q). unfold fld in Hf. destruct (decide (q = p)) as [->|Hne].
    - destruct (procs (pk t') !! p); [|done]. split; [by left|by eexists].
    - destruct (procs (pk t') !! q), (procs (pk t) !! q); simplify_eq/=;
        (split; [intros Hx; right; first [done|by destruct Hx]|intros [?|Hx]; [done|first [done|by destruct Hx]]]). }
  assert (Hpne : forall q, q ∈ ps -> q <> p) by set_solver.
  assert (Hold : forall q, q ∈ ps -> pid_of t' q = pid_of t q) by (intros q Hq; rewrite Hpid, decide_False; auto).
  assert (Hnq : forall q, q ∈ ps -> pid_of t q <> n).
  { intros q Hq <-. apply Hnew, list_elem_of_fmap. by exists q. }
  split; [split; rewrite ?Es, ?El|..].
  - exact HL.
  - intros q [->|Hq]%elem_of_cons; apply Hsome; [by left|right; by apply P2].
  - intros q [->|Hq]%elem_of_cons; [rewrite Hpid, decide_True by done; done|]. rewrite Hold by done. by apply P3.
  - lia.
  - intros q [->|Hq]%elem_of_cons; [rewrite Hpid, decide_True by done; lia|]. rewrite Hold by done.
    specialize (Hsafe q Hq). lia.
  - intros a b [->|Ha]%elem_of_cons [->|Hb]%elem_of_cons; [done|..].
    + rewrite Hpid, decide_True, Hold by done. intros E. by apply Hnq in Hb.
    + rewrite Hold, Hpid, decide_True by done. intros E. by apply Hnq in Ha.
    + rewrite !Hold by done. by apply Hinj.
  - exists (fun i => if decide (i = pid_hashfn n) then p :: B i else B i). split.
    + intros i Hi. case_decide as E; [by rewrite E|by apply HB'].
    + intros i q Hi. rewrite elem_of_cons, Hpid. pose proof (H2 i q Hi) as He. pose proof (Hpne q) as Hqp.
      case_decide as E; [rewrite elem_of_cons|]; case_decide as E2.
      * split; [|by left]. intros _. split; [by left|done].
      * rewrite He. split; [intros [?|?]; [done|tauto]|tauto].
      * rewrite He. split; [intros [Hq _]; by apply Hqp in Hq|intros [_ Hh]; congruence].
      * rewrite He. tauto.
  - rewrite Hnr', Hnr, s32_id by (unfold is_s32; lia). rewrite length_cons. lia.
  - rewrite Hid. split; [set_solver|]. apply Hsome. by right.
  - intros q [->|Hq]%Hsome; [done|by apply Hnn].
Qed.

(** A member of a bucket is not the head of another one. *)
Lemma bucket_inj i j : bucket i = bucket j -> i = j.
Proof. unfold bucket. lia. Qed.

Lemma hash_proc_Ok t ps B p pr : hash_ok t ps B -> p ∉ ps -> 0 <= p -> (forall q, q ∈ ps -> 0 <= q) ->
  procs (pk t) !! p = Some pr -> is_Some (hash_list t !! p) ->
  exists L, hash_proc p t = Ok (set_hash_list L t) /\
    dlist L (bucket (pid_hashfn (pid pr))) (p :: B (pid_hashfn (pid pr))) /\
    forall i, 0 <= i < HASH_LIST_SIZE -> i <> pid_hashfn (pid pr) -> dlist L (bucket i) (B i).
Proof.
  intros [H1 H2] Hp Hp0 Hnn Hpr Hn. unfold hash_proc, proc_at. rewrite (get_proc_Ok _ _ _ Hpr). cbn [rbind].
  set (h := pid_hashfn (pid pr)). pose proof (pid_hashfn_range (pid pr)) as Hr.
  assert (Hb : forall i, 0 <= i < HASH_LIST_SIZE -> forall q, q ∈ B i -> 0 <= q /\ q <> p).
  { intros i Hi q Hq. apply (H2 i q Hi) in Hq as [Hq _]. split; [by apply Hnn|by intros ->]. }
  destruct (list_add_after_dlist _ _ _ p (H1 _ Hr)) as (L & E & _ & HL & Hf); [|done|].
  { intros [E|Hin]%elem_of_cons; [unfold bucket in E; lia|]. by apply (Hb _ Hr) in Hin as [_ ?]. }
  unfold list_add. fold h in E, HL, Hf. rewrite E. cbn [rbind]. exists L. split; [done|]. split; [done|].
  intros i Hi Hne. eapply dlist_frame; [|by apply H1]. intros y Hy. apply Hf.
  intros [->|[->|Hy2]%elem_of_cons]%elem_of_cons.
  - apply elem_of_cons in Hy as [Hy%bucket_inj|Hy]; [done|]. apply (Hb i Hi) in Hy as [? _]. unfold bucket in *. unfold h in *. lia.
  - apply elem_of_cons in Hy as [Hy|Hy]; [unfold bucket in Hy; lia|]. by apply (Hb i Hi) in Hy as [_ ?].
  - apply elem_of_cons in Hy as [->|Hy].
    + apply (Hb _ Hr) in Hy2 as [? _]. unfold bucket in *. lia.
    + apply (H2 _ y Hi) in Hy as [_ Ey]. apply (H2 _ y Hr) in Hy2 as [_ Ey2]. unfold h in *. congruence.
Qed.

Lemma unhash_proc_Ok t ps B p : hash_ok t ps B -> p ∈ ps -> (forall q, q ∈ ps -> 0 <= q) ->
  exists L b1 b2, unhash_proc p t = Ok (set_hash_list L t) /\ B (pid_hashfn (pid_of t p)) = b1 ++ p :: b2 /\
    dlist L (bucket (pid_hashfn (pid_of t p))) (b1 ++ b2) /\
    forall i, 0 <= i < HASH_LIST_SIZE -> i <> pid_hashfn (pid_of t p) -> dlist L (bucket i) (B i).
Proof.
  intros [H1 H2] Hp Hnn. set (h := pid_hashfn (pid_of t p)). assert (Hr : 0 <= h < HASH_LIST_SIZE) by apply pid_hashfn_range.
  assert (p ∈ B h) as Hin by (apply H2; [done|]; done). apply list_elem_of_split in Hin as (b1 & b2 & Eb).
  pose proof (H1 h Hr) as HL. rewrite Eb in HL. destruct (list_del_mid _ _ _ _ _ HL) as (L & E & _ & HL' & Hf).
  unfold unhash_proc. rewrite E. cbn [rbind]. exists L, b1, b2. split; [done|]. split; [done|]. split; [done|].
  intros i Hi Hne. eapply dlist_frame; [|by apply H1]. intros y Hy. apply Hf. intros Hy2.
  assert (Hb : forall q j, 0 <= j < HASH_LIST_SIZE -> q ∈ B j -> 0 <= q) by (intros q j Hj Hq; apply (H2 j q Hj) in Hq as [? _]; by apply Hnn).
  assert (Hy3 : y = bucket h \/ y ∈ B h) by (rewrite Eb; set_solver).
  apply elem_of_cons in Hy as [->|Hy].
  - destruct Hy3 as [E3%bucket_inj|Hy3]; [done|]. apply (Hb _ h Hr) in Hy3. unfold bucket in *. lia.
  - destruct Hy3 as [->|Hy3]; [apply (Hb _ i Hi) in Hy; unfold bucket in *; lia|].
    apply (H2 i y Hi) in Hy as [_ Ey]. apply (H2 h y Hr) in Hy3 as [_ Ey2]. congruence.
Qed.

(** A process leaves the lists. *)
Lemma table_remove t t' l1 p l2 B b1 b2 : table_ok t (l1 ++ p :: l2) -> hash_ok t (l1 ++ p :: l2) B ->
  (forall q, procs (pk t') !! q = None <-> q = p \/ procs (pk t) !! q = None) ->
  (forall q, q <> p -> fld pid t' q = fld pid t q) ->
  dlist (proc_list t') proc_list_head (l1 ++ l2) -> idleproc (pk t') = idleproc (pk t) ->
  B (pid_hashfn (pid_of t p)) = b1 ++ p :: b2 -> dlist (hash_list t') (bucket (pid_hashfn (pid_of t p))) (b1 ++ b2) ->
  (forall i, 0 <= i < HASH_LIST_SIZE -> i <> pid_hashfn (pid_of t p) -> dlist (hash_list t') (bucket i) (B i)) ->
  nr_process t' = s32 (nr_process t - 1) -> next_safe t' = next_safe t -> last_pid t' = last_pid t -> table_ok t' (l1 ++ l2).
Proof.
  intros Ht [H1 H2] Hn Hf HL Hid Eb HB HB' Hnr' Es El. pose proof (table_size _ _ Ht) as Hsz.
  destruct Ht as [[[Hnd _] P2 P3 P4 P5] Hinj _ Hnr [Hi1 Hi2] Hnn].
  apply NoDup_cons in Hnd as [_ Hnd].
  assert (Hnd' := Hnd). apply NoDup_app in Hnd' as (_ & Hd & [Hp2 _]%NoDup_cons).
  assert (Hne : forall q, q ∈ l1 ++ l2 -> q <> p).
  { intros q Hq ->. apply elem_of_app in Hq as [Hq|Hq]; [apply (Hd p Hq); by left|done]. }
  assert (Hin : forall q, q ∈ l1 ++ l2 -> q ∈ l1 ++ p :: l2) by set_solver.
  assert (Hpid : forall q, q <> p -> pid_of t' q = pid_of t q).
  { intros q Hq. specialize (Hf q Hq). unfold pid_of, fld in *. destruct (procs (pk t') !! q), (procs (pk t) !! q); by simplify_eq/=. }
  assert (Hsome : forall q, is_Some (procs (pk t') !! q) <-> q <> p /\ is_Some (procs (pk t) !! q)).
  { intros q. rewrite <- !not_eq_None_Some, Hn. tauto. }
  split; [split; rewrite ?Es, ?El|..].
  - exact HL.
  - intros q Hq. apply Hsome. auto.
  - intros q Hq. rewrite Hpid by auto. auto.
  - done.
  - intros q Hq. rewrite Hpid by auto. auto.
  - intros a b Ha Hb. rewrite !Hpid by auto. auto.
  - exists (fun i => if decide (i = pid_hashfn (pid_of t p)) then b1 ++ b2 else B i). split.
    + intros i Hi. case_decide as E; [by rewrite E|by apply HB'].
    + intros i q Hi. pose proof (H2 i q Hi) as He. case_decide as E.
      * subst i. rewrite Eb in He. pose proof (H1 _ Hi) as [Hb _]. rewrite Eb in Hb. apply NoDup_cons in Hb as [_ Hb].
        apply NoDup_app in Hb as (_ & Hbd & [Hb2 _]%NoDup_cons). split.
        -- intros Hq. assert (q <> p) by (intros ->; apply elem_of_app in Hq as [Hq|Hq]; [apply (Hbd p Hq); by left|done]).
           rewrite Hpid by done. assert (q ∈ b1 ++ p :: b2) as Hq' by set_solver. apply He in Hq' as [Hq' Eq]. split; [set_solver|done].
        -- intros [Hq Eq]. rewrite Hpid in Eq by auto. assert (q ∈ b1 ++ p :: b2) as Hq' by (apply He; auto). pose proof (Hne q Hq). set_solver.
      * rewrite He. split.
        -- intros [Hq Eq]. assert (q <> p) by (intros ->; congruence). rewrite Hpid by done. split; [set_solver|done].
        -- intros [Hq Eq]. rewrite Hpid in Eq by auto. auto.
  - rewrite Hnr', Hnr, s32_id; rewrite length_app, length_cons in *; rewrite ?length_app; unfold is_s32; lia.
  - rewrite Hid. split; [set_solver|]. apply Hsome. split; [|done]. intros E. rewrite E in Hi1. set_solver.
  - intros q [_ Hq]%Hsome. by apply Hnn.
Qed.
