(* ===== verification/ProcLife.v ===== *)
(** * The life of a process: fork, exit, wait

    The operations of [Proc] preserve the invariants of [ProcInv] and of the
    scheduler, for every scheduling class. *)
From S2P Require Import Prelude DList Kern Sched Proc ProcInv.

Section exec.
Context `{SC : sched_class} (repr : kern -> list Z -> Prop) (put : list Z -> Z -> list Z) (pick : list Z -> option Z).
Context `{!SchedClassLaws SC repr put pick}.

(** The memory of a new process, before it is registered. *)
Record fresh_proc (t : ptable) (ps : list Z) (p par : Z) (pr : proc_struct) : Prop := {
  fp_proc : procs (pk t) !! p = Some pr;
  fp_out : p ∉ idleproc (pk t) :: ps;
  fp_state : state pr = PROC_UNINIT /\ cptr pr = None;
  fp_parent : parent pr = Some par /\ par ∈ idleproc (pk t) :: ps;
  fp_links : is_Some (proc_list t !! p) /\ is_Some (hash_list t !! p)
}.

Lemma family_frame ex t t' ps kids : family_upto ex t ps kids -> idleproc (pk t') = idleproc (pk t) ->
  (forall q, q ∈ idleproc (pk t) :: ps ->
    fld cptr t' q = fld cptr t q /\ fld yptr t' q = fld yptr t q /\ fld optr t' q = fld optr t q /\ fld parent t' q = fld parent t q) ->
  family_upto ex t' ps kids.
Proof.
  intros [Hk He Hp] Hi Hf.
  assert (Hpar : forall q, q ∈ ps -> fld parent t' q = fld parent t q) by (intros q Hq; apply Hf; by right). split; rewrite Hi.
  - intros p Hin. destruct (Hk p Hin) as (y & (Hnd & Hc & Hch) & Hy). exists y. split; [|done]. split; [done|].
    destruct (Hf p Hin) as (-> & _). split; [done|]. eapply chain_frame; [|exact Hch]. intros x Hx.
    apply (He p x Hin) in Hx as [Hx _]. destruct (Hf x) as (_ & -> & -> & _); [by right|done].
  - intros p q Hin. rewrite (He p q Hin). split; intros [Hq E]; (split; [done|]); [by rewrite Hpar|by rewrite Hpar in E].
  - intros q Hq. rewrite Hpar by done. by apply Hp.
Qed.

(** What registering [p] below [par] with the pid [n] does. *)
Record registered (t t' : ptable) (ps : list Z) (p par n : Z) : Prop := {
  rg_pid : 1 <= n < MAX_PID /\ (n ∉ pids t ps) /\ pid_of t' p = n;
  rg_table : ptable_ok t' (p :: ps);
  rg_sched : exists l', sched_ok repr (pk t') l';
  rg_run : runnable (pk t') p /\ fld wait_state t' p = Some 0;
  rg_links : fld cptr t' par = Some (Some p) /\ fld parent t' p = Some (Some par);
  rg_others : forall q, q <> p -> fld (fun pr => (state pr, wait_state pr)) t' q = fld (fun pr => (state pr, wait_state pr)) t q;
  rg_cptr : forall q, q <> par -> fld cptr t' q = fld cptr t q;
  rg_parent : forall q, fld parent t' q = fld parent t q;
  rg_fields : forall A (g : proc_struct -> A) q, (forall x, g (set_pid n x) = g x) -> (forall x, g (unlinked x) = g x) ->
    (forall x, g (core x) = g x) -> fld g t' q = fld g t q;
  rg_rest : current (pk t') = current (pk t) /\ idleproc (pk t') = idleproc (pk t) /\ initproc (pk t') = initproc (pk t)
}.

Lemma same_at_fld k' t q : same_proc_at (pk t) k' q ->
  fld (fun pr => (state pr, wait_state pr)) (set_pk k' t) q = fld (fun pr => (state pr, wait_state pr)) t q.
Proof.
  unfold same_proc_at, fld. cbn [pk set_pk]. destruct (procs (pk t) !! q), (procs k' !! q); try done. by intros (? & ? & ? & ? & ->).
Qed.

Lemma fork_register_Ok t ps l p par pr : ptable_ok t ps -> sched_ok repr (pk t) l -> Z.of_nat (length ps) < MAX_PROCESS ->
  fresh_proc t ps p par pr ->
  exists n t', fork_register p t = Ok (n, t') /\ registered t t' ps p par n.
Proof.
  intros [Ht (kids & Hfam)] Hok Hlen [Hpr Hout [Hst Hc] [Hpp Hpar] [Hn1 Hn2]].
  pose proof (tb_nonneg _ _ Ht) as Hnn. assert (Hp0 : 0 <= p) by (apply Hnn; by eexists).
  assert (Hpsnn : forall q, q ∈ ps -> 0 <= q) by (intros q Hq; apply Hnn, (po_procs _ _ (tb_pids _ _ Ht)), Hq).
  change MAX_PROCESS with 4096 in Hlen.
  destruct (get_pid_Ok t ps (tb_pids _ _ Ht)) as (n & s & E & Hn & Hnew & Hs & Hsafe); [lia|].
  unfold fork_register. rewrite E. cbn [rbind]. clear E.
  set (t2 := set_pk (set_procs (<[p := set_pid n pr]> (procs (pk t))) (pk t)) (set_pids s n t)).
  assert (change p (set_pid n) (set_pids s n t) = Ok t2) as ->.
  { unfold change. cbn [pk set_pids]. by rewrite (upd_proc_Ok _ _ _ _ Hpr). }
  cbn [rbind]. assert (Hp2 : procs (pk t2) !! p = Some (set_pid n pr)) by (cbn; by rewrite lookup_insert_eq).
  assert (Ho2 : forall q, q <> p -> procs (pk t2) !! q = procs (pk t) !! q) by (intros q Hq; cbn; by rewrite lookup_insert_ne).
  assert (Hf2 : forall A (g : proc_struct -> A) q, (forall x, g (set_pid n x) = g x) -> fld g t2 q = fld g t q).
  { intros A g q Hg. unfold fld. destruct (decide (q = p)) as [->|]; [by rewrite Hp2, Hpr; simpl; rewrite Hg|by rewrite Ho2]. }
  destruct (tb_hash _ _ Ht) as (B & HB).
  assert (HB2 : hash_ok t2 ps B).
  { destruct HB as [H1 H2]. split; [done|]. intros i q Hi. rewrite (H2 i q Hi). unfold pid_of.
    split; intros [Hq Eq]; (split; [done|]); [rewrite Ho2|rewrite Ho2 in Eq]; (done || set_solver). }
  destruct (hash_proc_Ok t2 ps B p (set_pid n pr) HB2) as (L & E & HL1 & HL2); [set_solver|done..|]. rewrite E. cbn [rbind]. clear E.
  cbn [pid set_pid] in HL1, HL2. set (t3 := set_hash_list L t2).
  assert (Hpne : p <> par) by (intros ->; done).
  assert (Hcpar : fld cptr t3 par = Some (head (kids par))).
  { change (fld cptr t3 par) with (fld cptr t2 par). rewrite Hf2 by done.
    destruct (fo_kids _ _ _ _ Hfam par Hpar) as (y & (_ & Hx & _) & _). done. }
  assert (Hp3 : fld parent t3 p = Some (Some par)) by (apply fld_Some; exists (set_pid n pr); done).
  destruct (set_links_Ok t3 ps p par (head (kids par))) as (t4 & L4 & E & Hr & HL4); try done.
  { apply (po_list _ _ (tb_pids _ _ Ht)). }
  { intros [->|Hin]%elem_of_cons; [done|]. set_solver. }
  { intros x Hx. change (is_Some (procs (pk t2) !! x)). assert (x ∈ kids par) as Hin by (destruct (kids par); [done|]; injection Hx as ->; by left).
    apply (fo_elem _ _ _ _ Hfam par x Hpar) in Hin as [Hin _]. rewrite Ho2 by set_solver. by apply (po_procs _ _ (tb_pids _ _ Ht)). }
  rewrite E. cbn [rbind]. clear E. set (t5 := set_nr_process _ t4).
  assert (Hkid : idleproc (pk t4) = idleproc (pk t) /\ current (pk t4) = current (pk t) /\ initproc (pk t4) = initproc (pk t)) by (rewrite (rl_kern _ _ _ Hr); done).
  assert (Hfam4 : family_upto None t4 (p :: ps) (fun q => if decide (q = par) then p :: kids par else if decide (q = p) then [] else kids q)).
  { eapply (family_link (set_proc_list L4 t3)); [|exact Hout|exact Hpar| | |exact Hr].
    - eapply (family_frame None t); [exact Hfam|done|].
      intros q _. split_and!; by apply Hf2.
    - done.
    - apply fld_Some. exists (set_pid n pr). done. }
  assert (Hs4 : forall A (g : proc_struct -> A) q, (forall x, g (unlinked x) = g x) -> fld g t4 q = fld g t2 q).
  { intros A g q Hg. unfold fld. rewrite (rl_proc _ _ _ Hr). change (pk (set_proc_list L4 t3)) with (pk t2).
    destruct (procs (pk t2) !! q) as [x|]; [|done]. simpl. f_equal. rewrite <- Hg, <- (Hg x). f_equal.
    unfold link_fields, at_proc, at_opt. repeat case_decide; done. }
  assert (Hok4 : sched_ok repr (pk t4) l).
  { eapply (sched_ok_frame repr put pick (pk t)); [exact Hok|by rewrite (rl_kern _ _ _ Hr)|]. intros q.
    change (fld (fun pr => (rq pr, state pr)) t4 q = fld (fun pr => (rq pr, state pr)) t q). rewrite Hs4 by done. by apply Hf2. }
  assert (exists pr4, procs (pk t4) !! p = Some pr4 /\ state pr4 = PROC_UNINIT) as (pr4 & Hp4 & Hst4).
  { apply fld_Some. rewrite Hs4 by done. rewrite Hf2 by done. apply fld_Some. by exists pr. }
  destruct (wakeup_Ok repr put pick (pk t4) l p pr4 Hok4 Hp4) as (k' & l' & E & Hok' & Hc' & Hi' & Hrun & _ & Hsame & Hcore & Hini & Hws);
    [by rewrite Hst4|].
  change (pk t5) with (pk t4). rewrite E. cbn [rbind]. clear E.
  assert (Hpid : forall q, fld pid (set_pk k' t5) q = if decide (q = p) then Some n else fld pid t q).
  { intros q. rewrite core_fld by done. change (fld pid t5 q) with (fld pid t4 q). rewrite Hs4 by done. unfold fld.
    case_decide as Hq; [subst q; by rewrite Hp2|by rewrite Ho2]. }
  assert (exists pr6, procs k' !! p = Some pr6 /\ pid pr6 = n) as (pr6 & Hp6 & Hn6).
  { apply (proj1 (fld_Some pid (set_pk k' t5) p n)). by rewrite Hpid, decide_True. }
  unfold proc_at. cbn [pk set_pk]. rewrite (get_proc_Ok _ _ _ Hp6). cbn [rbind]. rewrite Hn6.
  exists n, (set_pk k' t5). split; [done|].
  destruct (rl_rest _ _ _ Hr) as (Er1 & Er2 & Er3 & Er4 & Er5).
  assert (Hpar6 : forall q, fld parent (set_pk k' t5) q = fld parent t q).
  { intros q. rewrite core_fld by done. change (fld parent t5 q) with (fld parent t4 q). rewrite <- (Hf2 _ parent) by done.
    change (fld parent t2 q) with (fld parent (set_proc_list L4 t3) q). eapply relinked_fld; [exact Hr|]. intros x _. unfold link_fields, at_proc, at_opt. repeat case_decide; done. }
  split.
  - split; [done|]. split; [done|]. unfold pid_of. cbn [pk set_pk]. by rewrite Hp6.
  - split.
    + eapply table_add; [exact Ht|exact HB|exact Hout|exact Hp0|exact Hn|exact Hnew|exact Hs|exact Hsafe|lia|exact Hpid|..];
        cbn [proc_list hash_list nr_process next_safe last_pid pk set_pk set_nr_process t5]; rewrite ?Er1, ?Er2, ?Er3, ?Er4, ?Er5; try done.
      rewrite Hi'. apply Hkid.
    + eexists. apply (family_kern None t5); [|done|done]. by eapply (family_frame None t4); [exact Hfam4|..].
  - by exists l'.
  - split; [done|]. destruct Hws as [->|Hws]; [|exact Hws]. destruct Hrun as (x & Ex & Er). rewrite Hp4 in Ex. injection Ex as <-.
    by rewrite Hst4 in Er.
  - split; [|by rewrite Hpar6; apply fld_Some; exists pr]. rewrite core_fld by done.
    destruct (fo_kids _ _ _ _ Hfam4 par) as (y & (_ & Hx & _) & _); [destruct Hkid as [-> _]; set_solver|].
    rewrite decide_True in Hx by done. exact Hx.
  - intros q Hq. rewrite (same_at_fld k' t5 q) by (by apply Hsame). change (fld (fun pr => (state pr, wait_state pr)) t5 q) with (fld (fun pr => (state pr, wait_state pr)) t4 q).
    rewrite Hs4 by done. by apply Hf2.
  - intros q Hq. rewrite core_fld by done. change (fld cptr t5 q) with (fld cptr t4 q). rewrite <- (Hf2 _ cptr) by done.
    change (fld cptr t2 q) with (fld cptr (set_proc_list L4 t3) q). eapply relinked_fld; [exact Hr|]. intros x _. unfold link_fields, at_proc, at_opt. rewrite (decide_False _ _ Hq). repeat case_decide; done.
  - exact Hpar6.
  - intros A g q G1 G2 G3. rewrite core_fld by done. change (fld g t5 q) with (fld g t4 q). rewrite Hs4 by done. by apply Hf2.
  - cbn [pk set_pk]. rewrite Hc', Hi', Hini. destruct Hkid as (? & ? & ?). done.
Qed.

(** *** Waking a process up *)

Definition awake_ok (t : ptable) : Prop := forall p pr, procs (pk t) !! p = Some pr -> state pr <> PROC_SLEEPING -> wait_state pr = 0.
Definition childless (t : ptable) (ps : list Z) (ex : option Z) : Prop := forall p pr, p ∈ ps -> ex <> Some p ->
  procs (pk t) !! p = Some pr -> state pr = PROC_ZOMBIE -> cptr pr = None.

Lemma table_kern t ps k' : table_ok t ps -> same_cores (pk t) k' -> idleproc k' = idleproc (pk t) -> table_ok (set_pk k' t) ps.
Proof. intros Ht Hs Hi. eapply table_ok_frame; [exact Ht|intros q; by apply core_fld|done..]. Qed.

Record woken (t t' : ptable) (x : Z) : Prop := {
  wk_rest : exists k', t' = set_pk k' t /\ same_cores (pk t) k' /\ idleproc k' = idleproc (pk t) /\
    initproc k' = initproc (pk t) /\ current k' = current (pk t);
  wk_sched : exists l, sched_ok repr (pk t') l;
  wk_run : runnable (pk t') x;
  wk_others : forall q, q <> x -> same_proc_at (pk t) (pk t') q
}.

Lemma same_at_fields k k' q pr' : same_proc_at k k' q -> procs k' !! q = Some pr' ->
  exists pr, procs k !! q = Some pr /\ state pr = state pr' /\ wait_state pr = wait_state pr'.
Proof.
  unfold same_proc_at. intros H E. rewrite E in H. destruct (procs k !! q) as [pr|]; [|done].
  destruct H as (n & r & rn & ts & ->). by exists pr.
Qed.

Lemma core_lookup k k' q pr' : same_cores k k' -> procs k' !! q = Some pr' -> exists pr, procs k !! q = Some pr /\ core pr' = core pr.
Proof. intros H E. specialize (H q). rewrite E in H. destruct (procs k !! q) as [pr|]; [|done]. exists pr. simpl in H. split; congruence. Qed.

Lemma wake_Ok t l x pr ps ex : sched_ok repr (pk t) l -> procs (pk t) !! x = Some pr -> state pr <> PROC_ZOMBIE ->
  awake_ok t -> childless t ps ex ->
  exists t', on_kern (wakeup_proc x) t = Ok t' /\ woken t t' x /\ awake_ok t' /\ childless t' ps ex.
Proof.
  intros Hok Hx Hz Haw Hch. unfold on_kern.
  destruct (wakeup_Ok repr put pick _ l x pr Hok Hx Hz) as (k' & l' & E & Hok' & Hc & Hi & Hrun & _ & Hsame & Hcore & Hini & Hw).
  rewrite E. cbn [rbind]. exists (set_pk k' t). split; [done|]. split; [|split].
  - split; [by exists k'|by exists l'|done|done].
  - intros q prq Hq Hs. cbn [pk set_pk] in Hq. destruct (decide (q = x)) as [->|Hne].
    + destruct Hw as [->|Hw]; [by eapply Haw|]. rewrite Hq in Hw. by injection Hw.
    + destruct (same_at_fields _ _ _ _ (Hsame q Hne) Hq) as (prq' & Hq' & Es & Ew). rewrite <- Ew.
      apply (Haw q prq' Hq'). congruence.
  - intros q prq Hin Hex Hq Hs. cbn [pk set_pk] in Hq. destruct (decide (q = x)) as [->|Hne].
    + destruct Hrun as (prx & Ex & Hr). rewrite Hq in Ex. injection Ex as <-. by rewrite Hs in Hr.
    + destruct (same_at_fields _ _ _ _ (Hsame q Hne) Hq) as (prq' & Hq' & Es & _).
      destruct (core_lookup _ _ _ _ Hcore Hq) as (prq'' & Hq'' & Ec). rewrite Hq' in Hq''. injection Hq'' as <-.
      change (cptr prq) with (cptr (core prq)). rewrite Ec. apply (Hch q prq'); congruence.
Qed.

(** *** Exit *)

(** The state of the loop that hands the children of [cur] over. *)
Record exit_inv (t : ptable) (ps : list Z) (kids : Z -> list Z) (cur ini : Z) : Prop := {
  ei_table : table_ok t ps;
  ei_family : family_upto (Some cur) t ps kids;
  ei_sched : exists l, sched_ok repr (pk t) l;
  ei_cur : current (pk t) = cur /\ initproc (pk t) = ini /\ cur ∈ ps /\ ini ∈ ps /\ cur <> ini /\ cur <> idleproc (pk t);
  ei_ini : fld parent t ini = Some (Some (idleproc (pk t))) /\ fld state t ini <> Some PROC_ZOMBIE;
  ei_awake : awake_ok t;
  ei_childless : childless t ps (Some cur)
}.

Lemma woken_fld {A} (g : proc_struct -> A) t t' x q : woken t t' x -> (forall pr, g (core pr) = g pr) -> fld g t' q = fld g t q.
Proof. intros [(k' & -> & Hc & _) _ _ _] Hg. by apply core_fld. Qed.

Lemma exit_wake t t' x ps kids cur ini : exit_inv t ps kids cur ini -> woken t t' x -> x <> cur -> awake_ok t' ->
  childless t' ps (Some cur) -> exit_inv t' ps kids cur ini.
Proof.
  intros [Ht Hf Hs Hc [Hi1 Hi2] _ _] Hw Hx Ha Hch. pose proof Hw as [(k' & -> & Hcore & Hid & Hini & Hcur) Hs' Hrun Ho].
  split; cbn [pk set_pk]; try done.
  - by apply table_kern.
  - by apply family_kern.
  - by rewrite Hcur, Hini, Hid.
  - rewrite Hid. split; [by rewrite core_fld|]. intros (pr & Hpr & Hz)%fld_Some. cbn [pk set_pk] in *.
    destruct (decide (ini = x)) as [->|Hne].
    + destruct Hrun as (pr' & E & Hr). rewrite Hpr in E. injection E as <-. by rewrite Hz in Hr.
    + destruct (same_at_fields _ _ _ _ (Ho ini Hne) Hpr) as (pr0 & E & Es & _). apply Hi2, fld_Some. exists pr0. split; [done|congruence].
Qed.

(** One child is handed over. *)
Lemma move_Ok t ps kids cur ini p rest : exit_inv t ps kids cur ini -> kids cur = p :: rest ->
  exists t1, relinked t t1 (move_fields cur ini p (head rest) (head (kids ini))) /\
    reparent_body t =
      (let! proc := proc_at p t1 in let! ipr := proc_at ini t1 in
       let! t := (if (state proc =? PROC_ZOMBIE) && (wait_state ipr =? WT_CHILD) then on_kern (wakeup_proc ini) t1 else Ok t1) in
       Ok (inl t)).
Proof.
  intros [Ht Hf _ (Hc & Hini & Hcps & Hips & Hne & Hci) [Hip _] _ _] Hk.
  assert (Hcin : cur ∈ idleproc (pk t) :: ps) by by right. assert (Hiin : ini ∈ idleproc (pk t) :: ps) by by right.
  destruct (fo_kids _ _ _ _ Hf cur Hcin) as (y & (_ & Hcc & Hch) & _). rewrite Hk in Hcc, Hch.
  destruct Hch as (_ & Hpo & _). apply fld_Some in Hcc as (cpr & Hcpr & Hcc). apply fld_Some in Hpo as (pr & Hpr & Hpo).
  destruct (fo_kids _ _ _ _ Hf ini Hiin) as (y' & (_ & Hic & _) & _). apply fld_Some in Hic as (ipr & Hipr & Hic).
  assert (Hpi : p <> ini).
  { intros ->. destruct (proj1 (fo_elem _ _ _ _ Hf cur ini Hcin)) as [_ E]; [rewrite Hk; by left|]. congruence. }
  assert (Hpc : p <> cur).
  { intros ->. destruct (proj1 (fo_elem _ _ _ _ Hf cur cur Hcin)) as [_ E]; [rewrite Hk; by left|].
    destruct (fo_parent _ _ _ _ Hf cur Hcps) as (b & E' & _ & Hb). congruence. }
  unfold reparent_body. rewrite Hc, Hini. unfold proc_at at 1. rewrite (get_proc_Ok _ _ _ Hcpr). cbn [rbind].
  rewrite Hcc. cbn [head]. unfold proc_at at 1. rewrite (get_proc_Ok _ _ _ Hpr). cbn [rbind]. rewrite Hpo.
  pose proof (relinked_refl t) as H0.
  destruct (relinked_change _ _ _ cur (set_cptr (head rest)) H0) as (t1 & -> & H1); [by eexists|]. cbn [rbind].
  destruct (relinked_change _ _ _ p (set_yptr None) H1) as (t2 & -> & H2); [by eexists|]. cbn [rbind].
  rewrite (relinked_at _ _ _ ini ipr H2 Hipr). cbn [rbind].
  assert (cptr (at_proc p (set_yptr None) ini (at_proc cur (set_cptr (head rest)) ini ipr)) = head (kids ini)) as ->.
  { unfold at_proc. rewrite !decide_False by done. done. }
  destruct (relinked_change _ _ _ p (set_optr (head (kids ini))) H2) as (t3 & -> & H3); [by eexists|]. cbn [rbind].
  destruct (relinked_change_opt _ _ _ (head (kids ini)) (set_yptr (Some p)) H3) as (t4 & -> & H4).
  { intros x Hx. assert (x ∈ kids ini) as Hin by (destruct (kids ini); [done|]; injection Hx as ->; by left).
    apply (fo_elem _ _ _ _ Hf ini x Hiin) in Hin as [Hin _]. by apply (po_procs _ _ (tb_pids _ _ Ht)). }
  cbn [rbind]. destruct (relinked_change _ _ _ p (set_parent (Some ini)) H4) as (t5 & -> & H5); [by eexists|]. cbn [rbind].
  destruct (relinked_change _ _ _ ini (set_cptr (Some p)) H5) as (t6 & -> & H6); [by eexists|]. cbn [rbind].
  exists t6. split; [exact H6|done].
Qed.

Lemma move_unlinked cur ini p nx c q pr : unlinked (move_fields cur ini p nx c q pr) = unlinked pr.
Proof. unfold move_fields, at_proc, at_opt. repeat case_decide; done. Qed.

(** Two processes tables with the same states. *)
Lemma awake_fld t t' : awake_ok t -> (forall q, fld (fun pr => (state pr, wait_state pr)) t' q = fld (fun pr => (state pr, wait_state pr)) t q) ->
  awake_ok t'.
Proof.
  intros Ha Hf q pr Hq Hs. specialize (Hf q). unfold fld in Hf. rewrite Hq in Hf.
  destruct (procs (pk t) !! q) as [pr0|] eqn:E; [|done]. injection Hf as E1 E2. rewrite E2. apply (Ha q pr0 E). congruence.
Qed.

(** What handing children over to [ini] does not change. *)
Record handed (t t' : ptable) (ini : Z) : Prop := {
  hn_keep : forall A (g : proc_struct -> A) q, (forall pr, g (unlinked pr) = g pr) -> (forall pr, g (core pr) = g pr) ->
    fld g t' q = fld g t q;
  hn_state : forall q, q <> ini -> fld state t' q = fld state t q;
  hn_run : forall q, runnable (pk t) q -> runnable (pk t') q;
  hn_idle : idleproc (pk t') = idleproc (pk t)
}.

Lemma runnable_fld t q : runnable (pk t) q <-> fld state t q = Some PROC_RUNNABLE.
Proof. unfold runnable. by rewrite fld_Some. Qed.

Lemma handed_refl t ini : handed t t ini.
Proof. done. Qed.

Lemma handed_trans t1 t2 t3 ini : handed t1 t2 ini -> handed t2 t3 ini -> handed t1 t3 ini.
Proof.
  intros [K1 S1 R1 I1] [K2 S2 R2 I2].
  split; [intros; by rewrite K2, K1|intros; by rewrite S2, S1|intros; by apply R2, R1|congruence].
Qed.

Lemma exit_step t ps kids cur ini p rest : exit_inv t ps kids cur ini -> kids cur = p :: rest ->
  exists t', reparent_body t = Ok (inl t') /\
    exit_inv t' ps (fun q => if decide (q = cur) then rest else if decide (q = ini) then p :: kids ini else kids q) cur ini /\
    handed t t' ini.
Proof.
  intros Hinv Hk. destruct (move_Ok _ _ _ _ _ _ _ Hinv Hk) as (t1 & Hr & ->).
  destruct Hinv as [Ht Hf (l & Hok) (Hc & Hini & Hcps & Hips & Hne & Hci) [Hip Hz] Ha Hch].
  assert (Hkeep : forall A (g : proc_struct -> A) q, (forall pr, g (unlinked pr) = g pr) -> fld g t1 q = fld g t q).
  { intros A g q. eapply relinked_keep; [exact Hr|]. intros. apply move_unlinked. }
  pose proof (rl_kern _ _ _ Hr) as Hkern. pose proof (rl_rest _ _ _ Hr) as (R1 & R2 & R3 & R4 & R5).
  assert (Hid : idleproc (pk t1) = idleproc (pk t)) by by rewrite Hkern.
  assert (H1 : exit_inv t1 ps (fun q => if decide (q = cur) then rest else if decide (q = ini) then p :: kids ini else kids q) cur ini).
  { split.
    - eapply table_ok_frame; [exact Ht|intros q; by apply Hkeep|done..].
    - eapply family_move; [exact Hf|done..| |exact Hk|exact Hr]. rewrite Hip. intros [= E]. done.
    - exists l. eapply (sched_ok_frame repr put pick (pk t)); [exact Hok|by rewrite Hkern|]. intros q. by apply (Hkeep _ (fun pr => (rq pr, state pr))).
    - rewrite Hid. split_and!; try done; by rewrite Hkern.
    - rewrite Hid, (Hkeep _ state) by done. split; [|done]. rewrite <- Hip. eapply relinked_fld; [exact Hr|]. intros pr Hpr.
      assert (ini <> p).
      { intros <-. destruct (proj1 (fo_elem _ _ _ _ Hf cur ini ltac:(by right))) as [_ E]; [rewrite Hk; by left|].
        rewrite Hip in E. by injection E. }
      unfold move_fields, at_proc, at_opt. repeat case_decide; done.
    - eapply awake_fld; [exact Ha|]. intros q. by apply Hkeep.
    - intros q pr Hq Hex Hpr Hs. destruct (decide (q = ini)) as [->|Hqi].
      + exfalso. apply Hz. rewrite <- (Hkeep _ state) by done. apply fld_Some. by exists pr.
      + pose proof (rl_proc _ _ _ Hr q) as E. rewrite Hpr in E. destruct (procs (pk t) !! q) as [pr0|] eqn:E0; [|done].
        injection E as E. assert (cptr pr = cptr pr0 /\ state pr = state pr0) as [-> Es].
        { rewrite E. unfold move_fields, at_proc, at_opt. repeat case_decide; simplify_eq/=; done. }
        apply (Hch q pr0); congruence. }
  assert (Hex : forall q, q ∈ ps -> exists pr, procs (pk t1) !! q = Some pr).
  { intros q Hq. apply (po_procs _ _ (tb_pids _ _ (ei_table _ _ _ _ _ H1)) q Hq). }
  assert (Hpps : p ∈ ps).
  { apply (fo_elem _ _ _ _ Hf cur p); [by right|]. rewrite Hk. by left. }
  destruct (Hex p Hpps) as [pr Hpr], (Hex ini Hips) as [ipr Hipr].
  unfold proc_at. rewrite (get_proc_Ok _ _ _ Hpr), (get_proc_Ok _ _ _ Hipr). cbn [rbind].
  destruct ((state pr =? PROC_ZOMBIE) && (wait_state ipr =? WT_CHILD)).
  - destruct (ei_sched _ _ _ _ _ H1) as [l1 Hok1].
    destruct (wake_Ok t1 l1 ini ipr ps (Some cur) Hok1 Hipr) as (t' & E & Hw & Ha' & Hch').
    { intros E. apply (proj2 (ei_ini _ _ _ _ _ H1)), fld_Some. by exists ipr. }
    { apply H1. } { apply H1. }
    rewrite E. cbn [rbind]. exists t'. split; [done|]. split; [by eapply exit_wake|].
    assert (Hst : forall q, q <> ini -> fld state t' q = fld state t q).
    { intros q Hq. rewrite <- (Hkeep _ state) by done. pose proof (wk_others _ _ _ Hw q Hq) as Ho. unfold same_proc_at in Ho. unfold fld.
      destruct (procs (pk t1) !! q), (procs (pk t') !! q); try done. by destruct Ho as (? & ? & ? & ? & ->). }
    split; [|done| |].
    + intros A g q Hg1 Hg2. rewrite (woken_fld g t1 t' ini q Hw Hg2). by apply Hkeep.
    + intros q Hq. destruct (decide (q = ini)) as [->|Hqi]; [apply Hw|]. apply runnable_fld. rewrite Hst by done. by apply runnable_fld.
    + destruct Hw as [(k' & -> & _ & Hi' & _) _ _ _]. by rewrite <- Hid.
  - cbn [rbind]. exists t1. split; [done|]. split; [done|].
    split; [intros A g q Hg1 _; by apply Hkeep|intros q _; by apply Hkeep| |done].
    intros q Hq. apply runnable_fld. rewrite Hkeep by done. by apply runnable_fld.
Qed.

(** All of them are, the youngest first. *)
Lemma exit_rounds cur ini ps cs : forall t kids, exit_inv t ps kids cur ini -> kids cur = cs ->
  exists t' kids', rounds (S (length cs)) reparent_body t = Ok (inr t') /\ exit_inv t' ps kids' cur ini /\
    kids' cur = [] /\ kids' ini = reverse cs ++ kids ini /\ (forall q, q <> cur -> q <> ini -> kids' q = kids q) /\
    handed t t' ini.
Proof.
  induction cs as [|p cs IH]; intros t kids Hinv Hk.
  - exists t, kids. split_and!; try done. cbn [rounds length]. unfold reparent_body.
    destruct Hinv as [_ Hf _ (Hc & _ & Hcps & _) _ _ _].
    destruct (fo_kids _ _ _ _ Hf cur) as (y & (_ & Hcc & _) & _); [by right|]. rewrite Hk in Hcc.
    apply fld_Some in Hcc as (pr & Hpr & Hcc). rewrite Hc. unfold proc_at. rewrite (get_proc_Ok _ _ _ Hpr). cbn [rbind].
    by rewrite Hcc.
  - destruct (exit_step _ _ _ _ _ _ _ Hinv Hk) as (t1 & E & Hinv1 & Hkeep1).
    pose proof (ei_cur _ _ _ _ _ Hinv) as (_ & _ & _ & _ & Hne & _).
    destruct (IH _ _ Hinv1) as (t' & kids' & E' & Hinv' & Hk1 & Hk2 & Hk3 & Hkeep2); [by rewrite decide_True|].
    exists t', kids'. split; [change (S (length (p :: cs))) with (S (S (length cs))); cbn [rounds]; rewrite E; cbn [rbind]; exact E'|].
    split; [done|]. split; [done|]. split; [|split].
    + rewrite Hk2, decide_False, decide_True by done. rewrite reverse_cons, <- app_assoc. done.
    + intros q Hq1 Hq2. rewrite Hk3, !decide_False by done. done.
    + by eapply handed_trans.
Qed.

(** *** The invariant of the process management *)

(** [base_ok] also holds while the running process gives up the processor. *)
Record base_ok (t : ptable) (ps : list Z) : Prop := {
  bo_table : ptable_ok t ps;
  bo_sched : exists l, sched_ok repr (pk t) l;
  bo_all : forall p, is_Some (procs (pk t) !! p) -> p ∈ idleproc (pk t) :: ps;
  bo_init : initproc (pk t) ∈ ps /\ fld parent t (initproc (pk t)) = Some (Some (idleproc (pk t))) /\
    fld state t (initproc (pk t)) <> Some PROC_ZOMBIE;
  bo_awake : awake_ok t;
  bo_childless : childless t ps None
}.
Record procs_ok (t : ptable) (ps : list Z) : Prop := {
  po_base : base_ok t ps;
  po_run : runnable (pk t) (current (pk t))
}.

Lemma runnable_is_Some k p : runnable k p -> is_Some (procs k !! p).
Proof. intros (pr & E & _). by eexists. Qed.

Lemma base_current t ps : base_ok t ps -> current (pk t) <> idleproc (pk t) -> current (pk t) ∈ ps.
Proof.
  intros Hb Hne. destruct (bo_sched _ _ Hb) as [l Hs]. pose proof (bo_all _ _ Hb _ (so_current _ _ _ Hs)) as H.
  by apply elem_of_cons in H as [?|?].
Qed.

(** Only scheduling fields change. *)
Lemma base_same t ps k' : base_ok t ps -> same_procs (pk t) k' -> (exists l, sched_ok repr k' l) ->
  idleproc k' = idleproc (pk t) -> initproc k' = initproc (pk t) -> base_ok (set_pk k' t) ps.
Proof.
  intros [[Ht (kids & Hf)] _ Hall (Hi1 & Hi2 & Hi3) Ha Hc] Hs Hok Hid Hini.
  assert (Hcore : same_cores (pk t) k') by (intros q; apply same_proc_core, Hs).
  assert (Hst : forall q, fld (fun pr => (state pr, wait_state pr)) (set_pk k' t) q = fld (fun pr => (state pr, wait_state pr)) t q).
  { intros q. unfold fld. cbn [pk set_pk]. specialize (Hs q). destruct (procs (pk t) !! q), (procs k' !! q); try done.
    by destruct Hs as (? & ? & ? & ? & ->). }
  assert (Hst' : forall q, fld state (set_pk k' t) q = fld state t q).
  { intros q. specialize (Hst q). unfold fld in *. destruct (procs (pk t) !! q), (procs (pk (set_pk k' t)) !! q); simpl in *; congruence. }
  split; cbn [pk set_pk]; rewrite ?Hid, ?Hini.
  - split; [by apply table_kern|]. exists kids. by apply family_kern.
  - done.
  - intros p Hp. apply Hall. by apply (same_procs_is_Some _ _ _ Hs).
  - split; [done|]. rewrite core_fld, Hst' by done. done.
  - by eapply awake_fld.
  - intros p pr Hp _ Hpr Hz. cbn [pk set_pk] in Hpr. destruct (core_lookup _ _ _ _ Hcore Hpr) as (pr0 & E & Ec).
    change (cptr pr) with (cptr (core pr)). rewrite Ec. apply (Hc p pr0); try done.
    specialize (Hst' p). unfold fld in Hst'. cbn [pk set_pk] in Hst'. rewrite Hpr, E in Hst'. simpl in Hst'. congruence.
Qed.

Lemma schedule_base t ps : base_ok t ps -> exists t' l', on_kern schedule t = Ok t' /\ procs_ok t' ps /\
  (exists k', t' = set_pk k' t /\ idleproc k' = idleproc (pk t) /\ initproc k' = initproc (pk t)) /\
  same_procs (pk t) (pk t') /\ sched_ok repr (pk t') l'.
Proof.
  intros Hb. destruct (bo_sched _ _ Hb) as [l Hok]. destruct (schedule_Ok repr put pick _ l Hok) as (k' & l' & E & Hsw).
  unfold on_kern. rewrite E. cbn [rbind]. exists (set_pk k' t), l'. split; [done|].
  destruct Hsw as [Hok' Hsame Hrun _ _ _ (Hi & Hini & _)]. split_and!; try done; [|by exists k'].
  split; [|done]. eapply base_same; eauto.
Qed.

(** The running process changes its state and what it waits for. *)
Lemma base_change t ps f : base_ok t ps -> current (pk t) <> idleproc (pk t) ->
  (forall pr, core (f pr) = core pr /\ rq (f pr) = rq pr) ->
  (forall pr, procs (pk t) !! current (pk t) = Some pr -> state (f pr) <> PROC_ZOMBIE /\ (state (f pr) <> PROC_SLEEPING -> wait_state (f pr) = 0)) ->
  exists t', change (current (pk t)) f t = Ok t' /\ base_ok t' ps /\ pk t' = set_procs (procs (pk t')) (pk t) /\
    procs (pk t') !! current (pk t) = f <$> procs (pk t) !! current (pk t).
Proof.
  intros [[Ht (kids & Hf)] (l & Hok) Hall (Hi1 & Hi2 & Hi3) Ha Hc] Hne Hfc Hfs.
  destruct (change_current_ok repr put pick _ l f Hok Hne) as (pr & Hpr & Hok'); [apply Hfc|]. set (c := current (pk t)) in *.
  unfold change. rewrite (upd_proc_Ok _ _ _ _ Hpr). cbn [rbind]. set (k' := set_procs _ (pk t)) in *.
  assert (Hl : forall q, procs k' !! q = if decide (q = c) then Some (f pr) else procs (pk t) !! q).
  { intros q. unfold k'. cbn [procs set_procs]. rewrite lookup_insert. case_decide; [subst; by rewrite decide_True|by rewrite decide_False]. }
  assert (Hcore : same_cores (pk t) k').
  { intros q. rewrite Hl. case_decide as Hq; [|done]. subst q. rewrite Hpr. simpl. by rewrite (proj1 (Hfc pr)). }
  destruct (Hfs pr Hpr) as [Hz Hw]. exists (set_pk k' t). split; [done|]. split; [|split; [done|]].
  2: { cbn [pk set_pk]. by rewrite Hl, decide_True, Hpr by done. }
  split; cbn [pk set_pk].
  - split; [by apply table_kern|]. exists kids. by apply family_kern.
  - by exists l.
  - intros p Hp. apply Hall. by apply (same_cores_is_Some _ _ _ Hcore).
  - split; [done|]. split; [by rewrite core_fld|]. change (fld state (set_pk k' t) (initproc (pk t)) <> Some PROC_ZOMBIE).
    unfold fld. cbn [pk set_pk]. rewrite Hl. case_decide; [simpl; congruence|done].
  - intros p pr0 Hp Hs. cbn [pk set_pk] in Hp. rewrite Hl in Hp. case_decide; [injection Hp as <-; by apply Hw|by eapply Ha].
  - intros p pr0 Hin Hex Hp Hs. cbn [pk set_pk] in Hp. rewrite Hl in Hp. case_decide; [injection Hp as <-; done|by eapply Hc].
Qed.

(** *** Exit, from the start *)

(** The exiting process becomes a zombie. *)
Lemma exit_mark t ps code : procs_ok t ps -> current (pk t) <> idleproc (pk t) -> current (pk t) <> initproc (pk t) ->
  exists t0 kids, let cur := current (pk t) in
    (let! t := change cur (set_state PROC_ZOMBIE) t in change cur (set_exit_code code) t) = Ok t0 /\
    relinked t t0 (at_proc cur (fun pr => set_exit_code code (set_state PROC_ZOMBIE pr))) /\
    family_upto None t ps kids /\ exit_inv t0 ps kids cur (initproc (pk t)).
Proof.
  intros [Hb Hrun] Hci Hcn. pose proof (base_current _ _ Hb Hci) as Hcps.
  destruct Hb as [[Ht (kids & Hf)] (l & Hok) Hall (Hi1 & Hi2 & Hi3) Ha Hc].
  pose proof (so_current _ _ _ Hok) as [pr Hpr]. set (c := current (pk t)) in *.
  destruct (relinked_change _ _ _ c (set_state PROC_ZOMBIE) (relinked_refl t)) as (t1 & E1 & H1); [by eexists|].
  destruct (relinked_change _ _ _ c (set_exit_code code) H1) as (t0 & E2 & H2); [by eexists|].
  assert (Hr : relinked t t0 (at_proc c (fun pr => set_exit_code code (set_state PROC_ZOMBIE pr)))).
  { split; [apply H2| |apply H2]. intros q. rewrite (rl_proc _ _ _ H2). unfold at_proc. destruct (procs (pk t) !! q); [|done]. simpl. by case_decide. }
  exists t0, kids. cbv zeta. rewrite E1. cbn [rbind]. split; [done|]. split; [done|]. split; [done|]. clear E1 E2 H1 H2 t1.
  pose proof (rl_rest _ _ _ Hr) as (R1 & R2 & R3 & R4 & R5). pose proof (rl_kern _ _ _ Hr) as Hk.
  assert (Hl : forall q, q <> c -> procs (pk t0) !! q = procs (pk t) !! q).
  { intros q Hq. rewrite (rl_proc _ _ _ Hr). unfold at_proc. destruct (procs (pk t) !! q); [|done]. simpl. by rewrite decide_False. }
  assert (Hlc : procs (pk t0) !! c = Some (set_exit_code code (set_state PROC_ZOMBIE pr))).
  { rewrite (rl_proc _ _ _ Hr), Hpr. unfold at_proc. simpl. by rewrite decide_True. }
  assert (Hkeep : forall A (g : proc_struct -> A) q, (forall x, g (set_exit_code code (set_state PROC_ZOMBIE x)) = g x) -> fld g t0 q = fld g t q).
  { intros A g q Hg. unfold fld. destruct (decide (q = c)) as [->|Hq]; [rewrite Hlc, Hpr; simpl; by rewrite Hg|by rewrite Hl]. }
  assert (Hid : idleproc (pk t0) = idleproc (pk t)) by by rewrite Hk.
  split.
  - eapply table_ok_frame; [exact Ht|intros q; by apply Hkeep|done..].
  - eapply (family_frame _ t); [|done|intros q _; split_and!; by apply Hkeep].
    destruct Hf as [Hkd He Hp]. split; [|done|done]. intros p Hp'. destruct (Hkd p Hp') as (y & Hch & Hy). exists y. split; [done|].
    intros _. by apply Hy.
  - exists l. eapply (sched_ok_current repr put pick (pk t)); [exact Hok|done|by rewrite Hk|exact Hl|]. fold c. by rewrite Hlc, Hpr.
  - rewrite Hid, Hk. done.
  - rewrite Hid, Hkeep by done. split; [done|]. unfold fld. rewrite Hl by done. exact Hi3.
  - intros p prp Hp Hs. destruct (decide (p = c)) as [->|Hq]; [|rewrite Hl in Hp by done; by eapply Ha].
    rewrite Hlc in Hp. injection Hp as <-. destruct Hrun as (pr' & E & Er). rewrite Hpr in E. injection E as <-.
    apply (Ha c pr Hpr). by rewrite Er.
  - intros p prp Hin Hex Hp Hs. rewrite Hl in Hp by congruence. by eapply (Hc p prp).
Qed.

(** The table part of [do_exit], once the process is marked. *)
Lemma exit_start t t0 code c par pr ppr : c = current (pk t) -> c <> idleproc (pk t) -> c <> initproc (pk t) ->
  (let! t := change c (set_state PROC_ZOMBIE) t in change c (set_exit_code code) t) = Ok t0 ->
  procs (pk t0) !! c = Some pr -> parent pr = Some par -> procs (pk t0) !! par = Some ppr ->
  do_exit_table code t =
    (let! t := (if wait_state ppr =? WT_CHILD then on_kern (wakeup_proc par) t0 else Ok t0) in loop reparent_body t).
Proof.
  intros -> Hci Hcn E Hc Hp Hpar. unfold do_exit_table. apply Z.eqb_neq in Hci as ->. apply Z.eqb_neq in Hcn as ->. cbn [orb].
  destruct (change (current (pk t)) (set_state PROC_ZOMBIE) t) as [t1|]; cbn [rbind] in *; [|discriminate].
  rewrite E. cbn [rbind]. unfold proc_at. rewrite (get_proc_Ok _ _ _ Hc). cbn [rbind]. rewrite Hp. cbn [rget rbind].
  rewrite (get_proc_Ok _ _ _ Hpar). cbn [rbind]. reflexivity.
Qed.

(** Its parent, if it waits, goes on. *)
Record exiting (t t1 : ptable) (ps : list Z) (kids : Z -> list Z) (par code : Z) : Prop := {
  ex_family : family_upto None t ps kids;
  ex_inv : exit_inv t1 ps kids (current (pk t)) (initproc (pk t));
  ex_parent : fld parent t (current (pk t)) = Some (Some par) /\ par <> current (pk t);
  ex_zombie : fld state t1 (current (pk t)) = Some PROC_ZOMBIE /\ fld exit_code t1 (current (pk t)) = Some code;
  ex_woken : fld wait_state t par = Some WT_CHILD -> runnable (pk t1) par;
  ex_dom : forall p, is_Some (procs (pk t1) !! p) -> is_Some (procs (pk t) !! p);
  ex_keep : forall A (g : proc_struct -> A) q, (forall x c, g (set_exit_code c x) = g x) -> (forall x, g (core x) = g x) -> fld g t1 q = fld g t q;
  ex_idle : idleproc (pk t1) = idleproc (pk t)
}.

Lemma exit_begin t ps code : procs_ok t ps -> current (pk t) <> idleproc (pk t) -> current (pk t) <> initproc (pk t) ->
  exists t1 kids par, do_exit_table code t = loop reparent_body t1 /\ exiting t t1 ps kids par code.
Proof.
  intros Hpo Hci Hcn. destruct (exit_mark t ps code Hpo Hci Hcn) as (t0 & kids & E0 & Hr & Hf & Hinv). cbv zeta in *.
  set (c := current (pk t)) in *. assert (Hcps : c ∈ ps) by apply (ei_cur _ _ _ _ _ Hinv).
  destruct (fo_parent _ _ _ _ Hf c Hcps) as (par & Hpar & Hparin & Hpc).
  destruct (proj1 (fld_Some parent t c (Some par)) Hpar) as (pr & Hpr & Hpp).
  assert (exists ppr, procs (pk t) !! par = Some ppr) as (ppr & Hppr).
  { destruct Hpo as [[[Ht _] _ _ _ _ _] _].
    apply elem_of_cons in Hparin as [->|Hin]; [apply (tb_idle _ _ Ht)|by apply (po_procs _ _ (tb_pids _ _ Ht))]. }
  assert (Hp0 : procs (pk t0) !! par = Some ppr).
  { rewrite (rl_proc _ _ _ Hr), Hppr. simpl. unfold at_proc. by rewrite decide_False. }
  assert (Hc0 : procs (pk t0) !! c = Some (set_exit_code code (set_state PROC_ZOMBIE pr))).
  { rewrite (rl_proc _ _ _ Hr), Hpr. simpl. unfold at_proc. by rewrite decide_True. }
  pose proof (exit_start t t0 code c par _ ppr eq_refl Hci Hcn E0 Hc0 Hpp Hp0) as Hstart.
  assert (Hkeep : forall A (g : proc_struct -> A) q, (forall x c, g (set_exit_code c x) = g x) -> (forall x, g (core x) = g x) -> fld g t0 q = fld g t q).
  { intros A g q Hg1 Hg2. eapply relinked_fld; [exact Hr|]. intros x _. unfold at_proc. case_decide; [|done]. by rewrite Hg1, <- Hg2, <- (Hg2 x). }
  assert (Hdom : forall p, is_Some (procs (pk t0) !! p) -> is_Some (procs (pk t) !! p)).
  { intros p. rewrite (rl_proc _ _ _ Hr). by rewrite fmap_is_Some. }
  assert (Hid : idleproc (pk t0) = idleproc (pk t)) by by rewrite (rl_kern _ _ _ Hr).
  destruct (Z.eqb_spec (wait_state ppr) WT_CHILD) as [Hw|Hw].
  - destruct (ei_sched _ _ _ _ _ Hinv) as [l Hok].
    destruct (wake_Ok t0 l par ppr ps (Some c) Hok Hp0) as (t1 & E & Hwk & Ha1 & Hc1); [|apply Hinv|apply Hinv|].
    { intros Ez. rewrite (ei_awake _ _ _ _ _ Hinv par ppr Hp0) in Hw by by rewrite Ez. done. }
    rewrite E in Hstart. cbn [rbind] in Hstart. exists t1, kids, par. split; [done|]. split; try done.
    + by eapply exit_wake.
    + fold c. split; [|rewrite (woken_fld exit_code t0 t1 par c Hwk) by done; unfold fld; by rewrite Hc0].
      destruct Hwk as [_ _ _ Ho]. specialize (Ho c ltac:(done)). unfold same_proc_at in Ho. unfold fld. rewrite Hc0 in Ho.
      destruct (procs (pk t1) !! c); [|done]. destruct Ho as (? & ? & ? & ? & ->). done.
    + intros _. apply Hwk.
    + intros p Hp. apply Hdom. destruct Hwk as [(k'' & -> & Hcore & _) _ _ _]. by apply (same_cores_is_Some _ _ _ Hcore).
    + intros A g q Hg1 Hg2. rewrite (woken_fld g t0 t1 par q Hwk) by done. by apply Hkeep.
    + destruct Hwk as [(k'' & -> & _ & Hi & _) _ _ _]. by rewrite <- Hid.
  - cbn [rbind] in Hstart. exists t0, kids, par. split; [done|]. split; try done.
    + split; unfold fld; fold c; by rewrite Hc0.
    + intros (pr0 & E & Ew)%fld_Some. congruence.
Qed.

Lemma family_all t ps kids cur : family_upto (Some cur) t ps kids -> kids cur = [] -> family_upto None t ps kids.
Proof.
  intros [Hk He Hp] Hc. split; [|done|done]. intros p Hin. exists None. split; [|done].
  destruct (Hk p Hin) as (y & (Hnd & Hcp & Hch) & Hy). split; [done|]. split; [done|].
  destruct (decide (cur = p)) as [->|Hne]; [by rewrite Hc|]. rewrite <- Hy; [done|congruence].
Qed.

Lemma exit_base t ps kids cur ini : exit_inv t ps kids cur ini -> kids cur = [] -> fld state t cur = Some PROC_ZOMBIE ->
  (forall p, is_Some (procs (pk t) !! p) -> p ∈ idleproc (pk t) :: ps) -> base_ok t ps.
Proof.
  intros [Ht Hf Hs (Hc & Hini & Hcps & Hips & Hne & Hci) [Hi1 Hi2] Ha Hch] Hk Hz Hall. split; try done.
  - split; [done|]. exists kids. by eapply family_all.
  - by rewrite Hini.
  - intros p pr Hp _ Hpr Hst. destruct (decide (p = cur)) as [->|Hpc]; [|apply (Hch p pr); congruence].
    destruct (fo_kids _ _ _ _ Hf cur) as (y & (_ & Hcp & _) & _); [by right|]. rewrite Hk in Hcp.
    apply fld_Some in Hcp as (pr' & E & Ec). rewrite Hpr in E. injection E as <-. exact Ec.
Qed.

(** What [do_exit] leaves behind. *)
Record exited (t t' : ptable) (ps : list Z) (kids kids' : Z -> list Z) (code : Z) : Prop := {
  xt_before : family_upto None t ps kids;
  xt_after : family_upto None t' ps kids';
  xt_kids : kids' (current (pk t)) = [] /\ kids' (initproc (pk t)) = reverse (kids (current (pk t))) ++ kids (initproc (pk t)) /\
    forall q, q <> current (pk t) -> q <> initproc (pk t) -> kids' q = kids q;
  xt_zombie : fld state t' (current (pk t)) = Some PROC_ZOMBIE /\ fld exit_code t' (current (pk t)) = Some code;
  xt_parent : forall par, fld parent t (current (pk t)) = Some (Some par) -> fld wait_state t par = Some WT_CHILD ->
    runnable (pk t') par
}.

Lemma same_procs_fld {A} (g : proc_struct -> A) t k' q : same_procs (pk t) k' ->
  (forall x n r rn ts, g (set_need_resched n (set_rq r (set_runs rn (set_time_slice ts x)))) = g x) -> fld g (set_pk k' t) q = fld g t q.
Proof.
  intros Hs Hg. unfold fld. cbn [pk set_pk]. specialize (Hs q). destruct (procs (pk t) !! q), (procs k' !! q); try done.
  destruct Hs as (n & r & rn & ts & ->). simpl. by rewrite Hg.
Qed.

Lemma exit_Ok t ps code : procs_ok t ps -> current (pk t) <> idleproc (pk t) -> current (pk t) <> initproc (pk t) ->
  exists t1 t' kids kids', do_exit_table code t = Ok t1 /\ on_kern schedule t1 = Ok t' /\ procs_ok t' ps /\
    exited t t' ps kids kids' code.
Proof.
  intros Hpo Hci Hcn. destruct (exit_begin t ps code Hpo Hci Hcn) as (t0 & kids & par & E & Hex).
  pose proof (ex_inv _ _ _ _ _ _ Hex) as Hinv.
  destruct (exit_rounds _ _ _ _ _ _ Hinv eq_refl) as (t1 & kids' & El & Hinv' & Hk1 & Hk2 & Hk3 & Hkeep).
  set (c := current (pk t)) in *. set (ini := initproc (pk t)) in *.
  assert (Hlen : Z.of_nat (S (length (kids c))) <= 4294967296).
  { destruct (fo_kids _ _ _ _ (ei_family _ _ _ _ _ Hinv) c) as (y & (Hnd & _) & _); [right; apply Hinv|].
    assert (kids c ⊆ ps) as Hsub.
    { intros q Hq. apply (fo_elem _ _ _ _ (ei_family _ _ _ _ _ Hinv) c q) in Hq as [? _]; [done|right; apply Hinv]. }
    pose proof (submseteq_length _ _ (NoDup_submseteq _ _ Hnd Hsub)). pose proof (table_size _ _ (ei_table _ _ _ _ _ Hinv)). lia. }
  rewrite (loop_rounds _ _ _ _ El Hlen) in E.
  assert (Hz : fld state t1 c = Some PROC_ZOMBIE /\ fld exit_code t1 c = Some code).
  { destruct (ex_zombie _ _ _ _ _ _ Hex) as [H1 H2]. rewrite (hn_state _ _ _ Hkeep) by done. by rewrite (hn_keep _ _ _ Hkeep). }
  assert (Hb : base_ok t1 ps).
  { eapply exit_base; [exact Hinv'|exact Hk1|apply Hz|]. intros p Hp.
    rewrite (hn_idle _ _ _ Hkeep), (ex_idle _ _ _ _ _ _ Hex). apply (bo_all _ _ (po_base _ _ Hpo)), (ex_dom _ _ _ _ _ _ Hex).
    apply (fld_is_Some pid). rewrite <- (hn_keep _ _ _ Hkeep) by done. by apply fld_is_Some. }
  destruct (schedule_base t1 ps Hb) as (t' & l' & Es & Hpo' & (k' & -> & Hi & _) & Hsame & _).
  exists t1, (set_pk k' t1), kids, kids'. split; [done|]. split; [done|]. split; [done|]. split.
  - apply (ex_family _ _ _ _ _ _ Hex).
  - apply family_kern; [|intros q; apply same_proc_core, Hsame|].
    + eapply family_all; [apply (ei_family _ _ _ _ _ Hinv')|exact Hk1].
    + done.
  - done.
  - fold c. by rewrite !(same_procs_fld _ _ _ _ Hsame).
  - fold c. intros par' Hp Hw. destruct (ex_parent _ _ _ _ _ _ Hex) as [Hpar _]. fold c in Hpar. rewrite Hp in Hpar. injection Hpar as ->.
    apply runnable_fld. rewrite (same_procs_fld state _ _ _ Hsame) by done. apply runnable_fld.
    apply (hn_run _ _ _ Hkeep). by apply (ex_woken _ _ _ _ _ _ Hex).
Qed.

(** *** Wait *)

(** A zombie child is taken away for good. *)
(** The lists, the family and the scheduler after [unhash_proc] and [remove_links]. *)
Lemma unlink_Ok t ps p pr kids l : table_ok t ps -> family_upto None t ps kids -> sched_ok repr (pk t) l -> p ∈ ps ->
  procs (pk t) !! p = Some pr -> cptr pr = None -> state pr = PROC_ZOMBIE -> p <> current (pk t) ->
  exists t2 l1 l2 kids', (let! t := unhash_proc p t in remove_links p t) = Ok t2 /\ ps = l1 ++ p :: l2 /\
    let t3 := set_pk (set_procs (delete p (procs (pk t2))) (pk t2)) t2 in
    table_ok t3 (l1 ++ l2) /\ family_upto None t3 (l1 ++ l2) kids' /\ sched_ok repr (pk t3) l /\
    pk t2 = set_procs (procs (pk t2)) (pk t) /\
    (forall A (g : proc_struct -> A) q, (forall x, g (unlinked x) = g x) -> fld g t2 q = fld g t q) /\
    (forall q, q ∈ idleproc (pk t) :: l1 ++ l2 -> kids q = [] -> kids' q = []) /\
    (forall q, fld parent t2 q = fld parent t q).
Proof.
  intros Ht Hf Hok Hp Hpr Hcp Hz Hpc.
  assert (Hnn : forall q, q ∈ ps -> 0 <= q) by (intros q Hq; apply (tb_nonneg _ _ Ht), (po_procs _ _ (tb_pids _ _ Ht)), Hq).
  assert (Hps : forall q, q ∈ ps -> is_Some (procs (pk t) !! q)) by apply (po_procs _ _ (tb_pids _ _ Ht)).
  assert (Hkp : kids p = []).
  { destruct (fo_kids _ _ _ _ Hf p) as (y & (_ & E & _) & _); [by right|]. unfold fld in E. rewrite Hpr in E. simpl in E.
    rewrite Hcp in E. by destruct (kids p). }
  destruct (tb_hash _ _ Ht) as (B & HB). destruct (unhash_proc_Ok t ps B p HB Hp Hnn) as (L & b1 & b2 & E1 & Eb & HL1 & HL2).
  rewrite E1. cbn [rbind]. set (t1 := set_hash_list L t).
  destruct (fo_parent _ _ _ _ Hf p Hp) as (par & Hpar & Hparin & Hne).
  assert (p ∈ kids par) as Hpk by by apply (fo_elem _ _ _ _ Hf par p Hparin).
  apply list_elem_of_split in Hpk as (k1 & k2 & Ek). destruct (fo_kids _ _ _ _ Hf par Hparin) as (y & (Hnd & _ & Hch) & Hy).
  rewrite (Hy ltac:(done)), Ek in Hch. destruct (chain_fields _ _ _ _ _ Hch) as [Hyp Hop].
  assert (Hyp' : fld yptr t p = Some (list.last k1)) by by destruct (list.last k1).
  assert (Hkin : forall x, x ∈ k1 ++ k2 -> x ∈ ps /\ x <> p).
  { intros x Hx. rewrite Ek in Hnd. apply NoDup_app in Hnd as (_ & Hd & [Hp2 _]%NoDup_cons).
    split; [|intros ->; apply elem_of_app in Hx as [Hx|Hx]; [apply (Hd p Hx); by left|done]].
    apply (fo_elem _ _ _ _ Hf par x Hparin). rewrite Ek. set_solver. }
  assert (Hpp := Hp). apply list_elem_of_split in Hpp as (l1 & l2 & El).
  destruct (remove_links_Ok t1 l1 p l2 par (list.last k1) (head k2)) as (t2 & L2 & E2 & Hr & HL3).
  { rewrite <- El. apply (po_list _ _ (tb_pids _ _ Ht)). } { done. } { done. } { done. }
  { apply elem_of_cons in Hparin as [->|Hin]; [apply (tb_idle _ _ Ht)|by apply Hps]. }
  { intros x Hx. apply Hps, Hkin. apply elem_of_app. left. by apply last_Some_elem_of. }
  { intros x Hx. destruct k2 as [|z k2]; [done|]. injection Hx as ->. destruct (Hkin x) as [H1 H2]; [set_solver|].
    split; [done|by apply Hps]. }
  rewrite E2. set (t3 := set_nr_process _ t2). exists t3, l1, l2, (fun q => if decide (q = par) then k1 ++ k2 else kids q).
  split; [done|]. split; [done|]. cbv zeta. pose proof (rl_kern _ _ _ Hr) as Hk. pose proof (rl_rest _ _ _ Hr) as (R1 & R2 & R3 & R4 & R5).
  assert (Hkeep : forall A (g : proc_struct -> A) q, (forall x, g (unlinked x) = g x) -> fld g t3 q = fld g t q).
  { intros A g q Hg. change (fld g t2 q = fld g (set_proc_list L2 t1) q). eapply relinked_keep; [exact Hr| |exact Hg].
    intros q' x. unfold unlink_fields, at_proc, at_opt. destruct (list.last k1); repeat case_decide; done. }
  assert (Hpar3 : forall q, fld parent t3 q = fld parent t q).
  { intros q. change (fld parent t2 q = fld parent (set_proc_list L2 t1) q). eapply relinked_fld; [exact Hr|].
    intros x _. unfold unlink_fields, at_proc, at_opt. destruct (list.last k1); repeat case_decide; done. }
  assert (Hid : idleproc (pk t3) = idleproc (pk t)) by (change (idleproc (pk t2) = idleproc (pk t)); by rewrite Hk).
  assert (Hmem : forall q, q ∈ l1 ++ l2 <-> q ∈ ps /\ q <> p).
  { intros q. pose proof (table_NoDup _ _ Ht) as Hn. rewrite El in Hn |- *. apply NoDup_app in Hn as (_ & Hd & [Hp2 _]%NoDup_cons).
    rewrite !elem_of_app, elem_of_cons. split; [|tauto]. intros [Hq|Hq]; (split; [tauto|]); intros ->; [apply (Hd p Hq); by left|done]. }
  split; [|split; [|split; [|split_and!]]].
  - rewrite El in Ht, HB. eapply (table_remove t); [exact Ht|exact HB|..]; cbn [pk set_pk procs set_procs proc_list hash_list nr_process next_safe last_pid set_nr_process t3].
    + intros q. rewrite lookup_delete_None. rewrite (rl_proc _ _ _ Hr), fmap_None. split; intros [?|?]; auto.
    + intros q Hq. transitivity (fld pid t3 q); [|by apply Hkeep]. unfold fld. cbn [pk set_pk procs set_procs]. by rewrite lookup_delete_ne.
    + by rewrite R1.
    + exact Hid.
    + exact Eb.
    + rewrite R2. exact HL1.
    + rewrite R2. exact HL2.
    + done.
    + by rewrite R4.
    + by rewrite R5.
  - assert (Hf3 : family_upto None t2 (l1 ++ l2) (fun q => if decide (q = par) then k1 ++ k2 else kids q)).
    { eapply (family_unlink (set_proc_list L2 t1)); [|exact Hp|apply (tb_idle _ _ Ht)|exact Hpar|exact Hkp|exact Ek|exact Hmem|exact Hr].
      by eapply (family_frame None t); [exact Hf|..]. }
    eapply (family_frame None t2); [exact Hf3|done|]. intros q Hq. unfold fld. cbn [pk set_pk procs set_procs]. rewrite lookup_delete_ne; [done|].
    intros <-. apply elem_of_cons in Hq as [Hq|Hq]; [|by apply Hmem in Hq as [_ ?]]. apply (tb_idle _ _ Ht).
    assert (p = idleproc (pk t)) as <- by (rewrite Hq; exact Hid). exact Hp.
  - assert (Hs2 : sched_ok repr (pk t2) l).
    { eapply (sched_ok_frame repr put pick (pk t)); [exact Hok|by rewrite Hk|]. intros q. by apply (Hkeep _ (fun pr => (rq pr, state pr))). }
    apply (sched_ok_free repr put pick (pk t2) l p Hs2); [|by rewrite Hk].
    intros Hrun. apply (runnable_fld t3) in Hrun. rewrite Hkeep in Hrun by done. unfold fld in Hrun. rewrite Hpr in Hrun. simpl in Hrun.
    injection Hrun as Er. by rewrite Hz in Er.
  - exact Hk.
  - exact Hkeep.
  - intros q Hq Hk0. case_decide as E; [|done]. subst q. rewrite Ek in Hk0. by destruct k1.
  - exact Hpar3.
Qed.

Lemma reap_Ok t ps p pr : procs_ok t ps -> p ∈ ps -> procs (pk t) !! p = Some pr -> state pr = PROC_ZOMBIE ->
  exists t' l1 l2, do_wait_found p t = Ok (exit_code pr, kstack pr, t') /\ ps = l1 ++ p :: l2 /\ procs_ok t' (l1 ++ l2) /\
    procs (pk t') !! p = None /\ (forall q, q <> p -> fld pid t' q = fld pid t q).
Proof.
  intros [[[Ht (kids & Hf)] (l & Hok) Hall (Hi1 & Hi2 & Hi3) Ha Hc] Hrun] Hp Hpr Hz.
  assert (Hnn : forall q, q ∈ ps -> 0 <= q) by (intros q Hq; apply (tb_nonneg _ _ Ht), (po_procs _ _ (tb_pids _ _ Ht)), Hq).
  assert (Hpid : p <> idleproc (pk t)) by (intros ->; by apply (tb_idle _ _ Ht)).
  assert (Hpin : p <> initproc (pk t)).
  { intros ->. apply Hi3, fld_Some. by exists pr. }
  assert (Hpc : p <> current (pk t)).
  { intros ->. destruct Hrun as (pr' & E & Er). rewrite Hpr in E. injection E as <-. by rewrite Hz in Er. }
  assert (Hpin' := Hpin). unfold do_wait_found. apply Z.eqb_neq in Hpid as ->. apply Z.eqb_neq in Hpin as ->. cbn [orb].
  unfold proc_at at 1. rewrite (get_proc_Ok _ _ _ Hpr). cbn [rbind].
  assert (Hcp : cptr pr = None) by by apply (Hc p pr Hp).
  destruct (unlink_Ok t ps p pr kids l Ht Hf Hok Hp Hpr Hcp Hz Hpc) as (t2 & l1 & l2 & kids' & E & El & Ht3 & Hf3 & Hs3 & Hk & Hkeep & Hkz & Hpar).
  destruct (unhash_proc p t) as [t1|]; [|done]. cbn [rbind] in *. rewrite E. cbn [rbind].
  set (t3 := set_pk (set_procs (delete p (procs (pk t2))) (pk t2)) t2) in *.
  assert (Hl3 : forall q, q <> p -> procs (pk t3) !! q = procs (pk t2) !! q).
  { intros q Hq. cbn. by rewrite lookup_delete_ne. }
  assert (Hkeep3 : forall A (g : proc_struct -> A) q, q <> p -> (forall x, g (unlinked x) = g x) -> fld g t3 q = fld g t q).
  { intros A g q Hq Hg. rewrite <- (Hkeep A g q Hg). unfold fld. by rewrite Hl3. }
  assert (Hmem : forall q, q ∈ l1 ++ l2 <-> q ∈ ps /\ q <> p).
  { intros q. pose proof (table_NoDup _ _ Ht) as Hn. rewrite El in Hn |- *. apply NoDup_app in Hn as (_ & Hd & [Hp2 _]%NoDup_cons).
    rewrite !elem_of_app, elem_of_cons. split; [|tauto]. intros [Hq|Hq]; (split; [tauto|]); intros ->; [apply (Hd p Hq); by left|done]. }
  assert (Hid : idleproc (pk t3) = idleproc (pk t) /\ initproc (pk t3) = initproc (pk t) /\ current (pk t3) = current (pk t)).
  { unfold t3. cbn [pk set_pk idleproc initproc current set_procs]. by rewrite Hk. }
  destruct Hid as (Hid & Hini & Hcur).
  assert (Hsome : forall q, q <> p -> is_Some (procs (pk t3) !! q) <-> is_Some (procs (pk t) !! q)).
  { intros q Hq. rewrite <- !(fld_is_Some pid). by rewrite Hkeep3. }
  assert (Hp3 : procs (pk t3) !! p = None) by (cbn; by rewrite lookup_delete_eq).
  exists t3, l1, l2. split; [done|]. split; [done|].
  split; [|split; [done|intros q Hq; by apply Hkeep3]]. split.
  - split.
    + split; [done|]. by exists kids'.
    + by exists l.
    + intros q Hq. rewrite Hid. assert (q <> p) by (intros ->; rewrite Hp3 in Hq; by destruct Hq).
      apply Hsome in Hq; [|done]. apply Hall, elem_of_cons in Hq as [->|Hq]; [by left|]. right. by apply Hmem.
    + rewrite Hini, Hid, (Hkeep3 _ state) by done. split; [by apply Hmem|]. split; [|done].
      rewrite <- Hi2, <- Hpar. unfold fld. by rewrite Hl3.
    + intros q prq Hq Hs. assert (q <> p) by (intros ->; by rewrite Hp3 in Hq).
      assert (fld (fun x => (state x, wait_state x)) t q = Some (state prq, wait_state prq)) as (prq0 & E0 & Es)%fld_Some.
      { rewrite <- (Hkeep3 _ (fun x => (state x, wait_state x))) by done. unfold fld. by rewrite Hq. }
      injection Es as Es1 Es2. rewrite <- Es2. apply (Ha q prq0 E0). congruence.
    + intros q prq Hq _ Hprq Hs. apply Hmem in Hq as [Hq Hqp].
      assert (fld state t q = Some (state prq)) as (prq0 & E0 & Es)%fld_Some.
      { rewrite <- (Hkeep3 _ state) by done. unfold fld. by rewrite Hprq. }
      assert (cptr prq0 = None) as Hcq by (apply (Hc q prq0); [done..|congruence]).
      assert (kids q = []) as Hkq.
      { destruct (fo_kids _ _ _ _ Hf q) as (y & (_ & E1 & _) & _); [by right|]. unfold fld in E1. rewrite E0 in E1. simpl in E1.
        rewrite Hcq in E1. by destruct (kids q). }
      assert (Hq' : q ∈ idleproc (pk t) :: l1 ++ l2) by (right; by apply Hmem).
      destruct (fo_kids _ _ _ _ Hf3 q) as (y & (_ & E1 & _) & _); [by rewrite Hid|].
      rewrite (Hkz q Hq' Hkq) in E1. unfold fld in E1. rewrite Hprq in E1. by injection E1.
  - rewrite Hcur. apply runnable_fld. rewrite Hkeep3 by done. by apply runnable_fld.
Qed.

(** *** Fork *)

Definition new_proc (boot_pgdir : Z) (filesp : option Z) (par : option Z) : proc_struct :=
  set_parent par (set_filesp filesp (set_pgdir boot_pgdir (set_state PROC_UNINIT zero_proc))).

(** Writing to other memory keeps a list. *)
Lemma dlist_grow s h l p e : dlist s h l -> p ∉ h :: l -> dlist (<[p := e]> s) h l.
Proof.
  intros HL Hp. eapply dlist_frame; [|exact HL]. intros y Hy. assert (y <> p) by (intros ->; done).
  unfold nxt, prv. by rewrite lookup_insert_ne.
Qed.

(** The process memory, once its fields are set. *)
Record allocated (t t' : ptable) (p : Z) (pr : proc_struct) : Prop := {
  al_proc : procs (pk t') !! p = Some pr;
  al_others : forall q, q <> p -> procs (pk t') !! q = procs (pk t) !! q;
  al_links : is_Some (proc_list t' !! p) /\ is_Some (hash_list t' !! p);
  al_rest : current (pk t') = current (pk t) /\ idleproc (pk t') = idleproc (pk t) /\ initproc (pk t') = initproc (pk t) /\
    nr_process t' = nr_process t /\ next_safe t' = next_safe t /\ last_pid t' = last_pid t
}.

Lemma alloc_proc_Ok t l p bd fs : sched_ok repr (pk t) l -> procs (pk t) !! p = None -> 0 <= p ->
  exists t', alloc_proc (Some p) bd fs t = Ok (Some p, t') /\ allocated t t' p (new_proc bd fs None) /\
    sched_ok repr (pk t') l /\ proc_list t' = <[p := mk_entry 0 0]> (proc_list t) /\
    hash_list t' = <[p := mk_entry 0 0]> (hash_list t).
Proof.
  intros [Hr Hq Hc Hi] Hp H0. unfold alloc_proc. cbn [run_list set_procs].
  set (pr0 := set_pgdir bd (set_state PROC_UNINIT zero_proc)).
  destruct (law_alloc (pk t) l p pr0 Hr Hp H0 eq_refl) as (s & E & Hr'). rewrite E. cbn [rbind]. clear E.
  unfold change. cbn [pk set_pk set_proc_list set_hash_list].
  rewrite (upd_proc_Ok p _ _ pr0) by (cbn; by rewrite lookup_insert_eq). cbn [rbind].
  eexists. split; [done|]. set (k1 := set_run_list s _) in *.
  assert (Hl : forall q, q <> p -> procs k1 !! q = procs (pk t) !! q) by (intros q Hne; cbn; by rewrite lookup_insert_ne).
  assert (Hp1 : procs k1 !! p = Some pr0) by (cbn; by rewrite lookup_insert_eq).
  split; [|split; [|done]].
  - split; cbn [pk set_pk procs set_procs proc_list hash_list set_proc_list set_hash_list].
    + by rewrite lookup_insert_eq.
    + intros q Hne. rewrite lookup_insert_ne by done. by apply Hl.
    + rewrite !lookup_insert_eq. split; by eexists.
    + done.
  - cbn [pk set_pk]. set (k2 := set_procs _ k1).
    assert (Hl2 : forall q, q <> p -> procs k2 !! q = procs (pk t) !! q).
    { intros q Hne. cbn [k2 procs set_procs]. rewrite lookup_insert_ne by done. by apply Hl. }
    assert (Hp2 : procs k2 !! p = Some (set_filesp fs pr0)) by (cbn [k2 procs set_procs]; by rewrite lookup_insert_eq).
    assert (Hrun : forall q, runnable k2 q <-> runnable (pk t) q).
    { intros q. unfold runnable. destruct (decide (q = p)) as [->|Hne]; [|by rewrite Hl2].
      rewrite Hp, Hp2. split; [by intros (x & [= <-] & Ex)|by intros (? & ? & _)]. }
    split.
    + eapply law_frame; [exact Hr'|done..|]. intros q. destruct (decide (q = p)) as [->|Hne]; [by rewrite Hp1, Hp2|].
      rewrite Hl2 by done. unfold k1. cbn [procs set_run_list set_procs]. by rewrite lookup_insert_ne.
    + intros q. rewrite Hrun. apply Hq.
    + change (is_Some (procs k2 !! current (pk t))). rewrite Hl2; [done|]. intros E. rewrite E in Hc. destruct Hc. congruence.
    + by apply Hrun.
Qed.

Lemma table_alloc t t' ps p pr : table_ok t ps -> procs (pk t) !! p = None -> 0 <= p -> allocated t t' p pr ->
  proc_list t' = <[p := mk_entry 0 0]> (proc_list t) -> hash_list t' = <[p := mk_entry 0 0]> (hash_list t) -> table_ok t' ps.
Proof.
  intros [[P1 P2 P3 P4 P5] Hinj (B & [H1 H2]) Hnr [Hi1 Hi2] Hnn] Hp H0 [A1 A2 _ (A3 & A4 & A5 & A6 & A7 & A8)] E1 E2.
  assert (Hne : forall q, is_Some (procs (pk t) !! q) -> q <> p) by (intros q [? ?] ->; congruence).
  assert (Hpid : forall q, q ∈ ps -> pid_of t' q = pid_of t q) by (intros q Hq; unfold pid_of; rewrite A2; auto).
  split; [split|..]; rewrite ?A4, ?A6, ?A7, ?A8; try done.
  - rewrite E1. apply dlist_grow; [done|]. intros [->|Hin]%elem_of_cons; [done|]. by apply (Hne p); auto.
  - intros q Hq. rewrite A2 by auto. auto.
  - intros q Hq. rewrite Hpid by done. auto.
  - intros q Hq. rewrite Hpid by done. auto.
  - intros a b Ha Hb. rewrite !Hpid by done. auto.
  - exists B. split.
    + intros i Hi. rewrite E2. apply dlist_grow; [by apply H1|]. intros [->|Hin]%elem_of_cons; [unfold bucket in H0; lia|].
      apply (H2 i p Hi) in Hin as [Hin _]. by apply (Hne p); auto.
    + intros i q Hi. rewrite (H2 i q Hi). split; intros [Hq Eq]; (split; [done|]); [by rewrite Hpid|by rewrite Hpid in Eq].
  - split; [done|]. by rewrite A2 by auto.
  - intros q Hq. destruct (decide (q = p)) as [->|Hqp]; [done|]. rewrite A2 in Hq by done. auto.
Qed.

(** A process that is being created: [p] is its memory with the fields [pr],
    and the rest is as in the table [t]. *)
Record creating (t t' : ptable) (l : list Z) (p : Z) (pr : proc_struct) : Prop := {
  cr_alloc : allocated t t' p pr;
  cr_sched : sched_ok repr (pk t') l;
  cr_lists : proc_list t' = <[p := mk_entry 0 0]> (proc_list t) /\ hash_list t' = <[p := mk_entry 0 0]> (hash_list t)
}.

Lemma change_creating t t' l p pr f : creating t t' l p pr -> rq (f pr) = rq pr -> state (f pr) = state pr ->
  exists t'', change p f t' = Ok t'' /\ creating t t'' l p (f pr).
Proof.
  intros [[A1 A2 A3 A4] Hok [E1 E2]] Hq Hs. unfold change. rewrite (upd_proc_Ok _ _ _ _ A1). cbn [rbind]. eexists. split; [done|].
  split; [split; cbn [pk set_pk procs set_procs]|..]; try done.
  - by rewrite lookup_insert_eq.
  - intros q Hne. rewrite lookup_insert_ne by done. by apply A2.
  - eapply (sched_ok_frame repr put pick (pk t')); [exact Hok|done|]. intros q. cbn [pk set_pk procs set_procs].
    destruct (decide (q = p)) as [->|Hne]; [|by rewrite lookup_insert_ne].
    rewrite lookup_insert_eq, A1. cbn. by rewrite Hq, Hs.
Qed.

(** The new process enters the lists. *)
Lemma register_Ok t t2 ps l p pr : procs_ok t ps -> procs (pk t) !! p = None -> 0 <= p -> Z.of_nat (length ps) < MAX_PROCESS - 1 ->
  creating t t2 l p pr -> state pr = PROC_UNINIT /\ cptr pr = None -> parent pr = Some (current (pk t)) ->
  exists n t', fork_register p t2 = Ok (n, t') /\ procs_ok t' (p :: ps) /\
    1 <= n < MAX_PID /\ (n ∉ pids t ps) /\ pid_of t' p = n /\ fld parent t' p = Some (Some (current (pk t))) /\ runnable (pk t') p /\
    (forall A (g : proc_struct -> A) q, (forall x, g (set_pid n x) = g x) -> (forall x, g (unlinked x) = g x) ->
      (forall x, g (core x) = g x) -> fld g t' q = fld g t2 q).
Proof.
  intros [[[Ht (kids & Hf)] (l0 & Hok) Hall (Hi1 & Hi2 & Hi3) Ha Hc] Hrun] Hp H0 Hlen [Hal2 Hok2 [Epl Ehl]] [Hst0 Hcp0] Hpar0. change MAX_PROCESS with 4096 in Hlen.
  pose proof Hrun as (cpr & Ecur & Hcst).
  assert (Hne : forall q, is_Some (procs (pk t) !! q) -> q <> p) by (intros q [? ?] ->; congruence).
  assert (Ht2 : table_ok t2 ps) by (eapply table_alloc; [exact Ht|exact Hp|exact H0|exact Hal2|done|done]).
  pose proof (al_rest _ _ _ _ Hal2) as (B3 & B4 & B5 & _). pose proof (al_others _ _ _ _ Hal2) as Ho2.
  assert (Hin : forall q, q ∈ idleproc (pk t) :: ps -> q <> p).
  { intros q [->|Hq]%elem_of_cons; apply Hne; [apply (tb_idle _ _ Ht)|by apply (po_procs _ _ (tb_pids _ _ Ht))]. }
  assert (Hfld2 : forall A (g : proc_struct -> A) q, q <> p -> fld g t2 q = fld g t q) by (intros A g q Hq; unfold fld; by rewrite Ho2).
  assert (Hf2 : family_upto None t2 ps kids).
  { eapply family_frame; [exact Hf|done|]. intros q Hq%Hin. by rewrite !Hfld2. }
  assert (Hcin : current (pk t) ∈ idleproc (pk t) :: ps) by (apply Hall; by eexists).
  destruct (fork_register_Ok t2 ps l p (current (pk t)) pr (Build_ptable_ok _ _ Ht2 (ex_intro _ _ Hf2)) Hok2) as (n & t' & E & Hg).
  { change MAX_PROCESS with 4096. lia. }
  { split; [apply Hal2|rewrite B4; intros Hx; by apply (Hin p)|done|split; [done|by rewrite B4]|apply Hal2]. }
  rewrite E. exists n, t'. split; [done|]. destruct Hg as [(G1 & G2 & G3) G4 G5 [G6 G7] [G8 G9] G10 G11 G12 Gf (G13 & G14 & G15)].
  assert (Hpids : pids t2 ps = pids t ps).
  { unfold pids. apply list_fmap_ext. intros i q Hq%list_elem_of_lookup_2. unfold pid_of. rewrite Ho2; [done|]. apply Hin. by right. }
  rewrite Hpids in G2. assert (Hparn : fld parent t' p = Some (Some (current (pk t)))) by done. split; [|done].
  assert (Hst' : forall q, q <> p -> fld (fun x => (state x, wait_state x)) t' q = fld (fun x => (state x, wait_state x)) t q).
  { intros q Hq. rewrite G10 by done. by apply Hfld2. }
  assert (Hst : forall q pr', q <> p -> procs (pk t') !! q = Some pr' -> exists pr0, procs (pk t) !! q = Some pr0 /\ state pr0 = state pr' /\ wait_state pr0 = wait_state pr').
  { intros q pr' Hq E'. specialize (Hst' q Hq). unfold fld in Hst'. rewrite E' in Hst'. destruct (procs (pk t) !! q) as [pr0|]; [|done].
    exists pr0. split; [done|]. simpl in Hst'. injection Hst' as -> ->. done. }
  assert (Hpi : initproc (pk t) <> p) by (apply Hin; by right).
  split; [split|].
  - exact G4.
  - exact G5.
  - intros q [x Hx]. rewrite G14, B4. destruct (decide (q = p)) as [->|Hq]; [by right; left|].
    destruct (Hst q x Hq Hx) as (pr0 & E0 & _). assert (q ∈ idleproc (pk t) :: ps) as Hq' by (apply Hall; by eexists). set_solver.
  - rewrite G15, B5, G14, B4, G12, Hfld2 by done. split; [by right|]. split; [done|].
    intros (x & Hx & Hxz)%fld_Some. destruct (Hst _ x Hpi Hx) as (pr0 & E0 & Es & _). apply Hi3, fld_Some. exists pr0. split; [done|congruence].
  - intros q x Hx Hs. destruct (decide (q = p)) as [->|Hq]; [unfold fld in G7; rewrite Hx in G7; by injection G7|].
    destruct (Hst q x Hq Hx) as (pr0 & E0 & Es & Ew). rewrite <- Ew. apply (Ha q pr0 E0). congruence.
  - intros q x Hqp _ Hx Hz. destruct (decide (q = p)) as [->|Hq].
    { destruct G6 as (x' & Ex' & Er'). rewrite Hx in Ex'. injection Ex' as <-. by rewrite Hz in Er'. }
    destruct (Hst q x Hq Hx) as (pr0 & E0 & Es & _). rewrite Hz in Es.
    assert (q <> current (pk t)) as Hqc by (intros ->; rewrite Ecur in E0; injection E0 as <-; by rewrite Hcst in Es).
    assert (fld cptr t' q = fld cptr t q) as Ec by (rewrite G11, Hfld2 by done; done). unfold fld in Ec. rewrite Hx, E0 in Ec.
    injection Ec as ->. apply (Hc q pr0); [set_solver|done..].
  - rewrite G13, B3. assert (current (pk t) <> p) as Hcp by by apply Hin. unfold runnable.
    specialize (Hst' _ Hcp). unfold fld in Hst'. rewrite Ecur in Hst'. destruct (procs (pk t') !! current (pk t)) as [x|]; [|done].
    exists x. split; [done|]. simpl in Hst'. injection Hst' as -> _. done.
Qed.

(** [alloc_proc] and the check of the running process. *)
Lemma alloc_creating t ps p bd fs : procs_ok t ps -> procs (pk t) !! p = None -> 0 <= p ->
  exists l t1 cpr, alloc_proc (Some p) bd fs t = Ok (Some p, t1) /\ creating t t1 l p (new_proc bd fs None) /\
    procs (pk t) !! current (pk t) = Some cpr /\ current (pk t) <> p /\ proc_at (current (pk t1)) t1 = Ok cpr /\ wait_state cpr = 0.
Proof.
  intros [[_ (l & Hok) _ _ Ha _] (cpr & Ecur & Hcst)] Hp H0.
  destruct (alloc_proc_Ok t l p bd fs Hok Hp H0) as (t1 & E & Hal & Hok1 & Epl & Ehl). pose proof (al_rest _ _ _ _ Hal) as (A3 & _).
  assert (current (pk t) <> p) as Hne by (intros Heq; rewrite Heq in Ecur; congruence).
  exists l, t1, cpr. split_and!; try done.
  - apply get_proc_Ok. by rewrite A3, (al_others _ _ _ _ Hal).
  - apply (Ha _ _ Ecur). by rewrite Hcst.
Qed.

Lemma fork_Ok t ps p bd fs : procs_ok t ps -> procs (pk t) !! p = None -> 0 <= p -> Z.of_nat (length ps) < MAX_PROCESS - 1 ->
  exists n t', do_fork_table (Some p) bd fs t = Ok (n, t') /\ procs_ok t' (p :: ps) /\
    1 <= n < MAX_PID /\ (n ∉ pids t ps) /\ pid_of t' p = n /\ fld parent t' p = Some (Some (current (pk t))) /\ runnable (pk t') p.
Proof.
  intros Hpo Hp H0 Hlen. unfold do_fork_table. rewrite (tb_nr _ _ (pt_table _ _ (bo_table _ _ (po_base _ _ Hpo)))).
  destruct (Z.leb_spec MAX_PROCESS (1 + Z.of_nat (length ps))); [lia|].
  destruct (alloc_creating t ps p bd fs Hpo Hp H0) as (l & t1 & cpr & E & Hc & _ & _ & Ecur & Hw). rewrite E. cbn [rbind]. rewrite Ecur. cbn [rbind].
  rewrite Hw. cbn [Z.eqb rassert rbind rget]. destruct (al_rest _ _ _ _ (cr_alloc _ _ _ _ _ Hc)) as (-> & _).
  destruct (change_creating t t1 l p _ (set_parent (Some (current (pk t)))) Hc) as (t2 & E2 & Hc2); [done|done|]. rewrite E2. cbn [rbind].
  destruct (register_Ok t t2 ps l p _ Hpo Hp H0 Hlen Hc2) as (n & t' & E' & H1 & H2 & H3 & H4 & H5 & H6 & _); [done|done|].
  exists n, t'. done.
Qed.

(** *** What [do_wait] looks for *)

(** A child of the running process that the call asks for. *)
Definition waited (t : ptable) (ps : list Z) (pd p : Z) : Prop :=
  p ∈ ps /\ fld parent t p = Some (Some (current (pk t))) /\ (pd <> 0 -> pid_of t p = pd).

Definition scan_answer (t : ptable) (ps : list Z) (pd : Z) (r : wait_answer) : Prop :=
  match r with
  | WFound p => waited t ps pd p /\ fld state t p = Some PROC_ZOMBIE
  | WSleep => (exists p, waited t ps pd p) /\ forall p, waited t ps pd p -> fld state t p <> Some PROC_ZOMBIE
  | WNone => forall p, ~ waited t ps pd p
  end.

Lemma wait_rounds t l : forall y hk, chain t y l ->
  exists r, rounds (S (length l)) (do_wait_body t) (head l, hk) = Ok (inr r) /\
    match r with
    | WFound p => p ∈ l /\ fld state t p = Some PROC_ZOMBIE
    | WSleep => (hk = true \/ l <> []) /\ forall p, p ∈ l -> fld state t p <> Some PROC_ZOMBIE
    | WNone => hk = false /\ l = []
    end.
Proof.
  induction l as [|x l IH]; intros y hk Hch.
  - cbn [rounds length head do_wait_body rbind]. destruct hk; eexists; (split; [done|]); [|done].
    split; [by left|]. intros p []%elem_of_nil.
  - destruct Hch as (_ & Ho & Hch). apply fld_Some in Ho as (pr & Hpr & Ho).
    change (S (length (x :: l))) with (S (S (length l))). cbn [rounds head do_wait_body].
    unfold proc_at. rewrite (get_proc_Ok _ _ _ Hpr). cbn [rbind]. destruct (Z.eqb_spec (state pr) PROC_ZOMBIE) as [Hz|Hz]; cbn [rbind].
    + eexists. split; [done|]. split; [by left|]. apply fld_Some. by exists pr.
    + rewrite Ho. destruct (IH _ true Hch) as (r & E & Hr). exists r. split; [exact E|]. destruct r as [p| |].
      * destruct Hr as [Hp Hs]. split; [by right|done].
      * destruct Hr as [_ Hs]. split; [by right|]. intros p [->|Hp]%elem_of_cons; [|by apply Hs].
        intros (pr' & E' & Es)%fld_Some. congruence.
      * by destruct Hr.
Qed.

Lemma wait_scan_Ok t ps pd : ptable_ok t ps -> current (pk t) ∈ idleproc (pk t) :: ps ->
  exists r, do_wait_scan pd t = Ok r /\ scan_answer t ps pd r.
Proof.
  intros [Ht (kids & Hf)] Hcur. unfold do_wait_scan. destruct (Z.eqb_spec pd 0) as [->|Hpd]; cbn [negb].
  - destruct (fo_kids _ _ _ _ Hf _ Hcur) as (y & (Hnd & Hc & Hch) & _). apply fld_Some in Hc as (cpr & Ecur & Hc).
    unfold proc_at. rewrite (get_proc_Ok _ _ _ Ecur). cbn [rbind]. rewrite Hc.
    destruct (wait_rounds t _ y false Hch) as (r & E & Hr). exists r.
    assert (Hw : forall p, waited t ps 0 p <-> p ∈ kids (current (pk t))).
    { intros p. unfold waited. rewrite (fo_elem _ _ _ _ Hf _ p Hcur). naive_solver. }
    assert (kids (current (pk t)) ⊆ ps) as Hsub by (intros q Hq; by apply (fo_elem _ _ _ _ Hf _ q Hcur) in Hq as [? _]).
    pose proof (submseteq_length _ _ (NoDup_submseteq _ _ Hnd Hsub)). pose proof (table_size _ _ Ht).
    split; [eapply loop_rounds; [exact E|lia]|]. destruct r as [p| |]; cbn [scan_answer].
    + by rewrite Hw.
    + destruct Hr as [[?|Hne] Hs]; [done|]. split.
      * destruct (kids (current (pk t))) as [|x l] eqn:Ek; [done|]. exists x. apply Hw. by left.
      * intros p Hp. apply Hs. by apply Hw.
    + destruct Hr as [_ Hr]. intros p Hp. apply Hw in Hp. rewrite Hr in Hp. by apply elem_of_nil in Hp.
  - destruct (find_proc_Ok t ps pd Ht) as (o & -> & Ho). cbn [rbind]. destruct o as [p|].
    + destruct Ho as [Hp Hpid]. destruct (po_procs _ _ (tb_pids _ _ Ht) p Hp) as [pr Hpr].
      unfold proc_at. rewrite (get_proc_Ok _ _ _ Hpr). cbn [rbind].
      assert (Huniq : forall q, waited t ps pd q -> q = p).
      { intros q (Hq & _ & Hqp). apply (tb_inj _ _ Ht); try done. rewrite Hqp; done. }
      assert (Hfp : fld parent t p = Some (parent pr) /\ fld state t p = Some (state pr)) by (unfold fld; by rewrite Hpr).
      destruct Hfp as [Hfp Hfs]. case_bool_decide as Hpar.
      * assert (waited t ps pd p) as Hw by (split; [done|]; split; [congruence|done]).
        eexists. split; [done|]. destruct (Z.eqb_spec (state pr) PROC_ZOMBIE) as [Hz|Hz]; cbn [scan_answer].
        -- split; [done|congruence].
        -- split; [by exists p|]. intros q ->%Huniq. congruence.
      * eexists. split; [done|]. cbn [scan_answer]. intros q Hq. pose proof (Huniq q Hq) as ->. destruct Hq as (_ & Eq & _). congruence.
    + eexists. split; [done|]. cbn [scan_answer]. intros p (Hp & _ & Hpp). by apply (Ho p Hp), Hpp.
Qed.

(** *** Kill *)

Lemma base_wake t ps x : base_ok t ps -> is_Some (procs (pk t) !! x) -> fld state t x <> Some PROC_ZOMBIE ->
  exists t', on_kern (wakeup_proc x) t = Ok t' /\ base_ok t' ps /\ woken t t' x.
Proof.
  intros [[Ht (kids & Hf)] (l & Hok) Hall (Hi1 & Hi2 & Hi3) Ha Hc] [pr Hx] Hz.
  assert (Hz' : state pr <> PROC_ZOMBIE) by (intros E; apply Hz, fld_Some; by exists pr).
  destruct (wake_Ok t l x pr ps None Hok Hx Hz' Ha Hc) as (t' & E & Hw & Ha' & Hc'). exists t'. split; [done|]. split; [|done].
  pose proof Hw as [(k' & -> & Hcore & Hid & Hini & Hcur) Hs Hrun Ho]. split; try done; cbn [pk set_pk]; rewrite ?Hid, ?Hini.
  - split; [by apply table_kern|]. exists kids. by apply family_kern.
  - intros p Hp. apply Hall. by apply (same_cores_is_Some _ _ _ Hcore).
  - split; [done|]. split; [by rewrite core_fld|]. intros (pr' & Hpr' & Hz2)%fld_Some. cbn [pk set_pk] in Hpr'.
    destruct (decide (initproc (pk t) = x)) as [Hne|Hne].
    + rewrite Hne in Hpr'. destruct Hrun as (pr2 & E2 & Hr). cbn [pk set_pk] in E2. rewrite Hpr' in E2. injection E2 as <-. by rewrite Hz2 in Hr.
    + destruct (same_at_fields _ _ _ _ (Ho _ Hne) Hpr') as (pr0 & E0 & Es & _). apply Hi3, fld_Some. exists pr0. split; [done|congruence].
Qed.

(** The flags are read by neither the table nor the scheduler. *)
Lemma base_flags t t' ps p v : base_ok t ps -> relinked t t' (at_proc p (set_flags v)) -> base_ok t' ps.
Proof.
  intros [[Ht (kids & Hf)] (l & Hok) Hall (Hi1 & Hi2 & Hi3) Ha Hc] Hr.
  pose proof (rl_kern _ _ _ Hr) as Hk. pose proof (rl_rest _ _ _ Hr) as (R1 & R2 & R3 & R4 & R5).
  assert (Hkeep : forall A (g : proc_struct -> A) q, (forall x, g (set_flags v x) = g x) -> fld g t' q = fld g t q).
  { intros A g q Hg. eapply relinked_fld; [exact Hr|]. intros x _. unfold at_proc. case_decide; [by rewrite Hg|done]. }
  assert (Hid : idleproc (pk t') = idleproc (pk t) /\ initproc (pk t') = initproc (pk t)) by by rewrite Hk.
  destruct Hid as [Hid Hini]. split; rewrite ?Hid, ?Hini.
  - split; [eapply table_ok_frame; [exact Ht|intros q; by apply Hkeep|done..]|].
    exists kids. eapply family_frame; [exact Hf|done|]. intros q _. split_and!; by apply Hkeep.
  - exists l. eapply (sched_ok_frame repr put pick (pk t)); [exact Hok|by rewrite Hk|]. intros q. by apply (Hkeep _ (fun pr => (rq pr, state pr))).
  - intros q Hq. apply Hall. apply (fld_is_Some pid). rewrite <- Hkeep by done. by apply fld_is_Some.
  - by rewrite !Hkeep.
  - eapply awake_fld; [exact Ha|]. intros q. by apply Hkeep.
  - intros q pr Hq _ Hpr Hz. assert (fld (fun x => (state x, cptr x)) t q = Some (state pr, cptr pr)) as (pr0 & E0 & Es)%fld_Some.
    { rewrite <- Hkeep by done. unfold fld. by rewrite Hpr. }
    injection Es as Es1 Es2. rewrite <- Es2. apply (Hc q pr0); [done..|congruence].
Qed.

(** What [do_kill] answers. *)
Definition killed (t t' : ptable) (ps : list Z) (pd r : Z) : Prop :=
  (r = - E_INVAL /\ t' = t /\ forall p, p ∈ ps -> pid_of t p <> pd) \/
  exists p v, p ∈ ps /\ pid_of t p = pd /\ fld flags t p = Some v /\
    if Z.land v PF_EXITING =? 0 then r = 0 /\ fld flags t' p = Some (Z.lor v PF_EXITING) /\
      (forall ws, fld wait_state t p = Some ws -> Z.land ws WT_INTERRUPTED <> 0 -> runnable (pk t') p)
    else r = - E_KILLED /\ t' = t.

Lemma kill_Ok t ps pd : procs_ok t ps -> exists r t', do_kill pd t = Ok (r, t') /\ procs_ok t' ps /\ killed t t' ps pd r.
Proof.
  intros [Hb Hrun]. pose proof (bo_table _ _ Hb) as [Ht _]. destruct (find_proc_Ok t ps pd Ht) as (o & E & Ho).
  unfold do_kill. rewrite E. cbn [rbind]. destruct o as [p|]; [|eexists _, t; split; [done|]; split; [done|by left]].
  destruct Ho as [Hp Hpid]. destruct (po_procs _ _ (tb_pids _ _ Ht) p Hp) as [pr Hpr].
  unfold proc_at at 1. rewrite (get_proc_Ok _ _ _ Hpr). cbn [rbind].
  assert (Hfl : fld flags t p = Some (flags pr)) by (unfold fld; by rewrite Hpr).
  destruct (Z.land (flags pr) PF_EXITING =? 0) eqn:Ef.
  2: { eexists _, t. split; [done|]. split; [done|]. right. exists p, (flags pr). by rewrite Ef. }
  destruct (relinked_change _ _ _ p (set_flags (Z.lor (flags pr) PF_EXITING)) (relinked_refl t)) as (t1 & E1 & Hr); [by eexists|].
  rewrite E1. cbn [rbind]. pose proof (base_flags _ _ _ _ _ Hb Hr) as Hb1.
  assert (Hp1 : procs (pk t1) !! p = Some (set_flags (Z.lor (flags pr) PF_EXITING) pr)).
  { rewrite (rl_proc _ _ _ Hr), Hpr. simpl. unfold at_proc. by rewrite decide_True. }
  unfold proc_at. rewrite (get_proc_Ok _ _ _ Hp1). cbn [rbind]. change (wait_state (set_flags _ pr)) with (wait_state pr).
  assert (Hrun1 : runnable (pk t1) (current (pk t1))).
  { rewrite (rl_kern _ _ _ Hr). apply (runnable_fld t1). cbn [current set_procs].
    rewrite (relinked_fld state t t1 _ _ Hr); [by apply runnable_fld|]. intros x _. unfold at_proc. by case_decide. }
  destruct (Z.land (wait_state pr) WT_INTERRUPTED =? 0) eqn:Ew; cbn [negb rbind].
  - exists 0, t1. split; [done|]. split; [done|]. right. exists p, (flags pr). rewrite Ef. split_and!; try done.
    + unfold fld. by rewrite Hp1.
    + intros ws (pr' & E' & <-)%fld_Some. rewrite Hpr in E'. injection E' as <-. apply Z.eqb_eq in Ew. by rewrite Ew.
  - destruct (base_wake t1 ps p Hb1) as (t2 & E2 & Hb2 & Hw).
    { by eexists. }
    { intros (pr' & E' & Ez)%fld_Some. rewrite Hp1 in E'. injection E' as <-. change (state pr = PROC_ZOMBIE) in Ez.
      rewrite (bo_awake _ _ Hb p pr Hpr) in Ew by by rewrite Ez. done. }
    rewrite E2. cbn [rbind]. exists 0, t2. split; [done|]. pose proof Hw as [(k' & -> & Hcore & _ & _ & Hcur) _ Hrp Hoth]. split.
    + split; [done|]. cbn [pk set_pk]. rewrite Hcur. destruct (decide (current (pk t1) = p)) as [->|Hne]; [exact Hrp|].
      specialize (Hoth _ Hne). destruct Hrun1 as (x & Ex & Hx). unfold same_proc_at in Hoth. rewrite Ex in Hoth. cbn [pk set_pk] in Hoth.
      unfold runnable. destruct (procs k' !! current (pk t1)) as [y|]; [|done]. destruct Hoth as (? & ? & ? & ? & ->). by eexists.
    + right. exists p, (flags pr). rewrite Ef. split_and!; try done. rewrite core_fld by done. unfold fld. by rewrite Hp1.
Qed.
End exec.
