(* ===== verification/ProcSafe.v ===== *)
(** * Processes under every sequence of calls

    The events of the process management, their effect on the table, and the
    properties: no call faults and the invariants hold for ever, pids are
    unique, [find_proc], [do_wait] and [do_kill] find what they should, and an
    exiting process leaves its children and its parent as it should. *)
From S2P Require Import Prelude DList Kern Sched Proc ProcInv ProcLife.

(** ** Events *)

(** The running process forks (the memory of the new process is [p]), exits,
    calls [do_wait], goes on in [do_wait] after [schedule] ([PWake]), kills, or
    the scheduler acts. *)
Inductive proc_event :=
  PFork (p boot_pgdir : Z) | PExit (code : Z) | PWait (pd : Z) | PWake (pd : Z) | PKill (pd : Z) | PSched (e : event).

(** New memory is not in use; idle does not exit or wait.  [PWake] is possible
    for every other process at any time, which is more than the code does. *)
Definition proc_possible (e : proc_event) (t : ptable) : bool :=
  match e with
  | PFork p _ => bool_decide (procs (pk t) !! p = None) && (0 <=? p)
  | PExit _ | PWait _ | PWake _ => negb (current (pk t) =? idleproc (pk t))
  | PKill _ => true
  | PSched e => allowed e (pk t)
  end.

Section events.
Context `{SC : sched_class}.

(** [do_wait] after the test of [code_store], up to the answer or to
    [schedule] ... *)
Definition do_wait_round (pd : Z) (t : ptable) : res ptable :=
  let! r := do_wait_scan pd t in
  match r with
  | WFound p => let! (_, _, t) := do_wait_found p t in Ok t
  | WSleep => do_wait_sleep t
  | WNone => Ok t
  end.

(** ... and from the return of [schedule] on: a process that was killed exits,
    the others look again. *)
Definition do_wait_resume (pd : Z) (t : ptable) : res ptable :=
  let! cur := proc_at (current (pk t)) t in
  if negb (Z.land (flags cur) PF_EXITING =? 0) then
    let! t := do_exit_table (- E_KILLED) t in on_kern schedule t
  else do_wait_round pd t.

Definition proc_step (e : proc_event) (t : ptable) : res ptable :=
  match e with
  | PFork p bd => let! (_, t) := do_fork_table (Some p) bd None t in Ok t
  | PExit code => let! t := do_exit_table code t in on_kern schedule t
  | PWait pd => do_wait_round pd t
  | PWake pd => do_wait_resume pd t
  | PKill pd => let! (_, t) := do_kill pd t in Ok t
  | PSched e => on_kern (handle e) t
  end.

Fixpoint proc_run (es : list proc_event) (t : ptable) : res ptable :=
  match es with
  | [] => Ok t
  | e :: es => if proc_possible e t then let! t := proc_step e t in proc_run es t else proc_run es t
  end.

(** [initproc] exits, or goes on in [do_wait] after it was killed. *)
Definition init_dies (e : proc_event) (t : ptable) : bool :=
  (current (pk t) =? initproc (pk t)) &&
  match e with
  | PExit _ => true
  | PWake _ => match procs (pk t) !! current (pk t) with Some cur => negb (Z.land (flags cur) PF_EXITING =? 0) | None => false end
  | _ => false
  end.
End events.

Section safe.
Context `{SC : sched_class} (repr : kern -> list Z -> Prop) (put : list Z -> Z -> list Z) (pick : list Z -> option Z).
Context `{!SchedClassLaws SC repr put pick}.

(** The running process sleeps: its state and what it waits for. *)
Lemma sleep_Ok t ps ws : procs_ok repr t ps -> current (pk t) <> idleproc (pk t) ->
  exists t', on_kern (sleep_current ws) t = Ok t' /\ procs_ok repr t' ps.
Proof.
  intros [Hb _] Hne.
  destruct (base_change repr put pick t ps (fun pr => set_wait_state ws (set_state PROC_SLEEPING pr)) Hb Hne) as (t1 & E & Hb1 & _).
  { done. } { done. }
  destruct (schedule_base repr put pick t1 ps Hb1) as (t2 & l2 & E2 & Hp2 & _).
  exists t2. split; [|done]. unfold change in E. unfold on_kern, sleep_current in *.
  destruct (upd_proc (current (pk t)) _ (pk t)) as [k1|]; [|done]. cbn [rbind] in *. injection E as <-.
  cbn [pk set_pk] in E2. destruct (schedule k1) as [k2|]; [|done]. cbn [rbind] in *. by destruct t.
Qed.

Lemma wait_sleep_eq t pr : procs (pk t) !! current (pk t) = Some pr -> do_wait_sleep t = on_kern (sleep_current WT_CHILD) t.
Proof.
  intros Hpr. unfold do_wait_sleep, on_kern, sleep_current, change.
  rewrite !(upd_proc_Ok _ _ _ _ Hpr). cbn [rbind pk set_pk].
  rewrite (upd_proc_Ok _ _ _ (set_state PROC_SLEEPING pr)) by (cbn; by rewrite lookup_insert_eq).
  cbn [rbind pk set_pk procs set_procs current]. rewrite insert_insert_eq. by destruct t.
Qed.

Lemma sched_event_ok t ps e : procs_ok repr t ps -> allowed e (pk t) = true ->
  exists t', on_kern (handle e) t = Ok t' /\ procs_ok repr t' ps.
Proof.
  intros Hpo Hal. pose proof Hpo as [Hb Hrun]. destruct e as [|ws|p|].
  - destruct (schedule_base repr put pick t ps Hb) as (t2 & l2 & E2 & Hp2 & _). by exists t2.
  - cbn in Hal. apply negb_true_iff, Z.eqb_neq in Hal. by apply sleep_Ok.
  - cbn in Hal. destruct (procs (pk t) !! p) as [pr|] eqn:Hpr; [|done]. apply negb_true_iff, Z.eqb_neq in Hal.
    destruct (base_wake repr put pick t ps p Hb) as (t' & E & Hb' & Hw); [by eexists| |].
    { intros (x & Ex & Hz)%fld_Some. congruence. }
    exists t'. split; [done|]. split; [done|]. destruct Hw as [(k' & -> & _ & _ & _ & Hcur) _ Hrp Ho]. cbn [pk set_pk]. rewrite Hcur.
    destruct (decide (current (pk t) = p)) as [->|Hne]; [done|]. specialize (Ho _ Hne). destruct Hrun as (x & Ex & Hx).
    unfold same_proc_at in Ho. rewrite Ex in Ho. cbn [pk set_pk] in Ho. unfold runnable.
    destruct (procs k' !! current (pk t)); [|done]. destruct Ho as (? & ? & ? & ? & ->). by eexists.
  - destruct (bo_sched _ _ _ Hb) as [l Hok]. destruct (handle_Ok repr put pick ETick (pk t) l Hok Hal) as (k' & l' & E & Hok' & [[Hi Hini] Hs Hr]).
    unfold on_kern. rewrite E. cbn [rbind]. exists (set_pk k' t). split; [done|]. split; [|by apply Hr].
    apply base_same; [done|intros q; apply Hs; by intros []|by exists l'|done|done].
Qed.

Lemma exit_step_Ok t ps code : procs_ok repr t ps -> current (pk t) <> idleproc (pk t) -> current (pk t) <> initproc (pk t) ->
  exists t', (let! t := do_exit_table code t in on_kern schedule t) = Ok t' /\ procs_ok repr t' ps.
Proof.
  intros Hpo H1 H2. destruct (exit_Ok repr put pick t ps code Hpo H1 H2) as (t1 & t' & k1 & k2 & -> & E & Hpo' & _). cbn [rbind]. eauto.
Qed.

Lemma exit_init_panics code t : current (pk t) = initproc (pk t) -> do_exit_table code t = Err KPanic.
Proof. intros H. unfold do_exit_table. cbv zeta. by rewrite H, Z.eqb_refl, orb_true_r. Qed.

Lemma wait_round_Ok t ps pd : procs_ok repr t ps -> current (pk t) <> idleproc (pk t) ->
  exists t' ps', do_wait_round pd t = Ok t' /\ procs_ok repr t' ps'.
Proof.
  intros Hpo Hal. pose proof Hpo as [Hb Hrun]. unfold do_wait_round.
  assert (Hcin : current (pk t) ∈ idleproc (pk t) :: ps).
  { right. eapply base_current; [exact Hb|exact Hal]. }
  destruct (wait_scan_Ok t ps pd (bo_table _ _ _ Hb) Hcin) as (r & -> & Hr). cbn [rbind]. destruct r as [p| |]; [| |eauto].
  - destruct Hr as [(Hp & _ & _) Hz]. apply fld_Some in Hz as (pr & Hpr & Hz).
    destruct (reap_Ok repr put pick t ps p pr Hpo Hp Hpr Hz) as (t' & l1 & l2 & -> & _ & Hpo' & _). cbn [rbind]. eauto.
  - destruct Hrun as (pr & Hpr & _). rewrite (wait_sleep_eq t pr Hpr). destruct (sleep_Ok t ps WT_CHILD Hpo Hal) as (t' & -> & Hpo'). eauto.
Qed.

(** The death of [initproc] is the panic of [do_exit]. *)
Lemma init_dies_panics t e : init_dies e t = true -> proc_step e t = Err KPanic.
Proof.
  unfold init_dies. intros [Hc%Z.eqb_eq He]%andb_true_iff. destruct e as [| |pd|pd| |]; try done; cbn [proc_step].
  - by rewrite exit_init_panics.
  - unfold do_wait_resume, proc_at, get_proc. destruct (procs (pk t) !! current (pk t)); [|done]. cbn [rbind rget].
    by rewrite He, exit_init_panics.
Qed.

Lemma wait_resume_Ok t ps pd : procs_ok repr t ps -> current (pk t) <> idleproc (pk t) -> init_dies (PWake pd) t = false ->
  exists t' ps', do_wait_resume pd t = Ok t' /\ procs_ok repr t' ps'.
Proof.
  intros Hpo Hal Hd. pose proof (po_run _ _ _ Hpo) as (cur & Hcur & _).
  unfold do_wait_resume, proc_at. rewrite (get_proc_Ok _ _ _ Hcur). cbn [rbind].
  unfold init_dies in Hd. rewrite Hcur in Hd. destruct (negb _); [|by apply (wait_round_Ok t ps)].
  rewrite andb_true_r in Hd. apply Z.eqb_neq in Hd. destruct (exit_step_Ok t ps (- E_KILLED) Hpo Hal Hd) as (t' & E & Hpo'). eauto.
Qed.

Lemma proc_step_Ok t ps e : procs_ok repr t ps -> proc_possible e t = true -> init_dies e t = false ->
  exists t' ps', proc_step e t = Ok t' /\ procs_ok repr t' ps'.
Proof.
  intros Hpo Hal Hd. pose proof Hpo as [Hb _]. pose proof (bo_table _ _ _ Hb) as [Ht _].
  destruct e as [p bd|code|pd|pd|pd|e]; cbn in Hal; cbn [proc_step]; try apply negb_true_iff, Z.eqb_neq in Hal.
  - apply andb_true_iff in Hal as [Hp%bool_decide_eq_true H0%Z.leb_le].
    destruct (decide (Z.of_nat (length ps) < MAX_PROCESS - 1)) as [Hl|Hl].
    + destruct (fork_Ok repr put pick t ps p bd None Hpo Hp H0 Hl) as (n & t' & -> & Hpo' & _). cbn [rbind]. eauto.
    + unfold do_fork_table. rewrite (tb_nr _ _ Ht). change MAX_PROCESS with 4096 in *.
      destruct (Z.leb_spec 4096 (1 + Z.of_nat (length ps))); [|lia]. cbn [rbind]. eauto.
  - unfold init_dies in Hd. rewrite andb_true_r in Hd. apply Z.eqb_neq in Hd.
    destruct (exit_step_Ok t ps code Hpo Hal Hd) as (t' & E & Hpo'). eauto.
  - by apply (wait_round_Ok t ps).
  - by apply (wait_resume_Ok t ps).
  - destruct (kill_Ok repr put pick t ps pd Hpo) as (r & t' & -> & Hpo' & _). cbn [rbind]. eauto.
  - destruct (sched_event_ok t ps e Hpo Hal) as (t' & -> & Hpo'). eauto.
Qed.

(** The run goes to its end, or [initproc] dies in it. *)
Definition ends_well (es : list proc_event) (t : ptable) : Prop :=
  exists t' ps', proc_run es t = Ok t' /\ procs_ok repr t' ps'.
Definition init_death (es : list proc_event) (t : ptable) : Prop :=
  proc_run es t = Err KPanic /\
  exists es1 e es2 t1, es = es1 ++ e :: es2 /\ proc_run es1 t = Ok t1 /\ proc_possible e t1 = true /\ init_dies e t1 = true.

Lemma proc_run_Ok es t ps : procs_ok repr t ps -> ends_well es t \/ init_death es t.
Proof.
  revert t ps. induction es as [|e es IH]; intros t ps Hpo; [by left; exists t, ps|].
  unfold ends_well, init_death. cbn [proc_run]. destruct (proc_possible e t) eqn:Hp.
  - destruct (init_dies e t) eqn:Hd.
    { right. rewrite (init_dies_panics t e Hd). split; [done|]. by exists [], e, es, t. }
    destruct (proc_step_Ok t ps e Hpo Hp Hd) as (t1 & ps1 & E & Hpo1). rewrite E. cbn [rbind].
    destruct (IH t1 ps1 Hpo1) as [Hw|(Hk & es1 & e' & es2 & t2 & -> & E1 & H)]; [by left|right]. split; [done|].
    exists (e :: es1), e', es2, t2. cbn [proc_run app]. by rewrite Hp, E.
  - destruct (IH t ps Hpo) as [Hw|(Hk & es1 & e' & es2 & t2 & -> & E1 & H)]; [by left|right]. split; [done|].
    exists (e :: es1), e', es2, t2. cbn [proc_run app]. by rewrite Hp.
Qed.
End safe.

(** ** Properties *)

(** C4: under every sequence of forks, exits, calls of [do_wait], returns from
    its [schedule], kills and scheduler events the process management neither
    faults nor hangs, and its invariants hold at the end (the process list, the
    hash table, the family links and the run queue agree, pids are unique,
    zombies have no children, and no process but a sleeping one has something to
    wait for), with one exception: the kernel panics when [initproc] exits, be
    it by itself or because it was killed while it waited for its children.
    Forks have the memory they need, and idle does not exit or wait. *)
Theorem process_events_safe (SC : sched_class) (repr : kern -> list Z -> Prop)
    (put : list Z -> Z -> list Z) (pick : list Z -> option Z) (laws : SchedClassLaws SC repr put pick)
    (es : list proc_event) (t : ptable) (ps : list Z) :
  procs_ok repr t ps ->
  (exists t' ps', proc_run es t = Ok t' /\ procs_ok repr t' ps') \/
  (proc_run es t = Err KPanic /\
   exists es1 e es2 t1, es = es1 ++ e :: es2 /\ proc_run es1 t = Ok t1 /\ proc_possible e t1 = true /\ init_dies e t1 = true).
Proof. apply (proc_run_Ok repr put pick es t ps). Qed.

(** C33: [get_pid] ends and answers a pid in range that no process has, as
    long as there are fewer than [MAX_PROCESS] processes; the interval it keeps
    for the next call holds no pid in use. *)
Theorem get_pid_unique (t : ptable) (ps : list Z) :
  pids_ok t ps -> Z.of_nat (length ps) < MAX_PROCESS ->
  exists n s, get_pid t = Ok (n, set_pids s n t) /\ 1 <= n < MAX_PID /\ (n ∉ pids t ps) /\ n < s <= MAX_PID /\
    forall p, p ∈ ps -> ~ (n <= pid_of t p < s).
Proof. change MAX_PROCESS with 4096. intros Hok Hl. apply get_pid_Ok; [done|lia]. Qed.

(** A new process gets a fresh pid, is runnable, is the youngest child of
    the process that forks, and is found by its pid; the invariants hold with
    it. *)
Theorem fork_registers (SC : sched_class) (repr : kern -> list Z -> Prop)
    (put : list Z -> Z -> list Z) (pick : list Z -> option Z) (laws : SchedClassLaws SC repr put pick)
    (t : ptable) (ps : list Z) (p bd : Z) (fs : option Z) :
  procs_ok repr t ps -> procs (pk t) !! p = None -> 0 <= p -> Z.of_nat (length ps) < MAX_PROCESS - 1 ->
  exists n t', do_fork_table (Some p) bd fs t = Ok (n, t') /\ procs_ok repr t' (p :: ps) /\ 1 <= n < MAX_PID /\
    (n ∉ pids t ps) /\ runnable (pk t') p /\ fld parent t' p = Some (Some (current (pk t))) /\
    find_proc n t' = Ok (Some p).
Proof.
  intros Hpo Hp H0 Hl. destruct (fork_Ok repr put pick t ps p bd fs Hpo Hp H0 Hl) as (n & t' & E & Hpo' & H1 & H2 & H3 & H4 & H5).
  exists n, t'. split_and!; try done; [apply H1..|]. pose proof (pt_table _ _ (bo_table _ _ _ (po_base _ _ _ Hpo'))) as Ht.
  rewrite <- H3. apply (find_proc_self t' (p :: ps)); [done|by left].
Qed.

(** C34: [do_exit] leaves a zombie with its exit code and no children, hands
    all its children to [initproc] in front of those it has, leaves every other
    family as it was, and wakes a parent that waits for a child. *)
Theorem exit_reparents (SC : sched_class) (repr : kern -> list Z -> Prop)
    (put : list Z -> Z -> list Z) (pick : list Z -> option Z) (laws : SchedClassLaws SC repr put pick)
    (t : ptable) (ps : list Z) (code : Z) :
  procs_ok repr t ps -> current (pk t) <> idleproc (pk t) -> current (pk t) <> initproc (pk t) ->
  exists t' kids kids', proc_step (PExit code) t = Ok t' /\ procs_ok repr t' ps /\ exited t t' ps kids kids' code.
Proof.
  intros Hpo H1 H2. destruct (exit_Ok repr put pick t ps code Hpo H1 H2) as (t1 & t' & k1 & k2 & E & E2 & Hpo' & Hx).
  exists t', k1, k2. cbn [proc_step]. rewrite E. cbn [rbind]. done.
Qed.

(** C35: what [do_wait] does: a zombie among the children asked for is taken
    off all lists, its exit code is the answer and its pid is free again; if
    the children asked for all live the process sleeps; otherwise there is no
    such child. *)
Theorem wait_finds (SC : sched_class) (repr : kern -> list Z -> Prop)
    (put : list Z -> Z -> list Z) (pick : list Z -> option Z) (laws : SchedClassLaws SC repr put pick)
    (t : ptable) (ps : list Z) (pd : Z) :
  procs_ok repr t ps -> exists r, do_wait_scan pd t = Ok r /\ scan_answer t ps pd r /\
    match r with
    | WFound p => exists c ks t' l1 l2, do_wait_found p t = Ok (c, ks, t') /\ fld exit_code t p = Some c /\ ps = l1 ++ p :: l2 /\
        procs_ok repr t' (l1 ++ l2) /\ procs (pk t') !! p = None /\ find_proc (pid_of t p) t' = Ok None
    | _ => True
    end.
Proof.
  intros Hpo. pose proof Hpo as [Hb Hrun]. pose proof (bo_table _ _ _ Hb) as [Ht _].
  assert (Hcin : current (pk t) ∈ idleproc (pk t) :: ps) by (apply (bo_all _ _ _ Hb), runnable_is_Some, Hrun).
  destruct (wait_scan_Ok t ps pd (bo_table _ _ _ Hb) Hcin) as (r & E & Hr). exists r. split; [done|]. split; [done|].
  destruct r as [p| |]; [|done..]. destruct Hr as [(Hp & _ & _) Hz]. apply fld_Some in Hz as (pr & Hpr & Hz).
  destruct (reap_Ok repr put pick t ps p pr Hpo Hp Hpr Hz) as (t' & l1 & l2 & E' & El & Hpo' & Hnone & Hsome).
  exists (exit_code pr), (kstack pr), t', l1, l2. split_and!; try done; [unfold fld; by rewrite Hpr|].
  pose proof (pt_table _ _ (bo_table _ _ _ (po_base _ _ _ Hpo'))) as Ht'.
  destruct (find_proc_Ok t' (l1 ++ l2) (pid_of t p) Ht') as (o & -> & Ho). destruct o as [q|]; [|done]. exfalso.
  destruct Ho as [Hq Hpq].
  assert (Hqp : q <> p) by (intros ->; apply (po_procs _ _ (tb_pids _ _ Ht')) in Hq as [? ?]; congruence).
  apply Hqp, (tb_inj _ _ Ht); [rewrite El; set_solver|done|]. rewrite <- Hpq. specialize (Hsome q Hqp). unfold pid_of, fld in *.
  destruct (procs (pk t) !! q), (procs (pk t') !! q); simplify_eq/=; done.
Qed.

(** *** Concrete inputs *)

(** [idleproc] 0 and [initproc] 1, which runs and has memory (5) and files
    (7); all buckets but that of pid 1 are empty. *)
Definition hash_init : store :=
  list_to_map ((fun i => (bucket i, mk_entry (bucket i) (bucket i))) <$> seqZ 0 HASH_LIST_SIZE).

Definition ex_table : ptable :=
  let idle := set_cptr (Some 1) (set_state PROC_RUNNABLE zero_proc) in
  let init := set_filesp (Some 7) (set_mm (Some 5) (set_pid 1 (set_parent (Some 0) (set_state PROC_RUNNABLE zero_proc)))) in
  mk_ptable
    (mk_kern {[ 0 := idle; 1 := init ]} 1 0 1
      {[ -1 := mk_entry (-1) (-1); 0 := mk_entry 0 0; 1 := mk_entry 1 1 ]} 0 20 ∅ {[ -2 := mk_entry (-2) (-2) ]})
    {[ -1 := mk_entry 1 1; 1 := mk_entry (-1) (-1) ]}
    (<[1 := mk_entry (bucket 632) (bucket 632)]> (<[bucket 632 := mk_entry 1 1]> hash_init)) 2 MAX_PID 1.

Lemma hash_init_bucket i : 0 <= i < HASH_LIST_SIZE -> hash_init !! bucket i = Some (mk_entry (bucket i) (bucket i)).
Proof.
  intros Hi. unfold hash_init. apply elem_of_list_to_map_1.
  - rewrite <- list_fmap_compose. apply NoDup_fmap_2_strong; [|apply NoDup_seqZ]. intros x y _ _. apply bucket_inj.
  - apply list_elem_of_fmap. exists i. split; [done|]. apply elem_of_seqZ. lia.
Qed.

Lemma ex_table_procs p : is_Some (procs (pk ex_table) !! p) -> p = 0 \/ p = 1.
Proof.
  intros [pr Hp]. unfold ex_table in Hp. cbn [pk procs] in Hp.
  apply lookup_insert_Some in Hp as [[<- _]|[_ Hp]]; [auto|]. apply lookup_singleton_Some in Hp as [<- _]. auto.
Qed.

Lemma ex_table_hash : hash_ok ex_table [1] (fun i => if decide (i = 632) then [1] else []).
Proof.
  split.
  - intros i Hi. cbn [hash_list ex_table]. case_decide as E.
    + subst i. apply dlist_pair; [done| |]; [rewrite lookup_insert_ne by (unfold bucket; lia)|]; by rewrite lookup_insert_eq.
    + apply dlist_self. rewrite !lookup_insert_ne; [by apply hash_init_bucket|intros H%bucket_inj; done|unfold bucket; lia].
  - intros i p Hi. assert (pid_hashfn (pid_of ex_table 1) = 632) as H1 by reflexivity. case_decide as E.
    + rewrite list_elem_of_singleton. split; [intros ->; by rewrite H1|by intros [? _]].
    + split; [by intros []%elem_of_nil|]. intros [->%list_elem_of_singleton E2]. congruence.
Qed.

Lemma ex_table_table : table_ok ex_table [1].
Proof.
  split; [split|..].
  - by apply dlist_pair.
  - intros p ->%list_elem_of_singleton. by eexists.
  - intros p ->%list_elem_of_singleton. done.
  - done.
  - intros p ->%list_elem_of_singleton. change (pid_of ex_table 1) with 1. change (last_pid ex_table) with 1. lia.
  - by intros p q ->%list_elem_of_singleton ->%list_elem_of_singleton.
  - eexists. exact ex_table_hash.
  - done.
  - split; [set_solver|by eexists].
  - intros p [-> | ->]%ex_table_procs; lia.
Qed.

Lemma ex_table_family : family_upto None ex_table [1] (fun p => if decide (p = 0) then [1] else []).
Proof.
  split.
  - intros p Hp. exists None. split; [|done]. assert (p = 0 \/ p = 1) as [-> | ->] by (cbn in Hp; set_solver).
    + split; [repeat constructor; set_solver|done].
    + split; [constructor|done].
  - intros p q Hp. assert (p = 0 \/ p = 1) as [-> | ->] by (cbn in Hp; set_solver); cbn [decide decide_rel].
    + rewrite decide_True, list_elem_of_singleton by done. split; [by intros ->|by intros [? _]].
    + rewrite decide_False by done. split; [by intros []%elem_of_nil|]. by intros [->%list_elem_of_singleton ?].
  - intros q ->%list_elem_of_singleton. exists 0. split; [done|]. split; [by left|done].
Qed.

Lemma ex_table_ok : procs_ok rr_repr ex_table [1].
Proof.
  split; [|by eexists]. split.
  - split; [exact ex_table_table|]. eexists. exact ex_table_family.
  - exists []. split; [split| | |].
    + by apply dlist_self.
    + intros p []%elem_of_nil.
    + intros p [-> | ->]%ex_table_procs; (split; [lia|]); intros _; by apply dlist_self.
    + done.
    + intros p. split; [by intros []%elem_of_nil|]. intros (H1 & H0 & pr & Hp & _).
      destruct (ex_table_procs p) as [-> | ->]; [by eexists|done..].
    + by eexists.
    + by eexists.
  - intros p [-> | ->]%ex_table_procs; [by left|by right; left].
  - split; [by left|]. done.
  - intros p pr Hp _. destruct (ex_table_procs p) as [-> | ->]; [by eexists|by injection Hp as <-..].
  - intros p pr ->%list_elem_of_singleton _ Hp Hz. by injection Hp as <-.
Qed.

Definition current_of (r : res ptable) : option Z := match r with Ok t => Some (current (pk t)) | Err _ => None end.

(** A kill of pid 1 while it waits for its child stops the kernel. *)
Definition kill_init : list proc_event := [PFork 2 0; PWait 0; PKill 1; PSched EYield; PWake 0].
Example kill_init_panics : proc_run kill_init ex_table = Err KPanic.
Proof. vm_compute. reflexivity. Qed.

Lemma process_events_safe_witness : exists t' ps',
  proc_run [PFork 2 0; PFork 3 0; PSched EYield; PFork 4 0; PExit 9; PWait 0; PKill 1; PSched EYield; PSched ETick] ex_table = Ok t' /\
  procs_ok rr_repr t' ps'.
Proof.
  destruct (process_events_safe default_sched_class rr_repr _ _ RR_laws
    [PFork 2 0; PFork 3 0; PSched EYield; PFork 4 0; PExit 9; PWait 0; PKill 1; PSched EYield; PSched ETick] ex_table [1] ex_table_ok)
    as [H|[H _]]; [exact H|].
  exfalso. apply (f_equal current_of) in H. vm_compute in H. discriminate H.
Defined.

Lemma get_pid_unique_witness : exists n s, get_pid ex_table = Ok (n, set_pids s n ex_table) /\ n ∉ pids ex_table [1].
Proof.
  destruct (get_pid_unique ex_table [1]) as (n & s & E & _ & Hn & _).
  - exact (tb_pids _ _ ex_table_table).
  - reflexivity.
  - exists n, s. split; [exact E|exact Hn].
Defined.

Lemma fork_registers_witness : exists n t', do_fork_table (Some 2) 0 None ex_table = Ok (n, t') /\ find_proc n t' = Ok (Some 2).
Proof.
  destruct (fork_registers default_sched_class rr_repr _ _ RR_laws ex_table [1] 2 0 None ex_table_ok) as (n & t' & E & _ & _ & _ & _ & _ & H).
  - reflexivity.
  - lia.
  - reflexivity.
  - exists n, t'. split; [exact E|exact H].
Defined.

Lemma exit_reparents_witness : exists t ps t' kids kids',
  proc_run [PFork 2 0; PSched EYield; PFork 3 0] ex_table = Ok t /\ proc_step (PExit 9) t = Ok t' /\ exited t t' ps kids kids' 9.
Proof.
  destruct (proc_run_Ok rr_repr _ _ [PFork 2 0; PSched EYield; PFork 3 0] ex_table [1] ex_table_ok) as [(t & ps & E & Hpo)|[E _]];
    [|exfalso; apply (f_equal current_of) in E; vm_compute in E; discriminate E].
  assert (current_of (proc_run [PFork 2 0; PSched EYield; PFork 3 0] ex_table) = Some 2) as Hc by (vm_compute; reflexivity).
  assert ((fun t => (idleproc (pk t), initproc (pk t))) <$> match proc_run [PFork 2 0; PSched EYield; PFork 3 0] ex_table with Ok t => Some t | _ => None end
    = Some (0, 1)) as Hi by (vm_compute; reflexivity).
  rewrite E in Hc, Hi. cbn in Hc, Hi. injection Hc as Hc. injection Hi as Hi Hn.
  destruct (exit_reparents default_sched_class rr_repr _ _ RR_laws t ps 9 Hpo) as (t' & k1 & k2 & E' & _ & Hx).
  - rewrite Hc, Hi. lia.
  - rewrite Hc, Hn. lia.
  - exists t, ps, t', k1, k2. split; [exact E|]. split; [exact E'|exact Hx].
Defined.

Lemma wait_finds_witness : exists t ps r,
  proc_run [PFork 2 0; PSched EYield; PExit 9] ex_table = Ok t /\ do_wait_scan 0 t = Ok r /\ scan_answer t ps 0 r.
Proof.
  destruct (proc_run_Ok rr_repr _ _ [PFork 2 0; PSched EYield; PExit 9] ex_table [1] ex_table_ok) as [(t & ps & E & Hpo)|[E _]];
    [|exfalso; apply (f_equal current_of) in E; vm_compute in E; discriminate E].
  destruct (wait_finds default_sched_class rr_repr _ _ RR_laws t ps 0 Hpo) as (r & E' & Hr & _).
  exists t, ps, r. split; [exact E|]. split; [exact E'|exact Hr].
Defined.
