(* ===== verification/IoBuf.v ===== *)
(** * I/O buffers (kern/fs/iobuf.c) and the bytes they carry

    A memory object is the list of its bytes.  An [iobuf] points into such an
    object: [io_base] is a position in [io_data].  Reading or writing outside
    the object is a wild access. *)
From S2P Require Import Prelude.

Definition is_byte (b : Z) : Prop := 0 <= b < 256.

(** [n] bytes from position [i] of an object. *)
Definition mread (l : list Z) (i n : Z) : res (list Z) :=
  if (0 <=? i) && (0 <=? n) then rget (sublist_lookup (Z.to_nat i) (Z.to_nat n) l) else Err WildAccess.
(** Write the bytes [d] at position [i]. *)
Definition mwrite (l : list Z) (i : Z) (d : list Z) : res (list Z) :=
  if (0 <=? i) && (i + Z.of_nat (length d) <=? Z.of_nat (length l))
  then Ok (take (Z.to_nat i) l ++ d ++ drop (Z.to_nat i + length d) l) else Err WildAccess.

(** The bytes of an integer object, least significant first. *)
Fixpoint le_decode (l : list Z) : Z :=
  match l with
  | [] => 0
  | b :: l => b + 256 * le_decode l
  end.
Fixpoint le_encode (n : nat) (z : Z) : list Z :=
  match n with
  | O => []
  | S n => z mod 256 :: le_encode n (z / 256)
  end.

(** ** Operations *)

Record iobuf := mk_iobuf { io_data : list Z; io_base : Z; io_offset : Z; io_len : Z; io_resid : Z }.

Definition iobuf_used (iob : iobuf) : Z := u32 (io_len iob - io_resid iob).

Definition iobuf_init (data : list Z) (base len offset : Z) : iobuf :=
  mk_iobuf data base offset len len.

Definition iobuf_skip (iob : iobuf) (n : Z) : res iobuf :=
  assert! n <=? io_resid iob ;;
  Ok (mk_iobuf (io_data iob) (io_base iob + n) (s32 (io_offset iob + n)) (io_len iob) (io_resid iob - n)).

Definition set_io_data (iob : iobuf) (d : list Z) : iobuf :=
  mk_iobuf d (io_base iob) (io_offset iob) (io_len iob) (io_resid iob).

(** Move between the object [data] and the buffer: the return value, the
    buffer, the object and [*copiedp].  [m2b]: from [data] to the buffer. *)
Definition iobuf_move (iob : iobuf) (data : list Z) (len : Z) (m2b : bool) : res (Z * iobuf * list Z * Z) :=
  let alen := if len <? io_resid iob then len else io_resid iob in
  let ret := if len - alen =? 0 then 0 else - E_NO_MEM in
  if 0 <? alen then
    if m2b then
      let! d := mread data 0 alen in
      let! dst := mwrite (io_data iob) (io_base iob) d in
      let! iob := iobuf_skip (set_io_data iob dst) alen in
      Ok (ret, iob, data, alen)
    else
      let! d := mread (io_data iob) (io_base iob) alen in
      let! dst := mwrite data 0 d in
      let! iob := iobuf_skip iob alen in
      Ok (ret, iob, dst, alen)
  else Ok (ret, iob, data, alen).

Definition iobuf_move_zeros (iob : iobuf) (len : Z) : res (Z * iobuf * Z) :=
  let alen := if len <? io_resid iob then len else io_resid iob in
  let ret := if len - alen =? 0 then 0 else - E_NO_MEM in
  if 0 <? alen then
    let! dst := mwrite (io_data iob) (io_base iob) (replicate (Z.to_nat alen) 0) in
    let! iob := iobuf_skip (set_io_data iob dst) alen in
    Ok (ret, iob, alen)
  else Ok (ret, iob, alen).

(** ** Reading and writing objects *)

Lemma mread_Ok l i n : 0 <= i -> 0 <= n -> i + n <= Z.of_nat (length l) ->
  mread l i n = Ok (take (Z.to_nat n) (drop (Z.to_nat i) l)).
Proof.
  intros Hi Hn Hl. unfold mread. destruct (Z.leb_spec 0 i), (Z.leb_spec 0 n); try lia. cbn [andb].
  by rewrite sublist_lookup_Some by lia.
Qed.

(** The element-wise definition of the overwritten list agrees with the one
    that is computed. *)
Lemma list_inserts_split (i : nat) (d l : list Z) : (i + length d <= length l)%nat ->
  list_inserts i d l = take i l ++ d ++ drop (i + length d) l.
Proof.
  revert i. induction d as [|x d IH]; intros i Hl; cbn [list_inserts length app] in *.
  - by rewrite Nat.add_0_r, take_drop.
  - rewrite IH by lia. replace (i + S (length d))%nat with (S i + length d)%nat by lia.
    destruct (lookup_lt_is_Some_2 l i) as [y Hy]; [lia|]. rewrite (take_S_r l i y) by done. rewrite <- app_assoc.
    rewrite insert_app_r_alt by (rewrite length_take; lia). rewrite length_take, Nat.min_l, Nat.sub_diag by lia. done.
Qed.

Lemma mwrite_Ok l i d : 0 <= i -> i + Z.of_nat (length d) <= Z.of_nat (length l) ->
  mwrite l i d = Ok (list_inserts (Z.to_nat i) d l).
Proof.
  intros Hi Hl. unfold mwrite.
  destruct (Z.leb_spec 0 i), (Z.leb_spec (i + Z.of_nat (length d)) (Z.of_nat (length l))); try lia.
  cbn [andb]. by rewrite list_inserts_split by lia.
Qed.

(** The byte at position [p] (0 outside the object). *)
Definition at_ (l : list Z) (p : Z) : Z := if 0 <=? p then default 0 (l !! Z.to_nat p) else 0.

Lemma at_inserts l i d p : 0 <= i -> i + Z.of_nat (length d) <= Z.of_nat (length l) ->
  at_ (list_inserts (Z.to_nat i) d l) p =
  if (i <=? p) && (p <? i + Z.of_nat (length d)) then at_ d (p - i) else at_ l p.
Proof.
  intros Hi Hl. unfold at_. destruct (Z.leb_spec 0 p).
  2: { destruct (Z.leb_spec i p); [lia|done]. }
  destruct (Z.leb_spec i p), (Z.ltb_spec p (i + Z.of_nat (length d))); cbn [andb].
  - destruct (Z.leb_spec 0 (p - i)); [|lia]. rewrite list_lookup_inserts by lia. do 2 f_equal. lia.
  - by rewrite list_lookup_inserts_ge by lia.
  - by rewrite list_lookup_inserts_lt by lia.
  - by rewrite list_lookup_inserts_lt by lia.
Qed.

Lemma at_sub l i n p : 0 <= i -> 0 <= n -> i + n <= Z.of_nat (length l) -> 0 <= p < n ->
  at_ (take (Z.to_nat n) (drop (Z.to_nat i) l)) p = at_ l (i + p).
Proof.
  intros Hi Hn Hl Hp. unfold at_. destruct (Z.leb_spec 0 p), (Z.leb_spec 0 (i + p)); try lia.
  rewrite lookup_take, lookup_drop, decide_True by lia. do 2 f_equal. lia.
Qed.

Lemma at_ext l k : length l = length k -> (forall p, 0 <= p < Z.of_nat (length l) -> at_ l p = at_ k p) -> l = k.
Proof.
  intros Hl He. apply list_eq_same_length with (length l); [done|done|].
  intros i x y Hi Hx Hy. specialize (He (Z.of_nat i) ltac:(lia)). unfold at_ in He.
  destruct (Z.leb_spec 0 (Z.of_nat i)); [|lia]. rewrite Nat2Z.id, Hx, Hy in He. exact He.
Qed.

Lemma at_replicate n p : at_ (replicate n 0) p = 0.
Proof.
  unfold at_. destruct (0 <=? p); [|done]. destruct (replicate n 0 !! Z.to_nat p) eqn:E; [|done].
  by apply lookup_replicate in E as [-> _].
Qed.

Lemma length_sub (l : list Z) i n : 0 <= i -> 0 <= n -> i + n <= Z.of_nat (length l) ->
  Z.of_nat (length (take (Z.to_nat n) (drop (Z.to_nat i) l))) = n.
Proof. intros. rewrite length_take, length_drop. lia. Qed.

(** ** Little-endian integers *)

Lemma length_le_encode n z : length (le_encode n z) = n.
Proof. revert z. induction n as [|n IH]; intros z; simpl; [done|]. by rewrite IH. Qed.

Lemma le_encode_byte n : forall z, Forall is_byte (le_encode n z).
Proof.
  induction n as [|n IH]; intros z; simpl; constructor; [|apply IH]. apply Z.mod_pos_bound. lia.
Qed.

Lemma le_decode_encode n : forall z, 0 <= z < 256 ^ Z.of_nat n -> le_decode (le_encode n z) = z.
Proof.
  induction n as [|n IH]; intros z Hz; [simpl in *; lia|]. cbn [le_encode le_decode].
  rewrite Nat2Z.inj_succ, Z.pow_succ_r in Hz by lia.
  rewrite IH by (Z.to_euclidean_division_equations; lia). Z.to_euclidean_division_equations. lia.
Qed.

Lemma le_decode_range l : Forall is_byte l -> 0 <= le_decode l < 256 ^ Z.of_nat (length l).
Proof.
  induction 1 as [|b l Hb _ IH]; [simpl; lia|]. cbn [le_decode length].
  rewrite Nat2Z.inj_succ, Z.pow_succ_r by lia. unfold is_byte in Hb. nia.
Qed.

Lemma le_decode_zeros n : le_decode (replicate n 0) = 0.
Proof. induction n as [|n IH]; simpl; [done|]. by rewrite IH. Qed.

(** ** What a move does *)

(** The transfer that the [m2b] move makes: as many bytes of [data] as fit. *)
Lemma iobuf_move_m2b iob data len :
  0 <= len <= Z.of_nat (length data) -> 0 <= io_base iob -> 0 <= io_resid iob ->
  io_base iob + io_resid iob <= Z.of_nat (length (io_data iob)) ->
  let alen := Z.min len (io_resid iob) in
  exists iob', iobuf_move iob data len true = Ok (if len <=? io_resid iob then 0 else - E_NO_MEM, iob', data, alen) /\
    io_data iob' = list_inserts (Z.to_nat (io_base iob)) (take (Z.to_nat alen) data) (io_data iob) /\
    io_resid iob' = io_resid iob - alen /\ io_len iob' = io_len iob /\ io_base iob' = io_base iob + alen.
Proof.
  intros Hlen Hb Hr Hd alen. unfold iobuf_move, iobuf_skip.
  assert (Ea : (if len <? io_resid iob then len else io_resid iob) = alen)
    by (unfold alen; destruct (Z.ltb_spec len (io_resid iob)); lia).
  assert (Er : (if len - alen =? 0 then 0 else - E_NO_MEM) = if len <=? io_resid iob then 0 else - E_NO_MEM)
    by (unfold alen; destruct (Z.eqb_spec (len - Z.min len (io_resid iob)) 0), (Z.leb_spec len (io_resid iob)); (done || lia)).
  assert (Hal : 0 <= alen) by (unfold alen; lia).
  rewrite Ea, Er. destruct (Z.ltb_spec 0 alen).
  - rewrite mread_Ok by (unfold alen in *; lia). cbn [rbind]. change (drop (Z.to_nat 0) data) with data.
    rewrite mwrite_Ok by (rewrite ?length_take; unfold alen in *; lia). cbn [rbind set_io_data io_resid io_data io_base io_offset io_len].
    destruct (Z.leb_spec alen (io_resid iob)); [|unfold alen in *; lia]. cbn [rassert rbind]. eauto 10.
  - assert (alen = 0) as -> by lia. cbn [Z.to_nat take list_inserts].
    eexists. split; [done|]. split_and!; try done; lia.
Qed.

(** ** Parts of an object after a write *)

Lemma sub_inserts_same (l : list Z) i d : (i + length d <= length l)%nat -> take (length d) (drop i (list_inserts i d l)) = d.
Proof.
  intros Hl. apply list_eq. intros k. rewrite lookup_take. case_decide as Hk.
  - rewrite lookup_drop, list_lookup_inserts by lia. f_equal. lia.
  - symmetry. apply lookup_ge_None_2. lia.
Qed.

Lemma sub_inserts_other (l : list Z) i d j n : (j + n <= i \/ i + length d <= j)%nat ->
  take n (drop j (list_inserts i d l)) = take n (drop j l).
Proof.
  intros Hj. apply list_eq. intros k. rewrite !lookup_take. case_decide as Hk; [|done].
  rewrite !lookup_drop. destruct Hj as [Hj|Hj].
  - by rewrite list_lookup_inserts_lt by lia.
  - by rewrite list_lookup_inserts_ge by lia.
Qed.

Lemma Forall_inserts (P : Z -> Prop) d i l : Forall P d -> Forall P l -> Forall P (list_inserts i d l).
Proof.
  intros Hd. revert i. induction Hd as [|x d Hx _ IH]; intros i Hl; simpl; [done|].
  apply Forall_insert; [by apply IH|done].
Qed.

Lemma inserts_all (d l : list Z) : length d = length l -> list_inserts 0 d l = d.
Proof. intros Hl. rewrite <- (app_nil_r d) at 1. rewrite list_inserts_0_l; done. Qed.

(** ** Transfers *)

(** What is left to move lies inside the object. *)
Definition iob_ok (iob : iobuf) : Prop :=
  0 <= io_base iob /\ 0 <= io_resid iob /\ io_base iob + io_resid iob <= Z.of_nat (length (io_data iob)).

(** What a transfer does to a buffer: it moves bytes between the part of the
    object from [io_base] on and the file, and touches no other byte. *)
Record iob_next (iob iob' : iobuf) : Prop := {
  ib_len : io_len iob' = io_len iob;
  ib_resid : 0 <= io_resid iob' <= io_resid iob;
  ib_length : length (io_data iob') = length (io_data iob);
  ib_rest : forall p, ~ io_base iob <= p < io_base iob + (io_resid iob - io_resid iob') -> at_ (io_data iob') p = at_ (io_data iob) p
}.

Lemma iob_next_refl iob : 0 <= io_resid iob -> iob_next iob iob.
Proof. intros H. by split. Qed.

(** A transfer of [alen] bytes through the part of the object from [io_base]
    on: [buf] is that part afterwards. *)
Lemma transfer_next iob buf alen : iob_ok iob -> 0 <= alen <= io_resid iob ->
  length buf = length (drop (Z.to_nat (io_base iob)) (io_data iob)) ->
  (forall k, ~ 0 <= k < alen -> at_ buf k = at_ (drop (Z.to_nat (io_base iob)) (io_data iob)) k) ->
  let iob1 := set_io_data iob (take (Z.to_nat (io_base iob)) (io_data iob) ++ buf) in
  exists iob', (if negb (alen =? 0) then iobuf_skip iob1 alen else Ok iob1) = Ok iob' /\ iob_next iob iob' /\
    io_data iob' = take (Z.to_nat (io_base iob)) (io_data iob) ++ buf.
Proof.
  intros (Hb & Hr & Hl) Ha Hlb Hat iob1. rewrite length_drop in Hlb.
  assert (Hnext : forall iob', io_len iob' = io_len iob -> io_resid iob' = io_resid iob - alen ->
    io_data iob' = take (Z.to_nat (io_base iob)) (io_data iob) ++ buf -> iob_next iob iob').
  { intros iob' E1 E2 E3. split; rewrite ?E2, ?E3; [done|lia|rewrite length_app, length_take; lia|].
    intros p Hp. destruct (Z.lt_ge_cases p 0) as [?|?]; [unfold at_; destruct (Z.leb_spec 0 p); (done || lia)|].
    destruct (Z.lt_ge_cases p (io_base iob)) as [?|?].
    - unfold at_. destruct (Z.leb_spec 0 p); [|done]. f_equal. rewrite lookup_app_l by (rewrite length_take; lia).
      apply lookup_take_lt. lia.
    - specialize (Hat (p - io_base iob) ltac:(lia)). unfold at_ in *.
      destruct (Z.leb_spec 0 (p - io_base iob)); [|lia]. destruct (Z.leb_spec 0 p); [|lia].
      rewrite lookup_drop in Hat. replace (Z.to_nat (io_base iob) + Z.to_nat (p - io_base iob))%nat with (Z.to_nat p) in Hat by lia.
      rewrite <- Hat. f_equal. rewrite lookup_app_r by (rewrite length_take; lia). f_equal. rewrite length_take. lia. }
  destruct (Z.eqb_spec alen 0) as [->|]; cbn [negb].
  - exists iob1. split; [done|]. split; [|done]. apply Hnext; try done. cbn. lia.
  - unfold iobuf_skip. cbn [iob1 set_io_data io_resid]. destruct (Z.leb_spec alen (io_resid iob)); [|lia]. cbn [rassert rbind].
    eexists. split; [done|]. split; [|done]. by apply Hnext.
Qed.
