(* ===== verification/BlockDev.v ===== *)
(** * Block devices (kern/fs/devs/dev.h, dev_disk0.c)

    The interface a file system uses ([dop_io] of dev.h) as a class of
    operations and two classes of laws; the driver of the flash disk, which
    satisfies the reading law but stores nothing, and a memory disk, which
    satisfies both. *)
From S2P Require Import Prelude Arith IoBuf.

(** ** The interface *)

(** [struct device]: [d_io] gives the return value, the buffer and the device
    after the transfer. *)
Class BlockDev (D : Type) := {
  d_blocks : D -> Z;
  d_blocksize : D -> Z;
  dop_io : D -> iobuf -> bool -> res (Z * iobuf * D)
}.

Definition BLKSIZE : Z := 4096.

(** One whole block, inside the memory object. *)
Definition block_io (iob : iobuf) (b : Z) : Prop :=
  0 <= io_base iob /\ io_base iob + BLKSIZE <= Z.of_nat (length (io_data iob)) /\
  io_offset iob = b * BLKSIZE /\ io_len iob = BLKSIZE /\ io_resid iob = BLKSIZE.

(** What is on the device, and reading it back. *)
Class BlockRead (D : Type) `{BlockDev D} := {
  dblock : D -> Z -> list Z;
  dev_ok : D -> Prop;
  dblock_length d b : length (dblock d b) = 4096%nat;
  dblock_bytes d b : dev_ok d -> Forall is_byte (dblock d b);
  dop_read d iob b : dev_ok d -> 0 <= b < d_blocks d -> block_io iob b ->
    exists iob' d', dop_io d iob false = Ok (0, iob', d') /\
      io_data iob' = list_inserts (Z.to_nat (io_base iob)) (dblock d b) (io_data iob) /\
      dev_ok d' /\ d_blocks d' = d_blocks d /\ forall c, dblock d' c = dblock d c
}.

(** A device that stores what is written.  The flash disk of the kernel does not
    ([disk0_write_block] below); the memory disk at the end of this file does.
    What needs this class speaks of the file system on such a device. *)
Class BlockWrite (D : Type) `{BlockRead D} := {
  dop_write d iob b : dev_ok d -> 0 <= b < d_blocks d -> block_io iob b -> Forall is_byte (io_data iob) ->
    exists iob' d', dop_io d iob true = Ok (0, iob', d') /\ io_data iob' = io_data iob /\
      dev_ok d' /\ d_blocks d' = d_blocks d /\
      forall c, dblock d' c =
        if c =? b then take 4096 (drop (Z.to_nat (io_base iob)) (io_data iob)) else dblock d c
}.

(** ** The flash disk *)

Definition DISK0_BLKSIZE : Z := PGSIZE.
Definition DISK0_BUFSIZE : Z := 4 * DISK0_BLKSIZE.
Definition DISK0_DEVSIZE : Z := 0x400000.

(** The device with the memory it is mapped to ([flash], by address). *)
Record disk0 := mk_disk0 { d0_blocks : Z; d0_blocksize : Z; flash : Z -> Z; disk0_buffer : list Z }.

Definition set_disk0_buffer (d : disk0) (b : list Z) : disk0 :=
  mk_disk0 (d0_blocks d) (d0_blocksize d) (flash d) b.

(** [buf]: what [kmalloc] returned for the buffer. *)
Definition disk0_device_init (flash : Z -> Z) (buf : option (list Z)) : res disk0 :=
  match buf with
  | Some b => Ok (mk_disk0 (DISK0_DEVSIZE / DISK0_BLKSIZE) DISK0_BLKSIZE flash b)
  | None => Err KPanic
  end.

Definition sfs_img_start : Z := 0xbe300000.

(** The bytes of memory from [start] on. *)
Definition mem_bytes (m : Z -> Z) (start n : Z) : list Z := (fun i => m (start + i)) <$> seqZ 0 n.

Definition disk0_read_blks_nolock (d : disk0) (blkno nblks : Z) : res disk0 :=
  let start := u32 (sfs_img_start + u32 (blkno * DISK0_BLKSIZE)) in
  let! b := mwrite (disk0_buffer d) 0 (mem_bytes (flash d) start (u32 (nblks * DISK0_BLKSIZE))) in
  Ok (set_disk0_buffer d b).

(** Only a warning is printed. *)
Definition disk0_write_blks_nolock (d : disk0) (blkno nblks : Z) : res disk0 := Ok d.

(** One round of the transfer, on the buffer, the device, [resid] and [blkno]. *)
Definition disk0_io_round (write : bool) (s : iobuf * disk0 * Z * Z) :
    res ((iobuf * disk0 * Z * Z) + (iobuf * disk0)) :=
  let '(iob, d, resid, blkno) := s in
  if resid =? 0 then Ok (inr (iob, d))
  else if write then
    let! (_, iob, buf, copied) := iobuf_move iob (disk0_buffer d) DISK0_BUFSIZE false in
    assert! negb (copied =? 0) && (copied <=? resid) && (copied mod DISK0_BLKSIZE =? 0) ;;
    let nblks := copied / DISK0_BLKSIZE in
    let! d := disk0_write_blks_nolock (set_disk0_buffer d buf) blkno nblks in
    Ok (inl (iob, d, resid - copied, u32 (blkno + nblks)))
  else
    let alen := if resid <? DISK0_BUFSIZE then resid else DISK0_BUFSIZE in
    let nblks := alen / DISK0_BLKSIZE in
    let! d := disk0_read_blks_nolock d blkno nblks in
    let! (_, iob, _, copied) := iobuf_move iob (disk0_buffer d) alen true in
    assert! (copied =? alen) && (copied mod DISK0_BLKSIZE =? 0) ;;
    Ok (inl (iob, d, resid - copied, u32 (blkno + nblks))).

(** [offset] is an [int]: its quotient and remainder truncate towards 0. *)
Definition disk0_io (d : disk0) (iob : iobuf) (write : bool) : res (Z * iobuf * disk0) :=
  let offset := io_offset iob in
  let resid := io_resid iob in
  let blkno := u32 (Z.quot offset DISK0_BLKSIZE) in
  let nblks := resid / DISK0_BLKSIZE in
  if negb (Z.rem offset DISK0_BLKSIZE =? 0) || negb (resid mod DISK0_BLKSIZE =? 0) then Ok (- E_INVAL, iob, d)
  else if d0_blocks d <? u32 (blkno + nblks) then Ok (- E_INVAL, iob, d)
  else if nblks =? 0 then Ok (0, iob, d)
  else
    let! (iob, d) := loop (disk0_io_round write) (iob, d, resid, blkno) in
    Ok (0, iob, d).

#[export] Instance disk0_dev : BlockDev disk0 :=
  { d_blocks := d0_blocks; d_blocksize := d0_blocksize; dop_io := disk0_io }.

(** ** What the flash disk does with one block *)

Definition disk0_block (d : disk0) (b : Z) : list Z := mem_bytes (flash d) (sfs_img_start + b * BLKSIZE) BLKSIZE.

Record disk0_ok (d : disk0) : Prop := {
  d0_nblocks : d0_blocks d = 1024;
  d0_buf : Z.of_nat (length (disk0_buffer d)) = 16384;
  d0_bytes : forall a, is_byte (flash d a)
}.

Lemma length_mem_bytes m s n : 0 <= n -> length (mem_bytes m s n) = Z.to_nat n.
Proof. intros. unfold mem_bytes. by rewrite length_fmap, length_seqZ. Qed.

Lemma mem_bytes_Forall m s n : (forall a, is_byte (m a)) -> Forall is_byte (mem_bytes m s n).
Proof. intros Hb. apply Forall_fmap, Forall_true. intros x. apply Hb. Qed.

Lemma mwrite_prefix d l : (length d <= length l)%nat -> mwrite l 0 d = Ok (d ++ drop (length d) l).
Proof.
  intros Hl. rewrite mwrite_Ok by lia. f_equal. rewrite <- (take_drop (length d) l) at 1.
  change (Z.to_nat 0) with (0%nat + 0)%nat.
  assert (Ht : length (take (length d) l) = length d) by (rewrite length_take; lia).
  generalize (take (length d) l) Ht. clear. intros t Ht.
  change (0 + 0)%nat with 0%nat.
  apply list_eq. intros i. destruct (decide (i < length d)%nat) as [Hi|Hi].
  - rewrite list_lookup_inserts by (rewrite ?length_app; lia). rewrite lookup_app_l by lia. f_equal. lia.
  - rewrite list_lookup_inserts_ge by lia. rewrite !lookup_app_r by lia. f_equal. lia.
Qed.

Lemma disk0_io_start d iob b write : disk0_ok d -> 0 <= b < 1024 -> block_io iob b ->
  disk0_io d iob write =
  let! (iob, d) := loop (disk0_io_round write) (iob, d, 4096, b) in Ok (0, iob, d).
Proof.
  intros Hd Hb (_ & _ & Ho & _ & Hr). unfold disk0_io, DISK0_BLKSIZE, PGSIZE, BLKSIZE in *. rewrite Ho, Hr.
  change (4096 / 4096) with 1.
  rewrite Z.quot_mul, Z.rem_mul, (u32_id b), (u32_id (b + 1)) by (unfold is_u32, two32; lia).
  destruct (Z.ltb_spec (d0_blocks d) (b + 1)) as [Hlt|]; [rewrite (d0_nblocks d Hd) in Hlt; lia|]. done.
Qed.

Lemma disk0_read_block d iob b : disk0_ok d -> 0 <= b < 1024 -> block_io iob b ->
  exists iob' d', disk0_io d iob false = Ok (0, iob', d') /\
    io_data iob' = list_inserts (Z.to_nat (io_base iob)) (disk0_block d b) (io_data iob) /\
    disk0_ok d' /\ flash d' = flash d.
Proof.
  intros Hd Hb Hio. rewrite (disk0_io_start d iob b false Hd Hb Hio). destruct Hio as (H0 & Hin & _ & Hl & Hr).
  set (start := sfs_img_start + b * BLKSIZE).
  assert (Hbuf : length (mem_bytes (flash d) start 4096) = 4096%nat) by (by rewrite length_mem_bytes by lia).
  set (buf := mem_bytes (flash d) start 4096 ++ drop 4096 (disk0_buffer d)).
  assert (Hlb : Z.of_nat (length buf) = 16384) by (unfold buf; rewrite length_app, length_drop, Hbuf; pose proof (d0_buf d Hd); lia).
  assert (Erd : disk0_read_blks_nolock d b 1 = Ok (set_disk0_buffer d buf)).
  { unfold disk0_read_blks_nolock, DISK0_BLKSIZE, PGSIZE. change (u32 (1 * 4096)) with 4096.
    rewrite (u32_id (b * 4096)), u32_id by (unfold is_u32, two32, sfs_img_start; lia).
    change (sfs_img_start + b * 4096) with start. rewrite mwrite_prefix by (rewrite Hbuf; pose proof (d0_buf d Hd); lia).
    cbn [rbind]. by rewrite Hbuf. }
  destruct (iobuf_move_m2b iob buf 4096) as (iob' & E & Ed & Er & _); [lia|lia| |by rewrite Hr|].
  { rewrite Hr. done. }
  rewrite Hr in E, Ed. change (4096 <=? BLKSIZE) with true in E. change (Z.min 4096 BLKSIZE) with 4096 in E, Ed.
  exists iob', (set_disk0_buffer d buf). split.
  - rewrite (loop_rounds 2 _ _ (iob', set_disk0_buffer d buf)); [done| |done]. cbn [rounds]. unfold disk0_io_round at 1.
    change (4096 =? 0) with false. change (4096 <? DISK0_BUFSIZE) with true.
    cbn iota. change (4096 / DISK0_BLKSIZE) with 1. rewrite Erd. cbn [rbind disk0_buffer set_disk0_buffer].
    rewrite E. cbn [rbind]. reflexivity.
  - split; [|split; [|done]].
    + assert (Ht : take (Z.to_nat 4096) buf = mem_bytes (flash d) start 4096).
      { replace (Z.to_nat 4096) with (length (mem_bytes (flash d) start 4096)) by (rewrite Hbuf; lia).
        apply take_app_length. }
      rewrite Ed, Ht. exact eq_refl.
    + split; [apply Hd|exact Hlb|apply Hd].
Qed.

#[export] Instance disk0_read : BlockRead disk0.
Proof.
  refine {| dblock := disk0_block; dev_ok := disk0_ok |}.
  - intros d b. unfold disk0_block. by rewrite length_mem_bytes by (unfold BLKSIZE; lia).
  - intros d b Hd. apply mem_bytes_Forall, Hd.
  - intros d iob b Hd Hb Hio. cbn in Hb. rewrite (d0_nblocks d Hd) in Hb.
    destruct (disk0_read_block d iob b Hd Hb Hio) as (iob' & d' & E & Ed & Hd' & Ef).
    exists iob', d'. split; [done|]. split; [done|]. split; [done|].
    cbn. rewrite (d0_nblocks d Hd), (d0_nblocks d' Hd'). split; [done|]. intros c. unfold disk0_block. by rewrite Ef.
Defined.

(** Writing a block to the flash disk reports success and stores nothing. *)
Lemma disk0_write_block d iob b : disk0_ok d -> 0 <= b < 1024 -> block_io iob b ->
  exists iob' d', disk0_io d iob true = Ok (0, iob', d') /\ disk0_ok d' /\ forall c, disk0_block d' c = disk0_block d c.
Proof.
  intros Hd Hb Hio. rewrite (disk0_io_start d iob b true Hd Hb Hio). destruct Hio as (H0 & Hin & _ & Hl & Hr).
  unfold BLKSIZE in *. pose proof (d0_buf d Hd) as Hbuf.
  set (dat := take (Z.to_nat 4096) (drop (Z.to_nat (io_base iob)) (io_data iob))).
  assert (Hdat : Z.of_nat (length dat) = 4096) by (apply length_sub; lia).
  set (buf := list_inserts (Z.to_nat 0) dat (disk0_buffer d)).
  assert (Hlb : Z.of_nat (length buf) = 16384) by (unfold buf; by rewrite length_inserts).
  set (iob' := mk_iobuf (io_data iob) (io_base iob + 4096) (s32 (io_offset iob + 4096)) (io_len iob) (io_resid iob - 4096)).
  exists iob', (set_disk0_buffer d buf). split; [|split; [split; [apply Hd|exact Hlb|apply Hd]|done]].
  rewrite (loop_rounds 2 _ _ (iob', set_disk0_buffer d buf)); [done| |done]. cbn [rounds]. unfold disk0_io_round at 1.
  change (4096 =? 0) with false. cbn iota. unfold iobuf_move. rewrite Hr. change (DISK0_BUFSIZE <? 4096) with false.
  cbn iota. change (0 <? 4096) with true. cbn iota. rewrite mread_Ok by lia. fold dat. cbn [rbind].
  rewrite mwrite_Ok by lia. fold buf. cbn [rbind]. unfold iobuf_skip. rewrite Hr.
  change (4096 <=? 4096) with true. unfold iob'. rewrite Hr. reflexivity.
Qed.

(** ** A memory disk

    A device that stores what is written to it, as the file system expects. *)

Record ramdisk := mk_ramdisk { rd_blocks : Z; rd_data : gmap Z (list Z) }.

Definition rd_block (d : ramdisk) (b : Z) : list Z := resize 4096 0 (default [] (rd_data d !! b)).

Definition ramdisk_io (d : ramdisk) (iob : iobuf) (write : bool) : res (Z * iobuf * ramdisk) :=
  let b := io_offset iob / BLKSIZE in
  if negb (io_offset iob mod BLKSIZE =? 0) || negb (io_resid iob =? BLKSIZE) || (rd_blocks d <=? b)
  then Ok (- E_INVAL, iob, d)
  else if write then
    let! l := mread (io_data iob) (io_base iob) BLKSIZE in
    let! iob := iobuf_skip iob BLKSIZE in
    Ok (0, iob, mk_ramdisk (rd_blocks d) (<[b := l]> (rd_data d)))
  else
    let! l := mwrite (io_data iob) (io_base iob) (rd_block d b) in
    let! iob := iobuf_skip (set_io_data iob l) BLKSIZE in
    Ok (0, iob, d).

#[export] Instance ramdisk_dev : BlockDev ramdisk :=
  { d_blocks := rd_blocks; d_blocksize := fun _ => BLKSIZE; dop_io := ramdisk_io }.

Definition ramdisk_ok (d : ramdisk) : Prop := map_Forall (fun _ => Forall is_byte) (rd_data d).

Lemma length_rd_block d b : length (rd_block d b) = 4096%nat.
Proof. apply length_resize. Qed.

Lemma ramdisk_io_cond d iob b : 0 <= b < rd_blocks d -> block_io iob b ->
  negb (io_offset iob mod BLKSIZE =? 0) || negb (io_resid iob =? BLKSIZE) || (rd_blocks d <=? io_offset iob / BLKSIZE) = false /\
  io_offset iob / BLKSIZE = b.
Proof.
  intros Hb (_ & _ & Ho & _ & Hr). rewrite Ho, Hr. unfold BLKSIZE. rewrite Z.mod_mul, Z.div_mul by lia.
  split; [|done]. cbn. apply Z.leb_gt. lia.
Qed.

#[export] Instance ramdisk_read : BlockRead ramdisk.
Proof.
  refine {| dblock := rd_block; dev_ok := ramdisk_ok |}.
  - apply length_rd_block.
  - intros d b Hd. unfold rd_block. apply Forall_resize; [unfold is_byte; lia|].
    destruct (rd_data d !! b) eqn:E; simpl; [by apply (Hd b)|constructor].
  - intros d iob b Hd Hb Hio. cbn. unfold ramdisk_io.
    destruct (ramdisk_io_cond d iob b Hb Hio) as [-> ->].
    destruct Hio as (H0 & Hin & _ & _ & Hr). rewrite mwrite_Ok by (rewrite ?length_rd_block; unfold BLKSIZE in *; lia).
    cbn [rbind]. unfold iobuf_skip. cbn [io_resid set_io_data]. rewrite Hr. cbn [rbind rassert Z.leb Z.compare BLKSIZE].
    eexists _, _. split; [reflexivity|]. done.
Defined.

#[export] Instance ramdisk_write : BlockWrite ramdisk.
Proof.
  refine {| dop_write := _ |}.
  intros d iob b Hd Hb Hio Hby. cbn. unfold ramdisk_io.
  destruct (ramdisk_io_cond d iob b Hb Hio) as [-> ->].
  destruct Hio as (H0 & Hin & _ & _ & Hr). rewrite mread_Ok by (unfold BLKSIZE in *; lia).
  cbn [rbind]. unfold iobuf_skip. rewrite Hr. cbn [rbind rassert Z.leb Z.compare BLKSIZE].
  change (Z.to_nat BLKSIZE) with 4096%nat. set (l := take 4096 _).
  assert (Hl : length l = 4096%nat).
  { pose proof (length_sub (io_data iob) (io_base iob) 4096) as Hs. change (Z.to_nat 4096) with 4096%nat in Hs.
    fold l in Hs. unfold BLKSIZE in *. lia. }
  eexists _, _. split; [reflexivity|]. cbn. split; [done|]. split.
  { unfold ramdisk_ok. cbn. apply map_Forall_insert_2; [|done]. by apply Forall_take, Forall_drop. }
  split; [done|]. intros c. unfold rd_block. cbn. destruct (Z.eqb_spec c b) as [->|].
  - rewrite lookup_insert_eq. cbn. by rewrite <- Hl, resize_all.
  - by rewrite lookup_insert_ne by done.
Defined.
