(* ===== verification/Sfs.v ===== *)
(** * The simple file system: data and operations (kern/fs/sfs)

    sfs.h, sfs_io.c, sfs_fs.c (mounting) and the operations of sfs_inode.c on
    one inode.  A file system is its super block, its device, the bitmap of
    free blocks and the block buffer; an operation returns its result and the
    new state.  Each runs under the semaphores it takes ([lock_sfs_io],
    [lock_sin]), which serialise it; they are modelled in [Sync].  A C string
    argument is the list of its bytes before the terminating NUL. *)
From S2P Require Import Prelude Arith CString Bitmap IoBuf BlockDev.

(** ** Constants (sfs.h) *)

Definition SFS_MAGIC : Z := 0x2f8dbe2a.
Definition SFS_BLKSIZE : Z := PGSIZE.
Definition SFS_NDIRECT : Z := 12.
Definition SFS_MAX_INFO_LEN : Z := 31.
Definition SFS_MAX_FNAME_LEN : Z := 255.
Definition SFS_MAX_FILE_SIZE : Z := 1024 * 1024 * 128.
Definition SFS_BLKN_SUPER : Z := 0.
Definition SFS_BLKN_ROOT : Z := 1.
Definition SFS_BLKN_FREEMAP : Z := 2.
Definition SFS_BLKBITS : Z := SFS_BLKSIZE * 8.
Definition SFS_BLK_NENTRY : Z := SFS_BLKSIZE / 4.
Definition SFS_TYPE_FILE : Z := 1.
Definition SFS_TYPE_DIR : Z := 2.
Definition SFS_TYPE_LINK : Z := 3.
Definition S_IFREG : Z := 0x1000.
Definition S_IFDIR : Z := 0x2000.
Definition S_IFLNK : Z := 0x3000.

(** ** Data *)

Record sfs_super := mk_super { magic : Z; blocks : Z; unused_blocks : Z; info : list Z }.

Record sfs_disk_inode := mk_din {
  dsize : Z; dtype : Z; nlinks : Z; dblocks : Z; direct : list Z; indirect : Z }.

Record sfs_inode := mk_sin { din : sfs_disk_inode; ino : Z; dirty : bool; reclaim_count : Z }.

Record sfs_fs (D : Type) := mk_sfs {
  super : sfs_super; dev : D; freemap : bitmap; super_dirty : bool; sfs_buffer : list Z }.
Arguments mk_sfs {D}. Arguments super {D}. Arguments dev {D}. Arguments freemap {D}.
Arguments super_dirty {D}. Arguments sfs_buffer {D}.

Definition set_size (d : sfs_disk_inode) (n : Z) := mk_din n (dtype d) (nlinks d) (dblocks d) (direct d) (indirect d).
Definition set_blocks (d : sfs_disk_inode) (n : Z) := mk_din (dsize d) (dtype d) (nlinks d) n (direct d) (indirect d).
Definition set_direct (d : sfs_disk_inode) (i b : Z) :=
  mk_din (dsize d) (dtype d) (nlinks d) (dblocks d) (<[Z.to_nat i := b]> (direct d)) (indirect d).
Definition set_indirect (d : sfs_disk_inode) (b : Z) :=
  mk_din (dsize d) (dtype d) (nlinks d) (dblocks d) (direct d) b.
Definition set_din (s : sfs_inode) (d : sfs_disk_inode) := mk_sin d (ino s) (dirty s) (reclaim_count s).
Definition set_dirty (s : sfs_inode) (b : bool) := mk_sin (din s) (ino s) b (reclaim_count s).

Definition set_dev {D} (s : sfs_fs D) (d : D) := mk_sfs (super s) d (freemap s) (super_dirty s) (sfs_buffer s).
Definition set_buffer {D} (s : sfs_fs D) (b : list Z) := mk_sfs (super s) (dev s) (freemap s) (super_dirty s) b.
(** The free map changes together with [super.unused_blocks] and [super_dirty]. *)
Definition set_free {D} (s : sfs_fs D) (n : Z) (m : bitmap) :=
  mk_sfs (mk_super (magic (super s)) (blocks (super s)) n (info (super s))) (dev s) m true (sfs_buffer s).
Definition set_super_dirty {D} (s : sfs_fs D) (b : bool) := mk_sfs (super s) (dev s) (freemap s) b (sfs_buffer s).

(** The bytes of the structures on disk. *)
Definition super_bytes (s : sfs_super) : list Z :=
  le_encode 4 (magic s) ++ le_encode 4 (blocks s) ++ le_encode 4 (unused_blocks s) ++ info s.
Definition din_bytes (d : sfs_disk_inode) : list Z :=
  le_encode 4 (dsize d) ++ le_encode 2 (dtype d) ++ le_encode 2 (nlinks d) ++ le_encode 4 (dblocks d) ++
  concat (le_encode 4 <$> direct d) ++ le_encode 4 (indirect d).
Definition word_at (l : list Z) (i : nat) : Z := le_decode (take 4 (drop i l)).
Definition half_at (l : list Z) (i : nat) : Z := le_decode (take 2 (drop i l)).
Definition bytes_super (l : list Z) : sfs_super :=
  mk_super (word_at l 0) (word_at l 4) (word_at l 8) (take 32 (drop 12 l)).
Definition bytes_din (l : list Z) : sfs_disk_inode :=
  mk_din (word_at l 0) (half_at l 4) (half_at l 6) (word_at l 8)
    ((fun i => word_at l (12 + 4 * i)) <$> seq 0 12) (word_at l 60).
Definition SIZEOF_DIN : Z := 64.
(** [struct sfs_disk_entry]: the inode's block, then the name. *)
Definition SIZEOF_ENTRY : Z := 260.
Definition sfs_dentry_size : Z := 256.
Definition entry_ino (e : list Z) : Z := word_at e 0.
Definition entry_name (e : list Z) : list Z := drop 4 e.

Section Sfs.
  Context {D : Type} `{!BlockDev D}.
  Implicit Types (s : sfs_fs D) (sin : sfs_inode).

  (** ** Block I/O (sfs_io.c) *)

Definition sfs_rwblock_nolock s (buf : list Z) (base blkno : Z) (write check : bool) : res (Z * list Z * sfs_fs D) :=
    assert! (negb (blkno =? 0) || negb check) && (blkno <? blocks (super s)) ;;
    let iob := iobuf_init buf base SFS_BLKSIZE (s32 (blkno * SFS_BLKSIZE)) in
    let! (ret, iob, d) := dop_io (dev s) iob write in
    Ok (ret, io_data iob, set_dev s d).

Definition sfs_rwblock s (buf : list Z) (base blkno nblks : Z) (write : bool) : res (Z * list Z * sfs_fs D) :=
    loop (fun '(buf, base, blkno, nblks, s) =>
      if nblks =? 0 then Ok (inr (0, buf, s))
      else
        let! (ret, buf, s) := sfs_rwblock_nolock s buf base blkno write true in
        if negb (ret =? 0) then Ok (inr (ret, buf, s))
        else Ok (inl (buf, base + SFS_BLKSIZE, u32 (blkno + 1), nblks - 1, s)))
      (buf, base, blkno, nblks, s).

Definition sfs_rblock s (buf : list Z) (base blkno nblks : Z) := sfs_rwblock s buf base blkno nblks false.
Definition sfs_wblock s (buf : list Z) (base blkno nblks : Z) := sfs_rwblock s buf base blkno nblks true.

Definition sfs_rbuf s (buf : list Z) (base len blkno offset : Z) : res (Z * list Z * sfs_fs D) :=
    assert! (0 <=? offset) && (offset <? SFS_BLKSIZE) && (u32 (offset + len) <=? SFS_BLKSIZE) ;;
    let! (ret, b, s) := sfs_rwblock_nolock s (sfs_buffer s) 0 blkno false true in
    let s := set_buffer s b in
    if ret =? 0 then
      let! d := mread (sfs_buffer s) offset len in
      let! buf := mwrite buf base d in
      Ok (ret, buf, s)
    else Ok (ret, buf, s).

Definition sfs_wbuf s (buf : list Z) (base len blkno offset : Z) : res (Z * list Z * sfs_fs D) :=
    assert! (0 <=? offset) && (offset <? SFS_BLKSIZE) && (u32 (offset + len) <=? SFS_BLKSIZE) ;;
    let! (ret, b, s) := sfs_rwblock_nolock s (sfs_buffer s) 0 blkno false true in
    let s := set_buffer s b in
    if ret =? 0 then
      let! d := mread buf base len in
      let! b := mwrite (sfs_buffer s) offset d in
      let! (ret, b, s) := sfs_rwblock_nolock (set_buffer s b) b 0 blkno true true in
      Ok (ret, buf, set_buffer s b)
    else Ok (ret, buf, s).

Definition sfs_sync_super s : res (Z * sfs_fs D) :=
    let! b := mwrite (replicate (Z.to_nat SFS_BLKSIZE) 0) 0 (super_bytes (super s)) in
    let! (ret, b, s) := sfs_rwblock_nolock (set_buffer s b) b 0 SFS_BLKN_SUPER true false in
    Ok (ret, set_buffer s b).

Definition sfs_freemap_bits (sp : sfs_super) : Z := ROUNDUP (blocks sp) SFS_BLKBITS.
Definition sfs_freemap_blocks (sp : sfs_super) : Z := ROUNDUP_DIV (blocks sp) SFS_BLKBITS.

Definition sfs_sync_freemap s : res (Z * sfs_fs D) :=
    let data := concat (le_encode 4 <$> fst (bitmap_getdata (freemap s))) in
    let! (ret, _, s) := sfs_wblock s data 0 SFS_BLKN_FREEMAP (sfs_freemap_blocks (super s)) in
    Ok (ret, s).

  (** The result is unspecified when [nblks] is 0; every caller passes 1. *)
Definition sfs_clear_block s (blkno nblks : Z) : res (Z * sfs_fs D) :=
    loop (fun '(ret, blkno, nblks, s) =>
      if nblks =? 0 then Ok (inr (ret, s))
      else
        let! (ret, b, s) := sfs_rwblock_nolock s (sfs_buffer s) 0 blkno true true in
        let s := set_buffer s b in
        if negb (ret =? 0) then Ok (inr (ret, s))
        else Ok (inl (ret, u32 (blkno + 1), nblks - 1, s)))
      (0, blkno, nblks, set_buffer s (replicate (Z.to_nat SFS_BLKSIZE) 0)).

  (** ** Allocation of blocks (sfs_inode.c) *)

Definition sfs_block_inuse s (ino : Z) : res bool :=
    if negb (ino =? 0) && (ino <? blocks (super s)) then
      let! b := bitmap_test (freemap s) ino in Ok (negb b)
    else Err KPanic.

  (** The return value, [*ino_store] and the state. *)
Definition sfs_block_alloc s : res (Z * Z * sfs_fs D) :=
    let! (ret, i, m) := bitmap_alloc (freemap s) in
    if negb (ret =? 0) then Ok (ret, 0, s)
    else
      let ino := default 0 i in
      assert! 0 <? unused_blocks (super s) ;;
      let s := set_free s (unused_blocks (super s) - 1) m in
      let! u := sfs_block_inuse s ino in
      assert! u ;;
      let! (ret, s) := sfs_clear_block s ino 1 in
      Ok (ret, ino, s).

Definition sfs_block_free s (ino : Z) : res (sfs_fs D) :=
    let! u := sfs_block_inuse s ino in
    assert! u ;;
    let! m := bitmap_free (freemap s) ino in
    Ok (set_free s (u32 (unused_blocks (super s) + 1)) m).

  (** ** The block map of an inode *)

Definition bmap_failed_cleanup s (ret ent0 ent : Z) : res (Z * Z * Z * sfs_fs D) :=
    if negb (ent =? ent0) then let! s := sfs_block_free s ent in Ok (ret, ent0, 0, s)
    else Ok (ret, ent0, 0, s).

  (** A new block, entered in the entry block [ent]. *)
Definition bmap_sub_alloc s (ent0 ent offset : Z) : res (Z * Z * Z * sfs_fs D) :=
    let! (ret, ino, s) := sfs_block_alloc s in
    if negb (ret =? 0) then bmap_failed_cleanup s ret ent0 ent
    else
      let! (ret, _, s) := sfs_wbuf s (le_encode 4 ino) 0 4 ent offset in
      if negb (ret =? 0) then let! s := sfs_block_free s ino in bmap_failed_cleanup s ret ent0 ent
      else Ok (0, ent, ino, s).

  (** The return value, [*entp], [*ino_store] and the state. *)
Definition sfs_bmap_get_sub_nolock s (ent0 index : Z) (create : bool) : res (Z * Z * Z * sfs_fs D) :=
    assert! index <? SFS_BLK_NENTRY ;;
    let offset := index * 4 in
    if negb (ent0 =? 0) then
      let! (ret, b, s) := sfs_rbuf s (le_encode 4 0) 0 4 ent0 offset in
      if negb (ret =? 0) then Ok (ret, ent0, 0, s)
      else
        let ino := le_decode b in
        if negb (ino =? 0) || negb create then Ok (0, ent0, ino, s) else bmap_sub_alloc s ent0 ent0 offset
    else if negb create then Ok (0, ent0, 0, s)
    else
      let! (ret, ent, s) := sfs_block_alloc s in
      if negb (ret =? 0) then Ok (ret, ent0, 0, s) else bmap_sub_alloc s ent0 ent offset.

  (** [out:] of [sfs_bmap_get_nolock]. *)
Definition bmap_get_out s sin (ino : Z) : res (Z * Z * sfs_fs D * sfs_inode) :=
    let! u := if ino =? 0 then Ok true else sfs_block_inuse s ino in
    assert! u ;; Ok (0, ino, s, sin).

  (** The return value, [*ino_store], the file system and the inode. *)
Definition sfs_bmap_get_nolock s sin (index : Z) (create : bool) : res (Z * Z * sfs_fs D * sfs_inode) :=
    if index <? SFS_NDIRECT then
      let! ino := rget (direct (din sin) !! Z.to_nat index) in
      if (ino =? 0) && create then
        let! (ret, ino, s) := sfs_block_alloc s in
        if negb (ret =? 0) then Ok (ret, 0, s, sin)
        else bmap_get_out s (set_dirty (set_din sin (set_direct (din sin) index ino)) true) ino
      else bmap_get_out s sin ino
    else
      let index := index - SFS_NDIRECT in
      if index <? SFS_BLK_NENTRY then
        let! (ret, ent, ino, s) := sfs_bmap_get_sub_nolock s (indirect (din sin)) index create in
        if negb (ret =? 0) then Ok (ret, 0, s, sin)
        else if negb (ent =? indirect (din sin)) then
          assert! indirect (din sin) =? 0 ;;
          bmap_get_out s (set_dirty (set_din sin (set_indirect (din sin) ent)) true) ino
        else bmap_get_out s sin ino
      else Err KPanic.

Definition sfs_bmap_free_sub_nolock s (ent index : Z) : res (Z * sfs_fs D) :=
    let! u := sfs_block_inuse s ent in
    assert! u && (index <? SFS_BLK_NENTRY) ;;
    let offset := index * 4 in
    let! (ret, b, s) := sfs_rbuf s (le_encode 4 0) 0 4 ent offset in
    if negb (ret =? 0) then Ok (ret, s)
    else
      let ino := le_decode b in
      if negb (ino =? 0) then
        let! (ret, _, s) := sfs_wbuf s (le_encode 4 0) 0 4 ent offset in
        if negb (ret =? 0) then Ok (ret, s) else let! s := sfs_block_free s ino in Ok (0, s)
      else Ok (0, s).

Definition sfs_bmap_free_nolock s sin (index : Z) : res (Z * sfs_fs D * sfs_inode) :=
    if index <? SFS_NDIRECT then
      let! ino := rget (direct (din sin) !! Z.to_nat index) in
      if negb (ino =? 0) then
        let! s := sfs_block_free s ino in
        Ok (0, s, set_dirty (set_din sin (set_direct (din sin) index 0)) true)
      else Ok (0, s, sin)
    else
      let index := index - SFS_NDIRECT in
      if index <? SFS_BLK_NENTRY then
        let ent := indirect (din sin) in
        if negb (ent =? 0) then
          let! (ret, s) := sfs_bmap_free_sub_nolock s ent index in Ok (ret, s, sin)
        else Ok (0, s, sin)
      else Ok (0, s, sin).

Definition sfs_bmap_load_nolock s sin (index : Z) : res (Z * Z * sfs_fs D * sfs_inode) :=
    assert! index <=? dblocks (din sin) ;;
    let create := index =? dblocks (din sin) in
    let! (ret, ino, s, sin) := sfs_bmap_get_nolock s sin index create in
    if negb (ret =? 0) then Ok (ret, 0, s, sin)
    else
      let! u := sfs_block_inuse s ino in
      assert! u ;;
      Ok (0, ino, s, if create then set_din sin (set_blocks (din sin) (u32 (dblocks (din sin) + 1))) else sin).

Definition sfs_bmap_truncate_nolock s sin : res (Z * sfs_fs D * sfs_inode) :=
    assert! negb (dblocks (din sin) =? 0) ;;
    let! (ret, s, sin) := sfs_bmap_free_nolock s sin (dblocks (din sin) - 1) in
    if negb (ret =? 0) then Ok (ret, s, sin)
    else Ok (0, s, set_dirty (set_din sin (set_blocks (din sin) (dblocks (din sin) - 1))) true).

  (** ** Reading, writing and resizing a file *)

  (** [sfs_buf_op] and [sfs_block_op] of [sfs_io_nolock]. *)
Definition sfs_buf_op (write : bool) := if write then sfs_wbuf else sfs_rbuf.
Definition sfs_block_op (write : bool) := if write then sfs_wblock else sfs_rblock.

  (** The first part of a transfer, when it does not start on a block boundary. *)
Definition sfs_io_head s sin (buf : list Z) (offset endpos blkno nblks : Z) (write : bool) :
      res (Z * list Z * sfs_fs D * sfs_inode) :=
    let blkoff := offset mod SFS_BLKSIZE in
    let blklen := if 0 <? nblks then SFS_BLKSIZE - blkoff else endpos - offset in
    let! (ret, ino, s, sin) := sfs_bmap_load_nolock s sin blkno in
    assert! ret =? 0 ;;
    let! (ret, buf, s) := sfs_buf_op write s buf 0 blklen ino blkoff in
    assert! ret =? 0 ;;
    Ok (blklen, buf, s, sin).

  (** The whole blocks. *)
Definition sfs_io_body s sin (buf : list Z) (bufptr blkno nblks : Z) (write : bool) :
      res (Z * list Z * sfs_fs D * sfs_inode) :=
    let! (ret, ino, s, sin) := sfs_bmap_load_nolock s sin blkno in
    assert! ret =? 0 ;;
    let! (ret, buf, s) := sfs_block_op write s buf bufptr ino nblks in
    assert! ret =? 0 ;;
    Ok (bufptr + u32 (nblks * SFS_BLKSIZE), buf, s, sin).

  (** The beginning of the last block. *)
Definition sfs_io_tail s sin (buf : list Z) (bufptr endpos : Z) (write : bool) :
      res (Z * list Z * sfs_fs D * sfs_inode) :=
    let blkend := endpos mod SFS_BLKSIZE in
    let! (ret, ino, s, sin) := sfs_bmap_load_nolock s sin (endpos / SFS_BLKSIZE) in
    assert! ret =? 0 ;;
    let! (ret, buf, s) := sfs_buf_op write s buf bufptr blkend ino 0 in
    assert! ret =? 0 ;;
    Ok (bufptr + blkend, buf, s, sin).

  (** The transfer proper, [offset] to [endpos]: the number of bytes moved. *)
Definition sfs_io_parts s sin (buf : list Z) (offset endpos : Z) (write : bool) :
      res (Z * list Z * sfs_fs D * sfs_inode) :=
    let blkno := offset / SFS_BLKSIZE in
    let nblks := u32 (endpos / SFS_BLKSIZE - blkno) in
    let blkoff := offset mod SFS_BLKSIZE in
    let blkend := endpos mod SFS_BLKSIZE in
    let single := (0 <? blkoff) && negb (0 <? nblks) in
    let! (bufptr, buf, s, sin) :=
      if 0 <? blkoff then sfs_io_head s sin buf offset endpos blkno nblks write else Ok (0, buf, s, sin) in
    let '(blkno, nblks) :=
      if 0 <? blkoff then (blkno + 1, if 0 <? nblks then nblks - 1 else nblks) else (blkno, nblks) in
    let! (bufptr, buf, s, sin) :=
      if 0 <? nblks then sfs_io_body s sin buf bufptr blkno nblks write else Ok (bufptr, buf, s, sin) in
    if negb single && (0 <? blkend) then sfs_io_tail s sin buf bufptr endpos write else Ok (bufptr, buf, s, sin).

  (** The return value, [*alenp], the memory object behind [buf], the file
      system and the inode. *)
Definition sfs_io_nolock s sin (buf : list Z) (offset alen : Z) (write : bool) :
      res (Z * Z * list Z * sfs_fs D * sfs_inode) :=
    assert! negb (dtype (din sin) =? SFS_TYPE_DIR) ;;
    let endpos := s32 (offset + alen) in
    if (offset <? 0) || (SFS_MAX_FILE_SIZE <=? offset) || (endpos <? offset) then Ok (- E_INVAL, 0, buf, s, sin)
    else if offset =? endpos then Ok (0, 0, buf, s, sin)
    else
      let endpos := if SFS_MAX_FILE_SIZE <? endpos then SFS_MAX_FILE_SIZE else endpos in
      if negb write && (dsize (din sin) <=? offset) then Ok (0, 0, buf, s, sin)
      else
        let endpos := if negb write && (dsize (din sin) <? endpos) then dsize (din sin) else endpos in
        let! (alen, buf, s, sin) := sfs_io_parts s sin buf offset endpos write in
        let sin :=
          if dsize (din sin) <? u32 (offset + alen)
          then set_dirty (set_din sin (set_size (din sin) (u32 (offset + alen)))) true else sin in
        Ok (0, alen, buf, s, sin).

  (** The buffer of [iob] is the part of its object from [io_base] on. *)
Definition sfs_io s sin (iob : iobuf) (write : bool) : res (Z * iobuf * sfs_fs D * sfs_inode) :=
    let pre := take (Z.to_nat (io_base iob)) (io_data iob) in
    let! (ret, alen, buf, s, sin) :=
      sfs_io_nolock s sin (drop (Z.to_nat (io_base iob)) (io_data iob)) (io_offset iob) (io_resid iob) write in
    let iob := set_io_data iob (pre ++ buf) in
    let! iob := if negb (alen =? 0) then iobuf_skip iob alen else Ok iob in
    Ok (ret, iob, s, sin).
Definition sfs_read s sin (iob : iobuf) := sfs_io s sin iob false.
Definition sfs_write s sin (iob : iobuf) := sfs_io s sin iob true.

Definition sfs_truncfile s sin (len : Z) : res (Z * sfs_fs D * sfs_inode) :=
    if (len <? 0) || (SFS_MAX_FILE_SIZE <? len) then Ok (- E_INVAL, s, sin)
    else
      let tblks := ROUNDUP_DIV len SFS_BLKSIZE in
      if dsize (din sin) =? len then assert! tblks =? dblocks (din sin) ;; Ok (0, s, sin)
      else
        let! (ret, s, sin) :=
          loop (fun '(nblks, s, sin) =>
            if nblks <? tblks then
              let! (ret, _, s, sin) := sfs_bmap_load_nolock s sin nblks in
              if negb (ret =? 0) then Ok (inr (ret, s, sin)) else Ok (inl (nblks + 1, s, sin))
            else if tblks <? nblks then
              let! (ret, s, sin) := sfs_bmap_truncate_nolock s sin in
              if negb (ret =? 0) then Ok (inr (ret, s, sin)) else Ok (inl (nblks - 1, s, sin))
            else Ok (inr (0, s, sin)))
            (dblocks (din sin), s, sin) in
        if negb (ret =? 0) then Ok (ret, s, sin)
        else
          assert! dblocks (din sin) =? tblks ;;
          Ok (0, s, set_dirty (set_din sin (set_size (din sin) len)) true).

Definition sfs_tryseek s sin (pos : Z) : res (Z * sfs_fs D * sfs_inode) :=
    if (pos <? 0) || (SFS_MAX_FILE_SIZE <=? pos) then Ok (- E_INVAL, s, sin)
    else if dsize (din sin) <? pos then sfs_truncfile s sin pos
    else Ok (0, s, sin).

Definition sfs_fsync s sin : res (Z * sfs_fs D * sfs_inode) :=
    if dirty sin then
      let! (ret, _, s) := sfs_wbuf s (din_bytes (din sin)) 0 SIZEOF_DIN (ino sin) 0 in
      Ok (ret, s, set_dirty sin (negb (ret =? 0)))
    else Ok (0, s, sin).
  (** [sfs_close] only synchronises. *)
Definition sfs_close s sin := sfs_fsync s sin.

Definition sfs_gettype sin : res Z :=
    let t := dtype (din sin) in
    if t =? SFS_TYPE_DIR then Ok S_IFDIR
    else if t =? SFS_TYPE_FILE then Ok S_IFREG
    else if t =? SFS_TYPE_LINK then Ok S_IFLNK
    else Err KPanic.

  (** [st_mode], [st_nlinks], [st_blocks], [st_size]. *)
Definition sfs_fstat sin : res (Z * Z * Z * Z) :=
    let! mode := sfs_gettype sin in
    Ok (mode, nlinks (din sin), dblocks (din sin), dsize (din sin)).

Definition O_ACCMODE : Z := 3.
Definition O_APPEND : Z := 0x20.
Definition sfs_opendir (open_flags : Z) : Z :=
    if Z.land open_flags O_ACCMODE =? 0 then
      if negb (Z.land open_flags O_APPEND =? 0) then - E_ISDIR else 0
    else - E_ISDIR.
Definition sfs_openfile (open_flags : Z) : Z := 0.

  (** ** Directories *)

  (** The return value, the entry, the file system and the inode. *)
Definition sfs_dirent_read_nolock s sin (slot : Z) (entry : list Z) : res (Z * list Z * sfs_fs D * sfs_inode) :=
    assert! (dtype (din sin) =? SFS_TYPE_DIR) && ((0 <=? slot) && (slot <? dblocks (din sin))) ;;
    let! (ret, ino, s, sin) := sfs_bmap_load_nolock s sin slot in
    if negb (ret =? 0) then Ok (ret, entry, s, sin)
    else
      let! u := sfs_block_inuse s ino in
      assert! u ;;
      let! (ret, entry, s) := sfs_rbuf s entry 0 SIZEOF_ENTRY ino 0 in
      if negb (ret =? 0) then Ok (ret, entry, s, sin)
      else
        let! entry := mwrite entry (4 + SFS_MAX_FNAME_LEN) [0] in
        Ok (0, entry, s, sin).

  (** [strcmp(name, entry->name)]: [name] at address 0, the entry's name far
      above it. *)
Definition name_cmp (name entry : list Z) : res Z :=
    strcmp (fun p => if p <? 65536 then at_ name p else at_ (entry_name entry) (p - 65536)) 0 65536.

  (** What a search stores: [ret], [*ino_store], [*slot] and [*empty_slot]. *)
Record search := mk_search { s_ret : Z; s_ino : option Z; s_slot : option Z; s_empty : Z }.

  (** The loop from slot [i] on, [n] slots left. *)
Fixpoint dirent_search_loop (n : nat) s sin (name : list Z) (i empty : Z) (entry : list Z) :
      res (search * sfs_fs D * sfs_inode) :=
    match n with
    | O => Ok (mk_search (- E_NOENT) None None empty, s, sin)
    | S n =>
        let! (ret, entry, s, sin) := sfs_dirent_read_nolock s sin i entry in
        if negb (ret =? 0) then Ok (mk_search ret None None empty, s, sin)
        else if entry_ino entry =? 0 then dirent_search_loop n s sin name (i + 1) i entry
        else
          let! c := name_cmp name entry in
          if c =? 0 then Ok (mk_search 0 (Some (entry_ino entry)) (Some i) empty, s, sin)
          else dirent_search_loop n s sin name (i + 1) empty entry
    end.

  (** [buf]: the entry that [kmalloc] returns, or NULL. *)
Definition sfs_dirent_search_nolock s sin (name : list Z) (buf : option (list Z)) : res (search * sfs_fs D * sfs_inode) :=
    assert! Z.of_nat (length name) <=? SFS_MAX_FNAME_LEN ;;
    match buf with
    | None => Ok (mk_search (- E_NO_MEM) None None 0, s, sin)
    | Some entry => dirent_search_loop (Z.to_nat (dblocks (din sin))) s sin name 0 (dblocks (din sin)) entry
    end.

Fixpoint dirent_findino_loop (n : nat) s sin (ino i : Z) (entry : list Z) : res (Z * list Z * sfs_fs D * sfs_inode) :=
    match n with
    | O => Ok (- E_NOENT, entry, s, sin)
    | S n =>
        let! (ret, entry, s, sin) := sfs_dirent_read_nolock s sin i entry in
        if negb (ret =? 0) then Ok (ret, entry, s, sin)
        else if entry_ino entry =? ino then Ok (0, entry, s, sin)
        else dirent_findino_loop n s sin ino (i + 1) entry
    end.
Definition sfs_dirent_findino_nolock s sin (ino : Z) (entry : list Z) :=
    dirent_findino_loop (Z.to_nat (dblocks (din sin))) s sin ino 0 entry.

Fixpoint getdirentry_sub_loop (n : nat) s sin (slot i : Z) (entry : list Z) : res (Z * list Z * sfs_fs D * sfs_inode) :=
    match n with
    | O => Ok (- E_NOENT, entry, s, sin)
    | S n =>
        let! (ret, entry, s, sin) := sfs_dirent_read_nolock s sin i entry in
        if negb (ret =? 0) then Ok (ret, entry, s, sin)
        else if negb (entry_ino entry =? 0) then
          if slot =? 0 then Ok (0, entry, s, sin) else getdirentry_sub_loop n s sin (slot - 1) (i + 1) entry
        else getdirentry_sub_loop n s sin slot (i + 1) entry
    end.
Definition sfs_getdirentry_sub_nolock s sin (slot : Z) (entry : list Z) :=
    getdirentry_sub_loop (Z.to_nat (dblocks (din sin))) s sin slot 0 entry.

Definition sfs_getdirentry s sin (iob : iobuf) (buf : option (list Z)) : res (Z * iobuf * sfs_fs D * sfs_inode) :=
    match buf with
    | None => Ok (- E_NO_MEM, iob, s, sin)
    | Some entry =>
        let offset := io_offset iob in
        if (offset <? 0) || negb (offset mod sfs_dentry_size =? 0) then Ok (- E_INVAL, iob, s, sin)
        else
          let slot := offset / sfs_dentry_size in
          if dblocks (din sin) <? slot then Ok (- E_NOENT, iob, s, sin)
          else
            let! (ret, entry, s, sin) := sfs_getdirentry_sub_nolock s sin slot entry in
            if negb (ret =? 0) then Ok (ret, iob, s, sin)
            else
              let! (ret, iob, _, _) := iobuf_move iob (entry_name entry) sfs_dentry_size true in
              Ok (ret, iob, s, sin)
    end.
End Sfs.
