(* ===== verification/SfsDisk.v ===== *)
(** * Blocks of the simple file system: invariant and specifications

    What the block operations of [Sfs] do, on a device that stores what is
    written ([BlockWrite]): the state is seen through its set of free blocks
    and the contents of its blocks. *)
From S2P Require Import Prelude Arith Bitmap IoBuf BlockDev Sfs.

(** The free indices of a bitmap. *)
Definition free_set (m : bitmap) : gset Z := list_to_set (filter (fun i => bit m i = true) (seqZ 0 (nbits m))).

Lemma elem_of_free_set m i : i ∈ free_set m <-> is_free m i.
Proof.
  unfold free_set, is_free. rewrite elem_of_list_to_set, list_elem_of_filter, elem_of_seqZ. split; intros [? ?]; split; (done || lia).
Qed.

Section SfsDisk.
  Context {D : Type} `{!BlockDev D, !BlockRead D, !BlockWrite D}.
  Implicit Types (s : sfs_fs D) (sin : sfs_inode).

Definition blk s (b : Z) : list Z := dblock (dev s) b.
Definition free s (b : Z) : Prop := is_free (freemap s) b.
Definition in_use s (b : Z) : Prop := 0 < b < blocks (super s) /\ ~ free s b.

Record fs_ok s : Prop := {
    fs_bm : bitmap_ok (freemap s);
    fs_bits : blocks (super s) <= nbits (freemap s);
    fs_free : forall b, free s b -> 0 < b < blocks (super s);
    fs_count : unused_blocks (super s) = Z.of_nat (size (free_set (freemap s)));
    fs_dev : dev_ok (dev s);
    fs_size : blocks (super s) <= d_blocks (dev s) /\ blocks (super s) <= 524288;
    fs_buf : Z.of_nat (length (sfs_buffer s)) = BLKSIZE /\ Forall is_byte (sfs_buffer s)
  }.

  (** What no operation changes. *)
Definition geo s : Z * Z * list Z * Z := (magic (super s), blocks (super s), info (super s), nbits (freemap s)).

  (** The state after an operation: its free blocks and its contents. *)
Record becomes s (F : Z -> Prop) (f : Z -> list Z) s' : Prop := {
    bc_ok : fs_ok s';
    bc_geo : geo s' = geo s;
    bc_free : forall b, free s' b <-> F b;
    bc_blk : forall b, blk s' b = f b
  }.

Lemma geo_blocks s s' : geo s' = geo s -> blocks (super s') = blocks (super s).
  Proof. by intros [= _ E _ _]. Qed.
Lemma bc_blocks s F f s' : becomes s F f s' -> blocks (super s') = blocks (super s).
  Proof. intros [_ Hg _ _]. by apply geo_blocks. Qed.

  (** Same free blocks and contents: only the buffer and the device may differ. *)
Definition same s s' : Prop := becomes s (free s) (blk s) s'.

Definition put (f : Z -> list Z) (b : Z) (l : list Z) : Z -> list Z := fun c => if c =? b then l else f c.

Definition zeros : list Z := replicate (Z.to_nat SFS_BLKSIZE) 0.

Lemma length_blk s b : Z.of_nat (length (blk s b)) = BLKSIZE.
  Proof. unfold blk. by rewrite dblock_length. Qed.

Lemma length_zeros : Z.of_nat (length zeros) = BLKSIZE.
  Proof. unfold zeros. by rewrite length_replicate. Qed.

Lemma blk_bytes s b : fs_ok s -> Forall is_byte (blk s b).
  Proof. intros Hs. apply dblock_bytes, Hs. Qed.

Lemma put_eq f b l : put f b l b = l.
  Proof. unfold put. by rewrite Z.eqb_refl. Qed.
Lemma put_ne f b l c : c <> b -> put f b l c = f c.
  Proof. unfold put. by intros ?%Z.eqb_neq; destruct (c =? b). Qed.

  (** Bounds known for a block on the device. *)
Lemma block_io_init s buf base b : fs_ok s -> 0 <= b < blocks (super s) -> 0 <= base ->
    base + BLKSIZE <= Z.of_nat (length buf) ->
    block_io (iobuf_init buf base SFS_BLKSIZE (s32 (b * SFS_BLKSIZE))) b /\ 0 <= b < d_blocks (dev s).
  Proof.
    intros Hs Hb Hbase Hl. pose proof (fs_size s Hs) as [? ?]. split; [|lia].
    unfold block_io, iobuf_init, SFS_BLKSIZE, PGSIZE, BLKSIZE in *. cbn. rewrite s32_id by (unfold is_s32; lia). done.
  Qed.

  (** Changing only the device and the buffer. *)
Lemma dev_step s d b : fs_ok s -> dev_ok d -> d_blocks d = d_blocks (dev s) ->
    Z.of_nat (length b) = BLKSIZE -> Forall is_byte b -> fs_ok (set_buffer (set_dev s d) b).
  Proof. intros Hs Hd Hn Hl Hb. split; cbn; try apply Hs; [done| |done]. rewrite Hn. apply Hs. Qed.

Lemma rw_read s buf base b : fs_ok s -> 0 < b < blocks (super s) -> 0 <= base ->
    base + BLKSIZE <= Z.of_nat (length buf) ->
    exists d, sfs_rwblock_nolock s buf base b false true =
        Ok (0, list_inserts (Z.to_nat base) (blk s b) buf, set_dev s d) /\
      dev_ok d /\ d_blocks d = d_blocks (dev s) /\ forall c, dblock d c = blk s c.
  Proof.
    intros Hs Hb Hbase Hl. destruct (block_io_init s buf base b) as [Hio Hd]; try (done || lia).
    unfold sfs_rwblock_nolock. destruct (Z.eqb_spec b 0), (Z.ltb_spec b (blocks (super s))); try lia.
    cbn [negb orb andb rassert rbind].
    destruct (dop_read (dev s) _ b (fs_dev s Hs) Hd Hio) as (iob' & d' & E & Ed & Hok & Hn & Hc).
    rewrite E. cbn [rbind]. rewrite Ed. exists d'. done.
  Qed.

Lemma rw_write s buf base b check : fs_ok s -> 0 < b < blocks (super s) \/ b = 0 /\ check = false /\ 0 < blocks (super s) ->
    0 <= base -> base + BLKSIZE <= Z.of_nat (length buf) -> Forall is_byte buf ->
    exists d, sfs_rwblock_nolock s buf base b true check = Ok (0, buf, set_dev s d) /\
      dev_ok d /\ d_blocks d = d_blocks (dev s) /\
      forall c, dblock d c = put (blk s) b (take 4096 (drop (Z.to_nat base) buf)) c.
  Proof.
    intros Hs Hb Hbase Hl Hby. destruct (block_io_init s buf base b) as [Hio Hd]; try (done || lia).
    unfold sfs_rwblock_nolock.
    assert (Hc : (negb (b =? 0) || negb check) && (b <? blocks (super s)) = true).
    { destruct (Z.eqb_spec b 0), (Z.ltb_spec b (blocks (super s))), check; cbn; try lia; done. }
    rewrite Hc. cbn [rassert rbind].
    destruct (dop_write (dev s) _ b (fs_dev s Hs) Hd Hio Hby) as (iob' & d' & E & Ed & Hok & Hn & Hf).
    rewrite E. cbn [rbind]. rewrite Ed. exists d'. done.
  Qed.

Lemma buf_range len offset : 0 <= offset < BLKSIZE -> 0 <= len -> offset + len <= BLKSIZE ->
    (0 <=? offset) && (offset <? SFS_BLKSIZE) && (u32 (offset + len) <=? SFS_BLKSIZE) = true.
  Proof.
    unfold SFS_BLKSIZE, PGSIZE, BLKSIZE. intros. rewrite u32_id by (unfold is_u32, two32; lia).
    destruct (Z.leb_spec 0 offset), (Z.ltb_spec offset 4096), (Z.leb_spec (offset + len) 4096); (done || lia).
  Qed.

  (** The block is in the buffer after it has been read. *)
Lemma inserts_block s (l : list Z) b : Z.of_nat (length l) = BLKSIZE -> list_inserts (Z.to_nat 0) (blk s b) l = blk s b.
  Proof. intros Hl. apply inserts_all. pose proof (length_blk s b). lia. Qed.

Lemma rbuf_spec s buf base len b offset : fs_ok s -> 0 < b < blocks (super s) ->
    0 <= offset < BLKSIZE -> 0 <= len -> offset + len <= BLKSIZE ->
    0 <= base -> base + len <= Z.of_nat (length buf) ->
    exists s', sfs_rbuf s buf base len b offset =
        Ok (0, list_inserts (Z.to_nat base) (take (Z.to_nat len) (drop (Z.to_nat offset) (blk s b))) buf, s') /\ same s s' /\
      freemap s' = freemap s.
  Proof.
    intros Hs Hb Ho Hlen Hol Hbase Hl. unfold sfs_rbuf. rewrite buf_range by done. cbn [rassert rbind].
    pose proof (fs_buf s Hs) as [Hbl Hbb]. pose proof (length_blk s b) as Hbk.
    destruct (rw_read s (sfs_buffer s) 0 b) as (d & E & Hd & Hn & Hc); [done|done|lia|lia|].
    rewrite E, inserts_block by done. cbn [rbind set_buffer sfs_buffer]. change (0 =? 0) with true. cbn iota.
    rewrite mread_Ok by lia. cbn [rbind].
    pose proof (length_sub (blk s b) offset len) as Hls. rewrite mwrite_Ok by lia. cbn [rbind].
    eexists. split; [done|]. split; [|done]. split; [|done|done|exact Hc].
    apply dev_step; try done. by apply blk_bytes.
  Qed.

Lemma wbuf_spec s buf base len b offset : fs_ok s -> 0 < b < blocks (super s) ->
    0 <= offset < BLKSIZE -> 0 <= len -> offset + len <= BLKSIZE ->
    0 <= base -> base + len <= Z.of_nat (length buf) -> Forall is_byte buf ->
    exists s', sfs_wbuf s buf base len b offset = Ok (0, buf, s') /\
      becomes s (free s) (put (blk s) b
        (list_inserts (Z.to_nat offset) (take (Z.to_nat len) (drop (Z.to_nat base) buf)) (blk s b))) s' /\
      freemap s' = freemap s.
  Proof.
    intros Hs Hb Ho Hlen Hol Hbase Hl Hby. unfold sfs_wbuf. rewrite buf_range by done. cbn [rassert rbind].
    pose proof (fs_buf s Hs) as [Hbl Hbb]. pose proof (length_blk s b) as Hbk.
    destruct (rw_read s (sfs_buffer s) 0 b) as (d & E & Hd & Hn & Hc); [done|done|lia|lia|].
    rewrite E, inserts_block by done. cbn [rbind set_buffer sfs_buffer]. change (0 =? 0) with true. cbn iota.
    rewrite mread_Ok by done. cbn [rbind]. set (dat := take (Z.to_nat len) _).
    assert (Hdat : Z.of_nat (length dat) = len) by (by apply length_sub).
    rewrite mwrite_Ok by lia. cbn [rbind]. set (l := list_inserts (Z.to_nat offset) dat (blk s b)).
    assert (Hll : Z.of_nat (length l) = BLKSIZE) by (unfold l; by rewrite length_inserts).
    assert (Hlby : Forall is_byte l) by (apply Forall_inserts; [by apply Forall_take, Forall_drop|by apply blk_bytes]).
    set (s1 := set_buffer _ l). assert (Hs1 : fs_ok s1).
    { apply (dev_step s d l) in Hs; done. }
    destruct (rw_write s1 l 0 b true) as (d2 & E2 & Hd2 & Hn2 & Hc2); [done|by left|lia|lia|done|].
    rewrite E2. cbn [rbind]. eexists. split; [done|]. split; [|done]. split; [|done|done|].
    - apply (dev_step s1); done.
    - intros c. unfold blk at 1. cbn. rewrite Hc2. unfold put. destruct (c =? b) eqn:Ecb.
      + rewrite drop_0. apply take_ge. unfold BLKSIZE in Hll. lia.
      + unfold blk, s1. cbn. apply Hc.
  Qed.

Lemma clear_spec s b : fs_ok s -> 0 < b < blocks (super s) ->
    exists s', sfs_clear_block s b 1 = Ok (0, s') /\ becomes s (free s) (put (blk s) b zeros) s' /\ freemap s' = freemap s.
  Proof.
    intros Hs Hb. unfold sfs_clear_block. fold zeros. pose proof length_zeros as Hz.
    assert (Hzb : Forall is_byte zeros) by (apply Forall_replicate; unfold is_byte; lia).
    set (s1 := set_buffer s zeros). assert (Hs1 : fs_ok s1) by (apply (dev_step s (dev s)); try done; apply Hs).
    destruct (rw_write s1 zeros 0 b true) as (d & E & Hd & Hn & Hc); [done|by left|lia|lia|done|].
    rewrite (loop_rounds 2 _ _ (0, set_buffer (set_dev s1 d) zeros)); [|cbn [rounds]|done].
    - eexists. split; [done|]. split; [|done]. split; [|done|done|].
      + apply (dev_step s1); done.
      + intros c. unfold blk at 1. cbn. rewrite Hc. unfold put. destruct (c =? b); [|done].
        rewrite drop_0. apply take_ge. unfold BLKSIZE in Hz. lia.
    - change (1 =? 0) with false. cbn iota. change (sfs_buffer s1) with zeros. rewrite E. reflexivity.
  Qed.
End SfsDisk.
