(* ===== verification/SfsBmap.v ===== *)
(** * The block map of an inode

    Allocation of blocks and the map from the blocks of a file to the blocks
    of the disk ([sfs_bmap_*] of kern/fs/sfs/sfs_inode.c): the invariant of an
    inode and what loading, appending and dropping a block do to it. *)
From S2P Require Import Prelude Arith Bitmap IoBuf BlockDev Sfs SfsDisk.

(** ** Words of a block *)

Lemma word_at_same l i b : 0 <= b < two32 -> (i + 4 <= length l)%nat ->
  word_at (list_inserts i (le_encode 4 b) l) i = b.
Proof.
  intros Hb Hl. unfold word_at. pose proof (sub_inserts_same l i (le_encode 4 b)) as E.
  rewrite length_le_encode in E. rewrite E by lia. by apply le_decode_encode.
Qed.

Lemma word_at_other l i b j : (j + 4 <= i \/ i + 4 <= j)%nat ->
  word_at (list_inserts i (le_encode 4 b) l) j = word_at l j.
Proof.
  intros Hj. unfold word_at. f_equal. apply sub_inserts_other. by rewrite length_le_encode.
Qed.

Lemma word_at_zeros i : word_at zeros i = 0.
Proof.
  unfold word_at, zeros. rewrite drop_replicate, take_replicate. apply le_decode_zeros.
Qed.

(** The entry block word read through a 4-byte object. *)
Lemma le_decode_read l i : (i + 4 <= length l)%nat -> le_decode (list_inserts 0 (take 4 (drop i l)) (le_encode 4 0)) = word_at l i.
Proof. intros Hl. rewrite inserts_all; [done|]. rewrite length_take, length_drop, length_le_encode. lia. Qed.

Section SfsBmap.
  Context {D : Type} `{!BlockDev D, !BlockRead D, !BlockWrite D}.
  Implicit Types (s : sfs_fs D) (sin : sfs_inode) (d : sfs_disk_inode).

Lemma in_use_free s b : in_use s b -> ~ free s b.
  Proof. by intros [_ ?]. Qed.

Lemma inuse_spec s b : fs_ok s -> 0 < b < blocks (super s) ->
    sfs_block_inuse s b = Ok (negb (bit (freemap s) b)).
  Proof.
    intros Hs Hb. unfold sfs_block_inuse. destruct (Z.eqb_spec b 0), (Z.ltb_spec b (blocks (super s))); try lia.
    cbn [negb andb]. pose proof (fs_bits s Hs). rewrite bitmap_test_spec by (try apply Hs; lia). done.
  Qed.

Lemma bit_free s b : fs_ok s -> 0 < b < blocks (super s) -> bit (freemap s) b = true <-> free s b.
  Proof. intros Hs Hb. pose proof (fs_bits s Hs). unfold free, is_free. intuition lia. Qed.

Lemma inuse_used s b : fs_ok s -> in_use s b -> sfs_block_inuse s b = Ok true.
  Proof.
    intros Hs [Hb Hf]. rewrite inuse_spec by done. rewrite <- (bit_free s b Hs Hb) in Hf.
    by destruct (bit (freemap s) b).
  Qed.

  (** ** Allocating and releasing a block *)

Lemma free_size_remove (m m' : bitmap) i : is_free m i -> (forall j, is_free m' j <-> is_free m j /\ j <> i) ->
    Z.of_nat (size (free_set m)) = Z.of_nat (size (free_set m')) + 1.
  Proof.
    intros Hi Hj. assert (E : free_set m = {[i]} ∪ free_set m').
    { apply set_eq. intros j. rewrite elem_of_union, elem_of_singleton, !elem_of_free_set, Hj.
      destruct (decide (j = i)) as [->|]; naive_solver. }
    rewrite E, size_union, size_singleton; [lia|]. apply disjoint_singleton_l. rewrite elem_of_free_set, Hj. tauto.
  Qed.

Lemma alloc_spec s : fs_ok s ->
    (exists b s', sfs_block_alloc s = Ok (0, b, s') /\ free s b /\
       becomes s (fun j => free s j /\ j <> b) (put (blk s) b zeros) s') \/
    (sfs_block_alloc s = Ok (- E_NO_MEM, 0, s) /\ forall j, ~ free s j).
  Proof.
    intros Hs. unfold sfs_block_alloc.
    destruct (bitmap_alloc_spec (freemap s) (fs_bm s Hs)) as [(b & m & E & Hm & Hn & Hb & _ & Hf & _)|[E Hno]];
      rewrite E; cbn [rbind]; [left|by right].
    change (0 =? 0) with true. change (default 0 (Some b)) with b. cbn [negb]. cbn iota.
    pose proof (free_size_remove _ _ _ Hb Hf) as Hsz. pose proof (fs_count s Hs) as Hcnt.
    destruct (Z.ltb_spec 0 (unused_blocks (super s))); [|lia]. cbn [rassert rbind].
    set (s1 := set_free s (unused_blocks (super s) - 1) m). pose proof (fs_free s Hs b Hb) as Hrange.
    assert (Hs1 : fs_ok s1).
    { split; cbn; try apply Hs; [done|rewrite Hn; apply Hs| |lia].
      intros j Hj. apply (fs_free s Hs). by apply Hf in Hj as [? _]. }
    assert (Hu : in_use s1 b) by (split; [done|]; unfold free; cbn; rewrite Hf; tauto).
    rewrite (inuse_used s1 b Hs1 Hu). cbn [rassert rbind].
    destruct (clear_spec s1 b Hs1 Hrange) as (s2 & E2 & [Hok2 Hbl2 Hfr2 Hbk2] & _). rewrite E2. cbn [rbind].
    exists b, s2. split; [done|]. split; [done|]. split; [done| | |done].
    - rewrite Hbl2. unfold geo, s1. cbn. by rewrite Hn.
    - intros j. rewrite Hfr2. apply Hf.
  Qed.

Lemma free_spec s b : fs_ok s -> in_use s b ->
    exists s', sfs_block_free s b = Ok s' /\ becomes s (fun j => free s j \/ j = b) (blk s) s'.
  Proof.
    intros Hs Hb. unfold sfs_block_free. rewrite inuse_used by done. cbn [rassert rbind]. destruct Hb as [Hb Hnf].
    pose proof (bitmap_free_spec (freemap s) b (fs_bm s Hs) ltac:(lia)) as Hfs. pose proof (fs_bits s Hs).
    assert (Hbit : bit (freemap s) b = false).
    { rewrite <- (bit_free s b Hs Hb) in Hnf. by destruct (bit (freemap s) b). }
    rewrite Hbit in Hfs. destruct (Z.ltb_spec b (nbits (freemap s))); [|lia]. cbn [andb negb] in Hfs.
    destruct Hfs as (m & E & Hm & Hn & Hf). rewrite E. cbn [rbind].
    assert (Hsz : Z.of_nat (size (free_set m)) = Z.of_nat (size (free_set (freemap s))) + 1).
    { apply (free_size_remove m (freemap s) b); [by apply Hf; right|]. intros j. rewrite Hf.
      split; [|tauto]. intros Hj. split; [by left|]. intros ->. by apply Hnf. }
    pose proof (fs_count s Hs) as Hcnt. pose proof (fs_size s Hs) as [_ Hsmall].
    assert (Hle : Z.of_nat (size (free_set m)) <= 524288).
    { etrans; [|exact Hsmall]. transitivity (Z.of_nat (size (list_to_set (seqZ 1 (blocks (super s) - 1)) : gset Z))).
      - apply inj_le, subseteq_size. intros j Hj. apply elem_of_list_to_set, elem_of_seqZ.
        apply elem_of_free_set, Hf in Hj as [Hj| ->]; [apply (fs_free s Hs) in Hj|]; lia.
      - rewrite size_list_to_set by apply NoDup_seqZ. rewrite length_seqZ. lia. }
    eexists. split; [done|]. split; [|unfold geo; cbn; by rewrite Hn|exact Hf|done].
    split; cbn; try apply Hs; [done|rewrite Hn; apply Hs| |rewrite u32_id by (unfold is_u32, two32; lia); lia].
    intros j Hj. apply Hf in Hj as [Hj| ->]; [by apply (fs_free s Hs)|done].
  Qed.

  (** ** The blocks of an inode *)

  (** The disk block of block [i] of the file, 0 when there is none. *)
Definition entry (f : Z -> list Z) d (i : Z) : Z :=
    if i <? 12 then default 0 (direct d !! Z.to_nat i)
    else if indirect d =? 0 then 0 else word_at (f (indirect d)) (Z.to_nat (4 * (i - 12))).

Definition NBLOCKS : Z := 1036.

Record inode_ok s sin : Prop := {
    in_direct : length (direct (din sin)) = 12%nat;
    in_blocks : 0 <= dblocks (din sin) <= NBLOCKS;
    in_used : forall i, 0 <= i < dblocks (din sin) -> in_use s (entry (blk s) (din sin) i);
    in_rest : forall i, dblocks (din sin) <= i < NBLOCKS -> entry (blk s) (din sin) i = 0;
    in_ind : indirect (din sin) = 0 \/ in_use s (indirect (din sin));
    in_self : in_use s (ino sin);
    in_inj : forall i j, 0 <= i < dblocks (din sin) -> 0 <= j < dblocks (din sin) ->
      entry (blk s) (din sin) i = entry (blk s) (din sin) j -> i = j;
    in_sep : forall i, 0 <= i < dblocks (din sin) ->
      entry (blk s) (din sin) i <> indirect (din sin) /\ entry (blk s) (din sin) i <> ino sin;
    in_sep2 : indirect (din sin) <> ino sin
  }.

  (** The blocks an inode holds. *)
Definition owns s sin (b : Z) : Prop :=
    b = ino sin \/ (b = indirect (din sin) /\ b <> 0) \/
    exists i, 0 <= i < dblocks (din sin) /\ entry (blk s) (din sin) i = b.

  (** The blocks in use, those in [P] apart, keep their contents. *)
Record frame s (P : Z -> Prop) s' : Prop := {
    fr_ok : fs_ok s';
    fr_geo : geo s' = geo s;
    fr_keep : forall b, in_use s b -> ~ P b -> in_use s' b /\ blk s' b = blk s b
  }.

Lemma fr_blocks s P s' : frame s P s' -> blocks (super s') = blocks (super s).
  Proof. intros [_ Hg _]. by apply geo_blocks. Qed.

Lemma becomes_frame s F f s' (P : Z -> Prop) : becomes s F f s' ->
    (forall b, in_use s b -> ~ P b -> ~ F b /\ f b = blk s b) -> frame s P s'.
  Proof.
    intros [? Hb Hf Hk] HP. split; [done|done|]. intros b Hu HPb. destruct (HP b Hu HPb) as [Ha Hb2].
    split; [|by rewrite Hk]. split; [rewrite (geo_blocks _ _ Hb); apply Hu|]. by rewrite Hf.
  Qed.

Lemma same_frame s s' P : same s s' -> frame s P s'.
  Proof. intros Hs. apply (becomes_frame s _ _ s' P Hs). intros b [_ Hb] _. done. Qed.

Lemma frame_trans s s1 s2 P : frame s P s1 -> frame s1 P s2 -> frame s P s2.
  Proof.
    intros [_ Hb1 Hk1] [Hok Hb2 Hk2]. split; [done|congruence|]. intros b Hu HP.
    destruct (Hk1 b Hu HP) as [Hu1 E1]. destruct (Hk2 b Hu1 HP) as [Hu2 E2]. split; [done|congruence].
  Qed.

Lemma frame_weaken s s' (P Q : Z -> Prop) : frame s P s' -> (forall b, in_use s b -> P b -> Q b) -> frame s Q s'.
  Proof. intros [? ? Hk] HPQ. split; [done|done|]. intros b Hu HQ. apply Hk; [done|]. intros HP. by apply HQ, HPQ. Qed.

Lemma in_use_0 s : ~ in_use s 0.
  Proof. intros [? _]. lia. Qed.

Lemma entry_ext (f g : Z -> list Z) d i : (indirect d <> 0 -> f (indirect d) = g (indirect d)) ->
    entry f d i = entry g d i.
  Proof. intros E. unfold entry. destruct (i <? 12); [done|]. destruct (Z.eqb_spec (indirect d) 0); [done|]. by rewrite E. Qed.

  (** An inode whose blocks are kept stays well formed; what is in the inode's
      own block does not matter. *)
Definition kept s s' sin : Prop := forall b, owns s sin b -> in_use s' b /\ (b <> ino sin -> blk s' b = blk s b).

Lemma inode_kept s s' sin : inode_ok s sin -> kept s s' sin ->
    inode_ok s' sin /\ forall i, entry (blk s') (din sin) i = entry (blk s) (din sin) i.
  Proof.
    intros Hi Hk.
    assert (Hind : indirect (din sin) <> 0 -> in_use s' (indirect (din sin)) /\ blk s' (indirect (din sin)) = blk s (indirect (din sin))).
    { intros Hne. destruct (Hk (indirect (din sin))) as [Hu Hb]; [right; by left|]. split; [done|]. apply Hb, (in_sep2 s sin Hi). }
    assert (He : forall i, entry (blk s') (din sin) i = entry (blk s) (din sin) i)
      by (intros i; apply entry_ext; intros Hne; apply Hind, Hne).
    split; [|done]. destruct Hi as [? ? Hu Hr Hin Hse Hinj Hsep Hsep2].
    split; try done.
    - intros i Hi. rewrite He. apply Hk. right; right. eauto.
    - intros i Hi. rewrite He. by apply Hr.
    - destruct (decide (indirect (din sin) = 0)) as [?|Hne]; [by left|]. right. apply Hind, Hne.
    - apply Hk. by left.
    - intros i j Hi Hj. rewrite !He. by apply Hinj.
    - intros i Hi. rewrite He. by apply Hsep.
  Qed.

Lemma owns_used s sin b : inode_ok s sin -> owns s sin b -> in_use s b.
  Proof.
    intros Hi [->|[[-> Hn]|(i & Hr & <-)]]; [apply Hi| |by apply Hi]. by destruct (in_ind s sin Hi).
  Qed.

Lemma frame_kept s s' sin P : inode_ok s sin -> frame s P s' -> (forall b, owns s sin b -> ~ P b) -> kept s s' sin.
  Proof. intros Hi Hf HP b Hb. destruct (fr_keep _ _ _ Hf b) as [Hu E]; [by eapply owns_used|by apply HP|done]. Qed.

Lemma inode_frame s s' sin P : inode_ok s sin -> frame s P s' -> (forall b, owns s sin b -> ~ P b) ->
    inode_ok s' sin /\ forall i, entry (blk s') (din sin) i = entry (blk s) (din sin) i.
  Proof. intros Hi Hf HP. apply inode_kept; [done|]. by eapply frame_kept. Qed.

Lemma same_inode s s' sin : inode_ok s sin -> same s s' ->
    inode_ok s' sin /\ forall i, entry (blk s') (din sin) i = entry (blk s) (din sin) i.
  Proof. intros Hi Hs. apply (inode_frame s s' sin (fun _ => False)); [done|by apply same_frame|auto]. Qed.
End SfsBmap.
