(* ===== verification/SfsLoad.v ===== *)
(** * Loading, appending and dropping a block of a file

    What [sfs_bmap_load_nolock] and [sfs_bmap_truncate_nolock] do to a well
    formed inode. *)
From S2P Require Import Prelude Arith Bitmap IoBuf BlockDev Sfs SfsDisk SfsBmap.

Section SfsLoad.
  Context {D : Type} `{!BlockDev D, !BlockRead D, !BlockWrite D}.
  Implicit Types (s : sfs_fs D) (sin : sfs_inode) (d : sfs_disk_inode).

Lemma used_not_free s b c : in_use s c -> free s b -> c <> b.
  Proof. intros [_ Hc] Hb ->. done. Qed.

  (** The offset of entry [k] of the entry block. *)
Lemma entry_offset k : 0 <= k < 1024 -> 0 <= 4 * k < BLKSIZE /\ 4 * k + 4 <= BLKSIZE.
  Proof. unfold BLKSIZE. lia. Qed.

Lemma read_word s ent k : fs_ok s -> in_use s ent -> 0 <= k < 1024 ->
    exists s' b, sfs_rbuf s (le_encode 4 0) 0 4 ent (k * 4) = Ok (0, b, s') /\
      le_decode b = word_at (blk s ent) (Z.to_nat (4 * k)) /\ same s s'.
  Proof.
    intros Hs [He _] Hk. destruct (entry_offset k Hk) as [Ho Hol]. rewrite (Z.mul_comm k 4).
    destruct (rbuf_spec s (le_encode 4 0) 0 4 ent (4 * k)) as (s' & E & Hsame & _); try (done || lia).
    eexists _, _. split; [exact E|]. split; [|done]. apply le_decode_read.
    pose proof (length_blk s ent). lia.
  Qed.

Lemma write_word s ent k b : fs_ok s -> in_use s ent -> 0 <= k < 1024 ->
    exists s', sfs_wbuf s (le_encode 4 b) 0 4 ent (k * 4) = Ok (0, le_encode 4 b, s') /\
      becomes s (free s) (put (blk s) ent (list_inserts (Z.to_nat (4 * k)) (le_encode 4 b) (blk s ent))) s'.
  Proof.
    intros Hs [He _] Hk. destruct (entry_offset k Hk) as [Ho Hol]. rewrite (Z.mul_comm k 4).
    destruct (wbuf_spec s (le_encode 4 b) 0 4 ent (4 * k)) as (s' & E & Hb & _); try (done || lia).
    { apply le_encode_byte. }
    eexists. split; [exact E|].
    replace (take (Z.to_nat 4) (drop (Z.to_nat 0) (le_encode 4 b))) with (le_encode 4 b) in Hb; [done|].
    change (drop (Z.to_nat 0) (le_encode 4 b)) with (le_encode 4 b). rewrite take_ge; [done|]. by rewrite length_le_encode.
  Qed.

Lemma becomes_use s F f s' b : becomes s F f s' -> 0 < b < blocks (super s) -> ~ F b -> in_use s' b.
  Proof. intros Hb Hr HF. split; [by rewrite (bc_blocks _ _ _ _ Hb)|]. by rewrite (bc_free _ _ _ _ Hb). Qed.

Lemma becomes_trans s F f s1 G g s2 : becomes s F f s1 -> becomes s1 G g s2 -> becomes s G g s2.
  Proof. intros [] []. split; (done || congruence). Qed.

Lemma becomes_ext s F f s1 G g : becomes s F f s1 -> (forall b, F b <-> G b) -> (forall b, f b = g b) -> becomes s G g s1.
  Proof. intros [? ? Hf Hb] HF Hg. split; [done|done|intros b; by rewrite Hf|intros b; by rewrite Hb]. Qed.

  (** A block allocated and entered in entry [k] of the block [ent]. *)
Lemma sub_alloc_spec s ent0 ent k : fs_ok s -> in_use s ent -> 0 <= k < 1024 ->
    (exists b s', bmap_sub_alloc s ent0 ent (k * 4) = Ok (0, ent, b, s') /\ free s b /\
       becomes s (fun j => free s j /\ j <> b)
         (put (put (blk s) b zeros) ent (list_inserts (Z.to_nat (4 * k)) (le_encode 4 b) (blk s ent))) s') \/
    (exists s', bmap_sub_alloc s ent0 ent (k * 4) = Ok (- E_NO_MEM, ent0, 0, s') /\ (forall j, ~ free s j) /\
       becomes s (fun j => free s j \/ ent <> ent0 /\ j = ent) (blk s) s').
  Proof.
    intros Hs He Hk. unfold bmap_sub_alloc.
    destruct (alloc_spec s Hs) as [(b & s1 & E & Hb & Hs1)|[E Hno]]; rewrite E; cbn [rbind].
    - left. change (0 =? 0) with true. cbn [negb]. cbn iota.
      assert (Hne : ent <> b) by (by eapply used_not_free).
      assert (He1 : in_use s1 ent) by (apply (becomes_use s _ _ s1 ent Hs1); [apply He|]; intros [Hf _]; by apply He).
      destruct (write_word s1 ent k b (bc_ok _ _ _ _ Hs1) He1 Hk) as (s2 & E2 & Hs2). rewrite E2. cbn [rbind].
      change (0 =? 0) with true. cbn [negb]. cbn iota. exists b, s2. split; [done|]. split; [done|].
      apply (becomes_ext _ _ _ _ _ _ (becomes_trans _ _ _ _ _ _ _ Hs1 Hs2)); [apply (bc_free _ _ _ _ Hs1)|].
      intros c. rewrite (bc_blk _ _ _ _ Hs1 ent), (put_ne (blk s) b) by done.
      destruct (decide (c = ent)) as [->|Hc]; [by rewrite !put_eq|].
      rewrite !(put_ne _ ent) by done. apply (bc_blk _ _ _ _ Hs1).
    - right. change (- E_NO_MEM =? 0) with false. cbn [negb]. cbn iota. unfold bmap_failed_cleanup.
      destruct (Z.eqb_spec ent ent0) as [->|Hne]; cbn [negb].
      + exists s. split; [done|]. split; [done|]. split; [done|done| |done]. intuition.
      + destruct (free_spec s ent Hs He) as (s' & E' & Hs'). rewrite E'. cbn [rbind]. exists s'.
        split; [done|]. split; [done|]. apply (becomes_ext _ _ _ _ _ _ Hs'); [|done]. intuition.
  Qed.

  (** ** A block that is there *)

Lemma get_out_Ok s sin b : fs_ok s -> b = 0 \/ in_use s b -> bmap_get_out s sin b = Ok (0, b, s, sin).
  Proof.
    intros Hs Hb. unfold bmap_get_out. destruct (Z.eqb_spec b 0) as [->|Hne]; [done|].
    destruct Hb as [?|Hb]; [done|]. by rewrite inuse_used.
  Qed.

Lemma get_lookup s sin i : fs_ok s -> inode_ok s sin -> 0 <= i < dblocks (din sin) ->
    exists s', sfs_bmap_get_nolock s sin i false = Ok (0, entry (blk s) (din sin) i, s', sin) /\ same s s'.
  Proof.
    intros Hs Hi Hr. pose proof (in_used s sin Hi i Hr) as Hu. pose proof (in_blocks s sin Hi) as Hbl.
    unfold NBLOCKS in Hbl. unfold sfs_bmap_get_nolock, SFS_NDIRECT. unfold entry in Hu |- *.
    destruct (Z.ltb_spec i 12) as [Hlt|Hge].
    - destruct (lookup_lt_is_Some_2 (direct (din sin)) (Z.to_nat i)) as [b Eb]; [rewrite (in_direct s sin Hi); lia|].
      rewrite Eb in Hu |- *. cbn [rget rbind]. change (default 0 (Some b)) with b in *. rewrite andb_false_r.
      exists s. split; [apply get_out_Ok; auto|]. split; done.
    - destruct (Z.eqb_spec (indirect (din sin)) 0) as [Hz|Hz]; [by apply in_use_0 in Hu|].
      destruct (in_ind s sin Hi) as [?|Hind]; [done|].
      change SFS_BLK_NENTRY with 1024. destruct (Z.ltb_spec (i - 12) 1024); [|lia].
      unfold sfs_bmap_get_sub_nolock. change SFS_BLK_NENTRY with 1024. destruct (Z.ltb_spec (i - 12) 1024); [|lia].
      cbn [rassert rbind]. destruct (Z.eqb_spec (indirect (din sin)) 0); [done|]. cbn [negb].
      destruct (read_word s (indirect (din sin)) (i - 12) Hs Hind) as (s' & b & E & Ew & Hsame); [lia|].
      rewrite E. cbn [rbind]. change (0 =? 0) with true. cbn [negb]. cbn iota. rewrite Ew, orb_true_r.
      cbn [rbind negb]. rewrite !Z.eqb_refl. cbn [negb]. exists s'. split; [|done].
      apply get_out_Ok; [apply Hsame|]. right. apply (becomes_use s _ _ s' _ Hsame); apply Hu.
  Qed.

Lemma load_lookup s sin i : fs_ok s -> inode_ok s sin -> 0 <= i < dblocks (din sin) ->
    exists s', sfs_bmap_load_nolock s sin i = Ok (0, entry (blk s) (din sin) i, s', sin) /\ same s s'.
  Proof.
    intros Hs Hi Hr. unfold sfs_bmap_load_nolock. destruct (Z.leb_spec i (dblocks (din sin))), (Z.eqb_spec i (dblocks (din sin))); try lia.
    cbn [rassert rbind]. destruct (get_lookup s sin i Hs Hi Hr) as (s' & E & Hsame). rewrite E. cbn [rbind].
    change (0 =? 0) with true. cbn [negb]. cbn iota. rewrite inuse_used; [|apply Hsame|].
    - exists s'. done.
    - apply (becomes_use s _ _ s' _ Hsame); apply (in_used s sin Hi i Hr).
  Qed.

  (** ** A block appended *)

Lemma becomes_unused s f s' : fs_ok s -> becomes s (free s) f s' -> unused_blocks (super s') = unused_blocks (super s).
  Proof.
    intros Hs Hb. rewrite (fs_count s Hs), (fs_count s' (bc_ok _ _ _ _ Hb)). do 2 f_equal. apply set_eq. intros i.
    rewrite !elem_of_free_set. apply (bc_free _ _ _ _ Hb).
  Qed.

Lemma taken_unused s F f s' b : fs_ok s -> becomes s F f s' -> free s b -> (forall j, F j <-> free s j /\ j <> b) ->
    unused_blocks (super s') = unused_blocks (super s) - 1.
  Proof.
    intros Hs Hb Hf HF. rewrite (fs_count s Hs), (fs_count s' (bc_ok _ _ _ _ Hb)).
    rewrite (free_size_remove (freemap s) (freemap s') b); [lia|done|]. intros j. transitivity (F j); [apply (bc_free _ _ _ _ Hb)|apply HF].
  Qed.

  (** After [sfs_bmap_get_nolock] has created block [dblocks]. *)
Record attached s sin s' sin' (b : Z) : Prop := {
    at_frame : frame s (fun c => c = indirect (din sin)) s';
    at_new : free s b /\ in_use s' b /\ blk s' b = zeros;
    at_entries : forall i, 0 <= i < NBLOCKS ->
      entry (blk s') (din sin') i = if i =? dblocks (din sin) then b else entry (blk s) (din sin) i;
    at_direct : length (direct (din sin')) = 12%nat;
    at_meta : ino sin' = ino sin /\ reclaim_count sin' = reclaim_count sin /\ dsize (din sin') = dsize (din sin) /\
      dtype (din sin') = dtype (din sin) /\ nlinks (din sin') = nlinks (din sin) /\ dblocks (din sin') = dblocks (din sin);
    at_ind : indirect (din sin') = indirect (din sin) /\ (indirect (din sin) = 0 \/ in_use s' (indirect (din sin))) \/
      indirect (din sin) = 0 /\ free s (indirect (din sin')) /\ in_use s' (indirect (din sin')) /\ indirect (din sin') <> b;
    at_room : unused_blocks (super s) - 2 <= unused_blocks (super s')
  }.

  (** No block could be had: nothing changes, and at most one block was free. *)
Record refused s s' : Prop := {
    rf_frame : frame s (fun _ => False) s';
    rf_free : forall j, free s' j <-> free s j;
    rf_full : unused_blocks (super s) <= 1
  }.

Lemma no_free_unused s : fs_ok s -> (forall j, ~ free s j) -> unused_blocks (super s) = 0.
  Proof.
    intros Hs Hno. rewrite (fs_count s Hs). assert (E : free_set (freemap s) = ∅); [|by rewrite E].
    apply set_eq. intros j. rewrite elem_of_free_set. specialize (Hno j). split; [done|set_solver].
  Qed.

Lemma one_free_unused s b : fs_ok s -> free s b -> (forall j, free s j -> j = b) -> unused_blocks (super s) = 1.
  Proof.
    intros Hs Hb Hno. rewrite (fs_count s Hs). assert (E : free_set (freemap s) = {[b]}); [|by rewrite E, size_singleton].
    apply set_eq. intros j. rewrite elem_of_free_set, elem_of_singleton. split; [apply Hno|by intros ->].
  Qed.

Lemma refused_now s : fs_ok s -> (forall j, ~ free s j) -> refused s s.
  Proof. intros Hs Hno. split; [by split|done|]. rewrite no_free_unused by done. lia. Qed.

Lemma get_append_direct s sin : fs_ok s -> inode_ok s sin -> dblocks (din sin) < 12 ->
    (exists b s' sin', sfs_bmap_get_nolock s sin (dblocks (din sin)) true = Ok (0, b, s', sin') /\ attached s sin s' sin' b) \/
    (exists s', sfs_bmap_get_nolock s sin (dblocks (din sin)) true = Ok (- E_NO_MEM, 0, s', sin) /\ refused s s').
  Proof.
    intros Hs Hi Hlt. set (n := dblocks (din sin)) in *. pose proof (in_blocks s sin Hi) as Hbl. fold n in Hbl.
    pose proof (in_rest s sin Hi n) as H0. fold n in H0. unfold NBLOCKS in *.
    assert (En : (direct (din sin)) !! Z.to_nat n = Some 0).
    { destruct (lookup_lt_is_Some_2 (direct (din sin)) (Z.to_nat n)) as [b Eb]; [rewrite (in_direct s sin Hi); lia|].
      unfold entry in H0. destruct (Z.ltb_spec n 12); [|lia]. rewrite Eb in H0 |- *. simpl in H0. rewrite H0; [done|lia]. }
    unfold sfs_bmap_get_nolock, SFS_NDIRECT. destruct (Z.ltb_spec n 12); [|lia]. rewrite En. cbn [rget rbind].
    change (0 =? 0) with true. cbn [andb]. cbn iota.
    destruct (alloc_spec s Hs) as [(b & s' & E & Hb & Hs')|[E Hno]]; rewrite E; cbn [rbind].
    2: { right. exists s. split; [done|]. by apply refused_now. }
    left. change (0 =? 0) with true. cbn [negb]. cbn iota.
    assert (Hu : in_use s' b) by (apply (becomes_use s _ _ s' b Hs'); [by apply (fs_free s Hs)|tauto]).
    rewrite get_out_Ok by (try apply Hs'; auto). eexists b, s', _. split; [done|].
    assert (Hfr : frame s (fun _ => False) s').
    { apply (becomes_frame s _ _ s' _ Hs'). intros c Hc _. split; [intros [? _]; by apply Hc|].
      apply put_ne. by eapply used_not_free. }
    split; cbn.
    - apply (frame_weaken s s' _ _ Hfr). done.
    - split; [done|]. split; [done|]. by rewrite (bc_blk _ _ _ _ Hs'), put_eq.
    - intros i Hr. fold n. unfold entry. cbn. destruct (Z.ltb_spec i 12).
      + destruct (Z.eqb_spec i n) as [->|Hne].
        * by rewrite list_lookup_insert_eq by (rewrite (in_direct s sin Hi); lia).
        * by rewrite list_lookup_insert_ne by lia.
      + destruct (Z.eqb_spec i n); [lia|]. destruct (Z.eqb_spec (indirect (din sin)) 0); [done|].
        destruct (in_ind s sin Hi) as [?|Hind]; [done|]. by rewrite (proj2 (fr_keep _ _ _ Hfr _ Hind (fun x => x))).
    - by rewrite length_insert, (in_direct s sin Hi).
    - done.
    - left. split; [done|]. destruct (in_ind s sin Hi) as [?|Hind]; [by left|right]. apply (fr_keep _ _ _ Hfr _ Hind (fun x => x)).
    - rewrite (taken_unused s _ _ s' b Hs Hs' Hb); [lia|done].
  Qed.

  (** The entry block of a file that has one holds the entries from 12 on. *)
Lemma attach_indirect s sin s' sin' b l : fs_ok s -> inode_ok s sin -> 12 <= dblocks (din sin) < NBLOCKS ->
    frame s (fun c => c = indirect (din sin)) s' -> free s b -> in_use s' b -> blk s' b = zeros ->
    blk s' (indirect (din sin')) = list_inserts (Z.to_nat (4 * (dblocks (din sin) - 12))) (le_encode 4 b) l ->
    Z.of_nat (length l) = BLKSIZE ->
    (forall i, 12 <= i < NBLOCKS -> word_at l (Z.to_nat (4 * (i - 12))) = entry (blk s) (din sin) i) ->
    in_use s' (indirect (din sin')) ->
    (indirect (din sin') = indirect (din sin) \/
     indirect (din sin) = 0 /\ free s (indirect (din sin')) /\ indirect (din sin') <> b) ->
    direct (din sin') = direct (din sin) -> unused_blocks (super s) - 2 <= unused_blocks (super s') ->
    ino sin' = ino sin /\ reclaim_count sin' = reclaim_count sin /\ dsize (din sin') = dsize (din sin) /\
      dtype (din sin') = dtype (din sin) /\ nlinks (din sin') = nlinks (din sin) /\ dblocks (din sin') = dblocks (din sin) ->
    attached s sin s' sin' b.
  Proof.
    intros Hs Hi Hn Hfr Hb Hu Hz Hent Hl Hw Hiu Hind Hdir Hroom Hmeta. unfold NBLOCKS in *.
    pose proof (fs_free s Hs b Hb) as Hbr. pose proof (fs_size s Hs) as [_ Hsmall].
    split; try done.
    - intros i Hr. unfold NBLOCKS in Hr. unfold entry at 1. rewrite Hdir. destruct (Z.ltb_spec i 12).
      + destruct (Z.eqb_spec i (dblocks (din sin))); [lia|]. unfold entry. destruct (Z.ltb_spec i 12); [done|lia].
      + destruct (Z.eqb_spec (indirect (din sin')) 0) as [Hz0|_]; [rewrite Hz0 in Hiu; by apply in_use_0 in Hiu|].
        rewrite Hent. unfold BLKSIZE in *. destruct (Z.eqb_spec i (dblocks (din sin))) as [->|Hne].
        * apply word_at_same; [unfold two32; lia|lia].
        * rewrite word_at_other by lia. apply Hw. lia.
    - by rewrite Hdir, (in_direct s sin Hi).
    - destruct Hind as [He|(He & Hf & Hne)]; [left|right; done]. rewrite He in Hiu |- *. auto.
  Qed.

Lemma append_word s sin : inode_ok s sin -> 12 <= dblocks (din sin) < NBLOCKS -> indirect (din sin) <> 0 ->
    word_at (blk s (indirect (din sin))) (Z.to_nat (4 * (dblocks (din sin) - 12))) = 0.
  Proof.
    intros Hi Hn Hz. pose proof (in_rest s sin Hi (dblocks (din sin)) ltac:(lia)) as H0. unfold entry in H0.
    destruct (Z.ltb_spec (dblocks (din sin)) 12); [lia|]. destruct (Z.eqb_spec (indirect (din sin)) 0); done.
  Qed.

  (** ... when the file has an entry block already. *)
Lemma get_append_old s sin : fs_ok s -> inode_ok s sin -> 12 <= dblocks (din sin) < NBLOCKS -> indirect (din sin) <> 0 ->
    (exists b s' sin', sfs_bmap_get_nolock s sin (dblocks (din sin)) true = Ok (0, b, s', sin') /\ attached s sin s' sin' b) \/
    (exists s', sfs_bmap_get_nolock s sin (dblocks (din sin)) true = Ok (- E_NO_MEM, 0, s', sin) /\ refused s s').
  Proof.
    intros Hs Hi Hn Hz. pose proof (append_word s sin Hi Hn Hz) as Hw0. set (n := dblocks (din sin)) in *.
    unfold NBLOCKS in Hn. destruct (in_ind s sin Hi) as [?|Hind]; [done|].
    unfold sfs_bmap_get_nolock, SFS_NDIRECT, sfs_bmap_get_sub_nolock. change SFS_BLK_NENTRY with 1024.
    destruct (Z.ltb_spec n 12), (Z.ltb_spec (n - 12) 1024); try lia. cbn [rassert rbind].
    destruct (Z.eqb_spec (indirect (din sin)) 0); [done|]. cbn [negb].
    set (ent := indirect (din sin)) in *.
    destruct (read_word s ent (n - 12) Hs Hind) as (s1 & l & E & El & Hs1); [lia|].
    rewrite E. cbn [rbind]. rewrite El, Hw0. change (0 =? 0) with true. cbn [negb orb]. cbn iota.
    assert (Hind1 : in_use s1 ent) by (apply (becomes_use s _ _ s1 ent Hs1); apply Hind).
    destruct (sub_alloc_spec s1 ent ent (n - 12) (bc_ok _ _ _ _ Hs1) Hind1) as [(b & s2 & E2 & Hb & Hs2)|(s2 & E2 & Hno & Hs2)];
      [lia| |]; rewrite E2; cbn [rbind].
    - left. change (0 =? 0) with true. cbn [negb]. rewrite Z.eqb_refl. cbn [negb]. cbn iota.
      apply (bc_free _ _ _ _ Hs1) in Hb. pose proof (becomes_trans _ _ _ _ _ _ _ Hs1 Hs2) as Hs'.
      assert (Hne : ent <> b) by exact (used_not_free s b ent Hind Hb).
      assert (Hu : in_use s2 b) by (apply (becomes_use s _ _ s2 b Hs'); [by apply (fs_free s Hs)|tauto]).
      rewrite get_out_Ok by (try apply Hs2; auto). eexists b, s2, sin. split; [done|].
      apply (attach_indirect s sin s2 sin b (blk s ent)); try done.
      + apply (becomes_frame s _ _ s2 _ Hs'). intros c Hc Hce. rewrite (bc_free _ _ _ _ Hs1).
        split; [intros [Hf _]; by apply Hc|]. rewrite !put_ne by (try done; by eapply used_not_free).
        apply (bc_blk _ _ _ _ Hs1).
      + rewrite (bc_blk _ _ _ _ Hs2), put_ne, put_eq by done. done.
      + rewrite (bc_blk _ _ _ _ Hs2), put_eq. by rewrite (bc_blk _ _ _ _ Hs1).
      + apply length_blk.
      + intros i Hr. unfold entry. destruct (Z.ltb_spec i 12); [lia|]. by destruct (Z.eqb_spec (indirect (din sin)) 0).
      + apply (becomes_use s _ _ s2 ent Hs'); [apply Hind|]. rewrite (bc_free _ _ _ _ Hs1). intros [Hf _]. by apply Hind.
      + by left.
      + rewrite (taken_unused s1 _ _ s2 b (bc_ok _ _ _ _ Hs1) Hs2), (becomes_unused s _ s1 Hs Hs1);
          [lia|by apply (bc_free _ _ _ _ Hs1)|done].
    - right. change (- E_NO_MEM =? 0) with false. cbn [negb]. cbn iota. exists s2. split; [done|].
      assert (Hno' : forall j, ~ free s j) by (intros j Hj; apply (Hno j), (bc_free _ _ _ _ Hs1), Hj).
      pose proof (becomes_trans _ _ _ _ _ _ _ Hs1 Hs2) as Hs'. split; [| |by rewrite no_free_unused].
      2: { intros j. rewrite (bc_free _ _ _ _ Hs'), (bc_free _ _ _ _ Hs1). intuition. }
      apply (becomes_frame s _ _ s2 _ Hs'). intros c Hc _. rewrite (bc_blk _ _ _ _ Hs1).
      split; [intros [Hf|[? _]]; [by apply (Hno c)|done]|done].
  Qed.

  (** ... and when the entry block is created too. *)
Lemma get_append_new s sin : fs_ok s -> inode_ok s sin -> 12 <= dblocks (din sin) < NBLOCKS -> indirect (din sin) = 0 ->
    (exists b s' sin', sfs_bmap_get_nolock s sin (dblocks (din sin)) true = Ok (0, b, s', sin') /\ attached s sin s' sin' b) \/
    (exists s', sfs_bmap_get_nolock s sin (dblocks (din sin)) true = Ok (- E_NO_MEM, 0, s', sin) /\ refused s s').
  Proof.
    intros Hs Hi Hn Hz. set (n := dblocks (din sin)) in *. unfold NBLOCKS in Hn.
    unfold sfs_bmap_get_nolock, SFS_NDIRECT, sfs_bmap_get_sub_nolock. change SFS_BLK_NENTRY with 1024.
    destruct (Z.ltb_spec n 12), (Z.ltb_spec (n - 12) 1024); try lia. cbn [rassert rbind]. rewrite Hz.
    change (0 =? 0) with true. cbn [negb]. cbn iota.
    destruct (alloc_spec s Hs) as [(ent & s1 & E & He & Hs1)|[E Hno]]; rewrite E; cbn [rbind].
    2: { right. change (- E_NO_MEM =? 0) with false. cbn [negb]. cbn iota. exists s. split; [done|]. by apply refused_now. }
    change (0 =? 0) with true. cbn [negb]. cbn iota. pose proof (fs_free s Hs ent He) as Her.
    assert (Hu1 : in_use s1 ent) by (apply (becomes_use s _ _ s1 ent Hs1); [done|tauto]).
    assert (Hk1 : forall c, in_use s c -> ~ free s1 c /\ blk s1 c = blk s c).
    { intros c Hc. rewrite (bc_free _ _ _ _ Hs1), (bc_blk _ _ _ _ Hs1), put_ne by exact (used_not_free s ent c Hc He).
      split; [|done]. intros [Hf _]. by apply Hc. }
    destruct (sub_alloc_spec s1 0 ent (n - 12) (bc_ok _ _ _ _ Hs1) Hu1) as [(b & s2 & E2 & Hb & Hs2)|(s2 & E2 & Hno & Hs2)];
      [lia| |]; rewrite E2; cbn [rbind].
    - left. change (0 =? 0) with true. destruct (Z.eqb_spec ent 0); [lia|]. cbn [negb rassert rbind]. cbn iota.
      apply (bc_free _ _ _ _ Hs1) in Hb as [Hb Hbe]. pose proof (becomes_trans _ _ _ _ _ _ _ Hs1 Hs2) as Hs'.
      assert (Hu : in_use s2 b) by (apply (becomes_use s _ _ s2 b Hs'); [by apply (fs_free s Hs)|tauto]).
      assert (Hu2 : in_use s2 ent) by (apply (becomes_use s _ _ s2 ent Hs'); [done|]; intros [Hf _]; by apply Hu1).
      rewrite get_out_Ok by (try apply Hs2; auto). eexists b, s2, _. split; [done|].
      apply (attach_indirect s sin s2 _ b zeros); try done; cbn.
      + apply (becomes_frame s _ _ s2 _ Hs'). intros c Hc _. destruct (Hk1 c Hc) as [Hf Hbk]. split; [tauto|].
        rewrite !put_ne by (first [exact (used_not_free s ent c Hc He)|exact (used_not_free s b c Hc Hb)]). done.
      + by rewrite (bc_blk _ _ _ _ Hs2), put_ne, put_eq by done.
      + by rewrite (bc_blk _ _ _ _ Hs2), put_eq, (bc_blk _ _ _ _ Hs1), put_eq.
      + intros i Hr. rewrite word_at_zeros. unfold entry. destruct (Z.ltb_spec i 12); [lia|]. by rewrite Hz.
      + right. auto.
      + rewrite (taken_unused s1 _ _ s2 b (bc_ok _ _ _ _ Hs1) Hs2), (taken_unused s _ _ s1 ent Hs Hs1 He);
          [lia|done|by apply (bc_free _ _ _ _ Hs1)|done].
    - right. change (- E_NO_MEM =? 0) with false. cbn [negb]. cbn iota. exists s2. split; [done|].
      pose proof (becomes_trans _ _ _ _ _ _ _ Hs1 Hs2) as Hs'. split.
      + apply (becomes_frame s _ _ s2 _ Hs'). intros c Hc _. destruct (Hk1 c Hc) as [Hf Hbk]. split; [|done].
        intros [?|[_ ->]]; [done|]. by apply Hc.
      + intros j. rewrite (bc_free _ _ _ _ Hs'), (bc_free _ _ _ _ Hs1).
        split; [by intros [[? _]|[_ ->]]|]. intros Hj. destruct (decide (j = ent)) as [->|]; [right|left]; [|done].
        split; [lia|done].
      + rewrite (one_free_unused s ent Hs He); [done|]. intros j Hj. destruct (decide (j = ent)) as [|Hne]; [done|].
        destruct (Hno j). by apply (bc_free _ _ _ _ Hs1).
  Qed.

Lemma get_append s sin : fs_ok s -> inode_ok s sin -> dblocks (din sin) < NBLOCKS ->
    (exists b s' sin', sfs_bmap_get_nolock s sin (dblocks (din sin)) true = Ok (0, b, s', sin') /\ attached s sin s' sin' b) \/
    (exists s', sfs_bmap_get_nolock s sin (dblocks (din sin)) true = Ok (- E_NO_MEM, 0, s', sin) /\ refused s s').
  Proof.
    intros Hs Hi Hn. destruct (decide (dblocks (din sin) < 12)); [by apply get_append_direct|].
    destruct (decide (indirect (din sin) = 0)); [apply get_append_new|apply get_append_old]; (done || lia).
  Qed.

  (** After a block has been appended to the file. *)
Record grown s sin s' sin' (b : Z) : Prop := {
    gr_frame : frame s (fun c => c = indirect (din sin)) s';
    gr_inode : inode_ok s' sin';
    gr_new : free s b /\ blk s' b = zeros;
    gr_entries : forall i, 0 <= i < NBLOCKS ->
      entry (blk s') (din sin') i = if i =? dblocks (din sin) then b else entry (blk s) (din sin) i;
    gr_meta : ino sin' = ino sin /\ dsize (din sin') = dsize (din sin) /\
      dtype (din sin') = dtype (din sin) /\ nlinks (din sin') = nlinks (din sin) /\
      dblocks (din sin') = dblocks (din sin) + 1;
    gr_owns : forall c, owns s' sin' c -> owns s sin c \/ free s c;
    gr_rc : reclaim_count sin' = reclaim_count sin;
    gr_room : unused_blocks (super s) - 2 <= unused_blocks (super s')
  }.

Lemma attached_used s sin s' sin' b c : inode_ok s sin -> attached s sin s' sin' b ->
    in_use s c -> c <> indirect (din sin) -> in_use s' c.
  Proof. intros Hi Ha Hc Hne. by apply (fr_keep _ _ _ (at_frame _ _ _ _ _ Ha)). Qed.

Lemma attached_inode s sin s' sin' b : fs_ok s -> inode_ok s sin -> dblocks (din sin) < NBLOCKS ->
    attached s sin s' sin' b -> inode_ok s' (set_din sin' (set_blocks (din sin') (dblocks (din sin) + 1))).
  Proof.
    intros Hs Hi Hn Ha. pose proof (in_blocks s sin Hi) as Hbl. pose proof (at_new _ _ _ _ _ Ha) as (Hb & Hu & _).
    pose proof (at_entries _ _ _ _ _ Ha) as He. pose proof (at_meta _ _ _ _ _ Ha) as (Ei & _ & _ & _ & _ & Eb).
    set (n := dblocks (din sin)) in *.
    assert (Hold : forall i, 0 <= i < n -> entry (blk s') (din sin') i = entry (blk s) (din sin) i).
    { intros i Hr. rewrite He by lia. destruct (Z.eqb_spec i n); [lia|done]. }
    assert (Hnew : entry (blk s') (din sin') n = b) by (rewrite He by lia; by rewrite Z.eqb_refl).
    assert (Hcase : forall i, 0 <= i < n + 1 -> 0 <= i < n \/ i = n) by lia.
    assert (Hold_b : forall i, 0 <= i < n -> entry (blk s) (din sin) i <> b)
      by (intros i Hr; exact (used_not_free s b _ (in_used s sin Hi i Hr) Hb)).
    assert (Hind_b : indirect (din sin') <> b /\ (forall i, 0 <= i < n -> entry (blk s) (din sin) i <> indirect (din sin'))
                     /\ indirect (din sin') <> ino sin /\ (indirect (din sin') = 0 \/ in_use s' (indirect (din sin')))).
    { pose proof (fs_free s Hs b Hb). destruct (at_ind _ _ _ _ _ Ha) as [[-> Hx]|(Hz & Hf & Hxu & Hne)].
      - split; [|split; [|split; [apply (in_sep2 s sin Hi)|done]]].
        + destruct (in_ind s sin Hi) as [?|Hx']; [lia|]. exact (used_not_free s b _ Hx' Hb).
        + intros i Hr. apply (in_sep s sin Hi i Hr).
      - split; [done|split; [|split; [|by right]]].
        + intros i Hr. exact (used_not_free s _ _ (in_used s sin Hi i Hr) Hf).
        + apply not_eq_sym. exact (used_not_free s _ _ (in_self s sin Hi) Hf). }
    destruct Hind_b as (Hib & His & Hino & Hiu).
    assert (Hsu : in_use s' (ino sin)).
    { eapply attached_used; [done|done|apply (in_self s sin Hi)|]. apply not_eq_sym, (in_sep2 s sin Hi). }
    split; cbn [din set_din set_blocks dblocks direct indirect ino]; try done.
    - apply (at_direct _ _ _ _ _ Ha).
    - unfold NBLOCKS in *. lia.
    - intros i [Hr| ->]%Hcase; [|change (in_use s' (entry (blk s') (din sin') n)); by rewrite Hnew].
      change (in_use s' (entry (blk s') (din sin') i)). rewrite Hold by done.
      eapply attached_used; [done|done|by apply (in_used s sin Hi)|]. apply (in_sep s sin Hi i Hr).
    - intros i Hr. change (entry (blk s') (din sin') i = 0). rewrite He by lia. destruct (Z.eqb_spec i n); [lia|].
      apply (in_rest s sin Hi). fold n. lia.
    - by rewrite Ei.
    - intros i j Hr Hr' E. change (entry (blk s') (din sin') i = entry (blk s') (din sin') j) in E.
      destruct (Hcase i Hr) as [Hi1| ->], (Hcase j Hr') as [Hj1| ->]; [| | |done].
      + rewrite !Hold in E by done. by apply (in_inj s sin Hi).
      + rewrite Hnew, Hold in E by done. by destruct (Hold_b i Hi1).
      + rewrite Hnew, Hold in E by done. by destruct (Hold_b j Hj1).
    - intros i [Hr| ->]%Hcase; change (entry (blk s') (set_blocks (din sin') (n + 1))) with (entry (blk s') (din sin')); rewrite Ei.
      + rewrite Hold by done. split; [by apply His|]. apply (in_sep s sin Hi i Hr).
      + rewrite Hnew. split; [done|]. apply not_eq_sym. exact (used_not_free s b _ (in_self s sin Hi) Hb).
    - by rewrite Ei.
  Qed.

Lemma load_append s sin : fs_ok s -> inode_ok s sin -> dblocks (din sin) < NBLOCKS ->
    (exists b s' sin', sfs_bmap_load_nolock s sin (dblocks (din sin)) = Ok (0, b, s', sin') /\ grown s sin s' sin' b) \/
    (exists s', sfs_bmap_load_nolock s sin (dblocks (din sin)) = Ok (- E_NO_MEM, 0, s', sin) /\ refused s s').
  Proof.
    intros Hs Hi Hn. unfold sfs_bmap_load_nolock. destruct (Z.leb_spec (dblocks (din sin)) (dblocks (din sin))); [|lia].
    rewrite Z.eqb_refl. cbn [rassert rbind].
    destruct (get_append s sin Hs Hi Hn) as [(b & s' & sin' & E & Ha)|(s' & E & Hr)]; rewrite E; cbn [rbind].
    2: { right. exists s'. done. }
    left. change (0 =? 0) with true. cbn [negb]. cbn iota.
    pose proof (at_new _ _ _ _ _ Ha) as (Hb & Hu & Hz). pose proof (at_frame _ _ _ _ _ Ha) as Hfr.
    pose proof (at_meta _ _ _ _ _ Ha) as (Ei & _ & Es & Et & El & Eb). pose proof (in_blocks s sin Hi) as Hbl.
    rewrite inuse_used by (done || apply Hfr). cbn [rassert rbind]. rewrite Eb, u32_id by (unfold is_u32, two32, NBLOCKS in *; lia).
    eexists b, s', _. split; [done|]. split; cbn; try done.
    - by apply (attached_inode s sin s' sin' b).
    - apply (at_entries _ _ _ _ _ Ha).
    - intros c [Hc|[[Hc Hne]|(i & Hr & Hc)]]; cbn in *.
      + left; left. by rewrite <- Ei.
      + destruct (at_ind _ _ _ _ _ Ha) as [[Ex _]|(_ & Hf & _)]; [left; right; left; by rewrite <- Ex|right; by rewrite Hc].
      + change (entry (blk s') (din sin') i = c) in Hc. rewrite (at_entries _ _ _ _ _ Ha) in Hc by lia.
        destruct (Z.eqb_spec i (dblocks (din sin))); subst; [by right|]. left; right; right. exists i. split; [lia|done].
    - apply (at_meta _ _ _ _ _ Ha).
    - apply (at_room _ _ _ _ _ Ha).
  Qed.

  (** ** The last block dropped *)

Record shrunk s sin s' sin' : Prop := {
    sh_frame : frame s (fun c => c = indirect (din sin) \/ c = entry (blk s) (din sin) (dblocks (din sin) - 1)) s';
    sh_free : forall c, free s' c <-> free s c \/ c = entry (blk s) (din sin) (dblocks (din sin) - 1);
    sh_entries : forall i, 0 <= i < NBLOCKS ->
      entry (blk s') (din sin') i = if i =? dblocks (din sin) - 1 then 0 else entry (blk s) (din sin) i;
    sh_direct : length (direct (din sin')) = 12%nat;
    sh_meta : ino sin' = ino sin /\ indirect (din sin') = indirect (din sin) /\ dsize (din sin') = dsize (din sin) /\
      dtype (din sin') = dtype (din sin) /\ nlinks (din sin') = nlinks (din sin);
    sh_rc : reclaim_count sin' = reclaim_count sin
  }.

Lemma free_last_direct s sin : fs_ok s -> inode_ok s sin -> 0 < dblocks (din sin) <= 12 ->
    exists s' sin', sfs_bmap_free_nolock s sin (dblocks (din sin) - 1) = Ok (0, s', sin') /\ shrunk s sin s' sin' /\
      dblocks (din sin') = dblocks (din sin).
  Proof.
    intros Hs Hi Hn. pose proof (in_used s sin Hi (dblocks (din sin) - 1) ltac:(lia)) as Hu.
    pose proof (in_sep s sin Hi (dblocks (din sin) - 1) ltac:(lia)) as [Hsep _].
    set (n := dblocks (din sin) - 1) in *. set (e := entry (blk s) (din sin) n) in *.
    assert (Ee : direct (din sin) !! Z.to_nat n = Some e).
    { destruct (lookup_lt_is_Some_2 (direct (din sin)) (Z.to_nat n)) as [b Eb]; [rewrite (in_direct s sin Hi); lia|].
      unfold e, entry. destruct (Z.ltb_spec n 12); [|lia]. by rewrite Eb. }
    unfold sfs_bmap_free_nolock, SFS_NDIRECT. destruct (Z.ltb_spec n 12); [|lia]. rewrite Ee. cbn [rget rbind].
    destruct (Z.eqb_spec e 0) as [E0|_]; [rewrite E0 in Hu; by apply in_use_0 in Hu|]. cbn [negb].
    destruct (free_spec s e Hs Hu) as (s' & E & Hs'). rewrite E. cbn [rbind]. eexists s', _. split; [done|].
    split; [|done]. split; cbn; try done.
    - apply (becomes_frame s _ _ s' _ Hs'). intros c Hc HP. split; [|done]. intros [Hf| ->]; [by apply Hc|].
      apply HP. by right.
    - apply (bc_free _ _ _ _ Hs').
    - intros i Hr. change (dblocks (din sin) - 1) with n. unfold entry. cbn [direct indirect set_direct].
      destruct (Z.ltb_spec i 12).
      + destruct (Z.eqb_spec i n) as [->|Hne].
        * by rewrite list_lookup_insert_eq by (rewrite (in_direct s sin Hi); lia).
        * by rewrite list_lookup_insert_ne by lia.
      + destruct (Z.eqb_spec i n); [lia|]. by rewrite (bc_blk _ _ _ _ Hs').
    - by rewrite length_insert, (in_direct s sin Hi).
  Qed.

Lemma free_last_indirect s sin : fs_ok s -> inode_ok s sin -> 12 < dblocks (din sin) ->
    exists s', sfs_bmap_free_nolock s sin (dblocks (din sin) - 1) = Ok (0, s', sin) /\ shrunk s sin s' sin.
  Proof.
    intros Hs Hi Hn. pose proof (in_used s sin Hi (dblocks (din sin) - 1) ltac:(lia)) as Hu.
    pose proof (in_sep s sin Hi (dblocks (din sin) - 1) ltac:(lia)) as [Hsep _]. pose proof (in_blocks s sin Hi) as Hbl.
    set (n := dblocks (din sin) - 1) in *. set (e := entry (blk s) (din sin) n) in *. unfold NBLOCKS in Hbl.
    assert (Ee : indirect (din sin) <> 0 /\ e = word_at (blk s (indirect (din sin))) (Z.to_nat (4 * (n - 12)))).
    { unfold e, entry in Hu |- *. destruct (Z.ltb_spec n 12); [lia|].
      destruct (Z.eqb_spec (indirect (din sin)) 0); [by apply in_use_0 in Hu|done]. }
    destruct Ee as [Hz Ee]. destruct (in_ind s sin Hi) as [?|Hind]; [done|].
    set (ent := indirect (din sin)) in *.
    unfold sfs_bmap_free_nolock, SFS_NDIRECT, sfs_bmap_free_sub_nolock. change SFS_BLK_NENTRY with 1024.
    destruct (Z.ltb_spec n 12), (Z.ltb_spec (n - 12) 1024); try lia. fold ent.
    destruct (Z.eqb_spec ent 0); [done|]. cbn [negb]. rewrite inuse_used by done. cbn [rassert rbind andb].
    destruct (read_word s ent (n - 12) Hs Hind) as (s1 & l & E & El & Hs1); [lia|].
    rewrite E. cbn [rbind]. change (0 =? 0) with true. cbn [negb]. cbn iota. rewrite El, <- Ee.
    destruct (Z.eqb_spec e 0) as [E0|_]; [rewrite E0 in Hu; by apply in_use_0 in Hu|]. cbn [negb].
    assert (Hind1 : in_use s1 ent) by (apply (becomes_use s _ _ s1 ent Hs1); apply Hind).
    destruct (write_word s1 ent (n - 12) 0 (bc_ok _ _ _ _ Hs1) Hind1) as (s2 & E2 & Hs2); [lia|].
    rewrite E2. cbn [rbind]. change (0 =? 0) with true. cbn [negb]. cbn iota.
    pose proof (becomes_trans _ _ _ _ _ _ _ Hs1 Hs2) as Hs12.
    assert (Hu2 : in_use s2 e).
    { apply (becomes_use s _ _ s2 e Hs12); [apply Hu|]. rewrite (bc_free _ _ _ _ Hs1). apply Hu. }
    destruct (free_spec s2 e (bc_ok _ _ _ _ Hs2) Hu2) as (s3 & E3 & Hs3). rewrite E3. cbn [rbind].
    pose proof (becomes_trans _ _ _ _ _ _ _ Hs12 Hs3) as Hs'.
    assert (Hf : forall c, free s3 c <-> free s c \/ c = e).
    { intros c. rewrite (bc_free _ _ _ _ Hs3), (bc_free _ _ _ _ Hs2), (bc_free _ _ _ _ Hs1). done. }
    assert (Hb : forall c, blk s3 c = put (blk s) ent (list_inserts (Z.to_nat (4 * (n - 12))) (le_encode 4 0) (blk s ent)) c).
    { intros c. rewrite (bc_blk _ _ _ _ Hs3), (bc_blk _ _ _ _ Hs2), (bc_blk _ _ _ _ Hs1). unfold put.
      destruct (c =? ent); [done|apply (bc_blk _ _ _ _ Hs1)]. }
    exists s3. split; [done|]. split; try done.
    - split; [apply Hs'|apply Hs'|]. intros c Hc HP. split.
      + split; [rewrite (bc_blocks _ _ _ _ Hs'); apply Hc|]. rewrite Hf. intros [?|?]; [by apply Hc|apply HP; by right].
      + rewrite Hb. apply put_ne. intros ->. apply HP. by left.
    - intros i Hr. fold n. unfold entry. fold ent. destruct (Z.ltb_spec i 12).
      + destruct (Z.eqb_spec i n); [lia|done].
      + destruct (Z.eqb_spec ent 0); [done|]. pose proof (length_blk s ent). unfold BLKSIZE, NBLOCKS in *.
        rewrite Hb, put_eq. destruct (Z.eqb_spec i n) as [->|Hne].
        * apply word_at_same; [unfold two32; lia|lia].
        * apply word_at_other. lia.
    - apply (in_direct s sin Hi).
  Qed.

Lemma shrunk_inode s sin s' sin' : fs_ok s -> inode_ok s sin -> 0 < dblocks (din sin) -> shrunk s sin s' sin' ->
    dblocks (din sin') = dblocks (din sin) - 1 ->
    inode_ok s' sin' /\ forall c, owns s' sin' c -> owns s sin c.
  Proof.
    intros Hs Hi Hn Hsh Hd. pose proof (in_blocks s sin Hi) as Hbl. destruct Hsh as [[Hok Hb Hk] Hf He Hdir (Ei & Ex & _)].
    set (n := dblocks (din sin)) in *. set (e := entry (blk s) (din sin) (n - 1)) in *.
    assert (Hold : forall i, 0 <= i < n - 1 -> entry (blk s') (din sin') i = entry (blk s) (din sin) i).
    { intros i Hr. rewrite He by lia. destruct (Z.eqb_spec i (n - 1)); [lia|done]. }
    assert (Hne : forall i, 0 <= i < n - 1 -> entry (blk s) (din sin) i <> e).
    { intros i Hr Eq. apply (in_inj s sin Hi) in Eq; fold n; lia. }
    assert (Hkeep : forall c, in_use s c -> c <> e -> in_use s' c).
    { intros c Hc Hce. split; [rewrite (geo_blocks _ _ Hb); apply Hc|]. rewrite Hf. intros [?|?]; [by apply Hc|done]. }
    pose proof (in_sep s sin Hi (n - 1) ltac:(fold n; lia)) as [Hse Hse2]. fold e in Hse, Hse2.
    split.
    - split; rewrite ?Hd; try done.
      + lia.
      + intros i Hr. rewrite Hold by done. apply Hkeep; [apply (in_used s sin Hi); fold n; lia|by apply Hne].
      + intros i Hr. rewrite He by lia. destruct (Z.eqb_spec i (n - 1)); [done|]. apply (in_rest s sin Hi). fold n. lia.
      + rewrite Ex. destruct (in_ind s sin Hi) as [?|Hx]; [by left|right]. apply Hkeep; [done|]. by apply not_eq_sym.
      + rewrite Ei. apply Hkeep; [apply (in_self s sin Hi)|by apply not_eq_sym].
      + intros i j Hr Hr'. rewrite !Hold by done. apply (in_inj s sin Hi); fold n; lia.
      + intros i Hr. rewrite Hold, Ex, Ei by done. apply (in_sep s sin Hi). fold n. lia.
      + rewrite Ex, Ei. apply (in_sep2 s sin Hi).
    - intros c [Hc|[[Hc Hz]|(i & Hr & Hc)]]; rewrite ?Hd in *.
      + left. by rewrite <- Ei.
      + right; left. by rewrite <- Ex.
      + right; right. exists i. rewrite <- Hold by done. split; [fold n; lia|done].
  Qed.

Lemma truncate_spec s sin : fs_ok s -> inode_ok s sin -> 0 < dblocks (din sin) ->
    exists s' sin', sfs_bmap_truncate_nolock s sin = Ok (0, s', sin') /\ shrunk s sin s' sin' /\
      dblocks (din sin') = dblocks (din sin) - 1 /\ inode_ok s' sin' /\ forall c, owns s' sin' c -> owns s sin c.
  Proof.
    intros Hs Hi Hn. unfold sfs_bmap_truncate_nolock. destruct (Z.eqb_spec (dblocks (din sin)) 0); [lia|].
    cbn [negb rassert rbind].
    assert (Hfree : exists s' sin', sfs_bmap_free_nolock s sin (dblocks (din sin) - 1) = Ok (0, s', sin') /\
      shrunk s sin s' sin' /\ dblocks (din sin') = dblocks (din sin)).
    { destruct (decide (dblocks (din sin) <= 12)); [by apply free_last_direct|].
      destruct (free_last_indirect s sin Hs Hi) as (s' & E & Hsh); [lia|]. by exists s', sin. }
    destruct Hfree as (s' & sin' & E & Hsh & Hd). rewrite E. cbn [rbind]. change (0 =? 0) with true. cbn [negb]. cbn iota.
    eexists s', _. split; [done|].
    set (sin2 := set_dirty _ _). assert (Hsh2 : shrunk s sin s' sin2) by (by destruct Hsh; split).
    assert (Hd2 : dblocks (din sin2) = dblocks (din sin) - 1) by (cbn; lia).
    split; [done|]. split; [done|]. by apply shrunk_inode.
  Qed.
End SfsLoad.
