(* ===== verification/SfsFile.v ===== *)
(** * Files as arrays of bytes

    The abstract file behind an inode is its size and its bytes.  Transfers
    inside one block are put together to those of [sfs_io_nolock]; resizing is
    the iteration of appending or dropping a block. *)
From S2P Require Import Prelude Arith Bitmap IoBuf BlockDev Sfs SfsDisk SfsBmap SfsLoad.

Section SfsFile.
  Context {D : Type} `{!BlockDev D, !BlockRead D, !BlockWrite D}.
  Implicit Types (s : sfs_fs D) (sin : sfs_inode).

  (** Byte [p] of the file. *)
Definition byte s sin (p : Z) : Z := at_ (blk s (entry (blk s) (din sin) (p / 4096))) (p mod 4096).

  (** A regular file: as many blocks as its size needs. *)
Record file_ok s sin : Prop := {
    fl_inode : inode_ok s sin;
    fl_type : dtype (din sin) = SFS_TYPE_FILE;
    fl_size : 0 <= dsize (din sin);
    fl_blocks : dblocks (din sin) = (dsize (din sin) + 4095) / 4096
  }.

  (** What every operation on the inode leaves alone: the blocks the inode
      does not own, and its own block; the ones it gains were free. *)
Record stepped s sin s' sin' : Prop := {
    st_fs : fs_ok s';
    st_inode : inode_ok s' sin';
    st_meta : ino sin' = ino sin /\ dsize (din sin') = dsize (din sin) /\ dtype (din sin') = dtype (din sin) /\
      nlinks (din sin') = nlinks (din sin);
    st_frame : frame s (fun c => owns s sin c /\ c <> ino sin) s';
    st_owns : forall c, owns s' sin' c -> owns s sin c \/ free s c;
    st_rc : reclaim_count sin' = reclaim_count sin
  }.

Lemma stepped_trans s sin s1 sin1 s2 sin2 : stepped s sin s1 sin1 -> stepped s1 sin1 s2 sin2 -> stepped s sin s2 sin2.
  Proof.
    intros [H1 _ (Ea & Eb & Ec & Ed) [_ Hbl1 Hk1] Ho1 Hr1] [Hok Hin (Ea' & Eb' & Ec' & Ed') [_ Hbl2 Hk2] Ho2 Hr2].
    assert (Hnot : forall c, in_use s c -> ~ (owns s sin c /\ c <> ino sin) -> ~ (owns s1 sin1 c /\ c <> ino sin1)).
    { intros c Hc Hn [Hx Hne]. rewrite Ea in Hne. destruct (Ho1 c Hx); [by apply Hn|]. by apply Hc. }
    split; [done|done|split_and!; congruence| | |congruence].
    - split; [done|congruence|]. intros c Hc Hn. destruct (Hk1 c Hc Hn) as [Hc1 E1].
      destruct (Hk2 c Hc1 (Hnot c Hc Hn)) as [Hc2 E2]. split; [done|congruence].
    - intros c Hx. destruct (Ho2 c Hx) as [Hx1|Hf]; [by apply Ho1|].
      destruct (decide (0 < c < blocks (super s1))) as [Hr|Hr]; [|apply (fs_free s1 H1) in Hf; lia].
      rewrite (geo_blocks _ _ Hbl1) in Hr.
      assert (Hd : Decision (free s c)) by (unfold free, is_free; apply _).
      destruct Hd as [?|Hnf]; [by right|]. left.
      assert (Hd : Decision (owns s sin c)).
      { unfold owns. apply or_dec; [apply _|]. apply or_dec; [apply _|].
        destruct (decide (Exists (fun i => entry (blk s) (din sin) i = c) (seqZ 0 (dblocks (din sin))))) as [He|He].
        - left. apply Exists_exists in He as (i & Hi%elem_of_seqZ & E). exists i. split; [lia|done].
        - right. intros (i & Hi & E). apply He, Exists_exists. exists i. split; [apply elem_of_seqZ; lia|done]. }
      destruct Hd as [?|Hn]; [done|]. destruct (Hk1 c (conj Hr Hnf) ltac:(tauto)) as [Hc1 _]. by destruct (in_use_free _ _ Hc1).
  Qed.

Lemma stepped_same s sin s' : inode_ok s sin -> same s s' -> stepped s sin s' sin.
  Proof.
    intros Hi Hs. destruct (same_inode s s' sin Hi Hs) as [Hi' He].
    split; [apply Hs|done|done|by apply same_frame| |done].
    intros c [?|[?|(i & Hr & E)]]; left; [by left|by right; left|]. right; right. exists i. by rewrite <- He.
  Qed.

  (** ** A data block written *)

Lemma data_write s sin s' i l : inode_ok s sin -> 0 <= i < dblocks (din sin) ->
    becomes s (free s) (put (blk s) (entry (blk s) (din sin) i) l) s' ->
    stepped s sin s' sin /\ forall j, entry (blk s') (din sin) j = entry (blk s) (din sin) j.
  Proof.
    intros Hi Hr Hb. set (b := entry (blk s) (din sin) i) in *. pose proof (in_sep s sin Hi i Hr) as [Hsep _]. fold b in Hsep.
    assert (Hfr : frame s (fun c => c = b) s').
    { apply (becomes_frame s _ _ s' _ Hb). intros c [_ Hc] Hne. split; [done|by apply put_ne]. }
    assert (He : forall j, entry (blk s') (din sin) j = entry (blk s) (din sin) j).
    { intros j. apply entry_ext. intros _. rewrite (bc_blk _ _ _ _ Hb). apply put_ne. by apply not_eq_sym. }
    assert (Huse : forall c, in_use s c -> in_use s' c).
    { intros c Hc. apply (becomes_use s _ _ s' c Hb); apply Hc. }
    split; [|done]. split; [apply Hb| |done| | |done].
    - destruct Hi as [? ? Hu Hrest Hin Hse Hinj Hsp Hsp2]. split; try done.
      + intros j Hj. rewrite He. by apply Huse, Hu.
      + intros j Hj. rewrite He. by apply Hrest.
      + destruct Hin; [by left|right; by apply Huse].
      + by apply Huse.
      + intros j k Hj Hk. rewrite !He. by apply Hinj.
      + intros j Hj. rewrite He. by apply Hsp.
    - apply (frame_weaken s s' _ _ Hfr). intros c _ ->. split; [right; right; by exists i|]. apply (in_sep s sin Hi i Hr).
    - intros c [?|[?|(j & Hj & E)]]; left; [by left|by right; left|]. right; right. exists j. by rewrite <- He.
  Qed.

Lemma grown_stepped s sin s' sin' b : inode_ok s sin -> grown s sin s' sin' b -> stepped s sin s' sin'.
  Proof.
    intros Hi [Hfr Hin _ _ (Ea & Eb & Ec & Ed & _) Ho Hrc _]. split; [apply Hfr|done|done| |done|done].
    apply (frame_weaken s s' _ _ Hfr). intros c Hc ->. split; [|apply (in_sep2 s sin Hi)]. right; left. split; [done|]. intros E. rewrite E in Hc. by apply in_use_0 in Hc.
  Qed.

  (** ** Loading a block for a transfer *)

Record loaded s sin (i b : Z) s' sin' : Prop := {
    ld_step : stepped s sin s' sin';
    ld_blocks : dblocks (din sin') = Z.max (dblocks (din sin)) (i + 1);
    ld_entry : entry (blk s') (din sin') i = b;
    ld_bytes : forall p, 0 <= p < dblocks (din sin') * 4096 ->
      byte s' sin' p = if p <? dblocks (din sin) * 4096 then byte s sin p else 0;
    ld_room : unused_blocks (super s) - 2 * (dblocks (din sin') - dblocks (din sin)) <= unused_blocks (super s')
  }.

Lemma grown_loaded s sin s' sin' b : fs_ok s -> inode_ok s sin -> dblocks (din sin) < NBLOCKS -> grown s sin s' sin' b ->
    loaded s sin (dblocks (din sin)) b s' sin'.
  Proof.
    intros Hs Hi Hn Hg. pose proof (in_blocks s sin Hi) as Hr.
    pose proof (gr_meta _ _ _ _ _ Hg) as (_ & _ & _ & _ & Hd). pose proof (gr_entries _ _ _ _ _ Hg) as He.
    split; [by eapply grown_stepped|lia| | |].
    - rewrite He by lia. by rewrite Z.eqb_refl.
    - intros p Hp. rewrite Hd in Hp. unfold byte.
      assert (Hq : 0 <= p / 4096 < dblocks (din sin) + 1) by (Z.to_euclidean_division_equations; lia).
      rewrite He by lia. destruct (Z.ltb_spec p (dblocks (din sin) * 4096)), (Z.eqb_spec (p / 4096) (dblocks (din sin)));
        try (exfalso; Z.to_euclidean_division_equations; lia).
      + f_equal. apply (fr_keep _ _ _ (gr_frame _ _ _ _ _ Hg)); [apply (in_used s sin Hi); lia|].
        apply (in_sep s sin Hi). lia.
      + rewrite (proj2 (gr_new _ _ _ _ _ Hg)). apply at_replicate.
    - pose proof (gr_room _ _ _ _ _ Hg). lia.
  Qed.

Lemma load_io s sin i : fs_ok s -> inode_ok s sin -> 0 <= i <= dblocks (din sin) -> i < NBLOCKS ->
    (i = dblocks (din sin) -> 2 <= unused_blocks (super s)) ->
    exists b s' sin', sfs_bmap_load_nolock s sin i = Ok (0, b, s', sin') /\ loaded s sin i b s' sin' /\
      (i < dblocks (din sin) -> sin' = sin /\ same s s').
  Proof.
    intros Hs Hi Hr Hn Hroom. destruct (decide (i = dblocks (din sin))) as [->|Hne].
    - destruct (load_append s sin Hs Hi Hn) as [(b & s' & sin' & E & Hg)|(s' & E & [_ _ Hx])].
      2: { specialize (Hroom eq_refl). lia. }
      exists b, s', sin'. split; [done|]. split; [by apply grown_loaded|lia].
    - destruct (load_lookup s sin i Hs Hi) as (s' & E & Hsame); [lia|].
      exists (entry (blk s) (din sin) i), s', sin. split; [done|]. split; [|done].
      destruct (same_inode s s' sin Hi Hsame) as [_ He].
      split; [by apply stepped_same|lia|apply He| |].
      + intros p Hp. destruct (Z.ltb_spec p (dblocks (din sin) * 4096)); [|lia].
        unfold byte. by rewrite He, (bc_blk _ _ _ _ Hsame).
      + rewrite (becomes_unused s (blk s) s' Hs Hsame). lia.
  Qed.

  (** ** Transfers inside a block *)

  (** The shape shared by the three parts of a transfer. *)
Definition io_chunk (op : sfs_fs D -> Z -> res (Z * list Z * sfs_fs D)) s sin (i n : Z) :
      res (Z * list Z * sfs_fs D * sfs_inode) :=
    let! (ret, ino, s, sin) := sfs_bmap_load_nolock s sin i in
    assert! ret =? 0 ;;
    let! (ret, buf, s) := op s ino in
    assert! ret =? 0 ;;
    Ok (n, buf, s, sin).

Definition writes (op : sfs_fs D -> Z -> res (Z * list Z * sfs_fs D)) (buf : list Z) (base n o : Z) : Prop :=
    forall s b, fs_ok s -> 0 < b < blocks (super s) -> exists s', op s b = Ok (0, buf, s') /\
      becomes s (free s) (put (blk s) b (list_inserts (Z.to_nat o) (take (Z.to_nat n) (drop (Z.to_nat base) buf)) (blk s b))) s'.

Definition reads (op : sfs_fs D -> Z -> res (Z * list Z * sfs_fs D)) (buf : list Z) (base n o : Z) : Prop :=
    forall s b, fs_ok s -> 0 < b < blocks (super s) -> exists s',
      op s b = Ok (0, list_inserts (Z.to_nat base) (take (Z.to_nat n) (drop (Z.to_nat o) (blk s b))) buf, s') /\ same s s'.

  (** The bytes from [off] to [e] come from [buf], from [base] on. *)
Record wrote s sin (off e : Z) (buf : list Z) (base : Z) s' sin' : Prop := {
    wr_step : stepped s sin s' sin';
    wr_blocks : dblocks (din sin') = Z.max (dblocks (din sin)) ((e + 4095) / 4096);
    wr_bytes : forall p, 0 <= p < dblocks (din sin') * 4096 ->
      byte s' sin' p = if (off <=? p) && (p <? e) then at_ buf (base + (p - off))
                       else if p <? dblocks (din sin) * 4096 then byte s sin p else 0;
    wr_same : dblocks (din sin') = dblocks (din sin) -> sin' = sin;
    wr_room : unused_blocks (super s) - 2 * (dblocks (din sin') - dblocks (din sin)) <= unused_blocks (super s')
  }.

Lemma write_chunk op s sin buf base n off m : fs_ok s -> inode_ok s sin -> 0 <= off -> 0 < n -> off mod 4096 + n <= 4096 ->
    off / 4096 <= dblocks (din sin) -> off / 4096 < NBLOCKS ->
    (off / 4096 = dblocks (din sin) -> 2 <= unused_blocks (super s)) ->
    0 <= base -> base + n <= Z.of_nat (length buf) -> writes op buf base n (off mod 4096) ->
    exists s' sin', io_chunk op s sin (off / 4096) m = Ok (m, buf, s', sin') /\ wrote s sin off (off + n) buf base s' sin'.
  Proof.
    intros Hs Hi Hoff Hn Hfit Hle Hlt Hroom Hbase Hbuf Hop. set (i := off / 4096) in *.
    assert (Hi0 : 0 <= i /\ i * 4096 + off mod 4096 = off /\ 0 <= off mod 4096)
      by (unfold i; Z.to_euclidean_division_equations; lia).
    destruct (load_io s sin i Hs Hi) as (b & s1 & sin1 & E & Hld & Hsame); [lia|done|done|].
    unfold io_chunk. rewrite E. cbn [rbind]. change (0 =? 0) with true. cbn [rassert rbind].
    pose proof (st_inode _ _ _ _ (ld_step _ _ _ _ _ _ Hld)) as Hi1.
    pose proof (ld_blocks _ _ _ _ _ _ Hld) as Hd1. pose proof (ld_entry _ _ _ _ _ _ Hld) as Eb.
    assert (Hu : in_use s1 b) by (rewrite <- Eb; apply (in_used s1 sin1 Hi1); lia).
    destruct (Hop s1 b (st_fs _ _ _ _ (ld_step _ _ _ _ _ _ Hld)) (proj1 Hu)) as (s2 & E2 & Hb2).
    rewrite E2. cbn [rbind]. change (0 =? 0) with true. cbn [rassert rbind]. exists s2, sin1. split; [done|].
    rewrite <- Eb in Hb2. destruct (data_write s1 sin1 s2 i _ Hi1 ltac:(lia) Hb2) as [Hst He]. rewrite Eb in Hb2.
    split.
    - eapply stepped_trans; [apply Hld|done].
    - rewrite Hd1. f_equal. Z.to_euclidean_division_equations. lia.
    - intros p Hp. rewrite <- (ld_bytes _ _ _ _ _ _ Hld p Hp). unfold byte. rewrite He.
      assert (Hpq : 0 <= p / 4096 < dblocks (din sin1) /\ p = p / 4096 * 4096 + p mod 4096 /\ 0 <= p mod 4096 < 4096)
        by (Z.to_euclidean_division_equations; lia).
      destruct (decide (p / 4096 = i)) as [Hpi|Hpi].
      + rewrite Hpi, Eb, (bc_blk _ _ _ _ Hb2), put_eq.
        pose proof (length_blk s1 b) as Hlb. pose proof (length_sub buf base n) as Hls. unfold BLKSIZE in Hlb.
        rewrite at_inserts by lia. rewrite Hls by lia.
        destruct (Z.leb_spec (off mod 4096) (p mod 4096)), (Z.ltb_spec (p mod 4096) (off mod 4096 + n)),
          (Z.leb_spec off p), (Z.ltb_spec p (off + n)); cbn [andb]; try lia; try done.
        rewrite at_sub by lia. f_equal. lia.
      + assert (Hx : (off <=? p) && (p <? off + n) = false).
        { destruct (Z.leb_spec off p), (Z.ltb_spec p (off + n)); try done. lia. }
        rewrite Hx. rewrite (bc_blk _ _ _ _ Hb2). f_equal. apply put_ne. rewrite <- Eb.
        intros Eq. apply (in_inj s1 sin1 Hi1) in Eq; lia.
    - intros Hd. apply Hsame. lia.
    - rewrite (becomes_unused s1 _ s2 (st_fs _ _ _ _ (ld_step _ _ _ _ _ _ Hld)) Hb2). apply (ld_room _ _ _ _ _ _ Hld).
  Qed.

Lemma read_chunk op s sin buf base n off m : fs_ok s -> inode_ok s sin -> 0 <= off -> 0 < n -> off mod 4096 + n <= 4096 ->
    off / 4096 < dblocks (din sin) ->
    0 <= base -> base + n <= Z.of_nat (length buf) -> reads op buf base n (off mod 4096) ->
    exists s' buf', io_chunk op s sin (off / 4096) m = Ok (m, buf', s', sin) /\ same s s' /\ length buf' = length buf /\
      forall k, at_ buf' k = if (base <=? k) && (k <? base + n) then byte s sin (off + (k - base)) else at_ buf k.
  Proof.
    intros Hs Hi Hoff Hn Hfit Hlt Hbase Hbuf Hop. set (i := off / 4096) in *.
    assert (Hi0 : 0 <= i /\ i * 4096 + off mod 4096 = off /\ 0 <= off mod 4096)
      by (unfold i; Z.to_euclidean_division_equations; lia).
    destruct (load_lookup s sin i Hs Hi) as (s1 & E & Hsame); [lia|].
    unfold io_chunk. rewrite E. cbn [rbind]. change (0 =? 0) with true. cbn [rassert rbind].
    set (b := entry (blk s) (din sin) i) in *.
    assert (Hu : in_use s b) by (apply (in_used s sin Hi); lia).
    destruct (Hop s1 b (bc_ok _ _ _ _ Hsame)) as (s2 & E2 & Hs2).
    { rewrite (bc_blocks _ _ _ _ Hsame). apply Hu. }
    rewrite E2. cbn [rbind]. change (0 =? 0) with true. cbn [rassert rbind]. eexists s2, _. split; [done|].
    split; [|split].
    - pose proof (becomes_trans _ _ _ _ _ _ _ Hsame Hs2) as Ht.
      apply (becomes_ext _ _ _ _ _ _ Ht); [apply (bc_free _ _ _ _ Hsame)|apply (bc_blk _ _ _ _ Hsame)].
    - by rewrite length_inserts.
    - intros k. pose proof (length_blk s1 b) as Hlb. unfold BLKSIZE in Hlb.
      pose proof (length_sub (blk s1 b) (off mod 4096) n) as Hls.
      rewrite at_inserts, Hls by lia. destruct (Z.leb_spec base k), (Z.ltb_spec k (base + n)); cbn [andb]; try done.
      rewrite at_sub by lia. rewrite (bc_blk _ _ _ _ Hsame). unfold byte.
      replace ((off + (k - base)) / 4096) with i by (Z.to_euclidean_division_equations; lia). fold b.
      f_equal. Z.to_euclidean_division_equations. lia.
  Qed.

  (** ** The transfers of sfs_io.c *)

Lemma writes_wbuf buf base n o : 0 <= o < 4096 -> 0 <= n -> o + n <= 4096 -> 0 <= base ->
    base + n <= Z.of_nat (length buf) -> Forall is_byte buf -> writes (fun s b => sfs_wbuf s buf base n b o) buf base n o.
  Proof.
    intros Ho Hn Hon Hb Hl Hby s b Hs Hr.
    destruct (wbuf_spec s buf base n b o) as (s' & E & Hbc & _); unfold BLKSIZE in *; try (done || lia).
    by exists s'.
  Qed.

Lemma reads_rbuf buf base n o : 0 <= o < 4096 -> 0 <= n -> o + n <= 4096 -> 0 <= base ->
    base + n <= Z.of_nat (length buf) -> reads (fun s b => sfs_rbuf s buf base n b o) buf base n o.
  Proof.
    intros Ho Hn Hon Hb Hl s b Hs Hr.
    destruct (rbuf_spec s buf base n b o) as (s' & E & Hbc & _); unfold BLKSIZE in *; try (done || lia).
    by exists s'.
  Qed.

Lemma rwblock_one s buf base b write buf' s' : sfs_rwblock_nolock s buf base b write true = Ok (0, buf', s') ->
    sfs_rwblock s buf base b 1 write = Ok (0, buf', s').
  Proof.
    intros E. unfold sfs_rwblock. rewrite (loop_rounds 2 _ _ (0, buf', s')); [done| |done]. cbn [rounds].
    change (1 =? 0) with false. cbn iota. rewrite E. reflexivity.
  Qed.

Lemma dev_only s d : fs_ok s -> dev_ok d -> d_blocks d = d_blocks (dev s) -> fs_ok (set_dev s d).
  Proof. intros Hs Hd Hn. pose proof (fs_buf s Hs) as [Hl Hb]. exact (dev_step s d (sfs_buffer s) Hs Hd Hn Hl Hb). Qed.

Lemma writes_wblock buf base : 0 <= base -> base + 4096 <= Z.of_nat (length buf) -> Forall is_byte buf ->
    writes (fun s b => sfs_wblock s buf base b 1) buf base 4096 0.
  Proof.
    intros Hb Hl Hby s b Hs Hr. destruct (rw_write s buf base b true) as (d & E & Hd & Hn & Hc); unfold BLKSIZE in *; [done|by left|done..|].
    exists (set_dev s d). split; [by apply (rwblock_one s buf base b true)|].
    split; [by apply dev_only|done|done|]. intros c. unfold blk at 1. cbn. rewrite Hc. unfold put. destruct (c =? b); [|done].
    pose proof (length_blk s b) as Hlb. pose proof (length_sub buf base 4096) as Hls. unfold BLKSIZE in *.
    change (Z.to_nat 4096) with 4096%nat in *. change (Z.to_nat 0) with 0%nat. rewrite inserts_all by lia. done.
  Qed.

Lemma reads_rblock buf base : 0 <= base -> base + 4096 <= Z.of_nat (length buf) ->
    reads (fun s b => sfs_rblock s buf base b 1) buf base 4096 0.
  Proof.
    intros Hb Hl s b Hs Hr. destruct (rw_read s buf base b) as (d & E & Hd & Hn & Hc); unfold BLKSIZE in *; [done..|].
    exists (set_dev s d).
    assert (Et : take (Z.to_nat 4096) (drop (Z.to_nat 0) (blk s b)) = blk s b).
    { apply take_ge. pose proof (length_blk s b). unfold BLKSIZE in *. change (drop (Z.to_nat 0) (blk s b)) with (blk s b). lia. }
    rewrite Et. split; [by apply (rwblock_one s buf base b false)|].
    split; [by apply dev_only|done|done|exact Hc].
  Qed.

  (** ** The three parts of a transfer put together *)

Lemma wrote_trans s sin off m e buf base s1 sin1 s2 sin2 : 0 <= off -> off <= m <= e ->
    wrote s sin off m buf base s1 sin1 -> wrote s1 sin1 m e buf (base + (m - off)) s2 sin2 ->
    wrote s sin off e buf base s2 sin2.
  Proof.
    intros Hoff Hm [St1 D1 B1 S1 R1] [St2 D2 B2 S2 R2]. split; [by eapply stepped_trans| | | |lia].
    - rewrite D2, D1. Z.to_euclidean_division_equations. lia.
    - intros p Hp. rewrite B2 by done.
      destruct (Z.leb_spec m p), (Z.ltb_spec p e), (Z.leb_spec off p); cbn [andb]; try lia; try (f_equal; lia).
      all: destruct (Z.ltb_spec p (dblocks (din sin1) * 4096)) as [Hlt|Hge]; [rewrite B1 by lia|].
      all: destruct (Z.leb_spec off p), (Z.ltb_spec p m), (Z.ltb_spec p (dblocks (din sin) * 4096)); cbn [andb];
        try lia; try done; Z.to_euclidean_division_equations; lia.
    - intros Hd. rewrite S2, S1 by lia. done.
  Qed.

  (** Where a transfer of at most one block starts and ends. *)
Lemma parts_blocks off e : 0 <= off -> off < e <= off + 4096 -> e <= NBLOCKS * 4096 ->
    u32 (e / 4096 - off / 4096) = e / 4096 - off / 4096 /\ 0 <= e / 4096 - off / 4096 <= 1.
  Proof.
    intros Ho He Hmax. unfold NBLOCKS in *.
    assert (Hr : 0 <= e / 4096 - off / 4096 <= 1) by (Z.to_euclidean_division_equations; lia).
    split; [|done]. apply u32_id. unfold is_u32, two32. lia.
  Qed.

Lemma io_parts_write s sin buf off e : fs_ok s -> inode_ok s sin -> 0 <= off -> off < e <= off + 4096 ->
    e <= NBLOCKS * 4096 -> off <= dblocks (din sin) * 4096 ->
    (dblocks (din sin) * 4096 < e -> 2 <= unused_blocks (super s)) ->
    e - off <= Z.of_nat (length buf) -> Forall is_byte buf ->
    exists s' sin', sfs_io_parts s sin buf off e true = Ok (e - off, buf, s', sin') /\ wrote s sin off e buf 0 s' sin'.
  Proof.
    intros Hs Hi Ho He Hmax Hle Hroom Hl Hby. destruct (parts_blocks off e Ho He Hmax) as [Eu Hnb].
    unfold sfs_io_parts, sfs_io_head, sfs_io_body, sfs_io_tail. change SFS_BLKSIZE with 4096. unfold NBLOCKS in Hmax. rewrite Eu.
    set (nb := e / 4096 - off / 4096) in *. unfold sfs_buf_op, sfs_block_op.
    assert (Hq : off = off / 4096 * 4096 + off mod 4096 /\ 0 <= off mod 4096 < 4096 /\ e = e / 4096 * 4096 + e mod 4096 /\ 
                 0 <= e mod 4096 < 4096 /\ e / 4096 = off / 4096 + nb /\ 0 <= off / 4096)
      by (unfold nb; Z.to_euclidean_division_equations; lia).
    destruct Hq as (Eo & Hom & Ee & Hem & Eb & Hb0).
    destruct (Z.ltb_spec 0 (off mod 4096)) as [Hh|Hh].
    - (* a head, and a tail when the transfer crosses into the next block *)
      set (m := if 0 <? nb then 4096 - off mod 4096 else e - off).
      assert (Hm : 0 < m /\ off mod 4096 + m <= 4096 /\ off + m <= e)
        by (unfold m; destruct (Z.ltb_spec 0 nb); lia).
      destruct (write_chunk (fun s b => sfs_wbuf s buf 0 m b (off mod 4096)) s sin buf 0 m off m) as (s1 & sin1 & E1 & W1);
        try (done || lia || (unfold NBLOCKS; lia)).
      { apply writes_wbuf; (done || lia). }
      unfold io_chunk in E1. rewrite E1. cbn [rbind andb].
      destruct (Z.ltb_spec 0 nb) as [Hn1|Hn0]; cbn [negb].
      + assert (nb = 1) as Hnb1 by lia. rewrite Hnb1. change (0 <? 1 - 1) with false. cbn [rbind andb].
        destruct (Z.ltb_spec 0 (e mod 4096)) as [Ht|Ht].
        * pose proof (wr_blocks _ _ _ _ _ _ _ _ W1) as D1. pose proof (wr_room _ _ _ _ _ _ _ _ W1) as U1.
          assert (Hem' : (e / 4096 * 4096) / 4096 = e / 4096 /\ (e / 4096 * 4096) mod 4096 = 0)
            by (rewrite Z.div_mul, Z.mod_mul by lia; done).
          pose proof (st_fs _ _ _ _ (wr_step _ _ _ _ _ _ _ _ W1)) as Hs1.
          pose proof (st_inode _ _ _ _ (wr_step _ _ _ _ _ _ _ _ W1)) as Hi1.
          destruct (write_chunk (fun s b => sfs_wbuf s buf m (e mod 4096) b 0) s1 sin1 buf m (e mod 4096) (e / 4096 * 4096) (m + e mod 4096))
            as (s2 & sin2 & E2 & W2); try (done || lia || (rewrite ?(proj1 Hem'), ?(proj2 Hem'); unfold NBLOCKS in *; lia)).
          { rewrite (proj2 Hem'). apply writes_wbuf; (done || lia). }
          rewrite (proj1 Hem') in E2. unfold io_chunk in E2. rewrite E2. exists s2, sin2. split.
          { unfold m. do 4 f_equal. lia. }
          apply (wrote_trans s sin off (off + m) e buf 0 s1 sin1); [lia|lia|done|].
          replace (off + m) with (e / 4096 * 4096) by (unfold m; lia). replace (0 + (e / 4096 * 4096 - off)) with m by (unfold m; lia).
          by replace e with (e / 4096 * 4096 + e mod 4096) at 2 by lia.
        * exists s1, sin1. split; [unfold m; do 4 f_equal; lia|]. by replace e with (off + m) by (unfold m; lia).
      + assert (nb = 0) as -> by lia. change (0 <? 0) with false. cbn [rbind andb].
        exists s1, sin1. split; [done|]. by replace e with (off + m) by (unfold m; lia).
    - (* a whole block, or the beginning of one *)
      assert (Hz : off mod 4096 = 0) by lia. cbn [rbind andb negb].
      destruct (Z.ltb_spec 0 nb) as [Hn1|Hn0].
      + assert (Hnb1 : nb = 1) by lia. rewrite Hnb1.
        destruct (write_chunk (fun s b => sfs_wblock s buf 0 b 1) s sin buf 0 4096 off (0 + u32 (1 * 4096))) as (s1 & sin1 & E1 & W1);
          try (done || lia || (unfold NBLOCKS; lia)).
        { rewrite Hz. apply writes_wblock; (done || lia). }
        unfold io_chunk in E1. rewrite E1. cbn [rbind andb].
        destruct (Z.ltb_spec 0 (e mod 4096)); [lia|]. exists s1, sin1.
        replace (0 + u32 (1 * 4096)) with (e - off) by (change (0 + u32 (1 * 4096)) with 4096; lia).
        split; [done|]. by replace e with (off + 4096) by lia.
      + cbn [rbind andb]. destruct (Z.ltb_spec 0 (e mod 4096)); [|lia].
        replace (e / 4096) with (off / 4096) by lia.
        destruct (write_chunk (fun s b => sfs_wbuf s buf 0 (e mod 4096) b 0) s sin buf 0 (e mod 4096) off (0 + e mod 4096)) as (s1 & sin1 & E1 & W1);
          try (done || lia || (unfold NBLOCKS; lia)).
        { rewrite Hz. apply writes_wbuf; (done || lia). }
        unfold io_chunk in E1. rewrite E1. exists s1, sin1. split; [do 4 f_equal; lia|].
        by replace e with (off + e mod 4096) at 1 by lia.
  Qed.

  (** The same for reading: the bytes [off] to [e] arrive in [buf]. *)
Lemma io_parts_read s sin buf off e : fs_ok s -> inode_ok s sin -> 0 <= off -> off < e <= off + 4096 ->
    e <= dblocks (din sin) * 4096 -> e - off <= Z.of_nat (length buf) ->
    exists s' buf', sfs_io_parts s sin buf off e false = Ok (e - off, buf', s', sin) /\ same s s' /\ length buf' = length buf /\
      forall k, at_ buf' k = if (0 <=? k) && (k <? e - off) then byte s sin (off + k) else at_ buf k.
  Proof.
    intros Hs Hi Ho He Hmax Hl. pose proof (in_blocks s sin Hi) as Hbl.
    destruct (parts_blocks off e Ho He) as [Eu Hnb]; [lia|].
    unfold sfs_io_parts, sfs_io_head, sfs_io_body, sfs_io_tail. change SFS_BLKSIZE with 4096. rewrite Eu.
    set (nb := e / 4096 - off / 4096) in *. unfold sfs_buf_op, sfs_block_op.
    assert (Hq : off = off / 4096 * 4096 + off mod 4096 /\ 0 <= off mod 4096 < 4096 /\ e = e / 4096 * 4096 + e mod 4096 /\
                 0 <= e mod 4096 < 4096 /\ e / 4096 = off / 4096 + nb /\ 0 <= off / 4096)
      by (unfold nb; Z.to_euclidean_division_equations; lia).
    destruct Hq as (Eo & Hom & Ee & Hem & Eb & Hb0).
    destruct (Z.ltb_spec 0 (off mod 4096)) as [Hh|Hh].
    - set (m := if 0 <? nb then 4096 - off mod 4096 else e - off).
      assert (Hm : 0 < m /\ off mod 4096 + m <= 4096 /\ off + m <= e)
        by (unfold m; destruct (Z.ltb_spec 0 nb); lia).
      destruct (read_chunk (fun s b => sfs_rbuf s buf 0 m b (off mod 4096)) s sin buf 0 m off m) as (s1 & buf1 & E1 & Hs1 & L1 & B1);
        try (done || lia).
      { apply reads_rbuf; (done || lia). }
      unfold io_chunk in E1. rewrite E1. cbn [rbind andb].
      destruct (Z.ltb_spec 0 nb) as [Hn1|Hn0]; cbn [negb].
      + assert (nb = 1) as Hnb1 by lia. rewrite Hnb1. change (0 <? 1 - 1) with false. cbn [rbind andb].
        destruct (Z.ltb_spec 0 (e mod 4096)) as [Ht|Ht].
        * assert (Hem' : (e / 4096 * 4096) / 4096 = e / 4096 /\ (e / 4096 * 4096) mod 4096 = 0)
            by (rewrite Z.div_mul, Z.mod_mul by lia; done).
          destruct (same_inode s s1 sin Hi Hs1) as [Hi1 He1].
          destruct (read_chunk (fun s b => sfs_rbuf s buf1 m (e mod 4096) b 0) s1 sin buf1 m (e mod 4096) (e / 4096 * 4096) (m + e mod 4096))
            as (s2 & buf2 & E2 & Hs2 & L2 & B2); try (done || lia || exact (bc_ok _ _ _ _ Hs1) || (rewrite ?(proj1 Hem'), ?(proj2 Hem'); lia)).
          { rewrite (proj2 Hem'). apply reads_rbuf; (done || lia). }
          rewrite (proj1 Hem') in E2. unfold io_chunk in E2. rewrite E2. exists s2, buf2. split.
          { unfold m. do 4 f_equal. lia. }
          pose proof (becomes_trans _ _ _ _ _ _ _ Hs1 Hs2) as Ht'. split; [|split; [lia|]].
          { apply (becomes_ext _ _ _ _ _ _ Ht'); [apply (bc_free _ _ _ _ Hs1)|apply (bc_blk _ _ _ _ Hs1)]. }
          intros k. rewrite B2, B1. unfold byte. rewrite He1, (bc_blk _ _ _ _ Hs1).
          destruct (Z.leb_spec m k), (Z.ltb_spec k (m + e mod 4096)), (Z.leb_spec 0 k), (Z.ltb_spec k (0 + m)), (Z.ltb_spec k (e - off));
            cbn [andb]; try (unfold m in *; lia); try done; try (do 3 f_equal; unfold m in *; lia).
          { replace (e / 4096 * 4096 + (k - m)) with (off + k) by (unfold m; lia). done. }
          { by replace (off + (k - 0)) with (off + k) by lia. }
        * exists s1, buf1. split; [unfold m; do 4 f_equal; lia|]. split; [done|]. split; [done|]. intros k. rewrite B1.
          replace (0 + m) with (e - off) by (unfold m; lia). by replace (off + (k - 0)) with (off + k) by lia.
      + assert (nb = 0) as -> by lia. change (0 <? 0) with false. cbn [rbind andb].
        exists s1, buf1. split; [done|]. split; [done|]. split; [done|]. intros k. rewrite B1.
        replace (0 + m) with (e - off) by (unfold m; lia). by replace (off + (k - 0)) with (off + k) by lia.
    - assert (Hz : off mod 4096 = 0) by lia. cbn [rbind andb negb].
      destruct (Z.ltb_spec 0 nb) as [Hn1|Hn0].
      + assert (Hnb1 : nb = 1) by lia. rewrite Hnb1.
        destruct (read_chunk (fun s b => sfs_rblock s buf 0 b 1) s sin buf 0 4096 off (0 + u32 (1 * 4096))) as (s1 & buf1 & E1 & Hs1 & L1 & B1);
          try (done || lia).
        { rewrite Hz. apply reads_rblock; (done || lia). }
        unfold io_chunk in E1. rewrite E1. cbn [rbind andb].
        destruct (Z.ltb_spec 0 (e mod 4096)); [lia|]. exists s1, buf1.
        replace (0 + u32 (1 * 4096)) with (e - off) by (change (0 + u32 (1 * 4096)) with 4096; lia).
        split; [done|]. split; [done|]. split; [done|]. intros k. rewrite B1.
        replace (0 + 4096) with (e - off) by lia. by replace (off + (k - 0)) with (off + k) by lia.
      + cbn [rbind andb]. destruct (Z.ltb_spec 0 (e mod 4096)); [|lia].
        replace (e / 4096) with (off / 4096) by lia.
        destruct (read_chunk (fun s b => sfs_rbuf s buf 0 (e mod 4096) b 0) s sin buf 0 (e mod 4096) off (0 + e mod 4096)) as (s1 & buf1 & E1 & Hs1 & L1 & B1);
          try (done || lia).
        { rewrite Hz. apply reads_rbuf; (done || lia). }
        unfold io_chunk in E1. rewrite E1. exists s1, buf1. split; [do 4 f_equal; lia|].
        split; [done|]. split; [done|]. intros k. rewrite B1.
        replace (0 + e mod 4096) with (e - off) by lia. by replace (off + (k - 0)) with (off + k) by lia.
  Qed.

  (** ** Resizing *)

Lemma shrunk_stepped s sin s' sin' : fs_ok s -> inode_ok s sin -> 0 < dblocks (din sin) -> shrunk s sin s' sin' ->
    dblocks (din sin') = dblocks (din sin) - 1 ->
    stepped s sin s' sin' /\ forall p, 0 <= p < dblocks (din sin') * 4096 -> byte s' sin' p = byte s sin p.
  Proof.
    intros Hs Hi Hn Hsh Hd. destruct (shrunk_inode s sin s' sin' Hs Hi Hn Hsh Hd) as [Hi' Hown].
    pose proof (sh_frame _ _ _ _ Hsh) as Hfr. pose proof (sh_meta _ _ _ _ Hsh) as (Ea & _ & Eb & Ec & Ed).
    pose proof (in_blocks s sin Hi) as Hbl. split.
    - split; [apply Hfr|done|done| |by intros c Hc; left; apply Hown|apply (sh_rc _ _ _ _ Hsh)].
      apply (frame_weaken s s' _ _ Hfr). intros c Hc [->| ->].
      + split; [|apply (in_sep2 s sin Hi)]. right; left. split; [done|]. intros E. rewrite E in Hc. by apply in_use_0 in Hc.
      + split; [|apply (in_sep s sin Hi); lia]. right; right. exists (dblocks (din sin) - 1). split; [lia|done].
    - intros p Hp. unfold byte.
      assert (Hq : 0 <= p / 4096 < dblocks (din sin) - 1) by (Z.to_euclidean_division_equations; lia).
      rewrite (sh_entries _ _ _ _ Hsh) by lia. destruct (Z.eqb_spec (p / 4096) (dblocks (din sin) - 1)); [lia|]. f_equal.
      apply (fr_keep _ _ _ Hfr); [apply (in_used s sin Hi); lia|].
      intros [E|E]; [by apply (in_sep s sin Hi (p / 4096)) in E; [|lia]|]. apply (in_inj s sin Hi) in E; lia.
  Qed.

  (** Resized from [s], [sin]: the blocks in common keep their bytes. *)
Record resized s sin s' sin' : Prop := {
    rs_step : stepped s sin s' sin';
    rs_bytes : forall p, 0 <= p < dblocks (din sin') * 4096 ->
      byte s' sin' p = if p <? dblocks (din sin) * 4096 then byte s sin p else 0
  }.

Lemma refused_stepped s sin s' : fs_ok s -> inode_ok s sin -> refused s s' ->
    stepped s sin s' sin /\ (forall p, 0 <= p < dblocks (din sin) * 4096 -> byte s' sin p = byte s sin p) /\
    unused_blocks (super s') <= 1 /\ unused_blocks (super s') = unused_blocks (super s).
  Proof.
    intros Hs Hi [Hfr Hf Hx]. destruct (inode_frame s s' sin _ Hi Hfr) as [Hi' He]; [auto|]. split; [|split].
    - split; [apply Hfr|done|done|by apply (frame_weaken s s' _ _ Hfr)| |done].
      intros c [?|[?|(i & Hr & E)]]; left; [by left|by right; left|]. right; right. exists i. by rewrite <- He.
    - intros p Hp. unfold byte. rewrite He. f_equal. apply (fr_keep _ _ _ Hfr); [|auto].
      apply (in_used s sin Hi). Z.to_euclidean_division_equations. lia.
    - enough (unused_blocks (super s') = unused_blocks (super s)) by lia.
      rewrite (fs_count s Hs), (fs_count s' (fr_ok _ _ _ Hfr)).
      replace (free_set (freemap s')) with (free_set (freemap s)); [done|]. apply set_eq. intros j.
      rewrite !elem_of_free_set. symmetry. apply Hf.
  Qed.

  (** One round of the loops of [sfs_truncfile]. *)
Definition trunc_round (tblks : Z) : Z * sfs_fs D * sfs_inode ->
      res (Z * sfs_fs D * sfs_inode + Z * sfs_fs D * sfs_inode) := fun '(nblks, s, sin) =>
    if nblks <? tblks then
      let! (ret, _, s, sin) := sfs_bmap_load_nolock s sin nblks in
      if negb (ret =? 0) then Ok (inr (ret, s, sin)) else Ok (inl (nblks + 1, s, sin))
    else if tblks <? nblks then
      let! (ret, s, sin) := sfs_bmap_truncate_nolock s sin in
      if negb (ret =? 0) then Ok (inr (ret, s, sin)) else Ok (inl (nblks - 1, s, sin))
    else Ok (inr (0, s, sin)).

Lemma trunc_loop s sin t : fs_ok s -> inode_ok s sin -> 0 <= t <= NBLOCKS ->
    exists ret s' sin', loop (trunc_round t) (dblocks (din sin), s, sin) = Ok (ret, s', sin') /\ resized s sin s' sin' /\
      (ret = 0 /\ dblocks (din sin') = t \/
       ret = - E_NO_MEM /\ dblocks (din sin) <= dblocks (din sin') < t /\ unused_blocks (super s') <= 1 /\
       unused_blocks (super s) < 2 * (t - dblocks (din sin))).
  Proof.
    intros Hs Hi Ht.
    set (I := fun '((n, s1, sin1) : Z * sfs_fs D * sfs_inode) => n = dblocks (din sin1) /\ resized s sin s1 sin1 /\
      (dblocks (din sin) <= n <= t /\ unused_blocks (super s) - 2 * (n - dblocks (din sin)) <= unused_blocks (super s1) \/
       t <= n <= dblocks (din sin))).
    set (mu := fun '((n, s1, sin1) : Z * sfs_fs D * sfs_inode) => Z.abs (t - n)).
    destruct (loop_rule I mu (fun '(ret, s', sin') => resized s sin s' sin' /\
      (ret = 0 /\ dblocks (din sin') = t \/
       ret = - E_NO_MEM /\ dblocks (din sin) <= dblocks (din sin') < t /\ unused_blocks (super s') <= 1 /\
       unused_blocks (super s) < 2 * (t - dblocks (din sin))))
      (trunc_round t) (dblocks (din sin), s, sin)) as ([[ret s'] sin'] & E & HQ).
    - intros [[n s1] sin1] (-> & [Hst Hby] & Hn). pose proof (st_fs _ _ _ _ Hst) as Hs1. pose proof (st_inode _ _ _ _ Hst) as Hi1.
      pose proof (in_blocks s1 sin1 Hi1) as Hb1. pose proof (in_blocks s sin Hi) as Hb. unfold mu. split; [lia|]. unfold trunc_round.
      destruct (Z.ltb_spec (dblocks (din sin1)) t) as [Hlt|Hge]; [|destruct (Z.ltb_spec t (dblocks (din sin1))) as [Hgt|Hle]].
      + destruct (load_append s1 sin1 Hs1 Hi1) as [(b & s2 & sin2 & E & Hg)|(s2 & E & Hr)]; [lia| |]; rewrite E; cbn [rbind].
        * change (0 =? 0) with true. cbn [negb]. cbn iota.
          pose proof (gr_meta _ _ _ _ _ Hg) as (_ & _ & _ & _ & Hd). pose proof (gr_room _ _ _ _ _ Hg).
          destruct (grown_loaded s1 sin1 s2 sin2 b Hs1 Hi1 ltac:(lia) Hg) as [Hst2 Hd2 _ Hby2].
          split; [|lia]. unfold I. split; [lia|]. split; [|lia]. split; [by eapply stepped_trans|].
          intros p Hp. rewrite Hby2 by done. destruct (Z.ltb_spec p (dblocks (din sin1) * 4096)); [apply Hby; lia|].
          destruct (Z.ltb_spec p (dblocks (din sin) * 4096)); [lia|done].
        * change (- E_NO_MEM =? 0) with false. cbn [negb]. cbn iota.
          destruct (refused_stepped s1 sin1 s2 Hs1 Hi1 Hr) as (Hst2 & Hby2 & Hx & Hy). split; [|right; split; [done|split; [lia|split; [done|lia]]]].
          split; [by eapply stepped_trans|]. intros p Hp. rewrite Hby2 by done. by apply Hby.
      + destruct (truncate_spec s1 sin1 Hs1 Hi1) as (s2 & sin2 & E & Hsh & Hd & _); [lia|]. rewrite E. cbn [rbind].
        change (0 =? 0) with true. cbn [negb]. cbn iota.
        destruct (shrunk_stepped s1 sin1 s2 sin2 Hs1 Hi1 ltac:(lia) Hsh Hd) as [Hst2 Hby2].
        split; [|lia]. unfold I. split; [lia|]. split; [|lia]. split; [by eapply stepped_trans|].
        intros p Hp. rewrite Hby2 by done. apply Hby. lia.
      + split; [by split|]. left. split; [done|lia].
    - unfold I. split; [done|]. split; [|lia]. split.
      + apply stepped_same; [done|]. split; done.
      + intros p Hp. destruct (Z.ltb_spec p (dblocks (din sin) * 4096)); [done|lia].
    - pose proof (in_blocks s sin Hi). unfold mu, NBLOCKS in *. lia.
    - exists ret, s', sin'. done.
  Qed.
End SfsFile.
