(* ===== verification/SfsSpec.v ===== *)
(** * The simple file system against its specification

    Files as byte arrays ([afile]), the transfers and the resizing of
    kern/fs/sfs/sfs_inode.c against them, where a write stops the kernel, and
    the search in a directory against a search in the list of its entries. *)
From S2P Require Import Prelude Arith CString Bitmap IoBuf BlockDev Sfs SfsDisk SfsBmap SfsLoad SfsFile.

(** ** Abstract files *)

Record afile := mk_afile { a_size : Z; a_byte : Z -> Z }.

(** Two files are the same when their bytes are; what lies past the end does
    not count. *)
#[export] Instance afile_equiv : Equiv afile := fun f g =>
  a_size f = a_size g /\ forall p, 0 <= p < a_size f -> a_byte f p = a_byte g p.

#[export] Instance afile_equivalence : Equivalence (≡@{afile}).
Proof.
  split.
  - intros f. by split.
  - intros f g [Hs Hb]. split; [done|]. intros p Hp. rewrite Hb; [done|]. by rewrite Hs.
  - intros f g h [Hs Hb] [Hs' Hb']. split; [congruence|]. intros p Hp. rewrite Hb by done. apply Hb'. by rewrite <- Hs.
Qed.

(** [n] bytes of [buf] written at [off]. *)
Definition afile_write (off n : Z) (buf : list Z) (f : afile) : afile :=
  mk_afile (Z.max (a_size f) (off + n))
    (fun p => if (off <=? p) && (p <? off + n) then at_ buf (p - off)
              else if p <? a_size f then a_byte f p else 0).

(** How many bytes a read of [n] at [off] delivers. *)
Definition afile_avail (f : afile) (off n : Z) : Z :=
  if off <? a_size f then Z.min n (a_size f - off) else 0.

#[export] Instance afile_write_proper off n buf : Proper ((≡) ==> (≡)) (afile_write off n buf).
Proof.
  intros f g [Hs Hb]. split; cbn; [by rewrite Hs|]. intros p Hp.
  rewrite <- Hs. destruct ((off <=? p) && (p <? off + n)); [done|].
  destruct (Z.ltb_spec p (a_size f)); [apply Hb; lia|done].
Qed.

(** ** Names *)

(** The C string at the head of an object. *)
Fixpoint c_string (l : list Z) : list Z :=
  match l with
  | [] => []
  | b :: l => if b =? 0 then [] else b :: c_string l
  end.

Lemma c_string_spec l : at_ l (Z.of_nat (length (c_string l))) = 0 /\ Forall (fun b => b <> 0) (c_string l) /\
  (length (c_string l) <= length l)%nat /\ forall i, 0 <= i < Z.of_nat (length (c_string l)) -> at_ (c_string l) i = at_ l i.
Proof.
  induction l as [|b l (IH0 & IHf & IHl & IH)]; [done|]. cbn [c_string]. destruct (Z.eqb_spec b 0) as [->|Hb].
  - cbn. split; [done|]. split; [done|]. split; [lia|]. intros; lia.
  - cbn [length]. split_and!; [|by constructor|lia|].
    + unfold at_ in *. destruct (Z.leb_spec 0 (Z.of_nat (S (length (c_string l))))); [|lia].
      destruct (Z.leb_spec 0 (Z.of_nat (length (c_string l)))); [|lia]. rewrite Nat2Z.id in *. exact IH0.
    + intros i Hi. unfold at_ in *. destruct (Z.leb_spec 0 i); [|lia]. destruct (Z.to_nat i) as [|k] eqn:Ek; [done|].
      specialize (IH (Z.of_nat k) ltac:(lia)). destruct (Z.leb_spec 0 (Z.of_nat k)); [|lia].
      rewrite Nat2Z.id in IH. exact IH.
Qed.

Lemma at_nonzero l i : Forall (fun b => b <> 0) l -> 0 <= i < Z.of_nat (length l) -> at_ l i <> 0.
Proof.
  intros Hf Hi. unfold at_. destruct (Z.leb_spec 0 i); [|lia].
  destruct (lookup_lt_is_Some_2 l (Z.to_nat i)) as [b Eb]; [lia|]. rewrite Eb. by apply (Forall_lookup_1 _ _ _ _ Hf Eb).
Qed.

Lemma at_end (l : list Z) : at_ l (Z.of_nat (length l)) = 0.
Proof. unfold at_. rewrite Nat2Z.id, lookup_ge_None_2 by lia. by destruct (0 <=? _). Qed.

(** [strcmp] finds the names equal exactly when the strings are. *)
Lemma name_cmp_spec name e : Forall (fun b => b <> 0) name -> Z.of_nat (length name) <= SFS_MAX_FNAME_LEN ->
  Z.of_nat (length e) < 65536 ->
  exists v, name_cmp name e = Ok v /\ (v = 0 <-> c_string (entry_name e) = name).
Proof.
  unfold SFS_MAX_FNAME_LEN. intros Hn Hl Hle. set (m := fun p => if p <? 65536 then at_ name p else at_ (entry_name e) (p - 65536)).
  destruct (c_string_spec (entry_name e)) as (H0 & Hf & Hlc & Hat). set (c := c_string (entry_name e)) in *.
  assert (Hle' : (length (entry_name e) <= length e)%nat) by (unfold entry_name; rewrite length_drop; lia).
  assert (Hlow : forall i, 0 <= i <= 255 -> m (0 + i) = at_ name i).
  { intros i Hi. unfold m. destruct (Z.ltb_spec (0 + i) 65536); [f_equal; lia|lia]. }
  assert (Hhigh : forall i, 0 <= i -> m (65536 + i) = at_ (entry_name e) i).
  { intros i Hi. unfold m. destruct (Z.ltb_spec (65536 + i) 65536); [lia|]. f_equal. lia. }
  destruct (strcmp_spec m 0 65536 (Z.of_nat (length name)) (Z.of_nat (length c))) as (k & Hk & _ & E & Heq).
  - split; [lia|]. split; [|rewrite Hlow by lia; apply at_end]. intros i Hi. rewrite Hlow by lia. by apply at_nonzero.
  - split; [lia|]. split; [|rewrite Hhigh by lia; exact H0]. intros i Hi. rewrite Hhigh, <- Hat by lia. by apply at_nonzero.
  - exists (m (0 + k) - m (65536 + k)). split; [exact E|].
    transitivity (m (0 + k) = m (65536 + k)); [lia|]. rewrite Heq. split.
    + intros [El Hall]. symmetry. apply at_ext; [lia|]. intros p Hp. specialize (Hall p Hp).
      rewrite Hlow, Hhigh in Hall by lia. rewrite Hall. symmetry. apply Hat. lia.
    + intros Ec. split; [by rewrite <- Ec|]. intros i Hi. rewrite Hlow, Hhigh, <- Ec by lia. apply Hat.
      rewrite Ec. done.
Qed.

Section SfsSpec.
  Context {D : Type} `{!BlockDev D, !BlockRead D, !BlockWrite D}.
  Implicit Types (s : sfs_fs D) (sin : sfs_inode) (f : afile).

Definition abs s sin : afile := mk_afile (dsize (din sin)) (byte s sin).

Definition represents s sin f : Prop := fs_ok s /\ file_ok s sin /\ abs s sin ≡ f.

  (** What a transfer or a resizing does besides: only blocks of the file other
      than its inode's change, the blocks gained were free, and an inode that
      differs from before is marked dirty. *)
Record touched s sin s' sin' : Prop := {
    tc_fs : fs_ok s';
    tc_meta : ino sin' = ino sin /\ dtype (din sin') = dtype (din sin) /\ nlinks (din sin') = nlinks (din sin) /\
      reclaim_count sin' = reclaim_count sin;
    tc_frame : frame s (fun c => owns s sin c /\ c <> ino sin) s';
    tc_owns : forall c, owns s' sin' c -> owns s sin c \/ free s c;
    tc_dirty : dirty sin' = true \/ sin' = sin
  }.

Lemma touched_frame s sin s' sin' : touched s sin s' sin' -> frame s (owns s sin) s'.
  Proof. intros Ht. apply (frame_weaken s s' _ _ (tc_frame _ _ _ _ Ht)). by intros c _ [? _]. Qed.

Lemma stepped_touched s sin s' sin' sin2 : stepped s sin s' sin' -> ino sin2 = ino sin' -> dtype (din sin2) = dtype (din sin') ->
    nlinks (din sin2) = nlinks (din sin') -> reclaim_count sin2 = reclaim_count sin' -> (forall c, owns s' sin2 c -> owns s' sin' c) ->
    dirty sin2 = true \/ sin2 = sin -> touched s sin s' sin2.
  Proof.
    intros [H1 _ (Ea & _ & Ec & Ed) Hf Ho Hr] Ei Et En Er Hown Hd. split; [done|split_and!; congruence|done| |done].
    intros c Hc. by apply Ho, Hown.
  Qed.

Lemma touched_same s sin s' : inode_ok s sin -> same s s' -> touched s sin s' sin.
  Proof. intros Hi Hs. eapply (stepped_touched s sin s' sin sin); try done; [by apply stepped_same|by right]. Qed.

Lemma file_not_dir s sin : file_ok s sin -> negb (dtype (din sin) =? SFS_TYPE_DIR) = true.
  Proof. intros Hf. by rewrite (fl_type s sin Hf). Qed.

Lemma file_sizes s sin : file_ok s sin -> 0 <= dsize (din sin) <= dblocks (din sin) * 4096 /\
    dblocks (din sin) * 4096 < dsize (din sin) + 4096 /\ 0 <= dblocks (din sin) <= NBLOCKS.
  Proof.
    intros Hf. pose proof (in_blocks s sin (fl_inode s sin Hf)). pose proof (fl_size s sin Hf).
    pose proof (fl_blocks s sin Hf) as Hb. split; [|split; [|done]]; Z.to_euclidean_division_equations; lia.
  Qed.

  (** The tests at the head of [sfs_io_nolock]. *)
Lemma io_start off len : 0 <= off < SFS_MAX_FILE_SIZE -> 0 <= len <= 4096 ->
    s32 (off + len) = off + len /\
    (off <? 0) || (SFS_MAX_FILE_SIZE <=? off) || (off + len <? off) = false.
  Proof.
    unfold SFS_MAX_FILE_SIZE. intros Ho Hl. rewrite s32_id by (unfold is_s32; lia). split; [done|].
    destruct (Z.ltb_spec off 0), (Z.leb_spec (1024 * 1024 * 128) off), (Z.ltb_spec (off + len) off); (done || lia).
  Qed.

Lemma io_read s sin f buf off len : represents s sin f -> 0 <= off < SFS_MAX_FILE_SIZE -> 0 <= len <= 4096 ->
    len <= Z.of_nat (length buf) ->
    exists s' buf', sfs_io_nolock s sin buf off len false = Ok (0, afile_avail f off len, buf', s', sin) /\
      (represents s' sin f /\ same s s') /\ length buf' = length buf /\
      forall k, at_ buf' k = if (0 <=? k) && (k <? afile_avail f off len) then a_byte f (off + k) else at_ buf k.
  Proof.
    intros (Hs & Hf & [Hsz Hby]) Ho Hl Hbuf. cbn in Hsz, Hby. destruct (file_sizes s sin Hf) as (Hsd & _ & Hdb).
    destruct (io_start off len Ho Hl) as [E1 E2]. unfold sfs_io_nolock. rewrite (file_not_dir s sin Hf). cbn [rassert rbind].
    rewrite E1, E2. unfold afile_avail. rewrite <- Hsz.
    assert (Hnone : forall k, at_ buf k = if (0 <=? k) && (k <? 0) then a_byte f (off + k) else at_ buf k).
    { intros k. destruct (Z.leb_spec 0 k), (Z.ltb_spec k 0); (done || lia). }
    assert (Hrefl : same s s) by (by split).
    destruct (Z.eqb_spec off (off + len)) as [Hz|Hz].
    { exists s, buf. assert (len = 0) as -> by lia.
      replace (if off <? dsize (din sin) then 0 `min` (dsize (din sin) - off) else 0) with 0
        by (destruct (Z.ltb_spec off (dsize (din sin))); lia).
      done. }
    unfold NBLOCKS, SFS_MAX_FILE_SIZE in *. cbn [negb andb].
    destruct (Z.leb_spec (dsize (din sin)) off) as [Hpast|Hin].
    { destruct (Z.ltb_spec off (dsize (din sin))); [lia|]. exists s, buf. done. }
    destruct (Z.ltb_spec off (dsize (din sin))); [|lia].
    set (e := Z.min (off + len) (dsize (din sin))).
    set (e1 := if 1024 * 1024 * 128 <? off + len then 1024 * 1024 * 128 else off + len).
    replace (if dsize (din sin) <? e1 then dsize (din sin) else e1) with e.
    2: { unfold e, e1. destruct (Z.ltb_spec (1024 * 1024 * 128) (off + len)).
         - destruct (Z.ltb_spec (dsize (din sin)) (1024 * 1024 * 128)); lia.
         - destruct (Z.ltb_spec (dsize (din sin)) (off + len)); lia. }
    destruct (io_parts_read s sin buf off e Hs (fl_inode s sin Hf)) as (s' & buf' & E & Hsame & Hlb & Hb);
      [lia|unfold e; lia|unfold e; lia|unfold e; lia|].
    rewrite E. cbn [rbind]. rewrite u32_id by (unfold is_u32, two32, e; lia).
    destruct (Z.ltb_spec (dsize (din sin)) (off + (e - off))) as [Hx|_]; [unfold e in Hx; lia|].
    replace (len `min` (dsize (din sin) - off)) with (e - off) by (unfold e; lia).
    destruct (same_inode s s' sin (fl_inode s sin Hf) Hsame) as [Hi' He].
    exists s', buf'. split; [done|]. split; [|split; [done|]].
    - split; [|done]. split; [apply Hsame|]. split; [by destruct Hf; split|]. split; [done|]. intros p Hp. cbn in *.
      rewrite <- Hby by done. unfold byte. by rewrite He, (bc_blk _ _ _ _ Hsame).
    - intros k. rewrite Hb. destruct (Z.leb_spec 0 k), (Z.ltb_spec k (e - off)); cbn [andb]; try done.
      apply Hby. unfold e in *. lia.
  Qed.

Lemma io_write s sin f buf off len : represents s sin f -> 0 <= off <= a_size f -> 0 <= len <= 4096 ->
    off + len <= NBLOCKS * 4096 -> (dblocks (din sin) * 4096 < off + len -> 2 <= unused_blocks (super s)) ->
    len <= Z.of_nat (length buf) -> Forall is_byte buf ->
    exists s' sin', sfs_io_nolock s sin buf off len true = Ok (0, len, buf, s', sin') /\
      represents s' sin' (afile_write off len buf f) /\ touched s sin s' sin' /\
      unused_blocks (super s) - 2 * (dblocks (din sin') - dblocks (din sin)) <= unused_blocks (super s').
  Proof.
    intros (Hs & Hf & [Hsz Hby]) Ho Hl Hmax Hroom Hbuf Hbb. cbn in Hsz, Hby.
    destruct (file_sizes s sin Hf) as (Hsd & Hsd2 & Hdb). unfold NBLOCKS in *.
    destruct (io_start off len) as [E1 E2]; [unfold SFS_MAX_FILE_SIZE; lia|done|].
    unfold sfs_io_nolock. rewrite (file_not_dir s sin Hf). cbn [rassert rbind]. rewrite E1, E2.
    destruct (Z.eqb_spec off (off + len)) as [Hz|Hz].
    { exists s, sin. split; [do 5 f_equal; lia|]. split.
      - split; [done|]. split; [done|]. split; cbn; [lia|]. intros p Hp.
        destruct (Z.leb_spec off p), (Z.ltb_spec p (off + len)), (Z.ltb_spec p (a_size f)); cbn [andb]; try lia; by apply Hby.
      - split; [|lia]. apply touched_same; [apply Hf|]. split; done. }
    unfold SFS_MAX_FILE_SIZE. destruct (Z.ltb_spec (1024 * 1024 * 128) (off + len)); [lia|]. cbn [negb andb].
    destruct (io_parts_write s sin buf off (off + len) Hs (fl_inode s sin Hf)) as (s' & sin' & E & [Hst Hd Hb Hsm Hrm]);
      try (done || lia || (unfold NBLOCKS; lia)).
    rewrite E. cbn [rbind]. rewrite u32_id by (unfold is_u32, two32; lia).
    replace (off + (off + len - off)) with (off + len) by lia. replace (off + len - off) with len by lia.
    pose proof (st_meta _ _ _ _ Hst) as (Ea & Es & Et & El). rewrite Es.
    set (sin2 := if dsize (din sin) <? off + len then _ else sin').
    exists s', sin2. split; [done|]. split.
    2: { split; [|by replace (dblocks (din sin2)) with (dblocks (din sin')) by (unfold sin2; destruct (dsize (din sin) <? off + len); done)].
         apply (stepped_touched s sin s' sin' sin2 Hst); try (unfold sin2; destruct (dsize (din sin) <? off + len); done).
         unfold sin2. destruct (Z.ltb_spec (dsize (din sin)) (off + len)); [by left|right]. apply Hsm.
         rewrite Hd, (fl_blocks s sin Hf). Z.to_euclidean_division_equations. lia. }
    assert (Hsin2 : inode_ok s' sin2 /\ dtype (din sin2) = SFS_TYPE_FILE /\ dsize (din sin2) = Z.max (dsize (din sin)) (off + len) /\
              dblocks (din sin2) = dblocks (din sin') /\ forall p, byte s' sin2 p = byte s' sin' p).
    { pose proof (fl_type s sin Hf). unfold sin2. destruct (Z.ltb_spec (dsize (din sin)) (off + len)); cbn.
      - split; [by destruct (st_inode _ _ _ _ Hst); split|]. split; [congruence|]. split; [lia|done].
      - split; [apply Hst|]. split; [congruence|]. split; [lia|done]. }
    destruct Hsin2 as (Hi2 & Ht2 & Hsz2 & Hd2 & Hb2). split; [apply Hst|]. split.
    - split; [done|done|lia|]. rewrite Hd2, Hd, Hsz2, (fl_blocks s sin Hf). Z.to_euclidean_division_equations. lia.
    - split; cbn; [lia|]. intros p Hp. rewrite Hb2, Hb.
      2: { rewrite Hd, (fl_blocks s sin Hf). Z.to_euclidean_division_equations. lia. }
      replace (0 + (p - off)) with (p - off) by lia.
      destruct (Z.leb_spec off p), (Z.ltb_spec p (off + len)), (Z.ltb_spec p (a_size f)); cbn [andb]; try done; try lia;
        (destruct (Z.ltb_spec p (dblocks (din sin) * 4096)); [apply Hby; lia|lia]).
  Qed.

  (** ** Resizing *)

Lemma resize_file s sin f len : represents s sin f -> 0 <= len <= NBLOCKS * 4096 ->
    exists ret s' sin', sfs_truncfile s sin len = Ok (ret, s', sin') /\ frame s (owns s sin) s' /\
      (ret = 0 /\ touched s sin s' sin' /\ (exists g, represents s' sin' g /\ a_size g = len /\
         (forall p, 0 <= p < Z.min len (a_size f) -> a_byte g p = a_byte f p) /\
         (forall p, dblocks (din sin) * 4096 <= p < len -> a_byte g p = 0)) \/
       ret = - E_NO_MEM /\ a_size f < len /\ unused_blocks (super s') <= 1 /\ inode_ok s' sin' /\ abs s' sin' ≡ f /\
       unused_blocks (super s) < 2 * ((len + 4095) / 4096 - dblocks (din sin))).
  Proof.
    intros (Hs & Hf & [Hsz Hby]) Hlen. cbn in Hsz, Hby. destruct (file_sizes s sin Hf) as (Hsd & Hsd2 & Hdb).
    pose proof (fl_inode s sin Hf) as Hi. pose proof (fl_blocks s sin Hf) as Hfb. unfold NBLOCKS in *.
    set (t := (len + 4095) / 4096).
    assert (Et : ROUNDUP_DIV len SFS_BLKSIZE = t).
    { unfold ROUNDUP_DIV, SFS_BLKSIZE, PGSIZE, t. rewrite u32_id by (unfold is_u32, two32; lia). f_equal. lia. }
    assert (Ht : 0 <= t <= NBLOCKS) by (unfold t, NBLOCKS; Z.to_euclidean_division_equations; lia).
    unfold sfs_truncfile, SFS_MAX_FILE_SIZE. rewrite Et.
    destruct (Z.ltb_spec len 0), (Z.ltb_spec (1024 * 1024 * 128) len); try lia. cbn [orb].
    destruct (Z.eqb_spec (dsize (din sin)) len) as [Heq|Hne].
    { destruct (Z.eqb_spec t (dblocks (din sin))) as [_|Hx]; [|unfold t in Hx; rewrite <- Heq in Hx; lia]. cbn [rassert rbind].
      exists 0, s, sin. split; [done|]. split; [by apply same_frame; split|]. left. split; [done|].
      split; [by apply touched_same; [|split]|].
      exists (abs s sin). split; [split; [done|split; done]|]. cbn. split; [done|].
      split; [intros p Hp; apply Hby; lia|intros p Hp; lia]. }
    change (loop _ (dblocks (din sin), s, sin)) with (loop (trunc_round t) (dblocks (din sin), s, sin)).
    destruct (trunc_loop s sin t Hs Hi Ht) as (ret & s' & sin' & E & [Hst Hb] & HQ). rewrite E. cbn [rbind].
    pose proof (st_meta _ _ _ _ Hst) as (Ea & Es & Ety & El). pose proof (fl_type s sin Hf) as Hty.
    assert (Hfr : frame s (owns s sin) s') by (apply (frame_weaken s s' _ _ (st_frame _ _ _ _ Hst)); by intros c _ [? _]).
    destruct HQ as [[-> Hd]|(-> & Hd & Hx & Hroom)].
    - change (0 =? 0) with true. cbn [negb]. cbn iota. rewrite Hd, Z.eqb_refl. cbn [rassert rbind].
      eexists 0, s', _. split; [done|]. split; [done|]. left. split; [done|].
      split; [apply (stepped_touched s sin s' sin' _ Hst); try done; by left|]. eexists. split; [|split; [|split]].
      + split; [apply Hst|]. split; [|reflexivity]. split; cbn; [by destruct (st_inode _ _ _ _ Hst); split|congruence|lia|].
        rewrite Hd. done.
      + done.
      + intros p Hp. cbn. change (byte s' sin' p = a_byte f p). rewrite Hb by (rewrite Hd; unfold t; Z.to_euclidean_division_equations; lia).
        destruct (Z.ltb_spec p (dblocks (din sin) * 4096)); [apply Hby; lia|lia].
      + intros p Hp. cbn. change (byte s' sin' p = 0). rewrite Hb by (rewrite Hd; unfold t; Z.to_euclidean_division_equations; lia).
        destruct (Z.ltb_spec p (dblocks (din sin) * 4096)); [lia|done].
    - change (- E_NO_MEM =? 0) with false. cbn [negb]. cbn iota. exists (- E_NO_MEM), s', sin'. split; [done|].
      split; [done|]. right. split; [done|]. split; [unfold t in Hd; Z.to_euclidean_division_equations; lia|].
      split; [done|]. split; [apply Hst|]. split; [|exact Hroom]. split; cbn; [lia|]. intros p Hp. rewrite Hb by lia.
      destruct (Z.ltb_spec p (dblocks (din sin) * 4096)); [apply Hby; lia|lia].
  Qed.

  (** ** Where a write stops the kernel *)

  (** The first block that a transfer loads is the one it starts in. *)
Lemma io_parts_first s sin buf off e g : 0 <= off -> off < e <= off + 4096 -> e <= 134217728 ->
    (sfs_bmap_load_nolock s sin (off / 4096) = Err g \/
     g = AssertFail /\ exists ret b s' sin', sfs_bmap_load_nolock s sin (off / 4096) = Ok (ret, b, s', sin') /\ ret <> 0) ->
    sfs_io_parts s sin buf off e true = Err g.
  Proof.
    intros Ho He Hmax Hload. unfold sfs_io_parts, sfs_io_head, sfs_io_body, sfs_io_tail. change SFS_BLKSIZE with 4096.
    assert (Hq : 0 <= e / 4096 - off / 4096 <= 1 /\ (e / 4096 - off / 4096 = 0 -> 0 < off mod 4096 \/ 0 < e mod 4096))
      by (Z.to_euclidean_division_equations; lia).
    rewrite u32_id by (unfold is_u32, two32; lia). set (nb := e / 4096 - off / 4096) in *. destruct Hq as [Hnb Hnb0].
    assert (Hstop : forall A (k : Z * Z * sfs_fs D * sfs_inode -> res A),
      (forall ret b s' sin', ret <> 0 -> k (ret, b, s', sin') = Err AssertFail) ->
      rbind (sfs_bmap_load_nolock s sin (off / 4096)) k = Err g).
    { intros A k Hk. destruct Hload as [->|(-> & ret & b & s' & sin' & -> & Hr)]; [done|]. cbn [rbind]. by apply Hk. }
    assert (Hne : forall (ret : Z), ret <> 0 -> rassert (ret =? 0) = Err AssertFail).
    { intros ret Hr. by destruct (Z.eqb_spec ret 0). }
    destruct (Z.ltb_spec 0 (off mod 4096)).
    - rewrite Hstop; [done|]. intros ret b s' sin' Hr. by rewrite Hne.
    - destruct (Z.ltb_spec 0 nb) as [Hn|Hn]; cbn [rbind andb negb].
      + rewrite Hstop; [done|]. intros ret b s' sin' Hr. by rewrite Hne.
      + destruct (Z.ltb_spec 0 (e mod 4096)) as [_|Hx]; [|destruct Hnb0; lia].
        replace (e / 4096) with (off / 4096) by (unfold nb in *; lia). rewrite Hstop; [done|].
        intros ret b s' sin' Hr. by rewrite Hne.
  Qed.

Lemma io_nolock_first s sin buf off len g : file_ok s sin -> 0 <= off < SFS_MAX_FILE_SIZE -> 0 < len <= 4096 ->
    (sfs_bmap_load_nolock s sin (off / 4096) = Err g \/
     g = AssertFail /\ exists ret b s' sin', sfs_bmap_load_nolock s sin (off / 4096) = Ok (ret, b, s', sin') /\ ret <> 0) ->
    sfs_io_nolock s sin buf off len true = Err g.
  Proof.
    intros Hf Ho Hl Hload. destruct (io_start off len Ho) as [E1 E2]; [lia|]. unfold sfs_io_nolock, SFS_MAX_FILE_SIZE in *.
    rewrite (file_not_dir s sin Hf). cbn [rassert rbind]. rewrite E1, E2.
    destruct (Z.eqb_spec off (off + len)); [lia|]. cbn [negb andb].
    rewrite (io_parts_first s sin buf off _ g); [done|lia| |  |done].
    all: destruct (Z.ltb_spec (1024 * 1024 * 128) (off + len)); lia.
  Qed.

Lemma load_past s sin i : dblocks (din sin) < i -> sfs_bmap_load_nolock s sin i = Err AssertFail.
  Proof. intros Hi. unfold sfs_bmap_load_nolock. by destruct (Z.leb_spec i (dblocks (din sin))); [lia|]. Qed.

Lemma load_full s sin : fs_ok s -> inode_ok s sin -> dblocks (din sin) < NBLOCKS -> (forall j, ~ free s j) ->
    exists s', sfs_bmap_load_nolock s sin (dblocks (din sin)) = Ok (- E_NO_MEM, 0, s', sin).
  Proof.
    intros Hs Hi Hn Hno. destruct (load_append s sin Hs Hi Hn) as [(b & s' & sin' & E & Hg)|(s' & E & _)]; [|by exists s'].
    by destruct (Hno b), (gr_new _ _ _ _ _ Hg).
  Qed.

Lemma load_limit s sin : dblocks (din sin) = NBLOCKS -> sfs_bmap_load_nolock s sin NBLOCKS = Err KPanic.
  Proof. intros Hd. unfold sfs_bmap_load_nolock. rewrite Hd, Z.leb_refl. reflexivity. Qed.

  (** ** Directories *)

  (** The entry in slot [i], as [sfs_dirent_read_nolock] delivers it. *)
Definition slot_entry s sin (i : Z) : list Z := list_inserts 259 [0] (take 260 (blk s (entry (blk s) (din sin) i))).
Definition dir_entries s sin : list (list Z) := slot_entry s sin <$> seqZ 0 (dblocks (din sin)).

  (** A slot in use that bears the name. *)
Definition bears (name e : list Z) : Prop := entry_ino e <> 0 /\ c_string (entry_name e) = name.
#[export] Instance bears_dec name e : Decision (bears name e).
  Proof. unfold bears. apply _. Defined.

Lemma dirent_read_spec s sin i (e : list Z) : fs_ok s -> inode_ok s sin -> dtype (din sin) = SFS_TYPE_DIR ->
    0 <= i < dblocks (din sin) -> length e = 260%nat ->
    exists s', sfs_dirent_read_nolock s sin i e = Ok (0, slot_entry s sin i, s', sin) /\ same s s' /\ length (slot_entry s sin i) = 260%nat.
  Proof.
    intros Hs Hi Ht Hr Hl. unfold sfs_dirent_read_nolock. rewrite Ht. change (SFS_TYPE_DIR =? SFS_TYPE_DIR) with true.
    destruct (Z.leb_spec 0 i), (Z.ltb_spec i (dblocks (din sin))); try lia. cbn [andb rassert rbind].
    destruct (load_lookup s sin i Hs Hi Hr) as (s1 & E & Hs1). rewrite E. cbn [rbind].
    change (0 =? 0) with true. cbn [negb]. cbn iota. set (b := entry (blk s) (din sin) i).
    assert (Hu : in_use s1 b) by (apply (becomes_use s _ _ s1 b Hs1); apply (in_used s sin Hi i Hr)).
    rewrite inuse_used by (try apply Hs1; done). cbn [rassert rbind].
    destruct (rbuf_spec s1 e 0 SIZEOF_ENTRY b 0) as (s2 & E2 & Hs2 & _); unfold SIZEOF_ENTRY, BLKSIZE in *;
      [apply Hs1|apply Hu|lia..|].
    rewrite E2. cbn [rbind]. change (0 =? 0) with true. cbn [negb]. cbn iota.
    assert (Hlb : Z.of_nat (length (blk s1 b)) = 4096) by apply length_blk.
    assert (Hle : length (take (Z.to_nat 260) (drop (Z.to_nat 0) (blk s1 b))) = 260%nat) by (rewrite length_take, length_drop; lia).
    change (Z.to_nat 0) with 0%nat in *. rewrite inserts_all by (rewrite Hle; done).
    rewrite drop_0 in *. change (Z.to_nat 260) with 260%nat in *. rewrite mwrite_Ok by (try done; rewrite Hle; done). cbn [rbind].
    exists s2. unfold slot_entry. fold b. rewrite (bc_blk _ _ _ _ Hs1) in Hle |- *.
    split; [done|]. split; [|by rewrite length_inserts].
    apply (becomes_ext _ _ _ _ _ _ (becomes_trans _ _ _ _ _ _ _ Hs1 Hs2)); [apply (bc_free _ _ _ _ Hs1)|apply (bc_blk _ _ _ _ Hs1)].
  Qed.

Lemma list_find_drop {A} (P : A -> Prop) `{!forall x, Decision (P x)} (l : list A) (i : nat) x :
    l !! i = Some x -> list_find P (drop i l) =
    if decide (P x) then Some (0%nat, x) else prod_map Datatypes.S id <$> list_find P (drop (Datatypes.S i) l).
  Proof. intros Hx. rewrite (drop_S l x i Hx). cbn. by destruct (decide (P x)). Qed.

  (** The slots from [i] on. *)
Lemma search_loop_spec s sin name n : fs_ok s -> inode_ok s sin -> dtype (din sin) = SFS_TYPE_DIR ->
    Forall (fun b => b <> 0) name -> Z.of_nat (length name) <= SFS_MAX_FNAME_LEN ->
    forall i empty e s1, 0 <= i -> i + Z.of_nat n = dblocks (din sin) -> length e = 260%nat -> same s s1 ->
    exists r s', dirent_search_loop n s1 sin name i empty e = Ok (r, s', sin) /\ same s s' /\
      match list_find (bears name) (drop (Z.to_nat i) (dir_entries s sin)) with
      | Some (k, e) => s_ret r = 0 /\ s_ino r = Some (entry_ino e) /\ s_slot r = Some (i + Z.of_nat k)
      | None => s_ret r = - E_NOENT /\ s_ino r = None /\ s_slot r = None
      end.
  Proof.
    intros Hs Hi Ht Hnm Hln. induction n as [|n IH]; intros i empty e s1 Hi0 Hin He Hs1.
    { exists (mk_search (- E_NOENT) None None empty), s1. split; [done|]. split; [done|].
      rewrite drop_ge; [done|]. unfold dir_entries. rewrite length_fmap, length_seqZ. lia. }
    cbn [dirent_search_loop]. destruct (same_inode s s1 sin Hi Hs1) as [Hi1 He1].
    destruct (dirent_read_spec s1 sin i e (bc_ok _ _ _ _ Hs1) Hi1 Ht ltac:(lia) He) as (s2 & E & Hs2 & Hl2).
    assert (Esl : slot_entry s1 sin i = slot_entry s sin i).
    { unfold slot_entry. by rewrite He1, (bc_blk _ _ _ _ Hs1). }
    rewrite Esl in E, Hl2. rewrite E. cbn [rbind]. change (0 =? 0) with true. cbn [negb]. cbn iota.
    assert (Hs12 : same s s2).
    { apply (becomes_ext _ _ _ _ _ _ (becomes_trans _ _ _ _ _ _ _ Hs1 Hs2)); [apply (bc_free _ _ _ _ Hs1)|apply (bc_blk _ _ _ _ Hs1)]. }
    assert (Hlk : dir_entries s sin !! Z.to_nat i = Some (slot_entry s sin i)).
    { unfold dir_entries. rewrite list_lookup_fmap, lookup_seqZ_lt by lia. simpl fmap. by replace (0 + Z.of_nat (Z.to_nat i)) with i by lia. }
    rewrite (list_find_drop (bears name) _ _ _ Hlk). set (e2 := slot_entry s sin i) in *.
    assert (Hnext : forall empty', exists r s', dirent_search_loop n s2 sin name (i + 1) empty' e2 = Ok (r, s', sin) /\ same s s' /\
      match prod_map Datatypes.S id <$> list_find (bears name) (drop (Datatypes.S (Z.to_nat i)) (dir_entries s sin)) with
      | Some (k, e) => s_ret r = 0 /\ s_ino r = Some (entry_ino e) /\ s_slot r = Some (i + Z.of_nat k)
      | None => s_ret r = - E_NOENT /\ s_ino r = None /\ s_slot r = None
      end).
    { intros empty'. destruct (IH (i + 1) empty' e2 s2) as (r & s' & Er & Hs' & Hr); [lia|lia|done|done|].
      exists r, s'. split; [done|]. split; [done|]. replace (Z.to_nat (i + 1)) with (Datatypes.S (Z.to_nat i)) in Hr by lia.
      destruct (list_find _ (drop (Datatypes.S (Z.to_nat i)) _)) as [[k y]|]; cbn; [|done].
      destruct Hr as (? & ? & ->). split; [done|]. split; [done|]. f_equal. lia. }
    destruct (Z.eqb_spec (entry_ino e2) 0) as [Hz|Hz].
    { rewrite decide_False by (intros [? _]; done). apply Hnext. }
    destruct (name_cmp_spec name e2) as (v & Ev & Hv); [done|done|rewrite Hl2; done|]. rewrite Ev. cbn [rbind].
    destruct (Z.eqb_spec v 0) as [Hv0|Hv0].
    - rewrite decide_True by (split; [done|by apply Hv]). eexists _, s2. split; [done|]. split; [done|]. cbn.
      split; [done|]. split; [done|]. f_equal. lia.
    - rewrite decide_False by (intros [_ ?]; apply Hv0; by apply Hv). apply Hnext.
  Qed.
End SfsSpec.

(** ** Properties *)

(** C9: a file of the simple file system is an array of bytes: a transfer of
    at most one block reads exactly the bytes of the range that lie before the
    end of the file and changes nothing, or, when it starts at or before the
    end and there is room, puts the bytes of the buffer into the range, grows
    the size to cover it and leaves every other byte of the file, and every
    block in use that the file does not own, as they were. *)
Theorem sfs_io_refines {D} `{!BlockDev D, !BlockRead D, !BlockWrite D} (s : sfs_fs D) (sin : sfs_inode) (f : afile)
    (buf : list Z) (off len : Z) :
  represents s sin f -> 0 <= off < SFS_MAX_FILE_SIZE -> 0 <= len <= 4096 ->
  len <= Z.of_nat (length buf) -> Forall is_byte buf ->
  (exists s' buf', sfs_io_nolock s sin buf off len false = Ok (0, afile_avail f off len, buf', s', sin) /\
     represents s' sin f /\ length buf' = length buf /\
     forall k, at_ buf' k = if (0 <=? k) && (k <? afile_avail f off len) then a_byte f (off + k) else at_ buf k) /\
  (off <= a_size f -> off + len <= NBLOCKS * 4096 ->
   (dblocks (din sin) * 4096 < off + len -> 2 <= unused_blocks (super s)) ->
   exists s' sin', sfs_io_nolock s sin buf off len true = Ok (0, len, buf, s', sin') /\
     represents s' sin' (afile_write off len buf f) /\ frame s (owns s sin) s').
Proof.
  intros Hrep Ho Hl Hbuf Hby. split.
  { destruct (io_read s sin f buf off len) as (s' & buf' & E & [H1 _] & H2); [done..|]. by exists s', buf'. }
  intros Hle Hmax Hroom.
  destruct (io_write s sin f buf off len) as (s' & sin' & E & Hr & Ht & _); try (done || lia).
  exists s', sin'. split; [done|]. split; [done|]. exact (touched_frame _ _ _ _ Ht).
Qed.

(** C37: [sfs_truncfile] always returns, and either resizes the file exactly,
    keeping the bytes before both ends and clearing every new block, or, when
    at most one block is left on the disk, fails with -E_NO_MEM and leaves
    the size and the bytes; blocks of other inodes are not touched. *)
Theorem sfs_truncfile_resizes {D} `{!BlockDev D, !BlockRead D, !BlockWrite D} (s : sfs_fs D) (sin : sfs_inode) (f : afile) (len : Z) :
  represents s sin f -> 0 <= len <= NBLOCKS * 4096 ->
  exists ret s' sin', sfs_truncfile s sin len = Ok (ret, s', sin') /\ frame s (owns s sin) s' /\
    (ret = 0 /\ (exists g, represents s' sin' g /\ a_size g = len /\
       (forall p, 0 <= p < Z.min len (a_size f) -> a_byte g p = a_byte f p) /\
       (forall p, dblocks (din sin) * 4096 <= p < len -> a_byte g p = 0)) \/
     ret = - E_NO_MEM /\ a_size f < len /\ unused_blocks (super s') <= 1 /\ inode_ok s' sin' /\ abs s' sin' ≡ f).
Proof.
  intros Hrep Hl. destruct (resize_file s sin f len Hrep Hl) as (ret & s' & sin' & E & Hfr & HQ).
  exists ret, s', sin'. split; [done|]. split; [done|]. destruct HQ as [(-> & _ & H)|(-> & H1 & H2 & H3 & H4 & _)]; [by left|by right].
Qed.

(** Writes the kernel does not survive: past the block that follows the
    file, into a new block when the disk is full, and at the first block that
    an inode cannot address, although it is far below SFS_MAX_FILE_SIZE. *)
Theorem sfs_write_faults {D} `{!BlockDev D, !BlockRead D, !BlockWrite D} (s : sfs_fs D) (sin : sfs_inode) (f : afile)
    (buf : list Z) (off len : Z) :
  represents s sin f -> 0 <= off < SFS_MAX_FILE_SIZE -> 0 < len <= 4096 ->
  (dblocks (din sin) < off / 4096 -> sfs_io_nolock s sin buf off len true = Err AssertFail) /\
  (off / 4096 = dblocks (din sin) -> dblocks (din sin) < NBLOCKS -> (forall b, ~ free s b) ->
     sfs_io_nolock s sin buf off len true = Err AssertFail) /\
  (off / 4096 = dblocks (din sin) -> dblocks (din sin) = NBLOCKS -> sfs_io_nolock s sin buf off len true = Err KPanic).
Proof.
  intros (Hs & Hf & _) Ho Hl. split_and!; [intros Hpast|intros Heq Hn Hno|intros Heq Hn];
    apply io_nolock_first; try done.
  - left. by apply load_past.
  - right. split; [done|]. destruct (load_full s sin Hs (fl_inode s sin Hf) Hn Hno) as (s' & E).
    rewrite Heq, E. by eexists _, _, _, _.
  - left. rewrite Heq, Hn. by apply load_limit.
Qed.

(** C38: the search in a directory block by block is the search in the list of
    its entries: it finds the first entry in use whose name, as a C string, is
    the given one, or fails with -E_NOENT, and changes nothing. *)
Theorem sfs_dirent_search_finds {D} `{!BlockDev D, !BlockRead D, !BlockWrite D} (s : sfs_fs D) (sin : sfs_inode)
    (name e : list Z) :
  fs_ok s -> inode_ok s sin -> dtype (din sin) = SFS_TYPE_DIR ->
  Forall (fun b => b <> 0) name -> Z.of_nat (length name) <= SFS_MAX_FNAME_LEN -> length e = 260%nat ->
  exists r s', sfs_dirent_search_nolock s sin name (Some e) = Ok (r, s', sin) /\ same s s' /\
    match list_find (bears name) (dir_entries s sin) with
    | Some (k, e) => s_ret r = 0 /\ s_ino r = Some (entry_ino e) /\ s_slot r = Some (Z.of_nat k)
    | None => s_ret r = - E_NOENT /\ s_ino r = None /\ s_slot r = None
    end.
Proof.
  intros Hs Hi Ht Hn Hl He. unfold sfs_dirent_search_nolock.
  destruct (Z.leb_spec (Z.of_nat (length name)) SFS_MAX_FNAME_LEN); [|lia]. cbn [rassert rbind].
  pose proof (in_blocks s sin Hi).
  apply (search_loop_spec s sin name (Z.to_nat (dblocks (din sin))) Hs Hi Ht Hn Hl 0 (dblocks (din sin)) e s);
    [done|lia|done|by split].
Qed.

(** *** A small disk *)

(** Sixteen blocks; block 2 is the inode of a file whose bytes are in block
    3, block 4 that of a directory whose only entry is in block 5. *)
Definition demo_disk : ramdisk :=
  mk_ramdisk 16 (<[3 := [104; 101; 108; 108; 111]]> (<[5 := [2; 0; 0; 0; 97; 98]]> ∅)).
Definition demo_map : bitmap := mk_bitmap 32 1 [0xFFC0].
Definition demo_fs : sfs_fs ramdisk := mk_sfs (mk_super SFS_MAGIC 16 10 []) demo_disk demo_map false zeros.
Definition demo_din (type size b : Z) : sfs_disk_inode := mk_din size type 1 1 (b :: replicate 11 0) 0.
Definition demo_file : sfs_inode := mk_sin (demo_din SFS_TYPE_FILE 5 3) 2 false 1.
Definition demo_dir : sfs_inode := mk_sin (demo_din SFS_TYPE_DIR 4096 5) 4 false 1.

Lemma demo_bit i : 0 <= i -> bit demo_map i = (6 <=? i) && (i <? 16).
Proof.
  intros Hi. destruct (Z.lt_ge_cases i 32) as [Hlt|Hge].
  - assert (H : forallb (fun i => Bool.eqb (bit demo_map i) ((6 <=? i) && (i <? 16))) (seqZ 0 32) = true) by (vm_compute; reflexivity).
    rewrite forallb_forall in H. apply Bool.eqb_prop, (H i), list_elem_of_In, elem_of_seqZ. lia.
  - unfold bit, demo_map. cbn [Bitmap.map]. rewrite lookup_ge_None_2 by (cbn; Z.to_euclidean_division_equations; lia).
    destruct (Z.leb_spec 6 i), (Z.ltb_spec i 16); try lia. apply Z.bits_0.
Qed.

Lemma demo_free i : free demo_fs i <-> 6 <= i < 16.
Proof.
  unfold free, is_free. cbn [freemap demo_fs]. change (nbits demo_map) with 32. split.
  - intros [Hi Hb]. rewrite demo_bit in Hb by lia. destruct (Z.leb_spec 6 i), (Z.ltb_spec i 16); done.
  - intros Hi. split; [lia|]. rewrite demo_bit by lia. destruct (Z.leb_spec 6 i), (Z.ltb_spec i 16); (done || lia).
Qed.

Lemma demo_fs_ok : fs_ok demo_fs.
Proof.
  split.
  - split; cbn; [done|done|repeat constructor; unfold is_u32, two32; lia|]. intros i Hi. lia.
  - done.
  - intros b Hb%demo_free. cbn. lia.
  - vm_compute. reflexivity.
  - unfold dev_ok. cbn. apply map_Forall_insert_2; [repeat constructor; unfold is_byte; lia|].
    apply map_Forall_insert_2; [repeat constructor; unfold is_byte; lia|]. apply map_Forall_empty.
  - done.
  - split; [apply length_zeros|]. apply Forall_replicate. unfold is_byte. lia.
Qed.

Lemma entry_one (f : Z -> list Z) type size b i : 0 <= i -> entry f (demo_din type size b) i = if i =? 0 then b else 0.
Proof.
  intros Hi. unfold entry, demo_din. cbn [direct indirect]. change (0 =? 0) with true.
  destruct (Z.eqb_spec i 0) as [->|Hi0]; [done|]. destruct (i <? 12) eqn:E12; [|done].
  apply Z.ltb_lt in E12. rewrite lookup_cons_ne_0, lookup_replicate_2 by lia. done.
Qed.

(** An inode with one block. *)
Lemma one_block_ok {D} `{!BlockDev D, !BlockRead D} (s : sfs_fs D) type size b node drt c : in_use s b -> in_use s node -> b <> node ->
  inode_ok s (mk_sin (demo_din type size b) node drt c).
Proof.
  intros Hb Hn Hne. pose proof (proj1 Hb) as Hb0. pose proof (proj1 Hn) as Hn0. pose proof (entry_one (blk s) type size b) as He.
  split; cbn [din ino dblocks direct indirect demo_din]; try (unfold NBLOCKS; lia); try done; try by left.
  - intros i Hi. rewrite He by lia. destruct (Z.eqb_spec i 0); [done|lia].
  - intros i Hi. rewrite He by lia. destruct (Z.eqb_spec i 0); [lia|done].
  - intros i Hi. rewrite He by lia. destruct (Z.eqb_spec i 0); lia.
Qed.

Lemma demo_inode_ok type size b node : 0 < b < 6 -> 0 < node < 6 -> b <> node ->
  inode_ok demo_fs (mk_sin (demo_din type size b) node false 1).
Proof.
  intros Hb Hn Hne. assert (Hu : forall c, 0 < c < 6 -> in_use demo_fs c).
  { intros c Hc. split; [cbn; lia|]. rewrite demo_free. lia. }
  apply one_block_ok; [by apply Hu..|done].
Qed.

Lemma demo_file_ok : represents demo_fs demo_file (abs demo_fs demo_file).
Proof.
  split; [apply demo_fs_ok|]. split; [|done]. split; [apply demo_inode_ok; lia|done|done|done].
Qed.

Lemma sfs_io_refines_witness : exists s' sin',
  sfs_io_nolock demo_fs demo_file [72] 0 1 true = Ok (0, 1, [72], s', sin') /\ dsize (din sin') = 5.
Proof.
  destruct (sfs_io_refines demo_fs demo_file _ [72] 0 1 demo_file_ok) as [_ Hw];
    [unfold SFS_MAX_FILE_SIZE; lia|lia|done|repeat constructor; unfold is_byte; lia|].
  destruct Hw as (s' & sin' & E & (_ & _ & [Hz _]) & _); [done|unfold NBLOCKS; lia|cbn; lia|].
  exists s', sin'. split; [exact E|exact Hz].
Defined.

Lemma sfs_truncfile_resizes_witness : exists s' sin',
  sfs_truncfile demo_fs demo_file 0 = Ok (0, s', sin') /\ dsize (din sin') = 0.
Proof.
  destruct (sfs_truncfile_resizes demo_fs demo_file _ 0 demo_file_ok) as (ret & s' & sin' & E & _ & [[-> (g & Hr & Hz & _)]|(_ & Hx & _)]);
    [unfold NBLOCKS; lia| |cbn in Hx; lia].
  exists s', sin'. split; [exact E|]. destruct Hr as (_ & _ & [Hs _]). etransitivity; [exact Hs|exact Hz].
Defined.

Lemma sfs_write_faults_witness : sfs_io_nolock demo_fs demo_file [72] 8192 1 true = Err AssertFail.
Proof.
  destruct (sfs_write_faults demo_fs demo_file _ [72] 8192 1 demo_file_ok) as [H _];
    [unfold SFS_MAX_FILE_SIZE; lia|lia|apply H; done].
Defined.

Lemma sfs_dirent_search_finds_witness : exists r s',
  sfs_dirent_search_nolock demo_fs demo_dir [97; 98] (Some (replicate 260 0)) = Ok (r, s', demo_dir) /\
  s_ret r = 0 /\ s_ino r = Some 2.
Proof.
  destruct (sfs_dirent_search_finds demo_fs demo_dir [97; 98] (replicate 260 0) demo_fs_ok) as (r & s' & E & _ & Hr);
    [apply demo_inode_ok; lia|done|repeat constructor; lia|done|done|].
  exists r, s'. split; [exact E|].
  assert (Hf : exists k e, list_find (bears [97; 98]) (dir_entries demo_fs demo_dir) = Some (k, e) /\ entry_ino e = 2).
  { eexists _, _. split; [vm_compute; reflexivity|vm_compute; reflexivity]. }
  destruct Hf as (k & e & Ef & Ei). rewrite Ef in Hr. destruct Hr as (H0 & H1 & _). split; [exact H0|]. by rewrite H1, Ei.
Defined.
