(* ===== verification/Vfs.v ===== *)
(** * The virtual file system (kern/fs/vfs)

    Inodes with their reference and open counts (inode.c), opening and closing
    (vfsfile.c), path names (vfslookup.c, vfspath.c), the boot file system
    (vfs.c) and the list of devices (vfsdev.c).  What a file system or a device
    does is the interface [InodeOps], the tables of function pointers of
    inode.h; a missing function is [None].  A pointer to an inode is an
    integer, 0 for NULL; a C string is the list of its bytes before the NUL. *)
From S2P Require Import Prelude IoBuf.

(** ** State *)

(** [in_ops]: the number of the table of operations, 0 for NULL. *)
Record inode := mk_inode { in_type : Z; ref_count : Z; open_count : Z; in_fs : Z; in_ops : Z }.

Definition inode_type_device_info : Z := 0x1234.
Definition inode_type_sfs_inode_info : Z := 0x1235.
Definition MAX_INODE_COUNT : Z := 0x10000.

Record vfs_dev := mk_vfs_dev { devname : list Z; devnode : Z; dev_fs : Z; mountable : bool }.

#[export] Instance vfs_dev_eq_dec : EqDecision vfs_dev.
Proof. solve_decision. Defined.

(** The inodes by address, [bootfs_node], [vdev_list] and the state of the
    file systems and devices. *)
Record vfs (F : Type) := mk_vfs { inodes : gmap Z inode; bootfs_node : Z; vdev_list : list vfs_dev; fsd : F }.
Arguments mk_vfs {F}. Arguments inodes {F}. Arguments bootfs_node {F}. Arguments vdev_list {F}. Arguments fsd {F}.

Record stat := mk_stat { st_mode : Z; st_nlinks : Z; st_blocks : Z; st_size : Z }.

Definition set_ref (i : inode) (n : Z) : inode := mk_inode (in_type i) n (open_count i) (in_fs i) (in_ops i).
Definition set_open (i : inode) (n : Z) : inode := mk_inode (in_type i) (ref_count i) n (in_fs i) (in_ops i).
Definition set_inodes {F} (v : vfs F) (m : gmap Z inode) : vfs F := mk_vfs m (bootfs_node v) (vdev_list v) (fsd v).
Definition set_bootfs {F} (v : vfs F) (n : Z) : vfs F := mk_vfs (inodes v) n (vdev_list v) (fsd v).
Definition set_vdevs {F} (v : vfs F) (l : list vfs_dev) : vfs F := mk_vfs (inodes v) (bootfs_node v) l (fsd v).

(** ** The operations of a file system or device (struct inode_ops, struct fs) *)

Class InodeOps (F : Type) := {
  i_open : Z -> option (Z -> Z -> vfs F -> res (Z * vfs F));
  i_close : Z -> option (Z -> vfs F -> res (Z * vfs F));
  i_read : Z -> option (Z -> iobuf -> vfs F -> res (Z * iobuf * vfs F));
  i_write : Z -> option (Z -> iobuf -> vfs F -> res (Z * iobuf * vfs F));
  i_fstat : Z -> option (Z -> vfs F -> res (Z * stat * vfs F));
  i_fsync : Z -> option (Z -> vfs F -> res (Z * vfs F));
  i_namefile : Z -> option (Z -> iobuf -> vfs F -> res (Z * iobuf * vfs F));
  i_getdirentry : Z -> option (Z -> iobuf -> vfs F -> res (Z * iobuf * vfs F));
  i_reclaim : Z -> option (Z -> vfs F -> res (Z * vfs F));
  i_gettype : Z -> option (Z -> vfs F -> res (Z * Z * vfs F));
  i_tryseek : Z -> option (Z -> Z -> vfs F -> res (Z * vfs F));
  i_truncate : Z -> option (Z -> Z -> vfs F -> res (Z * vfs F));
  i_create : Z -> option (Z -> list Z -> bool -> vfs F -> res (Z * Z * vfs F));
  i_lookup : Z -> option (Z -> list Z -> vfs F -> res (Z * Z * vfs F));
  fs_get_root : Z -> vfs F -> res (Z * vfs F);
  fs_sync : Z -> vfs F -> res (Z * vfs F);
  fs_unmount : Z -> vfs F -> res (Z * vfs F);
  fs_cleanup : Z -> vfs F -> res (vfs F)
}.

Section Vfs.
  Context {F : Type} `{!InodeOps F}.
  Implicit Types (v : vfs F) (node : Z).

  (** ** Inodes (inode.h, inode.c) *)

Definition get_inode node v : res inode := rget (if node =? 0 then None else inodes v !! node).

Definition inode_check (i : inode) : bool :=
    ((open_count i <=? ref_count i) && (0 <=? open_count i)) &&
    ((ref_count i <? MAX_INODE_COUNT) && (open_count i <? MAX_INODE_COUNT)).

  (** [__vop_op]: the function of a table for an inode. *)
Definition vop {A} (sel : Z -> option A) node v : res A :=
    assert! negb (node =? 0) ;;
    let! i := get_inode node v in
    assert! negb (in_ops i =? 0) && bool_decide (is_Some (sel (in_ops i))) ;;
    assert! inode_check i ;;
    rget (sel (in_ops i)).

Definition vop_open node (open_flags : Z) v := let! f := vop i_open node v in f node open_flags v.
Definition vop_close node v := let! f := vop i_close node v in f node v.
Definition vop_read node (iob : iobuf) v := let! f := vop i_read node v in f node iob v.
Definition vop_write node (iob : iobuf) v := let! f := vop i_write node v in f node iob v.
Definition vop_fstat node v := let! f := vop i_fstat node v in f node v.
Definition vop_fsync node v := let! f := vop i_fsync node v in f node v.
Definition vop_namefile node (iob : iobuf) v := let! f := vop i_namefile node v in f node iob v.
Definition vop_getdirentry node (iob : iobuf) v := let! f := vop i_getdirentry node v in f node iob v.
Definition vop_reclaim node v := let! f := vop i_reclaim node v in f node v.
Definition vop_gettype node v := let! f := vop i_gettype node v in f node v.
Definition vop_tryseek node (pos : Z) v := let! f := vop i_tryseek node v in f node pos v.
Definition vop_truncate node (len : Z) v := let! f := vop i_truncate node v in f node len v.
Definition vop_create node (name : list Z) (excl : bool) v := let! f := vop i_create node v in f node name excl v.
Definition vop_lookup node (path : list Z) v := let! f := vop i_lookup node v in f node path v.

Definition put_inode node (i : inode) v : vfs F := set_inodes v (<[node := i]> (inodes v)).

Definition inode_ref_inc node v : res (Z * vfs F) :=
    let! i := get_inode node v in
    Ok (ref_count i + 1, put_inode node (set_ref i (ref_count i + 1)) v).

  (** A failing [vop_reclaim] or [vop_close] only prints a warning. *)
Definition inode_ref_dec node v : res (Z * vfs F) :=
    let! i := get_inode node v in
    assert! 0 <? ref_count i ;;
    let n := ref_count i - 1 in
    let v := put_inode node (set_ref i n) v in
    if n =? 0 then let! (_, v) := vop_reclaim node v in Ok (n, v) else Ok (n, v).

Definition inode_open_inc node v : res (Z * vfs F) :=
    let! i := get_inode node v in
    Ok (open_count i + 1, put_inode node (set_open i (open_count i + 1)) v).

Definition inode_open_dec node v : res (Z * vfs F) :=
    let! i := get_inode node v in
    assert! 0 <? open_count i ;;
    let n := open_count i - 1 in
    let v := put_inode node (set_open i n) v in
    if n =? 0 then let! (_, v) := vop_close node v in Ok (n, v) else Ok (n, v).

  (** [addr]: the address [kmalloc] returns, or NULL. *)
Definition __alloc_inode (addr : Z) (type : Z) v : Z * vfs F :=
    if addr =? 0 then (0, v) else (addr, put_inode addr (mk_inode type 0 0 0 0) v).

Definition inode_init node (ops fs : Z) v : res (vfs F) :=
    let! i := get_inode node v in
    let! (_, v) := inode_ref_inc node (put_inode node (mk_inode (in_type i) 0 0 fs ops) v) in
    Ok v.

Definition inode_kill node v : res (vfs F) :=
    let! i := get_inode node v in
    assert! ref_count i =? 0 ;;
    assert! open_count i =? 0 ;;
    Ok (set_inodes v (delete node (inodes v))).

  (** ** The boot file system and the devices (vfs.c, vfsdev.c) *)

Definition change_bootfs node v : res (vfs F) :=
    let old := bootfs_node v in
    let v := set_bootfs v node in
    if negb (old =? 0) then let! (_, v) := inode_ref_dec old v in Ok v else Ok v.

Definition vfs_get_bootfs v : res (Z * Z * vfs F) :=
    let node := bootfs_node v in
    if node =? 0 then Ok (- E_NOENT, 0, v)
    else let! (_, v) := inode_ref_inc node v in Ok (0, node, v).

  (** [strcmp(a, b) == 0], see [CString]. *)
Definition streq (a b : list Z) : bool := bool_decide (a = b).

Fixpoint find_vdev (name : list Z) (l : list vfs_dev) : option vfs_dev :=
    match l with
    | [] => None
    | d :: l => if streq name (devname d) then Some d else find_vdev name l
    end.

Definition vfs_get_root (name : list Z) v : res (Z * Z * vfs F) :=
    match find_vdev name (vdev_list v) with
    | None => Ok (- E_NO_DEV, 0, v)
    | Some d =>
        let! (found, v) :=
          if negb (dev_fs d =? 0) then fs_get_root (dev_fs d) v
          else if negb (mountable d) then let! (_, v) := inode_ref_inc (devnode d) v in Ok (devnode d, v)
          else Ok (0, v) in
        if negb (found =? 0) then Ok (0, found, v) else Ok (- E_NA_DEV, 0, v)
    end.

Fixpoint vfs_get_devname_loop (fs : Z) (l : list vfs_dev) : option (list Z) :=
    match l with
    | [] => None
    | d :: l => if dev_fs d =? fs then Some (devname d) else vfs_get_devname_loop fs l
    end.
Definition vfs_get_devname (fs : Z) v : res (option (list Z)) :=
    assert! negb (fs =? 0) ;; Ok (vfs_get_devname_loop fs (vdev_list v)).

Fixpoint check_devname_conflict (name : list Z) (l : list vfs_dev) : bool :=
    match l with
    | [] => true
    | d :: l => if streq (devname d) name then false else check_devname_conflict name l
    end.

Definition FS_MAX_DNAME_LEN : Z := 31.

  (** [ok1], [ok2]: whether [strdup] and [kmalloc] succeed. *)
Definition vfs_do_add (ok1 ok2 : bool) (name : list Z) (node fs : Z) (mountable : bool) v : res (Z * vfs F) :=
    let! is_dev := if node =? 0 then Ok (negb mountable)
                   else let! i := get_inode node v in Ok (in_type i =? inode_type_device_info) in
    assert! is_dev ;;
    if FS_MAX_DNAME_LEN <? Z.of_nat (length name) then Ok (- E_TOO_BIG, v)
    else if negb ok1 || negb ok2 then Ok (- E_NO_MEM, v)
    else if negb (check_devname_conflict name (vdev_list v)) then Ok (- E_EXISTS, v)
    else Ok (0, set_vdevs v (mk_vfs_dev name node fs mountable :: vdev_list v)).
Definition vfs_add_fs (ok1 ok2 : bool) (name : list Z) (fs : Z) v := vfs_do_add ok1 ok2 name 0 fs false v.
Definition vfs_add_dev (ok1 ok2 : bool) (name : list Z) (node : Z) (mountable : bool) v :=
    vfs_do_add ok1 ok2 name node 0 mountable v.

  (** The position of the first mountable device with the name. *)
Fixpoint find_mount (name : list Z) (l : list vfs_dev) : option nat :=
    match l with
    | [] => None
    | d :: l => if mountable d && streq (devname d) name then Some O else Datatypes.S <$> find_mount name l
    end.

Definition set_dev_fs (d : vfs_dev) (fs : Z) : vfs_dev := mk_vfs_dev (devname d) (devnode d) fs (mountable d).

Definition vfs_mount (mountfunc : Z -> vfs F -> res (Z * Z * vfs F)) (name : list Z) v : res (Z * vfs F) :=
    match find_mount name (vdev_list v) with
    | None => Ok (- E_NO_DEV, v)
    | Some k =>
        let! d := rget (vdev_list v !! k) in
        if negb (dev_fs d =? 0) then Ok (- E_BUSY, v)
        else
          assert! mountable d ;;
          let! i := get_inode (devnode d) v in
          assert! in_type i =? inode_type_device_info ;;
          let! (ret, fs, v) := mountfunc (devnode d) v in
          if ret =? 0 then
            assert! negb (fs =? 0) ;;
            Ok (ret, set_vdevs v (<[k := set_dev_fs d fs]> (vdev_list v)))
          else Ok (ret, v)
    end.

Definition vfs_unmount (name : list Z) v : res (Z * vfs F) :=
    match find_mount name (vdev_list v) with
    | None => Ok (- E_NO_DEV, v)
    | Some k =>
        let! d := rget (vdev_list v !! k) in
        if dev_fs d =? 0 then Ok (- E_INVAL, v)
        else
          assert! mountable d ;;
          let! (ret, v) := fs_sync (dev_fs d) v in
          if negb (ret =? 0) then Ok (ret, v)
          else
            let! (ret, v) := fs_unmount (dev_fs d) v in
            if ret =? 0 then Ok (ret, set_vdevs v (<[k := set_dev_fs d 0]> (vdev_list v))) else Ok (ret, v)
    end.

Definition vfs_init v : vfs F := mk_vfs (inodes v) 0 [] (fsd v).

Fixpoint cleanup_devs (l : list vfs_dev) v : res (vfs F) :=
    match l with
    | [] => Ok v
    | d :: l => let! v := if negb (dev_fs d =? 0) then fs_cleanup (dev_fs d) v else Ok v in cleanup_devs l v
    end.
Definition vfs_cleanup v : res (vfs F) := cleanup_devs (vdev_list v) v.

  (** The list after the loop, and the state. *)
Fixpoint unmount_devs (l : list vfs_dev) v : res (list vfs_dev * vfs F) :=
    match l with
    | [] => Ok ([], v)
    | d :: l =>
        let! (d, v) :=
          if mountable d && negb (dev_fs d =? 0) then
            let! (ret, v) := fs_sync (dev_fs d) v in
            if negb (ret =? 0) then Ok (d, v)
            else
              let! (ret, v) := fs_unmount (dev_fs d) v in
              if negb (ret =? 0) then Ok (d, v) else Ok (set_dev_fs d 0, v)
          else Ok (d, v) in
        let! (l, v) := unmount_devs l v in
        Ok (d :: l, v)
    end.
Definition vfs_unmount_all v : res (Z * vfs F) :=
    let! (l, v) := unmount_devs (vdev_list v) v in Ok (0, set_vdevs v l).

  (** ** Path names (vfslookup.c, vfspath.c) *)

Definition vfs_get_curdir (pwd : Z) v : res (Z * Z * vfs F) :=
    if negb (pwd =? 0) then let! (_, v) := inode_ref_inc pwd v in Ok (0, pwd, v) else Ok (- E_NOENT, 0, v).

  (** The first ':' or '/' of a path and the characters before it. *)
Fixpoint scan_path (path : list Z) (i : Z) : option (Z * Z) :=
    match path with
    | [] => None
    | c :: path => if (c =? 58) || (c =? 47) then Some (c, i) else scan_path path (i + 1)
    end.
Fixpoint skip_slashes (path : list Z) : list Z :=
    match path with
    | c :: path' => if c =? 47 then skip_slashes path' else path
    | [] => []
    end.

  (** The return value, [*subpath], [*node_store] and the state. *)
Definition get_device (pwd : Z) (path : list Z) v : res (Z * list Z * Z * vfs F) :=
    let colon := match scan_path path 0 with Some (c, i) => if c =? 58 then i else -1 | None => -1 end in
    let slash := match scan_path path 0 with Some (c, i) => if c =? 58 then -1 else i | None => -1 end in
    if (colon <? 0) && negb (slash =? 0) then
      let! (ret, node, v) := vfs_get_curdir pwd v in Ok (ret, path, node, v)
    else if 0 <? colon then
      let name := take (Z.to_nat colon) path in
      let sub := skip_slashes (drop (Z.to_nat (colon + 1)) path) in
      let! (ret, node, v) := vfs_get_root name v in Ok (ret, sub, node, v)
    else
      let sub := skip_slashes (drop 1 path) in
      if slash =? 0 then
        let! (ret, node, v) := vfs_get_bootfs v in
        if negb (ret =? 0) then Ok (ret, path, 0, v) else Ok (0, sub, node, v)
      else
        let! (ret, node, v) := vfs_get_curdir pwd v in
        if negb (ret =? 0) then Ok (ret, path, 0, v)
        else
          let! i := get_inode node v in
          assert! negb (in_fs i =? 0) ;;
          let! (root, v) := fs_get_root (in_fs i) v in
          let! (_, v) := inode_ref_dec node v in
          Ok (0, sub, root, v).

  (** What [get_device] leaves of the path in the caller's buffer: it cuts it
      at the colon after a device name. *)
Definition path_after (path : list Z) : list Z :=
    match scan_path path 0 with
    | Some (c, i) => if (c =? 58) && (0 <? i) then take (Z.to_nat i) path else path
    | None => path
    end.

Definition vfs_lookup (pwd : Z) (path : list Z) v : res (Z * Z * vfs F) :=
    let! (ret, sub, node, v) := get_device pwd path v in
    if negb (ret =? 0) then Ok (ret, 0, v)
    else if negb (bool_decide (sub = [])) then
      let! (ret, n, v) := vop_lookup node sub v in
      let! (_, v) := inode_ref_dec node v in
      Ok (ret, n, v)
    else Ok (0, node, v).

  (** The return value, [*node_store], [*endp] and the state. *)
Definition vfs_lookup_parent (pwd : Z) (path : list Z) v : res (Z * Z * list Z * vfs F) :=
    let! (ret, sub, node, v) := get_device pwd path v in
    if negb (ret =? 0) then Ok (ret, 0, [], v) else Ok (0, node, sub, v).

Definition S_IFMT : Z := 0x7000.
Definition S_ISDIR (mode : Z) : bool := Z.land mode S_IFMT =? 0x2000.

  (** The return value, the new directory of the process and the state. *)
Definition vfs_set_curdir (pwd dir : Z) v : res (Z * Z * vfs F) :=
    if negb (pwd =? dir) then
      let! (ret, v) :=
        if negb (dir =? 0) then
          let! (ret, type, v) := vop_gettype dir v in
          if negb (ret =? 0) then Ok (ret, v)
          else if negb (S_ISDIR type) then Ok (- E_NOTDIR, v)
          else let! (_, v) := inode_ref_inc dir v in Ok (0, v)
        else Ok (0, v) in
      if negb (ret =? 0) then Ok (ret, pwd, v)
      else if negb (pwd =? 0) then let! (_, v) := inode_ref_dec pwd v in Ok (0, dir, v)
      else Ok (0, dir, v)
    else Ok (0, pwd, v).

Definition vfs_chdir (pwd : Z) (path : list Z) v : res (Z * Z * vfs F) :=
    let! (ret, node, v) := vfs_lookup pwd path v in
    if ret =? 0 then
      let! (ret, pwd, v) := vfs_set_curdir pwd node v in
      let! (_, v) := inode_ref_dec node v in
      Ok (ret, pwd, v)
    else Ok (ret, pwd, v).

Definition vfs_getcwd (pwd : Z) (iob : iobuf) v : res (Z * iobuf * vfs F) :=
    let! (ret, node, v) := vfs_get_curdir pwd v in
    if negb (ret =? 0) then Ok (ret, iob, v)
    else
      let! i := get_inode node v in
      assert! negb (in_fs i =? 0) ;;
      let! name := vfs_get_devname (in_fs i) v in
      let! name := rget name in
      let! (ret, iob, _, _) := iobuf_move iob name (Z.of_nat (length name)) true in
      let! (ret, iob, v) :=
        if negb (ret =? 0) then Ok (ret, iob, v)
        else
          let! (ret, iob, _, _) := iobuf_move iob [58] 1 true in
          if negb (ret =? 0) then Ok (ret, iob, v) else vop_namefile node iob v in
      let! (_, v) := inode_ref_dec node v in
      Ok (ret, iob, v).

  (** The name must end in its only ':'. *)
Definition vfs_set_bootfs (pwd : Z) (fsname : option (list Z)) v : res (Z * Z * vfs F) :=
    match fsname with
    | None => let! v := change_bootfs 0 v in Ok (0, pwd, v)
    | Some name =>
        let colon := Z.of_nat (length name) - 1 in
        if negb (bool_decide (list_find (fun c => c = 58) name = Some (Z.to_nat colon, 58))) then Ok (- E_INVAL, pwd, v)
        else
          let! (ret, pwd, v) := vfs_chdir pwd name v in
          if negb (ret =? 0) then Ok (ret, pwd, v)
          else
            let! (ret, node, v) := vfs_get_curdir pwd v in
            if negb (ret =? 0) then Ok (ret, pwd, v)
            else let! v := change_bootfs node v in Ok (0, pwd, v)
    end.

  (** ** Opening and closing (vfsfile.c) *)

Definition O_RDONLY : Z := 0.
Definition O_WRONLY : Z := 1.
Definition O_RDWR : Z := 2.
Definition O_CREAT : Z := 4.
Definition O_EXCL : Z := 8.
Definition O_TRUNC : Z := 16.
Definition O_APPEND : Z := 32.
Definition O_ACCMODE : Z := 3.
Definition has (flags bit : Z) : bool := negb (Z.land flags bit =? 0).

Definition vfs_open (pwd : Z) (path : list Z) (open_flags : Z) v : res (Z * Z * vfs F) :=
    let acc := Z.land open_flags O_ACCMODE in
    if acc =? O_ACCMODE then Ok (- E_INVAL, 0, v)
    else
      let can_write := negb (acc =? O_RDONLY) in
      if has open_flags O_TRUNC && negb can_write then Ok (- E_INVAL, 0, v)
      else
        let excl := has open_flags O_EXCL in
        let create := has open_flags O_CREAT in
        let! (ret, node, v) := vfs_lookup pwd path v in
        let! (ret, node, v) :=
          if negb (ret =? 0) then
            if (ret =? -16) && create then
              let! (ret, dir, name, v) := vfs_lookup_parent pwd (path_after path) v in
              if negb (ret =? 0) then Ok (ret, 0, v)
              else let! (_, node, v) := vop_create dir name excl v in Ok (0, node, v)
            else Ok (ret, 0, v)
          else if excl && create then Ok (- E_EXISTS, 0, v)
          else Ok (0, node, v) in
        if negb (ret =? 0) then Ok (ret, 0, v)
        else
          assert! negb (node =? 0) ;;
          let! (ret, v) := vop_open node open_flags v in
          if negb (ret =? 0) then let! (_, v) := inode_ref_dec node v in Ok (ret, 0, v)
          else
            let! (_, v) := inode_open_inc node v in
            if has open_flags O_TRUNC || create then
              let! (ret, v) := vop_truncate node 0 v in
              if negb (ret =? 0) then
                let! (_, v) := inode_open_dec node v in
                let! (_, v) := inode_ref_dec node v in
                Ok (ret, 0, v)
              else Ok (0, node, v)
            else Ok (0, node, v).

Definition vfs_close node v : res (vfs F) :=
    let! (_, v) := inode_open_dec node v in
    let! (_, v) := inode_ref_dec node v in
    Ok v.

  (** [vfs_unlink], [vfs_rename], [vfs_link], [vfs_symlink], [vfs_readlink]
      and [vfs_mkdir] are not implemented. *)
Definition vfs_unimplemented : Z := - E_UNIMP.
End Vfs.
