(* ===== verification/File.v ===== *)
(** * Open files (kern/fs/file.c, kern/fs/fs.c)

    The table of descriptors of a process and the operations on it, over the
    virtual file system.  [fstate] holds every [files_struct] by its address;
    the operations take the address of the current process's
    ([current->filesp]).  A [struct file *] into a table is its index. *)
From S2P Require Import Prelude IoBuf Vfs.

Inductive file_status := FD_NONE | FD_INIT | FD_OPENED | FD_CLOSED.

#[export] Instance file_status_eq_dec : EqDecision file_status.
Proof. solve_decision. Defined.

Record file := mk_file {
  status : file_status; readable : bool; writable : bool; fd : Z; pos : Z; node : Z; fopen_count : Z }.

Record files := mk_files { pwd : Z; fd_array : list file; files_count : Z }.

Record fstate (F : Type) := mk_fstate { fvfs : vfs F; ftabs : gmap Z files }.
Arguments mk_fstate {F}. Arguments fvfs {F}. Arguments ftabs {F}.

(** (4096 - sizeof(struct files_struct)) / sizeof(struct file). *)
Definition FILES_STRUCT_NENTRY : Z := (4096 - 24) / 28.
Definition NO_FD : Z := -0x9527.
Definition LSEEK_SET : Z := 0.
Definition LSEEK_CUR : Z := 1.
Definition LSEEK_END : Z := 2.

Definition set_status (f : file) (s : file_status) := mk_file s (readable f) (writable f) (fd f) (pos f) (node f) (fopen_count f).
Definition set_node (f : file) (n : Z) := mk_file (status f) (readable f) (writable f) (fd f) (pos f) n (fopen_count f).
Definition set_pos (f : file) (p : Z) := mk_file (status f) (readable f) (writable f) (fd f) p (node f) (fopen_count f).
Definition set_modes (f : file) (r w : bool) := mk_file (status f) r w (fd f) (pos f) (node f) (fopen_count f).
Definition set_count (f : file) (n : Z) := mk_file (status f) (readable f) (writable f) (fd f) (pos f) (node f) n.
Definition set_fd_array (fs : files) (l : list file) := mk_files (pwd fs) l (files_count fs).
Definition set_pwd (fs : files) (n : Z) := mk_files n (fd_array fs) (files_count fs).
Definition set_files_count (fs : files) (n : Z) := mk_files (pwd fs) (fd_array fs) n.

Section File.
  Context {F : Type} `{!InodeOps F}.
  Implicit Types (st : fstate F) (v : vfs F) (p i : Z).

Definition set_vfs st v : fstate F := mk_fstate v (ftabs st).
Definition put_files p (fs : files) st : fstate F := mk_fstate (fvfs st) (<[p := fs]> (ftabs st)).

Definition get_files p st : res files := rget (ftabs st !! p).

  (** [get_fd_array() + i] for reading. *)
Definition get_file p i st : res file :=
    let! fs := get_files p st in
    assert! 0 <? files_count fs ;;
    rget (if 0 <=? i then fd_array fs !! Z.to_nat i else None).
  (** [*file = f]. *)
Definition put_file p i (f : file) st : fstate F :=
    match ftabs st !! p with
    | Some fs => put_files p (set_fd_array fs (<[Z.to_nat i := f]> (fd_array fs))) st
    | None => st
    end.
Definition file_at p i st : res file := let! fs := get_files p st in rget (fd_array fs !! Z.to_nat i).

Definition testfd i : bool := (0 <=? i) && (i <? FILES_STRUCT_NENTRY).

Definition fd_array_init (l : list file) : list file :=
    imap (fun k f => mk_file FD_NONE (readable f) (writable f) (Z.of_nat k) (pos f) (node f) 0) l.

  (** The first entry that is not in use, from [i] on. *)
Fixpoint find_none (l : list file) i : option Z :=
    match l with
    | [] => None
    | f :: l => if bool_decide (status f = FD_NONE) then Some i else find_none l (i + 1)
    end.

  (** The return value, the index of the entry and the state. *)
Definition fd_array_alloc p (fd : Z) st : res (Z * Z * fstate F) :=
    let! fs := get_files p st in
    assert! 0 <? files_count fs ;;
    let! (ret, i) :=
      if fd =? NO_FD then
        match find_none (take (Z.to_nat FILES_STRUCT_NENTRY) (fd_array fs)) 0 with
        | Some i => Ok (0, i)
        | None => Ok (- E_MAX_OPEN, 0)
        end
      else if testfd fd then
        let! f := rget (fd_array fs !! Z.to_nat fd) in
        Ok (if bool_decide (status f = FD_NONE) then 0 else - E_BUSY, fd)
      else Ok (- E_INVAL, 0) in
    if negb (ret =? 0) then Ok (ret, 0, st)
    else
      let! f := file_at p i st in
      assert! fopen_count f =? 0 ;;
      Ok (0, i, put_file p i (set_node (set_status f FD_INIT) 0) st).

Definition fd_array_free p i st : res (fstate F) :=
    let! f := file_at p i st in
    assert! bool_decide (status f = FD_INIT) || bool_decide (status f = FD_CLOSED) ;;
    assert! fopen_count f =? 0 ;;
    let! st :=
      if bool_decide (status f = FD_CLOSED) then let! v := vfs_close (node f) (fvfs st) in Ok (set_vfs st v) else Ok st in
    Ok (put_file p i (set_status f FD_NONE) st).

Definition fd_array_acquire p i st : res (fstate F) :=
    let! f := file_at p i st in
    assert! bool_decide (status f = FD_OPENED) ;;
    Ok (put_file p i (set_count f (fopen_count f + 1)) st).

Definition fd_array_release p i st : res (fstate F) :=
    let! f := file_at p i st in
    assert! bool_decide (status f = FD_OPENED) || bool_decide (status f = FD_CLOSED) ;;
    assert! 0 <? fopen_count f ;;
    let st := put_file p i (set_count f (fopen_count f - 1)) st in
    if fopen_count f - 1 =? 0 then fd_array_free p i st else Ok st.

Definition fd_array_open p i st : res (fstate F) :=
    let! f := file_at p i st in
    assert! bool_decide (status f = FD_INIT) && negb (node f =? 0) ;;
    Ok (put_file p i (set_count (set_status f FD_OPENED) (fopen_count f + 1)) st).

Definition fd_array_close p i st : res (fstate F) :=
    let! f := file_at p i st in
    assert! bool_decide (status f = FD_OPENED) ;;
    assert! 0 <? fopen_count f ;;
    let st := put_file p i (set_count (set_status f FD_CLOSED) (fopen_count f - 1)) st in
    if fopen_count f - 1 =? 0 then fd_array_free p i st else Ok st.

  (** Entry [i] of table [p] becomes a duplicate of entry [j] of table [q]. *)
Definition fd_array_dup p i q j st : res (fstate F) :=
    let! to := file_at p i st in
    let! from := file_at q j st in
    assert! bool_decide (status to = FD_INIT) && bool_decide (status from = FD_OPENED) ;;
    let to := set_modes (set_pos to (pos from)) (readable from) (writable from) in
    let! (_, v) := inode_ref_inc (node from) (fvfs st) in
    let! (_, v) := inode_open_inc (node from) v in
    fd_array_open p i (put_file p i (set_node to (node from)) (set_vfs st v)).

  (** The return value; the entry is at index [fd]. *)
Definition fd2file p (fd : Z) st : res Z :=
    if testfd fd then
      let! f := get_file p fd st in
      if bool_decide (status f = FD_OPENED) && (File.fd f =? fd) then Ok 0 else Ok (- E_INVAL)
    else Ok (- E_INVAL).

Definition file_testfd p (fd : Z) (r w : bool) st : res bool :=
    let! ret := fd2file p fd st in
    if negb (ret =? 0) then Ok false
    else
      let! f := file_at p fd st in
      if r && negb (readable f) then Ok false
      else if w && negb (writable f) then Ok false
      else Ok true.

  (** ** Opening, closing, duplicating *)

Definition file_open p (path : list Z) (open_flags : Z) st : res (Z * fstate F) :=
    let acc := Z.land open_flags O_ACCMODE in
    if acc =? O_ACCMODE then Ok (- E_INVAL, st)
    else
      let r := (acc =? O_RDONLY) || (acc =? O_RDWR) in
      let w := (acc =? O_WRONLY) || (acc =? O_RDWR) in
      let! (ret, i, st) := fd_array_alloc p NO_FD st in
      if negb (ret =? 0) then Ok (ret, st)
      else
        let! fs := get_files p st in
        let! (ret, n, v) := vfs_open (pwd fs) path open_flags (fvfs st) in
        let st := set_vfs st v in
        if negb (ret =? 0) then let! st := fd_array_free p i st in Ok (ret, st)
        else
          let! f := file_at p i st in
          let st := put_file p i (set_pos f 0) st in
          let! (ret, st) :=
            if has open_flags O_APPEND then
              let! (ret, stat, v) := vop_fstat n (fvfs st) in
              let st := set_vfs st v in
              if negb (ret =? 0) then
                let! v := vfs_close n (fvfs st) in
                let! st := fd_array_free p i (set_vfs st v) in
                Ok (ret, st)
              else
                let! f := file_at p i st in
                Ok (0, put_file p i (set_pos f (st_size stat)) st)
            else Ok (0, st) in
          if negb (ret =? 0) then Ok (ret, st)
          else
            let! f := file_at p i st in
            let! st := fd_array_open p i (put_file p i (set_modes (set_node f n) r w) st) in
            let! f := file_at p i st in
            Ok (File.fd f, st).

Definition file_close p (fd : Z) st : res (Z * fstate F) :=
    let! ret := fd2file p fd st in
    if negb (ret =? 0) then Ok (ret, st)
    else let! st := fd_array_close p fd st in Ok (0, st).

Definition file_dup p (fd1 fd2 : Z) st : res (Z * fstate F) :=
    let! ret := fd2file p fd1 st in
    if negb (ret =? 0) then Ok (ret, st)
    else
      let! (ret, i, st) := fd_array_alloc p fd2 st in
      if negb (ret =? 0) then Ok (ret, st)
      else
        let! st := fd_array_dup p i p fd1 st in
        let! f := file_at p i st in
        Ok (File.fd f, st).

  (** ** Operations that hold the file while they run

      Each acquires the entry, calls the inode and releases the entry; the
      call may sleep, so that other processes which share the table run
      between the two halves.  [_enter] is what precedes the call and
      [_leave] the rest. *)

  (** [ok]: the test of the access mode, if any. *)
Definition file_enter p (fd : Z) (ok : file -> bool) st : res (Z * fstate F) :=
    let! ret := fd2file p fd st in
    if negb (ret =? 0) then Ok (ret, st)
    else
      let! f := file_at p fd st in
      if negb (ok f) then Ok (- E_INVAL, st)
      else let! st := fd_array_acquire p fd st in Ok (0, st).

  (** The transfer of [file_read] and [file_write]: the return value,
      [*copied_store] and the memory object at [base]. *)
Definition file_rw_leave (op : Z -> iobuf -> vfs F -> res (Z * iobuf * vfs F)) p (fd : Z) (data : list Z) (base len : Z) st :
      res (Z * Z * list Z * fstate F) :=
    let! f := file_at p fd st in
    let! (ret, iob, v) := op (node f) (iobuf_init data base len (pos f)) (fvfs st) in
    let st := set_vfs st v in
    let copied := iobuf_used iob in
    let! f := file_at p fd st in
    let st := if bool_decide (status f = FD_OPENED) then put_file p fd (set_pos f (s32 (pos f + copied))) st else st in
    let! st := fd_array_release p fd st in
    Ok (ret, copied, io_data iob, st).

Definition file_read p (fd : Z) (data : list Z) (base len : Z) st : res (Z * Z * list Z * fstate F) :=
    let! (ret, st) := file_enter p fd readable st in
    if negb (ret =? 0) then Ok (ret, 0, data, st) else file_rw_leave vop_read p fd data base len st.

Definition file_write p (fd : Z) (data : list Z) (base len : Z) st : res (Z * Z * list Z * fstate F) :=
    let! (ret, st) := file_enter p fd writable st in
    if negb (ret =? 0) then Ok (ret, 0, data, st) else file_rw_leave vop_write p fd data base len st.

Definition file_seek_leave p (fd pos whence : Z) st : res (Z * fstate F) :=
    let! f := file_at p fd st in
    let! (ret, pos, st) :=
      if whence =? LSEEK_SET then Ok (0, pos, st)
      else if whence =? LSEEK_CUR then Ok (0, s32 (pos + File.pos f), st)
      else if whence =? LSEEK_END then
        let! (ret, stat, v) := vop_fstat (node f) (fvfs st) in
        Ok (ret, if ret =? 0 then s32 (pos + st_size stat) else pos, set_vfs st v)
      else Ok (- E_INVAL, pos, st) in
    let! (ret, st) :=
      if ret =? 0 then
        let! (ret, v) := vop_tryseek (node f) pos (fvfs st) in
        let st := set_vfs st v in
        if ret =? 0 then let! f := file_at p fd st in Ok (ret, put_file p fd (set_pos f pos) st) else Ok (ret, st)
      else Ok (ret, st) in
    let! st := fd_array_release p fd st in
    Ok (ret, st).

Definition file_seek p (fd pos whence : Z) st : res (Z * fstate F) :=
    let! (ret, st) := file_enter p fd (fun _ => true) st in
    if negb (ret =? 0) then Ok (ret, st) else file_seek_leave p fd pos whence st.

Definition file_fstat_leave p (fd : Z) st : res (Z * stat * fstate F) :=
    let! f := file_at p fd st in
    let! (ret, stat, v) := vop_fstat (node f) (fvfs st) in
    let! st := fd_array_release p fd (set_vfs st v) in
    Ok (ret, stat, st).

Definition no_stat : stat := mk_stat 0 0 0 0.

Definition file_fstat p (fd : Z) st : res (Z * stat * fstate F) :=
    let! (ret, st) := file_enter p fd (fun _ => true) st in
    if negb (ret =? 0) then Ok (ret, no_stat, st) else file_fstat_leave p fd st.

Definition file_fsync_leave p (fd : Z) st : res (Z * fstate F) :=
    let! f := file_at p fd st in
    let! (ret, v) := vop_fsync (node f) (fvfs st) in
    let! st := fd_array_release p fd (set_vfs st v) in
    Ok (ret, st).

Definition file_fsync p (fd : Z) st : res (Z * fstate F) :=
    let! (ret, st) := file_enter p fd (fun _ => true) st in
    if negb (ret =? 0) then Ok (ret, st) else file_fsync_leave p fd st.

  (** The directory entry: its offset and the bytes of its name. *)
Definition file_getdirentry_leave p (fd offset : Z) (name : list Z) st : res (Z * Z * list Z * fstate F) :=
    let! f := file_at p fd st in
    let! (ret, iob, v) := vop_getdirentry (node f) (iobuf_init name 0 256 offset) (fvfs st) in
    let! st := fd_array_release p fd (set_vfs st v) in
    Ok (ret, if ret =? 0 then s32 (offset + iobuf_used iob) else offset, io_data iob, st).

Definition file_getdirentry p (fd offset : Z) (name : list Z) st : res (Z * Z * list Z * fstate F) :=
    let! (ret, st) := file_enter p fd (fun _ => true) st in
    if negb (ret =? 0) then Ok (ret, offset, name, st) else file_getdirentry_leave p fd offset name st.

  (** [vfs_chdir] for the process of table [p], which holds its directory. *)
Definition file_chdir p (path : list Z) st : res (Z * fstate F) :=
    let! fs := get_files p st in
    let! (ret, dir, v) := vfs_chdir (pwd fs) path (fvfs st) in
    Ok (ret, put_files p (set_pwd fs dir) (set_vfs st v)).

  (** ** The tables (fs.c) *)

  (** [addr]: the address [kmalloc] returns, or NULL; [raw]: what is there. *)
Definition files_create (addr : Z) (raw : list file) st : Z * fstate F :=
    if addr =? 0 then (0, st) else (addr, put_files addr (mk_files 0 (fd_array_init raw) 0) st).

  (** Close the entries from [i] on, [n] of them. *)
Fixpoint close_entries (n : nat) p i st : res (fstate F) :=
    match n with
    | O => Ok st
    | Datatypes.S n =>
        let! f := file_at p i st in
        let! st := if bool_decide (status f = FD_OPENED) then fd_array_close p i st else Ok st in
        close_entries n p (i + 1) st
    end.

  (** The loop of [files_destroy], which also insists that every entry is free. *)
Fixpoint destroy_entries (n : nat) p i st : res (fstate F) :=
    match n with
    | O => Ok st
    | Datatypes.S n =>
        let! f := file_at p i st in
        let! st := if bool_decide (status f = FD_OPENED) then fd_array_close p i st else Ok st in
        let! f := file_at p i st in
        assert! bool_decide (status f = FD_NONE) ;;
        destroy_entries n p (i + 1) st
    end.

Definition files_destroy p st : res (fstate F) :=
    let! fs := get_files p st in
    assert! files_count fs =? 0 ;;
    let! st :=
      if negb (pwd fs =? 0) then let! (_, v) := inode_ref_dec (pwd fs) (fvfs st) in Ok (set_vfs st v) else Ok st in
    let! st := destroy_entries (Z.to_nat FILES_STRUCT_NENTRY) p 0 st in
    Ok (mk_fstate (fvfs st) (delete p (ftabs st))).

  (** Descriptors 0 and 1 stay open. *)
Definition files_closeall p st : res (fstate F) :=
    let! fs := get_files p st in
    assert! 0 <? files_count fs ;;
    close_entries (Z.to_nat (FILES_STRUCT_NENTRY - 2)) p 2 st.

Fixpoint dup_entries (n : nat) p q i st : res (fstate F) :=
    match n with
    | O => Ok st
    | Datatypes.S n =>
        let! from := file_at q i st in
        let! st :=
          if bool_decide (status from = FD_OPENED) then
            let! to := file_at p i st in
            fd_array_dup p i q i (put_file p i (set_status to FD_INIT) st)
          else Ok st in
        dup_entries n p q (i + 1) st
    end.

  (** [dup_files(to, from)]. *)
Definition dup_files p q st : res (Z * fstate F) :=
    let! to := get_files p st in
    let! from := get_files q st in
    assert! (files_count to =? 0) && (0 <? files_count from) ;;
    let st := put_files p (set_pwd to (pwd from)) st in
    let! st :=
      if negb (pwd from =? 0) then let! (_, v) := inode_ref_inc (pwd from) (fvfs st) in Ok (set_vfs st v) else Ok st in
    let! st := dup_entries (Z.to_nat FILES_STRUCT_NENTRY) p q 0 st in
    Ok (0, st).

Definition files_count_inc p st : res (fstate F) :=
    let! fs := get_files p st in Ok (put_files p (set_files_count fs (files_count fs + 1)) st).

  (** ** Sharing and releasing a table (proc.c) *)

Definition CLONE_FS : Z := 0x800.

  (** The new process's table: the return value, [proc->filesp] and the state. *)
Definition copy_files (clone_flags : Z) p (addr : Z) (raw : list file) st : res (Z * Z * fstate F) :=
    let! _ := get_files p st in
    if has clone_flags CLONE_FS then let! st := files_count_inc p st in Ok (0, p, st)
    else
      let (q, st) := files_create addr raw st in
      if q =? 0 then Ok (- E_NO_MEM, 0, st)
      else
        let! (ret, st) := dup_files q p st in
        if negb (ret =? 0) then let! st := files_destroy q st in Ok (ret, 0, st)
        else let! st := files_count_inc q st in Ok (0, q, st).

Definition proc_put_files p st : res (fstate F) :=
    if p =? 0 then Ok st
    else
      let! fs := get_files p st in
      let st := put_files p (set_files_count fs (files_count fs - 1)) st in
      if files_count fs - 1 =? 0 then files_destroy p st else Ok st.
End File.
