(* ===== verification/Dev.v ===== *)
(** * Devices as inodes (kern/fs/devs/dev.c, dev_stdin.c, dev_stdout.c, dev_disk0.c)

    The table of operations of a device inode over the three drivers of the
    kernel, as an implementation of the interface [InodeOps].  The driver of
    the disk is a parameter ([BlockDev], for which [BlockDev] has two
    implementations), and so is the state the devices are part of ([HasDevs]):
    the devices alone here, with the simple file system in [SfsOps].  The
    console is the list of the characters printed.  A process that reads an empty input
    sleeps; [keys] is what wakes it, one after the other: a key, or the end of
    its life ([WT_INTERRUPTED]), also when the list is exhausted. *)
From S2P Require Import Prelude IoBuf BlockDev Vfs.

(** ** State *)

(** The functions that a [struct device] points to. *)
Inductive driver := DStdin | DStdout | DDisk0.

#[export] Instance driver_eq_dec : EqDecision driver.
Proof. solve_decision. Defined.

Record device := mk_device { dv_blocks : Z; dv_blocksize : Z; dv_driver : driver }.

#[export] Instance device_eq_dec : EqDecision device.
Proof. solve_decision. Defined.

(** What happens to a process that sleeps on the keyboard: these keys are
    pressed before it runs again, or it is killed. *)
Inductive wake := Keys (cs : list Z) | Killed.

(** The devices by the address of their inode, the variables of the drivers
    and the console. *)
Record devs (D : Type) := mk_devs {
  dev_info : gmap Z device; stdin_buffer : list Z; p_rpos : Z; p_wpos : Z;
  keys : list wake; console : list Z; disk : D }.
Arguments mk_devs {D}. Arguments dev_info {D}. Arguments stdin_buffer {D}. Arguments p_rpos {D}. Arguments p_wpos {D}.
Arguments keys {D}. Arguments console {D}. Arguments disk {D}.

Definition STDIN_BUFSIZE : Z := 4096.

Definition set_dev_info {D} (d : devs D) (m : gmap Z device) : devs D := mk_devs m (stdin_buffer d) (p_rpos d) (p_wpos d) (keys d) (console d) (disk d).
Definition set_stdin {D} (d : devs D) (b : list Z) (r w : Z) : devs D := mk_devs (dev_info d) b r w (keys d) (console d) (disk d).
Definition set_keys {D} (d : devs D) (k : list wake) : devs D := mk_devs (dev_info d) (stdin_buffer d) (p_rpos d) (p_wpos d) k (console d) (disk d).
Definition set_console {D} (d : devs D) (c : list Z) : devs D := mk_devs (dev_info d) (stdin_buffer d) (p_rpos d) (p_wpos d) (keys d) c (disk d).
Definition set_disk {D} (d : devs D) (k : D) : devs D := mk_devs (dev_info d) (stdin_buffer d) (p_rpos d) (p_wpos d) (keys d) (console d) k.
Definition set_fsd {F} (v : vfs F) (d : F) : vfs F := mk_vfs (inodes v) (bootfs_node v) (vdev_list v) d.

(** A state that the devices are part of. *)
Class HasDevs (F D : Type) := {
  get_devs : F -> devs D;
  put_devs : devs D -> F -> F;
  get_put d f : get_devs (put_devs d f) = d;
  put_get f : put_devs (get_devs f) f = f;
  put_put d e f : put_devs d (put_devs e f) = put_devs d f
}.

#[export] Instance devs_devs D : HasDevs (devs D) D.
Proof. by refine {| get_devs := fun d => d; put_devs := fun d _ => d |}. Defined.

Section Drivers.
  Context {D : Type} `{!BlockDev D}.
  Implicit Types d : devs D.

(** ** The standard input (dev_stdin.c) *)

(** A key arrives: the interrupt handler stores it; in a full buffer it takes
    the place of the oldest character. *)
Definition dev_stdin_write (c : Z) (d : devs D) : res (devs D) :=
  if negb (c =? 0) then
    let! b := mwrite (stdin_buffer d) (Z.rem (p_wpos d) STDIN_BUFSIZE) [c] in
    Ok (set_stdin d b (p_rpos d) (if s32 (p_wpos d - p_rpos d) <? STDIN_BUFSIZE then s32 (p_wpos d + 1) else p_wpos d))
  else Ok d.

Fixpoint dev_stdin_keys (cs : list Z) (d : devs D) : res (devs D) :=
  match cs with [] => Ok d | c :: cs => let! d := dev_stdin_write c d in dev_stdin_keys cs d end.

(** The loop of [dev_stdin_read] with [n] characters to go: the number read,
    the memory object and the devices.  [keys]: what happens while the
    reader sleeps; a NUL wakes nobody, and the end of the list is a kill. *)
Fixpoint dev_stdin_read (n : nat) (ret : Z) (buf : list Z) (p : Z) (d : devs D) : res (Z * list Z * devs D) :=
  match n with
  | O => Ok (ret, buf, d)
  | Datatypes.S n =>
      let take_one (d : devs D) :=
        let! c := mread (stdin_buffer d) (Z.rem (p_rpos d) STDIN_BUFSIZE) 1 in
        let! buf := mwrite buf p c in
        dev_stdin_read n (ret + 1) buf (p + 1) (set_stdin d (stdin_buffer d) (s32 (p_rpos d + 1)) (p_wpos d)) in
      if p_rpos d <? p_wpos d then take_one d
      else
        (fix sleep (ws : list wake) (d : devs D) : res (Z * list Z * devs D) :=
           match ws with
           | Keys cs :: ws =>
               let! d := dev_stdin_keys cs (set_keys d ws) in
               if p_rpos d <? p_wpos d then take_one d else sleep ws d
           | Killed :: ws => Ok (ret, buf, set_keys d ws)
           | [] => Ok (ret, buf, d)
           end) (keys d) d
  end.

Definition stdin_open (open_flags : Z) : Z := if negb (open_flags =? O_RDONLY) then - E_INVAL else 0.

Definition stdin_io (iob : iobuf) (write : bool) (d : devs D) : res (Z * iobuf * devs D) :=
  if negb write then
    let! (ret, buf, d) := dev_stdin_read (Z.to_nat (io_resid iob)) 0 (io_data iob) (io_base iob) d in
    let iob := set_io_data iob buf in
    Ok (ret, if 0 <? ret then mk_iobuf buf (io_base iob) (io_offset iob) (io_len iob) (io_resid iob - ret) else iob, d)
  else Ok (- E_INVAL, iob, d).

Definition stdin_device_init (node : Z) (d : devs D) : devs D :=
  set_stdin (set_dev_info d (<[node := mk_device 0 1 DStdin]> (dev_info d))) (stdin_buffer d) 0 0.

(** ** The standard output (dev_stdout.c) *)

Definition stdout_open (open_flags : Z) : Z := if negb (open_flags =? O_WRONLY) then - E_INVAL else 0.

(** The loop of [stdout_io]: [n] characters from position [p]. *)
Fixpoint stdout_loop (n : nat) (data : list Z) (p : Z) (d : devs D) : res (devs D) :=
  match n with
  | O => Ok d
  | Datatypes.S n =>
      let! c := mread data p 1 in
      stdout_loop n data (p + 1) (set_console d (console d ++ c))
  end.

Definition stdout_io (iob : iobuf) (write : bool) (d : devs D) : res (Z * iobuf * devs D) :=
  if write then
    let! d := stdout_loop (Z.to_nat (io_resid iob)) (io_data iob) (io_base iob) d in
    Ok (0, mk_iobuf (io_data iob) (io_base iob) (io_offset iob) (io_len iob) 0, d)
  else Ok (- E_INVAL, iob, d).

Definition stdout_device_init (node : Z) (d : devs D) : devs D :=
  set_dev_info d (<[node := mk_device 0 1 DStdout]> (dev_info d)).

(** ** Calling a driver (dev.h) *)

Definition dop_open (dev : device) (open_flags : Z) : Z :=
  match dv_driver dev with
  | DStdin => stdin_open open_flags
  | DStdout => stdout_open open_flags
  | DDisk0 => 0
  end.

Definition dop_close (dev : device) : Z := 0.

Definition dop_ioctl (dev : device) : Z := match dv_driver dev with DDisk0 => - E_UNIMP | _ => - E_INVAL end.

Definition dev_io (dev : device) (iob : iobuf) (write : bool) (d : devs D) : res (Z * iobuf * devs D) :=
  match dv_driver dev with
  | DStdin => stdin_io iob write d
  | DStdout => stdout_io iob write d
  | DDisk0 => let! (ret, iob, k) := dop_io (disk d) iob write in Ok (ret, iob, set_disk d k)
  end.
End Drivers.

(** ** The operations of a device inode (dev.c) *)

Definition S_IFCHR : Z := 0x4000.
Definition S_IFBLK : Z := 0x5000.

(** The number of the table [dev_node_ops]. *)
Definition dev_node_ops : Z := 1.

Section Dev.
  Context {F D : Type} `{!BlockDev D, !HasDevs F D}.
  Implicit Types (v : vfs F) (node : Z).

Definition devs_of v : devs D := get_devs (fsd v).
Definition set_devs v (d : devs D) : vfs F := set_fsd v (put_devs d (fsd v)).

  (** [vop_info(node, device)]. *)
Definition dev_vop_info node v : res device :=
    assert! negb (node =? 0) ;;
    let! i := get_inode node v in
    assert! in_type i =? inode_type_device_info ;;
    rget (dev_info (devs_of v) !! node).

Definition dev_open node (open_flags : Z) v : res (Z * vfs F) :=
    if has open_flags O_CREAT || has open_flags O_TRUNC || has open_flags O_EXCL || has open_flags O_APPEND then Ok (- E_INVAL, v)
    else let! dev := dev_vop_info node v in Ok (dop_open dev open_flags, v).

Definition dev_close node v : res (Z * vfs F) := let! dev := dev_vop_info node v in Ok (dop_close dev, v).

Definition dev_rw (write : bool) node (iob : iobuf) v : res (Z * iobuf * vfs F) :=
    let! dev := dev_vop_info node v in
    let! (ret, iob, d) := dev_io dev iob write (devs_of v) in
    Ok (ret, iob, set_devs v d).
Definition dev_read := dev_rw false.
Definition dev_write := dev_rw true.

Definition dev_ioctl node v : res (Z * vfs F) := let! dev := dev_vop_info node v in Ok (dop_ioctl dev, v).

Definition dev_gettype node v : res (Z * Z * vfs F) :=
    let! dev := dev_vop_info node v in Ok (0, if 0 <? dv_blocks dev then S_IFBLK else S_IFCHR, v).

  (** [vop_gettype] of a device inode is [dev_gettype]. *)
Definition dev_fstat node v : res (Z * stat * vfs F) :=
    let! (ret, mode, v) := dev_gettype node v in
    if negb (ret =? 0) then Ok (ret, mk_stat mode 0 0 0, v)
    else
      let! dev := dev_vop_info node v in
      Ok (0, mk_stat mode 1 (dv_blocks dev) (u32 (dv_blocks dev * dv_blocksize dev)), v).

Definition dev_tryseek node (pos : Z) v : res (Z * vfs F) :=
    let! dev := dev_vop_info node v in
    if 0 <? dv_blocks dev then
      assert! dv_blocksize dev =? 4096 ;;
      if (Z.land pos 0xfff =? 0) && ((0 <=? pos) && (u32 pos <? u32 (dv_blocks dev * dv_blocksize dev))) then Ok (0, v)
      else Ok (- E_INVAL, v)
    else Ok (- E_INVAL, v).

Definition dev_lookup node (path : list Z) v : res (Z * Z * vfs F) :=
    if negb (bool_decide (path = [])) then Ok (- E_NOENT, 0, v)
    else let! (_, v) := inode_ref_inc node v in Ok (0, node, v).
End Dev.

(** The table [dev_node_ops]; no file system is mounted. *)
Definition dev_op {A} (f : A) (ops : Z) : option A := if ops =? dev_node_ops then Some f else None.

#[export] Instance dev_inode_ops {D} `{!BlockDev D} : InodeOps (devs D) := {|
  i_open := dev_op dev_open; i_close := dev_op dev_close; i_read := dev_op dev_read; i_write := dev_op dev_write;
  i_fstat := dev_op dev_fstat; i_fsync := fun _ => None; i_namefile := fun _ => None; i_getdirentry := fun _ => None;
  i_reclaim := fun _ => None; i_gettype := dev_op dev_gettype; i_tryseek := dev_op dev_tryseek; i_truncate := fun _ => None;
  i_create := fun _ => None; i_lookup := dev_op dev_lookup;
  fs_get_root := fun _ _ => Err WildAccess; fs_sync := fun _ _ => Err WildAccess;
  fs_unmount := fun _ _ => Err WildAccess; fs_cleanup := fun _ _ => Err WildAccess |}.

(** ** Registering the devices *)

Section Init.
  Context {F D : Type} `{!BlockDev D, !HasDevs F D}.
  Implicit Types (v : vfs F).

  (** [addr]: the address [kmalloc] returns. *)
Definition dev_create_inode (addr : Z) v : res (Z * vfs F) :=
    let (node, v) := __alloc_inode addr inode_type_device_info v in
    if negb (node =? 0) then let! v := inode_init node dev_node_ops 0 v in Ok (node, v) else Ok (node, v).

  (** [init]: the driver's own initialisation; [ok]: whether the allocations
      of [vfs_add_dev] succeed. *)
Definition dev_init_one (ok : bool) (addr : Z) (init : Z -> devs D -> res (devs D)) (name : list Z) (mountable : bool) v : res (vfs F) :=
    let! (node, v) := dev_create_inode addr v in
    if node =? 0 then Err KPanic
    else
      let! d := init node (devs_of v) in
      let! (ret, v) := vfs_add_dev ok ok name node mountable (set_devs v d) in
      if negb (ret =? 0) then Err KPanic else Ok v.

Definition name_stdin : list Z := [115; 116; 100; 105; 110].
Definition name_stdout : list Z := [115; 116; 100; 111; 117; 116].
Definition name_disk0 : list Z := [100; 105; 115; 107; 48].

Definition dev_init_stdin (ok : bool) (addr : Z) := dev_init_one ok addr (fun node d => Ok (stdin_device_init node d)) name_stdin false.
Definition dev_init_stdout (ok : bool) (addr : Z) := dev_init_one ok addr (fun node d => Ok (stdout_device_init node d)) name_stdout false.
  (** [dinit]: the initialisation of the disk's driver, [disk0_device_init]. *)
Definition dev_init_disk0 (ok : bool) (addr : Z) (dinit : D -> res D) :=
    dev_init_one ok addr (fun node d =>
      let! k := dinit (disk d) in
      Ok (set_disk (set_dev_info d (<[node := mk_device (d_blocks k) (d_blocksize k) DDisk0]> (dev_info d))) k)) name_disk0 true.

Definition dev_init (ok : bool) (a1 a2 a3 : Z) (dinit : D -> res D) v : res (vfs F) :=
    let! v := dev_init_stdin ok a1 v in
    let! v := dev_init_stdout ok a2 v in
    dev_init_disk0 ok a3 dinit v.
End Init.
