(* ===== verification/VfsInv.v ===== *)
(** * Reference counting in the virtual file system

    What the layer below promises ([InodeLaws], stated for any implementation
    of the interface [InodeOps]), and what the operations of [Vfs] do to the
    reference and open counts: every one moves exactly the counts it should,
    and no assertion of inode.c fails. *)
From S2P Require Import Prelude IoBuf Vfs.

(** ** Counts *)

Section Counts.
  Context {F : Type}.
  Implicit Types (v : vfs F) (n : Z).

Definition refc v n : Z := match inodes v !! n with Some i => ref_count i | None => 0 end.
Definition openc v n : Z := match inodes v !! n with Some i => open_count i | None => 0 end.
Definition opsof v n : Z := match inodes v !! n with Some i => in_ops i | None => 0 end.
Definition fsof v n : Z := match inodes v !! n with Some i => in_fs i | None => 0 end.
Definition alive v n : Prop := 0 < refc v n.

  (** References that the VFS itself holds: the boot file system and the
      device list. *)
Definition base v n : Z :=
    (if bool_decide (bootfs_node v = n /\ n <> 0) then 1 else 0) +
    Z.of_nat (length (filter (fun d => devnode d = n /\ n <> 0) (vdev_list v))).

Definition one n : Z -> Z := fun m => if m =? n then 1 else 0.
Definition none : Z -> Z := fun _ => 0.

  (** The counts move by [r] and [w]; everything else stays. *)
Record moves v (r w : Z -> Z) v' : Prop := {
    mv_ref : forall n, refc v' n = refc v n + r n;
    mv_open : forall n, openc v' n = openc v n + w n;
    mv_ops : forall n, alive v n -> alive v' n -> opsof v' n = opsof v n /\ fsof v' n = fsof v n;
    mv_boot : bootfs_node v' = bootfs_node v;
    mv_devs : vdev_list v' = vdev_list v
  }.

Lemma moves_refl v : moves v none none v.
  Proof. split; unfold none; (done || (intros; lia)). Qed.

Lemma one_eq n : one n n = 1.
  Proof. unfold one. by rewrite Z.eqb_refl. Qed.
Lemma one_ne n m : m <> n -> one n m = 0.
  Proof. unfold one. intros H. by destruct (Z.eqb_spec m n). Qed.
Lemma one_range n m : 0 <= one n m <= 1.
  Proof. unfold one. destruct (m =? n); lia. Qed.

Lemma base_nonneg v n : 0 <= base v n.
  Proof. unfold base. case_bool_decide; lia. Qed.

Lemma moves_base v r w v' n : moves v r w v' -> base v' n = base v n.
  Proof. intros [_ _ _ Hb Hd]. unfold base. by rewrite Hb, Hd. Qed.

Lemma moves_ext v r w v' r' w' : moves v r w v' -> (forall n, r n = r' n) -> (forall n, w n = w' n) -> moves v r' w' v'.
  Proof. intros [Hr Hw ? ? ?] E1 E2. split; try done; intros n; [by rewrite Hr, E1|by rewrite Hw, E2]. Qed.

  (** In between, the inodes that live before and after must live too, or the
      table of operations could change. *)
Lemma moves_trans v r w v1 r' w' v2 : moves v r w v1 -> moves v1 r' w' v2 ->
    (forall n, alive v n -> alive v2 n -> alive v1 n) ->
    moves v (fun n => r n + r' n) (fun n => w n + w' n) v2.
  Proof.
    intros [Hr Hw Ho Hb Hd] [Hr' Hw' Ho' Hb' Hd'] Hal. split; try congruence.
    - intros n. rewrite Hr', Hr. lia.
    - intros n. rewrite Hw', Hw. lia.
    - intros n Ha Ha'. destruct (Ho n Ha) as [E1 E2]; [auto|]. destruct (Ho' n) as [E1' E2']; [auto|done|]. split; congruence.
  Qed.

Lemma moves_up v r w v1 r' w' v2 : moves v r w v1 -> moves v1 r' w' v2 -> (forall n, 0 <= r n) ->
    moves v (fun n => r n + r' n) (fun n => w n + w' n) v2.
  Proof.
    intros H1 H2 Hr. eapply moves_trans; [done|done|]. intros n Ha _. unfold alive in *.
    rewrite (mv_ref _ _ _ _ H1). specialize (Hr n). lia.
  Qed.

Lemma moves_down v r w v1 r' w' v2 : moves v r w v1 -> moves v1 r' w' v2 -> (forall n, r' n <= 0) ->
    moves v (fun n => r n + r' n) (fun n => w n + w' n) v2.
  Proof.
    intros H1 H2 Hr. eapply moves_trans; [done|done|]. intros n _ Ha. unfold alive in *.
    rewrite (mv_ref _ _ _ _ H2) in Ha. specialize (Hr n). lia.
  Qed.

Lemma alive_get v n : alive v n -> exists i, inodes v !! n = Some i /\ ref_count i = refc v n /\ open_count i = openc v n /\ in_ops i = opsof v n.
  Proof. unfold alive, refc, openc, opsof. destruct (inodes v !! n) as [i|]; [eauto|lia]. Qed.

Lemma alive_fs v n i : inodes v !! n = Some i -> fsof v n = in_fs i.
  Proof. intros E. unfold fsof. by rewrite E. Qed.

  (** Changing the counts of one inode. *)
Lemma put_moves v n i i' : inodes v !! n = Some i -> in_ops i' = in_ops i -> in_fs i' = in_fs i ->
    moves v (fun m => if m =? n then ref_count i' - ref_count i else 0)
      (fun m => if m =? n then open_count i' - open_count i else 0) (put_inode n i' v).
  Proof.
    intros Hi Hops Hfs. split; try done; intros m; unfold refc, openc, opsof, fsof, alive; cbn [inodes put_inode set_inodes];
      (destruct (Z.eqb_spec m n) as [->|Hne]; [rewrite lookup_insert_eq, Hi|rewrite lookup_insert_ne by done]);
      (lia || done).
  Qed.
End Counts.

(** ** What the layer below promises *)

(** A result, and what holds of it and of the state left. *)
Definition runs {F A} (m : res (A * vfs F)) (P : A -> vfs F -> Prop) : Prop :=
  exists a v', m = Ok (a, v') /\ P a v'.

Section Laws.
  Context {F : Type} `{!InodeOps F}.

  (** What [inode_check] asks of the counts. *)
Definition counted (v : vfs F) (n : Z) : Prop := 0 <= openc v n <= refc v n /\ refc v n < MAX_INODE_COUNT.

  (** A file system that the table or the device list knows. *)
Definition fs_known (v : vfs F) (fs : Z) : Prop :=
    fs <> 0 /\ ((exists d, d ∈ vdev_list v /\ dev_fs d = fs) \/
                (exists n i, inodes v !! n = Some i /\ 0 < ref_count i /\ in_fs i = fs)).

Definition dirlike (v : vfs F) (n : Z) : Prop := is_Some (i_lookup (opsof v n)).
End Laws.

(** [vinv]: the layer is in a consistent state; it does not depend on counts.
    [can_read] and the like: what the layer asks of a transfer or a seek;
    [can_lookup]: of a path, relative to an inode; [can_root]: of the state in
    which the root of a file system is asked for.  An operation on a live inode returns, and neither moves a count nor
    changes a table; [vop_lookup] and [fsop_get_root] add one reference to the
    inode they hand back; an inode without [vop_reclaim] is held by the device
    list for ever. *)
Class InodeLaws (F : Type) `{!InodeOps F} := {
  vinv : vfs F -> Prop;
  can_read : vfs F -> Z -> iobuf -> Prop;
  can_write : vfs F -> Z -> iobuf -> Prop;
  can_getdirentry : vfs F -> Z -> iobuf -> Prop;
  can_seek : vfs F -> Z -> Z -> Prop;
  can_lookup : list Z -> Prop;
  can_root : vfs F -> Prop;
  vinv_null v : vinv v -> inodes v !! 0 = None;
  vinv_put v n i i' : vinv v -> inodes v !! n = Some i ->
    in_type i' = in_type i -> in_fs i' = in_fs i -> in_ops i' = in_ops i -> vinv (put_inode n i' v);
  can_root_put v n i i' : vinv v -> can_root v -> inodes v !! n = Some i ->
    in_type i' = in_type i -> in_fs i' = in_fs i -> in_ops i' = in_ops i -> can_root (put_inode n i' v);
  vinv_ops v n : vinv v -> alive v n -> opsof v n <> 0 /\ is_Some (i_open (opsof v n)) /\
    is_Some (i_close (opsof v n)) /\ is_Some (i_fstat (opsof v n)) /\ is_Some (i_gettype (opsof v n)) /\
    (i_reclaim (opsof v n) = None -> 0 < base v n);
  vinv_vdev v d : vinv v -> d ∈ vdev_list v -> mountable d = false -> dev_fs d = 0 ->
    devnode d <> 0 /\ dirlike v (devnode d);
  law_open v n f fl : vinv v -> alive v n -> i_open (opsof v n) = Some f ->
    runs (f n fl v) (fun _ v' => vinv v' /\ moves v none none v');
  law_close v n f : vinv v -> alive v n -> counted v n -> i_close (opsof v n) = Some f ->
    runs (f n v) (fun _ v' => vinv v' /\ moves v none none v');
  law_read v n f iob : vinv v -> alive v n -> i_read (opsof v n) = Some f -> can_read v n iob ->
    runs (f n iob v) (fun a v' => iob_next iob a.2 /\ vinv v' /\ moves v none none v');
  law_write v n f iob : vinv v -> alive v n -> i_write (opsof v n) = Some f -> can_write v n iob ->
    runs (f n iob v) (fun a v' => (iob_next iob a.2 /\ io_data a.2 = io_data iob) /\ vinv v' /\ moves v none none v');
  law_getdirentry v n f iob : vinv v -> alive v n -> i_getdirentry (opsof v n) = Some f -> can_getdirentry v n iob ->
    runs (f n iob v) (fun a v' => iob_next iob a.2 /\ vinv v' /\ moves v none none v');
  law_fstat v n f : vinv v -> alive v n -> counted v n -> i_fstat (opsof v n) = Some f ->
    runs (f n v) (fun _ v' => vinv v' /\ moves v none none v' /\ forall m pos, can_seek v m pos -> can_seek v' m pos);
  law_fsync v n f : vinv v -> alive v n -> i_fsync (opsof v n) = Some f ->
    runs (f n v) (fun _ v' => vinv v' /\ moves v none none v');
  law_gettype v n f : vinv v -> alive v n -> i_gettype (opsof v n) = Some f ->
    runs (f n v) (fun a v' => vinv v' /\ moves v none none v' /\ (a.1 = 0 -> S_ISDIR a.2 = true -> dirlike v n /\ fsof v n <> 0));
  law_tryseek v n f pos : vinv v -> alive v n -> counted v n -> i_tryseek (opsof v n) = Some f -> can_seek v n pos ->
    runs (f n pos v) (fun _ v' => vinv v' /\ moves v none none v');
  law_truncate v n f : vinv v -> alive v n -> i_truncate (opsof v n) = Some f ->
    runs (f n 0 v) (fun _ v' => vinv v' /\ moves v none none v');
  law_lookup v n f path : vinv v -> alive v n -> i_lookup (opsof v n) = Some f -> can_lookup path ->
    runs (f n path v) (fun a v' => vinv v' /\
      if a.1 =? 0 then a.2 <> 0 /\ moves v (one a.2) none v' else moves v none none v');
  law_get_root v fs : vinv v -> fs_known v fs -> can_root v ->
    runs (fs_get_root fs v) (fun r v' => vinv v' /\ r <> 0 /\ moves v (one r) none v' /\ dirlike v' r);
  law_reclaim v n i f : vinv v -> inodes v !! n = Some i -> ref_count i = 0 -> open_count i = 0 ->
    i_reclaim (in_ops i) = Some f -> runs (f n v) (fun _ v' => vinv v' /\ moves v none none v')
}.

(** ** The state while references are out

    [u n] references to inode [n] are accounted for above the VFS, and [o n]
    opens. *)
Section VfsInv.
  Context {F : Type} `{!InodeOps F, !InodeLaws F}.
  Implicit Types (v : vfs F) (n : Z) (u o : Z -> Z).

Record vgood v u o : Prop := {
    vg_inv : vinv v;
    vg_open : forall n, openc v n = o n;
    vg_ref : forall n, u n + base v n <= refc v n;
    vg_le : forall n, 0 <= o n <= u n;
    vg_room : forall n, refc v n < MAX_INODE_COUNT
  }.

Lemma vgood_moves v u o r w v' u' o' : vgood v u o -> moves v r w v' -> vinv v' ->
    (forall n, u' n <= u n + r n) -> (forall n, o' n = o n + w n) -> (forall n, 0 <= o' n <= u' n) ->
    (forall n, refc v n + r n < MAX_INODE_COUNT) -> vgood v' u' o'.
  Proof.
    intros [Hv Ho Hr Hle Hroom] Hm Hv' Hu Hw Hle' Hroom'. pose proof (moves_base v r w v') as Hb.
    destruct Hm as [Hmr Hmo Hmops Hmb Hmd]. split; try done.
    - intros n. by rewrite Hmo, Ho, Hw.
    - intros n. rewrite Hmr, Hb by done. specialize (Hr n). specialize (Hu n). lia.
    - intros n. rewrite Hmr. apply Hroom'.
  Qed.

Lemma refc_nonneg v u o n : vgood v u o -> 0 <= refc v n.
  Proof. intros Hg. pose proof (vg_ref _ _ _ Hg n). pose proof (vg_le _ _ _ Hg n). pose proof (base_nonneg v n). lia. Qed.

Lemma held_alive v u o n : vgood v u o -> 0 < u n -> alive v n.
  Proof. intros Hg Hu. pose proof (vg_ref _ _ _ Hg n). pose proof (base_nonneg v n). unfold alive. lia. Qed.

Lemma alive_ne0 v u o n : vgood v u o -> alive v n -> n <> 0.
  Proof. intros Hg Ha ->. destruct (alive_get v 0 Ha) as (i & E & _). by rewrite (vinv_null v (vg_inv _ _ _ Hg)) in E. Qed.

Lemma get_inode_Ok v n i : n <> 0 -> inodes v !! n = Some i -> get_inode n v = Ok i.
  Proof. intros Hn Hi. unfold get_inode. destruct (Z.eqb_spec n 0); [done|]. by rewrite Hi. Qed.

Lemma vop_get {A} (sel : Z -> option A) v n i f : n <> 0 -> inodes v !! n = Some i -> in_ops i <> 0 ->
    sel (in_ops i) = Some f -> 0 <= open_count i <= ref_count i -> ref_count i < MAX_INODE_COUNT ->
    vop sel n v = Ok f.
  Proof.
    intros Hn Hi Hops Hf Hc Hm. unfold vop. destruct (Z.eqb_spec n 0); [done|]. cbn [negb rassert rbind].
    rewrite (get_inode_Ok v n i Hn Hi). cbn [rbind]. destruct (Z.eqb_spec (in_ops i) 0); [done|].
    rewrite bool_decide_true by (rewrite Hf; done). cbn [negb andb rassert rbind].
    assert (Hk : inode_check i = true).
    { unfold inode_check. destruct (Z.leb_spec (open_count i) (ref_count i)), (Z.leb_spec 0 (open_count i)),
        (Z.ltb_spec (ref_count i) MAX_INODE_COUNT), (Z.ltb_spec (open_count i) MAX_INODE_COUNT); (done || lia). }
    rewrite Hk. cbn [rassert rbind]. by rewrite Hf.
  Qed.

Lemma vgood_counted v u o n : vgood v u o -> counted v n.
  Proof.
    intros Hg. pose proof (vg_le _ _ _ Hg n). pose proof (vg_ref _ _ _ Hg n). pose proof (base_nonneg v n). pose proof (vg_room _ _ _ Hg n).
    unfold counted. rewrite (vg_open _ _ _ Hg). lia.
  Qed.

Lemma vop_Ok {A} (sel : Z -> option A) v u o n f : vgood v u o -> alive v n -> sel (opsof v n) = Some f -> vop sel n v = Ok f.
  Proof.
    intros Hg Ha Hf. destruct (alive_get v n Ha) as (i & Hi & Er & Eo & Et).
    destruct (vinv_ops v n (vg_inv _ _ _ Hg) Ha) as [Hops _]. pose proof (vg_le _ _ _ Hg n). pose proof (vg_ref _ _ _ Hg n).
    pose proof (base_nonneg v n). pose proof (vg_room _ _ _ Hg n). rewrite <- (vg_open _ _ _ Hg) in *.
    eapply vop_get; rewrite ?Er, ?Eo, ?Et; try done; [by eapply alive_ne0|lia].
  Qed.

  (** An operation that moves no count. *)
Lemma neutral_good v u o v' : vgood v u o -> vinv v' -> moves v none none v' -> vgood v' u o.
  Proof.
    intros Hg Hv Hm. eapply vgood_moves; [exact Hg|exact Hm|done|..]; unfold none; intros n; try lia.
    - apply (vg_le _ _ _ Hg).
    - pose proof (vg_room _ _ _ Hg n). lia.
  Qed.

  (** ** The counts of one inode *)

Lemma ref_inc_Ok v u o n : vgood v u o -> alive v n -> refc v n + 1 < MAX_INODE_COUNT ->
    runs (inode_ref_inc n v) (fun _ v' => moves v (one n) none v' /\ vgood v' (fun m => u m + one n m) o).
  Proof.
    intros Hg Ha Hroom. destruct (alive_get v n Ha) as (i & Hi & Er & _). unfold inode_ref_inc.
    rewrite (get_inode_Ok v n i) by (done || by eapply alive_ne0). cbn [rbind]. eexists _, _. split; [done|].
    assert (Hm : moves v (one n) none (put_inode n (set_ref i (ref_count i + 1)) v)).
    { eapply moves_ext; [by apply (put_moves v n i)|..]; intros m; unfold one, none; cbn; destruct (m =? n); lia. }
    split; [done|]. eapply vgood_moves; [exact Hg|exact Hm|by eapply vinv_put; [apply Hg|..]|..]; intros m; cbn beta.
    - lia.
    - unfold none. lia.
    - pose proof (vg_le _ _ _ Hg m). pose proof (one_range n m). lia.
    - pose proof (vg_room _ _ _ Hg m). unfold one. destruct (Z.eqb_spec m n) as [->|]; lia.
  Qed.

Lemma open_inc_Ok v u o n : vgood v u o -> o n < u n ->
    runs (inode_open_inc n v) (fun _ v' => moves v none (one n) v' /\ vgood v' u (fun m => o m + one n m)).
  Proof.
    intros Hg Hlt. assert (Ha : alive v n) by (pose proof (vg_le _ _ _ Hg n); eapply held_alive; [done|lia]).
    destruct (alive_get v n Ha) as (i & Hi & _ & Eo & _). unfold inode_open_inc.
    rewrite (get_inode_Ok v n i) by (done || by eapply alive_ne0). cbn [rbind]. eexists _, _. split; [done|].
    assert (Hm : moves v none (one n) (put_inode n (set_open i (open_count i + 1)) v)).
    { eapply moves_ext; [by apply (put_moves v n i)|..]; intros m; unfold one, none; cbn; destruct (m =? n); lia. }
    split; [done|]. eapply vgood_moves; [exact Hg|exact Hm|by eapply vinv_put; [apply Hg|..]|..]; intros m; cbn beta.
    - unfold none. lia.
    - done.
    - pose proof (vg_le _ _ _ Hg m). unfold one. destruct (Z.eqb_spec m n) as [->|]; lia.
    - pose proof (vg_room _ _ _ Hg m). unfold none. lia.
  Qed.

Lemma open_dec_Ok v u o n : vgood v u o -> 0 < o n ->
    runs (inode_open_dec n v) (fun _ v' => moves v none (fun m => - one n m) v' /\ vgood v' u (fun m => o m - one n m)).
  Proof.
    intros Hg Hlt. pose proof (vg_le _ _ _ Hg n) as Hle.
    assert (Ha : alive v n) by (eapply held_alive; [done|lia]).
    destruct (alive_get v n Ha) as (i & Hi & Er & Eo & Et). rewrite (vg_open _ _ _ Hg) in Eo. unfold inode_open_dec.
    rewrite (get_inode_Ok v n i) by (done || by eapply alive_ne0). cbn [rbind].
    destruct (Z.ltb_spec 0 (open_count i)); [|lia]. cbn [rassert rbind].
    set (v1 := put_inode n (set_open i (open_count i - 1)) v).
    assert (Hm : moves v none (fun m => - one n m) v1).
    { eapply moves_ext; [by apply (put_moves v n i)|..]; intros m; unfold one, none; cbn; destruct (m =? n); lia. }
    assert (Hg1 : vgood v1 u (fun m => o m - one n m)).
    { eapply vgood_moves; [exact Hg|exact Hm|by eapply vinv_put; [apply Hg|..]|..]; intros m; cbn beta.
      - unfold none. lia.
      - lia.
      - pose proof (vg_le _ _ _ Hg m). unfold one. destruct (Z.eqb_spec m n) as [->|]; lia.
      - pose proof (vg_room _ _ _ Hg m). unfold none. lia. }
    destruct (Z.eqb_spec (open_count i - 1) 0); [|eexists _, _; split; [done|]; by split].
    assert (Ha1 : alive v1 n) by (eapply held_alive; [done|lia]).
    destruct (vinv_ops v1 n (vg_inv _ _ _ Hg1) Ha1) as (_ & _ & [f Hf] & _).
    unfold vop_close. rewrite (vop_Ok i_close v1 u _ n f Hg1 Ha1 Hf). cbn [rbind].
    destruct (law_close v1 n f (vg_inv _ _ _ Hg1) Ha1 (vgood_counted _ _ _ n Hg1) Hf) as (ret & v2 & E & Hv2 & Hm2). rewrite E. cbn [rbind].
    eexists _, v2. split; [done|]. split.
    - eapply moves_ext; [eapply moves_trans; [exact Hm|exact Hm2|]|..]; unfold none; [|intros; lia..].
      intros m _ Ha2. unfold alive in *. rewrite (mv_ref _ _ _ _ Hm2) in Ha2. unfold none in Ha2. lia.
    - by eapply neutral_good.
  Qed.

Lemma ref_dec_Ok v u o n : vgood v u o -> o n < u n ->
    runs (inode_ref_dec n v) (fun _ v' => moves v (fun m => - one n m) none v' /\ vgood v' (fun m => u m - one n m) o).
  Proof.
    intros Hg Hlt. pose proof (vg_le _ _ _ Hg n) as Hle. pose proof (vg_ref _ _ _ Hg n) as Href. pose proof (base_nonneg v n) as Hb0.
    assert (Ha : alive v n) by (eapply held_alive; [done|lia]).
    destruct (alive_get v n Ha) as (i & Hi & Er & Eo & Et). rewrite (vg_open _ _ _ Hg) in Eo. unfold inode_ref_dec.
    assert (Hn : n <> 0) by (by eapply alive_ne0).
    rewrite (get_inode_Ok v n i) by done. cbn [rbind].
    destruct (Z.ltb_spec 0 (ref_count i)); [|lia]. cbn [rassert rbind].
    set (i1 := set_ref i (ref_count i - 1)). set (v1 := put_inode n i1 v).
    assert (Hm : moves v (fun m => - one n m) none v1).
    { eapply moves_ext; [by apply (put_moves v n i)|..]; intros m; unfold one, none; cbn; destruct (m =? n); lia. }
    assert (Hv1 : vinv v1) by (by eapply vinv_put; [apply Hg|..]).
    assert (Hg1 : vgood v1 (fun m => u m - one n m) o).
    { eapply vgood_moves; [exact Hg|exact Hm|done|..]; intros m; cbn beta.
      - lia.
      - unfold none. lia.
      - pose proof (vg_le _ _ _ Hg m). unfold one. destruct (Z.eqb_spec m n) as [->|]; lia.
      - pose proof (vg_room _ _ _ Hg m). pose proof (one_range n m). lia. }
    destruct (Z.eqb_spec (ref_count i - 1) 0) as [Hz|Hz]; [|eexists _, _; split; [done|]; by split].
    destruct (vinv_ops v n (vg_inv _ _ _ Hg) Ha) as (Hops & _ & _ & _ & _ & Hrec). rewrite <- Et in *.
    destruct (i_reclaim (in_ops i)) as [f|] eqn:Hf; [|specialize (Hrec eq_refl); lia].
    assert (Hi1 : inodes v1 !! n = Some i1) by (cbn; apply lookup_insert_eq).
    unfold vop_reclaim. rewrite (vop_get i_reclaim v1 n i1 f); cbn [in_ops open_count ref_count set_ref i1]; try done; try lia.
    2: { unfold MAX_INODE_COUNT. lia. }
    cbn [rbind]. destruct (law_reclaim v1 n i1 f Hv1 Hi1) as (ret & v2 & E & Hv2 & Hm2); [done|cbn; lia|done|].
    rewrite E. cbn [rbind]. eexists _, v2. split; [done|]. split.
    - eapply moves_ext; [eapply moves_trans; [exact Hm|exact Hm2|]|..]; unfold none; [|intros; lia..].
      intros m _ Ha2. unfold alive in *. rewrite (mv_ref _ _ _ _ Hm2) in Ha2. unfold none in Ha2. lia.
    - by eapply neutral_good.
  Qed.

  (** ** Names and directories *)

Definition room (k : Z) v : Prop := forall n, refc v n + k < MAX_INODE_COUNT.

  (** A process's directory is NULL or an accounted directory of a file system. *)
Definition cwd_ok v u n : Prop := n = 0 \/ 0 < u n /\ dirlike v n /\ fsof v n <> 0.
Definition boot_ok v : Prop := bootfs_node v = 0 \/ dirlike v (bootfs_node v).

  (** A function that hands back an inode with a reference when it returns 0. *)
Definition hands v u o (ret n : Z) v' : Prop :=
    if ret =? 0 then n <> 0 /\ moves v (one n) none v' /\ vgood v' (fun m => u m + one n m) o
    else moves v none none v' /\ vgood v' u o.

Lemma hands_room v u o ret n v' k : room (k + 1) v -> hands v u o ret n v' -> room k v'.
  Proof.
    unfold hands, room. intros Hr Hh m. specialize (Hr m). destruct (ret =? 0).
    - destruct Hh as (_ & [Hm _ _ _ _] & _). rewrite Hm. pose proof (one_range n m). lia.
    - destruct Hh as ([Hm _ _ _ _] & _). rewrite Hm. unfold none. lia.
  Qed.

Lemma moves_dirlike v r w v' n : moves v r w v' -> alive v n -> alive v' n -> dirlike v n -> dirlike v' n.
  Proof. intros Hm Ha Ha' Hd. unfold dirlike. by rewrite (proj1 (mv_ops _ _ _ _ Hm n Ha Ha')). Qed.

Lemma boot_alive v u o : vgood v u o -> bootfs_node v <> 0 -> alive v (bootfs_node v).
  Proof.
    intros Hg Hb. pose proof (vg_ref _ _ _ Hg (bootfs_node v)). pose proof (vg_le _ _ _ Hg (bootfs_node v)).
    unfold alive, base in *. rewrite bool_decide_true in H by done. lia.
  Qed.

Lemma vdev_alive v u o d : vgood v u o -> d ∈ vdev_list v -> devnode d <> 0 -> alive v (devnode d).
  Proof.
    intros Hg Hd Hn. pose proof (vg_ref _ _ _ Hg (devnode d)) as Hr. pose proof (vg_le _ _ _ Hg (devnode d)).
    unfold alive, base in *.
    assert (Hin : d ∈ filter (fun e => devnode e = devnode d /\ devnode d <> 0) (vdev_list v)) by (by apply list_elem_of_filter).
    destruct (filter _ (vdev_list v)) as [|e l]; [by apply not_elem_of_nil in Hin|]. cbn [length] in Hr.
    case_bool_decide; lia.
  Qed.

Lemma ref_inc_root v n k v' : vinv v -> inode_ref_inc n v = Ok (k, v') -> can_root v -> can_root v'.
  Proof.
    unfold inode_ref_inc, get_inode. intros Hv E Hc. destruct (n =? 0); [done|].
    destruct (inodes v !! n) as [i|] eqn:Ei; [|done]. cbn [rget rbind] in E. injection E as _ <-. by apply (can_root_put v n i).
  Qed.

  (** Taking a reference to a live inode. *)
Lemma inc_hands v u o n : vgood v u o -> alive v n -> room 1 v ->
    runs (inode_ref_inc n v) (fun _ v' => hands v u o 0 n v' /\ (dirlike v n -> dirlike v' n) /\ (can_root v -> can_root v')).
  Proof.
    intros Hg Ha Hr. destruct (ref_inc_Ok v u o n Hg Ha (Hr n)) as (k & v' & E & Hm & Hg').
    exists k, v'. split; [done|]. split; [split; [exact (alive_ne0 v u o n Hg Ha)|by split]|].
    split; [|by apply (ref_inc_root v n k), E; apply Hg]. intros Hd.
    eapply moves_dirlike; [exact Hm|done| |done]. unfold alive in *. rewrite (mv_ref _ _ _ _ Hm). pose proof (one_range n n). lia.
  Qed.

Lemma curdir_Ok v u o pwd : vgood v u o -> room 1 v -> cwd_ok v u pwd ->
    exists ret n v', vfs_get_curdir pwd v = Ok (ret, n, v') /\ hands v u o ret n v' /\ (ret = 0 -> n = pwd /\ pwd <> 0 /\ dirlike v' n /\ (can_root v -> can_root v')).
  Proof.
    intros Hg Hr [->|(Hu & Hd & Hf)]; unfold vfs_get_curdir.
    - exists (- E_NOENT), 0, v. split; [done|]. split; [|done]. split; [apply moves_refl|done].
    - pose proof (held_alive v u o pwd Hg Hu) as Ha. pose proof (alive_ne0 v u o pwd Hg Ha) as Hn.
      destruct (Z.eqb_spec pwd 0); [done|]. cbn [negb].
      destruct (inc_hands v u o pwd Hg Ha Hr) as (k & v' & E & Hh & Hdl & Hcr). rewrite E. cbn [rbind].
      exists 0, pwd, v'. split; [done|]. split; [done|]. auto.
  Qed.

Lemma bootfs_Ok v u o : vgood v u o -> room 1 v -> boot_ok v ->
    exists ret n v', vfs_get_bootfs v = Ok (ret, n, v') /\ hands v u o ret n v' /\ (ret = 0 -> dirlike v' n).
  Proof.
    intros Hg Hr Hb. unfold vfs_get_bootfs. destruct (Z.eqb_spec (bootfs_node v) 0) as [E0|Hn].
    - exists (- E_NOENT), 0, v. split; [done|]. split; [|done]. split; [apply moves_refl|done].
    - destruct Hb as [?|Hd]; [done|].
      destruct (inc_hands v u o _ Hg (boot_alive v u o Hg Hn) Hr) as (k & v' & E & Hh & Hdl & _). rewrite E. cbn [rbind].
      exists 0, (bootfs_node v), v'. auto.
  Qed.

Lemma root_Ok v u o fs : vgood v u o -> room 1 v -> fs_known v fs -> can_root v ->
    runs (fs_get_root fs v) (fun r v' => hands v u o 0 r v' /\ dirlike v' r).
  Proof.
    intros Hg Hr Hk Hcr. destruct (law_get_root v fs (vg_inv _ _ _ Hg) Hk Hcr) as (r & v' & E & Hv' & Hn & Hm & Hd).
    exists r, v'. split; [done|]. split; [|done]. split; [done|]. split; [done|].
    eapply vgood_moves; [exact Hg|exact Hm|done|..]; intros m; cbn beta.
    - lia.
    - unfold none. lia.
    - pose proof (vg_le _ _ _ Hg m). pose proof (one_range r m). lia.
    - specialize (Hr m). pose proof (one_range r m). lia.
  Qed.

Lemma find_vdev_In name l d : find_vdev name l = Some d -> d ∈ l.
  Proof.
    induction l as [|e l IH]; [done|]. cbn. destruct (streq name (devname e)); [intros [= ->]; by left|].
    intros E. right. auto.
  Qed.

Lemma get_root_Ok v u o name : vgood v u o -> room 1 v -> can_root v ->
    exists ret n v', vfs_get_root name v = Ok (ret, n, v') /\ hands v u o ret n v' /\ (ret = 0 -> dirlike v' n).
  Proof.
    intros Hg Hr Hcr. unfold vfs_get_root. destruct (find_vdev name (vdev_list v)) as [d|] eqn:Ed.
    2: { exists (- E_NO_DEV), 0, v. split; [done|]. split; [|done]. split; [apply moves_refl|done]. }
    pose proof (find_vdev_In _ _ _ Ed) as Hin.
    destruct (Z.eqb_spec (dev_fs d) 0) as [Hz|Hz]; cbn [negb].
    - destruct (mountable d) eqn:Em; cbn [negb rbind].
      { exists (- E_NA_DEV), 0, v. split; [done|]. split; [|done]. split; [apply moves_refl|done]. }
      destruct (vinv_vdev v d (vg_inv _ _ _ Hg) Hin Em Hz) as [Hn Hd].
      destruct (inc_hands v u o _ Hg (vdev_alive v u o d Hg Hin Hn) Hr) as (k & v' & E & Hh & Hdl & _). rewrite E. cbn [rbind].
      destruct (Z.eqb_spec (devnode d) 0); [done|]. cbn [negb]. exists 0, (devnode d), v'. auto.
    - destruct (root_Ok v u o (dev_fs d) Hg Hr) as (r & v' & E & Hh & Hd); [split; [done|left; eauto]|done|]. rewrite E. cbn [rbind].
      destruct (Z.eqb_spec r 0) as [E0|]; [by destruct Hh|]. cbn [negb]. exists 0, r, v'. auto.
  Qed.

Lemma vgood_ext v u o u' o' : vgood v u o -> (forall n, u n = u' n) -> (forall n, o n = o' n) -> vgood v u' o'.
  Proof.
    intros [H1 H2 H3 H4 H5] Eu Eo. split; try done; intros n; rewrite <- ?Eu, <- ?Eo; auto.
  Qed.

  (** What may be left of the path once the device has been found. *)
Definition path_fits (path : list Z) : Prop :=
    forall q, q `suffix_of` path -> q <> [] -> head q <> Some 47 -> can_lookup q.

Lemma skip_slashes_suffix (path : list Z) : skip_slashes path `suffix_of` path.
  Proof. induction path as [|c path IH]; [done|]. cbn. destruct (c =? 47); [by apply suffix_cons_r|done]. Qed.

Lemma skip_slashes_head (path : list Z) : head (skip_slashes path) <> Some 47.
  Proof. induction path as [|c path IH]; [done|]. cbn. destruct (Z.eqb_spec c 47); [done|]. cbn. congruence. Qed.

Lemma skipped_fits (path : list Z) (i : nat) : path_fits path -> let sub := skip_slashes (drop i path) in sub = [] \/ can_lookup sub.
  Proof.
    intros Hp. cbn zeta. destruct (decide (skip_slashes (drop i path) = [])) as [E|Hne]; [by left|right].
    apply Hp; [|done|apply skip_slashes_head]. etrans; [apply skip_slashes_suffix|]. exists (take i path). by rewrite take_drop.
  Qed.

Lemma get_device_Ok v u o pwd path : vgood v u o -> room 2 v -> cwd_ok v u pwd -> boot_ok v -> path_fits path -> can_root v ->
    exists ret sub n v', get_device pwd path v = Ok (ret, sub, n, v') /\ hands v u o ret n v' /\
      (ret = 0 -> dirlike v' n /\ (sub = [] \/ can_lookup sub)).
  Proof.
    intros Hg Hr2 Hc Hb Hpf Hcr. assert (Hr : room 1 v) by (intros m; specialize (Hr2 m); lia). unfold get_device.
    set (colon := match scan_path path 0 with Some (c, i) => if c =? 58 then i else -1 | None => -1 end).
    set (slash := match scan_path path 0 with Some (c, i) => if c =? 58 then -1 else i | None => -1 end).
    destruct ((colon <? 0) && negb (slash =? 0)) eqn:Ecase.
    { destruct (curdir_Ok v u o pwd Hg Hr Hc) as (ret & n & v' & E & Hh & Hd). rewrite E. cbn [rbind].
      eexists ret, _, n, v'. split; [done|]. split; [done|]. intros H0. split; [by apply Hd|].
      destruct (decide (path = [])) as [|Hne]; [by left|right]. apply Hpf; [done|done|]. intros Hh47.
      destruct path as [|c path]; [done|]. cbn in Hh47. injection Hh47 as ->. by rewrite andb_false_r in Ecase. }
    destruct (0 <? colon).
    { destruct (get_root_Ok v u o (take (Z.to_nat colon) path) Hg Hr Hcr) as (ret & n & v' & E & Hh & Hd). rewrite E. cbn [rbind].
      eexists ret, _, n, v'. split; [done|]. split; [done|]. intros H0. split; [by apply Hd|]. by apply skipped_fits. }
    pose proof (skipped_fits path 1 Hpf) as Hsk. cbn zeta in Hsk.
    destruct (slash =? 0).
    { destruct (bootfs_Ok v u o Hg Hr Hb) as (ret & n & v' & E & Hh & Hd). rewrite E. cbn [rbind].
      destruct (Z.eqb_spec ret 0) as [->|Hne]; cbn [negb]; [by eexists 0, _, n, v'; split_and!; auto|].
      eexists ret, _, 0, v'. split; [done|]. split; [|done]. unfold hands in *. by destruct (Z.eqb_spec ret 0). }
    destruct (curdir_Ok v u o pwd Hg Hr Hc) as (ret & n & v1 & E & Hh & Hd). rewrite E. cbn [rbind].
    destruct (Z.eqb_spec ret 0) as [->|Hne]; cbn [negb].
    2: { eexists ret, _, 0, v1. split; [done|]. split; [|done]. unfold hands in *. by destruct (Z.eqb_spec ret 0). }
    destruct (Hd eq_refl) as (-> & Hp & _ & Hcr1). destruct Hh as (_ & Hm1 & Hg1).
    destruct Hc as [?|(Hu & _ & Hfs)]; [done|]. pose proof (held_alive v u o pwd Hg Hu) as Ha.
    assert (Ha1 : alive v1 pwd) by (eapply held_alive; [exact Hg1|]; cbn beta; rewrite one_eq; lia).
    destruct (alive_get v1 pwd Ha1) as (i & Hi & _). rewrite (get_inode_Ok v1 pwd i Hp Hi). cbn [rbind].
    pose proof (alive_fs v1 pwd i Hi) as Ef. rewrite (proj2 (mv_ops _ _ _ _ Hm1 pwd Ha Ha1)) in Ef. rewrite <- Ef.
    destruct (Z.eqb_spec (fsof v pwd) 0); [done|]. cbn [negb rassert rbind].
    destruct (root_Ok v1 _ o (fsof v pwd) Hg1) as (r & v2 & E2 & (Hr0 & Hm2 & Hg2) & Hd2).
    { intros m. rewrite (mv_ref _ _ _ _ Hm1). specialize (Hr2 m). pose proof (one_range pwd m). lia. }
    { split; [done|]. right. exists pwd, i. split; [done|]. split; [|done].
      unfold alive, refc in Ha1. by rewrite Hi in Ha1. }
    { by apply Hcr1. }
    rewrite E2. cbn [rbind].
    destruct (ref_dec_Ok v2 _ o pwd Hg2) as (k & v3 & E3 & Hm3 & Hg3).
    { cbn beta. rewrite one_eq. pose proof (vg_le _ _ _ Hg pwd). pose proof (one_range r pwd). lia. }
    rewrite E3. cbn [rbind]. eexists 0, _, r, v3. split; [done|].
    assert (Hm : moves v (one r) none v3).
    { eapply moves_ext; [eapply moves_down; [eapply moves_up; [exact Hm1|exact Hm2|]|exact Hm3|]|..];
        intros m; cbn beta; unfold none; pose proof (one_range pwd m); lia. }
    split.
    - split; [done|]. split; [done|]. eapply vgood_ext; [exact Hg3|..]; intros m; cbn beta; lia.
    - intros _. split; [|done]. eapply moves_dirlike; [exact Hm3|..|done].
      + unfold alive. rewrite (mv_ref _ _ _ _ Hm2), one_eq. pose proof (refc_nonneg v1 _ o r Hg1). lia.
      + unfold alive. rewrite (mv_ref _ _ _ _ Hm), one_eq. pose proof (refc_nonneg v u o r Hg). lia.
  Qed.

Lemma lookup_Ok v u o pwd path : vgood v u o -> room 3 v -> cwd_ok v u pwd -> boot_ok v -> path_fits path -> can_root v ->
    exists ret n v', vfs_lookup pwd path v = Ok (ret, n, v') /\ hands v u o ret n v'.
  Proof.
    intros Hg Hr Hc Hb Hpf Hcr. unfold vfs_lookup.
    destruct (get_device_Ok v u o pwd path Hg) as (ret & sub & n & v1 & E & Hh & Hd); [intros m; specialize (Hr m); lia|done..|].
    rewrite E. cbn [rbind]. destruct (Z.eqb_spec ret 0) as [->|Hne]; cbn [negb].
    2: { exists ret, 0, v1. split; [done|]. unfold hands in *. by destruct (Z.eqb_spec ret 0). }
    case_bool_decide as Hsub; cbn [negb]; [by exists 0, n, v1|].
    destruct Hh as (Hn & Hm1 & Hg1). destruct (Hd eq_refl) as [[f Hf] [?|Hcan]]; [done|].
    assert (Ha1 : alive v1 n) by (eapply held_alive; [exact Hg1|]; cbn beta; rewrite one_eq; pose proof (vg_le _ _ _ Hg n); lia).
    unfold vop_lookup. rewrite (vop_Ok i_lookup v1 _ o n f Hg1 Ha1 Hf). cbn [rbind].
    destruct (law_lookup v1 n f sub (vg_inv _ _ _ Hg1) Ha1 Hf Hcan) as ([ret r] & v2 & E2 & Hv2 & Hcase). rewrite E2. cbn [rbind]. cbn in Hcase.
    assert (H2 : exists k, (forall m, 0 <= k m) /\ vgood v2 (fun m => u m + one n m + k m) o /\ moves v1 k none v2 /\
      if ret =? 0 then r <> 0 /\ forall m, k m = one r m else forall m, k m = 0).
    { destruct (ret =? 0).
      - destruct Hcase as [Hr0 Hm2]. exists (one r). split; [intros m; pose proof (one_range r m); lia|]. split; [|done].
        eapply vgood_moves; [exact Hg1|exact Hm2|done|..]; intros m; cbn beta.
        + lia.
        + unfold none. lia.
        + pose proof (vg_le _ _ _ Hg1 m). cbn beta in *. pose proof (one_range r m). lia.
        + rewrite (mv_ref _ _ _ _ Hm1). specialize (Hr m). pose proof (one_range r m). pose proof (one_range n m). lia.
      - exists none. split; [done|]. split; [|done]. eapply vgood_ext; [eapply neutral_good; [exact Hg1|done|done]|..];
          intros m; unfold none; cbn beta; lia. }
    destruct H2 as (k & Hk & Hg2 & Hm2 & Hkr).
    destruct (ref_dec_Ok v2 _ o n Hg2) as (c & v3 & E3 & Hm3 & Hg3).
    { cbn beta. rewrite one_eq. pose proof (vg_le _ _ _ Hg n). specialize (Hk n). lia. }
    rewrite E3. cbn [rbind]. exists ret, r, v3. split; [done|].
    assert (Hm : moves v k none v3).
    { eapply moves_ext; [eapply moves_down; [eapply moves_up; [exact Hm1|exact Hm2|]|exact Hm3|]|..];
        intros m; cbn beta; unfold none; pose proof (one_range n m); lia. }
    unfold hands. destruct (ret =? 0).
    - destruct Hkr as [Hr0 Hkr]. split; [done|]. split.
      + eapply moves_ext; [exact Hm|done|done].
      + eapply vgood_ext; [exact Hg3|..]; intros m; cbn beta; rewrite ?Hkr; lia.
    - split; [eapply moves_ext; [exact Hm|done|done]|]. eapply vgood_ext; [exact Hg3|..]; intros m; cbn beta; rewrite ?Hkr; lia.
  Qed.

  (** ** Opening and closing *)

Lemma close_Ok v u o n : vgood v u o -> 0 < o n ->
    exists v', vfs_close n v = Ok v' /\ moves v (fun m => - one n m) (fun m => - one n m) v' /\
      vgood v' (fun m => u m - one n m) (fun m => o m - one n m).
  Proof.
    intros Hg Ho. unfold vfs_close. destruct (open_dec_Ok v u o n Hg Ho) as (a & v1 & E1 & Hm1 & Hg1). rewrite E1. cbn [rbind].
    destruct (ref_dec_Ok v1 u _ n Hg1) as (b & v2 & E2 & Hm2 & Hg2).
    { cbn beta. rewrite one_eq. pose proof (vg_le _ _ _ Hg n). lia. }
    rewrite E2. cbn [rbind]. exists v2. split; [done|]. split; [|done].
    eapply moves_ext; [eapply moves_down; [exact Hm1|exact Hm2|]|..]; intros m; cbn beta; unfold none; pose proof (one_range n m); lia.
  Qed.

  (** As [hands], with the open that comes with the reference. *)
Definition opened v u o (ret n : Z) v' : Prop :=
    if ret =? 0 then n <> 0 /\ moves v (one n) (one n) v' /\ vgood v' (fun m => u m + one n m) (fun m => o m + one n m)
    else moves v none none v' /\ vgood v' u o.

Lemma opened_fail v u o ret v' : ret <> 0 -> moves v none none v' -> vgood v' u o -> opened v u o ret 0 v'.
  Proof. intros Hr Hm Hg. unfold opened. by destruct (Z.eqb_spec ret 0). Qed.

Lemma open_Ok v u o pwd path flags : vgood v u o -> room 3 v -> cwd_ok v u pwd -> boot_ok v -> path_fits path -> can_root v ->
    has flags O_CREAT = false -> has flags O_TRUNC = false ->
    exists ret n v', vfs_open pwd path flags v = Ok (ret, n, v') /\ opened v u o ret n v'.
  Proof.
    intros Hg Hr Hc Hb Hpf Hcr Hcf Htr. unfold vfs_open. rewrite Hcf, Htr. rewrite andb_false_r. cbn [andb orb].
    assert (Hinv : opened v u o (- E_INVAL) 0 v) by (apply opened_fail; [done|apply moves_refl|done]).
    destruct (Z.land flags O_ACCMODE =? O_ACCMODE); [by exists (- E_INVAL), 0, v|].
    destruct (lookup_Ok v u o pwd path Hg Hr Hc Hb Hpf Hcr) as (ret & n & v1 & E & Hh). rewrite E. cbn [rbind].
    unfold hands in Hh. destruct (Z.eqb_spec ret 0) as [->|Hne]; cbn [negb].
    2: { rewrite andb_false_r. cbn [rbind]. destruct (Z.eqb_spec ret 0); [done|]. cbn [negb]. exists ret, 0, v1.
         split; [done|]. apply opened_fail; [done|apply Hh..]. }
    destruct Hh as (Hn & Hm1 & Hg1). rewrite ?andb_false_r. cbn [rbind negb Z.eqb]. destruct (Z.eqb_spec n 0); [done|]. cbn [negb rassert rbind].
    assert (Hlt : o n < u n + one n n) by (rewrite one_eq; pose proof (vg_le _ _ _ Hg n); lia).
    assert (Ha1 : alive v1 n) by (eapply held_alive; [exact Hg1|]; cbn beta; pose proof (vg_le _ _ _ Hg n); lia).
    destruct (vinv_ops v1 n (vg_inv _ _ _ Hg1) Ha1) as (_ & [f Hf] & _).
    unfold vop_open. rewrite (vop_Ok i_open v1 _ o n f Hg1 Ha1 Hf). cbn [rbind].
    destruct (law_open v1 n f flags (vg_inv _ _ _ Hg1) Ha1 Hf) as (ret & v2 & E2 & Hv2 & Hm2). rewrite E2. cbn [rbind].
    pose proof (neutral_good _ _ _ _ Hg1 Hv2 Hm2) as Hg2.
    assert (Hm12 : moves v (one n) none v2).
    { eapply moves_ext; [eapply moves_up; [exact Hm1|exact Hm2|]|..]; intros m; cbn beta; unfold none; pose proof (one_range n m); lia. }
    destruct (Z.eqb_spec ret 0) as [->|Hne]; cbn [negb].
    - destruct (open_inc_Ok v2 _ o n Hg2) as (a & v3 & E3 & Hm3 & Hg3); [done|]. rewrite E3. cbn [rbind].
      exists 0, n, v3. split; [done|]. split; [done|]. split; [|done].
      eapply moves_ext; [eapply moves_up; [exact Hm12|exact Hm3|]|..]; intros m; cbn beta; unfold none; pose proof (one_range n m); lia.
    - destruct (ref_dec_Ok v2 _ o n Hg2) as (a & v3 & E3 & Hm3 & Hg3); [done|]. rewrite E3. cbn [rbind].
      exists ret, 0, v3. split; [done|]. apply opened_fail; [done|..].
      + eapply moves_ext; [eapply moves_down; [exact Hm12|exact Hm3|]|..]; intros m; cbn beta; unfold none; pose proof (one_range n m); lia.
      + eapply vgood_ext; [exact Hg3|..]; intros m; cbn beta; lia.
  Qed.

  (** ** The current directory *)

Definition own n : Z -> Z := if n =? 0 then none else one n.

Lemma own_range n m : 0 <= own n m <= 1.
  Proof. unfold own, none. destruct (n =? 0); [lia|apply one_range]. Qed.

Lemma own_one n : n <> 0 -> own n = one n.
  Proof. unfold own. by destruct (Z.eqb_spec n 0). Qed.

Lemma set_curdir_Ok v u o pwd dir : vgood v u o -> room 1 v -> cwd_ok v u pwd -> (forall m, own pwd m + o m <= u m) ->
    dir <> 0 -> 0 < u dir -> (forall m, own pwd m + o m + one dir m <= u m) ->
    exists ret pwd' v', vfs_set_curdir pwd dir v = Ok (ret, pwd', v') /\
      moves v (fun m => own pwd' m - own pwd m) none v' /\ vgood v' (fun m => u m - own pwd m + own pwd' m) o /\
      cwd_ok v' (fun m => u m - own pwd m + own pwd' m - one dir m) pwd'.
  Proof.
    intros Hg Hr Hc Hown Hd Hu Hown'. unfold vfs_set_curdir.
    assert (Hstay : forall v', moves v none none v' -> vgood v' u o ->
      moves v (fun m => own pwd m - own pwd m) none v' /\ vgood v' (fun m => u m - own pwd m + own pwd m) o /\
      cwd_ok v' (fun m => u m - own pwd m + own pwd m - one dir m) pwd).
    { intros v' Hm Hg'. split; [eapply moves_ext; [exact Hm|..]; intros m; unfold none; lia|].
      split; [eapply vgood_ext; [exact Hg'|..]; intros m; lia|]. destruct Hc as [?|(Hup & Hdl & Hfs)]; [by left|right].
      assert (Ha : alive v pwd) by (by eapply held_alive). assert (Ha' : alive v' pwd) by (by eapply held_alive).
      split; [|split].
      - specialize (Hown' pwd). rewrite own_one, one_eq in Hown' by (by eapply alive_ne0). cbn beta. pose proof (vg_le _ _ _ Hg pwd). lia.
      - by eapply moves_dirlike.
      - by rewrite (proj2 (mv_ops _ _ _ _ Hm pwd Ha Ha')). }
    destruct (Z.eqb_spec pwd dir) as [->|Hne]; cbn [negb].
    { exists 0, dir, v. split; [done|]. apply Hstay; [apply moves_refl|done]. }
    destruct (Z.eqb_spec dir 0); [done|]. cbn [negb].
    assert (Ha : alive v dir) by (by eapply held_alive).
    destruct (vinv_ops v dir (vg_inv _ _ _ Hg) Ha) as (_ & _ & _ & _ & [f Hf] & _).
    unfold vop_gettype. rewrite (vop_Ok i_gettype v u o dir f Hg Ha Hf). cbn [rbind].
    destruct (law_gettype v dir f (vg_inv _ _ _ Hg) Ha Hf) as ([ret type] & v1 & E1 & Hv1 & Hm1 & Hdir). rewrite E1. cbn [rbind].
    cbn in Hdir. pose proof (neutral_good _ _ _ _ Hg Hv1 Hm1) as Hg1.
    destruct (Z.eqb_spec ret 0) as [->|Hret]; cbn [negb rbind].
    2: { destruct (Z.eqb_spec ret 0); [done|]. cbn [negb]. exists ret, pwd, v1. split; [done|]. by apply Hstay. }
    destruct (S_ISDIR type) eqn:Et; cbn [negb rbind].
    2: { change (- E_NOTDIR =? 0) with false. cbn [negb]. exists (- E_NOTDIR), pwd, v1. split; [done|]. by apply Hstay. }
    destruct (Hdir eq_refl eq_refl) as [Hdl Hfs].
    assert (Ha1 : alive v1 dir) by (by eapply held_alive).
    destruct (ref_inc_Ok v1 u o dir Hg1 Ha1) as (a & v2 & E2 & Hm2 & Hg2).
    { rewrite (mv_ref _ _ _ _ Hm1). unfold none. specialize (Hr dir). lia. }
    rewrite E2. cbn [rbind]. change (0 =? 0) with true. cbn [negb].
    assert (Hm12 : moves v (one dir) none v2).
    { eapply moves_ext; [eapply moves_up; [exact Hm1|exact Hm2|]|..]; intros m; cbn beta; unfold none; lia. }
    assert (Hdone : forall v3, moves v (fun m => own dir m - own pwd m) none v3 ->
      vgood v3 (fun m => u m - own pwd m + own dir m) o -> cwd_ok v3 (fun m => u m - own pwd m + own dir m - one dir m) dir).
    { intros v3 Hm3 Hg3. right. rewrite (own_one dir), one_eq by done.
      assert (Ep : own pwd dir = 0).
      { unfold own. destruct (pwd =? 0); [done|]. apply one_ne. by apply not_eq_sym. }
      assert (Ha3 : alive v3 dir).
      { eapply held_alive; [exact Hg3|]. cbn beta. rewrite Ep, own_one, one_eq by done. lia. }
      split; [rewrite Ep; lia|]. split; [by eapply moves_dirlike|]. by rewrite (proj2 (mv_ops _ _ _ _ Hm3 dir Ha Ha3)). }
    destruct (Z.eqb_spec pwd 0) as [Hz|Hz]; cbn [negb].
    - assert (Ep : forall m, own pwd m = 0) by (intros m; subst pwd; done).
      assert (Hm3 : moves v (fun m => own dir m - own pwd m) none v2).
      { eapply moves_ext; [exact Hm12|..]; intros m; cbn beta; [rewrite own_one by done; rewrite Ep; lia|done]. }
      assert (Hg3 : vgood v2 (fun m => u m - own pwd m + own dir m) o).
      { eapply vgood_ext; [exact Hg2|..]; intros m; cbn beta; [rewrite (own_one dir) by done; rewrite Ep; lia|lia]. }
      exists 0, dir, v2. auto.
    - destruct (ref_dec_Ok v2 _ o pwd Hg2) as (b & v3 & E3 & Hm3 & Hg3).
      { cbn beta. rewrite one_ne by done. specialize (Hown pwd). rewrite own_one, one_eq in Hown by done. lia. }
      rewrite E3. cbn [rbind].
      assert (Hm4 : moves v (fun m => own dir m - own pwd m) none v3).
      { eapply moves_ext; [eapply moves_down; [exact Hm12|exact Hm3|]|..]; intros m; cbn beta; unfold none;
          rewrite ?own_one by done; pose proof (one_range pwd m); lia. }
      assert (Hg4 : vgood v3 (fun m => u m - own pwd m + own dir m) o).
      { eapply vgood_ext; [exact Hg3|..]; intros m; cbn beta; [rewrite !own_one by done; lia|done]. }
      exists 0, dir, v3. auto.
  Qed.

Lemma chdir_Ok v u o pwd path : vgood v u o -> room 4 v -> cwd_ok v u pwd -> boot_ok v -> path_fits path -> can_root v -> (forall m, own pwd m + o m <= u m) ->
    exists ret pwd' v', vfs_chdir pwd path v = Ok (ret, pwd', v') /\ moves v (fun m => own pwd' m - own pwd m) none v' /\
      vgood v' (fun m => u m - own pwd m + own pwd' m) o /\ cwd_ok v' (fun m => u m - own pwd m + own pwd' m) pwd'.
  Proof.
    intros Hg Hr Hc Hb Hpf Hcr Hown. unfold vfs_chdir.
    destruct (lookup_Ok v u o pwd path Hg) as (ret & n & v1 & E & Hh); [intros m; specialize (Hr m); lia|done..|].
    rewrite E. cbn [rbind]. pose proof (hands_room v u o ret n v1 3 Hr Hh) as Hr1. unfold hands in Hh.
    destruct (Z.eqb_spec ret 0) as [->|Hne].
    2: { destruct Hh as [Hm1 Hg1]. exists ret, pwd, v1. split; [done|].
         split; [eapply moves_ext; [exact Hm1|..]; intros m; unfold none; lia|].
         split; [eapply vgood_ext; [exact Hg1|..]; intros m; lia|]. destruct Hc as [?|(Hup & Hdl & Hfs)]; [by left|right].
         assert (Ha : alive v pwd) by (by eapply held_alive). assert (Ha' : alive v1 pwd) by (by eapply held_alive).
         split; [lia|]. split; [by eapply moves_dirlike|]. by rewrite (proj2 (mv_ops _ _ _ _ Hm1 pwd Ha Ha')). }
    destruct Hh as (Hn & Hm1 & Hg1).
    assert (Hc1 : cwd_ok v1 (fun m => u m + one n m) pwd).
    { destruct Hc as [?|(Hup & Hdl & Hfs)]; [by left|right]. pose proof (one_range n pwd).
      assert (Ha : alive v pwd) by (by eapply held_alive). assert (Ha' : alive v1 pwd) by (eapply held_alive; [exact Hg1|cbn beta; lia]).
      split; [lia|]. split; [by eapply moves_dirlike|]. by rewrite (proj2 (mv_ops _ _ _ _ Hm1 pwd Ha Ha')). }
    destruct (set_curdir_Ok v1 _ o pwd n Hg1) as (ret & pwd' & v2 & E2 & Hm2 & Hg2 & Hc2); try done.
    { intros m. specialize (Hr1 m). lia. }
    { intros m. specialize (Hown m). pose proof (one_range n m). lia. }
    { rewrite one_eq. pose proof (vg_le _ _ _ Hg n). lia. }
    { intros m. specialize (Hown m). lia. }
    rewrite E2. cbn [rbind].
    destruct (ref_dec_Ok v2 _ o n Hg2) as (b & v3 & E3 & Hm3 & Hg3).
    { cbn beta. rewrite one_eq. specialize (Hown n). pose proof (own_range pwd' n). lia. }
    rewrite E3. cbn [rbind]. exists ret, pwd', v3. split; [done|]. split; [|split].
    - eapply moves_ext; [eapply moves_down; [eapply moves_trans; [exact Hm1|exact Hm2|]|exact Hm3|]|..]; cbn beta.
      + intros m Ha _. unfold alive in *. rewrite (mv_ref _ _ _ _ Hm1). pose proof (one_range n m). lia.
      + intros m. pose proof (one_range n m). lia.
      + intros m. lia.
      + intros m. unfold none. lia.
    - eapply vgood_ext; [exact Hg3|..]; intros m; cbn beta; lia.
    - destruct Hc2 as [?|(Hup & Hdl & Hfs)]; [by left|right]. cbn beta in Hup.
      assert (Ha2 : alive v2 pwd') by (eapply held_alive; [exact Hg2|]; cbn beta; pose proof (one_range n pwd'); lia).
      assert (Ha3 : alive v3 pwd') by (eapply held_alive; [exact Hg3|]; cbn beta; lia).
      split; [lia|]. split; [by eapply moves_dirlike|]. by rewrite (proj2 (mv_ops _ _ _ _ Hm3 pwd' Ha2 Ha3)).
  Qed.
End VfsInv.
