(* ===== verification/DevSpec.v ===== *)
(** * Devices: what the drivers do, and the laws of the interface

    The standard input delivers what is typed in the order in which it is
    typed; the operations of device inodes satisfy [InodeLaws]. *)
From S2P Require Import Prelude IoBuf BlockDev Vfs VfsInv Dev.

Section Console.
  Context {D : Type}.
  Implicit Types d : devs D.

(** ** The standard input *)

Fixpoint key_count (ws : list wake) : Z :=
  match ws with [] => 0 | Keys cs :: ws => Z.of_nat (length cs) + key_count ws | Killed :: ws => key_count ws end.

(** The positions are in range and are not about to wrap around. *)
Record stdin_ok (d : devs D) : Prop := {
  si_len : Z.of_nat (length (stdin_buffer d)) = 4096;
  si_r : 0 <= p_rpos d <= p_wpos d;
  si_full : p_wpos d <= p_rpos d + 4096;
  si_w : p_wpos d + key_count (keys d) < 2147483648
}.

(** The characters stored and not yet read. *)
Definition unread (d : devs D) : list Z :=
  (fun i => at_ (stdin_buffer d) ((p_rpos d + i) mod 4096)) <$> seqZ 0 (p_wpos d - p_rpos d).

(** *** The specification: a queue of at most 4096 characters

    A key goes to the end; a NUL is ignored; in a full queue the key takes the
    place of the oldest character. *)
Definition qput (q : list Z) (c : Z) : list Z :=
  if c =? 0 then q else if Z.of_nat (length q) <? 4096 then q ++ [c] else c :: tail q.
Definition qkeys (cs : list Z) (q : list Z) : list Z := foldl qput q cs.
(** The keys that count. *)
Definition typed (cs : list Z) : list Z := filter (fun c => c <> 0) cs.

(** A read of [n] characters: what it gets, what it leaves, and what is typed
    until it returns.  It sleeps only when the queue is empty. *)
Fixpoint queue_read (n : nat) (q : list Z) (ws : list wake) : list Z * list Z * list Z * list wake :=
  match n with
  | O => ([], q, [], ws)
  | Datatypes.S n =>
      match q with
      | c :: q => let '(got, q, cs, ws) := queue_read n q ws in (c :: got, q, cs, ws)
      | [] =>
          (fix sleep (ws : list wake) :=
             match ws with
             | Keys cs :: ws =>
                 match qkeys cs [] with
                 | c :: q => let '(got, q, cs', ws) := queue_read n q ws in (c :: got, q, typed cs ++ cs', ws)
                 | [] => sleep ws
                 end
             | Killed :: ws => ([], [], [], ws)
             | [] => ([], [], [], [])
             end) ws
      end
  end.

Lemma key_count_nonneg ws : 0 <= key_count ws.
Proof. induction ws as [|[cs|] ws IH]; cbn; lia. Qed.

Lemma qput_nil c : c <> 0 -> qput [] c = [c].
Proof. intros H. unfold qput. by destruct (Z.eqb_spec c 0). Qed.

(** As long as they all fit, keys are just appended. *)
Lemma qkeys_app cs : forall q, Z.of_nat (length q) + Z.of_nat (length (typed cs)) <= 4096 -> qkeys cs q = q ++ typed cs.
Proof.
  induction cs as [|c cs IH]; intros q H; cbn [qkeys foldl]; [by rewrite app_nil_r|]. fold (qkeys cs (qput q c)).
  assert (Et : typed (c :: cs) = if c =? 0 then typed cs else c :: typed cs).
  { unfold typed. rewrite filter_cons. destruct (Z.eqb_spec c 0); [by rewrite decide_False by tauto|by rewrite decide_True by done]. }
  rewrite Et in H |- *. unfold qput. destruct (Z.eqb_spec c 0); [by apply IH|]. cbn [length] in H.
  destruct (Z.ltb_spec (Z.of_nat (length q)) 4096); [|lia].
  rewrite IH by (rewrite length_app; cbn [length]; lia). by rewrite <- app_assoc.
Qed.

Lemma queue_read_length n : forall q ws got q' cs ws', queue_read n q ws = (got, q', cs, ws') -> (length got <= n)%nat.
Proof.
  induction n as [|n IH]; intros q ws got q' cs ws'; cbn [queue_read]; [intros [= <- _ _ _]; cbn; lia|].
  destruct q as [|c q].
  - induction ws as [|[ks|] ws IHw]; [intros [= <- _ _ _]; cbn; lia| |intros [= <- _ _ _]; cbn; lia].
    destruct (qkeys ks []) as [|c q]; [done|]. destruct (queue_read n q ws) as [[[g q2] c2] w2] eqn:E.
    intros [= <- _ _ _]. apply IH in E. cbn. lia.
  - destruct (queue_read n q ws) as [[[g q2] c2] w2] eqn:E. intros [= <- _ _ _]. apply IH in E. cbn. lia.
Qed.

(** No burst of keys is larger than the queue. *)
Definition bursts_fit (ws : list wake) : bool :=
  forallb (fun w => match w with Keys cs => Z.of_nat (length (typed cs)) <=? 4096 | Killed => true end) ws.

Lemma queue_read_fifo n : forall q ws got q' cs ws', bursts_fit ws = true -> queue_read n q ws = (got, q', cs, ws') ->
  got ++ q' = q ++ cs.
Proof.
  induction n as [|n IH]; intros q ws got q' cs ws' Hf; cbn [queue_read]; [intros [= <- <- <- _]; by rewrite app_nil_r|].
  destruct q as [|c q].
  - induction ws as [|[ks|] ws IHw]; [by intros [= <- <- <- _]| |by intros [= <- <- <- _]].
    apply andb_true_iff in Hf as [Hk%Z.leb_le Hf]. fold (bursts_fit ws) in Hf.
    destruct (qkeys ks []) as [|c q] eqn:Ek; [by apply IHw|]. rewrite qkeys_app in Ek by (cbn; lia). cbn [app] in Ek.
    destruct (queue_read n q ws) as [[[g q2] c2] w2] eqn:E. intros [= <- <- <- _]. rewrite Ek. cbn [app]. f_equal. by eapply IH.
  - destruct (queue_read n q ws) as [[[g q2] c2] w2] eqn:E. intros [= <- <- <- _]. cbn [app]. f_equal. by eapply IH.
Qed.

Lemma length_unread d : stdin_ok d -> Z.of_nat (length (unread d)) = p_wpos d - p_rpos d.
Proof. intros Hd. unfold unread. rewrite length_fmap, length_seqZ. pose proof (si_r d Hd). lia. Qed.

Lemma mread_one l i : 0 <= i < Z.of_nat (length l) -> mread l i 1 = Ok [at_ l i].
Proof.
  intros Hi. rewrite mread_Ok by lia. f_equal. unfold at_. destruct (Z.leb_spec 0 i); [|lia].
  destruct (lookup_lt_is_Some_2 l (Z.to_nat i)) as [x Hx]; [lia|]. rewrite Hx. rewrite (drop_S l x) by done. done.
Qed.

Lemma unread_cons d c u : stdin_ok d -> unread d = c :: u ->
  p_rpos d < p_wpos d /\ at_ (stdin_buffer d) (p_rpos d mod 4096) = c /\
  let d' := set_stdin d (stdin_buffer d) (s32 (p_rpos d + 1)) (p_wpos d) in stdin_ok d' /\ unread d' = u.
Proof.
  intros Hd E. pose proof (length_unread d Hd) as Hl. rewrite E in Hl. cbn [length] in Hl.
  pose proof (si_r d Hd) as Hr. pose proof (si_w d Hd) as Hw. pose proof (si_full d Hd) as Hf. pose proof (key_count_nonneg (keys d)).
  unfold unread in E. rewrite seqZ_cons in E by lia. cbn [fmap list_fmap] in E. injection E as E1 E2. rewrite Z.add_0_r in E1.
  rewrite s32_id by (unfold is_s32; lia). split; [lia|]. split; [done|]. split; [split; cbn; try done; try lia; apply Hd|].
  rewrite <- E2. unfold unread. cbn [set_stdin stdin_buffer p_rpos p_wpos].
  replace (p_wpos d - (p_rpos d + 1)) with (Z.pred (p_wpos d - p_rpos d)) by lia.
  change (Z.succ 0) with (1 + 0). rewrite <- (fmap_add_seqZ 1), <- list_fmap_compose. apply list_fmap_ext. intros i x _. cbn. f_equal. f_equal. lia.
Qed.

Lemma unread_nil d : stdin_ok d -> unread d = [] -> p_rpos d = p_wpos d.
Proof. intros Hd E. pose proof (length_unread d Hd) as Hl. rewrite E in Hl. cbn in Hl. lia. Qed.

(** The character at position [i] of the ring after a key was stored at [w]. *)
Lemma ring_store b w c i : Z.of_nat (length b) = 4096 ->
  at_ (list_inserts (Z.to_nat (w mod 4096)) [c] b) (i mod 4096) = if i mod 4096 =? w mod 4096 then c else at_ b (i mod 4096).
Proof.
  intros Hl. assert (0 <= w mod 4096 < 4096) by (apply Z.mod_pos_bound; lia). rewrite at_inserts by (cbn [length]; lia). cbn [length].
  destruct (Z.eqb_spec (i mod 4096) (w mod 4096)) as [->|Hne].
  - destruct (Z.leb_spec (w mod 4096) (w mod 4096)); [|lia]. destruct (Z.ltb_spec (w mod 4096) (w mod 4096 + Z.of_nat 1)); [|lia].
    by rewrite Z.sub_diag.
  - destruct (Z.leb_spec (w mod 4096) (i mod 4096)); [|done]. destruct (Z.ltb_spec (i mod 4096) (w mod 4096 + Z.of_nat 1)); [lia|done].
Qed.

Lemma ring_same i j : 0 <= i - j < 4096 -> i mod 4096 = j mod 4096 -> i = j.
Proof. intros. Z.to_euclidean_division_equations. lia. Qed.

(** One key: the buffer does what the queue does. *)
Lemma stdin_write_Ok d c : stdin_ok d -> p_wpos d + 1 + key_count (keys d) < 2147483648 ->
  exists d', dev_stdin_write c d = Ok d' /\ stdin_ok d' /\ unread d' = qput (unread d) c /\ keys d' = keys d /\
    p_wpos d <= p_wpos d' <= p_wpos d + 1 /\ dev_info d' = dev_info d /\ disk d' = disk d /\ console d' = console d.
Proof.
  intros Hd Hb. pose proof (length_unread d Hd) as Hlen. pose proof Hd as [Hl Hr Hf Hw]. pose proof (key_count_nonneg (keys d)) as Hk.
  unfold dev_stdin_write, qput. destruct (Z.eqb_spec c 0); cbn [negb]; [exists d; split_and!; (done || lia)|].
  assert (Hm : 0 <= p_wpos d mod 4096 < 4096) by (apply Z.mod_pos_bound; lia).
  unfold STDIN_BUFSIZE. rewrite Z.rem_mod_nonneg by lia. rewrite mwrite_Ok by (cbn [length]; lia). cbn [rbind].
  rewrite (s32_id (p_wpos d - p_rpos d)), Hlen by (unfold is_s32; lia).
  eexists. split; [done|]. destruct (Z.ltb_spec (p_wpos d - p_rpos d) 4096) as [Hlt|Hge].
  - rewrite s32_id by (unfold is_s32; lia). split; [split; cbn; rewrite ?length_insert; lia|]. split; [|cbn; split_and!; (done || lia)].
    unfold unread. cbn [set_stdin stdin_buffer p_rpos p_wpos].
    replace (p_wpos d + 1 - p_rpos d) with ((p_wpos d - p_rpos d) + 1) by lia. rewrite seqZ_app, fmap_app by lia. f_equal.
    + apply list_fmap_ext. intros i x Hx. apply lookup_seqZ in Hx as [-> Hi]. rewrite ring_store by done.
      destruct (Z.eqb_spec ((p_rpos d + (0 + Z.of_nat i)) mod 4096) (p_wpos d mod 4096)) as [E|]; [|done].
      symmetry in E. apply ring_same in E; lia.
    + change (seqZ (0 + (p_wpos d - p_rpos d)) 1) with [0 + (p_wpos d - p_rpos d)]. cbn [fmap list_fmap]. f_equal.
      replace (p_rpos d + (0 + (p_wpos d - p_rpos d))) with (p_wpos d) by lia. rewrite ring_store by done. by rewrite Z.eqb_refl.
  - split; [split; cbn; rewrite ?length_insert; lia|]. split; [|cbn; split_and!; (done || lia)].
    assert (Em : p_wpos d mod 4096 = p_rpos d mod 4096) by (replace (p_wpos d) with (p_rpos d + 1 * 4096) by lia; apply Z.mod_add; lia).
    unfold unread. cbn [set_stdin stdin_buffer p_rpos p_wpos]. replace (p_wpos d - p_rpos d) with 4096 by lia.
    rewrite seqZ_cons by lia. cbn [fmap list_fmap tail]. f_equal.
    + rewrite Z.add_0_r, ring_store by done. by rewrite Em, Z.eqb_refl.
    + apply list_fmap_ext. intros i x Hx. apply lookup_seqZ in Hx as [-> Hi]. rewrite ring_store by done. rewrite Em.
      destruct (Z.eqb_spec ((p_rpos d + (Z.succ 0 + Z.of_nat i)) mod 4096) (p_rpos d mod 4096)) as [E|]; [|done].
      apply ring_same in E; lia.
Qed.

Lemma stdin_keys_Ok cs : forall d, stdin_ok d -> p_wpos d + Z.of_nat (length cs) + key_count (keys d) < 2147483648 ->
  exists d', dev_stdin_keys cs d = Ok d' /\ stdin_ok d' /\ unread d' = qkeys cs (unread d) /\ keys d' = keys d /\
    p_wpos d <= p_wpos d' <= p_wpos d + Z.of_nat (length cs) /\ dev_info d' = dev_info d /\ disk d' = disk d /\ console d' = console d.
Proof.
  induction cs as [|c cs IH]; intros d Hd Hb; cbn [dev_stdin_keys length] in *; [exists d; cbn; split_and!; (done || lia)|].
  destruct (stdin_write_Ok d c Hd) as (d1 & -> & Hd1 & Hu1 & Hk1 & Hw1 & H1 & H2 & H3); [lia|]. cbn [rbind].
  destruct (IH d1 Hd1) as (d2 & -> & Hd2 & Hu2 & Hk2 & Hw2 & H4 & H5 & H6); [rewrite Hk1; lia|].
  exists d2. rewrite Hu2, Hu1. split_and!; (done || lia || congruence).
Qed.

(** A read of [n] characters does what the queue does. *)
Definition delivers (n : nat) (ret : Z) (buf : list Z) (p : Z) (d : devs D) (r : res (Z * list Z * devs D)) : Prop :=
  let '(got, q, _, ws) := queue_read n (unread d) (keys d) in
  exists d', r = Ok (ret + Z.of_nat (length got), list_inserts (Z.to_nat p) got buf, d') /\
    stdin_ok d' /\ dev_info d' = dev_info d /\ disk d' = disk d /\ console d' = console d /\
    unread d' = q /\ keys d' = ws /\ p_wpos d' + key_count (keys d') <= p_wpos d + key_count (keys d).

(** One stored character is taken, and the rest follows. *)
Lemma deliver_one n ret buf p d c u : stdin_ok d -> unread d = c :: u -> 0 <= p -> p + Z.of_nat (Datatypes.S n) <= Z.of_nat (length buf) ->
  (forall buf d, stdin_ok d -> p + 1 + Z.of_nat n <= Z.of_nat (length buf) ->
     delivers n (ret + 1) buf (p + 1) d (dev_stdin_read n (ret + 1) buf (p + 1) d)) ->
  delivers (Datatypes.S n) ret buf p d
    (let! c := mread (stdin_buffer d) (Z.rem (p_rpos d) STDIN_BUFSIZE) 1 in
     let! buf := mwrite buf p c in
     dev_stdin_read n (ret + 1) buf (p + 1) (set_stdin d (stdin_buffer d) (s32 (p_rpos d + 1)) (p_wpos d))).
Proof.
  intros Hd Hu Hp Hb IH. destruct (unread_cons d c u Hd Hu) as (Hlt & Hat & Hd' & Hu').
  pose proof (si_r d Hd). pose proof (si_len d Hd) as Hl. unfold STDIN_BUFSIZE. rewrite Z.rem_mod_nonneg by lia.
  rewrite mread_one by (rewrite Hl; apply Z.mod_pos_bound; lia). rewrite Hat. cbn [rbind].
  rewrite mwrite_Ok by (cbn [length]; lia). cbn [rbind list_inserts].
  specialize (IH (<[Z.to_nat p := c]> buf) _ Hd'). rewrite length_insert in IH. specialize (IH ltac:(lia)).
  unfold delivers in *. rewrite Hu. cbn [queue_read]. cbn zeta in Hu'. rewrite Hu' in IH. cbn [set_stdin keys] in IH.
  destruct (queue_read n u (keys d)) as [[[got q] cs] ws].
  destruct IH as (d' & -> & H1 & H2 & H3 & H4 & H5 & H6 & H7). exists d'. split; [|done].
  f_equal. f_equal. f_equal; [cbn [length]; lia|]. replace (Z.to_nat (p + 1)) with (Datatypes.S (Z.to_nat p)) by lia.
  symmetry. apply list_insert_inserts_lt. lia.
Qed.

Lemma stdin_read_spec n : forall ret buf p d, stdin_ok d -> 0 <= p -> p + Z.of_nat n <= Z.of_nat (length buf) ->
  delivers n ret buf p d (dev_stdin_read n ret buf p d).
Proof.
  induction n as [|n IH]; intros ret buf p d Hd Hp Hb; cbn [dev_stdin_read].
  { unfold delivers. cbn [queue_read]. exists d. cbn [length list_inserts]. rewrite Z.add_0_r. split_and!; (done || lia). }
  assert (IH1 : forall buf d, stdin_ok d -> p + 1 + Z.of_nat n <= Z.of_nat (length buf) ->
     delivers n (ret + 1) buf (p + 1) d (dev_stdin_read n (ret + 1) buf (p + 1) d)) by (intros; apply IH; [done|lia|done]).
  clear IH. destruct (unread d) as [|c u] eqn:Hu.
  2: { destruct (unread_cons d c u Hd Hu) as (Hlt & _). destruct (Z.ltb_spec (p_rpos d) (p_wpos d)); [|lia]. by eapply deliver_one. }
  pose proof (unread_nil d Hd Hu) as Hrw. destruct (Z.ltb_spec (p_rpos d) (p_wpos d)); [lia|].
  remember (keys d) as ws eqn:Ek. symmetry in Ek. revert d Hd Hu Hrw Ek H.
  induction ws as [|[cs|] ws IHw]; intros d Hd Hu Hrw Ek Hlt.
  - unfold delivers. rewrite Hu, Ek. cbn [queue_read]. exists d. cbn [length list_inserts]. rewrite Z.add_0_r, Ek. split_and!; (done || lia).
  - pose proof (si_w d Hd) as Hw. rewrite Ek in Hw. cbn [key_count] in Hw.
    assert (Hd0 : stdin_ok (set_keys d ws)) by (destruct Hd; split; cbn; (done || lia)).
    destruct (stdin_keys_Ok cs (set_keys d ws) Hd0) as (d1 & E1 & Hd1 & Hu1 & Hk1 & Hw1 & Hi1 & Hs1 & Hc1); [cbn; lia|].
    rewrite E1. cbn [rbind]. change (unread (set_keys d ws)) with (unread d) in Hu1. rewrite Hu in Hu1. cbn [set_keys keys] in Hk1.
    cbn [set_keys p_wpos dev_info disk console] in *.
    assert (Hdel : forall r, delivers (Datatypes.S n) ret buf p d1 r -> delivers (Datatypes.S n) ret buf p d r).
    { intros r. unfold delivers. rewrite Hu, Ek, Hu1, Hk1. cbn [queue_read key_count].
      destruct (qkeys cs []) as [|c q] eqn:Eq.
      - match goal with |- match ?x with _ => _ end -> _ => destruct x as [[[g q2] c2] w2] end. intros (d' & -> & H1 & H2 & H3 & H4 & H5 & H6 & H7). exists d'.
        split_and!; (done || lia || congruence).
      - destruct (queue_read n q ws) as [[[g q2] c2] w2]. intros (d' & -> & H1 & H2 & H3 & H4 & H5 & H6 & H7). exists d'.
        split_and!; (done || lia || congruence). }
    apply Hdel. destruct (qkeys cs []) as [|c q].
    + pose proof (unread_nil d1 Hd1 Hu1) as Hrw1. destruct (Z.ltb_spec (p_rpos d1) (p_wpos d1)); [lia|].
      apply (IHw d1); done || lia.
    + destruct (unread_cons d1 c q Hd1 Hu1) as (Hlt1 & _).
      destruct (Z.ltb_spec (p_rpos d1) (p_wpos d1)); [|lia]. by eapply deliver_one.
  - unfold delivers. rewrite Hu, Ek. cbn [queue_read]. exists (set_keys d ws). cbn [length list_inserts]. rewrite Z.add_0_r.
    pose proof (si_w d Hd) as Hw. rewrite Ek in Hw. cbn [key_count] in *.
    split_and!; try (done || (cbn; lia)). destruct Hd; split; cbn; (done || lia).
Qed.

(** ** The standard output *)

Lemma stdout_loop_spec n : forall data p d, 0 <= p -> p + Z.of_nat n <= Z.of_nat (length data) ->
  stdout_loop n data p d = Ok (set_console d (console d ++ take n (drop (Z.to_nat p) data))).
Proof.
  induction n as [|n IH]; intros data p d Hp Hn; cbn [stdout_loop].
  - cbn [take]. rewrite app_nil_r. by destruct d.
  - rewrite mread_one by lia. cbn [rbind]. rewrite IH by lia. cbn [set_console console].
    destruct (lookup_lt_is_Some_2 data (Z.to_nat p)) as [x Hx]; [lia|]. rewrite (drop_S data x (Z.to_nat p) Hx). cbn [take].
    unfold at_. destruct (Z.leb_spec 0 p); [|lia]. rewrite Hx. cbn [default]. rewrite <- app_assoc.
    by replace (Z.to_nat (p + 1)) with (Datatypes.S (Z.to_nat p)) by lia.
Qed.
End Console.

(** ** Reading in order *)

(** A key comes from the keyboard, or a process reads; while the reader sleeps
    [ws] happens. *)
Inductive stdin_event := SKey (c : Z) | SRead (iob : iobuf) (ws : list wake).

Definition event_ok (e : stdin_event) : Prop :=
  match e with
  | SKey _ => True
  | SRead iob _ => 0 <= io_base iob /\ 0 <= io_resid iob /\ io_base iob + io_resid iob <= Z.of_nat (length (io_data iob))
  end.
Definition event_keys (e : stdin_event) : Z := match e with SKey _ => 1 | SRead _ ws => key_count ws end.

(** The driver: the answer and the buffer of each read, cut to what it says it
    has read. *)
Fixpoint stdin_run {D} (es : list stdin_event) (d : devs D) : res (list (list Z) * devs D) :=
  match es with
  | [] => Ok ([], d)
  | SKey c :: es => let! d := dev_stdin_write c d in stdin_run es d
  | SRead iob ws :: es =>
      let! (ret, iob', d) := stdin_io iob false (set_keys d ws) in
      let! (outs, d) := stdin_run es d in
      Ok (take (Z.to_nat ret) (drop (Z.to_nat (io_base iob)) (io_data iob')) :: outs, d)
  end.

(** The specification: what each read gets, what is left, all that was typed,
    and whether the queue was never full when a key came. *)
Fixpoint queue_run (es : list stdin_event) (q : list Z) : list (list Z) * list Z * list Z * bool :=
  match es with
  | [] => ([], q, [], true)
  | SKey c :: es =>
      let '(outs, q', cs, fits) := queue_run es (qput q c) in
      (outs, q', typed [c] ++ cs, bool_decide (Z.of_nat (length q) + Z.of_nat (length (typed [c])) <= 4096) && fits)
  | SRead iob ws :: es =>
      let '(got, q, cs, _) := queue_read (Z.to_nat (io_resid iob)) q ws in
      let '(outs, q', cs', fits) := queue_run es q in (got :: outs, q', cs ++ cs', bursts_fit ws && fits)
  end.

Lemma queue_run_fifo es : forall q outs q' cs, queue_run es q = (outs, q', cs, true) -> concat outs ++ q' = q ++ cs.
Proof.
  induction es as [|[c|iob ws] es IH]; intros q outs q' cs; cbn [queue_run].
  - intros [= <- <- <-]. by rewrite app_nil_r.
  - destruct (queue_run es (qput q c)) as [[[o q1] c1] f] eqn:E. intros [= <- <- <- [Hf ->]%andb_true_iff].
    apply bool_decide_eq_true in Hf. rewrite (IH _ _ _ _ E). change (qput q c) with (qkeys [c] q). rewrite qkeys_app by done.
    by rewrite <- app_assoc.
  - destruct (queue_read _ q ws) as [[[g q1] c1] w1] eqn:Er. destruct (queue_run es q1) as [[[o q2] c2] f] eqn:E.
    intros [= <- <- <- [Hf ->]%andb_true_iff]. cbn [concat]. rewrite <- app_assoc, (IH _ _ _ _ E).
    by rewrite app_assoc, (queue_read_fifo _ _ _ _ _ _ _ Hf Er), <- app_assoc.
Qed.

Lemma taken_inserts p got (l : list Z) : (p + length got <= length l)%nat -> take (length got) (drop p (list_inserts p got l)) = got.
Proof.
  intros H. apply list_eq. intros i. destruct (decide (i < length got)%nat) as [Hi|Hi].
  - rewrite lookup_take_lt, lookup_drop, list_lookup_inserts by lia. f_equal. lia.
  - rewrite lookup_take_ge by lia. symmetry. apply lookup_ge_None. lia.
Qed.

Lemma stdin_io_spec {D} (d : devs D) iob : stdin_ok d -> event_ok (SRead iob (keys d)) ->
  let '(got, q, _, _) := queue_read (Z.to_nat (io_resid iob)) (unread d) (keys d) in
  exists iob' d', stdin_io iob false d = Ok (Z.of_nat (length got), iob', d') /\
    io_data iob' = list_inserts (Z.to_nat (io_base iob)) got (io_data iob) /\ stdin_ok d' /\ unread d' = q /\
    p_wpos d' + key_count (keys d') <= p_wpos d + key_count (keys d) /\ (length got <= Z.to_nat (io_resid iob))%nat.
Proof.
  intros Hd (Hb & Hr & Hl). pose proof (stdin_read_spec (Z.to_nat (io_resid iob)) 0 (io_data iob) (io_base iob) d Hd Hb ltac:(lia)) as H.
  unfold delivers in H. destruct (queue_read _ _ _) as [[[got q] cs] ws] eqn:Eq. apply queue_read_length in Eq.
  destruct H as (d' & E & H1 & _ & _ & _ & H5 & _ & H7). unfold stdin_io. cbn [negb]. rewrite E. cbn [rbind]. rewrite Z.add_0_l.
  eexists _, d'. split; [reflexivity|]. split; [by destruct (0 <? _)|]. done.
Qed.

(** C16: Characters come out of the standard input in the order in which they
    were typed.  For every sequence of key presses and reads, with more keys and
    kills while a reader sleeps, the driver does what a queue of at most 4096
    characters does: a NUL is ignored, a read takes from the front, sleeps only
    on an empty queue, and returns when it has all it asked for or was killed.
    As long as no key comes while 4096 characters are unread, what the readers
    got and what is left is all that was typed, in order; a key that does come
    then replaces the oldest character.  The reads have their buffers, there is
    one reader at a time, and fewer than 2^31 keys are pressed. *)
Theorem stdin_read_fifo {D} (es : list stdin_event) (d : devs D) : stdin_ok d -> Forall event_ok es ->
  p_wpos d + key_count (keys d) + foldr (fun e n => event_keys e + n) 0 es < 2147483648 ->
  let '(outs, q, cs, fits) := queue_run es (unread d) in
  exists d', stdin_run es d = Ok (outs, d') /\ unread d' = q /\ stdin_ok d' /\
    (fits = true -> concat outs ++ unread d' = unread d ++ cs).
Proof.
  intros Hd Hok Hb. destruct (queue_run es (unread d)) as [[[outs q] cs] fits] eqn:Eq.
  enough (exists d', stdin_run es d = Ok (outs, d') /\ unread d' = q /\ stdin_ok d') as (d' & E & <- & Hd').
  { exists d'. split; [done|]. split; [done|]. split; [done|]. intros ->. by apply queue_run_fifo in Eq. }
  revert d outs q cs fits Hd Hb Eq. induction Hok as [|e es He Hok IH]; intros d outs q cs fits Hd Hb; cbn [queue_run stdin_run].
  { intros [= <- <- <- <-]. by exists d. }
  assert (H0 : 0 <= foldr (fun e n => event_keys e + n) 0 es).
  { clear. induction es as [|[c|iob ws] es IH]; cbn; [lia..|]. pose proof (key_count_nonneg ws). lia. }
  cbn [foldr] in Hb. destruct e as [c|iob ws]; cbn [event_keys] in Hb.
  - destruct (stdin_write_Ok d c Hd) as (d1 & -> & Hd1 & Hu1 & Hk1 & Hw1 & _); [lia|]. cbn [rbind].
    destruct (queue_run es (qput (unread d) c)) as [[[o q1] c1] f] eqn:E. intros [= <- <- <- <-]. rewrite <- Hu1 in E.
    eapply IH; [done| |exact E]. rewrite Hk1. lia.
  - pose proof (key_count_nonneg ws) as Hk. pose proof (key_count_nonneg (keys d)).
    assert (Hd0 : stdin_ok (set_keys d ws)) by (destruct Hd; split; cbn; (done || lia)).
    pose proof (stdin_io_spec (set_keys d ws) iob Hd0 He) as Hr. change (unread (set_keys d ws)) with (unread d) in Hr.
    change (keys (set_keys d ws)) with ws in Hr. destruct (queue_read _ (unread d) ws) as [[[g q1] c1] w1].
    destruct Hr as (iob' & d1 & E1 & Ed & Hd1 & Hu1 & Hw1 & Hg). rewrite E1. cbn [rbind]. cbn [set_keys p_wpos keys] in Hw1.
    destruct (queue_run es q1) as [[[o q2] c2] f] eqn:E. intros [= <- <- <- <-]. rewrite <- Hu1 in E.
    destruct (IH d1 o q2 c2 f Hd1) as (d2 & -> & Hu2 & Hd2); [lia|done|]. cbn [rbind].
    exists d2. split; [|done]. rewrite Ed, Nat2Z.id. cbn in He. by rewrite taken_inserts by lia.
Qed.

Definition demo_stdin : devs disk0 :=
  mk_devs ∅ (replicate (Z.to_nat 4096) 0) 4095 4095 [] [] (mk_disk0 0 0 (fun _ => 0) []).
Definition demo_keys : list stdin_event :=
  [SKey 104; SKey 0; SRead (iobuf_init [0; 0; 0] 0 3 0) [Keys [0]; Keys [105; 33; 10]]; SKey 111;
   SRead (iobuf_init [0; 0; 0; 0] 1 3 0) [Killed]].

Lemma stdin_read_fifo_witness : exists d', stdin_run demo_keys demo_stdin = Ok ([[104; 105; 33]; [10; 111]], d') /\ unread d' = [].
Proof.
  destruct (stdin_read_fifo demo_keys demo_stdin) as (d' & E & Eu & _).
  - split; vm_compute; try done; split; discriminate.
  - repeat constructor; cbn; try done; lia.
  - reflexivity.
  - exists d'. split; [exact E|exact Eu].
Defined.

(** The 4097th key is read first. *)
Definition full_keys : list stdin_event :=
  replicate (Z.to_nat 4096) (SKey 97) ++ [SKey 98; SRead (iobuf_init [0; 0] 0 2 0) []].
Example stdin_overtakes : match stdin_run full_keys demo_stdin with Ok (outs, _) => Some outs | Err _ => None end = Some [[98; 97]].
Proof. vm_compute. reflexivity. Qed.

(** ** A device inode

    In any state that the devices are part of. *)

(** What an operation on a device leaves of the drivers. *)
Record devs_next {D} (d d' : devs D) : Prop := {
  dx_info : dev_info d' = dev_info d;
  dx_disk : disk d' = disk d;
  dx_stdin : stdin_ok d'
}.

Section DevNode.
  Context {F D : Type} `{!BlockDev D, !HasDevs F D}.
  Implicit Types (v : vfs F) (n : Z).

Record dev_node v n (i : inode) : Prop := {
    dn_type : in_type i = inode_type_device_info;
    dn_fs : in_fs i = 0;
    dn_ops : in_ops i = dev_node_ops;
    dn_vdev : exists d, d ∈ vdev_list v /\ devnode d = n;
    dn_info : exists dev, dev_info (devs_of v) !! n = Some dev /\ (0 < dv_blocks dev -> dv_blocksize dev = 4096)
  }.

  (** The inode of the disk is for the file system that is mounted on it. *)
Definition dev_can v n (iob : iobuf) : Prop :=
    iob_ok iob /\ forall dev, dev_info (devs_of v) !! n = Some dev -> dv_driver dev <> DDisk0.

Definition served {A} v (m : res (A * vfs F)) (P : A -> Prop) : Prop :=
    exists a d, m = Ok (a, set_devs v d) /\ devs_next (devs_of v) d /\ P a.

Lemma set_devs_id v : set_devs v (devs_of v) = v.
  Proof. unfold set_devs, devs_of, set_fsd. rewrite put_get. by destruct v. Qed.

Lemma served_same {A} v (a : A) (P : A -> Prop) : stdin_ok (devs_of v) -> P a -> served v (Ok (a, v)) P.
  Proof. intros Hs Hp. exists a, (devs_of v). rewrite set_devs_id. by split. Qed.

  Context v n i (Hn : n <> 0) (Hi : inodes v !! n = Some i) (Hd : dev_node v n i) (Hs : stdin_ok (devs_of v)).

Lemma dev_info_Ok : exists dev, dev_info (devs_of v) !! n = Some dev /\ (0 < dv_blocks dev -> dv_blocksize dev = 4096) /\
    dev_vop_info n v = Ok dev.
  Proof.
    destruct Hd as [Ht _ _ _ (dev & Ed & Hb)]. exists dev. split; [done|]. split; [done|].
    unfold dev_vop_info, get_inode. destruct (Z.eqb_spec n 0); [done|]. cbn [negb rassert rbind].
    rewrite Hi. cbn [rget rbind]. by rewrite Ht, Ed.
  Qed.

Lemma dev_open_Ok fl : served v (dev_open n fl v) (fun _ => True).
  Proof.
    unfold dev_open. destruct (_ || _); [by apply served_same|].
    destruct dev_info_Ok as (dev & _ & _ & ->). by apply served_same.
  Qed.

Lemma dev_close_Ok : served v (dev_close n v) (fun _ => True).
  Proof. unfold dev_close. destruct dev_info_Ok as (dev & _ & _ & ->). by apply served_same. Qed.

Lemma dev_rw_Ok w iob : dev_can v n iob ->
    served v (dev_rw w n iob v) (fun a => iob_next iob a.2 /\ (w = true -> io_data a.2 = io_data iob)).
  Proof.
    intros [(Hb & Hr & Hl) Hc]. destruct dev_info_Ok as (dev & Ed & _ & Ei). unfold dev_rw. rewrite Ei. cbn [rbind].
    unfold dev_io. specialize (Hc dev Ed). destruct (dv_driver dev); [| |done].
    - unfold stdin_io. destruct w; cbn [negb rbind].
      + rewrite set_devs_id. apply served_same; [done|]. by split; [apply iob_next_refl|].
      + pose proof (stdin_read_spec (Z.to_nat (io_resid iob)) 0 (io_data iob) (io_base iob) (devs_of v) Hs Hb ltac:(lia)) as Hrd.
        unfold delivers in Hrd. destruct (queue_read _ _ _) as [[[got q] cs] ws] eqn:Eq. apply queue_read_length in Eq.
        destruct Hrd as (d' & -> & H1 & H2 & H3 & _). cbn [rbind]. eexists _, d'. split; [done|]. split; [by split|]. split; [|done]. cbn [snd].
        assert (Hg : Z.of_nat (length got) <= io_resid iob) by lia.
        destruct (Z.ltb_spec 0 (0 + Z.of_nat (length got))).
        * split; cbn [set_io_data io_len io_resid io_data io_base]; [done| lia|by rewrite length_inserts|].
          intros p Hp. rewrite at_inserts by lia.
          destruct (Z.leb_spec (io_base iob) p), (Z.ltb_spec p (io_base iob + Z.of_nat (length got))); (done || lia).
        * destruct got; [|cbn in *; lia]. split; cbn; (done || lia).
    - unfold stdout_io. destruct w; cbn [rbind].
      + rewrite stdout_loop_spec by lia. cbn [rbind]. eexists _, _. split; [done|]. split; [by split; [..|by destruct Hs]|].
        split; [|done]. split; cbn; (done || lia).
      + rewrite set_devs_id. apply served_same; [done|]. by split; [apply iob_next_refl|].
  Qed.

Lemma dev_gettype_Ok : served v (dev_gettype n v) (fun a => S_ISDIR a.2 = false).
  Proof.
    unfold dev_gettype. destruct dev_info_Ok as (dev & _ & _ & ->). apply served_same; [done|]. by destruct (0 <? dv_blocks dev).
  Qed.

Lemma dev_fstat_Ok : served v (dev_fstat n v) (fun _ => True).
  Proof.
    unfold dev_fstat, dev_gettype. destruct dev_info_Ok as (dev & _ & _ & Ei). rewrite Ei. cbn [rbind negb Z.eqb].
    rewrite Ei. cbn [rbind]. by apply served_same.
  Qed.

Lemma dev_tryseek_Ok pos : served v (dev_tryseek n pos v) (fun _ => True).
  Proof.
    unfold dev_tryseek. destruct dev_info_Ok as (dev & _ & Hb & ->). cbn [rbind].
    destruct (Z.ltb_spec 0 (dv_blocks dev)); [|by apply served_same]. rewrite Hb by done. cbn [Z.eqb Pos.eqb rassert rbind].
    destruct (_ && _); by apply served_same.
  Qed.

  (** [vop_lookup] of a device hands back the device itself. *)
Lemma dev_lookup_Ok path : dev_lookup n path v =
    if bool_decide (path = []) then Ok (0, n, put_inode n (set_ref i (ref_count i + 1)) v) else Ok (- E_NOENT, 0, v).
  Proof.
    unfold dev_lookup. case_bool_decide; cbn [negb]; [|done].
    unfold inode_ref_inc, get_inode. destruct (Z.eqb_spec n 0); [done|]. by rewrite Hi.
  Qed.
End DevNode.

(** Reading the table of a device inode. *)
Lemma dev_op_Some {A} (g f : A) ops : dev_op g ops = Some f -> f = g.
Proof. unfold dev_op. destruct (ops =? dev_node_ops); congruence. Qed.

Lemma dev_node_put {F D} `{!HasDevs F D} (v : vfs F) n i i' m j : inodes v !! n = Some i ->
  in_type i' = in_type i -> in_fs i' = in_fs i -> in_ops i' = in_ops i ->
  (forall k, inodes v !! m = Some k -> dev_node v m k) -> inodes (put_inode n i' v) !! m = Some j -> dev_node (put_inode n i' v) m j.
Proof.
  intros E Ht Hf Ho Hm. cbn [put_inode set_inodes inodes]. destruct (decide (m = n)) as [->|Hne].
  - rewrite lookup_insert_eq. intros [= <-]. destruct (Hm i E). split; congruence || done.
  - rewrite lookup_insert_ne by done. intros Ej. destruct (Hm j Ej). by split.
Qed.

Lemma held_base {F D} `{!HasDevs F D} (v : vfs F) n i : n <> 0 -> dev_node v n i -> 0 < base v n.
Proof.
  intros Hn [_ _ _ (d & Hd & Hdn) _]. unfold base.
  assert (Hin : d ∈ filter (fun e => devnode e = n /\ n <> 0) (vdev_list v)) by (by apply list_elem_of_filter).
  destruct (filter _ (vdev_list v)); [by apply not_elem_of_nil in Hin|]. cbn [length]. case_bool_decide; lia.
Qed.

Lemma ref_moves {F} (v : vfs F) n i : inodes v !! n = Some i -> moves v (one n) none (put_inode n (set_ref i (ref_count i + 1)) v).
Proof.
  intros E. eapply moves_ext; [by apply (put_moves v n i)|..]; intros m; unfold one, none; cbn; destruct (m =? n); lia.
Qed.

(** ** The laws of the interface *)

Section DevLaws.
  Context {D : Type} `{!BlockDev D}.
  Implicit Types v : vfs (devs D).

Record dev_inv v : Prop := {
    di_null : inodes v !! 0 = None;
    di_node : forall n i, inodes v !! n = Some i -> dev_node v n i;
    di_vdev : forall d, d ∈ vdev_list v -> devnode d <> 0 /\ dev_fs d = 0 /\ is_Some (inodes v !! devnode d);
    di_stdin : stdin_ok (devs_of v)
  }.

Lemma dev_inv_alive v n : dev_inv v -> alive v n -> exists i, n <> 0 /\ inodes v !! n = Some i /\ dev_node v n i /\ opsof v n = dev_node_ops.
  Proof.
    intros Hv Ha. destruct (alive_get v n Ha) as (i & E & _). exists i. pose proof (di_node v Hv n i E) as Hd.
    split; [|split; [done|split; [done|]]]; [intros ->; by rewrite (di_null v Hv) in E|]. unfold opsof. rewrite E. apply Hd.
  Qed.

Lemma dev_inv_next v d : dev_inv v -> devs_next (devs_of v) d -> dev_inv (set_devs v d) /\ moves v none none (set_devs v d).
  Proof.
    intros [H1 H2 H3 H4] [Hi Hk Hs]. split.
    - split; try done. intros n i E. destruct (H2 n i E). split; try done. cbn in *. by rewrite Hi.
    - split; try done; intros n; unfold none; cbn; unfold refc, openc; cbn; lia.
  Qed.

Lemma served_runs {A} v m (P : A -> Prop) : dev_inv v -> served v m P ->
    runs m (fun a v' => P a /\ dev_inv v' /\ moves v none none v').
  Proof. intros Hv (a & d & -> & Hn & Hp). exists a, (set_devs v d). split; [done|]. split; [done|]. by apply dev_inv_next. Qed.

Lemma dev_inv_put v n i i' : dev_inv v -> inodes v !! n = Some i ->
    in_type i' = in_type i -> in_fs i' = in_fs i -> in_ops i' = in_ops i -> dev_inv (put_inode n i' v).
  Proof.
    intros [H1 H2 H3 H4] E Ht Hf Ho. split; [| | |done].
    - cbn. destruct (decide (n = 0)) as [->|]; [congruence|by rewrite lookup_insert_ne].
    - intros m j. by apply (dev_node_put v n i); [done..|]; intros k; apply H2.
    - intros d Hd. destruct (H3 d Hd) as (G5 & G6 & G7). split; [done|]. split; [done|]. cbn.
      destruct (decide (devnode d = n)) as [->|]; [rewrite lookup_insert_eq; eauto|by rewrite lookup_insert_ne].
  Qed.

Lemma runs_mono {A} (m : res (A * vfs (devs D))) (P Q : A -> vfs (devs D) -> Prop) : runs m P -> (forall a v, P a v -> Q a v) -> runs m Q.
  Proof. intros (a & v & E & H) HPQ. exists a, v. split; [done|]. by apply HPQ. Qed.

End DevLaws.

#[export] Instance dev_laws {D} `{!BlockDev D} : InodeLaws (devs D).
Proof.
  refine {| vinv := dev_inv; can_read := dev_can; can_write := dev_can; can_getdirentry := fun _ _ _ => True; can_seek := fun _ _ _ => True;
    can_lookup := fun _ => True; can_root := fun _ => True |};
    try (intros; done).
  - intros v Hv. apply Hv.
  - apply dev_inv_put.
  - intros v n Hv Ha. destruct (dev_inv_alive v n Hv Ha) as (i & Hn & E & Hd & ->). do 5 (split; [done|]). intros _.
    by apply (held_base v n i).
  - intros v d Hv Hd Hm Hf. destruct (di_vdev v Hv d Hd) as (Hn & _ & i & E). split; [done|].
    unfold dirlike, opsof. rewrite E, (dn_ops _ _ _ (di_node v Hv _ i E)). done.
  - intros v n f fl Hv Ha E. apply dev_op_Some in E as ->. destruct (dev_inv_alive v n Hv Ha) as (i & Hn & E & Hd & _).
    eapply runs_mono; [by eapply served_runs, dev_open_Ok; [..|apply Hv]|]. by intros a v' [_ H].
  - intros v n f Hv Ha _ E. apply dev_op_Some in E as ->. destruct (dev_inv_alive v n Hv Ha) as (i & Hn & E & Hd & _).
    eapply runs_mono; [by eapply served_runs, dev_close_Ok; [..|apply Hv]|]. by intros a v' [_ H].
  - intros v n f iob Hv Ha E Hc. apply dev_op_Some in E as ->. destruct (dev_inv_alive v n Hv Ha) as (i & Hn & E & Hd & _).
    eapply runs_mono; [by eapply served_runs, dev_rw_Ok; [..|apply Hv|exact Hc]|]. by intros a v' [[H1 _] H].
  - intros v n f iob Hv Ha E Hc. apply dev_op_Some in E as ->. destruct (dev_inv_alive v n Hv Ha) as (i & Hn & E & Hd & _).
    eapply runs_mono; [by eapply served_runs, dev_rw_Ok; [..|apply Hv|exact Hc]|]. intros a v' [[H1 H2] H]. by split; [split; [|apply H2]|].
  - intros v n f Hv Ha _ E. apply dev_op_Some in E as ->. destruct (dev_inv_alive v n Hv Ha) as (i & Hn & E & Hd & _).
    eapply runs_mono; [by eapply served_runs, dev_fstat_Ok; [..|apply Hv]|]. intros a v' [_ [H1 H2]]. by split_and!.
  - intros v n f Hv Ha E. apply dev_op_Some in E as ->. destruct (dev_inv_alive v n Hv Ha) as (i & Hn & E & Hd & _).
    eapply runs_mono; [by eapply served_runs, dev_gettype_Ok; [..|apply Hv]|]. intros a v' (H0 & H1 & H2). split_and!; try done. congruence.
  - intros v n f pos Hv Ha _ E _. apply dev_op_Some in E as ->. destruct (dev_inv_alive v n Hv Ha) as (i & Hn & E & Hd & _).
    eapply runs_mono; [by eapply served_runs, dev_tryseek_Ok; [..|apply Hv]|]. by intros a v' [_ H].
  - intros v n f path Hv Ha E _. apply dev_op_Some in E as ->. destruct (dev_inv_alive v n Hv Ha) as (i & Hn & E & Hd & _).
    rewrite (dev_lookup_Ok v n i) by done. case_bool_decide.
    + eexists (0, n), _. split; [done|]. cbn. split; [by apply (dev_inv_put v n i)|]. split; [done|]. by apply ref_moves.
    + exists (- E_NOENT, 0), v. split; [done|]. cbn. split; [done|]. apply moves_refl.
  - intros v fs Hv [Hfs [(d & Hd & Ef)|(n & i & E & _ & Ef)]] _.
    + destruct (di_vdev v Hv d Hd) as (_ & H0 & _). congruence.
    + pose proof (dn_fs _ _ _ (di_node v Hv n i E)). congruence.
Defined.

(** ** Registering the devices *)

Lemma filter_none {A} (P : A -> Prop) `{!forall x, Decision (P x)} (l : list A) : (forall x, x ∈ l -> ~ P x) -> filter P l = [].
Proof.
  intros Hno. destruct (filter P l) as [|x k] eqn:E; [done|]. assert (Hx : x ∈ filter P l) by (rewrite E; by left).
  apply list_elem_of_filter in Hx as [Hp Hx]. by destruct (Hno x Hx).
Qed.

Section Register.
  Context {F D : Type} `{!BlockDev D, !HasDevs F D}.
  Implicit Types v : vfs F.

  (** What an initialised kernel has: the devices, each known to the list
      once and referenced by it, and nothing else. *)
Record registered v : Prop := {
    rg_null : inodes v !! 0 = None;
    rg_node : forall n i, inodes v !! n = Some i -> i = mk_inode inode_type_device_info 1 0 0 dev_node_ops /\ dev_node v n i;
    rg_vdev : forall d, d ∈ vdev_list v -> devnode d <> 0 /\ dev_fs d = 0 /\ is_Some (inodes v !! devnode d);
    rg_once : NoDup (devnode <$> vdev_list v);
    rg_boot : bootfs_node v = 0;
    rg_stdin : stdin_ok (devs_of v)
  }.

Lemma registered_refs v n : registered v -> openc v n = 0 /\ base v n <= refc v n /\ refc v n <= 1.
  Proof.
    intros [H1 H2 H3 H4 H5 H6]. unfold openc, refc, base. rewrite H5.
    destruct (inodes v !! n) as [i|] eqn:E.
    - destruct (H2 n i E) as [-> _]. cbn [ref_count open_count].
      assert (Hn : n <> 0) by (intros ->; congruence).
      assert (Hl : Z.of_nat (length (filter (fun e => devnode e = n /\ n <> 0) (vdev_list v))) <= 1).
      { revert H4. clear. induction (vdev_list v) as [|d l IH]; [cbn; lia|]. cbn [fmap list_fmap]. intros [Hd Hl]%NoDup_cons.
        specialize (IH Hl). rewrite filter_cons. destruct (decide (devnode d = n /\ n <> 0)) as [[Hdn _]|]; [|done]. cbn [length].
        enough (filter (fun e => devnode e = n /\ n <> 0) l = []) as -> by (cbn; lia).
        apply filter_none. intros e He [Hen _]. apply Hd, list_elem_of_fmap. exists e. split; [congruence|done]. }
      rewrite bool_decide_false by (intros [? ?]; congruence). lia.
    - assert (Hl : filter (fun e => devnode e = n /\ n <> 0) (vdev_list v) = []).
      { apply filter_none. intros d Hd [Hn _]. destruct (H3 d Hd) as (_ & _ & i & Ei). congruence. }
      rewrite Hl. case_bool_decide; cbn; lia.
  Qed.

Lemma dev_init_one_Ok v addr init name m dev d : registered v -> addr <> 0 -> inodes v !! addr = None ->
  check_devname_conflict name (vdev_list v) = true -> Z.of_nat (length name) <= FS_MAX_DNAME_LEN ->
  init addr (devs_of v) = Ok d -> dev_info d = <[addr := dev]> (dev_info (devs_of v)) -> (0 < dv_blocks dev -> dv_blocksize dev = 4096) ->
  stdin_ok d ->
  exists v', dev_init_one true addr init name m v = Ok v' /\ registered v' /\ devs_of v' = d /\
    inodes v' = <[addr := mk_inode inode_type_device_info 1 0 0 dev_node_ops]> (inodes v) /\
    vdev_list v' = mk_vfs_dev name addr 0 m :: vdev_list v /\ fsd v' = put_devs d (fsd v).
Proof.
  intros [H1 H2 H3 H4 H5 H6] Ha Hn Hc Hl Hi Hd Hbs Hs.
  unfold dev_init_one, dev_create_inode, __alloc_inode. destruct (Z.eqb_spec addr 0); [done|]. destruct (Z.eqb_spec addr 0); [done|].
  cbn [negb]. unfold inode_init, inode_ref_inc, get_inode. destruct (Z.eqb_spec addr 0); [done|].
  cbn [put_inode set_inodes inodes]. rewrite !lookup_insert_eq. cbn [rget rbind in_type ref_count put_inode set_inodes inodes].
  rewrite lookup_insert_eq. cbn [rget rbind]. unfold put_inode, set_inodes. cbn [inodes vdev_list bootfs_node]. rewrite !insert_insert_eq. destruct (Z.eqb_spec addr 0); [done|].
  unfold devs_of at 1. cbn [fsd]. fold (devs_of v). rewrite Hi. cbn [rbind]. unfold vfs_add_dev, vfs_do_add, set_devs, set_fsd. destruct (Z.eqb_spec addr 0); [done|].
  unfold get_inode. destruct (Z.eqb_spec addr 0); [done|]. cbn [inodes vdev_list bootfs_node]. rewrite lookup_insert_eq. cbn [rget rbind set_ref in_type].
  rewrite Z.eqb_refl. cbn [rassert rbind]. destruct (Z.ltb_spec FS_MAX_DNAME_LEN (Z.of_nat (length name))); [lia|].
  cbn [negb orb]. rewrite Hc. cbn [negb rbind Z.eqb]. eexists. split; [reflexivity|].
  unfold set_ref. cbn [in_type open_count in_fs in_ops ref_count]. change (0 + 1) with 1.
  assert (Hnew : forall e, e ∈ vdev_list v -> devnode e <> addr).
  { intros e He E. destruct (H3 e He) as (_ & _ & i & Ei). congruence. }
  split; [|split; [unfold devs_of; cbn; apply get_put|done]].
  split; cbn [set_vdevs inodes vdev_list fsd bootfs_node]; try done.
  - by rewrite lookup_insert_ne.
  - intros k i. destruct (decide (k = addr)) as [->|Hne].
    + rewrite lookup_insert_eq. intros [= <-]. split; [done|]. split; try done.
      * exists (mk_vfs_dev name addr 0 m). split; [by left|done].
      * exists dev. unfold devs_of. cbn. rewrite get_put, Hd. by rewrite lookup_insert_eq.
    + rewrite lookup_insert_ne by done. intros E. destruct (H2 k i E) as [Ei [G1 G2 G3 (e & He & Ee) (dv & Ed & G5)]].
      split; [done|]. split; try done.
      * exists e. split; [by right|done].
      * exists dv. unfold devs_of. cbn. rewrite get_put, Hd. by rewrite lookup_insert_ne.
  - intros e He. apply elem_of_cons in He as [->|He]; [cbn; rewrite lookup_insert_eq; eauto|].
    destruct (H3 e He) as (G1 & G2 & G3). split_and!; try done. rewrite lookup_insert_ne; [done|]. intros E. by apply (Hnew e He).
  - cbn. apply NoDup_cons. split; [|done]. intros (e & Ee & He)%list_elem_of_fmap. by apply (Hnew e He).
  - unfold devs_of. cbn. by rewrite get_put.
Qed.

(** The state before the devices are registered. *)
Lemma registered_empty (f : F) : stdin_ok (get_devs f) -> registered (mk_vfs ∅ 0 [] f).
Proof.
  intros Hs. split; try done.
  - intros d Hd. by apply not_elem_of_nil in Hd.
  - constructor.
Qed.

(** [dev_init] on distinct addresses registers the three devices. *)
Lemma dev_init_spec a1 a2 a3 dinit k (f : F) : a1 <> 0 -> a2 <> 0 -> a3 <> 0 -> NoDup [a1; a2; a3] -> stdin_ok (get_devs f) ->
  dinit (disk (get_devs f)) = Ok k -> (0 < d_blocks k -> d_blocksize k = 4096) ->
  exists v, dev_init true a1 a2 a3 dinit (mk_vfs ∅ 0 [] f) = Ok v /\ registered v /\
    vdev_list v = [mk_vfs_dev name_disk0 a3 0 true; mk_vfs_dev name_stdout a2 0 false; mk_vfs_dev name_stdin a1 0 false] /\
    fsd v = put_devs (devs_of v) f /\
    unread (devs_of v) = [] /\ keys (devs_of v) = keys (get_devs f) /\ disk (devs_of v) = k /\
    dev_info (devs_of v) = <[a3 := mk_device (d_blocks k) (d_blocksize k) DDisk0]> (<[a2 := mk_device 0 1 DStdout]> (<[a1 := mk_device 0 1 DStdin]> (dev_info (get_devs f)))).
Proof.
  intros H1 H2 H3 Hnd Hs Hk Hbs. apply NoDup_cons in Hnd as [Hn1 Hnd]. apply NoDup_cons in Hnd as [Hn2 _].
  apply not_elem_of_cons in Hn1 as [H12 H13]. apply not_elem_of_cons in H13 as [H13 _]. apply not_elem_of_cons in Hn2 as [H23 _].
  set (d0 := get_devs f) in *. assert (Hs1 : stdin_ok (stdin_device_init a1 d0)).
  { destruct Hs as [G1 G2 G3 G4]. split; cbn; (done || lia). }
  unfold dev_init, dev_init_stdin, dev_init_stdout, dev_init_disk0.
  destruct (dev_init_one_Ok (mk_vfs ∅ 0 [] f) a1 (fun node d => Ok (stdin_device_init node d)) name_stdin false (mk_device 0 1 DStdin)
    (stdin_device_init a1 d0)) as (v1 & -> & Hg1 & Ef1 & Ei1 & El1 & Eg1); try done; [by apply registered_empty|].
  cbn [rbind]. cbn [inodes vdev_list] in Ei1, El1.
  destruct (dev_init_one_Ok v1 a2 (fun node d => Ok (stdout_device_init node d)) name_stdout false (mk_device 0 1 DStdout)
    (stdout_device_init a2 (devs_of v1))) as (v2 & -> & Hg2 & Ef2 & Ei2 & El2 & Eg2); try done.
  { by rewrite Ei1, lookup_insert_ne. }
  { by rewrite El1. }
  { rewrite Ef1. by destruct Hs1. }
  cbn [rbind].
  assert (Ed2 : disk (devs_of v2) = disk d0) by (by rewrite Ef2, Ef1).
  destruct (dev_init_one_Ok v2 a3 (fun node d =>
      let! k := dinit (disk d) in
      Ok (set_disk (set_dev_info d (<[node := mk_device (d_blocks k) (d_blocksize k) DDisk0]> (dev_info d))) k)) name_disk0 true
    (mk_device (d_blocks k) (d_blocksize k) DDisk0)
    (set_disk (set_dev_info (devs_of v2) (<[a3 := mk_device (d_blocks k) (d_blocksize k) DDisk0]> (dev_info (devs_of v2)))) k))
    as (v3 & -> & Hg3 & Ef3 & Ei3 & El3 & Eg3); try done.
  { by rewrite Ei2, Ei1, !lookup_insert_ne. }
  { by rewrite El2, El1. }
  { by rewrite Ed2, Hk. }
  { rewrite Ef2, Ef1. by destruct Hs1. }
  exists v3. split; [done|]. split; [done|]. split; [by rewrite El3, El2, El1|].
  split; [by rewrite Ef3, Eg3, Eg2, Eg1, !put_put|]. rewrite Ef3, Ef2, Ef1. done.
Qed.
End Register.

Lemma registered_good {D} `{!BlockDev D} (v : vfs (devs D)) : registered v -> vgood v none none.
Proof.
  intros Hr. assert (Hrefs : forall n, openc v n = 0 /\ base v n <= refc v n /\ refc v n <= 1) by (intros n; by apply registered_refs).
  destruct Hr as [H1 H2 H3 H4 H5 H6]. split.
  - split; try done. intros n i E. by apply H2.
  - intros n. apply Hrefs.
  - intros n. unfold none. destruct (Hrefs n). lia.
  - done.
  - intros n. destruct (Hrefs n). unfold MAX_INODE_COUNT. lia.
Qed.
