(* ===== verification/FileInv.v ===== *)
(** * The tables of open files: what holds between two steps

    [fok]: every table has as many users as processes hold it, every entry
    counts its opener and the calls in flight on it, and the reference and
    open counts of an inode are exactly what the entries (and the current
    directories) account for.  [ps] is the list of the processes, each with
    the address of its table and, when it is inside a call, the descriptor
    that the call holds. *)
From S2P Require Import Prelude IoBuf Vfs File VfsInv.

(** ** Sums over lists and tables *)

Section Sums.
  Context {A : Type}.
  Implicit Types (l : list A) (m : gmap Z A).

Fixpoint lsum (g : A -> Z) l : Z := match l with [] => 0 | a :: l => g a + lsum g l end.

Lemma lsum_insert g l k a b : l !! k = Some a -> lsum g (<[k := b]> l) = lsum g l - g a + g b.
  Proof.
    revert k. induction l as [|c l IH]; intros [|k]; cbn [lsum lookup list_lookup]; try done.
    - intros [= ->]. cbn. lia.
    - intros E. change (<[Datatypes.S k := b]> (c :: l)) with (c :: <[k := b]> l). cbn [lsum]. rewrite (IH k E). lia.
  Qed.

Lemma lsum_delete g l k a : l !! k = Some a -> lsum g (delete k l) = lsum g l - g a.
  Proof.
    revert k. induction l as [|c l IH]; intros [|k]; cbn [lsum lookup list_lookup]; try done.
    - intros [= ->]. cbn. lia.
    - intros E. change (delete (Datatypes.S k) (c :: l)) with (c :: delete k l). cbn [lsum]. rewrite (IH k E). lia.
  Qed.

Lemma lsum_app g l l' : lsum g (l ++ l') = lsum g l + lsum g l'.
  Proof. induction l as [|a l IH]; cbn; [done|]. rewrite IH. lia. Qed.

Lemma lsum_le g h l : (forall a, g a <= h a) -> lsum g l <= lsum h l.
  Proof. intros H. induction l as [|a l IH]; cbn; [done|]. specialize (H a). lia. Qed.

Lemma lsum_nonneg g l : (forall a, 0 <= g a) -> 0 <= lsum g l.
  Proof. intros H. induction l as [|a l IH]; cbn; [done|]. specialize (H a). lia. Qed.

Lemma lsum_zero g l : (forall a, a ∈ l -> g a = 0) -> lsum g l = 0.
  Proof.
    induction l as [|a l IH]; intros H; [done|]. cbn [lsum]. rewrite (H a) by left. apply IH. intros b Hb. apply H. by right.
  Qed.

Lemma lsum_ge g l k a : (forall a, 0 <= g a) -> l !! k = Some a -> g a <= lsum g l.
  Proof.
    intros H E. pose proof (lsum_delete g l k a E). pose proof (lsum_nonneg g (delete k l) H). lia.
  Qed.

Definition tsum (g : Z -> A -> Z) m : Z := map_fold (fun p a acc => g p a + acc) 0 m.

Lemma tsum_insert g m p a : m !! p = None -> tsum g (<[p := a]> m) = g p a + tsum g m.
  Proof. intros E. unfold tsum. rewrite map_fold_insert_L; [done| |done]. intros. lia. Qed.

Lemma tsum_delete g m p a : m !! p = Some a -> tsum g m = g p a + tsum g (delete p m).
  Proof. intros E. rewrite <- (insert_delete_id m p a E) at 1. apply tsum_insert, lookup_delete_eq. Qed.

Lemma tsum_update g m p a b : m !! p = Some a -> tsum g (<[p := b]> m) = tsum g m - g p a + g p b.
  Proof.
    intros E. rewrite (tsum_delete g m p a E), <- insert_delete_eq, tsum_insert by apply lookup_delete_eq. lia.
  Qed.

Lemma tsum_mono g h m : (forall p a, m !! p = Some a -> g p a <= h p a) -> tsum g m <= tsum h m.
  Proof.
    induction m as [|p a m E IH] using map_ind; [done|]. intros H. rewrite !tsum_insert by done.
    pose proof (H p a (lookup_insert_eq _ _ _)). enough (tsum g m <= tsum h m) by lia. apply IH. intros q b Eb.
    apply H. rewrite lookup_insert_ne; [done|]. intros ->. congruence.
  Qed.

Lemma tsum_ext g h m : (forall p a, m !! p = Some a -> g p a = h p a) -> tsum g m = tsum h m.
  Proof. intros H. apply Z.le_antisymm; apply tsum_mono; intros p a E; rewrite (H p a E); lia. Qed.

Lemma tsum_nonneg g m : (forall p a, 0 <= g p a) -> 0 <= tsum g m.
  Proof.
    intros H. induction m as [|p a m E IH] using map_ind; [done|]. rewrite tsum_insert by done. specialize (H p a). lia.
  Qed.

Lemma tsum_ge g m p a : (forall p a, 0 <= g p a) -> m !! p = Some a -> g p a <= tsum g m.
  Proof. intros H E. rewrite (tsum_delete g m p a E). pose proof (tsum_nonneg g (delete p m) H). lia. Qed.
End Sums.

(** ** Who holds what *)


Definition ent n (f : file) : Z := match status f with FD_OPENED | FD_CLOSED => one (node f) n | _ => 0 end.
Definition fds n (fs : files) : Z := lsum (ent n) (fd_array fs).
(** The current directory's reference; table [x] has lost its own. *)
Definition wd (x : option Z) n p (fs : files) : Z := if bool_decide (x = Some p) then 0 else own (pwd fs) n.
Definition users (ps : list (Z * option Z)) p : Z := lsum (fun a => if bool_decide (a.1 = p) then 1 else 0) ps.
Definition hold (ps : list (Z * option Z)) p i : Z := lsum (fun a => if bool_decide (a = (p, Some i)) then 1 else 0) ps.

(** [h]: the calls in flight on the entry. *)
Definition entry_ok (h : Z) (f : file) : Prop :=
  match status f with
  | FD_NONE => fopen_count f = 0 /\ h = 0
  | FD_INIT => False
  | FD_OPENED => fopen_count f = 1 + h /\ node f <> 0
  | FD_CLOSED => fopen_count f = h /\ 0 < h /\ node f <> 0
  end.

Lemma ent_nonneg n f : 0 <= ent n f.
Proof. unfold ent. destruct (status f); try done; apply one_range. Qed.
Lemma fds_nonneg n fs : 0 <= fds n fs.
Proof. apply lsum_nonneg, ent_nonneg. Qed.
Lemma wd_nonneg x n p fs : 0 <= wd x n p fs.
Proof. unfold wd. case_bool_decide; [done|apply own_range]. Qed.
Lemma users_nonneg ps p : 0 <= users ps p.
Proof. apply lsum_nonneg. intros a. case_bool_decide; lia. Qed.
Lemma hold_nonneg ps p i : 0 <= hold ps p i.
Proof. apply lsum_nonneg. intros a. case_bool_decide; lia. Qed.
Lemma hold_users ps p i : hold ps p i <= users ps p.
Proof.
  apply lsum_le. intros [q h]. cbn. repeat case_bool_decide; simplify_eq; lia.
Qed.
Lemma users_pos ps k p h : ps !! k = Some (p, h) -> 0 < users ps p.
Proof.
  intros E. eapply (lsum_ge (fun a => if bool_decide (a.1 = p) then 1 else 0)) in E.
  - cbn in E. rewrite bool_decide_true in E by done. unfold users. lia.
  - intros a. case_bool_decide; lia.
Qed.
Lemma hold_pos ps k p i : ps !! k = Some (p, Some i) -> 0 < hold ps p i.
Proof.
  intros E. eapply (lsum_ge (fun a => if bool_decide (a = (p, Some i)) then 1 else 0)) in E.
  - cbn in E. rewrite bool_decide_true in E by done. unfold hold. lia.
  - intros a. case_bool_decide; lia.
Qed.

Lemma fds_set n fs k f f' : fd_array fs !! k = Some f ->
  fds n (set_fd_array fs (<[k := f']> (fd_array fs))) = fds n fs - ent n f + ent n f'.
Proof. intros E. unfold fds. cbn [set_fd_array fd_array]. by rewrite (lsum_insert _ _ _ f). Qed.

Section FileInv.
  Context {F : Type} `{!InodeOps F, !InodeLaws F}.
  Implicit Types (st : fstate F) (v : vfs F) (p q i n : Z) (ps : list (Z * option Z)) (x z : option Z).

Definition orefs st n : Z := tsum (fun _ fs => fds n fs) (ftabs st).
Definition urefs x st n : Z := tsum (fun p fs => fds n fs + wd x n p fs) (ftabs st).

  (** Table [z] may have no user: it is being built or destroyed. *)
Record tab_ok v ps x z p (fs : files) : Prop := {
    to_len : length (fd_array fs) = Z.to_nat FILES_STRUCT_NENTRY;
    to_users : files_count fs = users ps p;
    to_pos : 0 < files_count fs \/ z = Some p;
    to_wd : x = Some p \/ pwd fs = 0 \/ dirlike v (pwd fs) /\ fsof v (pwd fs) <> 0;
    to_ent : forall k f, fd_array fs !! k = Some f -> fd f = Z.of_nat k /\ entry_ok (hold ps p (Z.of_nat k)) f;
    to_hold : forall i, testfd i = false -> hold ps p i = 0
  }.

Record fok st ps x z : Prop := {
    fk_v : vgood (fvfs st) (urefs x st) (orefs st);
    fk_boot : boot_ok (fvfs st);
    fk_null : ftabs st !! 0 = None;
    fk_tab : forall p fs, ftabs st !! p = Some fs -> tab_ok (fvfs st) ps x z p fs;
    fk_ps : forall k p h, ps !! k = Some (p, h) -> is_Some (ftabs st !! p)
  }.
Definition fgood st ps : Prop := fok st ps None None.

  (** Only the processes of table [p] differ, and only about entry [i]. *)
Record touches ps p i ps' : Prop := {
    tc_users : forall q, users ps' q = users ps q;
    tc_hold : forall q j, (q, j) <> (p, i) -> hold ps' q j = hold ps q j;
    tc_dom : forall k q h, ps' !! k = Some (q, h) -> exists k' h', ps !! k' = Some (q, h')
  }.

Lemma touches_refl ps p i : touches ps p i ps.
  Proof. split; eauto. Qed.

Lemma touches_set ps p i k h h' : ps !! k = Some (p, h) -> h = None \/ h = Some i -> h' = None \/ h' = Some i ->
    touches ps p i (<[k := (p, h')]> ps).
  Proof.
    intros E Hh Hh'. split.
    - intros q. unfold users. rewrite (lsum_insert _ _ _ _ _ E). cbn [fst]. lia.
    - intros q j Hne. unfold hold. rewrite (lsum_insert _ _ _ _ _ E). rewrite !bool_decide_false; [lia|..];
        intros [= <- ?]; naive_solver.
    - intros k' q g. destruct (decide (k' = k)) as [->|Hk].
      + rewrite list_lookup_insert_eq by (by eapply lookup_lt_Some). intros [= <- <-]. eauto.
      + rewrite list_lookup_insert_ne by done. eauto.
  Qed.

Lemma hold_enter ps p i k : ps !! k = Some (p, None) -> hold (<[k := (p, Some i)]> ps) p i = hold ps p i + 1.
  Proof.
    intros E. unfold hold. rewrite (lsum_insert _ _ _ _ _ E), bool_decide_false, bool_decide_true by done. lia.
  Qed.
Lemma hold_leave ps p i k : ps !! k = Some (p, Some i) -> hold (<[k := (p, None)]> ps) p i = hold ps p i - 1.
  Proof.
    intros E. unfold hold. rewrite (lsum_insert _ _ _ _ _ E), bool_decide_true, bool_decide_false by done. lia.
  Qed.

  (** ** Consequences *)

Lemma orefs_nonneg st n : 0 <= orefs st n.
  Proof. apply tsum_nonneg. intros _ fs. apply fds_nonneg. Qed.

Lemma part_nonneg x n p fs : 0 <= fds n fs + wd x n p fs.
  Proof. pose proof (fds_nonneg n fs). pose proof (wd_nonneg x n p fs). lia. Qed.

Lemma orefs_urefs x st n : orefs st n <= urefs x st n.
  Proof. apply tsum_mono. intros p fs _. pose proof (wd_nonneg x n p fs). lia. Qed.

  (** A table's directory is accounted for above the descriptors. *)
Lemma wd_urefs x st n p fs : ftabs st !! p = Some fs -> orefs st n + wd x n p fs <= urefs x st n.
  Proof.
    intros E. unfold orefs, urefs. rewrite !(tsum_delete _ _ p fs E).
    enough (tsum (fun _ a => fds n a) (delete p (ftabs st)) <= tsum (fun q a => fds n a + wd x n q a) (delete p (ftabs st))) by lia.
    apply tsum_mono. intros q a _. pose proof (wd_nonneg x n q a). lia.
  Qed.

Lemma fds_orefs st n p fs : ftabs st !! p = Some fs -> fds n fs <= orefs st n.
  Proof. intros E. eapply (tsum_ge (fun _ a => fds n a)) in E; [done|]. intros _ a. apply fds_nonneg. Qed.

Lemma ent_orefs st n p fs k f : ftabs st !! p = Some fs -> fd_array fs !! k = Some f -> ent n f <= orefs st n.
  Proof.
    intros E Ef. pose proof (fds_orefs st n p fs E) as Hfs. enough (ent n f <= fds n fs) by lia.
    eapply (lsum_ge (ent n)) in Ef; [done|]. apply ent_nonneg.
  Qed.

Lemma node_counted st p fs k f : ftabs st !! p = Some fs -> fd_array fs !! k = Some f ->
    status f = FD_OPENED \/ status f = FD_CLOSED -> 0 < orefs st (node f).
  Proof.
    intros E Ef Hs. pose proof (ent_orefs st (node f) p fs k f E Ef) as H. unfold ent in H.
    destruct Hs as [-> | ->] in H; rewrite one_eq in H; lia.
  Qed.

Lemma node_alive st ps x z p fs k f : fok st ps x z -> ftabs st !! p = Some fs -> fd_array fs !! k = Some f ->
    status f = FD_OPENED \/ status f = FD_CLOSED -> alive (fvfs st) (node f).
  Proof.
    intros Hk E Ef Hs. pose proof (node_counted st p fs k f E Ef Hs). pose proof (orefs_urefs x st (node f)).
    eapply held_alive; [apply Hk|lia].
  Qed.

Lemma cwd_of st ps x z p fs : fok st ps x z -> ftabs st !! p = Some fs -> x <> Some p ->
    cwd_ok (fvfs st) (urefs x st) (pwd fs).
  Proof.
    intros Hk E Hx. destruct (to_wd _ _ _ _ _ _ (fk_tab _ _ _ _ Hk p fs E)) as [?|[?|[Hd Hf]]]; [done|by left|right].
    split; [|done]. pose proof (wd_urefs x st (pwd fs) p fs E) as Hw. pose proof (orefs_nonneg st (pwd fs)).
    unfold wd in Hw. rewrite bool_decide_false in Hw by done.
    destruct (decide (pwd fs = 0)) as [E0|Hn].
    - exfalso. unfold dirlike in Hd. rewrite E0 in Hf. unfold fsof in Hf.
      by rewrite (vinv_null _ (vg_inv _ _ _ (fk_v _ _ _ _ Hk))) in Hf.
    - rewrite own_one, one_eq in Hw by done. lia.
  Qed.

  (** ** Changing one table *)

  (** What a change of the counts leaves alone. *)
Lemma wd_stable v r w v' u u' o o' n : moves v r w v' -> vgood v u o -> vgood v' u' o' -> 0 < u n -> 0 < u' n ->
    dirlike v n /\ fsof v n <> 0 -> dirlike v' n /\ fsof v' n <> 0.
  Proof.
    intros Hm Hg Hg' Hu Hu' [Hd Hf].
    assert (Ha : alive v n) by (by eapply held_alive). assert (Ha' : alive v' n) by (by eapply held_alive).
    split; [by eapply moves_dirlike|]. by rewrite (proj2 (mv_ops _ _ _ _ Hm n Ha Ha')).
  Qed.

Lemma boot_stable v r w v' u u' o o' : moves v r w v' -> vgood v u o -> vgood v' u' o' -> boot_ok v -> boot_ok v'.
  Proof.
    intros Hm Hg Hg' Hb. destruct (decide (bootfs_node v = 0)) as [E0|Hn]; [left; by rewrite (mv_boot _ _ _ _ Hm)|].
    destruct Hb as [?|Hd]; [done|right]. rewrite (mv_boot _ _ _ _ Hm). eapply moves_dirlike; [exact Hm|..|done].
    - by eapply boot_alive.
    - rewrite <- (mv_boot _ _ _ _ Hm) in *. by eapply boot_alive.
  Qed.

Definition put_table p (fs : files) v st : fstate F := File.put_files p fs (set_vfs st v).

Lemma orefs_put st p fs fs' v n : ftabs st !! p = Some fs -> orefs (put_table p fs' v st) n = orefs st n - fds n fs + fds n fs'.
  Proof. intros E. unfold orefs. cbn [put_table File.put_files set_vfs ftabs]. by rewrite (tsum_update _ _ p fs). Qed.

Lemma urefs_put st p fs fs' v x x' n : ftabs st !! p = Some fs -> (forall q, q <> p -> x' = Some q <-> x = Some q) ->
    urefs x' (put_table p fs' v st) n = urefs x st n - (fds n fs + wd x n p fs) + (fds n fs' + wd x' n p fs').
  Proof.
    intros E Hx. unfold urefs. cbn [put_table File.put_files set_vfs ftabs]. rewrite (tsum_update _ _ p fs) by done.
    rewrite !(tsum_delete _ _ p fs E).
    rewrite (tsum_ext (fun q a => fds n a + wd x' n q a) (fun q a => fds n a + wd x n q a)); [lia|].
    intros q a Eq. unfold wd. rewrite (bool_decide_ext (x' = Some q) (x = Some q)); [done|]. apply Hx.
    intros ->. by rewrite lookup_delete_eq in Eq.
  Qed.

Lemma fok_table st ps x z p fs fs' v' r w ps' x' z' :
    fok st ps x z -> ftabs st !! p = Some fs -> moves (fvfs st) r w v' ->
    vgood v' (fun n => urefs x st n - (fds n fs + wd x n p fs) + (fds n fs' + wd x' n p fs')) (fun n => orefs st n - fds n fs + fds n fs') ->
    tab_ok v' ps' x' z' p fs' ->
    (forall q, q <> p -> x' = Some q <-> x = Some q) -> (forall q, q <> p -> z = Some q -> z' = Some q) ->
    (forall q, q <> p -> users ps' q = users ps q /\ forall i, hold ps' q i = hold ps q i) ->
    (forall k q h, ps' !! k = Some (q, h) -> exists k' h', ps !! k' = Some (q, h')) ->
    fok (put_table p fs' v' st) ps' x' z'.
  Proof.
    intros Hk E Hm Hg Ht Hx Hz Hu Hps.
    assert (Hg' : vgood v' (urefs x' (put_table p fs' v' st)) (orefs (put_table p fs' v' st))).
    { eapply vgood_ext; [exact Hg|..]; intros n; symmetry; cbn beta; [by apply urefs_put|by apply orefs_put]. }
    split; cbn [put_table File.put_files set_vfs fvfs ftabs].
    - done.
    - eapply boot_stable; [exact Hm|apply Hk|exact Hg'|apply Hk].
    - pose proof (fk_null _ _ _ _ Hk). rewrite lookup_insert_ne; [done|]. intros ->. congruence.
    - intros q a. destruct (decide (q = p)) as [->|Hq]; [rewrite lookup_insert_eq; by intros [= <-]|].
      rewrite lookup_insert_ne by done. intros Eq. destruct (fk_tab _ _ _ _ Hk q a Eq) as [H1 H2 H3 H4 H5 H6].
      destruct (Hu q Hq) as [Hu1 Hu2]. split; [done|by rewrite Hu1| | | |].
      + destruct H3; eauto.
      + destruct (decide (x = Some q)) as [Exq|Hxq]; [left; by apply Hx|].
        destruct H4 as [?|[?|H4]]; [done|by right; left|]. right; right.
        assert (Hc : cwd_ok (fvfs st) (urefs x st) (pwd a)) by (by eapply cwd_of).
        destruct Hc as [E0|[Hup _]].
        { exfalso. rewrite E0 in H4. unfold fsof in H4. rewrite (vinv_null _ (vg_inv _ _ _ (fk_v _ _ _ _ Hk))) in H4. by destruct H4. }
        eapply wd_stable; [exact Hm|apply Hk|exact Hg'|done| |done].
        assert (Eq' : ftabs (put_table p fs' v' st) !! q = Some a) by (cbn; by rewrite lookup_insert_ne).
        pose proof (wd_urefs x' _ (pwd a) q a Eq') as Hw. pose proof (orefs_nonneg (put_table p fs' v' st) (pwd a)).
        unfold wd in Hw. rewrite bool_decide_false in Hw by (rewrite Hx; done).
        pose proof (held_alive _ _ _ _ (fk_v _ _ _ _ Hk) Hup) as Ha. pose proof (alive_ne0 _ _ _ _ (fk_v _ _ _ _ Hk) Ha).
        rewrite own_one, one_eq in Hw by done. lia.
      + intros k f Ef. rewrite Hu2. auto.
      + intros i Hi. rewrite Hu2. auto.
    - intros k q h Eq. destruct (Hps k q h Eq) as (k' & h' & E'). destruct (fk_ps _ _ _ _ Hk k' q h' E') as [a Ea].
      destruct (decide (q = p)) as [->|Hq]; [rewrite lookup_insert_eq|rewrite lookup_insert_ne by done]; eauto.
  Qed.

  (** ** Changing one entry *)

  (** Entry [i] of table [p] is [f]. *)
Definition has_entry st p i f : Prop := exists fs, ftabs st !! p = Some fs /\ 0 <= i /\ fd_array fs !! Z.to_nat i = Some f.

Lemma file_at_Ok st p i f : has_entry st p i f -> file_at p i st = Ok f.
  Proof. intros (fs & E & _ & Ef). unfold file_at, get_files. rewrite E. cbn [rget rbind]. by rewrite Ef. Qed.

Lemma has_entry_put st p i f g : has_entry st p i f -> has_entry (put_file p i g st) p i g.
  Proof.
    intros (fs & E & Hi & Ef). unfold put_file. rewrite E. eexists. cbn [File.put_files ftabs]. rewrite lookup_insert_eq.
    split; [done|]. split; [done|]. cbn [set_fd_array fd_array]. apply list_lookup_insert_eq. by eapply lookup_lt_Some.
  Qed.

Lemma has_entry_ne st p i f q j g : has_entry st q j g -> (q, j) <> (p, i) -> 0 <= i -> has_entry (put_file p i f st) q j g.
  Proof.
    intros (fs & E & Hj & Eg) Hne Hi. unfold put_file. destruct (ftabs st !! p) as [a|] eqn:Ep; [|by exists fs].
    destruct (decide (q = p)) as [->|Hq].
    - eexists. cbn [File.put_files ftabs]. rewrite lookup_insert_eq. split; [done|]. split; [done|].
      cbn [set_fd_array fd_array]. rewrite list_lookup_insert_ne; [congruence|].
      intros He. apply Hne. f_equal. lia.
    - exists fs. cbn [File.put_files ftabs]. by rewrite lookup_insert_ne.
  Qed.

Lemma has_entry_vfs st p i f v : has_entry st p i f -> has_entry (set_vfs st v) p i f.
  Proof. done. Qed.

Lemma put_put st p i f g : put_file p i g (put_file p i f st) = put_file p i g st.
  Proof.
    unfold put_file. destruct (ftabs st !! p) as [fs|] eqn:E; [|by rewrite E].
    cbn [File.put_files ftabs]. rewrite lookup_insert_eq. unfold File.put_files. cbn [fvfs ftabs].
    rewrite insert_insert_eq. unfold set_fd_array. cbn [fd_array File.pwd files_count]. by rewrite list_insert_insert_eq.
  Qed.

Lemma vfs_put st p i f v : set_vfs (put_file p i f st) v = put_file p i f (set_vfs st v).
  Proof. unfold put_file, set_vfs. cbn [ftabs]. destruct (ftabs st !! p); done. Qed.

Lemma fvfs_put st p i f : fvfs (put_file p i f st) = fvfs st.
  Proof. unfold put_file. destruct (ftabs st !! p); done. Qed.

Lemma set_vfs_set st v v' : set_vfs (set_vfs st v) v' = set_vfs st v'.
  Proof. done. Qed.

Lemma set_vfs_id st : set_vfs st (fvfs st) = st.
  Proof. by destruct st. Qed.

Lemma entry_facts st ps x z p i f : fok st ps x z -> has_entry st p i f -> fd f = i /\ entry_ok (hold ps p i) f.
  Proof.
    intros Hk (fs & E & Hi & Ef). destruct (to_ent _ _ _ _ _ _ (fk_tab _ _ _ _ Hk p fs E) _ _ Ef) as [H1 H2].
    rewrite Z2Nat.id in H1, H2 by done. done.
  Qed.

Lemma entry_alive st ps x z p i f : fok st ps x z -> has_entry st p i f -> status f = FD_OPENED \/ status f = FD_CLOSED ->
    alive (fvfs st) (node f) /\ 0 < orefs st (node f).
  Proof. intros Hk (fs & E & Hi & Ef) Hs. split; [by eapply node_alive|by eapply node_counted]. Qed.

Lemma has_entry_ex st ps x z p h k i : fok st ps x z -> ps !! k = Some (p, h) -> testfd i = true -> exists f, has_entry st p i f.
  Proof.
    intros Hk Ek Hi. destruct (fk_ps _ _ _ _ Hk _ _ _ Ek) as [fs E].
    unfold testfd in Hi. apply andb_true_iff in Hi as [H0 H1].
    destruct (lookup_lt_is_Some_2 (fd_array fs) (Z.to_nat i)) as [f Ef]; [|exists f, fs; split; [done|split; [lia|done]]].
    rewrite (to_len _ _ _ _ _ _ (fk_tab _ _ _ _ Hk p fs E)). lia.
  Qed.

Lemma hold_testfd st ps x z k p i : fok st ps x z -> ps !! k = Some (p, Some i) -> testfd i = true.
  Proof.
    intros Hk Ek. destruct (testfd i) eqn:Ei; [done|]. destruct (fk_ps _ _ _ _ Hk _ _ _ Ek) as [fs E].
    pose proof (hold_pos _ _ _ _ Ek) as Hp. rewrite (to_hold _ _ _ _ _ _ (fk_tab _ _ _ _ Hk p fs E) i Ei) in Hp. lia.
  Qed.

Lemma fok_entry st ps x z p i f f' v' r w ps' :
    fok st ps x z -> has_entry st p i f -> moves (fvfs st) r w v' ->
    vgood v' (fun n => urefs x st n - ent n f + ent n f') (fun n => orefs st n - ent n f + ent n f') ->
    touches ps p i ps' -> fd f' = i -> entry_ok (hold ps' p i) f' -> fok (put_file p i f' (set_vfs st v')) ps' x z.
  Proof.
    intros Hk (fs & E & Hi & Ef) Hm Hg [Hu Hh Hd] Hfd He. unfold put_file. cbn [set_vfs ftabs]. rewrite E.
    set (fs' := set_fd_array fs _).
    change (File.put_files p fs' (mk_fstate v' (ftabs st))) with (put_table p fs' v' st).
    assert (Hfds : forall n, fds n fs' = fds n fs - ent n f + ent n f') by (intros n; by apply fds_set).
    assert (Hwd : forall n, wd x n p fs' = wd x n p fs) by done.
    assert (Hg' : vgood v' (fun n => urefs x st n - (fds n fs + wd x n p fs) + (fds n fs' + wd x n p fs')) (fun n => orefs st n - fds n fs + fds n fs')).
    { eapply vgood_ext; [exact Hg|..]; intros n; cbn beta; rewrite Hfds, ?Hwd; lia. }
    eapply fok_table; [exact Hk|exact E|exact Hm|exact Hg'| |done|done| |done].
    2: { intros q Hq. split; [apply Hu|]. intros j. apply Hh. congruence. }
    destruct (fk_tab _ _ _ _ Hk p fs E) as [H1 H2 H3 H4 H5 H6]. split; cbn [fs' set_fd_array fd_array files_count File.pwd].
    - by rewrite length_insert.
    - by rewrite Hu.
    - done.
    - destruct (decide (x = Some p)) as [?|Hx]; [by left|]. destruct H4 as [?|[?|H4]]; [done|by right; left|].
      right; right. assert (Hp : pwd fs <> 0).
      { intros E0. rewrite E0 in H4. unfold fsof in H4. rewrite (vinv_null _ (vg_inv _ _ _ (fk_v _ _ _ _ Hk))) in H4. by destruct H4. }
      eapply wd_stable; [exact Hm|apply Hk|exact Hg'|..|done]; cbn beta.
      + pose proof (wd_urefs x st (pwd fs) p fs E) as Hw. pose proof (orefs_nonneg st (pwd fs)). unfold wd in Hw.
        rewrite bool_decide_false, own_one, one_eq in Hw by done. lia.
      + pose proof (wd_urefs x st (pwd fs) p fs E) as Hw. pose proof (vg_le _ _ _ Hg' (pwd fs)) as Hle. cbn beta in Hle.
        rewrite Hwd. unfold wd in *. rewrite bool_decide_false, own_one, one_eq in * by done. lia.
    - intros k g. destruct (decide (k = Z.to_nat i)) as [->|Hne].
      + rewrite list_lookup_insert_eq by (by eapply lookup_lt_Some). intros [= <-]. by rewrite Z2Nat.id.
      + rewrite list_lookup_insert_ne by done. intros Eg. rewrite Hh; [auto|]. intros [= <-]. lia.
    - intros j Hj. rewrite Hh; [auto|]. intros [= ->]. apply lookup_lt_Some in Ef. rewrite H1 in Ef.
      unfold testfd in Hj. apply andb_false_iff in Hj. lia.
  Qed.

  (** The same when the counts of no inode move. *)
Lemma fok_entry_same st ps x z p i f f' v' ps' :
    fok st ps x z -> has_entry st p i f -> moves (fvfs st) none none v' -> vinv v' -> (forall n, ent n f' = ent n f) ->
    touches ps p i ps' -> fd f' = i -> entry_ok (hold ps' p i) f' -> fok (put_file p i f' (set_vfs st v')) ps' x z.
  Proof.
    intros Hk Hh Hm Hv He Ht Hfd Ho. eapply fok_entry; [exact Hk|exact Hh|exact Hm| |done|done|done].
    eapply vgood_ext; [eapply neutral_good; [apply Hk|done|done]|..]; intros n; cbn beta; rewrite He; lia.
  Qed.
End FileInv.
