(* ===== verification/FileStep.v ===== *)
(** * The tables of open files: every operation keeps the invariant

    One lemma per operation of [File]: from a state that satisfies [fok] it
    returns, and the state it leaves satisfies [fok] again. *)
From S2P Require Import Prelude IoBuf Vfs File VfsInv FileInv.

Section FileStep.
  Context {F : Type} `{!InodeOps F, !InodeLaws F}.
  Implicit Types (st : fstate F) (v : vfs F) (p q i n : Z) (ps : list (Z * option Z)) (x z : option Z).

Lemma put_same st p i f : has_entry st p i f -> put_file p i f st = st.
  Proof.
    intros (fs & E & Hi & Ef). unfold put_file. rewrite E. unfold set_fd_array. rewrite list_insert_id by done.
    unfold File.put_files. destruct fs, st. cbn in *. by rewrite insert_id.
  Qed.

Lemma fok_neutral st ps x z p i f v' : fok st ps x z -> has_entry st p i f ->
    moves (fvfs st) none none v' -> vinv v' -> fok (set_vfs st v') ps x z.
  Proof.
    intros Hk Hh Hm Hv. destruct (entry_facts _ _ _ _ _ _ _ Hk Hh) as [Hfd He].
    rewrite <- (put_same (set_vfs st v') p i f) by done.
    eapply fok_entry_same; [exact Hk|exact Hh|exact Hm|done|done|apply touches_refl|done|done].
  Qed.

  (** Rewriting an entry without touching what it counts. *)
Lemma fok_pos st ps x z p i f g : fok st ps x z -> has_entry st p i f -> status g = status f -> node g = node f ->
    fopen_count g = fopen_count f -> fd g = fd f -> fok (put_file p i g st) ps x z.
  Proof.
    intros Hk Hh Hs Hn Hc Hfd. destruct (entry_facts _ _ _ _ _ _ _ Hk Hh) as [Hi He].
    rewrite <- (set_vfs_id st) at 1.
    eapply fok_entry_same; [exact Hk|exact Hh|apply moves_refl|apply (vg_inv _ _ _ (fk_v _ _ _ _ Hk))| |apply touches_refl|congruence|].
    - intros n. unfold ent. by rewrite Hs, Hn.
    - unfold entry_ok in *. by rewrite Hs, Hc, Hn.
  Qed.

  (** ** Finding a descriptor *)

Lemma fd2file_cases st ps x z k p h i : fok st ps x z -> ps !! k = Some (p, h) ->
    fd2file p i st = Ok (- E_INVAL) \/ fd2file p i st = Ok 0 /\ testfd i = true /\ exists f, has_entry st p i f /\ status f = FD_OPENED.
  Proof.
    intros Hk Ek. unfold fd2file. destruct (testfd i) eqn:Ei; [|by left].
    destruct (has_entry_ex _ _ _ _ _ _ _ _ Hk Ek Ei) as [f Hh]. pose proof Hh as (fs & E & Hi & Ef).
    unfold get_file, get_files. rewrite E. cbn [rget rbind].
    pose proof (users_pos _ _ _ _ Ek) as Hu. rewrite <- (to_users _ _ _ _ _ _ (fk_tab _ _ _ _ Hk p fs E)) in Hu.
    destruct (Z.ltb_spec 0 (files_count fs)); [|lia]. cbn [rassert rbind]. destruct (Z.leb_spec 0 i); [|lia].
    rewrite Ef. cbn [rget rbind]. destruct (entry_facts _ _ _ _ _ _ _ Hk Hh) as [-> _]. rewrite Z.eqb_refl, andb_true_r.
    case_bool_decide; [right; eauto|by left].
  Qed.

Lemma find_none_Some l i j : find_none l i = Some j -> i <= j /\ exists f, l !! Z.to_nat (j - i) = Some f /\ status f = FD_NONE.
  Proof.
    revert i. induction l as [|f l IH]; intros i; [done|]. cbn [find_none]. case_bool_decide as Hs.
    - intros [= <-]. split; [lia|]. rewrite Z.sub_diag. eauto.
    - intros E. destruct (IH _ E) as (Hi & g & Eg & Hg). split; [lia|]. exists g.
      replace (Z.to_nat (j - i)) with (Datatypes.S (Z.to_nat (j - (i + 1)))) by lia. done.
  Qed.

Lemma alloc_cases st ps x z k p h i : fok st ps x z -> ps !! k = Some (p, h) ->
    (exists ret, ret <> 0 /\ fd_array_alloc p i st = Ok (ret, 0, st)) \/
    exists j f, has_entry st p j f /\ status f = FD_NONE /\
      fd_array_alloc p i st = Ok (0, j, put_file p j (set_node (set_status f FD_INIT) 0) st).
  Proof.
    intros Hk Ek. destruct (fk_ps _ _ _ _ Hk _ _ _ Ek) as [fs E].
    destruct (fk_tab _ _ _ _ Hk p fs E) as [Hl Hus _ _ He]. pose proof (users_pos _ _ _ _ Ek) as Hu.
    unfold fd_array_alloc, get_files. rewrite E. cbn [rget rbind]. destruct (Z.ltb_spec 0 (files_count fs)); [|lia].
    cbn [rassert rbind].
    assert (Hdone : forall j f, has_entry st p j f -> status f = FD_NONE ->
      (let! f := file_at p j st in assert! fopen_count f =? 0 ;; Ok (0, j, put_file p j (set_node (set_status f FD_INIT) 0) st)) =
      Ok (0, j, put_file p j (set_node (set_status f FD_INIT) 0) st)).
    { intros j f Hh Hs. rewrite (file_at_Ok _ _ _ _ Hh). cbn [rbind].
      destruct (entry_facts _ _ _ _ _ _ _ Hk Hh) as [_ Hf]. unfold entry_ok in Hf. rewrite Hs in Hf. by rewrite (proj1 Hf). }
    destruct (i =? NO_FD) eqn:Ei.
    - destruct (find_none _ 0) as [j|] eqn:Ej; cbn [rbind]; [right|left; by exists (- E_MAX_OPEN)].
      apply find_none_Some in Ej as (Hj & f & Ef & Hs). rewrite Z.sub_0_r in Ef. apply lookup_take_Some in Ef as [Ef _].
      exists j, f. split; [by exists fs|]. split; [done|]. cbn [negb Z.eqb]. apply Hdone; [by exists fs|done].
    - destruct (testfd i) eqn:Et; cbn [rbind]; [|left; by exists (- E_INVAL)].
      destruct (has_entry_ex _ _ _ _ _ _ _ _ Hk Ek Et) as [f Hh]. pose proof Hh as (fs' & E' & Hi & Ef).
      simplify_eq. rewrite Ef. cbn [rget rbind]. case_bool_decide as Hs; cbn [rbind].
      + right. exists i, f. split; [done|]. split; [done|]. cbn [negb Z.eqb]. by apply Hdone.
      + left. by exists (- E_BUSY).
  Qed.

  (** ** Acquiring, releasing, closing *)

Lemma acquire_Ok st ps x z k p i f : fok st ps x z -> ps !! k = Some (p, None) -> has_entry st p i f -> status f = FD_OPENED ->
    exists st', fd_array_acquire p i st = Ok st' /\ fok st' (<[k := (p, Some i)]> ps) x z.
  Proof.
    intros Hk Ek Hh Hs. unfold fd_array_acquire. rewrite (file_at_Ok _ _ _ _ Hh). cbn [rbind].
    rewrite bool_decide_true by done. cbn [rassert rbind]. eexists. split; [done|].
    rewrite <- (set_vfs_id st) at 1. destruct (entry_facts _ _ _ _ _ _ _ Hk Hh) as [Hi He].
    eapply fok_entry_same; [exact Hk|exact Hh|apply moves_refl|apply (vg_inv _ _ _ (fk_v _ _ _ _ Hk))|done| |done|].
    - eapply touches_set; eauto.
    - rewrite (hold_enter _ _ _ _ Ek). unfold entry_ok in *. cbn [status set_count node fopen_count]. rewrite Hs in *.
      split; [lia|apply He].
  Qed.

  (** The last user of a closed entry gives the inode back. *)
Lemma free_closed st ps x z p i f g ps' : fok st ps x z -> has_entry st p i f -> status f = FD_OPENED \/ status f = FD_CLOSED ->
    status g = FD_CLOSED -> node g = node f -> fopen_count g = 0 -> fd g = i -> touches ps p i ps' -> hold ps' p i = 0 ->
    exists v', fd_array_free p i (put_file p i g st) = Ok (put_file p i (set_status g FD_NONE) (set_vfs st v')) /\
      fok (put_file p i (set_status g FD_NONE) (set_vfs st v')) ps' x z.
  Proof.
    intros Hk Hh Hs Hg Hn Hc Hfd Ht Hz. unfold fd_array_free.
    rewrite (file_at_Ok _ _ _ _ (has_entry_put _ _ _ _ g Hh)). cbn [rbind]. rewrite Hg, Hc.
    change (bool_decide (FD_CLOSED = FD_INIT)) with false. rewrite bool_decide_true by done. cbn [orb Z.eqb rassert rbind].
    destruct (entry_alive _ _ _ _ _ _ _ Hk Hh Hs) as [_ Ho]. rewrite fvfs_put, Hn.
    destruct (close_Ok (fvfs st) (urefs x st) (orefs st) (node f)) as (v' & E & Hm & Hg'); [apply Hk|done|].
    rewrite E. cbn [rbind]. exists v'. rewrite vfs_put, put_put. split; [done|].
    assert (He : forall n, ent n f = one (node f) n) by (intros n; unfold ent; destruct Hs as [-> | ->]; done).
    eapply fok_entry; [exact Hk|exact Hh|exact Hm| |done|done|].
    - eapply vgood_ext; [exact Hg'|..]; intros n; cbn beta; rewrite He; unfold ent; cbn; lia.
    - unfold entry_ok. cbn [status set_status fopen_count]. by rewrite Hc.
  Qed.

Lemma release_Ok st ps x z k p i : fok st ps x z -> ps !! k = Some (p, Some i) -> (exists f, has_entry st p i f) ->
    exists st', fd_array_release p i st = Ok st' /\ fok st' (<[k := (p, None)]> ps) x z.
  Proof.
    intros Hk Ek [f Hh]. destruct (entry_facts _ _ _ _ _ _ _ Hk Hh) as [Hi He]. pose proof (hold_pos _ _ _ _ Ek) as Hp.
    assert (Ht : touches ps p i (<[k := (p, None)]> ps)) by (eapply touches_set; eauto).
    pose proof (hold_leave _ _ _ _ Ek) as Hh'.
    assert (Hst : status f = FD_OPENED \/ status f = FD_CLOSED).
    { unfold entry_ok in He. destruct (status f); [lia|done|by left|by right]. }
    assert (Hc : 0 < fopen_count f) by (unfold entry_ok in He; destruct Hst as [E|E]; rewrite E in He; lia).
    unfold fd_array_release. rewrite (file_at_Ok _ _ _ _ Hh). cbn [rbind].
    rewrite (proj2 (orb_true_iff _ _)) by (destruct Hst; [left|right]; by apply bool_decide_true).
    destruct (Z.ltb_spec 0 (fopen_count f)); [|lia]. cbn [rassert rbind].
    destruct (Z.eqb_spec (fopen_count f - 1) 0) as [Hz|Hz].
    - destruct Hst as [E|E]; unfold entry_ok in He; rewrite E in He; [lia|].
      destruct (free_closed st ps x z p i f (set_count f (fopen_count f - 1)) (<[k := (p, None)]> ps)) as (v' & E' & Hk'); try done; eauto.
      cbn. lia.
    - eexists. split; [done|]. rewrite <- (set_vfs_id st) at 1.
      eapply fok_entry_same; [exact Hk|exact Hh|apply moves_refl|apply (vg_inv _ _ _ (fk_v _ _ _ _ Hk))|done|exact Ht|done|].
      rewrite Hh'. unfold entry_ok in *. cbn [status set_count node fopen_count].
      destruct Hst as [E|E]; rewrite E in *; (split; [lia|]); [apply He|]. split; [lia|apply He].
  Qed.

Lemma close_entry_Ok st ps x z p i f : fok st ps x z -> has_entry st p i f -> status f = FD_OPENED ->
    exists st', fd_array_close p i st = Ok st' /\ fok st' ps x z /\
      (hold ps p i = 0 -> exists g v', st' = put_file p i g (set_vfs st v') /\ status g = FD_NONE) /\
      exists g v', st' = put_file p i g (set_vfs st v').
  Proof.
    intros Hk Hh Hs. destruct (entry_facts _ _ _ _ _ _ _ Hk Hh) as [Hi He]. unfold entry_ok in He. rewrite Hs in He.
    pose proof (hold_nonneg ps p i) as Hn. unfold fd_array_close. rewrite (file_at_Ok _ _ _ _ Hh). cbn [rbind].
    rewrite bool_decide_true by done. destruct (Z.ltb_spec 0 (fopen_count f)); [|lia]. cbn [rassert rbind].
    destruct (Z.eqb_spec (fopen_count f - 1) 0) as [Hz|Hz].
    - destruct (free_closed st ps x z p i f (set_count (set_status f FD_CLOSED) (fopen_count f - 1)) ps) as (v' & E' & Hk'); try done; eauto.
      { apply touches_refl. }
      { lia. }
      rewrite E'. eexists. split; [done|]. split; [done|]. split; [intros _; eexists _, v'; by split|by eexists _, v'].
    - eexists. split; [done|]. split; [|split; [lia|eexists _, (fvfs st); by rewrite set_vfs_id]].
      rewrite <- (set_vfs_id st) at 1.
      eapply fok_entry_same; [exact Hk|exact Hh|apply moves_refl|apply (vg_inv _ _ _ (fk_v _ _ _ _ Hk))| |apply touches_refl|done|].
      + intros n. unfold ent. by rewrite Hs.
      + unfold entry_ok. cbn [status set_status set_count node fopen_count]. split; [lia|]. split; [lia|apply He].
  Qed.

Lemma file_close_Ok st ps x z k p h i : fok st ps x z -> ps !! k = Some (p, h) ->
    exists ret st', file_close p i st = Ok (ret, st') /\ fok st' ps x z.
  Proof.
    intros Hk Ek. unfold file_close. destruct (fd2file_cases _ _ _ _ _ _ _ i Hk Ek) as [E|(E & _ & f & Hh & Hs)]; rewrite E; cbn [rbind].
    - exists (- E_INVAL), st. by split.
    - cbn [Z.eqb negb]. destruct (close_entry_Ok _ _ _ _ _ _ _ Hk Hh Hs) as (st' & E' & Hk' & _). rewrite E'. cbn [rbind].
      exists 0, st'. by split.
  Qed.

  (** ** Opening and duplicating *)

Lemma ent_none n f : status f = FD_NONE -> ent n f = 0.
  Proof. intros Hs. unfold ent. by rewrite Hs. Qed.
Lemma ent_opened n f : status f = FD_OPENED -> ent n f = one (node f) n.
  Proof. intros Hs. unfold ent. by rewrite Hs. Qed.

Lemma free_entry st ps x z p i f : fok st ps x z -> has_entry st p i f -> status f = FD_NONE ->
    fopen_count f = 0 /\ hold ps p i = 0 /\ fd f = i.
  Proof.
    intros Hk Hh Hs. destruct (entry_facts _ _ _ _ _ _ _ Hk Hh) as [Hi He]. unfold entry_ok in He. rewrite Hs in He. naive_solver.
  Qed.

Lemma free_init st p i f g : has_entry st p i f -> status g = FD_INIT -> fopen_count g = 0 ->
    fd_array_free p i (put_file p i g st) = Ok (put_file p i (set_status g FD_NONE) st).
  Proof.
    intros Hh Hg Hc. unfold fd_array_free. rewrite (file_at_Ok _ _ _ _ (has_entry_put _ _ _ _ g Hh)). cbn [rbind].
    rewrite Hg, Hc. rewrite bool_decide_true by done. change (bool_decide (FD_INIT = FD_CLOSED)) with false.
    cbn [orb Z.eqb rassert rbind]. by rewrite put_put.
  Qed.

  (** Giving up an allocation: only neutral work was done below. *)
Lemma fok_unalloc st ps x z p i f g v' : fok st ps x z -> has_entry st p i f -> status f = FD_NONE ->
    moves (fvfs st) none none v' -> vinv v' -> status g = FD_NONE -> fopen_count g = 0 -> fd g = i ->
    fok (put_file p i g (set_vfs st v')) ps x z.
  Proof.
    intros Hk Hh Hs Hm Hv Hg Hc Hfd. destruct (free_entry _ _ _ _ _ _ _ Hk Hh Hs) as (_ & H0 & _).
    eapply fok_entry_same; [exact Hk|exact Hh|done|done| |apply touches_refl|done|].
    - intros n. by rewrite !ent_none.
    - unfold entry_ok. by rewrite Hg.
  Qed.

  (** Filling an entry with one descriptor more on its inode. *)
Lemma fok_opened st ps x z p i f g v' : fok st ps x z -> has_entry st p i f -> status f = FD_NONE ->
    moves (fvfs st) (one (node g)) (one (node g)) v' -> node g <> 0 ->
    vgood v' (fun m => urefs x st m + one (node g) m) (fun m => orefs st m + one (node g) m) ->
    status g = FD_OPENED -> fopen_count g = 1 -> fd g = i -> fok (put_file p i g (set_vfs st v')) ps x z.
  Proof.
    intros Hk Hh Hs Hm Hn Hg Hgs Hc Hfd. destruct (free_entry _ _ _ _ _ _ _ Hk Hh Hs) as (_ & H0 & _).
    eapply fok_entry; [exact Hk|exact Hh|exact Hm| |apply touches_refl|done|].
    - eapply vgood_ext; [exact Hg|..]; intros n; cbn beta; rewrite (ent_none n f), (ent_opened n g) by done; lia.
    - unfold entry_ok. rewrite Hgs. split; [lia|done].
  Qed.

Lemma array_open_Ok st p i f g : has_entry st p i f -> status g = FD_INIT -> node g <> 0 -> fopen_count g = 0 ->
    fd_array_open p i (put_file p i g st) = Ok (put_file p i (set_count (set_status g FD_OPENED) 1) st).
  Proof.
    intros Hh Hg Hn Hc. unfold fd_array_open. rewrite (file_at_Ok _ _ _ _ (has_entry_put _ _ _ _ g Hh)). cbn [rbind].
    rewrite Hg, Hc. rewrite bool_decide_true by done. destruct (Z.eqb_spec (node g) 0); [done|].
    cbn [negb andb rassert rbind]. by rewrite put_put.
  Qed.

Lemma fstat_Ok v u o n : vgood v u o -> alive v n ->
    exists ret s v', vop_fstat n v = Ok (ret, s, v') /\ vinv v' /\ moves v none none v' /\
      forall m pos, can_seek v m pos -> can_seek v' m pos.
  Proof.
    intros Hg Ha. destruct (vinv_ops v n (vg_inv _ _ _ Hg) Ha) as (_ & _ & _ & [f Hf] & _).
    unfold vop_fstat. rewrite (vop_Ok i_fstat v u o n f Hg Ha Hf). cbn [rbind].
    destruct (law_fstat v n f (vg_inv _ _ _ Hg) Ha (vgood_counted _ _ _ n Hg) Hf) as ([ret s] & v' & E & H). exists ret, s, v'. by split.
  Qed.

  (** The part of [file_open] after [vfs_open] has handed back [n]: with
      [O_APPEND] the position is the end of the file. *)
Lemma open_tail_Ok st ps x z p i f g v1 n flags r w : fok st ps x z -> has_entry st p i f -> status f = FD_NONE ->
    status g = FD_INIT -> fopen_count g = 0 -> fd g = i -> n <> 0 ->
    moves (fvfs st) (one n) (one n) v1 -> vgood v1 (fun m => urefs x st m + one n m) (fun m => orefs st m + one n m) ->
    exists ret st', (let! (ret, st) :=
        if has flags O_APPEND then
          let! (ret, stat, v) := vop_fstat n v1 in
          let st := set_vfs (put_file p i g st) v in
          if negb (ret =? 0) then
            let! v := vfs_close n (fvfs st) in
            let! st := fd_array_free p i (set_vfs st v) in
            Ok (ret, st)
          else let! f := file_at p i st in Ok (0, put_file p i (set_pos f (st_size stat)) st)
        else Ok (0, set_vfs (put_file p i g st) v1) in
      if negb (ret =? 0) then Ok (ret, st)
      else
        let! f := file_at p i st in
        let! st := fd_array_open p i (put_file p i (set_modes (set_node f n) r w) st) in
        let! f := file_at p i st in
        Ok (File.fd f, st)) = Ok (ret, st') /\ fok st' ps x z.
  Proof.
    intros Hk Hh Hs Hgs Hgc Hgf Hn Hm Hg.
    assert (Hfin : forall g' v', status g' = FD_INIT -> fopen_count g' = 0 -> fd g' = i ->
      moves (fvfs st) (one n) (one n) v' -> vgood v' (fun m => urefs x st m + one n m) (fun m => orefs st m + one n m) ->
      exists ret st', (let! f := file_at p i (set_vfs (put_file p i g' st) v') in
        let! st := fd_array_open p i (put_file p i (set_modes (set_node f n) r w) (set_vfs (put_file p i g' st) v')) in
        let! f := file_at p i st in Ok (File.fd f, st)) = Ok (ret, st') /\ fok st' ps x z).
    { intros g' v' H1 H2 H3 H4 H5. rewrite vfs_put.
      rewrite (file_at_Ok _ _ _ _ (has_entry_put (set_vfs st v') p i f g' Hh)). cbn [rbind]. rewrite put_put.
      rewrite (array_open_Ok _ p i f) by done. cbn [rbind].
      rewrite (file_at_Ok _ _ _ _ (has_entry_put (set_vfs st v') p i f _ Hh)). cbn [rbind]. eexists _, _. split; [done|].
      by eapply fok_opened. }
    destruct (has flags O_APPEND); [|cbn [rbind negb Z.eqb]; by apply Hfin].
    assert (Ha1 : alive v1 n).
    { eapply held_alive; [exact Hg|]. cbn beta. rewrite one_eq. pose proof (orefs_urefs x st n). pose proof (orefs_nonneg st n). lia. }
    destruct (fstat_Ok v1 _ _ n Hg Ha1) as (ret & s & v2 & E2 & Hv2 & Hm2 & _). rewrite E2. cbn [rbind].
    pose proof (neutral_good _ _ _ _ Hg Hv2 Hm2) as Hg2.
    assert (Hm12 : moves (fvfs st) (one n) (one n) v2).
    { eapply moves_ext; [eapply moves_up; [exact Hm|exact Hm2|]|..]; intros m; cbn beta; unfold none; pose proof (one_range n m); lia. }
    destruct (Z.eqb_spec ret 0) as [->|Hne]; cbn [negb].
    - rewrite vfs_put. rewrite (file_at_Ok _ _ _ _ (has_entry_put (set_vfs st v2) p i f g Hh)). cbn [rbind Z.eqb negb].
      rewrite put_put, <- vfs_put. by apply Hfin.
    - rewrite vfs_put, fvfs_put. change (fvfs (set_vfs st v2)) with v2.
      destruct (close_Ok v2 _ _ n Hg2) as (v3 & E3 & Hm3 & Hg3); [cbn beta; rewrite one_eq; pose proof (orefs_nonneg st n); lia|].
      rewrite E3. cbn [rbind]. rewrite vfs_put, set_vfs_set, (free_init _ p i f) by done. cbn [rbind].
      destruct (Z.eqb_spec ret 0); [done|]. cbn [negb]. eexists _, _. split; [done|].
      eapply fok_unalloc; [exact Hk|exact Hh|done| |apply Hg3|done|done|done].
      eapply moves_ext; [eapply moves_down; [exact Hm12|exact Hm3|]|..]; intros m; cbn beta; unfold none; pose proof (one_range n m); lia.
  Qed.

Lemma get_files_put st p i f fs : ftabs st !! p = Some fs ->
    get_files p (put_file p i f st) = Ok (set_fd_array fs (<[Z.to_nat i := f]> (fd_array fs))).
  Proof.
    intros E. unfold get_files, put_file. rewrite E. cbn [File.put_files ftabs]. by rewrite lookup_insert_eq.
  Qed.

Lemma file_open_Ok st ps x z k p h path flags : fok st ps x z -> x <> Some p -> ps !! k = Some (p, h) -> room 3 (fvfs st) ->
    path_fits path -> can_root (fvfs st) ->
    has flags O_CREAT = false -> has flags O_TRUNC = false ->
    exists ret st', file_open p path flags st = Ok (ret, st') /\ fok st' ps x z.
  Proof.
    intros Hk Hx Ek Hr Hpf Hcr Hc Ht. unfold file_open.
    destruct (Z.land flags O_ACCMODE =? O_ACCMODE); [by exists (- E_INVAL), st|].
    destruct (alloc_cases st ps x z k p h NO_FD Hk Ek) as [(ret & Hne & E)|(i & f & Hh & Hs & E)]; rewrite E; cbn [rbind].
    { destruct (Z.eqb_spec ret 0); [done|]. by exists ret, st. }
    cbn [negb Z.eqb]. destruct (fk_ps _ _ _ _ Hk _ _ _ Ek) as [fs Ef]. rewrite (get_files_put st p i _ fs Ef). cbn [rbind].
    cbn [set_fd_array File.pwd]. rewrite fvfs_put. set (g := set_node (set_status f FD_INIT) 0).
    destruct (free_entry _ _ _ _ _ _ _ Hk Hh Hs) as (Hfc & _ & Hfd).
    destruct (open_Ok (fvfs st) (urefs x st) (orefs st) (pwd fs) path flags) as (ret & n & v1 & E1 & Ho); try done;
      [apply Hk|by eapply cwd_of|apply Hk|].
    rewrite E1. cbn [rbind]. unfold opened in Ho. destruct (Z.eqb_spec ret 0) as [->|Hne]; cbn [negb].
    - destruct Ho as (Hn & Hm & Hg). rewrite vfs_put, (file_at_Ok _ _ _ _ (has_entry_put (set_vfs st v1) p i f g Hh)).
      cbn [rbind]. rewrite put_put, <- vfs_put.
      apply (open_tail_Ok st ps x z p i f (set_pos g 0) v1 n flags); done.
    - rewrite vfs_put, (free_init _ p i f) by done. cbn [rbind]. eexists _, _. split; [done|].
      eapply fok_unalloc; [exact Hk|exact Hh|done|apply Ho|apply Ho|done|done|done].
  Qed.

  (** Entry [i] of table [p], free before, becomes one more descriptor on the
      inode of entry [j] of table [q]. *)
Lemma array_dup_Ok st ps x z p i q j f g b : fok st ps x z -> has_entry st p i f -> status f = FD_NONE ->
    status g = FD_INIT -> fopen_count g = 0 -> fd g = i -> has_entry st q j b -> status b = FD_OPENED -> room 1 (fvfs st) ->
    exists g' v', fd_array_dup p i q j (put_file p i g st) = Ok (put_file p i g' (set_vfs st v')) /\
      fok (put_file p i g' (set_vfs st v')) ps x z /\ moves (fvfs st) (one (node b)) (one (node b)) v'.
  Proof.
    intros Hk Hh Hs Hgs Hgc Hgf Hb Hbs Hr.
    destruct (entry_alive _ _ _ _ _ _ _ Hk Hb) as [Ha Ho]; [by left|].
    pose proof (alive_ne0 _ _ _ _ (fk_v _ _ _ _ Hk) Ha) as Hn.
    assert (Hb' : has_entry (put_file p i g st) q j b).
    { eapply has_entry_ne; [done| |by destruct Hh as (? & ? & ? & ?)]. intros [= -> ->]. destruct Hh as (a & E & _ & Ef), Hb as (a' & E' & _ & Eb). congruence. }
    unfold fd_array_dup. rewrite (file_at_Ok _ _ _ _ (has_entry_put _ _ _ _ g Hh)). cbn [rbind].
    rewrite (file_at_Ok _ _ _ _ Hb'). cbn [rbind]. rewrite !bool_decide_true by done. cbn [andb rassert rbind]. rewrite fvfs_put.
    destruct (ref_inc_Ok (fvfs st) (urefs x st) (orefs st) (node b)) as (a1 & v1 & E1 & Hm1 & Hg1); [apply Hk|done|apply Hr|].
    rewrite E1. cbn [rbind].
    destruct (open_inc_Ok v1 _ (orefs st) (node b) Hg1) as (a2 & v2 & E2 & Hm2 & Hg2).
    { rewrite one_eq. pose proof (orefs_urefs x st (node b)). lia. }
    rewrite E2. cbn [rbind]. rewrite vfs_put, put_put, (array_open_Ok _ p i f) by done.
    assert (Hm : moves (fvfs st) (one (node b)) (one (node b)) v2).
    { eapply moves_ext; [eapply moves_up; [exact Hm1|exact Hm2|]|..]; intros m; cbn beta; unfold none; pose proof (one_range (node b) m); lia. }
    eexists _, v2. split; [done|]. split; [|done]. by eapply fok_opened.
  Qed.

Lemma file_dup_Ok st ps x z k p h fd1 fd2 : fok st ps x z -> ps !! k = Some (p, h) -> room 1 (fvfs st) ->
    exists ret st', file_dup p fd1 fd2 st = Ok (ret, st') /\ fok st' ps x z.
  Proof.
    intros Hk Ek Hr. unfold file_dup.
    destruct (fd2file_cases _ _ _ _ _ _ _ fd1 Hk Ek) as [E|(E & _ & b & Hb & Hbs)]; rewrite E; cbn [rbind].
    { by exists (- E_INVAL), st. }
    cbn [Z.eqb negb].
    destruct (alloc_cases st ps x z k p h fd2 Hk Ek) as [(ret & Hne & Ea)|(i & f & Hh & Hs & Ea)]; rewrite Ea; cbn [rbind].
    { destruct (Z.eqb_spec ret 0); [done|]. by exists ret, st. }
    cbn [negb Z.eqb]. destruct (free_entry _ _ _ _ _ _ _ Hk Hh Hs) as (Hfc & _ & Hfd).
    destruct (array_dup_Ok st ps x z p i p fd1 f (set_node (set_status f FD_INIT) 0) b) as (g' & v' & Ed & Hk' & _); try done.
    rewrite Ed. cbn [rbind]. rewrite (file_at_Ok _ _ _ _ (has_entry_put (set_vfs st v') p i f g' Hh)). cbn [rbind]. eauto.
  Qed.

  (** ** Calls that hold the file *)

Lemma file_enter_Ok st ps x z k p i ok : fok st ps x z -> ps !! k = Some (p, None) ->
    exists ret st', file_enter p i ok st = Ok (ret, st') /\
      fok st' (if ret =? 0 then <[k := (p, Some i)]> ps else ps) x z.
  Proof.
    intros Hk Ek. unfold file_enter.
    destruct (fd2file_cases _ _ _ _ _ _ _ i Hk Ek) as [E|(E & _ & b & Hb & Hbs)]; rewrite E; cbn [rbind].
    { by exists (- E_INVAL), st. }
    cbn [Z.eqb negb]. rewrite (file_at_Ok _ _ _ _ Hb). cbn [rbind]. destruct (ok b); cbn [negb].
    - destruct (acquire_Ok _ _ _ _ _ _ _ _ Hk Ek Hb Hbs) as (st' & E' & Hk'). rewrite E'. cbn [rbind]. by exists 0, st'.
    - by exists (- E_INVAL), st.
  Qed.

  (** The entry a call in flight holds. *)
Lemma held_entry st ps x z k p i : fok st ps x z -> ps !! k = Some (p, Some i) ->
    exists f, has_entry st p i f /\ alive (fvfs st) (node f) /\ (status f = FD_OPENED \/ status f = FD_CLOSED).
  Proof.
    intros Hk Ek. destruct (has_entry_ex st ps x z p (Some i) k i Hk Ek) as [f Hh]; [by eapply hold_testfd|]. exists f. split; [done|].
    assert (Hst : status f = FD_OPENED \/ status f = FD_CLOSED).
    { destruct (entry_facts _ _ _ _ _ _ _ Hk Hh) as [_ He]. pose proof (hold_pos _ _ _ _ Ek). unfold entry_ok in He.
      destruct (status f); [lia|done|by left|by right]. }
    split; [by eapply entry_alive|done].
  Qed.

  (** The inode of the descriptor that a call holds has the operation, and the
      layer below takes the arguments. *)
Definition supports {A} (sel : Z -> option A) (can : vfs F -> Z -> file -> Prop) st p i : Prop :=
    forall f, has_entry st p i f -> is_Some (sel (opsof (fvfs st) (node f))) /\ can (fvfs st) (node f) f.

  (** An operation on inode [n] that moves no count returns. *)
Definition neutral {A} (m : vfs F -> res (A * vfs F)) v : Prop := exists a v', m v = Ok (a, v') /\ vinv v' /\ moves v none none v'.

  (** The rest of a call after such an operation. *)
Lemma leave_Ok {A} st ps x z k p i f (m : vfs F -> res (A * vfs F)) : fok st ps x z -> ps !! k = Some (p, Some i) ->
    has_entry st p i f -> neutral m (fvfs st) ->
    exists a v' st', m (fvfs st) = Ok (a, v') /\ fd_array_release p i (set_vfs st v') = Ok st' /\ fok st' (<[k := (p, None)]> ps) x z.
  Proof.
    intros Hk Ek Hh (a & v' & E & Hv & Hm).
    pose proof (fok_neutral _ _ _ _ _ _ _ _ Hk Hh Hm Hv) as Hk'.
    destruct (release_Ok _ _ _ _ _ _ _ Hk' Ek) as (st' & E' & Hk''); [by exists f|]. exists a, v', st'. by split.
  Qed.

Lemma rw_leave_Ok st ps x z k p i op data base len : fok st ps x z -> ps !! k = Some (p, Some i) ->
    (forall f, has_entry st p i f -> neutral (op (node f) (iobuf_init data base len (pos f))) (fvfs st)) ->
    exists r st', file_rw_leave op p i data base len st = Ok (r, st') /\ fok st' (<[k := (p, None)]> ps) x z.
  Proof.
    intros Hk Ek Hop. destruct (held_entry _ _ _ _ _ _ _ Hk Ek) as (f & Hh & _).
    unfold file_rw_leave. rewrite (file_at_Ok _ _ _ _ Hh). cbn [rbind].
    destruct (Hop f Hh) as ([ret iob] & v' & E & Hv & Hm). rewrite E. cbn [rbind].
    pose proof (fok_neutral _ _ _ _ _ _ _ _ Hk Hh Hm Hv) as Hk1.
    rewrite (file_at_Ok _ _ _ _ (has_entry_vfs _ _ _ _ v' Hh)). cbn [rbind].
    set (st1 := if bool_decide (status f = FD_OPENED) then _ else _).
    assert (H1 : fok st1 ps x z /\ exists g, has_entry st1 p i g).
    { unfold st1. case_bool_decide; [|split; [done|by exists f]]. split; [by eapply fok_pos|]. eexists. eapply has_entry_put, Hh. }
    destruct H1 as [Hk2 Hg]. destruct (release_Ok _ _ _ _ _ _ _ Hk2 Ek Hg) as (st' & E' & Hk'). rewrite E'. cbn [rbind].
    eexists (_, _, _), st'. by split.
  Qed.

Lemma has_entry_eq st p i f g : has_entry st p i f -> has_entry st p i g -> f = g.
  Proof. intros Hf Hg. pose proof (file_at_Ok _ _ _ _ Hf) as E. rewrite (file_at_Ok _ _ _ _ Hg) in E. congruence. Qed.

Lemma held_alive_eq st ps x z k p i f : fok st ps x z -> ps !! k = Some (p, Some i) -> has_entry st p i f -> alive (fvfs st) (node f).
  Proof.
    intros Hk Ek Hh. destruct (held_entry _ _ _ _ _ _ _ Hk Ek) as (g & Hg & Ha & _). by rewrite (has_entry_eq _ _ _ _ _ Hh Hg).
  Qed.

Lemma op_neutral {A B} (sel : Z -> option A) (run : A -> vfs F -> res (B * vfs F)) can st ps x z k p i f :
    fok st ps x z -> ps !! k = Some (p, Some i) -> supports sel can st p i -> has_entry st p i f ->
    (forall g, vinv (fvfs st) -> alive (fvfs st) (node f) -> counted (fvfs st) (node f) -> sel (opsof (fvfs st) (node f)) = Some g -> can (fvfs st) (node f) f ->
      neutral (run g) (fvfs st)) ->
    neutral (fun v => let! g := vop sel (node f) v in run g v) (fvfs st).
  Proof.
    intros Hk Ek Hs Hh Hlaw. destruct (Hs f Hh) as [[g Hg] Hc].
    pose proof (held_alive_eq _ _ _ _ _ _ _ _ Hk Ek Hh) as Ha.
    destruct (Hlaw g (vg_inv _ _ _ (fk_v _ _ _ _ Hk)) Ha (vgood_counted _ _ _ _ (fk_v _ _ _ _ Hk)) Hg Hc) as (b & v' & E & H).
    exists b, v'. rewrite (vop_Ok sel _ _ _ _ g (fk_v _ _ _ _ Hk) Ha Hg). cbn [rbind]. by split.
  Qed.

  (** ** The second half of a call *)

Inductive call :=
    | CRead (data : list Z) (base len : Z) | CWrite (data : list Z) (base len : Z) | CSeek (pos whence : Z)
    | CFstat | CFsync | CGetdirentry (offset : Z) (name : list Z).

Definition discard {A} (m : res (A * fstate F)) : res (fstate F) := let! (_, st) := m in Ok st.

Definition leave (c : call) p i st : res (fstate F) :=
    match c with
    | CRead data base len => discard (file_rw_leave vop_read p i data base len st)
    | CWrite data base len => discard (file_rw_leave vop_write p i data base len st)
    | CSeek pos whence => discard (file_seek_leave p i pos whence st)
    | CFstat => discard (file_fstat_leave p i st)
    | CFsync => discard (file_fsync_leave p i st)
    | CGetdirentry offset name => discard (file_getdirentry_leave p i offset name st)
    end.

  (** The inode has the function that the call needs. *)
Definition can_seek_to (dst whence : Z) (v : vfs F) n (f : file) : Prop :=
    (whence = LSEEK_SET -> can_seek v n dst) /\ (whence = LSEEK_CUR -> can_seek v n (s32 (dst + pos f))) /\
    (whence = LSEEK_END -> forall ret s v', vop_fstat n v = Ok (ret, s, v') -> can_seek v n (s32 (dst + st_size s))).

Definition supported (c : call) st p i : Prop :=
    match c with
    | CRead data base len => supports i_read (fun v n f => can_read v n (iobuf_init data base len (pos f))) st p i
    | CWrite data base len => supports i_write (fun v n f => can_write v n (iobuf_init data base len (pos f))) st p i
    | CSeek dst whence => supports i_tryseek (can_seek_to dst whence) st p i
    | CFstat => True
    | CFsync => supports i_fsync (fun _ _ _ => True) st p i
    | CGetdirentry offset name => supports i_getdirentry (fun v n _ => can_getdirentry v n (iobuf_init name 0 256 offset)) st p i
    end.

Lemma fstat_neutral st ps x z k p i f : fok st ps x z -> ps !! k = Some (p, Some i) -> has_entry st p i f ->
    exists a v', vop_fstat (node f) (fvfs st) = Ok (a, v') /\ vinv v' /\ moves (fvfs st) none none v' /\
      forall m pos, can_seek (fvfs st) m pos -> can_seek v' m pos.
  Proof.
    intros Hk Ek Hh. destruct (fstat_Ok (fvfs st) _ _ (node f) (fk_v _ _ _ _ Hk)) as (ret & s & v' & E & H);
      [exact (held_alive_eq _ _ _ _ _ _ _ _ Hk Ek Hh)|]. by exists (ret, s), v'.
  Qed.

Lemma seek_leave_Ok st ps x z k p i (dst whence : Z) : fok st ps x z -> ps !! k = Some (p, Some i) ->
    supports i_tryseek (can_seek_to dst whence) st p i ->
    exists ret st', file_seek_leave p i dst whence st = Ok (ret, st') /\ fok st' (<[k := (p, None)]> ps) x z.
  Proof.
    intros Hk Ek Hsup. destruct (held_entry _ _ _ _ _ _ _ Hk Ek) as (f & Hh & Ha & _).
    unfold file_seek_leave. rewrite (file_at_Ok _ _ _ _ Hh). cbn [rbind].
    assert (Hrel : forall (ret : Z) st1, fok st1 ps x z -> (exists g, has_entry st1 p i g) ->
      exists r st', (let! st2 := fd_array_release p i st1 in Ok (ret, st2)) = Ok (r, st') /\ fok st' (<[k := (p, None)]> ps) x z).
    { intros ret st1 Hk1 H1. destruct (release_Ok _ _ _ _ _ _ _ Hk1 Ek H1) as (st' & E & Hk'). rewrite E. cbn [rbind]. eauto. }
    assert (Htry : forall (dst : Z) st1, fok st1 ps x z -> has_entry st1 p i f ->
      supports i_tryseek (fun v n _ => can_seek v n dst) st1 p i ->
      exists r st', (let! (ret, st) := (let! (ret, v) := vop_tryseek (node f) dst (fvfs st1) in
          let st := set_vfs st1 v in
          if ret =? 0 then let! f := file_at p i st in Ok (ret, put_file p i (set_pos f dst) st) else Ok (ret, st)) in
        let! st := fd_array_release p i st in Ok (ret, st)) = Ok (r, st') /\ fok st' (<[k := (p, None)]> ps) x z).
    { intros d st1 Hk1 Hh1 Hs1.
      destruct (op_neutral i_tryseek (fun g v => g (node f) d v) _ st1 ps x z k p i f Hk1 Ek Hs1 Hh1) as (ret & v' & E & Hv & Hm).
      { intros g Hv Ha1 Hcn Eg Hc. by apply law_tryseek. }
      unfold vop_tryseek. rewrite E. cbn [rbind].
      pose proof (fok_neutral _ _ _ _ _ _ _ _ Hk1 Hh1 Hm Hv) as Hk2. destruct (Z.eqb_spec ret 0) as [->|Hne]; cbn [rbind].
      - rewrite (file_at_Ok _ _ _ _ (has_entry_vfs _ _ _ _ v' Hh1)). cbn [rbind]. apply Hrel; [by eapply fok_pos|].
        eexists. eapply has_entry_put, has_entry_vfs, Hh1.
      - apply Hrel; [done|]. by exists f. }
    destruct (Hsup f Hh) as [Hop (Hset & Hcur & Hend)].
    assert (Hnow : forall d, can_seek (fvfs st) (node f) d -> supports i_tryseek (fun v n _ => can_seek v n d) st p i).
    { intros d Hc g Hg. rewrite (has_entry_eq _ _ _ _ _ Hg Hh). by split. }
    destruct (Z.eqb_spec whence LSEEK_SET) as [Ew|_]; cbn [rbind Z.eqb]; [apply Htry; auto|].
    destruct (Z.eqb_spec whence LSEEK_CUR) as [Ew|_]; cbn [rbind Z.eqb]; [apply Htry; auto|].
    destruct (Z.eqb_spec whence LSEEK_END) as [Ew|_]; cbn [rbind].
    - destruct (fstat_neutral _ _ _ _ _ _ _ _ Hk Ek Hh) as ([ret s] & v' & E & Hv & Hm & Hcan). rewrite E. cbn [rbind].
      pose proof (fok_neutral _ _ _ _ _ _ _ _ Hk Hh Hm Hv) as Hk2. destruct (Z.eqb_spec ret 0) as [->|Hne]; cbn [rbind].
      + apply Htry; [done|done|]. intros g Hg.
        pose proof (has_entry_eq _ _ _ _ _ Hg (has_entry_vfs _ _ _ _ v' Hh)) as ->.
        pose proof (held_alive_eq _ _ _ _ _ _ _ _ Hk2 Ek (has_entry_vfs _ _ _ _ v' Hh)) as Ha'. cbn [set_vfs fvfs] in *.
        rewrite (proj1 (mv_ops _ _ _ _ Hm _ Ha Ha')). split; [done|]. apply Hcan. by apply (Hend Ew 0 s v').
      + apply Hrel; [done|]. by exists f.
    - change (- E_INVAL =? 0) with false. cbn [rbind]. apply Hrel; [done|]. by exists f.
  Qed.

Lemma leave_call_Ok (c : call) st ps x z k p i : fok st ps x z -> ps !! k = Some (p, Some i) -> supported c st p i ->
    exists st', leave c p i st = Ok st' /\ fok st' (<[k := (p, None)]> ps) x z.
  Proof.
    intros Hk Ek Hs. destruct (held_entry _ _ _ _ _ _ _ Hk Ek) as (f & Hh & _ & _).
    destruct c as [data base len|data base len|dst whence| | |offset name]; unfold leave, discard; cbn [supported] in Hs.
    - destruct (rw_leave_Ok st ps x z k p i vop_read data base len Hk Ek) as (r & st' & E & Hk'); [|rewrite E; destruct r; eauto].
      intros g Hg. eapply (op_neutral i_read (fun h v => h (node g) _ v)); [exact Hk|exact Ek|exact Hs|exact Hg|].
      intros h Hv Ha _ Eh Hc. destruct (law_read _ _ _ _ Hv Ha Eh Hc) as (a & v' & E & _ & H). by exists a, v'.
    - destruct (rw_leave_Ok st ps x z k p i vop_write data base len Hk Ek) as (r & st' & E & Hk'); [|rewrite E; destruct r; eauto].
      intros g Hg. eapply (op_neutral i_write (fun h v => h (node g) _ v)); [exact Hk|exact Ek|exact Hs|exact Hg|].
      intros h Hv Ha _ Eh Hc. destruct (law_write _ _ _ _ Hv Ha Eh Hc) as (a & v' & E & _ & H). by exists a, v'.
    - destruct (seek_leave_Ok _ _ _ _ _ _ _ dst whence Hk Ek Hs) as (r & st' & E & Hk'). rewrite E. eauto.
    - unfold file_fstat_leave. rewrite (file_at_Ok _ _ _ _ Hh). cbn [rbind].
      destruct (fstat_neutral _ _ _ _ _ _ _ _ Hk Ek Hh) as (a & v & Ea & Hv & Hm & _).
      destruct (leave_Ok _ _ _ _ _ _ _ _ (vop_fstat (node f)) Hk Ek Hh) as ([r s] & v' & st' & E1 & E2 & Hk'); [by exists a, v|].
      rewrite E1. cbn [rbind]. rewrite E2. eauto.
    - unfold file_fsync_leave. rewrite (file_at_Ok _ _ _ _ Hh). cbn [rbind].
      destruct (leave_Ok st ps x z k p i f (vop_fsync (node f)) Hk Ek Hh) as (r & v' & st' & E1 & E2 & Hk').
      { eapply (op_neutral i_fsync (fun h v => h (node f) v)); [exact Hk|exact Ek|exact Hs|exact Hh|].
        intros h Hv Ha _ Eh _. by apply law_fsync. }
      rewrite E1. cbn [rbind]. rewrite E2. eauto.
    - unfold file_getdirentry_leave. rewrite (file_at_Ok _ _ _ _ Hh). cbn [rbind].
      destruct (leave_Ok st ps x z k p i f (vop_getdirentry (node f) (iobuf_init name 0 256 offset)) Hk Ek Hh) as ([r iob] & v' & st' & E1 & E2 & Hk').
      { eapply (op_neutral i_getdirentry (fun h v => h (node f) _ v)); [exact Hk|exact Ek|exact Hs|exact Hh|].
        intros h Hv Ha _ Eh Hc. destruct (law_getdirentry _ _ _ _ Hv Ha Eh Hc) as (a & v' & E & _ & H). by exists a, v'. }
      rewrite E1. cbn [rbind]. rewrite E2. eauto.
  Qed.

  (** ** A function that the inode lacks *)

Definition lacks (c : call) (ops : Z) : Prop :=
    match c with
    | CRead _ _ _ => i_read ops = None
    | CWrite _ _ _ => i_write ops = None
    | CSeek _ whence => i_tryseek ops = None /\ (whence = LSEEK_SET \/ whence = LSEEK_CUR)
    | CFstat => False
    | CFsync => i_fsync ops = None
    | CGetdirentry _ _ => i_getdirentry ops = None
    end.

Lemma vop_lacks {A} (sel : Z -> option A) v n : n <> 0 -> alive v n -> sel (opsof v n) = None -> vop sel n v = Err AssertFail.
  Proof.
    intros Hn Ha Hs. destruct (alive_get v n Ha) as (i & E & _ & _ & Eo). unfold vop. destruct (Z.eqb_spec n 0); [done|].
    cbn [negb rassert rbind]. rewrite (get_inode_Ok v n i Hn E). cbn [rbind]. rewrite Eo, Hs.
    rewrite bool_decide_false by (intros [? ?]; done). by rewrite andb_false_r.
  Qed.

Lemma leave_lacks (c : call) st ps x z k p i f : fok st ps x z -> ps !! k = Some (p, Some i) -> has_entry st p i f ->
    lacks c (opsof (fvfs st) (node f)) -> leave c p i st = Err AssertFail.
  Proof.
    intros Hk Ek Hh Hl. pose proof (held_alive_eq _ _ _ _ _ _ _ _ Hk Ek Hh) as Ha.
    pose proof (alive_ne0 _ _ _ _ (fk_v _ _ _ _ Hk) Ha) as Hn.
    destruct c as [data base len|data base len|dst whence| | |offset name]; cbn [lacks leave] in *; try done.
    - unfold file_rw_leave. rewrite (file_at_Ok _ _ _ _ Hh). cbn [rbind]. unfold vop_read. by rewrite (vop_lacks i_read).
    - unfold file_rw_leave. rewrite (file_at_Ok _ _ _ _ Hh). cbn [rbind]. unfold vop_write. by rewrite (vop_lacks i_write).
    - destruct Hl as [Hl Hw]. unfold file_seek_leave. rewrite (file_at_Ok _ _ _ _ Hh). cbn [rbind]. unfold vop_tryseek.
      destruct Hw as [-> | ->]; cbn [Z.eqb Pos.eqb LSEEK_SET LSEEK_CUR rbind]; by rewrite (vop_lacks i_tryseek).
    - unfold file_fsync_leave. rewrite (file_at_Ok _ _ _ _ Hh). cbn [rbind]. unfold vop_fsync. by rewrite (vop_lacks i_fsync).
    - unfold file_getdirentry_leave. rewrite (file_at_Ok _ _ _ _ Hh). cbn [rbind]. unfold vop_getdirentry. by rewrite (vop_lacks i_getdirentry).
  Qed.
End FileStep.
