(* ===== verification/FileProc.v ===== *)
(** * The tables of open files: processes that share, copy and drop them

    [chdir], [exec]'s [files_closeall], [fork]'s [copy_files] and [exit]'s
    [put_files] keep the invariant [fok]; the last process of a table gives
    back every reference the table holds. *)
From S2P Require Import Prelude IoBuf Vfs File VfsInv FileInv FileStep.

Section FileProc.
  Context {F : Type} `{!InodeOps F, !InodeLaws F}.
  Implicit Types (st : fstate F) (v : vfs F) (p q i n : Z) (ps : list (Z * option Z)) (x z : option Z).

  (** ** The current directory *)

Lemma chdir_tables st ps p k h path : fgood st ps -> ps !! k = Some (p, h) -> room 4 (fvfs st) ->
    path_fits path -> can_root (fvfs st) ->
    exists ret st', file_chdir p path st = Ok (ret, st') /\ fgood st' ps.
  Proof.
    intros Hk Ek Hr Hpf Hcr. destruct (fk_ps _ _ _ _ Hk _ _ _ Ek) as [fs E]. unfold file_chdir, get_files. rewrite E. cbn [rget rbind].
    destruct (chdir_Ok (fvfs st) (urefs None st) (orefs st) (pwd fs) path) as (ret & d & v & E1 & Hm & Hg & Hc);
      [apply Hk|done|by eapply cwd_of|apply Hk|done|done| |].
    { intros m. pose proof (wd_urefs None st m p fs E) as H. unfold wd in H. rewrite bool_decide_false in H by done. lia. }
    rewrite E1. cbn [rbind]. exists ret. eexists. split; [done|].
    destruct (fk_tab _ _ _ _ Hk p fs E) as [H1 H2 H3 H4 H5 H6].
    eapply (fok_table st ps None None p fs); [exact Hk|exact E|exact Hm| | |done|done|done|eauto].
    - eapply vgood_ext; [exact Hg|..]; intros n; unfold wd, fds; rewrite ?bool_decide_false by done; cbn [set_pwd File.pwd fd_array]; lia.
    - split; try done. destruct Hc as [?|(_ & Hd)]; [by right; left|by right; right].
  Qed.

  (** ** Closing every descriptor *)

Lemma tab_put st p q i g v : is_Some (ftabs st !! p) -> is_Some (ftabs (put_file q i g (set_vfs st v)) !! p).
  Proof.
    intros Hp. unfold put_file. cbn [set_vfs ftabs]. destruct (ftabs st !! q) as [fs|] eqn:E; [|done]. cbn [File.put_files ftabs].
    destruct (decide (p = q)) as [->|]; [rewrite lookup_insert_eq|rewrite lookup_insert_ne by done]; eauto.
  Qed.

Lemma has_entry_tab st ps x z p i : fok st ps x z -> is_Some (ftabs st !! p) -> testfd i = true -> exists f, has_entry st p i f.
  Proof.
    intros Hk [fs E] Hi. unfold testfd in Hi. apply andb_true_iff in Hi as [H0 H1].
    destruct (lookup_lt_is_Some_2 (fd_array fs) (Z.to_nat i)) as [f Ef]; [|exists f, fs; split; [done|split; [lia|done]]].
    rewrite (to_len _ _ _ _ _ _ (fk_tab _ _ _ _ Hk p fs E)). lia.
  Qed.

Lemma close_entries_Ok (n : nat) : forall st ps x z p i, fok st ps x z -> is_Some (ftabs st !! p) -> 0 <= i ->
    i + Z.of_nat n <= FILES_STRUCT_NENTRY -> exists st', close_entries n p i st = Ok st' /\ fok st' ps x z.
  Proof.
    induction n as [|n IH]; intros st ps x z p i Hk Hp Hi Hn; cbn [close_entries]; [eauto|].
    destruct (has_entry_tab _ _ _ _ _ i Hk Hp) as [f Hh]; [unfold testfd; lia|].
    rewrite (file_at_Ok _ _ _ _ Hh). cbn [rbind]. case_bool_decide as Hs.
    - destruct (close_entry_Ok _ _ _ _ _ _ _ Hk Hh Hs) as (st' & E & Hk' & _ & g & v & Est). rewrite E. cbn [rbind].
      apply IH; [done| |lia|lia]. rewrite Est. by apply tab_put.
    - cbn [rbind]. apply IH; [done|done|lia|lia].
  Qed.

Lemma closeall_Ok st ps k p h : fgood st ps -> ps !! k = Some (p, h) -> exists st', files_closeall p st = Ok st' /\ fgood st' ps.
  Proof.
    intros Hk Ek. destruct (fk_ps _ _ _ _ Hk _ _ _ Ek) as [fs E]. unfold files_closeall, get_files. rewrite E. cbn [rget rbind].
    destruct (fk_tab _ _ _ _ Hk p fs E) as [_ _ [Hpos|?] _ _ _]; [|done]. destruct (Z.ltb_spec 0 (files_count fs)); [|lia].
    cbn [rassert rbind]. apply close_entries_Ok; [done|eauto|lia|done].
  Qed.

  (** ** Destroying a table *)

  (** The entries below [i] are free. *)
Definition freed st p i : Prop := forall j f, j < i -> has_entry st p j f -> status f = FD_NONE.

Lemma freed_step st p i f : freed st p i -> has_entry st p i f -> status f = FD_NONE -> freed st p (i + 1).
  Proof.
    intros Hf Hh Hs j g Hj Hg. destruct (decide (j = i)) as [->|]; [|apply (Hf j); [lia|done]].
    pose proof (file_at_Ok _ _ _ _ Hg) as E. rewrite (file_at_Ok _ _ _ _ Hh) in E. congruence.
  Qed.

Lemma has_entry_back st p i g j f : has_entry (put_file p i g st) p j f -> 0 <= i -> j <> i -> has_entry st p j f.
  Proof.
    intros (fs & E & Hj & Ef) Hi Hne. unfold put_file in E. destruct (ftabs st !! p) as [a|] eqn:Ea; [|congruence].
    cbn [File.put_files ftabs] in E. rewrite lookup_insert_eq in E. injection E as <-. exists a. split; [done|]. split; [done|].
    cbn [set_fd_array fd_array] in Ef. rewrite list_lookup_insert_ne in Ef; [done|]. intros Heq. apply Hne. lia.
  Qed.

Lemma destroy_entries_Ok (n : nat) : forall st ps x z p i, fok st ps x z -> is_Some (ftabs st !! p) -> users ps p = 0 -> 0 <= i ->
    i + Z.of_nat n = FILES_STRUCT_NENTRY -> freed st p i ->
    exists st', destroy_entries n p i st = Ok st' /\ fok st' ps x z /\ is_Some (ftabs st' !! p) /\ freed st' p FILES_STRUCT_NENTRY.
  Proof.
    induction n as [|n IH]; intros st ps x z p i Hk Hp Hu Hi Hn Hf; cbn [destroy_entries].
    { exists st. split; [done|]. split; [done|]. split; [done|]. by replace FILES_STRUCT_NENTRY with i by lia. }
    destruct (has_entry_tab _ _ _ _ _ i Hk Hp) as [f Hh]; [unfold testfd; lia|].
    assert (H0 : hold ps p i = 0) by (pose proof (hold_users ps p i); pose proof (hold_nonneg ps p i); lia).
    rewrite (file_at_Ok _ _ _ _ Hh). cbn [rbind]. case_bool_decide as Hs.
    - destruct (close_entry_Ok _ _ _ _ _ _ _ Hk Hh Hs) as (st' & E & Hk' & Hnone & _). destruct (Hnone H0) as (g & v & -> & Hg).
      rewrite E. cbn [rbind]. pose proof (has_entry_put _ _ _ _ g (has_entry_vfs _ _ _ _ v Hh)) as Hh'.
      rewrite (file_at_Ok _ _ _ _ Hh'). cbn [rbind]. rewrite bool_decide_true by done. cbn [rassert rbind].
      apply IH; [done|by apply tab_put|done|lia|lia|]. eapply freed_step; [|exact Hh'|done].
      intros j a Hj Ha. apply (Hf j); [done|]. apply has_entry_back in Ha; [done|done|lia].
    - destruct (entry_facts _ _ _ _ _ _ _ Hk Hh) as [_ He].
      assert (Hnone : status f = FD_NONE) by (unfold entry_ok in He; destruct (status f); [done|done|done|lia]).
      cbn [rbind]. rewrite (file_at_Ok _ _ _ _ Hh). cbn [rbind]. rewrite bool_decide_true by done. cbn [rassert rbind].
      apply IH; [done|done|done|lia|lia|by eapply freed_step].
  Qed.

Lemma fds_freed st p fs n : ftabs st !! p = Some fs -> freed st p FILES_STRUCT_NENTRY ->
    length (fd_array fs) = Z.to_nat FILES_STRUCT_NENTRY -> fds n fs = 0.
  Proof.
    intros E Hf Hl. apply lsum_zero. intros f Hin. apply list_elem_of_lookup in Hin as [k Ek].
    apply ent_none, (Hf (Z.of_nat k)).
    - apply lookup_lt_Some in Ek. lia.
    - exists fs. rewrite Nat2Z.id. split; [done|]. split; [lia|done].
  Qed.

  (** Dropping an empty table that nobody uses. *)
Lemma fok_delete st ps p fs : fok st ps (Some p) (Some p) -> ftabs st !! p = Some fs -> users ps p = 0 ->
    (forall n, fds n fs = 0) -> fgood (mk_fstate (fvfs st) (delete p (ftabs st))) ps.
  Proof.
    intros Hk E Hu Hf. split; cbn [fvfs ftabs].
    - eapply vgood_ext; [apply Hk|..]; intros n; unfold urefs, orefs; cbn [ftabs].
      + rewrite (tsum_delete _ _ p fs E), Hf. unfold wd at 1. rewrite bool_decide_true by done.
        apply tsum_ext. intros q a Eq. unfold wd. rewrite !bool_decide_false; [done|done|]. intros [= ->].
        by rewrite lookup_delete_eq in Eq.
      + rewrite (tsum_delete _ _ p fs E), Hf. done.
    - apply Hk.
    - destruct (decide (p = 0)) as [->|]; [apply lookup_delete_eq|]. rewrite lookup_delete_ne by done. apply Hk.
    - intros q a Eq. destruct (decide (q = p)) as [->|Hq]; [by rewrite lookup_delete_eq in Eq|].
      rewrite lookup_delete_ne in Eq by done. destruct (fk_tab _ _ _ _ Hk q a Eq) as [H1 H2 H3 H4 H5 H6]. split; try done.
      + left. destruct H3 as [?|[= ->]]; done.
      + destruct H4 as [[= ->]|?]; [done|by right].
    - intros k q h Eq. destruct (fk_ps _ _ _ _ Hk k q h Eq) as [a Ea]. exists a. rewrite lookup_delete_ne; [done|].
      intros ->. pose proof (users_pos _ _ _ _ Eq). lia.
  Qed.

  (** The references of the table's directory go first. *)
Lemma drop_cwd st ps p fs : fok st ps None (Some p) -> ftabs st !! p = Some fs -> pwd fs <> 0 ->
    exists b v, inode_ref_dec (pwd fs) (fvfs st) = Ok (b, v) /\ fok (put_table p fs v st) ps (Some p) (Some p).
  Proof.
    intros Hk E Hn. pose proof (wd_urefs None st (pwd fs) p fs E) as Hw. pose proof (orefs_nonneg st (pwd fs)).
    assert (Ewd : forall n, wd None n p fs = one (pwd fs) n) by (intros n; unfold wd; rewrite bool_decide_false, own_one by done; done).
    destruct (ref_dec_Ok (fvfs st) (urefs None st) (orefs st) (pwd fs)) as (b & v & Ed & Hm & Hg);
      [apply Hk|rewrite Ewd, one_eq in Hw; lia|].
    exists b, v. split; [done|]. eapply (fok_table st ps None (Some p) p fs); [exact Hk|exact E|exact Hm| | |intros q Hq; split; congruence|done|done|eauto].
    - eapply vgood_ext; [exact Hg|..]; intros n; cbn beta; [|lia]. rewrite Ewd. unfold wd. rewrite bool_decide_true by done. lia.
    - destruct (fk_tab _ _ _ _ Hk p fs E) as [H1 H2 H3 H4 H5 H6]. split; try done. by left.
  Qed.

Lemma drop_cwd_null st ps p fs : fok st ps None (Some p) -> ftabs st !! p = Some fs -> pwd fs = 0 -> fok st ps (Some p) (Some p).
  Proof.
    intros Hk E Hn. assert (Est : put_table p fs (fvfs st) st = st).
    { unfold put_table, File.put_files. cbn [set_vfs fvfs ftabs]. rewrite insert_id by done. by destruct st. }
    rewrite <- Est.
    eapply (fok_table st ps None (Some p) p fs); [exact Hk|exact E|apply moves_refl| | |intros q Hq; split; congruence|done|done|eauto].
    - eapply vgood_ext; [apply Hk|..]; intros n; cbn beta; [|lia]. unfold wd. rewrite Hn. repeat case_bool_decide; (done || cbn; unfold none; lia).
    - destruct (fk_tab _ _ _ _ Hk p fs E) as [H1 H2 H3 H4 H5 H6]. split; try done. by left.
  Qed.

Lemma destroy_Ok st ps p fs : fok st ps None (Some p) -> ftabs st !! p = Some fs -> users ps p = 0 ->
    exists st', files_destroy p st = Ok st' /\ fgood st' ps.
  Proof.
    intros Hk E Hu. unfold files_destroy, get_files. rewrite E. cbn [rget rbind].
    rewrite (to_users _ _ _ _ _ _ (fk_tab _ _ _ _ Hk p fs E)), Hu. cbn [Z.eqb rassert rbind].
    assert (H1 : exists st1, (if negb (pwd fs =? 0) then let! (_, v) := inode_ref_dec (pwd fs) (fvfs st) in Ok (set_vfs st v) else Ok st) = Ok st1 /\
      fok st1 ps (Some p) (Some p) /\ is_Some (ftabs st1 !! p)).
    { destruct (Z.eqb_spec (pwd fs) 0) as [Hz|Hz]; cbn [negb].
      - exists st. split; [done|]. split; [by eapply drop_cwd_null|eauto].
      - destruct (drop_cwd st ps p fs Hk E Hz) as (b & v & Ed & Hk1). rewrite Ed. cbn [rbind]. exists (set_vfs st v). split; [done|].
        split; [|eauto]. replace (set_vfs st v) with (put_table p fs v st); [done|].
        unfold put_table, File.put_files. cbn [set_vfs fvfs ftabs]. by rewrite insert_id. }
    destruct H1 as (st1 & -> & Hk1 & Hp1). cbn [rbind].
    destruct (destroy_entries_Ok (Z.to_nat FILES_STRUCT_NENTRY) st1 ps (Some p) (Some p) p 0 Hk1 Hp1 Hu) as (st2 & -> & Hk2 & [fs2 E2] & Hf); [done|done| |].
    { intros j f Hj (a & _ & Hj' & _). lia. }
    cbn [rbind]. eexists. split; [done|]. eapply fok_delete; [done|exact E2|done|].
    intros n. eapply fds_freed; [exact E2|done|]. apply (to_len _ _ _ _ _ _ (fk_tab _ _ _ _ Hk2 p fs2 E2)).
  Qed.

  (** ** Leaving *)

Lemma exit_users ps k p : ps !! k = Some (p, None) -> users (delete k ps) p = users ps p - 1.
  Proof. intros E. unfold users. rewrite (lsum_delete _ _ _ _ E). cbn [fst]. by rewrite bool_decide_true. Qed.

Lemma exit_others ps k p q : ps !! k = Some (p, None) -> q <> p -> users (delete k ps) q = users ps q.
  Proof. intros E Hq. unfold users. rewrite (lsum_delete _ _ _ _ E). cbn [fst]. rewrite bool_decide_false; [lia|congruence]. Qed.

Lemma exit_hold ps k p q i : ps !! k = Some (p, None) -> hold (delete k ps) q i = hold ps q i.
  Proof. intros E. unfold hold. rewrite (lsum_delete _ _ _ _ E). rewrite bool_decide_false; [lia|congruence]. Qed.

Lemma delete_dom ps k j a : delete k ps !! j = Some a -> exists j', ps !! j' = Some a.
  Proof.
    intros E. destruct (decide (j < k)%nat) as [Hl|Hl].
    - rewrite list_lookup_delete_lt in E by done. eauto.
    - rewrite list_lookup_delete_ge in E by lia. eauto.
  Qed.

  (** Changing the number of users of a table. *)
Lemma fok_count st ps p fs c ps' z z' : fok st ps None z -> ftabs st !! p = Some fs -> c = users ps' p ->
    (0 < c \/ z' = Some p) -> (forall i, hold ps' p i = hold ps p i) ->
    (forall q, q <> p -> z = Some q -> z' = Some q) ->
    (forall q, q <> p -> users ps' q = users ps q /\ forall i, hold ps' q i = hold ps q i) ->
    (forall k q h, ps' !! k = Some (q, h) -> exists k' h', ps !! k' = Some (q, h') \/ q = p) ->
    fok (File.put_files p (set_files_count fs c) st) ps' None z'.
  Proof.
    intros Hk E Hc Hpos Hh Hz Hu Hd. destruct (fk_tab _ _ _ _ Hk p fs E) as [H1 H2 H3 H4 H5 H6].
    assert (Eref : forall n, urefs None (File.put_files p (set_files_count fs c) st) n = urefs None st n).
    { intros n. etrans; [by apply (urefs_put st p fs (set_files_count fs c) (fvfs st) None None n E)|]. unfold wd, fds. cbn. lia. }
    assert (Eo : forall n, orefs (File.put_files p (set_files_count fs c) st) n = orefs st n).
    { intros n. etrans; [apply (orefs_put st p fs (set_files_count fs c) (fvfs st) n E)|]. unfold fds. cbn. lia. }
    split; cbn [File.put_files fvfs ftabs].
    - eapply vgood_ext; [apply Hk|..]; intros n; by rewrite ?Eref, ?Eo.
    - apply Hk.
    - pose proof (fk_null _ _ _ _ Hk). rewrite lookup_insert_ne; [done|]. intros ->. congruence.
    - intros q a. destruct (decide (q = p)) as [->|Hq].
      + rewrite lookup_insert_eq. intros [= <-]. split; cbn [set_files_count fd_array files_count File.pwd]; try done.
        * intros k f Ef. rewrite Hh. auto.
        * intros i Hi. rewrite Hh. auto.
      + rewrite lookup_insert_ne by done. intros Eq. destruct (fk_tab _ _ _ _ Hk q a Eq) as [G1 G2 G3 G4 G5 G6].
        destruct (Hu q Hq) as [Hu1 Hu2]. split; [done|by rewrite Hu1| |done|..].
        * destruct G3; eauto.
        * intros k f Ef. rewrite Hu2. auto.
        * intros i Hi. rewrite Hu2. auto.
    - intros k q h Eq. destruct (decide (q = p)) as [->|Hq]; [rewrite lookup_insert_eq; eauto|rewrite lookup_insert_ne by done].
      destruct (Hd k q h Eq) as (k' & h' & [E'|?]); [by eapply fk_ps|done].
  Qed.

Lemma put_files_Ok st ps k p : fgood st ps -> ps !! k = Some (p, None) ->
    exists st', proc_put_files p st = Ok st' /\ fgood st' (delete k ps).
  Proof.
    intros Hk Ek. destruct (fk_ps _ _ _ _ Hk _ _ _ Ek) as [fs E]. unfold proc_put_files, get_files.
    assert (Hp : p <> 0) by (intros ->; pose proof (fk_null _ _ _ _ Hk); congruence).
    destruct (Z.eqb_spec p 0); [done|]. rewrite E. cbn [rget rbind].
    pose proof (to_users _ _ _ _ _ _ (fk_tab _ _ _ _ Hk p fs E)) as Hus. pose proof (users_pos _ _ _ _ Ek) as Hpos.
    assert (Hgen : forall z', 0 < files_count fs - 1 \/ z' = Some p ->
      fok (File.put_files p (set_files_count fs (files_count fs - 1)) st) (delete k ps) None z').
    { intros z' Hz. eapply fok_count; [exact Hk|exact E| |exact Hz| |done| |].
      - rewrite (exit_users _ _ _ Ek). lia.
      - intros i. by eapply exit_hold.
      - intros q Hq. split; [by eapply exit_others|intros i; by eapply exit_hold].
      - intros j q h Ej. destruct (delete_dom _ _ _ _ Ej) as [j' Ej']. eauto. }
    destruct (Z.eqb_spec (files_count fs - 1) 0) as [Hz|Hz].
    - eapply destroy_Ok; [apply Hgen; by right|cbn [File.put_files ftabs]; apply lookup_insert_eq|]. rewrite (exit_users _ _ _ Ek). lia.
    - eexists. split; [done|]. apply Hgen. left. lia.
  Qed.

  (** ** Forking *)

Lemma no_users ps q : (forall k h, ps !! k <> Some (q, h)) -> users ps q = 0.
  Proof.
    intros H. apply lsum_zero. intros [p h] Hin. apply list_elem_of_lookup in Hin as [k Ek]. cbn [fst].
    rewrite bool_decide_false; [done|]. intros ->. by apply (H k h).
  Qed.

Lemma fok_create st ps q raw : fgood st ps -> ftabs st !! q = None -> q <> 0 -> length raw = Z.to_nat FILES_STRUCT_NENTRY ->
    fok (File.put_files q (mk_files 0 (fd_array_init raw) 0) st) ps None (Some q) /\
    forall j f, has_entry (File.put_files q (mk_files 0 (fd_array_init raw) 0) st) q j f -> status f = FD_NONE.
  Proof.
    intros Hk E Hq Hl. set (fs := mk_files 0 (fd_array_init raw) 0).
    assert (He : forall k f, fd_array fs !! k = Some f -> fd f = Z.of_nat k /\ status f = FD_NONE /\ fopen_count f = 0).
    { intros k f Ef. unfold fs, fd_array_init in Ef. cbn [fd_array] in Ef. rewrite list_lookup_imap in Ef.
      destruct (raw !! k) as [g|]; [|done]. by injection Ef as <-. }
    assert (Hf0 : forall n, fds n fs = 0).
    { intros n. apply lsum_zero. intros f Hin. apply list_elem_of_lookup in Hin as [k Ek]. apply ent_none. by apply (He k). }
    assert (Hu : users ps q = 0).
    { apply no_users. intros k h Ek. destruct (fk_ps _ _ _ _ Hk _ _ _ Ek). congruence. }
    assert (Hh : forall i, hold ps q i = 0).
    { intros i. pose proof (hold_users ps q i). pose proof (hold_nonneg ps q i). lia. }
    split; [split; cbn [File.put_files fvfs ftabs]|].
    - eapply vgood_ext; [apply Hk|..]; intros n; unfold urefs, orefs; cbn [ftabs File.put_files]; rewrite tsum_insert by done; rewrite Hf0; [|done].
      unfold wd. by rewrite bool_decide_false.
    - apply Hk.
    - rewrite lookup_insert_ne by done. apply Hk.
    - intros p a. destruct (decide (p = q)) as [->|Hne].
      + rewrite lookup_insert_eq. intros [= <-]. split.
        * unfold fs, fd_array_init. cbn [fd_array]. by rewrite length_imap.
        * by rewrite Hu.
        * by right.
        * by right; left.
        * intros k f Ef. destruct (He k f Ef) as (H1 & H2 & H3). split; [done|]. unfold entry_ok. rewrite H2. by rewrite Hh.
        * done.
      + rewrite lookup_insert_ne by done. intros Ea. destruct (fk_tab _ _ _ _ Hk p a Ea) as [H1 H2 H3 H4 H5 H6]. split; try done.
        left. by destruct H3.
    - intros k p h Ek. destruct (decide (p = q)) as [->|Hne]; [rewrite lookup_insert_eq; eauto|rewrite lookup_insert_ne by done].
      by eapply fk_ps.
    - intros j f (a & Ea & _ & Ef). cbn [File.put_files ftabs] in Ea. rewrite lookup_insert_eq in Ea. injection Ea as <-. by apply (He _ _ Ef).
  Qed.

Lemma tabs_put st p q j f v fs : ftabs st !! p = Some fs -> exists fs', ftabs (put_file q j f (set_vfs st v)) !! p = Some fs' /\ pwd fs' = pwd fs.
  Proof.
    intros E. unfold put_file. cbn [set_vfs ftabs]. destruct (ftabs st !! q) as [a|] eqn:Eq; [|eauto]. cbn [File.put_files ftabs].
    destruct (decide (p = q)) as [->|]; [rewrite lookup_insert_eq|rewrite lookup_insert_ne by done]; [|eauto].
    eexists. split; [done|]. cbn. congruence.
  Qed.

Lemma room_up v r w v' k : moves v r w v' -> (forall n, r n <= 1) -> room (k + 1) v -> room k v'.
  Proof. intros Hm Hr H n. rewrite (mv_ref _ _ _ _ Hm). specialize (H n). specialize (Hr n). lia. Qed.

Lemma dup_entries_Ok (n : nat) : forall st ps z p q i, fok st ps None z -> p <> q -> is_Some (ftabs st !! p) -> is_Some (ftabs st !! q) ->
    (forall j f, i <= j -> has_entry st p j f -> status f = FD_NONE) -> room (Z.of_nat n) (fvfs st) -> 0 <= i ->
    i + Z.of_nat n <= FILES_STRUCT_NENTRY ->
    exists st', dup_entries n p q i st = Ok st' /\ fok st' ps None z /\ is_Some (ftabs st' !! p).
  Proof.
    induction n as [|n IH]; intros st ps z p q i Hk Hpq Hp Hq Hf Hr Hi Hn; cbn [dup_entries]; [eauto|].
    destruct (has_entry_tab _ _ _ _ _ i Hk Hp) as [f Hh]; [unfold testfd; lia|].
    destruct (has_entry_tab _ _ _ _ _ i Hk Hq) as [b Hb]; [unfold testfd; lia|].
    rewrite (file_at_Ok _ _ _ _ Hb). cbn [rbind]. case_bool_decide as Hs; cbn [rbind].
    - rewrite (file_at_Ok _ _ _ _ Hh). cbn [rbind].
      assert (Hfs : status f = FD_NONE) by (apply (Hf i); [lia|done]).
      destruct (free_entry _ _ _ _ _ _ _ Hk Hh Hfs) as (Hc & _ & Hfd).
      destruct (array_dup_Ok st ps None z p i q i f (set_status f FD_INIT) b) as (g & v & E & Hk' & Hm); try done.
      { intros m. specialize (Hr m). lia. }
      rewrite E. cbn [rbind]. apply IH; try done; try lia; try by apply tab_put.
      + intros j a Hj Ha. apply (Hf j); [lia|]. apply (has_entry_vfs (set_vfs st v) p j a (fvfs st)).
        apply has_entry_back in Ha; [|done|lia]. done.
      + rewrite fvfs_put. eapply room_up; [exact Hm|intros m; apply one_range|]. intros m. specialize (Hr m). cbn in Hr |- *. lia.
    - apply IH; try done; try lia; [intros j a Hj; apply Hf; lia|]. intros m. specialize (Hr m). lia.
  Qed.

Lemma fok_set_pwd st ps q p fs from k : fok st ps None (Some q) -> ftabs st !! q = Some fs -> pwd fs = 0 ->
    ftabs st !! p = Some from -> room (k + 1) (fvfs st) -> 0 <= k ->
    exists v, (if negb (pwd from =? 0) then
        let! (_, v) := inode_ref_inc (pwd from) (fvfs st) in Ok (set_vfs (File.put_files q (set_pwd fs (pwd from)) st) v)
      else Ok (File.put_files q (set_pwd fs (pwd from)) st)) = Ok (put_table q (set_pwd fs (pwd from)) v st) /\
      fok (put_table q (set_pwd fs (pwd from)) v st) ps None (Some q) /\ room k v.
  Proof.
    intros Hk E Hz Ep Hr Hk0. destruct (fk_tab _ _ _ _ Hk q fs E) as [H1 H2 H3 H4 H5 H6].
    assert (Ewd : forall a n, wd None n q a = own (pwd a) n) by (intros a n; unfold wd; by rewrite bool_decide_false).
    assert (Hfd : forall n, fds n (set_pwd fs (pwd from)) = fds n fs) by done.
    destruct (Z.eqb_spec (pwd from) 0) as [E0|Hn]; cbn [negb].
    - exists (fvfs st). split; [done|]. split; [|intros n; specialize (Hr n); lia].
      eapply (fok_table st ps None (Some q) q fs); [exact Hk|exact E|apply moves_refl| | |done|done|done|eauto].
      + eapply vgood_ext; [apply Hk|..]; intros n; cbn beta; rewrite ?Ewd, Hfd; cbn [set_pwd File.pwd]; rewrite ?Hz, ?E0; lia.
      + split; try done. rewrite E0. by right; left.
    - assert (Hc : cwd_ok (fvfs st) (urefs None st) (pwd from)) by (by eapply cwd_of).
      destruct Hc as [?|(Hu & Hd)]; [done|]. pose proof (held_alive _ _ _ _ (fk_v _ _ _ _ Hk) Hu) as Ha.
      destruct (ref_inc_Ok (fvfs st) (urefs None st) (orefs st) (pwd from)) as (c & v & Ei & Hm & Hg);
        [apply Hk|done|specialize (Hr (pwd from)); lia|].
      rewrite Ei. cbn [rbind]. exists v. split; [done|]. split; [|eapply room_up; [exact Hm|intros m; apply one_range|done]].
      assert (Hg' : vgood v (fun n => urefs None st n - (fds n fs + wd None n q fs) +
        (fds n (set_pwd fs (pwd from)) + wd None n q (set_pwd fs (pwd from)))) (fun n => orefs st n - fds n fs + fds n (set_pwd fs (pwd from)))).
      { eapply vgood_ext; [exact Hg|..]; intros n; cbn beta; rewrite ?Ewd, Hfd; cbn [set_pwd File.pwd]; [|lia].
        rewrite Hz, (own_one (pwd from)) by done. unfold own, none. cbn [Z.eqb]. lia. }
      eapply (fok_table st ps None (Some q) q fs); [exact Hk|exact E|exact Hm|exact Hg'| |done|done|done|eauto].
      split; try done. right; right. cbn [set_pwd File.pwd]. eapply wd_stable; [exact Hm|apply Hk|exact Hg|done| |done].
      cbn beta. rewrite one_eq. lia.
  Qed.

  (** [dup_files]: a new table gets a copy of every open descriptor. *)
Lemma dup_files_Ok st ps q p fs k h : fok st ps None (Some q) -> ftabs st !! q = Some fs -> pwd fs = 0 -> users ps q = 0 ->
    (forall j f, has_entry st q j f -> status f = FD_NONE) -> ps !! k = Some (p, h) -> p <> q ->
    room (FILES_STRUCT_NENTRY + 1) (fvfs st) ->
    exists st', dup_files q p st = Ok (0, st') /\ fok st' ps None (Some q) /\ is_Some (ftabs st' !! q).
  Proof.
    intros Hk E Hz Hu Hf Ek Hpq Hr. destruct (fk_ps _ _ _ _ Hk _ _ _ Ek) as [from Ep]. unfold dup_files, get_files.
    rewrite E. cbn [rget rbind]. rewrite Ep. cbn [rget rbind].
    rewrite (to_users _ _ _ _ _ _ (fk_tab _ _ _ _ Hk q fs E)), Hu.
    pose proof (users_pos _ _ _ _ Ek) as Hpos. rewrite (to_users _ _ _ _ _ _ (fk_tab _ _ _ _ Hk p from Ep)).
    destruct (Z.ltb_spec 0 (users ps p)); [|lia]. cbn [Z.eqb andb rassert rbind].
    destruct (fok_set_pwd st ps q p fs from FILES_STRUCT_NENTRY Hk E Hz Ep Hr) as (v & Ev & Hk1 & Hr1); [done|].
    cbn [File.put_files fvfs] in Ev |- *. rewrite Ev. cbn [rbind].
    destruct (dup_entries_Ok (Z.to_nat FILES_STRUCT_NENTRY) (put_table q (set_pwd fs (pwd from)) v st) ps (Some q) q p 0) as (st' & Ed & Hk' & Hq');
      try done; cbn [put_table File.put_files set_vfs ftabs].
    - rewrite lookup_insert_eq. eauto.
    - rewrite lookup_insert_ne by congruence. eauto.
    - intros j f Hj (a & Ea & _ & Ef). cbn [put_table File.put_files set_vfs ftabs] in Ea. rewrite lookup_insert_eq in Ea. injection Ea as <-.
      apply (Hf j). by exists fs.
    - rewrite Ed. cbn [rbind]. exists st'. by split.
  Qed.

Lemma fork_users ps p q : users (ps ++ [(q, None)]) p = users ps p + (if bool_decide (q = p) then 1 else 0).
  Proof. unfold users. rewrite lsum_app. cbn [lsum fst]. lia. Qed.
Lemma fork_hold ps p q i : hold (ps ++ [(q, None)]) p i = hold ps p i.
  Proof. unfold hold. rewrite lsum_app. cbn [lsum]. rewrite bool_decide_false by congruence. lia. Qed.

  (** One user more. *)
Lemma count_inc_Ok st ps z p fs : fok st ps None z -> z = None \/ z = Some p -> ftabs st !! p = Some fs ->
    exists st', files_count_inc p st = Ok st' /\ fgood st' (ps ++ [(p, None)]).
  Proof.
    intros Hk Hz E. unfold files_count_inc, get_files. rewrite E. cbn [rget rbind]. eexists. split; [done|].
    pose proof (to_users _ _ _ _ _ _ (fk_tab _ _ _ _ Hk p fs E)) as Hu. pose proof (users_nonneg ps p).
    eapply fok_count; [exact Hk|exact E|..].
    - rewrite fork_users, bool_decide_true by done. lia.
    - left. lia.
    - intros i. apply fork_hold.
    - intros q Hq. destruct Hz as [-> | ->]; congruence.
    - intros q Hq. rewrite fork_users, bool_decide_false by congruence. split; [lia|]. intros i. apply fork_hold.
    - intros k q h Ek. apply lookup_app_Some in Ek as [Ek|[_ Ek]]; [eauto|]. apply list_lookup_singleton_Some in Ek as [_ Ek].
      injection Ek as <- <-. exists O, None. by right.
  Qed.

Lemma copy_files_Ok st ps k p h flags q raw : fgood st ps -> ps !! k = Some (p, h) ->
    ftabs st !! q = None -> length raw = Z.to_nat FILES_STRUCT_NENTRY -> room (FILES_STRUCT_NENTRY + 1) (fvfs st) ->
    exists ret t st', copy_files flags p q raw st = Ok (ret, t, st') /\ fgood st' (if ret =? 0 then ps ++ [(t, None)] else ps).
  Proof.
    intros Hk Ek E Hl Hr. destruct (fk_ps _ _ _ _ Hk _ _ _ Ek) as [from Ep]. unfold copy_files. unfold get_files at 1. rewrite Ep. cbn [rget rbind].
    destruct (has flags CLONE_FS).
    { destruct (count_inc_Ok st ps None p from Hk) as (st' & Ec & Hk'); [by left|done|]. rewrite Ec. cbn [rbind]. eexists _, _, _. by split. }
    unfold files_create. destruct (Z.eqb_spec q 0) as [->|Hq].
    { cbn [Z.eqb]. by exists (- E_NO_MEM), 0, st. }
    destruct (Z.eqb_spec q 0); [done|]. destruct (fok_create st ps q raw Hk E Hq Hl) as [Hk1 Hf1].
    destruct (dup_files_Ok (File.put_files q (mk_files 0 (fd_array_init raw) 0) st) ps q p (mk_files 0 (fd_array_init raw) 0) k h) as (st' & Ed & Hk2 & [fs2 E2]); try done.
    - cbn [File.put_files ftabs]. apply lookup_insert_eq.
    - apply no_users. intros j g Ej. destruct (fk_ps _ _ _ _ Hk _ _ _ Ej). congruence.
    - intros ->. congruence.
    - rewrite Ed. cbn [rbind negb Z.eqb]. destruct (count_inc_Ok st' ps (Some q) q fs2 Hk2) as (st2 & Ec & Hk3); [by right|done|].
      rewrite Ec. cbn [rbind]. exists 0, q, st2. by split.
  Qed.

  (** The first process ([proc_init]). *)
Lemma first_process v p raw : vgood v none none -> boot_ok v -> p <> 0 -> length raw = Z.to_nat FILES_STRUCT_NENTRY ->
    exists st', files_count_inc p (files_create p raw (mk_fstate v ∅)).2 = Ok st' /\ fgood st' [(p, None)].
  Proof.
    intros Hg Hb Hp Hl. assert (H0 : fgood (mk_fstate v ∅) []) by by split; cbn.
    unfold files_create. destruct (Z.eqb_spec p 0); [done|]. cbn [snd].
    destruct (fok_create (mk_fstate v ∅) [] p raw H0) as [Hk _]; [done..|].
    apply (count_inc_Ok _ [] (Some p) p (mk_files 0 (fd_array_init raw) 0) Hk); [by right|]. cbn. apply lookup_insert_eq.
  Qed.
End FileProc.
