(* ===== verification/FileSafe.v ===== *)
(** * The tables of open files: every run is safe

    Processes open, close, duplicate, read, write, change directory, fork,
    execute and exit, in any order; a call on a descriptor is two steps, so
    that other processes run while it sleeps.  As long as every inode has the
    functions that are called, and files are opened without [O_CREAT] and
    [O_TRUNC], no assertion of file.c, fs.c or inode.c fails, and the open count
    of every inode is the number of descriptors on it.  A call that the inode
    lacks stops the kernel ([unsupported_call_stops]). *)
From S2P Require Import Prelude IoBuf BlockDev Vfs File Dev VfsInv DevSpec FileInv FileStep FileProc.

Section FileSafe.
  Context {F : Type} `{!InodeOps F, !InodeLaws F}.

  (** The kernel's state and the processes: the table of each and the
      descriptor its call holds. *)
Definition world : Type := fstate F * list (Z * option Z).

  (** [k] is the process. *)
Inductive event :=
    | EOpen (k : nat) (path : list Z) (flags : Z)
    | EClose (k : nat) (fd : Z)
    | EDup (k : nat) (fd1 fd2 : Z)
    | EChdir (k : nat) (path : list Z)
    | ECall (k : nat) (fd : Z) (c : call)
    | EReturn (k : nat) (c : call)
    | EExec (k : nat)
    | EFork (k : nat) (flags addr : Z) (raw : list file)
    | EExit (k : nat).

  (** The access that a call asks of the descriptor. *)
Definition access (c : call) (f : file) : bool :=
    match c with CRead _ _ _ => readable f | CWrite _ _ _ => writable f | _ => true end.

Definition keep (ps : list (Z * option Z)) (m : res (Z * fstate F)) : res world := let! (_, st) := m in Ok (st, ps).

(** One step.  [EFork] is [copy_files]: the table that [alloc_proc] has created
    for the new process before, which [copy_files] replaces and nobody frees, is
    out of reach and not part of the state (it is in [Fork.do_fork]). *)
Definition fstep (e : event) (w : world) : res world :=
    let '(st, ps) := w in
    match e with
    | EOpen k path flags => let! a := rget (ps !! k) in keep ps (file_open a.1 path flags st)
    | EClose k fd => let! a := rget (ps !! k) in keep ps (file_close a.1 fd st)
    | EDup k fd1 fd2 => let! a := rget (ps !! k) in keep ps (file_dup a.1 fd1 fd2 st)
    | EChdir k path => let! a := rget (ps !! k) in keep ps (file_chdir a.1 path st)
    | ECall k fd c =>
        let! a := rget (ps !! k) in
        let! (ret, st) := file_enter a.1 fd (access c) st in
        Ok (st, if ret =? 0 then <[k := (a.1, Some fd)]> ps else ps)
    | EReturn k c =>
        let! a := rget (ps !! k) in
        let! fd := rget a.2 in
        let! st := leave c a.1 fd st in
        Ok (st, <[k := (a.1, None)]> ps)
    | EExec k => let! a := rget (ps !! k) in let! st := files_closeall a.1 st in Ok (st, ps)
    | EFork k flags addr raw =>
        let! a := rget (ps !! k) in
        let! (ret, t, st) := copy_files flags a.1 addr raw st in
        Ok (st, if ret =? 0 then ps ++ [(t, None)] else ps)
    | EExit k => let! a := rget (ps !! k) in let! st := proc_put_files a.1 st in Ok (st, delete k ps)
    end.

Definition idle (ps : list (Z * option Z)) (k : nat) : Prop := exists p, ps !! k = Some (p, None).

  (** What is asked of an event: the process is there and not inside another
      call; reference counts are not about to overflow; the file system takes
      the path and can load its root; [open] is without [O_CREAT] and
      [O_TRUNC]; the inode of a call has the function; a new table is at a free
      address. *)
Definition allowed (e : event) (w : world) : Prop :=
    let '(st, ps) := w in
    match e with
    | EOpen k path flags => idle ps k /\ room 3 (fvfs st) /\ path_fits path /\ can_root (fvfs st) /\ has flags O_CREAT = false /\ has flags O_TRUNC = false
    | EClose k _ | EExec k | EExit k | ECall k _ _ => idle ps k
    | EDup k _ _ => idle ps k /\ room 1 (fvfs st)
    | EChdir k path => idle ps k /\ room 4 (fvfs st) /\ path_fits path /\ can_root (fvfs st)
    | EReturn k c => exists p fd, ps !! k = Some (p, Some fd) /\ supported c st p fd
    | EFork k flags addr raw => idle ps k /\ ftabs st !! addr = None /\ length raw = Z.to_nat FILES_STRUCT_NENTRY /\
        room (FILES_STRUCT_NENTRY + 1) (fvfs st)
    end.

Lemma fstep_Ok e w : fgood w.1 w.2 -> allowed e w -> exists w', fstep e w = Ok w' /\ fgood w'.1 w'.2.
  Proof.
    destruct w as [st ps]. cbn [fst snd]. intros Hg Ha. destruct e; cbn [allowed fstep] in *.
    - destruct Ha as ([p Ek] & Hr & Hpf & Hcr & Hc & Ht). rewrite Ek. cbn [rget rbind fst].
      destruct (file_open_Ok st ps None None k p None path flags) as (ret & st' & E & Hg'); try done.
      rewrite E. by exists (st', ps).
    - destruct Ha as [p Ek]. rewrite Ek. cbn [rget rbind fst].
      destruct (file_close_Ok st ps None None k p None fd Hg Ek) as (ret & st' & E & Hg'). rewrite E. by exists (st', ps).
    - destruct Ha as ([p Ek] & Hr). rewrite Ek. cbn [rget rbind fst].
      destruct (file_dup_Ok st ps None None k p None fd1 fd2 Hg Ek Hr) as (ret & st' & E & Hg'). rewrite E. by exists (st', ps).
    - destruct Ha as ([p Ek] & Hr & Hpf & Hcr). rewrite Ek. cbn [rget rbind fst].
      destruct (chdir_tables st ps p k None path Hg Ek Hr Hpf Hcr) as (ret & st' & E & Hg'). rewrite E. by exists (st', ps).
    - destruct Ha as [p Ek]. rewrite Ek. cbn [rget rbind fst].
      destruct (file_enter_Ok st ps None None k p fd (access c) Hg Ek) as (ret & st' & E & Hg'). rewrite E. cbn [rbind]. eexists. by split.
    - destruct Ha as (p & fd & Ek & Hs). rewrite Ek. cbn [rget rbind fst snd].
      destruct (leave_call_Ok c st ps None None k p fd Hg Ek Hs) as (st' & E & Hg'). rewrite E. cbn [rbind]. eexists. by split.
    - destruct Ha as [p Ek]. rewrite Ek. cbn [rget rbind fst].
      destruct (closeall_Ok st ps k p None Hg Ek) as (st' & E & Hg'). rewrite E. cbn [rbind]. by exists (st', ps).
    - destruct Ha as ([p Ek] & Hf & Hl & Hr). rewrite Ek. cbn [rget rbind fst].
      destruct (copy_files_Ok st ps k p None flags addr raw Hg Ek Hf Hl Hr) as (ret & t & st' & E & Hg'). rewrite E. cbn [rbind]. eexists. by split.
    - destruct Ha as [p Ek]. rewrite Ek. cbn [rget rbind fst].
      destruct (put_files_Ok st ps k p Hg Ek) as (st' & E & Hg'). rewrite E. cbn [rbind]. eexists. by split.
  Qed.

Fixpoint frun (es : list event) (w : world) : res world :=
    match es with [] => Ok w | e :: es => let! w := fstep e w in frun es w end.

  (** Every event is allowed when its turn comes. *)
Fixpoint admissible (es : list event) (w : world) : Prop :=
    match es with [] => True | e :: es => allowed e w /\ forall w', fstep e w = Ok w' -> admissible es w' end.

Lemma frun_Ok es : forall w, fgood w.1 w.2 -> admissible es w -> exists w', frun es w = Ok w' /\ fgood w'.1 w'.2.
  Proof.
    induction es as [|e es IH]; intros w Hg Ha; cbn [frun]; [by exists w|]. destruct Ha as [Ha Hes].
    destruct (fstep_Ok e w Hg Ha) as (w' & E & Hg'). rewrite E. cbn [rbind]. apply IH; [done|by apply Hes].
  Qed.

  (** Without processes there is no table left. *)
Lemma no_tables st : fgood st [] -> ftabs st = ∅.
  Proof.
    intros Hg. apply map_empty. intros p. destruct (ftabs st !! p) as [fs|] eqn:E; [|done].
    destruct (fk_tab _ _ _ _ Hg p fs E) as [_ Hu [Hp|?] _ _ _]; [|done]. cbn in Hu. lia.
  Qed.

  (** ** Checking a run *)

Definition roomb (k : Z) (v : vfs F) : bool :=
    (k <? MAX_INODE_COUNT) && bool_decide (map_Forall (fun _ i => ref_count i + k < MAX_INODE_COUNT) (inodes v)).

Lemma roomb_room k v : roomb k v = true -> room k v.
  Proof.
    intros [Hk Hm%bool_decide_eq_true]%andb_true_iff n. apply Z.ltb_lt in Hk. unfold refc.
    destruct (inodes v !! n) as [i|] eqn:E; [by apply (Hm n i E)|lia].
  Qed.

Definition idleb (ps : list (Z * option Z)) (k : nat) : bool := match ps !! k with Some (_, None) => true | _ => false end.

Lemma idleb_idle ps k : idleb ps k = true -> idle ps k.
  Proof. unfold idleb, idle. destruct (ps !! k) as [[p [h|]]|]; try done. eauto. Qed.

  Context (supb : call -> fstate F -> Z -> Z -> bool).
  Context (supb_sound : forall c st p i, supb c st p i = true -> supported c st p i).
  Context (pathb : list Z -> vfs F -> bool).
  Context (pathb_sound : forall path st ps, fgood st ps -> pathb path (fvfs st) = true -> path_fits path /\ can_root (fvfs st)).

Definition allowedb (e : event) (w : world) : bool :=
    let '(st, ps) := w in
    match e with
    | EOpen k path flags => idleb ps k && roomb 3 (fvfs st) && pathb path (fvfs st) && negb (has flags O_CREAT) && negb (has flags O_TRUNC)
    | EClose k _ | EExec k | EExit k | ECall k _ _ => idleb ps k
    | EDup k _ _ => idleb ps k && roomb 1 (fvfs st)
    | EChdir k path => idleb ps k && roomb 4 (fvfs st) && pathb path (fvfs st)
    | EReturn k c => match ps !! k with Some (p, Some i) => supb c st p i | _ => false end
    | EFork k flags addr raw => idleb ps k && bool_decide (ftabs st !! addr = None) &&
        bool_decide (length raw = Z.to_nat FILES_STRUCT_NENTRY) && roomb (FILES_STRUCT_NENTRY + 1) (fvfs st)
    end.

Lemma allowedb_allowed e w : fgood w.1 w.2 -> allowedb e w = true -> allowed e w.
  Proof.
    destruct w as [st ps]. cbn [fst snd]. intros Hg. destruct e; cbn [allowedb allowed]; rewrite ?andb_true_iff, ?negb_true_iff, ?bool_decide_eq_true;
      try (intros; by apply idleb_idle).
    - intros [[[[H1 H2] H5] H3] H4]. apply (pathb_sound path st ps Hg) in H5 as [H5 H6].
      split; [by apply idleb_idle|]. split; [by apply roomb_room|done].
    - intros [H1 H2]. split; [by apply idleb_idle|by apply roomb_room].
    - intros [[H1 H2] H5]. apply (pathb_sound path st ps Hg) in H5 as [H5 H6].
      split; [by apply idleb_idle|]. split; [by apply roomb_room|done].
    - destruct (ps !! k) as [[p [i|]]|]; try done. intros H. exists p, i. auto.
    - intros [[[H1 H2] H3] H4]. split; [by apply idleb_idle|]. split; [done|]. split; [done|by apply roomb_room].
  Qed.

Fixpoint checks (es : list event) (w : world) : bool :=
    match es with
    | [] => true
    | e :: es => allowedb e w && match fstep e w with Ok w' => checks es w' | Err _ => false end
    end.

Lemma checks_admissible es : forall w, fgood w.1 w.2 -> checks es w = true -> admissible es w.
  Proof.
    induction es as [|e es IH]; intros w Hg H; [done|]. cbn [checks] in H. apply andb_true_iff in H as [H1 H2].
    apply (allowedb_allowed e w Hg) in H1. split; [done|]. intros w' E. rewrite E in H2. apply IH; [|done].
    destruct (fstep_Ok e w Hg H1) as (w2 & E2 & Hg2). rewrite E in E2. by injection E2 as ->.
  Qed.
End FileSafe.

(** ** A run on the devices *)

Section Demo.
Definition demo_devs : devs disk0 :=
    mk_devs ∅ (replicate (Z.to_nat 4096) 0) 0 0 [Keys [104]; Keys [105; 10]] [] (mk_disk0 0 0 (fun _ => 0) []).
Definition demo_buf : list Z := replicate (Z.to_nat 16384) 0.
Definition demo_raw : list file := replicate (Z.to_nat FILES_STRUCT_NENTRY) (mk_file FD_OPENED true true 0 0 0 0).

  (** The kernel after [dev_init], with one process; its table is at 7. *)
Definition demo_world : res world :=
    let! v := dev_init true 1 2 3 (fun d => disk0_device_init (flash d) (Some demo_buf)) (mk_vfs ∅ 0 [] demo_devs) in
    let! st := files_count_inc 7 (files_create 7 demo_raw (mk_fstate v ∅)).2 in
    Ok (st, [(7, None)]).

Lemma demo_good : exists w, demo_world = Ok w /\ fgood w.1 w.2.
  Proof.
    destruct (dev_init_spec (F := devs disk0) 1 2 3 (fun d => disk0_device_init (flash d) (Some demo_buf)) (mk_disk0 1024 4096 (fun _ => 0) demo_buf) demo_devs)
      as (v & E & Hr & _); try done.
    - by apply (bool_decide_eq_true_1 (NoDup [1; 2; 3])); vm_compute.
    - pose proof (registered_good v Hr) as Hg.
      destruct (first_process v 7 demo_raw Hg) as (st & Es & Hf); [left; apply Hr|done|done|].
      exists (st, [(7, None)]). unfold demo_world. rewrite E. cbn [rbind]. rewrite Es. by split.
  Qed.

  (** What a device inode supports. *)
Definition dev_supb (c : call) (st : fstate (devs disk0)) (p i : Z) : bool :=
    match c with
    | CFstat => true
    | CRead data base len | CWrite data base len =>
        match file_at p i st with
        | Ok f => (opsof (fvfs st) (node f) =? dev_node_ops) && (0 <=? base) && (0 <=? len) && (base + len <=? Z.of_nat (length data)) &&
            match dev_info (devs_of (fvfs st)) !! node f with Some dev => bool_decide (dv_driver dev <> DDisk0) | None => false end
        | Err _ => false
        end
    | CSeek _ _ => match file_at p i st with Ok f => opsof (fvfs st) (node f) =? dev_node_ops | Err _ => false end
    | _ => false
    end.

Lemma dev_supb_sound c st p i : dev_supb c st p i = true -> supported c st p i.
  Proof.
    destruct c as [data base len|data base len|dst whence| | |offset name]; try done; cbn [dev_supb supported]; intros H f Hf;
      rewrite (file_at_Ok _ _ _ _ Hf) in H; rewrite ?andb_true_iff in H.
    3: { apply Z.eqb_eq in H. rewrite H. done. }
    all: destruct H as [[[[Ho Hb] Hl] Hd] Hk]; apply Z.eqb_eq in Ho; rewrite Ho; split; [done|]; split; [unfold iob_ok; cbn; lia|];
      intros dev Ed Edr; rewrite Ed in Hk; by apply bool_decide_eq_true in Hk.
  Qed.

Definition dev_pathb (path : list Z) (v : vfs (devs disk0)) : bool := true.

Lemma dev_pathb_sound path (st : fstate (devs disk0)) ps : fgood st ps -> dev_pathb path (fvfs st) = true -> path_fits path /\ can_root (fvfs st).
  Proof. done. Qed.
End Demo.

(** ** The theorems *)

Section FileTheorems.
  Context {F : Type} `{!InodeOps F, !InodeLaws F}.

  (** In every admissible run, which has no open with [O_CREAT] or [O_TRUNC] and
      no call that the inode lacks, no assertion of the open files, the tables
      or the inodes fails; afterwards the open count of an inode is the number of
      descriptors on it in all tables, and it has a reference for each of them
      and for each process directory. *)
Theorem files_run_safe es w : fgood w.1 w.2 -> admissible es w ->
    exists w', frun es w = Ok w' /\ fgood w'.1 w'.2 /\
      forall n, openc (fvfs w'.1) n = orefs w'.1 n /\ urefs None w'.1 n <= refc (fvfs w'.1) n.
  Proof.
    intros Hg Ha. destruct (frun_Ok es w Hg Ha) as (w' & E & Hg'). exists w'. split; [done|]. split; [done|]. intros n.
    split; [apply (vg_open _ _ _ (fk_v _ _ _ _ Hg'))|]. pose proof (vg_ref _ _ _ (fk_v _ _ _ _ Hg') n). pose proof (base_nonneg (fvfs w'.1) n). lia.
  Qed.

  (** When the last process of an admissible run has exited, every table that was
      given to a process is freed and every inode is closed. *)
Theorem files_all_closed es w st : fgood w.1 w.2 -> admissible es w -> frun es w = Ok (st, []) ->
    ftabs st = ∅ /\ forall n, openc (fvfs st) n = 0.
  Proof.
    intros Hg Ha E. destruct (frun_Ok es w Hg Ha) as (w' & E' & Hg'). rewrite E in E'. injection E' as <-. cbn [fst snd] in Hg'.
    pose proof (no_tables st Hg') as Ht. split; [done|]. intros n. rewrite (vg_open _ _ _ (fk_v _ _ _ _ Hg')).
    unfold orefs. by rewrite Ht.
  Qed.
  (** C40: A call on a descriptor whose inode lacks the function (reading a
      directory, synchronising a device, listing a file) fails the assertion of
      [__vop_op] and stops the kernel; the caller gets no error code. *)
Theorem unsupported_call_stops (c : call) st ps k p i f : fgood st ps -> ps !! k = Some (p, Some i) -> has_entry st p i f ->
    lacks c (opsof (fvfs st) (node f)) -> fstep (EReturn k c) (st, ps) = Err AssertFail.
  Proof.
    intros Hg Ek Hh Hl. cbn [fstep]. rewrite Ek. cbn [rget rbind fst snd]. by rewrite (leave_lacks c st ps None None k p i f Hg Ek Hh Hl).
  Qed.
End FileTheorems.

Definition path_stdin : list Z := name_stdin ++ [58].
Definition path_stdout : list Z := name_stdout ++ [58].

(** The parent opens the console and forks; the child closes its copy of the
    input while a read of the parent's is under way; both exit. *)
Definition demo_run : list event :=
  [EOpen 0 path_stdin O_RDONLY; EOpen 0 path_stdout O_WRONLY; EDup 0 1 NO_FD; EFork 0 0 8 demo_raw; EFork 0 CLONE_FS 9 demo_raw;
   ECall 0 0 (CRead [0; 0; 0; 0] 0 4); EClose 2 0; EReturn 0 (CRead [0; 0; 0; 0] 0 4);
   ECall 1 1 (CWrite [104; 105] 0 2); EReturn 1 (CWrite [104; 105] 0 2); EOpen 1 path_stdin O_WRONLY;
   EExec 1; EChdir 1 path_stdout; EExit 1; EExit 1; EExit 0].

Lemma demo_checks : match demo_world with Ok w => checks dev_supb dev_pathb demo_run w | Err _ => false end = true.
Proof. vm_compute. reflexivity. Qed.

Lemma files_run_safe_witness : exists w, demo_world = Ok w /\ exists w', frun demo_run w = Ok w' /\ fgood w'.1 w'.2 /\
  forall n, openc (fvfs w'.1) n = orefs w'.1 n /\ urefs None w'.1 n <= refc (fvfs w'.1) n.
Proof.
  destruct demo_good as (w & E & Hg). exists w. split; [exact E|]. apply files_run_safe; [exact Hg|].
  pose proof demo_checks as Hc. rewrite E in Hc. exact (checks_admissible dev_supb dev_supb_sound dev_pathb dev_pathb_sound demo_run w Hg Hc).
Defined.

Lemma demo_ends : match demo_world with Ok w => match frun demo_run w with Ok (_, ps) => bool_decide (ps = []) | Err _ => false end | Err _ => false end = true.
Proof. vm_compute. reflexivity. Qed.

Lemma files_all_closed_witness : exists w st, demo_world = Ok w /\ frun demo_run w = Ok (st, []) /\
  ftabs st = ∅ /\ forall n, openc (fvfs st) n = 0.
Proof.
  destruct demo_good as (w & E & Hg). pose proof demo_checks as Hc. pose proof demo_ends as He. rewrite E in Hc, He.
  destruct (frun demo_run w) as [[st ps]|] eqn:Er; [|discriminate He]. apply bool_decide_eq_true in He as ->.
  exists w, st. split; [exact E|]. split; [exact Er|]. apply (files_all_closed demo_run w); [exact Hg| |exact Er].
  exact (checks_admissible dev_supb dev_supb_sound dev_pathb dev_pathb_sound demo_run w Hg Hc).
Defined.

(** [fsync] on the standard input. *)
Definition demo_fsync : list event := [EOpen 0 path_stdin O_RDONLY; ECall 0 0 CFsync].

Lemma demo_fsync_state : match demo_world with
  | Ok w => checks dev_supb dev_pathb demo_fsync w && match frun demo_fsync w with
      | Ok (st, ps) => bool_decide (ps = [(7, Some 0)]) &&
          match file_at 7 0 st with Ok f => opsof (fvfs st) (node f) =? dev_node_ops | Err _ => false end
      | Err _ => false end
  | Err _ => false end = true.
Proof. vm_compute. reflexivity. Qed.

Lemma unsupported_call_stops_witness : exists w st ps, demo_world = Ok w /\ frun demo_fsync w = Ok (st, ps) /\
  fstep (EReturn 0 CFsync) (st, ps) = Err AssertFail.
Proof.
  destruct demo_good as (w & E & Hg). pose proof demo_fsync_state as Hc. rewrite E in Hc. apply andb_true_iff in Hc as [Hc Hs].
  destruct (frun_Ok demo_fsync w Hg (checks_admissible dev_supb dev_supb_sound dev_pathb dev_pathb_sound demo_fsync w Hg Hc)) as ([st ps] & Er & Hg').
  rewrite Er in Hs. apply andb_true_iff in Hs as [Hps Hf]. apply bool_decide_eq_true in Hps as ->.
  exists w, st, [(7, Some 0)]. split; [exact E|]. split; [exact Er|].
  destruct (held_entry st [(7, Some 0)] None None 0 7 0 Hg' eq_refl) as (f & Hh & _).
  rewrite (file_at_Ok _ _ _ _ Hh) in Hf. apply Z.eqb_eq in Hf.
  apply (unsupported_call_stops CFsync st [(7, Some 0)] 0 7 0 f); [exact Hg'|reflexivity|exact Hh|].
  cbn [lacks]. rewrite Hf. reflexivity.
Defined.
