(* ===== verification/SfsTree.v ===== *)
(** * The inodes of a simple file system on its disk

    [tree s gd]: the disk of [s] holds the inodes [gd], by the number of their
    block; each is well formed, no two share a block, directories only name
    inodes of [gd], inode 1 is a directory, and the blocks of the free map
    belong to no inode.  The operations on one inode keep this, with what they
    leave of the others. *)
From S2P Require Import Prelude Arith CString Bitmap IoBuf BlockDev Sfs SfsDisk SfsBmap SfsLoad SfsFile SfsSpec.

(** ** The inode on disk *)

(** An inode seen from the disk: not dirty, not counted. *)
Definition at_node (k : Z) (d : sfs_disk_inode) : sfs_inode := mk_sin d k false 0.

Record din_wf (d : sfs_disk_inode) : Prop := {
  dw_size : 0 <= dsize d < two32;
  dw_type : 0 <= dtype d < 65536;
  dw_links : 0 <= nlinks d < 65536;
  dw_blocks : 0 <= dblocks d < two32;
  dw_direct : length (direct d) = 12%nat /\ Forall (fun b => 0 <= b < two32) (direct d);
  dw_indirect : 0 <= indirect d < two32
}.

Lemma length_din_bytes d : length (direct d) = 12%nat -> length (din_bytes d) = 64%nat.
Proof.
  destruct d as [sz ty nl bl di ind]. cbn [direct]. intros H. do 12 (destruct di as [|? di]; [done|]). by destruct di.
Qed.

Lemma din_bytes_byte d : Forall is_byte (din_bytes d).
Proof.
  unfold din_bytes. rewrite !Forall_app. split_and!; try apply le_encode_byte.
  apply Forall_concat, Forall_fmap, Forall_true. intros b. apply le_encode_byte.
Qed.

(** Reading back what was written. *)
Lemma din_round d : din_wf d -> bytes_din (din_bytes d) = d.
Proof.
  destruct d as [sz ty nl bl di ind]. intros [H1 H2 H3 H4 [Hl Hd] H5]. cbn [dsize dtype nlinks dblocks direct indirect] in *.
  do 12 (destruct di as [|? di]; [done|]). destruct di; [|done]. rewrite !Forall_cons in Hd.
  destruct Hd as (G1 & G2 & G3 & G4 & G5 & G6 & G7 & G8 & G9 & G10 & G11 & G12 & _).
  unfold bytes_din. cbn [seq fmap list_fmap]. unfold two32 in *. f_equal.
  - by apply (le_decode_encode 4).
  - by apply (le_decode_encode 2).
  - by apply (le_decode_encode 2).
  - by apply (le_decode_encode 4).
  - repeat f_equal; by apply (le_decode_encode 4).
  - by apply (le_decode_encode 4).
Qed.

Section SfsTree.
  Context {D : Type} `{!BlockDev D, !BlockRead D, !BlockWrite D}.
  Implicit Types (s : sfs_fs D) (sin : sfs_inode) (gd : gmap Z sfs_disk_inode) (d : sfs_disk_inode).

  (** Only the contents and the number of an inode matter. *)
Lemma inode_ok_ext s sin sin2 : inode_ok s sin -> din sin2 = din sin -> ino sin2 = ino sin -> inode_ok s sin2.
  Proof. intros [] Ed Ei. split; rewrite ?Ed, ?Ei; done. Qed.
Lemma owns_ext s sin sin2 b : din sin2 = din sin -> ino sin2 = ino sin -> owns s sin2 b <-> owns s sin b.
  Proof. intros Ed Ei. unfold owns. by rewrite Ed, Ei. Qed.
Lemma inode_at s sin : inode_ok s (at_node (ino sin) (din sin)) -> inode_ok s sin.
  Proof. intros H. by apply (inode_ok_ext _ _ sin H). Qed.

Definition names_known gd (e : list Z) : Prop := entry_ino e = 0 \/ is_Some (gd !! entry_ino e).

Record node_ok s gd (k : Z) d : Prop := {
    nd_inode : inode_ok s (at_node k d);
    nd_size : 0 <= dsize d < two32;
    nd_links : 0 < nlinks d < 65536;
    nd_kind : dtype d = SFS_TYPE_FILE /\ dblocks d = (dsize d + 4095) / 4096 \/
      dtype d = SFS_TYPE_DIR /\ Forall (names_known gd) (dir_entries s (at_node k d))
  }.

  (** The super block and the size of the free map. *)
Record geo_ok s : Prop := {
    ge_magic : magic (super s) = SFS_MAGIC;
    ge_info : length (info (super s)) = 32%nat /\ at_ (info (super s)) 31 = 0 /\ Forall is_byte (info (super s));
    ge_nbits : nbits (freemap s) = sfs_freemap_bits (super s)
  }.

Lemma geo_same s s' : geo s' = geo s -> geo_ok s -> geo_ok s'.
  Proof. intros [= E1 E2 E3 E4] [H1 H2 H3]. split; unfold sfs_freemap_bits in *; congruence. Qed.

Record tree s gd : Prop := {
    tr_fs : fs_ok s;
    tr_node : forall k d, gd !! k = Some d -> node_ok s gd k d;
    tr_sep : forall k d k' d' b, gd !! k = Some d -> gd !! k' = Some d' -> k <> k' ->
      owns s (at_node k d) b -> ~ owns s (at_node k' d') b;
    tr_root : exists d, gd !! SFS_BLKN_ROOT = Some d /\ dtype d = SFS_TYPE_DIR;
    tr_map : forall b, SFS_BLKN_FREEMAP <= b < SFS_BLKN_FREEMAP + sfs_freemap_blocks (super s) ->
      in_use s b /\ forall k d, gd !! k = Some d -> ~ owns s (at_node k d) b;
    tr_geo : geo_ok s
  }.

  (** The inode's block holds it. *)
Definition on_disk s (k : Z) d : Prop := take 64 (blk s k) = din_bytes d.

Lemma node_file s gd sin : fs_ok s -> node_ok s gd (ino sin) (din sin) -> dtype (din sin) = SFS_TYPE_FILE -> represents s sin (abs s sin).
  Proof.
    intros Hs [Hi Hsz _ Hk] Ht. split; [done|]. split; [|done]. split; [by apply inode_at|done|lia|].
    destruct Hk as [[_ E]|[E _]]; [done|by rewrite Ht in E].
  Qed.

Lemma node_wf s gd k d : fs_ok s -> node_ok s gd k d -> din_wf d.
  Proof.
    intros Hs [Hi Hsz Hnl Hk]. pose proof (in_direct _ _ Hi) as Hl. pose proof (in_blocks _ _ Hi) as Hb.
    pose proof (fs_size s Hs) as [_ Hbl]. cbn [at_node din] in *. unfold NBLOCKS, two32 in *.
    assert (Hrange : forall b, b = 0 \/ in_use s b -> 0 <= b < 4294967296) by (intros b [->|[Hu _]]; lia).
    split; unfold two32; try lia.
    - destruct Hk as [[-> _]|[-> _]]; unfold SFS_TYPE_FILE, SFS_TYPE_DIR; lia.
    - split; [done|]. apply Forall_lookup. intros i b Eb. pose proof (lookup_lt_Some _ _ _ Eb) as Hlt. apply Hrange.
      assert (Ee : entry (blk s) d (Z.of_nat i) = b).
      { unfold entry. destruct (Z.ltb_spec (Z.of_nat i) 12); [|lia]. by rewrite Nat2Z.id, Eb. }
      destruct (Z.lt_ge_cases (Z.of_nat i) (dblocks d)) as [?|?].
      + right. rewrite <- Ee. apply (in_used _ _ Hi). cbn. lia.
      + left. rewrite <- Ee. apply (in_rest _ _ Hi). cbn. unfold NBLOCKS. lia.
    - apply Hrange. apply (in_ind _ _ Hi).
  Qed.

Lemma owns_kept s s' sin : inode_ok s sin -> kept s s' sin -> forall b, owns s' sin b <-> owns s sin b.
  Proof.
    intros Hi Hk b. destruct (inode_kept s s' sin Hi Hk) as [_ He]. unfold owns.
    by setoid_rewrite He.
  Qed.

Lemma node_kept s s' gd gd' k d : node_ok s gd k d -> kept s s' (at_node k d) ->
    (forall j, is_Some (gd !! j) -> is_Some (gd' !! j)) -> node_ok s' gd' k d.
  Proof.
    intros [Hi Hsz Hnl Hkd] Hk Hgd. destruct (inode_kept s s' _ Hi Hk) as [Hi' He]. split; try done.
    destruct Hkd as [?|[Ht Hdir]]; [by left|]. right. split; [done|].
    assert (Hsame : dir_entries s' (at_node k d) = dir_entries s (at_node k d)).
    { unfold dir_entries. apply list_fmap_ext. intros i x Hx. apply lookup_seqZ in Hx as [-> Hx]. unfold slot_entry. rewrite He.
      do 2 f_equal. apply Hk; [right; right; eexists; split; [|done]; lia|]. apply (in_sep _ _ Hi). lia. }
    rewrite Hsame. eapply Forall_impl; [exact Hdir|]. intros e [?|?]; [by left|]. right. by apply Hgd.
  Qed.

Lemma tree_keep s s' gd : tree s gd -> fs_ok s' -> (forall k d, gd !! k = Some d -> kept s s' (at_node k d)) ->
    geo s' = geo s -> (forall b, in_use s b -> in_use s' b) -> tree s' gd.
  Proof.
    intros [Hs Hn Hsep Hr Hmap Hgeo] Hs' Hk Hbl Hu. split; [done| | |done| |by apply (geo_same s)].
    - intros k d E. eapply node_kept; [by apply Hn|by apply Hk|done].
    - intros k d k' d' b E E' Hne. rewrite (owns_kept s s' _ (nd_inode _ _ _ _ (Hn _ _ E)) (Hk _ _ E)), (owns_kept s s' _ (nd_inode _ _ _ _ (Hn _ _ E')) (Hk _ _ E')).
      by apply Hsep.
    - intros b. unfold sfs_freemap_blocks. rewrite (geo_blocks _ _ Hbl). intros Hb. destruct (Hmap b Hb) as [H1 H2]. split; [auto|].
      intros k d E. rewrite (owns_kept s s' _ (nd_inode _ _ _ _ (Hn _ _ E)) (Hk _ _ E)). by apply H2.
  Qed.

Lemma becomes_use_all s f s' b : becomes s (free s) f s' -> in_use s b -> in_use s' b.
  Proof. intros Hs [H1 H2]. by eapply becomes_use. Qed.

Lemma same_kept s s' sin : inode_ok s sin -> same s s' -> kept s s' sin.
  Proof. intros Hi Hs. apply (frame_kept s s' sin (fun _ => False)); [done|by apply same_frame|]. by intros b _ Hb. Qed.

  (** Every inode keeps its blocks, with what they hold but for the inode
      itself: the contents of its files and directories. *)
Definition kept_all gd s s' : Prop := forall k d, gd !! k = Some d -> kept s s' (at_node k d).

Lemma kept_all_same s s' gd : tree s gd -> same s s' -> kept_all gd s s'.
  Proof. intros Ht Hs k d E. apply same_kept; [|done]. by apply (nd_inode _ _ _ _ (tr_node _ _ Ht _ _ E)). Qed.

Lemma kept_trans s s1 s2 sin : inode_ok s sin -> kept s s1 sin -> kept s1 s2 sin -> kept s s2 sin.
  Proof.
    intros Hi H1 H2 b Hb. destruct (H2 b) as [Hu E2]; [by apply (owns_kept s s1 _ Hi H1)|]. split; [done|]. intros Hne.
    destruct (H1 b Hb) as [_ E1]. by rewrite E2, E1.
  Qed.

Lemma kept_all_trans s s1 s2 gd : tree s gd -> kept_all gd s s1 -> kept_all gd s1 s2 -> kept_all gd s s2.
  Proof. intros Ht H1 H2 k d E. apply (kept_trans s s1); [by apply (nd_inode _ _ _ _ (tr_node _ _ Ht _ _ E))|by apply H1|by apply H2]. Qed.

Lemma kept_contents s s' gd k d : tree s gd -> kept s s' (at_node k d) -> gd !! k = Some d ->
    (dtype d = SFS_TYPE_FILE -> abs s' (at_node k d) ≡ abs s (at_node k d)) /\ dir_entries s' (at_node k d) = dir_entries s (at_node k d).
  Proof.
    intros Ht Hk E. pose proof (tr_node _ _ Ht _ _ E) as [Hi Hsz _ Hkd]. destruct (inode_kept s s' _ Hi Hk) as [_ He].
    assert (Hb : forall i, 0 <= i < dblocks d -> blk s' (entry (blk s) d i) = blk s (entry (blk s) d i)).
    { intros i Hbi. destruct (Hk (entry (blk s) d i)) as [_ Hb]; [right; right; by exists i|]. apply Hb, (in_sep _ _ Hi i Hbi). }
    split.
    - intros Hty. split; [done|]. intros p Hp. cbn in Hp. cbn [abs a_byte]. unfold byte. cbn [at_node din] in *. rewrite He.
      destruct Hkd as [[_ En]|[Hd _]]; [|by rewrite Hty in Hd]. rewrite Hb; [done|]. Z.to_euclidean_division_equations; lia.
    - unfold dir_entries. apply list_fmap_ext. intros i x Hx. apply lookup_seqZ in Hx as [-> Hx]. unfold slot_entry. rewrite He.
      do 2 f_equal. apply Hb. cbn in Hx. lia.
  Qed.

Lemma kept_all_contents s s' gd k d : tree s gd -> kept_all gd s s' -> gd !! k = Some d ->
    (dtype d = SFS_TYPE_FILE -> abs s' (at_node k d) ≡ abs s (at_node k d)) /\ dir_entries s' (at_node k d) = dir_entries s (at_node k d).
  Proof. intros Ht Hk E. eapply kept_contents; [done|by apply Hk|done]. Qed.

Lemma tree_same s s' gd : tree s gd -> same s s' -> tree s' gd.
  Proof.
    intros Ht Hs. apply (tree_keep s); [done|by apply (bc_ok _ _ _ _ Hs)| |by apply (bc_geo _ _ _ _ Hs)|intros b; by apply (becomes_use_all s (blk s))].
    intros k d E. apply same_kept; [|done]. by apply (nd_inode _ _ _ _ (tr_node _ _ Ht _ _ E)).
  Qed.

Lemma owns_self s k d : owns s (at_node k d) k.
  Proof. by left. Qed.

  (** What changes only blocks of inode [k] keeps the others. *)
Lemma frame_others s s' gd k d : tree s gd -> gd !! k = Some d -> frame s (owns s (at_node k d)) s' ->
    forall j e, gd !! j = Some e -> j <> k -> kept s s' (at_node j e).
  Proof.
    intros Ht E Hf j e Ej Hne. eapply frame_kept; [by apply (tr_node _ _ Ht)|exact Hf|]. intros b Hb. by apply (tr_sep _ _ Ht j e k d b).
  Qed.

  (** Inode [k] becomes [d'], and only its blocks change. *)
Lemma tree_step s s' gd k d d' : tree s gd -> gd !! k = Some d -> fs_ok s' -> frame s (owns s (at_node k d)) s' ->
    (forall c, owns s' (at_node k d') c -> owns s (at_node k d) c \/ free s c) -> dtype d' = dtype d ->
    node_ok s' (<[k := d']> gd) k d' -> tree s' (<[k := d']> gd).
  Proof.
    intros Ht E Hs' Hf Ho Hty Hnode.
    pose proof (frame_others s s' gd k d Ht E Hf) as Hk.
    assert (Hown : forall j e, gd !! j = Some e -> j <> k -> forall b, owns s' (at_node j e) b <-> owns s (at_node j e) b).
    { intros j e Ej Hne. apply owns_kept; [by apply (tr_node _ _ Ht)|by apply Hk]. }
    assert (Hdis : forall j e b, gd !! j = Some e -> j <> k -> owns s' (at_node j e) b -> ~ owns s' (at_node k d') b).
    { intros j e b Ej Hne Hb Hb'. rewrite Hown in Hb by done. apply Ho in Hb' as [Hb'|Hfree].
      - by apply (tr_sep _ _ Ht j e k d b).
      - apply (owns_used s (at_node j e)) in Hb as [_ Hb]; [done|by apply (tr_node _ _ Ht)]. }
    split; [done| | | | |by eapply geo_same; [apply Hf|apply Ht]].
    - intros j e. destruct (decide (j = k)) as [->|Hne]; [rewrite lookup_insert_eq; by intros [= <-]|].
      rewrite lookup_insert_ne by done. intros Ej. eapply node_kept; [by apply (tr_node _ _ Ht)|by apply Hk|].
      intros i Hi. destruct (decide (i = k)) as [->|]; [rewrite lookup_insert_eq; eauto|by rewrite lookup_insert_ne].
    - intros j e j' e' b. destruct (decide (j = k)) as [->|Hne], (decide (j' = k)) as [->|Hne'];
        rewrite ?lookup_insert_eq, ?lookup_insert_ne by done; try done.
      + intros [= <-] Ej' _ Hb Hb'. by apply (Hdis j' e' b).
      + intros Ej [= <-] _ Hb. by apply (Hdis j e b).
      + intros Ej Ej' Hjj. rewrite !Hown by done. by apply (tr_sep _ _ Ht).
    - destruct (tr_root _ _ Ht) as (r & Er & Hr). destruct (decide (SFS_BLKN_ROOT = k)) as [<-|Hne].
      + exists d'. rewrite lookup_insert_eq. split; [done|]. congruence.
      + exists r. by rewrite lookup_insert_ne.
    - intros b. unfold sfs_freemap_blocks. rewrite (fr_blocks _ _ _ Hf). intros Hb. destruct (tr_map _ _ Ht b Hb) as [Hu Hno].
      split; [apply (fr_keep _ _ _ Hf); [done|by apply Hno]|]. intros j e. destruct (decide (j = k)) as [->|Hne].
      + rewrite lookup_insert_eq. intros [= <-] [Hb'|Hfree]%Ho; [by apply (Hno k d)|]. by apply Hu.
      + rewrite lookup_insert_ne by done. intros Ej. rewrite Hown by done. by apply Hno.
  Qed.

  (** ** The operations on one inode *)

Lemma load_din s gd k d buf : tree s gd -> gd !! k = Some d -> on_disk s k d -> length buf = 64%nat ->
    exists s', sfs_rbuf s buf 0 SIZEOF_DIN k 0 = Ok (0, din_bytes d, s') /\ same s s'.
  Proof.
    intros Ht E Hd Hl. assert (Hu : in_use s k) by (apply (in_self _ _ (nd_inode _ _ _ _ (tr_node _ _ Ht _ _ E)))).
    destruct (rbuf_spec s buf 0 SIZEOF_DIN k 0) as (s' & Er & Hs & _); unfold SIZEOF_DIN, BLKSIZE in *; try lia; [apply Ht|apply Hu|].
    exists s'. split; [|done]. rewrite Er. change (Z.to_nat 0) with 0%nat. rewrite drop_0. change (Z.to_nat 64) with 64%nat.
    rewrite Hd, inserts_all; [done|]. rewrite length_din_bytes, Hl; [done|]. by apply (in_direct _ _ (nd_inode _ _ _ _ (tr_node _ _ Ht _ _ E))).
  Qed.

Lemma on_disk_blk s s' k d : blk s' k = blk s k -> on_disk s k d -> on_disk s' k d.
  Proof. unfold on_disk. by intros ->. Qed.

  (** [sfs_fsync]: afterwards the inode is on its block. *)
Lemma fsync_spec s gd sin : tree s gd -> gd !! ino sin = Some (din sin) ->
    exists s', sfs_fsync s sin = Ok (0, s', set_dirty sin false) /\ tree s' gd /\
      (forall b, b <> ino sin -> blk s' b = blk s b) /\ (forall b, free s' b <-> free s b) /\
      unused_blocks (super s') = unused_blocks (super s) /\
      (dirty sin = true \/ on_disk s (ino sin) (din sin) -> on_disk s' (ino sin) (din sin)).
  Proof.
    intros Ht E. pose proof (tr_node _ _ Ht _ _ E) as Hn. pose proof (nd_inode _ _ _ _ Hn) as Hi.
    unfold sfs_fsync. destruct (dirty sin) eqn:Hd.
    2: { exists s. split; [by destruct sin as [? ? [] ?]|]. split; [done|]. split; [done|]. split; [done|]. split; [done|]. by intros [?|?]. }
    assert (Hu : in_use s (ino sin)) by apply (in_self _ _ Hi).
    pose proof (length_din_bytes (din sin) (in_direct _ _ Hi)) as Hl.
    destruct (wbuf_spec s (din_bytes (din sin)) 0 SIZEOF_DIN (ino sin) 0) as (s' & Ew & Hs & _); unfold SIZEOF_DIN, BLKSIZE in *; try lia;
      [apply Ht|apply Hu|apply din_bytes_byte|].
    rewrite Ew. cbn [rbind]. exists s'. split; [done|]. change (Z.to_nat 0) with 0%nat in Hs. rewrite drop_0 in Hs.
    rewrite take_ge in Hs by (rewrite Hl; done). set (f := put _ _ _) in Hs.
    assert (Hne : forall b, b <> ino sin -> blk s' b = blk s b).
    { intros b Hb. rewrite (bc_blk _ _ _ _ Hs). by apply put_ne. }
    split; [|split; [done|split; [apply (bc_free _ _ _ _ Hs)|split; [by eapply becomes_unused; [apply Ht|]|]]]].
    - apply (tree_keep s); [done|apply Hs| |by apply (bc_geo _ _ _ _ Hs)|intros b; by apply (becomes_use_all s f)]. intros k d Ek b Hb.
      pose proof (owns_used _ _ _ (nd_inode _ _ _ _ (tr_node _ _ Ht _ _ Ek)) Hb) as [Hb0 Hbf].
      split; [by eapply becomes_use|]. intros Hbk. apply Hne. intros ->. cbn [at_node ino] in Hbk.
      apply (tr_sep _ _ Ht k d (ino sin) (din sin) (ino sin)); [done|done|congruence|done|apply owns_self].
    - intros _. unfold on_disk. rewrite (bc_blk _ _ _ _ Hs). unfold f. rewrite put_eq.
      assert (Hlb : length (blk s (ino sin)) = 4096%nat) by (pose proof (length_blk s (ino sin)); unfold BLKSIZE in *; lia).
      transitivity (take (length (din_bytes (din sin))) (drop 0 (list_inserts 0 (din_bytes (din sin)) (blk s (ino sin))))); [by rewrite Hl, drop_0|].
      apply sub_inserts_same. lia.
  Qed.

  (** What an operation on the file [sin] leaves: the tree with its new
      contents, and the inodes of the others on their blocks. *)
Record file_step s gd sin s' sin' : Prop := {
    fs_tree : tree s' (<[ino sin := din sin']> gd);
    fs_meta : ino sin' = ino sin /\ dtype (din sin') = dtype (din sin) /\ nlinks (din sin') = nlinks (din sin) /\
      reclaim_count sin' = reclaim_count sin;
    fs_blocks_of : forall k d, gd !! k = Some d -> blk s' k = blk s k;
    fs_dirty : dirty sin' = true \/ sin' = sin
  }.

Lemma touched_step s gd sin s' sin' : tree s gd -> gd !! ino sin = Some (din sin) -> dtype (din sin) = SFS_TYPE_FILE ->
    file_ok s' sin' -> touched s sin s' sin' -> file_step s gd sin s' sin'.
  Proof.
    intros Ht E Hty Hf [Hs' (Ei & Et & El & Er) Hfr Ho Hd].
    assert (Ed : forall b, owns s sin b <-> owns s (at_node (ino sin) (din sin)) b) by (intros b; by apply owns_ext).
    pose proof (tr_node _ _ Ht _ _ E) as Hn. split; [|done| |done].
    - apply (tree_step s s' gd (ino sin) (din sin)); try done.
      + eapply frame_weaken; [exact Hfr|]. intros b _ [Hb _]. by apply Ed.
      + intros c Hc. destruct (Ho c) as [?|?]; [by apply (owns_ext s' sin' (at_node (ino sin) (din sin')))|left; by apply Ed|by right].
      + split.
        * rewrite <- Ei. by apply (inode_ok_ext s' sin'); [apply Hf|..].
        * pose proof (file_sizes s' sin' Hf). unfold NBLOCKS, two32 in *. lia.
        * rewrite El. apply (nd_links _ _ _ _ Hn).
        * left. split; [apply (fl_type _ _ Hf)|apply (fl_blocks _ _ Hf)].
    - intros k d Ek. apply (fr_keep _ _ _ Hfr).
      + apply (in_self _ _ (nd_inode _ _ _ _ (tr_node _ _ Ht _ _ Ek))).
      + intros [Hb Hne]. apply Ed in Hb. apply (tr_sep _ _ Ht k d (ino sin) (din sin) k); [done|done|congruence|apply owns_self|done].
  Qed.

  (** Reading, from any offset. *)
Lemma read_step s gd sin iob : tree s gd -> gd !! ino sin = Some (din sin) -> dtype (din sin) = SFS_TYPE_FILE ->
    iob_ok iob -> io_resid iob <= 4096 ->
    exists ret iob' s', sfs_read s sin iob = Ok (ret, iob', s', sin) /\ same s s' /\ iob_next iob iob'.
  Proof.
    intros Ht E Hty Hio Hlen. pose proof Hio as (Hb & Hr & Hl). pose proof (tr_fs _ _ Ht) as Hs.
    pose proof (node_file s gd sin Hs (tr_node _ _ Ht _ _ E) Hty) as Hrep.
    unfold sfs_read, sfs_io. set (data := drop (Z.to_nat (io_base iob)) (io_data iob)).
    destruct (decide (0 <= io_offset iob < SFS_MAX_FILE_SIZE)) as [Ho|Ho].
    - destruct (io_read s sin _ data (io_offset iob) (io_resid iob) Hrep Ho) as (s' & buf & Eio & [_ Hsame] & Hlb & Hat);
        [lia|unfold data; rewrite length_drop; lia|].
      rewrite Eio. cbn [rbind].
      destruct (transfer_next iob buf (afile_avail (abs s sin) (io_offset iob) (io_resid iob))) as (iob' & E' & Hn & _); try done.
      { unfold afile_avail. destruct (Z.ltb_spec (io_offset iob) (a_size (abs s sin))); lia. }
      { intros k Hk. rewrite Hat. destruct (Z.leb_spec 0 k), (Z.ltb_spec k (afile_avail (abs s sin) (io_offset iob) (io_resid iob))); (done || lia). }
      rewrite E'. by eexists _, iob', s'.
    - destruct (transfer_next iob data 0) as (iob' & E' & Hn & _); try done.
      unfold sfs_io_nolock. rewrite (file_not_dir s sin) by apply Hrep. cbn [rassert rbind].
      replace ((io_offset iob <? 0) || (SFS_MAX_FILE_SIZE <=? io_offset iob)) with true
        by (destruct (Z.ltb_spec (io_offset iob) 0), (Z.leb_spec SFS_MAX_FILE_SIZE (io_offset iob)); (done || lia)).
      cbn [orb rbind]. rewrite E'. eexists _, iob', s. split; [done|]. split; [|done]. by split.
  Qed.

  (** There is room for a file to grow to [len] bytes, if it must. *)
Definition fits s sin (len : Z) : Prop :=
    len <= NBLOCKS * 4096 /\ (dblocks (din sin) * 4096 < len -> 2 * ((len + 4095) / 4096 - dblocks (din sin)) <= unused_blocks (super s)).

  (** Writing, from an offset in the file. *)
Lemma write_step s gd sin iob : tree s gd -> gd !! ino sin = Some (din sin) -> dtype (din sin) = SFS_TYPE_FILE ->
    iob_ok iob -> Forall is_byte (io_data iob) -> io_resid iob <= 4096 -> 0 <= io_offset iob <= dsize (din sin) ->
    fits s sin (io_offset iob + io_resid iob) ->
    exists ret iob' s' sin', sfs_write s sin iob = Ok (ret, iob', s', sin') /\ file_step s gd sin s' sin' /\
      iob_next iob iob' /\ io_data iob' = io_data iob.
  Proof.
    intros Ht E Hty Hio Hby Hlen Ho [Hmax Hroom]. pose proof Hio as (Hb & Hr & Hl). pose proof (tr_fs _ _ Ht) as Hs.
    pose proof (node_file s gd sin Hs (tr_node _ _ Ht _ _ E) Hty) as Hrep.
    unfold sfs_write, sfs_io. set (data := drop (Z.to_nat (io_base iob)) (io_data iob)).
    destruct (io_write s sin _ data (io_offset iob) (io_resid iob) Hrep) as (s' & sin' & Eio & Hrep' & Htc & _); try (done || lia).
    { intros Hg. specialize (Hroom Hg). Z.to_euclidean_division_equations. lia. }
    { unfold data. rewrite length_drop. lia. }
    { by apply Forall_drop. }
    rewrite Eio. cbn [rbind].
    destruct (transfer_next iob data (io_resid iob)) as (iob' & E' & Hn & Ed); try (done || lia).
    rewrite E'. eexists _, iob', s', sin'. split; [done|]. split; [|split; [done|]].
    - apply touched_step; try done. apply Hrep'.
    - rewrite Ed. apply take_drop.
  Qed.

  (** Changing the size. *)
Lemma trunc_step s gd sin len : tree s gd -> gd !! ino sin = Some (din sin) -> dtype (din sin) = SFS_TYPE_FILE ->
    0 <= len -> fits s sin len ->
    exists s' sin', sfs_truncfile s sin len = Ok (0, s', sin') /\ file_step s gd sin s' sin'.
  Proof.
    intros Ht E Hty Hl [Hmax Hroom]. pose proof (tr_fs _ _ Ht) as Hs.
    pose proof (node_file s gd sin Hs (tr_node _ _ Ht _ _ E) Hty) as Hrep.
    destruct (resize_file s sin _ len Hrep) as (ret & s' & sin' & Er & _ & [(-> & Htc & g & Hg & _)|(-> & Hsz & _ & _ & _ & Hfull)]); [lia| |].
    - exists s', sin'. split; [done|]. apply touched_step; try done. apply Hg.
    - exfalso. cbn in Hsz. destruct (file_sizes s sin) as (H1 & H2 & H3); [apply Hrep|].
      pose proof (fs_count s Hs). destruct (Z.lt_ge_cases (dblocks (din sin) * 4096) len) as [Hg|Hg]; [specialize (Hroom Hg); lia|].
      assert ((len + 4095) / 4096 <= dblocks (din sin)) by (Z.to_euclidean_division_equations; lia). lia.
  Qed.

  (** ** Directories *)

Lemma search_step s gd sin name buf : tree s gd -> gd !! ino sin = Some (din sin) -> dtype (din sin) = SFS_TYPE_DIR ->
    Forall (fun b => b <> 0) name -> Z.of_nat (length name) <= SFS_MAX_FNAME_LEN ->
    (forall e, buf = Some e -> length e = 260%nat) ->
    exists r s', sfs_dirent_search_nolock s sin name buf = Ok (r, s', sin) /\ same s s' /\
      (s_ret r = 0 -> exists k, s_ino r = Some k /\ is_Some (gd !! k)).
  Proof.
    intros Ht E Hty Hnm Hln Hbuf. pose proof (tr_node _ _ Ht _ _ E) as Hn. pose proof (inode_at s sin (nd_inode _ _ _ _ Hn)) as Hi.
    unfold sfs_dirent_search_nolock. destruct (Z.leb_spec (Z.of_nat (length name)) SFS_MAX_FNAME_LEN); [|lia]. cbn [rassert rbind].
    pose proof (in_blocks s sin Hi) as Hdb. assert (Hrefl : same s s) by (by split; [apply Ht|..]).
    destruct buf as [e|]; [|by eexists _, s].
    destruct (search_loop_spec s sin name (Z.to_nat (dblocks (din sin))) (tr_fs _ _ Ht) Hi Hty Hnm Hln 0 (dblocks (din sin)) e s) as (r & s' & Er & Hs' & Hr);
      [lia|lia|by apply Hbuf|done|].
    exists r, s'. split; [done|]. split; [done|]. intros H0. rewrite drop_0 in Hr.
    destruct (list_find _ _) as [[k x]|] eqn:Ef; [|by rewrite (proj1 Hr) in H0]. destruct Hr as (_ & Hr & _).
    exists (entry_ino x). split; [done|]. apply list_find_Some in Ef as (Ex & [Hnz _] & _).
    destruct (nd_kind _ _ _ _ Hn) as [[Hf _]|[_ Hd]]; [by rewrite Hty in Hf|].
    destruct (Forall_lookup_1 _ _ _ _ Hd Ex) as [?|?]; done.
  Qed.

Lemma getdirentry_loop_spec s sin n : fs_ok s -> inode_ok s sin -> dtype (din sin) = SFS_TYPE_DIR ->
    forall slot i e s1, 0 <= i -> i + Z.of_nat n = dblocks (din sin) -> length e = 260%nat -> same s s1 ->
    exists ret e' s', getdirentry_sub_loop n s1 sin slot i e = Ok (ret, e', s', sin) /\ same s s' /\ length e' = 260%nat.
  Proof.
    intros Hs Hi Hty. induction n as [|n IH]; intros slot i e s1 Hi0 Hin He Hs1; [by eexists _, e, s1|].
    cbn [getdirentry_sub_loop]. destruct (same_inode s s1 sin Hi Hs1) as [Hi1 _].
    destruct (dirent_read_spec s1 sin i e (bc_ok _ _ _ _ Hs1) Hi1 Hty ltac:(lia) He) as (s2 & E & Hs2 & Hl2).
    rewrite E. cbn [rbind negb Z.eqb]. assert (Hs12 : same s s2).
    { apply (becomes_ext _ _ _ _ _ _ (becomes_trans _ _ _ _ _ _ _ Hs1 Hs2)); [apply (bc_free _ _ _ _ Hs1)|apply (bc_blk _ _ _ _ Hs1)]. }
    destruct (negb _); [destruct (slot =? 0)|]; [by eexists _, _, s2| |]; (apply IH; [lia|lia|done|done]).
  Qed.

Lemma getdirentry_step s gd sin iob e : tree s gd -> gd !! ino sin = Some (din sin) -> dtype (din sin) = SFS_TYPE_DIR ->
    iob_ok iob -> length e = 260%nat ->
    exists ret iob' s', sfs_getdirentry s sin iob (Some e) = Ok (ret, iob', s', sin) /\ same s s' /\ iob_next iob iob'.
  Proof.
    intros Ht E Hty Hio He. pose proof Hio as (Hb & Hr & Hl). assert (Hrefl : same s s) by (by split; [apply Ht|..]).
    pose proof (inode_at s sin (nd_inode _ _ _ _ (tr_node _ _ Ht _ _ E))) as Hi. pose proof (in_blocks s sin Hi) as Hdb.
    unfold sfs_getdirentry. destruct (_ || _); [by eexists _, iob, s; split; [done|]; split; [done|]; apply iob_next_refl|].
    destruct (_ <? _); [by eexists _, iob, s; split; [done|]; split; [done|]; apply iob_next_refl|].
    destruct (getdirentry_loop_spec s sin (Z.to_nat (dblocks (din sin))) (tr_fs _ _ Ht) Hi Hty (io_offset iob / sfs_dentry_size) 0 e s)
      as (ret & e' & s' & Er & Hs' & He'); [lia|lia|done|done|].
    unfold sfs_getdirentry_sub_nolock. rewrite Er. cbn [rbind].
    destruct (negb (ret =? 0)); [by eexists _, iob, s'; split; [done|]; split; [done|]; apply iob_next_refl|].
    destruct (iobuf_move_m2b iob (entry_name e') sfs_dentry_size) as (iob' & Em & Ed & Erd & El & Eb); try done.
    { unfold entry_name, sfs_dentry_size. rewrite length_drop, He'. lia. }
    rewrite Em. cbn [rbind]. eexists _, iob', s'. split; [done|]. split; [done|].
    set (alen := sfs_dentry_size `min` io_resid iob) in *. assert (Ha : 0 <= alen <= io_resid iob /\ alen <= 256) by (unfold alen, sfs_dentry_size; lia).
    assert (Hlt : Z.of_nat (length (take (Z.to_nat alen) (entry_name e'))) = alen).
    { unfold entry_name. rewrite length_take, length_drop, He'. lia. }
    split; [done|lia|by rewrite Ed, length_inserts|]. intros p Hp. rewrite Ed, at_inserts by lia. rewrite Hlt.
    destruct (Z.leb_spec (io_base iob) p), (Z.ltb_spec p (io_base iob + alen)); (done || lia).
  Qed.
End SfsTree.
