(* ===== verification/SfsOps.v ===== *)
(** * The simple file system under the VFS (kern/fs/sfs/sfs_inode.c, sfs_fs.c, sfs.c)

    The inodes that a mounted file system keeps in memory, the functions in
    its two tables of operations, its operations as a [struct fs], and
    mounting: with the devices, the implementation of [InodeOps] that the
    running kernel uses.  The disk belongs to the devices; a file system works
    on it through [fsop_info], which puts together what [Sfs] calls a file
    system. *)
From S2P Require Import Prelude Arith CString Bitmap IoBuf BlockDev Sfs Vfs Dev.

(** ** State *)

(** [struct fs] and the [struct sfs_fs] in it: its address (0: nothing is
    mounted), the fields of [Sfs.sfs_fs] other than the device, the
    [struct sfs_inode] of each inode by the address of the inode, and the two
    kinds of list that link them. *)
Record sfst := mk_sfst {
  fs_at : Z; ssuper : sfs_super; sfreemap : bitmap; sdirty : bool; sbuffer : list Z;
  sinfo : gmap Z sfs_inode; inode_list : list Z; hash_list : gmap Z (list Z) }.

Definition no_sfs : sfst := mk_sfst 0 (mk_super 0 0 0 []) (mk_bitmap 0 0 []) false [] ∅ [] ∅.

(** The devices, the file system, and the objects that [kmalloc] will return:
    the address, 0 for NULL, and what is there. *)
Record kfs (D : Type) := mk_kfs { kdevs : devs D; ksfs : sfst; allocs : list (Z * list Z) }.
Arguments mk_kfs {D}. Arguments kdevs {D}. Arguments ksfs {D}. Arguments allocs {D}.

#[export] Instance kfs_devs D : HasDevs (kfs D) D.
Proof.
  refine {| get_devs := kdevs; put_devs := fun d k => mk_kfs d (ksfs k) (allocs k) |}; [done|by intros []|done].
Defined.

Definition SFS_HLIST_SHIFT : Z := 10.
Definition sin_hashfn (x : Z) : Z := hash32 x SFS_HLIST_SHIFT.

(** The numbers of the tables of operations, beside [dev_node_ops]. *)
Definition sfs_node_dirops : Z := 2.
Definition sfs_node_fileops : Z := 3.

Definition table {A} (dev dir file : option A) (ops : Z) : option A :=
  if ops =? dev_node_ops then dev else if ops =? sfs_node_dirops then dir else if ops =? sfs_node_fileops then file else None.

Definition sfs_get_ops (type : Z) : res Z :=
  if type =? SFS_TYPE_DIR then Ok sfs_node_dirops
  else if type =? SFS_TYPE_FILE then Ok sfs_node_fileops
  else Err KPanic.

Definition set_reclaim (s : sfs_inode) (n : Z) : sfs_inode := mk_sin (din s) (ino s) (dirty s) n.
Definition set_sinfo (t : sfst) (m : gmap Z sfs_inode) : sfst :=
  mk_sfst (fs_at t) (ssuper t) (sfreemap t) (sdirty t) (sbuffer t) m (inode_list t) (hash_list t).
Definition set_lists (t : sfst) (l : list Z) (h : gmap Z (list Z)) : sfst :=
  mk_sfst (fs_at t) (ssuper t) (sfreemap t) (sdirty t) (sbuffer t) (sinfo t) l h.

Section SfsOps.
  Context {D : Type} `{!BlockDev D}.
  Implicit Types (v : vfs (kfs D)) (node : Z).

Definition the_sfs v : sfst := ksfs (fsd v).
Definition set_sfs v (t : sfst) : vfs (kfs D) := set_fsd v (mk_kfs (kdevs (fsd v)) t (allocs (fsd v))).

  (** The file system as [Sfs] sees it, and putting it back. *)
Definition sfs_view v : sfs_fs D :=
    let t := the_sfs v in mk_sfs (ssuper t) (disk (kdevs (fsd v))) (sfreemap t) (sdirty t) (sbuffer t).
Definition set_view v (s : sfs_fs D) : vfs (kfs D) :=
    let t := the_sfs v in
    set_fsd v (mk_kfs (set_disk (kdevs (fsd v)) (dev s))
      (mk_sfst (fs_at t) (super s) (freemap s) (super_dirty s) (sfs_buffer s) (sinfo t) (inode_list t) (hash_list t))
      (allocs (fsd v))).

  (** [fsop_info(fs, sfs)]. *)
Definition fsop_info (fs : Z) v : res (sfs_fs D) :=
    assert! negb (fs =? 0) ;; if fs =? fs_at (the_sfs v) then Ok (sfs_view v) else Err WildAccess.

Definition vop_fs node v : res Z := let! i := get_inode node v in Ok (in_fs i).

  (** [vop_info(node, sfs_inode)]. *)
Definition vop_sin node v : res sfs_inode :=
    assert! negb (node =? 0) ;;
    let! i := get_inode node v in
    assert! in_type i =? inode_type_sfs_inode_info ;;
    rget (sinfo (the_sfs v) !! node).

Definition put_sin node (sin : sfs_inode) v : vfs (kfs D) := set_sfs v (set_sinfo (the_sfs v) (<[node := sin]> (sinfo (the_sfs v)))).

  (** The two pointers that the functions of the tables begin with. *)
Definition node_sfs node v : res (sfs_fs D * sfs_inode) :=
    let! fs := vop_fs node v in
    let! s := fsop_info fs v in
    let! sin := vop_sin node v in
    Ok (s, sin).
Definition put_node node (s : sfs_fs D) (sin : sfs_inode) v : vfs (kfs D) := put_sin node sin (set_view v s).

Definition kmalloc v : Z * list Z * vfs (kfs D) :=
    match allocs (fsd v) with
    | [] => (0, [], v)
    | (a, m) :: l => (a, m, set_fsd v (mk_kfs (kdevs (fsd v)) (ksfs (fsd v)) l))
    end.
  (** [kmalloc] of an object of [n] bytes. *)
Definition kmalloc_object (n : nat) v : option (list Z) * vfs (kfs D) :=
    let '(a, m, v) := kmalloc v in (if a =? 0 then None else Some (resize n 0 m), v).

  (** ** Inodes in memory (sfs_inode.c) *)

Definition sfs_set_links node (ino : Z) v : vfs (kfs D) :=
    let t := the_sfs v in
    let h := sin_hashfn ino in
    set_sfs v (set_lists t (node :: inode_list t) (<[h := node :: default [] (hash_list t !! h)]> (hash_list t))).

Definition sfs_remove_links node (ino : Z) v : vfs (kfs D) :=
    let t := the_sfs v in
    let h := sin_hashfn ino in
    set_sfs v (set_lists t (filter (fun n => n <> node) (inode_list t))
      (<[h := filter (fun n => n <> node) (default [] (hash_list t !! h))]> (hash_list t))).

  (** An inode comes from [kmalloc], which does not return memory in use. *)
Definition sfs_create_inode (fs : Z) (din : sfs_disk_inode) (ino : Z) v : res (Z * Z * vfs (kfs D)) :=
    let '(a, _, v) := kmalloc v in
    let a := if bool_decide (is_Some (inodes v !! a)) then 0 else a in
    let '(node, v) := __alloc_inode a inode_type_sfs_inode_info v in
    if negb (node =? 0) then
      let! ops := sfs_get_ops (dtype din) in
      let! v := inode_init node ops fs v in
      Ok (0, node, put_sin node (mk_sin din ino false 1) v)
    else Ok (- E_NO_MEM, 0, v).

Fixpoint lookup_sfs_loop (l : list Z) (ino : Z) v : res (Z * vfs (kfs D)) :=
    match l with
    | [] => Ok (0, v)
    | node :: l =>
        let! sin := rget (sinfo (the_sfs v) !! node) in
        if Sfs.ino sin =? ino then
          let! (n, v) := inode_ref_inc node v in
          Ok (node, if n =? 1 then put_sin node (set_reclaim sin (reclaim_count sin + 1)) v else v)
        else lookup_sfs_loop l ino v
    end.
  (** The inode, or NULL. *)
Definition lookup_sfs_nolock (ino : Z) v : res (Z * vfs (kfs D)) :=
    lookup_sfs_loop (default [] (hash_list (the_sfs v) !! sin_hashfn ino)) ino v.

  (** The return value, [*node_store] and the state. *)
Definition sfs_load_inode (fs ino : Z) v : res (Z * Z * vfs (kfs D)) :=
    let! (node, v) := lookup_sfs_nolock ino v in
    if negb (node =? 0) then Ok (0, node, v)
    else
      match kmalloc_object (Z.to_nat SIZEOF_DIN) v with
      | (None, v) => Ok (- E_NO_MEM, 0, v)
      | (Some buf, v) =>
          let! s := fsop_info fs v in
          let! u := sfs_block_inuse s ino in
          assert! u ;;
          let! (ret, buf, s) := sfs_rbuf s buf 0 SIZEOF_DIN ino 0 in
          let v := set_view v s in
          if negb (ret =? 0) then Ok (ret, 0, v)
          else
            let din := bytes_din buf in
            assert! negb (nlinks din =? 0) ;;
            let! (ret, node, v) := sfs_create_inode fs din ino v in
            if negb (ret =? 0) then Ok (ret, 0, v) else Ok (0, node, sfs_set_links node ino v)
      end.

  (** In the directory [node] of the file system [fs]. *)
Definition sfs_lookup_once (fs node : Z) (name : list Z) v : res (Z * Z * vfs (kfs D)) :=
    let! s := fsop_info fs v in
    let! sin := vop_sin node v in
    assert! Z.of_nat (length name) <=? SFS_MAX_FNAME_LEN ;;
    let '(buf, v) := kmalloc_object (Z.to_nat SIZEOF_ENTRY) v in
    let! (r, s, sin) := sfs_dirent_search_nolock s sin name buf in
    let v := put_node node s sin v in
    if s_ret r =? 0 then
      let! ino := rget (s_ino r) in sfs_load_inode fs ino v
    else Ok (s_ret r, 0, v).

  (** ** The functions of the tables

      Those that another one calls through the table come first: [ops_A] and
      [ops_B] are the tables as far as the callers need them. *)

Definition sfs_fsync_node node v : res (Z * vfs (kfs D)) :=
    let! (s, sin) := node_sfs node v in
    let! (ret, s, sin) := sfs_fsync s sin in
    Ok (ret, put_node node s sin v).

Definition sfs_truncfile_node node (len : Z) v : res (Z * vfs (kfs D)) :=
    let! (s, sin) := node_sfs node v in
    let! (ret, s, sin) := sfs_truncfile s sin len in
    Ok (ret, put_node node s sin v).

Definition sfs_gettype_node node v : res (Z * Z * vfs (kfs D)) :=
    let! sin := vop_sin node v in
    let! type := sfs_gettype sin in
    Ok (0, type, v).

Definition no_fs {A} (fs : Z) v : res A := Err WildAccess.

Definition ops_A : InodeOps (kfs D) := {|
  i_open := fun _ => None; i_close := fun _ => None; i_read := fun _ => None; i_write := fun _ => None;
  i_fstat := fun _ => None; i_fsync := table None (Some sfs_fsync_node) (Some sfs_fsync_node);
  i_namefile := fun _ => None; i_getdirentry := fun _ => None; i_reclaim := fun _ => None;
  i_gettype := table (Some dev_gettype) (Some sfs_gettype_node) (Some sfs_gettype_node);
  i_tryseek := fun _ => None; i_truncate := table None None (Some sfs_truncfile_node);
  i_create := fun _ => None; i_lookup := fun _ => None;
  fs_get_root := no_fs; fs_sync := no_fs; fs_unmount := no_fs; fs_cleanup := no_fs |}.

Definition sfs_close_node node v : res (Z * vfs (kfs D)) := vop_fsync (InodeOps0 := ops_A) node v.

Definition sfs_fstat_node node v : res (Z * stat * vfs (kfs D)) :=
    let! (ret, mode, v) := vop_gettype (InodeOps0 := ops_A) node v in
    if negb (ret =? 0) then Ok (ret, mk_stat mode 0 0 0, v)
    else
      let! sin := vop_sin node v in
      Ok (0, mk_stat mode (nlinks (din sin)) (dblocks (din sin)) (dsize (din sin)), v).

Definition sfs_tryseek_node node (pos : Z) v : res (Z * vfs (kfs D)) :=
    if (pos <? 0) || (SFS_MAX_FILE_SIZE <=? pos) then Ok (- E_INVAL, v)
    else
      let! sin := vop_sin node v in
      if dsize (din sin) <? pos then vop_truncate (InodeOps0 := ops_A) node pos v else Ok (0, v).

  (** The inode is freed with its [struct sfs_inode]. *)
Definition sfs_reclaim_node node v : res (Z * vfs (kfs D)) :=
    let! (_, sin) := node_sfs node v in
    assert! 0 <? reclaim_count sin ;;
    let v := put_sin node (set_reclaim sin (reclaim_count sin - 1)) v in
    let! i := get_inode node v in
    if negb (reclaim_count sin - 1 =? 0) || negb (ref_count i =? 0) then Ok (- E_BUSY, v)
    else
      let! (ret, v) := if nlinks (din sin) =? 0 then vop_truncate (InodeOps0 := ops_A) node 0 v else Ok (0, v) in
      if negb (ret =? 0) then Ok (ret, v)
      else
        let! sin := vop_sin node v in
        let! (ret, v) := if dirty sin then vop_fsync (InodeOps0 := ops_A) node v else Ok (0, v) in
        if negb (ret =? 0) then Ok (ret, v)
        else
          let! (s, sin) := node_sfs node v in
          let v := sfs_remove_links node (ino sin) v in
          let! s :=
            if nlinks (din sin) =? 0 then
              let! s := sfs_block_free s (ino sin) in
              if negb (indirect (din sin) =? 0) then sfs_block_free s (indirect (din sin)) else Ok s
            else Ok s in
          let! v := inode_kill node (set_view v s) in
          Ok (0, set_sfs v (set_sinfo (the_sfs v) (delete node (sinfo (the_sfs v))))).

Definition ops_B : InodeOps (kfs D) := {|
  i_open := fun _ => None; i_close := fun _ => None; i_read := fun _ => None; i_write := fun _ => None;
  i_fstat := fun _ => None; i_fsync := fun _ => None; i_namefile := fun _ => None; i_getdirentry := fun _ => None;
  i_reclaim := table None (Some sfs_reclaim_node) (Some sfs_reclaim_node); i_gettype := fun _ => None;
  i_tryseek := fun _ => None; i_truncate := fun _ => None; i_create := fun _ => None; i_lookup := fun _ => None;
  fs_get_root := no_fs; fs_sync := no_fs; fs_unmount := no_fs; fs_cleanup := no_fs |}.

Definition vop_ref_dec node v : res (Z * vfs (kfs D)) := inode_ref_dec (InodeOps0 := ops_B) node v.

Definition sfs_lookup_node node (path : list Z) v : res (Z * Z * vfs (kfs D)) :=
    let! fs := vop_fs node v in
    let! _ := fsop_info fs v in
    assert! negb (bool_decide (path = [])) && negb (bool_decide (head path = Some 47)) ;;
    let! (_, v) := inode_ref_inc node v in
    let! sin := vop_sin node v in
    if negb (dtype (din sin) =? SFS_TYPE_DIR) then
      let! (_, v) := vop_ref_dec node v in Ok (- E_NOTDIR, 0, v)
    else
      let! (ret, sub, v) := sfs_lookup_once fs node path v in
      let! (_, v) := vop_ref_dec node v in
      if negb (ret =? 0) then Ok (ret, 0, v) else Ok (0, sub, v).

Definition sfs_opendir_node node (open_flags : Z) v : res (Z * vfs (kfs D)) := Ok (sfs_opendir open_flags, v).
Definition sfs_openfile_node node (open_flags : Z) v : res (Z * vfs (kfs D)) := Ok (sfs_openfile open_flags, v).

Definition sfs_io_node (write : bool) node (iob : iobuf) v : res (Z * iobuf * vfs (kfs D)) :=
    let! (s, sin) := node_sfs node v in
    let! (ret, iob, s, sin) := sfs_io s sin iob write in
    Ok (ret, iob, put_node node s sin v).
Definition sfs_read_node := sfs_io_node false.
Definition sfs_write_node := sfs_io_node true.

Definition sfs_getdirentry_node node (iob : iobuf) v : res (Z * iobuf * vfs (kfs D)) :=
    match kmalloc_object (Z.to_nat SIZEOF_ENTRY) v with
    | (None, v) => Ok (- E_NO_MEM, iob, v)
    | (Some entry, v) =>
        let! (s, sin) := node_sfs node v in
        let! (ret, iob, s, sin) := sfs_getdirentry s sin iob (Some entry) in
        Ok (ret, iob, put_node node s sin v)
    end.

  (** One round of the loop of [sfs_namefile], from the directory [node]:
      [data] is filled with names from its end, [ptr] is where the last one
      starts and [resid] the room left. *)
Definition namefile_round (fs : Z) '((node, entry, data, ptr, resid, v) : Z * list Z * list Z * Z * Z * vfs (kfs D)) :
      res (Z * list Z * list Z * Z * Z * vfs (kfs D) + Z * list Z * Z * Z * vfs (kfs D)) :=
    let failed ret node data v := let! (_, v) := vop_ref_dec node v in Ok (inr (ret, data, ptr, resid, v)) in
    let! (ret, parent, v) := sfs_lookup_once fs node [46; 46] v in
    if negb (ret =? 0) then failed ret node data v
    else
      let! sin := vop_sin node v in
      let! (_, v) := vop_ref_dec node v in
      if node =? parent then let! (_, v) := vop_ref_dec node v in Ok (inr (0, data, ptr, resid, v))
      else
        let! psin := vop_sin parent v in
        assert! negb (ino sin =? ino psin) && (dtype (din psin) =? SFS_TYPE_DIR) ;;
        let! s := fsop_info fs v in
        let! (ret, entry, s, psin) := sfs_dirent_findino_nolock s psin (ino sin) entry in
        let v := put_node parent s psin v in
        if negb (ret =? 0) then failed ret parent data v
        else
          let! len := strlen (at_ (entry_name entry)) 0 in
          let alen := len + 1 in
          if resid <? alen then failed (- E_NO_MEM) parent data v
          else
            let! data := mwrite data (ptr - alen) (take (Z.to_nat len) (entry_name entry) ++ [47]) in
            Ok (inl (parent, entry, data, ptr - alen, resid - alen, v)).

Definition sfs_namefile_node node (iob : iobuf) v : res (Z * iobuf * vfs (kfs D)) :=
    if io_resid iob <=? 2 then Ok (- E_NO_MEM, iob, v)
    else
      match kmalloc_object (Z.to_nat SIZEOF_ENTRY) v with
      | (None, v) => Ok (- E_NO_MEM, iob, v)
      | (Some entry, v) =>
          let! fs := vop_fs node v in
          let! _ := fsop_info fs v in
          let! _ := vop_sin node v in
          let! (_, v) := inode_ref_inc node v in
          let! (ret, data, ptr, resid, v) :=
            loop (namefile_round fs) (node, entry, io_data iob, io_base iob + io_resid iob, io_resid iob - 2, v) in
          if negb (ret =? 0) then Ok (ret, set_io_data iob data, v)
          else
            let alen := io_resid iob - resid - 2 in
            let! d := mread data ptr alen in
            let! data := mwrite data (io_base iob + 1) d in
            let! data := mwrite data (io_base iob) [47] in
            let! data := mwrite data (io_base iob + 1 + alen) [0] in
            let! iob := iobuf_skip (set_io_data iob data) alen in
            Ok (0, iob, v)
      end.

  (** ** The operations of the file system (sfs_fs.c) *)

  (** What [vop_fsync] returns is ignored. *)
Fixpoint sync_nodes (l : list Z) v : res (vfs (kfs D)) :=
    match l with
    | [] => Ok v
    | node :: l => let! (_, v) := vop_fsync (InodeOps0 := ops_A) node v in sync_nodes l v
    end.

Definition sfs_sync (fs : Z) v : res (Z * vfs (kfs D)) :=
    let! _ := fsop_info fs v in
    let! v := sync_nodes (inode_list (the_sfs v)) v in
    let! s := fsop_info fs v in
    if super_dirty s then
      let! (ret, s) := sfs_sync_super (set_super_dirty s false) in
      if negb (ret =? 0) then Ok (ret, set_view v (set_super_dirty s true))
      else
        let! (ret, s) := sfs_sync_freemap s in
        if negb (ret =? 0) then Ok (ret, set_view v (set_super_dirty s true)) else Ok (0, set_view v s)
    else Ok (0, v).

Definition sfs_get_root (fs : Z) v : res (Z * vfs (kfs D)) :=
    let! _ := fsop_info fs v in
    let! (ret, node, v) := sfs_load_inode fs SFS_BLKN_ROOT v in
    if negb (ret =? 0) then Err KPanic else Ok (node, v).

Definition sfs_unmount (fs : Z) v : res (Z * vfs (kfs D)) :=
    let! s := fsop_info fs v in
    if negb (bool_decide (inode_list (the_sfs v) = [])) then Ok (- E_BUSY, v)
    else assert! negb (super_dirty s) ;; Ok (0, set_sfs v no_sfs).

Fixpoint sync_tries (n : nat) (fs : Z) v : res (vfs (kfs D)) :=
    match n with
    | O => Ok v
    | Datatypes.S n => let! (ret, v) := sfs_sync fs v in if ret =? 0 then Ok v else sync_tries n fs v
    end.
Definition sfs_cleanup (fs : Z) v : res (vfs (kfs D)) := let! _ := fsop_info fs v in sync_tries 32 fs v.

  (** ** Mounting *)

Definition sfs_init_read (dv : device) (blkno : Z) (buf : list Z) (base : Z) (d : devs D) : res (Z * list Z * devs D) :=
    let! (ret, iob, d) := dev_io dv (iobuf_init buf base SFS_BLKSIZE (s32 (blkno * SFS_BLKSIZE))) false d in
    Ok (ret, io_data iob, d).

Definition data_words (l : list Z) : list Z := (fun i => word_at l (4 * i)) <$> seq 0 (length l / 4).

Fixpoint init_freemap_loop (n : nat) (dv : device) (data : list Z) (base blkno : Z) (d : devs D) : res (Z * list Z * devs D) :=
    match n with
    | O => Ok (0, data, d)
    | Datatypes.S n =>
        let! (ret, data, d) := sfs_init_read dv blkno data base d in
        if negb (ret =? 0) then Ok (ret, data, d) else init_freemap_loop n dv data (base + SFS_BLKSIZE) (u32 (blkno + 1)) d
    end.
  (** The words of the bitmap as the bytes that the device fills. *)
Definition sfs_init_freemap (dv : device) (b : bitmap) (blkno nblks : Z) (d : devs D) : res (Z * bitmap * devs D) :=
    let (m, len) := bitmap_getdata b in
    assert! len =? nblks * SFS_BLKSIZE ;;
    let! (ret, data, d) := init_freemap_loop (Z.to_nat nblks) dv (concat (le_encode 4 <$> m)) 0 blkno d in
    Ok (ret, set_map (data_words data) b, d).

Fixpoint count_unused (n : nat) (i : Z) (b : bitmap) (unused : Z) : res Z :=
    match n with
    | O => Ok unused
    | Datatypes.S n =>
        let! t := bitmap_test b i in count_unused n (i + 1) b (if t then unused + 1 else unused)
    end.

  (** [bitmap_create] with the objects that [kmalloc] returns. *)
Definition create_freemap (nbits : Z) v : res (option bitmap * vfs (kfs D)) :=
    let '(a1, _, v) := kmalloc v in
    if a1 =? 0 then let! b := bitmap_create false true nbits in Ok (b, v)
    else let '(a2, _, v) := kmalloc v in let! b := bitmap_create true (negb (a2 =? 0)) nbits in Ok (b, v).

  (** What [sfs_do_mount] reads from the disk before it counts the free blocks:
      the return value and, when it is 0, the new [struct fs] with the super
      block, the free map and the buffer.  [devno]: the inode of the device.
      Only [disk0] has blocks of this size, so [sfs->dev] is not stored, and
      only one file system can be mounted. *)
Definition sfs_mount_read (devno : Z) v : res (Z * option (Z * sfs_super * bitmap * list Z) * vfs (kfs D)) :=
    let! dv := dev_vop_info devno v in
    if negb (dv_blocksize dv =? SFS_BLKSIZE) then Ok (- E_NA_DEV, None, v)
    else
      let '(fs, _, v) := kmalloc v in
      if fs =? 0 then Ok (- E_NO_MEM, None, v)
      else
        match kmalloc_object (Z.to_nat SFS_BLKSIZE) v with
        | (None, v) => Ok (- E_NO_MEM, None, v)
        | (Some buf, v) =>
            let! (ret, buf, d) := sfs_init_read dv SFS_BLKN_SUPER buf 0 (devs_of v) in
            let v := set_devs v d in
            if negb (ret =? 0) then Ok (ret, None, v)
            else if negb (magic (bytes_super buf) =? SFS_MAGIC) then Ok (- E_INVAL, None, v)
            else if dv_blocks dv <? blocks (bytes_super buf) then Ok (- E_INVAL, None, v)
            else
              let! buf := mwrite buf (12 + SFS_MAX_INFO_LEN) [0] in
              let sp := bytes_super buf in
              let '(hash, _, v) := kmalloc v in
              if hash =? 0 then Ok (- E_NO_MEM, None, v)
              else
                let! (fm, v) := create_freemap (sfs_freemap_bits sp) v in
                match fm with
                | None => Ok (- E_NO_MEM, None, v)
                | Some fm =>
                    let! (ret, fm, d) := sfs_init_freemap dv fm SFS_BLKN_FREEMAP (sfs_freemap_blocks sp) (devs_of v) in
                    let v := set_devs v d in
                    if negb (ret =? 0) then Ok (ret, None, v) else Ok (0, Some (fs, sp, fm, buf), v)
                end
        end.

  (** The return value, [*fs_store] and the state. *)
Definition sfs_do_mount (devno : Z) v : res (Z * Z * vfs (kfs D)) :=
    let! (ret, r, v) := sfs_mount_read devno v in
    match r with
    | None => Ok (ret, 0, v)
    | Some (fs, sp, fm, buf) =>
        let! unused := count_unused (Z.to_nat (sfs_freemap_bits sp)) 0 fm 0 in
        assert! unused =? unused_blocks sp ;;
        Ok (0, fs, set_sfs v (mk_sfst fs sp fm false buf ∅ [] ∅))
    end.

Definition sfs_mount (name : list Z) v : res (Z * vfs (kfs D)) := vfs_mount sfs_do_mount name v.

Definition sfs_init v : res (vfs (kfs D)) :=
    let! (ret, v) := sfs_mount name_disk0 v in if negb (ret =? 0) then Err KPanic else Ok v.
End SfsOps.

(** The tables [dev_node_ops], [sfs_node_dirops] and [sfs_node_fileops], and
    the functions of the [struct fs]. *)
#[export] Instance kfs_ops {D} `{!BlockDev D} : InodeOps (kfs D) := {|
  i_open := table (Some dev_open) (Some sfs_opendir_node) (Some sfs_openfile_node);
  i_close := table (Some dev_close) (Some sfs_close_node) (Some sfs_close_node);
  i_read := table (Some dev_read) None (Some sfs_read_node);
  i_write := table (Some dev_write) None (Some sfs_write_node);
  i_fstat := table (Some dev_fstat) (Some sfs_fstat_node) (Some sfs_fstat_node);
  i_fsync := table None (Some sfs_fsync_node) (Some sfs_fsync_node);
  i_namefile := table None (Some sfs_namefile_node) None;
  i_getdirentry := table None (Some sfs_getdirentry_node) None;
  i_reclaim := table None (Some sfs_reclaim_node) (Some sfs_reclaim_node);
  i_gettype := table (Some dev_gettype) (Some sfs_gettype_node) (Some sfs_gettype_node);
  i_tryseek := table (Some dev_tryseek) None (Some sfs_tryseek_node);
  i_truncate := table None None (Some sfs_truncfile_node);
  i_create := fun _ => None;
  i_lookup := table (Some dev_lookup) (Some sfs_lookup_node) None;
  fs_get_root := sfs_get_root; fs_sync := sfs_sync; fs_unmount := sfs_unmount; fs_cleanup := sfs_cleanup |}.
