(* ===== verification/SfsInv.v ===== *)
(** * The simple file system under the VFS: its invariant

    [mounted v gd]: the mounted file system keeps one inode in memory for each
    inode of the disk that is in use, with the table of operations of its
    type, found under its number in the hash lists; what the disk holds and
    what the dirty inodes hold together are [gd] ([SfsTree]).  The operations
    of [SfsOps] keep it and, with those of the devices, satisfy [InodeLaws]. *)
From S2P Require Import Prelude Arith CString Bitmap IoBuf BlockDev Sfs SfsDisk SfsBmap SfsLoad SfsFile SfsSpec SfsTree Vfs VfsInv Dev DevSpec SfsOps.

Definition sfs_ops_of (type : Z) : Z := if type =? SFS_TYPE_DIR then sfs_node_dirops else sfs_node_fileops.

Section SfsInv.
  Context {D : Type} `{!BlockDev D, !BlockRead D, !BlockWrite D}.
  Implicit Types (v : vfs (kfs D)) (n : Z) (gd : gmap Z sfs_disk_inode) (sin : sfs_inode).

Record sfs_node (fs : Z) (i : inode) sin : Prop := {
    sn_type : in_type i = inode_type_sfs_inode_info;
    sn_fs : in_fs i = fs;
    sn_ops : in_ops i = sfs_ops_of (dtype (din sin))
  }.

  (** An inode in memory. *)
Record cached (h : gmap Z (list Z)) gd n sin : Prop := {
    ca_disk : gd !! ino sin = Some (din sin);
    ca_count : 1 <= reclaim_count sin;
    ca_hash : n ∈ default [] (h !! sin_hashfn (ino sin))
  }.

Record mounted v gd : Prop := {
    mt_at : fs_at (the_sfs v) <> 0;
    mt_tree : tree (sfs_view v) gd;
    mt_null : inodes v !! 0 = None;
    mt_node : forall n i, inodes v !! n = Some i ->
      dev_node v n i \/ exists sin, sinfo (the_sfs v) !! n = Some sin /\ sfs_node (fs_at (the_sfs v)) i sin;
    mt_sin : forall n sin, sinfo (the_sfs v) !! n = Some sin ->
      cached (hash_list (the_sfs v)) gd n sin /\ exists i, inodes v !! n = Some i /\ sfs_node (fs_at (the_sfs v)) i sin;
    mt_one : forall n m a b, sinfo (the_sfs v) !! n = Some a -> sinfo (the_sfs v) !! m = Some b -> ino a = ino b -> n = m;
    mt_hash : forall h n, n ∈ default [] (hash_list (the_sfs v) !! h) ->
      exists sin, sinfo (the_sfs v) !! n = Some sin /\ sin_hashfn (ino sin) = h;
    mt_list : forall n, n ∈ inode_list (the_sfs v) <-> is_Some (sinfo (the_sfs v) !! n);
    mt_disk : forall k d, gd !! k = Some d -> on_disk (sfs_view v) k d \/
      exists n sin, sinfo (the_sfs v) !! n = Some sin /\ ino sin = k /\ dirty sin = true;
    mt_vdev : forall d, d ∈ vdev_list v -> (dev_fs d = 0 \/ dev_fs d = fs_at (the_sfs v)) /\
      exists i, inodes v !! devnode d = Some i /\ dev_node v (devnode d) i;
    mt_stdin : stdin_ok (devs_of v)
  }.

Definition sfs_inv v : Prop := exists gd, mounted v gd.

  (** ** The parts of the state *)

  (** Nothing changes in the VFS proper. *)
Definition same_vfs v v' : Prop := inodes v' = inodes v /\ bootfs_node v' = bootfs_node v /\ vdev_list v' = vdev_list v.

Lemma same_vfs_moves v v' : same_vfs v v' -> moves v none none v'.
  Proof.
    intros (Ei & Eb & Ed). split; try done; intros n; unfold refc, openc, opsof, fsof, none; rewrite Ei; (lia || done).
  Qed.

Lemma view_set v (s : sfs_fs D) : sfs_view (set_view v s) = s.
  Proof. by destruct s. Qed.
Lemma view_put n s sin v : sfs_view (put_node n s sin v) = s.
  Proof. by destruct s. Qed.
Lemma same_put n s sin v : same_vfs v (put_node n s sin v).
  Proof. done. Qed.

Lemma dev_node_ext v v' n i : dev_node v n i -> vdev_list v' = vdev_list v -> dev_info (devs_of v') = dev_info (devs_of v) -> dev_node v' n i.
  Proof. intros [] Ev Ed. split; rewrite ?Ev, ?Ed; done. Qed.

Lemma fsop_info_Ok v gd : mounted v gd -> fsop_info (fs_at (the_sfs v)) v = Ok (sfs_view v).
  Proof. intros [H _]. unfold fsop_info. destruct (Z.eqb_spec (fs_at (the_sfs v)) 0); [done|]. cbn [negb rassert rbind]. by rewrite Z.eqb_refl. Qed.

  (** An inode of the file system. *)
Record snode v gd n i sin : Prop := {
    sn_in : inodes v !! n = Some i;
    sn_sin : sinfo (the_sfs v) !! n = Some sin;
    sn_node : sfs_node (fs_at (the_sfs v)) i sin;
    sn_ca : cached (hash_list (the_sfs v)) gd n sin;
    sn_ne : n <> 0
  }.

Lemma mounted_snode v gd n sin : mounted v gd -> sinfo (the_sfs v) !! n = Some sin -> exists i, snode v gd n i sin.
  Proof.
    intros Hm E. destruct (mt_sin _ _ Hm n sin E) as (Hc & i & Ei & Hn). exists i. split; try done.
    intros ->. by rewrite (mt_null _ _ Hm) in Ei.
  Qed.

Lemma mounted_alive v gd n : mounted v gd -> alive v n ->
    exists i, inodes v !! n = Some i /\ n <> 0 /\ opsof v n = in_ops i /\ fsof v n = in_fs i /\
      (dev_node v n i \/ exists sin, snode v gd n i sin).
  Proof.
    intros Hm Ha. destruct (alive_get v n Ha) as (i & Ei & _). exists i. split; [done|].
    split; [intros ->; by rewrite (mt_null _ _ Hm) in Ei|]. unfold opsof, fsof. rewrite Ei. split; [done|]. split; [done|].
    destruct (mt_node _ _ Hm n i Ei) as [?|(sin & Es & Hs)]; [by left|]. right. exists sin.
    destruct (mounted_snode v gd n sin Hm Es) as (j & Hj). assert (j = i) as -> by (pose proof (sn_in _ _ _ _ _ Hj); congruence). done.
  Qed.

Lemma vop_sin_at v n i sin : inodes v !! n = Some i -> in_type i = inode_type_sfs_inode_info -> n <> 0 ->
    sinfo (the_sfs v) !! n = Some sin -> vop_sin n v = Ok sin.
  Proof.
    intros Ei Ht Hn Es. unfold vop_sin. destruct (Z.eqb_spec n 0); [done|]. cbn [negb rassert rbind].
    rewrite (get_inode_Ok v n i Hn Ei). cbn [rbind]. by rewrite Ht, Es.
  Qed.

Lemma node_sfs_at v n i sin sin' : fs_at (the_sfs v) <> 0 -> inodes v !! n = Some i -> sfs_node (fs_at (the_sfs v)) i sin' -> n <> 0 ->
    sinfo (the_sfs v) !! n = Some sin -> node_sfs n v = Ok (sfs_view v, sin).
  Proof.
    intros Hat Ei [Ht Hf _] Hn Es. unfold node_sfs, vop_fs. rewrite (get_inode_Ok v n i Hn Ei). cbn [rbind].
    rewrite Hf. unfold fsop_info. destruct (Z.eqb_spec (fs_at (the_sfs v)) 0); [done|]. cbn [negb rassert rbind]. rewrite Z.eqb_refl. cbn [rbind].
    by rewrite (vop_sin_at v n i sin).
  Qed.

Lemma node_sfs_Ok v gd n i sin : mounted v gd -> snode v gd n i sin -> node_sfs n v = Ok (sfs_view v, sin).
  Proof. intros Hm [Ei Es Hs Hc Hn]. eapply node_sfs_at; [apply Hm|done..]. Qed.

Lemma vop_sin_Ok v gd n i sin : snode v gd n i sin -> vop_sin n v = Ok sin.
  Proof. intros [Ei Es [Ht _ _] Hc Hn]. by eapply vop_sin_at. Qed.

  (** A clean inode is on the disk. *)
Lemma clean_or_dirty v gd n sin : mounted v gd -> sinfo (the_sfs v) !! n = Some sin ->
    dirty sin = true \/ on_disk (sfs_view v) (ino sin) (din sin).
  Proof.
    intros Hm E. destruct (mt_sin _ _ Hm n sin E) as ([Hd _ _] & _).
    destruct (mt_disk _ _ Hm _ _ Hd) as [?|(m & b & Eb & Ei & Hdb)]; [by right|].
    left. pose proof (mt_one _ _ Hm m n b sin Eb E Ei) as ->. congruence.
  Qed.

  (** ** Steps that keep the invariant *)

Lemma mounted_put v gd n sin s' sin' gd' : mounted v gd -> sinfo (the_sfs v) !! n = Some sin ->
    gd' = <[ino sin := din sin']> gd -> tree s' gd' ->
    ino sin' = ino sin -> dtype (din sin') = dtype (din sin) -> 1 <= reclaim_count sin' ->
    (forall k d, gd !! k = Some d -> k <> ino sin -> blk s' k = blk (sfs_view v) k) ->
    dirty sin' = true \/ on_disk s' (ino sin) (din sin') -> mounted (put_node n s' sin' v) gd'.
  Proof.
    intros Hm E -> Ht Ei Ety Hrc Hblk Hd. destruct (mt_sin _ _ Hm n sin E) as (Hc & i & Hi & [Ht' Hf' Ho']).
    assert (Es : forall m, sinfo (the_sfs (put_node n s' sin' v)) !! m = if decide (m = n) then Some sin' else sinfo (the_sfs v) !! m).
    { intros m. cbn. destruct (decide (m = n)) as [->|]; [by rewrite lookup_insert_eq|by rewrite lookup_insert_ne]. }
    assert (Einfo : dev_info (devs_of (put_node n s' sin' v)) = dev_info (devs_of v)) by done.
    split.
    - apply Hm.
    - by rewrite view_put.
    - apply Hm.
    - intros m j Hj. destruct (mt_node _ _ Hm m j Hj) as [?|(b & Eb & Hb)]; [left; by eapply dev_node_ext|].
      right. rewrite Es. destruct (decide (m = n)) as [->|]; [|by exists b].
      exists sin'. split; [done|]. assert (b = sin) as -> by congruence. destruct Hb as [G1 G2 G3]. split; try done. by rewrite Ety.
    - intros m b. rewrite Es. destruct (decide (m = n)) as [->|Hne].
      + intros [= <-]. split; [split; [by rewrite Ei, lookup_insert_eq|done|rewrite Ei; apply Hc]|].
        exists i. split; [done|]. split; try done. by rewrite Ety.
      + intros Eb. destruct (mt_sin _ _ Hm m b Eb) as ([G1 G2 G3] & j & Hj & G4). split; [|by exists j].
        split; try done. rewrite lookup_insert_ne; [done|]. intros Heq. apply Hne. by apply (mt_one _ _ Hm m n b sin).
    - intros m m' a b. rewrite !Es. destruct (decide (m = n)) as [->|], (decide (m' = n)) as [->|]; try done.
      + intros [= <-] Eb Hab. rewrite Ei in Hab. by apply (mt_one _ _ Hm n m' sin b).
      + intros Ea [= <-] Hab. rewrite Ei in Hab. by apply (mt_one _ _ Hm m n a sin).
      + apply (mt_one _ _ Hm).
    - intros h m Hh. destruct (mt_hash _ _ Hm h m Hh) as (b & Eb & Hb). rewrite Es. destruct (decide (m = n)) as [->|]; [|by exists b].
      exists sin'. split; [done|]. rewrite Ei. assert (b = sin) as -> by congruence. done.
    - intros m. rewrite Es. destruct (decide (m = n)) as [->|]; [|apply (mt_list _ _ Hm)].
      split; [eauto|]. intros _. apply (mt_list _ _ Hm). eauto.
    - intros k d. rewrite view_put. destruct (decide (k = ino sin)) as [->|Hne].
      + rewrite lookup_insert_eq. intros [= <-]. destruct Hd as [Hd|Hd]; [|by left]. right. exists n, sin'.
        rewrite Es, decide_True by done. done.
      + rewrite lookup_insert_ne by done. intros Ek. destruct (mt_disk _ _ Hm k d Ek) as [?|(m & b & Eb & Eib & Hdb)].
        * left. eapply on_disk_blk; [|done]. by eapply Hblk.
        * right. exists m, b. rewrite Es. rewrite decide_False; [done|]. intros ->. congruence.
    - intros d Hin. destruct (mt_vdev _ _ Hm d Hin) as (G1 & j & G2 & G3). split; [done|]. exists j. split; [done|]. by eapply dev_node_ext.
    - destruct (mt_stdin _ _ Hm). by split.
  Qed.

Lemma set_view_id v : set_view v (sfs_view v) = v.
  Proof. destruct v as [a b c [d t l]]. by destruct d, t. Qed.
Lemma put_sin_node n sin v : put_sin n sin v = put_node n (sfs_view v) sin v.
  Proof. unfold put_node. by rewrite set_view_id. Qed.

  (** The same contents, and [sin] as it was. *)
Lemma mounted_same v gd n sin s' : mounted v gd -> sinfo (the_sfs v) !! n = Some sin -> same (sfs_view v) s' -> mounted (put_node n s' sin v) gd.
  Proof.
    intros Hm E Hs. destruct (mt_sin _ _ Hm n sin E) as ([Hd Hrc _] & _).
    apply (mounted_put v gd n sin s' sin); try done.
    - by rewrite insert_id.
    - eapply tree_same; [apply Hm|done].
    - intros k d _ _. apply (bc_blk _ _ _ _ Hs).
    - destruct (clean_or_dirty v gd n sin Hm E) as [?|?]; [by left|right]. eapply on_disk_blk; [|done]. apply (bc_blk _ _ _ _ Hs).
  Qed.

  (** Counting in [reclaim_count]. *)
Lemma mounted_count v gd n sin c : mounted v gd -> sinfo (the_sfs v) !! n = Some sin -> 1 <= c -> mounted (put_sin n (set_reclaim sin c) v) gd.
  Proof.
    intros Hm E Hc. destruct (mt_sin _ _ Hm n sin E) as ([Hd Hrc _] & _). rewrite put_sin_node.
    apply (mounted_put v gd n sin); try done.
    - by rewrite insert_id.
    - apply Hm.
    - by apply (clean_or_dirty v gd n sin).
  Qed.

Lemma mounted_inode v gd n i i' : mounted v gd -> inodes v !! n = Some i ->
    in_type i' = in_type i -> in_fs i' = in_fs i -> in_ops i' = in_ops i -> mounted (put_inode n i' v) gd.
  Proof.
    intros Hm E Et Ef Eo.
    assert (Hin : forall m j, inodes v !! m = Some j -> exists j', inodes (put_inode n i' v) !! m = Some j' /\
      in_type j' = in_type j /\ in_fs j' = in_fs j /\ in_ops j' = in_ops j).
    { intros m j Ej. cbn. destruct (decide (m = n)) as [->|]; [rewrite lookup_insert_eq|rewrite lookup_insert_ne by done; eauto].
      exists i'. assert (j = i) as -> by congruence. done. }
    assert (Hdev : forall m j, inodes v !! m = Some j -> dev_node v m j -> exists j', inodes (put_inode n i' v) !! m = Some j' /\ dev_node (put_inode n i' v) m j').
    { intros m j Ej [G1 G2 G3 G4 G5]. destruct (Hin m j Ej) as (j' & Ej' & F1 & F2 & F3). exists j'. split; [done|]. split; try done; congruence. }
    split; try apply Hm.
    - cbn. destruct (decide (n = 0)) as [->|]; [by rewrite (mt_null _ _ Hm) in E|]. rewrite lookup_insert_ne; [apply Hm|done].
    - intros m j Ej. destruct (decide (m = n)) as [->|Hne].
      + cbn in Ej. rewrite lookup_insert_eq in Ej. injection Ej as <-. destruct (mt_node _ _ Hm n i E) as [[]|(sin & Es & [])]; [left|right; exists sin].
        * split; try done; congruence.
        * split; [done|]. split; [by rewrite Et|by rewrite Ef|by rewrite Eo].
      + cbn in Ej. rewrite lookup_insert_ne in Ej by done. destruct (mt_node _ _ Hm m j Ej) as [[]|?]; [left; by split|by right].
    - intros m sin Es. destruct (mt_sin _ _ Hm m sin Es) as (Hc & j & Ej & []). split; [done|].
      destruct (Hin m j Ej) as (j' & Ej' & F1 & F2 & F3). exists j'. split; [done|]. split; [by rewrite F1|by rewrite F2|by rewrite F3].
    - intros d Hd. destruct (mt_vdev _ _ Hm d Hd) as (G & j & Ej & Hj). split; [done|]. by apply (Hdev _ j).
  Qed.

Lemma mounted_devs v gd d : mounted v gd -> devs_next (devs_of v) d -> mounted (set_devs v d) gd /\ moves v none none (set_devs v d).
  Proof.
    intros Hm [Hi Hk Hs]. split; [|by apply same_vfs_moves].
    assert (Ev : sfs_view (set_devs v d) = sfs_view v).
    { unfold sfs_view, the_sfs. cbn. by rewrite Hk. }
    split; try apply Hm.
    - rewrite Ev. apply Hm.
    - intros n i E. destruct (mt_node _ _ Hm n i E) as [?|?]; [left; by eapply dev_node_ext|by right].
    - rewrite Ev. apply Hm.
    - intros e He. destruct (mt_vdev _ _ Hm e He) as (G & j & Ej & Hj). split; [done|]. exists j. split; [done|]. by eapply dev_node_ext.
    - done.
  Qed.

Definition set_allocs v (l : list (Z * list Z)) : vfs (kfs D) := set_fsd v (mk_kfs (kdevs (fsd v)) (ksfs (fsd v)) l).

Lemma mounted_allocs v gd l : mounted v gd -> mounted (set_allocs v l) gd.
  Proof.
    intros Hm. split; try apply Hm.
    - intros n i E. destruct (mt_node _ _ Hm n i E) as [[]|?]; [left; by split|by right].
    - intros e He. destruct (mt_vdev _ _ Hm e He) as (G & j & Ej & []). split; [done|]. exists j. split; [done|]. by split.
  Qed.

Lemma set_allocs_id v : set_allocs v (allocs (fsd v)) = v.
  Proof. by destruct v as [a b c []]. Qed.

Lemma kmalloc_Ok v : exists a m l, kmalloc v = (a, m, set_allocs v l) /\ (forall x k, allocs (fsd v) = x :: k -> x = (a, m) /\ l = k).
  Proof.
    unfold kmalloc. destruct (allocs (fsd v)) as [|[a m] l] eqn:E.
    - exists 0, [], []. rewrite <- E at 1. rewrite set_allocs_id. by split.
    - exists a, m, l. split; [done|]. by intros x k [= <- <-].
  Qed.

Lemma kmalloc_object_Ok (n : nat) v : exists o l, kmalloc_object n v = (o, set_allocs v l) /\ (forall e, o = Some e -> length e = n) /\
    (forall a m k, allocs (fsd v) = (a, m) :: k -> a <> 0 -> is_Some o /\ l = k).
  Proof.
    unfold kmalloc_object. destruct (kmalloc_Ok v) as (a & m & l & -> & Hk). eexists _, l. split; [done|]. split.
    - intros e. destruct (a =? 0); [done|]. intros [= <-]. apply length_resize.
    - intros a' m' k E Ha. destruct (Hk _ _ E) as [[= -> ->] ->]. split; [|done]. destruct (Z.eqb_spec a 0); [done|eauto].
  Qed.

  (** ** Loading an inode *)

  (** One more reference to the inode [n], whose number is [k]. *)
Definition loaded_node v gd (k n : Z) v' : Prop :=
    mounted v' gd /\ n <> 0 /\ moves v (one n) none v' /\ exists i sin, snode v' gd n i sin /\ ino sin = k.

Lemma ref_inc_node v n i : n <> 0 -> inodes v !! n = Some i ->
    inode_ref_inc n v = Ok (ref_count i + 1, put_inode n (set_ref i (ref_count i + 1)) v).
  Proof. intros Hn Ei. unfold inode_ref_inc. by rewrite (get_inode_Ok v n i Hn Ei). Qed.

Lemma lookup_loop_Ok v gd k l : mounted v gd -> (forall n, n ∈ l -> exists sin, sinfo (the_sfs v) !! n = Some sin) ->
    runs (lookup_sfs_loop l k v) (fun n v' =>
      (n <> 0 /\ loaded_node v gd k n v') \/
      (n = 0 /\ v' = v /\ forall m sin, m ∈ l -> sinfo (the_sfs v) !! m = Some sin -> ino sin <> k)).
  Proof.
    intros Hm. induction l as [|n l IH]; intros Hl; cbn [lookup_sfs_loop].
    { exists 0, v. split; [done|]. right. split_and!; try done. intros m sin Hin. by apply not_elem_of_nil in Hin. }
    destruct (Hl n ltac:(left)) as (sin & Es). rewrite Es. cbn [rget rbind].
    destruct (mounted_snode v gd n sin Hm Es) as (i & Hi). pose proof (sn_ne _ _ _ _ _ Hi) as Hn. pose proof (sn_in _ _ _ _ _ Hi) as Ei.
    destruct (Z.eqb_spec (ino sin) k) as [Hk|Hk].
    - rewrite (ref_inc_node v n i Hn Ei). cbn [rbind]. set (v1 := put_inode _ _ v).
      assert (Hm1 : mounted v1 gd) by (by apply (mounted_inode v gd n i)).
      set (v2 := if _ =? 1 then _ else v1). exists n, v2. split; [done|]. left. split; [done|].
      assert (H2 : mounted v2 gd /\ same_vfs v1 v2 /\ exists sin', sinfo (the_sfs v2) !! n = Some sin' /\ ino sin' = k).
      { unfold v2. destruct (_ =? 1); [|split; [done|]; split; [done|]; by exists sin]. pose proof (ca_count _ _ _ _ (sn_ca _ _ _ _ _ Hi)).
        split; [apply (mounted_count v1 gd n sin); (done || lia)|]. split; [done|]. eexists. split; [cbn; by rewrite lookup_insert_eq|done]. }
      destruct H2 as (Hm2 & Hv2 & sin' & Es' & Ek'). split; [done|]. split; [done|]. split.
      + eapply moves_ext; [eapply moves_up; [by apply (ref_moves v n i)|by apply same_vfs_moves|]|..]; unfold none; intros m; try lia.
        unfold one. destruct (m =? n); lia.
      + destruct (mounted_snode v2 gd n sin' Hm2 Es') as (i' & Hi'). by exists i', sin'.
    - destruct IH as (m & v' & E & Hr); [intros m Hin; apply Hl; by right|]. exists m, v'. split; [done|].
      destruct Hr as [?|(? & ? & Hno)]; [by left|right]. split_and!; try done. intros j b Hj Eb.
      apply elem_of_cons in Hj as [->|Hj]; [congruence|by eapply Hno].
  Qed.

Lemma lookup_nolock_Ok v gd k : mounted v gd ->
    runs (lookup_sfs_nolock k v) (fun n v' =>
      (n <> 0 /\ loaded_node v gd k n v') \/
      (n = 0 /\ v' = v /\ forall m sin, sinfo (the_sfs v) !! m = Some sin -> ino sin <> k)).
  Proof.
    intros Hm. unfold lookup_sfs_nolock.
    destruct (lookup_loop_Ok v gd k (default [] (hash_list (the_sfs v) !! sin_hashfn k)) Hm) as (n & v' & E & Hr).
    { intros n Hn. destruct (mt_hash _ _ Hm _ _ Hn) as (sin & Es & _). eauto. }
    exists n, v'. split; [done|]. destruct Hr as [?|(? & ? & Hno)]; [by left|right]. split_and!; try done.
    intros m sin Es Hk. destruct (mt_sin _ _ Hm m sin Es) as ([_ _ Hh] & _). rewrite Hk in Hh. by apply (Hno m sin).
  Qed.

  (** A new inode in memory. *)
Definition new_inode v (a k : Z) (d : sfs_disk_inode) : vfs (kfs D) :=
    sfs_set_links a k (put_sin a (mk_sin d k false 1)
      (put_inode a (mk_inode inode_type_sfs_inode_info 1 0 (fs_at (the_sfs v)) (sfs_ops_of (dtype d))) v)).

Lemma new_moves v a k d : inodes v !! a = None -> moves v (one a) none (new_inode v a k d).
  Proof.
    intros Ha. split; try done; intros n; unfold refc, openc, opsof, fsof, alive, refc, one, none; cbn [inodes new_inode sfs_set_links set_sfs set_fsd put_sin put_inode set_inodes];
      (destruct (Z.eqb_spec n a) as [->|Hne]; [rewrite lookup_insert_eq, Ha; cbn; lia|rewrite lookup_insert_ne by done; (lia || done)]).
  Qed.

Lemma mounted_new v gd a k d : mounted v gd -> gd !! k = Some d -> inodes v !! a = None -> a <> 0 ->
    (forall m sin, sinfo (the_sfs v) !! m = Some sin -> ino sin <> k) -> mounted (new_inode v a k d) gd.
  Proof.
    intros Hm E Ha Hne Hno.
    assert (Hsa : sinfo (the_sfs v) !! a = None).
    { destruct (sinfo (the_sfs v) !! a) as [sin|] eqn:Es; [|done]. destruct (mt_sin _ _ Hm a sin Es) as (_ & i & Ei & _). congruence. }
    assert (Es : forall m, sinfo (the_sfs (new_inode v a k d)) !! m = if decide (m = a) then Some (mk_sin d k false 1) else sinfo (the_sfs v) !! m).
    { intros m. cbn. destruct (decide (m = a)) as [->|]; [by rewrite lookup_insert_eq|by rewrite lookup_insert_ne]. }
    assert (Ein : forall m, inodes (new_inode v a k d) !! m =
      if decide (m = a) then Some (mk_inode inode_type_sfs_inode_info 1 0 (fs_at (the_sfs v)) (sfs_ops_of (dtype d))) else inodes v !! m).
    { intros m. cbn. destruct (decide (m = a)) as [->|]; [by rewrite lookup_insert_eq|by rewrite lookup_insert_ne]. }
    assert (Eh : forall h n, n ∈ default [] (hash_list (the_sfs (new_inode v a k d)) !! h) <->
      (h = sin_hashfn k /\ n = a) \/ n ∈ default [] (hash_list (the_sfs v) !! h)).
    { intros h n. cbn [new_inode sfs_set_links the_sfs set_sfs set_fsd fsd ksfs set_lists hash_list put_sin set_sinfo put_inode set_inodes].
      destruct (decide (h = sin_hashfn k)) as [->|]; [rewrite lookup_insert_eq|rewrite lookup_insert_ne by done].
      - cbn [from_option id]. rewrite elem_of_cons. split; [intros [?|?]; [by left|by right]|intros [[_ ?]|?]; [by left|by right]].
      - split; [by right|]. intros [[? _]|?]; done. }
    split.
    - apply Hm.
    - apply (mt_tree _ _ Hm).
    - rewrite Ein, decide_False by done. apply Hm.
    - intros n i. rewrite Ein, Es. destruct (decide (n = a)) as [->|].
      + intros [= <-]. right. eexists. split; [done|]. by split.
      + intros Ei. destruct (mt_node _ _ Hm n i Ei) as [[]|?]; [left; by split|by right].
    - intros n sin. rewrite Es, Ein. destruct (decide (n = a)) as [->|].
      + intros [= <-]. split; [split; [done|cbn; lia|apply Eh; by left]|]. eexists. split; [done|]. by split.
      + intros En. destruct (mt_sin _ _ Hm n sin En) as ([G1 G2 G3] & ?). split; [|done]. split; try done. apply Eh. by right.
    - intros n m x y. rewrite !Es. destruct (decide (n = a)) as [->|], (decide (m = a)) as [->|]; try done.
      + intros [= <-] Em Hxy. by destruct (Hno m y Em).
      + intros En [= <-] Hxy. by destruct (Hno n x En).
      + apply (mt_one _ _ Hm).
    - intros h n Hn. apply Eh in Hn as [[-> ->]|Hn]; rewrite Es.
      + rewrite decide_True by done. by eexists.
      + destruct (mt_hash _ _ Hm h n Hn) as (sin & En & Hh). rewrite decide_False; [by exists sin|]. congruence.
    - intros n. rewrite Es. cbn [new_inode sfs_set_links the_sfs set_sfs set_fsd fsd ksfs set_lists inode_list put_sin set_sinfo put_inode set_inodes].
      rewrite elem_of_cons, (mt_list _ _ Hm). destruct (decide (n = a)) as [->|].
      + split; [eauto|by left].
      + split; [intros [?|?]; done|by right].
    - intros j e Ej. destruct (mt_disk _ _ Hm j e Ej) as [?|(m & b & Eb & Hb)]; [by left|right].
      exists m, b. rewrite Es, decide_False; [done|]. congruence.
    - intros e He. destruct (mt_vdev _ _ Hm e He) as (G & i & Ei & []). split; [done|]. exists i. rewrite Ein, decide_False; [|congruence].
      split; [done|]. by split.
    - apply (mt_stdin _ _ Hm).
  Qed.

  (** Another state of the disk and the free map, with the same inodes. *)
Lemma mounted_blocks v gd s' : mounted v gd -> tree s' gd -> (forall k d, gd !! k = Some d -> blk s' k = blk (sfs_view v) k) ->
    mounted (set_view v s') gd.
  Proof.
    intros Hm Ht Hb. split; try apply Hm.
    - by rewrite view_set.
    - intros n i E. destruct (mt_node _ _ Hm n i E) as [[]|?]; [left; by split|by right].
    - intros k d E. rewrite view_set. destruct (mt_disk _ _ Hm k d E) as [?|?]; [left|by right]. eapply on_disk_blk; [|done]. by eapply Hb.
    - intros e He. destruct (mt_vdev _ _ Hm e He) as (G & i & Ei & []). split; [done|]. exists i. split; [done|]. by split.
    - by destruct (mt_stdin _ _ Hm).
  Qed.

Lemma mounted_view v gd s' : mounted v gd -> same (sfs_view v) s' -> mounted (set_view v s') gd.
  Proof.
    intros Hm Hs. apply mounted_blocks; [done|eapply tree_same; [apply Hm|done]|]. intros k d _. apply (bc_blk _ _ _ _ Hs).
  Qed.

Lemma moves_same_l v v1 v2 r w : same_vfs v v1 -> moves v1 r w v2 -> moves v r w v2.
  Proof.
    intros (Ei & Eb & Ed) [Hr Hw Ho Hb Hd]. unfold alive, refc, openc, opsof, fsof in *. rewrite Ei in *. split; try done; congruence.
  Qed.
Lemma moves_same_r v v1 v2 r w : moves v r w v1 -> same_vfs v1 v2 -> moves v r w v2.
  Proof.
    intros [Hr Hw Ho Hb Hd] (Ei & Eb & Ed). split; unfold alive, refc, openc, opsof, fsof in *; rewrite ?Ei; try done; congruence.
  Qed.

  (** The inode [k] is in memory, or there is memory for it. *)
Definition ready v (k : Z) : Prop :=
    (exists n sin, sinfo (the_sfs v) !! n = Some sin /\ ino sin = k) \/
    (exists a1 m1 a2 m2 l, allocs (fsd v) = (a1, m1) :: (a2, m2) :: l /\ a1 <> 0 /\ a2 <> 0 /\ inodes v !! a2 = None).

Lemma create_Ok v gd k d : mounted v gd -> gd !! k = Some d -> (forall m sin, sinfo (the_sfs v) !! m = Some sin -> ino sin <> k) ->
    runs (sfs_create_inode (fs_at (the_sfs v)) d k v) (fun a v1 =>
      let v' := sfs_set_links a.2 k v1 in
      if a.1 =? 0 then loaded_node v gd k a.2 v'
      else mounted v1 gd /\ moves v none none v1 /\ forall x m l, allocs (fsd v) = (x, m) :: l -> x = 0 \/ is_Some (inodes v !! x)).
  Proof.
    intros Hm E Hno. unfold sfs_create_inode. destruct (kmalloc_Ok v) as (a & m & l & -> & Hal).
    change (inodes (set_allocs v l)) with (inodes v). set (b := if bool_decide _ then 0 else a).
    set (v1 := set_allocs v l). assert (Hm1 : mounted v1 gd) by (by apply mounted_allocs).
    unfold __alloc_inode. destruct (Z.eqb_spec b 0) as [Hb|Hb].
    - cbn [negb Z.eqb]. eexists (- E_NO_MEM, 0), v1. split; [done|]. cbn. split; [done|]. split; [by apply same_vfs_moves|].
      intros x m' l' Ex. destruct (Hal _ _ Ex) as [[= -> ->] _]. unfold b in Hb. case_bool_decide; [by right|by left].
    - destruct (Z.eqb_spec b 0); [done|]. cbn [negb].
      assert (Hfree : inodes v !! b = None).
      { unfold b in *. case_bool_decide as Hd; [done|]. destruct (inodes v !! a) eqn:Ea; [|done]. exfalso. apply Hd. eauto. }
      assert (Eops : sfs_get_ops (dtype d) = Ok (sfs_ops_of (dtype d))).
      { pose proof (nd_kind _ _ _ _ (tr_node _ _ (mt_tree _ _ Hm) _ _ E)) as [[-> _]|[-> _]]; done. }
      rewrite Eops. cbn [rbind]. unfold inode_init. rewrite (get_inode_Ok _ b (mk_inode inode_type_sfs_inode_info 0 0 0 0)) by (done || apply lookup_insert_eq).
      cbn [rbind]. rewrite (ref_inc_node _ b (mk_inode inode_type_sfs_inode_info 0 0 (fs_at (the_sfs v)) (sfs_ops_of (dtype d)))) by (done || apply lookup_insert_eq).
      cbn [rbind]. eexists (0, b), _. split; [done|]. cbn [fst snd Z.eqb].
      set (v2 := sfs_set_links b k _). assert (Ev : v2 = new_inode v1 b k d).
      { unfold v2, new_inode, put_inode, set_inodes, put_sin, set_sfs, set_fsd, sfs_set_links. cbn. by rewrite !insert_insert_eq. }
      assert (Hm2 : mounted v2 gd) by (rewrite Ev; by apply mounted_new).
      split; [done|]. split; [done|]. split.
      + rewrite Ev. apply (moves_same_l v v1); [done|]. by apply new_moves.
      + assert (Es : sinfo (the_sfs v2) !! b = Some (mk_sin d k false 1)) by (rewrite Ev; cbn; apply lookup_insert_eq).
        destruct (mounted_snode v2 gd b _ Hm2 Es) as (i & Hi). by eexists i, _.
  Qed.

Lemma load_inode_Ok v gd k d : mounted v gd -> gd !! k = Some d ->
    runs (sfs_load_inode (fs_at (the_sfs v)) k v) (fun a v' =>
      (if a.1 =? 0 then loaded_node v gd k a.2 v' else mounted v' gd /\ moves v none none v') /\ (ready v k -> a.1 = 0)).
  Proof.
    intros Hm E. unfold sfs_load_inode.
    destruct (lookup_nolock_Ok v gd k Hm) as (n & v0 & -> & [[Hn Hl]|(-> & -> & Hno)]); cbn [rbind].
    { destruct (Z.eqb_spec n 0); [done|]. by eexists (0, n), v0. }
    cbn [negb Z.eqb]. destruct (kmalloc_object_Ok (Z.to_nat SIZEOF_DIN) v) as (o & l & -> & Hlen & Hok).
    assert (Hm1 : mounted (set_allocs v l) gd) by (by apply mounted_allocs).
    assert (Hready : ready v k -> exists a1 m1 a2 m2 r, allocs (fsd v) = (a1, m1) :: (a2, m2) :: r /\ a1 <> 0 /\ a2 <> 0 /\ inodes v !! a2 = None).
    { intros [(n & sin & Es & Ek)|?]; [by destruct (Hno n sin Es)|done]. }
    destruct o as [buf|].
    2: { eexists (- E_NO_MEM, 0), _. split; [done|]. split; [by split; [|apply same_vfs_moves]|].
         intros Hr. destruct (Hready Hr) as (a1 & m1 & a2 & m2 & r & Ea & H1 & _). by destruct (Hok _ _ _ Ea H1) as [[] _]. }
    rewrite (fsop_info_Ok _ gd Hm1 : fsop_info (fs_at (the_sfs v)) (set_allocs v l) = Ok (sfs_view v)). cbn [rbind]. set (v1 := set_allocs v l) in *.
    pose proof (mt_tree _ _ Hm) as Ht. pose proof (tr_node _ _ Ht _ _ E) as Hnode.
    rewrite (inuse_used (sfs_view v) k) by (apply (tr_fs _ _ Ht) || apply (in_self _ _ (nd_inode _ _ _ _ Hnode))). cbn [rassert rbind].
    assert (Hdisk : on_disk (sfs_view v) k d).
    { destruct (mt_disk _ _ Hm k d E) as [?|(m & sin & Es & Ek & _)]; [done|]. by destruct (Hno m sin Es). }
    destruct (load_din (sfs_view v) gd k d buf Ht E Hdisk) as (s' & -> & Hs); [by rewrite (Hlen _ eq_refl)|].
    cbn [rbind negb Z.eqb]. rewrite (din_round d) by (eapply node_wf; [apply Ht|done]).
    destruct (Z.eqb_spec (nlinks d) 0) as [?|_]; [pose proof (nd_links _ _ _ _ Hnode); lia|]. cbn [negb rassert rbind].
    set (v2 := set_view v1 s'). assert (Hm2 : mounted v2 gd) by (by apply mounted_view).
    destruct (create_Ok v2 gd k d Hm2 E Hno) as ([ret n] & v3 & Ec & Hc). change (fs_at (the_sfs v2)) with (fs_at (the_sfs v)) in Ec.
    rewrite Ec. cbn [rbind fst snd] in *. destruct (Z.eqb_spec ret 0) as [->|Hret]; cbn [negb].
    - eexists (0, n), _. split; [done|]. split; [|done]. cbn [fst snd Z.eqb]. destruct Hc as (H1 & H2 & H3 & H4).
      split; [done|]. split; [done|]. split; [|done]. by apply (moves_same_l v v2).
    - eexists (ret, 0), v3. split; [done|]. destruct Hc as (H1 & H2 & Hbad). cbn [fst]. destruct (Z.eqb_spec ret 0); [done|].
      split; [split; [done|by apply (moves_same_l v v2)]|]. intros Hr. exfalso.
      destruct (Hready Hr) as (a1 & m1 & a2 & m2 & r & Ea & G1 & G2 & G3). destruct (Hok _ _ _ Ea G1) as [_ ->].
      destruct (Hbad a2 m2 r eq_refl) as [?|[j Hj]]; [done|]. change (inodes v2) with (inodes v) in Hj. congruence.
  Qed.

  (** ** Looking a name up *)

Lemma lookup_once_Ok v gd n i sin name : mounted v gd -> snode v gd n i sin -> dtype (din sin) = SFS_TYPE_DIR ->
    Forall (fun b => b <> 0) name -> Z.of_nat (length name) <= SFS_MAX_FNAME_LEN ->
    runs (sfs_lookup_once (fs_at (the_sfs v)) n name v) (fun a v' =>
      if a.1 =? 0 then exists k, loaded_node v gd k a.2 v' else mounted v' gd /\ moves v none none v').
  Proof.
    intros Hm Hi Hty Hnm Hln. unfold sfs_lookup_once. rewrite (fsop_info_Ok v gd Hm). cbn [rbind].
    rewrite (vop_sin_Ok v gd n i sin Hi). cbn [rbind]. destruct (Z.leb_spec (Z.of_nat (length name)) SFS_MAX_FNAME_LEN); [|lia]. cbn [rassert rbind].
    destruct (kmalloc_object_Ok (Z.to_nat SIZEOF_ENTRY) v) as (o & l & -> & Hlen & _).
    destruct (search_step (sfs_view v) gd sin name o (mt_tree _ _ Hm) (ca_disk _ _ _ _ (sn_ca _ _ _ _ _ Hi)) Hty Hnm Hln) as (r & s' & Er & Hs & Hr).
    { intros e He. by rewrite (Hlen e He). }
    rewrite Er. cbn [rbind]. set (v1 := put_node n s' sin (set_allocs v l)).
    assert (Hm1 : mounted v1 gd) by (apply mounted_same; [by apply mounted_allocs|apply Hi|done]).
    destruct (Z.eqb_spec (s_ret r) 0) as [H0|H0].
    - destruct (Hr H0) as (k & -> & d & Ek). cbn [rget rbind]. destruct (load_inode_Ok v1 gd k d Hm1 Ek) as ([ret m] & v2 & E & Hl & _).
      change (fs_at (the_sfs v1)) with (fs_at (the_sfs v)) in E. exists (ret, m), v2. split; [done|]. cbn [fst snd] in *.
      destruct (ret =? 0).
      + exists k. destruct Hl as (G1 & G2 & G3 & G4). split; [done|]. split; [done|]. split; [|done]. by apply (moves_same_l v v1).
      + destruct Hl as [G1 G2]. split; [done|]. by apply (moves_same_l v v1).
    - eexists (s_ret r, 0), v1. split; [done|]. cbn [fst]. destruct (Z.eqb_spec (s_ret r) 0); [done|]. split; [done|]. by apply same_vfs_moves.
  Qed.

  (** Giving back one reference of several. *)
Lemma ref_dec_node v n i : n <> 0 -> inodes v !! n = Some i -> 1 < ref_count i ->
    vop_ref_dec n v = Ok (ref_count i - 1, put_inode n (set_ref i (ref_count i - 1)) v).
  Proof.
    intros Hn Ei Hr. unfold vop_ref_dec, inode_ref_dec. rewrite (get_inode_Ok v n i Hn Ei). cbn [rbind].
    destruct (Z.ltb_spec 0 (ref_count i)); [|lia]. cbn [rassert rbind]. by destruct (Z.eqb_spec (ref_count i - 1) 0); [lia|].
  Qed.

Lemma drop_ref v gd n r w v1 v2 : mounted v gd -> alive v n -> moves v (one n) none v1 -> moves v1 r w v2 -> (forall m, 0 <= r m) -> mounted v2 gd ->
    exists v3, vop_ref_dec n v2 = Ok (refc v2 n - 1, v3) /\ mounted v3 gd /\ moves v r w v3.
  Proof.
    intros Hm Ha M1 M2 Hr Hm2. assert (Hc : 1 < refc v2 n).
    { rewrite (mv_ref _ _ _ _ M2), (mv_ref _ _ _ _ M1), one_eq. specialize (Hr n). unfold alive in Ha. lia. }
    destruct (alive_get v2 n) as (i & Ei & Er & _); [unfold alive; lia|].
    assert (Hn : n <> 0) by (intros ->; by rewrite (mt_null _ _ Hm2) in Ei).
    rewrite (ref_dec_node v2 n i Hn Ei) by lia. rewrite Er. eexists. split; [done|]. split; [by apply (mounted_inode v2 gd n i)|].
    assert (M3 : moves v2 (fun m => - one n m) none (put_inode n (set_ref i (refc v2 n - 1)) v2)).
    { eapply moves_ext; [by apply (put_moves v2 n i)|..]; intros m; unfold one, none; cbn; destruct (m =? n); lia. }
    eapply moves_ext; [eapply moves_down; [eapply moves_up; [exact M1|exact M2|]|exact M3|]|..]; cbn; intros m; unfold none; pose proof (one_range n m); lia.
  Qed.

  (** ** Leaving memory *)

  (** [v'] is [v] without the inode [n], which is on its block. *)
Lemma mounted_drop v gd n sin s' v' : mounted v gd -> sinfo (the_sfs v) !! n = Some sin ->
    tree s' gd -> (forall b, b <> ino sin -> blk s' b = blk (sfs_view v) b) -> on_disk s' (ino sin) (din sin) ->
    inodes v' = delete n (inodes v) -> bootfs_node v' = bootfs_node v -> vdev_list v' = vdev_list v ->
    sfs_view v' = s' -> fs_at (the_sfs v') = fs_at (the_sfs v) -> sinfo (the_sfs v') = delete n (sinfo (the_sfs v)) ->
    inode_list (the_sfs v') = filter (fun m => m <> n) (inode_list (the_sfs v)) ->
    hash_list (the_sfs v') = <[sin_hashfn (ino sin) := filter (fun m => m <> n) (default [] (hash_list (the_sfs v) !! sin_hashfn (ino sin)))]> (hash_list (the_sfs v)) ->
    dev_info (devs_of v') = dev_info (devs_of v) -> stdin_ok (devs_of v') -> mounted v' gd.
  Proof.
    intros Hm E Ht Hb Hd Ein Eb Ev Es' Ea Esi El Eh Edi Hsi. destruct (mt_sin _ _ Hm n sin E) as (Hc & i & Hi & Hsn).
    assert (Hsome : forall m b, delete n (sinfo (the_sfs v)) !! m = Some b <-> m <> n /\ sinfo (the_sfs v) !! m = Some b).
    { intros m b. rewrite lookup_delete_Some. split; (intros [? ?]; split; [congruence|done]). }
    assert (Hhash : forall h m, m ∈ default [] (hash_list (the_sfs v') !! h) <-> m ∈ default [] (hash_list (the_sfs v) !! h) /\ (h = sin_hashfn (ino sin) -> m <> n)).
    { intros h m. rewrite Eh. destruct (decide (h = sin_hashfn (ino sin))) as [->|Hne].
      - rewrite lookup_insert_eq. cbn [from_option id]. rewrite list_elem_of_filter. split; [intros [? ?]; by split|intros [? Hmn]; split; [by apply Hmn|done]].
      - rewrite lookup_insert_ne by done. split; [intros ?; by split|by intros [? _]]. }
    assert (Hdev : forall m j, dev_node v m j -> dev_node v' m j) by (intros m j Hj; by apply (dev_node_ext v)).
    split; rewrite ?Ea, ?Esi, ?Es', ?Ev, ?Ein; try done.
    - apply Hm.
    - rewrite lookup_delete_ne; [apply Hm|]. intros ->. by rewrite (mt_null _ _ Hm) in Hi.
    - intros m j [Hne Ej]%lookup_delete_Some. destruct (mt_node _ _ Hm m j Ej) as [?|(b & Eb' & Hb')]; [left; auto|right].
      exists b. split; [|done]. by apply Hsome.
    - intros m b [Hne Em]%Hsome. destruct (mt_sin _ _ Hm m b Em) as ([G1 G2 G3] & j & Ej & G4). split.
      + split; [done|done|]. by apply Hhash.
      + exists j. by rewrite lookup_delete_ne.
    - intros m m' a b [Hne Em]%Hsome [Hne' Em']%Hsome. by apply (mt_one _ _ Hm).
    - intros h m [Hh Hne]%Hhash. destruct (mt_hash _ _ Hm h m Hh) as (b & Eb' & Hb'). exists b. split; [|done]. apply Hsome. split; [|done].
      intros ->. apply Hne; [|done]. congruence.
    - intros m. rewrite El, list_elem_of_filter, (mt_list _ _ Hm). unfold is_Some. setoid_rewrite Hsome.
      split; [intros [? [x ?]]; by exists x|intros [x [? ?]]; eauto].
    - intros k d Ek. destruct (decide (k = ino sin)) as [->|Hne].
      + left. rewrite (ca_disk _ _ _ _ Hc) in Ek. by injection Ek as <-.
      + destruct (mt_disk _ _ Hm k d Ek) as [?|(m & b & Em & Eb' & Hdb)]; [left; eapply on_disk_blk; [|done]; by apply Hb|right].
        exists m, b. split; [|done]. apply Hsome. split; [|done]. intros ->. congruence.
    - intros e He. destruct (mt_vdev _ _ Hm e He) as (G & j & Ej & Hj). split; [done|]. exists j. split; [|by apply Hdev].
      rewrite lookup_delete_ne; [done|]. intros Heq. destruct Hj as [Hj _ _ _ _], Hsn as [Hs _ _]. rewrite <- Heq, Hi in Ej. injection Ej as <-. by rewrite Hs in Hj.
  Qed.

Lemma put_node_twice n s1 a s2 b v : put_node n s2 b (put_node n s1 a v) = put_node n s2 b v.
  Proof. unfold put_node, put_sin, set_sfs, set_view, set_fsd, set_sinfo. cbn. by rewrite insert_insert_eq. Qed.

  (** The table of an inode of the file system, for any choice of functions. *)
Lemma sfs_ops_cases v gd n i sin : mounted v gd -> snode v gd n i sin ->
    (dtype (din sin) = SFS_TYPE_DIR /\ in_ops i = sfs_node_dirops) \/ (dtype (din sin) = SFS_TYPE_FILE /\ in_ops i = sfs_node_fileops).
  Proof.
    intros Hm [_ _ [_ _ Ho] [Hd _ _] _]. rewrite Ho.
    destruct (nd_kind _ _ _ _ (tr_node _ _ (mt_tree _ _ Hm) _ _ Hd)) as [[-> _]|[-> _]]; [by right|by left].
  Qed.

Lemma fsync_table i sin v gd n : mounted v gd -> snode v gd n i sin -> in_ops i <> 0 /\ i_fsync (InodeOps := ops_A) (in_ops i) = Some (sfs_fsync_node (D := D)).
  Proof. intros Hm Hi. by destruct (sfs_ops_cases v gd n i sin Hm Hi) as [[_ ->]|[_ ->]]. Qed.

Lemma reclaim_Ok v gd n i sin : mounted v gd -> snode v gd n i sin -> ref_count i = 0 -> open_count i = 0 ->
    runs (sfs_reclaim_node n v) (fun _ v' => mounted v' gd /\ moves v none none v').
  Proof.
    intros Hm Hi Hr0 Ho0. pose proof Hi as [Ei Es Hsn [Hd Hrc Hh] Hn]. pose proof (mt_at _ _ Hm) as Hat. pose proof (mt_tree _ _ Hm) as Ht.
    pose proof (nd_links _ _ _ _ (tr_node _ _ Ht _ _ Hd)) as Hnl.
    unfold sfs_reclaim_node. rewrite (node_sfs_Ok v gd n i sin Hm Hi). cbn [rbind]. destruct (Z.ltb_spec 0 (reclaim_count sin)); [|lia].
    cbn [rassert rbind]. set (sin0 := set_reclaim sin (reclaim_count sin - 1)). set (v1 := put_sin n sin0 v).
    rewrite (get_inode_Ok v1 n i Hn Ei). cbn [rbind]. rewrite Hr0. cbn [Z.eqb negb orb].
    destruct (Z.eqb_spec (reclaim_count sin - 1) 0) as [Hz|Hz]; cbn [negb orb].
    2: { eexists _, v1. split; [done|]. split; [apply (mounted_count v gd n sin); (done || lia)|by apply same_vfs_moves]. }
    destruct (Z.eqb_spec (nlinks (din sin)) 0); [lia|]. cbn [rbind Z.eqb negb].
    assert (Es1 : sinfo (the_sfs v1) !! n = Some sin0) by (cbn; apply lookup_insert_eq).
    rewrite (vop_sin_at v1 n i sin0) by (done || apply Hsn). cbn [rbind].
    destruct (fsync_spec (sfs_view v) gd sin0 Ht Hd) as (s' & Ef & Ht' & Hb & Hfree & _ & Hod).
    set (sin2 := set_dirty sin0 false). set (v2 := put_node n s' sin2 v).
    assert (Es2 : (if dirty sin0 then vop_fsync (InodeOps0 := ops_A) n v1 else Ok (0, v1)) = Ok (0, v2)).
    { destruct (dirty sin0) eqn:Edy.
      - destruct (fsync_table i sin v gd n Hm Hi) as [Hops Hf]. unfold vop_fsync.
        rewrite (vop_get _ v1 n i _ Hn Ei Hops Hf) by (rewrite ?Hr0, ?Ho0; unfold MAX_INODE_COUNT; lia). cbn [rbind].
        unfold sfs_fsync_node. rewrite (node_sfs_at v1 n i sin0 sin) by done. cbn [rbind].
        assert (Ev1 : sfs_view v1 = sfs_view v) by (unfold v1; by rewrite put_sin_node, view_put). rewrite Ev1, Ef. cbn [rbind].
        unfold v1. by rewrite put_sin_node, put_node_twice.
      - assert (s' = sfs_view v) as -> by (unfold sfs_fsync in Ef; rewrite Edy in Ef; by injection Ef).
        unfold v1, v2. rewrite put_sin_node. do 3 f_equal. by destruct sin as [? ? [] ?]. }
    rewrite Es2. cbn [rbind Z.eqb negb].
    assert (Es3 : sinfo (the_sfs v2) !! n = Some sin2) by (cbn; apply lookup_insert_eq).
    rewrite (node_sfs_at v2 n i sin2 sin) by done. cbn [rbind].
    assert (Ev2 : sfs_view v2 = s') by apply view_put. rewrite Ev2. change (nlinks (din sin2)) with (nlinks (din sin)).
    destruct (Z.eqb_spec (nlinks (din sin)) 0); [lia|]. cbn [rbind]. unfold inode_kill.
    set (v4 := set_view (sfs_remove_links n (ino sin2) v2) s').
    rewrite (get_inode_Ok v4 n i Hn Ei). cbn [rbind]. rewrite Hr0, Ho0. cbn [Z.eqb rassert rbind]. eexists _, _. split; [done|]. split.
    - eapply (mounted_drop v gd n sin s'); try done.
      + apply Hod. destruct (clean_or_dirty v gd n sin Hm Es) as [?|?]; [by left|by right].
      + cbn. by rewrite delete_insert_eq.
      + by destruct (mt_stdin _ _ Hm).
    - split; try done; intros m; unfold refc, openc, opsof, fsof, alive, refc, none; cbn [inodes set_sfs set_fsd set_inodes v4 set_view sfs_remove_links put_node put_sin v2];
        (destruct (decide (m = n)) as [->|]; [rewrite lookup_delete_eq, ?Ei, ?Hr0, ?Ho0; lia|rewrite lookup_delete_ne by done; (lia || done)]).
  Qed.
End SfsInv.
