(* ===== verification/SfsLaws.v ===== *)
(** * The running kernel's implementation of the interface

    Devices and the mounted file system together satisfy [InodeLaws], so what
    [FileSafe] shows of the layers above holds for them. *)
From S2P Require Import Prelude Arith CString Bitmap IoBuf BlockDev Sfs SfsDisk SfsBmap SfsLoad SfsFile SfsSpec SfsTree Vfs VfsInv Dev DevSpec SfsOps SfsInv.

Section SfsLaws.
  Context {D : Type} `{!BlockDev D, !BlockRead D, !BlockWrite D}.
  Implicit Types (v : vfs (kfs D)) (n : Z) (gd : gmap Z sfs_disk_inode) (sin : sfs_inode).

  (** The invariant holds again and no count has moved. *)
Definition kept_by {A} v (a : A) v' : Prop := sfs_inv v' /\ moves v none none v'.

Lemma kept_here {A} v gd (a : A) : mounted v gd -> runs (Ok (a, v)) (kept_by v).
  Proof. intros Hm. exists a, v. split; [done|]. split; [by exists gd|]. apply moves_refl. Qed.

Lemma runs_weaken {A} (m : res (A * vfs (kfs D))) (P Q : A -> vfs (kfs D) -> Prop) : runs m P -> (forall a v, P a v -> Q a v) -> runs m Q.
  Proof. intros (a & v & E & H) HPQ. exists a, v. split; [done|]. by apply HPQ. Qed.

Lemma put_kept {A} v gd gd' n s sin (a : A) : mounted (put_node n s sin v) gd' -> runs (Ok (a, put_node n s sin v)) (kept_by v).
  Proof. intros Hm. eexists a, _. split; [done|]. split; [by exists gd'|]. by apply same_vfs_moves. Qed.

  (** ** The functions of the two tables *)

Section Node.
  Context v gd n i sin (Hm : mounted v gd) (Hi : snode v gd n i sin).

Let Hdisk : gd !! ino sin = Some (din sin) := ca_disk _ _ _ _ (sn_ca _ _ _ _ _ Hi).

Lemma fsync_node_Ok : runs (sfs_fsync_node n v) (kept_by v).
  Proof.
    unfold sfs_fsync_node. rewrite (node_sfs_Ok v gd n i sin Hm Hi). cbn [rbind].
    destruct (fsync_spec (sfs_view v) gd sin (mt_tree _ _ Hm) Hdisk) as (s' & -> & Ht & Hb & _ & _ & Hod). cbn [rbind].
    eapply (put_kept v gd gd), (mounted_put v gd n sin); try done.
    - apply Hi.
    - by rewrite insert_id.
    - apply (ca_count _ _ _ _ (sn_ca _ _ _ _ _ Hi)).
    - intros k d _ Hne. by apply Hb.
    - right. apply Hod. apply (clean_or_dirty v gd n sin); [done|apply Hi].
  Qed.

Lemma close_node_Ok : counted v n -> runs (sfs_close_node n v) (kept_by v).
  Proof.
    intros [Hc Hmax]. unfold sfs_close_node, vop_fsync. destruct (fsync_table i sin v gd n Hm Hi) as [Hops Hf].
    unfold refc, openc in *. rewrite (sn_in _ _ _ _ _ Hi) in *.
    rewrite (vop_get _ v n i _ (sn_ne _ _ _ _ _ Hi) (sn_in _ _ _ _ _ Hi) Hops Hf) by lia. apply fsync_node_Ok.
  Qed.

Lemma gettype_node_Ok : sfs_gettype_node n v = Ok (0, if dtype (din sin) =? SFS_TYPE_DIR then S_IFDIR else S_IFREG, v).
  Proof.
    unfold sfs_gettype_node. rewrite (vop_sin_Ok v gd n i sin Hi). cbn [rbind]. unfold sfs_gettype.
    by destruct (sfs_ops_cases v gd n i sin Hm Hi) as [[-> _]|[-> _]].
  Qed.

Lemma fstat_node_Ok : counted v n -> exists a, sfs_fstat_node n v = Ok (a, v).
  Proof.
    intros [Hc Hmax]. unfold sfs_fstat_node, vop_gettype. unfold refc, openc in *. rewrite (sn_in _ _ _ _ _ Hi) in *.
    assert (Hf : in_ops i <> 0 /\ i_gettype (InodeOps := ops_A) (in_ops i) = Some (sfs_gettype_node (D := D))).
    { by destruct (sfs_ops_cases v gd n i sin Hm Hi) as [[_ ->]|[_ ->]]. }
    destruct Hf as [Hops Hf].
    rewrite (vop_get _ v n i _ (sn_ne _ _ _ _ _ Hi) (sn_in _ _ _ _ _ Hi) Hops Hf) by lia. cbn [rbind].
    rewrite gettype_node_Ok. cbn [rbind negb Z.eqb]. rewrite (vop_sin_Ok v gd n i sin Hi). cbn [rbind]. by eexists.
  Qed.

Lemma getdirentry_node_Ok iob : dtype (din sin) = SFS_TYPE_DIR -> iob_ok iob ->
    runs (sfs_getdirentry_node n iob v) (fun a v' => iob_next iob a.2 /\ kept_by v a v').
  Proof.
    intros Hty Hio. unfold sfs_getdirentry_node. destruct (kmalloc_object_Ok (Z.to_nat SIZEOF_ENTRY) v) as (o & l & -> & Hlen & _).
    set (v1 := set_allocs v l). assert (Hm1 : mounted v1 gd) by (by apply mounted_allocs).
    destruct o as [e|].
    2: { eexists _, v1. split; [done|]. split; [apply iob_next_refl, Hio|]. split; [by exists gd|]. by apply same_vfs_moves. }
    assert (Hi1 : snode v1 gd n i sin) by (by destruct Hi; split).
    rewrite (node_sfs_Ok v1 gd n i sin Hm1 Hi1). cbn [rbind]. change (sfs_view v1) with (sfs_view v).
    destruct (getdirentry_step (sfs_view v) gd sin iob e (mt_tree _ _ Hm) Hdisk Hty Hio) as (ret & iob' & s' & -> & Hs & Hn); [by rewrite (Hlen e)|].
    cbn [rbind]. eexists _, _. split; [done|]. split; [done|].
    split; [exists gd; apply (mounted_same v1 gd n sin); [done|apply Hi|done]|]. by apply same_vfs_moves.
  Qed.

  (** A step of the file. *)
Lemma step_mounted s' sin' : file_step (sfs_view v) gd sin s' sin' -> mounted (put_node n s' sin' v) (<[ino sin := din sin']> gd).
  Proof.
    intros [Ht (Ei & Ety & _ & Er) Hb Hd]. apply (mounted_put v gd n sin); try done.
    - apply Hi.
    - rewrite Er. apply (ca_count _ _ _ _ (sn_ca _ _ _ _ _ Hi)).
    - intros k d Ek _. by eapply Hb.
    - destruct Hd as [?| ->]; [by left|]. destruct (clean_or_dirty v gd n sin Hm) as [?|?]; [apply Hi|by left|right].
      eapply on_disk_blk; [|done]. by eapply Hb.
  Qed.

Lemma step_kept {A} s' sin' (a : A) : file_step (sfs_view v) gd sin s' sin' -> runs (Ok (a, put_node n s' sin' v)) (kept_by v).
  Proof. intros Hst. by eapply (put_kept v gd), step_mounted. Qed.

Lemma read_node_Ok iob : dtype (din sin) = SFS_TYPE_FILE -> iob_ok iob -> io_resid iob <= 4096 ->
    runs (sfs_read_node n iob v) (fun a v' => iob_next iob a.2 /\ kept_by v a v').
  Proof.
    intros Hty Hio Hlen. unfold sfs_read_node, sfs_io_node. rewrite (node_sfs_Ok v gd n i sin Hm Hi). cbn [rbind].
    destruct (read_step (sfs_view v) gd sin iob (mt_tree _ _ Hm) Hdisk Hty Hio Hlen) as (ret & iob' & s' & E & Hs & Hn).
    unfold sfs_read in E. rewrite E. cbn [rbind]. eexists _, _. split; [done|]. split; [done|].
    split; [exists gd; apply (mounted_same v gd n sin); [done|apply Hi|done]|]. by apply same_vfs_moves.
  Qed.

Lemma write_node_Ok iob : dtype (din sin) = SFS_TYPE_FILE -> iob_ok iob -> Forall is_byte (io_data iob) -> io_resid iob <= 4096 ->
    0 <= io_offset iob <= dsize (din sin) -> fits (sfs_view v) sin (io_offset iob + io_resid iob) ->
    runs (sfs_write_node n iob v) (fun a v' => (iob_next iob a.2 /\ io_data a.2 = io_data iob) /\ kept_by v a v').
  Proof.
    intros Hty Hio Hby Hlen Ho Hroom. unfold sfs_write_node, sfs_io_node. rewrite (node_sfs_Ok v gd n i sin Hm Hi). cbn [rbind].
    destruct (write_step (sfs_view v) gd sin iob (mt_tree _ _ Hm) Hdisk Hty Hio Hby Hlen Ho Hroom) as (ret & iob' & s' & sin' & E & Hst & Hn & Ed).
    unfold sfs_write in E. rewrite E. cbn [rbind]. destruct (step_kept s' sin' (ret, iob') Hst) as (a & v' & [= <- <-] & Hk). by eexists _, _.
  Qed.

Lemma truncfile_node_Ok len : dtype (din sin) = SFS_TYPE_FILE -> 0 <= len -> fits (sfs_view v) sin len ->
    runs (sfs_truncfile_node n len v) (kept_by v).
  Proof.
    intros Hty Hlen Hroom. unfold sfs_truncfile_node. rewrite (node_sfs_Ok v gd n i sin Hm Hi). cbn [rbind].
    destruct (trunc_step (sfs_view v) gd sin len (mt_tree _ _ Hm) Hdisk Hty Hlen Hroom) as (s' & sin' & -> & Hst). cbn [rbind].
    by apply step_kept.
  Qed.

Lemma tryseek_node_Ok pos : dtype (din sin) = SFS_TYPE_FILE -> counted v n -> (dsize (din sin) < pos < SFS_MAX_FILE_SIZE -> fits (sfs_view v) sin pos) ->
    runs (sfs_tryseek_node n pos v) (kept_by v).
  Proof.
    intros Hty [Hc Hmax] Hroom. unfold sfs_tryseek_node. destruct (Z.ltb_spec pos 0), (Z.leb_spec SFS_MAX_FILE_SIZE pos); cbn [orb]; try by apply (kept_here v gd).
    rewrite (vop_sin_Ok v gd n i sin Hi). cbn [rbind]. destruct (Z.ltb_spec (dsize (din sin)) pos); [|by apply (kept_here v gd)].
    unfold vop_truncate. unfold refc, openc in *. rewrite (sn_in _ _ _ _ _ Hi) in *.
    destruct (sfs_ops_cases v gd n i sin Hm Hi) as [[Hd _]|[_ Hops]]; [by rewrite Hty in Hd|].
    rewrite (vop_get _ v n i (sfs_truncfile_node (D := D)) (sn_ne _ _ _ _ _ Hi) (sn_in _ _ _ _ _ Hi)) by (rewrite ?Hops; (done || lia)).
    apply truncfile_node_Ok; [done|lia|]. by apply Hroom.
  Qed.

  (** A name, as the path lookup hands it to a directory. *)
Definition name_fits (path : list Z) : Prop :=
    path <> [] /\ head path <> Some 47 /\ Forall (fun b => b <> 0) path /\ Z.of_nat (length path) <= SFS_MAX_FNAME_LEN.

Lemma lookup_node_Ok path : alive v n -> dtype (din sin) = SFS_TYPE_DIR -> name_fits path ->
    runs (sfs_lookup_node n path v) (fun a v' => sfs_inv v' /\
      if a.1 =? 0 then a.2 <> 0 /\ moves v (one a.2) none v' else moves v none none v').
  Proof.
    intros Ha Hty (Hne & Hhd & Hnz & Hln). pose proof (sn_in _ _ _ _ _ Hi) as Ei. pose proof (sn_ne _ _ _ _ _ Hi) as Hn.
    unfold sfs_lookup_node, vop_fs. rewrite (get_inode_Ok v n i Hn Ei). cbn [rbind].
    rewrite (sn_fs _ _ _ (sn_node _ _ _ _ _ Hi)), (fsop_info_Ok v gd Hm). cbn [rbind]. rewrite !bool_decide_false by done. cbn [negb andb rassert rbind].
    rewrite (ref_inc_node v n i Hn Ei). cbn [rbind]. set (v1 := put_inode _ _ v).
    assert (Hm1 : mounted v1 gd) by (by apply (mounted_inode v gd n i)).
    destruct (mounted_snode v1 gd n sin Hm1 (sn_sin _ _ _ _ _ Hi)) as (i1 & Hi1). rewrite (vop_sin_Ok v1 gd n i1 sin Hi1). cbn [rbind].
    rewrite Hty. cbn [Z.eqb Pos.eqb negb]. assert (M1 : moves v (one n) none v1) by (by apply ref_moves).
    destruct (lookup_once_Ok v1 gd n i1 sin path Hm1 Hi1 Hty Hnz Hln) as ([ret m] & v2 & E & Hr).
    change (fs_at (the_sfs v1)) with (fs_at (the_sfs v)) in E. rewrite E. cbn [rbind fst snd] in *.
    assert (Hr2 : mounted v2 gd /\ moves v1 (if ret =? 0 then one m else none) none v2 /\ (ret = 0 -> m <> 0)).
    { destruct (Z.eqb_spec ret 0); [destruct Hr as (k & G1 & G2 & G3 & _)|destruct Hr as [G1 G2]]; by split_and!. }
    destruct Hr2 as (Hm2 & M2 & Hm0).
    destruct (drop_ref v gd n (if ret =? 0 then one m else none) none v1 v2 Hm Ha M1 M2) as (v3 & E3 & Hm3 & M3); [|done|].
    { intros j. destruct (ret =? 0); [pose proof (one_range m j); lia|done]. }
    rewrite E3. cbn [rbind]. destruct (Z.eqb_spec ret 0) as [->|Hz]; cbn [negb].
    - exists (0, m), v3. split; [done|]. split; [by exists gd|]. cbn. by split; [apply Hm0|].
    - exists (ret, 0), v3. split; [done|]. split; [by exists gd|]. cbn [fst]. by destruct (Z.eqb_spec ret 0).
  Qed.
End Node.

Lemma sfs_root_Ok v gd : mounted v gd -> ready v SFS_BLKN_ROOT ->
    runs (sfs_get_root (fs_at (the_sfs v)) v) (fun r v' => sfs_inv v' /\ r <> 0 /\ moves v (one r) none v' /\ opsof v' r = sfs_node_dirops).
  Proof.
    intros Hm Hr. unfold sfs_get_root. rewrite (fsop_info_Ok v gd Hm). cbn [rbind].
    destruct (tr_root _ _ (mt_tree _ _ Hm)) as (d & Ed & Hty).
    destruct (load_inode_Ok v gd SFS_BLKN_ROOT d Hm Ed) as ([ret m] & v' & -> & Hl & Hok). cbn [fst snd] in *. specialize (Hok Hr) as ->.
    cbn [rbind negb Z.eqb]. exists m, v'. split; [done|]. cbn [Z.eqb] in Hl. destruct Hl as (Hm' & Hne & Hmv & i & sin & Hi & Hk).
    split; [by exists gd|]. split; [done|]. split; [done|]. unfold opsof. rewrite (sn_in _ _ _ _ _ Hi), (sn_ops _ _ _ (sn_node _ _ _ _ _ Hi)).
    pose proof (ca_disk _ _ _ _ (sn_ca _ _ _ _ _ Hi)) as Hd. rewrite Hk, Ed in Hd. injection Hd as <-. by rewrite Hty.
  Qed.
End SfsLaws.

(** ** The laws *)

Section Can.
  Context {D : Type} `{!BlockDev D, !BlockRead D, !BlockWrite D}.
  Implicit Types (v : vfs (kfs D)) (n : Z).

  (** A transfer of the file system is at most one block, as the system calls
      make it; a write starts in the file, and there is room for what it
      adds. *)
Definition k_can_read v n (iob : iobuf) : Prop :=
    match sinfo (the_sfs v) !! n with Some _ => iob_ok iob /\ io_resid iob <= 4096 | None => dev_can v n iob end.
Definition k_can_write v n (iob : iobuf) : Prop :=
    match sinfo (the_sfs v) !! n with
    | Some sin => iob_ok iob /\ Forall is_byte (io_data iob) /\ io_resid iob <= 4096 /\ 0 <= io_offset iob <= dsize (din sin) /\
        fits (sfs_view v) sin (io_offset iob + io_resid iob)
    | None => dev_can v n iob
    end.
Definition k_can_seek v n (pos : Z) : Prop :=
    forall sin, sinfo (the_sfs v) !! n = Some sin -> dsize (din sin) < pos < SFS_MAX_FILE_SIZE -> fits (sfs_view v) sin pos.

Lemma served_kept {A} v gd m (P : A -> Prop) : mounted v gd -> served v m P -> runs m (fun a v' => P a /\ kept_by v a v').
  Proof.
    intros Hm (a & d & -> & Hn & Hp). exists a, (set_devs v d). split; [done|]. split; [done|].
    destruct (mounted_devs v gd d Hm Hn) as [? ?]. split; [by exists gd|done].
  Qed.

Lemma dev_no_sin v gd n i : mounted v gd -> inodes v !! n = Some i -> dev_node v n i -> sinfo (the_sfs v) !! n = None.
  Proof.
    intros Hm Ei Hd. destruct (sinfo (the_sfs v) !! n) as [sin|] eqn:E; [|done]. exfalso.
    destruct (mt_sin _ _ Hm n sin E) as (_ & j & Ej & [Ht _ _]). assert (j = i) as -> by congruence. by rewrite (dn_type _ _ _ Hd) in Ht.
  Qed.
End Can.

(** The kind of a live inode, with the function that its table has. *)
Ltac read_table E :=
  cbv [kfs_ops i_open i_close i_read i_write i_fstat i_fsync i_getdirentry i_reclaim i_gettype i_tryseek i_truncate i_lookup
    table dev_node_ops sfs_node_dirops sfs_node_fileops Z.eqb Pos.eqb] in E; try discriminate E; injection E as <-.
Ltac node_cases Hv Ha E :=
  let Hm := fresh "Hm" in
  destruct Hv as (gd & Hm);
  match type of Ha with alive ?v ?n =>
    destruct (mounted_alive v gd n Hm Ha) as (i & Ei & Hn & Eo & Ef & [Hd|(sin & Hi)]);
    [rewrite Eo, (dn_ops _ _ _ Hd) in E; pose proof (mt_stdin _ _ Hm) as Hsi; read_table E
    |destruct (sfs_ops_cases v gd n i sin Hm Hi) as [[Hty Hops]|[Hty Hops]]; rewrite Eo, Hops in E; read_table E]
  end.

Section KfsLaws.
  Context {D : Type} `{!BlockDev D, !BlockRead D, !BlockWrite D}.
  Implicit Types (v : vfs (kfs D)) (n : Z).

Lemma k_open v n f fl : sfs_inv v -> alive v n -> i_open (opsof v n) = Some f -> runs (f n fl v) (kept_by v).
  Proof.
    intros Hv Ha E. node_cases Hv Ha E; [|by apply (kept_here v gd)..].
    eapply runs_weaken; [by eapply served_kept, dev_open_Ok|]. by intros a v' [_ ?].
  Qed.

Lemma k_close v n f : sfs_inv v -> alive v n -> counted v n -> i_close (opsof v n) = Some f -> runs (f n v) (kept_by v).
  Proof.
    intros Hv Ha Hc E. node_cases Hv Ha E; [|by eapply close_node_Ok..].
    eapply runs_weaken; [by eapply served_kept, dev_close_Ok|]. by intros a v' [_ ?].
  Qed.

Lemma k_read v n f iob : sfs_inv v -> alive v n -> i_read (opsof v n) = Some f -> k_can_read v n iob ->
    runs (f n iob v) (fun a v' => iob_next iob a.2 /\ kept_by v a v').
  Proof.
    intros Hv Ha E Hc. unfold k_can_read in Hc. node_cases Hv Ha E.
    - rewrite (dev_no_sin v gd n i Hm Ei Hd) in Hc. eapply runs_weaken; [by eapply served_kept, dev_rw_Ok|]. by intros a v' [[? _] ?].
    - rewrite (sn_sin _ _ _ _ _ Hi) in Hc. destruct Hc. by eapply read_node_Ok.
  Qed.

Lemma k_write v n f iob : sfs_inv v -> alive v n -> i_write (opsof v n) = Some f -> k_can_write v n iob ->
    runs (f n iob v) (fun a v' => (iob_next iob a.2 /\ io_data a.2 = io_data iob) /\ kept_by v a v').
  Proof.
    intros Hv Ha E Hc. unfold k_can_write in Hc. node_cases Hv Ha E.
    - rewrite (dev_no_sin v gd n i Hm Ei Hd) in Hc. eapply runs_weaken; [by eapply served_kept, dev_rw_Ok|].
      intros a v' [[H1 H2] ?]. split; [|done]. split; [done|by apply H2].
    - rewrite (sn_sin _ _ _ _ _ Hi) in Hc. destruct Hc as (? & ? & ? & ? & ?). by eapply write_node_Ok.
  Qed.

Lemma k_getdirentry v n f iob : sfs_inv v -> alive v n -> i_getdirentry (opsof v n) = Some f -> iob_ok iob ->
    runs (f n iob v) (fun a v' => iob_next iob a.2 /\ kept_by v a v').
  Proof. intros Hv Ha E Hc. node_cases Hv Ha E. by eapply getdirentry_node_Ok. Qed.

Lemma k_fstat v n f : sfs_inv v -> alive v n -> counted v n -> i_fstat (opsof v n) = Some f ->
    runs (f n v) (fun a v' => sfs_inv v' /\ moves v none none v' /\ forall m pos, k_can_seek v m pos -> k_can_seek v' m pos).
  Proof.
    intros Hv Ha Hc E. pose proof Hv as Hv0. node_cases Hv Ha E.
    - destruct (dev_fstat_Ok v n i Hn Ei Hd Hsi) as (a & d & Ed & Hx & _). exists a, (set_devs v d). split; [done|].
      destruct (mounted_devs v gd d Hm Hx) as [? ?]. split; [by exists gd|]. split; [done|]. intros m pos Hs sin Es.
      assert (Ev : sfs_view (set_devs v d) = sfs_view v) by (unfold sfs_view, the_sfs; cbn; by rewrite (dx_disk _ _ Hx)).
      rewrite Ev. by apply Hs.
    - destruct (fstat_node_Ok v gd n i sin Hm Hi Hc) as (a & ->). exists a, v. split; [done|]. split; [done|]. split; [apply moves_refl|done].
    - destruct (fstat_node_Ok v gd n i sin Hm Hi Hc) as (a & ->). exists a, v. split; [done|]. split; [done|]. split; [apply moves_refl|done].
  Qed.

Lemma k_fsync v n f : sfs_inv v -> alive v n -> i_fsync (opsof v n) = Some f -> runs (f n v) (kept_by v).
  Proof. intros Hv Ha E. node_cases Hv Ha E; by eapply fsync_node_Ok. Qed.

Lemma k_gettype v n f : sfs_inv v -> alive v n -> i_gettype (opsof v n) = Some f ->
    runs (f n v) (fun a v' => sfs_inv v' /\ moves v none none v' /\ (a.1 = 0 -> S_ISDIR a.2 = true -> dirlike v n /\ fsof v n <> 0)).
  Proof.
    intros Hv Ha E. pose proof Hv as Hv0. node_cases Hv Ha E.
    - eapply runs_weaken; [by eapply served_kept, dev_gettype_Ok|]. intros a v' (H0 & H1 & H2). split; [done|]. split; [done|]. by rewrite H0.
    - rewrite (gettype_node_Ok v gd n i sin Hm Hi). eexists (0, _), v. split; [done|]. split; [done|]. split; [apply moves_refl|]. intros _ _.
      unfold dirlike. rewrite Eo, Hops, Ef, (sn_fs _ _ _ (sn_node _ _ _ _ _ Hi)). split; [by eexists|apply Hm].
    - rewrite (gettype_node_Ok v gd n i sin Hm Hi), Hty. eexists (0, _), v. split; [done|]. split; [done|]. split; [apply moves_refl|]. done.
  Qed.

Lemma k_tryseek v n f pos : sfs_inv v -> alive v n -> counted v n -> i_tryseek (opsof v n) = Some f -> k_can_seek v n pos ->
    runs (f n pos v) (kept_by v).
  Proof.
    intros Hv Ha Hc E Hs. node_cases Hv Ha E.
    - eapply runs_weaken; [by eapply served_kept, dev_tryseek_Ok|]. by intros a v' [_ ?].
    - eapply tryseek_node_Ok; [done..|]. apply Hs, Hi.
  Qed.

Lemma k_truncate v n f : sfs_inv v -> alive v n -> i_truncate (opsof v n) = Some f -> runs (f n 0 v) (kept_by v).
  Proof.
    intros Hv Ha E. node_cases Hv Ha E. eapply truncfile_node_Ok; [done..|]. split; [unfold NBLOCKS; lia|].
    intros H. pose proof (in_blocks _ _ (nd_inode _ _ _ _ (tr_node _ _ (mt_tree _ _ Hm) _ _ (ca_disk _ _ _ _ (sn_ca _ _ _ _ _ Hi))))) as [H0 _].
    cbn in H0. lia.
  Qed.

Lemma k_lookup v n f path : sfs_inv v -> alive v n -> i_lookup (opsof v n) = Some f -> name_fits path ->
    runs (f n path v) (fun a v' => sfs_inv v' /\ if a.1 =? 0 then a.2 <> 0 /\ moves v (one a.2) none v' else moves v none none v').
  Proof.
    intros Hv Ha E Hp. pose proof Hv as Hv0. node_cases Hv Ha E; [|by eapply lookup_node_Ok].
    rewrite (dev_lookup_Ok v n i) by done. rewrite bool_decide_false by apply Hp.
    exists (- E_NOENT, 0), v. split; [done|]. split; [done|]. apply moves_refl.
  Qed.
End KfsLaws.

#[export] Instance kfs_laws {D} `{!BlockDev D, !BlockRead D, !BlockWrite D} : InodeLaws (kfs D).
Proof.
  refine {| vinv := sfs_inv; can_read := k_can_read; can_write := k_can_write; can_getdirentry := fun _ _ iob => iob_ok iob;
    can_seek := k_can_seek; can_lookup := name_fits; can_root := fun v => ready v SFS_BLKN_ROOT;
    law_open := k_open; law_close := k_close; law_read := k_read; law_write := k_write; law_getdirentry := k_getdirentry;
    law_fstat := k_fstat; law_fsync := k_fsync; law_gettype := k_gettype; law_tryseek := k_tryseek; law_truncate := k_truncate;
    law_lookup := k_lookup |}.
  - intros v (gd & Hm). apply Hm.
  - intros v n i i' (gd & Hm) E Et Ef Eo. exists gd. by apply (mounted_inode v gd n i).
  - intros v n i i' _ [?|(a1 & m1 & a2 & m2 & l & Ea & H1 & H2 & H3)] E _ _ _; [by left|right]. exists a1, m1, a2, m2, l.
    split; [done|]. split; [done|]. split; [done|]. cbn. rewrite lookup_insert_ne; [done|]. congruence.
  - intros v n (gd & Hm) Ha. destruct (mounted_alive v gd n Hm Ha) as (i & Ei & Hn & -> & Ef & [Hd|(sin & Hi)]).
    + rewrite (dn_ops _ _ _ Hd). do 5 (split; [done|]). intros _. by apply (held_base v n i).
    + by destruct (sfs_ops_cases v gd n i sin Hm Hi) as [[_ ->]|[_ ->]].
  - intros v d (gd & Hm) Hd _ _. destruct (mt_vdev _ _ Hm d Hd) as (_ & i & Ei & Hdn). split.
    + intros E. rewrite E, (mt_null _ _ Hm) in Ei. done.
    + unfold dirlike, opsof. by rewrite Ei, (dn_ops _ _ _ Hdn).
  - intros v fs (gd & Hm) [Hfs Hk] Hr. assert (fs = fs_at (the_sfs v)) as ->.
    { destruct Hk as [(d & Hd & Ef)|(n & i & Ei & _ & Ef)].
      - destruct (mt_vdev _ _ Hm d Hd) as ([?|?] & _); congruence.
      - destruct (mt_node _ _ Hm n i Ei) as [[]|(sin & _ & [])]; congruence. }
    eapply runs_weaken; [by apply (sfs_root_Ok v gd)|]. intros r v' (H1 & H2 & H3 & H4). split_and!; try done. unfold dirlike. by rewrite H4.
  - intros v n i f (gd & Hm) Ei Hr Ho E. destruct (mt_node _ _ Hm n i Ei) as [Hd|(sin & Es & _)]; [by rewrite (dn_ops _ _ _ Hd) in E|].
    destruct (mounted_snode v gd n sin Hm Es) as (j & Hj). assert (j = i) as -> by (pose proof (sn_in _ _ _ _ _ Hj); congruence).
    assert (f = sfs_reclaim_node) as -> by (destruct (sfs_ops_cases v gd n i sin Hm Hj) as [[_ Hops]|[_ Hops]]; rewrite Hops in E; by read_table E).
    eapply runs_weaken; [by eapply reclaim_Ok|]. intros a v' [? ?]. split; [by exists gd|done].
Defined.
