(* ===== verification/SfsMount.v ===== *)
(** * Mounting and synchronising the simple file system

    [image k gd sp fm]: the disk [k] holds a file system with the inodes [gd],
    the super block [sp] and the free map [fm].  Mounting such a disk gives a
    state in which [mounted] holds; synchronising a mounted file system whose
    super block is dirty makes its disk such an image. *)
From S2P Require Import Prelude Arith CString Bitmap IoBuf BlockDev Sfs SfsDisk SfsBmap SfsLoad SfsFile SfsSpec SfsTree Vfs VfsInv Dev DevSpec SfsOps SfsInv SfsLaws.

(** ** The free map as bytes *)

Definition word_bytes (l : list Z) : list Z := concat (le_encode 4 <$> l).

Lemma length_word_bytes l : length (word_bytes l) = (4 * length l)%nat.
Proof. unfold word_bytes. induction l as [|x l IH]; [done|]. cbn [fmap list_fmap concat]. rewrite length_app, length_le_encode, IH. cbn. lia. Qed.

Lemma word_bytes_byte l : Forall is_byte (word_bytes l).
Proof. apply Forall_concat, Forall_fmap, Forall_true. intros b. apply le_encode_byte. Qed.

Lemma word_bytes_at l (i : nat) x : l !! i = Some x -> take 4 (drop (4 * i) (word_bytes l)) = le_encode 4 x.
Proof.
  unfold word_bytes. revert i. induction l as [|y l IH]; intros i E; [done|]. cbn [fmap list_fmap concat]. destruct i as [|i].
  - injection E as <-. rewrite Nat.mul_0_r, drop_0. by rewrite take_app_le by (rewrite length_le_encode; lia); rewrite take_ge by (rewrite length_le_encode; lia).
  - replace (4 * Datatypes.S i)%nat with (length (le_encode 4 y) + 4 * i)%nat by (rewrite length_le_encode; lia).
    rewrite drop_app_add. by apply IH.
Qed.

Lemma data_words_bytes l : Forall is_u32 l -> data_words (word_bytes l) = l.
Proof.
  intros Hl. unfold data_words. rewrite length_word_bytes, Nat.mul_comm, Nat.div_mul by lia.
  apply list_eq. intros i. rewrite list_lookup_fmap. destruct (decide (i < length l)%nat) as [Hi|Hi].
  - rewrite lookup_seq_lt by done. cbn [fmap option_fmap option_map]. destruct (lookup_lt_is_Some_2 l i Hi) as [x Hx].
    rewrite Hx. f_equal. unfold word_at. rewrite Nat.add_0_l, (word_bytes_at l i x Hx).
    apply le_decode_encode. apply (Forall_lookup_1 _ _ _ _ Hl Hx).
  - rewrite lookup_seq_ge by lia. by rewrite lookup_ge_None_2 by lia.
Qed.

Lemma freemap_sizes sp : 0 < blocks sp <= 524288 ->
  exists k, sfs_freemap_blocks sp = k /\ sfs_freemap_bits sp = 32768 * k /\ 1 <= k <= 16 /\ blocks sp <= 32768 * k.
Proof.
  intros Hb. exists ((blocks sp + 32767) / 32768). unfold sfs_freemap_blocks, sfs_freemap_bits, ROUNDUP, ROUNDUP_DIV. change SFS_BLKBITS with 32768.
  rewrite u32_id by (unfold is_u32, two32; lia). replace (blocks sp + 32768 - 1) with (blocks sp + 32767) by lia.
  destruct (ROUNDDOWN_spec (blocks sp + 32767) 32768) as [-> _]; [unfold is_u32, two32; lia|lia|].
  split; [done|]. split; [done|]. Z.to_euclidean_division_equations; lia.
Qed.

(** The bits set from [i] on. *)
Lemma count_unused_spec n : forall i b u, bitmap_ok b -> 0 <= i -> i + Z.of_nat n <= nbits b ->
  count_unused n i b u = Ok (u + Z.of_nat (length (filter (fun j => bit b j = true) (seqZ i (Z.of_nat n))))).
Proof.
  induction n as [|n IH]; intros i b u Hb Hi Hn; cbn [count_unused].
  - rewrite seqZ_nil by lia. cbn. f_equal. lia.
  - rewrite bitmap_test_spec by (done || lia). cbn [rbind]. rewrite IH by (done || lia). f_equal.
    rewrite (seqZ_cons i) by lia. replace (Z.pred (Z.of_nat (Datatypes.S n))) with (Z.of_nat n) by lia. rewrite filter_cons.
    replace (Z.succ i) with (i + 1) by lia. destruct (bit b i); cbn [decide bool_eq_dec length].
    + rewrite decide_True by done. cbn [length]. lia.
    + rewrite decide_False by done. lia.
Qed.

Lemma size_free_set b : Z.of_nat (size (free_set b)) = Z.of_nat (length (filter (fun j => bit b j = true) (seqZ 0 (nbits b)))).
Proof. unfold free_set. rewrite size_list_to_set; [done|]. apply NoDup_filter, NoDup_seqZ. Qed.

(** No more blocks are free than there are. *)
Lemma unused_range {D} `{!BlockDev D, !BlockRead D} (s : sfs_fs D) : fs_ok s -> 0 <= unused_blocks (super s) <= 524288.
Proof.
  intros Hs. rewrite (fs_count s Hs). split; [lia|]. transitivity (Z.max 0 (blocks (super s))); [|destruct (fs_size s Hs); lia].
  transitivity (Z.of_nat (size (list_to_set (seqZ 0 (blocks (super s))) : gset Z))).
  - apply inj_le, subseteq_size. intros j Hj. apply elem_of_list_to_set, elem_of_seqZ. apply elem_of_free_set, (fs_free s Hs) in Hj. lia.
  - rewrite size_list_to_set by apply NoDup_seqZ. rewrite length_seqZ. lia.
Qed.

Section SfsMount.
  Context {D : Type} `{!BlockDev D, !BlockRead D, !BlockWrite D}.
  Implicit Types (v : vfs (kfs D)) (n : Z) (gd : gmap Z sfs_disk_inode) (k : D) (sp : sfs_super) (fm : bitmap).

  (** The file system that mounting [k] gives. *)
Definition fresh k sp fm : sfs_fs D := mk_sfs sp k fm false zeros.

Record image k gd sp fm : Prop := {
    im_tree : tree (fresh k sp fm) gd;
    im_inodes : forall j d, gd !! j = Some d -> on_disk (fresh k sp fm) j d;
    im_super : take 44 (dblock k 0) = super_bytes sp;
    im_map : forall j, 0 <= j < sfs_freemap_blocks sp ->
      dblock k (SFS_BLKN_FREEMAP + j) = take 4096 (drop (Z.to_nat (4096 * j)) (word_bytes (map fm)))
  }.

  (** Reading changes neither the contents nor the size of the disk. *)
Definition disk_same k k' : Prop := dev_ok k' /\ d_blocks k' = d_blocks k /\ forall c, dblock k' c = dblock k c.

Lemma disk_same_trans k k1 k2 : disk_same k k1 -> disk_same k1 k2 -> disk_same k k2.
  Proof. intros (H1 & H2 & H3) (G1 & G2 & G3). split; [done|]. split; [congruence|]. intros c. by rewrite G3, H3. Qed.

Lemma init_read_Ok dv b buf base (d : devs D) : dv_driver dv = DDisk0 -> dev_ok (disk d) -> 0 <= b < d_blocks (disk d) -> b < 524288 ->
    0 <= base -> base + 4096 <= Z.of_nat (length buf) ->
    exists k, sfs_init_read dv b buf base d = Ok (0, list_inserts (Z.to_nat base) (dblock (disk d) b) buf, set_disk d k) /\ disk_same (disk d) k.
  Proof.
    intros Hdv Hok Hb Hmax Hbase Hlen. unfold sfs_init_read, dev_io. rewrite Hdv.
    assert (Hio : block_io (iobuf_init buf base SFS_BLKSIZE (s32 (b * SFS_BLKSIZE))) b).
    { unfold block_io, iobuf_init, SFS_BLKSIZE, PGSIZE, BLKSIZE. cbn. rewrite s32_id by (unfold is_s32; lia). split_and!; lia. }
    destruct (dop_read (disk d) _ b Hok Hb Hio) as (iob' & k & E & Ed & Hk & Hn & Hc). rewrite E. cbn [rbind].
    exists k. split; [|done]. by rewrite Ed.
  Qed.

Lemma init_freemap_loop_Ok dv (n : nat) (tgt : list Z) : forall data base b (d : devs D),
    dv_driver dv = DDisk0 -> dev_ok (disk d) -> 0 <= b -> b + Z.of_nat n <= d_blocks (disk d) -> b + Z.of_nat n <= 524288 ->
    0 <= base -> base + 4096 * Z.of_nat n <= Z.of_nat (length data) -> length tgt = length data ->
    (forall j, 0 <= j < Z.of_nat n -> dblock (disk d) (b + j) = take 4096 (drop (Z.to_nat (base + 4096 * j)) tgt)) ->
    exists data' k, init_freemap_loop n dv data base b d = Ok (0, data', set_disk d k) /\ disk_same (disk d) k /\ length data' = length data /\
      forall p, at_ data' p = if (base <=? p) && (p <? base + 4096 * Z.of_nat n) then at_ tgt p else at_ data p.
  Proof.
    induction n as [|n IH]; intros data base b d Hdv Hok Hb0 Hbn Hmax Hbase Hlen Ht Hblk; cbn [init_freemap_loop].
    { exists data, (disk d). split; [by destruct d|]. split; [done|]. split; [done|]. intros p.
      destruct (Z.leb_spec base p), (Z.ltb_spec p (base + 4096 * Z.of_nat 0)); (done || lia). }
    destruct (init_read_Ok dv b data base d Hdv Hok) as (k & -> & Hk); [lia..|]. cbn [rbind negb Z.eqb].
    rewrite u32_id by (unfold is_u32, two32; lia). pose proof Hk as (Hk1 & Hk2 & Hk3).
    pose proof (dblock_length (disk d) b) as Hdl.
    destruct (IH (list_inserts (Z.to_nat base) (dblock (disk d) b) data) (base + 4096) (b + 1) (set_disk d k)) as (data' & k' & E & Hk' & Hl' & Hat); try done.
    - lia.
    - cbn. rewrite Hk2. lia.
    - lia.
    - lia.
    - rewrite length_inserts. lia.
    - by rewrite length_inserts.
    - intros j Hj. cbn [set_disk disk]. rewrite Hk3. replace (b + 1 + j) with (b + (j + 1)) by lia. rewrite Hblk by lia. do 3 f_equal. lia.
    - change (base + SFS_BLKSIZE) with (base + 4096). rewrite E. exists data', k'. split; [done|]. split; [by eapply disk_same_trans|].
      rewrite length_inserts in Hl'. split; [done|]. intros p. rewrite Hat, at_inserts by lia. rewrite Hdl.
      specialize (Hblk 0 ltac:(lia)). change (4096 * 0) with 0 in Hblk. rewrite !Z.add_0_r in Hblk. rewrite Hblk. change (Z.of_nat 4096) with 4096.
      destruct (Z.leb_spec (base + 4096) p), (Z.ltb_spec p (base + 4096 + 4096 * Z.of_nat n)), (Z.leb_spec base p),
        (Z.ltb_spec p (base + 4096)), (Z.ltb_spec p (base + 4096 * Z.of_nat (Datatypes.S n))); cbn [andb]; try (done || lia).
      change 4096%nat with (Z.to_nat 4096). rewrite at_sub by lia. f_equal. lia.
  Qed.

Lemma init_freemap_Ok dv b sp fm gd (d : devs D) : dv_driver dv = DDisk0 -> image (disk d) gd sp fm -> dev_ok (disk d) ->
    nbits b = nbits fm -> bitmap_ok b ->
    exists k, sfs_init_freemap dv b SFS_BLKN_FREEMAP (sfs_freemap_blocks sp) d = Ok (0, fm, set_disk d k) /\ disk_same (disk d) k.
  Proof.
    intros Hdv [Ht Hi Hs Hmap] Hok Eb Hb. destruct (tr_geo _ _ Ht) as [_ _ Hn]. cbn [fresh super freemap] in Hn. pose proof (tr_fs _ _ Ht) as Hf. pose proof (fs_bm _ Hf) as Hfm. cbn [fresh freemap] in Hfm.
    pose proof (fs_size _ Hf) as [Hdb Hmax]. cbn [fresh super dev] in Hdb, Hmax.
    destruct (tr_root _ _ Ht) as (r & Er & _). pose proof (in_self _ _ (nd_inode _ _ _ _ (tr_node _ _ Ht _ _ Er))) as [[_ Hroot] _]. cbn in Hroot.
    unfold SFS_BLKN_ROOT in Hroot. destruct (freemap_sizes sp) as (kb & Ekb & Ebits & Hkb & Hcov); [lia|]. rewrite Ekb in *.
    pose proof (bm_size b Hb) as [_ Ewb]. pose proof (bm_size fm Hfm) as [_ Ewf]. pose proof (bm_len b Hb) as Hlb. pose proof (bm_len fm Hfm) as Hlf.
    assert (Enw : nwords b = 1024 * kb) by (rewrite Ewb, Eb, Hn, Ebits; Z.to_euclidean_division_equations; lia).
    assert (Enf : nwords fm = 1024 * kb) by (rewrite Ewf, Hn, Ebits; Z.to_euclidean_division_equations; lia).
    destruct (tr_map _ _ Ht (SFS_BLKN_FREEMAP + kb - 1)) as [[[_ Hlast] _] _]; [cbn [fresh super]; rewrite Ekb; unfold SFS_BLKN_FREEMAP; lia|].
    cbn [fresh super] in Hlast. unfold SFS_BLKN_FREEMAP in *.
    unfold sfs_init_freemap, bitmap_getdata. destruct (Z.eqb_spec (4 * nwords b) (kb * SFS_BLKSIZE)) as [_|Hne]; [|unfold SFS_BLKSIZE, PGSIZE in Hne; lia].
    cbn [rassert rbind]. fold (word_bytes (map b)).
    destruct (init_freemap_loop_Ok dv (Z.to_nat kb) (word_bytes (map fm)) (word_bytes (map b)) 0 2 d Hdv Hok) as (data & k & -> & Hk & Hl & Hat).
    - lia.
    - lia.
    - lia.
    - lia.
    - rewrite length_word_bytes. lia.
    - rewrite !length_word_bytes. lia.
    - intros j Hj. rewrite Z.add_0_l. apply Hmap. lia.
    - cbn [rbind]. exists k. split; [|done]. do 2 f_equal. f_equal.
      assert (data = word_bytes (map fm)) as ->.
      { apply at_ext; [rewrite Hl, !length_word_bytes; lia|]. intros p Hp. rewrite Hat. rewrite Hl, length_word_bytes in Hp.
        destruct (Z.leb_spec 0 p), (Z.ltb_spec p (0 + 4096 * Z.of_nat (Z.to_nat kb))); (done || lia). }
      rewrite data_words_bytes by apply Hfm. destruct fm, b. unfold set_map. cbn in *. congruence.
  Qed.

  (** Reading the super block. *)
Lemma bytes_super_block k gd sp fm buf : image k gd sp fm -> 0 <= blocks sp < two32 -> length buf = 4096%nat -> buf = dblock k 0 ->
    bytes_super buf = sp /\ bytes_super (list_inserts 43 [0] buf) = sp.
  Proof.
    intros [Ht Hi Hs Hmap] Hb Hl ->. destruct (tr_geo _ _ Ht) as [Hm (Hil & Hi0 & _) _]. pose proof (unused_range _ (tr_fs _ _ Ht)) as Hr.
    cbn [fresh super] in *. set (buf := dblock k 0) in *.
    assert (Hw : forall l, take 44 l = super_bytes sp -> bytes_super l = sp).
    { intros l E. assert (Hsub : forall (i c : nat), (i + c <= 44)%nat -> take c (drop i l) = take c (drop i (super_bytes sp))).
      { intros i c Hc. rewrite <- E, !take_drop_commute, take_take. by rewrite Nat.min_l by lia. }
      destruct sp as [mg bl un inf]. unfold bytes_super, word_at. cbn [magic blocks unused_blocks info] in *. unfold two32 in *. f_equal.
      - rewrite Hsub by lia. apply (le_decode_encode 4). rewrite Hm. unfold SFS_MAGIC. lia.
      - rewrite Hsub by lia. apply (le_decode_encode 4). lia.
      - rewrite Hsub by lia. apply (le_decode_encode 4). lia.
      - rewrite Hsub by lia. unfold super_bytes. cbn [magic blocks unused_blocks info]. rewrite !app_assoc.
        rewrite drop_app_length' by (rewrite !length_app, !length_le_encode; lia). by rewrite take_ge by lia. }
    split; [by apply Hw|]. apply Hw. rewrite <- Hs. apply at_ext.
    - rewrite !length_take, length_inserts. lia.
    - intros p Hp. rewrite length_take, length_inserts in Hp.
      assert (Htk : forall l, length l = 4096%nat -> at_ (take 44 l) p = at_ l p).
      { intros l Hlen. unfold at_. destruct (Z.leb_spec 0 p); [|done]. by rewrite lookup_take_lt by lia. }
      rewrite !Htk by (rewrite ?length_inserts; done). change 43%nat with (Z.to_nat 43). rewrite at_inserts by (rewrite ?Hl; cbn; lia).
      destruct (Z.leb_spec 43 p), (Z.ltb_spec p (43 + Z.of_nat (length [0]))); cbn [andb]; try done. cbn [length] in *.
      assert (p = 43) as -> by lia. rewrite <- (Htk buf Hl), Hs. unfold super_bytes. rewrite !app_assoc. unfold at_. cbn [Z.leb Z.compare].
      rewrite lookup_app_r by (rewrite !length_app, !length_le_encode; cbn; lia). rewrite !length_app, !length_le_encode. done.
  Qed.

  (** The objects that mounting needs. *)
Definition mount_allocs (l : list (Z * list Z)) (fs : Z) (rest : list (Z * list Z)) : Prop :=
    exists m1 a2 m2 a3 m3 a4 m4 a5 m5, l = (fs, m1) :: (a2, m2) :: (a3, m3) :: (a4, m4) :: (a5, m5) :: rest /\
      fs <> 0 /\ a2 <> 0 /\ a3 <> 0 /\ a4 <> 0 /\ a5 <> 0.

Lemma mount_read_Ok v devno dv gd sp fm fs rest : dev_vop_info devno v = Ok dv -> dv_driver dv = DDisk0 -> dv_blocksize dv = 4096 ->
    blocks sp <= dv_blocks dv -> image (disk (kdevs (fsd v))) gd sp fm -> mount_allocs (allocs (fsd v)) fs rest ->
    exists k buf, sfs_mount_read devno v = Ok (0, Some (fs, sp, fm, buf), set_fsd v (mk_kfs (set_disk (kdevs (fsd v)) k) (ksfs (fsd v)) rest)) /\
      disk_same (disk (kdevs (fsd v))) k /\ Z.of_nat (length buf) = BLKSIZE /\ Forall is_byte buf.
  Proof.
    intros Edv Hdr Hbs Hbl Him (m1 & a2 & m2 & a3 & m3 & a4 & m4 & a5 & m5 & Eal & H1 & H2 & H3 & H4 & H5).
    pose proof (tr_fs _ _ (im_tree _ _ _ _ Him)) as Hf. pose proof (fs_size _ Hf) as [Hdb Hmax]. pose proof (fs_dev _ Hf) as Hok.
    cbn [fresh super dev] in Hdb, Hmax, Hok. set (d0 := kdevs (fsd v)) in *.
    destruct (tr_root _ _ (im_tree _ _ _ _ Him)) as (r & Er & _).
    pose proof (in_self _ _ (nd_inode _ _ _ _ (tr_node _ _ (im_tree _ _ _ _ Him) _ _ Er))) as [[_ Hroot] _]. cbn in Hroot. unfold SFS_BLKN_ROOT in Hroot.
    unfold sfs_mount_read. rewrite Edv. cbn [rbind]. rewrite Hbs. cbn [SFS_BLKSIZE PGSIZE Z.eqb Pos.eqb negb].
    unfold kmalloc at 1. rewrite Eal. destruct (Z.eqb_spec fs 0); [done|].
    unfold kmalloc_object, kmalloc. cbn [set_fsd fsd allocs kdevs ksfs]. destruct (Z.eqb_spec a2 0); [done|].
    set (buf0 := resize (Z.to_nat SFS_BLKSIZE) 0 m2). assert (Hl0 : length buf0 = 4096%nat) by apply length_resize.
    unfold devs_of. cbn [set_devs set_fsd fsd get_devs put_devs kfs_devs kdevs ksfs allocs]. fold d0.
    destruct (init_read_Ok dv SFS_BLKN_SUPER buf0 0 d0 Hdr Hok) as (k1 & E1 & Hk1); [unfold SFS_BLKN_SUPER; lia..|].
    rewrite E1. cbn [rbind negb Z.eqb]. change (Z.to_nat 0) with 0%nat.
    rewrite inserts_all by (rewrite dblock_length, Hl0; done). change SFS_BLKN_SUPER with 0. set (buf1 := dblock (disk d0) 0).
    destruct (bytes_super_block (disk d0) gd sp fm buf1 Him) as [Eb1 Eb2]; [unfold two32; lia|apply dblock_length|done|].
    rewrite Eb1. destruct (tr_geo _ _ (im_tree _ _ _ _ Him)) as [Hmagic _ Hnb]. cbn [fresh super freemap] in Hmagic, Hnb. rewrite Hmagic, Z.eqb_refl. cbn [negb]. destruct (Z.ltb_spec (dv_blocks dv) (blocks sp)); [lia|].
    rewrite mwrite_Ok by (unfold buf1; rewrite ?dblock_length; unfold SFS_MAX_INFO_LEN; cbn; lia). cbn [rbind].
    change (Z.to_nat (12 + SFS_MAX_INFO_LEN)) with 43%nat. rewrite Eb2. cbn [set_devs set_fsd fsd allocs put_devs kfs_devs kdevs ksfs].
    destruct (Z.eqb_spec a3 0); [done|]. unfold create_freemap, kmalloc. cbn [set_fsd fsd allocs kdevs ksfs].
    destruct (Z.eqb_spec a4 0); [done|]. destruct (Z.eqb_spec a5 0); [done|]. cbn [negb].
    destruct (freemap_sizes sp) as (kb & Ekb & Ebits & Hkb & Hcov); [lia|].
    destruct (bitmap_create_ok (sfs_freemap_bits sp)) as (b & -> & Hb & Enb & _); [rewrite Ebits; unfold two32; lia|]. cbn [rbind].
    unfold devs_of. cbn [set_devs set_fsd fsd get_devs put_devs kfs_devs kdevs ksfs allocs].
    assert (Him1 : image (disk (set_disk d0 k1)) gd sp fm).
    { destruct Hk1 as (G1 & G2 & G3). destruct Him as [J1 J2 J6 J8]. cbn [set_disk disk].
      assert (Hsame : same (fresh (disk d0) sp fm) (fresh k1 sp fm)).
      { split; [|done|done|intros c; apply G3]. destruct Hf. split; try done. cbn. rewrite G2. cbn in *. lia. }
      split; try done.
      - by eapply tree_same.
      - intros j d Ej. eapply on_disk_blk; [|by apply J2]. apply G3.
      - by rewrite G3.
      - intros j Hj. rewrite G3. by apply J8. }
    destruct (init_freemap_Ok dv b sp fm gd (set_disk d0 k1) Hdr Him1) as (k2 & E2 & Hk2); [apply Hk1|by rewrite Enb|done|].
    rewrite E2. cbn [rbind negb Z.eqb].
    eexists k2, _. split; [reflexivity|]. split; [by eapply disk_same_trans|]. split.
    - rewrite length_inserts. unfold buf1. rewrite dblock_length. done.
    - apply Forall_inserts; [repeat constructor; unfold is_byte; lia|]. by apply dblock_bytes.
  Qed.

  (** The count of the free blocks agrees with the super block. *)
Lemma do_mount_read v devno fs sp fm buf v' : sfs_mount_read devno v = Ok (0, Some (fs, sp, fm, buf), v') -> bitmap_ok fm ->
    nbits fm = sfs_freemap_bits sp -> unused_blocks sp = Z.of_nat (size (free_set fm)) ->
    sfs_do_mount devno v = Ok (0, fs, set_sfs v' (mk_sfst fs sp fm false buf ∅ [] ∅)).
  Proof.
    intros E Hfm Hnb Hcnt. unfold sfs_do_mount. rewrite E. cbn [rbind]. rewrite <- Hnb. pose proof (bm_size fm Hfm) as [Hpos _].
    rewrite count_unused_spec by (done || lia). cbn [rbind]. rewrite Z2Nat.id by lia. by rewrite <- size_free_set, <- Hcnt, Z.add_0_l, Z.eqb_refl.
  Qed.

Lemma do_mount_Ok v devno dv gd sp fm fs rest : dev_vop_info devno v = Ok dv -> dv_driver dv = DDisk0 -> dv_blocksize dv = 4096 ->
    blocks sp <= dv_blocks dv -> image (disk (kdevs (fsd v))) gd sp fm -> mount_allocs (allocs (fsd v)) fs rest ->
    exists k buf, sfs_do_mount devno v =
        Ok (0, fs, set_fsd v (mk_kfs (set_disk (kdevs (fsd v)) k) (mk_sfst fs sp fm false buf ∅ [] ∅) rest)) /\
      disk_same (disk (kdevs (fsd v))) k /\ Z.of_nat (length buf) = BLKSIZE /\ Forall is_byte buf.
  Proof.
    intros Edv Hdr Hbs Hbl Him Hal. destruct (mount_read_Ok v devno dv gd sp fm fs rest Edv Hdr Hbs Hbl Him Hal) as (k & buf & E & Hk).
    pose proof (im_tree _ _ _ _ Him) as Ht. pose proof (tr_fs _ _ Ht) as Hf.
    exists k, buf. split; [|done]. by apply (do_mount_read _ _ _ _ _ _ _ E); [apply Hf|apply (tr_geo _ _ Ht)|apply Hf].
  Qed.

Lemma fresh_tree k k' gd sp fm buf : image k gd sp fm -> disk_same k k' -> Z.of_nat (length buf) = BLKSIZE -> Forall is_byte buf ->
    same (fresh k sp fm) (mk_sfs sp k' fm false buf).
  Proof.
    intros Him (G1 & G2 & G3) Hl Hby. split; [|done|done|intros c; apply G3].
    destruct (tr_fs _ _ (im_tree _ _ _ _ Him)). split; try done. cbn in *. by rewrite G2.
  Qed.

  (** Devices and nothing else: what mounting starts from. *)
Record bare v : Prop := {
    ba_null : inodes v !! 0 = None;
    ba_node : forall n i, inodes v !! n = Some i -> dev_node v n i;
    ba_vdev : forall d, d ∈ vdev_list v -> dev_fs d = 0 /\ is_Some (inodes v !! devnode d);
    ba_stdin : stdin_ok (devs_of v)
  }.

Lemma registered_bare v : registered v -> bare v.
  Proof.
    intros [H1 H2 H3 H4 H5 H6]. split; [done| | |done].
    - intros n i E. by apply H2.
    - intros d Hd. by destruct (H3 d Hd) as (_ & ? & ?).
  Qed.

  (** A file system without inodes in memory. *)
Lemma mounted_fresh v v' k gd sp fm fs buf rest : bare v -> fs <> 0 -> image (disk (kdevs (fsd v))) gd sp fm ->
    disk_same (disk (kdevs (fsd v))) k -> Z.of_nat (length buf) = BLKSIZE -> Forall is_byte buf ->
    inodes v' = inodes v -> fsd v' = mk_kfs (set_disk (kdevs (fsd v)) k) (mk_sfst fs sp fm false buf ∅ [] ∅) rest ->
    (forall d, d ∈ vdev_list v' -> (dev_fs d = 0 \/ dev_fs d = fs) /\ exists e, e ∈ vdev_list v /\ devnode e = devnode d) ->
    (forall d, d ∈ vdev_list v -> exists e, e ∈ vdev_list v' /\ devnode e = devnode d) -> mounted v' gd.
  Proof.
    intros [H1 H2 H3 H6] Hfs Him Hk Hl Hby Ei Ef Hvd Hvd'.
    pose proof (fresh_tree _ _ _ _ _ _ Him Hk Hl Hby) as Hs.
    assert (Hdev : forall n i, inodes v !! n = Some i -> dev_node v' n i).
    { intros n i E. destruct (H2 n i E) as [G1 G2 G3 (d & Hd & Hdn) (dv & Edv & G5)]. split; try done.
      - destruct (Hvd' d Hd) as (e & He & Hen). exists e. split; [done|congruence].
      - exists dv. unfold devs_of in *. rewrite Ef. cbn [get_devs kfs_devs kdevs set_disk dev_info]. done. }
    split; unfold the_sfs, sfs_view, the_sfs; rewrite ?Ei, ?Ef; cbn [ksfs kdevs fs_at sinfo hash_list inode_list ssuper sfreemap sdirty sbuffer disk set_disk]; try done.
    - eapply tree_same; [apply Him|done].
    - intros n i E. left. by apply Hdev.
    - intros h n Hn. rewrite lookup_empty in Hn. by apply not_elem_of_nil in Hn.
    - intros n. rewrite elem_of_nil, lookup_empty. split; [done|]. by intros [? ?].
    - intros j d Ej. left. eapply on_disk_blk; [|by apply (im_inodes _ _ _ _ Him)]. apply Hk.
    - intros d Hd. destruct (Hvd d Hd) as (G & e & He & Een). split; [done|]. destruct (H3 e He) as (_ & i & Eii).
      rewrite Een in Eii. exists i. split; [done|]. by apply Hdev.
    - unfold devs_of in *. rewrite Ef. by destruct H6.
  Qed.

Lemma mount_Ok v a dv l gd sp fm fs rest : bare v -> vdev_list v = mk_vfs_dev name_disk0 a 0 true :: l ->
    dev_info (devs_of v) !! a = Some dv -> dv_driver dv = DDisk0 -> dv_blocksize dv = 4096 -> blocks sp <= dv_blocks dv ->
    image (disk (devs_of v)) gd sp fm -> mount_allocs (allocs (fsd v)) fs rest ->
    exists v', sfs_mount name_disk0 v = Ok (0, v') /\ mounted v' gd /\ bootfs_node v' = bootfs_node v /\ inodes v' = inodes v /\
      vdev_list v' = mk_vfs_dev name_disk0 a fs true :: l /\ fs_at (the_sfs v') = fs /\ sinfo (the_sfs v') = ∅ /\ allocs (fsd v') = rest /\
      ssuper (the_sfs v') = sp /\ sfreemap (the_sfs v') = fm /\ kept_all gd (fresh (disk (devs_of v)) sp fm) (sfs_view v').
  Proof.
    intros Hr Ev Ed Hdr Hbs Hbl Him Hal. pose proof Hr as [H1 H2 H3 H6].
    destruct (H3 (mk_vfs_dev name_disk0 a 0 true)) as (_ & i & Ei); [rewrite Ev; by left|]. cbn [devnode] in Ei.
    assert (Ha : a <> 0) by congruence. pose proof (H2 a i Ei) as Hdn.
    assert (Edv : dev_vop_info a v = Ok dv).
    { unfold dev_vop_info. destruct (Z.eqb_spec a 0); [done|]. cbn [negb rassert rbind]. rewrite (get_inode_Ok v a _ Ha Ei). cbn [rbind].
      rewrite (dn_type _ _ _ Hdn), Z.eqb_refl. cbn [rassert rbind]. by rewrite Ed. }
    destruct (do_mount_Ok v a dv gd sp fm fs rest Edv Hdr Hbs Hbl Him Hal) as (k & buf & Em & Hk & Hl & Hby).
    assert (Hfs : fs <> 0) by (destruct Hal as (? & ? & ? & ? & ? & ? & ? & ? & ? & _ & ? & _); done).
    unfold sfs_mount, vfs_mount. rewrite Ev. cbn [find_mount mountable devname]. unfold streq. rewrite bool_decide_true by done.
    cbn [andb lookup list_lookup rget rbind dev_fs Z.eqb negb mountable rassert devnode].
    rewrite (get_inode_Ok v a _ Ha Ei). cbn [rbind]. rewrite (dn_type _ _ _ Hdn), Z.eqb_refl. cbn [rassert rbind]. rewrite Em. cbn [rbind Z.eqb].
    destruct (Z.eqb_spec fs 0) as [?|_]; [done|]. cbn [negb rassert rbind]. eexists. split; [reflexivity|].
    set (v' := set_vdevs _ _). assert (Evd : vdev_list v' = mk_vfs_dev name_disk0 a fs true :: l) by (cbn; by rewrite Ev).
    split.
    2: { do 8 (split; [done|]). apply kept_all_same; [apply Him|]. exact (fresh_tree _ _ _ _ _ _ Him Hk Hl Hby). }
    eapply (mounted_fresh v v' k gd sp fm fs buf rest); try done.
    - rewrite Evd. intros d [->|Hd]%elem_of_cons.
      + split; [by right|]. eexists. split; [rewrite Ev; by left|done].
      + split; [|exists d; split; [rewrite Ev; by right|done]]. left. apply (H3 d). rewrite Ev. by right.
    - rewrite Evd, Ev. intros d [->|Hd]%elem_of_cons; [eexists; split; [by left|done]|]. exists d. split; [by right|done].
  Qed.

Lemma sfs_init_Ok v a dv l gd sp fm fs rest : registered v -> vdev_list v = mk_vfs_dev name_disk0 a 0 true :: l ->
    dev_info (devs_of v) !! a = Some dv -> dv_driver dv = DDisk0 -> dv_blocksize dv = 4096 -> blocks sp <= dv_blocks dv ->
    image (disk (devs_of v)) gd sp fm -> mount_allocs (allocs (fsd v)) fs rest ->
    exists v', sfs_init v = Ok v' /\ mounted v' gd /\ vgood v' none none /\ bootfs_node v' = 0 /\ fs_at (the_sfs v') = fs /\
      sinfo (the_sfs v') = ∅ /\ allocs (fsd v') = rest /\ inodes v' = inodes v.
  Proof.
    intros Hr Ev Ed Hdr Hbs Hbl Him Hal.
    destruct (mount_Ok v a dv l gd sp fm fs rest (registered_bare v Hr) Ev Ed Hdr Hbs Hbl Him Hal) as (v' & E & Hm & Eb & Ei & Evd & Ea & Es & Er & _).
    unfold sfs_init. rewrite E. cbn [rbind negb Z.eqb]. exists v'. split; [done|]. split; [done|].
    assert (Ebase : forall m, base v' m = base v m).
    { intros m. unfold base. rewrite Evd, Ev, Eb. f_equal. f_equal. rewrite !filter_cons. cbn [devnode]. by destruct (decide (a = m /\ m <> 0)). }
    split; [|by rewrite Eb, (rg_boot _ Hr)].
    split; [by exists gd|..]; intros m; pose proof (registered_refs v m Hr) as (G1 & G2 & G3); unfold none, openc, refc in *; rewrite ?Ei.
    - exact G1.
    - rewrite Ebase. exact G2.
    - lia.
    - unfold MAX_INODE_COUNT. lia.
  Qed.
End SfsMount.
