(* ===== verification/SfsSync.v ===== *)
(** * Synchronising the simple file system with its disk

    [sfs_sync] writes the dirty inodes, the super block and the free map: what
    is on the disk afterwards is an image of the file system ([SfsMount]). *)
From S2P Require Import Prelude Arith CString Bitmap IoBuf BlockDev Sfs SfsDisk SfsBmap SfsLoad SfsFile SfsSpec SfsTree Vfs VfsInv Dev DevSpec SfsOps SfsInv SfsLaws SfsMount.

Section SfsSync.
  Context {D : Type} `{!BlockDev D, !BlockRead D, !BlockWrite D}.
  Implicit Types (s : sfs_fs D) (v : vfs (kfs D)) (n : Z) (gd : gmap Z sfs_disk_inode).

  (** ** What a transfer leaves of the super block and the free map *)

Definition keeps_super s s' : Prop := super s' = super s /\ freemap s' = freemap s /\ super_dirty s' = super_dirty s.

Lemma rwblock_keeps s buf base b w c ret buf' s' : sfs_rwblock_nolock s buf base b w c = Ok (ret, buf', s') -> keeps_super s s'.
  Proof. unfold sfs_rwblock_nolock. intros E. by inv_res. Qed.

Lemma wbuf_keeps s buf base len b off ret buf' s' : sfs_wbuf s buf base len b off = Ok (ret, buf', s') -> keeps_super s s'.
  Proof.
    unfold sfs_wbuf. intros E. apply rbind_Ok in E as (u & _ & E). apply rbind_Ok in E as ([[r1 b1] s1] & E1 & E).
    apply rwblock_keeps in E1. destruct (r1 =? 0); [|by injection E as _ _ <-].
    apply rbind_Ok in E as (l1 & _ & E). apply rbind_Ok in E as (l2 & _ & E). apply rbind_Ok in E as ([[r2 b2] s2] & E2 & E).
    apply rwblock_keeps in E2 as (G1 & G2 & G3). destruct E1 as (J1 & J2 & J3). injection E as _ _ <-. unfold keeps_super in *. cbn in *.
    split; [congruence|]. split; congruence.
  Qed.

Lemma fsync_keeps s sin ret s' sin' : sfs_fsync s sin = Ok (ret, s', sin') -> keeps_super s s'.
  Proof.
    unfold sfs_fsync. destruct (dirty sin); [|by intros [= _ <- _]]. intros E. apply rbind_Ok in E as ([[r b] s1] & E1 & E).
    injection E as _ <- _. by apply wbuf_keeps in E1.
  Qed.

  (** ** The inodes *)

  (** [v'] is [v] with some inodes written back. *)
Record written gd v v' : Prop := {
    wt_vfs : same_vfs v v';
    wt_view : keeps_super (sfs_view v) (sfs_view v');
    wt_at : fs_at (the_sfs v') = fs_at (the_sfs v);
    wt_rest : allocs (fsd v') = allocs (fsd v) /\ dev_info (devs_of v') = dev_info (devs_of v);
    wt_list : inode_list (the_sfs v') = inode_list (the_sfs v);
    wt_sin : forall n sin', sinfo (the_sfs v') !! n = Some sin' ->
      exists sin, sinfo (the_sfs v) !! n = Some sin /\ din sin' = din sin /\ (dirty sin = false -> dirty sin' = false);
    wt_kept : kept_all gd (sfs_view v) (sfs_view v')
  }.

Lemma written_refl v gd : mounted v gd -> written gd v v.
  Proof.
    intros Hm. split; try done; [intros n sin E; by exists sin|]. apply kept_all_same; [apply Hm|]. split; try done. apply (tr_fs _ _ (mt_tree _ _ Hm)).
  Qed.

Lemma written_trans v v1 v2 gd : mounted v gd -> written gd v v1 -> written gd v1 v2 -> written gd v v2.
  Proof.
    intros Hm [(H1 & H2 & H3) (J1 & J2 & J3) Ha (L1 & L2) Hl Hs Hk] [(G1 & G2 & G3) (K1 & K2 & K3) Ga (M1 & M2) Gl Gs Gk].
    split; try congruence; [split_and!; congruence|split_and!; congruence|split; congruence| |].
    - intros n sin2 E2. destruct (Gs n sin2 E2) as (sin1 & E1 & D1 & F1). destruct (Hs n sin1 E1) as (sin & E & D0 & F0). exists sin. split; [done|].
      split; [congruence|auto].
    - by apply (kept_all_trans _ (sfs_view v1)); [apply Hm|..].
  Qed.

Lemma counted_ext v v' n : inodes v' = inodes v -> counted v n -> counted v' n.
  Proof. unfold counted, refc, openc. by intros ->. Qed.

Lemma fsync_kept s gd sin s' : tree s gd -> gd !! ino sin = Some (din sin) -> super s' = super s ->
    (forall b, free s' b <-> free s b) -> (forall b, b <> ino sin -> blk s' b = blk s b) -> kept_all gd s s'.
  Proof.
    intros Ht Esin Esp Hfr Hb k d E b Ho. split.
    - destruct (owns_used s _ b (nd_inode _ _ _ _ (tr_node _ _ Ht _ _ E)) Ho) as [H1 H2]. split; [by rewrite Esp|by rewrite Hfr].
    - intros Hne. apply Hb. intros ->. apply (tr_sep _ _ Ht (ino sin) (din sin) k d (ino sin) Esin E); [|by left|done].
      intros <-. by apply Hne.
  Qed.

Lemma sync_node_Ok v gd n sin : mounted v gd -> sinfo (the_sfs v) !! n = Some sin -> counted v n ->
    exists ret v', vop_fsync (InodeOps0 := ops_A) n v = Ok (ret, v') /\ mounted v' gd /\ written gd v v' /\
      exists sin', sinfo (the_sfs v') !! n = Some sin' /\ dirty sin' = false.
  Proof.
    intros Hm Es [Hc Hmax]. destruct (mounted_snode v gd n sin Hm Es) as (i & Hi). destruct (fsync_table i sin v gd n Hm Hi) as [Hops Hf].
    pose proof (ca_disk _ _ _ _ (sn_ca _ _ _ _ _ Hi)) as Hd. unfold vop_fsync. unfold refc, openc in *. rewrite (sn_in _ _ _ _ _ Hi) in *.
    rewrite (vop_get _ v n i _ (sn_ne _ _ _ _ _ Hi) (sn_in _ _ _ _ _ Hi) Hops Hf) by lia. cbn [rbind].
    unfold sfs_fsync_node. rewrite (node_sfs_Ok v gd n i sin Hm Hi). cbn [rbind].
    destruct (fsync_spec (sfs_view v) gd sin (mt_tree _ _ Hm) Hd) as (s' & Ef & Ht & Hb & Hfr & _ & Hod). rewrite Ef. cbn [rbind].
    pose proof (fsync_keeps _ _ _ _ _ Ef) as (Ksp & _). eexists _, _. split; [done|]. split; [|split].
    - apply (mounted_put v gd n sin); try done.
      + by rewrite insert_id.
      + apply (ca_count _ _ _ _ (sn_ca _ _ _ _ _ Hi)).
      + intros k d _ Hne. by apply Hb.
      + right. apply Hod. by apply (clean_or_dirty v gd n sin).
    - split; try done; [rewrite view_put; by eapply fsync_keeps| |rewrite view_put; by apply (fsync_kept _ gd sin); [apply Hm|..]].
      intros m sin' Em. cbn in Em.
      destruct (decide (m = n)) as [->|]; [rewrite lookup_insert_eq in Em|rewrite lookup_insert_ne in Em by done; by exists sin'].
      injection Em as <-. by exists sin.
    - eexists. cbn. by rewrite lookup_insert_eq.
  Qed.

Lemma sync_nodes_Ok gd l : forall v, mounted v gd -> (forall n, n ∈ l -> is_Some (sinfo (the_sfs v) !! n) /\ counted v n) ->
    exists v', sync_nodes l v = Ok v' /\ mounted v' gd /\ written gd v v' /\
      forall n sin', n ∈ l -> sinfo (the_sfs v') !! n = Some sin' -> dirty sin' = false.
  Proof.
    induction l as [|n l IH]; intros v Hm Hl; cbn [sync_nodes].
    { exists v. split; [done|]. split; [done|]. split; [by apply written_refl|]. intros n sin' Hn. by apply not_elem_of_nil in Hn. }
    destruct (Hl n ltac:(left)) as [[sin Es] Hc]. destruct (sync_node_Ok v gd n sin Hm Es Hc) as (ret & v1 & E1 & Hm1 & Hw1 & sin1 & Es1 & Hd1).
    rewrite E1. cbn [rbind]. destruct (IH v1 Hm1) as (v2 & E2 & Hm2 & Hw2 & Hd2).
    { intros m Hml. destruct (Hl m ltac:(by right)) as [_ Hcm]. destruct (wt_vfs _ _ _ Hw1) as (Ei & _). split; [|by eapply counted_ext].
      apply (mt_list _ _ Hm1). rewrite (wt_list _ _ _ Hw1). apply (mt_list _ _ Hm). by apply Hl; right. }
    exists v2. split; [done|]. split; [done|]. split; [by apply (written_trans v v1)|]. intros m sin2 [->|Hml]%elem_of_cons Em2; [|by eapply Hd2].
    destruct (wt_sin _ _ _ Hw2 n sin2 Em2) as (sin1' & E1' & _ & Hdd). apply Hdd. congruence.
  Qed.

  (** ** The super block and the free map *)

Lemma super_bytes_wf s : geo_ok s -> length (super_bytes (super s)) = 44%nat /\ Forall is_byte (super_bytes (super s)).
  Proof.
    intros [_ (Hl & _ & Hb) _]. unfold super_bytes. split; [rewrite !length_app, !length_le_encode; lia|].
    rewrite !Forall_app. split_and!; try apply le_encode_byte. done.
  Qed.

  (** The whole of the device differs only at the blocks given by [f]. *)
Definition rewrites s (f : Z -> option (list Z)) s' : Prop :=
    fs_ok s' /\ keeps_super s s' /\ forall b, blk s' b = default (blk s b) (f b).

Lemma sync_super_Ok s : fs_ok s -> geo_ok s -> 0 < blocks (super s) ->
    exists s', sfs_sync_super s = Ok (0, s') /\
      rewrites s (fun b => if b =? 0 then Some (list_inserts 0 (super_bytes (super s)) zeros) else None) s'.
  Proof.
    intros Hs Hg Hb. destruct (super_bytes_wf s Hg) as [Hl Hby]. pose proof length_zeros as Hlz. unfold BLKSIZE in Hlz. unfold sfs_sync_super. fold zeros.
    rewrite mwrite_Ok by lia. cbn [rbind]. change (Z.to_nat 0) with 0%nat. set (b := list_inserts 0 (super_bytes (super s)) zeros).
    assert (Hlb : Z.of_nat (length b) = BLKSIZE) by (unfold b; rewrite length_inserts; exact Hlz).
    assert (Hbb : Forall is_byte b) by (apply Forall_inserts; [done|]; apply Forall_replicate; unfold is_byte; lia).
    assert (Hs1 : fs_ok (set_buffer s b)) by (by destruct Hs; split).
    destruct (rw_write (set_buffer s b) b 0 SFS_BLKN_SUPER false Hs1) as (d & E & Hd & Hn & Hc); [by right|lia|unfold BLKSIZE in *; lia|done|].
    rewrite E. cbn [rbind]. eexists. split; [done|]. split; [|split; [done|]].
    - by apply (dev_step (set_buffer s b)).
    - intros c. unfold blk at 1. cbn [set_buffer set_dev dev]. rewrite Hc. unfold put, SFS_BLKN_SUPER. destruct (c =? 0); [|done].
      change (take 4096 b = b). apply take_ge. unfold BLKSIZE in *. lia.
  Qed.

Lemma wblocks_Ok s data b n : fs_ok s -> 0 < b -> 0 <= n -> b + n <= blocks (super s) -> 4096 * n <= Z.of_nat (length data) -> Forall is_byte data ->
    exists s', sfs_wblock s data 0 b n = Ok (0, data, s') /\
      rewrites s (fun c => if (b <=? c) && (c <? b + n) then Some (take 4096 (drop (Z.to_nat (4096 * (c - b))) data)) else None) s'.
  Proof.
    intros Hs Hb Hn Hmax Hlen Hby. unfold sfs_wblock, sfs_rwblock. pose proof (fs_size s Hs) as [_ Hsmall].
    set (upto := fun x c => if (b <=? c) && (c <? x) then Some (take 4096 (drop (Z.to_nat (4096 * (c - b))) data)) else None).
    set (I := fun '(buf, base, blkno, nblks, s1) => buf = data /\ base = 4096 * (blkno - b) /\ nblks = n - (blkno - b) /\ b <= blkno <= b + n /\
      rewrites s (upto blkno) s1).
    set (Q := fun '(ret, buf, s1) => ret = 0 /\ buf = data /\ rewrites s (upto (b + n)) s1).
    destruct (loop_rule I (fun '(_, _, _, nblks, _) => nblks) Q
      (fun '(buf, base, blkno, nblks, s1) =>
        if nblks =? 0 then Ok (inr (0, buf, s1))
        else
          let! (ret, buf, s1) := sfs_rwblock_nolock s1 buf base blkno true true in
          if negb (ret =? 0) then Ok (inr (ret, buf, s1))
          else Ok (inl (buf, base + SFS_BLKSIZE, u32 (blkno + 1), nblks - 1, s1))) (data, 0, b, n, s)) as ([[ret buf] s'] & E & Hq).
    - intros [[[[buf base] x] m] s1] (-> & -> & -> & Hx & Hok1 & (Ks & Kf & Kd) & Hblk). split; [lia|].
      destruct (Z.eqb_spec (n - (x - b)) 0) as [Hz|Hz].
      { split; [done|]. split; [done|]. replace (b + n) with x by lia. by split_and!. }
      destruct (rw_write s1 data (4096 * (x - b)) x true Hok1) as (d & E & Hd & Hn' & Hc); [left; rewrite Ks; lia|lia|unfold BLKSIZE; lia|done|].
      rewrite E. cbn [rbind negb Z.eqb]. rewrite u32_id by (unfold is_u32, two32; lia). split; [|lia].
      split; [done|]. split; [unfold SFS_BLKSIZE, PGSIZE; lia|]. split; [lia|]. split; [lia|].
      split; [by apply dev_only|]. split; [done|]. intros c. unfold blk at 1. cbn [set_dev dev]. rewrite Hc. unfold put. rewrite Hblk. unfold upto.
      destruct (Z.eqb_spec c x) as [->|Hne].
      + destruct (Z.leb_spec b x), (Z.ltb_spec x (x + 1)); try lia. done.
      + destruct (Z.leb_spec b c), (Z.ltb_spec c x), (Z.ltb_spec c (x + 1)); (done || lia).
    - split; [done|]. split; [lia|]. split; [lia|]. split; [lia|]. split; [done|]. split; [done|]. intros c. unfold upto.
      destruct (Z.leb_spec b c), (Z.ltb_spec c b); (done || lia).
    - lia.
    - destruct Hq as (-> & -> & Hq). exists s'. split; [exact E|exact Hq].
  Qed.

  (** ** The whole *)

Lemma rewrites_tree s gd f s' : tree s gd -> rewrites s f s' -> (forall b, is_Some (f b) -> forall k d, gd !! k = Some d -> ~ owns s (at_node k d) b) ->
    tree s' gd /\ kept_all gd s s' /\ forall k d, gd !! k = Some d -> blk s' k = blk s k.
  Proof.
    intros Ht (Hok & (Ks & Kf & _) & Hb) Hno.
    assert (Hkeep : forall k d b, gd !! k = Some d -> owns s (at_node k d) b -> blk s' b = blk s b).
    { intros k d b E Ho. rewrite Hb. destruct (f b) as [l|] eqn:Ef; [|done]. destruct (Hno b ltac:(rewrite Ef; eauto) k d E Ho). }
    assert (Hu : forall b, in_use s b -> in_use s' b) by (intros b [H1 H2]; split; unfold free in *; rewrite ?Ks, ?Kf; done).
    assert (Hall : kept_all gd s s').
    { intros k d E b Ho. split; [|intros _; by apply (Hkeep k d)]. apply Hu. eapply owns_used; [|done]. by apply (tr_node _ _ Ht). }
    split; [|split; [done|]].
    - by apply (tree_keep s); [..|unfold geo; rewrite Ks, Kf|].
    - intros k d E. apply (Hkeep k d); [done|apply owns_self].
  Qed.

Lemma set_clean_tree s gd b : tree s gd -> tree (set_super_dirty s b) gd.
  Proof.
    intros [H1 H2 H3 H4 H5 H6]. split; try done.
    - by destruct H1; split.
    - intros k d E. destruct (H2 k d E) as [[] ? ? ?]. by split.
    - by destruct H6; split.
  Qed.

  (** The free map fits in its blocks, which lie on the disk. *)
Lemma map_fits s gd : tree s gd -> exists kb, sfs_freemap_blocks (super s) = kb /\ 1 <= kb <= 16 /\
    Z.of_nat (length (word_bytes (map (freemap s)))) = 4096 * kb /\ SFS_BLKN_FREEMAP + kb <= blocks (super s).
  Proof.
    intros Ht. pose proof (tr_fs _ _ Ht) as Hf. pose proof (fs_size s Hf) as [_ Hmax]. pose proof (fs_bm s Hf) as Hbm.
    destruct (tr_root _ _ Ht) as (r & Er & _). pose proof (in_self _ _ (nd_inode _ _ _ _ (tr_node _ _ Ht _ _ Er))) as [[_ Hroot] _].
    cbn [at_node ino] in Hroot. unfold SFS_BLKN_ROOT in Hroot.
    destruct (freemap_sizes (super s)) as (kb & Ekb & Ebits & Hkb & _); [lia|]. exists kb. split; [done|]. split; [done|].
    pose proof (bm_size _ Hbm) as [_ Ew]. pose proof (bm_len _ Hbm) as Hl. rewrite (ge_nbits _ (tr_geo _ _ Ht)), Ebits in Ew.
    split; [rewrite length_word_bytes; Z.to_euclidean_division_equations; lia|].
    destruct (tr_map _ _ Ht (SFS_BLKN_FREEMAP + kb - 1)) as [[[_ Hlast] _] _]; [rewrite Ekb; unfold SFS_BLKN_FREEMAP; lia|]. lia.
  Qed.

Lemma sync_blocks_Ok s gd : tree s gd -> (forall k d, gd !! k = Some d -> on_disk s k d) ->
    exists s1 s2, sfs_sync_super s = Ok (0, s1) /\ sfs_sync_freemap s1 = Ok (0, s2) /\ tree s2 gd /\ keeps_super s s2 /\
      (forall k d, gd !! k = Some d -> blk s2 k = blk s k) /\ kept_all gd s s2 /\ image (dev s2) gd (super s2) (freemap s2).
  Proof.
    intros Ht Hod. pose proof (tr_fs _ _ Ht) as Hf. pose proof (tr_geo _ _ Ht) as Hg.
    destruct (map_fits s gd Ht) as (kb & Ekb & Hkb & Hlen & Hmax). unfold SFS_BLKN_FREEMAP in Hmax.
    destruct (sync_super_Ok s Hf Hg) as (s1 & E1 & Hr1); [lia|]. exists s1.
    destruct (rewrites_tree s gd _ s1 Ht Hr1) as (Ht1 & Hkp1 & Hb1).
    { intros b Hb k d E Ho. destruct (Z.eqb_spec b 0) as [Hz|Hz]; [rewrite Hz in Ho|by destruct Hb].
      apply (owns_used _ _ _ (nd_inode _ _ _ _ (tr_node _ _ Ht _ _ E))) in Ho. by apply in_use_0 in Ho. }
    destruct Hr1 as (Hok1 & (Ks1 & Kf1 & Kd1) & Hblk1).
    destruct (wblocks_Ok s1 (word_bytes (map (freemap s1))) SFS_BLKN_FREEMAP kb Hok1) as (s2 & E2 & Hr2); unfold SFS_BLKN_FREEMAP in *;
      [lia|lia|rewrite Ks1; lia|rewrite Kf1; lia|apply word_bytes_byte|].
    exists s2. split; [done|]. unfold sfs_sync_freemap, bitmap_getdata, SFS_BLKN_FREEMAP. cbn [fst]. fold (word_bytes (map (freemap s1))).
    rewrite Ks1, Ekb, E2. cbn [rbind]. split; [done|].
    destruct (rewrites_tree s1 gd _ s2 Ht1 Hr2) as (Ht2 & Hkp2 & Hb2).
    { intros b Hb k d E. apply (tr_map _ _ Ht1) with (k := k); [|done]. unfold SFS_BLKN_FREEMAP. rewrite Ks1, Ekb.
      destruct (Z.leb_spec 2 b), (Z.ltb_spec b (2 + kb)); (lia || by destruct Hb). }
    destruct Hr2 as (Hok2 & (Ks2 & Kf2 & Kd2) & Hblk2).
    assert (Hall : forall k d, gd !! k = Some d -> blk s2 k = blk s k) by (intros k d E; rewrite (Hb2 k d E); by apply (Hb1 k d)).
    split; [done|]. split; [split_and!; congruence|]. split; [done|]. split; [by apply (kept_all_trans s s1)|].
    assert (Hs : same s2 (fresh (dev s2) (super s2) (freemap s2))).
    { split; [|done..]. destruct Hok2. split; try done. split; [done|]. apply Forall_replicate. unfold is_byte. lia. }
    split.
    - by eapply tree_same.
    - intros j d Ej. eapply on_disk_blk; [|by apply Hod]. etrans; [apply (bc_blk _ _ _ _ Hs)|]. by eapply Hall.
    - change (dblock (dev s2) 0) with (blk s2 0). rewrite Hblk2, Hblk1. cbn [Z.leb Z.compare andb Z.eqb from_option id]. rewrite Ks2, Ks1.
      destruct (super_bytes_wf s Hg) as [Hl _].
      transitivity (take (length (super_bytes (super s))) (drop 0 (list_inserts 0 (super_bytes (super s)) zeros))); [by rewrite Hl, drop_0|].
      apply sub_inserts_same. pose proof length_zeros as Hz. unfold BLKSIZE in Hz. lia.
    - intros j Hj. unfold SFS_BLKN_FREEMAP. rewrite Ks2, Ks1, Ekb in Hj. change (dblock (dev s2) (2 + j)) with (blk s2 (2 + j)). rewrite Hblk2.
      destruct (Z.leb_spec 2 (2 + j)), (Z.ltb_spec (2 + j) (2 + kb)); try lia. cbn [andb from_option id]. rewrite Kf2. do 3 f_equal. lia.
  Qed.

Lemma sync_Ok v gd : mounted v gd -> (forall n sin, sinfo (the_sfs v) !! n = Some sin -> counted v n) ->
    exists v', sfs_sync (fs_at (the_sfs v)) v = Ok (0, v') /\ mounted v' gd /\ same_vfs v v' /\
      (ssuper (the_sfs v') = ssuper (the_sfs v) /\ sfreemap (the_sfs v') = sfreemap (the_sfs v)) /\ sdirty (the_sfs v') = false /\
      (inode_list (the_sfs v') = inode_list (the_sfs v) /\ fs_at (the_sfs v') = fs_at (the_sfs v) /\ allocs (fsd v') = allocs (fsd v) /\
       dev_info (devs_of v') = dev_info (devs_of v)) /\ (forall n sin, sinfo (the_sfs v') !! n = Some sin -> dirty sin = false) /\
      kept_all gd (sfs_view v) (sfs_view v') /\
      (sdirty (the_sfs v) = true -> image (disk (devs_of v')) gd (ssuper (the_sfs v')) (sfreemap (the_sfs v'))).
  Proof.
    intros Hm Hc. unfold sfs_sync. rewrite (fsop_info_Ok v gd Hm). cbn [rbind].
    destruct (sync_nodes_Ok gd (inode_list (the_sfs v)) v Hm) as (v1 & -> & Hm1 & Hw1 & Hcl).
    { intros n [sin Es]%(mt_list _ _ Hm). split; [eauto|by apply (Hc n sin)]. }
    cbn [rbind]. rewrite <- (wt_at _ _ _ Hw1), (fsop_info_Ok v1 gd Hm1). cbn [rbind].
    assert (Hclean : forall n sin, sinfo (the_sfs v1) !! n = Some sin -> dirty sin = false).
    { intros n sin Es. apply (Hcl n sin); [|done]. rewrite <- (wt_list _ _ _ Hw1). apply (mt_list _ _ Hm1). eauto. }
    destruct (wt_view _ _ _ Hw1) as (Ks & Kf & Kd). cbn in Ks, Kf. change (super_dirty (sfs_view v1) = sdirty (the_sfs v)) in Kd. rewrite Kd.
    destruct (sdirty (the_sfs v)) eqn:Ed.
    - set (s0 := set_super_dirty (sfs_view v1) false). assert (Ht0 : tree s0 gd) by apply set_clean_tree, (mt_tree _ _ Hm1).
      destruct (sync_blocks_Ok s0 gd Ht0) as (s1 & s2 & E1 & E2 & Ht2 & Hk2 & Hb2 & Hkp & Him).
      { intros k d Ek. destruct (mt_disk _ _ Hm1 k d Ek) as [?|(n & sin & Es & _ & Hdy)]; [done|]. by rewrite (Hclean n sin Es) in Hdy. }
      rewrite E1. cbn [rbind negb Z.eqb]. rewrite E2. cbn [rbind negb Z.eqb]. exists (set_view v1 s2). split; [done|].
      assert (Hall : kept_all gd (sfs_view v) (sfs_view (set_view v1 s2))).
      { rewrite view_set. apply (kept_all_trans _ (sfs_view v1)); [apply Hm|apply Hw1|]. apply (kept_all_trans _ s0); [apply Hm1| |exact Hkp].
        apply kept_all_same; [apply Hm1|]. split; [exact (tr_fs _ _ Ht0)|reflexivity|by intros b|by intros b]. }
      destruct Hk2 as (G1 & G2 & G3). cbn in G1, G2, G3.
      split; [by apply mounted_blocks|]. split; [apply Hw1|]. cbn. split; [split; congruence|]. split; [done|]. split; [split; [apply Hw1|split; [done|apply Hw1]]|].
      split; [done|]. split; [exact Hall|done].
    - exists v1. split; [done|]. split; [done|]. split; [apply Hw1|]. split; [done|]. split; [done|]. split; [|split; [done|split; [apply Hw1|done]]].
      split; [apply Hw1|]. split; [done|]. apply Hw1.
  Qed.

  (** Unmounting [disk0] when no inode is in memory. *)
Lemma unmount_Ok v gd a fs l : mounted v gd -> vdev_list v = mk_vfs_dev name_disk0 a fs true :: l -> fs = fs_at (the_sfs v) ->
    (forall d, d ∈ l -> dev_fs d = 0) -> inode_list (the_sfs v) = [] -> sdirty (the_sfs v) = true ->
    exists v', vfs_unmount name_disk0 v = Ok (0, v') /\ bare v' /\ vdev_list v' = mk_vfs_dev name_disk0 a 0 true :: l /\ the_sfs v' = no_sfs /\
      image (disk (devs_of v')) gd (ssuper (the_sfs v)) (sfreemap (the_sfs v)) /\ inodes v' = inodes v /\ bootfs_node v' = bootfs_node v /\
      allocs (fsd v') = allocs (fsd v) /\ dev_info (devs_of v') = dev_info (devs_of v) /\
      kept_all gd (sfs_view v) (fresh (disk (devs_of v')) (ssuper (the_sfs v)) (sfreemap (the_sfs v))).
  Proof.
    intros Hm Ev -> Hl Hnil Hd. unfold vfs_unmount. rewrite Ev. cbn [find_mount mountable devname]. unfold streq. rewrite bool_decide_true by done.
    cbn [andb lookup list_lookup rget rbind dev_fs]. destruct (Z.eqb_spec (fs_at (the_sfs v)) 0) as [E|_]; [by destruct (mt_at _ _ Hm)|].
    cbn [negb mountable rassert rbind].
    assert (Hno : forall n, sinfo (the_sfs v) !! n = None).
    { intros n. destruct (sinfo (the_sfs v) !! n) eqn:E; [|done]. assert (Hin : n ∈ inode_list (the_sfs v)) by (apply (mt_list _ _ Hm); eauto).
      rewrite Hnil in Hin. by apply not_elem_of_nil in Hin. }
    destruct (sync_Ok v gd Hm) as (v1 & Es & Hm1 & (Ei & Eb & Evd) & (Esp & Efm) & Hd1 & (El1 & Ea1 & Eal & Edi) & _ & Hkp & Him).
    { intros n sin E. by rewrite Hno in E. }
    change (fs_sync (fs_at (the_sfs v)) v) with (sfs_sync (fs_at (the_sfs v)) v). rewrite Es. cbn [rbind negb Z.eqb].
    change (fs_unmount (fs_at (the_sfs v)) v1) with (sfs_unmount (fs_at (the_sfs v)) v1). unfold sfs_unmount.
    rewrite <- Ea1, (fsop_info_Ok v1 gd Hm1). cbn [rbind]. rewrite El1, Hnil. rewrite bool_decide_true by done. cbn [negb].
    change (super_dirty (sfs_view v1)) with (sdirty (the_sfs v1)). rewrite Hd1. cbn [negb rassert rbind Z.eqb].
    eexists. split; [reflexivity|]. specialize (Him Hd). rewrite Esp, Efm in Him.
    set (v' := set_vdevs _ _). assert (Evd' : vdev_list v' = mk_vfs_dev name_disk0 a 0 true :: l) by (cbn; by rewrite Evd, Ev).
    split.
    2: { split_and!; try done. apply (kept_all_trans _ (sfs_view v1)); [apply Hm|done|]. apply kept_all_same; [apply Hm1|].
         pose proof (tr_fs _ _ (im_tree _ _ _ _ Him)) as Hok. rewrite <- Esp, <- Efm in Hok |- *. by split. }
    assert (Hbase : forall n i, inodes v !! n = Some i -> dev_node v n i).
    { intros n i E. destruct (mt_node _ _ Hm n i E) as [?|(sin & E' & _)]; [done|]. by rewrite Hno in E'. }
    split.
    - cbn. rewrite Ei. apply Hm.
    - intros n i E. cbn in E. rewrite Ei in E. destruct (Hbase n i E) as [G1 G2 G3 (d & Hdl & Hdn) (dv & Edv & G5)]. split; try done.
      + rewrite Evd'. rewrite Ev in Hdl. apply elem_of_cons in Hdl as [->|Hdl]; [eexists; split; [by left|done]|exists d; split; [by right|done]].
      + exists dv. change (dev_info (devs_of v')) with (dev_info (devs_of v1)). by rewrite Edi.
    - intros d Hdl. rewrite Evd' in Hdl. cbn. rewrite Ei. apply elem_of_cons in Hdl as [->|Hdl].
      + split; [done|]. destruct (mt_vdev _ _ Hm (mk_vfs_dev name_disk0 a (fs_at (the_sfs v)) true)) as (_ & i & E & _); [rewrite Ev; by left|]. by exists i.
      + split; [by apply Hl|]. destruct (mt_vdev _ _ Hm d) as (_ & i & E & _); [rewrite Ev; by right|]. by exists i.
    - exact (mt_stdin _ _ Hm1).
  Qed.
End SfsSync.
