(* ===== verification/SfsSafe.v ===== *)
(** * The mounted kernel: every run is safe

    A disk image is mounted when the kernel starts; processes then use the
    files on it and the devices through their descriptors.  The theorems on the
    whole are here, with the disk on which they are tried. *)
From S2P Require Import Prelude Arith CString Bitmap IoBuf BlockDev Sfs SfsDisk SfsBmap SfsLoad SfsFile SfsSpec SfsTree Vfs File Dev VfsInv DevSpec FileInv FileStep FileProc FileSafe SfsOps SfsInv SfsLaws SfsMount SfsSync.

(** ** A disk image

    Sixteen blocks: the super block, the root directory in block 1, the free
    map in block 2; block 3 holds the only entry of the root, [ab], whose inode
    is block 5 and whose contents are in block 6.  Blocks 4 and 7 to 15 are
    free. *)

Definition img_super : sfs_super := mk_super SFS_MAGIC 16 10 (replicate 32 0).
Definition img_map : bitmap := mk_bitmap 32768 1024 (0xFF90 :: replicate (Z.to_nat 1023) 0).
Definition img_root : sfs_disk_inode := demo_din SFS_TYPE_DIR 4096 3.
Definition img_file : sfs_disk_inode := demo_din SFS_TYPE_FILE 5 6.
Definition img_nodes : gmap Z sfs_disk_inode := <[1 := img_root]> (<[5 := img_file]> ∅).
Definition img_disk : ramdisk :=
  mk_ramdisk 16 (<[0 := super_bytes img_super]> (<[1 := din_bytes img_root]> (<[2 := le_encode 4 0xFF90]>
    (<[3 := le_encode 4 5 ++ [97; 98]]> (<[5 := din_bytes img_file]> (<[6 := [104; 101; 108; 108; 111]]> ∅)))))).

Lemma img_bit i : 0 <= i -> bit img_map i = (i =? 4) || (7 <=? i) && (i <? 16).
Proof.
  intros Hi. destruct (Z.lt_ge_cases i 32) as [Hlt|Hge].
  - assert (H : forallb (fun i => Bool.eqb (bit img_map i) ((i =? 4) || (7 <=? i) && (i <? 16))) (seqZ 0 32) = true) by (vm_compute; reflexivity).
    rewrite forallb_forall in H. apply Bool.eqb_prop, (H i), list_elem_of_In, elem_of_seqZ. lia.
  - unfold bit, img_map. cbn [Bitmap.map].
    assert (E : default 0 ((0xFF90 :: replicate (Z.to_nat 1023) 0) !! Z.to_nat (i / 32)) = 0).
    { rewrite lookup_cons_ne_0 by (Z.to_euclidean_division_equations; lia). destruct (replicate _ _ !! _) eqn:Er; [|done].
      by apply lookup_replicate in Er as [-> _]. }
    rewrite E, Z.bits_0. destruct (Z.eqb_spec i 4), (Z.leb_spec 7 i), (Z.ltb_spec i 16); (done || lia).
Qed.

Lemma img_is_free i : is_free img_map i <-> i = 4 \/ 7 <= i < 16.
Proof.
  unfold is_free. change (nbits img_map) with 32768. split.
  - intros [Hi Hb]. rewrite img_bit in Hb by lia. destruct (Z.eqb_spec i 4), (Z.leb_spec 7 i), (Z.ltb_spec i 16); (done || lia).
  - intros Hi. split; [lia|]. rewrite img_bit by lia. destruct (Z.eqb_spec i 4), (Z.leb_spec 7 i), (Z.ltb_spec i 16); (done || lia).
Qed.

Lemma img_count : size (free_set img_map) = 10%nat.
Proof.
  assert (free_set img_map = list_to_set ([4] ++ seqZ 7 9)) as ->; [|vm_compute; reflexivity]. apply set_eq. intros i.
  rewrite elem_of_free_set, elem_of_list_to_set, elem_of_app, list_elem_of_singleton, elem_of_seqZ, img_is_free. lia.
Qed.

Lemma img_fs_ok : fs_ok (fresh img_disk img_super img_map).
Proof.
  split.
  - split; cbn -[replicate]; [done|done| |intros i Hi; lia].
    constructor; [unfold is_u32, two32; lia|]. apply Forall_replicate. unfold is_u32, two32. lia.
  - done.
  - intros b Hb%img_is_free. cbn. lia.
  - cbn [fresh super freemap img_super unused_blocks]. by rewrite img_count.
  - apply (bool_decide_eq_true_1 (map_Forall (fun _ l => Forall (fun z => 0 <= z < 256) l) (rd_data img_disk))). vm_compute. reflexivity.
  - done.
  - split; [apply length_zeros|]. apply Forall_replicate. unfold is_byte. lia.
Qed.

Lemma img_used b : b = 1 \/ b = 2 \/ b = 3 \/ b = 5 \/ b = 6 -> in_use (fresh img_disk img_super img_map) b.
Proof. intros Hb. split; [cbn; lia|]. intros H%img_is_free. lia. Qed.

Lemma img_lookup k d : img_nodes !! k = Some d -> k = 1 /\ d = img_root \/ k = 5 /\ d = img_file.
Proof.
  unfold img_nodes. destruct (decide (k = 1)) as [->|]; [rewrite lookup_insert_eq; intros [= <-]; by left|]. rewrite lookup_insert_ne by done.
  destruct (decide (k = 5)) as [->|]; [rewrite lookup_insert_eq; intros [= <-]; by right|]. by rewrite lookup_insert_ne.
Qed.

Lemma img_owns k d b : img_nodes !! k = Some d -> owns (fresh img_disk img_super img_map) (at_node k d) b ->
  k = 1 /\ (b = 1 \/ b = 3) \/ k = 5 /\ (b = 5 \/ b = 6).
Proof.
  intros E [->|[[-> Hb]|(i & Hi & <-)]]; cbn [at_node ino din] in *.
  - destruct (img_lookup k d E) as [[-> ->]|[-> ->]]; lia.
  - by destruct (img_lookup k d E) as [[-> ->]|[-> ->]].
  - destruct (img_lookup k d E) as [[-> ->]|[-> ->]]; cbn [img_root img_file demo_din dblocks] in Hi;
      unfold img_root, img_file; rewrite entry_one by lia; destruct (Z.eqb_spec i 0); lia.
Qed.

Lemma img_tree : tree (fresh img_disk img_super img_map) img_nodes.
Proof.
  split.
  - apply img_fs_ok.
  - intros k d E. destruct (img_lookup k d E) as [[-> ->]|[-> ->]].
    + split; [apply one_block_ok; [by apply img_used; lia..|done]|cbn; unfold two32; lia|cbn; lia|right; split; [done|]].
      constructor; [|constructor]. right. exists img_file. vm_compute. reflexivity.
    + split; [apply one_block_ok; [by apply img_used; lia..|done]|cbn; unfold two32; lia|cbn; lia|by left].
  - intros k d k' d' b E E' Hne Ho Ho'. pose proof (img_owns k d b E Ho). pose proof (img_owns k' d' b E' Ho'). lia.
  - exists img_root. split; [vm_compute; reflexivity|done].
  - intros b Hb. assert (b = 2) as ->.
    { change (sfs_freemap_blocks (super (fresh img_disk img_super img_map))) with 1 in Hb. unfold SFS_BLKN_FREEMAP in Hb. lia. }
    split; [by apply img_used; lia|]. intros k d E Ho. pose proof (img_owns k d 2 E Ho). lia.
  - split; [done| |done]. split; [done|]. split; [done|]. apply Forall_replicate. unfold is_byte. lia.
Qed.

Lemma img_image : image img_disk img_nodes img_super img_map.
Proof.
  split.
  - apply img_tree.
  - intros k d E. destruct (img_lookup k d E) as [[-> ->]|[-> ->]]; vm_compute; reflexivity.
  - vm_compute. reflexivity.
  - intros j Hj. assert (j = 0) as ->; [|vm_compute; reflexivity]. change (sfs_freemap_blocks img_super) with 1 in Hj. lia.
Qed.

(** ** Starting the kernel *)

Section Boot.
  Context {D : Type} `{!BlockDev D, !BlockRead D, !BlockWrite D}.
  Implicit Types (v : vfs (kfs D)) (k : kfs D) (gd : gmap Z sfs_disk_inode).

  (** [fs_init] (fs.c); [a1], [a2], [a3]: the addresses of the inodes of the
      devices, [dinit]: the initialisation of the disk. *)
Definition fs_init (a1 a2 a3 : Z) (dinit : D -> res D) k : res (vfs (kfs D)) :=
    let! v := dev_init true a1 a2 a3 dinit (mk_vfs ∅ 0 [] k) in sfs_init v.

  (** The first process gets a table of open files. *)
Definition kernel_boot (a1 a2 a3 : Z) (dinit : D -> res D) (p : Z) (raw : list file) k : res (fstate (kfs D)) :=
    let! v := fs_init a1 a2 a3 dinit k in files_count_inc p (files_create p raw (mk_fstate v ∅)).2.

  (** A machine that can start: the console is empty, the disk holds the image
      of a file system that is not larger than it, and there is memory. *)
Record bootable (a1 a2 a3 : Z) (dinit : D -> res D) k gd : Prop := {
    bo_addrs : a1 <> 0 /\ a2 <> 0 /\ a3 <> 0 /\ NoDup [a1; a2; a3];
    bo_stdin : stdin_ok (kdevs k);
    bo_disk : exists d sp fm, dinit (disk (kdevs k)) = Ok d /\ d_blocksize d = 4096 /\ blocks sp <= d_blocks d /\ image d gd sp fm;
    bo_mem : exists fs rest, mount_allocs (allocs k) fs rest
  }.

Lemma fs_init_Ok a1 a2 a3 dinit k gd : bootable a1 a2 a3 dinit k gd ->
    exists v, fs_init a1 a2 a3 dinit k = Ok v /\ mounted v gd /\ vgood v none none /\ bootfs_node v = 0 /\ sinfo (the_sfs v) = ∅.
  Proof.
    intros [(H1 & H2 & H3 & Hnd) Hs (d & sp & fm & Ed & Hbs & Hbl & Him) (fs & rest & Hal)]. unfold fs_init.
    destruct (dev_init_spec (F := kfs D) (D := D) a1 a2 a3 dinit d k H1 H2 H3 Hnd) as (v & -> & Hr & Ev & Ef & _ & _ & Edk & Edi); [exact Hs|exact Ed|done|]. cbn [rbind].
    destruct (sfs_init_Ok v a3 (mk_device (d_blocks d) (d_blocksize d) DDisk0) _ gd sp fm fs rest Hr Ev) as (v' & E & Hm & Hg & Hb & _ & Es & _).
    - rewrite Edi. apply lookup_insert_eq.
    - done.
    - done.
    - done.
    - by rewrite Edk.
    - by rewrite Ef.
    - by exists v'.
  Qed.

Lemma boot_Ok a1 a2 a3 dinit k gd p raw : bootable a1 a2 a3 dinit k gd -> p <> 0 -> length raw = Z.to_nat FILES_STRUCT_NENTRY ->
    exists st, kernel_boot a1 a2 a3 dinit p raw k = Ok st /\ fgood st [(p, None)] /\ mounted (fvfs st) gd.
  Proof.
    intros Hb Hp Hl. destruct (fs_init_Ok a1 a2 a3 dinit k gd Hb) as (v & Ev & Hm & Hg & Hboot & _). unfold kernel_boot. rewrite Ev. cbn [rbind].
    destruct (first_process v p raw Hg) as (st & Es & Hf); [by left|done|done|]. exists st. split; [done|]. split; [done|].
    assert (fvfs st = v) as ->; [|done]. unfold files_count_inc in Es. apply rbind_Ok in Es as (fs & _ & [= <-]).
    unfold files_create. destruct (Z.eqb_spec p 0); [done|]. done.
  Qed.
End Boot.

(** ** The theorems *)

Section SfsTheorems.
  Context {D : Type} `{!BlockDev D, !BlockRead D, !BlockWrite D}.
  Implicit Types (v : vfs (kfs D)) (k : kfs D) (gd : gmap Z sfs_disk_inode).

  (** C1: On a disk that stores what is written to it ([BlockWrite]; the [disk0]
      driver does not) and that holds a file system, the kernel starts with that
      file system mounted, and every admissible run of its processes goes
      through: no assertion of the open files, the inodes or the file system
      fails, and the file system stays well formed: the disk with the inodes in
      memory is again a tree of inodes without a shared block.  Admissible is a
      run in which a process calls only what the inode has (other calls stop the
      kernel), opens files without [O_CREAT] and [O_TRUNC], transfers at most a
      block in a call, writes from inside the file with room on the disk for what
      is added, and names paths whose components fit; the root inode can be
      loaded and no reference count overflows. *)
Theorem kernel_files_safe a1 a2 a3 dinit k gd p raw es : bootable a1 a2 a3 dinit k gd -> p <> 0 -> length raw = Z.to_nat FILES_STRUCT_NENTRY ->
    exists st, kernel_boot a1 a2 a3 dinit p raw k = Ok st /\ mounted (fvfs st) gd /\
      (admissible es (st, [(p, None)]) -> exists w, frun es (st, [(p, None)]) = Ok w /\ fgood w.1 w.2 /\ exists gd', mounted (fvfs w.1) gd').
  Proof.
    intros Hb Hp Hl. destruct (boot_Ok a1 a2 a3 dinit k gd p raw Hb Hp Hl) as (st & E & Hf & Hm). exists st. split; [done|]. split; [done|].
    intros Ha. destruct (frun_Ok es (st, [(p, None)]) Hf Ha) as (w & Er & Hg). exists w. split; [done|]. split; [done|].
    exact (vg_inv _ _ _ (fk_v _ _ _ _ Hg)).
  Qed.

  (** C15: After an admissible run an inode in memory is that of a device, with
      the table of the devices, or that of an inode of the file system, with the
      table for what it is on the disk: a directory or a file; and no two are the
      same inode of the disk. *)
Theorem kernel_inodes_typed es (w w' : world) : fgood w.1 w.2 -> admissible es w -> frun es w = Ok w' ->
    (forall n i, inodes (fvfs w'.1) !! n = Some i ->
       in_type i = inode_type_device_info /\ in_ops i = dev_node_ops \/
       exists gd sin, mounted (fvfs w'.1) gd /\ sinfo (the_sfs (fvfs w'.1)) !! n = Some sin /\ gd !! ino sin = Some (din sin) /\
         in_type i = inode_type_sfs_inode_info /\
         (dtype (din sin) = SFS_TYPE_DIR /\ in_ops i = sfs_node_dirops \/ dtype (din sin) = SFS_TYPE_FILE /\ in_ops i = sfs_node_fileops)) /\
    (forall n m a b, sinfo (the_sfs (fvfs w'.1)) !! n = Some a -> sinfo (the_sfs (fvfs w'.1)) !! m = Some b -> ino a = ino b -> n = m).
  Proof.
    intros Hg Ha E. destruct (frun_Ok es w Hg Ha) as (w2 & E2 & Hg'). rewrite E in E2. injection E2 as <-.
    destruct (vg_inv _ _ _ (fk_v _ _ _ _ Hg')) as (gd & Hm). split; [|apply Hm]. intros n i Ei.
    destruct (mt_node _ _ Hm n i Ei) as [[]|(sin & Es & [Ht _ _])]; [by left|right]. destruct (mounted_snode _ gd n sin Hm Es) as (j & Hj).
    assert (j = i) as -> by (pose proof (sn_in _ _ _ _ _ Hj); congruence). exists gd, sin. split; [done|]. split; [done|].
    split; [apply (ca_disk _ _ _ _ (sn_ca _ _ _ _ _ Hj))|]. split; [done|].
    destruct (sfs_ops_cases _ gd n i sin Hm Hj) as [[H1 H2]|[H1 H2]]; [by left|by right].
  Qed.

  (** C17: On a disk that stores what is written to it ([BlockWrite]; the [disk0]
      driver does not, so what was changed is lost there), nothing is lost by
      unmounting and mounting: when no inode of the file system is in memory,
      its super block is marked as changed, no other device is mounted, the disk
      has the block size of the file system and at least its blocks, and there is
      memory, [vfs_unmount] and then [sfs_mount] succeed, and afterwards the file
      system has the same inodes, super block and free map, every file the same
      bytes and every directory the same entries. *)
Theorem sfs_remount v gd a l fs rest dv : mounted v gd -> vdev_list v = mk_vfs_dev name_disk0 a (fs_at (the_sfs v)) true :: l ->
    (forall d, d ∈ l -> dev_fs d = 0) -> inode_list (the_sfs v) = [] -> sdirty (the_sfs v) = true ->
    dev_info (devs_of v) !! a = Some dv -> dv_driver dv = DDisk0 -> dv_blocksize dv = 4096 -> blocks (ssuper (the_sfs v)) <= dv_blocks dv ->
    mount_allocs (allocs (fsd v)) fs rest ->
    exists v1 v2, vfs_unmount name_disk0 v = Ok (0, v1) /\ sfs_mount name_disk0 v1 = Ok (0, v2) /\ mounted v2 gd /\
      ssuper (the_sfs v2) = ssuper (the_sfs v) /\ sfreemap (the_sfs v2) = sfreemap (the_sfs v) /\
      forall (k : Z) d, gd !! k = Some d ->
        (dtype d = SFS_TYPE_FILE -> abs (sfs_view v2) (at_node k d) ≡ abs (sfs_view v) (at_node k d)) /\
        dir_entries (sfs_view v2) (at_node k d) = dir_entries (sfs_view v) (at_node k d).
  Proof.
    intros Hm Ev Hl Hnil Hd Edv Hdr Hbs Hbl Hal.
    destruct (unmount_Ok v gd a _ l Hm Ev eq_refl Hl Hnil Hd) as (v1 & E1 & Hb1 & Ev1 & _ & Him & _ & _ & Eal & Edi & Hk1).
    destruct (mount_Ok v1 a dv l gd (ssuper (the_sfs v)) (sfreemap (the_sfs v)) fs rest Hb1 Ev1) as (v2 & E2 & Hm2 & _ & _ & _ & _ & _ & _ & Esp & Efm & Hk2);
      try done; [by rewrite Edi|by rewrite Eal|].
    exists v1, v2. split; [done|]. split; [done|]. split; [done|]. split; [done|]. split; [done|]. intros k d E.
    apply (kept_all_contents _ _ gd); [apply Hm| |done]. eapply kept_all_trans; [apply Hm|exact Hk1|exact Hk2].
  Qed.
End SfsTheorems.

(** ** A run on the image *)

Section Demo.
Definition boot_kfs : kfs ramdisk :=
    mk_kfs (mk_devs ∅ (replicate (Z.to_nat 4096) 0) 0 0 [Keys [104]; Keys [105; 10]] [] img_disk) no_sfs
      ((fun a => (a, [])) <$> [100; 101; 102; 103; 104; 105; 200; 106; 201; 107; 202; 108; 203; 109; 204; 110; 205; 300; 301; 302; 303; 304]).
Definition boot_world : res (world (F := kfs ramdisk)) :=
    let! st := kernel_boot 1 2 3 (fun k => Ok k) 7 demo_raw boot_kfs in Ok (st, [(7, None)]).

Lemma boot_kfs_ok : bootable 1 2 3 (fun k => Ok k) boot_kfs img_nodes.
  Proof.
    split.
    - do 3 (split; [done|]). by apply (bool_decide_eq_true_1 (NoDup [1; 2; 3])); vm_compute.
    - split; cbn; (done || lia).
    - exists img_disk, img_super, img_map. split; [done|]. split; [done|]. split; [done|]. apply img_image.
    - eexists 100, _, [], 101, [], 102, [], 103, [], 104, []. split; [reflexivity|]. done.
  Qed.

  (** The same start without counting the free blocks bit by bit, which is what
      the runs below are computed from. *)
Definition quick_mount (devno : Z) (v : vfs (kfs ramdisk)) : res (Z * Z * vfs (kfs ramdisk)) :=
    let! (ret, r, v) := sfs_mount_read devno v in
    match r with None => Ok (ret, 0, v) | Some (fs, sp, fm, buf) => Ok (0, fs, set_sfs v (mk_sfst fs sp fm false buf ∅ [] ∅)) end.
Definition boot_devs : res (vfs (kfs ramdisk)) := dev_init true 1 2 3 (fun k => Ok k) (mk_vfs ∅ 0 [] boot_kfs).
Definition quick_world : res (world (F := kfs ramdisk)) :=
    let! v := boot_devs in
    let! (ret, v) := vfs_mount quick_mount name_disk0 v in
    let! v := if negb (ret =? 0) then Err KPanic else Ok v in
    let! st := files_count_inc 7 (files_create 7 demo_raw (mk_fstate v ∅)).2 in Ok (st, [(7, None)]).

Lemma vfs_mount_at {F} `{!InodeOps F} (f g : Z -> vfs F -> res (Z * Z * vfs F)) name v k d : find_mount name (vdev_list v) = Some k ->
    vdev_list v !! k = Some d -> f (devnode d) v = g (devnode d) v -> vfs_mount f name v = vfs_mount g name v.
  Proof. intros E1 E2 E3. unfold vfs_mount. rewrite E1, E2. cbn [rget rbind]. by rewrite E3. Qed.

  (** The disk is device 3, and its free map is read as it is in the image. *)
Definition boot_read_b (v : vfs (kfs ramdisk)) : bool :=
    bool_decide (find_mount name_disk0 (vdev_list v) = Some 0%nat) && bool_decide (devnode <$> vdev_list v !! 0%nat = Some 3) &&
    match sfs_mount_read 3 v with
    | Ok (ret, Some (_, sp, fm, _), _) => (ret =? 0) && (unused_blocks sp =? 10) && (sfs_freemap_bits sp =? nbits img_map) && bool_decide (fm = img_map)
    | _ => false
    end.

Lemma boot_read_checks : match boot_devs with Ok v => boot_read_b v | Err _ => false end = true.
  Proof. vm_compute. reflexivity. Qed.

Lemma boot_quick : boot_world = quick_world.
  Proof.
    unfold boot_world, quick_world, kernel_boot, fs_init, sfs_init, sfs_mount. fold boot_devs. pose proof boot_read_checks as Hc.
    destruct boot_devs as [v|]; [|done]. cbn [rbind]. unfold boot_read_b in Hc. rewrite !andb_true_iff, !bool_decide_eq_true in Hc.
    destruct Hc as ((Ek & Ed) & Hc). destruct (vdev_list v !! 0%nat) as [d|] eqn:E0; [|done]. injection Ed as Ed.
    rewrite (vfs_mount_at sfs_do_mount quick_mount _ v 0 d Ek E0).
    - destruct (vfs_mount quick_mount name_disk0 v) as [[ret v']|]; [|done]. cbn [rbind]. by destruct (negb (ret =? 0)).
    - rewrite Ed. unfold quick_mount. destruct (sfs_mount_read 3 v) as [[[ret [[[[fs sp] fm] buf]|]] v']|] eqn:Er; try done. cbn [rbind].
      rewrite !andb_true_iff, !Z.eqb_eq, bool_decide_eq_true in Hc. destruct Hc as (((-> & Hu) & Hb) & ->).
      apply (do_mount_read _ _ _ _ _ _ _ Er); [apply (fs_bm _ img_fs_ok)|done|]. by rewrite img_count.
  Qed.

  (** What the inodes of the file system and of the console support. *)
Definition fits_b (s : sfs_fs ramdisk) (sin : sfs_inode) (len : Z) : bool :=
    (len <=? NBLOCKS * 4096) && ((len <=? dblocks (din sin) * 4096) || (2 * ((len + 4095) / 4096 - dblocks (din sin)) <=? unused_blocks (super s))).

Definition entry_b (st : fstate (kfs ramdisk)) p i (f : file -> bool) : bool := match file_at p i st with Ok e => f e | Err _ => false end.

Definition rw_b (w : bool) (data : list Z) (base len : Z) (st : fstate (kfs ramdisk)) (e : file) : bool :=
    (0 <=? base) && (0 <=? len) && (base + len <=? Z.of_nat (length data)) &&
    match sinfo (the_sfs (fvfs st)) !! node e with
    | Some sin => (opsof (fvfs st) (node e) =? sfs_node_fileops) && (len <=? 4096) &&
        (negb w || forallb (fun b => (0 <=? b) && (b <? 256)) data && (0 <=? pos e) && (pos e <=? dsize (din sin)) && fits_b (sfs_view (fvfs st)) sin (pos e + len))
    | None => (opsof (fvfs st) (node e) =? dev_node_ops) &&
        match dev_info (devs_of (fvfs st)) !! node e with Some dev => bool_decide (dv_driver dev <> DDisk0) | None => false end
    end.

Definition kfs_supb (c : call) (st : fstate (kfs ramdisk)) (p i : Z) : bool :=
    match c with
    | CFstat => true
    | CRead data base len => entry_b st p i (rw_b false data base len st)
    | CWrite data base len => entry_b st p i (rw_b true data base len st)
    | CSeek dst whence => entry_b st p i (fun e => (whence =? LSEEK_SET) && (opsof (fvfs st) (node e) =? sfs_node_fileops) &&
        match sinfo (the_sfs (fvfs st)) !! node e with Some sin => dst <=? dsize (din sin) | None => false end)
    | CFsync => entry_b st p i (fun e => (opsof (fvfs st) (node e) =? sfs_node_fileops) || (opsof (fvfs st) (node e) =? sfs_node_dirops))
    | CGetdirentry offset name => entry_b st p i (fun e => (opsof (fvfs st) (node e) =? sfs_node_dirops) && (256 <=? Z.of_nat (length name)))
    end.

Lemma entry_b_sound st p i f P : entry_b st p i f = true -> (forall e, f e = true -> P e) -> forall e, has_entry st p i e -> P e.
  Proof. unfold entry_b. intros H HP e He. rewrite (file_at_Ok _ _ _ _ He) in H. by apply HP. Qed.

Lemma rw_b_sound w data base len st e : rw_b w data base len st e = true ->
    let v := fvfs st in let iob := iobuf_init data base len (pos e) in
    (opsof v (node e) = sfs_node_fileops \/ opsof v (node e) = dev_node_ops) /\ (if w then k_can_write v (node e) iob else k_can_read v (node e) iob).
  Proof.
    unfold rw_b, k_can_read, k_can_write. intros H. rewrite !andb_true_iff, !Z.leb_le in H. destruct H as (((Hb & Hl) & Hn) & H).
    assert (Hio : iob_ok (iobuf_init data base len (pos e))) by (unfold iob_ok; cbn; lia).
    destruct (sinfo _ !! node e) as [sin|].
    - rewrite !andb_true_iff, Z.eqb_eq, Z.leb_le in H. destruct H as ((Ho & Hmax) & H). split; [by left|]. destruct w; [|done].
      cbn [negb orb] in H. unfold fits_b in H. rewrite !andb_true_iff, orb_true_iff, !Z.leb_le in H. destruct H as (((Hby & Hp) & Hs) & Hf1 & Hf2).
      split; [done|]. split; [|split; [done|split; [cbn; lia|]]].
      + apply Forall_forall. intros b Hbi. rewrite forallb_forall in Hby. specialize (Hby b (proj1 (list_elem_of_In _ _) Hbi)). unfold is_byte. cbn in Hby. lia.
      + split; [done|]. cbn. intros Hgt. destruct Hf2 as [?|?]; [lia|done].
    - rewrite andb_true_iff, Z.eqb_eq in H. destruct H as (Ho & H). split; [by right|].
      destruct w; (split; [done|]); intros dev Ed; rewrite Ed in H; by apply bool_decide_eq_true in H.
  Qed.

Lemma kfs_supb_sound c st p i : kfs_supb c st p i = true -> supported c st p i.
  Proof.
    destruct c as [data base len|data base len|dst whence| | |offset name]; try done; cbn [kfs_supb supported]; intros H;
      intros e0 He0; revert e0 He0; refine (entry_b_sound st p i _ _ H _); intros e He.
    - destruct (rw_b_sound _ _ _ _ _ _ He) as [[-> | ->] Hc]; done.
    - destruct (rw_b_sound _ _ _ _ _ _ He) as [[-> | ->] Hc]; done.
    - rewrite !andb_true_iff, !Z.eqb_eq in He. destruct He as ((-> & ->) & He). split; [done|]. split; [|by split].
      intros _ sin Es Hlt. rewrite Es in He. lia.
    - rewrite orb_true_iff, !Z.eqb_eq in He. destruct He as [-> | ->]; done.
    - rewrite andb_true_iff, Z.eqb_eq, Z.leb_le in He. destruct He as [-> Hl]. split; [done|].
      assert (iob_ok (iobuf_init name 0 256 offset)); [|done]. unfold iob_ok. cbn [iobuf_init io_base io_resid io_data]. lia.
  Qed.

  (** A path of the system calls, when the root can be loaded. *)
Definition ready_b (v : vfs (kfs ramdisk)) (k : Z) : bool :=
    existsb (fun e => ino e.2 =? k) (map_to_list (sinfo (the_sfs v))) ||
    match allocs (fsd v) with (a1, _) :: (a2, _) :: _ => negb (a1 =? 0) && negb (a2 =? 0) && bool_decide (inodes v !! a2 = None) | _ => false end.

Lemma ready_b_sound v k : ready_b v k = true -> ready v k.
  Proof.
    unfold ready_b. rewrite orb_true_iff. intros [H|H].
    - left. apply existsb_exists in H as ([n sin] & Hin%list_elem_of_In & E). apply elem_of_map_to_list in Hin. exists n, sin.
      split; [done|]. by apply Z.eqb_eq.
    - right. destruct (allocs (fsd v)) as [|[a1 m1] [|[a2 m2] l]]; [done..|]. rewrite !andb_true_iff, !negb_true_iff, !Z.eqb_neq, bool_decide_eq_true in H.
      exists a1, m1, a2, m2, l. split; [done|]. tauto.
  Qed.

Definition kfs_pathb (path : list Z) (v : vfs (kfs ramdisk)) : bool :=
    forallb (fun b => negb (b =? 0)) path && (Z.of_nat (length path) <=? SFS_MAX_FNAME_LEN) && ready_b v SFS_BLKN_ROOT.

Lemma kfs_pathb_sound path (st : fstate (kfs ramdisk)) ps : fgood st ps -> kfs_pathb path (fvfs st) = true -> path_fits path /\ can_root (fvfs st).
  Proof.
    intros _ H. unfold kfs_pathb in H. rewrite !andb_true_iff, Z.leb_le in H. destruct H as ((Hz & Hl) & Hr).
    split; [|by apply ready_b_sound]. intros q [k ->] Hne Hhd. split; [done|]. split; [done|]. rewrite length_app in Hl. split; [|lia].
    apply Forall_forall. intros b Hb. rewrite forallb_forall in Hz. specialize (Hz b). rewrite negb_true_iff, Z.eqb_neq in Hz. apply Hz.
    apply list_elem_of_In, elem_of_app. by right.
  Qed.
End Demo.

Definition path_disk : list Z := name_disk0 ++ [58].
Definition path_ab : list Z := path_disk ++ [97; 98].
Definition data_hi : list Z := [72; 73].
Definition data_big : list Z := replicate (Z.to_nat 4096) 33.
Definition data_in : list Z := replicate (Z.to_nat 256) 0.

(** The parent reads, changes and extends the file [ab]; the child lists the
    root and opens [ab] by its name there. *)
Definition kernel_run : list event :=
  let call k fd c := [ECall k fd c; EReturn k c] in
  [EOpen 0 path_ab O_RDWR] ++ call 0%nat 0 (CRead data_in 0 5) ++ call 0%nat 0 (CWrite data_hi 0 2) ++ call 0%nat 0 (CSeek 3 LSEEK_SET) ++
  call 0%nat 0 (CWrite data_big 0 4096) ++ call 0%nat 0 CFstat ++ call 0%nat 0 CFsync ++ [EFork 0 0 8 demo_raw; EChdir 1 path_disk; EOpen 1 path_disk O_RDONLY] ++
  call 1%nat 1 (CGetdirentry 0 data_in) ++ [EOpen 1 [97; 98] O_RDONLY] ++ call 1%nat 2 (CRead data_in 0 256) ++ call 1%nat 2 CFsync ++
  [EOpen 1 path_stdin O_RDONLY] ++ call 1%nat 3 (CRead data_in 0 3) ++ [EClose 1 0; EExit 1; EClose 0 0; EExit 0].

Lemma kernel_checks : match boot_world with Ok w => checks kfs_supb kfs_pathb kernel_run w | Err _ => false end = true.
Proof. rewrite boot_quick. vm_compute. reflexivity. Qed.

(** The kernel has started, and the run is allowed. *)
Lemma boot_good : exists st, boot_world = Ok (st, [(7, None)]) /\ fgood st [(7, None)] /\ admissible kernel_run (st, [(7, None)]).
Proof.
  destruct (boot_Ok 1 2 3 (fun k => Ok k) boot_kfs img_nodes 7 demo_raw boot_kfs_ok) as (st & E & Hg & _); [done|done|].
  exists st. assert (Ew : boot_world = Ok (st, [(7, None)])) by (unfold boot_world; by rewrite E). split; [done|]. split; [done|].
  pose proof kernel_checks as Hc. rewrite Ew in Hc. exact (checks_admissible kfs_supb kfs_supb_sound kfs_pathb kfs_pathb_sound kernel_run (st, [(7, None)]) Hg Hc).
Qed.

Lemma kernel_files_safe_witness : exists st, kernel_boot 1 2 3 (fun k => Ok k) 7 demo_raw boot_kfs = Ok st /\
  exists w, frun kernel_run (st, [(7, None)]) = Ok w /\ fgood w.1 w.2 /\ exists gd', mounted (fvfs w.1) gd'.
Proof.
  destruct boot_good as (st0 & E0 & _ & Ha).
  destruct (kernel_files_safe 1 2 3 (fun k => Ok k) boot_kfs img_nodes 7 demo_raw kernel_run boot_kfs_ok) as (st & E & _ & H); [discriminate|reflexivity|].
  exists st. split; [exact E|]. apply H. unfold boot_world in E0. rewrite E in E0. injection E0 as ->. exact Ha.
Defined.

Lemma kernel_inodes_typed_witness : exists w w', boot_world = Ok w /\ frun kernel_run w = Ok w' /\
  forall n m a b, sinfo (the_sfs (fvfs w'.1)) !! n = Some a -> sinfo (the_sfs (fvfs w'.1)) !! m = Some b -> ino a = ino b -> n = m.
Proof.
  destruct boot_good as (st & E & Hg & Ha). destruct (frun_Ok kernel_run (st, [(7, None)]) Hg Ha) as (w' & Er & _).
  exists (st, [(7, None)]), w'. split; [exact E|]. split; [exact Er|]. exact (proj2 (kernel_inodes_typed kernel_run (st, [(7, None)]) w' Hg Ha Er)).
Defined.

(** The state at the end of the run. *)
Lemma kernel_ends : match boot_world with Ok w => match frun kernel_run w with
  | Ok (st, ps) => let v := fvfs st in
      bool_decide (vdev_list v = [mk_vfs_dev name_disk0 3 (fs_at (the_sfs v)) true; mk_vfs_dev name_stdout 2 0 false; mk_vfs_dev name_stdin 1 0 false]) &&
      bool_decide (inode_list (the_sfs v) = []) && sdirty (the_sfs v) && (blocks (ssuper (the_sfs v)) <=? 16) &&
      bool_decide (dev_info (devs_of v) !! 3 = Some (mk_device 16 4096 DDisk0)) &&
      bool_decide (allocs (fsd v) = (fun a => (a, [])) <$> [204; 110; 205; 300; 301; 302; 303; 304])
  | Err _ => false end | Err _ => false end = true.
Proof. rewrite boot_quick. vm_compute. reflexivity. Qed.

(** The disk is unmounted after the run and mounted again. *)
Lemma sfs_remount_witness : exists w w' v1 v2, boot_world = Ok w /\ frun kernel_run w = Ok w' /\
  vfs_unmount name_disk0 (fvfs w'.1) = Ok (0, v1) /\ sfs_mount name_disk0 v1 = Ok (0, v2).
Proof.
  destruct boot_good as (st & E & Hg & Ha). destruct (frun_Ok kernel_run (st, [(7, None)]) Hg Ha) as ([st' ps] & Er & Hg').
  destruct (vg_inv _ _ _ (fk_v _ _ _ _ Hg')) as (gd & Hm). pose proof kernel_ends as Hc. rewrite E in Hc. rewrite Er in Hc. cbn [fst] in *.
  rewrite !andb_true_iff, !bool_decide_eq_true, Z.leb_le in Hc. destruct Hc as (((((Ev & Hn) & Hd) & Hb) & Ed) & Ea).
  destruct (sfs_remount (fvfs st') gd 3 _ 204 ((fun a => (a, [])) <$> [302; 303; 304]) (mk_device 16 4096 DDisk0) Hm Ev) as (v1 & v2 & E1 & E2 & _);
    [|exact Hn|exact Hd|exact Ed|reflexivity|reflexivity|exact Hb| |].
  - intros d Hin. rewrite !elem_of_cons, elem_of_nil in Hin. destruct Hin as [-> | [-> | []]]; reflexivity.
  - rewrite Ea. eexists [], 110, [], 205, [], 300, [], 301, []. split; [reflexivity|]. split_and!; discriminate.
  - exists (st, [(7, None)]), (st', ps), v1, v2. split; [exact E|]. split; [exact Er|]. split; [exact E1|exact E2].
Defined.
