(* ===== verification/Stab.v ===== *)
(** * Debugging information (kern/debug/kdebug.c, kern/debug/stab.h)

    The table of stabs and the search in it: [stab_binsearch] and
    [debuginfo_eip].  The search reads the table through [stab_at], which
    fails outside of it.  Printing the result ([print_debuginfo],
    [print_stackframe], [print_kerninfo]) is left out. *)
From S2P Require Import Prelude Arith CString IoBuf BlockDev Vmm.

Definition N_FUN : Z := 0x24.
Definition N_SLINE : Z := 0x44.
Definition N_SO : Z := 0x64.
Definition N_SOL : Z := 0x84.
Definition N_PSYM : Z := 0xa0.

Record stab := mk_stab { n_strx : Z; n_type : Z; n_other : Z; n_desc : Z; n_value : Z }.

(** ** The search *)

Section Search.
  Context (stab_at : Z -> res stab).

  (** [while (m >= l && stabs[m].n_type != type) m --]. *)
Definition scan_down (l type m : Z) : res Z :=
    loop (fun m =>
      if l <=? m then let! s := stab_at m in if n_type s =? type then Ok (inr m) else Ok (inl (m - 1))
      else Ok (inr m)) m.

  (** The locals of [stab_binsearch] and what it stores. *)
Record search := mk_search { s_l : Z; s_r : Z; s_addr : Z; region_left : Z; region_right : Z; any_matches : bool }.

Definition binsearch_body (type : Z) (s : search) : res (search + search) :=
    let '(mk_search l r addr rl rr any) := s in
    if l <=? r then
      let true_m := Z.quot (s32 (l + r)) 2 in
      let! m := scan_down l type true_m in
      if m <? l then Ok (inl (mk_search (true_m + 1) r addr rl rr any))
      else
        let! s := stab_at m in
        if n_value s <? addr then Ok (inl (mk_search (true_m + 1) r addr m rr true))
        else if addr <? n_value s then Ok (inl (mk_search l (m - 1) addr rl (m - 1) true))
        else Ok (inl (mk_search m r (u32 (addr + 1)) m rr true))
    else Ok (inr s).

  (** [for (; l > *region_left && stabs[l].n_type != type; l --)]. *)
Definition scan_left (left type l : Z) : res Z :=
    loop (fun l =>
      if left <? l then let! s := stab_at l in if n_type s =? type then Ok (inr l) else Ok (inl (l - 1))
      else Ok (inr l)) l.

Definition stab_binsearch (left right type addr : Z) : res (Z * Z) :=
    let! s := loop (binsearch_body type) (mk_search left right addr left right false) in
    if negb (any_matches s) then Ok (region_left s, region_left s - 1)
    else let! l := scan_left (region_left s) type (region_right s) in Ok (l, region_right s).
End Search.

(** ** [debuginfo_eip] *)

(** Strings are the addresses of their first character; [unknown] is that of
    ["<unknown>"]. *)
Record eipdebuginfo := mk_info {
  eip_file : Z; eip_line : Z; eip_fn_name : Z; eip_fn_namelen : Z; eip_fn_addr : Z; eip_fn_narg : Z }.

(** Where the stabs and their strings are ([struct userstabdata]; the kernel
    has the linker's symbols). *)
Record userstabdata := mk_usd { stabs : Z; stab_end : Z; stabstr : Z; stabstr_end : Z }.
Definition SIZEOF_USERSTABDATA : Z := 16.
Definition SIZEOF_STAB : Z := 12.
Definition USTAB : Z := USERBASE.

Section Debuginfo.
  Context (b : Z -> Z) (unknown : Z) (kernel : userstabdata).

Definition word_in (a n : Z) : Z := le_decode (mem_bytes b a n).

  (** [stabs[i]]; outside the table the read is not defined. *)
Definition stab_in (u : userstabdata) (i : Z) : res stab :=
    let a := stabs u + SIZEOF_STAB * i in
    if (0 <=? i) && (a + SIZEOF_STAB <=? stab_end u) then
      Ok (mk_stab (word_in a 4) (word_in (a + 4) 1) (word_in (a + 5) 1) (word_in (a + 6) 2) (word_in (a + 8) 4))
    else Err WildAccess.

  (** The stabs that are relevant for [addr], checked; [None] when they cannot
      be read. *)
Definition find_stabs (addr : Z) (mm : option mm_struct) : res (option userstabdata * option mm_struct) :=
    if KERNBASE <=? addr then Ok (Some kernel, mm)
    else
      match mm with
      | None => Ok (None, mm)
      | Some _ =>
          let! (ok, mm) := user_mem_check mm USTAB SIZEOF_USERSTABDATA false in
          if negb ok then Ok (None, mm)
          else
            let u := mk_usd (word_in USTAB 4) (word_in (USTAB + 4) 4) (word_in (USTAB + 8) 4) (word_in (USTAB + 12) 4) in
            let! (ok, mm) := user_mem_check mm (stabs u) (u32 (stab_end u - stabs u)) false in
            if negb ok then Ok (None, mm)
            else
              let! (ok, mm) := user_mem_check mm (stabstr u) (u32 (stabstr_end u - stabstr u)) false in
              Ok (if ok then Some u else None, mm)
      end.

Definition string_ok (u : userstabdata) (strx : Z) : bool := strx <? stabstr_end u - stabstr u.

  (** Backwards from the line to the stab of its source file. *)
Definition find_file (u : userstabdata) (lfile lline : Z) : res Z :=
    loop (fun l =>
      if lfile <=? l then
        let! s := stab_in u l in
        if negb (n_type s =? N_SOL) && (negb (n_type s =? N_SO) || (n_value s =? 0)) then Ok (inl (l - 1)) else Ok (inr l)
      else Ok (inr l)) lline.

Definition count_args (u : userstabdata) (lfun rfun : Z) : res Z :=
    loop (fun '(l, n) =>
      if l <? rfun then
        let! s := stab_in u l in if n_type s =? N_PSYM then Ok (inl (l + 1, n + 1)) else Ok (inr n)
      else Ok (inr n)) (lfun + 1, 0).

  (** The function: the name, its address, what to search for and where. *)
Definition find_function (u : userstabdata) (lfile rfile addr : Z) : res (Z * Z * Z * Z * Z * (Z * Z)) :=
    let! (lfun, rfun) := stab_binsearch (stab_in u) lfile rfile N_FUN addr in
    if lfun <=? rfun then
      let! s := stab_in u lfun in
      let name := if string_ok u (n_strx s) then stabstr u + n_strx s else unknown in
      Ok (name, n_value s, u32 (addr - n_value s), lfun, rfun, (lfun, rfun))
    else Ok (unknown, addr, addr, lfile, rfile, (lfun, rfun)).

  (** The return value and what is stored in [*info]. *)
Definition debuginfo_eip (addr : Z) (mm : option mm_struct) : res (Z * eipdebuginfo * option mm_struct) :=
    let info := mk_info unknown 0 unknown 9 addr 0 in
    let! (u, mm) := find_stabs addr mm in
    match u with
    | None => Ok (-1, info, mm)
    | Some u =>
        if (stabstr_end u <=? stabstr u) || negb (b (stabstr_end u - 1) =? 0) then Ok (-1, info, mm)
        else
          let! (lfile, rfile) := stab_binsearch (stab_in u) 0 (Z.quot (stab_end u - stabs u) SIZEOF_STAB - 1) N_SO addr in
          if lfile =? 0 then Ok (-1, info, mm)
          else
            let! (name, fn_addr, addr, lline, rline, (lfun, rfun)) := find_function u lfile rfile addr in
            let! e := strfind b name 58 in
            let info := mk_info unknown 0 name (e - name) fn_addr 0 in
            let! (lline, rline) := stab_binsearch (stab_in u) lline rline N_SLINE addr in
            if negb (lline <=? rline) then Ok (-1, info, mm)
            else
              let! s := stab_in u rline in
              let! l := find_file u lfile lline in
              let! f :=
                if lfile <=? l then
                  let! s := stab_in u l in Ok (if string_ok u (n_strx s) then stabstr u + n_strx s else unknown)
                else Ok unknown in
              let! narg := if lfun <? rfun then count_args u lfun rfun else Ok 0 in
              Ok (0, mk_info f (n_desc s) name (e - name) fn_addr narg, mm)
    end.
End Debuginfo.

(** ** The specification of the search *)

Section Spec.
  Context (stab_at : Z -> res stab) (L R type addr : Z).
  Context (Hrange : 0 <= L /\ L <= R + 1 /\ R < 1073741824) (Haddr : 0 <= addr < two32 - 1).
  Context (Hread : forall i, L <= i <= R -> exists s, stab_at i = Ok s).

Definition matches (i : Z) : Prop := exists s, stab_at i = Ok s /\ n_type s = type.
Definition value_at (i : Z) : Z := match stab_at i with Ok s => n_value s | Err _ => 0 end.
Definition below (i : Z) : Prop := matches i /\ value_at i <= addr.
Definition above (i : Z) : Prop := matches i /\ addr < value_at i.

  (** The entries of the type are in the order of their addresses, and the
      one that [addr] names exactly is not followed by one for [addr + 1]. *)
Definition in_order : Prop := forall i j, L <= i -> i <= j -> j <= R -> matches i -> matches j -> value_at i <= value_at j.
Definition no_next : Prop := forall i j, L <= i <= R -> L <= j <= R -> matches i -> matches j -> value_at i = addr -> value_at j <> addr + 1.

Lemma below_or_above i : matches i -> below i \/ above i.
  Proof. intros Hm. unfold below, above. destruct (Z.le_gt_cases (value_at i) addr); [left|right]; (split; [done|lia]). Qed.

Lemma scan_down_Ok l m : L <= l -> m <= R -> l - 1 <= m -> exists v, scan_down stab_at l type m = Ok v /\
    l - 1 <= v <= m /\ (l <= v -> matches v) /\ forall i, v < i <= m -> ~ matches i.
  Proof.
    intros Hl Hm Hlm. unfold scan_down.
    apply (loop_rule (fun v => l - 1 <= v <= m /\ forall i, v < i <= m -> ~ matches i) (fun v => v - l + 1)).
    - intros v [Hv Hno]. split; [lia|]. destruct (Z.leb_spec l v) as [Hlv|Hlv]; [|split_and!; (done || lia)].
      destruct (Hread v ltac:(lia)) as [s Es]. rewrite Es. cbn [rbind]. destruct (Z.eqb_spec (n_type s) type) as [Ht|Ht].
      + split; [lia|]. split; [by exists s|done].
      + split; [split; [lia|]|lia]. intros i Hi. destruct (Z.eq_dec i v) as [->|]; [|apply Hno; lia].
        intros (s' & Es' & Ht'). congruence.
    - split; [lia|]. lia.
    - lia.
  Qed.

  (** What the search has found out: everything left of [l] is below [addr],
      everything right of [r] above; [r + 1] is the first above, if there is
      one. *)
Record searched (s : search) : Prop := {
    sd_range : L <= s_l s /\ s_l s <= s_r s + 1 /\ s_r s <= R;
    sd_left : forall i, L <= i < s_l s -> matches i -> below i;
    sd_right : forall i, s_r s < i <= R -> matches i -> above i;
    sd_rr : region_right s = s_r s /\ (s_r s < R -> above (s_r s + 1));
    sd_rl : L <= region_left s /\ (region_left s = L \/ region_left s <= R /\ below (region_left s));
    sd_max : region_left s <= s_l s;
    sd_addr : s_addr s = addr \/ s_addr s = addr + 1 /\ exists i, L <= i <= R /\ matches i /\ value_at i = addr;
    sd_any : if any_matches s then exists i, L <= i <= R /\ matches i
             else region_left s = L /\ s_r s = R /\ forall i, L <= i < s_l s -> ~ matches i
  }.

Definition search_measure (s : search) : Z := 2 * (s_r s - s_l s + 1) + (if s_addr s =? addr then 1 else 0).

  Context (Hord : in_order) (Hnext : no_next).

Lemma value_of i s : stab_at i = Ok s -> value_at i = n_value s.
  Proof. unfold value_at. by intros ->. Qed.

Lemma searched_start : L <= R + 1 -> searched (mk_search L R addr L R false).
  Proof. intros H. split; cbn; naive_solver lia. Qed.

  (** No entry of the type in the left half. *)
Lemma searched_none l r a rl rr any m : searched (mk_search l r a rl rr any) -> l <= m <= r -> (forall i, l <= i <= m -> ~ matches i) ->
    searched (mk_search (m + 1) r a rl rr any).
  Proof.
    intros [S1 S2 S3 S4 S5 S6 S7 S8] Hm Hno. cbn in *. split; cbn; try done; try lia.
    - intros i Hi Hmi. destruct (Z.lt_ge_cases i l); [apply S2; (done || lia)|]. exfalso. apply (Hno i); [lia|done].
    - destruct any; [done|]. destruct S8 as (? & ? & S8). split_and!; try done. intros i Hi. destruct (Z.lt_ge_cases i l); [apply S8; lia|apply Hno; lia].
  Qed.

  (** The entry at [m] is below: everything to its left is. *)
Lemma below_left m i : below m -> L <= i <= m -> m <= R -> matches i -> below i.
  Proof. intros [Hm Hv] Hi Hr Hmi. split; [done|]. specialize (Hord i m ltac:(lia) ltac:(lia) ltac:(lia) Hmi Hm). lia. Qed.
Lemma above_right m i : above m -> L <= m -> m <= i <= R -> matches i -> above i.
  Proof. intros [Hm Hv] Hl Hi Hmi. split; [done|]. specialize (Hord m i ltac:(lia) ltac:(lia) ltac:(lia) Hm Hmi). lia. Qed.

Lemma searched_below l r a rl rr any m n l' a' : searched (mk_search l r a rl rr any) -> l <= m <= n -> n <= r -> (forall i, m < i <= n -> ~ matches i) ->
    below m -> l' = n + 1 \/ l' = m -> a' = addr \/ a' = addr + 1 /\ (exists i, L <= i <= R /\ matches i /\ value_at i = addr) -> searched (mk_search l' r a' m rr true).
  Proof.
    intros [S1 S2 S3 S4 S5 S6 S7 S8] Hm Hn Hno Hb Hl' Ha'. cbn in *. split; cbn; try done; try lia.
    - intros i Hi Hmi. destruct (Z.le_gt_cases i m) as [Him|Him]; [apply (below_left m); (done || lia)|]. exfalso. apply (Hno i); [lia|done].
    - split; [lia|right; split; [lia|done]].
    - exists m. split; [lia|apply Hb].
  Qed.

Lemma searched_above l r a rl rr any m : searched (mk_search l r a rl rr any) -> l <= m <= r -> above m -> searched (mk_search l (m - 1) a rl (m - 1) true).
  Proof.
    intros [S1 S2 S3 S4 S5 S6 S7 S8] Hm Hab. cbn in *. split; cbn; try done; try lia.
    - intros i Hi Hmi. apply (above_right m); (done || lia).
    - split; [done|]. intros _. by replace (m - 1 + 1) with m by lia.
    - exists m. split; [lia|apply Hab].
  Qed.

Lemma binsearch_step s : searched s -> 0 <= search_measure s /\
    match binsearch_body stab_at type s with
    | Ok (inl s') => searched s' /\ search_measure s' < search_measure s
    | Ok (inr s') => searched s' /\ s_r s' < s_l s'
    | Err _ => False
    end.
  Proof.
    intros Hs. pose proof Hs as [S1 S2 S3 S4 S5 S6 S7 S8]. destruct s as [l r a rl rr any]. cbn in S1, S2, S3, S4, S5, S6, S7, S8.
    split; [unfold search_measure; cbn; destruct (a =? addr); lia|]. cbn [binsearch_body].
    destruct (Z.leb_spec l r) as [Hlr|Hlr]; [|by split].
    rewrite s32_id by (unfold is_s32; lia). rewrite Z.quot_div_nonneg by lia. set (n := (l + r) / 2).
    assert (Hn : l <= n <= r) by (unfold n; Z.to_euclidean_division_equations; lia).
    destruct (scan_down_Ok l n) as (m & -> & Hm & Hmm & Hno); [lia..|]. cbn [rbind].
    destruct (Z.ltb_spec m l) as [Hml|Hml].
    { split; [apply (searched_none l); (done || lia || (intros i Hi; apply Hno; lia))|]. unfold search_measure. cbn. lia. }
    destruct (Hmm Hml) as (t & Et & Ht). rewrite Et. cbn [rbind]. pose proof (value_of m t Et) as Hv.
    assert (Hmat : matches m) by by exists t.
    destruct (Z.ltb_spec (n_value t) a) as [Hlt|Hge]; [|destruct (Z.ltb_spec a (n_value t)) as [Hgt|Hle]].
    - split; [|unfold search_measure; cbn; lia]. apply (searched_below l r a rl rr any m n); try done; try lia.
      split; [done|]. destruct S7 as [->|[-> _]]; lia.
    - split; [|unfold search_measure; cbn; lia]. apply (searched_above l r a rl rr any m); try done; try lia.
      split; [done|]. destruct S7 as [->|[-> _]]; lia.
    - assert (n_value t = a) as Heq by lia. destruct S7 as [->|[-> (i & Hi & Him & Hiv)]].
      + rewrite u32_id by (unfold is_u32, two32 in *; lia). split.
        * apply (searched_below l r addr rl rr any m n); try done; try lia; [split; [done|lia]|].
          right. split; [done|]. exists m. split; [lia|]. split; [done|lia].
        * unfold search_measure. cbn. rewrite Z.eqb_refl. destruct (Z.eqb_spec (addr + 1) addr); lia.
      + exfalso. apply (Hnext i m); try done; lia.
  Qed.

  (** [r] is the last index before the first entry above. *)
Definition boundary (r : Z) : Prop := L - 1 <= r <= R /\ (r < R -> above (r + 1)) /\ forall i, L <= i <= r -> ~ above i.

Definition search_result (l r : Z) : Prop :=
    (l = L /\ r = L - 1 /\ forall i, L <= i <= R -> ~ matches i) \/
    (L <= l <= r /\ below l /\ (forall i, L <= i <= R -> below i -> i <= l) /\ boundary r) \/
    (l = Z.min L r /\ r < R /\ (forall i, L <= i <= R -> ~ below i) /\ boundary r).

Lemma scan_left_Ok left r : L <= left -> r <= R -> exists v, scan_left stab_at left type r = Ok v /\
    v <= r /\ (forall i, v < i <= r -> left < i -> ~ matches i) /\ (left <= r -> left <= v /\ (left < v -> matches v)) /\ (r < left -> v = r).
  Proof.
    intros Hl Hr. unfold scan_left.
    apply (loop_rule (fun v => v <= r /\ (forall i, v < i <= r -> left < i -> ~ matches i) /\ (left <= r -> left <= v) /\ (r < left -> v = r)) (fun v => Z.max 0 (v - left))).
    - intros v (Hv & Hno & H1 & H2). split; [lia|]. destruct (Z.ltb_spec left v) as [Hlv|Hlv].
      + destruct (Hread v ltac:(lia)) as [s Es]. rewrite Es. cbn [rbind]. destruct (Z.eqb_spec (n_type s) type) as [Ht|Ht].
        * split_and!; try done. intros Hle. split; [lia|]. intros _. by exists s.
        * split; [|lia]. split; [lia|]. split; [|split; lia]. intros i Hi Hil. destruct (Z.eq_dec i v) as [->|]; [|apply Hno; lia].
          intros (s' & Es' & Ht'). congruence.
      + split_and!; try done. intros Hle. split; [by apply H1|]. lia.
    - split; [lia|]. split; [intros i Hi; lia|]. split; lia.
    - lia.
  Qed.

  (** When the halves meet. *)
Lemma searched_end s : searched s -> s_r s < s_l s -> boundary (s_r s) /\
    (forall i, L <= i <= R -> below i <-> matches i /\ i <= s_r s) /\ (region_left s <= R -> below (region_left s) -> region_left s <= s_r s).
  Proof.
    intros [S1 S2 S3 [_ S4] S5 S6 _ _] Hlt. assert (He : s_l s = s_r s + 1) by lia.
    assert (Hna : forall i, below i -> above i -> False) by (intros i [_ H1] [_ H2]; lia).
    split; [|split].
    - split; [lia|]. split; [done|]. intros i Hi Ha. apply (Hna i); [|done]. apply S2; [lia|apply Ha].
    - intros i Hi. split; [|intros [Hm Hle]; apply S2; (done || lia)]. intros Hb. split; [apply Hb|].
      destruct (Z.le_gt_cases i (s_r s)); [done|]. exfalso. apply (Hna i Hb). apply S3; [lia|apply Hb].
    - intros Hr Hb. destruct (Z.le_gt_cases (region_left s) (s_r s)); [done|]. exfalso. apply (Hna _ Hb). apply S3; [lia|apply Hb].
  Qed.

Lemma found_region rl r v : L <= rl -> rl = L \/ below rl /\ rl <= r -> boundary r -> (forall i, L <= i <= R -> below i <-> matches i /\ i <= r) ->
    (exists i, L <= i <= R /\ matches i) -> v <= r -> (forall i, v < i <= r -> rl < i -> ~ matches i) ->
    (rl <= r -> rl <= v /\ (rl < v -> matches v)) -> (r < rl -> v = r) -> search_result v r.
  Proof.
    intros HL Hrl Hbd Hbel (k & Hk & Hmk) Hv Hno H1 H2. pose proof Hbd as (Hr & _ & Hna).
    assert (Hgood : rl <= r -> matches v -> search_result v r).
    { intros Hle Hmv. destruct (H1 Hle) as [Hlv _]. right. left. split; [lia|]. split; [apply Hbel; [lia|done]|]. split; [|done].
      intros i Hi [Hmi Hir]%Hbel; [|done]. destruct (Z.le_gt_cases i v); [done|]. exfalso. apply (Hno i); [lia|lia|done]. }
    assert (Hbad : rl = L -> (forall i, L <= i <= R -> ~ below i) -> search_result v r).
    { intros -> Hnb. right. right. split; [|split; [|by split]].
      - destruct (Z.le_gt_cases L r) as [Hle|Hgt]; [|rewrite H2; lia]. destruct (H1 Hle) as [Hlv Hmv].
        destruct (Z.eq_dec v L) as [->|Hne]; [lia|]. exfalso. apply (Hnb v); [lia|]. apply Hbel; [lia|]. split; [apply Hmv; lia|done].
      - destruct (Z.lt_ge_cases r R); [done|]. exfalso. apply (Hnb k Hk). apply Hbel; [done|]. split; [done|lia]. }
    destruct (Z.le_gt_cases rl r) as [Hle|Hgt].
    - destruct (H1 Hle) as [Hlv Hmv]. destruct (Z.eq_dec v rl) as [->|Hne]; [|apply Hgood; [done|]; apply Hmv; lia].
      destruct Hrl as [->|[Hb _]]; [|apply Hgood; [done|apply Hb]].
      destruct (Hread L ltac:(lia)) as [s Es]. destruct (Z.eq_dec (n_type s) type) as [Ht|Ht]; [apply Hgood; [done|by exists s]|].
      apply Hbad; [done|]. intros i Hi [Hmi Hir]%Hbel; [|done]. destruct (Z.eq_dec i L) as [->|].
      + destruct Hmi as (s' & Es' & Ht'). congruence.
      + apply (Hno i); [lia|lia|done].
    - apply Hbad; [destruct Hrl as [->|[_ ?]]; [done|lia]|]. intros i Hi [Hmi Hir]%Hbel; [|done].
      destruct Hrl as [->|[_ ?]]; lia.
  Qed.

Lemma stab_binsearch_Ok : exists l r, stab_binsearch stab_at L R type addr = Ok (l, r) /\ search_result l r.
  Proof.
    unfold stab_binsearch.
    destruct (loop_rule searched search_measure (fun s => searched s /\ s_r s < s_l s) (binsearch_body stab_at type) (mk_search L R addr L R false))
      as (s & -> & Hs & Hlt).
    - intros s Hs. by apply binsearch_step.
    - apply searched_start. lia.
    - unfold search_measure. cbn. rewrite Z.eqb_refl. lia.
    - cbn [rbind]. destruct (searched_end s Hs Hlt) as (Hbd & Hbel & Hrl). destruct Hs as [S1 S2 S3 [S4 _] [SL S5] S6 S7 S8].
      destruct (any_matches s); cbn [negb].
      + rewrite S4. destruct (scan_left_Ok (region_left s) (s_r s)) as (v & -> & Hv & Hno & H1 & H2); [lia|lia|]. cbn [rbind].
        exists v, (s_r s). split; [done|]. eapply (found_region (region_left s)); try done. destruct S5 as [->|[S5 S5']]; [by left|right]. split; [done|by apply Hrl].
      + destruct S8 as (-> & Hr & Hno). exists L, (L - 1). split; [done|]. left. split_and!; try done. intros i Hi. apply Hno. lia.
  Qed.
End Spec.

(** ** Properties *)

(** [stab_binsearch] in a table whose entries of the type are in the order
    of their addresses ends, reads no entry outside the range and finds the
    entry that contains the address: its left end is the last entry of the
    type that is not above the address and its right end is just before the
    first one that is.  Without an entry of the type the range that it answers
    is empty.  When all entries of the type are above the address the answer
    is the range before the first of them, which is not empty, and may start
    one place before the range that was searched. *)
Theorem stab_binsearch_finds (stab_at : Z -> res stab) (L R type addr : Z) :
  0 <= L /\ L <= R + 1 /\ R < 1073741824 -> 0 <= addr < two32 - 1 -> (forall i, L <= i <= R -> exists s, stab_at i = Ok s) ->
  in_order stab_at L R type -> no_next stab_at L R type addr ->
  exists l r, stab_binsearch stab_at L R type addr = Ok (l, r) /\ search_result stab_at L R type addr l r.
Proof. intros. by apply stab_binsearch_Ok. Qed.

(** The example of the comment in kern/debug/kdebug.c. *)
Definition ex_stabs (i : Z) : res stab :=
  Ok (match i with
      | 0 => mk_stab 0 N_SO 0 0 0xf0100000
      | 13 => mk_stab 0 N_SO 0 0 0xf0100040
      | 117 => mk_stab 0 N_SO 0 0 0xf0100176
      | 118 => mk_stab 0 N_SO 0 0 0xf0100178
      | 555 => mk_stab 0 N_SO 0 0 0xf0100652
      | 556 => mk_stab 0 N_SO 0 0 0xf0100654
      | 657 => mk_stab 0 N_SO 0 0 0xf0100849
      | _ => mk_stab 0 N_SLINE 0 0 0
      end).

Lemma ex_stabs_matches i : matches ex_stabs N_SO i -> i ∈ [0; 13; 117; 118; 555; 556; 657].
Proof.
  intros (s & [= <-] & Ht). repeat (rewrite elem_of_cons). destruct (decide (i ∈ [0; 13; 117; 118; 555; 556; 657])) as [H|H].
  - by repeat (rewrite elem_of_cons in H).
  - exfalso. revert Ht. repeat case_match; try done; subst; set_solver.
Qed.

Lemma stab_binsearch_finds_witness : stab_binsearch ex_stabs 0 657 N_SO 0xf0100184 = Ok (118, 554) /\
  search_result ex_stabs 0 657 N_SO 0xf0100184 118 554.
Proof.
  destruct (stab_binsearch_finds ex_stabs 0 657 N_SO 0xf0100184) as (l & r & E & Hr).
  - lia.
  - unfold two32. lia.
  - intros i _. by eexists.
  - intros i j _ Hij _ Hi%ex_stabs_matches Hj%ex_stabs_matches. repeat (rewrite elem_of_cons in Hi, Hj). rewrite elem_of_nil in Hi, Hj.
    destruct_or?; subst; try lia; vm_compute; discriminate.
  - intros i j _ _ Hi%ex_stabs_matches _ Hv. repeat (rewrite elem_of_cons in Hi). rewrite elem_of_nil in Hi.
    destruct_or?; subst; done.
  - assert (stab_binsearch ex_stabs 0 657 N_SO 0xf0100184 = Ok (118, 554)) as E' by (vm_compute; reflexivity).
    split; [exact E'|]. rewrite E in E'. injection E' as -> ->. exact Hr.
Defined.
