(* ===== verification/SysFile.v ===== *)
(** * The file system calls (kern/fs/sysfile.c)

    What lies between a system call and the functions of [File]: paths and
    buffers are copied between the memory of the process and that of the
    kernel.  Both are one memory of bytes, as the process that is running sees
    it; [kb] is the address that [kmalloc] returns for the kernel's buffer
    (0: no memory) or the address of a local variable.  The process of the
    file table [p] runs alone: what others do while a call sleeps is in
    [FileSafe]. *)
From S2P Require Import Prelude Arith CString Vmm IoBuf BlockDev Vfs File.

(** The object of [n] bytes at [a] becomes [l]. *)
Definition put_bytes (a n : Z) (l : list Z) (m : Z -> Z) : Z -> Z :=
  fun q => if (a <=? q) && (q <? a + n) then at_ l (q - a) else m q.

(** The string at [a], at most [n] bytes. *)
Fixpoint string_at (n : nat) (m : Z -> Z) (a : Z) : list Z :=
  match n with
  | O => []
  | S n => if m a =? 0 then [] else m a :: string_at n m (a + 1)
  end.

(** [struct stat] and [struct dirent]. *)
Definition stat_bytes (s : stat) : list Z :=
  le_encode 4 (st_mode s) ++ le_encode 4 (st_nlinks s) ++ le_encode 4 (st_blocks s) ++ le_encode 4 (st_size s).
Definition SIZEOF_STAT : Z := 16.
Definition SIZEOF_DIRENT : Z := 260.

Definition IOBUF_SIZE : Z := 4096.
Definition FS_MAX_FPATH_LEN : Z := 4095.

Section SysFile.
  Context {F : Type} `{!InodeOps F}.

  (** The memory, the address space of the process ([current->mm]) and the
      open files. *)
Record sys := mk_sys { umem : Z -> Z; umm : option mm_struct; ufs : fstate F }.

  Implicit Types (s : sys) (p fd kb : Z).

Definition set_ufs s (st : fstate F) : sys := mk_sys (umem s) (umm s) st.
Definition set_umem s (m : Z -> Z) : sys := mk_sys m (umm s) (ufs s).

  (** The return value, the path and the state. *)
Definition copy_path kb (from : Z) s : res (Z * list Z * sys) :=
    if kb =? 0 then Ok (- E_NO_MEM, [], s)
    else
      let! (ok, mm, m) := copy_string (umm s) kb from (FS_MAX_FPATH_LEN + 1) (umem s) in
      let s := mk_sys m mm (ufs s) in
      if negb ok then Ok (- E_INVAL, [], s) else Ok (0, string_at (Z.to_nat (FS_MAX_FPATH_LEN + 1)) m kb, s).

Definition to_user (dst src len : Z) s : res (bool * sys) :=
    let! (ok, mm, m) := copy_to_user (umm s) dst src len (umem s) in Ok (ok, mk_sys m mm (ufs s)).
Definition from_user (dst src len : Z) (writable : bool) s : res (bool * sys) :=
    let! (ok, mm, m) := copy_from_user (umm s) dst src len writable (umem s) in Ok (ok, mk_sys m mm (ufs s)).

  (** An operation on the open files alone. *)
Definition on_files {A} (m : fstate F -> res (A * fstate F)) s : res (A * sys) :=
    let! (a, st) := m (ufs s) in Ok (a, set_ufs s st).

Definition sysfile_open p kb (path open_flags : Z) s : res (Z * sys) :=
    let! (ret, path, s) := copy_path kb path s in
    if negb (ret =? 0) then Ok (ret, s) else on_files (file_open p path open_flags) s.

Definition sysfile_close p fd s : res (Z * sys) := on_files (file_close p fd) s.

  (** One round of the loop: the addresses and counts, or [ret] and [copied]. *)
Definition read_round p fd kb '((base, len, copied, s) : Z * Z * Z * sys) : res (Z * Z * Z * sys + Z * Z * sys) :=
    if len =? 0 then Ok (inr (0, copied, s))
    else
      let alen := if len <? IOBUF_SIZE then len else IOBUF_SIZE in
      let! (ret, alen, data, st) := file_read p fd (mem_bytes (umem s) kb IOBUF_SIZE) 0 alen (ufs s) in
      let s := mk_sys (put_bytes kb IOBUF_SIZE data (umem s)) (umm s) st in
      let! (ret, base, len, copied, s) :=
        if negb (alen =? 0) then
          let! (ok, s) := to_user base kb alen s in
          if ok : bool then assert! alen <=? len ;; Ok (ret, u32 (base + alen), len - alen, u32 (copied + alen), s)
          else Ok (if ret =? 0 then - E_INVAL else ret, base, len, copied, s)
        else Ok (ret, base, len, copied, s) in
      if negb (ret =? 0) || (alen =? 0) then Ok (inr (ret, copied, s)) else Ok (inl (base, len, copied, s)).

  (** [copied] if anything was, otherwise [ret]. *)
Definition rw_result '((ret, copied, s) : Z * Z * sys) : Z * sys := (if negb (copied =? 0) then s32 copied else ret, s).

Definition sysfile_read p fd kb (base len : Z) s : res (Z * sys) :=
    if len =? 0 then Ok (0, s)
    else
      let! ok := file_testfd p fd true false (ufs s) in
      if negb ok then Ok (- E_INVAL, s)
      else if kb =? 0 then Ok (- E_NO_MEM, s)
      else let! r := loop (read_round p fd kb) (base, len, 0, s) in Ok (rw_result r).

Definition write_round p fd kb '((base, len, copied, s) : Z * Z * Z * sys) : res (Z * Z * Z * sys + Z * Z * sys) :=
    if len =? 0 then Ok (inr (0, copied, s))
    else
      let alen := if len <? IOBUF_SIZE then len else IOBUF_SIZE in
      let! (ok, s) := from_user kb base alen false s in
      let! (ret, alen, base, len, copied, s) :=
        if ok : bool then
          let! (ret, alen, _, st) := file_write p fd (mem_bytes (umem s) kb IOBUF_SIZE) 0 alen (ufs s) in
          let s := set_ufs s st in
          if negb (alen =? 0) then assert! alen <=? len ;; Ok (ret, alen, u32 (base + alen), len - alen, u32 (copied + alen), s)
          else Ok (ret, alen, base, len, copied, s)
        else Ok (- E_INVAL, alen, base, len, copied, s) in
      if negb (ret =? 0) || (alen =? 0) then Ok (inr (ret, copied, s)) else Ok (inl (base, len, copied, s)).

Definition sysfile_write p fd kb (base len : Z) s : res (Z * sys) :=
    if len =? 0 then Ok (0, s)
    else
      let! ok := file_testfd p fd false true (ufs s) in
      if negb ok then Ok (- E_INVAL, s)
      else if kb =? 0 then Ok (- E_NO_MEM, s)
      else let! r := loop (write_round p fd kb) (base, len, 0, s) in Ok (rw_result r).

Definition sysfile_seek p fd (pos whence : Z) s : res (Z * sys) := on_files (file_seek p fd pos whence) s.

  (** [kb]: the local [struct stat]. *)
Definition sysfile_fstat p fd kb (ustat : Z) s : res (Z * sys) :=
    let! (ret, stat, st) := file_fstat p fd (ufs s) in
    let s := mk_sys (put_bytes kb SIZEOF_STAT (stat_bytes stat) (umem s)) (umm s) st in
    if negb (ret =? 0) then Ok (ret, s)
    else let! (ok, s) := to_user ustat kb SIZEOF_STAT s in Ok (if ok : bool then ret else - E_INVAL, s).

Definition sysfile_fsync p fd s : res (Z * sys) := on_files (file_fsync p fd) s.

Definition sysfile_chdir p kb (path : Z) s : res (Z * sys) :=
    let! (ret, path, s) := copy_path kb path s in
    if negb (ret =? 0) then Ok (ret, s) else on_files (file_chdir p path) s.

  (** [vfs_link], [vfs_rename] and [vfs_unlink] are not implemented. *)
Definition sysfile_link kb1 kb2 (path1 path2 : Z) s : res (Z * sys) :=
    let! (ret, _, s) := copy_path kb1 path1 s in
    if negb (ret =? 0) then Ok (ret, s)
    else
      let! (ret, _, s) := copy_path kb2 path2 s in
      if negb (ret =? 0) then Ok (ret, s) else Ok (vfs_unimplemented, s).
Definition sysfile_rename kb1 kb2 (path1 path2 : Z) s : res (Z * sys) :=
    let! (ret, _, s) := copy_path kb1 path1 s in
    if negb (ret =? 0) then Ok (ret, s)
    else
      let! (ret, _, s) := copy_path kb2 path2 s in
      if negb (ret =? 0) then Ok (ret, s) else Ok (vfs_unimplemented, s).
Definition sysfile_unlink kb (path : Z) s : res (Z * sys) :=
    let! (ret, _, s) := copy_path kb path s in
    if negb (ret =? 0) then Ok (ret, s) else Ok (vfs_unimplemented, s).

  (** The buffer of [vfs_getcwd] is the user's. *)
Definition sysfile_getcwd p (buf len : Z) s : res (Z * sys) :=
    if len =? 0 then Ok (- E_INVAL, s)
    else
      let! (ok, mm) := user_mem_check (umm s) buf len true in
      let s := mk_sys (umem s) mm (ufs s) in
      if negb ok then Ok (- E_INVAL, s)
      else
        let! fs := get_files p (ufs s) in
        let! (ret, iob, v) := vfs_getcwd (pwd fs) (iobuf_init (mem_bytes (umem s) buf len) 0 len 0) (fvfs (ufs s)) in
        Ok (ret, mk_sys (put_bytes buf len (io_data iob) (umem s)) (umm s) (set_vfs (ufs s) v)).

  (** [kb]: the kernel's [struct dirent]; the offset is its first word. *)
Definition sysfile_getdirentry p fd kb (direntp : Z) s : res (Z * sys) :=
    if kb =? 0 then Ok (- E_NO_MEM, s)
    else
      let! (ok, s) := from_user kb direntp 4 true s in
      if negb ok then Ok (- E_INVAL, s)
      else
        let offset := s32 (le_decode (mem_bytes (umem s) kb 4)) in
        let! (ret, offset, name, st) := file_getdirentry p fd offset (mem_bytes (umem s) (kb + 4) 256) (ufs s) in
        let s := mk_sys (put_bytes kb SIZEOF_DIRENT (le_encode 4 (u32 offset) ++ name) (umem s)) (umm s) st in
        if negb (ret =? 0) then Ok (ret, s)
        else let! (ok, s) := to_user direntp kb SIZEOF_DIRENT s in Ok (if ok : bool then 0 else - E_INVAL, s).

Definition sysfile_dup p (fd1 fd2 : Z) s : res (Z * sys) := on_files (file_dup p fd1 fd2) s.

Definition sysfile_pipe s : res (Z * sys) := Ok (- E_UNIMP, s).
Definition sysfile_mkfifo s : res (Z * sys) := Ok (- E_UNIMP, s).
End SysFile.
Arguments sys : clear implicits.
