(* ===== verification/UserMem.v ===== *)
(** * Copying between a process and the kernel: specifications

    What [user_mem_check] accepts, and what the copies of vmm.c and
    [copy_path] of sysfile.c do to memory, for a process and for a kernel
    thread ([mm == NULL]). *)
From S2P Require Import Prelude Arith CString Vmm IoBuf BlockDev Vfs File SysFile.

(** ** What is accepted *)

Definition accepted (mm : option mm_struct) (addr len : Z) (write : bool) : Prop :=
  match mm with
  | Some mm => USER_ACCESS addr (u32 (addr + len)) = true /\ range_ok (mmap_list mm) addr addr (u32 (addr + len)) write
  | None => KERN_ACCESS addr (u32 (addr + len)) = true
  end.

Definition space_wf (mm : option mm_struct) : Prop := match mm with Some mm => mm_ok mm | None => True end.

(** The same areas; only the cache differs. *)
Definition same_space (mm mm' : option mm_struct) : Prop :=
  match mm, mm' with
  | Some mm, Some mm' => mmap_list mm' = mmap_list mm /\ pgdir mm' = pgdir mm /\ mm_ok mm'
  | None, None => True
  | _, _ => False
  end.

Lemma same_space_refl mm : space_wf mm -> same_space mm mm.
Proof. by destruct mm. Qed.
Lemma same_space_wf mm mm' : same_space mm mm' -> space_wf mm'.
Proof. destruct mm, mm'; cbn; tauto. Qed.
Lemma same_space_trans mm mm1 mm2 : same_space mm mm1 -> same_space mm1 mm2 -> same_space mm mm2.
Proof. destruct mm, mm1, mm2; cbn; try tauto. intros (-> & -> & ?) (-> & -> & ?). done. Qed.
Lemma same_space_accepted mm mm' addr len w : same_space mm mm' -> accepted mm' addr len w <-> accepted mm addr len w.
Proof. destruct mm, mm'; cbn; try tauto. by intros (-> & _). Qed.

Lemma user_check_Ok mm addr len write : space_wf mm ->
  exists b mm', user_mem_check mm addr len write = Ok (b, mm') /\ same_space mm mm' /\ (b = true <-> accepted mm addr len write).
Proof.
  intros Hok. destruct mm as [mm|]; [|by exists (KERN_ACCESS addr (u32 (addr + len))), None]. cbn in Hok. cbn [user_mem_check].
  destruct (USER_ACCESS addr (u32 (addr + len))) eqn:Eu; cbn [negb].
  - destruct (user_mem_loop_spec addr (u32 (addr + len)) write (S (S (length (mmap_list mm)))) mm addr Hok)
      as (b & mm' & E & Hok' & El & Ep & Hb); [lia|by left|pose proof (remaining_le addr (mmap_list mm)); lia|].
    rewrite E. exists b, (Some mm'). split; [done|]. split; [done|]. cbn [accepted]. rewrite Hb, Eu. tauto.
  - exists false, (Some mm). split; [done|]. split; [by apply same_space_refl|]. cbn [accepted]. rewrite Eu. split; [done|by intros []].
Qed.

(** An accepted range does not wrap around. *)
Lemma accepted_range mm addr len w : 0 <= len < two32 -> accepted mm addr len w -> 0 <= addr /\ 0 < len /\ addr + len < two32 /\ u32 (addr + len) = addr + len.
Proof.
  intros Hl Ha.
  assert (H : 0 <= addr < two32 /\ addr < u32 (addr + len)).
  { destruct mm; cbn in Ha.
    - destruct Ha as [Ha _]. unfold USER_ACCESS, USERBASE, USERTOP in Ha. unfold two32. pose proof (u32_range (addr + len)). lia.
    - unfold KERN_ACCESS, KERNBASE, KERNTOP, KERNBASE, KMEMSIZE in Ha. unfold two32. pose proof (u32_range (addr + len)). lia. }
  destruct H as [H1 H2].
  assert (E : u32 (addr + len) = addr + len).
  { destruct (Z.lt_ge_cases (addr + len) two32); [apply u32_id; unfold is_u32; lia|].
    exfalso. unfold u32, two32 in *. rewrite <- (Z_mod_plus_full _ (-1)), Z.mod_small in H2 by lia. lia. }
  pose proof (u32_range (addr + len)) as Hr. unfold is_u32 in Hr. rewrite E in *. lia.
Qed.

Lemma accepted_sub mm addr len w off n : 0 <= len < two32 -> accepted mm addr len w -> 0 <= off -> 0 < n -> off + n <= len ->
  accepted mm (addr + off) n w.
Proof.
  intros Hl Ha Ho Hn Hle. destruct (accepted_range mm addr len w Hl Ha) as (H0 & H1 & H2 & E).
  assert (E2 : u32 (addr + off + n) = addr + off + n) by (apply u32_id; unfold is_u32; lia).
  destruct mm as [mm|]; cbn in *; rewrite E in Ha; rewrite E2.
  - destruct Ha as [Hu Hr]. split; [unfold USER_ACCESS in *; lia|]. intros a Hin. destruct (Hr a) as (v & Hv & Hi & Hf & Hs); [lia|].
    exists v. split; [done|]. split; [done|]. split; [done|]. intros Hw Hst. specialize (Hs Hw Hst). lia.
  - unfold KERN_ACCESS in *. lia.
Qed.

(** Two neighbouring ranges that may be read. *)
Lemma accepted_join mm addr a b : 0 < a -> 0 < b -> a + b < two32 -> accepted mm addr a false -> accepted mm (addr + a) b false -> accepted mm addr (a + b) false.
Proof.
  intros Ha Hb Hab H1 H2. destruct (accepted_range mm addr a false) as (G1 & _ & G3 & E1); [lia|done|].
  destruct (accepted_range mm (addr + a) b false) as (_ & _ & G4 & E2); [lia|done|].
  assert (E : u32 (addr + (a + b)) = addr + a + b) by (rewrite Z.add_assoc; done).
  destruct mm as [mm|]; cbn in *; rewrite E1, E2, E in *.
  - destruct H1 as [Hu1 Hr1], H2 as [Hu2 Hr2]. split; [unfold USER_ACCESS in *; lia|]. intros x Hx.
    destruct (Z.lt_ge_cases x (addr + a)) as [Hlt|Hge].
    + destruct (Hr1 x ltac:(lia)) as (v & Hv & Hi & Hf & _). by exists v.
    + destruct (Hr2 x ltac:(lia)) as (v & Hv & Hi & Hf & _). by exists v.
  - unfold KERN_ACCESS in *. lia.
Qed.

(** ** Strings *)

(** A string of [n] characters at [a]. *)
Definition str (m : Z -> Z) (a n : Z) : Prop := 0 <= n /\ (forall i, 0 <= i < n -> m (a + i) <> 0) /\ m (a + n) = 0.

Lemma str_unique m a n k : str m a n -> str m a k -> n = k.
Proof.
  intros (Hn & H1 & H2) (Hk & G1 & G2). destruct (Z.lt_trichotomy n k) as [?|[?|?]]; [|done|].
  - by destruct (G1 n).
  - by destruct (H1 k).
Qed.

(** How much of user memory [copy_string] looks at: up to the end of the page
    in which the string ends. *)
Definition reach (src n maxn : Z) : Z := Z.min maxn ((src + n) / 4096 * 4096 + 4096 - src).

Lemma reach_bounds src n maxn : 0 <= src -> 0 <= n < maxn -> n < reach src n maxn <= maxn.
Proof. intros Hs Hn. unfold reach. pose proof (Z.mod_pos_bound (src + n) 4096 ltac:(lia)). Z.to_euclidean_division_equations. lia. Qed.

(** What makes [copy_string] succeed. *)
Definition copyable (mm : option mm_struct) (m : Z -> Z) (src maxn n : Z) : Prop :=
  str m src n /\ n < maxn /\ accepted mm src (reach src n maxn) false.

Section Copy.
  Context (mm0 : option mm_struct) (dst0 src0 maxn0 : Z) (b0 : Z -> Z).
  Context (Hwf : space_wf mm0) (Hdst : 0 <= dst0 /\ dst0 + maxn0 <= two32) (Hsrc : 0 <= src0 < two32) (Hmax : 0 < maxn0 < two32).
  Context (Hapart : dst0 + maxn0 <= src0 \/ src0 + maxn0 <= dst0).

  (** After [k] characters, which are no NUL and end a page. *)
Definition copied_part (k : Z) (s : option mm_struct * Z * Z * Z * Z * (Z -> Z)) : Prop :=
    let '(mm, dst, src, maxn, part, b) := s in
    same_space mm0 mm /\ 0 <= k < maxn0 /\ dst = dst0 + k /\ src = src0 + k /\ maxn = maxn0 - k /\
    (forall i, 0 <= i < k -> b0 (src0 + i) <> 0) /\ (0 < k -> accepted mm0 src0 k false /\ (src0 + k) mod 4096 = 0) /\
    part = 4096 - (src0 + k) mod 4096 /\
    (forall q, b q = if (dst0 <=? q) && (q <? dst0 + k) then b0 (src0 + (q - dst0)) else b0 q).

Definition copy_done (r : bool * option mm_struct * (Z -> Z)) : Prop :=
    let '(ok, mm, b) := r in
    same_space mm0 mm /\ (forall q, ~ dst0 <= q < dst0 + maxn0 -> b q = b0 q) /\
    if ok then exists n, copyable mm0 b0 src0 maxn0 n /\ forall i, 0 <= i <= n -> b (dst0 + i) = b0 (src0 + i)
    else forall n, ~ copyable mm0 b0 src0 maxn0 n.

  (** The pages of the copied characters are a part of what is looked at. *)
Lemma copyable_part k n part : 0 <= k < maxn0 -> (forall i, 0 <= i < k -> b0 (src0 + i) <> 0) -> (0 < k -> (src0 + k) mod 4096 = 0) ->
    0 < part <= maxn0 - k -> part <= 4096 - (src0 + k) mod 4096 -> copyable mm0 b0 src0 maxn0 n -> k <= n /\ accepted mm0 (src0 + k) part false.
  Proof.
    intros Hk Hno Hal Hp Hpart ((Hn0 & Hn1 & Hn2) & Hnm & Hacc).
    assert (Hkn : k <= n) by (destruct (Z.lt_ge_cases n k); [by destruct (Hno n)|done]). split; [done|].
    pose proof (reach_bounds src0 n maxn0 ltac:(lia) ltac:(lia)) as Hr.
    destruct (accepted_range mm0 src0 (reach src0 n maxn0) false) as (_ & _ & Hend & _); [lia|done|].
    apply (accepted_sub mm0 src0 (reach src0 n maxn0)); [lia|done|lia|lia|].
    unfold reach. apply Z.min_glb; [lia|]. assert ((src0 + k) / 4096 <= (src0 + n) / 4096) by (apply Z.div_le_mono; lia).
    pose proof (Z.div_mod (src0 + k) 4096 ltac:(lia)). lia.
  Qed.

  (** The source is not touched while it is copied. *)
Lemma part_source k (b : Z -> Z) i : 0 <= k < maxn0 ->
    (forall q, b q = if (dst0 <=? q) && (q <? dst0 + k) then b0 (src0 + (q - dst0)) else b0 q) -> 0 <= i < maxn0 -> b (src0 + i) = b0 (src0 + i).
  Proof. intros Hk Hb Hi. rewrite Hb. destruct (Z.leb_spec dst0 (src0 + i)), (Z.ltb_spec (src0 + i) (dst0 + k)); (done || lia). Qed.

  (** Copying on: [n] more characters. *)
Lemma part_blit k n (b b' : Z -> Z) : 0 <= k -> 0 <= n -> k + n <= maxn0 -> k < maxn0 ->
    (forall q, b q = if (dst0 <=? q) && (q <? dst0 + k) then b0 (src0 + (q - dst0)) else b0 q) ->
    (forall q, b' q = blit (dst0 + k) (src0 + k) n b q) ->
    forall q, b' q = if (dst0 <=? q) && (q <? dst0 + (k + n)) then b0 (src0 + (q - dst0)) else b0 q.
  Proof.
    intros Hk Hn Hle Hlt Hb Hb' q. rewrite Hb'. unfold blit.
    destruct (Z.leb_spec (dst0 + k) q), (Z.ltb_spec q (dst0 + k + n)); cbn [andb].
    - replace (src0 + k + (q - (dst0 + k))) with (src0 + (q - dst0)) by lia. rewrite (part_source k b) by (done || lia).
      destruct (Z.leb_spec dst0 q), (Z.ltb_spec q (dst0 + (k + n))); (done || lia).
    - rewrite Hb. destruct (Z.leb_spec dst0 q), (Z.ltb_spec q (dst0 + k)), (Z.ltb_spec q (dst0 + (k + n))); (done || lia).
    - rewrite Hb. destruct (Z.leb_spec dst0 q), (Z.ltb_spec q (dst0 + k)), (Z.ltb_spec q (dst0 + (k + n))); (done || lia).
    - lia.
  Qed.

Lemma part_accepted k part : 0 < k \/ k = 0 -> (0 < k -> accepted mm0 src0 k false /\ (src0 + k) mod 4096 = 0) -> 0 < part -> k + part <= maxn0 ->
    accepted mm0 (src0 + k) part false -> accepted mm0 src0 (k + part) false.
  Proof.
    intros [Hk|Hk] Hacc Hp Hle Ha; [|by rewrite Hk, Z.add_0_r in *]. apply accepted_join; (done || lia || by apply Hacc).
  Qed.

Lemma copy_round k s : copied_part k s -> match copy_string_body s with
    | Ok (inl s') => exists k', k < k' /\ copied_part k' s'
    | Ok (inr r) => copy_done r
    | Err _ => False
    end.
  Proof.
    destruct s as [[[[[mm dst] src] maxn] part] b]. intros (Hsp & Hk & -> & -> & -> & Hno & Hal & -> & Hb). unfold copy_string_body.
    pose proof (Z.mod_pos_bound (src0 + k) 4096 ltac:(lia)) as Hmod. set (rest := 4096 - (src0 + k) mod 4096).
    set (part := if maxn0 - k <? rest then maxn0 - k else rest).
    assert (Hp : 0 < part <= maxn0 - k /\ part <= rest /\ (part = maxn0 - k \/ part = rest)) by (unfold part; destruct (Z.ltb_spec (maxn0 - k) rest); lia).
    destruct Hp as (Hp & Hpr & Hpe). assert (Hout : forall q, ~ dst0 <= q < dst0 + maxn0 -> b q = b0 q).
    { intros q Hq. rewrite Hb. destruct (Z.leb_spec dst0 q), (Z.ltb_spec q (dst0 + k)); (done || lia). }
    destruct (user_check_Ok mm (src0 + k) part false (same_space_wf _ _ Hsp)) as (ok & mm1 & E & Hs1 & Hok). rewrite E. cbn [rbind].
    rewrite (same_space_accepted _ _ _ _ _ Hsp) in Hok. pose proof (same_space_trans _ _ _ Hsp Hs1) as Hsp1. destruct ok; cbn [negb].
    2: { split; [done|]. split; [done|]. intros n Hc. destruct (copyable_part k n part) as [_ Ha]; [done|done|by intros Hk0; destruct (Hal Hk0)|done|done|done|]. by apply Hok in Ha. }
    apply proj1 in Hok. specialize (Hok eq_refl).
    destruct (strnlen_spec b (src0 + k) part) as (n & En & Hn & Hnz & Hz); [unfold two32 in *; lia|]. rewrite En. cbn [rbind].
    assert (Hnz0 : forall i, 0 <= i < k + n -> b0 (src0 + i) <> 0).
    { intros i Hi. destruct (Z.lt_ge_cases i k); [by apply Hno; lia|]. specialize (Hnz (i - k) ltac:(lia)).
      replace (src0 + k + (i - k)) with (src0 + i) in Hnz by lia. by rewrite (part_source k b) in Hnz by (done || lia). }
    destruct (Z.ltb_spec n part).
    - destruct (memcpy_spec (dst0 + k) (src0 + k) (n + 1) b) as (b' & Eb & Hb'); [unfold two32 in *; lia|lia|]. rewrite Eb. cbn [rbind].
      pose proof (part_blit k (n + 1) b b' ltac:(lia) ltac:(lia) ltac:(lia) ltac:(lia) Hb Hb') as Hall. split; [done|]. split.
      { intros q Hq. rewrite Hall. destruct (Z.leb_spec dst0 q), (Z.ltb_spec q (dst0 + (k + (n + 1)))); (done || lia). }
      exists (k + n). split.
      + specialize (Hz ltac:(lia)). rewrite <- Z.add_assoc, (part_source k b) in Hz by (done || lia). split; [split; [lia|by split]|]. split; [lia|].
        replace (reach src0 (k + n) maxn0) with (k + part); [apply part_accepted; [lia|done|lia|lia|done]|].
        unfold reach. assert (Ediv : (src0 + (k + n)) / 4096 = (src0 + k) / 4096).
        { symmetry. apply (Z.div_unique _ _ _ ((src0 + k) mod 4096 + n)); [|pose proof (Z.div_mod (src0 + k) 4096 ltac:(lia)); lia]. unfold rest in *. lia. }
        rewrite Ediv. pose proof (Z.div_mod (src0 + k) 4096 ltac:(lia)). unfold part, rest in *. destruct (Z.ltb_spec (maxn0 - k) (4096 - (src0 + k) mod 4096)); lia.
      + intros i Hi. rewrite Hall. destruct (Z.leb_spec dst0 (dst0 + i)), (Z.ltb_spec (dst0 + i) (dst0 + (k + (n + 1)))); try lia. cbn [andb]. f_equal. lia.
    - assert (n = part) as -> by lia. destruct (Z.eqb_spec part (maxn0 - k)) as [Epart|Epart].
      { split; [done|]. split; [done|]. intros j ((Hj & _ & Hj0) & Hjm & _). by apply (Hnz0 j ltac:(lia)). }
      destruct (memcpy_spec (dst0 + k) (src0 + k) part b) as (b' & Eb & Hb'); [unfold two32 in *; lia|lia|]. rewrite Eb. cbn [rbind].
      exists (k + part). split; [lia|]. split; [done|]. split; [lia|]. split; [lia|]. split; [lia|]. split; [lia|]. split; [done|].
      assert (Hend : (src0 + (k + part)) mod 4096 = 0).
      { destruct Hpe as [?| ->]; [lia|]. unfold rest. replace (src0 + (k + (4096 - (src0 + k) mod 4096))) with ((src0 + k) / 4096 * 4096 + 4096)
          by (pose proof (Z.div_mod (src0 + k) 4096 ltac:(lia)); lia). Z.to_euclidean_division_equations. lia. }
      split; [intros _; split; [apply part_accepted; [lia|done|lia|lia|done]|done]|]. rewrite Hend. split; [unfold PGSIZE; lia|].
      apply (part_blit k part b b'); (done || lia).
  Qed.

  (** [copy_string] ends; it writes only to its buffer; it succeeds exactly when
      there is a string that fits, in memory that may be read. *)
Lemma copy_string_Ok : exists r, copy_string mm0 dst0 src0 maxn0 b0 = Ok r /\ copy_done r.
  Proof.
    apply (loop_rule (fun s => exists k, copied_part k s) (fun '(_, _, _, maxn, _, _) => maxn)).
    - intros s [k Hs]. pose proof (copy_round k s Hs) as Hr. destruct s as [[[[[mm dst] src] maxn] part] b].
      destruct Hs as (_ & Hk & _ & _ & -> & _). split; [lia|]. destruct (copy_string_body _) as [[s'|r]|]; try done.
      destruct Hr as (k' & Hlt & Hs'). split; [by exists k'|]. destruct s' as [[[[[mm' dst'] src'] maxn'] part'] b']. destruct Hs' as (_ & _ & _ & _ & -> & _). lia.
    - exists 0. split; [by apply same_space_refl|]. split; [lia|]. split; [lia|]. split; [lia|]. split; [lia|]. split; [intros i Hi; lia|]. split; [lia|].
      split; [|intros q; destruct (Z.leb_spec dst0 q), (Z.ltb_spec q (dst0 + 0)); (done || lia)]. rewrite Z.add_0_r.
      unfold ROUNDDOWN, PGSIZE, u32, two32 in *. Z.to_euclidean_division_equations. lia.
    - unfold two32 in *. lia.
  Qed.
End Copy.

Lemma mem_bytes_S (m : Z -> Z) a n : 0 < n -> mem_bytes m a n = m a :: mem_bytes m (a + 1) (n - 1).
Proof.
  intros Hn. unfold mem_bytes. rewrite seqZ_cons by done. cbn [fmap list_fmap]. f_equal; [f_equal; lia|].
  change (Z.succ 0) with (1 + 0). rewrite <- (fmap_add_seqZ 1), <- list_fmap_compose. replace (Z.pred n) with (n - 1) by lia.
  apply list_fmap_ext. intros i x _. unfold compose. f_equal. lia.
Qed.

Lemma mem_bytes_ext (m m' : Z -> Z) a b n : (forall i, 0 <= i < n -> m (a + i) = m' (b + i)) -> mem_bytes m a n = mem_bytes m' b n.
Proof. intros H. unfold mem_bytes. apply list_fmap_ext. intros i x Hx. apply lookup_seqZ in Hx as [-> Hx]. apply H. lia. Qed.

Lemma string_at_str (N : nat) : forall m a n, str m a n -> n < Z.of_nat N -> string_at N m a = mem_bytes m a n.
Proof.
  induction N as [|N IH]; intros m a n (Hn & Hnz & Hz) Hlt; [lia|]. cbn [string_at]. destruct (decide (n = 0)) as [->|Hne].
  - rewrite Z.add_0_r in Hz. by rewrite Hz.
  - pose proof (Hnz 0 ltac:(lia)) as H0. rewrite Z.add_0_r in H0. destruct (Z.eqb_spec (m a) 0); [done|].
    rewrite mem_bytes_S by lia. f_equal. apply IH; [|lia]. split; [lia|]. split.
    + intros i Hi. replace (a + 1 + i) with (a + (1 + i)) by lia. apply Hnz. lia.
    + by replace (a + 1 + (n - 1)) with (a + n) by lia.
Qed.

(** ** The copies of sysfile.c *)

Section Transfers.
  Context {F : Type} `{!InodeOps F}.
  Implicit Types (s : sys F).

  (** The ranges do not meet. *)
Definition disjoint (a n b k : Z) : Prop := a + n <= b \/ b + k <= a.

  (** Nothing but memory, and there only [n] bytes from [a] on, changes. *)
Record writes s (a n : Z) s' : Prop := {
    wr_space : same_space (umm s) (umm s');
    wr_files : ufs s' = ufs s;
    wr_mem : forall q, ~ a <= q < a + n -> umem s' q = umem s q
  }.

Lemma to_user_Ok dst src len s : space_wf (umm s) -> 0 <= len < two32 -> disjoint dst len src len ->
    exists ok s', to_user dst src len s = Ok (ok, s') /\ writes s dst len s' /\ (ok = true <-> accepted (umm s) dst len true) /\
      forall i, 0 <= i < len -> umem s' (dst + i) = if ok : bool then umem s (src + i) else umem s (dst + i).
  Proof.
    intros Hwf Hl Hd. unfold to_user, copy_to_user. destruct (user_check_Ok (umm s) dst len true Hwf) as (ok & mm & E & Hs & Hok).
    rewrite E. cbn [rbind]. destruct ok; cbn [negb].
    - destruct (memcpy_spec dst src len (umem s)) as (m & Em & Hm); [done|unfold disjoint in Hd; lia|]. rewrite Em. cbn [rbind].
      eexists true, _. split; [done|]. split; [|split; [done|]].
      + split; cbn; [done|done|]. intros q Hq. rewrite Hm. unfold blit. destruct (Z.leb_spec dst q), (Z.ltb_spec q (dst + len)); (done || lia).
      + intros i Hi. cbn. rewrite Hm. unfold blit. destruct (Z.leb_spec dst (dst + i)), (Z.ltb_spec (dst + i) (dst + len)); try lia. cbn [andb]. f_equal. lia.
    - eexists false, _. split; [done|]. split; [by split|]. by split.
  Qed.

Lemma from_user_Ok dst src len w s : space_wf (umm s) -> 0 <= len < two32 -> disjoint dst len src len ->
    exists ok s', from_user dst src len w s = Ok (ok, s') /\ writes s dst len s' /\ (ok = true <-> accepted (umm s) src len w) /\
      forall i, 0 <= i < len -> umem s' (dst + i) = if ok : bool then umem s (src + i) else umem s (dst + i).
  Proof.
    intros Hwf Hl Hd. unfold from_user, copy_from_user. destruct (user_check_Ok (umm s) src len w Hwf) as (ok & mm & E & Hs & Hok).
    rewrite E. cbn [rbind]. destruct ok; cbn [negb].
    - destruct (memcpy_spec dst src len (umem s)) as (m & Em & Hm); [done|unfold disjoint in Hd; lia|]. rewrite Em. cbn [rbind].
      eexists true, _. split; [done|]. split; [|split; [done|]].
      + split; cbn; [done|done|]. intros q Hq. rewrite Hm. unfold blit. destruct (Z.leb_spec dst q), (Z.ltb_spec q (dst + len)); (done || lia).
      + intros i Hi. cbn. rewrite Hm. unfold blit. destruct (Z.leb_spec dst (dst + i)), (Z.ltb_spec (dst + i) (dst + len)); try lia. cbn [andb]. f_equal. lia.
    - eexists false, _. split; [done|]. split; [by split|]. by split.
  Qed.

Lemma put_bytes_in a n l m i : 0 <= i < n -> put_bytes a n l m (a + i) = at_ l i.
  Proof. intros Hi. unfold put_bytes. destruct (Z.leb_spec a (a + i)), (Z.ltb_spec (a + i) (a + n)); try lia. cbn [andb]. f_equal. lia. Qed.
Lemma put_bytes_out a n l m q : ~ a <= q < a + n -> put_bytes a n l m q = m q.
  Proof. intros Hq. unfold put_bytes. destruct (Z.leb_spec a q), (Z.ltb_spec q (a + n)); (done || lia). Qed.

  (** A buffer that [kmalloc] returned. *)
Definition buffer (kb n : Z) : Prop := kb <> 0 /\ 0 <= kb /\ kb + n <= two32.

  (** A path is copied when there is a string of at most 4095 characters. *)
Lemma copy_path_Ok kb from s : space_wf (umm s) -> buffer kb 4096 -> 0 <= from < two32 -> disjoint kb 4096 from 4096 ->
    exists ret path s', copy_path kb from s = Ok (ret, path, s') /\ writes s kb 4096 s' /\
      ((ret = 0 /\ exists n, copyable (umm s) (umem s) from 4096 n /\ path = mem_bytes (umem s) from n) \/
       (ret = - E_INVAL /\ path = [] /\ forall n, ~ copyable (umm s) (umem s) from 4096 n)).
  Proof.
    intros Hwf (Hkb & Hk0 & Hk1) Hf Hd. unfold copy_path. destruct (Z.eqb_spec kb 0) as [?|_]; [done|]. change (FS_MAX_FPATH_LEN + 1) with 4096.
    destruct (copy_string_Ok (umm s) kb from 4096 (umem s)) as ([[ok mm] m] & E & Hs & Hm & Hr);
      [done|unfold two32 in *; lia|done|unfold two32; lia|exact Hd|]. rewrite E. cbn [rbind]. destruct ok; cbn [negb].
    - destruct Hr as (n & Hc & Heq). eexists 0, _, _. split; [done|]. split; [by split|]. left. split; [done|]. exists n. split; [done|].
      destruct Hc as ((Hn & Hnz & Hz) & Hlt & _). rewrite (string_at_str _ m kb n); [|split; [done|split]|lia].
      + apply mem_bytes_ext. intros i Hi. apply Heq. lia.
      + intros i Hi. rewrite Heq by lia. by apply Hnz.
      + rewrite Heq by lia. done.
    - eexists (- E_INVAL), [], _. split; [done|]. split; [by split|]. right. by split.
  Qed.
End Transfers.
