(* ===== verification/SysRead.v ===== *)
(** * Reading and writing a file through the system calls

    What [sysfile_read] and [sysfile_write] do to a file of the mounted file
    system and to the memory of the process: the loops over the kernel's
    buffer of one block against [afile_avail] and [afile_write]. *)
From S2P Require Import Prelude Arith CString Vmm IoBuf BlockDev Sfs SfsDisk SfsBmap SfsLoad SfsFile SfsSpec SfsTree Vfs File Dev VfsInv DevSpec FileInv FileStep FileProc FileSafe SfsOps SfsInv SfsLaws SfsMount SfsSafe SysFile UserMem.

Lemma avail_eq f off n : 0 <= n -> afile_avail f off n = Z.min n (Z.max 0 (a_size f - off)).
Proof. intros Hn. unfold afile_avail. destruct (Z.ltb_spec off (a_size f)); lia. Qed.

Lemma at_mem_bytes (m : Z -> Z) a n i : 0 <= i < n -> at_ (mem_bytes m a n) i = m (a + i).
Proof.
  intros Hi. unfold at_, mem_bytes. destruct (Z.leb_spec 0 i); [|lia].
  rewrite list_lookup_fmap, lookup_seqZ_lt by lia. cbn. f_equal. lia.
Qed.

Lemma at_byte l i : Forall is_byte l -> is_byte (at_ l i).
Proof.
  intros Hl. unfold at_. destruct (0 <=? i); [|unfold is_byte; lia]. destruct (l !! Z.to_nat i) as [b|] eqn:E; cbn; [|unfold is_byte; lia].
  by eapply Forall_lookup_1 in E.
Qed.

Section Descriptor.
  Context {F : Type} `{!InodeOps F, !InodeLaws F}.
  Implicit Types (st : fstate F) (v : vfs F) (p i : Z) (ps : list (Z * option Z)).

  (** An open descriptor of process [k], which is in no call. *)
Record is_open st ps (k : nat) p i f : Prop := {
    io_good : fgood st ps;
    io_proc : ps !! k = Some (p, None);
    io_entry : has_entry st p i f;
    io_open : status f = FD_OPENED;
    io_fd : testfd i = true
  }.

Lemma fd2file_Ok st ps k p i f : is_open st ps k p i f -> fd2file p i st = Ok 0.
  Proof.
    intros [Hk Ek Hh Hs Hi]. unfold fd2file. rewrite Hi. pose proof Hh as (fs & E & H0 & Ef).
    unfold get_file, get_files. rewrite E. cbn [rget rbind].
    pose proof (users_pos _ _ _ _ Ek) as Hu. rewrite <- (to_users _ _ _ _ _ _ (fk_tab _ _ _ _ Hk p fs E)) in Hu.
    destruct (Z.ltb_spec 0 (files_count fs)); [|lia]. cbn [rassert rbind]. destruct (Z.leb_spec 0 i); [|lia].
    rewrite Ef. cbn [rget rbind]. destruct (entry_facts _ _ _ _ _ _ _ Hk Hh) as [-> _]. rewrite Z.eqb_refl, andb_true_r.
    by rewrite bool_decide_true.
  Qed.

Lemma testfd_Ok st ps k p i f r w : is_open st ps k p i f -> (r = true -> readable f = true) -> (w = true -> writable f = true) ->
    file_testfd p i r w st = Ok true.
  Proof.
    intros Ho Hr Hw. unfold file_testfd. rewrite (fd2file_Ok _ _ _ _ _ _ Ho). cbn [rbind negb Z.eqb].
    rewrite (file_at_Ok _ _ _ _ (io_entry _ _ _ _ _ _ Ho)). cbn [rbind]. destruct r, w; rewrite ?Hr, ?Hw by done; done.
  Qed.

  (** The state after a transfer of [n] bytes. *)
Definition moved p i f (n : Z) v st : fstate F := put_file p i (set_pos f (pos f + n)) (set_vfs st v).

  (** A transfer that moves no count, from end to end. *)
Lemma transfer_Ok (op : Z -> iobuf -> vfs F -> res (Z * iobuf * vfs F)) (ok : file -> bool) st ps k p i f data len ret iob v :
    is_open st ps k p i f -> ok f = true -> op (node f) (iobuf_init data 0 len (pos f)) (fvfs st) = Ok (ret, iob, v) ->
    vinv v -> moves (fvfs st) none none v -> is_s32 (pos f + iobuf_used iob) ->
    (let! (r, st) := file_enter p i ok st in if negb (r =? 0) then Ok (r, 0, data, st) else file_rw_leave op p i data 0 len st) =
      Ok (ret, iobuf_used iob, io_data iob, moved p i f (iobuf_used iob) v st) /\
    is_open (moved p i f (iobuf_used iob) v st) ps k p i (set_pos f (pos f + iobuf_used iob)).
  Proof.
    intros Ho Hok Eop Hv Hm Hp. pose proof Ho as [Hk Ek Hh Hs Hi]. split.
    - unfold file_enter. rewrite (fd2file_Ok _ _ _ _ _ _ Ho). cbn [rbind negb Z.eqb]. rewrite (file_at_Ok _ _ _ _ Hh). cbn [rbind].
      rewrite Hok. cbn [negb]. unfold fd_array_acquire. rewrite (file_at_Ok _ _ _ _ Hh). cbn [rbind].
      rewrite bool_decide_true by done. cbn [rassert rbind negb Z.eqb]. set (f1 := set_count f (fopen_count f + 1)).
      pose proof (has_entry_put st p i f f1 Hh) as Hh1. unfold file_rw_leave. rewrite (file_at_Ok _ _ _ _ Hh1). cbn [rbind].
      rewrite fvfs_put. change (node f1) with (node f). change (pos f1) with (pos f). rewrite Eop. cbn [rbind].
      rewrite vfs_put, (file_at_Ok _ _ _ _ (has_entry_put (set_vfs st v) p i f f1 Hh)). cbn [rbind].
      rewrite bool_decide_true by done. rewrite put_put, s32_id by done. change (pos f1) with (pos f). set (f2 := set_pos f1 (pos f + iobuf_used iob)).
      unfold fd_array_release. rewrite (file_at_Ok _ _ _ _ (has_entry_put (set_vfs st v) p i f f2 Hh)). cbn [rbind].
      rewrite bool_decide_true by done. cbn [orb rassert rbind]. destruct (entry_facts _ _ _ _ _ _ _ Hk Hh) as [_ He]. unfold entry_ok in He. rewrite Hs in He.
      pose proof (hold_nonneg ps p i). change (fopen_count f2) with (fopen_count f + 1).
      destruct (Z.ltb_spec 0 (fopen_count f + 1)); [|lia]. cbn [rassert rbind]. destruct (Z.eqb_spec (fopen_count f + 1 - 1) 0); [lia|]. cbn [rbind].
      rewrite put_put. unfold moved. do 3 f_equal. unfold f2, f1. destruct f. unfold set_count, set_pos. cbn. f_equal. lia.
    - unfold moved. split; [|done| |done|done].
      + eapply fok_pos; [by eapply fok_neutral|by apply has_entry_vfs|done..].
      + by eapply has_entry_put, has_entry_vfs.
  Qed.
End Descriptor.

Section FileIO.
  Context {D : Type} `{!BlockDev D, !BlockRead D, !BlockWrite D}.
  Implicit Types (st : fstate (kfs D)) (v : vfs (kfs D)) (u : sys (kfs D)) (p i kb : Z) (ps : list (Z * option Z)) (g : afile).

  (** An open descriptor of a file of the file system: [sin] is its inode in
      memory and [g] what it holds. *)
Record open_file st ps (k : nat) p i f sin g : Prop := {
    of_open : is_open st ps k p i f;
    of_sin : sinfo (the_sfs (fvfs st)) !! node f = Some sin;
    of_rep : represents (sfs_view (fvfs st)) sin g;
    of_pos : 0 <= pos f < SFS_MAX_FILE_SIZE
  }.

Lemma open_file_node st ps k p i f sin g : open_file st ps k p i f sin g -> exists gd j, mounted (fvfs st) gd /\ snode (fvfs st) gd (node f) j sin /\
    opsof (fvfs st) (node f) = sfs_node_fileops /\ alive (fvfs st) (node f).
  Proof.
    intros [[Hk Ek Hh Hs Hi] Es Hr _]. destruct (vg_inv _ _ _ (fk_v _ _ _ _ Hk)) as (gd & Hm).
    destruct (mounted_snode _ gd _ sin Hm Es) as (j & Hj). exists gd, j. split; [done|]. split; [done|]. split.
    - unfold opsof. rewrite (sn_in _ _ _ _ _ Hj). destruct (sfs_ops_cases _ gd _ j sin Hm Hj) as [[Hd _]|[_ H]]; [|done].
      by rewrite (fl_type _ _ (proj1 (proj2 Hr))) in Hd.
    - by destruct (entry_alive _ _ _ _ _ _ _ Hk Hh (or_introl Hs)).
  Qed.

Lemma open_file_size st ps k p i f sin g : open_file st ps k p i f sin g -> 0 <= a_size g <= NBLOCKS * 4096.
  Proof. intros [_ _ (_ & Hf & [Hsz _]) _]. cbn in Hsz. pose proof (file_sizes _ _ Hf). lia. Qed.

  (** A file consists of bytes. *)
Lemma represents_byte (s : sfs_fs D) sin g q : represents s sin g -> 0 <= q < a_size g -> is_byte (a_byte g q).
  Proof.
    intros (Hok & _ & [Hsz Hb]) Hq. rewrite <- Hb by (cbn in *; lia). cbn. unfold byte. by apply at_byte, blk_bytes.
  Qed.

Lemma file_op {A} (sel : Z -> option A) st ps k p i f sin g h : open_file st ps k p i f sin g -> sel sfs_node_fileops = Some h ->
    vop sel (node f) (fvfs st) = Ok h.
  Proof.
    intros Ho Hs. destruct (open_file_node _ _ _ _ _ _ _ _ Ho) as (gd & j & _ & _ & Eo & Ha).
    eapply vop_Ok; [apply (io_good _ _ _ _ _ _ (of_open _ _ _ _ _ _ _ _ Ho))|exact Ha|by rewrite Eo].
  Qed.

  (** ** Reading *)

Lemma avail_range g off n : 0 <= n -> 0 <= afile_avail g off n <= n.
  Proof. intros Hn. rewrite avail_eq by done. lia. Qed.

Lemma node_read st ps k p i f sin g data n : open_file st ps k p i f sin g -> 0 <= n <= 4096 -> n <= Z.of_nat (length data) ->
    exists s' iob, vop_read (node f) (iobuf_init data 0 n (pos f)) (fvfs st) = Ok (0, iob, put_node (node f) s' sin (fvfs st)) /\
      iobuf_used iob = afile_avail g (pos f) n /\ same (sfs_view (fvfs st)) s' /\ represents s' sin g /\ length (io_data iob) = length data /\
      forall q, at_ (io_data iob) q = if (0 <=? q) && (q <? afile_avail g (pos f) n) then a_byte g (pos f + q) else at_ data q.
  Proof.
    intros Ho Hn Hlen. destruct (open_file_node _ _ _ _ _ _ _ _ Ho) as (gd & j & Hm & Hj & _). pose proof (avail_range g (pos f) n) as Ha.
    unfold vop_read. rewrite (file_op i_read _ _ _ _ _ _ _ _ sfs_read_node Ho) by done. cbn [rbind]. unfold sfs_read_node, sfs_io_node.
    rewrite (node_sfs_Ok _ gd _ j sin Hm Hj). cbn [rbind]. unfold sfs_io. cbn [iobuf_init io_base io_data io_offset io_resid].
    change (take (Z.to_nat 0) data) with (@nil Z). change (drop (Z.to_nat 0) data) with data.
    destruct (io_read (sfs_view (fvfs st)) sin g data (pos f) n (of_rep _ _ _ _ _ _ _ _ Ho) (of_pos _ _ _ _ _ _ _ _ Ho) Hn Hlen)
      as (s' & buf & E & (Hrep & Hsame) & Hlb & Hat). rewrite E. cbn [rbind app].
    exists s'. destruct (Z.eqb_spec (afile_avail g (pos f) n) 0) as [Hz|Hz]; cbn [negb rbind].
    - eexists. split; [reflexivity|]. unfold iobuf_used. cbn. split; [rewrite Z.sub_diag; by rewrite Hz|]. by split_and!.
    - unfold iobuf_skip. cbn [set_io_data iobuf_init io_resid]. destruct (Z.leb_spec (afile_avail g (pos f) n) n); [|lia]. cbn [rassert rbind].
      eexists. split; [reflexivity|]. unfold iobuf_used. cbn. split; [|by split_and!].
      replace (n - (n - afile_avail g (pos f) n)) with (afile_avail g (pos f) n) by lia. apply u32_id. unfold is_u32, two32. lia.
  Qed.

Lemma file_read_Ok st ps k p i f sin g data n : open_file st ps k p i f sin g -> readable f = true -> 0 <= n <= 4096 -> n <= Z.of_nat (length data) ->
    let a := afile_avail g (pos f) n in
    exists s' data', let st' := moved p i f a (put_node (node f) s' sin (fvfs st)) st in
      file_read p i data 0 n st = Ok (0, a, data', st') /\ open_file st' ps k p i (set_pos f (pos f + a)) sin g /\ same (sfs_view (fvfs st)) s' /\
      forall q, at_ data' q = if (0 <=? q) && (q <? a) then a_byte g (pos f + q) else at_ data q.
  Proof.
    intros Ho Hrd Hn Hlen. destruct (node_read _ _ _ _ _ _ _ _ data n Ho Hn Hlen) as (s' & iob & E & Eu & Hs & Hrep & _ & Hat).
    destruct (open_file_node _ _ _ _ _ _ _ _ Ho) as (gd & j & Hm & Hj & _). pose proof (avail_eq g (pos f) n ltac:(lia)) as Ha.
    pose proof (open_file_size _ _ _ _ _ _ _ _ Ho) as Hsz. pose proof (of_pos _ _ _ _ _ _ _ _ Ho) as Hp. unfold NBLOCKS, SFS_MAX_FILE_SIZE in *.
    exists s', (io_data iob). destruct (transfer_Ok vop_read readable st ps k p i f data n 0 iob _ (of_open _ _ _ _ _ _ _ _ Ho) Hrd E) as [E' Ho'].
    - exists gd. by apply (mounted_same _ gd _ sin); [|apply Hj|].
    - by apply same_vfs_moves.
    - rewrite Eu. unfold is_s32. lia.
    - rewrite Eu in E', Ho'. split; [exact E'|]. split; [|by split]. split; [done|..]; unfold moved; rewrite ?fvfs_put; cbn [set_vfs fvfs].
      + unfold put_node, put_sin, set_sfs, the_sfs. cbn. apply lookup_insert_eq.
      + by rewrite view_put.
      + cbn. unfold SFS_MAX_FILE_SIZE. lia.
  Qed.

  (** ** The system calls

      A process reads or writes [n0] bytes at [base0] through the kernel's
      buffer at [kb]; [f0] is the descriptor before. *)

Lemma same_trans (s1 s2 s3 : sfs_fs D) : same s1 s2 -> same s2 s3 -> same s1 s3.
  Proof.
    intros H1 [H2 H3 H4 H5]. split; [done|by rewrite H3; apply (bc_geo _ _ _ _ H1)| |].
    - intros b. by rewrite H4, (bc_free _ _ _ _ H1).
    - intros b. by rewrite H5, (bc_blk _ _ _ _ H1).
  Qed.

  (** Another descriptor is as it was. *)
Definition others_kept p i st st' : Prop := forall q j h, (q, j) <> (p, i) -> has_entry st q j h -> has_entry st' q j h.

Section Read.
  Context (u0 : sys (kfs D)) ps (k : nat) p i (f0 : file) (sin : sfs_inode) g kb (base0 n0 : Z).
  Context (Hf0 : open_file (ufs u0) ps k p i f0 sin g) (Hrd : readable f0 = true) (Hwf : space_wf (umm u0)).
  Context (Hn : 0 <= n0 < two32) (Hacc : accepted (umm u0) base0 n0 true) (Hapart : disjoint kb IOBUF_SIZE base0 n0).

  (** [c] bytes have been read. *)
Record read_to (c : Z) u : Prop := {
    rt_file : open_file (ufs u) ps k p i (set_pos f0 (pos f0 + c)) sin g;
    rt_space : same_space (umm u0) (umm u);
    rt_mem : forall j, 0 <= j < c -> umem u (base0 + j) = a_byte g (pos f0 + j);
    rt_rest : forall q, ~ kb <= q < kb + IOBUF_SIZE -> ~ base0 <= q < base0 + c -> umem u q = umem u0 q;
    rt_disk : same (sfs_view (fvfs (ufs u0))) (sfs_view (fvfs (ufs u)));
    rt_others : others_kept p i (ufs u0) (ufs u);
    rt_byte : (forall q, is_byte (umem u0 q)) -> forall q, is_byte (umem u q)
  }.

Lemma read_start : read_to 0 u0.
  Proof.
    assert (set_pos f0 (pos f0 + 0) = f0) as E by (rewrite Z.add_0_r; by destruct f0). split; rewrite ?E; try done.
    - by apply same_space_refl.
    - intros j Hj. lia.
    - split; [apply (of_rep _ _ _ _ _ _ _ _ Hf0)|done..].
    - by intros q j h.
  Qed.

Definition read_inv '((base, len, copied, u) : Z * Z * Z * sys (kfs D)) : Prop :=
    read_to copied u /\ base = base0 + copied /\ len = n0 - copied /\ 0 <= copied <= afile_avail g (pos f0) n0.

  (** One round: up to a block is read and handed over. *)
Lemma read_step_Ok c u : read_to c u -> 0 <= c <= afile_avail g (pos f0) n0 -> c < n0 ->
    let a := afile_avail g (pos f0 + c) (Z.min (n0 - c) IOBUF_SIZE) in
    exists data st', file_read p i (mem_bytes (umem u) kb IOBUF_SIZE) 0 (Z.min (n0 - c) IOBUF_SIZE) (ufs u) = Ok (0, a, data, st') /\
      let u1 := mk_sys (put_bytes kb IOBUF_SIZE data (umem u)) (umm u) st' in
      if a =? 0 then read_to c u1 else exists u2, to_user (base0 + c) kb a u1 = Ok (true, u2) /\ read_to (c + a) u2.
  Proof.
    intros [Hf Hs Hm Hr Hd Ho Hby] Hc Hlt a. unfold IOBUF_SIZE in *. set (m := Z.min (n0 - c) 4096) in *.
    assert (Hm0 : 0 <= m <= 4096) by lia. pose proof (avail_range g (pos f0 + c) m ltac:(lia)) as Ha. fold a in Ha.
    destruct (file_read_Ok _ _ _ _ _ _ _ _ (mem_bytes (umem u) kb 4096) m Hf Hrd Hm0) as (s' & data & E & Hf1 & Hsame & Hat); [rewrite length_mem_bytes by lia; lia|].
    cbn [pos set_pos] in E, Hf1, Hat. fold a in E, Hf1, Hat. set (st1 := moved _ _ _ _ _ _) in *. exists data, st1. split; [exact E|].
    assert (Hd1 : same (sfs_view (fvfs (ufs u0))) (sfs_view (fvfs st1))).
    { apply (same_trans _ _ _ Hd). unfold st1, moved. rewrite fvfs_put. cbn [set_vfs fvfs]. by rewrite view_put. }
    assert (Ho1 : others_kept p i (ufs u0) st1).
    { intros q j h Hne Hq. unfold st1, moved. apply has_entry_ne; [|done|]. 2: { by destruct (io_entry _ _ _ _ _ _ (of_open _ _ _ _ _ _ _ _ Hf)) as (? & _ & ? & _). }
      by apply has_entry_vfs, Ho. }
    change (set_pos (set_pos f0 (pos f0 + c)) (pos f0 + c + a)) with (set_pos f0 (pos f0 + c + a)) in Hf1. rewrite <- Z.add_assoc in Hf1.
    set (u1 := mk_sys _ _ _). assert (Hr1 : forall q, ~ kb <= q < kb + 4096 -> umem u1 q = umem u q) by (intros q Hq; by apply put_bytes_out).
    assert (Hby1 : (forall q, is_byte (umem u0 q)) -> forall q, is_byte (umem u1 q)).
    { intros H0 q. destruct (decide (kb <= q < kb + 4096)) as [Hq|Hq]; [|by rewrite Hr1; [apply Hby|]]. unfold u1. cbn [umem].
      replace q with (kb + (q - kb)) by lia. rewrite put_bytes_in, Hat by lia.
      destruct (Z.leb_spec 0 (q - kb)), (Z.ltb_spec (q - kb) a); try lia; cbn [andb].
      - eapply represents_byte; [apply (of_rep _ _ _ _ _ _ _ _ Hf)|]. pose proof (of_pos _ _ _ _ _ _ _ _ Hf). cbn in *.
        pose proof (avail_eq g (pos f0 + c) m ltac:(lia)) as Hav. fold a in Hav. lia.
      - rewrite at_mem_bytes by lia. by apply Hby. }
    destruct (accepted_range _ _ _ _ Hn Hacc) as (Hb0 & _ & Hb1 & _). cbn zeta. destruct (Z.eqb_spec a 0) as [Hz|Hz].
    - rewrite Hz, Z.add_0_r in Hf1. split; try done.
      + intros j Hj. rewrite Hr1; [by apply Hm|]. unfold disjoint in Hapart. lia.
      + intros q Hq1 Hq2. rewrite Hr1 by done. by apply Hr.
    - destruct (to_user_Ok (base0 + c) kb a u1 (same_space_wf _ _ Hs)) as (b & u2 & E2 & [W1 W2 W3] & Hb & Hat2); [unfold two32; lia|unfold disjoint in *; lia|].
      assert (b = true) as ->; [|exists u2; split; [exact E2|split]].
      { apply Hb. apply (same_space_accepted _ _ _ _ _ Hs). apply (accepted_sub _ _ n0); (done || lia). }
      + rewrite W2. exact Hf1.
      + eapply same_space_trans; [exact Hs|exact W1].
      + intros j Hj. destruct (Z.lt_ge_cases j c).
        * rewrite W3, Hr1 by (unfold disjoint in Hapart; lia). apply Hm. lia.
        * replace (base0 + j) with (base0 + c + (j - c)) by lia. rewrite Hat2 by lia. unfold u1. cbn [umem]. rewrite put_bytes_in by lia. rewrite Hat.
          destruct (Z.leb_spec 0 (j - c)), (Z.ltb_spec (j - c) a); try lia. cbn [andb]. f_equal. lia.
      + intros q Hq1 Hq2. unfold IOBUF_SIZE in *. rewrite W3, Hr1 by lia. apply Hr; lia.
      + by rewrite W2.
      + by rewrite W2.
      + intros H0 q. destruct (decide (base0 + c <= q < base0 + c + a)) as [Hq|Hq]; [|rewrite W3 by lia; by apply Hby1].
        replace q with (base0 + c + (q - (base0 + c))) by lia. rewrite Hat2 by lia. by apply Hby1.
  Qed.

Lemma read_loop_Ok : exists u, loop (read_round p i kb) (base0, n0, 0, u0) = Ok (0, afile_avail g (pos f0) n0, u) /\ read_to (afile_avail g (pos f0) n0) u.
  Proof.
    pose proof (avail_eq g (pos f0) n0 ltac:(lia)) as Ea. destruct (accepted_range _ _ _ _ Hn Hacc) as (Hb0 & _ & Hb1 & _).
    destruct (loop_rule read_inv (fun '(_, len, _, _) => len) (fun '(ret, copied, u) => ret = 0 /\ copied = afile_avail g (pos f0) n0 /\ read_to copied u)
      (read_round p i kb) (base0, n0, 0, u0)) as ([[ret copied] u] & E & -> & -> & H).
    - intros [[[base len] c] u] (Hi & -> & -> & Hc). split; [lia|]. unfold read_round. destruct (Z.eqb_spec (n0 - c) 0) as [Hz|Hz].
      { split; [done|]. split; [lia|done]. }
      replace (if n0 - c <? IOBUF_SIZE then n0 - c else IOBUF_SIZE) with (Z.min (n0 - c) IOBUF_SIZE) by (destruct (Z.ltb_spec (n0 - c) IOBUF_SIZE); lia).
      destruct (read_step_Ok c u Hi Hc ltac:(lia)) as (data & st' & -> & H). set (a := afile_avail g (pos f0 + c) _) in *. cbn [rbind].
      assert (Ha : a = Z.min (Z.min (n0 - c) IOBUF_SIZE) (Z.max 0 (a_size g - (pos f0 + c)))) by (apply avail_eq; unfold IOBUF_SIZE; lia).
      unfold IOBUF_SIZE in Ha. destruct (Z.eqb_spec a 0) as [Hza|Hza]; cbn [negb rbind orb Z.eqb].
      + split; [done|]. split; [lia|exact H].
      + destruct H as (u2 & -> & Hr2). cbn [rbind]. destruct (Z.leb_spec a (n0 - c)); [|lia]. cbn [rassert rbind negb orb Z.eqb].
        rewrite !u32_id by (unfold is_u32, two32 in *; lia). destruct (Z.eqb_spec a 0) as [?|_]; [lia|]. split; [|lia]. split; [done|]. split; [lia|]. split; lia.
    - split; [apply read_start|]. lia.
    - unfold two32 in *. lia.
    - exists u. by split.
  Qed.
End Read.

  (** ** Writing *)

Lemma afile_write_more off c m data buf g : 0 <= c -> 0 <= m -> (forall j, 0 <= j < m -> at_ buf j = at_ data (c + j)) ->
    afile_write (off + c) m buf (afile_write off c data g) ≡ afile_write off (c + m) data g.
  Proof.
    intros Hc Hm Hbuf. split; cbn; [lia|]. intros q Hq.
    destruct (Z.leb_spec (off + c) q), (Z.ltb_spec q (off + c + m)), (Z.leb_spec off q), (Z.ltb_spec q (off + (c + m))), (Z.ltb_spec q (off + c));
      cbn [andb]; try lia; try (rewrite Hbuf by lia; f_equal; lia);
      destruct (Z.ltb_spec q (a_size g `max` (off + c))); (done || lia || (destruct (Z.ltb_spec q (a_size g)); (done || lia))).
  Qed.

  (** Only inode [sin] changes on the disk; it becomes [sin']. *)
Definition only_file st sin st' sin' : Prop :=
    ino sin' = ino sin /\ forall gd, mounted (fvfs st) gd -> gd !! ino sin = Some (din sin) ->
      mounted (fvfs st') (<[ino sin := din sin']> gd) /\
      forall j d, gd !! j = Some d -> j <> ino sin -> kept (sfs_view (fvfs st)) (sfs_view (fvfs st')) (at_node j d).

Lemma only_file_trans st1 sin1 st2 sin2 st3 sin3 : only_file st1 sin1 st2 sin2 -> only_file st2 sin2 st3 sin3 -> only_file st1 sin1 st3 sin3.
  Proof.
    intros [E1 H1] [E2 H2]. split; [congruence|]. intros gd Hm E. destruct (H1 gd Hm E) as [Hm1 Hk1].
    destruct (H2 _ Hm1) as [Hm2 Hk2]; [rewrite E1; apply lookup_insert_eq|]. rewrite E1, insert_insert_eq in Hm2. split; [done|].
    intros j d Ej Hne. apply (kept_trans _ (sfs_view (fvfs st2))); [by apply (nd_inode _ _ _ _ (tr_node _ _ (mt_tree _ _ Hm) _ _ Ej))|by apply Hk1|].
    apply Hk2; [by rewrite lookup_insert_ne|by rewrite E1].
  Qed.

  (** There is room for [n] more bytes at the position. *)
Definition has_room st f sin (n : Z) : Prop := fits (sfs_view (fvfs st)) sin (pos f + n).

Lemma node_write st ps k p i f sin g data n : open_file st ps k p i f sin g -> 0 <= n <= 4096 -> n <= Z.of_nat (length data) ->
    Forall is_byte data -> pos f <= a_size g -> has_room st f sin n ->
    exists s' sin' iob, vop_write (node f) (iobuf_init data 0 n (pos f)) (fvfs st) = Ok (0, iob, put_node (node f) s' sin' (fvfs st)) /\
      iobuf_used iob = n /\ io_data iob = data /\ represents s' sin' (afile_write (pos f) n data g) /\ touched (sfs_view (fvfs st)) sin s' sin' /\
      unused_blocks (super (sfs_view (fvfs st))) - 2 * (dblocks (din sin') - dblocks (din sin)) <= unused_blocks (super s').
  Proof.
    intros Ho Hn Hlen Hby Hle [Hmax Hroom]. destruct (open_file_node _ _ _ _ _ _ _ _ Ho) as (gd & j & Hm & Hj & _).
    unfold vop_write. rewrite (file_op i_write _ _ _ _ _ _ _ _ sfs_write_node Ho) by done. cbn [rbind]. unfold sfs_write_node, sfs_io_node.
    rewrite (node_sfs_Ok _ gd _ j sin Hm Hj). cbn [rbind]. unfold sfs_io. cbn [iobuf_init io_base io_data io_offset io_resid].
    change (take (Z.to_nat 0) data) with (@nil Z). change (drop (Z.to_nat 0) data) with data. pose proof (of_pos _ _ _ _ _ _ _ _ Ho) as Hp.
    destruct (io_write (sfs_view (fvfs st)) sin g data (pos f) n (of_rep _ _ _ _ _ _ _ _ Ho)) as (s' & sin' & E & H1 & H2 & H3); try (done || lia).
    { intros Hg. specialize (Hroom Hg). Z.to_euclidean_division_equations. lia. }
    rewrite E. cbn [rbind app]. exists s', sin'. unfold iobuf_used. destruct (Z.eqb_spec n 0) as [Hz|Hz]; cbn [negb rbind].
    - eexists. split; [reflexivity|]. cbn. split; [rewrite Z.sub_diag; by rewrite Hz|]. done.
    - unfold iobuf_skip. cbn [set_io_data iobuf_init io_resid]. rewrite Z.leb_refl. cbn [rassert rbind].
      eexists. split; [reflexivity|]. cbn. split; [|done]. rewrite u32_id; [lia|]. unfold is_u32, two32. lia.
  Qed.

Lemma file_write_Ok st ps k p i f sin g data n : open_file st ps k p i f sin g -> writable f = true -> 0 <= n <= 4096 ->
    n <= Z.of_nat (length data) -> Forall is_byte data -> pos f <= a_size g -> has_room st f sin n ->
    exists s' sin', let st' := moved p i f n (put_node (node f) s' sin' (fvfs st)) st in
      file_write p i data 0 n st = Ok (0, n, data, st') /\ open_file st' ps k p i (set_pos f (pos f + n)) sin' (afile_write (pos f) n data g) /\
      only_file st sin st' sin' /\
      unused_blocks (super (sfs_view (fvfs st))) - 2 * (dblocks (din sin') - dblocks (din sin)) <= unused_blocks (super (sfs_view (fvfs st'))).
  Proof.
    intros Ho Hw Hn Hlen Hby Hle Hrm. destruct (node_write _ _ _ _ _ _ _ _ data n Ho Hn Hlen Hby Hle Hrm) as (s' & sin' & iob & E & Eu & Ed & Hrep & Ht & Hu).
    assert (Hstep : forall gd, mounted (fvfs st) gd -> gd !! ino sin = Some (din sin) ->
      mounted (put_node (node f) s' sin' (fvfs st)) (<[ino sin := din sin']> gd) /\
      forall j d, gd !! j = Some d -> j <> ino sin -> kept (sfs_view (fvfs st)) s' (at_node j d)).
    { intros gd Hm Eg. destruct (mounted_snode _ gd _ sin Hm (of_sin _ _ _ _ _ _ _ _ Ho)) as (j & Hj).
      assert (Hst : file_step (sfs_view (fvfs st)) gd sin s' sin').
      { apply touched_step; [apply Hm|done| |apply Hrep|done]. apply (fl_type _ _ (proj1 (proj2 (of_rep _ _ _ _ _ _ _ _ Ho)))). }
      split; [by eapply step_mounted|]. apply (frame_others _ _ _ _ (din sin)); [apply Hm|done|].
      eapply frame_weaken; [apply (tc_frame _ _ _ _ Ht)|]. intros b _ [Hb _]. by apply (owns_ext _ sin). }
    destruct (open_file_node _ _ _ _ _ _ _ _ Ho) as (gd & j & Hm & Hj & _). pose proof (ca_disk _ _ _ _ (sn_ca _ _ _ _ _ Hj)) as Eg.
    pose proof (of_pos _ _ _ _ _ _ _ _ Ho) as Hp. destruct Hrm as [Hmax _]. unfold NBLOCKS, SFS_MAX_FILE_SIZE in *.
    exists s', sin'. destruct (transfer_Ok vop_write writable st ps k p i f data n 0 iob _ (of_open _ _ _ _ _ _ _ _ Ho) Hw E) as [E' Ho'].
    - exists (<[ino sin := din sin']> gd). by apply Hstep.
    - by apply same_vfs_moves.
    - rewrite Eu. unfold is_s32. lia.
    - rewrite Eu in E', Ho'. rewrite Ed in E'. unfold moved in *. rewrite !fvfs_put. cbn [set_vfs fvfs]. rewrite view_put.
      split; [exact E'|]. split; [|split; [|done]].
      + split; [done|..]; rewrite ?fvfs_put; cbn [set_vfs fvfs].
        * unfold put_node, put_sin, set_sfs, the_sfs. cbn. apply lookup_insert_eq.
        * by rewrite view_put.
        * cbn. unfold SFS_MAX_FILE_SIZE. lia.
      + split; [apply Ht|]. rewrite fvfs_put. cbn [set_vfs fvfs]. rewrite view_put. exact Hstep.
  Qed.

Section Write.
  Context (u0 : sys (kfs D)) ps (k : nat) p i (f0 : file) (sin0 : sfs_inode) (g0 : afile) kb (base0 n0 : Z).
  Context (Hf0 : open_file (ufs u0) ps k p i f0 sin0 g0) (Hwr : writable f0 = true) (Hwf : space_wf (umm u0)) (Hby : forall q, is_byte (umem u0 q)).
  Context (Hn : 0 <= n0 < two32) (Hacc : accepted (umm u0) base0 n0 false) (Hapart : disjoint kb IOBUF_SIZE base0 n0).
  Context (Hle : pos f0 <= a_size g0) (Hroom : has_room (ufs u0) f0 sin0 n0).

Let data0 := mem_bytes (umem u0) base0 n0.

  (** [c] bytes have been written. *)
Record wrote_to (c : Z) sin g u : Prop := {
    wt_file : open_file (ufs u) ps k p i (set_pos f0 (pos f0 + c)) sin g;
    wt_data : g ≡ afile_write (pos f0) c data0 g0;
    wt_space : same_space (umm u0) (umm u);
    wt_mem : forall q, ~ kb <= q < kb + IOBUF_SIZE -> umem u q = umem u0 q;
    wt_byte : forall q, is_byte (umem u q);
    wt_only : only_file (ufs u0) sin0 (ufs u) sin;
    wt_room : unused_blocks (super (sfs_view (fvfs (ufs u0)))) - 2 * (dblocks (din sin) - dblocks (din sin0)) <=
      unused_blocks (super (sfs_view (fvfs (ufs u))));
    wt_others : others_kept p i (ufs u0) (ufs u)
  }.

Lemma write_start : wrote_to 0 sin0 g0 u0.
  Proof.
    assert (set_pos f0 (pos f0 + 0) = f0) as E by (rewrite Z.add_0_r; by destruct f0).
    split; rewrite ?E; try done.
    - split; cbn; [lia|]. intros q Hq. destruct (Z.leb_spec (pos f0) q), (Z.ltb_spec q (pos f0 + 0)), (Z.ltb_spec q (a_size g0)); (done || lia).
    - by apply same_space_refl.
    - split; [done|]. intros gd Hm Eg. rewrite insert_id by done. split; [done|]. intros j d Ej _ b Hb. split; [|done].
      by apply (owns_used _ _ _ (nd_inode _ _ _ _ (tr_node _ _ (mt_tree _ _ Hm) _ _ Ej))).
    - lia.
    - by intros q j h.
  Qed.

  (** There is room for the next round. *)
Lemma write_room c sin g u : wrote_to c sin g u -> 0 <= c < n0 -> pos f0 + c <= a_size g /\
    has_room (ufs u) (set_pos f0 (pos f0 + c)) sin (Z.min (n0 - c) IOBUF_SIZE).
  Proof.
    intros [Hf [Hsz _] _ _ _ _ Hu _] Hc. cbn in Hsz. split; [lia|]. destruct Hroom as [Hmax Hgrow]. split; cbn [set_pos pos]; unfold IOBUF_SIZE in *; [lia|].
    intros Hg. destruct (of_rep _ _ _ _ _ _ _ _ Hf) as (_ & Hfo & [Hsf _]). destruct (of_rep _ _ _ _ _ _ _ _ Hf0) as (_ & Hfo0 & [Hs0 _]). cbn in Hsf, Hs0.
    pose proof (fl_blocks _ _ Hfo) as Hb. pose proof (fl_blocks _ _ Hfo0) as Hb0. rewrite Hsf in Hb. rewrite Hs0 in Hb0.
    assert (dblocks (din sin0) * 4096 < pos f0 + n0) as Hlt by (Z.to_euclidean_division_equations; lia). specialize (Hgrow Hlt).
    clear -Hgrow Hu Hg Hb Hb0 Hc Hsz Hlt. pose proof (Z.min_spec (n0 - c) 4096).
    assert ((pos f0 + c + Z.min (n0 - c) 4096 + 4095) / 4096 <= (pos f0 + n0 + 4095) / 4096) by (apply Z.div_le_mono; lia). lia.
  Qed.

  (** One round: up to a block is fetched and written. *)
Lemma write_step_Ok c sin g u : wrote_to c sin g u -> 0 <= c < n0 -> let m := Z.min (n0 - c) IOBUF_SIZE in
    exists u1 st' sin' g', from_user kb (base0 + c) m false u = Ok (true, u1) /\
      file_write p i (mem_bytes (umem u1) kb IOBUF_SIZE) 0 m (ufs u1) = Ok (0, m, mem_bytes (umem u1) kb IOBUF_SIZE, st') /\
      wrote_to (c + m) sin' g' (set_ufs u1 st').
  Proof.
    intros Hw Hc m. destruct (write_room c sin g u Hw Hc) as [Hpos Hrm]. fold m in Hrm. destruct Hw as [Hf Hd Hs Hm Hb Ho Hu Hot].
    unfold IOBUF_SIZE in *. assert (Hm0 : 0 < m <= 4096 /\ c + m <= n0) by lia. destruct (accepted_range _ _ _ _ Hn Hacc) as (Hb0 & _ & Hb1 & _).
    destruct (from_user_Ok kb (base0 + c) m false u (same_space_wf _ _ Hs)) as (b & u1 & E1 & [W1 W2 W3] & Hok & Hat);
      [unfold two32; lia|unfold disjoint in *; lia|].
    assert (b = true) as -> by (apply Hok, (same_space_accepted _ _ _ _ _ Hs), (accepted_sub _ _ n0); (done || lia)).
    set (buf := mem_bytes (umem u1) kb 4096) in *. rewrite <- W2 in *.
    assert (Hb' : forall q, is_byte (umem u1 q)).
    { intros q. destruct (decide (kb <= q < kb + m)) as [Hq|Hq]; [|by rewrite W3]. replace q with (kb + (q - kb)) by lia. rewrite Hat by lia. done. }
    destruct (file_write_Ok _ _ _ _ _ _ _ _ buf m Hf Hwr) as (s' & sin' & E2 & Hf' & Hon & Hu'); try (done || lia).
    { unfold buf. rewrite length_mem_bytes by lia. lia. }
    { by apply mem_bytes_Forall. }
    cbn [set_pos pos] in E2, Hf', Hon, Hu'. set (st' := moved _ _ _ _ _ _) in *.
    eexists u1, st', sin', _. split; [done|]. split; [exact E2|]. split; cbn [set_ufs ufs umem umm].
    - rewrite Z.add_assoc. exact Hf'.
    - etrans; [by apply afile_write_proper|]. apply afile_write_more; [lia|lia|]. intros j Hj. unfold buf, data0. rewrite !at_mem_bytes by lia.
      rewrite Hat by lia. rewrite Hm by (unfold disjoint in Hapart; lia). f_equal. lia.
    - by eapply same_space_trans.
    - intros q Hq. unfold IOBUF_SIZE in Hq. rewrite W3 by lia. by apply Hm.
    - exact Hb'.
    - by eapply only_file_trans.
    - lia.
    - intros q j h Hne Hq. unfold st', moved. apply has_entry_ne; [|done|by destruct (io_entry _ _ _ _ _ _ (of_open _ _ _ _ _ _ _ _ Hf)) as (? & _ & ? & _)].
      by apply has_entry_vfs, Hot.
  Qed.

Lemma write_loop_Ok : exists sin g u, loop (write_round p i kb) (base0, n0, 0, u0) = Ok (0, n0, u) /\ wrote_to n0 sin g u.
  Proof.
    destruct (accepted_range _ _ _ _ Hn Hacc) as (Hb0 & _ & Hb1 & _).
    destruct (loop_rule (fun '(base, len, c, u) => (exists sin g, wrote_to c sin g u) /\ base = base0 + c /\ len = n0 - c /\ 0 <= c <= n0)
      (fun '(_, len, _, _) => len) (fun '(ret, copied, u) => ret = 0 /\ copied = n0 /\ exists sin g, wrote_to n0 sin g u)
      (write_round p i kb) (base0, n0, 0, u0)) as ([[ret copied] u] & E & -> & -> & sin & g & H).
    - intros [[[base len] c] u] ((sin & g & Hi) & -> & -> & Hc). split; [lia|]. unfold write_round. destruct (Z.eqb_spec (n0 - c) 0) as [Hz|Hz].
      { split; [done|]. assert (c = n0) as -> by lia. eauto. }
      replace (if n0 - c <? IOBUF_SIZE then n0 - c else IOBUF_SIZE) with (Z.min (n0 - c) IOBUF_SIZE) by (destruct (Z.ltb_spec (n0 - c) IOBUF_SIZE); lia).
      destruct (write_step_Ok c sin g u Hi ltac:(lia)) as (u1 & st' & sin' & g' & -> & E2 & H). set (m := Z.min (n0 - c) IOBUF_SIZE) in *. cbn [rbind].
      rewrite E2. cbn [rbind]. unfold IOBUF_SIZE in m. destruct (Z.eqb_spec m 0) as [?|Hm]; [lia|]. cbn [negb].
      destruct (Z.leb_spec m (n0 - c)); [|lia]. cbn [rassert rbind negb orb Z.eqb]. destruct (Z.eqb_spec m 0) as [?|_]; [lia|].
      rewrite !u32_id by (unfold is_u32, two32 in *; lia). split; [|lia]. split; [eauto|]. split; [lia|]. split; lia.
    - split; [eexists _, _; apply write_start|]. lia.
    - unfold two32 in *. lia.
    - by exists sin, g, u.
  Qed.
End Write.

  (** ** What surrounds the loops *)

Lemma rw_result_Ok c u : 0 <= c <= NBLOCKS * 4096 -> rw_result (0, c, u) = (c, u).
  Proof.
    intros Hc. unfold rw_result. destruct (Z.eqb_spec c 0) as [->|_]; cbn [negb]; [done|]. unfold NBLOCKS in Hc.
    by rewrite s32_id by (unfold is_s32; lia).
  Qed.

Lemma sysfile_read_enter u ps k p i f kb base n : is_open (ufs u) ps k p i f -> readable f = true -> kb <> 0 -> n <> 0 ->
    sysfile_read p i kb base n u = let! r := loop (read_round p i kb) (base, n, 0, u) in Ok (rw_result r).
  Proof.
    intros Ho Hr Hkb Hn. unfold sysfile_read. destruct (Z.eqb_spec n 0); [done|].
    rewrite (testfd_Ok _ _ _ _ _ _ true false Ho) by done. cbn [rbind negb]. by destruct (Z.eqb_spec kb 0).
  Qed.

Lemma sysfile_write_enter u ps k p i f kb base n : is_open (ufs u) ps k p i f -> writable f = true -> kb <> 0 -> n <> 0 ->
    sysfile_write p i kb base n u = let! r := loop (write_round p i kb) (base, n, 0, u) in Ok (rw_result r).
  Proof.
    intros Ho Hw Hkb Hn. unfold sysfile_write. destruct (Z.eqb_spec n 0); [done|].
    rewrite (testfd_Ok _ _ _ _ _ _ false true Ho) by done. cbn [rbind negb]. by destruct (Z.eqb_spec kb 0).
  Qed.

Lemma avail_blocks st ps k p i f sin g n : open_file st ps k p i f sin g -> 0 <= n -> 0 <= afile_avail g (pos f) n <= NBLOCKS * 4096.
  Proof.
    intros Ho Hn. pose proof (open_file_size _ _ _ _ _ _ _ _ Ho). pose proof (of_pos _ _ _ _ _ _ _ _ Ho). rewrite avail_eq by done. lia.
  Qed.
End FileIO.

(** ** The theorems *)

Section SysTheorems.
  Context {D : Type} `{!BlockDev D, !BlockRead D, !BlockWrite D}.
  Implicit Types (u : sys (kfs D)) (p i kb : Z) (ps : list (Z * option Z)) (g : afile).

  (** A path is copied into the kernel exactly when the process has a string
      of at most 4095 characters there, in memory that it may read: the call
      always returns, writes nothing but the kernel's buffer, and hands back
      that string or -E_INVAL. *)
Theorem copy_path_exact u kb (from : Z) : space_wf (umm u) -> buffer kb 4096 -> 0 <= from < two32 -> disjoint kb 4096 from 4096 ->
    exists ret path u', copy_path kb from u = Ok (ret, path, u') /\ writes u kb 4096 u' /\
      (ret = 0 <-> exists n, copyable (umm u) (umem u) from 4096 n) /\ (ret <> 0 -> ret = - E_INVAL) /\
      forall n, copyable (umm u) (umem u) from 4096 n -> path = mem_bytes (umem u) from n.
  Proof.
    intros Hwf Hkb Hf Hd. destruct (copy_path_Ok kb from u Hwf Hkb Hf Hd) as (ret & path & u' & E & Hw & H). exists ret, path, u'.
    split; [done|]. split; [done|]. destruct H as [(-> & n & Hc & ->)|(-> & -> & Hno)].
    - split; [split; [by exists n|done]|]. split; [done|]. intros j Hj. by rewrite (str_unique (umem u) from n j (proj1 Hc) (proj1 Hj)).
    - split; [split; [done|intros [n Hn]; by destruct (Hno n)]|]. split; [done|]. intros n Hn. by destruct (Hno n).
  Qed.

  (** Reading a file through a descriptor hands the process the bytes of the
      file from the position on, as many as are asked for and there are, and
      moves the position past them; nothing else in the memory of the process
      changes, and neither the disk nor any other descriptor does. *)
Theorem sysfile_read_file u ps (k : nat) p i f (sin : sfs_inode) g kb (base n : Z) :
    open_file (ufs u) ps k p i f sin g -> readable f = true -> space_wf (umm u) -> kb <> 0 -> 0 < n < two32 ->
    accepted (umm u) base n true -> disjoint kb IOBUF_SIZE base n ->
    let c := afile_avail g (pos f) n in
    exists u', sysfile_read p i kb base n u = Ok (c, u') /\ open_file (ufs u') ps k p i (set_pos f (pos f + c)) sin g /\
      (forall j, 0 <= j < c -> umem u' (base + j) = a_byte g (pos f + j)) /\
      (forall q, ~ kb <= q < kb + IOBUF_SIZE -> ~ base <= q < base + c -> umem u' q = umem u q) /\
      same (sfs_view (fvfs (ufs u))) (sfs_view (fvfs (ufs u'))) /\ others_kept p i (ufs u) (ufs u').
  Proof.
    intros Ho Hr Hwf Hkb Hn Ha Hd c. rewrite (sysfile_read_enter _ _ _ _ _ _ _ _ _ (of_open _ _ _ _ _ _ _ _ Ho) Hr Hkb) by lia.
    destruct (read_loop_Ok u ps k p i f sin g kb base n Ho Hr Hwf ltac:(lia) Ha Hd) as (u' & E & [H1 H2 H3 H4 H5 H6 _]). rewrite E. cbn [rbind].
    exists u'. rewrite rw_result_Ok by (eapply avail_blocks; [exact Ho|lia]). done.
  Qed.

  (** Writing a file through a descriptor whose position lies in the file,
      with room on the disk for what is added, puts the bytes of the process
      into the file: all of them, at the position, which moves past them; no
      other inode of the disk, no other descriptor and no memory but the
      kernel's buffer changes. *)
Theorem sysfile_write_file u ps (k : nat) p i f (sin : sfs_inode) g kb (base n : Z) :
    open_file (ufs u) ps k p i f sin g -> writable f = true -> space_wf (umm u) -> (forall q, is_byte (umem u q)) -> kb <> 0 ->
    0 < n < two32 -> accepted (umm u) base n false -> disjoint kb IOBUF_SIZE base n ->
    pos f <= a_size g -> has_room (ufs u) f sin n ->
    exists u' sin' g', sysfile_write p i kb base n u = Ok (n, u') /\ open_file (ufs u') ps k p i (set_pos f (pos f + n)) sin' g' /\
      g' ≡ afile_write (pos f) n (mem_bytes (umem u) base n) g /\ only_file (ufs u) sin (ufs u') sin' /\
      (forall q, ~ kb <= q < kb + IOBUF_SIZE -> umem u' q = umem u q) /\ others_kept p i (ufs u) (ufs u').
  Proof.
    intros Ho Hw Hwf Hby Hkb Hn Ha Hd Hle Hrm. rewrite (sysfile_write_enter _ _ _ _ _ _ _ _ _ (of_open _ _ _ _ _ _ _ _ Ho) Hw Hkb) by lia.
    destruct (write_loop_Ok u ps k p i f sin g kb base n Ho Hw Hwf Hby ltac:(lia) Ha Hd Hle Hrm) as (sin' & g' & u' & E & [H1 H2 H3 H4 H5 H6 H7 H8]).
    rewrite E. cbn [rbind]. exists u', sin', g'. pose proof (of_pos _ _ _ _ _ _ _ _ Ho) as Hp. rewrite rw_result_Ok by (destruct Hrm; lia). done.
  Qed.

  (** What is written through one descriptor is read back through another
      of the same file at the same position: all bytes arrive in the memory
      they are read into, whatever the number of rounds. *)
Theorem write_read_roundtrip u ps (k : nat) p i f j h (sin : sfs_inode) g kb (base dst n : Z) :
    open_file (ufs u) ps k p i f sin g -> is_open (ufs u) ps k p j h -> j <> i -> node h = node f -> pos h = pos f ->
    writable f = true -> readable h = true -> space_wf (umm u) -> (forall q, is_byte (umem u q)) -> kb <> 0 -> 0 < n < two32 ->
    accepted (umm u) base n false -> accepted (umm u) dst n true -> disjoint kb IOBUF_SIZE base n -> disjoint kb IOBUF_SIZE dst n ->
    pos f <= a_size g -> has_room (ufs u) f sin n ->
    exists u1 u2, sysfile_write p i kb base n u = Ok (n, u1) /\ sysfile_read p j kb dst n u1 = Ok (n, u2) /\
      forall x, 0 <= x < n -> umem u2 (dst + x) = umem u (base + x).
  Proof.
    intros Ho Hh Hne En Ep Hw Hr Hwf Hby Hkb Hn Ha Hb Hda Hdb Hle Hrm. pose proof (of_pos _ _ _ _ _ _ _ _ Ho) as Hp.
    rewrite (sysfile_write_enter _ _ _ _ _ _ _ _ _ (of_open _ _ _ _ _ _ _ _ Ho) Hw Hkb) by lia.
    destruct (write_loop_Ok u ps k p i f sin g kb base n Ho Hw Hwf Hby ltac:(lia) Ha Hda Hle Hrm) as (sin' & g' & u1 & E & [H1 H2 H3 H4 _ _ _ H8]).
    rewrite E. cbn [rbind]. exists u1. rewrite rw_result_Ok by (destruct Hrm; lia).
    assert (Hh1 : open_file (ufs u1) ps k p j h sin' g').
    { destruct H1 as [[G1 G2 _ _ _] G3 G4 _], Hh as [_ _ I3 I4 I5]. split; [|by rewrite En|done|by rewrite Ep].
      split; [done|done|apply H8; [congruence|done]|done|done]. }
    rewrite (sysfile_read_enter _ _ _ _ _ _ _ _ _ (of_open _ _ _ _ _ _ _ _ Hh1) Hr Hkb) by lia. destruct H2 as [Hsz Hbytes]. cbn in Hsz, Hbytes.
    destruct (read_loop_Ok u1 ps k p j h sin' g' kb dst n Hh1 Hr (same_space_wf _ _ H3) ltac:(lia) (proj2 (same_space_accepted _ _ _ _ _ H3) Hb) Hdb)
      as (u2 & E2 & [_ _ R3 _ _ _ _]). rewrite E2. cbn [rbind]. exists u2.
    assert (Hav : afile_avail g' (pos h) n = n) by (rewrite avail_eq by lia; lia). rewrite Hav in *. rewrite rw_result_Ok by (destruct Hrm; lia).
    split; [done|]. split; [done|]. intros x Hx. rewrite R3 by done. rewrite Hbytes by lia. rewrite Ep.
    destruct (Z.leb_spec (pos f) (pos f + x)), (Z.ltb_spec (pos f + x) (pos f + n)); try lia. cbn [andb].
    rewrite at_mem_bytes by lia. f_equal. lia.
  Qed.
End SysTheorems.

(** ** A process on the disk image

    It has opened the file [ab], which holds five bytes, and duplicated the
    descriptor. *)

Definition open_run : list event := [EOpen 0 path_ab O_RDWR; EDup 0 0 NO_FD].

Definition file_b (st : fstate (kfs ramdisk)) (i : Z) (f : file) : bool :=
  bool_decide (status f = FD_OPENED) && readable f && writable f && (pos f =? 0) && testfd i.

Lemma open_checks : match boot_world with
  | Ok w => checks kfs_supb kfs_pathb open_run w && match frun open_run w with
    | Ok (st, ps) => bool_decide (ps = [(7, None)]) && match file_at 7 0 st, file_at 7 1 st with
      | Ok f, Ok h => file_b st 0 f && file_b st 1 h && (node h =? node f) &&
          match sinfo (the_sfs (fvfs st)) !! node f with
          | Some sin => (dtype (din sin) =? SFS_TYPE_FILE) && (dsize (din sin) =? 5) && (dblocks (din sin) =? 1)
          | None => false
          end
      | _, _ => false
      end
    | Err _ => false
    end
  | Err _ => false
  end = true.
Proof. rewrite boot_quick. vm_compute. reflexivity. Qed.

Lemma file_at_entry {F} (st : fstate F) p i f : file_at p i st = Ok f -> 0 <= i -> has_entry st p i f.
Proof.
  unfold file_at, get_files. destruct (ftabs st !! p) as [fs|] eqn:E; [|done]. cbn [rget rbind].
  destruct (fd_array fs !! Z.to_nat i) as [e|] eqn:Ee; [|done]. cbn [rget]. intros [= <-] Hi. by exists fs.
Qed.

Lemma file_b_open st i f : fgood st [(7, None)] -> file_at 7 i st = Ok f -> 0 <= i -> file_b st i f = true ->
  is_open st [(7, None)] 0 7 i f /\ readable f = true /\ writable f = true /\ pos f = 0.
Proof.
  intros Hg E Hi H. unfold file_b in H. rewrite !andb_true_iff, bool_decide_eq_true, Z.eqb_eq in H. destruct H as ((((Hs & Hr) & Hw) & Hp) & Hfd).
  split; [|done]. split; [done|done|by apply file_at_entry|done|done].
Qed.

(** The machine after that, with an address space of two areas. *)
Lemma opened_ab : exists st f h sin, let u := mk_sys (fun q => q mod 256) (Some ex_mm) st in
  open_file (ufs u) [(7, None)] 0 7 0 f sin (abs (sfs_view (fvfs st)) sin) /\ is_open (ufs u) [(7, None)] 0 7 1 h /\ node h = node f /\
  (pos f = 0 /\ pos h = 0) /\ (readable f = true /\ readable h = true) /\ writable f = true /\ dsize (din sin) = 5 /\ dblocks (din sin) = 1.
Proof.
  destruct boot_good as (st0 & E0 & Hg0 & _). pose proof open_checks as Hc. rewrite E0 in Hc. apply andb_true_iff in Hc as [Hal Hc].
  pose proof (checks_admissible kfs_supb kfs_supb_sound kfs_pathb kfs_pathb_sound open_run (st0, [(7, None)]) Hg0 Hal) as Ha.
  destruct (frun_Ok open_run (st0, [(7, None)]) Hg0 Ha) as ([st ps] & Er & Hg). rewrite Er in Hc. cbn [fst snd] in Hg.
  apply andb_true_iff in Hc as [->%bool_decide_eq_true Hc]. destruct (file_at 7 0 st) as [f|] eqn:Ef; [|discriminate].
  destruct (file_at 7 1 st) as [h|] eqn:Eh; [|discriminate]. rewrite !andb_true_iff, Z.eqb_eq in Hc. destruct Hc as (((Hf & Hh) & En) & Hc).
  destruct (sinfo (the_sfs (fvfs st)) !! node f) as [sin|] eqn:Es; [|discriminate]. rewrite !andb_true_iff, !Z.eqb_eq in Hc. destruct Hc as ((Ht & Hsz) & Hb).
  destruct (file_b_open st 0 f Hg Ef ltac:(lia) Hf) as (Of & Rf & Wf & Pf). destruct (file_b_open st 1 h Hg Eh ltac:(lia) Hh) as (Oh & Rh & _ & Ph).
  exists st, f, h, sin. split; [|split_and!; assumption]. split; [exact Of|exact Es| |rewrite Pf; unfold SFS_MAX_FILE_SIZE; lia].
  destruct (vg_inv _ _ _ (fk_v _ _ _ _ Hg)) as (gd & Hm). destruct (mounted_snode _ gd _ sin Hm Es) as (j & Hj).
  apply (node_file _ gd); [apply Hm|apply Hm, (ca_disk _ _ _ _ (sn_ca _ _ _ _ _ Hj))|exact Ht].
Qed.

Lemma ex_accepted a n w : 0x00800000 <= a -> 0 < n -> a + n <= 0x00900000 -> accepted (Some ex_mm) a n w.
Proof.
  intros Ha Hn Hle. cbn [accepted]. rewrite u32_id by (unfold is_u32, two32; lia). split; [unfold USER_ACCESS, USERBASE, USERTOP; lia|].
  intros q Hq. exists (mk_vma 0x00800000 0x00900000 (Z.lor VM_READ VM_WRITE)). split; [by left|]. split; [unfold in_vma; cbn; lia|].
  split; [by destruct w|done].
Qed.

Lemma mod_byte q : is_byte (q mod 256).
Proof. unfold is_byte. apply Z.mod_pos_bound. lia. Qed.

Lemma sysfile_read_file_witness : exists (u u' : sys (kfs ramdisk)), sysfile_read 7 0 0x80100000 0x00800000 100 u = Ok (5, u').
Proof.
  destruct opened_ab as (st & f & h & sin & Ho & _ & _ & (Pf & _) & (Rf & _) & _ & Hs & _). cbn zeta in *.
  destruct (sysfile_read_file _ _ _ _ _ _ _ _ 0x80100000 0x00800000 100 Ho Rf ex_mm_ok) as (u' & E & _).
  - discriminate.
  - unfold two32. lia.
  - apply ex_accepted; lia.
  - right. unfold IOBUF_SIZE. lia.
  - eexists _, u'. etransitivity; [exact E|]. rewrite avail_eq by lia. cbn [abs a_size]. rewrite Hs, Pf. reflexivity.
Defined.

Lemma sysfile_write_file_witness : exists (u u' : sys (kfs ramdisk)), sysfile_write 7 0 0x80100000 0x00800000 100 u = Ok (100, u').
Proof.
  destruct opened_ab as (st & f & h & sin & Ho & _ & _ & (Pf & _) & _ & Wf & Hs & Hb). cbn zeta in *.
  destruct (sysfile_write_file _ _ _ _ _ _ _ _ 0x80100000 0x00800000 100 Ho Wf ex_mm_ok mod_byte) as (u' & sin' & g' & E & _).
  - discriminate.
  - unfold two32. lia.
  - apply ex_accepted; lia.
  - right. unfold IOBUF_SIZE. lia.
  - cbn [abs a_size]. lia.
  - unfold has_room, fits. rewrite Pf, Hb. unfold NBLOCKS. lia.
  - eexists _, u'. exact E.
Defined.

Lemma write_read_roundtrip_witness : exists (u u1 u2 : sys (kfs ramdisk)),
  sysfile_write 7 0 0x80100000 0x00800000 100 u = Ok (100, u1) /\ sysfile_read 7 1 0x80100000 0x00801000 100 u1 = Ok (100, u2) /\ umem u2 0x00801007 = 7.
Proof.
  destruct opened_ab as (st & f & h & sin & Ho & Hh & En & (Pf & Ph) & (_ & Rh) & Wf & Hs & Hb). cbn zeta in *.
  destruct (write_read_roundtrip _ _ _ _ _ _ 1 h _ _ 0x80100000 0x00800000 0x00801000 100 Ho Hh) as (u1 & u2 & E1 & E2 & H); try assumption.
  - discriminate.
  - congruence.
  - exact ex_mm_ok.
  - exact mod_byte.
  - discriminate.
  - unfold two32. lia.
  - apply ex_accepted; lia.
  - apply ex_accepted; lia.
  - right. unfold IOBUF_SIZE. lia.
  - right. unfold IOBUF_SIZE. lia.
  - cbn [abs a_size]. lia.
  - unfold has_room, fits. rewrite Pf, Hb. unfold NBLOCKS. lia.
  - eexists _, u1, u2. split; [exact E1|]. split; [exact E2|]. exact (H 7 ltac:(lia)).
Defined.

(** A path of three characters at the end of the first area. *)
Lemma copy_path_exact_witness : let u : sys (kfs ramdisk) := mk_sys (fun q => if q =? 0x00800003 then 0 else 97) (Some ex_mm)
    (mk_fstate (mk_vfs ∅ 0 [] boot_kfs) ∅) in
  exists path u', copy_path 0x80100000 0x00800000 u = Ok (0, path, u') /\ path = [97; 97; 97].
Proof.
  intros u. destruct (copy_path_exact u 0x80100000 0x00800000 ex_mm_ok) as (ret & path & u' & E & _ & H1 & _ & H2).
  - unfold buffer, two32. lia.
  - unfold two32. lia.
  - right. lia.
  - assert (Hc : copyable (umm u) (umem u) 0x00800000 4096 3).
    { split; [split; [lia|split; [|reflexivity]]|split; [lia|change (reach 0x00800000 3 4096) with 4096; apply ex_accepted; lia]].
      intros i Hi. change (umem u (0x00800000 + i)) with (if 0x00800000 + i =? 0x00800003 then 0 else 97). destruct (Z.eqb_spec (0x00800000 + i) 0x00800003); lia. }
    exists path, u'. split; [|exact (H2 3 Hc)]. rewrite E. rewrite (proj2 H1) by (exists 3; exact Hc). reflexivity.
Defined.
