(* ===== verification/Exec.v ===== *)
(** * Loading a program (kern/process/proc.c)

    [load_icode] fills a new address space from an ELF file: it reads the file
    with the file system calls, as a kernel thread does, into the pages that it
    maps.  The bytes that these calls see are the words of physical memory of
    [PageTable] through the kernel's direct map. *)
From S2P Require Import Prelude DList Blocks Atomic Arith DefaultPmm CString Printf PageTable Tlb Pmm Vmm IoBuf BlockDev Sfs Vfs File SysFile.

(** ** Physical memory as bytes *)

(** The kernel address of the first byte of page [k]. *)
Definition kva (k : Z) : Z := KERNBASE + k * PGSIZE.

(** The byte at a kernel address, and the memory after the kernel's accesses
    to its bytes. *)
Definition kbytes (m : machine) : Z -> Z :=
  fun a => let pa := a - KERNBASE in at_ (le_encode 4 (mem m (pa / PGSIZE) (pa mod PGSIZE / 4))) (pa mod 4).
Definition kstore (b : Z -> Z) (m : machine) : machine :=
  set_mem (fun p i => if (0 <=? i) && (i <? 1024) then le_decode (mem_bytes b (kva p + 4 * i) 4) else mem m p i) m.

(** ** ELF files (libs/elf.h) *)

Record elfhdr := mk_elfhdr { e_magic : Z; e_entry : Z; e_phoff : Z; e_phnum : Z }.
Record proghdr := mk_proghdr { p_type : Z; p_offset : Z; p_va : Z; p_filesz : Z; p_memsz : Z; p_flags : Z }.
Definition SIZEOF_ELFHDR : Z := 52.
Definition SIZEOF_PROGHDR : Z := 32.
Definition bytes_elfhdr (l : list Z) : elfhdr := mk_elfhdr (word_at l 0) (word_at l 24) (word_at l 28) (half_at l 44).
Definition bytes_proghdr (l : list Z) : proghdr :=
  mk_proghdr (word_at l 0) (word_at l 4) (word_at l 8) (word_at l 16) (word_at l 20) (word_at l 24).

Definition ELF_PT_LOAD : Z := 1.
Definition ELF_PF_X : Z := 1.
Definition ELF_PF_W : Z := 2.
Definition ELF_PF_R : Z := 4.

(** [memcpy(pgdir, boot_pgdir, PGSIZE); pgdir[PDX(VPT)] = ...]: a new page
    directory. *)
Definition VPT : Z := 0xFAC00000.
Definition setup_pgdir (boot_pgdir : Z) (mm : mm_struct) (m : machine) : res (Z * mm_struct * machine) :=
  let! (page, m) := alloc_page m in
  match page with
  | None => Ok (- E_NO_MEM, mm, m)
  | Some page =>
      let! dir := page2kva page m in
      let m := set_mem (copy_page dir boot_pgdir (mem m)) m in
      let m := store_pte (dir, PDX VPT) (Z.lor (Z.lor (dir * PGSIZE) PTE_P) PTE_W) m in
      Ok (0, mk_mm (mmap_list mm) (mmap_cache mm) dir (map_count mm) (sm_priv mm) (mm_count mm), m)
  end.
Definition put_pgdir (mm : mm_struct) (m : machine) : res machine :=
  let! page := kva2page (kva (pgdir mm)) m in free_page page m.

Section Exec.
  Context {F : Type} `{!InodeOps F}.

  (** The memory of the machine and the open files. *)
Record xsys := mk_x { xmach : machine; xfiles : fstate F }.

  Implicit Types (x : xsys) (p fd kb : Z).

  (** System calls of a kernel thread: it has no address space. *)
Definition as_kernel {A} (call : sys F -> res (A * sys F)) x : res (A * xsys) :=
    let! (a, s) := call (mk_sys (kbytes (xmach x)) None (xfiles x)) in
    Ok (a, mk_x (kstore (umem s) (xmach x)) (ufs s)).

  (** [kb]: the buffer that [sysfile_read] allocates. *)
Definition load_icode_read p fd kb (buf len offset : Z) x : res (Z * xsys) :=
    as_kernel (fun s =>
      let! (ret, s) := sysfile_seek p fd (s32 offset) LSEEK_SET s in
      if negb (ret =? 0) then Ok (ret, s)
      else
        let! (ret, s) := sysfile_read p fd kb buf len s in
        if negb (u32 ret =? len) then Ok (if ret <? 0 then ret else -1, s) else Ok (0, s)) x.

  (** [assert((page = pgdir_alloc_page(..)) != NULL)]. *)
Definition map_page (dir la perm : Z) x : res (Z * xsys) :=
    let! (page, m) := pgdir_alloc_page dir la perm (xmach x) in
    match page with
    | None => Err AssertFail
    | Some page => Ok (page, mk_x m (xfiles x))
    end.

  (** [assert(load_icode_read(fd, page2kva(page) + off, len, offset) == 0)]. *)
Definition read_page p fd kb (page off len offset : Z) x : res xsys :=
    let! k := page2kva page (xmach x) in
    let! (ret, x) := load_icode_read p fd kb (kva k + off) len offset x in
    assert! ret =? 0 ;; Ok x.

  (** The first page, when the segment starts inside it: the last page that
      was mapped, [la], [offset] and the state. *)
Definition first_page p fd kb (dir perm va filesz fend offset : Z) x : res (option Z * Z * Z * xsys) :=
    if 0 <? va mod PGSIZE then
      let! (page, x) := map_page dir va perm x in
      let len := if va / PGSIZE =? fend / PGSIZE then filesz else PGSIZE - va mod PGSIZE in
      let! x := read_page p fd kb page (va mod PGSIZE) len offset x in
      Ok (Some page, u32 (va + len), u32 (offset + len), x)
    else Ok (None, va, offset, x).

  (** The loop over the pages that the file fills. *)
Definition fill_body p fd kb (dir perm fend : Z) '((page, la, offset, x) : option Z * Z * Z * xsys) :
      res (option Z * Z * Z * xsys + option Z * Z * Z * xsys) :=
    if la <? fend / PGSIZE * PGSIZE then
      let! (page, x) := map_page dir la perm x in
      let! x := read_page p fd kb page 0 PGSIZE offset x in
      Ok (inl (Some page, u32 (la + PGSIZE), u32 (offset + PGSIZE), x))
    else Ok (inr (page, la, offset, x)).

  (** The page in which the bytes of the file end. *)
Definition end_page p fd kb (dir perm fend : Z) '((page, la, offset, x) : option Z * Z * Z * xsys) : res (option Z * Z * xsys) :=
    if la <? fend then
      let! (page, x) := map_page dir la perm x in
      let len := fend mod PGSIZE in
      let! x := read_page p fd kb page 0 len offset x in
      Ok (Some page, u32 (la + len), x)
    else Ok (page, la, x).

  (** The loop over the rest, which is cleared. *)
Definition clear_body (dir perm mend : Z) '((page, la, x) : option Z * Z * xsys) : res (option Z * Z * xsys + xsys) :=
    if la <? mend then
      let! (page, x) := if la mod PGSIZE =? 0 then let! (page, x) := map_page dir la perm x in Ok (Some page, x) else Ok (page, x) in
      let len := if la mod PGSIZE =? 0 then PGSIZE else PGSIZE - la mod PGSIZE in
      let len := if la / PGSIZE =? mend / PGSIZE then u32 (len - (PGSIZE - mend mod PGSIZE)) else len in
      let! q := rget page in
      let! k := page2kva q (xmach x) in
      let! b := memset (kva k + la mod PGSIZE) 0 len (kbytes (xmach x)) in
      Ok (inl (page, u32 (la + len), mk_x (kstore b (xmach x)) (xfiles x)))
    else Ok (inr x).

  (** The body of the loop over the program headers, after [mm_map]. *)
Definition load_segment p fd kb (dir : Z) (ph : proghdr) x : res xsys :=
    let perm := Z.lor PTE_U (if has_flag (p_flags ph) ELF_PF_W then PTE_W else 0) in
    assert! p_filesz ph <=? p_memsz ph ;;
    let va := p_va ph in
    let fend := u32 (va + p_filesz ph) in
    let! r := first_page p fd kb dir perm va (p_filesz ph) fend (p_offset ph) x in
    let! r := loop (fill_body p fd kb dir perm fend) r in
    let! r := end_page p fd kb dir perm fend r in
    loop (clear_body dir perm (u32 (va + p_memsz ph))) r.

  (** ** The address space of the new program *)

Definition segment_flags (ph : proghdr) : Z :=
    Z.lor (Z.lor (if has_flag (p_flags ph) ELF_PF_R then VM_READ else 0) (if has_flag (p_flags ph) ELF_PF_W then VM_WRITE else 0))
      (if has_flag (p_flags ph) ELF_PF_X then VM_EXEC else 0).

  (** One round of the loop over the program headers; [phb]: the address of
      the local [ph]; [ok]: whether there is memory for the area. *)
Definition load_header p fd kb phb (ok : bool) (offset : Z) (mm : mm_struct) x : res (mm_struct * xsys) :=
    let! (ret, x) := load_icode_read p fd kb phb SIZEOF_PROGHDR offset x in
    assert! ret =? 0 ;;
    let ph := bytes_proghdr (mem_bytes (kbytes (xmach x)) phb SIZEOF_PROGHDR) in
    if negb (p_type ph =? ELF_PT_LOAD) then Ok (mm, x)
    else
      let! (ret, _, mm) := mm_map ok mm (p_va ph) (p_memsz ph) (segment_flags ph) in
      assert! ret =? 0 ;;
      let! x := load_segment p fd kb (pgdir mm) ph x in
      Ok (mm, x).

  (** [while (h_e_phnum32-- > 0)]: from the last header to the first. *)
Fixpoint load_headers (n : nat) p fd kb phb (oks : nat -> bool) (h : elfhdr) (mm : mm_struct) x : res (mm_struct * xsys) :=
    match n with
    | O => Ok (mm, x)
    | Datatypes.S n =>
        let! (mm, x) := load_header p fd kb phb (oks n) (u32 (e_phoff h + SIZEOF_PROGHDR * Z.of_nat n)) mm x in
        load_headers n p fd kb phb oks h mm x
    end.

Definition alloc_stack (dir : Z) x : res xsys :=
    let! (_, x) := map_page dir (USTACKTOP - PGSIZE) PTE_USER x in
    let! (_, x) := map_page dir (USTACKTOP - 2 * PGSIZE) PTE_USER x in
    let! (_, x) := map_page dir (USTACKTOP - 3 * PGSIZE) PTE_USER x in
    let! (_, x) := map_page dir (USTACKTOP - 4 * PGSIZE) PTE_USER x in
    Ok x.

  (** The kernel writes a byte of user memory: a page that is not there is
      fetched by the page fault. *)
Definition user_write (mm : mm_struct) (a v : Z) (m : machine) : res (mm_struct * machine) :=
    let! (mm, m) :=
      if present (entry m (pgdir mm) a) then Ok (mm, m)
      else let! (ret, mm, m) := do_pgfault mm 2 a m in if negb (ret =? 0) then Err KPanic else Ok (mm, m) in
    let e := entry m (pgdir mm) a in
    if negb (present e) || negb (has_flag e PTE_W) then Err KPanic
    else Ok (mm, kstore (wr (kva (PPN e) + a mod PGSIZE) v (kbytes m)) m).

Fixpoint user_write_all (a : Z) (l : list Z) (mm : mm_struct) (m : machine) : res (mm_struct * machine) :=
    match l with
    | [] => Ok (mm, m)
    | v :: l => let! (mm, m) := user_write mm a v m in user_write_all (a + 1) l mm m
    end.
Definition user_write_word (a v : Z) := user_write_all a (le_encode 4 v).

  (** [strcpy] of [kargv[i]] to [u_esp]. *)
Definition copy_arg (src dst : Z) (mm : mm_struct) (m : machine) : res (mm_struct * machine) :=
    loop (fun '(src, dst, mm, m) =>
      let c := kbytes m src in
      let! (mm, m) := user_write mm dst c m in
      if negb (c =? 0) then Ok (inl (src + 1, dst + 1, mm, m)) else Ok (inr (mm, m))) (src, dst, mm, m).

  (** The strings, from the top of the stack down; the answer ends with their
      addresses. *)
Fixpoint push_strings (kargv : list Z) (u_esp : Z) (mm : mm_struct) (m : machine) : res (list Z * Z * mm_struct * machine) :=
    match kargv with
    | [] => Ok ([], u_esp, mm, m)
    | k :: kargv =>
        let! n := strlen (kbytes m) k in
        let u_esp := u32 (u_esp - u32 (n + 1 + 3) / 4 * 4) in
        let! (mm, m) := copy_arg k u_esp mm m in
        let! (u_argv, esp, mm, m) := push_strings kargv u_esp mm m in
        Ok (u_esp :: u_argv, esp, mm, m)
    end.

Fixpoint push_pointers (u_argv : list Z) (a : Z) (mm : mm_struct) (m : machine) : res (mm_struct * machine) :=
    match u_argv with
    | [] => Ok (mm, m)
    | v :: u_argv => let! (mm, m) := user_write_word a v mm m in push_pointers u_argv (a + 4) mm m
    end.

Definition push_args (kargv : list Z) (mm : mm_struct) (m : machine) : res (Z * mm_struct * machine) :=
    let argc := Z.of_nat (length kargv) in
    let! (u_argv, u_esp, mm, m) := push_strings kargv USTACKTOP mm m in
    let u_esp := u32 (u_esp - 4 * argc) in
    let! (mm, m) := push_pointers u_argv u_esp mm m in
    let u_esp := u32 (u_esp - 4) in
    let! (mm, m) := user_write_word u_esp argc mm m in
    Ok (u_esp, mm, m).

  (** The registers that the new program starts with; the others are 0. *)
Record trapframe := mk_tf { tf_a0 : Z; tf_a1 : Z; tf_sp : Z; tf_EPC : Z; tf_Status : Z }.

  (** [load_icode(fd, argc, kargv)], which returns 0 or stops the kernel: the
      new address space, the registers and the machine.  [hb] and [phb]: the
      addresses of the locals [h] and [ph]; [mok], [oks], [sok]: whether there
      is memory for the [mm_struct], the areas and that of the stack. *)
Definition load_icode p fd kb hb phb (mok : bool) (oks : nat -> bool) (sok : bool) (boot_pgdir : Z) (kargv : list Z) x :
      res (mm_struct * trapframe * xsys) :=
    let! (mm, m) := mm_create mok (xmach x) in
    let! mm := match mm with Some mm => Ok mm | None => Err AssertFail end in
    let! (ret, mm, m) := setup_pgdir boot_pgdir mm m in
    assert! ret =? 0 ;;
    let! (ret, x) := load_icode_read p fd kb hb SIZEOF_ELFHDR 0 (mk_x m (xfiles x)) in
    assert! ret =? 0 ;;
    let h := bytes_elfhdr (mem_bytes (kbytes (xmach x)) hb SIZEOF_ELFHDR) in
    let! (mm, x) := load_headers (Z.to_nat (e_phnum h)) p fd kb phb oks h mm x in
    let! (ret, _, mm) := mm_map sok mm (USTACKTOP - USTACKSIZE) USTACKSIZE (Z.lor (Z.lor VM_READ VM_WRITE) VM_STACK) in
    assert! ret =? 0 ;;
    let! x := alloc_stack (pgdir mm) x in
    let mm := (mm_count_inc mm).2 in
    let! m := load_pgdir (pgdir mm) (xmach x) in
    let! (u_esp, mm, m) := push_args kargv mm m in
    let argc := Z.of_nat (length kargv) in
    Ok (mm, mk_tf argc (u32 (u_esp + 4)) u_esp (e_entry h) 0x13, mk_x m (xfiles x)).

  (** ** [do_execve] *)

Definition EXEC_MAX_ARG_NUM : Z := 32.
Definition EXEC_MAX_ARG_LEN : Z := 4095.
Definition PROC_NAME_LEN : Z := 50.

  (** The buffers that are given back, the last first. *)
Definition put_kargv (kargv : list Z) : list Z := reverse kargv.

  (** [bufs]: what [kmalloc] returns, time after time; the return value, the
      buffers that hold the arguments and the state. *)
Fixpoint copy_kargv_loop (n : nat) (i : Z) (argv : Z) (bufs kargv : list Z) (s : sys F) : res (Z * list Z * sys F) :=
    match n with
    | O => Ok (0, kargv, s)
    | Datatypes.S n =>
        let buffer := hd 0 bufs in
        if buffer =? 0 then Ok (- E_NO_MEM, [], s)
        else
          let arg := le_decode (mem_bytes (umem s) (argv + 4 * i) 4) in
          let! (ok, mm, m) := copy_string (umm s) buffer arg (EXEC_MAX_ARG_LEN + 1) (umem s) in
          let s := mk_sys m mm (ufs s) in
          if negb ok then Ok (- E_INVAL, [], s)
          else copy_kargv_loop n (i + 1) argv (tl bufs) (kargv ++ [buffer]) s
    end.

Definition copy_kargv (argc argv : Z) (bufs : list Z) (s : sys F) : res (Z * list Z * sys F) :=
    let! (ok, mm) := user_mem_check (umm s) argv (u32 (4 * argc)) false in
    let s := mk_sys (umem s) mm (ufs s) in
    if negb ok then Ok (- E_INVAL, [], s) else copy_kargv_loop (Z.to_nat argc) 0 argv bufs [] s.

  (** The call returns, or the process exits. *)
Inductive exec_result := ExecReturns (ret : Z) | ExecRuns (mm : mm_struct) (name : list Z) (t : trapframe) | ExecExits (ret : Z).

  (** What [do_execve] is given: where the kernel's buffers and locals are,
      what the allocator answers, the kernel's page directory. *)
Record exec_env := mk_exec {
    ex_kb : Z; ex_path : Z; ex_name : Z; ex_fmt : Z; ex_hb : Z; ex_phb : Z; ex_bufs : list Z;
    ex_mok : bool; ex_oks : nat -> bool; ex_sok : bool; ex_boot : Z }.

  (** The old address space is given back with its last user. *)
Definition exec_mmap (boot_pgdir : Z) (mm : option mm_struct) (m : machine) : res machine :=
    match mm with
    | None => Ok m
    | Some mm =>
        let! m := load_pgdir boot_pgdir m in
        let (count, mm) := mm_count_dec mm in
        if count =? 0 then
          let! m := exit_mmap mm m in
          let! m := put_pgdir mm m in
          let! _ := mm_destroy mm in
          Ok m
        else Ok m
    end.

  (** [do_execve(name, argc, argv)] of the process of table [p]; [u]: its own
      memory as it sees it; [pid] and [ex_fmt], the address of its format, are
      for a process without a name. *)
Definition do_execve (E : exec_env) p (pid name argc argv : Z) (u : Z -> Z) (mm : option mm_struct) x :
      res (exec_result * xsys) :=
    if negb ((1 <=? argc) && (argc <=? EXEC_MAX_ARG_NUM)) then Ok (ExecReturns (- E_INVAL), x)
    else
      let view m a := if a <? KERNBASE then u a else kbytes m a in
      let! b := memset (ex_name E) 0 (PROC_NAME_LEN + 1) (view (xmach x)) in
      let! (ok, s) :=
        if name =? 0 then let! (_, b) := vsnprintf (ex_name E) (PROC_NAME_LEN + 1) (ex_fmt E) [VWord pid] b in Ok (true, mk_sys b mm (xfiles x))
        else let! (ok, mm, b) := copy_string mm (ex_name E) name (PROC_NAME_LEN + 1) b in Ok (ok, mk_sys b mm (xfiles x)) in
      if negb ok then Ok (ExecReturns (- E_INVAL), mk_x (kstore (umem s) (xmach x)) (ufs s))
      else
        let! (ret, kargv, s) := copy_kargv argc argv (ex_bufs E) s in
        if negb (ret =? 0) then Ok (ExecReturns ret, mk_x (kstore (umem s) (xmach x)) (ufs s))
        else
          let path := le_decode (mem_bytes (umem s) argv 4) in
          let! st := files_closeall p (ufs s) in
          let! (fd, s) := sysfile_open p (ex_path E) path O_RDONLY (set_ufs s st) in
          let x := mk_x (kstore (umem s) (xmach x)) (ufs s) in
          if fd <? 0 then Ok (ExecExits fd, x)
          else
            let! m := exec_mmap (ex_boot E) (umm s) (xmach x) in
            let! (mm, t, x) := load_icode p fd (ex_kb E) (ex_hb E) (ex_phb E) (ex_mok E) (ex_oks E) (ex_sok E) (ex_boot E) kargv (mk_x m (xfiles x)) in
            Ok (ExecRuns mm (string_at (Z.to_nat PROC_NAME_LEN) (kbytes (xmach x)) (ex_name E)) t, x).
End Exec.
Arguments xsys : clear implicits.
