(* ===== verification/ExecMem.v ===== *)
(** * Loading a program: memory

    The kernel's byte accesses to physical memory ([kbytes], [kstore]) against
    the words and the page tables of the memory management: what a write to
    some pages leaves of an address space, and the bytes that a user address
    shows. *)
From S2P Require Import Prelude DList Blocks Atomic Arith DefaultPmm CString PageTable Tlb Pmm Vmm IoBuf BlockDev Sfs Vfs File SysFile UserMem SysRead Exec.

(** ** Bytes and words *)

Lemma le_encode_decode l : Forall is_byte l -> le_encode (length l) (le_decode l) = l.
Proof.
  induction l as [|b l IH]; intros Hl; [done|]. apply Forall_cons in Hl as [Hb Hl]. cbn [length le_encode le_decode].
  unfold is_byte in Hb. f_equal; [Z.to_euclidean_division_equations; lia|].
  replace ((b + 256 * le_decode l) / 256) with (le_decode l) by (Z.to_euclidean_division_equations; lia). by apply IH.
Qed.

(** The byte of a kernel address: its page, the word in it and the byte in that. *)
Definition kpage (a : Z) : Z := (a - KERNBASE) / PGSIZE.

Lemma kpage_kva k o : 0 <= o < PGSIZE -> kpage (kva k + o) = k.
Proof. unfold kpage, kva, PGSIZE. intros Ho. Z.to_euclidean_division_equations. lia. Qed.

Lemma addr_parts a : 0 <= (a - KERNBASE) mod PGSIZE / 4 < 1024 /\ 0 <= (a - KERNBASE) mod 4 < 4 /\
  a = kva (kpage a) + 4 * ((a - KERNBASE) mod PGSIZE / 4) + (a - KERNBASE) mod 4.
Proof. unfold kva, kpage, PGSIZE. Z.to_euclidean_division_equations. lia. Qed.

Lemma kbytes_byte m a : is_byte (kbytes m a).
Proof. apply at_byte, le_encode_byte. Qed.

Lemma kbytes_kstore b m a : (forall q, is_byte (b q)) -> kbytes (kstore b m) a = b a.
Proof.
  intros Hb. destruct (addr_parts a) as (Hi & Hr & Ea). unfold kbytes. cbn [mem kstore set_mem]. fold (kpage a).
  destruct (Z.leb_spec 0 ((a - KERNBASE) mod PGSIZE / 4)), (Z.ltb_spec ((a - KERNBASE) mod PGSIZE / 4) 1024); try lia. cbn [andb].
  set (l := mem_bytes b _ 4). assert (length l = 4%nat) as El by (unfold l; by rewrite length_mem_bytes).
  rewrite <- El, le_encode_decode by by apply mem_bytes_Forall. unfold l. rewrite at_mem_bytes by lia. f_equal. lia.
Qed.

Lemma kbytes_word m p i : is_u32 (mem m p i) -> 0 <= i < 1024 -> le_decode (mem_bytes (kbytes m) (kva p + 4 * i) 4) = mem m p i.
Proof.
  intros Hw Hi. transitivity (le_decode (le_encode 4 (mem m p i))); [|apply le_decode_encode; unfold is_u32, two32 in Hw; lia].
  f_equal. apply at_ext; [by rewrite length_mem_bytes, length_le_encode by lia|]. rewrite length_mem_bytes by lia. intros r Hr.
  rewrite at_mem_bytes by lia. unfold kbytes. set (a := kva p + 4 * i + r).
  assert ((a - KERNBASE) / PGSIZE = p /\ (a - KERNBASE) mod PGSIZE / 4 = i /\ (a - KERNBASE) mod 4 = r) as (-> & -> & ->); [|done].
  unfold a, kva, PGSIZE. Z.to_euclidean_division_equations. lia.
Qed.

(** ** Writing to some pages *)

(** [b]: the memory of [m] with other bytes in the pages of [P]. *)
Record patch (P : Z -> Prop) (m : machine) (b : Z -> Z) : Prop := {
  pa_byte : forall q, is_byte (b q);
  pa_out : forall q, ~ P (kpage q) -> b q = kbytes m q
}.

Lemma kstore_out P m b p i : patch P m b -> (forall q j, is_u32 (mem m q j)) -> ~ P p -> mem (kstore b m) p i = mem m p i.
Proof.
  intros [Hb Ho] Hw Hp. cbn [mem kstore set_mem]. destruct (Z.leb_spec 0 i); [|done]. destruct (Z.ltb_spec i 1024); [|done]. cbn [andb].
  rewrite <- (kbytes_word m p i) by (done || lia). f_equal. apply at_ext; [by rewrite !length_mem_bytes by lia|].
  rewrite length_mem_bytes by lia. intros r Hr. rewrite !at_mem_bytes by lia. apply Ho.
  replace (kva p + 4 * i + r) with (kva p + (4 * i + r)) by lia. rewrite kpage_kva by (unfold PGSIZE; lia). done.
Qed.

(** A page in use that is neither the directory nor a page table. *)
Record plain_page (bs : list block) (m : machine) (dir p : Z) : Prop := {
  pp_range : 0 <= p < npage m;
  pp_used : ~ covers bs p;
  pp_dir : p <> dir;
  pp_pt : forall la f, user la -> pt_of m dir la = Some f -> f <> p
}.

(** A buffer of the kernel: not a page of the address space either. *)
Definition kernel_page (bs : list block) (m : machine) (dir p : Z) : Prop :=
  plain_page bs m dir p /\ forall la, user la -> present (entry m dir la) = true -> PPN (entry m dir la) <> p.

Lemma data_plain bs m dir p : data_page bs m dir p -> plain_page bs m dir p.
Proof. by intros []. Qed.

Section Patch.
  Context (bs : list block) (m : machine) (dir : Z) (P : Z -> Prop) (b : Z -> Z).
  Context (Hs : space_ok bs m dir) (HP : patch P m b) (Hpl : forall p, P p -> plain_page bs m dir p).

Lemma patch_pt la : user la -> pt_of (kstore b m) dir la = pt_of m dir la.
  Proof.
    intros Hla. unfold pt_of. rewrite (kstore_out P m b); [done..|apply (wf_word _ _ _ (proj1 (sp_ready _ _ _ Hs)))|]. intros Hd. by apply (pp_dir _ _ _ _ (Hpl _ Hd)).
  Qed.

Lemma patch_entry la : user la -> entry (kstore b m) dir la = entry m dir la.
  Proof.
    intros Hla. unfold entry. rewrite patch_pt by done. destruct (pt_of m dir la) as [f|] eqn:Hf; [|done].
    apply (kstore_out P m b); [done|apply (wf_word _ _ _ (proj1 (sp_ready _ _ _ Hs)))|]. intros Hd. by apply (pp_pt _ _ _ _ (Hpl _ Hd) la f Hla Hf).
  Qed.

Lemma patch_space : space_ok bs (kstore b m) dir.
  Proof.
    destruct Hs as [[[W1 W2 W3 W4 W5 W6] Hcoh] Hpg Hinj]. split; [split; [split; try done|]|..].
    - intros la f Hla. rewrite patch_pt by done. by apply W4.
    - intros la la' f Hla Hla'. rewrite !patch_pt by done. by apply W5.
    - intros p i. cbn [mem kstore set_mem]. destruct (_ && _); [|apply W6].
      assert (length (mem_bytes b (kva p + 4 * i) 4) = 4%nat) as El by by rewrite length_mem_bytes.
      pose proof (le_decode_range (mem_bytes b (kva p + 4 * i) 4) (mem_bytes_Forall _ _ _ (pa_byte _ _ _ HP))) as Hr.
      rewrite El in Hr. unfold is_u32, two32. lia.
    - intros Hc. destruct (Hcoh Hc) as (ow & H). exists ow. eapply coh_ext; [|exact H]. exact patch_entry.
    - intros la Hla. rewrite patch_entry by done. intros Hp. destruct (Hpg la Hla Hp) as [[D1 D2 D3 D4 D5] Hr]. split; [split; try done|done].
      intros la' f Hla'. rewrite patch_pt by done. by apply D4.
    - intros la la' Hla Hla'. rewrite !patch_entry by done. by apply Hinj.
  Qed.

Lemma patch_plain p : plain_page bs m dir p -> plain_page bs (kstore b m) dir p.
  Proof. intros [H1 H2 H3 H4]. split; try done. intros la f Hla. rewrite patch_pt by done. by apply H4. Qed.
End Patch.

(** ** What the kernel has built *)

(** From [m] to [m'] free pages may have been taken, for the tables of [dir]
    or to be mapped; every mapping is the old one or to a page that was free,
    and no entry gains a TLB mark; the words of the pages that were in use are as before, but for the tables
    and the pages of [K]. *)
Record built (K : Z -> Prop) (bs : list block) (m : machine) (bs' : list block) (m' : machine) (dir : Z) : Prop := {
  bu_rest : npage m' = npage m /\ cur_pgdir m' = cur_pgdir m;
  bu_tlb : cur_pgdir m <> Some dir -> the_tlb m' = the_tlb m;
  bu_free : forall i, covers bs' i -> covers bs i;
  bu_pt : forall la f, user la -> pt_of m' dir la = Some f -> pt_of m dir la = Some f \/ covers bs f;
  bu_map : forall la, user la -> present (entry m' dir la) = true -> entry m' dir la = entry m dir la \/ covers bs (PPN (entry m' dir la));
  bu_flag : forall la, user la -> has_tlb (entry m dir la) = false -> has_tlb (entry m' dir la) = false;
  bu_mem : forall q j, ~ K q -> plain_page bs m dir q -> mem m' q j = mem m q j
}.

Lemma built_refl K bs m dir : built K bs m bs m dir.
Proof. split; naive_solver. Qed.

Lemma built_plain K bs m bs' m' dir q : built K bs m bs' m' dir -> plain_page bs m dir q -> plain_page bs' m' dir q.
Proof.
  intros [[R1 _] _ F P _ _ _] [H1 H2 H3 H4]. split; [by rewrite R1|auto|done|].
  intros la f Hla Hf. destruct (P la f Hla Hf) as [Hf'|Hf']; [by apply (H4 la)|]. by intros ->.
Qed.

Lemma built_kernel K bs m bs' m' dir q : built K bs m bs' m' dir -> kernel_page bs m dir q -> kernel_page bs' m' dir q.
Proof.
  intros HB [Hp Hno]. split; [by eapply built_plain|]. intros la Hla Hpr. destruct (bu_map _ _ _ _ _ _ HB la Hla Hpr) as [Heq|Hc].
  - rewrite Heq in Hpr |- *. by apply Hno.
  - intros <-. by apply (pp_used _ _ _ _ Hp).
Qed.

Lemma built_trans K bs m bs1 m1 bs2 m2 dir : built K bs m bs1 m1 dir -> built K bs1 m1 bs2 m2 dir -> built K bs m bs2 m2 dir.
Proof.
  intros H1 H2. pose proof H1 as [[R1 R2] T1 F1 P1 M1 L1 W1]. destruct H2 as [[R3 R4] T2 F2 P2 M2 L2 W2].
  split; [split; congruence|intros Hc; rewrite T2, T1 by congruence; done|auto| | |auto|].
  - intros la f Hl Hf. destruct (P2 la f Hl Hf) as [Hf'|Hf']; [by apply P1|right; auto].
  - intros la Hl Hp. destruct (M2 la Hl Hp) as [Heq|Hc]; [|by right; auto]. rewrite Heq in Hp |- *. by apply M1.
  - intros q j Hq Hp. rewrite W2; [by apply W1|done|by eapply built_plain].
Qed.

Lemma kept_built K bs m bs' m' dir la e : kept_space bs m bs' m' dir -> user la -> covers bs (PPN e) -> has_tlb e = false ->
  (forall la', user la' -> entry m' dir la' = upd_ent la e (entry m dir) la') -> built K bs m bs' m' dir.
Proof.
  intros [R T F P W] Hla Hc Hf He. split; [done|done|done|done|..].
  - intros la' Hl _. rewrite He by done. unfold upd_ent. case_decide; [by right|by left].
  - intros la' Hl Hno. rewrite He by done. unfold upd_ent. by case_decide.
  - intros q j _ [_ H2 H3 H4]. by apply W.
Qed.

(** Pages that were free, or those of [K], may be written. *)
Lemma patch_built K bs0 m0 bs m dir P b : built K bs0 m0 bs m dir -> space_ok bs m dir -> patch P m b ->
  (forall p, P p -> plain_page bs m dir p /\ (K p \/ covers bs0 p)) -> built K bs0 m0 bs (kstore b m) dir.
Proof.
  intros [R T F Pt M L W] Hs HP Hpl. assert (Hpl' : forall p, P p -> plain_page bs m dir p) by (intros p Hp; by apply Hpl). split; [done|done|done|..].
  - intros la f Hla. rewrite (patch_pt bs m dir P b Hs HP Hpl' la Hla). by apply Pt.
  - intros la Hla. rewrite (patch_entry bs m dir P b Hs HP Hpl' la Hla). by apply M.
  - intros la Hla. rewrite (patch_entry bs m dir P b Hs HP Hpl' la Hla). by apply L.
  - intros q j Hq Hp. rewrite (kstore_out P m b); [by apply W|done|apply (wf_word _ _ _ (proj1 (sp_ready _ _ _ Hs)))|].
    intros HPq. destruct (Hpl q HPq) as [_ [?|Hc]]; [done|]. by apply (pp_used _ _ _ _ Hp).
Qed.

(** ** The bytes of user addresses *)

(** The byte that the user address [a] shows when it is mapped. *)
Definition ubyte (m : machine) (dir a : Z) : Z := kbytes m (kva (PPN (entry m dir a)) + a mod PGSIZE).

Lemma kbytes_ext m m' p o : 0 <= o < PGSIZE -> (forall j, mem m' p j = mem m p j) -> kbytes m' (kva p + o) = kbytes m (kva p + o).
Proof. intros Ho Hm. unfold kbytes. fold (kpage (kva p + o)). by rewrite kpage_kva, Hm. Qed.

Lemma mapped_plain bs m dir a : space_ok bs m dir -> user a -> present (entry m dir a) = true -> plain_page bs m dir (PPN (entry m dir a)).
Proof. intros Hs Ha Hp. apply data_plain. by apply (sp_page _ _ _ Hs a). Qed.

Lemma built_ubyte K bs m bs' m' dir a : built K bs m bs' m' dir -> space_ok bs m dir -> user a -> present (entry m dir a) = true ->
  entry m' dir a = entry m dir a -> ~ K (PPN (entry m dir a)) -> ubyte m' dir a = ubyte m dir a.
Proof.
  intros HB Hs Ha Hp He Hk. unfold ubyte. rewrite He. apply kbytes_ext; [apply Z.mod_pos_bound; unfold PGSIZE; lia|].
  intros j. apply (bu_mem _ _ _ _ _ _ HB); [done|by apply mapped_plain].
Qed.

Lemma patch_ubyte bs m dir P b a : space_ok bs m dir -> patch P m b -> (forall p, P p -> plain_page bs m dir p) -> user a ->
  ubyte (kstore b m) dir a = b (kva (PPN (entry m dir a)) + a mod PGSIZE).
Proof.
  intros Hs HP Hpl Ha. unfold ubyte. rewrite (patch_entry bs m dir P b Hs HP Hpl a Ha). apply kbytes_kstore, HP.
Qed.

(** ** Mapping a page *)

Lemma carve_one lo bs : canon lo bs -> 0 < total bs -> exists p bs', carve 1 bs = Some (p, bs').
Proof.
  intros Hc Ht. destruct (carve 1 bs) as [[p bs']|] eqn:E; [eauto|]. exfalso. destruct bs as [|[b n] bs]; [simpl in Ht; lia|].
  destruct Hc as (_ & Hn & _). pose proof (proj1 (carve_None 1 ((b, n) :: bs)) E b n ltac:(left)). lia.
Qed.

(** With two free pages a page is mapped. *)
Lemma alloc_page_at bs m dir la perm : space_ok bs m dir -> user la -> present (entry m dir la) = false -> 0 <= perm < 128 -> 2 <= total bs ->
  exists p m' bs', pgdir_alloc_page dir la perm m = Ok (Some p, m') /\ space_ok bs' m' dir /\
    (forall la', user la' -> entry m' dir la' = upd_ent la (pte_make p perm) (entry m dir) la') /\
    PPN (pte_make p perm) = p /\ (forall K, built K bs m bs' m' dir) /\ total bs <= total bs' + 2 /\ covers bs p.
Proof.
  intros Hs Hla Hnp Hperm Ht. pose proof (inv_canon _ _ _ (wf_pmm _ _ _ (proj1 (sp_ready _ _ _ Hs)))) as Hcan.
  destruct (carve_one _ _ Hcan ltac:(lia)) as (p & bs1 & Hc). destruct (carve_Some (-1) 1 bs p bs1) as (Hcan1 & Htot & _); [done..|].
  destruct (carve_one _ _ Hcan1 ltac:(lia)) as (q & bs2 & Hc1).
  pose proof (pgdir_alloc_page_cases bs m dir la perm Hs Hla Hnp Hperm) as Hall. rewrite Hc, Hc1 in Hall.
  assert (exists m' bs', pgdir_alloc_page dir la perm m = Ok (Some p, m') /\ space_ok bs' m' dir /\
    (forall la', user la' -> entry m' dir la' = upd_ent la (pte_make p perm) (entry m dir) la') /\
    PPN (pte_make p perm) = p /\ kept_space bs m bs' m' dir /\ total bs <= total bs' + 2 /\ covers bs p)
    as (m' & bs' & E & Hs' & He & Hp & Hk & Ht' & Hcv) by by destruct (pt_of m dir la).
  exists p, m', bs'. split_and!; try done. intros K. eapply (kept_built K bs m bs' m' dir la (pte_make p perm)); [done|done|by rewrite Hp| |done].
  apply pte_make_no_tlb; [|done]. pose proof (proj1 (sp_ready _ _ _ Hs)) as Hwf.
  pose proof (inv_np _ _ _ (wf_pmm _ _ _ Hwf) p Hcv). pose proof (wf_np _ _ _ Hwf). pose proof (canon_covers _ _ _ Hcan Hcv). lia.
Qed.

Lemma pte_make_present p perm : present (pte_make p perm) = true.
Proof.
  unfold present, pte_make. rewrite !Z.land_lor_distr_l. apply negb_true_iff, Z.eqb_neq. change (Z.land PTE_P PTE_P) with 1.
  intros H. apply Z.lor_eq_0_iff in H as [H _]. by apply Z.lor_eq_0_iff in H as [_ H].
Qed.

(** ** Building a segment

    The segment starts at [va]; [img] are its bytes.  The pages up to [U] are
    there, and the first [c] bytes. *)
Section Segment.
  Context (K : Z -> Prop) (bs0 : list block) (m0 : machine) (dir va perm : Z) (img : Z -> Z).
  Context (HK : forall p, K p -> kernel_page bs0 m0 dir p) (Hperm : 0 <= perm < 128).

Record built_to (U c : Z) bs m : Prop := {
    bt_space : space_ok bs m dir;
    bt_built : built K bs0 m0 bs m dir;
    bt_other : forall la, user la -> ~ va / PGSIZE <= la / PGSIZE < U -> entry m dir la = entry m0 dir la;
    bt_map : forall la, user la -> va / PGSIZE <= la / PGSIZE < U ->
      exists p, entry m dir la = pte_make p perm /\ PPN (pte_make p perm) = p /\ covers bs0 p;
    bt_range : 0 <= c /\ (0 < c -> va + c <= U * PGSIZE);
    bt_bytes : forall a, user a -> va <= a < va + c -> ubyte m dir a = img (a - va);
    bt_room : total bs0 - 2 * (U - va / PGSIZE) <= total bs
  }.

Lemma built_start : space_ok bs0 m0 dir -> built_to (va / PGSIZE) 0 bs0 m0.
  Proof.
    intros Hs. split; try done; try lia.
    apply built_refl.
  Qed.

Lemma built_present U c bs m la : built_to U c bs m -> user la -> va / PGSIZE <= la / PGSIZE < U ->
    present (entry m dir la) = true /\ covers bs0 (PPN (entry m dir la)) /\ plain_page bs m dir (PPN (entry m dir la)) /\ ~ K (PPN (entry m dir la)).
  Proof.
    intros Hb Hla Hu. destruct (bt_map _ _ _ _ Hb la Hla Hu) as (p & He & Hp & Hc).
    assert (present (entry m dir la) = true) as Hpr by (rewrite He; apply pte_make_present).
    split; [done|]. rewrite He, Hp. split; [done|]. split; [rewrite <- Hp, <- He; by apply mapped_plain; [apply (bt_space _ _ _ _ Hb)|..]|].
    intros Hk. by apply (pp_used _ _ _ _ (proj1 (HK p Hk))).
  Qed.

  (** The next page is mapped, at any address [la] in it. *)
Lemma built_page U c bs m la : built_to U c bs m -> user la -> la / PGSIZE = U -> va / PGSIZE <= U -> present (entry m0 dir la) = false ->
    2 * (U + 1 - va / PGSIZE) <= total bs0 ->
    exists p m' bs', pgdir_alloc_page dir la perm m = Ok (Some p, m') /\ built_to (U + 1) c bs' m' /\ PPN (entry m' dir la) = p.
  Proof.
    intros Hb Hla Hu Hle Hnp Ht. pose proof Hb as [Hs HB Ho Hm Hr Hby Hroom].
    destruct (alloc_page_at bs m dir la perm Hs Hla) as (p & m' & bs' & E & Hs' & He & Hp & HB' & Ht' & Hc); [rewrite Ho by (done || lia); done|done|lia|].
    assert (Hsame : forall la', user la' -> la' / PGSIZE <> U -> entry m' dir la' = entry m dir la').
    { intros la' Hl Hne. rewrite He by done. apply upd_ent_ne. unfold PGSIZE in *. lia. }
    assert (Hnew : forall la', user la' -> la' / PGSIZE = U -> entry m' dir la' = pte_make p perm).
    { intros la' Hl Heq. rewrite He by done. apply upd_ent_eq. unfold PGSIZE in *. lia. }
    exists p, m', bs'. split; [done|]. split; [|by rewrite Hnew]. split; [done|by eapply built_trans|..].
    - intros la' Hl Hout. rewrite Hsame by (done || lia). apply Ho; [done|lia].
    - intros la' Hl Hin. destruct (Z.eq_dec (la' / PGSIZE) U) as [Heq|Hne].
      + exists p. rewrite Hnew by done. split; [done|]. split; [done|]. by apply (bu_free _ _ _ _ _ _ HB).
      + rewrite Hsame by done. apply Hm; [done|lia].
    - unfold PGSIZE in *. lia.
    - intros a Ha Hin. assert (va / PGSIZE <= a / PGSIZE < U) as Hau by (destruct Hr as [_ Hr]; specialize (Hr ltac:(lia)); unfold PGSIZE in *; Z.to_euclidean_division_equations; lia).
      destruct (built_present U c bs m a Hb Ha Hau) as (Hpr & _ & _ & Hnk).
      rewrite (built_ubyte K bs m bs' m' dir a); [by apply Hby|done|done|done|done| |done]. apply Hsame; [done|lia].
    - lia.
  Qed.

  (** Bytes are stored in the last page. *)
Lemma built_fill U c bs m b len : built_to U c bs m -> va / PGSIZE < U -> (U - 1) * PGSIZE <= va + c -> 0 <= len -> va + c + len <= U * PGSIZE ->
    user ((U - 1) * PGSIZE) -> let q := PPN (entry m dir ((U - 1) * PGSIZE)) in let dst := kva q + (va + c - (U - 1) * PGSIZE) in
    (forall r, is_byte (b r)) -> (forall j, 0 <= j < len -> b (dst + j) = img (c + j)) ->
    (forall r, ~ K (kpage r) -> ~ dst <= r < dst + len -> b r = kbytes m r) ->
    built_to U (c + len) bs (kstore b m).
  Proof.
    intros Hb Hlt Hlo Hlen Hhi Hu q dst Hbyte Hin Hout. pose proof Hb as [Hs HB Ho Hm Hr Hby Hroom].
    assert (Huq : (U - 1) * PGSIZE / PGSIZE = U - 1) by (apply Z.div_mul; unfold PGSIZE; lia).
    destruct (built_present U c bs m _ Hb Hu ltac:(lia)) as (Hpq & Hcq & Hplq & Hnkq). fold q in Hcq, Hplq, Hnkq.
    assert (HP : patch (fun p => K p \/ p = q) m b).
    { split; [done|]. intros r Hnr. apply Hout; [tauto|]. intros Hin'. apply Hnr. right. replace r with (kva q + (r - kva q)) by lia.
      apply kpage_kva. unfold dst in Hin'. unfold PGSIZE in *. lia. }
    assert (Hpl : forall p, K p \/ p = q -> plain_page bs m dir p /\ (K p \/ covers bs0 p)).
    { intros p [Hp| ->]; [split; [|by left]|by split; [|right]]. eapply built_plain; [done|]. by apply HK. }
    assert (Hpl' : forall p, K p \/ p = q -> plain_page bs m dir p) by (intros p Hp; by apply Hpl).
    pose proof (patch_entry bs m dir _ b Hs HP Hpl') as Hent. split.
    - by apply (patch_space bs m dir (fun p => K p \/ p = q)).
    - by eapply patch_built.
    - intros la Hla Hx. rewrite Hent by done. by apply Ho.
    - intros la Hla Hx. rewrite Hent by done. by apply Hm.
    - lia.
    - intros a Ha Hx. assert (va / PGSIZE <= a / PGSIZE < U \/ len = 0 /\ c = 0) as [Hau|Hz]; [| |clear -Hx Hz; lia].
      { clear -Hr Hx Hlen Hhi. unfold PGSIZE in *. Z.to_euclidean_division_equations. lia. }
      rewrite (patch_ubyte bs m dir _ b a Hs HP Hpl' Ha). destruct (built_present U c bs m a Hb Ha Hau) as (Hpa & _ & _ & Hnka).
      destruct (Z.eq_dec (a / PGSIZE) (U - 1)) as [Heq|Hne].
      + assert (PPN (entry m dir a) = q) as ->. { unfold q. f_equal. apply entry_same_page; [done|done|]. unfold PGSIZE in *. lia. }
        assert (a mod PGSIZE = a - (U - 1) * PGSIZE) as Hmod by (clear -Heq; unfold PGSIZE in *; Z.to_euclidean_division_equations; lia).
        destruct (Z.lt_ge_cases a (va + c)) as [Hac|Hac].
        * rewrite Hout; [|rewrite kpage_kva by (apply Z.mod_pos_bound; done); done|unfold dst; lia].
          rewrite <- Hby by (done || lia). unfold ubyte. do 3 f_equal. unfold q. f_equal. apply entry_same_page; [done|done|]. unfold PGSIZE in *. lia.
        * replace (kva q + a mod PGSIZE) with (dst + (a - va - c)) by (unfold dst; lia). rewrite Hin by lia. f_equal. lia.
      + assert (a < va + c) as Hac by (clear -Hne Hau Hlo Hx; unfold PGSIZE in *; Z.to_euclidean_division_equations; lia).
        assert (PPN (entry m dir a) <> q) as Hnq.
        { intros Heq. apply Hne. transitivity ((U - 1) * PGSIZE / PGSIZE); [|done]. by apply (sp_inj _ _ _ Hs a ((U - 1) * PGSIZE)). }
        assert (Hm0 : 0 <= a mod PGSIZE < PGSIZE) by by apply Z.mod_pos_bound.
        rewrite (pa_out _ _ _ HP); [apply Hby; [done|lia]|]. rewrite kpage_kva by done. tauto.
    - done.
  Qed.
End Segment.
