(* ===== verification/ExecLoad.v ===== *)
(** * Loading a program: the segments

    What [load_icode] leaves in memory: [load_icode_read] puts bytes of the
    file at a kernel address, and the loops over the pages of a segment build
    the image that the program header asks for. *)
From S2P Require Import Prelude DList Arith CString IoBuf BlockDev Sfs SfsDisk SfsBmap SfsLoad SfsFile SfsSpec SfsTree Vfs File Dev VfsInv DevSpec FileInv FileStep FileProc FileSafe SfsOps SfsInv SfsLaws SfsMount SfsSafe SysFile UserMem SysRead Blocks Atomic DefaultPmm PageTable Tlb Pmm Vmm Exec ExecMem.

(** ** Reading the file *)

Section Reading.
  Context {D : Type} `{!BlockDev D, !BlockRead D, !BlockWrite D}.
  Implicit Types (st : fstate (kfs D)) (u : sys (kfs D)) (x : xsys (kfs D)) (p i kb : Z) (ps : list (Z * option Z)) (g : afile).

Lemma seek_Ok st ps k p i f sin g q : open_file st ps k p i f sin g -> 0 <= q <= a_size g ->
    let st' := moved p i f (q - pos f) (fvfs st) st in
    file_seek p i q LSEEK_SET st = Ok (0, st') /\ open_file st' ps k p i (set_pos f q) sin g.
  Proof.
    intros Ho Hq st'. destruct (open_file_node _ _ _ _ _ _ _ _ Ho) as (gd & j & Hm & Hj & Hops & Hal). pose proof (open_file_size _ _ _ _ _ _ _ _ Ho) as Hsz.
    assert (Ei : i_tryseek (InodeOps := kfs_ops) sfs_node_fileops = Some sfs_tryseek_node) by done.
    pose proof (file_op i_tryseek _ _ _ _ _ _ _ _ _ Ho Ei) as Eop.
    destruct Ho as [Hio Es Hr Hp]. pose proof Hio as [Hk Ek Hh Hs Hi].
    assert (Etry : vop_tryseek (node f) q (fvfs st) = Ok (0, fvfs st)).
    { unfold vop_tryseek. rewrite Eop. cbn [rbind]. unfold sfs_tryseek_node. unfold NBLOCKS in Hsz.
      destruct (Z.ltb_spec q 0), (Z.leb_spec SFS_MAX_FILE_SIZE q); try (unfold SFS_MAX_FILE_SIZE in *; lia). cbn [orb]. rewrite (vop_sin_Ok _ gd _ j sin Hj). cbn [rbind].
      destruct Hr as (_ & _ & [Hd _]). cbn in Hd. destruct (Z.ltb_spec (dsize (din sin)) q); (lia || done). }
    split.
    - unfold file_seek, file_enter. rewrite (fd2file_Ok _ _ _ _ _ _ Hio). cbn [rbind negb Z.eqb]. rewrite (file_at_Ok _ _ _ _ Hh). cbn [rbind negb].
      unfold fd_array_acquire. rewrite (file_at_Ok _ _ _ _ Hh). cbn [rbind].
      rewrite bool_decide_true by done. cbn [rassert rbind negb Z.eqb]. set (f1 := set_count f (fopen_count f + 1)).
      pose proof (has_entry_put st p i f f1 Hh) as Hh1. unfold file_seek_leave. rewrite (file_at_Ok _ _ _ _ Hh1). cbn [rbind LSEEK_SET Z.eqb Pos.eqb].
      rewrite fvfs_put. change (node f1) with (node f). rewrite Etry. cbn [rbind Z.eqb].
      rewrite vfs_put, (file_at_Ok _ _ _ _ (has_entry_put (set_vfs st (fvfs st)) p i f f1 Hh)). cbn [rbind]. rewrite put_put.
      set (f2 := set_pos f1 q). unfold fd_array_release. rewrite (file_at_Ok _ _ _ _ (has_entry_put (set_vfs st (fvfs st)) p i f f2 Hh)). cbn [rbind].
      rewrite bool_decide_true by done. cbn [orb rassert rbind]. destruct (entry_facts _ _ _ _ _ _ _ Hk Hh) as [_ He]. unfold entry_ok in He. rewrite Hs in He.
      pose proof (hold_nonneg ps p i). change (fopen_count f2) with (fopen_count f + 1).
      destruct (Z.ltb_spec 0 (fopen_count f + 1)); [|lia]. cbn [rassert rbind]. destruct (Z.eqb_spec (fopen_count f + 1 - 1) 0); [lia|]. cbn [rbind].
      rewrite put_put. unfold st', moved. do 3 f_equal. unfold f2, f1. destruct f. unfold set_count, set_pos. cbn. f_equal; lia.
    - assert (set_pos f (pos f + (q - pos f)) = set_pos f q) as Ef by (unfold set_pos; f_equal; lia). unfold st', moved. rewrite Ef. split.
      + split; [|done| |done|done].
        * eapply fok_pos; [|by apply has_entry_vfs|done..]. eapply fok_neutral; [done|exact Hh|apply moves_refl|apply (vg_inv _ _ _ (fk_v _ _ _ _ Hk))].
        * by eapply has_entry_put, has_entry_vfs.
      + by rewrite fvfs_put.
      + by rewrite fvfs_put.
      + cbn. unfold SFS_MAX_FILE_SIZE, NBLOCKS in *. lia.
  Qed.

  (** The program file: process [p] reads it through descriptor [i], at any
      position; the disk and the other descriptors are as in [st0]. *)
Section File.
    Context (st0 : fstate (kfs D)) ps (k : nat) p i (f0 : file) (sin : sfs_inode) g kb.
    Context (Hrd : readable f0 = true) (Hkb : kb <> 0).

Record at_file st : Prop := {
      af_file : exists c, open_file st ps k p i (set_pos f0 c) sin g;
      af_disk : same (sfs_view (fvfs st0)) (sfs_view (fvfs st));
      af_others : others_kept p i st0 st
    }.

Lemma seek_file st q : at_file st -> 0 <= q <= a_size g ->
      exists st', file_seek p i q LSEEK_SET st = Ok (0, st') /\ open_file st' ps k p i (set_pos f0 q) sin g /\ at_file st'.
    Proof.
      intros [[c Hf] Hd Ho] Hq. destruct (seek_Ok _ _ _ _ _ _ _ _ q Hf Hq) as [E Hf']. eexists. split; [exact E|]. split; [exact Hf'|]. split.
      - exists q. exact Hf'.
      - unfold moved. by rewrite fvfs_put.
      - intros a j h Hne Hh. unfold moved. apply has_entry_ne; [|done|by destruct (io_entry _ _ _ _ _ _ (of_open _ _ _ _ _ _ _ _ Hf)) as (? & _ & ? & _)].
        by apply has_entry_vfs, Ho.
    Qed.

    (** The bytes of the file arrive; only the buffer at [kb] is used besides. *)
Lemma load_icode_read_Ok buf len offset x : at_file (xfiles x) -> 0 <= offset -> 0 <= len -> offset + len <= a_size g ->
      KERNBASE <= buf -> buf + len <= KERNTOP -> disjoint kb IOBUF_SIZE buf len ->
      exists b st, load_icode_read p i kb buf len offset x = Ok (0, mk_x (kstore b (xmach x)) st) /\ at_file st /\
        (forall q, is_byte (b q)) /\ (forall j, 0 <= j < len -> b (buf + j) = a_byte g (offset + j)) /\
        forall q, ~ kb <= q < kb + IOBUF_SIZE -> ~ buf <= q < buf + len -> b q = kbytes (xmach x) q.
    Proof.
      intros Hx Ho Hl Hs Hb Ht Hd. destruct (seek_file (xfiles x) offset Hx ltac:(lia)) as (st1 & E1 & Hf1 & H1).
      pose proof (open_file_size _ _ _ _ _ _ _ _ Hf1) as Hsz. unfold NBLOCKS, KERNBASE, KERNTOP, KERNBASE, KMEMSIZE in *.
      unfold load_icode_read, as_kernel, sysfile_seek, on_files. cbn [ufs]. rewrite s32_id by (unfold is_s32; lia). rewrite E1. cbn [rbind negb Z.eqb].
      set (u1 := set_ufs _ st1). destruct (Z.eq_dec len 0) as [->|Hne].
      { unfold sysfile_read. cbn [Z.eqb rbind u32]. change (negb (u32 0 =? 0)) with false. cbn [rbind umem ufs set_ufs u1].
        do 2 eexists. split; [reflexivity|]. split; [done|]. split; [apply kbytes_byte|]. split; [lia|done]. }
      assert (Hacc : accepted (umm u1) buf len true).
      { cbn. rewrite u32_id by (unfold is_u32, two32; lia). unfold KERN_ACCESS, KERNBASE, KERNTOP, KERNBASE, KMEMSIZE. lia. }
      rewrite (sysfile_read_enter u1 ps k p i (set_pos f0 offset)) by (done || apply Hf1).
      destruct (read_loop_Ok u1 ps k p i (set_pos f0 offset) sin g kb buf len Hf1 Hrd) as (u & E & [R1 _ R3 R4 R5 R6 R7]); [done|unfold two32; lia|done..|].
      rewrite E. cbn [rbind]. change (pos (set_pos f0 offset)) with offset in *.
      assert (afile_avail g offset len = len) as Hav by (rewrite avail_eq by lia; lia). rewrite Hav in *.
      rewrite rw_result_Ok by (unfold NBLOCKS; lia). cbn [rbind]. rewrite u32_id, Z.eqb_refl by (unfold is_u32, two32; lia). cbn [negb rbind].
      destruct H1 as [_ A2 A3]. do 2 eexists. split; [reflexivity|]. split; [|split; [apply R7, kbytes_byte|split; [exact R3|exact R4]]]. split.
      - eexists. exact R1.
      - eapply same_trans; [exact A2|exact R5].
      - intros a j h Hne' Hh. apply R6; [done|]. by apply A3.
    Qed.
  End File.
End Reading.

(** ** A segment *)

(** The pages that reach below [a] end at this page. *)
Definition page_end (a : Z) : Z := (a + 4095) / PGSIZE.

Definition segment_perm (ph : proghdr) : Z := Z.lor PTE_U (if has_flag (p_flags ph) ELF_PF_W then PTE_W else 0).

(** The byte [j] of a segment: from the file, or 0. *)
Definition segment_byte (g : afile) (ph : proghdr) (j : Z) : Z := if j <? p_filesz ph then a_byte g (p_offset ph + j) else 0.

(** A segment that can be loaded: it lies in user space and in the file, its
    pages are not mapped yet, and there are two free pages for each. *)
Record loadable (g : afile) (ph : proghdr) (bs : list block) (m : machine) (dir : Z) : Prop := {
  ld_addr : 0 <= p_va ph /\ p_va ph + p_memsz ph <= KERNBASE;
  ld_size : 0 <= p_filesz ph <= p_memsz ph;
  ld_file : 0 <= p_offset ph /\ p_offset ph + p_filesz ph <= a_size g;
  ld_new : forall la, user la -> p_va ph / PGSIZE <= la / PGSIZE < page_end (p_va ph + p_memsz ph) -> present (entry m dir la) = false;
  ld_pages : 2 * (page_end (p_va ph + p_memsz ph) - p_va ph / PGSIZE) <= total bs
}.

Ltac page_arith := unfold user, page_end, PGSIZE, KERNBASE, two32 in *; Z.to_euclidean_division_equations; lia.

Section Segment.
  Context {D : Type} `{!BlockDev D, !BlockRead D, !BlockWrite D}.
  Context (st0 : fstate (kfs D)) (ps : list (Z * option Z)) (k : nat) (p i : Z) (f0 : file) (sin : sfs_inode) (g : afile) (kb : Z).
  Context (Hrd : readable f0 = true) (Hkb : kb <> 0).
  Context (K : Z -> Prop) (bs0 : list block) (m0 : machine) (dir : Z) (ph : proghdr).
  Context (HK : forall q, K q -> kernel_page bs0 m0 dir q) (Hbuf : forall q, kb <= q < kb + IOBUF_SIZE -> K (kpage q)).
  Context (Hnp : npage m0 <= KMEMSIZE / PGSIZE) (Hld : loadable g ph bs0 m0 dir).
  Context (Hs0 : space_ok bs0 m0 dir).

Let va := p_va ph.
Let mend := va + p_memsz ph.
Let perm := segment_perm ph.
Let img := segment_byte g ph.
Let ready := at_file st0 ps k p i f0 sin g.
Let seg := built_to K bs0 m0 dir va perm img.

  (** The bytes below [va + c] are there. *)
Definition loaded (U c : Z) (x : xsys (kfs D)) : Prop := (exists bs, seg U c bs (xmach x)) /\ ready (xfiles x).

Definition last_page (U : Z) (x : xsys (kfs D)) : Z := PPN (entry (xmach x) dir ((U - 1) * PGSIZE)).

Lemma perm_range : 0 <= perm < 128.
  Proof. unfold perm, segment_perm. by destruct (has_flag _ _). Qed.

Lemma va_pos : 0 <= va.
  Proof. unfold va. destruct Hld as [H1 H2 H3 H4 H5]. lia. Qed.

Lemma ready_start st : ready st -> loaded (va / PGSIZE) 0 (mk_x m0 st).
  Proof. intros H. split; [|done]. exists bs0. by apply built_start. Qed.

  (** A page is mapped. *)
Lemma map_page_Ok U c x la : loaded U c x -> va / PGSIZE <= U < page_end mend -> user la -> la / PGSIZE = U ->
    exists q x', map_page dir la perm x = Ok (q, x') /\ loaded (U + 1) c x' /\ last_page (U + 1) x' = q.
  Proof.
    intros [[bs Hb] Hf] Hpg Hul HU. pose proof va_pos as Hv. pose proof perm_range as Hperm. destruct Hld as [L1 L2 L3 L4 L5]. fold va mend in L1, L2, L3, L4, L5.
    destruct (built_page K bs0 m0 dir va perm img HK Hperm U c bs (xmach x) la Hb Hul HU) as (q & m' & bs' & E & Hb' & Hq); [lia|apply L4; [done|lia]|lia|].
    exists q, (mk_x m' (xfiles x)). unfold map_page. rewrite E. cbn [rbind]. split; [done|]. split; [split; [by exists bs'|done]|].
    unfold last_page. cbn [xmach]. rewrite <- Hq. f_equal. apply entry_same_page; [unfold user in *; page_arith|done|page_arith].
  Qed.

  (** Bytes are stored in the last page, whoever stores them. *)
Lemma fill_last U c x b len : loaded U c x -> va / PGSIZE < U <= page_end mend -> user ((U - 1) * PGSIZE) -> (U - 1) * PGSIZE <= va + c ->
    0 <= len -> va + c + len <= U * PGSIZE -> let dst := kva (last_page U x) + (va + c - (U - 1) * PGSIZE) in
    (forall r, is_byte (b r)) -> (forall j, 0 <= j < len -> b (dst + j) = img (c + j)) ->
    (forall r, ~ K (kpage r) -> ~ dst <= r < dst + len -> b r = kbytes (xmach x) r) ->
    forall st, ready st -> let x' := mk_x (kstore b (xmach x)) st in loaded U (c + len) x' /\ last_page U x' = last_page U x.
  Proof.
    intros [[bs Hb] Hf] HU Hu Hlo Hlen Hhi dst Hby Hin Hout st Hst x'. split.
    - split; [|done]. exists bs. eapply (built_fill K bs0 m0 dir va perm img HK perm_range); (done || lia).
    - unfold last_page, x'. cbn [xmach]. f_equal. destruct (built_present K bs0 m0 dir va perm img HK U c bs _ _ Hb Hu) as (Hp & Hc & Hpl & Hnk).
      { rewrite Z.div_mul by done. lia. }
      apply (patch_entry bs (xmach x) dir (fun q => K q \/ q = last_page U x) b (bt_space _ _ _ _ _ _ _ _ _ _ _ Hb)); [|..|done].
      + split; [done|]. intros r Hr. apply Hout; [tauto|]. intros Hin'. apply Hr. right. replace r with (kva (last_page U x) + (r - kva (last_page U x))) by lia.
        apply kpage_kva. unfold dst in Hin'. unfold PGSIZE in *. lia.
      + intros q [Hq| ->]; [|done]. eapply built_plain; [apply (bt_built _ _ _ _ _ _ _ _ _ _ _ Hb)|]. by apply HK.
  Qed.

  (** The page that is being filled. *)
Lemma last_plain U c x : loaded U c x -> va / PGSIZE < U -> user ((U - 1) * PGSIZE) ->
    0 <= last_page U x < KMEMSIZE / PGSIZE /\ page2kva (last_page U x) (xmach x) = Ok (last_page U x) /\ ~ K (last_page U x).
  Proof.
    intros [[bs Hb] _] HU Hu. destruct (built_present K bs0 m0 dir va perm img HK U c bs _ _ Hb Hu) as (Hp & Hc & [Hr _ _ _] & Hnk).
    { rewrite Z.div_mul by done. lia. }
    fold (last_page U x) in *. pose proof (bu_rest _ _ _ _ _ _ (bt_built _ _ _ _ _ _ _ _ _ _ _ Hb)) as [Hn _]. split; [lia|]. split; [|done].
    pose proof (wf_np _ _ _ (proj1 (sp_ready _ _ _ (bt_space _ _ _ _ _ _ _ _ _ _ _ Hb)))). assert (PPN (page2pa (last_page U x)) = last_page U x) as Hpp.
    { rewrite page2pa_mul by lia. rewrite PPN_div. by apply Z.div_mul. }
    unfold page2kva. by rewrite KADDR_Ok; rewrite Hpp.
  Qed.

Lemma read_page_Ok U c x off len : loaded U c x -> va / PGSIZE < U <= page_end mend -> user ((U - 1) * PGSIZE) -> (U - 1) * PGSIZE <= va + c < U * PGSIZE ->
    off = va + c - (U - 1) * PGSIZE -> 0 <= len -> va + c + len <= U * PGSIZE -> c + len <= p_filesz ph ->
    exists x', read_page p i kb (last_page U x) off len (p_offset ph + c) x = Ok x' /\ loaded U (c + len) x' /\ last_page U x' = last_page U x.
  Proof.
    intros Hl HU Hu Hlo -> Hlen Hhi Hfs. destruct (last_plain U c x Hl ltac:(lia) Hu) as (Hq & Ek & Hnk). unfold read_page. rewrite Ek. cbn [rbind].
    set (q := last_page U x) in *. set (dst := kva q + (va + c - (U - 1) * PGSIZE)).
    assert (0 <= c) as Hc by (destruct Hl as [[bs Hb] _]; destruct (bt_range _ _ _ _ _ _ _ _ _ _ _ Hb); lia).
    assert (Hdst : forall r, dst <= r < dst + Z.max 1 len -> kpage r = q).
    { intros r Hr. replace r with (kva q + (r - kva q)) by lia. apply kpage_kva. unfold dst in Hr. lia. }
    pose proof Hld as [L1 L2 L3 L4 L5]. pose proof Hl as [_ Hready].
    destruct (load_icode_read_Ok st0 ps k p i f0 sin g kb Hrd Hkb dst len (p_offset ph + c) x Hready) as (b & st & E & Hst & Hby & Hin & Hout); try lia.
    - unfold dst, kva, KERNBASE, PGSIZE in *. lia.
    - change (KMEMSIZE / PGSIZE) with 2048 in Hq. unfold dst, kva, KERNTOP, KMEMSIZE, PGSIZE in *. lia.
    - unfold disjoint. destruct (Z.le_gt_cases (kb + IOBUF_SIZE) dst), (Z.le_gt_cases (dst + len) kb); try tauto. exfalso. apply Hnk.
      rewrite <- (Hdst (Z.max kb dst)) by lia. apply Hbuf. unfold IOBUF_SIZE in *. lia.
    - rewrite E. cbn [rbind rassert Z.eqb]. eexists. split; [reflexivity|]. apply (fill_last U c x b len); try done; try lia.
      + intros j Hj. rewrite Hin by done. unfold img, segment_byte. destruct (Z.ltb_spec (c + j) (p_filesz ph)); [f_equal; lia|lia].
      + intros r Hr Hr'. apply Hout; [|done]. intros Hkr. by apply Hr, Hbuf.
  Qed.

Lemma clear_page_Ok U c x len : loaded U c x -> va / PGSIZE < U <= page_end mend -> user ((U - 1) * PGSIZE) -> (U - 1) * PGSIZE <= va + c ->
    0 <= len -> va + c + len <= U * PGSIZE -> p_filesz ph <= c ->
    exists b, memset (kva (last_page U x) + (va + c - (U - 1) * PGSIZE)) 0 len (kbytes (xmach x)) = Ok b /\
      let x' := mk_x (kstore b (xmach x)) (xfiles x) in loaded U (c + len) x' /\ last_page U x' = last_page U x.
  Proof.
    intros Hl HU Hu Hlo Hlen Hhi Hfs. set (dst := kva _ + _). destruct (memset_spec dst 0 len (kbytes (xmach x))) as (b & E & Hb); [clear -Hlo Hlen Hhi; unfold PGSIZE, two32 in *; lia|].
    exists b. split; [exact E|]. apply (fill_last U c x b len); try done; try lia.
    - intros r. rewrite Hb. destruct (_ && _); [unfold is_byte; lia|apply kbytes_byte].
    - intros j Hj. fold dst. rewrite Hb. destruct (Z.leb_spec dst (dst + j)), (Z.ltb_spec (dst + j) (dst + len)); try lia. cbn [andb].
      unfold img, segment_byte. destruct (Z.ltb_spec (c + j) (p_filesz ph)); (lia || done).
    - intros r _ Hr. rewrite Hb. fold dst in Hr. destruct (Z.leb_spec dst r), (Z.ltb_spec r (dst + len)); (lia || done).
    - apply Hl.
  Qed.

  (** ** The loops

      The first [c] bytes are there and the pages that they reach into; when
      they end inside a page it is the one in [page]. *)
Record progress (c : Z) (page : option Z) (x : xsys (kfs D)) : Prop := {
    pr_loaded : loaded (page_end (va + c)) c x;
    pr_page : (va + c) mod PGSIZE <> 0 -> page = Some (last_page (page_end (va + c)) x)
  }.

Lemma progress_at U c x : loaded U c x -> (U - 1) * PGSIZE < va + c <= U * PGSIZE -> progress c (Some (last_page U x)) x.
  Proof. intros Hl Hc. assert (page_end (va + c) = U) as HU by page_arith. split; rewrite HU; done. Qed.

Lemma sizes x : ready (xfiles x) -> 0 <= va /\ 0 <= p_filesz ph <= p_memsz ph /\ mend <= KERNBASE /\ 0 <= p_offset ph /\ p_offset ph + p_filesz ph < 2 ^ 31.
  Proof.
    intros [[c Hf] _ _]. pose proof (open_file_size _ _ _ _ _ _ _ _ Hf) as Hs. destruct Hld as [L1 L2 L3 L4 L5]. fold va mend in L1. unfold NBLOCKS in Hs. lia.
  Qed.

Let fend := va + p_filesz ph.

Lemma first_page_Ok x : loaded (va / PGSIZE) 0 x ->
    exists page c x', first_page p i kb dir perm va (p_filesz ph) fend (p_offset ph) x = Ok (page, va + c, p_offset ph + c, x') /\
      progress c page x' /\ 0 <= c <= p_filesz ph /\ ((va + c) mod PGSIZE = 0 \/ va + c = fend).
  Proof.
    intros Hl. destruct (sizes x (proj2 Hl)) as (S1 & S2 & S3 & S4 & S5). unfold first_page. destruct (Z.ltb_spec 0 (va mod PGSIZE)) as [Hm|Hm].
    - destruct (map_page_Ok _ 0 x va Hl) as (q & x1 & -> & Hl1 & Hq); [unfold mend, fend in *; page_arith|unfold user, mend in *; page_arith|done|]. cbn [rbind].
      set (len := if va / PGSIZE =? fend / PGSIZE then p_filesz ph else PGSIZE - va mod PGSIZE).
      assert (0 <= len <= p_filesz ph /\ va + len <= (va / PGSIZE + 1) * PGSIZE /\ ((va + len) mod PGSIZE = 0 \/ len = p_filesz ph)) as (Hlen & Hend & Hstop).
      { unfold len, fend in *. destruct (Z.eqb_spec (va / PGSIZE) ((va + p_filesz ph) / PGSIZE)); page_arith. }
      destruct (read_page_Ok _ 0 x1 (va mod PGSIZE) len Hl1) as (x2 & E2 & Hl2 & Hq2); [unfold mend, fend in *; page_arith..|].
      rewrite Hq, Z.add_0_r in E2. rewrite E2. cbn [rbind]. rewrite !u32_id by (unfold is_u32, mend, fend in *; page_arith).
      exists (Some q), len, x2. split; [done|]. split; [|split; [done|unfold fend; destruct Hstop; [by left|right; lia]]].
      rewrite <- Hq, <- Hq2. apply progress_at; [exact Hl2|page_arith].
    - exists None, 0, x. rewrite !Z.add_0_r. split; [done|]. assert (va mod PGSIZE = 0) as Hz by page_arith. split; [|split; [lia|by left]].
      assert (page_end va = va / PGSIZE) as Hpe by page_arith. by split; rewrite Z.add_0_r, ?Hpe.
  Qed.

  (** A page that starts at [va + c] is mapped. *)
Lemma next_page c page x : progress c page x -> (va + c) mod PGSIZE = 0 -> va + c < mend -> 0 <= c ->
    exists q x', map_page dir (va + c) perm x = Ok (q, x') /\ loaded ((va + c) / PGSIZE + 1) c x' /\ last_page ((va + c) / PGSIZE + 1) x' = q.
  Proof.
    intros [Hl _] Hm Hlt Hc. destruct (sizes x (proj2 Hl)) as (S1 & S2 & S3 & S4 & S5). assert (page_end (va + c) = (va + c) / PGSIZE) as Hpe by page_arith.
    rewrite Hpe in Hl. apply map_page_Ok; [done|page_arith|unfold user; lia|done].
  Qed.

Lemma fill_loop_Ok page c x : progress c page x -> 0 <= c <= p_filesz ph -> (va + c) mod PGSIZE = 0 \/ va + c = fend ->
    exists page' c' x', loop (fill_body p i kb dir perm fend) (page, va + c, p_offset ph + c, x) = Ok (page', va + c', p_offset ph + c', x') /\
      progress c' page' x' /\ 0 <= c' <= p_filesz ph /\ ((va + c') mod PGSIZE = 0 /\ fend - va - c' < PGSIZE \/ va + c' = fend).
  Proof.
    intros Hp Hc Ha. pose proof (sizes x (proj2 (pr_loaded _ _ _ Hp))) as (S1 & S2 & S3 & S4 & S5).
    destruct (loop_rule (fun '(page, la, off, x) => exists c, progress c page x /\ la = va + c /\ off = p_offset ph + c /\ 0 <= c <= p_filesz ph /\
        ((va + c) mod PGSIZE = 0 \/ va + c = fend)) (fun '(_, la, _, _) => fend - la)
      (fun '(page, la, off, x) => exists c, progress c page x /\ la = va + c /\ off = p_offset ph + c /\ 0 <= c <= p_filesz ph /\
        ((va + c) mod PGSIZE = 0 /\ fend - va - c < PGSIZE \/ va + c = fend))
      (fill_body p i kb dir perm fend) (page, va + c, p_offset ph + c, x)) as ([[[page' la'] off'] x'] & E & c' & Hp' & -> & -> & Hc').
    - clear page c x Hp Hc Ha. intros [[[page la] off] x] (c & Hp & -> & -> & Hc & Ha). unfold fend in *. split; [lia|]. unfold fill_body.
      destruct (Z.ltb_spec (va + c) ((va + p_filesz ph) / PGSIZE * PGSIZE)) as [Hlt|Hge].
      + destruct (next_page c page x Hp) as (q & x1 & -> & Hl1 & Hq); [unfold mend in *; page_arith..|]. cbn [rbind].
        destruct (read_page_Ok _ c x1 0 PGSIZE Hl1) as (x2 & E2 & Hl2 & Hq2); [unfold user, mend in *; page_arith..|].
        rewrite Hq in E2. rewrite E2. cbn [rbind]. rewrite !u32_id by (unfold is_u32, mend in *; page_arith).
        split; [|page_arith]. exists (c + PGSIZE). split; [|page_arith]. rewrite <- Hq, <- Hq2. apply progress_at; [exact Hl2|page_arith].
      + exists c. do 4 (split; [done|]). page_arith.
    - exists c. done.
    - unfold fend, mend in *. page_arith.
    - exists page', c', x'. done.
  Qed.

Lemma end_page_Ok page c x : progress c page x -> 0 <= c <= p_filesz ph -> (va + c) mod PGSIZE = 0 /\ fend - va - c < PGSIZE \/ va + c = fend ->
    exists page' x', end_page p i kb dir perm fend (page, va + c, p_offset ph + c, x) = Ok (page', fend, x') /\ progress (p_filesz ph) page' x'.
  Proof.
    intros Hp Hc Ha. destruct (sizes x (proj2 (pr_loaded _ _ _ Hp))) as (S1 & S2 & S3 & S4 & S5). unfold end_page, fend in *.
    destruct (Z.ltb_spec (va + c) (va + p_filesz ph)) as [Hlt|Hge].
    - destruct (next_page c page x Hp) as (q & x1 & -> & Hl1 & Hq); [unfold mend in *; page_arith..|]. cbn [rbind].
      assert (Hlen : (va + p_filesz ph) mod PGSIZE = p_filesz ph - c) by page_arith. rewrite Hlen.
      destruct (read_page_Ok _ c x1 0 (p_filesz ph - c) Hl1) as (x2 & E2 & Hl2 & Hq2); [unfold mend in *; page_arith..|].
      rewrite Hq in E2. rewrite E2. cbn [rbind]. rewrite u32_id by (unfold is_u32, mend in *; page_arith). exists (Some q), x2.
      replace (va + c + (p_filesz ph - c)) with (va + p_filesz ph) by lia. split; [done|]. rewrite <- Hq, <- Hq2.
      replace (c + (p_filesz ph - c)) with (p_filesz ph) in Hl2 by lia. apply progress_at; [exact Hl2|page_arith].
    - assert (c = p_filesz ph) as -> by lia. by exists page, x.
  Qed.

  (** One round of the last loop: up to the end of the page or of the segment. *)
Lemma clear_step_Ok page c x : progress c page x -> p_filesz ph <= c < p_memsz ph ->
    exists c' page' x', clear_body dir perm mend (page, va + c, x) = Ok (inl (page', va + c', x')) /\ progress c' page' x' /\ c < c' <= p_memsz ph.
  Proof.
    intros Hp Hc. destruct (sizes x (proj2 (pr_loaded _ _ _ Hp))) as (S1 & S2 & S3 & S4 & S5). unfold clear_body. pose proof (eq_refl mend) as Hme. unfold mend at 2 in Hme.
    destruct (Z.ltb_spec (va + c) mend); [|lia].
    assert (exists q x1, (if (va + c) mod PGSIZE =? 0 then let! (page, x) := map_page dir (va + c) perm x in Ok (Some page, x) else Ok (page, x)) = Ok (Some q, x1) /\
      loaded ((va + c) / PGSIZE + 1) c x1 /\ last_page ((va + c) / PGSIZE + 1) x1 = q) as (q & x1 & -> & Hl1 & Hq).
    { destruct (Z.eqb_spec ((va + c) mod PGSIZE) 0) as [Hm|Hm].
      - destruct (next_page c page x Hp Hm ltac:(lia) ltac:(lia)) as (q & x1 & -> & Hl1 & Hq). by exists q, x1.
      - destruct Hp as [Hl Hpg]. assert (page_end (va + c) = (va + c) / PGSIZE + 1) as Hpe by page_arith. rewrite Hpe in *.
        rewrite (Hpg Hm). by exists (last_page ((va + c) / PGSIZE + 1) x), x. }
    cbn [rbind rget]. set (len := if (va + c) / PGSIZE =? mend / PGSIZE then _ else _).
    assert (Hlen : len = Z.min (((va + c) / PGSIZE + 1) * PGSIZE) mend - (va + c)).
    { unfold len. destruct (Z.eqb_spec ((va + c) mod PGSIZE) 0), (Z.eqb_spec ((va + c) / PGSIZE) (mend / PGSIZE)); rewrite ?u32_id; unfold is_u32; page_arith. }
    clearbody len. destruct (last_plain _ c x1 Hl1) as (_ & Ek & _); [page_arith..|]. rewrite Hq in Ek. rewrite Ek. cbn [rbind].
    destruct (clear_page_Ok _ c x1 len Hl1) as (b & Eb & Hl2 & Hq2); [page_arith..|].
    replace (va + c - ((va + c) / PGSIZE + 1 - 1) * PGSIZE) with ((va + c) mod PGSIZE) in Eb by page_arith. rewrite Hq in Eb. rewrite Eb. cbn [rbind].
    rewrite u32_id by (unfold is_u32; page_arith). exists (c + len), (Some q). eexists. split; [rewrite <- Z.add_assoc; reflexivity|].
    split; [|page_arith]. rewrite <- Hq, <- Hq2. apply progress_at; [exact Hl2|page_arith].
  Qed.

Lemma clear_loop_Ok page x : progress (p_filesz ph) page x ->
    exists x', loop (clear_body dir perm mend) (page, fend, x) = Ok x' /\ loaded (page_end mend) (p_memsz ph) x'.
  Proof.
    intros Hp. destruct (sizes x (proj2 (pr_loaded _ _ _ Hp))) as (S1 & S2 & S3 & S4 & S5).
    apply (loop_rule (fun '(page, la, x) => exists c, progress c page x /\ la = va + c /\ p_filesz ph <= c <= p_memsz ph) (fun '(_, la, _) => mend - la)).
    - clear page x Hp. intros [[page la] x] (c & Hp & -> & Hc). unfold mend at 1. split; [lia|]. destruct (Z.eq_dec c (p_memsz ph)) as [->|Hne].
      + unfold clear_body. fold mend. rewrite Z.ltb_irrefl. apply (pr_loaded _ _ _ Hp).
      + destruct (clear_step_Ok page c x Hp ltac:(lia)) as (c' & page' & x' & -> & Hp' & Hc'). split; [|lia]. exists c'. split; [done|]. split; [done|lia].
    - exists (p_filesz ph). split; [done|]. split; [done|lia].
    - unfold fend, mend in *. unfold KERNBASE in *. lia.
  Qed.

  (** The whole segment. *)
Lemma load_segment_Ok st : ready st -> exists x', load_segment p i kb dir ph (mk_x m0 st) = Ok x' /\ loaded (page_end mend) (p_memsz ph) x'.
  Proof.
    intros Hst. pose proof (ready_start st Hst) as Hl. destruct (sizes _ (proj2 Hl)) as (S1 & S2 & S3 & S4 & S5). unfold load_segment. fold (segment_perm ph).
    fold va perm. destruct (Z.leb_spec (p_filesz ph) (p_memsz ph)); [|lia]. cbn [rassert rbind]. fold fend mend.
    rewrite !u32_id by (unfold is_u32, fend, mend in *; page_arith).
    destruct (first_page_Ok _ Hl) as (page1 & c1 & x1 & -> & Hp1 & Hc1 & Ha1). cbn [rbind].
    destruct (fill_loop_Ok _ _ _ Hp1 Hc1 Ha1) as (page2 & c2 & x2 & -> & Hp2 & Hc2 & Ha2). cbn [rbind].
    destruct (end_page_Ok _ _ _ Hp2 Hc2 Ha2) as (page3 & x3 & -> & Hp3). cbn [rbind]. by apply clear_loop_Ok in Hp3.
  Qed.
End Segment.
