(* ===== verification/ExecImage.v ===== *)
(** * Loading a program: the image

    [load_headers]: every segment of the ELF file is mapped and filled, and
    its area is in the address space. *)
From S2P Require Import Prelude DList Arith CString IoBuf BlockDev Sfs SfsDisk SfsBmap SfsLoad SfsFile SfsSpec SfsTree Vfs File Dev VfsInv DevSpec FileInv FileStep FileProc FileSafe SfsOps SfsInv SfsLaws SfsMount SfsSafe SysFile UserMem SysRead Blocks Atomic DefaultPmm PageTable Tlb Pmm Vmm Exec ExecMem ExecLoad.

(** ** The file *)

(** What the headers of an ELF file [g] say. *)
Definition elf_header (g : afile) : elfhdr := bytes_elfhdr (mem_bytes (a_byte g) 0 SIZEOF_ELFHDR).
Definition prog_header (g : afile) (n : nat) : proghdr :=
  bytes_proghdr (mem_bytes (a_byte g) (e_phoff (elf_header g) + SIZEOF_PROGHDR * Z.of_nat n) SIZEOF_PROGHDR).

(** The segments of the headers from [n] on. *)
Definition is_load (ph : proghdr) : bool := p_type ph =? ELF_PT_LOAD.
Definition phnum (g : afile) : nat := Z.to_nat (e_phnum (elf_header g)).
Definition segments (g : afile) (n : nat) : list proghdr := List.filter is_load (prog_header g <$> seq n (phnum g - n)).

Definition pages_of (ph : proghdr) : Z := page_end (p_va ph + p_memsz ph) - p_va ph / PGSIZE.
Definition pages_in (l : list proghdr) : Z := foldr (fun ph n => pages_of ph + n) 0 l.
Definition on_page (la : Z) (ph : proghdr) : Prop := p_va ph / PGSIZE <= la / PGSIZE < page_end (p_va ph + p_memsz ph).
Definition apart (ph qh : proghdr) : Prop :=
  page_end (p_va ph + p_memsz ph) <= p_va qh / PGSIZE \/ page_end (p_va qh + p_memsz qh) <= p_va ph / PGSIZE.

(** The segment lies in user space below the stack and in the file. *)
Record segment_fits (g : afile) (ph : proghdr) : Prop := {
  sf_addr : USERBASE <= p_va ph /\ 0 < p_memsz ph /\ p_va ph + p_memsz ph <= USTACKTOP - USTACKSIZE;
  sf_size : 0 <= p_filesz ph <= p_memsz ph;
  sf_file : 0 <= p_offset ph /\ p_offset ph + p_filesz ph <= a_size g
}.

(** A program that can be loaded: no two segments share a page. *)
Record program (g : afile) : Prop := {
  pg_header : SIZEOF_ELFHDR <= a_size g;
  pg_phs : 0 <= e_phoff (elf_header g) /\ e_phoff (elf_header g) + SIZEOF_PROGHDR * Z.of_nat (phnum g) <= a_size g;
  pg_fits : Forall (segment_fits g) (segments g 0);
  pg_apart : ForallOrdPairs apart (segments g 0)
}.

Definition segment_area (ph : proghdr) : vma_struct :=
  mk_vma (ROUNDDOWN (p_va ph) PGSIZE) (ROUNDUP (u32 (p_va ph + p_memsz ph)) PGSIZE) (segment_flags ph).

(** ** Lists of segments *)

Lemma segments_step g n : (n < phnum g)%nat ->
  segments g n = (if is_load (prog_header g n) then [prog_header g n] else []) ++ segments g (S n).
Proof.
  intros Hn. unfold segments. replace (phnum g - n)%nat with (S (phnum g - S n)) by lia. cbn [seq fmap list_fmap List.filter].
  by destruct (is_load (prog_header g n)).
Qed.

Lemma segments_end g : segments g (phnum g) = [].
Proof. unfold segments. by rewrite Nat.sub_diag. Qed.

Lemma segments_drop g n : (n <= phnum g)%nat -> exists l, segments g 0 = l ++ segments g n.
Proof.
  induction n as [|n IH]; intros Hn; [by exists []|]. destruct IH as [l ->]; [lia|]. rewrite (segments_step g n) by lia. eexists. by rewrite app_assoc.
Qed.

Lemma segments_length g n : Z.of_nat (length (segments g n)) <= Z.of_nat (phnum g).
Proof.
  unfold segments. pose proof (filter_length_le is_load (prog_header g <$> seq n (phnum g - n))) as H. rewrite length_fmap, length_seq in H. lia.
Qed.

Lemma ordpairs_app {A} (R : A -> A -> Prop) l k : ForallOrdPairs R (l ++ k) -> ForallOrdPairs R k.
Proof. induction l as [|x l IH]; [done|]. cbn. intros H. inversion H. by apply IH. Qed.

(** The segment of header [n], when it is one. *)
Lemma segments_here g n : program g -> (n < phnum g)%nat -> is_load (prog_header g n) = true ->
  segments g n = prog_header g n :: segments g (S n) /\ segment_fits g (prog_header g n) /\ Forall (apart (prog_header g n)) (segments g (S n)).
Proof.
  intros [_ _ Hf Ha] Hn Hl. destruct (segments_drop g n ltac:(lia)) as [l El]. pose proof (segments_step g n Hn) as E. rewrite Hl in E.
  cbn [app] in E. split; [done|]. rewrite El, E in Hf. rewrite El, E in Ha. apply ordpairs_app in Ha. inversion Ha; subst. split; [|done].
  apply Forall_app in Hf as [_ Hf]. by apply Forall_cons in Hf as [? _].
Qed.

Lemma pages_nonneg g l : Forall (segment_fits g) l -> 0 <= pages_in l.
Proof.
  induction 1 as [|ph l [H1 H2 _] _ IH]; [done|]. change (0 <= pages_of ph + pages_in l). unfold pages_of, USERBASE in *. page_arith.
Qed.

Lemma pages_app l1 l2 : pages_in (l1 ++ l2) = pages_in l1 + pages_in l2.
Proof.
  induction l1 as [|ph l1 IH]; [done|]. change (pages_of ph + pages_in (l1 ++ l2) = pages_of ph + pages_in l1 + pages_in l2). lia.
Qed.

(** The pages of an area are those of its segment. *)
Lemma segment_area_spec g ph : segment_fits g ph ->
  vm_start (segment_area ph) = p_va ph / PGSIZE * PGSIZE /\ vm_end (segment_area ph) = page_end (p_va ph + p_memsz ph) * PGSIZE /\
  USER_ACCESS (vm_start (segment_area ph)) (vm_end (segment_area ph)) = true.
Proof.
  intros [(H1 & H2 & H3) _ _]. unfold segment_area. cbn [vm_start vm_end]. unfold USERBASE, USTACKTOP, USERTOP, USTACKSIZE, USTACKPAGE, PGSIZE in *.
  rewrite u32_id by (unfold is_u32, two32; lia). unfold ROUNDUP. rewrite u32_id by (unfold is_u32, two32; lia).
  destruct (ROUNDDOWN_spec (p_va ph) 4096) as [-> _]; [unfold is_u32, two32; lia|lia|].
  destruct (ROUNDDOWN_spec (p_va ph + p_memsz ph + 4096 - 1) 4096) as [-> _]; [unfold is_u32, two32; lia|lia|].
  replace (p_va ph + p_memsz ph + 4096 - 1) with (p_va ph + p_memsz ph + 4095) by lia. split; [lia|]. split; [page_arith|].
  unfold USER_ACCESS, USERBASE, USERTOP. Z.to_euclidean_division_equations. lia.
Qed.

Lemma apart_areas g ph qh : segment_fits g ph -> segment_fits g qh -> apart ph qh -> disjoint_from (segment_area ph) (segment_area qh).
Proof.
  intros Hp Hq Ha. destruct (segment_area_spec _ _ Hp) as (E1 & E2 & _), (segment_area_spec _ _ Hq) as (E3 & E4 & _).
  unfold disjoint_from. rewrite E1, E2, E3, E4. unfold apart, PGSIZE in *. lia.
Qed.

(** ** The loop over the headers *)

(** The segment [ph] is in memory: every address of it is mapped with its
    permissions and shows the right byte. *)
Definition has_segment (g : afile) (dir : Z) (ph : proghdr) (m : machine) : Prop :=
  forall a, p_va ph <= a < p_va ph + p_memsz ph ->
    let e := entry m dir a in present e = true /\ e = pte_make (PPN e) (segment_perm ph) /\ ubyte m dir a = segment_byte g ph (a - p_va ph).

Lemma segment_user g ph la : segment_fits g ph -> p_va ph <= la < p_va ph + p_memsz ph -> user la /\ on_page la ph.
Proof.
  intros [(H1 & H2 & H3) _ _] Hla. unfold USERBASE, USTACKTOP, USERTOP, USTACKSIZE, USTACKPAGE, on_page in *. page_arith.
Qed.

Section Image.
  Context {D : Type} `{!BlockDev D, !BlockRead D, !BlockWrite D}.
  Context (st0 : fstate (kfs D)) (ps : list (Z * option Z)) (k : nat) (p i : Z) (f0 : file) (sin : sfs_inode) (g : afile) (kb phb : Z).
  Context (Hrd : readable f0 = true) (Hkb : kb <> 0).
  Context (K : Z -> Prop) (bs0 : list block) (m0 : machine) (dir : Z).
  Context (HK : forall q, K q -> kernel_page bs0 m0 dir q) (Hbuf : forall q, kb <= q < kb + IOBUF_SIZE -> K (kpage q)).
  Context (Hphb : KERNBASE <= phb /\ phb + SIZEOF_PROGHDR <= KERNTOP) (Hphk : forall q, phb <= q < phb + SIZEOF_PROGHDR -> K (kpage q)).
  Context (Hapart : disjoint kb IOBUF_SIZE phb SIZEOF_PROGHDR).
  Context (Hnp : npage m0 <= KMEMSIZE / PGSIZE) (Hprog : program g).
  Context (Hroom : 2 * pages_in (segments g 0) <= total bs0).

  (** The segments [l] are loaded. *)
Record image_in (l : list proghdr) bs m : Prop := {
    ii_space : space_ok bs m dir;
    ii_built : built K bs0 m0 bs m dir;
    ii_room : total bs0 - 2 * pages_in l <= total bs;
    ii_pages : forall la, user la -> present (entry m dir la) = true -> exists ph, ph ∈ l /\ on_page la ph;
    ii_segs : Forall (fun ph => segment_fits g ph /\ has_segment g dir ph m) l
  }.

Record areas_in (l : list proghdr) (mm : mm_struct) : Prop := {
    ai_ok : mm_ok mm;
    ai_dir : pgdir mm = dir;
    ai_list : mmap_list mm ≡ₚ segment_area <$> l
  }.

Lemma image_kernel l bs m q : image_in l bs m -> K q -> kernel_page bs m dir q.
  Proof. intros Hi Hq. eapply built_kernel; [apply (ii_built _ _ _ Hi)|]. by apply HK. Qed.

Lemma kept_segment bs m bs' m' ph : space_ok bs m dir -> built K bs m bs' m' dir -> (forall q, K q -> kernel_page bs m dir q) -> segment_fits g ph ->
    (forall la, user la -> on_page la ph -> entry m' dir la = entry m dir la) -> has_segment g dir ph m -> has_segment g dir ph m'.
  Proof.
    intros Hs Hb Hk Hf He Hh a Ha. destruct (Hh a Ha) as (H1 & H2 & H3). destruct (segment_user g ph a Hf Ha) as [Hu Ho]. cbn zeta.
    rewrite (He a Hu Ho). split; [done|]. split; [done|]. rewrite <- H3. apply (built_ubyte K bs m bs'); [done..|by apply He|].
    intros HKp. by apply (proj2 (Hk _ HKp) a Hu).
  Qed.

  (** Writing to the kernel's buffers changes none of it. *)
Lemma image_patch l bs m b : image_in l bs m -> patch K m b -> image_in l bs (kstore b m).
  Proof.
    intros Hi HP. pose proof (image_kernel l bs m) as Hk. specialize (fun q => Hk q Hi).
    assert (Hpl : forall q, K q -> plain_page bs m dir q) by (intros q Hq; apply (Hk q Hq)). destruct Hi as [Hs Hb Hr Hp Hl].
    pose proof (patch_entry bs m dir K b Hs HP Hpl) as He.
    assert (Hb' : built K bs m bs (kstore b m) dir) by (eapply patch_built; [apply built_refl|done|exact HP|]; intros q Hq; split; [by apply Hpl|by left]).
    split.
    - by apply (patch_space bs m dir K).
    - by eapply built_trans.
    - done.
    - intros la Hla. rewrite He by done. by apply Hp.
    - eapply Forall_impl; [exact Hl|]. intros ph [Hf Hh]. split; [done|]. by eapply kept_segment; [exact Hs|exact Hb'|..]; [done|done|intros; apply He|].
  Qed.

Let ready := at_file st0 ps k p i f0 sin g.

  (** A header is read into a local variable. *)
Lemma read_header_Ok l bs x buf n off : KERNBASE <= buf -> buf + n <= KERNTOP -> (forall q, buf <= q < buf + n -> K (kpage q)) -> disjoint kb IOBUF_SIZE buf n ->
    image_in l bs (xmach x) -> ready (xfiles x) -> 0 <= n -> 0 <= off -> off + n <= a_size g ->
    exists m' st, load_icode_read p i kb buf n off x = Ok (0, mk_x m' st) /\ image_in l bs m' /\ ready st /\
      mem_bytes (kbytes m') buf n = mem_bytes (a_byte g) off n.
  Proof.
    intros Hb1 Hb2 Hbk Hbd Hi Hst Hn Ho Hs.
    destruct (load_icode_read_Ok st0 ps k p i f0 sin g kb Hrd Hkb buf n off x Hst Ho Hn Hs Hb1 Hb2 Hbd) as (b & st & E & Hst' & Hby & Hin & Hout).
    exists (kstore b (xmach x)), st. split; [exact E|]. split; [|split; [done|]].
    - apply image_patch; [done|]. split; [done|]. intros q Hq. apply Hout; intros Hq'; [by apply Hq, Hbuf|by apply Hq, Hbk].
    - apply mem_bytes_ext. intros j Hj. rewrite kbytes_kstore by done. by apply Hin.
  Qed.

  (** Loading one more segment. *)
Lemma image_segment ph l bs x : image_in l bs (xmach x) -> ready (xfiles x) -> segment_fits g ph -> Forall (apart ph) l -> 2 * pages_in (ph :: l) <= total bs0 ->
    exists x' bs', load_segment p i kb dir ph x = Ok x' /\ ready (xfiles x') /\ image_in (ph :: l) bs' (xmach x').
  Proof.
    intros Hi Hst Hf Ha Hr. pose proof (fun q => image_kernel l bs (xmach x) q Hi) as Hk. pose proof Hi as [Hs Hb Hroom' Hp Hl]. pose proof Hf as [(F1 & F2 & F3) F4 F5].
    change (pages_in (ph :: l)) with (pages_of ph + pages_in l) in *.
    assert (Hnew : forall la qh, user la -> on_page la ph -> qh ∈ l -> on_page la qh -> False).
    { intros la qh _ H1 Hq H2. rewrite Forall_forall in Ha. specialize (Ha qh Hq). unfold on_page, apart in *. lia. }
    assert (Hld : loadable g ph bs (xmach x) dir).
    { split; [unfold USERBASE, USTACKTOP, USERTOP, USTACKSIZE, USTACKPAGE, KERNBASE, PGSIZE in *; lia|done|done| |unfold pages_of in *; lia].
      intros la Hla Hon. destruct (present (entry (xmach x) dir la)) eqn:E; [|done]. destruct (Hp la Hla E) as (qh & Hq & Hon'). by destruct (Hnew la qh). }
    destruct x as [m st]. cbn [xmach xfiles] in *.
    assert (Hnp' : npage m <= KMEMSIZE / PGSIZE) by (rewrite (proj1 (bu_rest _ _ _ _ _ _ Hb)); done).
    destruct (load_segment_Ok st0 ps k p i f0 sin g kb Hrd Hkb K bs m dir ph Hk Hbuf Hnp' Hld Hs st Hst) as (x' & E & (bs' & [B1 B2 B3 B4 B5 B6 B7]) & Hst').
    exists x', bs'. split; [done|]. split; [done|]. split.
    - done.
    - by eapply built_trans.
    - change (pages_in (ph :: l)) with (pages_of ph + pages_in l). unfold pages_of in *. lia.
    - intros la Hla Hpr. destruct (decide (p_va ph / PGSIZE <= la / PGSIZE < page_end (p_va ph + p_memsz ph))) as [Hin|Hin].
      + exists ph. split; [by left|done].
      + rewrite B3 in Hpr by done. destruct (Hp la Hla Hpr) as (qh & Hq & Hon). exists qh. split; [by right|done].
    - constructor.
      + split; [done|]. intros a Hin. destruct (segment_user g ph a Hf Hin) as [Hu Ho]. cbn zeta.
        destruct (built_present K bs m dir (p_va ph) (segment_perm ph) (segment_byte g ph) Hk _ _ bs' (xmach x') a (Build_built_to _ _ _ _ _ _ _ _ _ _ _ B1 B2 B3 B4 B5 B6 B7) Hu Ho)
          as (Hpr & _). split; [done|]. split; [|by apply B6]. destruct (B4 a Hu Ho) as (q & Eq & Hq & _). by rewrite Eq, Hq.
      + rewrite Forall_forall in Hl |- *. intros qh Hq. destruct (Hl qh Hq) as [Hfq Hhq]. split; [done|].
        eapply kept_segment; [exact Hs|exact B2|done|done| |done]. intros la Hla Hon. apply B3; [done|]. intros Hin. by destruct (Hnew la qh).
  Qed.

  (** The area of one more segment. *)
Lemma areas_map ph l mm : areas_in l mm -> Forall (segment_fits g) (ph :: l) -> Forall (apart ph) l -> Z.of_nat (length l) < 2147483646 ->
    exists mm', mm_map true mm (p_va ph) (p_memsz ph) (segment_flags ph) = Ok (0, Some (segment_area ph), mm') /\ areas_in (ph :: l) mm'.
  Proof.
    intros [A1 A2 A3] [Hf Hfs]%Forall_cons Ha Hn. destruct (segment_area_spec g ph Hf) as (_ & _ & Hu).
    destruct (mm_map_Ok mm (p_va ph) (p_memsz ph) (segment_flags ph) A1) as (mm' & E & Hok & Hp & Hd).
    - rewrite (Permutation_length A3), length_fmap. lia.
    - exact Hu.
    - intros w. rewrite A3. intros (qh & -> & Hq)%list_elem_of_fmap. rewrite Forall_forall in Ha, Hfs. apply (apart_areas g); [done|by apply Hfs|by apply Ha].
    - exists mm'. split; [exact E|]. split; [done|by rewrite Hd|]. rewrite Hp, A3. done.
  Qed.

Lemma phnum_small st : ready st -> Z.of_nat (phnum g) < 2147483646.
  Proof.
    intros [[c Hf] _ _]. pose proof (open_file_size _ _ _ _ _ _ _ _ Hf) as Hs. destruct Hprog as [_ [H1 H2] _ _]. unfold NBLOCKS, SIZEOF_PROGHDR in *. lia.
  Qed.

  (** One round. *)
Lemma load_header_Ok n bs mm x : (n < phnum g)%nat -> image_in (segments g (S n)) bs (xmach x) -> ready (xfiles x) -> areas_in (segments g (S n)) mm ->
    exists mm' x' bs', load_header p i kb phb true (u32 (e_phoff (elf_header g) + SIZEOF_PROGHDR * Z.of_nat n)) mm x = Ok (mm', x') /\
      image_in (segments g n) bs' (xmach x') /\ ready (xfiles x') /\ areas_in (segments g n) mm'.
  Proof.
    intros Hn Hi Hst Hm. pose proof (phnum_small _ Hst) as Hph. pose proof Hst as [[c Hf] _ _]. pose proof (open_file_size _ _ _ _ _ _ _ _ Hf) as Hsz.
    pose proof (pg_phs _ Hprog) as [P1 P2]. unfold NBLOCKS in Hsz. set (off := e_phoff (elf_header g) + SIZEOF_PROGHDR * Z.of_nat n).
    assert (Hoff : 0 <= off /\ off + SIZEOF_PROGHDR <= a_size g) by (unfold off, SIZEOF_PROGHDR in *; lia).
    rewrite u32_id by (unfold is_u32, two32, SIZEOF_PROGHDR in *; lia). unfold load_header.
    destruct (read_header_Ok _ bs x phb SIZEOF_PROGHDR off (proj1 Hphb) (proj2 Hphb) Hphk Hapart Hi Hst) as (m1 & st1 & -> & Hi1 & Hst1 & Hby); [done|lia..|]. cbn [rbind rassert Z.eqb]. cbn [xmach]. rewrite Hby.
    fold off (prog_header g n). change (bytes_proghdr _) with (prog_header g n). destruct (p_type (prog_header g n) =? ELF_PT_LOAD) eqn:El; cbn [negb].
    - destruct (segments_here g n Hprog Hn El) as (Es & Hfit & Hap). assert (Hall : Forall (segment_fits g) (segments g n)).
      { destruct (segments_drop g n ltac:(lia)) as [l Ed]. pose proof (pg_fits _ Hprog) as Hall. rewrite Ed in Hall. by apply Forall_app in Hall as [_ ?]. }
      destruct (areas_map (prog_header g n) _ mm Hm) as (mm' & -> & Hm'); [by rewrite <- Es|done|pose proof (segments_length g (S n)); lia|].
      cbn [rbind rassert Z.eqb]. rewrite (ai_dir _ _ Hm').
      destruct (image_segment (prog_header g n) _ bs (mk_x m1 st1) Hi1 Hst1 Hfit Hap) as (x' & bs' & -> & Hst' & Hi').
      { rewrite <- Es. destruct (segments_drop g n ltac:(lia)) as [l Ed]. pose proof (pg_fits _ Hprog) as Hall0. rewrite Ed in Hall0, Hroom.
        apply Forall_app in Hall0 as [Hl _]. pose proof (pages_nonneg g l Hl). rewrite pages_app in Hroom. lia. }
      cbn [rbind]. exists mm', x', bs'. rewrite Es. done.
    - assert (segments g n = segments g (S n)) as -> by (rewrite segments_step by done; unfold is_load; by rewrite El). by exists mm, (mk_x m1 st1), bs.
  Qed.

Lemma load_headers_Ok oks : (forall n, oks n = true) -> forall n bs mm x, (n <= phnum g)%nat ->
    image_in (segments g n) bs (xmach x) -> ready (xfiles x) -> areas_in (segments g n) mm ->
    exists mm' x' bs', load_headers n p i kb phb oks (elf_header g) mm x = Ok (mm', x') /\
      image_in (segments g 0) bs' (xmach x') /\ ready (xfiles x') /\ areas_in (segments g 0) mm'.
  Proof.
    intros Hoks. induction n as [|n IH]; intros bs mm x Hn Hi Hst Hm; [by exists mm, x, bs|]. cbn [load_headers]. rewrite Hoks.
    destruct (load_header_Ok n bs mm x ltac:(lia) Hi Hst Hm) as (mm1 & x1 & bs1 & -> & Hi1 & Hst1 & Hm1). cbn [rbind]. apply (IH bs1 mm1 x1); (done || lia).
  Qed.
End Image.
