(* ===== verification/ExecArgs.v ===== *)
(** * Loading a program: the arguments

    The kernel writes the strings of the arguments, the pointers to them and
    their number at the top of the new stack, through the user addresses. *)
From S2P Require Import Prelude DList Blocks Atomic Arith DefaultPmm CString PageTable Tlb Pmm Vmm IoBuf BlockDev Sfs Vfs File SysFile UserMem SysRead Exec ExecMem.

(** ** Writing user memory *)

(** A page that the address space maps. *)
Definition mapped (m : machine) (dir q : Z) : Prop := exists la, user la /\ present (entry m dir la) = true /\ PPN (entry m dir la) = q.

Definition writable_at (m : machine) (dir a : Z) : Prop :=
  user a /\ present (entry m dir a) = true /\ has_flag (entry m dir a) PTE_W = true.

(** The word that user memory shows at [a]. *)
Definition uword (m : machine) (dir a : Z) : Z := le_decode (mem_bytes (ubyte m dir) a 4).

Section View.
  Context (bs : list block) (me : machine) (dir : Z) (mm : mm_struct) (Hmm : pgdir mm = dir).

  (** Only the contents of mapped pages differ from [me]. *)
Record user_view (m : machine) : Prop := {
    uv_space : space_ok bs m dir;
    uv_entry : forall la, user la -> entry m dir la = entry me dir la;
    uv_kernel : forall q j, ~ mapped me dir q -> mem m q j = mem me q j;
    uv_rest : npage m = npage me /\ cur_pgdir m = cur_pgdir me
  }.

Lemma view_refl : space_ok bs me dir -> user_view me.
  Proof. by split. Qed.

Lemma view_kernel m a : user_view m -> ~ mapped me dir (kpage a) -> kbytes m a = kbytes me a.
  Proof.
    intros Hv Hn. replace a with (kva (kpage a) + (a - kva (kpage a))) by lia. apply kbytes_ext; [|intros j; by apply uv_kernel].
    unfold kpage, kva, PGSIZE. Z.to_euclidean_division_equations. lia.
  Qed.

Lemma user_write_Ok m a v : user_view m -> writable_at me dir a -> is_byte v ->
    exists m', user_write mm a v m = Ok (mm, m') /\ user_view m' /\
      forall r, user r -> present (entry me dir r) = true -> ubyte m' dir r = if r =? a then v else ubyte m dir r.
  Proof.
    intros Hv (Ha & Hp & Hw) Hb. pose proof Hv as [Hs He Hk Hr]. unfold user_write. rewrite Hmm, (He a Ha), Hp. cbn [rbind].
    rewrite Hmm, (He a Ha), Hp, Hw. cbn [negb orb]. set (q := PPN (entry me dir a)). set (b := wr _ v (kbytes m)).
    assert (Hmod : forall x, 0 <= x mod PGSIZE < PGSIZE) by (intros x; by apply Z.mod_pos_bound).
    assert (HP : patch (fun p => p = q) m b).
    { split; intros r; unfold b, wr; destruct (Z.eqb_spec r (kva q + a mod PGSIZE)) as [->|]; [done|apply kbytes_byte| |done].
      rewrite kpage_kva by done. tauto. }
    assert (Hpl : forall p, p = q -> plain_page bs m dir p) by (intros p ->; unfold q; rewrite <- He by done; apply mapped_plain; [done|done|by rewrite He]).
    pose proof (patch_entry bs m dir _ b Hs HP Hpl) as Hent. exists (kstore b m). split; [done|]. split.
    - split; [by eapply patch_space|intros la Hla; rewrite Hent by done; by apply He| |done]. intros p j Hn.
      rewrite (kstore_out _ m b _ _ HP); [by apply Hk|apply (wf_word _ _ _ (proj1 (sp_ready _ _ _ Hs)))|]. intros ->. apply Hn. by exists a.
    - intros r Hur Hpr. rewrite (patch_ubyte bs m dir _ b r Hs HP Hpl Hur). unfold ubyte, b, wr. destruct (Z.eqb_spec r a) as [->|Hne].
      + rewrite He by done. by rewrite Z.eqb_refl.
      + destruct (Z.eqb_spec (kva (PPN (entry m dir r)) + r mod PGSIZE) (kva q + a mod PGSIZE)) as [Heq|]; [|done]. exfalso. apply Hne.
        pose proof (Hmod r) as M1. pose proof (Hmod a) as M2.
        assert (PPN (entry m dir r) = q) as Hq by (apply (f_equal kpage) in Heq; by rewrite !kpage_kva in Heq).
        rewrite Hq in Heq. unfold q in Hq. rewrite <- He in Hq by done. apply (sp_inj _ _ _ Hs) in Hq; [|done|done|by rewrite He|by rewrite He].
        clear -Hq Heq. unfold PGSIZE in *. Z.to_euclidean_division_equations. lia.
  Qed.

Lemma user_write_all_Ok l : forall a m, user_view m -> (forall r, a <= r < a + Z.of_nat (length l) -> writable_at me dir r) -> Forall is_byte l ->
    exists m', user_write_all a l mm m = Ok (mm, m') /\ user_view m' /\
      forall r, user r -> present (entry me dir r) = true ->
        ubyte m' dir r = if (a <=? r) && (r <? a + Z.of_nat (length l)) then at_ l (r - a) else ubyte m dir r.
  Proof.
    induction l as [|v l IH]; intros a m Hv Hw Hb.
    - exists m. split; [done|]. split; [done|]. intros r _ _. cbn [length]. destruct (Z.leb_spec a r), (Z.ltb_spec r (a + Z.of_nat 0)); (lia || done).
    - apply Forall_cons in Hb as [Hb Hbs]. cbn [user_write_all length] in *. destruct (user_write_Ok m a v Hv) as (m1 & -> & Hv1 & H1); [apply Hw; lia|done|].
      cbn [rbind]. destruct (IH (a + 1) m1 Hv1) as (m2 & -> & Hv2 & H2); [intros r Hr; apply Hw; lia|done|]. exists m2. split; [done|]. split; [done|].
      intros r Hu Hp. rewrite H2, H1 by done.
      destruct (Z.leb_spec (a + 1) r), (Z.leb_spec a r), (Z.ltb_spec r (a + 1 + Z.of_nat (length l))), (Z.ltb_spec r (a + Z.of_nat (S (length l)))), (Z.eqb_spec r a);
        cbn [andb]; try (lia || done).
      + unfold at_. destruct (Z.leb_spec 0 (r - (a + 1))), (Z.leb_spec 0 (r - a)); try lia. replace (Z.to_nat (r - a)) with (S (Z.to_nat (r - (a + 1)))) by lia. done.
      + subst. by rewrite Z.sub_diag.
  Qed.

  (** A word is written: it is there, and the rest is as before. *)
Lemma user_write_word_Ok a v m : user_view m -> (forall r, a <= r < a + 4 -> writable_at me dir r) -> 0 <= v < two32 ->
    exists m', user_write_word a v mm m = Ok (mm, m') /\ user_view m' /\ uword m' dir a = v /\
      forall r, user r -> present (entry me dir r) = true -> ~ a <= r < a + 4 -> ubyte m' dir r = ubyte m dir r.
  Proof.
    intros Hv Hw Hr. destruct (user_write_all_Ok (le_encode 4 v) a m Hv) as (m' & E & Hv' & H).
    - intros r. rewrite length_le_encode. by apply Hw.
    - apply le_encode_byte.
    - rewrite length_le_encode in H. exists m'. split; [exact E|]. split; [done|]. split.
      + unfold uword. transitivity (le_decode (le_encode 4 v)); [|by apply le_decode_encode].
        f_equal. apply at_ext; [by rewrite length_mem_bytes, length_le_encode by lia|]. rewrite length_mem_bytes by lia. intros j Hj.
        rewrite at_mem_bytes by lia. destruct (Hw (a + j)) as (Hu & Hp & _); [lia|]. rewrite H by done.
        destruct (Z.leb_spec a (a + j)), (Z.ltb_spec (a + j) (a + Z.of_nat 4)); try lia. cbn [andb]. f_equal. lia.
      + intros r Hu Hp Hout. rewrite H by done. destruct (Z.leb_spec a r), (Z.ltb_spec r (a + Z.of_nat 4)); (lia || done).
  Qed.

Lemma uword_ext m m' a : (forall r, a <= r < a + 4 -> ubyte m' dir r = ubyte m dir r) -> uword m' dir a = uword m dir a.
  Proof.
    intros H. unfold uword, mem_bytes. f_equal. apply map_ext_in. intros j Hj%list_elem_of_In%elem_of_seqZ. apply H. lia.
  Qed.

  (** ** The strings *)

  (** An argument: a string of [n] characters in the kernel's memory. *)
Definition kernel_string (k n : Z) : Prop := cstr (kbytes me) k n /\ forall j, 0 <= j <= n -> ~ mapped me dir (kpage (k + j)).

Lemma copy_arg_Ok k n dst m : user_view m -> kernel_string k n -> (forall r, dst <= r <= dst + n -> writable_at me dir r) ->
    exists m', copy_arg k dst mm m = Ok (mm, m') /\ user_view m' /\ (forall j, 0 <= j <= n -> ubyte m' dir (dst + j) = kbytes me (k + j)) /\
      forall r, user r -> present (entry me dir r) = true -> ~ dst <= r <= dst + n -> ubyte m' dir r = ubyte m dir r.
  Proof.
    intros Hv [(Hn & Hnz & H0) Hk] Hw. unfold copy_arg.
    destruct (loop_rule (fun '(s, d, mm1, m1) => exists c, 0 <= c <= n /\ s = k + c /\ d = dst + c /\ mm1 = mm /\ user_view m1 /\
        forall r, user r -> present (entry me dir r) = true -> ubyte m1 dir r = if (dst <=? r) && (r <? dst + c) then kbytes me (k + (r - dst)) else ubyte m dir r)
      (fun '(s, _, _, _) => k + n - s)
      (fun '(mm1, m1) => mm1 = mm /\ user_view m1 /\
        forall r, user r -> present (entry me dir r) = true -> ubyte m1 dir r = if (dst <=? r) && (r <=? dst + n) then kbytes me (k + (r - dst)) else ubyte m dir r)
      (fun '(src, dst, mm, m) => let c := kbytes m src in let! (mm, m) := user_write mm dst c m in
         if negb (c =? 0) then Ok (inl (src + 1, dst + 1, mm, m)) else Ok (inr (mm, m))) (k, dst, mm, m)) as ([mm1 m1] & E & -> & Hv1 & H1).
    - intros [[[s d] mm1] m1] (c & Hc & -> & -> & -> & Hv1 & H1). split; [lia|]. cbn zeta. rewrite (view_kernel m1) by (done || apply Hk; lia).
      destruct (user_write_Ok m1 (dst + c) (kbytes me (k + c)) Hv1) as (m2 & -> & Hv2 & H2); [apply Hw; lia|apply kbytes_byte|]. cbn [rbind].
      assert (Hstep : forall r, user r -> present (entry me dir r) = true ->
        ubyte m2 dir r = if (dst <=? r) && (r <? dst + (c + 1)) then kbytes me (k + (r - dst)) else ubyte m dir r).
      { intros r Hu Hp. rewrite H2, H1 by done.
        destruct (Z.eqb_spec r (dst + c)), (Z.leb_spec dst r), (Z.ltb_spec r (dst + c)), (Z.ltb_spec r (dst + (c + 1))); cbn [andb]; try (lia || done). f_equal. lia. }
      destruct (Z.eqb_spec (kbytes me (k + c)) 0) as [Hz|Hz]; cbn [negb].
      + assert (c = n) as -> by (destruct (Z.eq_dec c n); [done|]; destruct (Hnz c); [lia|done]). split; [done|]. split; [done|].
        intros r Hu Hp. rewrite Hstep by done. destruct (Z.leb_spec dst r), (Z.ltb_spec r (dst + (n + 1))), (Z.leb_spec r (dst + n)); (lia || done).
      + assert (c <> n) by (intros ->; done). split; [|lia]. exists (c + 1). split; [lia|]. split; [lia|]. split; [lia|]. split_and!; done.
    - exists 0. split; [lia|]. split; [lia|]. split; [lia|]. split; [done|]. split; [done|]. intros r _ _.
      destruct (Z.leb_spec dst r), (Z.ltb_spec r (dst + 0)); (lia || done).
    - lia.
    - exists m1. split; [exact E|]. split; [done|]. split.
      + intros j Hj. destruct (Hw (dst + j)) as (Hu & Hp & _); [lia|]. rewrite H1 by done.
        destruct (Z.leb_spec dst (dst + j)), (Z.leb_spec (dst + j) (dst + n)); try lia. cbn [andb]. f_equal. lia.
      + intros r Hu Hp Hout. rewrite H1 by done. destruct (Z.leb_spec dst r), (Z.leb_spec r (dst + n)); (lia || done).
  Qed.

  (** The space of a string, in whole words; where the strings are. *)
Definition slot (n : Z) : Z := 4 * ((n + 4) / 4).
Fixpoint arg_addrs (ns : list Z) (esp : Z) : list Z :=
    match ns with
    | [] => []
    | n :: ns => (esp - slot n) :: arg_addrs ns (esp - slot n)
    end.
Definition slots_of (ns : list Z) : Z := foldr (fun n s => slot n + s) 0 ns.

Lemma slot_bounds n : 0 <= n -> n < slot n <= n + 4.
  Proof. intros Hn. unfold slot. Z.to_euclidean_division_equations. lia. Qed.

Lemma slots_nonneg ks ns : Forall2 kernel_string ks ns -> 0 <= slots_of ns.
  Proof.
    induction 1 as [|k n ks ns [[Hn _] _] _ IH]; [done|]. change (0 <= slot n + slots_of ns). pose proof (slot_bounds n ltac:(lia)). lia.
  Qed.

Lemma arg_addrs_range ks ns : Forall2 kernel_string ks ns -> forall esp j n a, ns !! j = Some n -> arg_addrs ns esp !! j = Some a ->
    esp - slots_of ns <= a /\ a + n < esp.
  Proof.
    induction 1 as [|k n ks ns [[Hn _] _] Hf IH]; intros esp j n' a; [done|]. change (slots_of (n :: ns)) with (slot n + slots_of ns).
    pose proof (slot_bounds n ltac:(lia)). pose proof (slots_nonneg ks ns Hf). destruct j as [|j]; cbn.
    - intros [= <-] [= <-]. lia.
    - intros H1 H2. pose proof (IH _ _ _ _ H1 H2). lia.
  Qed.

Lemma push_strings_Ok ks ns : Forall2 kernel_string ks ns -> forall esp m, user_view m -> 0 <= esp - slots_of ns -> esp <= USTACKTOP ->
    (forall r, esp - slots_of ns <= r < esp -> writable_at me dir r) ->
    exists m', push_strings ks esp mm m = Ok (arg_addrs ns esp, esp - slots_of ns, mm, m') /\ user_view m' /\
      (forall r, user r -> present (entry me dir r) = true -> ~ esp - slots_of ns <= r < esp -> ubyte m' dir r = ubyte m dir r) /\
      forall i k n a, ks !! i = Some k -> ns !! i = Some n -> arg_addrs ns esp !! i = Some a -> forall j, 0 <= j <= n -> ubyte m' dir (a + j) = kbytes me (k + j).
  Proof.
    induction 1 as [|k n ks ns Hk Hf IH]; intros esp m Hv H0 Htop Hw.
    - exists m. cbn. rewrite Z.sub_0_r. done.
    - change (slots_of (n :: ns)) with (slot n + slots_of ns) in *. pose proof Hk as [Hc Hno]. pose proof Hc as [Hn _]. pose proof (slot_bounds n ltac:(lia)) as Hsl.
      pose proof (slots_nonneg ks ns Hf) as Hnn. unfold USTACKTOP, USERTOP in *. cbn [push_strings].
      assert (Hc' : cstr (kbytes m) k n).
      { destruct Hc as (C1 & C2 & C3). split; [done|]. split; [intros i Hi; rewrite view_kernel by (done || apply Hno; lia); by apply C2|].
        rewrite view_kernel by (done || apply Hno; lia). done. }
      rewrite (strlen_spec _ _ _ Hc'). cbn [rbind]. replace (u32 (n + 1 + 3) / 4 * 4) with (slot n) by (rewrite u32_id by (unfold is_u32, two32; lia); unfold slot; replace (n + 1 + 3) with (n + 4) by lia; lia).
      rewrite u32_id by (unfold is_u32, two32; lia).
      destruct (copy_arg_Ok k n (esp - slot n) m Hv Hk) as (m1 & -> & Hv1 & Hs1 & Ho1); [intros r Hr; apply Hw; lia|]. cbn [rbind].
      destruct (IH (esp - slot n) m1 Hv1) as (m2 & -> & Hv2 & Ho2 & Hs2); [lia|lia|intros r Hr; apply Hw; lia|]. cbn [rbind].
      replace (esp - slot n - slots_of ns) with (esp - (slot n + slots_of ns)) in * by lia. exists m2. split; [done|]. split; [done|]. split.
      + intros r Hu Hp Hout. rewrite Ho2, Ho1 by (done || lia). done.
      + intros [|i] k' n' a; cbn.
        * intros [= <-] [= <-] [= <-] j Hj. rewrite Ho2; [by apply Hs1|apply Hw; lia..|lia].
        * intros H1 H2 H3. by apply (Hs2 i).
  Qed.

  (** ** The vector *)

Lemma push_pointers_Ok us : forall a m, user_view m -> (forall r, a <= r < a + 4 * Z.of_nat (length us) -> writable_at me dir r) ->
    Forall (fun v => 0 <= v < two32) us ->
    exists m', push_pointers us a mm m = Ok (mm, m') /\ user_view m' /\
      (forall r, user r -> present (entry me dir r) = true -> ~ a <= r < a + 4 * Z.of_nat (length us) -> ubyte m' dir r = ubyte m dir r) /\
      forall i v, us !! i = Some v -> uword m' dir (a + 4 * Z.of_nat i) = v.
  Proof.
    induction us as [|v us IH]; intros a m Hv Hw Hr; [by exists m|]. apply Forall_cons in Hr as [Hr Hrs]. cbn [push_pointers length] in *.
    destruct (user_write_word_Ok a v m Hv) as (m1 & -> & Hv1 & H1 & Ho1); [intros r Hi; apply Hw; lia|done|]. cbn [rbind].
    destruct (IH (a + 4) m1 Hv1) as (m2 & -> & Hv2 & Ho2 & H2); [intros r Hi; apply Hw; lia|done|]. exists m2. split; [done|]. split; [done|]. split.
    - intros r Hu Hp Hout. rewrite Ho2, Ho1 by (done || lia). done.
    - intros [|i] v'; cbn [lookup list_lookup].
      + intros [= <-]. rewrite Z.add_0_r. rewrite (uword_ext m1); [done|]. intros r Hi. destruct (Hw r) as (Hu & Hp & _); [lia|]. apply Ho2; (done || lia).
      + intros Hi. replace (a + 4 * Z.of_nat (S i)) with (a + 4 + 4 * Z.of_nat i) by lia. by apply H2.
  Qed.

  (** What a program finds at its stack pointer: the number of arguments, then
      the addresses of their strings. *)
Record args_at (kargv : list Z) (m : machine) (sp : Z) : Prop := {
    aa_argc : uword m dir sp = Z.of_nat (length kargv);
    aa_argv : exists us, length us = length kargv /\
      forall i k u, kargv !! i = Some k -> us !! i = Some u -> uword m dir (sp + 4 + 4 * Z.of_nat i) = u /\
        (sp + 4 + 4 * Z.of_nat (length kargv) <= u < USTACKTOP) /\
        forall n, cstr (kbytes me) k n -> forall j, 0 <= j <= n -> ubyte m dir (u + j) = kbytes me (k + j)
  }.

Lemma arg_addrs_length ns : forall esp, length (arg_addrs ns esp) = length ns.
  Proof. induction ns as [|n ns IH]; intros esp; [done|]. cbn. by rewrite IH. Qed.

Lemma push_args_Ok ks ns m : Forall2 kernel_string ks ns -> user_view m -> let sp := USTACKTOP - slots_of ns - 4 * Z.of_nat (length ks) - 4 in
    0 <= sp -> (forall r, sp <= r < USTACKTOP -> writable_at me dir r) ->
    exists m', push_args ks mm m = Ok (sp, mm, m') /\ user_view m' /\ args_at ks m' sp /\
      forall r, user r -> present (entry me dir r) = true -> r < sp -> ubyte m' dir r = ubyte m dir r.
  Proof.
    intros Hks Hv sp Hsp Hw. pose proof (slots_nonneg ks ns Hks) as Hnn. pose proof (Forall2_length _ _ _ Hks) as Hlen. unfold push_args.
    set (top := USTACKTOP) in *. assert (top < two32) as Htop by done. set (argc := Z.of_nat (length ks)) in *. assert (0 <= argc) by lia.
    destruct (push_strings_Ok ks ns Hks top m Hv) as (m1 & -> & Hv1 & Ho1 & Hs1); [lia|done|intros r Hr; apply Hw; lia|]. cbn [rbind].
    rewrite (u32_id (top - slots_of ns - 4 * argc)) by (unfold is_u32; lia).
    assert (Hlu : length (arg_addrs ns top) = length ks) by by rewrite arg_addrs_length.
    destruct (push_pointers_Ok (arg_addrs ns top) (top - slots_of ns - 4 * argc) m1 Hv1) as (m2 & -> & Hv2 & Ho2 & Hp2).
    { intros r Hr. apply Hw. rewrite Hlu in Hr. lia. }
    { apply Forall_lookup. intros i u Hu. assert (Hi : (i < length ns)%nat) by (apply lookup_lt_Some in Hu; by rewrite arg_addrs_length in Hu).
      apply lookup_lt_is_Some_2 in Hi as [n Hn]. pose proof (arg_addrs_range ks ns Hks top i n u Hn Hu) as Hb.
      destruct (Forall2_lookup_r _ _ _ _ _ Hks Hn) as (k & _ & [[Hn0 _] _]). lia. }
    cbn [rbind]. rewrite (u32_id (top - slots_of ns - 4 * argc - 4)) by (unfold is_u32; lia). fold sp.
    destruct (user_write_word_Ok sp argc m2 Hv2) as (m3 & -> & Hv3 & H3 & Ho3); [intros r Hr; apply Hw; lia|lia|]. cbn [rbind]. rewrite Hlu in Ho2.
    fold argc in Ho2. exists m3. split; [done|]. split; [done|]. split.
    - split; [done|]. exists (arg_addrs ns top). split; [done|]. intros i k u Hk Hu. destruct (Forall2_lookup_l _ _ _ _ _ Hks Hk) as (n & Hn & Hkn).
      destruct (arg_addrs_range ks ns Hks top i n u Hn Hu) as [Hu1 Hu2]. pose proof Hkn as [Hc _]. pose proof Hc as [Hn0 _]. pose proof (lookup_lt_Some _ _ _ Hk) as Hi. split; [|split].
      + rewrite (uword_ext m2).
        * replace (sp + 4 + 4 * Z.of_nat i) with (top - slots_of ns - 4 * argc + 4 * Z.of_nat i) by (unfold sp; lia). by apply Hp2.
        * intros r Hr. destruct (Hw r) as (Hur & Hpr & _); [unfold argc in *; lia|]. apply Ho3; (done || lia).
      + unfold sp, top in *. fold argc. lia.
      + intros n' Hc' j Hj. assert (n' = n) as -> by (apply (str_unique (kbytes me) k); [destruct Hc' as ([? _] & ? & ?)|destruct Hc as ([? _] & ? & ?)]; by split).
        destruct (Hw (u + j)) as (Hur & Hpr & _); [lia|]. rewrite Ho3, Ho2 by (done || lia). by apply (Hs1 i k n u).
    - intros r Hur Hpr Hr. rewrite Ho3, Ho2, Ho1 by (done || lia). done.
  Qed.
End View.
