(* ===== verification/ExecRun.v ===== *)
(** * Loading a program: the whole

    [load_icode] from an ELF file to a new address space that is ready to run. *)
From S2P Require Import Prelude DList Arith CString IoBuf BlockDev Sfs SfsDisk SfsBmap SfsLoad SfsFile SfsSpec SfsTree Vfs File Dev VfsInv DevSpec FileInv FileStep FileProc FileSafe SfsOps SfsInv SfsLaws SfsMount SfsSafe SysFile UserMem SysRead Blocks Atomic DefaultPmm PageTable Tlb Pmm Swap Vmm Exec ExecMem ExecLoad ExecImage ExecArgs.

(** ** The new page directory *)

(** The kernel's own directory maps no user page. *)
Definition kernel_dir (bs : list block) (m : machine) (dir : Z) : Prop :=
  space_ok bs m dir /\ forall la, user la -> pt_of m dir la = None.

Lemma VPT_high la : user la -> PDX la <> PDX VPT.
Proof.
  intros Hla. change (PDX VPT) with 1003. unfold PDX, PDXSHIFT. rewrite Z.shiftr_div_pow2 by lia.
  unfold user, KERNBASE in Hla. change (Z.land (la / 2 ^ 22) 1023) with (Z.land (la / 2 ^ 22) (Z.ones 10)). rewrite Z.land_ones by lia. Z.to_euclidean_division_equations. lia.
Qed.

Lemma mm_create_Ok m : (swap_init_ok m = true -> is_Some (pra m !! pra_list_head)) ->
  exists mm s, mm_create true m = Ok (Some mm, set_pra s m) /\ mmap_list mm = [] /\ mmap_cache mm = None /\ map_count mm = 0 /\ mm_count mm = 0.
Proof.
  intros Hp. unfold mm_create. destruct (swap_init_ok m) eqn:E.
  - destruct (law_init_mm (pra m) (Hp eq_refl)) as (h & s' & Ei & _). unfold swap_init_mm. rewrite Ei. cbn [rbind]. by eexists _, s'.
  - cbn [rbind]. exists (mk_mm [] None 0 0 None 0), (pra m). by destruct m.
Qed.

(** [setup_pgdir]: an address space without user mappings. *)
Lemma setup_pgdir_Ok bs m boot mm : kernel_dir bs m boot -> 0 < total bs -> (forall d, cur_pgdir m = Some d -> ~ covers bs d) ->
  exists dir m' bs', setup_pgdir boot mm m = Ok (0, mk_mm (mmap_list mm) (mmap_cache mm) dir (map_count mm) (sm_priv mm) (mm_count mm), m') /\
    space_ok bs' m' dir /\ (forall la, user la -> pt_of m' dir la = None) /\ covers bs dir /\ (forall i, covers bs' i -> covers bs i) /\
    total bs = total bs' + 1 /\ npage m' = npage m /\ cur_pgdir m' = cur_pgdir m /\ the_tlb m' = the_tlb m /\ (forall q j, q <> dir -> mem m' q j = mem m q j) /\
    (forall i, ~ covers bs i -> pages (pm m') !! i = pages (pm m) !! i).
Proof.
  intros [Hs Hno] Ht Hcur. pose proof (inv_canon _ _ _ (wf_pmm _ _ _ (proj1 (sp_ready _ _ _ Hs)))) as Hcan.
  destruct (carve_one _ _ Hcan Ht) as (p & bs1 & Hc). destruct (carve_Some (-1) 1 bs p bs1) as (_ & Htot & Hcov & _); [done..|].
  destruct (alloc_page_space bs m boot p bs1 Hs Hc) as (m1 & pg & E & Hs1 & Hdp & _ & _ & _ & _ & _ & Hnp1 & Hcur1 & Hmem1 & Htlb1 & Hpgs1).
  assert (Hcp : covers bs p) by (apply Hcov; right; lia). destruct Hdp as [Hr Hu Hd _ _]. pose proof Hs1 as [[[W1 W2 W3 W4 W5 W6] _] _ _].
  assert (Hpp : PPN (page2pa p) = p) by (rewrite page2pa_mul, PPN_div by lia; by apply Z.div_mul).
  set (v := Z.lor (Z.lor (p * PGSIZE) PTE_P) PTE_W).
  assert (Hv : is_u32 v).
  { unfold v. rewrite <- Z.lor_assoc. change PGSIZE with 4096. change (Z.lor PTE_P PTE_W) with 3. rewrite <- (page2pa_mul p), lor_low_bits by lia. unfold is_u32, two32. lia. }
  set (m2 := store_pte (p, PDX VPT) v (set_mem (copy_page p boot (mem m1)) m1)).
  assert (Hpt2 : forall la, user la -> pt_of m2 p la = None).
  { intros la Hla. specialize (Hno la Hla). unfold pt_of in *. unfold m2. cbn [mem store_pte set_mem fst snd].
    rewrite write_mem_ne by (right; by apply VPT_high). unfold copy_page. rewrite Z.eqb_refl, Hmem1. done. }
  assert (Hent2 : forall la, user la -> entry m2 p la = 0) by (intros la Hla; apply entry_no_table; by apply Hpt2).
  exists p, m2, bs1. split_and!; try done.
  - unfold setup_pgdir. rewrite E. cbn [rbind]. unfold page2kva. rewrite KADDR_Ok by by rewrite Hpp. rewrite Hpp. done.
  - split; [split; [split|]|..]; try done.
    + intros la f Hla. rewrite Hpt2 by done. done.
    + intros la la' f Hla _. rewrite Hpt2 by done. done.
    + intros q j. unfold m2. cbn [mem store_pte set_mem fst snd]. unfold write_mem. destruct ((q =? p) && _); [done|]. unfold copy_page. destruct (q =? p); apply W6.
    + intros Hc'. change (cur_pgdir m1 = Some p) in Hc'. rewrite Hcur1 in Hc'. by destruct (Hcur p Hc').
    + intros la Hla. rewrite Hent2 by done. done.
    + intros la la' Hla _. rewrite Hent2 by done. done.
  - intros i Hi. apply Hcov. by left.
  - intros q j Hq. unfold m2. cbn [mem store_pte set_mem fst snd]. rewrite write_mem_ne by (by left). unfold copy_page.
    destruct (Z.eqb_spec q p); [done|]. by rewrite Hmem1.
Qed.

(** ** The stack *)

Section Stack.
  Context (K : Z -> Prop) (bs0 : list block) (m0 : machine) (dir : Z) (g : afile).
  Context (HK : forall q, K q -> kernel_page bs0 m0 dir q) (Hfits : Forall (segment_fits g) (segments g 0)).

  (** The segments and the last [n] pages below [USTACKTOP]. *)
Record stack_in (n : Z) bs m : Prop := {
    si_space : space_ok bs m dir;
    si_built : built K bs0 m0 bs m dir;
    si_room : total bs0 - 2 * pages_in (segments g 0) - 2 * n <= total bs;
    si_stack : forall la, user la -> USTACKTOP - n * PGSIZE <= la -> writable_at m dir la;
    si_pages : forall la, user la -> present (entry m dir la) = true -> la < USTACKTOP - USTACKSIZE \/ USTACKTOP - n * PGSIZE <= la;
    si_segs : Forall (fun ph => segment_fits g ph /\ has_segment g dir ph m) (segments g 0)
  }.

Lemma stack_start bs m : image_in g K bs0 m0 dir (segments g 0) bs m -> stack_in 0 bs m.
  Proof.
    intros [Hs Hb Hr Hp Hl]. split; try done; try lia.
    - intros la Hla Hle. unfold user, USTACKTOP, USERTOP, KERNBASE in *. lia.
    - intros la Hla Hpr. left. destruct (Hp la Hla Hpr) as (ph & Hph & Hon). rewrite Forall_forall in Hfits. destruct (Hfits ph Hph) as [(F1 & F2 & F3) _ _].
      unfold on_page, USTACKTOP, USERTOP, USTACKSIZE, USTACKPAGE in *. page_arith.
  Qed.

Lemma pte_user_W p : has_flag (pte_make p PTE_USER) PTE_W = true.
  Proof.
    unfold has_flag, pte_make. rewrite Z.land_lor_distr_l. apply negb_true_iff, Z.eqb_neq. change (Z.land PTE_USER PTE_W) with 2.
    intros H. by apply Z.lor_eq_0_iff in H as [_ ?].
  Qed.

Lemma stack_page {F} n bs (x : xsys F) : stack_in n bs (xmach x) -> 0 <= n < 4 -> 2 * pages_in (segments g 0) + 2 * n + 2 <= total bs0 ->
    exists q x' bs', map_page dir (USTACKTOP - (n + 1) * PGSIZE) PTE_USER x = Ok (q, x') /\ stack_in (n + 1) bs' (xmach x') /\ xfiles x' = xfiles x.
  Proof.
    intros [Hs Hb Hr Hst Hp Hl] Hn Ht. set (la := USTACKTOP - (n + 1) * PGSIZE).
    assert (Htop : USTACKTOP = 524288 * PGSIZE /\ USTACKSIZE = 256 * PGSIZE) by done. destruct Htop as [Htop Hsz].
    assert (Hla : user la) by (unfold user, la; rewrite Htop; unfold KERNBASE, PGSIZE; lia).
    assert (Hnew : present (entry (xmach x) dir la) = false).
    { destruct (present (entry (xmach x) dir la)) eqn:E; [|done]. destruct (Hp la Hla E) as [H|H]; unfold la in H; rewrite ?Hsz in H; unfold PGSIZE in *; lia. }
    destruct (alloc_page_at bs (xmach x) dir la PTE_USER Hs Hla Hnew) as (p & m' & bs' & E & Hs' & He & Hpp & HB & Ht' & Hc); [done|lia|].
    assert (Hpage : forall la', user la' -> la / 4096 = la' / 4096 <-> la <= la' < la + PGSIZE).
    { intros la' _. unfold la. rewrite Htop. unfold PGSIZE. clear. Z.to_euclidean_division_equations. lia. }
    assert (Hold : forall la', user la' -> ~ la <= la' < la + PGSIZE -> entry m' dir la' = entry (xmach x) dir la').
    { intros la' Hl' Hout. rewrite He by done. apply upd_ent_ne. by rewrite Hpage. }
    exists p, (mk_x m' (xfiles x)), bs'. split; [unfold map_page; rewrite E; done|]. split; [|done]. split; cbn [xmach].
    - done.
    - by eapply built_trans.
    - lia.
    - intros la' Hl' Hle. destruct (Z.lt_ge_cases la' (la + PGSIZE)) as [Hin|Hin].
      + assert (entry m' dir la' = pte_make p PTE_USER) as He' by (rewrite He by done; apply upd_ent_eq; apply Hpage; [done|unfold la; lia]).
        split; [done|]. rewrite He'. split; [apply pte_make_present|apply pte_user_W].
      + unfold writable_at. rewrite Hold by (done || lia). apply Hst; [done|]. unfold la in Hin. lia.
    - intros la' Hl' Hpr. destruct (decide (la <= la' < la + PGSIZE)) as [Hin|Hout]; [right; unfold la in Hin; lia|].
      rewrite Hold in Hpr by done. destruct (Hp la' Hl' Hpr) as [?|?]; [by left|right]. unfold PGSIZE in *. lia.
    - rewrite Forall_forall in Hl |- *. intros ph Hph. destruct (Hl ph Hph) as [Hf Hh]. split; [done|].
      apply (kept_segment g K dir bs (xmach x) bs' m' ph Hs (HB K)); [|done| |done].
      + intros q Hq. eapply built_kernel; [done|]. by apply HK.
      + intros la' Hl' Hon. apply Hold; [done|]. destruct Hf as [(F1 & F2 & F3) _ _]. unfold on_page, la in *. rewrite Htop, Hsz in *. page_arith.
  Qed.
End Stack.

(** ** Running *)

(** The new directory is loaded. *)
Lemma load_pgdir_space bs m dir : space_ok bs m dir -> (forall la, user la -> has_tlb (entry m dir la) = false) ->
  length (slots (the_tlb m)) = 16%nat -> length (tlb_algo_hi (the_tlb m)) = 16%nat -> 0 <= tlb_algo_ptr (the_tlb m) < 16 ->
  exists m', load_pgdir dir m = Ok m' /\ space_ok bs m' dir /\ cur_pgdir m' = Some dir /\ npage m' = npage m /\ mem m' = mem m /\
    (forall la, user la -> entry m' dir la = entry m dir la).
Proof.
  intros Hs Hno H1 H2 H3. destruct (load_pgdir_coh bs m dir (proj1 (sp_ready _ _ _ Hs)) Hno H1 H2 H3) as (m' & E & [T1 T2 T3] & He & Hpm & Hnp & Hm).
  exists m'. split; [done|]. split; [|split_and!; try done; intros; by rewrite He].
  apply (space_frame bs bs m); [done|split; [done|eauto]|done|intros; by rewrite He|done| |by rewrite Hpm].
  intros la f _ Hf. left. unfold pt_of in *. by rewrite Hm in Hf.
Qed.

(** The pages that the kernel reads into: its buffer and the two headers. *)
Definition buffer_page (kb hb phb q : Z) : Prop :=
  exists a, kpage a = q /\ (kb <= a < kb + IOBUF_SIZE \/ hb <= a < hb + SIZEOF_ELFHDR \/ phb <= a < phb + SIZEOF_PROGHDR).

Definition in_kernel (a n : Z) : Prop := KERNBASE <= a /\ a + n <= KERNTOP.

(** An argument in the kernel's memory, apart from those pages. *)
Definition kernel_arg (bs : list block) (m : machine) (kb hb phb k n : Z) : Prop :=
  cstr (kbytes m) k n /\ forall j, 0 <= j <= n -> let q := kpage (k + j) in 0 <= q < npage m /\ ~ covers bs q /\ ~ buffer_page kb hb phb q.

(** What [load_icode] is called with: the program file [g] is open for
    reading, the kernel's page directory is loaded, and there is memory. *)
Record exec_ready {D : Type} `{!BlockDev D, !BlockRead D, !BlockWrite D} (x : xsys (kfs D)) (bs : list block) (boot : Z) (ps : list (Z * option Z))
    (k : nat) (p i : Z) (f : file) (sin : sfs_inode) (g : afile) (kb hb phb : Z) (kargv ns : list Z) : Prop := {
  er_file : open_file (xfiles x) ps k p i f sin g;
  er_read : readable f = true;
  er_prog : program g;
  er_dir : kernel_dir bs (xmach x) boot;
  er_cur : cur_pgdir (xmach x) = Some boot;
  er_swap : swap_init_ok (xmach x) = true -> is_Some (pra (xmach x) !! pra_list_head);
  er_np : npage (xmach x) <= KMEMSIZE / PGSIZE;
  er_buffers : in_kernel kb IOBUF_SIZE /\ in_kernel hb SIZEOF_ELFHDR /\ in_kernel phb SIZEOF_PROGHDR;
  er_apart : disjoint kb IOBUF_SIZE hb SIZEOF_ELFHDR /\ disjoint kb IOBUF_SIZE phb SIZEOF_PROGHDR;
  er_pages : forall q, buffer_page kb hb phb q -> 0 <= q < npage (xmach x) /\ ~ covers bs q;
  er_args : Forall2 (kernel_arg bs (xmach x) kb hb phb) kargv ns;
  er_fit : slots_of ns + 4 * Z.of_nat (length kargv) + 4 <= 4 * PGSIZE;
  er_room : 2 * pages_in (segments g 0) + 9 <= total bs
}.

#[global] Arguments er_file {D _ _ _ x bs boot ps k p i f sin g kb hb phb kargv ns}.
#[global] Arguments er_read {D _ _ _ x bs boot ps k p i f sin g kb hb phb kargv ns}.
#[global] Arguments er_prog {D _ _ _ x bs boot ps k p i f sin g kb hb phb kargv ns}.
#[global] Arguments er_dir {D _ _ _ x bs boot ps k p i f sin g kb hb phb kargv ns}.
#[global] Arguments er_cur {D _ _ _ x bs boot ps k p i f sin g kb hb phb kargv ns}.
#[global] Arguments er_swap {D _ _ _ x bs boot ps k p i f sin g kb hb phb kargv ns}.
#[global] Arguments er_np {D _ _ _ x bs boot ps k p i f sin g kb hb phb kargv ns}.
#[global] Arguments er_buffers {D _ _ _ x bs boot ps k p i f sin g kb hb phb kargv ns}.
#[global] Arguments er_apart {D _ _ _ x bs boot ps k p i f sin g kb hb phb kargv ns}.
#[global] Arguments er_pages {D _ _ _ x bs boot ps k p i f sin g kb hb phb kargv ns}.
#[global] Arguments er_args {D _ _ _ x bs boot ps k p i f sin g kb hb phb kargv ns}.
#[global] Arguments er_fit {D _ _ _ x bs boot ps k p i f sin g kb hb phb kargv ns}.
#[global] Arguments er_room {D _ _ _ x bs boot ps k p i f sin g kb hb phb kargv ns}.

Definition stack_area : vma_struct := mk_vma (USTACKTOP - USTACKSIZE) USTACKTOP (Z.lor (Z.lor VM_READ VM_WRITE) VM_STACK).

(** The new program, ready to run: its segments, its areas, its registers and
    what it finds on its stack. *)
Record program_loaded {F} (x : xsys F) (bs : list block) (g : afile) (kargv : list Z) (kb hb phb : Z)
    (mm : mm_struct) (tf : trapframe) (x' : xsys F) : Prop := {
  pl_space : exists bs', space_ok bs' (xmach x') (pgdir mm);
  pl_cur : cur_pgdir (xmach x') = Some (pgdir mm);
  pl_segs : Forall (fun ph => has_segment g (pgdir mm) ph (xmach x')) (segments g 0);
  pl_mm : mm_ok mm /\ mmap_list mm ≡ₚ stack_area :: (segment_area <$> segments g 0);
  pl_regs : tf = mk_tf (Z.of_nat (length kargv)) (tf_sp tf + 4) (tf_sp tf) (e_entry (elf_header g)) 0x13;
  pl_args : args_at (xmach x) (pgdir mm) kargv (xmach x') (tf_sp tf);
  pl_kept : forall q j, 0 <= q < npage (xmach x) -> ~ covers bs q -> ~ buffer_page kb hb phb q -> mem (xmach x') q j = mem (xmach x) q j
}.

Lemma alloc_stack_Ok {F} K bs0 m0 dir g bs (x : xsys F) : (forall q, K q -> kernel_page bs0 m0 dir q) -> Forall (segment_fits g) (segments g 0) ->
  image_in g K bs0 m0 dir (segments g 0) bs (xmach x) -> 2 * pages_in (segments g 0) + 8 <= total bs0 ->
  exists x' bs', alloc_stack dir x = Ok x' /\ stack_in K bs0 m0 dir g 4 bs' (xmach x') /\ xfiles x' = xfiles x.
Proof.
  intros HK Hf Hi Ht. pose proof (stack_start K bs0 m0 dir g Hf bs (xmach x) Hi) as H0. unfold alloc_stack.
  destruct (stack_page K bs0 m0 dir g HK 0 bs x H0) as (q1 & x1 & bs1 & E1 & H1 & F1); [lia|lia|].
  change (USTACKTOP - (0 + 1) * PGSIZE) with (USTACKTOP - PGSIZE) in E1. rewrite E1. cbn [rbind].
  destruct (stack_page K bs0 m0 dir g HK 1 bs1 x1 H1) as (q2 & x2 & bs2 & E2 & H2 & F2); [lia|lia|].
  change (1 + 1) with 2 in *. rewrite E2. cbn [rbind].
  destruct (stack_page K bs0 m0 dir g HK 2 bs2 x2 H2) as (q3 & x3 & bs3 & E3 & H3 & F3); [lia|lia|].
  change (2 + 1) with 3 in *. rewrite E3. cbn [rbind].
  destruct (stack_page K bs0 m0 dir g HK 3 bs3 x3 H3) as (q4 & x4 & bs4 & E4 & H4 & F4); [lia|lia|].
  change (3 + 1) with 4 in *. rewrite E4. cbn [rbind]. exists x4, bs4. split; [done|]. split; [done|congruence].
Qed.

(** The area of the stack. *)
Lemma stack_area_Ok dir g mm : program g -> areas_in dir (segments g 0) mm -> Z.of_nat (phnum g) < 2147483646 ->
  exists mm', mm_map true mm (USTACKTOP - USTACKSIZE) USTACKSIZE (Z.lor (Z.lor VM_READ VM_WRITE) VM_STACK) = Ok (0, Some stack_area, mm') /\
    mm_ok mm' /\ mmap_list mm' ≡ₚ stack_area :: (segment_area <$> segments g 0) /\ pgdir mm' = dir.
Proof.
  intros Hp [A1 A2 A3] Hn. pose proof (segments_length g 0) as Hl.
  destruct (mm_map_Ok mm (USTACKTOP - USTACKSIZE) USTACKSIZE (Z.lor (Z.lor VM_READ VM_WRITE) VM_STACK) A1) as (mm' & E & Hok & Hpm & Hd).
  - rewrite (Permutation_length A3), length_fmap. lia.
  - reflexivity.
  - intros w. rewrite A3. intros (ph & -> & Hph)%list_elem_of_fmap. pose proof (pg_fits _ Hp) as Hf. rewrite Forall_forall in Hf.
    specialize (Hf ph Hph). destruct (segment_area_spec g ph Hf) as (_ & E2 & _). left. rewrite E2. cbn [vm_start].
    change (ROUNDDOWN (USTACKTOP - USTACKSIZE) PGSIZE) with (USTACKTOP - USTACKSIZE).
    destruct Hf as [(F1 & F2 & F3) _ _]. unfold USTACKTOP, USERTOP, USTACKSIZE, USTACKPAGE in *. page_arith.
  - exists mm'. split; [exact E|]. split; [done|]. split; [by rewrite Hpm, A3|by rewrite Hd].
Qed.

(** The arguments on the new stack. *)
Lemma push_args_loaded dir g bs m mm kargv ns : space_ok bs m dir -> (forall la, user la -> USTACKTOP - 4 * PGSIZE <= la -> writable_at m dir la) ->
  Forall (fun ph => segment_fits g ph /\ has_segment g dir ph m) (segments g 0) -> pgdir mm = dir ->
  Forall2 (kernel_string m dir) kargv ns -> slots_of ns + 4 * Z.of_nat (length kargv) + 4 <= 4 * PGSIZE ->
  exists m' sp, push_args kargv mm m = Ok (sp, mm, m') /\ user_view bs m dir m' /\ args_at m dir kargv m' sp /\ 0 <= sp /\ sp + 4 < two32 /\
    Forall (fun ph => has_segment g dir ph m') (segments g 0).
Proof.
  intros S1 S4 S6 Hmm Hargs Hfit. set (sp := USTACKTOP - slots_of ns - 4 * Z.of_nat (length kargv) - 4).
  pose proof (slots_nonneg m dir kargv ns Hargs) as Hnn.
  assert (Hsp : USTACKTOP - 4 * PGSIZE <= sp < USTACKTOP) by (unfold sp; lia).
  assert (Htop : 4 * PGSIZE < USTACKTOP /\ USTACKTOP + 4 < two32 /\ USTACKTOP <= KERNBASE /\ 4 * PGSIZE <= USTACKSIZE) by done.
  destruct (push_args_Ok bs m dir mm Hmm kargv ns m Hargs (view_refl bs m dir S1)) as (m' & E & Hv & Ha & Ho); [fold sp; lia|fold sp|].
  { intros r Hr. apply S4; [unfold user; lia|lia]. }
  fold sp in E, Ha, Ho. exists m', sp. split; [done|]. split; [done|]. split; [done|]. split; [lia|]. split; [lia|].
  rewrite Forall_forall in S6 |- *. intros ph Hph. destruct (S6 ph Hph) as [Hf Hh]. intros a Hin. destruct (Hh a Hin) as (H1 & H2 & H3).
  destruct (segment_user g ph a Hf Hin) as [Hu _]. cbn zeta. rewrite (uv_entry _ _ _ _ Hv a Hu). split; [done|]. split; [done|].
  rewrite <- H3. apply Ho; [done|done|]. destruct Hf as [(F1 & F2 & F3) _ _]. lia.
Qed.

(** ** The whole *)

Section LoadIcode.
  Context {D : Type} `{!BlockDev D, !BlockRead D, !BlockWrite D}.
  Context (x : xsys (kfs D)) (bs : list block) (boot : Z) (ps : list (Z * option Z)) (k : nat) (p i : Z) (f : file) (sin : sfs_inode) (g : afile).
  Context (kb hb phb : Z) (kargv ns : list Z) (Hr : exec_ready x bs boot ps k p i f sin g kb hb phb kargv ns).

Let K := buffer_page kb hb phb.

  (** An empty address space with directory [dir], after [setup_pgdir]. *)
Record started (mm : mm_struct) (dir : Z) (m1 : machine) (bs1 : list block) : Prop := {
    sd_mm : areas_in dir [] mm;
    sd_image : image_in g K bs1 m1 dir [] bs1 m1;
    sd_kernel : forall q, K q -> kernel_page bs1 m1 dir q;
    sd_empty : forall la, user la -> entry m1 dir la = 0;
    sd_pt : forall la, user la -> pt_of m1 dir la = None;
    sd_dir : covers bs dir /\ dir <> boot;
    sd_free : forall q, covers bs1 q -> covers bs q;
    sd_total : total bs = total bs1 + 1;
    sd_rest : npage m1 = npage (xmach x) /\ cur_pgdir m1 = Some boot /\ the_tlb m1 = the_tlb (xmach x);
    sd_mem : forall q j, q <> dir -> mem m1 q j = mem (xmach x) q j
  }.

Lemma start_Ok : exists mm0 mm dir m0 m1 bs1, mm_create true (xmach x) = Ok (Some mm0, m0) /\ setup_pgdir boot mm0 m0 = Ok (0, mm, m1) /\ started mm dir m1 bs1.
  Proof.
    destruct (mm_create_Ok (xmach x) (er_swap Hr)) as (mm0 & s & E0 & L1 & L2 & L3 & _).
    destruct (er_dir Hr) as [Hs Hno]. pose proof (er_cur Hr) as Hcur.
    pose proof (wf_dir _ _ _ (proj1 (sp_ready _ _ _ Hs))) as [_ Hboot]. set (m0 := set_pra s (xmach x)) in *.
    pose proof (set_pra_space bs (xmach x) boot s Hs) as Hs0. fold m0 in Hs0.
    assert (Hk0 : kernel_dir bs m0 boot) by done.
    pose proof (er_room Hr) as Ht. pose proof (pages_nonneg g _ (pg_fits _ (er_prog Hr))) as Hpn.
    destruct (setup_pgdir_Ok bs m0 boot mm0 Hk0) as (dir & m1 & bs1 & E1 & Hs1 & Hpt & Hcd & Hfree & Htot & Hnp & Hcur1 & Htlb & Hmem & _); [lia| |].
    { intros d Hd. change (cur_pgdir m0) with (cur_pgdir (xmach x)) in Hd. rewrite Hcur in Hd. by injection Hd as <-. }
    assert (Hent : forall la, user la -> entry m1 dir la = 0) by (intros la Hla; apply entry_no_table; by apply Hpt).
    eexists mm0, _, dir, m0, m1, bs1. split; [done|]. split; [exact E1|]. split; try done.
    - split; [|done|by cbn; rewrite L1]. split; cbn; rewrite ?L1, ?L2, ?L3; [done|by intros v ?%elem_of_nil|done|done].
    - split; [done|apply built_refl|cbn; lia| |done]. intros la Hla. rewrite Hent by done. done.
    - intros q Hq. destruct (er_pages Hr q Hq) as [Hq1 Hq2]. split; [split|].
      + rewrite Hnp. done.
      + intros Hc. by apply Hq2, Hfree.
      + intros ->. done.
      + intros la f' Hla. rewrite Hpt by done. done.
      + intros la Hla. rewrite Hent by done. done.
    - split; [done|]. intros ->. done.
    - rewrite Hcur1, Htlb, Hnp. done.
  Qed.

Lemma buffer_in q : kb <= q < kb + IOBUF_SIZE -> K (kpage q).
  Proof. intros Hq. exists q. by split; [|left]. Qed.
Lemma header_in q : hb <= q < hb + SIZEOF_ELFHDR -> K (kpage q).
  Proof. intros Hq. exists q. by split; [|right; left]. Qed.
Lemma proghdr_in q : phb <= q < phb + SIZEOF_PROGHDR -> K (kpage q).
  Proof. intros Hq. exists q. by split; [|right; right]. Qed.

Let ready := at_file (xfiles x) ps k p i f sin g.

Lemma file_start : ready (xfiles x).
  Proof.
    pose proof (er_file Hr) as Hf. split.
    - exists (pos f). assert (set_pos f (pos f) = f) as -> by by destruct f. done.
    - split; [|done..]. apply (of_rep _ _ _ _ _ _ _ _ Hf).
    - by intros q j h.
  Qed.

  (** From the header to the stack. *)
Lemma fill_Ok mm dir m1 bs1 : started mm dir m1 bs1 ->
    exists m2 st2 mm3 x3 mm4 x5 bs5, load_icode_read p i kb hb SIZEOF_ELFHDR 0 (mk_x m1 (xfiles x)) = Ok (0, mk_x m2 st2) /\
      bytes_elfhdr (mem_bytes (kbytes m2) hb SIZEOF_ELFHDR) = elf_header g /\
      load_headers (phnum g) p i kb phb (fun _ => true) (elf_header g) mm (mk_x m2 st2) = Ok (mm3, x3) /\
      mm_map true mm3 (USTACKTOP - USTACKSIZE) USTACKSIZE (Z.lor (Z.lor VM_READ VM_WRITE) VM_STACK) = Ok (0, Some stack_area, mm4) /\
      alloc_stack dir x3 = Ok x5 /\ stack_in K bs1 m1 dir g 4 bs5 (xmach x5) /\
      mm_ok mm4 /\ mmap_list mm4 ≡ₚ stack_area :: (segment_area <$> segments g 0) /\ pgdir mm4 = dir.
  Proof.
    intros [S1 S2 S3 S4 S5 S6 S7 S8 (S9 & _) S10]. pose proof (er_prog Hr) as Hp. destruct (er_buffers Hr) as ([B1 B2] & [B3 B4] & [B5 B6]). destruct (er_apart Hr) as [A1 A2].
    assert (Hkb : kb <> 0) by (unfold KERNBASE in B1; lia). pose proof (er_room Hr) as Hroom. pose proof (er_np Hr) as Hnp. rewrite <- S9 in Hnp.
    destruct (read_header_Ok (xfiles x) ps k p i f sin g kb (er_read Hr) Hkb K bs1 m1 dir S3 buffer_in [] bs1 (mk_x m1 (xfiles x)) hb SIZEOF_ELFHDR 0
      B3 B4 header_in A1 S2 file_start) as (m2 & st2 & E2 & Hi2 & Hst2 & Hby); [done|done|apply (pg_header _ Hp)|].
    destruct (load_headers_Ok (xfiles x) ps k p i f sin g kb phb (er_read Hr) Hkb K bs1 m1 dir S3 buffer_in (conj B5 B6) proghdr_in A2 Hnp Hp ltac:(lia)
      (fun _ => true) (fun _ => eq_refl) (phnum g) bs1 mm (mk_x m2 st2)) as (mm3 & x3 & bs3 & E3 & Hi3 & Hst3 & Hm3); [done|by rewrite segments_end|done|by rewrite segments_end|].
    destruct (stack_area_Ok dir g mm3 Hp Hm3) as (mm4 & E4 & Hok4 & Hl4 & Hd4); [by eapply (phnum_small (xfiles x)); [|exact Hst3]|].
    destruct (alloc_stack_Ok K bs1 m1 dir g bs3 x3 S3 (pg_fits _ Hp) Hi3) as (x5 & bs5 & E5 & Hs5 & _); [lia|].
    exists m2, st2, mm3, x3, mm4, x5, bs5. split; [exact E2|]. split; [by rewrite Hby|]. split_and!; done.
  Qed.

  (** What the address space [dir] does not map keeps its contents. *)
Lemma stack_kept mm dir m1 bs1 bs5 m5 : started mm dir m1 bs1 -> stack_in K bs1 m1 dir g 4 bs5 m5 -> forall q, 0 <= q < npage (xmach x) -> ~ covers bs q ->
    ~ mapped m5 dir q /\ (~ K q -> forall j, mem m5 q j = mem (xmach x) q j).
  Proof.
    intros [S1 S2 S3 S4 S5 [S6 _] S7 S8 (S9 & _) S10] [_ HB _ _ _ _] q Hq Hc. split.
    - intros (la & Hla & Hp & <-). destruct (bu_map _ _ _ _ _ _ HB la Hla Hp) as [He|Hcov]; [by rewrite He, S4 in Hp|]. by apply Hc, S7.
    - intros Hk j. assert (q <> dir) by (intros ->; done). rewrite (bu_mem _ _ _ _ _ _ HB q j Hk); [by apply S10|].
      split; [by rewrite S9|intros Hcov; by apply Hc, S7|done|]. intros la f' Hla. by rewrite S5.
  Qed.

Lemma kbytes_same m m' a : (forall j, mem m' (kpage a) j = mem m (kpage a) j) -> kbytes m' a = kbytes m a.
  Proof. intros H. unfold kbytes. fold (kpage a). by rewrite H. Qed.

  (** The arguments are where they were. *)
Lemma args_kept mm dir m1 bs1 bs5 m5 m6 : started mm dir m1 bs1 -> stack_in K bs1 m1 dir g 4 bs5 m5 -> mem m6 = mem m5 ->
    (forall la, user la -> entry m6 dir la = entry m5 dir la) -> Forall2 (kernel_string m6 dir) kargv ns /\
    forall j k, kargv !! j = Some k -> forall n, cstr (kbytes m6) k n \/ cstr (kbytes (xmach x)) k n -> forall r, 0 <= r <= n -> kbytes m6 (k + r) = kbytes (xmach x) (k + r).
  Proof.
    intros Hsd Hst Hm He. pose proof (stack_kept mm dir m1 bs1 bs5 m5 Hsd Hst) as Hkept.
    assert (Hb : forall k n, kernel_arg bs (xmach x) kb hb phb k n -> forall r, 0 <= r <= n -> kbytes m6 (k + r) = kbytes (xmach x) (k + r)).
    { intros k0 n [_ Hp] r Hr0. destruct (Hp r Hr0) as (Hq1 & Hq2 & Hq3). apply kbytes_same. intros j. rewrite Hm. by apply Hkept. }
    assert (Hcs : forall k n, kernel_arg bs (xmach x) kb hb phb k n -> cstr (kbytes m6) k n).
    { intros k0 n Ha. pose proof Ha as [(C1 & C2 & C3) _]. split; [done|]. split; [intros r Hr0; rewrite (Hb k0 n) by (done || lia); by apply C2|].
      rewrite (Hb k0 n) by (done || lia). done. }
    pose proof (er_args Hr) as Hargs. split.
    - eapply Forall2_impl; [exact Hargs|]. intros k0 n Ha. split; [by apply Hcs|]. intros j Hj. destruct Ha as [_ Hp]. destruct (Hp j Hj) as (Hq1 & Hq2 & _).
      intros (la & Hla & Hpr & Hpp). rewrite He in Hpr, Hpp by done. apply (proj1 (Hkept _ Hq1 Hq2)). by exists la.
    - intros j k0 Hk n Hn. destruct (Forall2_lookup_l _ _ _ _ _ Hargs Hk) as (n' & _ & Ha). pose proof (Hcs k0 n' Ha) as Hc6. pose proof Ha as [Hc _].
      assert (Hu : forall b, cstr b k0 n -> cstr b k0 n' -> n = n').
      { intros b ([? _] & ? & ?) ([? _] & ? & ?). by apply (str_unique b k0). }
      assert (n = n') as -> by (destruct Hn as [Hn|Hn]; [by eapply Hu|by apply (Hu (kbytes (xmach x)))]). by apply Hb.
  Qed.

Lemma tlb_shape : length (slots (the_tlb (xmach x))) = 16%nat /\ length (tlb_algo_hi (the_tlb (xmach x))) = 16%nat /\ 0 <= tlb_algo_ptr (the_tlb (xmach x)) < 16.
  Proof.
    destruct (er_dir Hr) as [[[_ Hc] _ _] _]. destruct (Hc (er_cur Hr)) as (ow & [C1 C2 C3 _ _ _ _ _ _ _ _ _]). destruct C1 as (? & ? & ?). done.
  Qed.

  (** From the loaded segments to the first instruction. *)
Lemma run_Ok mm dir m1 bs1 bs5 m5 mm5 : started mm dir m1 bs1 -> stack_in K bs1 m1 dir g 4 bs5 m5 -> pgdir mm5 = dir ->
    exists m6 m7 sp, load_pgdir dir m5 = Ok m6 /\ push_args kargv mm5 m6 = Ok (sp, mm5, m7) /\ 0 <= sp /\ sp + 4 < two32 /\
      (exists bs', space_ok bs' m7 dir) /\ cur_pgdir m7 = Some dir /\ Forall (fun ph => has_segment g dir ph m7) (segments g 0) /\
      args_at (xmach x) dir kargv m7 sp /\
      forall q j, 0 <= q < npage (xmach x) -> ~ covers bs q -> ~ K q -> mem m7 q j = mem (xmach x) q j.
  Proof.
    intros Hsd Hst Hmm. pose proof Hsd as [_ _ _ S4 _ [_ S6] _ _ (_ & S9 & S11) _]. pose proof Hst as [T1 T2 _ T4 _ T6]. destruct tlb_shape as (L1 & L2 & L3).
    assert (Htlb : the_tlb m5 = the_tlb (xmach x)).
    { rewrite <- S11. apply (bu_tlb _ _ _ _ _ _ T2). rewrite S9. congruence. }
    destruct (load_pgdir_space bs5 m5 dir T1) as (m6 & E6 & Hs6 & Hc6 & Hn6 & Hm6 & He6).
    { intros la Hla. apply (bu_flag _ _ _ _ _ _ T2 la Hla). by rewrite S4. }
    1-3: by rewrite Htlb.
    destruct (args_kept mm dir m1 bs1 bs5 m5 m6 Hsd Hst Hm6 He6) as [Hargs Hbytes]. pose proof (stack_kept mm dir m1 bs1 bs5 m5 Hsd Hst) as Hkept.
    assert (Hub : forall a, user a -> ubyte m6 dir a = ubyte m5 dir a) by (intros a Ha; unfold ubyte; rewrite He6 by done; unfold kbytes; by rewrite Hm6).
    destruct (push_args_loaded dir g bs5 m6 mm5 kargv ns Hs6) as (m7 & sp & E7 & Hv & Ha & Hsp & Hsp4 & Hsegs); [|  |done|exact Hargs|apply (er_fit Hr)|].
    { intros la Hla Hle. unfold writable_at. rewrite He6 by done. by apply T4. }
    { eapply Forall_impl; [exact T6|]. intros ph [Hf Hh]. split; [done|]. intros a Hin. destruct (segment_user g ph a Hf Hin) as [Hu _]. cbn zeta.
      rewrite He6, Hub by done. by apply Hh. }
    exists m6, m7, sp. do 4 (split; [done|]). split; [exists bs5; apply Hv|]. split; [rewrite (proj2 (uv_rest _ _ _ _ Hv)); done|]. split; [done|]. split.
    - destruct Ha as [Ha1 (us & Hl & Ha2)]. split; [done|]. exists us. split; [done|]. intros j k0 u Hk Hu. destruct (Ha2 j k0 u Hk Hu) as (G1 & G2 & G3).
      split; [done|]. split; [done|]. intros n Hn r Hr0. pose proof (Hbytes j k0 Hk) as Hbk. rewrite (G3 n); [by apply (Hbk n); [by right|]| |done].
      destruct Hn as (C1 & C2 & C3). split; [done|]. assert (Hx : forall r, 0 <= r <= n -> kbytes m6 (k0 + r) = kbytes (xmach x) (k0 + r)) by (apply (Hbk n); right; by split).
      split; [intros r' Hr'; rewrite Hx by lia; by apply C2|rewrite Hx by lia; done].
    - intros q j Hq Hc Hk. rewrite (uv_kernel _ _ _ _ Hv), Hm6; [by apply Hkept|]. intros (la & Hla & Hpr & Hpp). rewrite He6 in Hpr, Hpp by done.
      apply (proj1 (Hkept q Hq Hc)). by exists la.
  Qed.
End LoadIcode.

Lemma mm_count_inc_ok mm : mm_ok mm -> mm_ok (mm_count_inc mm).2.
Proof. intros []. by split. Qed.

(** C3: [load_icode] turns an ELF file into a program that can run.  For an open,
    readable file whose segments lie in user space and in the file and share no page, with
    the kernel's directory loaded, two free pages for each page of the segments
    and nine more, buffers of the kernel that lie apart, and arguments that fit
    in the four pages of the stack, when [kmalloc] succeeds and the disk keeps its
    laws ([BlockRead], [BlockWrite]), it returns: every address of every segment is
    mapped with the permissions of its header and shows the byte of the file
    or 0; the areas are those of the segments and the stack; the new directory
    is loaded; the registers point to the entry of the program and to a stack
    that holds the number of arguments, their addresses and their strings; and
    every page that was in use, but for the buffers that the kernel reads into,
    keeps its contents. *)
Theorem load_icode_program {D : Type} `{!BlockDev D, !BlockRead D, !BlockWrite D} (x : xsys (kfs D)) bs (boot : Z) (ps : list (Z * option Z))
    (k : nat) (p i : Z) f (sin : sfs_inode) g (kb hb phb : Z) kargv ns :
  exec_ready x bs boot ps k p i f sin g kb hb phb kargv ns ->
  exists mm tf x', load_icode p i kb hb phb true (fun _ => true) true boot kargv x = Ok (mm, tf, x') /\
    program_loaded x bs g kargv kb hb phb mm tf x'.
Proof.
  intros Hr. destruct (start_Ok _ _ _ _ _ _ _ _ _ _ _ _ _ _ _ Hr) as (mm0 & mm & dir & m0 & m1 & bs1 & E0 & E1 & Hsd).
  destruct (fill_Ok _ _ _ _ _ _ _ _ _ _ _ _ _ _ _ Hr mm dir m1 bs1 Hsd) as (m2 & st2 & mm3 & x3 & mm4 & x5 & bs5 & E2 & Eh & E3 & E4 & E5 & Hst & Hok & Hl & Hd).
  set (mm5 := (mm_count_inc mm4).2). assert (Hd5 : pgdir mm5 = dir) by done.
  destruct (run_Ok _ _ _ _ _ _ _ _ _ _ _ _ _ _ _ Hr mm dir m1 bs1 bs5 (xmach x5) mm5 Hsd Hst Hd5) as (m6 & m7 & sp & E6 & E7 & Hsp & Hsp4 & Hs & Hc & Hsegs & Ha & Hk).
  exists mm5, (mk_tf (Z.of_nat (length kargv)) (sp + 4) sp (e_entry (elf_header g)) 0x13), (mk_x m7 (xfiles x5)). split.
  - unfold load_icode. rewrite E0. cbn [rbind]. rewrite E1. cbn [rbind rassert Z.eqb]. rewrite E2. cbn [rbind rassert Z.eqb xmach]. rewrite Eh.
    fold (phnum g). rewrite E3. cbn [rbind]. rewrite E4. cbn [rbind rassert Z.eqb]. rewrite Hd, E5. cbn [rbind]. fold mm5. rewrite Hd5, E6. cbn [rbind].
    rewrite E7. cbn [rbind]. rewrite u32_id by (unfold is_u32; lia). done.
  - split; cbn [tf_sp xmach]; rewrite ?Hd5; try done. split; [by apply mm_count_inc_ok|done].
Qed.

(** ** A program on the disk image

    An ELF file of 100 bytes with one segment: 16 bytes of the file at
    0x00800000, and 16 that are cleared. *)

Definition ex_elf : list Z :=
  le_encode 4 0x464C457F ++ replicate 20 0 ++ le_encode 4 0x00800010 ++ le_encode 4 52 ++ replicate 12 0 ++ le_encode 2 1 ++ replicate 6 0 ++
  concat (le_encode 4 <$> [1; 84; 0x00800000; 0; 16; 32; 5; 4096]) ++ (Z.of_nat <$> seq 1 16).

Definition ex_ph : proghdr := mk_proghdr 1 84 0x00800000 16 32 5.

Lemma ex_elf_byte q : is_byte (at_ ex_elf q).
Proof. apply at_byte. unfold ex_elf. repeat (apply Forall_app; split). all: try apply le_encode_byte. all: repeat constructor; unfold is_byte; lia. Qed.

(** It is in the open file [ab]. *)
Lemma ex_elf_file : exists st f sin g, open_file st [(7, None)] 0 7 0 f sin g /\ readable f = true /\ a_size g = 100 /\
  forall j, 0 <= j < 100 -> a_byte g j = at_ ex_elf j.
Proof.
  destruct opened_ab as (st & f & h & sin & Ho & _ & _ & (Pf & _) & (Rf & _) & Wf & Hs & Hb). cbn zeta in *.
  set (u := mk_sys (fun q => at_ ex_elf (q - 0x00800000)) (Some ex_mm) st).
  destruct (write_loop_Ok u [(7, None)] 0 7 0 f sin (abs (sfs_view (fvfs st)) sin) 0x80100000 0x00800000 100 Ho Wf) as (sin' & g & u' & _ & [W1 [W2 W3] _ _ _ _ _ _]).
  - exact ex_mm_ok.
  - intros q. apply ex_elf_byte.
  - unfold two32. lia.
  - apply ex_accepted; lia.
  - right. unfold IOBUF_SIZE. lia.
  - rewrite Pf. cbn [abs a_size]. lia.
  - unfold has_room, fits. rewrite Pf, Hb. unfold NBLOCKS. lia.
  - exists (ufs u'), (set_pos f (pos f + 100)), sin', g. split; [exact W1|]. split; [exact Rf|].
    cbn [afile_write a_size a_byte abs] in W2, W3. rewrite Pf, Hs in *. assert (a_size g = 100) as Hg by (rewrite W2; reflexivity). split; [exact Hg|].
    intros j Hj. rewrite W3 by lia. destruct (Z.leb_spec 0 j), (Z.ltb_spec j (0 + 100)); try lia. cbn [andb].
    rewrite at_mem_bytes by lia. unfold u. cbn [umem]. f_equal. lia.
Qed.

Lemma ex_program g : a_size g = 100 -> (forall j, 0 <= j < 100 -> a_byte g j = at_ ex_elf j) ->
  e_entry (elf_header g) = 0x00800010 /\ segments g 0 = [ex_ph] /\ program g.
Proof.
  intros Hs Hb. assert (Hm : forall o n, 0 <= o -> 0 <= n -> o + n <= 100 -> mem_bytes (a_byte g) o n = mem_bytes (at_ ex_elf) o n).
  { intros o n Ho Hn Hle. apply mem_bytes_ext. intros j Hj. apply Hb. lia. }
  assert (He : elf_header g = mk_elfhdr 0x464C457F 0x00800010 52 1).
  { unfold elf_header. rewrite Hm by (unfold SIZEOF_ELFHDR; lia). vm_compute. reflexivity. }
  assert (Hn : phnum g = 1%nat) by (unfold phnum; by rewrite He).
  assert (Hp : prog_header g 0 = ex_ph).
  { unfold prog_header. rewrite He. cbn [e_phoff]. rewrite Hm by (unfold SIZEOF_PROGHDR; lia). vm_compute. reflexivity. }
  assert (Hseg : segments g 0 = [ex_ph]).
  { rewrite segments_step by (rewrite Hn; lia). rewrite Hp. pose proof (segments_end g) as Hend. rewrite Hn in Hend. by rewrite Hend. }
  split; [by rewrite He|]. split; [done|]. split.
  - rewrite Hs. unfold SIZEOF_ELFHDR. lia.
  - rewrite Hn, He, Hs. unfold SIZEOF_PROGHDR. cbn [e_phoff]. lia.
  - rewrite Hseg. constructor; [|constructor]. split; cbn [ex_ph p_va p_memsz p_filesz p_offset]; rewrite ?Hs; unfold USERBASE, USTACKTOP, USERTOP, USTACKSIZE, USTACKPAGE, PGSIZE; lia.
  - rewrite Hseg. constructor; constructor.
Qed.

(** The machine: the kernel's directory is page 1, and the pages from 3 on
    are free. *)
Lemma ex_exec_machine : exists m, kernel_dir [(3, 13)] m 1 /\ cur_pgdir m = Some 1 /\ npage m = 16 /\ is_Some (pra m !! pra_list_head) /\
  forall q j, mem m q j = 0.
Proof.
  destruct booted16 as (_ & st & _ & _ & Hinv). pose proof (empty_space st Hinv) as Hs.
  destruct (load_pgdir_space [(3, 13)] (empty_machine st) 1 Hs) as (m & _ & Hs' & Hc & Hn & Hm & _); [done|done|done|done|].
  exists (set_pra {[ pra_list_head := mk_entry 0 0 ]} m). split; [split; [by apply set_pra_space|]|].
  - intros la _. unfold pt_of. cbn [mem set_pra]. by rewrite Hm.
  - split; [done|]. split; [done|]. split; [by eexists|]. intros q j. cbn [mem set_pra]. by rewrite Hm.
Qed.

Lemma load_icode_program_witness : exists (x : xsys (kfs ramdisk)) mm tf x',
  load_icode 7 0 (kva 0) (kva 2) (kva 2 + 64) true (fun _ => true) true 1 [kva 1] x = Ok (mm, tf, x') /\
  tf_EPC tf = 0x00800010 /\ tf_a0 tf = 1 /\ ubyte (xmach x') (pgdir mm) 0x0080000F = 16 /\ ubyte (xmach x') (pgdir mm) 0x00800010 = 0.
Proof.
  destruct ex_elf_file as (st & f & sin & g & Hf & Hrd & Hsz & Hby). destruct (ex_program g Hsz Hby) as (He & Hseg & Hprog).
  destruct ex_exec_machine as (m & Hdir & Hcur & Hnp & Hpra & Hmem).
  assert (Hused : forall q, covers [(3, 13)] q -> 3 <= q) by (intros q (b & n & [= -> ->]%list_elem_of_singleton & Hq); lia).
  assert (Hpage : forall q, buffer_page (kva 0) (kva 2) (kva 2 + 64) q -> q = 0 \/ q = 2).
  { intros q (a & <- & Ha). unfold kpage, kva, IOBUF_SIZE, SIZEOF_ELFHDR, SIZEOF_PROGHDR, KERNBASE, PGSIZE in *. clear -Ha. Z.to_euclidean_division_equations. lia. }
  assert (Hzero : forall a, kbytes m a = 0).
  { intros a. unfold kbytes. rewrite Hmem. unfold at_. destruct (0 <=? _); [|done].
    set (n := Z.to_nat _). destruct n as [|[|[|[|[]]]]]; reflexivity. }
  set (x := mk_x m st).
  destruct (load_icode_program x [(3, 13)] 1 [(7, None)] 0 7 0 f sin g (kva 0) (kva 2) (kva 2 + 64) [kva 1] [0]) as (mm & tf & x' & E & [_ _ Hs _ Hr _ _]).
  - split; try done.
    + change (xmach x) with m. rewrite Hnp. vm_compute. discriminate.
    + unfold disjoint, kva, PGSIZE, IOBUF_SIZE, SIZEOF_ELFHDR, SIZEOF_PROGHDR. lia.
    + intros q Hq. change (xmach x) with m. rewrite Hnp. pose proof (Hused q). destruct (Hpage q Hq); split; (lia || (intros ?%Hused; lia)).
    + constructor; [|constructor]. change (xmach x) with m. split.
      * split; [lia|]. split; [intros i Hi; lia|apply Hzero].
      * rewrite Hnp. intros j Hj. assert (j = 0) as -> by lia. cbn zeta. rewrite kpage_kva by done. split; [lia|]. split; [intros ?%Hused; lia|].
        intros ?%Hpage. lia.
    + rewrite Hseg. vm_compute. discriminate.
  - exists x, mm, tf, x'. split; [exact E|]. rewrite Hr. cbn [tf_EPC tf_a0 length]. split; [exact He|]. split; [done|]. rewrite Hseg in Hs.
    apply Forall_cons in Hs as [Hs _]. split.
    + destruct (Hs 0x0080000F) as (_ & _ & ->); [cbn; lia|]. unfold segment_byte. cbn. rewrite Hby by lia. vm_compute. reflexivity.
    + destruct (Hs 0x00800010) as (_ & _ & ->); [cbn; lia|]. reflexivity.
Defined.
