(* ===== verification/Fork.v ===== *)
(** * Creating and ending a process: memory, files and the table together
    (kern/process/proc.c)

    [Proc] has the part of [do_fork], [do_exit] and [do_wait] that deals with
    the process table, [Vmm] address spaces and [File] tables of open files.
    Here they work on one state: the fields [kstack], [mm], [tf], [pgdir] and
    [filesp] of a process refer to the machine, the [mm_struct]s and the
    files. *)
From S2P Require Import Prelude DList Blocks Atomic Arith DefaultPmm CString Printf PageTable Tlb Pmm Vmm IoBuf BlockDev Sfs Vfs File SysFile Exec Kern Sched Proc.

(** [struct trapframe]: 32 registers, then Status, Cause, EPC, BadVAddr, LO
    and HI, as words. *)
Definition SIZEOF_TRAPFRAME : Z := 152.
Definition REG_V0 : nat := 2.
Definition REG_A0 : nat := 4.
Definition REG_A1 : nat := 5.
Definition REG_GP : nat := 28.
Definition REG_SP : nat := 29.
Definition TF_STATUS : nat := 32.
Definition TF_EPC : nat := 34.
Definition words_bytes (ws : list Z) : list Z := concat (le_encode 4 <$> ws).

(** [struct context], as far as a new process has one. *)
Record context := mk_context { ctx_ra : Z; ctx_sp : Z }.

Definition KSTACKPAGE : Z := 2.
Definition KSTACKSIZE : Z := KSTACKPAGE * PGSIZE.
Definition CLONE_VM : Z := 0x100.

(** A pointer to a table of files: 0 is NULL. *)
Definition optr_of (a : Z) : option Z := if a =? 0 then None else Some a.
Definition ptr_of (a : option Z) : Z := default 0 a.

(** What the calls are given: the addresses that [kmalloc] returns (0: no
    memory), whether it has memory for the areas, what the memory of a new
    table of files holds, and the addresses of code. *)
Record fork_env := mk_fork_env {
  fe_proc : option Z; fe_files : Z; fe_raw : list file; fe_mm : Z; fe_areas : list bool; fe_dup : Z; fe_dup_raw : list file;
  fe_boot : Z; fe_forkret : Z; fe_entry : Z; fe_gp : Z }.

Section Fork.
  Context {F : Type} `{!InodeOps F} `{SC : sched_class}.

Record world := mk_world {
    wt : ptable;
    wmach : machine;
    wmms : gmap Z mm_struct;
    wctx : gmap Z context;
    wfiles : fstate F;
    kstack_sp : Z
  }.
Definition set_wt (v : ptable) (w : world) : world := mk_world v (wmach w) (wmms w) (wctx w) (wfiles w) (kstack_sp w).
Definition set_wmach (v : machine) (w : world) : world := mk_world (wt w) v (wmms w) (wctx w) (wfiles w) (kstack_sp w).
Definition set_wmms (v : gmap Z mm_struct) (w : world) : world := mk_world (wt w) (wmach w) v (wctx w) (wfiles w) (kstack_sp w).
Definition set_wctx (v : gmap Z context) (w : world) : world := mk_world (wt w) (wmach w) (wmms w) v (wfiles w) (kstack_sp w).
(** [load_ksp]: the stack that a trap from user mode uses. *)
Definition load_ksp (v : Z) (w : world) : world := mk_world (wt w) (wmach w) (wmms w) (wctx w) (wfiles w) v.
Definition set_wfiles (v : fstate F) (w : world) : world := mk_world (wt w) (wmach w) (wmms w) (wctx w) v (kstack_sp w).

  Implicit Types (w : world) (E : fork_env) (p : Z).

Definition change_proc p (f : proc_struct -> proc_struct) w : res world := let! t := change p f (wt w) in Ok (set_wt t w).

  (** [kfree(proc)]. *)
Definition kfree_proc p w : world :=
    let t := wt w in set_wt (set_pk (set_procs (delete p (procs (pk t))) (pk t)) t) w.

Definition setup_kstack p w : res (Z * world) :=
    let! (page, m) := alloc_pages KSTACKPAGE (wmach w) in
    let w := set_wmach m w in
    match page with
    | None => Ok (- E_NO_MEM, w)
    | Some page =>
        let! k := page2kva page m in
        let! w := change_proc p (set_kstack (kva k)) w in Ok (0, w)
    end.

Definition put_kstack (kstack : Z) w : res world :=
    let! page := kva2page kstack (wmach w) in
    let! m := free_pages page KSTACKPAGE (wmach w) in Ok (set_wmach m w).

  (** ** The address space *)

  (** What becomes of an address space that nobody uses. *)
Definition release_mm (mm : mm_struct) (m : machine) : res machine :=
    let! m := exit_mmap mm m in
    let! m := put_pgdir mm m in
    let! _ := mm_destroy mm in
    Ok m.

  (** A new address space like [oldmm]: the return value, the space and the
      machine.  The areas that are in it already are given back on an error. *)
Definition dup_mm (mm_ok : bool) (areas : list bool) (boot : Z) (oldmm : mm_struct) (m : machine) : res (Z * option mm_struct * machine) :=
    let! (mm, m) := mm_create mm_ok m in
    match mm with
    | None => Ok (- E_NO_MEM, None, m)
    | Some mm =>
        let! (r, mm, m) := setup_pgdir boot mm m in
        if negb (r =? 0) then let! _ := mm_destroy mm in Ok (- E_NO_MEM, None, m)
        else
          let! (r, mm, m) := dup_mmap areas mm oldmm m in
          if negb (r =? 0) then let! m := release_mm mm m in Ok (r, None, m)
          else Ok (0, Some mm, m)
    end.

  (** [good_mm]: one more process uses the space at [a]. *)
Definition share_mm p (a : Z) w : res (Z * world) :=
    let! mm := rget (wmms w !! a) in
    let mm := (mm_count_inc mm).2 in
    let w := set_wmms (<[a := mm]> (wmms w)) w in
    let! w := change_proc p (set_mm (Some a)) w in
    let! w := change_proc p (set_pgdir (Vmm.pgdir mm)) w in
    Ok (0, w).

Definition copy_mm E (clone_flags : Z) p w : res (Z * world) :=
    let! cur := proc_at (current (pk (wt w))) (wt w) in
    match Kern.mm cur with
    | None => Ok (0, w)
    | Some old =>
        if has_flag clone_flags CLONE_VM then share_mm p old w
        else
          let! oldmm := rget (wmms w !! old) in
          let! (r, mm, m) := dup_mm (negb (fe_mm E =? 0)) (fe_areas E) (fe_boot E) oldmm (wmach w) in
          let w := set_wmach m w in
          match mm with
          | None => Ok (r, w)
          | Some mm => share_mm p (fe_mm E) (set_wmms (<[fe_mm E := mm]> (wmms w)) w)
          end
    end.

  (** ** The registers *)

Definition copy_thread E p (esp : Z) (tf : list Z) w : res world :=
    let! proc := proc_at p (wt w) in
    let a := u32 (kstack proc + KSTACKSIZE) - SIZEOF_TRAPFRAME in
    let tf := <[REG_SP := esp]> (<[REG_V0 := 0]> tf) in
    let tf := <[TF_STATUS := Z.lor (nth TF_STATUS tf 0) 0x3]> tf in
    let w := set_wmach (kstore (put_bytes a SIZEOF_TRAPFRAME (words_bytes tf) (kbytes (wmach w))) (wmach w)) w in
    let! w := change_proc p (set_tf a) w in
    Ok (set_wctx (<[p := mk_context (fe_forkret E) a]> (wctx w)) w).

  (** ** [do_fork] *)

Definition fork_copy_files E (clone_flags : Z) p w : res (Z * world) :=
    let! cur := proc_at (current (pk (wt w))) (wt w) in
    let! q := rget (filesp cur) in
    let! (r, q, st) := copy_files clone_flags q (fe_dup E) (fe_dup_raw E) (wfiles w) in
    let w := set_wfiles st w in
    if negb (r =? 0) then Ok (r, w) else let! w := change_proc p (set_filesp (optr_of q)) w in Ok (0, w).

Definition put_files p w : res world :=
    let! proc := proc_at p (wt w) in
    let! st := proc_put_files (ptr_of (filesp proc)) (wfiles w) in Ok (set_wfiles st w).

Definition do_fork E (clone_flags stack : Z) (tf : list Z) w : res (Z * world) :=
    if MAX_PROCESS <=? nr_process (wt w) then Ok (- E_NO_FREE_PROC, w)
    else
      let (fa, st) := match fe_proc E with None => (0, wfiles w) | Some _ => files_create (fe_files E) (fe_raw E) (wfiles w) end in
      let! (proc, t) := alloc_proc (fe_proc E) (fe_boot E) (optr_of fa) (wt w) in
      let w := set_wt t (set_wfiles st w) in
      let! cur := proc_at (current (pk (wt w))) (wt w) in
      assert! wait_state cur =? 0 ;;
      let! p := rget proc in
      let! w := change_proc p (set_parent (Some (current (pk (wt w))))) w in
      let! (r, w) := setup_kstack p w in
      if negb (r =? 0) then Ok (- E_NO_MEM, kfree_proc p w)
      else
        let! (r, w) := copy_mm E clone_flags p w in
        if negb (r =? 0) then
          let! pr := proc_at p (wt w) in
          let! w := put_kstack (kstack pr) w in Ok (- E_NO_MEM, kfree_proc p w)
        else
          let! (r, w) := fork_copy_files E clone_flags p w in
          if negb (r =? 0) then
            let! w := put_files p w in
            let! pr := proc_at p (wt w) in
            let! w := put_kstack (kstack pr) w in Ok (- E_NO_MEM, kfree_proc p w)
          else
            let! w := copy_thread E p stack tf w in
            let! (ret, t) := fork_register p (wt w) in
            Ok (ret, set_wt t w).

  (** The thread runs [fn(arg)]. *)
Definition kernel_thread E (fn arg clone_flags : Z) w : res (Z * world) :=
    let tf := <[REG_GP := fe_gp E]> (<[REG_A0 := arg]> (<[REG_A1 := fn]> (replicate 38 0))) in
    let tf := <[TF_STATUS := 0]> (<[TF_EPC := fe_entry E]> tf) in
    do_fork E (Z.lor clone_flags CLONE_VM) 0 tf w.

  (** ** [proc_run], [do_exit] and [do_wait] *)

  (** The switch of address spaces; [switch_to] is assembly. *)
Definition proc_run p w : res world :=
    let t := wt w in
    if p =? current (pk t) then Ok w
    else
      let! proc := proc_at p t in
      let w := load_ksp (u32 (kstack proc + KSTACKSIZE)) (set_wt (set_pk (set_current p (pk t)) t) w) in
      let! m := load_pgdir (Kern.pgdir proc) (wmach w) in Ok (set_wmach m w).

Definition exit_mm (boot : Z) w : res world :=
    let cur := current (pk (wt w)) in
    let! proc := proc_at cur (wt w) in
    match Kern.mm proc with
    | None => Ok w
    | Some a =>
        let! mm := rget (wmms w !! a) in
        let! m := load_pgdir boot (wmach w) in
        let (count, mm) := mm_count_dec mm in
        let! w :=
          if count =? 0 then let! m := release_mm mm m in Ok (set_wmms (delete a (wmms w)) (set_wmach m w))
          else Ok (set_wmms (<[a := mm]> (wmms w)) (set_wmach m w)) in
        change_proc cur (set_mm None) w
    end.

  (** Up to the call of [schedule], which does not return. *)
Definition do_exit (boot error_code : Z) w : res world :=
    let cur := current (pk (wt w)) in
    if (cur =? idleproc (pk (wt w))) || (cur =? initproc (pk (wt w))) then Err KPanic
    else
      let! w := exit_mm boot w in
      let! w := put_files cur w in
      let! t := do_exit_table error_code (wt w) in Ok (set_wt t w).

  (** The address space of the running process. *)
Definition current_mm w : res (option (Z * mm_struct)) :=
    let! cur := proc_at (current (pk (wt w))) (wt w) in
    match Kern.mm cur with
    | None => Ok None
    | Some a => let! mm := rget (wmms w !! a) in Ok (Some (a, mm))
    end.

Definition set_current_mm (a : option (Z * mm_struct)) (mm : option mm_struct) w : world :=
    match a, mm with Some (a, _), Some mm => set_wmms (<[a := mm]> (wmms w)) w | _, _ => w end.

  (** The test at the start of [do_wait]. *)
Definition do_wait_check (code_store : Z) w : res (bool * world) :=
    if code_store =? 0 then Ok (true, w)
    else
      let! a := current_mm w in
      let! (ok, mm) := user_mem_check (snd <$> a) code_store 4 true in
      Ok (ok, set_current_mm a mm w).

  (** [found]: the exit code is stored, and the kernel stack and the
      [proc_struct] are freed.  A kernel thread stores it in the kernel. *)
Definition do_wait_reap (code_store p : Z) w : res (Z * world) :=
    let! a := current_mm w in
    let! (code, kstack, t) := do_wait_found p (wt w) in
    let! w :=
      if code_store =? 0 then Ok w
      else
        match a with
        | None => Ok (set_wmach (kstore (put_bytes code_store 4 (le_encode 4 (u32 code)) (kbytes (wmach w))) (wmach w)) w)
        | Some (_, mm) =>
            let! (mm, m) := user_write_word code_store (u32 code) mm (wmach w) in
            Ok (set_current_mm a (Some mm) (set_wmach m w))
        end in
    let! w := put_kstack kstack (set_wt t w) in
    Ok (0, w).
End Fork.
Arguments world : clear implicits.
