(* ===== verification/Dup.v ===== *)
(** * Duplicating an address space: the pages

    [copy_range] copies the mapped pages of one address space to another
    (kern/mm/pmm.c).  [grown] is what building the second space leaves of the
    machine, [pair_ok] the invariant of the two spaces, and [copied] says
    that a range of pages has been copied. *)
From S2P Require Import Prelude DList Blocks Atomic Arith DefaultPmm PageTable Tlb Pmm ExecMem.

(** ** The rest of the machine *)

(** Besides [kept_space], the descriptors of the pages in use are as before. *)
Record grown (bs : list block) (m : machine) (bs' : list block) (m' : machine) (to : Z) : Prop := {
  gr_kept : kept_space bs m bs' m' to;
  gr_pages : forall i, ~ covers bs i -> pages (pm m') !! i = pages (pm m) !! i
}.

Lemma grown_refl bs m to : grown bs m bs m to.
Proof. split; [apply kept_space_refl|done]. Qed.

Lemma grown_trans bs m bs1 m1 bs2 m2 to : grown bs m bs1 m1 to -> grown bs1 m1 bs2 m2 to -> grown bs m bs2 m2 to.
Proof.
  intros [K1 P1] [K2 P2]. split; [by eapply kept_space_trans|]. intros i Hi. rewrite P2; [by apply P1|].
  intros Hc. by apply Hi, (ks_free _ _ _ _ _ K1).
Qed.

(** The directory and the page tables; with them the mapped pages. *)
Definition table (m : machine) (d q : Z) : Prop := q = d \/ exists la, user la /\ pt_of m d la = Some q.
Definition owned (m : machine) (d q : Z) : Prop :=
  table m d q \/ exists la, user la /\ present (entry m d la) = true /\ PPN (entry m d la) = q.

Lemma owned_used bs m d q : space_ok bs m d -> owned m d q -> ~ covers bs q.
Proof.
  intros Hs [[->|(la & Hl & Hf)]|(la & Hl & Hp & <-)].
  - by apply (wf_dir _ _ _ (proj1 (sp_ready _ _ _ Hs))).
  - by apply (wf_pde _ _ _ (proj1 (sp_ready _ _ _ Hs)) la q Hl Hf).
  - destruct (sp_page _ _ _ Hs la Hl Hp) as [Hd _]. apply Hd.
Qed.

Lemma grown_word_used bs m bs' m' to q j : grown bs m bs' m' to -> ~ covers bs q -> ~ table m to q -> mem m' q j = mem m q j.
Proof.
  intros [[_ _ _ _ W] _] Hu Ht. apply W; [|done|].
  - intros ->. apply Ht. by left.
  - intros la f Hl Hf ->. apply Ht. right. by exists la.
Qed.

(** Two spaces: what the first owns is not a table of the second, which the
    processor does not use. *)
Record pair_ok (bs : list block) (m : machine) (from to : Z) : Prop := {
  po_from : space_ok bs m from;
  po_to : space_ok bs m to;
  po_apart : forall q, owned m from q -> ~ table m to q;
  po_cur : cur_pgdir m <> Some to
}.

(** A space none of whose pages is written. *)
Section Kept.
  Context (bs : list block) (m : machine) (bs' : list block) (m' : machine) (d : Z).
  Context (Hs : space_ok bs m d) (Hw : forall q j, owned m d q -> mem m' q j = mem m q j).

Lemma kept_pt la : pt_of m' d la = pt_of m d la.
  Proof. unfold pt_of. rewrite Hw; [done|]. left. by left. Qed.

Lemma kept_entry la : user la -> entry m' d la = entry m d la.
  Proof.
    intros Hla. unfold entry. rewrite kept_pt. destruct (pt_of m d la) as [f|] eqn:Hf; [|done]. apply Hw. left. right. by exists la.
  Qed.

Lemma kept_owned q : owned m' d q -> owned m d q.
  Proof.
    intros [[->|(la & Hl & Hf)]|(la & Hl & Hpr & <-)]; [left; by left|left; right; exists la; by rewrite <- kept_pt|right].
    exists la. rewrite <- (kept_entry la Hl). done.
  Qed.

Lemma kept_other to : space_ok bs' m' to -> npage m' = npage m -> (cur_pgdir m' = Some d -> cur_pgdir m = Some d /\ the_tlb m' = the_tlb m) ->
    (forall i, covers bs' i -> covers bs i) -> (forall i, ~ covers bs i -> pages (pm m') !! i = pages (pm m) !! i) -> space_ok bs' m' d.
  Proof.
    intros [[[W1 W2 _ _ _ W6] _] _ _] R1 T F Pg. pose proof Hs as [[[V1 V2 V3 V4 V5 V6] Hcoh] _ _].
    apply (space_frame bs bs' m m' d); [done| |done|exact kept_entry|done| |done].
    - split; [split; try done|].
      + destruct V3 as [V3 V3']. rewrite R1. split; [done|intros Hi; apply V3'; auto].
      + intros la f Hl. rewrite kept_pt. intros Hpt. destruct (V4 la f Hl Hpt) as (? & Hu & ?). rewrite R1. split; [done|]. split; [intros Hi; apply Hu; auto|done].
      + intros la la' f Hl Hl'. rewrite !kept_pt. by apply V5.
      + intros Hcur. destruct (T Hcur) as [Hcur' ->]. destruct (Hcoh Hcur') as (ow & Ho). exists ow. eapply coh_ext; [exact kept_entry|exact Ho].
    - intros la f Hl. rewrite kept_pt. by left.
  Qed.
End Kept.

Section Grown.
  Context (bs : list block) (m : machine) (bs' : list block) (m' : machine) (from to : Z).
  Context (Hp : pair_ok bs m from to) (Hg : grown bs m bs' m' to).

Lemma grown_word q j : owned m from q -> mem m' q j = mem m q j.
  Proof. intros Ho. eapply grown_word_used; [done| |by apply (po_apart _ _ _ _ Hp)]. eapply owned_used; [apply Hp|done]. Qed.

Lemma grown_pt la : pt_of m' from la = pt_of m from la.
  Proof. apply kept_pt, grown_word. Qed.

Lemma grown_entry la : user la -> entry m' from la = entry m from la.
  Proof. apply kept_entry, grown_word. Qed.

Lemma grown_table q : table m' to q -> table m to q \/ covers bs q.
  Proof.
    intros [->|(la & Hl & Hf)]; [left; by left|]. destruct (ks_pt _ _ _ _ _ (gr_kept _ _ _ _ _ Hg) la q Hl Hf) as [Hf'|?]; [|by right].
    left. right. by exists la.
  Qed.

  (** Whatever is built for [to], [from] does not notice. *)
Lemma grown_pair : space_ok bs' m' to -> pair_ok bs' m' from to.
  Proof.
    intros Hs'. destruct Hp as [Hf Ht Ha Hc]. pose proof Hg as [[[R1 R2] T F P W] Pg]. split; [|done|..].
    - apply (kept_other bs m bs' m' from Hf grown_word to); try done. rewrite R2, T by done. done.
    - intros q Hq%(kept_owned m m' from grown_word) Hbad. destruct (grown_table q Hbad) as [Hold|Hc'].
      + by apply (Ha q).
      + by apply (owned_used bs m from q).
    - by rewrite R2.
  Qed.
End Grown.

(** ** The operations, for a space with free pages *)

Lemma kept_grown bs m bs' m' to : kept_space bs m bs' m' to -> (forall i, ~ covers bs i -> pages (pm m') !! i = pages (pm m) !! i) -> grown bs m bs' m' to.
Proof. by split. Qed.

(** [get_pte(.., 1)]: the table is there or made. *)
Lemma get_pte_space bs m d la : space_ok bs m d -> user la -> 1 <= total bs ->
  exists f m1 bs1, get_pte d la true m = Ok (Some (f, PTX la), m1) /\ space_ok bs1 m1 d /\ pt_of m1 d la = Some f /\
    (forall la', user la' -> entry m1 d la' = entry m d la') /\ grown bs m bs1 m1 d /\ total bs - 1 <= total bs1.
Proof.
  intros Hs Hla Ht. pose proof (proj1 (sp_ready _ _ _ Hs)) as Hwf. pose proof (inv_canon _ _ _ (wf_pmm _ _ _ Hwf)) as Hcan.
  destruct (pt_of m d la) as [f|] eqn:Hf.
  - exists f, m, bs. split; [by apply (get_pte_present bs)|]. split_and!; try done; [apply grown_refl|lia].
  - destruct (carve_one _ _ Hcan ltac:(lia)) as (p & bs1 & Hc). destruct (carve_Some (-1) 1 bs p bs1) as (_ & Htot & _); [done..|].
    destruct (get_pte_create_space bs m d la p bs1 Hs Hla Hf Hc) as (m1 & E & Hs1 & Hf1 & He1 & Hp1 & _ & _ & _ & Hk).
    exists p, m1, bs1. split_and!; try done. lia.
Qed.

(** [alloc_page], for two spaces. *)
Lemma alloc_page_pair bs m from to p bs1 : pair_ok bs m from to -> carve 1 bs = Some (p, bs1) ->
  exists m1 pg, alloc_page m = Ok (Some p, m1) /\ pair_ok bs1 m1 from to /\ data_page bs1 m1 to p /\
    pages (pm m1) !! p = Some pg /\ ref pg = 0 /\ (forall la, user la -> entry m1 to la = entry m to la) /\
    (forall la, pt_of m1 to la = pt_of m to la) /\
    (forall la, user la -> present (entry m1 to la) = true -> PPN (entry m1 to la) <> p) /\
    mem m1 = mem m /\ covers bs p /\ grown bs m bs1 m1 to /\ total bs - 1 <= total bs1.
Proof.
  intros Hp Hc. pose proof (po_to _ _ _ _ Hp) as Hs.
  pose proof (inv_canon _ _ _ (wf_pmm _ _ _ (proj1 (sp_ready _ _ _ Hs)))) as Hcan.
  destruct (carve_Some (-1) 1 bs p bs1) as (_ & Htot & Hcov & _); [done..|].
  destruct (alloc_page_space bs m to p bs1 Hs Hc) as (m1 & pg & E & Hs1 & Hdp & Hpg & Hr & He & Hpt & Hnew & Hnp & Hcur & Hmem & Htlb & Hpgs).
  assert (Hg : grown bs m bs1 m1 to).
  { split; [|done]. split; [done|done|intros i Hi; apply Hcov; by left|intros l f _; rewrite Hpt; by left|by rewrite Hmem]. }
  exists m1, pg. split; [done|]. split; [by eapply grown_pair|]. split_and!; try done; [apply Hcov; lia|lia].
Qed.

(** Copying into a page that is neither the directory nor a table. *)
Lemma copy_page_space bs m d p src : space_ok bs m d -> ~ table m d p ->
  let m' := set_mem (copy_page p src (mem m)) m in
  space_ok bs m' d /\ (forall la, user la -> pt_of m' d la = pt_of m d la) /\ (forall la, user la -> entry m' d la = entry m d la).
Proof.
  intros Hs Hno m'. assert (Hd : forall j, mem m' d j = mem m d j).
  { intros j. cbn [mem m' set_mem]. unfold copy_page. destruct (Z.eqb_spec d p) as [->|]; [|done]. destruct Hno. by left. }
  assert (Hpt : forall la, pt_of m' d la = pt_of m d la) by (intros la; unfold pt_of; by rewrite Hd).
  assert (He : forall la, user la -> entry m' d la = entry m d la).
  { intros la Hla. unfold entry. rewrite Hpt. destruct (pt_of m d la) as [f|] eqn:Hf; [|done]. cbn [mem m' set_mem]. unfold copy_page.
    destruct (Z.eqb_spec f p) as [->|]; [|done]. destruct Hno. right. by exists la. }
  split; [|by split]. pose proof Hs as [[[W1 W2 W3 W4 W5 W6] Hcoh] _ _].
  apply (space_frame bs bs m m' d); try done; [|intros la f _; rewrite Hpt; by left]. split; [split; try done|].
  - intros la f Hl. rewrite Hpt. by apply W4.
  - intros la la' f Hl Hl'. rewrite !Hpt. by apply W5.
  - intros q j. cbn [mem m' set_mem]. unfold copy_page. destruct (q =? p); apply W6.
  - intros Hc. destruct (Hcoh Hc) as (ow & Ho). exists ow. eapply coh_ext; [exact He|exact Ho].
Qed.

(** ** Copying a range *)

(** The address [la] of [to] after copying from [m] to [m']: a page of its own
    with the bytes of the page of [from] and its permissions. *)
Definition page_copy (bs : list block) (m m' : machine) (from to la : Z) : Prop :=
  if present (entry m from la) then
    exists p, entry m' to la = pte_make p (Z.land (entry m from la) PTE_USER) /\ PPN (entry m' to la) = p /\ covers bs p /\
      forall j, mem m' p j = mem m (PPN (entry m from la)) j
  else entry m' to la = entry m to la.

Record copied (bs : list block) (m : machine) (bs' : list block) (m' : machine) (from to a b : Z) : Prop := {
  cp_pair : pair_ok bs' m' from to;
  cp_grown : grown bs m bs' m' to;
  cp_out : forall la, user la -> ~ a <= la / 4096 < b -> entry m' to la = entry m to la;
  cp_in : forall la, user la -> a <= la / 4096 < b -> page_copy bs m m' from to la;
  cp_room : total bs - 2 * mapped (Z.to_nat (b - a)) m from a <= total bs'
}.

Lemma PTE_USER_range e : 0 <= Z.land e PTE_USER < 128.
Proof.
  change PTE_USER with (Z.ones 3). rewrite Z.land_ones by lia. pose proof (Z.mod_pos_bound e (2 ^ 3) ltac:(lia)). lia.
Qed.

Lemma page2kva_Ok p m : 0 <= p < npage m -> npage m <= 1048576 -> page2kva p m = Ok p.
Proof.
  intros Hr Hn. assert (PPN (page2pa p) = p) as Hp by (rewrite page2pa_mul, PPN_div by lia; by apply Z.div_mul).
  unfold page2kva. rewrite KADDR_Ok; by rewrite Hp.
Qed.

Lemma data_not_table bs m d p : data_page bs m d p -> ~ table m d p.
Proof. intros [_ _ Hd Hpt _] [->|(la & Hl & Hf)]; [done|]. by apply (Hpt la p). Qed.

Lemma owned_mapped m d la : user la -> present (entry m d la) = true -> owned m d (PPN (entry m d la)).
Proof. intros Hl Hp. right. by exists la. Qed.

(** A page that was free is written, then mapped. *)
Lemma grown_copy bs m bs1 m1 to p src : grown bs m bs1 m1 to -> space_ok bs1 m1 to -> covers bs p -> ~ table m1 to p ->
  grown bs m bs1 (set_mem (copy_page p src (mem m1)) m1) to.
Proof.
  intros [[R T F P W] Hpg] Hs Hc Hno. destruct (copy_page_space bs1 m1 to p src Hs Hno) as (_ & Hpt & _).
  split; [split|]; try done.
  - intros la f Hl. rewrite Hpt by done. by apply P.
  - intros q j Hq Hu Ht. cbn [mem set_mem]. unfold copy_page. destruct (Z.eqb_spec q p) as [->|]; [done|by apply W].
Qed.

Lemma grown_insert bs m bs1 m1 bs2 m2 to p : grown bs m bs1 m1 to -> kept_space bs1 m1 bs2 m2 to ->
  (forall i, i <> p -> ~ covers bs1 i -> pages (pm m2) !! i = pages (pm m1) !! i) -> covers bs p -> grown bs m bs2 m2 to.
Proof.
  intros [K1 P1] K2 P2 Hc. split; [by eapply kept_space_trans|]. intros i Hi. rewrite P2; [by apply P1|by intros ->|].
  intros Hci. by apply Hi, (ks_free _ _ _ _ _ K1).
Qed.

(** A page that is mapped at [la] in [from] and not in [to]. *)
Lemma copy_step_page bs m from to la : pair_ok bs m from to -> user la -> present (entry m from la) = true ->
  present (entry m to la) = false -> 2 <= total bs ->
  exists p m' bs', copy_step to from la m = Ok (None, u32 (la + PGSIZE), m') /\ pair_ok bs' m' from to /\ grown bs m bs' m' to /\
    (forall la', user la' -> entry m' to la' = upd_ent la (pte_make p (Z.land (entry m from la) PTE_USER)) (entry m to) la') /\
    PPN (pte_make p (Z.land (entry m from la) PTE_USER)) = p /\ covers bs p /\
    (forall j, mem m' p j = mem m (PPN (entry m from la)) j) /\ total bs - 2 <= total bs'.
Proof.
  intros Hp Hla Hpr Hnp Ht. destruct (present_table _ _ _ Hpr) as [f Hf]. unfold copy_step.
  rewrite (get_pte_present bs m from la false f) by (done || apply Hp). cbn [rbind].
  rewrite (load_pte_entry _ _ _ _ Hf). pose proof Hpr as Hpr'. unfold present in Hpr'. rewrite Hpr'. cbn [negb].
  destruct (get_pte_space bs m to la (po_to _ _ _ _ Hp) Hla ltac:(lia)) as (nf & m1 & bs1 & -> & Hs1 & Hnf & He1 & Hg1 & Ht1). cbn [rbind].
  pose proof (grown_pair bs m bs1 m1 from to Hp Hg1 Hs1) as Hp1.
  assert (Hf1 : pt_of m1 from la = Some f) by by rewrite (grown_pt bs m bs1 m1 from to).
  assert (Hef1 : entry m1 from la = entry m from la) by by apply (grown_entry bs m bs1 m1 from to).
  rewrite (load_pte_entry _ _ _ _ Hf1), (pte2page_Ok bs1 m1 from la); [|apply Hp1|done|by rewrite Hef1|].
  2: { destruct (sp_page _ _ _ (po_from _ _ _ _ Hp1) la Hla) as [Hd _]; [by rewrite Hef1|]. apply Hd. }
  rewrite Hef1. cbn [rbind].
  destruct (carve_one _ _ (inv_canon _ _ _ (wf_pmm _ _ _ (proj1 (sp_ready _ _ _ Hs1)))) ltac:(lia)) as (p & bs2 & Hcv).
  destruct (alloc_page_pair bs1 m1 from to p bs2 Hp1 Hcv) as (m2 & pg & -> & Hp2 & Hdp & Hpg & Hr & He2 & Hpt2 & Hnew & Hm2 & Hc & Hg2 & Ht2).
  cbn [rbind]. rewrite bool_decide_true by done. cbn [rassert rget rbind].
  pose proof (proj1 (sp_ready _ _ _ (po_to _ _ _ _ Hp2))) as Hwf2. pose proof (wf_np _ _ _ Hwf2) as Hnp2.
  pose proof (sp_page _ _ _ (po_from _ _ _ _ Hp2) la Hla) as Hsrc. rewrite (grown_entry bs1 m1 bs2 m2 from to) in Hsrc by done.
  rewrite Hef1 in Hsrc. specialize (Hsrc Hpr) as [Hsrc _]. set (src := PPN (entry m from la)) in *.
  rewrite (page2kva_Ok p), (page2kva_Ok src) by (done || apply Hdp || apply Hsrc). cbn [rbind]. pose proof (data_not_table _ _ _ _ Hdp) as Hno.
  assert (Hcp : covers bs p) by apply (ks_free _ _ _ _ _ (gr_kept _ _ _ _ _ Hg1)), Hc.
  pose proof (grown_trans _ _ _ _ _ _ _ Hg1 Hg2) as Hg12.
  destruct (copy_page_space bs2 m2 to p src (po_to _ _ _ _ Hp2) Hno) as (Hs3 & Hpt3 & He3).
  pose proof (grown_copy bs m bs2 m2 to p src Hg12 (po_to _ _ _ _ Hp2) Hcp Hno) as Hg3.
  assert (Hm3 : forall j, mem (set_mem (copy_page p src (mem m2)) m2) p j = mem m src j).
  { intros j. cbn [mem set_mem]. unfold copy_page. rewrite Z.eqb_refl. apply (grown_word bs m bs2 m2 from to); [done|done|by apply owned_mapped]. }
  assert (Hdp3 : data_page bs2 (set_mem (copy_page p src (mem m2)) m2) to p).
  { destruct Hdp as [D1 D2 D3 D4 D5]. split; try done. intros l f' Hl. rewrite Hpt3 by done. by apply D4. }
  assert (Hpg3 : pages (pm (set_mem (copy_page p src (mem m2)) m2)) !! p = Some pg) by done.
  set (m3 := set_mem _ m2) in *. clearbody m3.
  assert (Ent : forall l, user l -> entry m3 to l = entry m to l) by (intros l Hl; by rewrite He3, He2, He1).
  pose proof (page_insert_fresh bs2 m3 to p la (Z.land (entry m from la) PTE_USER) pg Hs3 Hla) as Hi.
  rewrite Ent, Hpt3, Hpt2, Hnf in Hi by done. specialize (Hi Hnp Hdp3 Hpg3 Hr).
  assert (exists m' bs', page_insert to p la (Z.land (entry m from la) PTE_USER) m3 = Ok (0, m') /\ space_ok bs' m' to /\
    (forall la', user la' -> entry m' to la' = upd_ent la (pte_make p (Z.land (entry m from la) PTE_USER)) (entry m3 to) la') /\
    bs' = bs2 /\ kept_space bs2 m3 bs' m' to /\ (forall i, i <> p -> ~ covers bs2 i -> pages (pm m') !! i = pages (pm m3) !! i))
    as (m4 & bs4 & -> & Hs4 & He4 & -> & Hk4 & Hpg4).
  { destruct (carve 1 bs2) as [[]|]; (apply Hi; [|apply PTE_USER_range]); intros la2 Hl2; rewrite He3 by done; by apply Hnew. }
  cbn [rbind]. pose proof (grown_insert bs m bs2 m3 bs2 m4 to p Hg3 Hk4 Hpg4 Hcp) as Hg4.
  exists p, m4, bs2. split; [done|]. split; [by apply (grown_pair bs m bs2 m4 from to)|]. split; [done|]. split; [|split; [|split; [done|split; [|lia]]]].
  - intros l Hl. rewrite He4 by done. unfold upd_ent. case_decide; [done|by apply Ent].
  - pose proof (dp_range _ _ _ _ Hdp). pose proof (PTE_USER_range (entry m from la)). apply pte_make_spec; lia.
  - intros j. rewrite (ks_mem _ _ _ _ _ Hk4); [apply Hm3|apply Hdp|apply Hdp|apply Hdp3].
Qed.

Lemma mapped_nonneg n m d a : 0 <= mapped n m d a.
Proof. revert a. induction n as [|n IH]; intros a; cbn [mapped]; [lia|]. specialize (IH (a + 1)). destruct (present _); lia. Qed.

(** Nothing mapped in [from]: nothing to do. *)
Lemma copied_skip bs m from to a b : pair_ok bs m from to -> 0 <= a -> b * 4096 <= KERNBASE ->
  (forall la, user la -> a <= la / 4096 < b -> present (entry m from la) = false) -> copied bs m bs m from to a b.
Proof.
  intros Hp Ha Hb Hno. split; [done|apply grown_refl|done| |].
  - intros la Hl Hr. unfold page_copy. by rewrite Hno.
  - rewrite mapped_0; [lia|]. intros v Hv. apply Hno; [unfold user; lia|]. rewrite Z.div_mul by lia. lia.
Qed.

(** The page of [to] that a copy made is left alone by what follows. *)
Lemma page_copy_later bs m bs1 m1 bs2 m2 from to la : page_copy bs m m1 from to la -> user la -> space_ok bs1 m1 to -> grown bs1 m1 bs2 m2 to ->
  entry m2 to la = entry m1 to la -> page_copy bs m m2 from to la.
Proof.
  unfold page_copy. intros Hc Hla Hs Hg He. rewrite He. destruct (present (entry m from la)); [|done].
  destruct Hc as (p & He1 & Hp & Hcv & Hm). exists p. split_and!; try done. intros j. rewrite <- Hm.
  assert (present (entry m1 to la) = true) as Hpr by (rewrite He1; apply pte_make_present).
  destruct (sp_page _ _ _ Hs la Hla Hpr) as [Hd _]. rewrite Hp in Hd.
  eapply grown_word_used; [done|apply Hd|by eapply data_not_table].
Qed.

Lemma copied_trans bs bs1 bs2 m m1 m2 from to a b c : 0 <= a <= b -> b <= c -> c * 4096 <= KERNBASE -> pair_ok bs m from to ->
  copied bs m bs1 m1 from to a b -> copied bs1 m1 bs2 m2 from to b c -> copied bs m bs2 m2 from to a c.
Proof.
  intros Hab Hbc Hc Hp [P1 G1 O1 I1 R1] [P2 G2 O2 I2 R2].
  assert (Hfe : forall la, user la -> entry m1 from la = entry m from la) by (intros la Hl; by apply (grown_entry bs m bs1 m1 from to)).
  split; [done|by eapply grown_trans|..].
  - intros la Hl Hr. rewrite O2, O1; [done|done|lia|done|lia].
  - intros la Hl Hr. destruct (Z.lt_ge_cases (la / 4096) b) as [Hlt|Hge].
    + eapply page_copy_later; [apply I1; [done|lia]|done|apply P1|done|]. apply O2; [done|lia].
    + specialize (I2 la Hl ltac:(lia)). unfold page_copy in *. rewrite Hfe in I2 by done.
      destruct (present (entry m from la)) eqn:Hpr; [|rewrite I2; apply O1; [done|lia]].
      destruct I2 as (p & E & Hpp & Hcv & Hm). exists p. split; [done|]. split; [done|].
      split; [by apply (ks_free _ _ _ _ _ (gr_kept _ _ _ _ _ G1))|]. intros j. rewrite Hm.
      apply (grown_word bs m bs1 m1 from to); [done|done|by apply owned_mapped].
  - replace (Z.to_nat (c - a)) with (Z.to_nat (b - a) + Z.to_nat (c - b))%nat by lia.
    rewrite mapped_split. replace (a + Z.of_nat (Z.to_nat (b - a))) with b by lia.
    rewrite (mapped_ext m m1) in R2; [lia|]. intros v Hv. f_equal. apply Hfe. unfold user. lia.
Qed.

(** One iteration at a page that has a table in [from]. *)
Lemma copied_one bs m from to la f : pair_ok bs m from to -> user la -> la mod 4096 = 0 -> pt_of m from la = Some f ->
  present (entry m to la) = false -> 2 * mapped 1 m from (la / 4096) <= total bs ->
  exists m' bs', copy_step to from la m = Ok (None, u32 (la + PGSIZE), m') /\ copied bs m bs' m' from to (la / 4096) (la / 4096 + 1).
Proof.
  intros Hp Hla Hal Hf Hnp Ht.
  assert (Hb : (la / 4096 + 1) * 4096 <= KERNBASE) by (unfold user, KERNBASE in *; pose proof (Z.div_mod la 4096 ltac:(lia)); lia).
  assert (Ha : 0 <= la / 4096) by (destruct Hla; apply Z.div_pos; lia).
  assert (Hsame : forall m d la', user la' -> la / 4096 <= la' / 4096 < la / 4096 + 1 -> entry m d la' = entry m d la).
  { intros m' d la' Hl Hr. apply entry_same_page; [done|done|lia]. }
  assert (Hmap : mapped 1 m from (la / 4096) = if present (entry m from la) then 1 else 0).
  { cbn [mapped]. rewrite Hsame; [destruct (present _); lia|unfold user, KERNBASE in *; lia|rewrite Z.div_mul by lia; lia]. }
  destruct (present (entry m from la)) eqn:Hpr.
  - destruct (copy_step_page bs m from to la Hp Hla Hpr Hnp ltac:(lia)) as (p & m' & bs' & E & Hp' & Hg & He & Hpp & Hc & Hm & Ht').
    exists m', bs'. split; [done|]. split; [done|done|..].
    + intros la' Hl Hr. rewrite He, upd_ent_ne by (done || lia). done.
    + intros la' Hl Hr. unfold page_copy. rewrite Hsame, Hpr by done. exists p. rewrite He, upd_ent_eq by (done || lia). done.
    + replace (Z.to_nat (la / 4096 + 1 - la / 4096)) with 1%nat by lia. lia.
  - exists m, bs. split.
    + unfold copy_step. rewrite (get_pte_present bs m from la false f) by (done || apply Hp). cbn [rbind].
      rewrite (load_pte_entry _ _ _ _ Hf). unfold present in Hpr. by rewrite Hpr.
    + apply copied_skip; [done..|]. intros la' Hl Hr. by rewrite Hsame.
Qed.

(** The addresses from [start] to the end of the part of a missing table. *)
Lemma no_table_range m d start la : user start -> pt_of m d start = None ->
  start <= la < (start / 4194304 + 1) * 4194304 -> pt_of m d la = None.
Proof.
  intros Hs Hpt Hr. unfold pt_of in *. replace (PDX la) with (PDX start); [done|].
  rewrite !PDX_div. f_equal. unfold user in Hs. clear -Hr Hs. Z.to_euclidean_division_equations. lia.
Qed.

Lemma copied_table bs m from to start b : pair_ok bs m from to -> user start -> start mod 4096 = 0 -> pt_of m from start = None ->
  b * 4096 <= (start / 4194304 + 1) * 4194304 -> b * 4096 <= KERNBASE -> copied bs m bs m from to (start / 4096) b.
Proof.
  intros Hp Hu Ha Hpt Hb Hk. apply copied_skip; [done|unfold user in Hu; apply Z.div_pos; lia|done|].
  intros la Hl Hr. rewrite entry_no_table; [done|]. apply (no_table_range m from start); [done|done|].
  unfold user in Hl. clear -Ha Hr Hb. Z.to_euclidean_division_equations. lia.
Qed.

Lemma copy_loop_Ok bs m from to start end_ fuel : pair_ok bs m from to -> start mod 4096 = 0 -> end_ mod 4096 = 0 ->
  0 <= start < end_ -> end_ <= KERNBASE -> (end_ - start) / 4096 < Z.of_nat fuel ->
  (forall la, user la -> start / 4096 <= la / 4096 < end_ / 4096 -> present (entry m to la) = false) ->
  2 * mapped (Z.to_nat (end_ / 4096 - start / 4096)) m from (start / 4096) <= total bs ->
  exists m' bs', copy_loop fuel to from start end_ m = Ok (0, m') /\ copied bs m bs' m' from to (start / 4096) (end_ / 4096).
Proof.
  revert bs m start. induction fuel as [|fuel IH]; intros bs m start Hp Hsa Hea Hse Hek Hf Hno Ht.
  { assert (0 <= (end_ - start) / 4096) by (apply Z.div_pos; lia). lia. }
  assert (Hus : user start) by (unfold user; lia).
  assert (Hkb : end_ / 4096 * 4096 <= KERNBASE) by (pose proof (Z.div_mod end_ 4096); lia).
  cbn [copy_loop]. set (nx := match pt_of m from start with Some _ => start + 4096 | None => (start / 4194304 + 1) * 4194304 end).
  assert (Hnx : start < nx /\ nx mod 4096 = 0 /\ nx <= start + 4194304).
  { unfold nx. destruct (pt_of m from start); clear -Hsa; Z.to_euclidean_division_equations; lia. }
  destruct Hnx as (Hlt & Hna & Hnx). set (b := Z.min (nx / 4096) (end_ / 4096)).
  assert (Hb : start / 4096 < b <= end_ / 4096 /\ b * 4096 <= nx) by (unfold b; clear -Hlt Hna Hsa Hea Hse; Z.to_euclidean_division_equations; lia).
  assert (Hstep : exists m1 bs1, copy_step to from start m = Ok (None, nx, m1) /\ copied bs m bs1 m1 from to (start / 4096) b).
  { unfold b in *. clear b. unfold nx in *. clear nx. destruct (pt_of m from start) as [f|] eqn:Hpt.
    - replace (Z.min ((start + 4096) / 4096) (end_ / 4096)) with (start / 4096 + 1) by (clear -Hsa Hea Hse; Z.to_euclidean_division_equations; lia).
      destruct (copied_one bs m from to start f Hp Hus Hsa Hpt) as (m1 & bs1 & E & Hc); [apply Hno; [done|lia]| |].
      { replace (Z.to_nat (end_ / 4096 - start / 4096)) with (1 + Z.to_nat (end_ / 4096 - start / 4096 - 1))%nat in Ht by lia.
        rewrite mapped_split in Ht. pose proof (mapped_nonneg (Z.to_nat (end_ / 4096 - start / 4096 - 1)) m from (start / 4096 + Z.of_nat 1)). lia. }
      exists m1, bs1. rewrite E. change PGSIZE with 4096. rewrite u32_id by (unfold is_u32, two32, KERNBASE in *; lia). done.
    - exists m, bs. split; [|apply copied_table; (done || lia)].
      unfold copy_step. rewrite (get_pte_absent bs) by (done || apply Hp). cbn [rbind]. by rewrite ROUNDDOWN_next. }
  destruct Hstep as (m1 & bs1 & -> & Hc1). cbn [rbind]. destruct (Z.eqb_spec nx 0); [lia|]. cbn [negb andb].
  destruct (Z.ltb_spec nx end_) as [Hlt'|Hge].
  - replace b with (nx / 4096) in * by (unfold b; clear -Hlt' Hna Hea; Z.to_euclidean_division_equations; lia).
    assert (Hfe : forall la, user la -> entry m1 from la = entry m from la) by (intros la Hl; apply (grown_entry bs m bs1 m1 from to); [done|apply Hc1|done]).
    destruct (IH bs1 m1 nx) as (m2 & bs2 & E2 & Hc2); [apply Hc1|done|done|lia|done| |..].
    + clear -Hf Hlt Hna Hsa Hea. Z.to_euclidean_division_equations. lia.
    + intros la Hl Hr. rewrite (cp_out _ _ _ _ _ _ _ _ Hc1) by (done || lia). apply Hno; [done|lia].
    + pose proof (cp_room _ _ _ _ _ _ _ _ Hc1). replace (Z.to_nat (end_ / 4096 - start / 4096)) with (Z.to_nat (nx / 4096 - start / 4096) + Z.to_nat (end_ / 4096 - nx / 4096))%nat in Ht by lia.
      rewrite mapped_split in Ht. replace (start / 4096 + Z.of_nat (Z.to_nat (nx / 4096 - start / 4096))) with (nx / 4096) in Ht by lia.
      rewrite (mapped_ext m m1); [lia|]. intros v Hv. f_equal. apply Hfe. assert (0 <= nx / 4096) by (apply Z.div_pos; lia). unfold user, KERNBASE in *. lia.
    + exists m2, bs2. split; [done|]. assert (0 <= start / 4096) by (apply Z.div_pos; lia). apply (copied_trans bs bs1 bs2 m m1 m2 from to (start / 4096) (nx / 4096)); (done || lia).
  - exists m1, bs1. split; [done|]. replace (end_ / 4096) with b; [done|]. unfold b. clear -Hge Hna Hea. Z.to_euclidean_division_equations. lia.
Qed.
