(* ===== verification/ForkMem.v ===== *)
(** * Duplicating an address space: areas, directory and processes

    On top of [Dup]: [dup_mmap] (kern/mm/vmm.c) copies the areas of an
    address space with their pages, and [copy_mm] (kern/process/proc.c) makes
    the result the memory of a new process. *)
From S2P Require Import Prelude DList Blocks Atomic Arith CString DefaultPmm Kern Sched Proc IoBuf BlockDev Sfs Vfs File SysFile PageTable Tlb Pmm Swap Vmm Exec ExecMem ExecRun Dup Fork.

(** ** Areas *)

Definition aligned_area (v : vma_struct) : Prop := vm_start v mod PGSIZE = 0 /\ vm_end v mod PGSIZE = 0 /\ USERBASE <= vm_start v.
Definition area_pages (m : machine) (d : Z) (v : vma_struct) : Z := mapped (Z.to_nat (vm_end v / 4096 - vm_start v / 4096)) m d (vm_start v / 4096).
Definition areas_pages (m : machine) (d : Z) (l : list vma_struct) : Z := foldr (fun v n => area_pages m d v + n) 0 l.
Definition in_areas (l : list vma_struct) (la : Z) : Prop := exists v, v ∈ l /\ in_vma la v = true.

Lemma in_vma_pages v la : aligned_area v -> in_vma la v = true <-> vm_start v / 4096 <= la / 4096 < vm_end v / 4096.
Proof.
  intros (H1 & H2 & _). unfold in_vma. change PGSIZE with 4096 in *. rewrite andb_true_iff, Z.leb_le, Z.ltb_lt.
  clear -H1 H2. Z.to_euclidean_division_equations. lia.
Qed.

Lemma areas_pages_ext m m' d l : (forall la, user la -> entry m' d la = entry m d la) -> (forall v, v ∈ l -> 0 <= vm_start v < vm_end v /\ vm_end v <= USERTOP) ->
  areas_pages m' d l = areas_pages m d l.
Proof.
  intros He. induction l as [|v l IH]; intros Hl; [done|]. cbn [areas_pages foldr]. fold (areas_pages m' d l) (areas_pages m d l).
  rewrite IH by (intros w Hw; apply Hl; set_solver). f_equal. apply mapped_ext. intros p Hp. f_equal. apply He.
  destruct (Hl v ltac:(set_solver)) as [Hv1 Hv2]. unfold user, KERNBASE, USERTOP in *. Z.to_euclidean_division_equations. lia.
Qed.

Lemma areas_pages_nonneg m d l : 0 <= areas_pages m d l.
Proof.
  induction l as [|v l IH]; [done|]. cbn [areas_pages foldr]. fold (areas_pages m d l). unfold area_pages.
  pose proof (mapped_nonneg (Z.to_nat (vm_end v / 4096 - vm_start v / 4096)) m d (vm_start v / 4096)). lia.
Qed.

(** An area that comes before all others. *)
Lemma insert_front mm v : vl_ok 0 (v :: mmap_list mm) ->
  insert_vma_struct mm v = Ok (set_map_count (s32 (map_count mm + 1)) (set_list (v :: mmap_list mm) mm)).
Proof.
  intros [[H0 Hv] Hl]. unfold insert_vma_struct. destruct (Z.ltb_spec (vm_start v) (vm_end v)); [|lia]. cbn [rassert rbind].
  destruct (mmap_list mm) as [|n l]; [done|]. destruct Hl as [Hn _]. cbn [insert_scan].
  destruct (Z.ltb_spec (vm_start v) (vm_start n)); [|lia]. cbn [last head rbind]. rewrite overlap_ok by lia.
  destruct (Z.leb_spec (vm_end v) (vm_start n)); [done|lia].
Qed.

Lemma insert_front_ok mm v : mm_ok mm -> vl_ok 0 (v :: mmap_list mm) -> vm_end v <= USERTOP ->
  Z.of_nat (length (mmap_list mm)) < 2147483646 -> mm_ok (set_map_count (s32 (map_count mm + 1)) (set_list (v :: mmap_list mm) mm)).
Proof.
  intros [_ Ht Hc [Hn _]] Hl Hv Hsz. split; cbn [set_map_count set_list mmap_list mmap_cache map_count].
  - done.
  - intros w [->|Hw]%elem_of_cons; [done|by apply Ht].
  - intros w Hw. apply elem_of_cons. right. by apply Hc.
  - rewrite s32_id by (unfold is_s32; lia). cbn [length]. lia.
Qed.

(** ** The pages of some areas *)

Record copied_areas (bs : list block) (m : machine) (bs' : list block) (m' : machine) (from to : Z) (l : list vma_struct) : Prop := {
  ca_pair : pair_ok bs' m' from to;
  ca_grown : grown bs m bs' m' to;
  ca_out : forall la, user la -> ~ in_areas l la -> entry m' to la = entry m to la;
  ca_in : forall la, user la -> in_areas l la -> page_copy bs m m' from to la;
  ca_room : total bs - 2 * areas_pages m from l <= total bs'
}.

Lemma copied_nil bs m from to : pair_ok bs m from to -> copied_areas bs m bs m from to [].
Proof.
  intros Hp. split; [done|apply grown_refl|done| |cbn; lia]. intros la _ (v & Hv & _). by apply not_elem_of_nil in Hv.
Qed.

Lemma copied_cons bs m bs1 m1 bs2 m2 from to v l : pair_ok bs m from to -> aligned_area v ->
  (forall w, w ∈ l -> aligned_area w /\ disjoint_from v w /\ 0 <= vm_start w < vm_end w /\ vm_end w <= USERTOP) ->
  copied bs m bs1 m1 from to (vm_start v / 4096) (vm_end v / 4096) -> copied_areas bs1 m1 bs2 m2 from to l -> copied_areas bs m bs2 m2 from to (v :: l).
Proof.
  intros Hp Hv Hl [P1 G1 O1 I1 R1] [P2 G2 O2 I2 R2].
  assert (Hfe : forall la, user la -> entry m1 from la = entry m from la) by (intros la Hla; by apply (grown_entry bs m bs1 m1 from to)).
  assert (Hout : forall la, in_vma la v = true -> ~ in_areas l la).
  { intros la Hin (w & Hw & Hiw). destruct (Hl w Hw) as (_ & Hd & _). unfold in_vma, disjoint_from in *. lia. }
  split; [done|by eapply grown_trans|..].
  - intros la Hla Hno. rewrite O2, O1; [done|done| |done|].
    + rewrite <- in_vma_pages by done. intros Hin. apply Hno. exists v. split; [set_solver|done].
    + intros (w & Hw & Hiw). apply Hno. exists w. split; [set_solver|done].
  - intros la Hla (w & [->|Hw]%elem_of_cons & Hin).
    + eapply page_copy_later; [apply I1; [done|by apply in_vma_pages]|done|apply P1|done|]. apply O2; [done|by apply Hout].
    + specialize (I2 la Hla ltac:(by exists w)). assert (entry m1 to la = entry m to la) as He1.
      { apply O1; [done|]. rewrite <- in_vma_pages by done. intros Hiv. apply (Hout la Hiv). by exists w. }
      unfold page_copy in *. rewrite Hfe in I2 by done. destruct (present (entry m from la)) eqn:Hpr; [|congruence].
      destruct I2 as (p & E & Hpp & Hcv & Hm). exists p. split; [done|]. split; [done|].
      split; [by apply (ks_free _ _ _ _ _ (gr_kept _ _ _ _ _ G1))|]. intros j. rewrite Hm.
      apply (grown_word bs m bs1 m1 from to); [done|done|by apply owned_mapped].
  - rewrite (areas_pages_ext m m1) in R2; [|done|intros w Hw; by apply Hl]. cbn [areas_pages foldr]. fold (areas_pages m from l). unfold area_pages. lia.
Qed.

(** ** [dup_mmap] *)

Lemma copy_range_Ok bs m from to v : pair_ok bs m from to -> aligned_area v -> vm_start v < vm_end v -> vm_end v <= USERTOP ->
  (forall la, user la -> in_vma la v = true -> present (entry m to la) = false) -> 2 * area_pages m from v <= total bs ->
  exists m' bs', copy_range to from (vm_start v) (vm_end v) m = Ok (0, m') /\ copied bs m bs' m' from to (vm_start v / 4096) (vm_end v / 4096).
Proof.
  intros Hp Hv Hlt Htop Hno Ht. pose proof Hv as (H1 & H2 & H3). unfold copy_range, page_aligned, USER_ACCESS. rewrite H1, H2. cbn [Z.eqb].
  destruct (Z.leb_spec USERBASE (vm_start v)); [|lia]. destruct (Z.ltb_spec (vm_start v) (vm_end v)); [|lia].
  destruct (Z.leb_spec (vm_end v) USERTOP); [|lia]. cbn [andb rassert rbind]. change PGSIZE with 4096 in *. unfold USERBASE, USERTOP in *.
  apply copy_loop_Ok; try done; try (unfold KERNBASE; lia); [unfold range_fuel; change PGSIZE with 4096; lia|].
  intros la Hla Hr. apply Hno; [done|]. by apply in_vma_pages.
Qed.

#[export] Instance in_areas_dec l la : Decision (in_areas l la).
Proof.
  refine (cast_if (decide (Exists (fun v => in_vma la v = true) l))); abstract (unfold in_areas; rewrite <- list.Exists_exists; done).
Defined.

Lemma in_areas_reverse l la : in_areas (reverse l) la <-> in_areas l la.
Proof. unfold in_areas. by setoid_rewrite elem_of_reverse. Qed.

(** The areas [l1] are copied, last first, in front of those of [mm]. *)
Lemma dup_loop_Ok l1 : forall oks mm bs m from to, Forall (eq true) oks -> mm_ok mm -> pgdir mm = to ->
  vl_ok 0 (l1 ++ mmap_list mm) -> (forall v, v ∈ l1 -> aligned_area v /\ vm_end v <= USERTOP) -> Z.of_nat (length (l1 ++ mmap_list mm)) < 2147483647 ->
  pair_ok bs m from to -> (forall la, user la -> in_areas l1 la -> present (entry m to la) = false) -> 2 * areas_pages m from (reverse l1) <= total bs ->
  exists mm' m' bs', dup_loop (reverse l1) oks mm from m = Ok (0, mm', m') /\ mm_ok mm' /\ mmap_list mm' = l1 ++ mmap_list mm /\ pgdir mm' = to /\
    mm_count mm' = mm_count mm /\ copied_areas bs m bs' m' from to (reverse l1).
Proof.
  induction l1 as [|v l1 IH] using rev_ind; intros oks mm bs m from to Hoks Hok Hto Hvl Hal Hsz Hp Hno Ht.
  { exists mm, m, bs. split; [done|]. split_and!; try done. by apply copied_nil. }
  rewrite reverse_snoc in *. cbn [dup_loop]. rewrite <- app_assoc in Hvl, Hsz. cbn [app] in Hvl, Hsz.
  assert (match oks with [] => true | b :: _ => b end = true) as -> by (destruct Hoks as [|? ? <-]; done).
  destruct v as [vs ve vf] eqn:Ev. cbn [vma_create vm_start vm_end vm_flags]. rewrite <- Ev in *.
  pose proof (proj1 (vl_app 0 l1 _) Hvl) as [Hl1 Hlv]. destruct (Hal v ltac:(set_solver)) as [Hav Htop].
  pose proof (vl_elem 0 (l1 ++ v :: mmap_list mm) v Hvl ltac:(set_solver)) as [Hv _].
  assert (Hvm : vl_ok 0 (v :: mmap_list mm)) by (destruct Hlv; split; [lia|done]).
  assert (Hlen : Z.of_nat (length (mmap_list mm)) < 2147483646) by (rewrite length_app in Hsz; cbn [length] in Hsz; lia).
  rewrite insert_front by done. cbn [rbind]. pose proof (insert_front_ok mm v Hok Hvm Htop Hlen) as Hok1. set (mm1 := set_map_count _ _) in *.
  change (pgdir mm1) with (pgdir mm). rewrite Hto.
  cbn [areas_pages foldr] in Ht. fold (areas_pages m from (reverse l1)) in Ht. pose proof (areas_pages_nonneg m from (reverse l1)) as Hnn.
  destruct (copy_range_Ok bs m from to v Hp Hav ltac:(lia) Htop) as (m1 & bs1 & E & Hc1); [|lia|].
  { intros la Hla Hin. apply Hno; [done|]. exists v. split; [set_solver|done]. }
  replace vs with (vm_start v) by by rewrite Ev. replace ve with (vm_end v) by by rewrite Ev. rewrite E. cbn [rbind Z.eqb negb].
  assert (Hw : forall w, w ∈ reverse l1 -> aligned_area w /\ disjoint_from v w /\ 0 <= vm_start w < vm_end w /\ vm_end w <= USERTOP).
  { intros w Hw. rewrite elem_of_reverse in Hw. destruct (Hal w ltac:(set_solver)) as [? ?]. destruct (vl_elem 0 l1 w Hl1 Hw) as [? ?]. destruct Hlv as [? _].
    split_and!; try done; try lia. left. lia. }
  assert (Hfe : forall la, user la -> entry m1 from la = entry m from la) by (intros la Hla; apply (grown_entry bs m bs1 m1 from to); [done|apply Hc1|done]).
  destruct (IH (tail oks) mm1 bs1 m1 from to) as (mm' & m' & bs' & E' & Hok' & Hml' & Hto' & Hcnt' & Hc'); try done.
  - by destruct Hoks.
  - intros w Hw'. apply Hal. set_solver.
  - apply Hc1.
  - intros la Hla Hin. rewrite (cp_out _ _ _ _ _ _ _ _ Hc1); [apply Hno; [done|]|done|].
    + destruct Hin as (w & ? & ?). exists w. split; [set_solver|done].
    + rewrite <- in_vma_pages by done. intros Hiv. destruct Hin as (w & Hw' & Hiw). destruct (Hw w) as (_ & Hd & _); [by rewrite elem_of_reverse|].
      unfold in_vma, disjoint_from in *. lia.
  - rewrite (areas_pages_ext m m1); [|done|intros w Hw'; by apply Hw]. pose proof (cp_room _ _ _ _ _ _ _ _ Hc1). unfold area_pages in Ht. lia.
  - exists mm', m', bs'. split; [done|]. split; [done|]. rewrite <- app_assoc. split; [done|]. split_and!; try done.
    by apply (copied_cons bs m bs1 m1).
Qed.

(** ** A new address space *)

(** The address space [old] and what duplicating it needs: the kernel's
    directory and enough free pages, two for every mapped page and one for
    the new directory. *)
Record dup_ready (bs : list block) (m : machine) (boot : Z) (old : mm_struct) : Prop := {
  dr_mm : mm_ok old;
  dr_areas : forall v, v ∈ mmap_list old -> aligned_area v;
  dr_space : space_ok bs m (pgdir old);
  dr_boot : kernel_dir bs m boot;
  dr_cur : forall d, cur_pgdir m = Some d -> ~ covers bs d;
  dr_swap : swap_init_ok m = true -> is_Some (pra m !! pra_list_head);
  dr_room : 1 + 2 * areas_pages m (pgdir old) (reverse (mmap_list old)) <= total bs
}.

(** [new] is a copy of [old]: the same bytes with the same permissions in
    pages of its own; the other pages in use are as before. *)
Record space_copied (bs : list block) (m : machine) (bs' : list block) (m' : machine) (old new : Z) (l : list vma_struct) : Prop := {
  sc_old : space_ok bs' m' old;
  sc_new : space_ok bs' m' new;
  sc_rest : npage m' = npage m /\ cur_pgdir m' = cur_pgdir m;
  sc_kept : forall la, user la -> entry m' old la = entry m old la /\ (present (entry m old la) = true -> ubyte m' old la = ubyte m old la);
  sc_copy : forall la, user la -> in_areas l la -> present (entry m old la) = true ->
    present (entry m' new la) = true /\ Z.land (entry m' new la) PTE_USER = Z.land (entry m old la) PTE_USER /\
    ubyte m' new la = ubyte m old la /\ covers bs (PPN (entry m' new la));
  sc_none : forall la, user la -> ~ in_areas l la \/ present (entry m old la) = false -> present (entry m' new la) = false;
  sc_kernel : forall q, 0 <= q < npage m -> ~ covers bs q -> ~ owned m old q ->
    kernel_page bs' m' old q /\ kernel_page bs' m' new q /\ forall j, mem m' q j = mem m q j
}.

(** The two spaces share no page. *)
Lemma copied_apart bs m bs' m' old new l la la' : space_copied bs m bs' m' old new l -> space_ok bs m old -> user la -> user la' ->
  present (entry m' new la) = true -> present (entry m old la') = true -> PPN (entry m' new la) <> PPN (entry m old la').
Proof.
  intros [So Sn Sr Sk Sc Sx _] Hs Hla Hla' Hp Hp' Heq. destruct (decide (present (entry m old la) = true)) as [Ho|Ho].
  - destruct (decide (in_areas l la)) as [Hin|Hout].
    + destruct (Sc la Hla Hin Ho) as (_ & _ & _ & Hc). rewrite Heq in Hc. apply (owned_used bs m old _ Hs) in Hc; [done|]. by apply owned_mapped.
    + rewrite Sx in Hp by (done || by left). done.
  - rewrite Sx in Hp; [done|done|right]. by destruct (present (entry m old la)).
Qed.

Lemma pte_make_perm p e : 0 <= p < 1048576 -> present e = true -> Z.land (pte_make p (Z.land e PTE_USER)) PTE_USER = Z.land e PTE_USER.
Proof.
  intros Hp He. apply Z.bits_inj'. intros n Hn. unfold pte_make. rewrite !Z.land_spec, !Z.lor_spec, !Z.land_spec, page2pa_mul by done.
  change PTE_USER with 7. change PTE_P with 1. destruct (Z.testbit 7 n) eqn:H7; [|by rewrite !andb_false_r].
  assert (n < 3) as Hn3. { destruct (Z.lt_ge_cases n 3); [done|]. rewrite Z.bits_above_log2 in H7; [done|lia|change (Z.log2 7) with 2; lia]. }
  rewrite !andb_true_r. replace (p * 4096) with (p * 2 ^ 12) by lia. rewrite Z.mul_pow2_bits_low by lia. cbn [orb].
  destruct (Z.eq_dec n 0) as [->|Hn0]; [|by replace (Z.testbit 1 n) with false by (assert (n = 1 \/ n = 2) as [-> | ->] by lia; done)].
  unfold present in He. apply negb_true_iff, Z.eqb_neq in He. change PTE_P with (Z.ones 1) in He. rewrite Z.land_ones in He by lia.
  change (2 ^ 1) with 2 in He. pose proof (Z.mod_pos_bound e 2 ltac:(lia)).
  assert (Z.testbit e 0 = true) as -> by (rewrite Z.bit0_eqb; apply Z.eqb_eq; lia). done.
Qed.

Lemma copied_kernel bs0 bs m bs' m' from to l q : pair_ok bs m from to -> copied_areas bs m bs' m' from to l -> (forall la, user la -> present (entry m to la) = false) ->
  (forall i, covers bs i -> covers bs0 i) -> (forall q, table m to q -> covers bs0 q) ->
  0 <= q < npage m -> ~ covers bs0 q -> ~ owned m from q -> kernel_page bs' m' from q /\ kernel_page bs' m' to q /\ forall j, mem m' q j = mem m q j.
Proof.
  intros Hp [P1 G O I R] Hno Hsub Htab Hr Hq Ho. destruct (ks_rest _ _ _ _ _ (gr_kept _ _ _ _ _ G)) as [Hn _].
  assert (Hu : ~ covers bs q) by (intros Hc; by apply Hq, Hsub). assert (Hu' : ~ covers bs' q) by (intros Hc; by apply Hu, (ks_free _ _ _ _ _ (gr_kept _ _ _ _ _ G))).
  assert (Ho' : ~ owned m' from q) by (intros Hx; apply Ho; by apply (kept_owned m m' from (grown_word bs m bs' m' from to Hp G))).
  assert (Ht' : ~ table m' to q) by (intros Hx; destruct (grown_table bs m bs' m' to G q Hx) as [Hx'|Hx']; [by apply Hq, Htab|by apply Hu]).
  split; [|split].
  - split; [split; [by rewrite Hn|done|intros ->; apply Ho'; left; by left|intros la f Hl Hf ->; apply Ho'; left; right; by exists la]|].
    intros la Hl Hpr Heq. apply Ho'. right. by exists la.
  - split; [split; [by rewrite Hn|done|intros ->; apply Ht'; by left|intros la f Hl Hf ->; apply Ht'; right; by exists la]|].
    intros la Hl Hpr Heq. destruct (decide (in_areas l la)) as [Hin|Hout]; [|by rewrite O, Hno in Hpr].
    specialize (I la Hl Hin). unfold page_copy in I. destruct (present (entry m from la)); [|by rewrite I, Hno in Hpr].
    destruct I as (p & _ & Hpp & Hc & _). apply Hu. by rewrite <- Heq, Hpp.
  - intros j. apply (grown_word_used bs m bs' m' to); [done|done|]. intros Hx. by apply Hq, Htab.
Qed.

Lemma copied_bytes bs0 bs m bs' m' from to l : pair_ok bs m from to -> copied_areas bs m bs' m' from to l -> (forall la, user la -> present (entry m to la) = false) ->
  (forall i, covers bs i -> covers bs0 i) -> (forall q, table m to q -> covers bs0 q) -> space_copied bs0 m bs' m' from to l.
Proof.
  intros Hp Hca Hno Hsub Htab. pose proof (fun q => copied_kernel bs0 bs m bs' m' from to l q Hp Hca Hno Hsub Htab) as Hker. destruct Hca as [P1 G O I R]. pose proof (po_to _ _ _ _ P1) as Ht. pose proof (po_from _ _ _ _ Hp) as Hf.
  assert (Hfe : forall la, user la -> entry m' from la = entry m from la) by (intros la Hla; by apply (grown_entry bs m bs' m' from to)).
  split; [apply P1|done|apply G| | | |exact Hker].
  - intros la Hla. split; [by apply Hfe|]. intros Hpr. unfold ubyte. rewrite Hfe by done. apply kbytes_ext; [by apply Z.mod_pos_bound|].
    intros j. apply (grown_word bs m bs' m' from to); [done|done|by apply owned_mapped].
  - intros la Hla Hin Hpr. specialize (I la Hla Hin). unfold page_copy in I. rewrite Hpr in I. destruct I as (p & He & Hpp & Hc & Hm).
    assert (present (entry m' to la) = true) as Hpr' by (rewrite He; apply pte_make_present).
    destruct (sp_page _ _ _ Ht la Hla Hpr') as [Hd _]. rewrite Hpp in Hd. pose proof (dp_range _ _ _ _ Hd). pose proof (wf_np _ _ _ (proj1 (sp_ready _ _ _ Ht))).
    split; [done|]. split; [rewrite He; apply pte_make_perm; (done || lia)|]. split; [|rewrite Hpp; auto].
    unfold ubyte. rewrite Hpp. unfold kbytes. assert (0 <= la mod PGSIZE < PGSIZE) by by apply Z.mod_pos_bound.
    fold (kpage (kva p + la mod PGSIZE)) (kpage (kva (PPN (entry m from la)) + la mod PGSIZE)). rewrite !kpage_kva by done. rewrite Hm.
    assert (Hoff : forall k, (kva k + la mod PGSIZE - KERNBASE) mod PGSIZE = la mod PGSIZE /\ (kva k + la mod PGSIZE - KERNBASE) mod 4 = la mod PGSIZE mod 4).
    { intros k. unfold kva, PGSIZE in *. clear. Z.to_euclidean_division_equations. lia. }
    destruct (Hoff p) as [-> ->], (Hoff (PPN (entry m from la))) as [-> ->]. done.
  - intros la Hla Hor. destruct (decide (in_areas l la)) as [Hin|Hout]; [|rewrite O by done; by apply Hno].
    specialize (I la Hla Hin). unfold page_copy in I. destruct (present (entry m from la)); [by destruct Hor|]. rewrite I. by apply Hno.
Qed.

(** Seen from a machine whose old space is the same. *)
Lemma space_copied_from bs0 m0 m bs' m' old new l : space_copied bs0 m bs' m' old new l ->
  (forall la, user la -> entry m old la = entry m0 old la /\ (present (entry m0 old la) = true -> ubyte m old la = ubyte m0 old la)) ->
  npage m = npage m0 /\ cur_pgdir m = cur_pgdir m0 -> (forall q j, ~ covers bs0 q -> mem m q j = mem m0 q j) -> (forall q, owned m old q -> owned m0 old q) ->
  space_copied bs0 m0 bs' m' old new l.
Proof.
  intros [So Sn [R1 R2] Sk Sc Sx Sq] He [E1 E2] Hm Ho. split; [done|done|split; congruence|..].
  - intros la Hla. destruct (He la Hla) as [Heq Hb], (Sk la Hla) as [Hk Hkb]. split; [congruence|]. intros Hp. rewrite Hkb by by rewrite Heq. by apply Hb.
  - intros la Hla Hin Hp. destruct (He la Hla) as [Heq Hb]. destruct (Sc la Hla Hin) as (H1 & H2 & H3 & H4); [by rewrite Heq|].
    rewrite Heq in H2. rewrite (Hb Hp) in H3. done.
  - intros la Hla. destruct (He la Hla) as [<- _]. by apply Sx.
  - intros q Hr Hu Hno. destruct (Sq q) as (K1 & K2 & K3); [by rewrite E1|done|auto|]. split; [done|]. split; [done|]. intros j. rewrite K3. by apply Hm.
Qed.

Lemma areas_reverse bs m bs' m' old new l : space_copied bs m bs' m' old new (reverse l) -> space_copied bs m bs' m' old new l.
Proof.
  intros [So Sn Sr Sk Sc Sx Sq]. split; try done.
  - intros la Hla Hin. apply Sc; [done|]. by apply in_areas_reverse.
  - intros la Hla Hor. apply Sx; [done|]. rewrite in_areas_reverse. done.
Qed.

(** [setup_pgdir] for a second space. *)
Lemma setup_pgdir_pair bs m boot mm old : kernel_dir bs m boot -> space_ok bs m old -> 0 < total bs -> (forall d, cur_pgdir m = Some d -> ~ covers bs d) ->
  exists dir m' bs', setup_pgdir boot mm m = Ok (0, mk_mm (mmap_list mm) (mmap_cache mm) dir (map_count mm) (sm_priv mm) (mm_count mm), m') /\
    pair_ok bs' m' old dir /\ (forall la, user la -> present (entry m' dir la) = false) /\ covers bs dir /\ (forall i, covers bs' i -> covers bs i) /\
    total bs = total bs' + 1 /\ npage m' = npage m /\ cur_pgdir m' = cur_pgdir m /\
    (forall q, table m' dir q -> covers bs q) /\ (forall q j, ~ covers bs q -> mem m' q j = mem m q j) /\ (forall q, owned m' old q -> owned m old q) /\
    (forall la, user la -> entry m' old la = entry m old la /\ (present (entry m old la) = true -> ubyte m' old la = ubyte m old la)).
Proof.
  intros Hk Hs Ht Hcur.
  destruct (setup_pgdir_Ok bs m boot mm Hk Ht Hcur) as (dir & m1 & bs1 & E & Hs1 & Hpt & Hcd & Hfree & Htot & Hnp & Hcur1 & Htlb & Hmem & Hpgs).
  assert (Hw : forall q j, owned m old q -> mem m1 q j = mem m q j).
  { intros q j Ho. apply Hmem. intros ->. by apply (owned_used bs m old dir Hs Ho). }
  exists dir, m1, bs1. split; [done|]. split; [split|split_and!; try done].
  - apply (kept_other bs m bs1 m1 old Hs Hw dir); try done. by rewrite Hcur1, Htlb.
  - done.
  - intros q Hq%(kept_owned m m1 old Hw) [->|(la & Hla & Hbad)]; [by apply (owned_used bs m old dir Hs Hq)|]. by rewrite Hpt in Hbad.
  - rewrite Hcur1. intros Hd. by apply (Hcur dir Hd).
  - intros la Hla. by rewrite entry_no_table by by apply Hpt.
  - intros q [->|(la & Hla & Hbad)]; [done|]. by rewrite Hpt in Hbad.
  - intros q j Hq. apply Hmem. by intros ->.
  - apply (kept_owned m m1 old Hw).
  - intros la Hla. pose proof (kept_entry m m1 old Hw la Hla) as He. split; [done|]. intros Hp. unfold ubyte. rewrite He.
    apply kbytes_ext; [by apply Z.mod_pos_bound|]. intros j. apply Hw. by apply owned_mapped.
Qed.

Lemma dup_mm_Ok bs m boot old oks : dup_ready bs m boot old -> Forall (eq true) oks ->
  exists mm m' bs', dup_mm true oks boot old m = Ok (0, Some mm, m') /\ mm_ok mm /\ mmap_list mm = mmap_list old /\ mm_count mm = 0 /\
    pgdir mm <> pgdir old /\ space_copied bs m bs' m' (pgdir old) (pgdir mm) (mmap_list old).
Proof.
  intros [Hok Hal Hs [Hb Hbu] Hcur Hsw Hroom] Hoks. unfold dup_mm.
  destruct (mm_create_Ok m Hsw) as (mm0 & s & -> & L1 & L2 & L3 & L4). cbn [rbind].
  pose proof (set_pra_space bs m boot s Hb) as Hb0. pose proof (set_pra_space bs m (pgdir old) s Hs) as Hs0.
  pose proof (areas_pages_nonneg m (pgdir old) (reverse (mmap_list old))) as Hnn.
  destruct (setup_pgdir_pair bs (set_pra s m) boot mm0 (pgdir old)) as (dir & m1 & bs1 & E1 & Hp1 & Hno & Hcd & Hfree & Htot & Hnp & Hcur1 & Htab & Hmem1 & Hown1 & He1); [done|done|lia|done|].
  rewrite E1. cbn [rbind Z.eqb negb]. set (mm1 := mk_mm _ _ _ _ _ _).
  assert (Hok1 : mm_ok mm1) by (split; cbn; rewrite ?L1, ?L2, ?L3; [done|by intros v ?%elem_of_nil|done|done]).
  destruct (dup_loop_Ok (mmap_list old) oks mm1 bs1 m1 (pgdir old) dir Hoks Hok1 eq_refl) as (mm & m' & bs' & E & Hok' & Hml & Hdir & Hcnt & Hc).
  - cbn. rewrite L1, app_nil_r. apply Hok.
  - intros v Hv. split; [by apply Hal|by apply Hok].
  - cbn. rewrite L1, app_nil_r. destruct (mm_size _ Hok). lia.
  - done.
  - intros la Hla _. by apply Hno.
  - rewrite (areas_pages_ext m m1).
    + lia.
    + intros la Hla. by apply He1.
    + intros v Hv. rewrite elem_of_reverse in Hv. destruct (vl_elem 0 _ v (mm_areas _ Hok) Hv). split; [lia|by apply Hok].
  - unfold dup_mmap. rewrite E. cbn [rbind Z.eqb negb]. exists mm, m', bs'. split; [done|]. split; [done|]. split; [by rewrite Hml; cbn; rewrite L1, app_nil_r|].
    split; [by rewrite Hcnt|]. rewrite Hdir. split.
    + intros ->. by apply (wf_dir _ _ _ (proj1 (sp_ready _ _ _ Hs))) in Hcd.
    + apply areas_reverse. apply (space_copied_from bs m m1); try done. by apply (copied_bytes bs bs1).
Qed.
