(* ===== verification/ForkRun.v ===== *)
(** * A new process: everything together (kern/process/proc.c)

    [do_fork] in a kernel that runs processes: the child enters the process
    table, and has a kernel stack, a copy of the parent's memory, its files
    and the registers with which it returns from the call. *)
From S2P Require Import Prelude DList Blocks Atomic Arith CString DefaultPmm Kern Sched Proc ProcInv ProcLife ProcSafe IoBuf BlockDev Sfs SfsFile Vfs File Dev FileInv SfsOps SfsMount SysFile UserMem SysRead PageTable Tlb Pmm Swap Vmm Exec ExecMem ExecRun Dup Fork ForkMem.

(** ** The kernel stack *)

Lemma alloc_pages_Ok n bs m k bs1 : pmm_inv (npage m) (pm m) bs -> 0 < n -> carve n bs = Some (k, bs1) ->
  exists pm', alloc_pages n m = Ok (Some k, set_pm pm' m) /\ alloc_post (npage m) n (pm m) bs k bs1 pm' /\
    total bs = total bs1 + n /\ (forall i, covers bs i <-> covers bs1 i \/ k <= i < k + n) /\ (forall i, covers bs1 i -> ~ k <= i < k + n).
Proof.
  intros Hinv Hn Hc. pose proof (alloc_pages_refines _ _ _ n Hinv Hn) as Ha. rewrite Hc in Ha. destruct Ha as (st' & E & Hp).
  unfold alloc_pages. rewrite E. cbn [rbind]. exists st'. split; [done|]. split; [done|].
  destruct (carve_Some (-1) n bs k bs1 Hn (inv_canon _ _ _ Hinv) Hc) as (_ & H1 & H2 & H3). done.
Qed.

(** Every address space stays as it is. *)
Lemma alloc_pages_space n bs m k bs1 pm' d : alloc_post (npage m) n (pm m) bs k bs1 pm' -> (forall i, covers bs1 i -> covers bs i) ->
  space_ok bs m d -> space_ok bs1 (set_pm pm' m) d.
Proof.
  intros (Hinv & _ & _ & _ & Hpg) Hsub Hs. pose proof Hs as [[[W1 W2 [W3 W3'] W4 W5 W6] Hcoh] _ _].
  eapply (space_frame bs bs1 m); try done; [|intros la f _; by left]. split; [split; try done|done].
  - split; [done|]. intros Hi. by apply W3', Hsub.
  - intros la f Hl Hf. destruct (W4 la f Hl Hf) as (? & Hu & ?). split; [done|]. split; [|done]. intros Hi. by apply Hu, Hsub.
Qed.

Lemma dup_ready_stack n bs m boot old k bs1 pm' : dup_ready bs m boot old -> alloc_post (npage m) n (pm m) bs k bs1 pm' ->
  (forall i, covers bs1 i -> covers bs i) -> 1 + 2 * areas_pages m (Vmm.pgdir old) (reverse (mmap_list old)) <= total bs1 ->
  dup_ready bs1 (set_pm pm' m) boot old.
Proof.
  intros [D1 D2 D3 [D4 D4'] D5 D6 _] Hp Hsub Ht. split; try done.
  - by eapply alloc_pages_space.
  - split; [by eapply alloc_pages_space|done].
  - intros d Hd Hc. by apply (D5 d Hd), Hsub.
  - rewrite (areas_pages_ext m); [done|done|]. intros v Hv. rewrite elem_of_reverse in Hv.
    destruct (vl_elem 0 _ v (mm_areas _ D1) Hv). split; [lia|by apply D1].
Qed.

(** ** Writing to a page of the kernel *)

Lemma space_copied_write bs m bs' m' old new l q b : space_copied bs m bs' m' old new l -> patch (fun p => p = q) m' b -> covers bs q ->
  kernel_page bs' m' old q -> kernel_page bs' m' new q -> space_copied bs m bs' (kstore b m') old new l.
Proof.
  intros [So Sn [R1 R2] Sk Sc Sx Sq] HP Hq [Ko Ko'] [Kn Kn'].
  assert (Hpo : forall p, p = q -> plain_page bs' m' old p) by (by intros p ->). assert (Hpn : forall p, p = q -> plain_page bs' m' new p) by (by intros p ->).
  pose proof (patch_entry bs' m' old _ b So HP Hpo) as Eo. pose proof (patch_entry bs' m' new _ b Sn HP Hpn) as En.
  assert (Hub : forall d la, space_ok bs' m' d -> (forall p, p = q -> plain_page bs' m' d p) -> (forall la, user la -> present (entry m' d la) = true -> PPN (entry m' d la) <> q) ->
    user la -> present (entry m' d la) = true -> ubyte (kstore b m') d la = ubyte m' d la).
  { intros d la Hd Hpl Hne Hla Hpr. rewrite (patch_ubyte bs' m' d _ b la Hd HP Hpl Hla). unfold ubyte. rewrite (pa_out _ _ _ HP); [done|].
    rewrite kpage_kva by by apply Z.mod_pos_bound. by apply Hne. }
  split; [by apply (patch_space bs' m' old _ b So HP Hpo)|by apply (patch_space bs' m' new _ b Sn HP Hpn)|done|..].
  - intros la Hla. rewrite Eo by done. destruct (Sk la Hla) as [E Hb]. split; [done|]. intros Hpr. rewrite Hub; [by apply Hb|done..|by rewrite E].
  - intros la Hla Hin Hpr. destruct (Sc la Hla Hin Hpr) as (H1 & H2 & H3 & H4). rewrite En by done. split_and!; try done. by rewrite Hub.
  - intros la Hla Hor. rewrite En by done. by apply Sx.
  - intros p Hr Hu Hno. destruct (Sq p Hr Hu Hno) as ([K1 K1'] & [K2 K2'] & K3). split; [|split].
    + split; [by apply (patch_plain bs' m' old _ b So HP Hpo)|]. intros la Hla. rewrite Eo by done. by apply K1'.
    + split; [by apply (patch_plain bs' m' new _ b Sn HP Hpn)|]. intros la Hla. rewrite En by done. by apply K2'.
    + intros j. rewrite (kstore_out (fun p => p = q) m' b); [apply K3|done|apply (wf_word _ _ _ (proj1 (sp_ready _ _ _ So)))|by intros ->].
Qed.

(** ** The steps of [do_fork] *)

(** The registers of the child: it returns 0, on the stack [stack]. *)
Definition child_regs (stack : Z) (tf : list Z) : list Z :=
  let tf := <[REG_SP := stack]> (<[REG_V0 := 0]> tf) in <[TF_STATUS := Z.lor (nth TF_STATUS tf 0) 0x3]> tf.

Section Fork.
Context {F : Type} `{!InodeOps F} `{SC : sched_class} (repr : kern -> list Z -> Prop) (put : list Z -> Z -> list Z) (pick : list Z -> option Z).
Context `{!SchedClassLaws SC repr put pick}.

Implicit Types w : world F.

Lemma change_proc_Ok t0 l p pr f w : creating repr t0 (wt w) l p pr -> rq (f pr) = rq pr -> state (f pr) = state pr ->
  exists t', change_proc p f w = Ok (set_wt t' w) /\ creating repr t0 t' l p (f pr).
Proof.
  intros Hc Hq Hs. destruct (change_creating repr put pick t0 (wt w) l p pr f Hc Hq Hs) as (t' & E & Hc'). exists t'. split; [|done].
  unfold change_proc. by rewrite E.
Qed.

Lemma creating_cur t0 t l p pr cpr : creating repr t0 t l p pr -> procs (pk t0) !! current (pk t0) = Some cpr -> current (pk t0) <> p ->
  proc_at (current (pk t)) t = Ok cpr.
Proof.
  intros Hc Hp Hne. destruct (al_rest _ _ _ _ (cr_alloc _ _ _ _ _ _ Hc)) as (-> & _). apply get_proc_Ok.
  by rewrite (al_others _ _ _ _ (cr_alloc _ _ _ _ _ _ Hc)).
Qed.

Lemma creating_proc t0 t l p pr : creating repr t0 t l p pr -> proc_at p t = Ok pr.
Proof. intros Hc. apply get_proc_Ok, Hc. Qed.

Lemma setup_kstack_Ok t0 l p pr bs k bs1 w : creating repr t0 (wt w) l p pr -> pmm_inv (npage (wmach w)) (pm (wmach w)) bs -> npage (wmach w) <= 1048576 ->
  carve KSTACKPAGE bs = Some (k, bs1) ->
  exists pm' t', setup_kstack p w = Ok (0, set_wt t' (set_wmach (set_pm pm' (wmach w)) w)) /\
    creating repr t0 t' l p (set_kstack (kva k) pr) /\ alloc_post (npage (wmach w)) KSTACKPAGE (pm (wmach w)) bs k bs1 pm' /\
    total bs = total bs1 + KSTACKPAGE /\ (forall i, covers bs i <-> covers bs1 i \/ k <= i < k + KSTACKPAGE) /\ (forall i, covers bs1 i -> ~ k <= i < k + KSTACKPAGE).
Proof.
  intros Hc Hinv Hn Hk. destruct (alloc_pages_Ok KSTACKPAGE bs (wmach w) k bs1 Hinv) as (pm' & E & Hp & H1 & H2 & H3); [done|done|].
  pose proof Hp as (_ & Hk0 & Hkn & _). unfold setup_kstack. rewrite E. cbn [rbind].
  rewrite page2kva_Ok by (cbn [npage set_pm]; unfold KSTACKPAGE in *; lia). cbn [rbind].
  destruct (change_proc_Ok t0 l p pr (set_kstack (kva k)) (set_wmach (set_pm pm' (wmach w)) w) Hc) as (t' & E' & Hc'); [done|done|].
  rewrite E'. cbn [rbind]. exists pm', t'. done.
Qed.

Lemma copy_mm_Ok E flags t0 l p pr cpr a old bs w : creating repr t0 (wt w) l p pr ->
  procs (pk t0) !! current (pk t0) = Some cpr -> current (pk t0) <> p -> Kern.mm cpr = Some a -> wmms w !! a = Some old ->
  has_flag flags CLONE_VM = false -> fe_mm E <> 0 -> Forall (eq true) (fe_areas E) -> dup_ready bs (wmach w) (fe_boot E) old ->
  exists mm m' bs' t', copy_mm E flags p w = Ok (0, set_wt t' (set_wmms (<[fe_mm E := mm]> (wmms w)) (set_wmach m' w))) /\
    creating repr t0 t' l p (set_pgdir (Vmm.pgdir mm) (set_mm (Some (fe_mm E)) pr)) /\
    mm_ok mm /\ mmap_list mm = mmap_list old /\ mm_count mm = 1 /\ Vmm.pgdir mm <> Vmm.pgdir old /\
    space_copied bs (wmach w) bs' m' (Vmm.pgdir old) (Vmm.pgdir mm) (mmap_list old).
Proof.
  intros Hc Ecur Hne Hmm Ha Hfl Hm0 Hoks Hd.
  destruct (dup_mm_Ok bs (wmach w) (fe_boot E) old (fe_areas E) Hd Hoks) as (mm & m' & bs' & Ed & Hok & Hml & Hcnt & Hdir & Hsc).
  unfold copy_mm. rewrite (creating_cur t0 (wt w) l p pr cpr Hc Ecur Hne). cbn [rbind]. rewrite Hmm, Hfl, Ha. cbn [rget rbind].
  destruct (Z.eqb_spec (fe_mm E) 0) as [?|_]; [done|]. cbn [negb]. rewrite Ed. cbn [rbind].
  set (w1 := set_wmms _ (set_wmach m' w)). unfold share_mm.
  change (wmms w1) with (<[fe_mm E := mm]> (wmms w)). rewrite lookup_insert_eq. cbn [rget rbind].
  unfold mm_count_inc. rewrite Hcnt. change (s32 (0 + 1)) with 1. cbn [snd]. rewrite insert_insert_eq.
  set (mm1 := set_mm_count mm 1). set (w2 := set_wmms _ w1).
  destruct (change_proc_Ok t0 l p pr (set_mm (Some (fe_mm E))) w2 Hc) as (t1 & E1 & Hc1); [done|done|]. rewrite E1. cbn [rbind].
  destruct (change_proc_Ok t0 l p _ (set_pgdir (Vmm.pgdir mm1)) (set_wt t1 w2) Hc1) as (t2 & E2 & Hc2); [done|done|]. rewrite E2. cbn [rbind].
  exists mm1, m', bs', t2. split; [done|]. split; [done|]. split; [|done]. destruct Hok. by split.
Qed.

Lemma fork_copy_files_Ok E flags t0 l p pr cpr q q' st' w : creating repr t0 (wt w) l p pr ->
  procs (pk t0) !! current (pk t0) = Some cpr -> current (pk t0) <> p -> filesp cpr = Some q ->
  copy_files flags q (fe_dup E) (fe_dup_raw E) (wfiles w) = Ok (0, q', st') ->
  exists t', fork_copy_files E flags p w = Ok (0, set_wt t' (set_wfiles st' w)) /\ creating repr t0 t' l p (set_filesp (optr_of q') pr).
Proof.
  intros Hc Ecur Hne Hq Ef. unfold fork_copy_files. rewrite (creating_cur t0 (wt w) l p pr cpr Hc Ecur Hne). cbn [rbind]. rewrite Hq. cbn [rget rbind].
  rewrite Ef. cbn [rbind Z.eqb negb]. destruct (change_proc_Ok t0 l p pr (set_filesp (optr_of q')) (set_wfiles st' w) Hc) as (t' & E' & Hc'); [done|done|].
  rewrite E'. cbn [rbind]. exists t'. done.
Qed.

Lemma copy_thread_Ok E t0 l p pr k stack tf w : creating repr t0 (wt w) l p pr -> kstack pr = kva k -> 0 <= k -> k + KSTACKPAGE <= KMEMSIZE / PGSIZE ->
  let a := kva k + KSTACKSIZE - SIZEOF_TRAPFRAME in
  exists t', copy_thread E p stack tf w = Ok (set_wctx (<[p := mk_context (fe_forkret E) a]> (wctx w))
      (set_wt t' (set_wmach (kstore (put_bytes a SIZEOF_TRAPFRAME (words_bytes (child_regs stack tf)) (kbytes (wmach w))) (wmach w)) w))) /\
    creating repr t0 t' l p (set_tf a pr).
Proof.
  intros Hc Hks Hk0 Hk a. unfold copy_thread. rewrite (creating_proc _ _ _ _ _ Hc). cbn [rbind]. rewrite Hks.
  change (KMEMSIZE / PGSIZE) with 2048 in Hk. unfold KSTACKPAGE in Hk.
  rewrite (u32_id (kva k + KSTACKSIZE)) by (unfold is_u32, two32, kva, KERNBASE, KSTACKSIZE, KSTACKPAGE, PGSIZE; lia). fold a. fold (child_regs stack tf).
  set (w1 := set_wmach _ w). destruct (change_proc_Ok t0 l p pr (set_tf a) w1 Hc) as (t' & E' & Hc'); [done|done|].
  rewrite E'. cbn [rbind]. exists t'. done.
Qed.
End Fork.

(** ** The trap frame *)

Lemma length_words_bytes ws : length (words_bytes ws) = (4 * length ws)%nat.
Proof. unfold words_bytes. induction ws as [|w ws IH]; [done|]. cbn [fmap list_fmap concat length]. rewrite length_app, length_le_encode. cbn [length] in *. lia. Qed.

Lemma words_bytes_byte ws : Forall is_byte (words_bytes ws).
Proof. unfold words_bytes. induction ws as [|w ws IH]; [constructor|]. cbn [fmap list_fmap concat]. apply Forall_app. split; [apply le_encode_byte|exact IH]. Qed.

Section Frame.
  Context (k : Z) (ws : list Z) (m : machine) (Hlen : length ws = 38%nat).

Let a := kva k + KSTACKSIZE - SIZEOF_TRAPFRAME.
Let b := put_bytes a SIZEOF_TRAPFRAME (words_bytes ws) (kbytes m).

Lemma frame_page q : a <= q < a + SIZEOF_TRAPFRAME -> kpage q = k + 1.
  Proof.
    intros Hq. replace q with (kva (k + 1) + (q - kva (k + 1))) by lia. apply kpage_kva.
    unfold a, kva, KSTACKSIZE, KSTACKPAGE, SIZEOF_TRAPFRAME, PGSIZE in *. lia.
  Qed.

Lemma frame_patch : patch (fun p => p = k + 1) m b.
  Proof.
    split.
    - intros q. unfold b, put_bytes. destruct (_ && _); [|apply kbytes_byte]. apply at_byte, words_bytes_byte.
    - intros q Hq. apply put_bytes_out. intros Hin. by apply Hq, frame_page.
  Qed.

Lemma frame_read : mem_bytes (kbytes (kstore b m)) a SIZEOF_TRAPFRAME = words_bytes ws.
  Proof.
    apply at_ext; [rewrite length_mem_bytes, length_words_bytes, Hlen by (unfold SIZEOF_TRAPFRAME; lia); done|].
    rewrite length_mem_bytes by (unfold SIZEOF_TRAPFRAME; lia). intros j Hj. rewrite at_mem_bytes by (unfold SIZEOF_TRAPFRAME in *; lia).
    rewrite kbytes_kstore by apply frame_patch. apply put_bytes_in. unfold SIZEOF_TRAPFRAME in *. lia.
  Qed.
End Frame.

(** ** [do_fork] *)

Section DoFork.
Context {F : Type} `{!InodeOps F} `{SC : sched_class} (repr : kern -> list Z -> Prop) (put : list Z -> Z -> list Z) (pick : list Z -> option Z).
Context `{!SchedClassLaws SC repr put pick}.
Implicit Types w : world F.

(** What a process that forks needs: room in the process table, memory for
    the new process, two pages in a row for its stack and the pages for a copy
    of its memory; [copy_files] succeeds. *)
Record fork_ready (w : world F) (bs : list block) (ps : list Z) E (flags : Z) (tf : list Z) (p k : Z) (bs1 : list block) (old : mm_struct)
    (files : Z) (st : fstate F) : Prop := {
  fk_procs : procs_ok repr (wt w) ps;
  fk_count : Z.of_nat (length ps) < MAX_PROCESS - 1;
  fk_new : fe_proc E = Some p /\ procs (pk (wt w)) !! p = None /\ 0 <= p;
  fk_cur : exists pr a q, procs (pk (wt w)) !! current (pk (wt w)) = Some pr /\ Kern.mm pr = Some a /\ wmms w !! a = Some old /\
    filesp pr = Some q /\ copy_files flags q (fe_dup E) (fe_dup_raw E) (files_create (fe_files E) (fe_raw E) (wfiles w)).2 = Ok (0, files, st);
  fk_flags : has_flag flags CLONE_VM = false;
  fk_alloc : fe_mm E <> 0 /\ Forall (eq true) (fe_areas E);
  fk_dup : dup_ready bs (wmach w) (fe_boot E) old;
  fk_stack : carve KSTACKPAGE bs = Some (k, bs1);
  fk_room : 3 + 2 * areas_pages (wmach w) (Vmm.pgdir old) (reverse (mmap_list old)) <= total bs;
  fk_np : npage (wmach w) <= KMEMSIZE / PGSIZE;
  fk_regs : length tf = 38%nat
}.

(** The child [p] with the address space [mm], in the world [w'] after the
    call in [w]. *)
Record forked (w : world F) (bs : list block) (ps : list Z) E (stack : Z) (tf : list Z) (p k : Z) (old : mm_struct) (files : Z)
    (st : fstate F) (n : Z) (mm : mm_struct) (w' : world F) : Prop := {
  fd_procs : procs_ok repr (wt w') (p :: ps);
  fd_pid : 1 <= n < MAX_PID /\ (n ∉ pids (wt w) ps) /\ pid_of (wt w') p = n;
  fd_run : runnable (pk (wt w')) p /\ fld parent (wt w') p = Some (Some (current (pk (wt w))));
  fd_proc : fld (fun pr => (Kern.mm pr, Kern.pgdir pr, filesp pr)) (wt w') p = Some (Some (fe_mm E), Vmm.pgdir mm, optr_of files);
  fd_frame : let a := kva k + KSTACKSIZE - SIZEOF_TRAPFRAME in
    fld (fun pr => (kstack pr, Kern.tf pr)) (wt w') p = Some (kva k, a) /\ wctx w' !! p = Some (mk_context (fe_forkret E) a) /\
    mem_bytes (kbytes (wmach w')) a SIZEOF_TRAPFRAME = words_bytes (child_regs stack tf);
  fd_mm : mm_ok mm /\ mmap_list mm = mmap_list old /\ mm_count mm = 1 /\ wmms w' = <[fe_mm E := mm]> (wmms w);
  fd_space : exists bs', space_copied bs (wmach w) bs' (wmach w') (Vmm.pgdir old) (Vmm.pgdir mm) (mmap_list old);
  fd_files : wfiles w' = st
}.

(** The memory of the child, with its trap frame in the kernel stack. *)
Lemma forked_space bs m bs1 k pm' boot old bs' m' new b : dup_ready bs m boot old -> alloc_post (npage m) KSTACKPAGE (pm m) bs k bs1 pm' ->
  (forall i, covers bs i <-> covers bs1 i \/ k <= i < k + KSTACKPAGE) -> (forall i, covers bs1 i -> ~ k <= i < k + KSTACKPAGE) ->
  space_copied bs1 (set_pm pm' m) bs' m' (Vmm.pgdir old) new (mmap_list old) -> patch (fun p => p = k + 1) m' b ->
  space_copied bs m bs' (kstore b m') (Vmm.pgdir old) new (mmap_list old).
Proof.
  intros Hd (_ & Hk0 & Hkn & _) Hcov Hdis Hsc HP. unfold KSTACKPAGE in *.
  assert (Hck : covers bs (k + 1)) by (apply Hcov; right; lia).
  destruct (sc_kernel _ _ _ _ _ _ _ Hsc (k + 1)) as (K1 & K2 & _).
  - cbn [npage set_pm]. lia.
  - intros Hc. apply (Hdis _ Hc). lia.
  - intros Ho. by apply (owned_used bs m (Vmm.pgdir old) (k + 1) (dr_space _ _ _ _ Hd)).
  - apply (space_copied_write bs m bs' m' _ _ _ (k + 1)); [|done..]. destruct Hsc as [So Sn Sr Sk Sc Sx Sq]. split; try done.
    + intros la Hla Hin Hpr. destruct (Sc la Hla Hin Hpr) as (H1 & H2 & H3 & H4). split_and!; try done. apply Hcov. by left.
    + intros q Hr Hu Ho. apply Sq; [done| |done]. intros Hc. apply Hu, Hcov. by left.
Qed.

Lemma do_fork_Ok w bs ps E flags stack tf p k bs1 old files st : fork_ready w bs ps E flags tf p k bs1 old files st ->
  exists n mm w', do_fork E flags stack tf w = Ok (n, w') /\ forked w bs ps E stack tf p k old files st n mm w'.
Proof.
  intros [Hpo Hlen (Hfp & Hp & H0) (cpr & a & q & Ecur & Hmm & Ha & Hq & Hcf) Hfl [Hm0 Hoks] Hd Hst Hroom Hnp Htf].
  unfold do_fork. rewrite (tb_nr _ _ (pt_table _ _ (bo_table _ _ _ (po_base _ _ _ Hpo)))).
  destruct (Z.leb_spec MAX_PROCESS (1 + Z.of_nat (length ps))); [lia|]. rewrite Hfp.
  destruct (files_create (fe_files E) (fe_raw E) (wfiles w)) as [fa st0]. cbn [snd] in Hcf.
  destruct (alloc_creating repr put pick (wt w) ps p (fe_boot E) (optr_of fa) Hpo Hp H0) as (l & t1 & cpr' & E1 & Hc & Ecur' & Hne & Ec1 & Hw).
  rewrite Ecur in Ecur'. injection Ecur' as <-. rewrite E1. cbn [rbind]. set (w1 := set_wt t1 (set_wfiles st0 w)).
  change (wt w1) with t1. rewrite Ec1. cbn [rbind]. rewrite Hw. cbn [Z.eqb rassert rbind rget].
  destruct (al_rest _ _ _ _ (cr_alloc _ _ _ _ _ _ Hc)) as (-> & _).
  destruct (change_proc_Ok repr put pick (wt w) l p _ (set_parent (Some (current (pk (wt w))))) w1 Hc) as (t2 & E2 & Hc2); [done|done|].
  rewrite E2. cbn [rbind]. clear E1 E2. set (w2 := set_wt t2 w1).
  pose proof (proj1 (sp_ready _ _ _ (dr_space _ _ _ _ Hd))) as Hwf.
  destruct (setup_kstack_Ok repr put pick (wt w) l p _ bs k bs1 w2 Hc2) as (pm' & t3 & E3 & Hc3 & Hal & Htot & Hcov & Hdis);
    [apply Hwf|apply Hwf|done|]. change (wmach w2) with (wmach w) in *.
  rewrite E3. cbn [rbind Z.eqb negb]. set (w3 := set_wt t3 _). clear E3.
  assert (Hd3 : dup_ready bs1 (wmach w3) (fe_boot E) old).
  { apply (dup_ready_stack KSTACKPAGE bs (wmach w) _ _ k); [done|done|intros i Hi; apply Hcov; by left|]. unfold KSTACKPAGE in Htot. lia. }
  destruct (copy_mm_Ok repr put pick E flags (wt w) l p _ cpr a old bs1 w3 Hc3 Ecur Hne Hmm Ha Hfl Hm0 Hoks Hd3)
    as (mm & m' & bs' & t4 & E4 & Hc4 & Hok & Hml & Hcnt & Hdir & Hsc).
  rewrite E4. cbn [rbind Z.eqb negb]. set (w4 := set_wt t4 _). clear E4.
  destruct (fork_copy_files_Ok repr put pick E flags (wt w) l p _ cpr q files st w4 Hc4 Ecur Hne Hq Hcf) as (t5 & E5 & Hc5).
  rewrite E5. cbn [rbind Z.eqb negb]. set (w5 := set_wt t5 _). clear E5.
  pose proof Hal as (_ & Hk0 & Hkn & _).
  destruct (copy_thread_Ok repr put pick E (wt w) l p _ k stack tf w5 Hc5) as (t6 & E6 & Hc6); [done|done|lia|]. cbn zeta in *.
  rewrite E6. cbn [rbind]. clear E6. set (w6 := set_wctx _ _). change (wt w6) with t6.
  destruct (register_Ok repr put pick (wt w) t6 ps l p _ Hpo Hp H0 Hlen Hc6) as (n & t' & E7 & Hpo' & Hn & Hnew & Hpid & Hpar & Hrun & Hfld); [done|done|].
  rewrite E7. cbn [rbind]. exists n, mm, (set_wt t' w6). split; [done|].
  assert (Hrec : forall A (g : proc_struct -> A), (forall x, g (set_pid n x) = g x) -> (forall x, g (unlinked x) = g x) -> (forall x, g (core x) = g x) ->
    fld g t' p = fld g t6 p) by (intros A g G1 G2 G3; by apply Hfld).
  pose proof (al_proc _ _ _ _ (cr_alloc _ _ _ _ _ _ Hc6)) as Hp6.
  assert (Hlen' : length (child_regs stack tf) = 38%nat) by (unfold child_regs; by rewrite !length_insert).
  split; try done.
  - rewrite Hrec by done. unfold fld. by rewrite Hp6.
  - rewrite Hrec by done. unfold fld. rewrite Hp6. split; [done|]. split; [apply lookup_insert_eq|].
    by apply (frame_read k (child_regs stack tf) m').
  - exists bs'. apply (forked_space bs (wmach w) bs1 k pm' (fe_boot E)); try done. by apply (frame_patch k (child_regs stack tf) m').
Qed.
End DoFork.

(** ** Properties *)

(** C2: [do_fork] gives a process a child that is a copy of it.  Without
    CLONE_VM, with room in the process table, memory for the new process and its
    areas, two free pages in a row for the kernel stack, one page more and two
    for each page to copy, and files that can be copied, the call
    returns the pid of a new runnable process that is found by it and has the
    caller as parent; all invariants of processes and of memory hold again.
    The child has the areas of the parent, and wherever the parent has a page
    the child has a page of its own with the same permissions and the same
    bytes; it has no others, and no page belongs to both.  The parent sees the
    memory it saw before.  At the top of the child's kernel stack are the
    registers of the parent, but for the result 0 and the stack pointer, and
    it starts in [forkret] with them. *)
Theorem fork_creates_child {F : Type} `{!InodeOps F} (SC : sched_class) (repr : kern -> list Z -> Prop)
    (put : list Z -> Z -> list Z) (pick : list Z -> option Z) (laws : SchedClassLaws SC repr put pick)
    (w : world F) (bs : list block) (ps : list Z) (E : fork_env) (flags stack : Z) (tf : list Z) (p k : Z) (bs1 : list block)
    (old : mm_struct) (files : Z) (st : fstate F) :
  fork_ready repr w bs ps E flags tf p k bs1 old files st ->
  exists n mm w', do_fork E flags stack tf w = Ok (n, w') /\ forked repr w bs ps E stack tf p k old files st n mm w' /\
    find_proc n (wt w') = Ok (Some p) /\
    forall la la', user la -> user la' -> present (entry (wmach w') (Vmm.pgdir mm) la) = true -> present (entry (wmach w') (Vmm.pgdir old) la') = true ->
      PPN (entry (wmach w') (Vmm.pgdir mm) la) <> PPN (entry (wmach w') (Vmm.pgdir old) la').
Proof.
  intros Hr. destruct (do_fork_Ok repr put pick w bs ps E flags stack tf p k bs1 old files st Hr) as (n & mm & w' & Ef & Hf).
  exists n, mm, w'. split; [done|]. split; [done|]. split.
  - pose proof (fd_procs _ _ _ _ _ _ _ _ _ _ _ _ _ _ _ Hf) as Hpo. destruct (fd_pid _ _ _ _ _ _ _ _ _ _ _ _ _ _ _ Hf) as (Hn & _ & Hpid).
    rewrite <- Hpid. apply (find_proc_self (wt w') (p :: ps)); [apply (pt_table _ _ (bo_table _ _ _ (po_base _ _ _ Hpo)))|by left].
  - destruct (fd_space _ _ _ _ _ _ _ _ _ _ _ _ _ _ _ Hf) as (bs' & Hsc). intros la la' Hla Hla' Hp Hp'.
    destruct (sc_kept _ _ _ _ _ _ _ Hsc la' Hla') as [He _]. rewrite He in Hp' |- *.
    by apply (copied_apart bs (wmach w) bs' (wmach w') (Vmm.pgdir old) (Vmm.pgdir mm) (mmap_list old)); try apply (fk_dup _ _ _ _ _ _ _ _ _ _ _ _ _ Hr).
Qed.

(** *** A concrete input *)

(** The parent has one area of one page, with directory 2; the kernel's
    directory is page 1. *)
Definition ex_parent : mm_struct := mk_mm [mk_vma 0x00800000 0x00801000 7] None 2 1 None 1.

Lemma ex_fork_machine : exists m, dup_ready [(5, 11)] m 1 ex_parent /\ npage m = 16 /\ present (entry m 2 0x00800000) = true /\
  areas_pages m 2 (reverse (mmap_list ex_parent)) = 1.
Proof.
  destruct booted16 as (_ & st & _ & _ & Hinv). set (m0 := set_pra {[ pra_list_head := mk_entry 0 0 ]} (empty_machine st)).
  assert (Hs : forall d, 0 <= d < 3 -> space_ok [(3, 13)] m0 d) by (intros d Hd; apply set_pra_space; by apply empty_space_at).
  assert (Hp : pair_ok [(3, 13)] m0 1 2).
  { split; [by apply Hs|by apply Hs| |done]. intros q Ho [->|(la & _ & Hb)]; [|done]. destruct Ho as [[?|(la & _ & Hb)]|(la & _ & Hb & _)]; done. }
  destruct (alloc_page_pair [(3, 13)] m0 1 2 3 [(4, 12)] Hp eq_refl) as (m1 & pg & _ & Hp1 & Hdp & Hpg & Hr & He & Hpt & Hnew & _ & _ & Hg & _).
  assert (Hla : user 0x00800000) by (unfold user, KERNBASE; lia).
  pose proof (page_insert_fresh [(4, 12)] m1 2 3 0x00800000 7 pg (po_to _ _ _ _ Hp1) Hla) as Hi. rewrite He, Hpt in Hi by done.
  specialize (Hi eq_refl Hdp Hpg Hr Hnew ltac:(lia)). change (pt_of m0 2 0x00800000) with (@None Z) in Hi. cbn [carve Z.leb Z.compare Pos.compare Pos.compare_cont] in Hi.
  destruct Hi as (m2 & bs2 & _ & Hs2 & He2 & -> & Hk & Hpgs).
  assert (Hg2 : grown [(3, 13)] m0 [(5, 11)] m2 2).
  { apply (grown_insert _ _ [(4, 12)] m1 _ _ _ 3); [done..|]. exists 3, 13. split; [by left|lia]. }
  pose proof (grown_pair _ m0 _ m2 1 2 Hp Hg2 Hs2) as Hp2.
  assert (Hpr : present (entry m2 2 0x00800000) = true) by (rewrite He2, upd_ent_eq by done; done).
  assert (Hpages : areas_pages m2 2 (reverse (mmap_list ex_parent)) = 1).
  { change (reverse (mmap_list ex_parent)) with (mmap_list ex_parent). cbn [areas_pages mmap_list ex_parent foldr].
    change (area_pages m2 2 (mk_vma 0x00800000 0x00801000 7)) with ((if present (entry m2 2 0x00800000) then 1 else 0) + 0). by rewrite Hpr. }
  destruct (ks_rest _ _ _ _ _ (gr_kept _ _ _ _ _ Hg2)) as [Hn2 Hc2].
  exists (set_pra {[ pra_list_head := mk_entry 0 0 ]} m2). split; [split|].
  - split; cbn.
    + lia.
    + intros v ->%list_elem_of_singleton. done.
    + done.
    + lia.
  - intros v ->%list_elem_of_singleton. done.
  - apply set_pra_space, Hp2.
  - split; [apply set_pra_space, Hp2|]. intros la Hl. change (pt_of m2 1 la = None). by rewrite (grown_pt _ m0 _ m2 1 2 Hp Hg2).
  - intros d. cbn [cur_pgdir set_pra]. by rewrite Hc2.
  - intros _. by eexists.
  - change (areas_pages m2 2 (reverse (mmap_list ex_parent))) with (areas_pages m2 2 (reverse (mmap_list ex_parent))) in Hpages.
    rewrite (areas_pages_ext m2); [cbn [Vmm.pgdir ex_parent]; rewrite Hpages; cbn; lia|done|]. intros v ->%list_elem_of_singleton. cbn. unfold USERTOP. lia.
  - split; [done|]. split; [done|]. rewrite (areas_pages_ext m2); [done|done|]. intros v ->%list_elem_of_singleton. cbn. unfold USERTOP. lia.
Qed.

(** The files: the table at 7, which parent and child share. *)
Definition ex_fork_env : fork_env := mk_fork_env (Some 2) 9 [] 6 [] 10 [] 1 0x80001000 0x80001100 0.

Lemma fork_creates_child_witness : exists (w : world (kfs ramdisk)) n mm w',
  do_fork ex_fork_env CLONE_FS 0x00800800 (replicate 38 3) w = Ok (n, w') /\ find_proc n (wt w') = Ok (Some 2) /\
  Vmm.mmap_list mm = mmap_list ex_parent /\ present (entry (wmach w') (Vmm.pgdir mm) 0x00800000) = true /\
  ubyte (wmach w') (Vmm.pgdir mm) 0x00800000 = ubyte (wmach w) 2 0x00800000.
Proof.
  destruct ex_fork_machine as (m & Hd & Hn & Hpr & Hpg). destruct opened_ab as (st & _).
  set (w := mk_world ex_table m {[ 5 := ex_parent ]} ∅ (mk_fstate (fvfs st) {[ 7 := mk_files 0 [] 1 ]}) 0).
  assert (exists st', fork_ready rr_repr w [(5, 11)] [1] ex_fork_env CLONE_FS (replicate 38 3) 2 5 [(7, 9)] ex_parent 7 st') as (st' & Hr).
  { eexists. split.
    - exact ex_table_ok.
    - done.
    - split; [done|]. split; [done|lia].
    - eexists _, 5, 7. split; [reflexivity|]. split; [reflexivity|]. split; [reflexivity|]. split; [reflexivity|]. reflexivity.
    - done.
    - split; [done|constructor].
    - exact Hd.
    - done.
    - change (wmach w) with m. change (Vmm.pgdir ex_parent) with 2. rewrite Hpg. cbn. lia.
    - change (wmach w) with m. rewrite Hn. done.
    - done. }
  destruct (fork_creates_child default_sched_class rr_repr _ _ RR_laws w [(5, 11)] [1] ex_fork_env CLONE_FS 0x00800800 (replicate 38 3) 2 5 [(7, 9)] ex_parent 7 st' Hr)
    as (n & mm & w' & E & Hf & Hfind & _).
  exists w, n, mm, w'. split; [exact E|]. split; [exact Hfind|].
  destruct (fd_mm _ _ _ _ _ _ _ _ _ _ _ _ _ _ _ Hf) as (_ & Hml & _). destruct (fd_space _ _ _ _ _ _ _ _ _ _ _ _ _ _ _ Hf) as (bs' & Hsc).
  split; [exact Hml|]. destruct (sc_copy _ _ _ _ _ _ _ Hsc 0x00800000) as (H1 & _ & H3 & _).
  - unfold user, KERNBASE. lia.
  - eexists. split; [by left|reflexivity].
  - exact Hpr.
  - by split.
Defined.
