(* ===== verification/Slob.v ===== *)
(** * The SLOB allocator (kern/mm/kmalloc.c)

    [kmalloc] keeps its free blocks in a circular list threaded through the
    free memory itself: the words at [a] and [a + 4] are the [units] and the
    [next] of the [slob_block] at address [a].  Requests of a page or more go to
    the page allocator and are remembered in a list of [bigblock]s, which are
    themselves small blocks.  The state is the memory of the kernel segment,
    word by word, with the two list heads and whatever state the page allocator
    behind it has; that allocator is reached through [PageSource]. *)
From S2P Require Import Prelude Arith Blocks DefaultPmm.

(** ** What [kmalloc] needs of the page allocator *)

(** [alloc_pages(n)] gives the number of the first page; [free_pages(b, n)]. *)
Class PageSource (P : Type) := {
  ps_alloc : Z -> P -> res (option Z * P);
  ps_free : Z -> Z -> P -> res P
}.

(** [ps_ok p held]: a state in which the blocks [held] are handed out. *)
Class PageSourceLaws (P : Type) `{!PageSource P} := {
  ps_lo : Z;
  ps_hi : Z;
  ps_ok : P -> list block -> Prop;
  ps_range : 0 <= ps_lo /\ ps_hi <= KMEMSIZE / PGSIZE;
  ps_perm p h h' : h ≡ₚ h' -> ps_ok p h -> ps_ok p h';
  ps_disjoint p h : ps_ok p h -> forall i, occ i h <= 1;
  ps_held p h b n : ps_ok p h -> (b, n) ∈ h -> 0 < n /\ ps_lo <= b /\ b + n <= ps_hi;
  ps_alloc_ok p h n : ps_ok p h -> 0 < n ->
    exists r p', ps_alloc n p = Ok (r, p') /\
      ps_ok p' (match r with Some b => (b, n) :: h | None => h end);
  ps_free_ok p h b n : ps_ok p ((b, n) :: h) ->
    exists p', ps_free b n p = Ok p' /\ ps_ok p' h
}.

(** ** State *)

(** [mem a]: the word at address [a].  [slobfree] and [bigblocks] are the
    static variables; the static [arena] is at the address [arena] below. *)
Record slob (P : Type) := mk_slob {
  mem : Z -> Z;
  slobfree : Z;
  bigblocks : Z;
  pages_of : P
}.
Arguments mk_slob {P} _ _ _ _.
Arguments mem {P} _ _.
Arguments slobfree {P} _.
Arguments bigblocks {P} _.
Arguments pages_of {P} _.

Definition NULL : Z := 0.
Definition PAGE_SIZE : Z := PGSIZE.
Definition SLOB_UNIT : Z := 8.
(** [SLOB_UNITS(size)], computed in [unsigned]. *)
Definition SLOB_UNITS (size : Z) : Z := u32 (size + SLOB_UNIT - 1) / SLOB_UNIT.
Definition ALIGN (addr size : Z) : Z := Z.land (u32 (addr + size - 1)) (u32 (Z.lnot (size - 1))).

(** An access must be aligned and inside the kernel segment. *)
Definition kernel_word (a : Z) : bool := (a mod 4 =? 0) && (KERNBASE <=? a) && (a <? KERNTOP).

Section Slob.
  Context {P : Type} `{!PageSource P}.
  Variable arena : Z.
  Implicit Types (s : slob P).

Definition load (a : Z) (s : slob P) : res Z :=
  if kernel_word a then Ok (mem s a) else Err WildAccess.
Definition store (a v : Z) (s : slob P) : res (slob P) :=
  if kernel_word a
  then Ok (mk_slob (fun x => if x =? a then v else mem s x) (slobfree s) (bigblocks s) (pages_of s))
  else Err WildAccess.

(** [struct slob_block]: [int units; struct slob_block *next]. *)
Definition get_units (b : Z) (s : slob P) : res Z := let! v := load b s in Ok (s32 v).
Definition set_units (b n : Z) (s : slob P) : res (slob P) := store b (u32 n) s.
Definition get_next (b : Z) (s : slob P) : res Z := load (b + 4) s.
Definition set_next (b n : Z) (s : slob P) : res (slob P) := store (b + 4) n s.
(** [b + n] for a [slob_t *]. *)
Definition slob_plus (b n : Z) : Z := u32 (b + SLOB_UNIT * n).
Definition set_slobfree (a : Z) (s : slob P) : slob P := mk_slob (mem s) a (bigblocks s) (pages_of s).

(** [struct bigblock]: [int order; void *pages; struct bigblock *next]. *)
Definition get_order (b : Z) (s : slob P) : res Z := let! v := load b s in Ok (s32 v).
Definition set_order (b n : Z) (s : slob P) : res (slob P) := store b (u32 n) s.
Definition get_pages (b : Z) (s : slob P) : res Z := load (b + 4) s.
Definition set_pages (b n : Z) (s : slob P) : res (slob P) := store (b + 4) n s.
Definition get_bnext (b : Z) (s : slob P) : res Z := load (b + 8) s.
Definition set_bnext (b n : Z) (s : slob P) : res (slob P) := store (b + 8) n s.
Definition sizeof_bigblock : Z := 12.
Definition set_bigblocks (a : Z) (s : slob P) : slob P := mk_slob (mem s) (slobfree s) a (pages_of s).

(** ** Pages *)

(** [page2kva] and [kva2page] on page numbers. *)
Definition kva_of_page (p : Z) : Z := KERNBASE + PGSIZE * p.
Definition page_of_kva (a : Z) : Z := (a - KERNBASE) / PGSIZE.

Definition slob_get_free_pages (order : Z) (s : slob P) : res (Z * slob P) :=
  let! (r, p) := ps_alloc (Z.shiftl 1 order) (pages_of s) in
  let s := mk_slob (mem s) (slobfree s) (bigblocks s) p in
  match r with
  | None => Ok (NULL, s)
  | Some b => Ok (kva_of_page b, s)
  end.

Definition slob_free_pages (kva order : Z) (s : slob P) : res (slob P) :=
  if (kva <? KERNBASE) || (KMEMSIZE / PGSIZE <=? page_of_kva kva) then Err KPanic
  else
    let! p := ps_free (page_of_kva kva) (Z.shiftl 1 order) (pages_of s) in
    Ok (mk_slob (mem s) (slobfree s) (bigblocks s) p).

(** ** [slob_free] *)

(** The search for the reinsertion point: the two [for] conditions at [cur]. *)
Definition slob_scan (b : Z) (s : slob P) (cur : Z) : res (Z + Z) :=
  let! n := get_next cur s in
  if (cur <? b) && (b <? n) then Ok (inr cur)
  else if (n <=? cur) && ((cur <? b) || (b <? n)) then Ok (inr cur)
  else Ok (inl n).

Definition slob_free (block size : Z) (s : slob P) : res (slob P) :=
  if block =? NULL then Ok s else
  let b := block in
  let! s := (if negb (size =? 0) then set_units b (SLOB_UNITS size) s else Ok s) in
  let! cur := loop (slob_scan b s) (slobfree s) in
  let! n := get_next cur s in
  let! bu := get_units b s in
  let! s :=
    (if slob_plus b bu =? n then
       let! nu := get_units n s in
       let! s := set_units b (bu + nu) s in
       let! nn := get_next n s in
       set_next b nn s
     else set_next b n s) in
  let! cu := get_units cur s in
  let! s :=
    (if slob_plus cur cu =? b then
       let! bu := get_units b s in
       let! s := set_units cur (cu + bu) s in
       let! bn := get_next b s in
       set_next cur bn s
     else set_next cur b s) in
  Ok (set_slobfree cur s).

(** ** [slob_alloc] *)

(** Room enough at [cur]: cut the head when it must be aligned, then take the
    whole block or its first [units]. *)
Definition slob_take (units delta aligned prev cur : Z) (s : slob P) : res (Z * slob P) :=
  let! (prev, cur, s) :=
    (if negb (delta =? 0) then
       let! cu := get_units cur s in
       let! s := set_units aligned (cu - delta) s in
       let! cn := get_next cur s in
       let! s := set_next aligned cn s in
       let! s := set_next cur aligned s in
       let! s := set_units cur delta s in
       Ok (cur, aligned, s)
     else Ok (prev, cur, s)) in
  let! cu := get_units cur s in
  let! s :=
    (if cu =? units then
       let! cn := get_next cur s in set_next prev cn s
     else
       let! s := set_next prev (slob_plus cur units) s in
       let! pn := get_next prev s in
       let! cu := get_units cur s in
       let! s := set_units pn (cu - units) s in
       let! pn := get_next prev s in
       let! cn := get_next cur s in
       let! s := set_next pn cn s in
       set_units cur units s) in
  Ok (cur, set_slobfree prev s).

(** One round of the [for] loop, from [prev] and [cur] to the next ones or to
    the pointer returned. *)
Definition slob_alloc_body (size align units : Z) (st : slob P * Z * Z) :
    res (slob P * Z * Z + Z * slob P) :=
  let '(s, prev, cur) := st in
  let aligned := if negb (align =? 0) then ALIGN cur align else 0 in
  let delta := if negb (align =? 0) then Z.quot (s32 (aligned - cur)) SLOB_UNIT else 0 in
  let! cu := get_units cur s in
  if s32 (units + delta) <=? cu then
    let! r := slob_take units delta aligned prev cur s in Ok (inr r)
  else if cur =? slobfree s then
    if size =? PAGE_SIZE then Ok (inr (NULL, s))
    else
      let! (page, s) := slob_get_free_pages 0 s in
      if page =? NULL then Ok (inr (NULL, s))
      else
        let! s := slob_free page PAGE_SIZE s in
        let cur := slobfree s in
        let! n := get_next cur s in Ok (inl (s, cur, n))
  else
    let! n := get_next cur s in Ok (inl (s, cur, n)).

Definition slob_alloc (size align : Z) (s : slob P) : res (Z * slob P) :=
  assert! u32 (size + SLOB_UNIT) <? PAGE_SIZE ;;
  let units := SLOB_UNITS size in
  let! n := get_next (slobfree s) s in
  loop (slob_alloc_body size align units) (s, slobfree s, n).

(** ** [kmalloc], [kfree], [ksize] *)

Definition find_order_body (st : Z * Z) : res (Z * Z + Z) :=
  let '(size, order) := st in
  if 4096 <? size then Ok (inl (Z.shiftr size 1, order + 1)) else Ok (inr order).
Definition find_order (size : Z) : res Z := loop find_order_body (s32 size, 0).

Definition kmalloc (size : Z) (s : slob P) : res (Z * slob P) :=
  if size <? PAGE_SIZE - SLOB_UNIT then
    let! (m, s) := slob_alloc (u32 (size + SLOB_UNIT)) 0 s in
    Ok (if negb (m =? NULL) then slob_plus m 1 else 0, s)
  else
    let! (bb, s) := slob_alloc sizeof_bigblock 0 s in
    if bb =? NULL then Ok (0, s) else
    let! order := find_order size in
    let! s := set_order bb order s in
    let! (pg, s) := slob_get_free_pages order s in
    let! s := set_pages bb pg s in
    if negb (pg =? NULL) then
      let! s := set_bnext bb (bigblocks s) s in
      Ok (pg, set_bigblocks bb s)
    else
      let! s := slob_free bb sizeof_bigblock s in
      Ok (0, s).

(** The search of [kfree] and [ksize]: [last] is the address of the pointer to
    [bb] ([NULL] stands for [&bigblocks]); no node, no result. *)
Definition bigblock_scan (block : Z) (s : slob P) (st : Z * Z) : res (Z * Z + option (Z * Z)) :=
  let '(last, bb) := st in
  if bb =? NULL then Ok (inr None) else
  let! pg := get_pages bb s in
  if pg =? block then Ok (inr (Some (last, bb)))
  else let! n := get_bnext bb s in Ok (inl (bb + 8, n)).

Definition page_aligned (block : Z) : bool := Z.land block (PAGE_SIZE - 1) =? 0.

Definition find_bigblock (block : Z) (s : slob P) : res (option (Z * Z)) :=
  if page_aligned block then loop (bigblock_scan block s) (NULL, bigblocks s) else Ok None.

Definition kfree (block : Z) (s : slob P) : res (slob P) :=
  if block =? NULL then Ok s else
  let! r := find_bigblock block s in
  match r with
  | Some (last, bb) =>
      let! n := get_bnext bb s in
      let! s := (if last =? NULL then Ok (set_bigblocks n s) else store last n s) in
      let! order := get_order bb s in
      let! s := slob_free_pages block order s in
      slob_free bb sizeof_bigblock s
  | None => slob_free (slob_plus block (-1)) 0 s
  end.

Definition ksize (block : Z) (s : slob P) : res Z :=
  if block =? NULL then Ok 0 else
  let! r := find_bigblock block s in
  match r with
  | Some (_, bb) => let! order := get_order bb s in Ok (u32 (Z.shiftl PAGE_SIZE order))
  | None => let! n := get_units (slob_plus block (-1)) s in Ok (u32 (n * SLOB_UNIT))
  end.

(** [arena] and the list heads as the linker leaves them. *)
Definition slob_boot (m : Z -> Z) (p : P) : slob P :=
  mk_slob (fun x => if x =? arena then 1 else if x =? arena + 4 then arena else m x) arena NULL p.

End Slob.
