(* ===== verification/SlobList.v ===== *)
(** * The free list of the SLOB allocator

    What the circular list in memory represents: the canonical list of free
    blocks of [Blocks] (address and length in bytes), the static [arena] first.
    [slob_free] implements [release], and [slob_alloc] takes the first block
    that is large enough, starting after [slobfree]. *)
From S2P Require Import Prelude Arith Blocks DefaultPmm Slob.

(** Linear arithmetic with division and remainder by constants. *)
Ltac mod_lia := Z.to_euclidean_division_equations; lia.

(** ** Chains *)

Definition addr_hd (l : list block) (y : Z) : Z :=
  match l with [] => y | (a, _) :: _ => a end.

(** The blocks of [l] linked in memory, the last one to [y]. *)
Fixpoint chain (m : Z -> Z) (l : list block) (y : Z) : Prop :=
  match l with
  | [] => True
  | (a, n) :: l => SLOB_UNIT * m a = n /\ m (a + 4) = addr_hd l y /\ chain m l y
  end.

(** Aligned blocks of at least one unit in the kernel segment. *)
Definition placed (x : block) : Prop :=
  x.1 mod 8 = 0 /\ KERNBASE <= x.1 /\ x.1 + x.2 <= KERNTOP /\ 8 <= x.2 /\ x.2 mod 8 = 0.

Lemma chain_app m l1 l2 y : chain m (l1 ++ l2) y <-> chain m l1 (addr_hd l2 y) /\ chain m l2 y.
Proof.
  induction l1 as [|[a n] l1 IH]; simpl; [tauto|]. rewrite IH.
  replace (addr_hd (l1 ++ l2) y) with (addr_hd l1 (addr_hd l2 y)) by (by destruct l1 as [|[]]). tauto.
Qed.

Lemma chain_ext m m' l y :
  (forall a n, (a, n) ∈ l -> m' a = m a /\ m' (a + 4) = m (a + 4)) -> chain m l y -> chain m' l y.
Proof.
  induction l as [|[a n] l IH]; intros He; simpl; [done|]. intros (Hu & Hn & Hc).
  destruct (He a n) as [-> ->]; [left|]. split; [done|]. split; [done|]. apply IH; [|done].
  intros. eapply He. by right.
Qed.

Lemma addr_hd_elem l y a : addr_hd l y = a -> a = y \/ a ∈ l.*1.
Proof. destruct l as [|[b n] l]; simpl; [by left|]. intros ->. right. left. Qed.

(** Everything before a block of a canonical list ends below it. *)
Lemma canon_app lo l1 a n l2 :
  canon lo (l1 ++ (a, n) :: l2) <->
  canon lo l1 /\ (forall b k, (b, k) ∈ l1 -> b + k < a) /\ lo < a /\ 0 < n /\ canon (a + n) l2.
Proof.
  revert lo. induction l1 as [|[b k] l1 IH]; intros lo; simpl.
  - split; [intros (? & ? & ?); repeat split; try done; set_solver|tauto].
  - rewrite IH. split.
    + intros (? & ? & ? & Hb & ? & ? & ?). repeat split; try done; [|lia].
      intros b' k' [[= -> ->]|?]%elem_of_cons; eauto.
    + intros ((? & ? & ?) & Hb & ? & ? & ?). repeat split; try done; [|apply Hb; left].
      intros b' k' ?. apply Hb. by right.
Qed.

(** A covered interval lies in one block. *)
Lemma canon_range lo l b n :
  canon lo l -> 0 < n -> (forall i, b <= i < b + n -> covers l i) ->
  exists a k, (a, k) ∈ l /\ a <= b /\ b + n <= a + k.
Proof.
  intros Hc Hn Hi. destruct (Hi b) as (a & k & Hin & Hr); [lia|]. exists a, k. split; [done|]. split; [lia|].
  destruct (Z.le_gt_cases (b + n) (a + k)) as [?|Hgt]; [done|]. exfalso.
  destruct (Hi (a + k)) as (a' & k' & Hin' & Hr'); [lia|].
  apply list_elem_of_split in Hin as (l1 & l2 & ->). apply canon_app in Hc as (_ & Hl & _ & _ & Hc).
  apply elem_of_app in Hin' as [Hin'|[[= -> ->]|Hin']%elem_of_cons]; [apply Hl in Hin'; lia|lia|].
  destruct (canon_In _ _ _ _ Hc Hin'); lia.
Qed.

Lemma covers_app l1 l2 i : covers (l1 ++ l2) i <-> covers l1 i \/ covers l2 i.
Proof. induction l1 as [|[a n] l1 IH]; simpl; [pose proof (covers_nil i); tauto|]. rewrite !covers_cons, IH. tauto. Qed.

(** [p] is where [b] is to be inserted: the last block below it. *)
Lemma canon_below lo l b :
  canon lo l -> (exists a n, (a, n) ∈ l /\ a < b) -> ~ covers l b ->
  exists l1 p n l2, l = l1 ++ (p, n) :: l2 /\ p + n <= b /\ canon b l2.
Proof.
  revert lo. induction l as [|[a k] l IH]; intros lo Hc (a' & k' & Hin & Hlt) Hb; [set_solver|].
  simpl in Hc. destruct Hc as (Hlo & Hk & Hc).
  assert (Hnb : ~ a <= b < a + k) by (intros ?; apply Hb, covers_cons; by left).
  destruct (decide (Exists (fun x : block => x.1 < b) l)) as [He|He].
  - destruct (IH _ Hc) as (l1 & p & n & l2 & -> & ? & ?).
    + apply Exists_exists in He as ([p n] & ? & ?). by exists p, n.
    + intros ?. apply Hb, covers_cons. by right.
    + by exists ((a, k) :: l1), p, n, l2.
  - assert (a < b).
    { apply elem_of_cons in Hin as [[= -> ->]|Hin]; [done|]. destruct He. apply Exists_exists. by exists (a', k'). }
    exists [], a, k, l. split; [done|]. split; [lia|]. destruct l as [|[c n] l]; [done|].
    simpl in Hc |- *. destruct Hc as (? & ? & ?). repeat split; try done.
    assert (~ c < b) by (intros ?; apply He; by left).
    assert (b <> c) by (intros ->; apply Hb; rewrite !covers_cons; lia). lia.
Qed.

Lemma canon_length lo hi l : canon lo l -> (forall i, covers l i -> i < hi) -> Z.of_nat (length l) <= Z.max 0 (hi - lo - 1).
Proof.
  intros Hc Hh. etrans; [|by apply total_bound]. clear Hh. revert lo Hc.
  induction l as [|[a n] l IH]; simpl; intros lo Hc; [lia|]. destruct Hc as (? & ? & Hc). apply IH in Hc. lia.
Qed.

(** ** The free list in a state *)
Section SlobList.
  Context {P : Type} `{HPS : PageSource P} {HPL : PageSourceLaws P}.
  Variable arena : Z.
  Implicit Types (s : slob P).

(** [f]: the free blocks; the ring starts at [arena], and [slobfree] is on it. *)
Record free_ok s (f : list block) : Prop := {
  fo_arena : exists rest, f = (arena, SLOB_UNIT) :: rest;
  fo_canon : canon (arena - 1) f;
  fo_ring : chain (mem s) f arena;
  fo_placed : Forall placed f;
  fo_slobfree : slobfree s ∈ f.*1
}.

Lemma placed_words a n : placed (a, n) -> kernel_word a = true /\ kernel_word (a + 4) = true.
Proof.
  unfold placed, kernel_word, KERNTOP. simpl. intros (Ha & ? & ? & ? & ?).
  rewrite !andb_true_iff, !Z.eqb_eq, !Z.leb_le, !Z.ltb_lt. repeat split; try lia; by mod_lia.
Qed.

Lemma placed_u32 a n : placed (a, n) -> is_u32 (a + n) /\ is_u32 a /\ 0 < n < two32 /\ 0 <= n / 8 < 1048577 /\ n = 8 * (n / 8).
Proof.
  unfold placed, is_u32, KERNTOP, KERNBASE, KMEMSIZE, two32. cbn [fst snd]. intros (? & ? & ? & ? & ?).
  assert (n = 8 * (n / 8)) by (apply Z_div_exact_full_2; lia). lia.
Qed.

Lemma load_Ok a s : kernel_word a = true -> load a s = Ok (mem s a).
Proof. unfold load. by intros ->. Qed.

Definition upd (a v : Z) s : slob P :=
  mk_slob (fun x => if x =? a then v else mem s x) (slobfree s) (bigblocks s) (pages_of s).

Lemma store_Ok a v s : kernel_word a = true -> store a v s = Ok (upd a v s).
Proof. unfold store. by intros ->. Qed.

Lemma upd_eq a v s : mem (upd a v s) a = v.
Proof. simpl. by rewrite Z.eqb_refl. Qed.
Lemma upd_ne a v s x : x <> a -> mem (upd a v s) x = mem s x.
Proof. simpl. intros ?. by rewrite (proj2 (Z.eqb_neq x a)). Qed.

(** Reading a block of the chain. *)
Lemma chain_units m l1 a n l2 y : chain m (l1 ++ (a, n) :: l2) y -> 8 * m a = n /\ m (a + 4) = addr_hd l2 y.
Proof. intros (_ & Hu & Hn & _)%chain_app. done. Qed.

Lemma get_units_block a n s : placed (a, n) -> 8 * mem s a = n -> get_units a s = Ok (n / 8).
Proof.
  intros Hp Hm. unfold get_units. rewrite load_Ok by (by destruct (placed_words _ _ Hp)). simpl. f_equal.
  destruct (placed_u32 _ _ Hp) as (_ & _ & _ & ? & ?). replace (mem s a) with (n / 8) by lia.
  apply s32_id. unfold is_s32. lia.
Qed.

Lemma get_next_block a n s : placed (a, n) -> get_next a s = Ok (mem s (a + 4)).
Proof. intros Hp. unfold get_next. apply load_Ok. by destruct (placed_words _ _ Hp). Qed.

Lemma set_units_block a n k s : placed (a, n) -> placed (a, 8 * k) -> set_units a k s = Ok (upd a k s).
Proof.
  intros Hp Hk. unfold set_units. rewrite store_Ok by (by destruct (placed_words _ _ Hp)).
  destruct (placed_u32 _ _ Hk) as (_ & _ & ? & ? & _). rewrite u32_id; [done|]. unfold is_u32, two32 in *. lia.
Qed.

Lemma set_next_block a n v s : placed (a, n) -> set_next a v s = Ok (upd (a + 4) v s).
Proof. intros Hp. unfold set_next. apply store_Ok. by destruct (placed_words _ _ Hp). Qed.

Lemma slob_plus_block a n : placed (a, n) -> slob_plus a (n / 8) = a + n.
Proof.
  intros Hp. destruct (placed_u32 _ _ Hp) as (? & _ & _ & _ & Hn). unfold slob_plus, SLOB_UNIT.
  rewrite <- Hn. by apply u32_id.
Qed.

(** Different aligned blocks have different words. *)
Lemma placed_words_ne a n b k : placed (a, n) -> placed (b, k) -> a <> b + 4 /\ b <> a + 4.
Proof. unfold placed. simpl. intros (Ha & _) (Hb & _). clear -Ha Hb. split; mod_lia. Qed.

(** A block beside the chain leaves it alone. *)
Lemma chain_upd l y s a n v x :
  chain (mem s) l y -> Forall placed l -> placed (a, n) -> a ∉ l.*1 -> x = a \/ x = a + 4 ->
  chain (mem (upd x v s)) l y.
Proof.
  intros Hc Hl Ha Hn Hx. eapply chain_ext; [|exact Hc]. intros b k Hb.
  rewrite Forall_forall in Hl. pose proof (Hl _ Hb) as Hpb.
  assert (b <> a) by (intros ->; apply Hn, list_elem_of_fmap; by exists (a, k)).
  destruct (placed_words_ne _ _ _ _ Ha Hpb). rewrite !upd_ne by (destruct Hx; subst; lia). done.
Qed.

Lemma canon_notin lo l a : canon lo l -> a <= lo -> a ∉ l.*1.
Proof. intros Hc Ha Hin. apply (canon_NoDup _ _ Hc) in Hin. lia. Qed.

(** The first half of [slob_free]: the freed block absorbs or is linked to the
    block after it. *)
Lemma link_up b n f2 s :
  placed (b, n) -> 8 * mem s b = n -> arena < b -> Forall placed f2 -> canon (b + n - 1) f2 ->
  chain (mem s) f2 arena ->
  exists s' k f2', (let nx := addr_hd f2 arena in
    if slob_plus b (n / 8) =? nx then
       let! nu := get_units nx s in
       let! s := set_units b (n / 8 + nu) s in
       let! nn := get_next nx s in
       set_next b nn s
     else set_next b nx s) = Ok s' /\
    placed (b, k) /\ chain (mem s') ((b, k) :: f2') arena /\ Forall placed f2' /\ canon (b - 1) ((b, k) :: f2') /\
    (forall i, covers ((b, k) :: f2') i <-> covers ((b, n) :: f2) i) /\
    (forall x, x <> b -> x <> b + 4 -> mem s' x = mem s x) /\
    slobfree s' = slobfree s /\ bigblocks s' = bigblocks s /\ pages_of s' = pages_of s.
Proof.
  intros Hb Hm Har Hp2 Hc2 Hch. rewrite (slob_plus_block _ _ Hb). cbv zeta.
  assert (Hn : 0 < n) by (unfold placed in Hb; simpl in Hb; lia).
  destruct (Z.eqb_spec (b + n) (addr_hd f2 arena)) as [Heq|Hne].
  - destruct f2 as [|[c k] f2]; simpl in Heq; [lia|]. subst c. simpl in *.
    apply Forall_cons in Hp2 as [Hpc Hp2]. destruct Hch as (Huc & Hnc & Hch). destruct Hc2 as (_ & Hk & Hc2).
    assert (Hbk : placed (b, n + k)).
    { clear -Hb Hpc. unfold placed in *. cbn [fst snd] in *. repeat split; try lia. mod_lia. }
    assert (Hdiv : 8 * (n / 8 + k / 8) = n + k).
    { destruct (placed_u32 _ _ Hb) as (_ & _ & _ & _ & ?), (placed_u32 _ _ Hpc) as (_ & _ & _ & _ & ?). lia. }
    assert (Hbc : b ∉ f2.*1) by (eapply canon_notin; [exact Hc2|lia]).
    destruct (placed_words_ne _ _ _ _ Hb Hpc) as [? ?].
    rewrite (get_units_block _ _ _ Hpc) by done. cbn [rbind].
    rewrite (set_units_block _ _ _ _ Hb) by (by rewrite Hdiv). cbn [rbind].
    rewrite (get_next_block _ _ _ Hpc). cbn [rbind]. rewrite (set_next_block _ _ _ _ Hb).
    rewrite upd_ne, Hnc by lia.
    eexists _, (n + k), f2. split; [done|]. split; [done|]. split.
    { simpl. rewrite !Z.eqb_refl, (proj2 (Z.eqb_neq b (b + 4))) by lia.
      split; [done|]. split; [done|].
      apply (chain_upd f2 arena (upd b (n / 8 + k / 8) s) b n); auto.
      apply (chain_upd f2 arena s b n); auto. }
    split; [done|]. split.
    { simpl. split; [lia|]. split; [lia|]. by rewrite Z.add_assoc. }
    split; [intros i; rewrite !covers_cons; intuition lia|].
    split; [|done]. intros x ? ?. by rewrite !upd_ne.
  - rewrite (set_next_block _ _ _ _ Hb). eexists _, n, f2. split; [done|]. split; [done|].
    assert (Hc2' : canon (b + n) f2).
    { destruct f2 as [|[c k] f2]; [done|]. simpl in *. intuition lia. }
    split.
    { simpl. rewrite Z.eqb_refl, (proj2 (Z.eqb_neq b (b + 4))) by lia. split; [done|]. split; [done|].
      apply (chain_upd f2 arena s b n); auto. eapply canon_notin; [exact Hc2|lia]. }
    split; [done|]. split; [simpl; repeat split; [lia..|done]|]. split; [done|].
    split; [|done]. intros x ? ?. by rewrite !upd_ne.
Qed.

(** The search stops at the last block below the freed one. *)
Lemma scan_step f1 e ne f2 b s :
  chain (mem s) (f1 ++ (e, ne) :: f2) arena -> Forall placed (f1 ++ (e, ne) :: f2) ->
  canon (arena - 1) (f1 ++ (e, ne) :: f2) -> arena < b -> e <> b ->
  slob_scan b s e =
    if (e <? b) && (match f2 with [] => true | (c, _) :: _ => b <? c end) then Ok (inr e)
    else Ok (inl (addr_hd f2 arena)).
Proof.
  intros Hch Hpl Hc Hb Hne. apply chain_units in Hch as [_ Hn].
  apply Forall_app in Hpl as [_ [Hpe _]%Forall_cons]. apply canon_app in Hc as (_ & _ & He & Hn0 & Hc).
  unfold slob_scan. rewrite (get_next_block _ _ _ Hpe), Hn. cbn [rbind].
  destruct f2 as [|[c nc] f2]; simpl.
  - rewrite (proj2 (Z.ltb_ge b arena)) by lia. rewrite (proj2 (Z.leb_le arena e)) by lia.
    by rewrite andb_false_r, orb_false_r, andb_true_r.
  - simpl in Hc. rewrite (proj2 (Z.leb_gt c e)) by lia. simpl. by case_match.
Qed.

(** Going round the ring, as long as nothing stops. *)
Lemma ring_walk {R} (step : Z -> res (Z + R)) r1 t r2 y (m : Z -> Z) :
  chain m (r1 ++ (t, r2) :: y) (addr_hd (r1 ++ (t, r2) :: y) 0) ->
  (forall e n, (e, n) ∈ r1 -> step e = Ok (inl (m (e + 4)))) ->
  rounds (length r1) step (addr_hd (r1 ++ (t, r2) :: y) 0) = Ok (inl t).
Proof.
  generalize (addr_hd (r1 ++ (t, r2) :: y) 0) at 1 as z. intros z.
  induction r1 as [|[e n] r1 IH]; intros Hc Hs; simpl in *; [done|].
  destruct Hc as (_ & Hn & Hc). rewrite (Hs e n) by left. cbn [rbind]. rewrite Hn.
  replace (addr_hd (r1 ++ (t, r2) :: y) z) with (addr_hd (r1 ++ (t, r2) :: y) 0) by (by destruct r1 as [|[]]).
  apply IH; [done|]. intros. eapply Hs. by right.
Qed.

(** The ring as seen from one of its blocks. *)
Lemma ring_rotate m f1 f2 y :
  chain m (f1 ++ f2) y -> addr_hd (f1 ++ f2) y = y -> f2 <> [] ->
  chain m (f2 ++ f1) (addr_hd f2 0).
Proof.
  intros [H1 H2]%chain_app Hy Hne. apply chain_app.
  destruct f2 as [|[a n] f2]; [done|]. simpl in *. split; [|done].
  destruct f1 as [|[b k] f1]; simpl in *; [by subst|]. subst. done.
Qed.

(** Well-formed free lists, before [slobfree] is looked at. *)
Record ring_ok (m : Z -> Z) (f : list block) : Prop := {
  ro_arena : exists rest, f = (arena, SLOB_UNIT) :: rest;
  ro_canon : canon (arena - 1) f;
  ro_ring : chain m f arena;
  ro_placed : Forall placed f
}.

Lemma free_ring s f : free_ok s f <-> ring_ok (mem s) f /\ slobfree s ∈ f.*1.
Proof. split; [intros []; by split|intros [[] ?]; by split]. Qed.

Lemma ring_at m f e n :
  ring_ok m f -> (e, n) ∈ f -> placed (e, n) /\ 8 * m e = n /\ arena <= e.
Proof.
  intros [_ Hc Hr Hp] Hin. rewrite Forall_forall in Hp. split; [by apply Hp|].
  apply (canon_In _ _ _ _ Hc) in Hin as Hlo. apply list_elem_of_split in Hin as (f1 & f2 & ->).
  apply chain_units in Hr as [? _]. split; [done|]. lia.
Qed.

Lemma ring_length m f : ring_ok m f -> Z.of_nat (length f) <= 2147483648.
Proof.
  intros Hf. pose proof Hf as [(rest & Hr) Hc _ Hp].
  destruct (ring_at _ _ arena SLOB_UNIT Hf) as [Ha _]; [subst; left|].
  etrans; [apply (canon_length _ KERNTOP _ Hc)|].
  - intros i (a & n & Hin & Hi). rewrite Forall_forall in Hp. apply Hp in Hin. unfold placed in Hin. simpl in Hin. lia.
  - unfold placed, KERNTOP, KERNBASE, KMEMSIZE in *. simpl in Ha. lia.
Qed.

(** A block reached from [slobfree], with what is passed on the way. *)
Lemma ring_path m f sf p :
  ring_ok m f -> sf ∈ f.*1 -> p ∈ f.*1 ->
  exists r1 np r2 g1 g2, f = g1 ++ g2 /\ g2 <> [] /\ addr_hd g2 0 = sf /\
    g2 ++ g1 = r1 ++ (p, np) :: r2 /\ (p ∉ r1.*1) /\
    chain m (r1 ++ (p, np) :: r2) (addr_hd (r1 ++ (p, np) :: r2) 0) /\
    Z.of_nat (length r1) < 2147483648.
Proof.
  intros Hf ([a n] & -> & Hsf)%list_elem_of_fmap Hp. simpl.
  apply list_elem_of_split in Hsf as (g1 & g2 & ->).
  assert (HR : p ∈ (((a, n) :: g2) ++ g1).*1).
  { revert Hp. rewrite !fmap_app, !elem_of_app. tauto. }
  apply list_elem_of_split_l in HR as (k1 & k2 & HR & Hn).
  apply fmap_app_inv in HR as (r1 & q & -> & Hq & HR). symmetry in Hq.
  destruct q as [|[p' np] r2]; simpl in Hq; [done|]. injection Hq as -> _.
  exists r1, np, r2, g1, ((a, n) :: g2). do 3 (split; [done|]). split; [done|]. split; [done|]. split.
  - rewrite <- HR. apply (ring_rotate m g1 ((a, n) :: g2) arena); [by apply ro_ring|by destruct (ro_arena _ _ Hf) as [? ->]|done].
  - pose proof (ring_length _ _ Hf) as Hlen. rewrite length_app in Hlen.
    apply (f_equal length) in HR. rewrite !length_app in HR. simpl in HR, Hlen. lia.
Qed.

Lemma slob_scan_finds f1 p np f2 b s :
  free_ok s (f1 ++ (p, np) :: f2) -> arena < b -> p + np <= b -> canon b f2 ->
  loop (slob_scan b s) (slobfree s) = Ok p.
Proof.
  intros [Hf Hsf]%free_ring Hb Hpb Hc2. pose proof Hf as [_ Hc Hr Hp].
  destruct (ring_path _ _ _ p Hf Hsf) as (r1 & n & r2 & g1 & g2 & Hg & Hne & Hhd & HR & Hnp & Hch & Hlen).
  { rewrite fmap_app, elem_of_app. right. left. }
  pose proof Hc as Hc'. apply canon_app in Hc' as (Hc1 & Hl1 & _ & Hnp0 & _).
  assert (Hstep : forall e ne, (e, ne) ∈ f1 ++ (p, np) :: f2 ->
    slob_scan b s e = Ok (if decide (e = p) then inr e else inl (mem s (e + 4)))).
  { intros e ne Hin. assert (Hep : (e = p /\ ne = np) \/ e + ne < p \/ b < e).
    { apply elem_of_app in Hin as [Hin|[[= -> ->]|Hin]%elem_of_cons]; [eauto| |].
      - by left.
      - apply (canon_In _ _ _ _ Hc2) in Hin. lia. }
    pose proof (ring_at _ _ _ _ Hf Hin) as [Hpe _]. assert (Hne0 : 0 < ne) by (unfold placed in Hpe; simpl in Hpe; lia).
    apply list_elem_of_split in Hin as (h1 & h2 & Heq). rewrite Heq in Hr, Hp, Hc.
    rewrite (scan_step h1 e ne h2 b s) by (done || lia).
    apply chain_units in Hr as [_ Hnx]. rewrite <- Hnx.
    assert (Hpin : (p, np) ∈ h1 ++ (e, ne) :: h2) by (rewrite <- Heq; apply elem_of_app; right; left).
    apply canon_app in Hc as (Hc1' & Hl1' & _ & _ & Hc2'). destruct (decide (e = p)) as [->|Hne'].
    - rewrite (proj2 (Z.ltb_lt p b)) by lia. simpl. destruct h2 as [|[c nc] h2]; [done|].
      rewrite (proj2 (Z.ltb_lt b c)); [done|]. simpl in Hc2'.
      assert (Hcin : (c, nc) ∈ f1 ++ (p, np) :: f2) by (rewrite Heq; apply elem_of_app; right; right; left).
      apply elem_of_app in Hcin as [Hcin|[[= -> ->]|Hcin]%elem_of_cons]; [apply Hl1 in Hcin; lia|lia|].
      apply (canon_In _ _ _ _ Hc2) in Hcin. lia.
    - destruct (e <? b) eqn:Heb; simpl; [|done]. apply Z.ltb_lt in Heb.
      apply elem_of_app in Hpin as [Hpin|[[= -> ->]|Hpin]%elem_of_cons]; [apply Hl1' in Hpin; lia|done|].
      destruct h2 as [|[c nc] h2]; [set_solver|]. rewrite (proj2 (Z.ltb_ge b c)); [done|].
      apply elem_of_cons in Hpin as [[= -> ->]|Hpin]; [lia|]. simpl in Hc2'.
      destruct (canon_In (c + nc) h2 _ _ ltac:(tauto) Hpin) as [? _]. lia. }
  assert (Hin1 : forall e ne, (e, ne) ∈ g2 ++ g1 -> (e, ne) ∈ f1 ++ (p, np) :: f2).
  { intros e ne. rewrite Hg, !elem_of_app. tauto. }
  rewrite <- Hhd. apply (loop_rounds (length r1 + 1)); [|lia].
  rewrite rounds_add.
  replace (addr_hd g2 0) with (addr_hd (r1 ++ (p, n) :: r2) 0) by (rewrite <- HR; by destruct g2 as [|[]]).
  rewrite (ring_walk _ r1 p n r2 (mem s)); [|done|].
  - cbn [rbind rounds]. rewrite (Hstep p np) by (apply elem_of_app; right; left).
    by rewrite decide_True.
  - intros e ne Hin. rewrite (Hstep e ne) by (apply Hin1; rewrite HR; apply elem_of_app; by left).
    rewrite decide_False; [done|]. intros ->. apply Hnp, list_elem_of_fmap. by exists (p, ne).
Qed.

(** The second half: it is merged into the block before it, or linked there. *)
Lemma link_down f1 p np b k f2 s :
  placed (p, np) -> 8 * mem s p = np -> p + np <= b ->
  placed (b, k) -> chain (mem s) ((b, k) :: f2) arena -> Forall placed f2 -> canon (b - 1) ((b, k) :: f2) ->
  chain (mem s) f1 p -> Forall placed f1 -> canon (arena - 1) (f1 ++ [(p, np)]) ->
  exists s' m rest, (if slob_plus p (np / 8) =? b then
       let! bu := get_units b s in
       let! s := set_units p (np / 8 + bu) s in
       let! bn := get_next b s in
       set_next p bn s
     else set_next p b s) = Ok s' /\
    chain (mem s') (f1 ++ (p, m) :: rest) arena /\ Forall placed (f1 ++ (p, m) :: rest) /\
    canon (arena - 1) (f1 ++ (p, m) :: rest) /\ (m = np \/ p + np = b) /\
    (forall i, covers (f1 ++ (p, m) :: rest) i <-> covers (f1 ++ (p, np) :: (b, k) :: f2) i) /\
    (forall x, x <> p -> x <> p + 4 -> mem s' x = mem s x) /\
    slobfree s' = slobfree s /\ bigblocks s' = bigblocks s /\ pages_of s' = pages_of s.
Proof.
  intros Hp Hm Hpb Hb Hch Hp2 Hc2 Hch1 Hp1 Hc1. rewrite (slob_plus_block _ _ Hp).
  apply canon_app in Hc1 as (Hc1 & Hl1 & Hlo & Hnp & _).
  assert (Hn1 : p ∉ f1.*1).
  { intros ([a n] & -> & Hin)%list_elem_of_fmap. pose proof (Hl1 _ _ Hin).
    pose proof (canon_In _ _ _ _ Hc1 Hin). simpl in *. lia. }
  destruct Hch as (Hub & Hnb & Hch). destruct Hc2 as (_ & Hk & Hc2).
  assert (Hn2 : p ∉ f2.*1) by (eapply canon_notin; [exact Hc2|lia]).
  destruct (placed_words_ne _ _ _ _ Hp Hb) as [? ?].
  destruct (Z.eqb_spec (p + np) b) as [Heq|Hne].
  - assert (Hpk : placed (p, np + k)).
    { clear -Hp Hb Heq. unfold placed in *. cbn [fst snd] in *. repeat split; try lia. mod_lia. }
    assert (Hdiv : 8 * (np / 8 + k / 8) = np + k).
    { destruct (placed_u32 _ _ Hp) as (_ & _ & _ & _ & ?), (placed_u32 _ _ Hb) as (_ & _ & _ & _ & ?). lia. }
    rewrite (get_units_block _ _ _ Hb) by done. cbn [rbind].
    rewrite (set_units_block _ _ _ _ Hp) by (by rewrite Hdiv). cbn [rbind].
    rewrite (get_next_block _ _ _ Hb). cbn [rbind]. rewrite (set_next_block _ _ _ _ Hp).
    rewrite upd_ne, Hnb by lia. eexists _, (np + k), f2. split; [done|].
    split; [|split; [|split; [|split; [by right|split; [|split; [|done]]]]]].
    + apply chain_app. split; [do 2 (eapply chain_upd; eauto)|]. simpl.
      rewrite !Z.eqb_refl, (proj2 (Z.eqb_neq p (p + 4))) by lia. split; [done|]. split; [done|].
      apply (chain_upd f2 arena (upd p (np / 8 + k / 8) s) p np); eauto using chain_upd.
    + apply Forall_app. auto.
    + apply canon_app. split; [done|]. split; [done|]. split; [done|]. split; [lia|].
      by replace (p + (np + k)) with (b + k) by lia.
    + intros i. rewrite !covers_app, !covers_cons. intuition lia.
    + intros x ? ?. by rewrite !upd_ne.
  - rewrite (set_next_block _ _ _ _ Hp). eexists _, np, ((b, k) :: f2). split; [done|].
    split; [|split; [|split; [|split; [by left|split; [done|split; [|done]]]]]].
    + apply chain_app. split; [apply (chain_upd f1 p s p np); auto|]. simpl.
      rewrite !Z.eqb_refl, (proj2 (Z.eqb_neq p (p + 4))), (proj2 (Z.eqb_neq b (p + 4))), (proj2 (Z.eqb_neq (b + 4) (p + 4))) by lia.
      split; [done|]. split; [done|]. split; [done|]. split; [done|].
      apply (chain_upd f2 arena s p np); eauto.
    + apply Forall_app. auto.
    + apply canon_app. split; [done|]. split; [done|]. split; [done|]. split; [lia|]. simpl. split; [lia|done].
    + intros x ? ?. by rewrite !upd_ne.
Qed.

(** Writing into a block that is not free. *)
Lemma ring_upd m f a n x v :
  ring_ok m f -> placed (a, n) -> a ∉ f.*1 -> x = a \/ x = a + 4 ->
  ring_ok (fun y => if y =? x then v else m y) f.
Proof.
  intros [Ha Hc Hr Hp] Hpa Hn Hx. split; [done|done| |done].
  eapply chain_ext; [|exact Hr]. intros b k Hin. rewrite Forall_forall in Hp. pose proof (Hp _ Hin) as Hpb.
  assert (b <> a) by (intros ->; apply Hn, list_elem_of_fmap; by exists (a, k)).
  destruct (placed_words_ne _ _ _ _ Hpa Hpb). split; rewrite (proj2 (Z.eqb_neq _ _)); [done| |done|];
    destruct Hx; subst; lia.
Qed.

(** [slob_free] is [release] on the list it maintains. *)
Lemma slob_free_ok s f b n size :
  free_ok s f -> placed (b, n) -> arena + SLOB_UNIT < b -> (forall i, covers f i -> ~ b <= i < b + n) ->
  (size = 0 /\ 8 * mem s b = n \/ size <> 0 /\ 8 * SLOB_UNITS size = n) ->
  exists s' f', slob_free b size s = Ok s' /\ free_ok s' f' /\ release b n f = Ok f' /\
    (forall i, covers f' i <-> covers f i \/ b <= i < b + n) /\
    (forall x, ~ covers f x -> ~ b <= x < b + n -> mem s' x = mem s x) /\
    bigblocks s' = bigblocks s /\ pages_of s' = pages_of s.
Proof.
  intros [Hf Hsf]%free_ring Hb Hab Hd Hsz. unfold SLOB_UNIT in Hab.
  assert (Hn8 : 8 <= n) by (unfold placed in Hb; simpl in Hb; lia).
  assert (Hnb : b ∉ f.*1).
  { intros ([a k] & -> & Hin)%list_elem_of_fmap. destruct (canon_In _ _ _ _ (ro_canon _ _ Hf) Hin) as (_ & ? & Hcv).
    apply (Hd a); [apply Hcv; simpl; lia|simpl; lia]. }
  unfold slob_free. rewrite (proj2 (Z.eqb_neq b NULL)) by (unfold placed, KERNBASE, NULL in *; simpl in Hb; lia).
  assert (exists s0, (if negb (size =? 0) then set_units b (SLOB_UNITS size) s else Ok s) = Ok s0 /\
    free_ok s0 f /\ 8 * mem s0 b = n /\ (forall x, x <> b -> mem s0 x = mem s x) /\ slobfree s0 = slobfree s /\
    bigblocks s0 = bigblocks s /\ pages_of s0 = pages_of s) as (s0 & -> & Hf0 & Hm0 & Hfr0 & Hsf0 & Hbb0 & Hpg0).
  { destruct Hsz as [[-> Hm]|[Hne Hm]]; [exists s; simpl; rewrite free_ring; tauto|].
    rewrite (proj2 (Z.eqb_neq size 0)) by done. cbn [negb].
    rewrite (set_units_block b n) by (done || by rewrite Hm). eexists. split; [done|].
    rewrite free_ring. rewrite upd_eq. split; [split; [|done]|split; [done|split; [|done]]].
    - apply (ring_upd (mem s) f b n); auto.
    - intros x ?. by rewrite upd_ne. }
  cbn [rbind]. apply free_ring in Hf0 as Hf0'. destruct Hf0' as [Hr0 Hsf0'].
  assert (Hb0 : ~ covers f b) by (intros Hc; by apply (Hd b Hc); lia).
  destruct (canon_below _ _ b (ro_canon _ _ Hf)) as (f1 & p & np & f2 & -> & Hpb & Hc2); [|done|].
  { destruct (ro_arena _ _ Hf) as [rest ->]. exists arena, SLOB_UNIT. split; [left|lia]. }
  rewrite (slob_scan_finds f1 p np f2) by (done || lia). cbn [rbind].
  pose proof Hr0 as [Har Hc Hch Hpl]. apply Forall_app in Hpl as [Hpl1 [Hpp Hpl2]%Forall_cons].
  apply chain_app in Hch as (Hch1 & Hup & Hnp & Hch2). simpl in Hch1.
  apply canon_app in Hc as Hc'. destruct Hc' as (Hc1 & Hl1 & Hlo & Hnp0 & _).
  rewrite (get_next_block _ _ _ Hpp), Hnp. cbn [rbind]. rewrite (get_units_block _ _ _ Hb Hm0). cbn [rbind].
  assert (Hc2' : canon (b + n - 1) f2).
  { destruct f2 as [|[c k] f2]; [done|]. simpl in *. split; [|tauto].
    assert (~ b <= c < b + n); [|lia]. apply Hd, covers_app. right. apply covers_cons. right. apply covers_cons. lia. }
  destruct (link_up b n f2 s0) as (s1 & k & f2' & E1 & Hbk & Hch1' & Hpl2' & Hc2'' & Hcov1 & Hfr1 & Hsf1 & Hbb1 & Hpg1);
    [done|done|lia|done|done|done|].
  cbv zeta in E1. rewrite E1. cbn [rbind].
  destruct (placed_words_ne _ _ _ _ Hb Hpp) as [? ?].
  rewrite (get_units_block p np); [|done|rewrite Hfr1 by lia; done]. cbn [rbind].
  destruct (link_down f1 p np b k f2' s1) as (s2 & m & rest & E2 & Hch' & Hpl' & Hcan' & Hm & Hcov2 & Hfr2 & Hsf2 & Hbb2 & Hpg2);
    [done|rewrite Hfr1 by lia; done|done|done|done|done|done| |done| |].
  { eapply chain_ext; [|exact Hch1]. intros a j Hin. rewrite Forall_forall in Hpl1. pose proof (Hpl1 _ Hin) as Hpa.
    destruct (placed_words_ne _ _ _ _ Hb Hpa). pose proof (Hl1 _ _ Hin). unfold placed in Hpa; simpl in Hpa.
    rewrite !Hfr1 by lia. done. }
  { apply canon_app. done. }
  rewrite E2. cbn [rbind]. eexists _, (f1 ++ (p, m) :: rest). split; [done|].
  assert (Hcov : forall i, covers (f1 ++ (p, m) :: rest) i <-> covers (f1 ++ (p, np) :: f2) i \/ b <= i < b + n).
  { intros i. rewrite Hcov2. specialize (Hcov1 i). rewrite covers_app, covers_cons, Hcov1, covers_app, !covers_cons. tauto. }
  split.
  { apply free_ring. split; [split; [|done..]|simpl; rewrite fmap_app, elem_of_app; right; left].
    destruct Har as [r Har]. destruct f1 as [|[a j] f1]; simpl in *.
    - injection Har as -> -> ->. destruct Hm as [->|?]; [eauto|unfold SLOB_UNIT in *; lia].
    - injection Har as -> ->. eauto. }
  split.
  { destruct (release_spec (arena - 1) b n (f1 ++ (p, np) :: f2)) as (f' & -> & Hcf & _ & Hcov'); [lia|lia|done|done|].
    f_equal. apply (canon_unique (arena - 1)); [done|done|]. intros i. by rewrite Hcov, Hcov'. }
  split; [done|]. split; [|simpl; by rewrite Hbb2, Hbb1, Hbb0, Hpg2, Hpg1, Hpg0].
  intros x Hx Hxb. simpl. assert (8 <= np) by (unfold placed in Hpp; simpl in Hpp; lia).
  assert (~ p <= x < p + np) by (intros ?; apply Hx, covers_app; right; apply covers_cons; by left).
  rewrite Hfr2, Hfr1, Hfr0 by lia. done.
Qed.

(** ** [slob_alloc] *)

(** The ring in the order in which it is searched: [slobfree] comes last. *)
Definition searched sf (f R : list block) : Prop :=
  exists g1 n g2, f = g1 ++ (sf, n) :: g2 /\ R = g2 ++ g1 ++ [(sf, n)].

Lemma searched_exists f sf : sf ∈ f.*1 -> exists R, searched sf f R.
Proof.
  intros ([a n] & -> & (g1 & g2 & ->)%list_elem_of_split)%list_elem_of_fmap. by eexists _, g1, n, g2.
Qed.

Lemma searched_elem sf f R x : searched sf f R -> x ∈ R <-> x ∈ f.
Proof. intros (g1 & n & g2 & -> & ->). rewrite !elem_of_app, !elem_of_cons, elem_of_nil. tauto. Qed.

Lemma searched_chain m f sf R :
  ring_ok m f -> searched sf f R -> chain m R (m (sf + 4)) /\ addr_hd R 0 = m (sf + 4) /\ (exists R' n, R = R' ++ [(sf, n)]) /\
    Z.of_nat (length R) <= 2147483648.
Proof.
  intros Hf (g1 & n & g2 & -> & ->). pose proof (ro_ring _ _ Hf) as Hr. pose proof (ring_length _ _ Hf) as Hlen.
  apply chain_units in Hr as Hn. destruct Hn as [_ Hn]. destruct (ro_arena _ _ Hf) as [rest Ha].
  assert (Hhd : addr_hd (g1 ++ (sf, n) :: g2) 0 = arena) by (by rewrite Ha).
  split; [|split; [|split]].
  - rewrite Hn. destruct g2 as [|[c k] g2].
    + simpl. by destruct g1 as [|[]].
    + change ((c, k) :: g2) with ([] ++ (c, k) :: g2) in Hr. rewrite cons_middle, app_assoc in Hr.
      apply (ring_rotate m (g1 ++ [(sf, n)]) ((c, k) :: g2) arena); [done| |done].
      rewrite <- app_assoc. simpl. by destruct g1 as [|[]].
  - rewrite Hn. destruct g2 as [|[c k] g2]; [|done]. simpl. by destruct g1 as [|[]].
  - rewrite app_assoc. eauto.
  - rewrite !length_app in *. simpl in *. lia.
Qed.

Lemma split_unique lo l1 c k l2 h1 k' h2 :
  canon lo (l1 ++ (c, k) :: l2) -> l1 ++ (c, k) :: l2 = h1 ++ (c, k') :: h2 -> l1 = h1 /\ k = k' /\ l2 = h2.
Proof.
  intros Hc%canon_NoDup He. destruct Hc as [Hnd _]. revert h1 He.
  induction l1 as [|[a n] l1 IH]; intros [|[b j] h1] He; simpl in *.
  - by injection He as -> ->.
  - injection He as -> _ ->. rewrite fmap_app in Hnd. simpl in Hnd. apply NoDup_cons in Hnd as [Hn _].
    destruct Hn. apply elem_of_app. right. left.
  - injection He as -> _ _. rewrite fmap_app in Hnd. simpl in Hnd. apply NoDup_cons in Hnd as [Hn _].
    destruct Hn. apply elem_of_app. right. left.
  - injection He as -> -> He. apply NoDup_cons in Hnd as [_ Hnd]. destruct (IH Hnd _ He) as (-> & -> & ->). done.
Qed.

(** The block whose [next] is [c] is the one before it in the list. *)
Lemma pred_unique m f1 c k f2 e :
  ring_ok m (f1 ++ (c, k) :: f2) -> e ∈ (f1 ++ (c, k) :: f2).*1 -> m (e + 4) = c -> c <> arena ->
  exists f0 n, f1 = f0 ++ [(e, n)].
Proof.
  intros Hf ([a n] & -> & Hin)%list_elem_of_fmap Hm Hc. simpl in *.
  apply list_elem_of_split in Hin as (h1 & h2 & Heq). pose proof (ro_ring _ _ Hf) as Hr. rewrite Heq in Hr.
  apply chain_units in Hr as [_ Hn]. rewrite Hm in Hn. destruct h2 as [|[c' k'] h2]; simpl in Hn; [done|]. subst c'.
  change (h1 ++ (a, n) :: (c, k') :: h2) with (h1 ++ [(a, n)] ++ (c, k') :: h2) in Heq. rewrite (app_assoc h1) in Heq.
  destruct (split_unique _ _ _ _ _ _ _ _ (ro_canon _ _ Hf) Heq) as (-> & _). eauto.
Qed.

(** Taking the first [u] units of a free block. *)
Lemma slob_take_ok s f0 p np c k f2 u :
  free_ok s (f0 ++ (p, np) :: (c, k) :: f2) -> 1 <= u -> 8 * u <= k ->
  exists s', slob_take u 0 0 p c s = Ok (c, s') /\
    free_ok s' (f0 ++ (p, np) :: (if 8 * u <? k then [(c + 8 * u, k - 8 * u)] else []) ++ f2) /\
    8 * mem s' c = 8 * u /\
    (forall x, ~ covers (f0 ++ (p, np) :: (c, k) :: f2) x -> mem s' x = mem s x) /\
    bigblocks s' = bigblocks s /\ pages_of s' = pages_of s.
Proof.
  intros [Hf _]%free_ring Hu Hk. pose proof Hf as [Har Hc Hr Hp].
  apply Forall_app in Hp as [Hp0 [Hpp [Hpc Hp2]%Forall_cons]%Forall_cons].
  apply chain_app in Hr as (Hr0 & Hup & Hnp & Huc & Hnc & Hr2). simpl in Hr0, Hnp. unfold SLOB_UNIT in Hup, Huc.
  apply canon_app in Hc as (Hc0 & Hl0 & Hlo & Hnp0 & Hc2). simpl in Hc2. destruct Hc2 as (Hpc0 & Hk0 & Hc2).
  assert (Hn0 : p ∉ f0.*1).
  { intros ([a n] & -> & Hin)%list_elem_of_fmap. pose proof (Hl0 _ _ Hin).
    pose proof (canon_In _ _ _ _ Hc0 Hin). simpl in *. lia. }
  assert (Hn2 : p ∉ f2.*1) by (eapply canon_notin; [exact Hc2|lia]).
  assert (Hnc2 : c ∉ f2.*1) by (eapply canon_notin; [exact Hc2|lia]).
  assert (Hnc0 : c ∉ f0.*1).
  { intros ([a n] & -> & Hin)%list_elem_of_fmap. pose proof (Hl0 _ _ Hin).
    pose proof (canon_In _ _ _ _ Hc0 Hin). simpl in *. lia. }
  destruct (placed_words_ne _ _ _ _ Hpp Hpc) as [? ?].
  assert (Hpc' : covers (f0 ++ (p, np) :: (c, k) :: f2) p) by (apply covers_app; right; apply covers_cons; lia).
  assert (8 <= np) by (unfold placed in Hpp; simpl in Hpp; lia).
  unfold slob_take. cbn [negb Z.eqb rbind]. rewrite (get_units_block _ _ _ Hpc Huc). cbn [rbind].
  destruct (placed_u32 _ _ Hpc) as (_ & _ & _ & ? & Hkd).
  destruct (Z.eqb_spec (k / 8) u) as [Heq|Hne].
  - rewrite (get_next_block _ _ _ Hpc), Hnc. cbn [rbind]. rewrite (set_next_block _ _ _ _ Hpp). cbn [rbind].
    rewrite (proj2 (Z.ltb_ge (8 * u) k)) by lia. cbn [app]. eexists. split; [done|].
    split; [apply free_ring; split; [split|]|split; [|split; [|done]]].
    + destruct Har as [r Har]. destruct f0 as [|[a j] f0]; simpl in *; injection Har as ->; subst; eauto.
    + apply canon_app. do 4 (split; [done|]). eapply canon_weaken; [|exact Hc2]. lia.
    + apply chain_app. split; [by apply (chain_upd f0 p s p np); auto|]. simpl.
      rewrite Z.eqb_refl, (proj2 (Z.eqb_neq p (p + 4))) by lia. split; [done|]. split; [done|].
      apply (chain_upd f2 arena s p np); auto.
    + apply Forall_app. auto.
    + simpl. rewrite fmap_app, elem_of_app. right. left.
    + simpl. rewrite (proj2 (Z.eqb_neq c (p + 4))) by lia. lia.
    + intros x Hx. simpl. rewrite (proj2 (Z.eqb_neq x (p + 4))); [done|]. intros ->. apply Hx, covers_app. right.
      apply covers_cons. lia.
  - rewrite (proj2 (Z.ltb_lt (8 * u) k)) by lia. cbn [app].
    assert (Hpl : slob_plus c u = c + 8 * u).
    { unfold slob_plus, SLOB_UNIT. apply u32_id. destruct (placed_u32 _ _ Hpc) as ([? ?] & [? ?] & _). split; lia. }
    assert (Hpr : placed (c + 8 * u, k - 8 * u)).
    { clear -Hpc Hu Hk Hne Hkd. unfold placed in *. cbn [fst snd] in *. repeat split; try lia; mod_lia. }
    assert (Hpu : placed (c, 8 * u)).
    { clear -Hpc Hu Hk Hne Hkd. unfold placed in *. cbn [fst snd] in *. repeat split; try lia; mod_lia. }
    destruct (placed_words_ne _ _ _ _ Hpp Hpr) as [? ?]. destruct (placed_words_ne _ _ _ _ Hpc Hpr) as [? ?].
    rewrite (set_next_block _ _ _ _ Hpp). cbn [rbind]. rewrite (get_next_block _ _ _ Hpp), upd_eq. cbn [rbind].
    rewrite (get_units_block c k) by (rewrite ?upd_ne by lia; done). cbn [rbind]. rewrite Hpl.
    rewrite (set_units_block _ _ (k / 8 - u) _ Hpr) by (by replace (8 * (k / 8 - u)) with (k - 8 * u) by lia). cbn [rbind].
    rewrite (get_next_block _ _ _ Hpp), upd_ne, upd_eq by lia. cbn [rbind].
    rewrite (get_next_block _ _ _ Hpc), !upd_ne, Hnc by lia. cbn [rbind].
    rewrite (set_next_block _ _ _ _ Hpr). cbn [rbind].
    rewrite (set_units_block _ _ u _ Hpc) by done. cbn [rbind].
    match goal with |- exists s', Ok (c, set_slobfree p ?t) = _ /\ _ => set (s' := t) end.
    assert (Hfr : forall x, x <> c -> x <> p + 4 -> x <> c + 8 * u -> x <> c + 8 * u + 4 -> mem s' x = mem s x).
    { intros x ? ? ? ?. unfold s'. by rewrite !upd_ne. }
    assert (Hv : mem s' c = u /\ mem s' (p + 4) = c + 8 * u /\ mem s' (c + 8 * u) = k / 8 - u /\
      mem s' (c + 8 * u + 4) = addr_hd f2 arena).
    { unfold s'. rewrite upd_eq. rewrite !(upd_ne c), upd_eq by lia. rewrite !(upd_ne (c + 8 * u + 4)) by lia.
      rewrite upd_eq. rewrite upd_ne, upd_eq by lia. done. }
    destruct Hv as (Hvc & Hvp & Hvr & Hvn).
    exists (set_slobfree p s'). split; [done|].
    split; [apply free_ring; split; [split|]|split; [|split; [|done]]].
    + destruct Har as [r Har]. destruct f0 as [|[a j] f0]; simpl in *; injection Har as ->; subst; eauto.
    + apply canon_app. do 4 (split; [done|]). simpl. split; [lia|]. split; [lia|].
      by replace (c + 8 * u + (k - 8 * u)) with (c + k) by lia.
    + change (mem (set_slobfree p s')) with (mem s'). apply chain_app. cbn [addr_hd chain]. unfold SLOB_UNIT.
      rewrite Hvp, Hvr, Hvn, (Hfr p) by lia.
      split; [|split; [done|split; [done|split; [lia|split; [done|]]]]].
      * eapply chain_ext; [|exact Hr0]. intros a n Hin. pose proof (Hl0 _ _ Hin).
        rewrite Forall_forall in Hp0. pose proof (Hp0 _ Hin) as Hpa. unfold placed in Hpa. simpl in Hpa. rewrite !Hfr by lia. done.
      * eapply chain_ext; [|exact Hr2]. intros a n Hin. pose proof (canon_In _ _ _ _ Hc2 Hin). rewrite !Hfr by lia. done.
    + apply Forall_app. auto.
    + simpl. rewrite fmap_app, elem_of_app. right. left.
    + change (mem (set_slobfree p s')) with (mem s'). by rewrite Hvc.
    + intros x Hx. change (mem (set_slobfree p s')) with (mem s').
      assert (~ p <= x < p + np /\ ~ c <= x < c + k) as [? ?]
        by (split; intros ?; apply Hx, covers_app; right; rewrite !covers_cons; tauto).
      apply Hfr; lia.
Qed.

(** What one round does when nothing is to be aligned. *)
Lemma alloc_step s f size u prev c k :
  free_ok s f -> (c, k) ∈ f -> 0 <= u < 1048577 ->
  slob_alloc_body size 0 u (s, prev, c) =
    if 8 * u <=? k then let! r := slob_take u 0 0 prev c s in Ok (inr r)
    else if c =? slobfree s then slob_alloc_body size 0 u (s, prev, c)
    else Ok (inl (s, c, mem s (c + 4))).
Proof.
  intros [Hf _]%free_ring Hin Hu. destruct (ring_at _ _ _ _ Hf Hin) as (Hp & Hm & _).
  destruct (placed_u32 _ _ Hp) as (_ & _ & _ & ? & ?).
  unfold slob_alloc_body at 1. cbn [negb Z.eqb rbind]. rewrite (get_units_block _ _ _ Hp Hm). cbn [rbind].
  rewrite Z.add_0_r, s32_id by (unfold is_s32; lia).
  destruct (Z.leb_spec u (k / 8)), (Z.leb_spec (8 * u) k); try lia; [done|].
  destruct (c =? slobfree s) eqn:He.
  - unfold slob_alloc_body. cbn [negb Z.eqb rbind]. rewrite (get_units_block _ _ _ Hp Hm). cbn [rbind].
    rewrite Z.add_0_r, s32_id by (unfold is_s32; lia). rewrite (proj2 (Z.leb_gt u (k / 8))) by lia. by rewrite He.
  - by rewrite (get_next_block _ _ _ Hp).
Qed.

Lemma alloc_walk s f size u r1 t n r2 y prev :
  free_ok s f -> 0 <= u < 1048577 -> chain (mem s) (r1 ++ (t, n) :: r2) y ->
  (forall c k, (c, k) ∈ r1 -> (c, k) ∈ f /\ k < 8 * u /\ c <> slobfree s) ->
  prev ∈ f.*1 -> mem s (prev + 4) = addr_hd (r1 ++ (t, n) :: r2) 0 ->
  exists prev', rounds (length r1) (slob_alloc_body size 0 u) (s, prev, addr_hd (r1 ++ (t, n) :: r2) 0) = Ok (inl (s, prev', t)) /\
    prev' ∈ f.*1 /\ mem s (prev' + 4) = t.
Proof.
  intros Hf Hu. revert prev. induction r1 as [|[c k] r1 IH]; intros prev Hch Hr1 Hprev Hnx; cbn [app addr_hd chain] in *.
  - exists prev. split; [done|]. done.
  - destruct Hch as (_ & Hn & Hch). destruct (Hr1 c k) as (Hin & Hk & Hne); [left|].
    assert (Hhd : addr_hd (r1 ++ (t, n) :: r2) y = addr_hd (r1 ++ (t, n) :: r2) 0) by (by destruct r1 as [|[]]).
    cbn [length rounds]. rewrite (alloc_step s f) with (k := k) by done.
    rewrite (proj2 (Z.leb_gt (8 * u) k)), (proj2 (Z.eqb_neq _ _) Hne) by lia. cbn [rbind]. rewrite Hn, Hhd.
    apply IH; [done| |apply list_elem_of_fmap; by exists (c, k)|by rewrite Hn].
    intros ? ? ?. apply Hr1. by right.
Qed.

(** The first block of the search order with room enough is taken. *)
Lemma alloc_fits s f size u R r1 c k r2 :
  free_ok s f -> 2 <= u < 1048577 -> searched (slobfree s) f R -> R = r1 ++ (c, k) :: r2 ->
  (forall e n, (e, n) ∈ r1 -> n < 8 * u) -> 8 * u <= k ->
  exists s' f1 f2, rounds (length r1 + 1) (slob_alloc_body size 0 u) (s, slobfree s, mem s (slobfree s + 4)) = Ok (inr (c, s')) /\
    f = f1 ++ (c, k) :: f2 /\
    free_ok s' (f1 ++ (if 8 * u <? k then [(c + 8 * u, k - 8 * u)] else []) ++ f2) /\
    8 * mem s' c = 8 * u /\ (forall x, ~ covers f x -> mem s' x = mem s x) /\
    bigblocks s' = bigblocks s /\ pages_of s' = pages_of s.
Proof.
  intros Hf Hu HR HRe Hr1 Hk. apply free_ring in Hf as Hf'. destruct Hf' as [Hring Hsf].
  destruct (searched_chain _ _ _ _ Hring HR) as (Hch & Hhd & (R' & n & HR') & Hlen).
  assert (Hin : forall e j, (e, j) ∈ R -> (e, j) ∈ f) by (intros e j; by apply (searched_elem _ _ _ _ HR)).
  assert (Hcin : (c, k) ∈ f) by (apply Hin; rewrite HRe; apply elem_of_app; right; left).
  assert (Hnd : NoDup R.*1).
  { destruct HR as (g1 & n' & g2 & -> & ->). pose proof (ro_canon _ _ Hring) as [Hnd _]%canon_NoDup. eapply NoDup_perm; [|exact Hnd].
    apply fmap_Permutation. rewrite (Permutation_app_comm g2), <- app_assoc. simpl. by rewrite <- Permutation_middle, Permutation_app_comm. }
  assert (Hns : forall e j, (e, j) ∈ r1 -> e <> slobfree s).
  { intros e j Hej ->. rewrite HRe in HR'. destruct r2 as [|x r2] using rev_ind.
    - apply app_inj_tail in HR' as [_ [= -> ->]]. rewrite HRe, fmap_app in Hnd. apply NoDup_app in Hnd as (_ & Hd & _).
      apply (Hd (slobfree s)); [apply list_elem_of_fmap; by exists (slobfree s, j)|left].
    - rewrite app_comm_cons, app_assoc in HR'. apply app_inj_tail in HR' as [_ ->].
      rewrite HRe, app_comm_cons, !fmap_app in Hnd. apply NoDup_app in Hnd as (_ & Hd & _).
      apply (Hd (slobfree s)); [apply list_elem_of_fmap; by exists (slobfree s, j)|apply elem_of_app; right; left]. }
  rewrite HRe in Hch, Hhd.
  destruct (alloc_walk s f size u r1 c k r2 _ (slobfree s) Hf ltac:(lia) Hch) as (prev & E & Hprev & Hpn);
    [|done|done|].
  { intros e j Hej. split; [apply Hin; rewrite HRe; apply elem_of_app; by left|]. split; [eauto|eauto]. }
  apply list_elem_of_split in Hcin as (f1 & f2 & ->).
  assert (Hca : c <> arena).
  { intros ->. destruct (ro_arena _ _ Hring) as [rest Ha]. pose proof (ro_canon _ _ Hring) as Hcan.
    change ((arena, SLOB_UNIT) :: rest) with ([] ++ (arena, SLOB_UNIT) :: rest) in Ha.
    destruct (split_unique _ _ _ _ _ _ _ _ Hcan Ha) as (_ & -> & _). unfold SLOB_UNIT in Hk. lia. }
  destruct (pred_unique _ _ _ _ _ _ Hring Hprev Hpn Hca) as (f0 & np & ->).
  rewrite <- app_assoc in Hf. cbn [app] in Hf.
  destruct (slob_take_ok s f0 prev np c k f2 u Hf) as (s' & Et & Hf' & Hm' & Hfr & Hbb & Hpg); [lia|done|].
  exists s', (f0 ++ [(prev, np)]), f2. rewrite <- !app_assoc. cbn [app].
  split; [|done]. rewrite rounds_add, <- Hhd, E. cbn [rbind rounds].
  rewrite (alloc_step s _ size u prev c k Hf) by (lia || (apply elem_of_app; right; right; left)).
  rewrite (proj2 (Z.leb_le (8 * u) k)), Et by done. done.
Qed.

(** The bytes of a block of pages. *)
Definition bytes (b : block) : block := (kva_of_page b.1, PGSIZE * b.2).

Hypothesis arena_placed : placed (arena, SLOB_UNIT).
Hypothesis arena_below : arena + SLOB_UNIT < kva_of_page ps_lo.

(** Free memory outside [arena] is on the pages [h]. *)
Definition on_pages (f h : list block) : Prop :=
  forall i, covers f i -> i < arena + SLOB_UNIT \/ covers (bytes <$> h) i.

Lemma page_placed p h b n : ps_ok p h -> (b, n) ∈ h -> placed (bytes (b, n)) /\ arena + SLOB_UNIT < kva_of_page b.
Proof.
  intros Hp Hin. destruct (ps_held _ _ _ _ Hp Hin) as (? & ? & ?). pose proof ps_range as [Hlo Hhi].
  change (KMEMSIZE / PGSIZE) with 2048 in Hhi.
  split; [|unfold kva_of_page, PGSIZE in *; lia]. unfold placed, bytes, kva_of_page, KERNTOP, KERNBASE, KMEMSIZE, PGSIZE in *.
  cbn [fst snd]. repeat split; try lia; mod_lia.
Qed.

Lemma covers_bytes h i : covers (bytes <$> h) i <-> covers h (page_of_kva i).
Proof.
  unfold covers. split.
  - intros (b & n & ([p k] & [= -> ->] & Hin)%list_elem_of_fmap & Hi). exists p, k. split; [done|].
    unfold page_of_kva, kva_of_page, PGSIZE in *. simpl in *. mod_lia.
  - intros (p & k & Hin & Hi). exists (kva_of_page p), (PGSIZE * k). split; [apply list_elem_of_fmap; by exists (p, k)|].
    unfold page_of_kva, kva_of_page, PGSIZE in *. mod_lia.
Qed.

Lemma covers_occ h i : covers h i -> 1 <= occ i h.
Proof. intros (b & n & Hin & Hi). by eapply occ_in. Qed.

(** A block just handed out overlaps nothing held before. *)
Lemma new_page_fresh p h b n i : ps_ok p ((b, n) :: h) -> covers (bytes <$> h) i -> ~ covers [bytes (b, n)] i.
Proof.
  intros Hp Hi%covers_bytes%covers_occ Hn. change [bytes (b, n)] with (bytes <$> [(b, n)]) in Hn.
  apply covers_bytes in Hn as (b' & n' & [= -> ->]%list_elem_of_singleton & Hr).
  pose proof (ps_disjoint _ _ Hp (page_of_kva i)) as Ho. simpl in Ho.
  rewrite (proj2 (in_block_spec _ _ _) Hr) in Ho. lia.
Qed.

(** The ring grows by a page. *)
Lemma slob_grow s f h :
  free_ok s f -> ps_ok (pages_of s) h -> on_pages f h ->
  exists r s1, slob_get_free_pages 0 s = Ok (r, s1) /\
    ((r = NULL /\ mem s1 = mem s /\ slobfree s1 = slobfree s /\ bigblocks s1 = bigblocks s /\ ps_ok (pages_of s1) h) \/
     r <> NULL /\ exists pg s' f', r = kva_of_page pg /\ slob_free r PAGE_SIZE s1 = Ok s' /\ ps_ok (pages_of s') ((pg, 1) :: h) /\
       free_ok s' f' /\ (forall i, covers f' i <-> covers f i \/ covers [bytes (pg, 1)] i) /\
       (forall x, ~ covers f x -> ~ covers [bytes (pg, 1)] x -> mem s' x = mem s x) /\ bigblocks s' = bigblocks s).
Proof.
  intros Hf Hp Hon. unfold slob_get_free_pages. change (Z.shiftl 1 0) with 1.
  destruct (ps_alloc_ok _ _ 1 Hp ltac:(lia)) as (r & p' & E & Hp'). rewrite E. cbn [rbind].
  destruct r as [pg|]; [|eexists _, _; split; [done|]; left; repeat split; done].
  destruct (page_placed _ _ pg 1 Hp') as [Hpl Hlow]; [left|].
  eexists _, _. split; [done|]. right.
  split; [unfold placed, bytes, NULL, KERNBASE in *; simpl in Hpl; lia|].
  destruct (slob_free_ok (mk_slob (mem s) (slobfree s) (bigblocks s) p') f (kva_of_page pg) PGSIZE PAGE_SIZE)
    as (s' & f' & Ef & Hf' & _ & Hcov & Hfr & Hbb & Hpg); [|done|done| |by right|].
  - destruct Hf. by split.
  - intros i Hi Hr. apply (new_page_fresh _ _ _ _ i Hp'); [|apply covers_cons; left; unfold PGSIZE in *; simpl; lia].
    destruct (Hon i Hi) as [?|?]; [lia|done].
  - exists pg, s', f'. split; [done|]. split; [done|]. rewrite Hpg. split; [done|]. split; [done|].
    assert (Hb : forall i, covers [bytes (pg, 1)] i <-> kva_of_page pg <= i < kva_of_page pg + PGSIZE).
    { intros i. unfold bytes. cbn [fst snd]. rewrite Z.mul_1_r, covers_cons. pose proof (covers_nil i). tauto. }
    split; [intros i; by rewrite Hcov, Hb|]. split; [|done]. intros x Hx. rewrite Hb. by apply Hfr.
Qed.

(** What a successful [slob_alloc] establishes; [g] is the page it added. *)
Definition alloc_post s f h u r s' f' (g : list block) : Prop :=
  ps_ok (pages_of s') (g ++ h) /\ (length g <= 1)%nat /\ free_ok s' f' /\ placed (r, 8 * u) /\ arena < r /\
  8 * mem s' r = 8 * u /\
  (forall i, covers f' i \/ r <= i < r + 8 * u <-> covers f i \/ covers (bytes <$> g) i) /\
  (forall i, covers f' i -> ~ r <= i < r + 8 * u) /\
  (forall x, ~ covers f x -> ~ covers (bytes <$> g) x -> mem s' x = mem s x) /\
  bigblocks s' = bigblocks s.

(** [alloc_fits] in terms of the bytes covered. *)
Lemma alloc_fits_post s f h size u R r1 c k r2 :
  free_ok s f -> ps_ok (pages_of s) h -> 2 <= u < 1048577 -> searched (slobfree s) f R -> R = r1 ++ (c, k) :: r2 ->
  (forall e n, (e, n) ∈ r1 -> n < 8 * u) -> 8 * u <= k ->
  exists s' f', rounds (length r1 + 1) (slob_alloc_body size 0 u) (s, slobfree s, mem s (slobfree s + 4)) = Ok (inr (c, s')) /\
    alloc_post s f h u c s' f' [].
Proof.
  intros Hf Hp Hu HR HRe Hr1 Hk.
  destruct (alloc_fits s f size u R r1 c k r2) as (s' & f1 & f2 & E & -> & Hf' & Hm & Hfr & Hbb & Hpg); [done..|].
  eexists s', _. split; [exact E|]. apply free_ring in Hf as [Hring _].
  destruct (ring_at _ _ c k Hring) as (Hpc & _ & Hac); [apply elem_of_app; right; left|].
  pose proof (ro_canon _ _ Hring) as (Hc1 & Hl1 & _ & _ & Hc2)%canon_app.
  split; [by rewrite Hpg|]. split; [simpl; lia|]. split; [exact Hf'|].
  split; [clear -Hpc Hk Hu; unfold placed in *; cbn [fst snd] in *; repeat split; try lia; mod_lia|].
  split.
  { destruct (Z.eq_dec c arena) as [->|]; [|lia]. destruct (ro_arena _ _ Hring) as [rest Ha].
    change ((arena, SLOB_UNIT) :: rest) with ([] ++ (arena, SLOB_UNIT) :: rest) in Ha.
    destruct (split_unique _ _ _ _ _ _ _ _ (ro_canon _ _ Hring) Ha) as (_ & -> & _). unfold SLOB_UNIT in Hk. lia. }
  split; [done|]. split; [|split; [|split; [|done]]].
  - intros i. rewrite !covers_app, covers_cons. pose proof (covers_nil i).
    destruct (Z.ltb_spec (8 * u) k); [rewrite covers_cons|]; intuition lia.
  - intros i Hi Hr. rewrite !covers_app in Hi. destruct Hi as [(a & n & Hin & ?)|[Hi|Hi]].
    + apply Hl1 in Hin. lia.
    + destruct (8 * u <? k); [apply covers_cons in Hi as [?|Hi]; [lia|]|]; by apply covers_nil in Hi.
    + apply (canon_covers _ _ _ Hc2) in Hi. lia.
  - intros x Hx _. by apply Hfr.
Qed.

(** First fit along the ring, or a look at every block and a new page. *)
Lemma first_fit (R : list block) k :
  (exists r1 c n r2, R = r1 ++ (c, n) :: r2 /\ (forall e j, (e, j) ∈ r1 -> j < k) /\ k <= n) \/
  (forall e j, (e, j) ∈ R -> j < k).
Proof.
  induction R as [|[c n] R IH]; [right; set_solver|]. destruct (Z.le_gt_cases k n) as [Hk|Hk].
  { left. exists [], c, n, R. repeat split; [set_solver|done]. }
  destruct IH as [(r1 & c' & n' & r2 & -> & Hr & Hn)|Hr].
  - left. exists ((c, n) :: r1), c', n', r2. repeat split; [|done]. intros e j [[= -> ->]|?]%elem_of_cons; [lia|eauto].
  - right. intros e j [[= -> ->]|?]%elem_of_cons; [lia|eauto].
Qed.

Lemma slob_alloc_body_grow s f u size prev c k :
  free_ok s f -> (c, k) ∈ f -> 0 <= u < 1048577 -> k < 8 * u -> c = slobfree s -> size <> PAGE_SIZE ->
  slob_alloc_body size 0 u (s, prev, c) =
    let! (page, s) := slob_get_free_pages 0 s in
    if page =? NULL then Ok (inr (NULL, s))
    else
      let! s := slob_free page PAGE_SIZE s in
      let! n := get_next (slobfree s) s in Ok (inl (s, slobfree s, n)).
Proof.
  intros [Hf _]%free_ring Hin Hu Hk -> Hs. destruct (ring_at _ _ _ _ Hf Hin) as (Hp & Hm & _).
  destruct (placed_u32 _ _ Hp) as (_ & _ & _ & ? & ?).
  unfold slob_alloc_body. cbn [negb Z.eqb rbind]. rewrite (get_units_block _ _ _ Hp Hm). cbn [rbind].
  rewrite Z.add_0_r, s32_id by (unfold is_s32; lia). rewrite (proj2 (Z.leb_gt u (k / 8))) by lia.
  rewrite Z.eqb_refl. by rewrite (proj2 (Z.eqb_neq _ _) Hs).
Qed.

(** Nothing fits: the search comes back to [slobfree]. *)
Lemma alloc_round s f size u R :
  free_ok s f -> 2 <= u < 1048577 -> searched (slobfree s) f R -> (forall e j, (e, j) ∈ R -> j < 8 * u) ->
  exists prev k, (slobfree s, k) ∈ f /\ k < 8 * u /\
    rounds (length R - 1) (slob_alloc_body size 0 u) (s, slobfree s, mem s (slobfree s + 4)) = Ok (inl (s, prev, slobfree s)).
Proof.
  intros Hf Hu HR Hlt. apply free_ring in Hf as Hf'. destruct Hf' as [Hring Hsf].
  destruct (searched_chain _ _ _ _ Hring HR) as (Hch & Hhd & (R' & n & HR') & _).
  assert (Hin : (slobfree s, n) ∈ R) by (rewrite HR'; apply elem_of_app; right; left).
  assert (Hnd : NoDup R.*1).
  { destruct HR as (g1 & n' & g2 & -> & ->). pose proof (ro_canon _ _ Hring) as [Hnd _]%canon_NoDup. eapply NoDup_perm; [|exact Hnd].
    apply fmap_Permutation. rewrite (Permutation_app_comm g2), <- app_assoc. simpl. by rewrite <- Permutation_middle, Permutation_app_comm. }
  rewrite HR' in Hch, Hhd, Hnd.
  destruct (alloc_walk s f size u R' (slobfree s) n [] _ (slobfree s) Hf ltac:(lia) Hch) as (prev & E & _); [|done|done|].
  { intros c k Hck. assert (HcR : (c, k) ∈ R) by (rewrite HR'; apply elem_of_app; by left).
    split; [by apply (searched_elem _ _ _ _ HR)|]. split; [eauto|]. intros ->.
    rewrite fmap_app in Hnd. apply NoDup_app in Hnd as (_ & Hd & _).
    apply (Hd (slobfree s)); [apply list_elem_of_fmap; by exists (slobfree s, k)|left]. }
  exists prev, n. split; [by apply (searched_elem _ _ _ _ HR)|]. split; [eauto|].
  rewrite HR' at 1. rewrite length_app. simpl. rewrite Nat.add_sub. by rewrite <- Hhd.
Qed.

Lemma slob_alloc_ok s f h size :
  free_ok s f -> ps_ok (pages_of s) h -> on_pages f h -> SLOB_UNIT < size -> size + SLOB_UNIT < PAGE_SIZE ->
  exists r s', slob_alloc size 0 s = Ok (r, s') /\
    ((r = NULL /\ mem s' = mem s /\ slobfree s' = slobfree s /\ bigblocks s' = bigblocks s /\ ps_ok (pages_of s') h) \/
     exists f' g, alloc_post s f h (SLOB_UNITS size) r s' f' g).
Proof.
  intros Hf Hp Hon Hs1 Hs2. unfold SLOB_UNIT, PAGE_SIZE, PGSIZE in *.
  assert (Hu : 2 <= SLOB_UNITS size <= 511).
  { unfold SLOB_UNITS, SLOB_UNIT. rewrite u32_id by (unfold is_u32, two32; lia). mod_lia. }
  unfold slob_alloc, SLOB_UNIT, PAGE_SIZE, PGSIZE. rewrite u32_id by (unfold is_u32, two32; lia).
  rewrite (proj2 (Z.ltb_lt _ _)) by lia. cbn [rassert rbind]. set (u := SLOB_UNITS size) in *.
  apply free_ring in Hf as Hf'. destruct Hf' as [Hring Hsf].
  pose proof Hsf as ([sf0 k0] & Hsfe & Hk0)%list_elem_of_fmap. simpl in Hsfe. subst sf0.
  destruct (ring_at _ _ _ _ Hring Hk0) as (Hps & _ & _).
  rewrite (get_next_block _ _ _ Hps). cbn [rbind].
  destruct (searched_exists _ _ Hsf) as [R HR].
  destruct (searched_chain _ _ _ _ Hring HR) as (_ & _ & _ & Hlen).
  destruct (first_fit R (8 * u)) as [(r1 & c & k & r2 & HRe & Hlt & Hk)|Hlt].
  - destruct (alloc_fits_post s f h size u R r1 c k r2) as (s' & f' & E & Hpost); [done|done|lia|done..|].
    exists c, s'. split; [|right; by exists f', []].
    apply (loop_rounds (length r1 + 1)); [exact E|]. rewrite HRe, length_app in Hlen. simpl in Hlen. lia.
  - destruct (alloc_round s f size u R) as (prev & k & Hin & Hk & E); [done|lia|done..|].
    destruct (slob_grow s f h Hf Hp Hon) as (r & s1 & Eg & Hr).
    pose proof (slob_alloc_body_grow s f u size prev _ k Hf Hin ltac:(lia) Hk eq_refl ltac:(unfold PAGE_SIZE, PGSIZE; lia)) as Eb.
    rewrite Eg in Eb. cbn [rbind] in Eb.
    destruct Hr as [(-> & Hm1 & Hsf1 & Hbb1 & Hp1)|(Hne & pg & s2 & f2 & -> & Ef & Hp2 & Hf2 & Hcov2 & Hfr2 & Hbb2)].
    + exists NULL, s1. split; [|by left]. apply (loop_rounds (length R - 1 + 1)); [|lia].
      rewrite rounds_add, E. cbn [rbind rounds]. rewrite Eb. done.
    + rewrite (proj2 (Z.eqb_neq _ _) Hne), Ef in Eb. cbn [rbind] in Eb.
      apply free_ring in Hf2 as Hf2'. destruct Hf2' as [Hring2 Hsf2].
      pose proof Hsf2 as ([sf2 k2] & Hsfe2 & Hk2)%list_elem_of_fmap. simpl in Hsfe2. subst sf2.
      destruct (ring_at _ _ _ _ Hring2 Hk2) as (Hps2 & _ & _).
      rewrite (get_next_block _ _ _ Hps2) in Eb. cbn [rbind] in Eb.
      destruct (searched_exists _ _ Hsf2) as [R2 HR2].
      destruct (searched_chain _ _ _ _ Hring2 HR2) as (_ & _ & _ & Hlen2).
      destruct (first_fit R2 (8 * u)) as [(r1 & c & j & r2 & HRe & Hlt2 & Hj)|Hlt2].
      * destruct (alloc_fits_post s2 f2 ((pg, 1) :: h) size u R2 r1 c j r2) as (s' & f' & E2 & Hpost); [done|done|lia|done..|].
        exists c, s'. split; [|right; exists f', [(pg, 1)]].
        { apply (loop_rounds (length R - 1 + (1 + (length r1 + 1)))).
          - rewrite rounds_add, E. cbn [rbind]. rewrite rounds_add. cbn [rounds rbind]. rewrite Eb. cbn [rbind]. exact E2.
          - rewrite HRe, length_app in Hlen2. simpl in Hlen2. lia. }
        destruct Hpost as (Ho & _ & Hf' & Hpl & Har & Hm & Hc & Hd & Hfr & Hbb).
        split; [exact Ho|]. split; [simpl; lia|]. split; [done|]. split; [done|]. split; [done|]. split; [done|].
        split; [intros i; rewrite Hc, Hcov2; simpl; pose proof (covers_nil i); tauto|]. split; [done|].
        split; [|by rewrite Hbb, Hbb2]. intros x Hx Hxp. rewrite Hfr, Hfr2; try done; [|simpl; apply covers_nil].
        rewrite Hcov2. tauto.
      * exfalso. destruct (canon_range _ f2 (kva_of_page pg) PGSIZE (ro_canon _ _ Hring2)) as (a & k' & Hak & Hale & Hle).
        -- by unfold PGSIZE.
        -- intros i Hi. apply Hcov2. right. apply covers_cons. left. unfold bytes, PGSIZE in *. simpl. lia.
        -- pose proof (Hlt2 a k' ltac:(by apply (searched_elem _ _ _ _ HR2))). unfold PGSIZE in *.
           lia.
Qed.

End SlobList.
