(* ===== verification/SlobHeap.v ===== *)
(** * The heap of [kmalloc]

    The invariant of the SLOB allocator together with what its clients hold.
    It accounts for every byte: the static [arena] and the pages taken from the
    page allocator are exactly the free blocks, the blocks held and the
    [bigblock] nodes, each byte in one of them only.  [kmalloc] and [kfree] are
    shown to maintain it, and to leave alone what the clients wrote. *)
From S2P Require Import Prelude Arith Blocks DefaultPmm Slob SlobList.

(** ** Clients *)

(** A block a client holds: what it asked for, and what it has written since
    (offset to value). *)
Record kblock := mk_kblock {
  kb_ptr : Z;
  kb_size : Z;
  kb_data : gmap Z Z
}.

(** The bytes a client may use. *)
Definition capacity (n : Z) : Z :=
  if n <? PAGE_SIZE - SLOB_UNIT then n
  else match find_order n with Ok o => Z.shiftl PAGE_SIZE o | Err _ => 0 end.

Definition word_in (n off : Z) : bool := (0 <=? off) && (off mod 4 =? 0) && (off + 4 <=? capacity n).

(** ** [find_order] *)

(** The least order whose halvings bring the size down to a page: since they
    round down, [4096 << order] may be less than the size. *)
Lemma find_order_spec size :
  exists o, find_order size = Ok o /\ 0 <= o <= 19 /\ Z.shiftr (s32 size) o <= 4096 /\
    (0 < o -> 4096 < Z.shiftr (s32 size) (o - 1)).
Proof.
  unfold find_order. pose proof (s32_range size) as Hr. unfold is_s32 in Hr. set (z := s32 size) in *.
  apply (loop_rule (fun st => exists j, 0 <= j /\ st = (Z.shiftr z j, j) /\ (0 < j -> 4096 < Z.shiftr z (j - 1)))
    (fun st => Z.max 0 st.1)); [|exists 0; rewrite Z.shiftr_0_r; split; [done|split; [done|lia]]|simpl; lia].
  intros st (j & Hj & -> & Hgt). cbn [fst find_order_body]. split; [lia|]. unfold find_order_body.
  destruct (Z.ltb_spec 4096 (Z.shiftr z j)) as [Hlt|Hle].
  - split.
    + exists (j + 1). rewrite Z.shiftr_shiftr by lia. split; [lia|]. split; [done|]. intros _. by rewrite Z.add_simpl_r.
    + cbn [fst]. rewrite (Z.shiftr_div_pow2 (Z.shiftr z j) 1) by lia. change (2 ^ 1) with 2. mod_lia.
  - split; [|done]. split; [lia|]. destruct (Z.le_gt_cases j 19) as [?|Hbig]; [done|].
    specialize (Hgt ltac:(lia)). rewrite Z.shiftr_div_pow2 in Hgt by lia. exfalso.
    pose proof (Z.pow_le_mono_r 2 19 (j - 1) ltac:(lia) ltac:(lia)) as Hp. change (2 ^ 19) with 524288 in Hp.
    pose proof (Z.mul_div_le z (2 ^ (j - 1)) ltac:(lia)). nia.
Qed.

Lemma find_order_range size o : find_order size = Ok o -> 0 <= o <= 19 /\ 0 < Z.shiftl 1 o.
Proof.
  intros E. destruct (find_order_spec size) as (o' & E' & Ho & _). rewrite E in E'. injection E' as <-.
  split; [done|]. rewrite Z.shiftl_mul_pow2 by lia. lia.
Qed.

(** ** Counting bytes *)

Lemma occ_app i l1 l2 : occ i (l1 ++ l2) = occ i l1 + occ i l2.
Proof. induction l1 as [|b l1 IH]; simpl; lia. Qed.

Lemma occ_covers i l : 1 <= occ i l <-> covers l i.
Proof.
  split; [|apply covers_occ]. induction l as [|[b n] l IH]; simpl; [lia|]. intros Ho. apply covers_cons.
  destruct (in_block i (b, n)) eqn:E; [apply in_block_spec in E; by left|right; apply IH; lia].
Qed.

Lemma occ_uncovered i l : ~ covers l i -> occ i l = 0.
Proof. rewrite <- occ_covers. pose proof (occ_nonneg i l). lia. Qed.

Lemma occ_canon lo l i : canon lo l -> occ i l <= 1.
Proof.
  revert lo. induction l as [|[b n] l IH]; intros lo Hc; simpl; [lia|]. destruct Hc as (? & ? & Hc).
  destruct (in_block i (b, n)) eqn:E; [|apply IH in Hc; lia]. apply in_block_spec in E.
  rewrite occ_uncovered; [lia|]. intros Hi%(canon_covers _ _ _ Hc). lia.
Qed.

Lemma occ_short i (l : list block) : (length l <= 1)%nat -> occ i l <= 1.
Proof. destruct l as [|x [|]]; simpl; [lia|destruct (in_block i x); lia|lia]. Qed.

Lemma occ_bytes i l : occ i (bytes <$> l) = occ (page_of_kva i) l.
Proof.
  induction l as [|[b n] l IH]; [done|]. rewrite fmap_cons. cbn [occ]. rewrite IH. f_equal.
  assert (in_block i (bytes (b, n)) = in_block (page_of_kva i) (b, n)) as ->; [|done].
  apply eq_true_iff_eq. unfold bytes. rewrite !in_block_spec. unfold page_of_kva, kva_of_page, PGSIZE. cbn [fst snd]. mod_lia.
Qed.

(** ** The invariant *)

(** How a held block is stored: a small block with its header, or whole pages
    with a node in the list of [bigblock]s. *)
Inductive ent :=
  | Small (a n : Z)
  | Big (bb pg o : Z).

Definition ent_all (e : ent) : list block :=
  match e with
  | Small a n => [(a, n)]
  | Big bb pg o => [(bb, 16); bytes (pg, Z.shiftl 1 o)]
  end.
Definition ent_pages (e : ent) : list block :=
  match e with Small _ _ => [] | Big _ pg o => [(pg, Z.shiftl 1 o)] end.
Definition ent_big (e : ent) : list Z :=
  match e with Small _ _ => [] | Big bb _ _ => [bb] end.

Fixpoint bchain (m : Z -> Z) (y : Z) (G : list Z) : Prop :=
  match G with
  | [] => y = NULL
  | b :: G => y = b /\ bchain m (m (b + 8)) G
  end.

Lemma bchain_ext m m' y G : (forall b, b ∈ G -> m' (b + 8) = m (b + 8)) -> bchain m y G -> bchain m' y G.
Proof.
  revert y. induction G as [|b G IH]; intros y He; simpl; [done|]. intros [-> Hc]. split; [done|].
  rewrite He by left. apply IH; [|done]. intros. apply He. by right.
Qed.

Section Heap.
  Context {P : Type} `{HPS : PageSource P} {HPL : PageSourceLaws P}.
  Variable arena : Z.
  Hypothesis arena_placed : placed (arena, SLOB_UNIT).
  Hypothesis arena_below : arena + SLOB_UNIT < kva_of_page ps_lo.
  Implicit Types (s : slob P).

(** The node of a held block, or its header. *)
Definition ent_head (m : Z -> Z) (b : kblock) (e : ent) : Prop :=
  match e with
  | Small a n => kb_ptr b = a + 8 /\ 0 < kb_size b < 4088 /\ kb_size b + 8 <= n /\ placed (a, n) /\ arena < a /\ 8 * m a = n
  | Big bb pg o => kb_ptr b = kva_of_page pg /\ 4088 <= kb_size b /\ find_order (kb_size b) = Ok o /\
      placed (bb, 16) /\ arena < bb /\ m bb = o /\ m (bb + 4) = kva_of_page pg
  end.

Definition ent_ok (m : Z -> Z) (b : kblock) (e : ent) : Prop :=
  ent_head m b e /\
  (forall off v, kb_data b !! off = Some v -> word_in (kb_size b) off = true /\ m (kb_ptr b + off) = v).

(** [X]: blocks in the hands of [kmalloc] or [kfree] themselves. *)
Record heap s (f h : list block) (ents : list ent) (G : list Z) (held : list kblock) (X : list block) : Prop := {
  hp_free : free_ok arena s f;
  hp_ps : ps_ok (pages_of s) (h ++ (ents ≫= ent_pages));
  hp_occ : forall i, occ i (f ++ X ++ (ents ≫= ent_all)) =
    occ i ((arena, SLOB_UNIT) :: (bytes <$> (h ++ (ents ≫= ent_pages))));
  hp_ents : Forall2 (ent_ok (mem s)) held ents;
  hp_big : bchain (mem s) (bigblocks s) G;
  hp_G : G ≡ₚ ents ≫= ent_big
}.

Lemma capacity_small n : n < 4088 -> capacity n = n.
Proof. intros ?. unfold capacity, PAGE_SIZE, SLOB_UNIT, PGSIZE. by rewrite (proj2 (Z.ltb_lt _ _)). Qed.
Lemma capacity_big n o : 4088 <= n -> find_order n = Ok o -> capacity n = Z.shiftl PAGE_SIZE o.
Proof. intros ? E. unfold capacity. rewrite E. unfold PAGE_SIZE, SLOB_UNIT, PGSIZE. by rewrite (proj2 (Z.ltb_ge _ _)). Qed.

Lemma word_in_spec n off : word_in n off = true <-> 0 <= off /\ off mod 4 = 0 /\ off + 4 <= capacity n.
Proof. unfold word_in. rewrite !andb_true_iff, Z.eqb_eq, !Z.leb_le. tauto. Qed.

(** The bytes a client may use are its own. *)
Lemma payload_covered m b e i :
  ent_head m b e -> kb_ptr b <= i < kb_ptr b + capacity (kb_size b) ->
  covers (ent_all e) i /\ (forall bb pg o, e = Big bb pg o -> covers [bytes (pg, Z.shiftl 1 o)] i) /\
  (forall a n, e = Small a n -> a + 8 <= i).
Proof.
  destruct e as [a n|bb pg o]; simpl; intros He Hi.
  - destruct He as (Hp & Hs & Hn & _). rewrite capacity_small in Hi by lia.
    split; [apply covers_cons; lia|]. split; [done|]. intros ?? [= <- <-]. lia.
  - destruct He as (Hp & Hs & Hf & _). rewrite (capacity_big _ _ Hs Hf) in Hi.
    assert (covers [bytes (pg, Z.shiftl 1 o)] i).
    { apply covers_cons. left. cbn [fst snd].
      apply find_order_range in Hf as [? _]. unfold PAGE_SIZE in Hi. rewrite !Z.shiftl_mul_pow2 in * by lia. lia. }
    split; [apply covers_cons; by right|]. split; [by intros ??? [= <- <- <-]|done].
Qed.

Lemma ent_ok_ext m m' b e :
  (forall i, covers (ent_all e) i -> m' i = m i) -> ent_ok m b e -> ent_ok m' b e.
Proof.
  intros Hm [Hh Hd]. split.
  - destruct e as [a n|bb pg o]; simpl in *.
    + destruct Hh as (? & ? & ? & Hp & ? & ?). rewrite Hm; [done|]. apply covers_cons. unfold placed in Hp. simpl in Hp. lia.
    + destruct Hh as (? & ? & ? & ? & ? & ? & ?). rewrite !Hm by (apply covers_cons; lia). done.
  - intros off v Hv. destruct (Hd _ _ Hv) as [Hw Hmv]. split; [done|]. rewrite Hm; [done|].
    apply word_in_spec in Hw. eapply payload_covered; [exact Hh|]. lia.
Qed.

Lemma heap_own s f h ents G held X :
  heap s f h ents G held X -> forall i, occ i (f ++ X ++ (ents ≫= ent_all)) <= 1.
Proof.
  intros [_ Hp Ho _ _ _] i. rewrite Ho. cbn [occ]. rewrite occ_bytes.
  pose proof (ps_disjoint _ _ Hp (page_of_kva i)) as Hd.
  destruct (in_block i (arena, SLOB_UNIT)) eqn:E; [|lia]. apply in_block_spec in E.
  rewrite occ_uncovered; [lia|]. intros (b & n & Hin & Hr). apply (ps_held _ _ _ _ Hp) in Hin as (? & ? & ?).
  unfold page_of_kva, kva_of_page, PGSIZE in *. mod_lia.
Qed.

(** Disjointness, read off the count. *)
Lemma heap_apart s f h ents G held X i :
  heap s f h ents G held X ->
  (covers f i -> ~ covers X i /\ ~ covers (ents ≫= ent_all) i) /\ (covers X i -> ~ covers (ents ≫= ent_all) i).
Proof.
  intros Hh. pose proof (heap_own _ _ _ _ _ _ _ Hh i) as H. rewrite !occ_app in H. rewrite <- !occ_covers.
  pose proof (occ_nonneg i f). pose proof (occ_nonneg i X). pose proof (occ_nonneg i (ents ≫= ent_all)). lia.
Qed.

Lemma ents_cover ents e i : e ∈ ents -> covers (ent_all e) i -> covers (ents ≫= ent_all) i.
Proof.
  intros Hin (a & n & Ha & Hi). exists a, n. split; [|done]. apply list_elem_of_bind. eauto.
Qed.

(** Memory outside the blocks held may change. *)
Lemma ents_frame (m m' : Z -> Z) y held ents G :
  Forall2 (ent_ok m) held ents -> bchain m y G -> G ≡ₚ ents ≫= ent_big ->
  (forall i, covers (ents ≫= ent_all) i -> m' i = m i) ->
  Forall2 (ent_ok m') held ents /\ bchain m' y G.
Proof.
  intros Hf Hb HG Hm. split.
  - rewrite Forall2_same_length_lookup in Hf |- *. destruct Hf as [Hl Hf]. split; [done|]. intros k b e Hk He.
    eapply ent_ok_ext; [|by eapply Hf]. intros i Hi. apply Hm. eapply ents_cover; [|exact Hi]. by eapply list_elem_of_lookup_2.
  - eapply bchain_ext; [|exact Hb]. intros b Hin. rewrite HG in Hin. apply list_elem_of_bind in Hin as ([a n|bb pg o] & Hin & He); [set_solver|].
    apply list_elem_of_singleton in Hin as ->. apply Hm. eapply ents_cover; [exact He|]. apply covers_cons. lia.
Qed.

Lemma free_upd s f x v : free_ok arena s f -> ~ covers f x -> free_ok arena (upd x v s) f.
Proof.
  intros [[Ha Hc Hr Hpl] Hsf]%free_ring Hnf. apply free_ring. split; [split; try done|done].
  eapply chain_ext; [|exact Hr]. intros a n Hin. destruct (canon_In _ _ _ _ Hc Hin) as (_ & _ & Hcov).
  rewrite Forall_forall in Hpl. apply Hpl in Hin as Hpa. unfold placed in Hpa. simpl in Hpa.
  rewrite !upd_ne; [done| |]; intros <-; apply Hnf, Hcov; lia.
Qed.

Lemma heap_upd s f h ents G held X x v :
  heap s f h ents G held X -> covers X x -> heap (upd x v s) f h ents G held X.
Proof.
  intros H Hx. pose proof (heap_apart _ _ _ _ _ _ _ x H) as [Hfx Hex]. specialize (Hex Hx).
  assert (Hnf : ~ covers f x) by tauto. destruct H as [Hfree Hp Ho He Hb HG].
  destruct (ents_frame (mem s) (mem (upd x v s)) _ held ents G He Hb HG) as [He' Hb'].
  { intros i Hi. rewrite upd_ne; [done|]. by intros ->. }
  split; try done. by apply free_upd.
Qed.
(** All that is owned lies in [arena] or on the pages taken. *)
Lemma heap_within s f h ents G held X i :
  heap s f h ents G held X -> covers f i \/ covers X i \/ covers (ents ≫= ent_all) i ->
  arena <= i < arena + SLOB_UNIT \/ covers (bytes <$> (h ++ (ents ≫= ent_pages))) i.
Proof.
  intros [_ _ Ho _ _ _]. rewrite <- !occ_covers. specialize (Ho i). rewrite !occ_app in Ho. cbn [occ] in Ho.
  pose proof (occ_nonneg i f). pose proof (occ_nonneg i X). pose proof (occ_nonneg i (ents ≫= ent_all)).
  destruct (in_block i (arena, SLOB_UNIT)) eqn:E; [left; by apply in_block_spec|right]. lia.
Qed.

Lemma page_above h p i : ps_ok p h -> covers (bytes <$> h) i -> arena + SLOB_UNIT < i.
Proof.
  intros Hp (b & n & Hin & Hr)%covers_bytes. apply (ps_held _ _ _ _ Hp) in Hin as (? & ? & ?).
  unfold page_of_kva, kva_of_page, PGSIZE in *. mod_lia.
Qed.

Lemma heap_alloc s f h ents G held X size :
  heap s f h ents G held X -> SLOB_UNIT < size -> size + SLOB_UNIT < PAGE_SIZE ->
  exists r s', slob_alloc size 0 s = Ok (r, s') /\
    ((r = NULL /\ heap s' f h ents G held X) \/
     (r <> NULL /\ exists f' h', heap s' f' h' ents G held ((r, 8 * SLOB_UNITS size) :: X) /\
       placed (r, 8 * SLOB_UNITS size) /\ arena < r /\ 8 * mem s' r = 8 * SLOB_UNITS size)).
Proof.
  intros H Hs1 Hs2. pose proof H as [Hf Hp Ho He Hb HG].
  destruct (slob_alloc_ok arena arena_placed arena_below s f (h ++ (ents ≫= ent_pages)) size) as (r & s' & E & Hr); [done|done| |done|done|].
  { intros i Hi. destruct (heap_within _ _ _ _ _ _ _ i H) as [?|?]; [by left|left; lia|by right]. }
  exists r, s'. split; [exact E|].
  destruct Hr as [(-> & Hm & Hsf & Hbb & Hp')|(f' & g & Hp' & Hg & Hf' & Hpl & Har & Hmr & Hcov & Hd & Hfr & Hbb)]; [left|right].
  - split; [done|]. split; [|done|done|by rewrite Hm|by rewrite Hm, Hbb|done].
    apply free_ring. rewrite Hm, Hsf. by apply free_ring.
  - split; [unfold placed, NULL, KERNBASE in *; simpl in Hpl; lia|]. exists f', (g ++ h). split; [|done].
    assert (Hgf : forall i, covers (bytes <$> g) i -> ~ covers f i /\ ~ covers (ents ≫= ent_all) i).
    { intros i Hgi. assert (Hgi' := Hgi). apply covers_bytes, occ_covers in Hgi'.
      pose proof (ps_disjoint _ _ Hp' (page_of_kva i)) as Hone. rewrite occ_app in Hone.
      assert (arena + SLOB_UNIT < i).
      { apply (page_above (g ++ h ++ (ents ≫= ent_pages)) _ _ Hp'). rewrite fmap_app, covers_app. by left. }
      split; intros Hi; destruct (heap_within _ _ _ _ _ _ _ i H) as [?|Hc%covers_bytes%occ_covers]; auto; lia. }
    destruct (ents_frame (mem s) (mem s') _ _ _ _ He Hb HG) as [He' Hb'].
    { intros i Hi. destruct (heap_apart _ _ _ _ _ _ _ i H) as [Hx _].
      apply Hfr; [tauto|]. intros Hgi. by apply (Hgf i) in Hgi as [_ Hgi]. }
    split; [done|by rewrite <- app_assoc| |done|by rewrite Hbb|done].
    + intros i. specialize (Ho i). rewrite <- app_assoc, fmap_app. cbn [occ app] in Ho |- *. rewrite !occ_app in *. cbn [occ app] in *. rewrite occ_app.
      specialize (Hcov i). specialize (Hd i). specialize (Hgf i). rewrite <- (occ_covers i f), <- (occ_covers i (bytes <$> g)) in Hcov, Hgf.
      rewrite <- (occ_covers i f') in Hcov, Hd.
      rewrite <- in_block_spec in Hcov, Hd. set (R := in_block i (r, 8 * SLOB_UNITS size)) in *.
      pose proof (occ_nonneg i f). pose proof (occ_nonneg i f'). pose proof (occ_nonneg i (bytes <$> g)).
      pose proof (occ_canon _ _ i (fo_canon _ _ _ Hf)). pose proof (occ_canon _ _ i (fo_canon _ _ _ Hf')).
      assert (occ i (bytes <$> g) <= 1) by (rewrite occ_bytes; by apply occ_short).
      destruct R, (decide (1 <= occ i (bytes <$> g))), (decide (1 <= occ i f)), (decide (1 <= occ i f')); intuition lia.
Qed.

Lemma heap_free s f h ents G held X b n size :
  heap s f h ents G held ((b, n) :: X) -> placed (b, n) -> arena < b ->
  (size = 0 /\ 8 * mem s b = n \/ size <> 0 /\ 8 * SLOB_UNITS size = n) ->
  exists s' f', slob_free b size s = Ok s' /\ heap s' f' h ents G held X.
Proof.
  intros H Hpl Har Hsz. pose proof H as [Hf Hp Ho He Hb HG].
  assert (Hb8 : 8 <= n) by (unfold placed in Hpl; simpl in Hpl; lia).
  assert (HX : forall i, covers ((b, n) :: X) i <-> b <= i < b + n \/ covers X i) by (intros i; apply covers_cons).
  destruct (slob_free_ok arena s f b n size) as (s' & f' & E & Hf' & _ & Hcov & Hfr & Hbb & Hpg); [done|done| | |done|].
  { destruct (heap_within _ _ _ _ _ _ _ b H) as [[_ Hlt]|Hc]; [right; left; apply HX; lia| |by eapply page_above].
    unfold placed, SLOB_UNIT in *. simpl in *. clear -Hlt Har Hpl arena_placed. mod_lia. }
  { intros i Hi Hr. destruct (heap_apart _ _ _ _ _ _ _ i H) as [Hx _]. apply Hx in Hi as [Hi _]. apply Hi, HX. by left. }
  destruct (ents_frame (mem s) (mem s') _ _ _ _ He Hb HG) as [He' Hb'].
  { intros i Hi. destruct (heap_apart _ _ _ _ _ _ _ i H) as [Hx Hx'].
    rewrite HX in Hx, Hx'. apply Hfr; tauto. }
  exists s', f'. split; [exact E|]. split; [done|by rewrite Hpg| |done|by rewrite Hbb|done].
  - intros i. specialize (Ho i). cbn [occ app] in Ho |- *. rewrite !occ_app in *. cbn [occ app] in *. rewrite ?occ_app in *.
    specialize (Hcov i). rewrite <- (occ_covers i f), <- (occ_covers i f'), <- in_block_spec in Hcov.
    pose proof (proj1 (heap_apart _ _ _ _ _ _ _ i H)) as Hx. rewrite HX, <- in_block_spec, <- (occ_covers i f) in Hx.
    pose proof (occ_nonneg i f). pose proof (occ_nonneg i f').
    pose proof (occ_canon _ _ i (fo_canon _ _ _ Hf)). pose proof (occ_canon _ _ i (fo_canon _ _ _ Hf')).
    destruct (in_block i (b, n)), (decide (1 <= occ i f)), (decide (1 <= occ i f')); intuition lia.
Qed.
(** ** [kmalloc] *)

(** What [kmalloc] holds becomes a client's block. *)
Lemma heap_keep s s' f h ents G held X b e :
  heap s f (ent_pages e ++ h) ents G held X -> X ≡ₚ ent_all e -> ent_ok (mem s) b e ->
  mem s' = mem s -> slobfree s' = slobfree s -> pages_of s' = pages_of s ->
  bchain (mem s) (bigblocks s') (ent_big e ++ G) ->
  heap s' f h (e :: ents) (ent_big e ++ G) (b :: held) [].
Proof.
  intros [Hf Hp Ho He Hb HG] HX Hok Hm Hs Hpg Hb'. split.
  - apply free_ring. rewrite Hm, Hs. by apply free_ring.
  - rewrite Hpg. eapply ps_perm; [|exact Hp]. simpl. by rewrite <- app_assoc, (Permutation_app_comm (ent_pages e)), <- app_assoc, (Permutation_app_comm _ (ent_pages e)).
  - intros i. specialize (Ho i). rewrite (occ_perm i _ _ (Permutation_app_head f (Permutation_app_tail _ HX))) in Ho.
    etrans; [exact Ho|]. cbn [occ]. f_equal. apply occ_perm. apply fmap_Permutation. rewrite <- app_assoc, Permutation_app_comm, <- app_assoc.
    apply Permutation_app_head. apply Permutation_app_comm.
  - rewrite Hm. by constructor.
  - by rewrite Hm.
  - simpl. by rewrite HG.
Qed.

Lemma SLOB_UNITS_bounds size : 0 < size < 4096 -> size <= 8 * SLOB_UNITS size < size + 8.
Proof. intros ?. unfold SLOB_UNITS, SLOB_UNIT. rewrite u32_id by (unfold is_u32, two32; lia). mod_lia. Qed.

(** The outcome of [kmalloc]: nothing, or a new block. *)
Definition kmalloc_post s (p : Z) n (f h : list block) ents G held : Prop :=
  (p = NULL /\ exists f' h', heap s f' h' ents G held []) \/
  (p <> NULL /\ exists f' h' e, heap s f' h' (e :: ents) (ent_big e ++ G) (mk_kblock p n ∅ :: held) []).

Lemma kmalloc_small s f h ents G held n :
  heap s f h ents G held [] -> 0 < n < 4080 ->
  exists p s', kmalloc n s = Ok (p, s') /\ kmalloc_post s' p n f h ents G held.
Proof.
  intros H Hn. unfold kmalloc, PAGE_SIZE, SLOB_UNIT, PGSIZE. rewrite (proj2 (Z.ltb_lt n _)) by lia.
  rewrite u32_id by (unfold is_u32, two32; lia).
  destruct (heap_alloc s f h ents G held [] (n + 8) H) as (r & s' & E & Hr); [unfold SLOB_UNIT; lia|unfold SLOB_UNIT, PAGE_SIZE, PGSIZE; lia|].
  rewrite E. cbn [rbind]. destruct Hr as [[-> H']|(Hne & f' & h' & H' & Hpl & Har & Hm)].
  - exists 0, s'. split; [done|]. left. eauto.
  - rewrite (proj2 (Z.eqb_neq _ _) Hne). cbn [negb]. eexists _, s'. split; [done|]. right.
    pose proof (SLOB_UNITS_bounds (n + 8) ltac:(lia)) as Hu.
    assert (Hpr : slob_plus r 1 = r + 8).
    { unfold slob_plus, SLOB_UNIT. apply u32_id. unfold placed, KERNBASE, KERNTOP, KMEMSIZE, KERNBASE, is_u32, two32 in *. simpl in Hpl. lia. }
    rewrite Hpr. split; [unfold placed, NULL, KERNBASE in *; simpl in Hpl; lia|].
    exists f', h', (Small r (8 * SLOB_UNITS (n + 8))).
    eapply heap_keep; [exact H'|done| |done..|exact (hp_big _ _ _ _ _ _ _ H')].
    split; [|intros off v Hv; simpl in Hv; by apply lookup_empty_Some in Hv]. simpl. split; [done|]. split; [lia|]. split; [lia|]. done.
Qed.

Lemma heap_pages s f h ents G held X n :
  heap s f h ents G held X -> 0 <= n ->
  exists p s', slob_get_free_pages n s = Ok (p, s') /\ mem s' = mem s /\ slobfree s' = slobfree s /\ bigblocks s' = bigblocks s /\
    ((p = NULL /\ heap s' f h ents G held X) \/
     exists b, p = kva_of_page b /\ p <> NULL /\ heap s' f ((b, Z.shiftl 1 n) :: h) ents G held (bytes (b, Z.shiftl 1 n) :: X)).
Proof.
  intros [Hf Hp Ho He Hb HG] Hn. unfold slob_get_free_pages.
  assert (Hpos : 0 < Z.shiftl 1 n) by (rewrite Z.shiftl_mul_pow2 by lia; lia).
  destruct (ps_alloc_ok _ _ _ Hp Hpos) as (r & p' & E & Hp'). rewrite E. cbn [rbind].
  destruct r as [b|]; eexists _, _; (split; [done|]); do 3 (split; [done|]); [right|left].
  - exists b. split; [done|]. destruct (page_placed arena arena_below _ _ b (Z.shiftl 1 n) Hp') as [Hpl _]; [left|].
    split; [unfold placed, bytes, NULL, KERNBASE in *; simpl in Hpl; lia|].
    split; [|done| |done..]; [apply free_ring; by apply free_ring in Hf|].
    intros i. specialize (Ho i). rewrite <- !app_comm_cons, fmap_cons. cbn [occ] in *.
    rewrite occ_app in *. cbn [app occ]. lia.
  - split; [done|]. split; [|done..]. apply free_ring; by apply free_ring in Hf.
Qed.

Lemma kmalloc_big s f h ents G held n :
  heap s f h ents G held [] -> 4088 <= n ->
  exists p s', kmalloc n s = Ok (p, s') /\ kmalloc_post s' p n f h ents G held.
Proof.
  intros H Hn. unfold kmalloc, PAGE_SIZE, SLOB_UNIT, PGSIZE. rewrite (proj2 (Z.ltb_ge n _)) by lia.
  destruct (heap_alloc s f h ents G held [] sizeof_bigblock H) as (r & s1 & E & Hr); [done..|].
  rewrite E. cbn [rbind]. change (8 * SLOB_UNITS sizeof_bigblock) with 16 in Hr.
  destruct Hr as [[-> H']|(Hne & f1 & h1 & H1 & Hpl & Har & Hm)].
  { exists 0, s1. split; [done|]. left. eauto. }
  rewrite (proj2 (Z.eqb_neq _ _) Hne).
  destruct (find_order_spec n) as (o & Eo & Ho & _). rewrite Eo. cbn [rbind].
  assert (Hw : kernel_word r = true /\ kernel_word (r + 4) = true /\ kernel_word (r + 8) = true).
  { unfold placed in Hpl. cbn [fst snd] in Hpl. unfold kernel_word. rewrite !andb_true_iff, !Z.eqb_eq, !Z.leb_le, !Z.ltb_lt. mod_lia. }
  destruct Hw as (Hw0 & Hw4 & Hw8).
  assert (Hcov : forall X x, r <= x < r + 16 -> covers ((r, 16) :: X) x) by (intros; apply covers_cons; lia).
  unfold set_order. rewrite store_Ok by done. cbn [rbind]. rewrite (u32_id o) by (unfold is_u32, two32; lia).
  apply (heap_upd _ _ _ _ _ _ _ r o) in H1; [|apply Hcov; lia].
  destruct (heap_pages _ _ _ _ _ _ _ o H1) as (pg & s2 & Eg & Hm2 & Hs2 & Hb2 & Hr); [lia|]. rewrite Eg. cbn [rbind].
  unfold set_pages. rewrite store_Ok by done. cbn [rbind].
  destruct Hr as [[-> H2]|(b & -> & Hnb & H2)].
  - cbn [Z.eqb negb]. apply (heap_upd _ _ _ _ _ _ _ (r + 4) NULL) in H2; [|apply Hcov; lia].
    destruct (heap_free _ _ _ _ _ _ _ _ _ sizeof_bigblock H2 Hpl Har) as (s3 & f3 & E3 & H3); [by right|].
    change (0 =? NULL) with true. cbn [negb]. rewrite E3. cbn [rbind]. exists 0, s3. split; [done|]. left. eauto.
  - rewrite (proj2 (Z.eqb_neq _ _) Hnb). cbn [negb]. unfold set_bnext. rewrite store_Ok by done. cbn [rbind].
    eexists _, _. split; [done|]. right. split; [done|]. exists f1, h1, (Big r b o).
    apply (heap_upd _ _ _ _ _ _ _ (r + 4) (kva_of_page b)) in H2; [|apply covers_cons; right; apply Hcov; lia].
    apply (heap_upd _ _ _ _ _ _ _ (r + 8) (bigblocks s2)) in H2; [|apply covers_cons; right; apply Hcov; lia].
    eapply heap_keep; [exact H2|simpl; apply Permutation_swap| |done..|].
    + split; [|intros off v Hv; simpl in Hv; by apply lookup_empty_Some in Hv]. simpl. rewrite !Z.eqb_refl, Hm2, upd_eq.
      rewrite !(proj2 (Z.eqb_neq _ _)) by lia. split; [done|]. done.
    + simpl. split; [done|]. rewrite Z.eqb_refl. exact (hp_big _ _ _ _ _ _ _ H2).
Qed.
(** ** [kfree] *)

(** Where the search for a [bigblock] ends: [y0] is the address of the first
    pointer. *)
Definition last_link (y0 : Z) (G : list Z) : Z :=
  match last G with None => y0 | Some b => b + 8 end.

Lemma bigblock_walk block s y y0 G1 G2 :
  bchain (mem s) y (G1 ++ G2) ->
  (forall b, b ∈ G1 -> placed (b, 16) /\ mem s (b + 4) <> block) ->
  rounds (length G1) (bigblock_scan block s) (y0, y) =
    Ok (inl (last_link y0 G1, match G2 with [] => NULL | b :: _ => b end)).
Proof.
  revert y y0. induction G1 as [|b G1 IH]; intros y y0 Hc HG; cbn [length rounds app] in *.
  - destruct G2 as [|b G2]; simpl in Hc; [by subst|]. by destruct Hc as [-> _].
  - destruct Hc as [-> Hc]. destruct (HG b) as [Hp Hne]; [left|].
    unfold placed in Hp. cbn [fst snd] in Hp.
    unfold bigblock_scan at 1. rewrite (proj2 (Z.eqb_neq b NULL)) by (unfold NULL, KERNBASE in *; lia).
    assert (kernel_word (b + 4) = true /\ kernel_word (b + 8) = true) as [Hw4 Hw8].
    { unfold kernel_word. rewrite !andb_true_iff, !Z.eqb_eq, !Z.leb_le, !Z.ltb_lt. mod_lia. }
    unfold get_pages, get_bnext. rewrite !load_Ok by done. cbn [rbind].
    rewrite (proj2 (Z.eqb_neq _ _) Hne). cbn [rbind].
    rewrite IH; [|done|intros; apply HG; by right]. f_equal. f_equal. f_equal. unfold last_link. rewrite last_cons. by destruct (last G1).
Qed.

Lemma ents_big_elem ents bb : bb ∈ ents ≫= ent_big <-> exists pg o, Big bb pg o ∈ ents.
Proof.
  rewrite list_elem_of_bind. split.
  - intros ([a n|b pg o] & Hin & He); simpl in Hin; [set_solver|]. apply list_elem_of_singleton in Hin as ->. eauto.
  - intros (pg & o & He). exists (Big bb pg o). simpl. split; [left|done].
Qed.

(** Two blocks held do not share a byte. *)
Lemma ents_disjoint s f h ents G held X e e' i :
  heap s f h ents G held X -> e ∈ ents -> e' ∈ ents -> covers (ent_all e) i -> covers (ent_all e') i -> e = e'.
Proof.
  intros H He He' Hi Hi'. pose proof (heap_own _ _ _ _ _ _ _ H i) as Ho. rewrite !occ_app in Ho.
  pose proof (occ_nonneg i f). pose proof (occ_nonneg i X). apply occ_covers in Hi, Hi'. clear H.
  apply list_elem_of_split in He as (l1 & l2 & ->). rewrite bind_app, bind_cons, !occ_app in Ho.
  pose proof (occ_nonneg i (l1 ≫= ent_all)). pose proof (occ_nonneg i (l2 ≫= ent_all)).
  apply elem_of_app in He' as [He'|[->|He']%elem_of_cons]; [|done|].
  - pose proof (ents_cover _ _ i He' (proj1 (occ_covers _ _) Hi')) as Hc%occ_covers. lia.
  - pose proof (ents_cover _ _ i He' (proj1 (occ_covers _ _) Hi')) as Hc%occ_covers. lia.
Qed.

Lemma ents_held s f h ents G held X e :
  heap s f h ents G held X -> e ∈ ents -> exists b, b ∈ held /\ ent_ok (mem s) b e.
Proof.
  intros H (k & Hk)%list_elem_of_lookup. pose proof (hp_ents _ _ _ _ _ _ _ H) as Hf.
  destruct (Forall2_lookup_r _ _ _ _ _ Hf Hk) as (b & Hb & Hok). exists b. split; [by eapply list_elem_of_lookup_2|done].
Qed.

Lemma ents_big_NoDup ents : (forall i, occ i (ents ≫= ent_all) <= 1) -> NoDup (ents ≫= ent_big).
Proof.
  induction ents as [|e ents IH]; intros Ho; [constructor|]. rewrite bind_cons. apply NoDup_app.
  assert (Hrest : forall i, occ i (ents ≫= ent_all) <= 1).
  { intros i. specialize (Ho i). rewrite bind_cons, occ_app in Ho. pose proof (occ_nonneg i (ent_all e)). lia. }
  split; [destruct e; simpl; [constructor|apply NoDup_singleton]|]. split; [|by apply IH].
  intros bb Hb (pg' & o' & He')%ents_big_elem. destruct e as [|b pg o]; simpl in Hb; [set_solver|].
  apply list_elem_of_singleton in Hb as ->. specialize (Ho b). rewrite bind_cons, occ_app in Ho.
  assert (Hc : covers (ent_all (Big b pg o)) b) by (apply covers_cons; lia). apply occ_covers in Hc.
  assert (Hc' : covers (ent_all (Big b pg' o')) b) by (apply covers_cons; lia).
  pose proof (ents_cover _ _ _ He' Hc') as Hc''%occ_covers. lia.
Qed.

(** The chain of [bigblock]s: its nodes, and how many they can be. *)
Lemma heap_chain s f h ents G held X :
  heap s f h ents G held X ->
  NoDup G /\ Z.of_nat (length G) < 4294967296 /\
  (forall b, b ∈ G -> exists pg o, Big b pg o ∈ ents /\ placed (b, 16) /\ arena < b /\ mem s b = o /\ mem s (b + 4) = kva_of_page pg /\
     0 <= o <= 19).
Proof.
  intros H. pose proof (hp_G _ _ _ _ _ _ _ H) as HG.
  assert (Hb : forall b, b ∈ G -> exists pg o, Big b pg o ∈ ents /\ placed (b, 16) /\ arena < b /\ mem s b = o /\ mem s (b + 4) = kva_of_page pg /\
     0 <= o <= 19).
  { intros b Hin. rewrite HG in Hin. apply ents_big_elem in Hin as (pg & o & He).
    destruct (ents_held _ _ _ _ _ _ _ _ H He) as (kb & _ & ((_ & _ & Hf & ? & ? & ? & ?) & _)).
    apply find_order_range in Hf as [? _]. exists pg, o. done. }
  assert (Hnd : NoDup G).
  { rewrite HG. apply ents_big_NoDup. intros i. pose proof (heap_own _ _ _ _ _ _ _ H i) as Ho. rewrite !occ_app in Ho.
    pose proof (occ_nonneg i f). pose proof (occ_nonneg i X). lia. }
  split; [done|]. split; [|done].
  assert (G ⊆+ seqZ KERNBASE KMEMSIZE) as Hs%submseteq_length.
  { apply NoDup_submseteq; [done|]. intros b Hin. destruct (Hb b Hin) as (pg & o & _ & Hp & _).
    apply elem_of_seqZ. unfold placed, KERNTOP in Hp. simpl in Hp. lia. }
  rewrite length_seqZ in Hs. unfold KMEMSIZE in Hs. lia.
Qed.

Lemma find_bigblock_some s f h ents G held X bb pg o :
  heap s f h ents G held X -> Big bb pg o ∈ ents ->
  exists G1 G2, G = G1 ++ bb :: G2 /\ find_bigblock (kva_of_page pg) s = Ok (Some (last_link NULL G1, bb)).
Proof.
  intros H He. destruct (heap_chain _ _ _ _ _ _ _ H) as (Hnd & Hlen & HG).
  assert (Hin : bb ∈ G) by (rewrite (hp_G _ _ _ _ _ _ _ H); apply ents_big_elem; eauto).
  destruct (HG bb Hin) as (pg' & o' & He' & Hp & _ & _ & Hpg & _).
  assert (pg' = pg) as ->.
  { assert (Big bb pg o = Big bb pg' o') as [= -> _]; [|done].
    apply (ents_disjoint _ _ _ _ _ _ _ _ _ bb H He He'); apply covers_cons; lia. }
  apply list_elem_of_split in Hin as (G1 & G2 & ->). exists G1, G2. split; [done|].
  unfold find_bigblock. replace (page_aligned (kva_of_page pg)) with true.
  2: { symmetry. unfold page_aligned, PAGE_SIZE, PGSIZE, kva_of_page. apply Z.eqb_eq.
       change (4096 - 1) with (Z.ones 12). rewrite Z.land_ones by lia. unfold KERNBASE, PGSIZE. change (2 ^ 12) with 4096. mod_lia. }
  apply (loop_rounds (length G1 + 1)); [|rewrite length_app in Hlen; simpl in Hlen; lia].
  rewrite rounds_add, (bigblock_walk _ _ _ _ G1 (bb :: G2) (hp_big _ _ _ _ _ _ _ H)).
  - cbn [rbind rounds]. unfold bigblock_scan. unfold placed in Hp. cbn [fst snd] in Hp.
    rewrite (proj2 (Z.eqb_neq bb NULL)) by (unfold NULL, KERNBASE in *; lia).
    unfold get_pages. rewrite load_Ok. 2: { unfold kernel_word. rewrite !andb_true_iff, !Z.eqb_eq, !Z.leb_le, !Z.ltb_lt. mod_lia. }
    cbn [rbind]. by rewrite Hpg, Z.eqb_refl.
  - intros b Hb. destruct (HG b) as (pg' & o'' & He'' & Hp' & _ & _ & Hpg' & _); [apply elem_of_app; by left|].
    split; [done|]. rewrite Hpg'. intros Heq.
    apply NoDup_app in Hnd as (_ & Hd & _). apply (Hd b Hb).
    assert (Big bb pg o = Big b pg' o'') as [= -> _ _]; [|left].
    destruct (ents_held _ _ _ _ _ _ _ _ H He) as (kb & _ & ((_ & _ & Hf & _) & _)).
    destruct (ents_held _ _ _ _ _ _ _ _ H He'') as (kb' & _ & ((_ & _ & Hf' & _) & _)).
    apply find_order_range in Hf as [_ ?], Hf' as [_ ?].
    apply (ents_disjoint _ _ _ _ _ _ _ _ _ (kva_of_page pg) H He He''); apply covers_cons; right; apply covers_cons; left; cbn [fst snd];
      unfold PGSIZE; [|rewrite <- Heq]; lia.
Qed.
Lemma find_bigblock_none s f h ents G held X block :
  heap s f h ents G held X -> (forall bb pg o, Big bb pg o ∈ ents -> kva_of_page pg <> block) ->
  find_bigblock block s = Ok None.
Proof.
  intros H Hne. destruct (heap_chain _ _ _ _ _ _ _ H) as (_ & Hlen & HG).
  unfold find_bigblock. destruct (page_aligned block); [|done].
  apply (loop_rounds (length G + 1)); [|lia]. rewrite rounds_add.
  pose proof (hp_big _ _ _ _ _ _ _ H) as Hc. rewrite <- (app_nil_r G) in Hc.
  rewrite (bigblock_walk _ _ _ _ G [] Hc); [done|]. intros b Hb.
  destruct (HG b Hb) as (pg & o & He & Hp & _ & _ & Hpg & _). split; [done|]. rewrite Hpg. eauto.
Qed.

(** Taking a block out of the clients' hands. *)
Lemma heap_drop s s' f h ents G G' held X k e :
  heap s f h ents G held X -> ents !! k = Some e -> G ≡ₚ ent_big e ++ G' ->
  free_ok arena s' f -> pages_of s' = pages_of s -> bchain (mem s') (bigblocks s') G' ->
  Forall2 (ent_ok (mem s')) (delete k held) (delete k ents) ->
  heap s' f (ent_pages e ++ h) (delete k ents) G' (delete k held) (ent_all e ++ X).
Proof.
  intros [_ Hp Ho _ _ HG] Hk HGe Hf Hpg Hb He. pose proof (delete_Permutation _ _ _ Hk) as HP.
  assert (Hpp : h ++ (ents ≫= ent_pages) ≡ₚ (ent_pages e ++ h) ++ (delete k ents ≫= ent_pages)).
  { rewrite HP at 1. simpl. by rewrite (Permutation_app_comm (ent_pages e) h), <- app_assoc. }
  split; try done.
  - rewrite Hpg. eapply ps_perm; [exact Hpp|exact Hp].
  - intros i. specialize (Ho i). rewrite (occ_perm i _ _ (Permutation_app_head f (Permutation_app_head X (bind_Permutation ent_all _ _ HP)))) in Ho.
    rewrite <- app_assoc. etrans; [|etrans; [exact Ho|]].
    + apply occ_perm, Permutation_app_head. simpl. rewrite !app_assoc. by rewrite (Permutation_app_comm X).
    + cbn [occ]. f_equal. apply occ_perm, fmap_Permutation. done.
  - apply (Permutation_app_inv_l (ent_big e)). rewrite <- HGe, HG. by rewrite HP at 1.
Qed.
(** The search among the [bigblock]s fails for a small block, even one whose
    address is page aligned. *)
Lemma small_not_big s f h ents G held X a n :
  heap s f h ents G held X -> Small a n ∈ ents -> 8 < n -> find_bigblock (a + 8) s = Ok None.
Proof.
  intros H Hin Hn. eapply find_bigblock_none; [exact H|]. intros bb pg o Hb Heq.
  pose proof (ents_held _ _ _ _ _ _ _ _ H Hb) as (kb & _ & ((_ & _ & Hf & _) & _)). apply find_order_range in Hf as [_ ?].
  assert (Small a n = Big bb pg o) as [=].
  eapply (ents_disjoint _ _ _ _ _ _ _ _ _ (a + 8) H); [done|done|apply covers_cons; lia|].
  apply covers_cons. right. apply covers_cons. left. cbn [fst snd]. unfold PGSIZE. rewrite <- Heq. lia.
Qed.

(** The header of a small block, from the client's pointer. *)
Lemma small_header a n : placed (a, n) -> a + 8 <> NULL /\ slob_plus (a + 8) (-1) = a.
Proof.
  intros Hp. destruct (placed_u32 _ _ Hp) as (_ & Ha & _). split.
  - unfold placed, NULL, KERNBASE in *. cbn [fst snd] in Hp. lia.
  - unfold slob_plus, SLOB_UNIT. replace (a + 8 + 8 * -1) with a by lia. by apply u32_id.
Qed.

Lemma kfree_small s f h ents G held k b a n :
  heap s f h ents G held [] -> held !! k = Some b -> ents !! k = Some (Small a n) ->
  exists s' f', kfree (kb_ptr b) s = Ok s' /\ heap s' f' h (delete k ents) G (delete k held) [].
Proof.
  intros H Hk He. destruct (Forall2_lookup_lr _ _ _ _ _ _ (hp_ents _ _ _ _ _ _ _ H) Hk He) as ((Hp & Hsz & Hn & Hpl & Har & Hm) & _).
  destruct (small_header _ _ Hpl) as [Hnz Hsub].
  unfold kfree. rewrite Hp, (proj2 (Z.eqb_neq _ _) Hnz).
  rewrite (small_not_big _ _ _ _ _ _ _ _ n H) by (lia || by eapply list_elem_of_lookup_2). cbn [rbind]. rewrite Hsub.
  eapply (heap_drop s s _ _ _ _ G _ _ k) in H; [|exact He|done|apply H|done|apply H|apply Forall2_delete, H].
  by apply (heap_free _ _ _ _ _ _ _ a n 0) in H; [|done|done|by left].
Qed.

(** [ksize] counts the header of a small block as usable. *)
Lemma ksize_Ok s f h ents G held X k b :
  heap s f h ents G held X -> held !! k = Some b ->
  exists n, ksize (kb_ptr b) s = Ok n /\
    (kb_size b < 4088 -> kb_size b + 8 <= n) /\ (4088 <= kb_size b -> n = capacity (kb_size b)).
Proof.
  intros H Hk. destruct (Forall2_lookup_l _ _ _ _ _ (hp_ents _ _ _ _ _ _ _ H) Hk) as ([a n|bb pg o] & He & Hh & _).
  - destruct Hh as (Hp & Hsz & Hn & Hpl & Har & Hm). destruct (small_header _ _ Hpl) as [Hnz Hsub].
    unfold ksize. rewrite Hp, (proj2 (Z.eqb_neq _ _) Hnz).
    rewrite (small_not_big _ _ _ _ _ _ _ _ n H) by (lia || by eapply list_elem_of_lookup_2). cbn [rbind]. rewrite Hsub.
    rewrite (get_units_block _ _ _ Hpl Hm). cbn [rbind]. destruct (placed_u32 _ _ Hpl) as (_ & _ & ? & _ & Hd).
    exists n. split; [|lia]. f_equal. unfold SLOB_UNIT. rewrite Z.mul_comm, <- Hd. apply u32_id. unfold is_u32. lia.
  - destruct Hh as (Hp & Hsz & Hf & Hpl & Har & Hm & _). pose proof (find_order_range _ _ Hf) as [Ho _].
    assert (Hin : Big bb pg o ∈ ents) by (by eapply list_elem_of_lookup_2).
    destruct (find_bigblock_some _ _ _ _ _ _ _ _ _ _ H Hin) as (G1 & G2 & _ & Eb).
    assert (Hpg : (pg, Z.shiftl 1 o) ∈ h ++ (ents ≫= ent_pages)).
    { apply elem_of_app. right. apply list_elem_of_bind. exists (Big bb pg o). split; [left|done]. }
    destruct (ps_held _ _ _ _ (hp_ps _ _ _ _ _ _ _ H) Hpg) as (_ & Hlo & _). pose proof ps_range as [Hlo0 _].
    unfold ksize. rewrite Hp, (proj2 (Z.eqb_neq _ NULL)) by (unfold kva_of_page, NULL, KERNBASE, PGSIZE; lia).
    rewrite Eb. cbn [rbind]. unfold get_order. rewrite load_Ok by (by destruct (placed_words _ _ Hpl)). cbn [rbind].
    rewrite Hm, s32_id by (unfold is_s32; lia). eexists. split; [done|]. split; [lia|]. intros _.
    rewrite (capacity_big _ _ Hsz Hf). apply u32_id. unfold PAGE_SIZE, PGSIZE, is_u32, two32.
    rewrite Z.shiftl_mul_pow2 by lia. pose proof (Z.pow_le_mono_r 2 o 19 ltac:(lia) ltac:(lia)) as Hpow.
    pose proof (Z.pow_pos_nonneg 2 o ltac:(lia) ltac:(lia)). change (2 ^ 19) with 524288 in Hpow. lia.
Qed.

(** Unlinking a node: one word of another node changes. *)
Lemma ent_ok_unlink m b e b' v :
  ent_ok m b e -> (forall i, occ i (ent_all e) <= 1) ->
  (forall i, b' <= i < b' + 16 -> covers (ent_all e) i -> exists pg o, e = Big b' pg o) ->
  ent_ok (fun y => if y =? b' + 8 then v else m y) b e.
Proof.
  intros [Hh Hd] Ho Hb'.
  assert (Hne : forall i, covers (ent_all e) i -> (forall bb pg o, e = Big bb pg o -> i < bb + 8 \/ bb + 16 <= i) -> i <> b' + 8).
  { intros i Hi Hx ->. destruct (Hb' (b' + 8)) as (pg & o & ->); [lia|done|]. specialize (Hx _ _ _ eq_refl). lia. }
  split.
  - destruct e as [a n|bb pg o]; simpl in *.
    + destruct Hh as (? & ? & ? & Hp & ? & ?). rewrite (proj2 (Z.eqb_neq a (b' + 8))); [done|]. apply Hne; [|done].
      apply covers_cons. unfold placed in Hp. simpl in Hp. lia.
    + destruct Hh as (? & ? & ? & ? & ? & ? & ?).
      rewrite !(proj2 (Z.eqb_neq _ (b' + 8))); [done| |]; (apply Hne; [apply covers_cons; lia|]); intros ??? [= <- <- <-]; lia.
  - intros off v' Hv. destruct (Hd _ _ Hv) as [Hw Hm]. split; [done|].
    rewrite (proj2 (Z.eqb_neq _ _)); [done|]. apply word_in_spec in Hw.
    destruct (payload_covered m b e (kb_ptr b + off) Hh ltac:(lia)) as (Hc & Hbig & _). apply Hne; [done|].
    intros bb pg o ->. specialize (Hbig _ _ _ eq_refl). specialize (Ho (kb_ptr b + off)).
    destruct (Z.lt_ge_cases (kb_ptr b + off) bb); [lia|]. destruct (Z.le_gt_cases (bb + 16) (kb_ptr b + off)); [lia|].
    exfalso. apply occ_covers in Hbig. cbn [ent_all occ] in Ho, Hbig.
    rewrite (proj2 (in_block_spec _ _ _)) in Ho by lia. lia.
Qed.

Lemma bchain_unlink m y G1 b' bb G2 :
  bchain m y (G1 ++ b' :: bb :: G2) -> NoDup (G1 ++ b' :: bb :: G2) ->
  bchain (fun z => if z =? b' + 8 then m (bb + 8) else m z) y (G1 ++ b' :: G2).
Proof.
  revert y. induction G1 as [|c G1 IH]; intros y Hc Hnd; cbn [app bchain] in *.
  - destruct Hc as (-> & _ & Hc). split; [done|]. rewrite Z.eqb_refl. eapply bchain_ext; [|exact Hc].
    intros b Hb. cbn beta. rewrite (proj2 (Z.eqb_neq _ _)); [done|]. intros ?. assert (b = b') as -> by lia.
    apply NoDup_cons in Hnd as [Hn _]. apply Hn. by right.
  - destruct Hc as [-> Hc]. apply NoDup_cons in Hnd as [Hn Hnd]. split; [done|].
    rewrite (proj2 (Z.eqb_neq (c + 8) (b' + 8))); [by apply IH|]. intros ?. assert (c = b') as -> by lia.
    apply Hn, elem_of_app. right. left.
Qed.
Definition unlink_big (last bb : Z) s : res (slob P) :=
  let! n := get_bnext bb s in if last =? NULL then Ok (set_bigblocks n s) else store last n s.

Lemma ents_occ s f h ents G held X e i : heap s f h ents G held X -> e ∈ ents -> occ i (ent_all e) <= 1.
Proof.
  intros H He. pose proof (heap_own _ _ _ _ _ _ _ H i) as Ho. rewrite !occ_app in Ho.
  pose proof (occ_nonneg i f). pose proof (occ_nonneg i X). clear H.
  apply list_elem_of_split in He as (l1 & l2 & ->). rewrite bind_app, bind_cons, !occ_app in Ho.
  pose proof (occ_nonneg i (l1 ≫= ent_all)). pose proof (occ_nonneg i (l2 ≫= ent_all)). lia.
Qed.

Lemma heap_unlink s f h ents G1 G2 held k bb pg o :
  heap s f h ents (G1 ++ bb :: G2) held [] -> ents !! k = Some (Big bb pg o) ->
  exists s1, unlink_big (last_link NULL G1) bb s = Ok s1 /\
    heap s1 f ((pg, Z.shiftl 1 o) :: h) (delete k ents) (G1 ++ G2) (delete k held) [(bb, 16); bytes (pg, Z.shiftl 1 o)] /\
    mem s1 bb = mem s bb /\ pages_of s1 = pages_of s.
Proof.
  intros H Hk. pose proof (heap_chain _ _ _ _ _ _ _ H) as (Hnd & _ & HG).
  assert (Hplaced : forall b, b ∈ G1 ++ bb :: G2 -> kernel_word (b + 8) = true /\ KERNBASE <= b).
  { intros b Hb. destruct (HG b Hb) as (_ & _ & _ & Hp & _). unfold placed in Hp. cbn [fst snd] in Hp.
    unfold kernel_word. rewrite !andb_true_iff, !Z.eqb_eq, !Z.leb_le, !Z.ltb_lt. mod_lia. }
  assert (Hbb : bb ∈ G1 ++ bb :: G2) by (apply elem_of_app; right; left).
  unfold unlink_big, get_bnext. rewrite load_Ok by (by apply Hplaced). cbn [rbind]. unfold last_link.
  assert (HGp : G1 ++ bb :: G2 ≡ₚ ent_big (Big bb pg o) ++ G1 ++ G2) by (simpl; by rewrite <- Permutation_middle).
  change [(bb, 16); bytes (pg, Z.shiftl 1 o)] with (ent_all (Big bb pg o) ++ []).
  change ((pg, Z.shiftl 1 o) :: h) with (ent_pages (Big bb pg o) ++ h).
  destruct G1 as [|b' G0 _] using rev_ind.
  - cbn [last]. change (NULL =? NULL) with true. eexists. split; [done|]. split; [|done].
    eapply heap_drop; [exact H|done|done| |done| |apply Forall2_delete, H].
    + apply free_ring. pose proof (hp_free _ _ _ _ _ _ _ H) as Hf. by apply free_ring in Hf.
    + pose proof (hp_big _ _ _ _ _ _ _ H) as [_ Hc]. exact Hc.
  - rewrite last_snoc.
    assert (Hb' : b' ∈ (G0 ++ [b']) ++ bb :: G2) by (rewrite <- app_assoc; apply elem_of_app; right; left).
    destruct (Hplaced _ Hb') as [Hw' Hlo]. rewrite (proj2 (Z.eqb_neq (b' + 8) NULL)) by (unfold NULL, KERNBASE in *; lia).
    rewrite store_Ok by done. destruct (HG b' Hb') as (pg' & o' & He' & _).
    assert (Hown : forall i, b' <= i < b' + 16 -> covers (ent_all (Big b' pg' o')) i) by (intros; apply covers_cons; lia).
    eexists. split; [done|]. split.
    + eapply heap_drop; [exact H|done|done| |done| |].
      * apply free_upd; [apply H|]. intros Hc. destruct (heap_apart _ _ _ _ _ _ _ (b' + 8) H) as [Hx _].
        apply (Hx Hc). eapply ents_cover; [exact He'|]. apply Hown. lia.
      * rewrite <- !app_assoc in *. apply bchain_unlink; [|done]. exact (hp_big _ _ _ _ _ _ _ H).
      * apply Forall2_same_length_lookup. pose proof (hp_ents _ _ _ _ _ _ _ H) as Hf.
        split; [by apply (Forall2_length (ent_ok (mem s))), Forall2_delete|].
        intros j b e Hj He. apply (ent_ok_unlink (mem s)).
        -- eapply Forall2_lookup_lr; [|exact Hj|exact He]. by apply Forall2_delete.
        -- intros i. apply (ents_occ _ _ _ _ _ _ _ _ i H). eapply (sublist_subseteq (delete k ents)); [apply sublist_delete|]. by eapply list_elem_of_lookup_2.
        -- intros i Hi Hc. exists pg', o'.
           apply (ents_disjoint _ _ _ _ _ _ _ _ _ i H); [|exact He'|exact Hc|by apply Hown].
           eapply (sublist_subseteq (delete k ents)); [apply sublist_delete|]. by eapply list_elem_of_lookup_2.
    + split; [|done]. rewrite upd_ne; [done|]. intros Heq.
      assert (Big b' pg' o' = Big bb pg o) as [= -> _ _].
      { apply (ents_disjoint _ _ _ _ _ _ _ _ _ bb H He'); [by eapply list_elem_of_lookup_2|apply Hown; lia|apply covers_cons; lia]. }
      lia.
Qed.

Lemma kfree_big s f h ents G held k b bb pg o :
  heap s f h ents G held [] -> held !! k = Some b -> ents !! k = Some (Big bb pg o) ->
  exists s' f' G', kfree (kb_ptr b) s = Ok s' /\ heap s' f' h (delete k ents) G' (delete k held) [].
Proof.
  intros H Hk He. destruct (Forall2_lookup_lr _ _ _ _ _ _ (hp_ents _ _ _ _ _ _ _ H) Hk He) as ((Hp & _ & Hf & Hpl & Har & Hm & _) & _).
  apply find_order_range in Hf as [Ho Hpos].
  assert (Hin : Big bb pg o ∈ ents) by (by eapply list_elem_of_lookup_2).
  destruct (find_bigblock_some _ _ _ _ _ _ _ _ _ _ H Hin) as (G1 & G2 & -> & Eb).
  assert (Hpg : (pg, Z.shiftl 1 o) ∈ h ++ (ents ≫= ent_pages)).
  { apply elem_of_app. right. apply list_elem_of_bind. exists (Big bb pg o). split; [left|done]. }
  destruct (ps_held _ _ _ _ (hp_ps _ _ _ _ _ _ _ H) Hpg) as (_ & Hlo & Hhi). pose proof ps_range as [Hlo0 Hhi0].
  destruct (heap_unlink _ _ _ _ _ _ _ _ _ _ _ H He) as (s1 & E1 & H1 & Hm1 & Hpg1). unfold unlink_big in E1.
  unfold kfree. rewrite Hp, (proj2 (Z.eqb_neq _ NULL)) by (unfold kva_of_page, NULL, KERNBASE, PGSIZE; lia).
  rewrite Eb. cbn [rbind]. 
  destruct (get_bnext bb s) as [n|] eqn:En; [|done]. cbn [rbind] in E1 |- *. rewrite E1. cbn [rbind].
  unfold get_order. rewrite load_Ok by (by destruct (placed_words _ _ Hpl)). cbn [rbind].
  rewrite Hm1, Hm, s32_id by (unfold is_s32; lia).
  unfold slob_free_pages. replace (page_of_kva (kva_of_page pg)) with pg by (unfold page_of_kva, kva_of_page, PGSIZE; mod_lia).
  rewrite (proj2 (Z.ltb_ge _ _)), (proj2 (Z.leb_gt _ _)) by (unfold kva_of_page, PGSIZE in *; lia). cbn [orb].
  destruct H1 as [Hf1 Hp1 Ho1 He1 Hb1 HG1].
  destruct (ps_free_ok _ _ _ _ Hp1) as (p' & Ep & Hp'). rewrite Ep. cbn [rbind].
  destruct (heap_free (mk_slob (mem s1) (slobfree s1) (bigblocks s1) p') f h (delete k ents) (G1 ++ G2) (delete k held) [] bb 16 sizeof_bigblock)
    as (s2 & f2 & E2 & H2); [|done|done|by right|exists s2, f2, (G1 ++ G2); by rewrite E2].
  split; [apply free_ring; by apply free_ring in Hf1|done| |done|done|done].
  intros i. specialize (Ho1 i). rewrite <- !app_comm_cons, fmap_cons in Ho1. cbn [app occ] in *. rewrite occ_app in *. cbn [occ app] in *. lia.
Qed.
End Heap.
