(* ===== verification/SlobSafe.v ===== *)
(** * [kmalloc] and [kfree] are safe

    Clients allocate, write into what they hold and free it, in any order.  The
    free list is never damaged by what they write, and no client loses what it
    wrote.  Behind [kmalloc] is [alloc_pages] of [PageTable] before [swap_init]
    has run: it answers NULL when there are not enough pages.  (Afterwards it
    faults in [swap_out] when a single page is asked for and none is left.) *)
From S2P Require Import Prelude Arith Blocks DefaultPmm PageTable Slob SlobList SlobHeap.

Inductive kop := KMalloc (n : Z) | KFree (k : nat) | KWrite (k : nat) (off v : Z).

Section Client.
  Context {P : Type} `{!PageSource P}.

Definition kstep (op : kop) (c : slob P * list kblock) : res (slob P * list kblock) :=
  let '(s, held) := c in
  match op with
  | KMalloc n =>
      let! (p, s) := kmalloc n s in
      Ok (s, if p =? NULL then held else mk_kblock p n ∅ :: held)
  | KFree k =>
      match held !! k with
      | Some b => let! s := kfree (kb_ptr b) s in Ok (s, delete k held)
      | None => Ok (s, held)
      end
  | KWrite k off v =>
      match held !! k with
      | Some b =>
          if word_in (kb_size b) off then
            let! s := store (kb_ptr b + off) v s in
            Ok (s, <[k := mk_kblock (kb_ptr b) (kb_size b) (<[off := v]> (kb_data b))]> held)
          else Ok (s, held)
      | None => Ok (s, held)
      end
  end.

Fixpoint krun (ops : list kop) (c : slob P * list kblock) : res (slob P * list kblock) :=
  match ops with
  | [] => Ok c
  | op :: ops => let! c := kstep op c in krun ops c
  end.
End Client.

(** What may be asked of [kmalloc]: nothing is not something, and the sizes
    from 4080 to 4087 fail the assertion of [slob_alloc]. *)
Definition kop_ok (op : kop) : Prop :=
  match op with
  | KMalloc n => 0 < n < two32 /\ ~ 4080 <= n < 4088
  | _ => True
  end.

Section Safe.
  Context {P : Type} `{HPS : PageSource P} {HPL : PageSourceLaws P}.
  Variable arena : Z.
  Hypothesis arena_placed : placed (arena, SLOB_UNIT).
  Hypothesis arena_below : arena + SLOB_UNIT < kva_of_page ps_lo.
  Implicit Types (s : slob P).

(** Where a client's block lies. *)
Lemma payload_placed s f h ents G held X b e :
  heap arena s f h ents G held X -> e ∈ ents -> ent_head arena (mem s) b e ->
  kb_ptr b mod 8 = 0 /\ KERNBASE <= kb_ptr b /\ kb_ptr b + capacity (kb_size b) <= KERNTOP.
Proof.
  intros H He Hh. destruct e as [a n|bb pg o]; simpl in Hh.
  - destruct Hh as (-> & ? & ? & Hp & _). rewrite capacity_small by lia. unfold placed in Hp. cbn [fst snd] in Hp.
    split; [mod_lia|lia].
  - destruct Hh as (-> & Hs & Hf & _). rewrite (capacity_big _ _ Hs Hf). apply find_order_range in Hf as [? Hpos].
    assert (Hin : (pg, Z.shiftl 1 o) ∈ h ++ (ents ≫= ent_pages)).
    { apply elem_of_app. right. apply list_elem_of_bind. exists (Big bb pg o). split; [left|done]. }
    destruct (page_placed arena arena_below _ _ _ _ (hp_ps _ _ _ _ _ _ _ _ H) Hin) as [Hp _].
    unfold placed, bytes in Hp. cbn [fst snd] in Hp. rewrite Z.shiftl_mul_pow2 in * by lia. unfold PAGE_SIZE.
    split; [tauto|]. split; [tauto|]. lia.
Qed.

Lemma payload_word s f h ents G held X b e off :
  heap arena s f h ents G held X -> e ∈ ents -> ent_head arena (mem s) b e -> word_in (kb_size b) off = true ->
  kernel_word (kb_ptr b + off) = true.
Proof.
  intros H He Hh Hw. destruct (payload_placed _ _ _ _ _ _ _ _ _ H He Hh) as (Hm & Hlo & Hhi).
  apply word_in_spec in Hw. unfold kernel_word. rewrite !andb_true_iff, Z.eqb_eq, Z.leb_le, Z.ltb_lt. mod_lia.
Qed.

(** A word of the payload is neither a header nor a node. *)
Lemma payload_not_head m b e i :
  ent_head arena m b e -> (forall j, occ j (ent_all e) <= 1) -> kb_ptr b <= i < kb_ptr b + capacity (kb_size b) ->
  (forall a n, e = Small a n -> a + 8 <= i) /\ (forall bb pg o, e = Big bb pg o -> ~ bb <= i < bb + 16).
Proof.
  intros Hh Ho Hi. destruct (payload_covered arena _ _ _ _ Hh Hi) as (_ & Hb & Hs). split; [done|].
  intros bb pg o -> Hr. pose proof (Hb _ _ _ eq_refl) as Hb'. clear Hb. specialize (Ho i). cbn [ent_all occ] in Ho.
  apply occ_covers in Hb'. cbn [occ] in Hb'. rewrite (proj2 (in_block_spec i bb 16) Hr) in Ho. lia.
Qed.

(** Two positions of the list of blocks held do not share a byte. *)
Lemma ents_index s f h ents G held X j k e e' i :
  heap arena s f h ents G held X -> ents !! j = Some e -> ents !! k = Some e' ->
  covers (ent_all e) i -> covers (ent_all e') i -> j = k.
Proof.
  intros H Hj Hk Hi Hi'. destruct (decide (j = k)) as [?|Hne]; [done|exfalso].
  pose proof (heap_own arena arena_below _ _ _ _ _ _ _ H i) as Ho. rewrite !occ_app in Ho.
  pose proof (occ_nonneg i f). pose proof (occ_nonneg i X).
  rewrite (occ_perm i _ _ (bind_Permutation ent_all _ _ (delete_Permutation _ _ _ Hj))) in Ho.
  rewrite bind_cons, occ_app in Ho. apply occ_covers in Hi.
  assert (Hin : e' ∈ delete j ents).
  { destruct (decide (k < j)%nat).
    - eapply list_elem_of_lookup_2. rewrite list_lookup_delete_lt; [exact Hk|done].
    - apply (list_elem_of_lookup_2 _ (k - 1)). rewrite list_lookup_delete_ge by lia. by replace (S (k - 1)) with k by lia. }
  pose proof (ents_cover _ _ _ Hin Hi') as Hc%occ_covers. lia.
Qed.

Lemma heap_write s f h ents G held k b off v :
  heap arena s f h ents G held [] -> held !! k = Some b -> word_in (kb_size b) off = true ->
  exists s', store (kb_ptr b + off) v s = Ok s' /\
    heap arena s' f h ents G (<[k := mk_kblock (kb_ptr b) (kb_size b) (<[off := v]> (kb_data b))]> held) [].
Proof.
  intros H Hk Hw. destruct (Forall2_lookup_l _ _ _ _ _ (hp_ents _ _ _ _ _ _ _ _ H) Hk) as (e & He & Hh & Hd).
  assert (Hin : e ∈ ents) by (by eapply list_elem_of_lookup_2).
  rewrite store_Ok by (by eapply payload_word). eexists. split; [done|].
  pose proof Hw as Hw'. apply word_in_spec in Hw'. set (x := kb_ptr b + off).
  assert (Hx : kb_ptr b <= x < kb_ptr b + capacity (kb_size b)) by (unfold x; lia).
  destruct (payload_covered arena _ _ _ _ Hh Hx) as (Hc & _ & _).
  assert (Hocc : forall j, occ j (ent_all e) <= 1) by (intros j; by eapply (ents_occ arena arena_below)).
  destruct (payload_not_head _ _ _ _ Hh Hocc Hx) as [Hsm Hbg].
  split; [|apply H|apply H| | |apply H].
  - apply free_upd; [apply H|]. intros Hf. destruct (heap_apart arena arena_below _ _ _ _ _ _ _ x H) as [Hx' _].
    apply (Hx' Hf). by eapply ents_cover.
  - apply Forall2_same_length_lookup. pose proof (hp_ents _ _ _ _ _ _ _ _ H) as Hf. split.
    { rewrite length_insert. by eapply Forall2_length. }
    intros j b' e' Hj He'. destruct (decide (j = k)) as [->|Hne].
    + rewrite He in He'. injection He' as <-. rewrite list_lookup_insert_eq in Hj by (by eapply lookup_lt_Some). injection Hj as <-.
      split.
      * destruct e as [a n|bb pg o]; simpl in *.
        -- specialize (Hsm _ _ eq_refl). rewrite (proj2 (Z.eqb_neq a x)) by lia. done.
        -- specialize (Hbg _ _ _ eq_refl). rewrite !(proj2 (Z.eqb_neq _ x)) by lia. done.
      * intros off' v' Hv. cbn [kb_data kb_size kb_ptr] in *. destruct (decide (off' = off)) as [->|Ho].
        -- rewrite lookup_insert_eq in Hv. injection Hv as <-. split; [done|]. apply upd_eq.
        -- rewrite lookup_insert_ne in Hv by done. destruct (Hd _ _ Hv) as [? ?]. split; [done|].
           rewrite upd_ne; [done|unfold x; lia].
    + rewrite list_lookup_insert_ne in Hj by done. eapply ent_ok_ext; [|by eapply Forall2_lookup_lr].
      intros i Hi. rewrite upd_ne; [done|]. intros ->. apply Hne. by eapply ents_index.
  - eapply bchain_ext; [|apply H]. intros b' Hb'. rewrite (hp_G _ _ _ _ _ _ _ _ H) in Hb'.
    apply (ents_big_elem arena arena_placed arena_below) in Hb' as (pg & o & He'). rewrite upd_ne; [done|]. intros Heq.
    assert (e = Big b' pg o) as ->.
    { apply (ents_disjoint arena arena_below _ _ _ _ _ _ _ _ _ x H Hin He' Hc). apply covers_cons. lia. }
    specialize (Hbg _ _ _ eq_refl). lia.
Qed.

(** ** Runs *)

(** The heap, whatever the free list and the bookkeeping. *)
Definition heap_ok s (held : list kblock) : Prop := exists f h ents G, heap arena s f h ents G held [].

Lemma kstep_Ok op s held :
  heap_ok s held -> kop_ok op -> exists s' held', kstep op (s, held) = Ok (s', held') /\ heap_ok s' held'.
Proof.
  intros (f & h & ents & G & H) Hop. destruct op as [n|k|k off v]; cbn [kstep].
  - destruct Hop as [Hn Hne].
    assert (exists p s', kmalloc n s = Ok (p, s') /\ kmalloc_post arena s' p n f h ents G held) as (p & s' & E & Hp).
    { destruct (Z.lt_ge_cases n 4080); [apply (kmalloc_small arena arena_placed arena_below); [done|lia]|].
      apply (kmalloc_big arena arena_placed arena_below); [done|lia]. }
    rewrite E. cbn [rbind]. eexists _, _. split; [done|].
    destruct Hp as [(-> & f' & h' & H')|(Hnz & f' & h' & e & H')].
    + rewrite Z.eqb_refl. by exists f', h', ents, G.
    + rewrite (proj2 (Z.eqb_neq _ _) Hnz). by eexists f', h', _, _.
  - destruct (held !! k) as [b|] eqn:Hk; [|by exists s, held; split; [|exists f, h, ents, G]].
    destruct (Forall2_lookup_l _ _ _ _ _ (hp_ents _ _ _ _ _ _ _ _ H) Hk) as ([a n|bb pg o] & He & _).
    + destruct (kfree_small arena arena_placed arena_below _ _ _ _ _ _ _ _ _ _ H Hk He) as (s' & f' & E & H').
      rewrite E. cbn [rbind]. eexists _, _. split; [done|]. by eexists f', h, _, _.
    + destruct (kfree_big arena arena_placed arena_below _ _ _ _ _ _ _ _ _ _ _ H Hk He) as (s' & f' & G' & E & H').
      rewrite E. cbn [rbind]. eexists _, _. split; [done|]. by eexists f', h, _, _.
  - destruct (held !! k) as [b|] eqn:Hk; [|by exists s, held; split; [|exists f, h, ents, G]].
    destruct (word_in (kb_size b) off) eqn:Hw; [|by exists s, held; split; [|exists f, h, ents, G]].
    destruct (heap_write _ _ _ _ _ _ _ _ _ v H Hk Hw) as (s' & E & H').
    rewrite E. cbn [rbind]. eexists _, _. split; [done|]. by exists f, h, ents, G.
Qed.

Lemma krun_Ok ops s held :
  heap_ok s held -> (forall op, op ∈ ops -> kop_ok op) ->
  exists s' held', krun ops (s, held) = Ok (s', held') /\ heap_ok s' held'.
Proof.
  revert s held. induction ops as [|op ops IH]; intros s held H Hops; cbn [krun]; [eauto|].
  destruct (kstep_Ok op s held H) as (s1 & held1 & E & H1); [apply Hops; left|].
  rewrite E. cbn [rbind]. apply IH; [done|]. intros. apply Hops. by right.
Qed.

Lemma boot_ok m p : ps_ok p [] -> heap_ok (slob_boot arena m p) [].
Proof.
  intros Hp. exists [(arena, SLOB_UNIT)], [], [], []. split; [|done| |constructor|done|done].
  - split; simpl; [eauto|split_and!; [lia|done|done]| |by constructor|left].
    rewrite Z.eqb_refl, Z.eqb_refl, (proj2 (Z.eqb_neq (arena + 4) arena)) by lia. done.
  - intros i. simpl. lia.
Qed.
End Safe.

(** ** The page allocator behind it *)

#[export] Instance alloc_source : PageSource machine := {
  ps_alloc := alloc_pages;
  ps_free := free_pages
}.

Section AllocSource.
  Variables np lo sz : Z.
  Hypothesis range : 0 <= lo /\ lo + sz <= np /\ np <= KMEMSIZE / PGSIZE.

(** [swap_init] has not run yet. *)
Definition alloc_ok (m : machine) (held : list block) : Prop :=
  swap_init_ok m = false /\ exists bs, client_inv np lo sz (pm m) held bs.

Lemma client_inv_perm p h h' bs : h ≡ₚ h' -> client_inv np lo sz p h bs -> client_inv np lo sz p h' bs.
Proof.
  intros HP [Hi Hf Hh Hp Ht Hfl]. split; try done.
  - intros i Hc. rewrite <- (occ_perm i _ _ HP). by apply Hf.
  - intros i Hc. rewrite <- (occ_perm i _ _ HP). by apply Hh.
  - intros b n Hin. rewrite <- HP in Hin. eauto.
  - by rewrite <- (total_perm _ _ HP).
Qed.

Lemma client_inv_occ p h bs i : client_inv np lo sz p h bs -> occ i h <= 1.
Proof.
  intros H. destruct (decide (covers bs i)) as [Hc|Hc].
  - destruct (cl_free _ _ _ _ _ _ H i Hc) as [_ ->]. lia.
  - rewrite (cl_held _ _ _ _ _ _ H i Hc). case_bool_decide; lia.
Qed.

Lemma client_inv_range p h bs b n : client_inv np lo sz p h bs -> (b, n) ∈ h -> 0 < n /\ lo <= b /\ b + n <= lo + sz.
Proof.
  intros H Hin. pose proof (cl_pos _ _ _ _ _ _ H _ _ Hin) as Hn.
  assert (Hr : forall i, b <= i < b + n -> lo <= i < lo + sz).
  { intros i Hi. pose proof (occ_in _ _ _ _ Hin Hi) as Ho. destruct (decide (covers bs i)) as [Hc|Hc].
    - by destruct (cl_free _ _ _ _ _ _ H i Hc).
    - rewrite (cl_held _ _ _ _ _ _ H i Hc) in Ho. case_bool_decide; [done|lia]. }
  pose proof (Hr b ltac:(lia)). pose proof (Hr (b + n - 1) ltac:(lia)). lia.
Qed.

Instance alloc_source_laws : PageSourceLaws machine.
Proof.
  refine {| ps_lo := lo; ps_hi := lo + sz; ps_ok := alloc_ok |}.
  - destruct range as (? & ? & ?). lia.
  - intros m h h' HP [Hs [bs H]]. split; [done|]. exists bs. by apply (client_inv_perm (pm m) h).
  - intros m h [_ [bs H]] i. by apply (client_inv_occ (pm m) h bs).
  - intros m h b n [_ [bs H]] Hin. by apply (client_inv_range (pm m) h bs).
  - intros m h n [Hs [bs H]] Hn. destruct (client_alloc np lo sz (pm m) h bs n H Hn) as (p' & h' & bs' & E & H').
    cbn [client_step] in E. change (ps_alloc n m) with (alloc_pages n m). unfold alloc_pages.
    destruct (default_alloc_pages n (pm m)) as [[r p1]|] eqn:Ea; [|done]. cbn [rbind] in *. injection E as -> <-.
    rewrite Hs, andb_false_r. destruct r as [b|]; (eexists _, _; split; [reflexivity|]; split; [exact Hs|by exists bs']).
  - intros m h b n [Hs [bs H]]. destruct (client_free np lo sz (pm m) ((b, n) :: h) bs 0 H) as (p' & h' & bs' & E & H'); [lia..|].
    cbn [client_step lookup list_lookup] in E. change (ps_free b n m) with (free_pages b n m). unfold free_pages.
    destruct (default_free_pages b n (pm m)) as [p1|] eqn:Ea; [|done]. cbn [rbind] in *. injection E as <- <-.
    eexists. split; [reflexivity|]. split; [exact Hs|by exists bs'].
Defined.
End AllocSource.

(** ** Properties *)

(** C7: any sequence of [kmalloc] of 1 to 4079 or of 4088 bytes and more,
    [kfree] of blocks held, and word writes of clients inside the blocks they
    hold runs without fault or failing assertion, a request that cannot be met
    being answered with NULL.  At the end every word still holds what its client
    last wrote there, the blocks held are aligned, inside the kernel's memory
    and disjoint from each other and from the free list, the free list is sorted
    with nothing left unmerged, and when nothing is held everything is free
    again.  Clients write inside the [capacity n] bytes that the code gives,
    which for [n] from 8193 on can be fewer than the [n] asked for.  The page allocator satisfies [PageSourceLaws]: it never faults, as
    [alloc_pages] before [swap_init] has run. *)
Theorem kmalloc_safe (P : Type) (HPS : PageSource P) (HPL : PageSourceLaws P) (arena : Z) (m : Z -> Z) (p : P) (ops : list kop) :
  placed (arena, SLOB_UNIT) -> arena + SLOB_UNIT < kva_of_page ps_lo -> ps_ok p [] ->
  (forall op, op ∈ ops -> kop_ok op) ->
  exists s held f h, krun ops (slob_boot arena m p, []) = Ok (s, held) /\
    (forall b off v, b ∈ held -> kb_data b !! off = Some v -> mem s (kb_ptr b + off) = v) /\
    (forall b, b ∈ held -> kb_ptr b mod 8 = 0 /\ KERNBASE <= kb_ptr b /\ kb_ptr b + capacity (kb_size b) <= KERNTOP) /\
    (forall j k b b' i, held !! j = Some b -> held !! k = Some b' ->
       kb_ptr b <= i < kb_ptr b + capacity (kb_size b) -> kb_ptr b' <= i < kb_ptr b' + capacity (kb_size b') -> j = k) /\
    (forall b i, b ∈ held -> kb_ptr b <= i < kb_ptr b + capacity (kb_size b) -> ~ covers f i) /\
    free_ok arena s f /\ ps_ok (pages_of s) h /\
    (held = [] -> forall i, covers f i <-> arena <= i < arena + SLOB_UNIT \/ covers (bytes <$> h) i).
Proof.
  intros Hap Hab Hp Hops.
  destruct (krun_Ok arena Hap Hab ops (slob_boot arena m p) []) as (s & held & E & f & h & ents & G & H); [by apply boot_ok|done|].
  exists s, held, f, (h ++ (ents ≫= ent_pages)). split; [exact E|].
  assert (Hent : forall b, b ∈ held -> exists e, e ∈ ents /\ ent_ok arena (mem s) b e).
  { intros b (k & Hk)%list_elem_of_lookup. destruct (Forall2_lookup_l _ _ _ _ _ (hp_ents _ _ _ _ _ _ _ _ H) Hk) as (e & He & Hok).
    exists e. split; [by eapply list_elem_of_lookup_2|done]. }
  split; [|split; [|split; [|split; [|split; [|split]]]]].
  - intros b off v (e & _ & _ & Hd)%Hent Hv. by destruct (Hd _ _ Hv).
  - intros b (e & He & Hh & _)%Hent. by eapply payload_placed.
  - intros j k b b' i Hj Hk Hi Hi'.
    destruct (Forall2_lookup_l _ _ _ _ _ (hp_ents _ _ _ _ _ _ _ _ H) Hj) as (e & He & Hh & _).
    destruct (Forall2_lookup_l _ _ _ _ _ (hp_ents _ _ _ _ _ _ _ _ H) Hk) as (e' & He' & Hh' & _).
    eapply (ents_index arena Hab); [exact H|exact He|exact He'|by eapply payload_covered..].
  - intros b i (e & He & Hh & _)%Hent Hi Hf. destruct (heap_apart arena Hab _ _ _ _ _ _ _ i H) as [Hx _].
    apply (Hx Hf). eapply ents_cover; [exact He|]. by eapply payload_covered.
  - apply H.
  - apply H.
  - intros -> i. pose proof (hp_ents _ _ _ _ _ _ _ _ H) as Hn%Forall2_nil_inv_l. subst ents. split.
    + intros Hi. eapply (heap_within arena); [exact H|by left].
    + pose proof (hp_occ _ _ _ _ _ _ _ _ H i) as Ho. rewrite !app_nil_r in Ho. cbn [mbind list_bind] in *. rewrite !app_nil_r in *.
      rewrite <- in_block_spec, <- !occ_covers. cbn [occ] in Ho. pose proof (occ_nonneg i (bytes <$> h)).
      destruct (in_block i (arena, SLOB_UNIT)); [lia|intros [?|?]; [done|lia]].
Qed.

(** Thirty-two pages, sixteen of them given to the allocator; [arena] lies
    below. *)
Definition sample_pmm : pmm :=
  match (let! st := default_init (boot_state 32) in default_init_memmap 16 16 st) with
  | Ok st => st
  | Err _ => boot_state 32
  end.
Definition sample_pages : machine := mk_machine 32 sample_pmm (fun _ _ => 0) None (mk_tlb [] [] 0 [] 0) false ∅.
Definition sample_arena : Z := KERNBASE + 0x1000.

Lemma sample_range : 0 <= 16 /\ 16 + 16 <= 32 /\ 32 <= KMEMSIZE / PGSIZE.
Proof. done. Qed.

Definition sample_laws : PageSourceLaws machine := alloc_source_laws 32 16 16 sample_range.

Lemma sample_ok : alloc_ok 32 16 16 sample_pages [].
Proof.
  destruct (client_init 32 (boot_state 32) 16 16) as (st1 & st2 & E1 & E2 & H);
    [apply (boot_state_ok 32)|reflexivity|lia|lia|lia|].
  split; [done|]. cbn [pm sample_pages]. unfold sample_pmm. rewrite E1. cbn [rbind]. rewrite E2. by eexists.
Qed.

(** A small block is written, a big one allocated and freed around it. *)
Definition sample_ops : list kop :=
  [KMalloc 100; KWrite 0 96 7; KMalloc 5000; KWrite 0 4092 8; KMalloc 20; KFree 1; KMalloc 4000].

Lemma kmalloc_safe_witness :
  exists s held f h, krun sample_ops (slob_boot sample_arena (fun _ => 0) sample_pages, []) = Ok (s, held) /\
    (forall b off v, b ∈ held -> kb_data b !! off = Some v -> mem s (kb_ptr b + off) = v) /\
    (forall b, b ∈ held -> kb_ptr b mod 8 = 0 /\ KERNBASE <= kb_ptr b /\ kb_ptr b + capacity (kb_size b) <= KERNTOP) /\
    (forall j k b b' i, held !! j = Some b -> held !! k = Some b' ->
       kb_ptr b <= i < kb_ptr b + capacity (kb_size b) -> kb_ptr b' <= i < kb_ptr b' + capacity (kb_size b') -> j = k) /\
    (forall b i, b ∈ held -> kb_ptr b <= i < kb_ptr b + capacity (kb_size b) -> ~ covers f i) /\
    free_ok sample_arena s f /\ alloc_ok 32 16 16 (pages_of s) h /\
    (held = [] -> forall i, covers f i <-> sample_arena <= i < sample_arena + SLOB_UNIT \/ covers (bytes <$> h) i).
Proof.
  apply (kmalloc_safe machine alloc_source sample_laws sample_arena (fun _ => 0) sample_pages sample_ops).
  - by vm_compute.
  - by vm_compute.
  - exact sample_ok.
  - intros op Hop. unfold sample_ops in Hop. rewrite !elem_of_cons, elem_of_nil in Hop. unfold kop_ok, two32. naive_solver lia.
Defined.

(** On this machine the three requests succeed. *)
Example sample_run :
  match krun sample_ops (slob_boot sample_arena (fun _ => 0) sample_pages, []) with
  | Ok (s, held) => (fun b => (kb_ptr b - KERNBASE, kb_size b, map_to_list (kb_data b))) <$> held
  | Err _ => []
  end = [(0x100A8, 4000, []); (0x10088, 20, []); (0x10008, 100, [(96, 7)])].
Proof. vm_compute. reflexivity. Qed.

(** ** What the code does with the other sizes *)

(** [kmalloc] of 4080 to 4087 bytes fails the assertion of [slob_alloc]: the
    header is added before the test that adds it again. *)
Theorem kmalloc_gap {P} `{!PageSource P} (s : slob P) n : 4080 <= n < 4088 -> kmalloc n s = Err AssertFail.
Proof.
  intros Hn. unfold kmalloc, slob_alloc, PAGE_SIZE, SLOB_UNIT, PGSIZE. rewrite (proj2 (Z.ltb_lt n _)) by lia.
  rewrite !u32_id by (unfold is_u32, two32; rewrite ?u32_id; unfold is_u32, two32; lia).
  by rewrite (proj2 (Z.ltb_ge (n + 8 + 8) 4096)) by lia.
Qed.

(** [find_order] rounds down: one byte more than two pages gets two pages. *)
Theorem kmalloc_rounds_down : capacity 8193 = 8192.
Proof. by vm_compute. Qed.

(** A loop whose body leaves the state as it was. *)
Lemma loop_stuck {S R} (body : S -> res (S + R)) st : body st = Ok (inl st) -> loop body st = Err OutOfFuel.
Proof.
  intros E. assert (Hr : forall n, rounds n body st = Ok (inl st)) by (induction n as [|n IH]; simpl; [done|by rewrite E]).
  unfold loop. by rewrite loop_pos_rounds, Hr.
Qed.

(** [kmalloc(0)] may hand out the static [arena], which is a free block of one
    unit; [kfree] of that pointer then searches for ever. *)
Theorem kmalloc_zero_hangs (m : Z -> Z) (p : machine) :
  exists s, kmalloc 0 (slob_boot sample_arena m p) = Ok (sample_arena + 8, s) /\
    kfree (sample_arena + 8) s = Err OutOfFuel.
Proof.
  eexists. split.
  - unfold kmalloc. change (0 <? PAGE_SIZE - SLOB_UNIT) with true. cbn match. unfold slob_alloc.
    change (u32 (u32 (0 + SLOB_UNIT) + SLOB_UNIT) <? PAGE_SIZE) with true. cbn [rassert rbind].
    rewrite (get_next_block _ SLOB_UNIT) by by vm_compute. cbn [rbind].
    erewrite (loop_rounds 1); [|by vm_compute|done]. cbn [rbind]. reflexivity.
  - unfold kfree. change (sample_arena + 8 =? NULL) with false. cbn match.
    unfold find_bigblock. change (page_aligned (sample_arena + 8)) with false. cbn [rbind].
    unfold slob_free. change (slob_plus (sample_arena + 8) (-1) =? NULL) with false. cbn [negb Z.eqb rbind].
    by rewrite loop_stuck by (vm_compute; reflexivity).
Qed.
